(* ===== verification/_CoqProject ===== *)
-Q . S2P
Prelude.v
RingBuf.v
Stream.v
StreamProof.v
Buddy.v
BuddyProof.v
PagePool.v
Heap.v
HeapProof.v
RingHeap.v
AppSwitch.v
AppManager.v
Standby.v
StandbyProof.v
UiRegion.v
Nvram.v
Property.v
PropertyProof.v
NvramConfig.v
NvramLog.v
NvramProof.v
NvramStore.v
PropertyStore.v
Rtc.v
Alarm.v
AlarmProof.v
Keypad.v
KeypadProof.v
Tts.v
TtsProof.v
Mailbox.v
MailboxProof.v
Aps.v
ApsProof.v
Audiolcy.v
AudiolcyProof.v
Charger.v
ChargerProof.v
ChargerVolt.v
