(* ===== verification/Prelude.v ===== *)
(** * Verification of the Actions earphone firmware framework

    The repository is the firmware of a Bluetooth earphone: a Zephyr kernel
    with the drivers of the chip, a framework in C (framework/) that gives the
    applications memory, settings, messages and media, and the earphone
    application (application/bt_earphone).  This library models the parts of
    the framework that every other part stands on and proves what they
    promise.  C integers are [Z] with every wrap-around written out, memory is
    a function from addresses to bytes, and what the C code would do outside
    of its arrays is an error value, so that its absence is a theorem.

    ** The parts and where they are

    - Ring buffer, framework/base/utils/acts_ringbuf: [RingBuf].  One queue
      buffer with a head and a tail that count bytes, read and written by
      copies, by claimed ranges and through stream callbacks.
    - Streams, framework/base/utils/stream: [Stream] is the interface stream.c
      (life cycle, observers, attached streams, blocking modes) with its
      tables of operations and three of the implementations, those on ring
      buffers, on plain buffers and the zero stream; handles are pointers into
      a store, so that freed and shared streams are visible.  [StreamProof] is
      proved on top of [RingBuf].
    - Memory, framework/base/memory: [Buddy] and [BuddyProof] are the buddy
      allocator of one 2048-byte page (rom_buddy.c), [PagePool] the pool of
      pages and its index-linked free list (page.c, rom_page.c, page_init.c),
      [Heap] and [HeapProof] the heap on top of both (malloc.c, free.c,
      mem_page.c, mem_manager.c).  [RingHeap] has the functions that allocate
      and free ring buffers on this heap.
    - Settings, framework/base/property and zephyr/drivers/nvram: [Nvram] is
      the interface (a type class) between the two; [Property] and
      [PropertyProof] are the write-back cache and the typed accessors proved
      against the interface; [NvramConfig] is nvram_config.c with the NOR
      build of nvram_storage.c, [NvramLog], [NvramProof] and [NvramStore] its
      proofs, which end in an instance of the interface; [PropertyStore] puts
      both together.
    - Applications, framework/system/app_switcher.c and framework/base/core:
      [AppSwitch] is the switcher, proved against the type class [AppManager];
      the file AppManager models app_manager.c, srv_manager.c and the list of
      receivers of msg_manager.c and gives the instance.
    - Wake locks and standby, framework/system: [Standby] is sys_wakelock.c,
      sys_standby.c and sys_monitor.c as functions on one state that may fail,
      with the request of deep sleep (policy_sleep.c) that the idle thread
      takes up later; what applications, other threads and interrupts do while
      the handler waits and at the places where it may be preempted is an
      argument.
      [StandbyProof] has the theorems.
    - Screen regions, framework/display/ui_region.c: [UiRegion].
    - Clock and alarms, zephyr/drivers/rtc and framework/system/alarm_manager:
      [Rtc] has the calendar of rtc_lib.c and the registers of rtc_acts.c,
      [Alarm] the alarm manager on top of it with the 8 Hz alarm, [AlarmProof]
      its theorems.
    - Keypad, framework/system/input/input_keypad.c: [Keypad] is the scan
      callback and its three delayed works, [KeypadProof] the theorems over
      executions that interleave samples and works.
    - Messages, zephyr/framework/osal/os_wrapper.c, msg_manager.c and the
      asynchronous half of zephyr/kernel/mailbox.c: [Mailbox], with the pool
      of buffers and descriptors that senders and receivers share;
      [MailboxProof] relates it to the lists of [AppManager].
    - Voice prompts and tones, framework/system/tts/tts_manager.c: [Tts], with
      the times in which its mutexes are given up and the messages that are
      not accepted; [TtsProof].
    - Playback speed, framework/audio/audio_aps.c and audio_tws_aps_snoop.c:
      [Aps] is the monitor that keeps the buffered time by the level of the
      audio PLL, alone and with a second earphone; [ApsProof].
    - Latency, framework/audio/audiolcy: [Audiolcy] has the latency modes, the
      control block of a playback, the adaptive mode and the interpolation of
      lost packets; it reads the monitor of [Aps] through its environment.
      [AudiolcyProof] has the theorems.
    - Battery charger, zephyr/drivers/power_supply/battery_internal/cuckoo:
      [Charger] is the driver (bat_charge_driver.c, bat_charge_ctrl.c and
      bat_charge_status.c) as functions on its context, whose fields are
      grouped into records; what the ADC, the plug and the clock give is an
      argument of each work of the timer.  [ChargerProof] has the theorems on
      the state machine, over runs of works and calls, [ChargerVolt] those on
      the voltage, the plug and the start.

    [Prelude], this file, has the fixed-width integers, the error codes, byte
    memory with [memcpy] and [memset], the tactics and the lemmas shared by
    all.

    ** What is shown

    - Ring buffer: any sequence of calls behaves as a bounded FIFO queue
      (refinement, by a simulation); the claim/finish pairs, the callbacks,
      the copy between buffers and the defragmentation keep that queue; the
      two cases where the code breaks it are theorems as well.
    - Streams: a ring buffer stream used through the interface refines a
      bounded queue; an attached stream receives what is written; what a
      buffer stream is given is read back; calls out of order are refused.
      Stale reads, dangling attached streams and a lost allocation failure
      are theorems about what the code does wrong.
    - Memory: the abstract state is a finite map of live blocks.  Each layer
      keeps an invariant that relates its packed data to the map, allocation
      and release add and remove exactly one entry, blocks never overlap,
      a ring buffer on the heap is an empty queue in blocks of its own, and
      when no block is live every page is back in the pool.  Allocation
      panics only if no page is left.
    - Settings: the cache over any store that satisfies the interface refines
      a map from names to values, on the names that are not prefixes of each
      other and as long as memory is not refused; the store implements the interface: a set
      is read back, compaction keeps the map, and a restart from the flash
      finds the same map; together, what was flushed survives a restart.
      Power failures at two points are shown to lose data, and names such as
      BT_CF and BT_CFO_VAL to be taken for each other.
    - Applications: the switcher's loop ends when an application is plugged
      and then finds the first one on the way, and does not end otherwise; a
      name reaches exactly the thread running under it; both together never
      follow a NULL pointer.
    - Wake locks and standby: the locks refine counters of holders with the
      time of the last release; in every reachable state deep sleep was
      requested only after a check that found no lock, the chip slept once for
      each request, and the power-off message was sent at most once; with a
      current application and nobody interfering the machine does reach deep
      sleep and resumes what it suspended.  A lock taken after the request does
      not stop the sleep, and a suspend that is given up resumes nobody.
    - Regions: the operations on rectangles are those on sets of points.
    - Clock and alarms: the calendar agrees with counting days for every
      32-bit time and both directions invert each other; the alarm that is
      programmed is the next one to come, at most one is, and adding one keeps
      that.  An alarm at midnight hides the others.
    - Keypad: series of clicks, long presses and combinations of two keys are
      reported as they were made, in every execution; whatever happens when,
      counted clicks have a report pending.  The clock it measures with wraps
      after 72 minutes, with the consequences shown.
    - Messages: pool, descriptors and queues refine a mailbox of forty
      messages over sends, receives and time-outs; each thread gets its messages once, in order and unchanged,
      and never waits while there is one; a name leads to the thread that runs
      under it.  Cleaning the mailbox, documented to drop all messages, drops
      the first only and is a theorem of its own.
    - Voice prompts: while one thread at a time starts prompts and one tones,
      nothing that is open is lost, and no prompt is forgotten if besides the
      manager is unlocked, players open and main accepts messages; two threads,
      a late stop, a lock and a refused message are shown to break that.
    - Playback speed: with one earphone the level last written to the PLL is
      that of a relay with hysteresis, which comes back to the default level;
      with two, the master catches up with a full buffer within a bounded
      number of decisions while no alignment comes in between.  An alignment at the first or last level
      throws the level back, and a timer may fire on a cleared observer.
    - Latency: the adaptive latency stays within its limits over any commands,
      modes and packets (with thresholds below 233 ms), falls at most once per
      period of the timers after the quick phase, and is recommended from
      exactly the packets since the last time, up to 255 of them; a mode that is
      to be saved is the same after a restart.  A packet without frames makes
      the analysis divide by zero.
    - Battery charger: over any works and calls the charger is on only while
      it charges with the plug in; an overvoltage switches it off for ten
      minutes; charging ends after its time limit; the plug is debounced, and
      the voltage is that of the latest samples, kept from jumping; the init
      charge ends.  A battery that was full is charged again without a message.

    ** Bounds and fuel

    The page pool has POOL0_NUM = 8 pages, as in app.conf of the application;
    [buddys] has its 28 entries, of which eight pages can use at most eight.
    The tree of a page has eight levels ([levels]); every loop that walks it
    gets that many rounds.  A segment of the settings store is 0x1000 bytes,
    so at most 257 rounds ([seg_rounds]) visit all its items of at least 16
    bytes; the cache has its 20 items; decimal conversion needs ten digits.
    Loops of the code that may not end take the number of rounds as an
    argument, and the theorems say which number is enough or that none is.
    The mailbox has its forty messages of sixteen bytes.  Executions of the
    keypad, of the mailbox and of the prompts are relations or lists of
    events of any length; the functions with fuel that run the keypad's works
    serve the examples only, and reading a telephone number needs one round
    more than it has bytes.  The two loops that reduce a difference of sample
    counters get nine rounds, which is enough for any pair of 28-bit counters;
    the timers of the latency are three, as in the code, and the ring of times
    between packets has its 24 entries.  The init charge of the battery gets
    3601 rounds, one more than its limit of 3600; a round waits a second and,
    when it measures with the charger off, 200 ms more, so that all waits of
    the start are at most 4321201 ms; the selection
    sort has as many rounds as samples.

    ** What is not modelled

    The kernel but the mailbox, the drivers but the settings store, the clock
    and the battery charger (of which the charger box, the temperature sensor
    and fast charging are left out), the Bluetooth stack and managers, the
    codecs and DSP images (binary), the third-party display libraries (LVGL, FreeType), the media and OTA frameworks, the USB stack
    and the earphone application itself: they are outside of the layer this
    library verifies, and much of them is glue to hardware or to binary
    libraries.  Within the modelled files, logging, dumps to the console, the
    semaphores and interrupt locks around whole operations (an
    operation is atomic but where its file says that it is preempted or gives
    up its mutex) and build variants that the application does not select are left
    out. *)

From stdpp Require Import base list numbers strings gmap.
Open Scope Z_scope.

(** ** Fixed-width integers

    A C integer is a [Z]; the width of every assignment is written out with
    one of these functions (truncation for unsigned, two's complement for
    signed types). *)

Definition u8 (x : Z) : Z := x mod 2 ^ 8.
Definition s8 (x : Z) : Z := (x + 2 ^ 7) mod 2 ^ 8 - 2 ^ 7.
Definition u16 (x : Z) : Z := x mod 2 ^ 16.
Definition u32 (x : Z) : Z := x mod 2 ^ 32.
Definition s16 (x : Z) : Z := (x + 2 ^ 15) mod 2 ^ 16 - 2 ^ 15.
Definition s32 (x : Z) : Z := (x + 2 ^ 31) mod 2 ^ 32 - 2 ^ 31.

(** C truth values. *)
Definition truth (b : bool) : Z := if b then 1 else 0.

(** ** Error codes (zephyr/lib/libc/minimal/include/errno.h) *)

Definition EPERM : Z := 1.
Definition ENOENT : Z := 2.
Definition ESRCH : Z := 3.
Definition EIO : Z := 5.
Definition ENXIO : Z := 6.
Definition ENOEXEC : Z := 8.
Definition ENOMEM : Z := 12.
Definition EACCES : Z := 13.
Definition EFAULT : Z := 14.
Definition EBUSY : Z := 16.
Definition EEXIST : Z := 17.
Definition EINVAL : Z := 22.
Definition ETIMEDOUT : Z := 116.
Definition EMSGSIZE : Z := 122.

(** ** Byte-addressed memory

    A pointer is its 32-bit address; [NULL] is 0.  [memcpy] is the forward
    byte copy of the minimal libc, so that it is also defined on the
    overlapping, downward copies the firmware makes. *)

Definition NULL : Z := 0.

Definition mem : Type := Z -> Z.

Definition mem_set (m : mem) (a v : Z) : mem :=
  fun x => if x =? a then v else m x.

Fixpoint memcpy_loop (n : nat) (m : mem) (dst src : Z) : mem :=
  match n with
  | O => m
  | S n' => memcpy_loop n' (mem_set m dst (m src)) (dst + 1) (src + 1)
  end.

Definition memcpy (m : mem) (dst src n : Z) : mem :=
  memcpy_loop (Z.to_nat n) m dst src.

Definition memset (m : mem) (dst c n : Z) : mem :=
  fun x => if (dst <=? x) && (x <? dst + n) then u8 c else m x.

(** The [n] bytes at address [a]. *)
Definition load (m : mem) (a n : Z) : list Z :=
  (fun i => m (a + i)) <$> seqZ 0 n.

(** Storing a list of bytes at address [a]. *)
Definition store (m : mem) (a : Z) (l : list Z) : mem :=
  fun x => if (a <=? x) && (x <? a + Z.of_nat (length l))
           then nth (Z.to_nat (x - a)) l 0 else m x.

(** ** Tactics *)

(** Boolean comparisons to propositions. *)
Ltac reflect_bools :=
  repeat match goal with
  | H : context [Z.ltb ?a ?b] |- _ => destruct (Z.ltb_spec a b); try discriminate H
  | H : context [Z.leb ?a ?b] |- _ => destruct (Z.leb_spec a b); try discriminate H
  | H : context [Z.eqb ?a ?b] |- _ => destruct (Z.eqb_spec a b); try discriminate H
  | H : context [Z.gtb ?a ?b] |- _ => rewrite (Z.gtb_ltb a b) in H
  | H : context [Z.geb ?a ?b] |- _ => rewrite (Z.geb_leb a b) in H
  | |- context [Z.ltb ?a ?b] => destruct (Z.ltb_spec a b)
  | |- context [Z.leb ?a ?b] => destruct (Z.leb_spec a b)
  | |- context [Z.eqb ?a ?b] => destruct (Z.eqb_spec a b)
  | |- context [Z.gtb ?a ?b] => rewrite (Z.gtb_ltb a b)
  | |- context [Z.geb ?a ?b] => rewrite (Z.geb_leb a b)
  end.

(** Linear arithmetic in the presence of the wrap-around functions. *)
Ltac wrap_lia :=
  unfold u8, u16, u32, s8, s16, s32 in *;
  Z.div_mod_to_equations; lia.

Create HintDb acts discriminated.
Create Rewrite HintDb wrap.

(** ** Wrap-around lemmas *)

Lemma u32_small x : 0 <= x < 2 ^ 32 -> u32 x = x.
Proof. apply Z.mod_small. Qed.

Lemma u32_range x : 0 <= u32 x < 2 ^ 32.
Proof. apply Z.mod_pos_bound. lia. Qed.

Lemma u8_range x : 0 <= u8 x < 2 ^ 8.
Proof. apply Z.mod_pos_bound. lia. Qed.

Lemma u8_small x : 0 <= x < 2 ^ 8 -> u8 x = x.
Proof. apply Z.mod_small. Qed.

Lemma s32_small x : - 2 ^ 31 <= x < 2 ^ 31 -> s32 x = x.
Proof. intros H. unfold s32. rewrite Z.mod_small; lia. Qed.

Lemma s8_small x : -2 ^ 7 <= x < 2 ^ 7 -> s8 x = x.
Proof. intros. unfold s8. rewrite Z.mod_small; lia. Qed.

Lemma s16_small x : - 2 ^ 15 <= x < 2 ^ 15 -> s16 x = x.
Proof. intros H. unfold s16. rewrite Z.mod_small; lia. Qed.

Lemma u16_small x : 0 <= x < 2 ^ 16 -> u16 x = x.
Proof. apply Z.mod_small. Qed.

(** ** Packed bit fields *)

(** Or-ing a field above the bits of a smaller one is a sum. *)
Lemma lor_shiftl_add a n b : 0 <= n -> 0 <= b < 2 ^ n -> Z.lor (Z.shiftl a n) b = a * 2 ^ n + b.
Proof.
  intros Hn Hb. assert (Z.land (Z.shiftl a n) b = 0) as E.
  { apply Z.bits_inj'. intros i Hi. rewrite Z.land_spec, Z.bits_0.
    destruct (Z.ltb_spec i n); [rewrite Z.shiftl_spec_low by lia; reflexivity|].
    rewrite <- (Z.mod_small b (2 ^ n)), Z.mod_pow2_bits_high, andb_false_r by lia. reflexivity. }
  rewrite <- Z.lxor_lor by exact E. rewrite <- Z.add_nocarry_lxor by exact E. rewrite Z.shiftl_mul_pow2 by lia. reflexivity.
Qed.

(** Masking in place and shifting down reads the field of [w] bits at [k]. *)
Lemma field_read x k w : 0 <= k -> 0 <= w ->
  Z.shiftr (Z.land x (Z.shiftl (Z.ones w) k)) k = (x / 2 ^ k) mod 2 ^ w.
Proof.
  intros Hk Hw. rewrite Z.shiftr_land, Z.shiftr_shiftl_l, Z.sub_diag, Z.shiftl_0_r by lia.
  rewrite Z.land_ones, Z.shiftr_div_pow2 by lia. reflexivity.
Qed.

(** ** Lists indexed by [seqZ] *)

Lemma fmap_seqZ_shift {A} (f : Z -> A) (a n : Z) :
  f <$> seqZ a n = (fun i => f (a + i)) <$> seqZ 0 n.
Proof.
  apply list_eq. intros i. rewrite !list_lookup_fmap.
  destruct (decide (Z.of_nat i < n)) as [Hi|Hi].
  - rewrite (lookup_seqZ_lt a), (lookup_seqZ_lt 0) by lia. reflexivity.
  - rewrite (lookup_seqZ_ge a), (lookup_seqZ_ge 0) by lia. reflexivity.
Qed.

Lemma fmap_seqZ_ext {A} (f g : Z -> A) (n : Z) :
  (forall i, 0 <= i < n -> f i = g i) -> f <$> seqZ 0 n = g <$> seqZ 0 n.
Proof.
  intros H. apply list_fmap_ext. intros i x Hx.
  apply lookup_seqZ in Hx. apply H. lia.
Qed.

Lemma seqZ_split (a n k : Z) :
  0 <= k <= n -> seqZ a n = seqZ a k ++ seqZ (a + k) (n - k).
Proof. intros H. rewrite <- seqZ_app by lia. f_equal. lia. Qed.

(** A boolean check over a range, used by the proofs by evaluation. *)
Lemma forallb_seqZ (P : Z -> bool) (a n : Z) :
  forallb P (seqZ a n) = true -> forall i, a <= i < a + n -> P i = true.
Proof.
  intros H i Hi. rewrite forallb_forall in H. apply H.
  rewrite <- list_elem_of_In, elem_of_seqZ. lia.
Qed.

Lemma load_length m a n : length (load m a n) = Z.to_nat n.
Proof. unfold load. rewrite length_fmap, length_seqZ. reflexivity. Qed.

Lemma load_app m a n k :
  0 <= n -> 0 <= k -> load m a (n + k) = load m a n ++ load m (a + n) k.
Proof.
  intros Hn Hk. unfold load. rewrite seqZ_app by lia.
  rewrite fmap_app, (fmap_seqZ_shift _ (0 + n)). f_equal.
  apply fmap_seqZ_ext. intros i _. f_equal. lia.
Qed.

Lemma load_ext m m' a n :
  (forall x, a <= x < a + n -> m x = m' x) -> load m a n = load m' a n.
Proof. intros H. apply fmap_seqZ_ext. intros i Hi. apply H. lia. Qed.

Lemma load_lookup m a n i :
  (Z.of_nat i < n) -> load m a n !! i = Some (m (a + Z.of_nat i)).
Proof.
  intros H. unfold load. rewrite list_lookup_fmap, lookup_seqZ_lt by lia.
  reflexivity.
Qed.

(** ** Memory copies *)

Lemma mem_set_eq m a v : mem_set m a v a = v.
Proof. unfold mem_set. rewrite Z.eqb_refl. reflexivity. Qed.

Lemma mem_set_ne m a v x : x <> a -> mem_set m a v x = m x.
Proof. intros H. unfold mem_set. apply Z.eqb_neq in H. rewrite H. reflexivity. Qed.

Lemma memcpy_loop_outside n : forall m dst src x,
  x < dst \/ dst + Z.of_nat n <= x -> memcpy_loop n m dst src x = m x.
Proof.
  induction n as [|n IH]; intros m dst src x H; simpl; [reflexivity|].
  rewrite IH by lia. apply mem_set_ne. lia.
Qed.

(** A forward copy moves the source bytes whenever the destination is not
    inside the part of the source that is still to be read. *)
Lemma memcpy_loop_inside n : forall m dst src x,
  dst <= src \/ src + Z.of_nat n <= dst ->
  dst <= x < dst + Z.of_nat n ->
  memcpy_loop n m dst src x = m (src + (x - dst)).
Proof.
  induction n as [|n IH]; intros m dst src x Hov Hx; simpl; [lia|].
  destruct (decide (x = dst)) as [->|Hne].
  - rewrite memcpy_loop_outside by lia. rewrite mem_set_eq. f_equal. lia.
  - rewrite IH by lia.
    replace (src + 1 + (x - (dst + 1))) with (src + (x - dst)) by lia.
    apply mem_set_ne. lia.
Qed.

Lemma memcpy_spec m dst src n x :
  0 <= n -> dst <= src \/ src + n <= dst ->
  memcpy m dst src n x =
    if (dst <=? x) && (x <? dst + n) then m (src + (x - dst)) else m x.
Proof.
  intros Hn Hov. unfold memcpy.
  destruct (Z.leb_spec dst x), (Z.ltb_spec x (dst + n)); simpl;
    try (apply memcpy_loop_outside; lia).
  apply memcpy_loop_inside; lia.
Qed.

Lemma memcpy_outside m dst src n x :
  x < dst \/ dst + n <= x -> memcpy m dst src n x = m x.
Proof.
  intros H. destruct (Z.le_gt_cases 0 n).
  - apply memcpy_loop_outside. lia.
  - unfold memcpy. replace (Z.to_nat n) with O by lia. reflexivity.
Qed.

Lemma memset_spec m dst c n x :
  memset m dst c n x = if (dst <=? x) && (x <? dst + n) then u8 c else m x.
Proof. reflexivity. Qed.

Lemma store_outside m a l x :
  x < a \/ a + Z.of_nat (length l) <= x -> store m a l x = m x.
Proof.
  intros H. unfold store.
  destruct (Z.leb_spec a x), (Z.ltb_spec x (a + Z.of_nat (length l)));
    simpl; [lia|reflexivity..].
Qed.

Lemma load_store m a l : load (store m a l) a (Z.of_nat (length l)) = l.
Proof.
  apply list_eq. intros i.
  destruct (decide (i < length l)%nat) as [Hi|Hi].
  - rewrite load_lookup by lia. unfold store.
    rewrite (proj2 (Z.leb_le _ _)), (proj2 (Z.ltb_lt _ _)) by lia. simpl.
    destruct (lookup_lt_is_Some_2 l i Hi) as [v Hv]. rewrite Hv. f_equal.
    replace (Z.to_nat (a + Z.of_nat i - a)) with i by lia.
    apply nth_lookup_Some with (d := 0) in Hv. exact Hv.
  - rewrite !lookup_ge_None_2; [reflexivity| lia | rewrite load_length; lia].
Qed.

#[export] Hint Rewrite @load_length @length_fmap @length_seqZ @length_app
  @length_take @length_drop @length_insert @length_replicate : wrap.
#[export] Hint Resolve u32_range u8_range : acts.
