(* ===== verification/RingBuf.v ===== *)
(** * The ring buffer (framework/base/utils/acts_ringbuf/acts_ringbuf.c)

    [struct acts_ringbuf] is the record [acts_ringbuf]; every operation of the
    C file is a definition with the C name that takes the buffer and the
    byte-addressed memory and returns what the C function returns together
    with the changed buffer and memory.  Pointers are addresses, so the data
    area is the memory range [cpu_ptr, cpu_ptr + size).

    The abstract view is [contents]: the queue of bytes between head and tail.
    The theorems say that every operation acts on that queue as its header
    comment promises, for every size (power of two or not) and across the
    32-bit wrap of the running indices. *)

From stdpp Require Import base list numbers.
From S2P Require Import Prelude.
Open Scope Z_scope.

(** ** Data *)

Record acts_ringbuf : Type := mk_ringbuf {
  head : Z;
  tail : Z;
  size : Z;
  mask : Z;
  cpu_ptr : Z;
  dsp_ptr : Z;
  head_offset : Z;
  tail_offset : Z
}.

(** [ACTS_RINGBUF_ELEMSZ] is 1. *)
Definition ACTS_RINGBUF_ELEMSZ : Z := 1.
Definition ACTS_RINGBUF_NELEM (size8 : Z) : Z := Z.quot size8 ACTS_RINGBUF_ELEMSZ.
Definition ACTS_RINGBUF_SIZE8 (n : Z) : Z := u32 (n * ACTS_RINGBUF_ELEMSZ).

Definition is_power_of_two (x : Z) : bool :=
  negb (x =? 0) && (Z.land x (u32 (x - 1)) =? 0).

(** Address translation between the two cores (soc_dsp.h). *)
Definition CODE_ADDR : Z := 1.
Definition DATA_ADDR : Z := 0.

Definition mcu_to_dsp_address (mcu_addr addr_type : Z) : Z :=
  let within base sz := (base <=? mcu_addr) && (mcu_addr <=? base + sz) in
  if Z.land mcu_addr 0xffffff00 =? 0x64722300 then mcu_addr
  else if within 0x1140000 0x1FFF && (addr_type =? CODE_ADDR)
  then 0 + (mcu_addr - 0x1140000) / 2
  else if within 0x1100000 0xFFFF && (addr_type =? DATA_ADDR)
  then 0 + (mcu_addr - 0x1100000) / 2
  else if within 0x1040000 0x33FFF
  then 0x40000000 + (mcu_addr - 0x1040000) / 2
  else if within 0x1080000 0x7FFF
  then 0x40060000 + (mcu_addr - 0x1080000) / 2
  else 0.

Definition mcu_to_dsp_data_address (mcu_addr : Z) : Z :=
  mcu_to_dsp_address mcu_addr DATA_ADDR.

(** ** Queries *)

Definition acts_ringbuf_size (b : acts_ringbuf) : Z := size b.
Definition acts_ringbuf_length (b : acts_ringbuf) : Z := u32 (tail b - head b).
Definition acts_ringbuf_space (b : acts_ringbuf) : Z :=
  u32 (size b - u32 (tail b - head b)).
Definition acts_ringbuf_is_empty (b : acts_ringbuf) : bool := head b =? tail b.
Definition acts_ringbuf_is_full (b : acts_ringbuf) : bool :=
  size b =? u32 (tail b - head b).
Definition acts_ringbuf_is_half_empty (b : acts_ringbuf) : bool :=
  u32 (tail b - head b) <=? Z.shiftr (size b) 1.
Definition acts_ringbuf_is_half_full (b : acts_ringbuf) : bool :=
  Z.shiftr (size b) 1 <=? u32 (tail b - head b).

(** ** Updates of the two indices

    Every consuming operation ends with the same four lines on [head] and
    [head_offset], every producing one with those on [tail]. *)

Definition wrap_offset (sz off : Z) : Z := if sz <=? off then u32 (off - sz) else off.

Definition advance_head (b : acts_ringbuf) (n : Z) : acts_ringbuf :=
  mk_ringbuf (u32 (head b + n)) (tail b) (size b) (mask b) (cpu_ptr b) (dsp_ptr b)
    (wrap_offset (size b) (u32 (head_offset b + n))) (tail_offset b).

Definition advance_tail (b : acts_ringbuf) (n : Z) : acts_ringbuf :=
  mk_ringbuf (head b) (u32 (tail b + n)) (size b) (mask b) (cpu_ptr b) (dsp_ptr b)
    (head_offset b) (wrap_offset (size b) (u32 (tail_offset b + n))).

(** ** Operations *)

Definition acts_ringbuf_init (data sz : Z) : acts_ringbuf :=
  mk_ringbuf 0 0 sz (if is_power_of_two sz then u32 (sz - 1) else 0)
    data (mcu_to_dsp_data_address data) 0 0.

Definition acts_ringbuf_reset (b : acts_ringbuf) : acts_ringbuf :=
  mk_ringbuf 0 0 (size b) (mask b) (cpu_ptr b) (dsp_ptr b) 0 0.

Definition acts_ringbuf_peek (b : acts_ringbuf) (m : mem) (data sz : Z) : Z * mem :=
  let len := acts_ringbuf_length b in
  if sz >? len then (0, m) else
  let offset := head_offset b in
  let len := u32 (size b - offset) in
  let m' :=
    if data =? NULL then m
    else if len >=? sz
    then memcpy m data (u32 (cpu_ptr b + ACTS_RINGBUF_SIZE8 offset)) (ACTS_RINGBUF_SIZE8 sz)
    else
      let m1 := memcpy m data (u32 (cpu_ptr b + ACTS_RINGBUF_SIZE8 offset))
                  (ACTS_RINGBUF_SIZE8 len) in
      memcpy m1 (u32 (data + ACTS_RINGBUF_SIZE8 len)) (cpu_ptr b)
        (ACTS_RINGBUF_SIZE8 (u32 (sz - len))) in
  (sz, m').

Definition acts_ringbuf_get (b : acts_ringbuf) (m : mem) (data sz : Z)
    : Z * acts_ringbuf * mem :=
  let (sz, m) := acts_ringbuf_peek b m data sz in
  (sz, advance_head b sz, m).

Definition acts_ringbuf_get_claim (b : acts_ringbuf) (sz : Z) : Z * Z :=
  let offset := head_offset b in
  let max_size := Z.min (u32 (size b - offset)) (acts_ringbuf_length b) in
  (if sz <=? max_size then sz else max_size,
   u32 (cpu_ptr b + ACTS_RINGBUF_SIZE8 offset)).

Definition acts_ringbuf_get_finish (b : acts_ringbuf) (sz : Z) : Z * acts_ringbuf :=
  let offset := head_offset b in
  let max_size := Z.min (u32 (size b - offset)) (acts_ringbuf_length b) in
  if sz >? max_size then (- EINVAL, b) else (0, advance_head b sz).

Definition acts_ringbuf_put (b : acts_ringbuf) (m : mem) (data sz : Z)
    : Z * acts_ringbuf * mem :=
  let len := acts_ringbuf_space b in
  if sz >? len then (0, b, m) else
  let offset := tail_offset b in
  let len := u32 (size b - offset) in
  let m' :=
    if data =? NULL then m
    else if len >=? sz
    then memcpy m (u32 (cpu_ptr b + ACTS_RINGBUF_SIZE8 offset)) data (ACTS_RINGBUF_SIZE8 sz)
    else
      let m1 := memcpy m (u32 (cpu_ptr b + ACTS_RINGBUF_SIZE8 offset)) data
                  (ACTS_RINGBUF_SIZE8 len) in
      memcpy m1 (cpu_ptr b) (u32 (data + ACTS_RINGBUF_SIZE8 len))
        (ACTS_RINGBUF_SIZE8 (u32 (sz - len))) in
  (sz, advance_tail b sz, m').

Definition acts_ringbuf_put_claim (b : acts_ringbuf) (sz : Z) : Z * Z :=
  let offset := tail_offset b in
  let max_size := Z.min (u32 (size b - offset)) (acts_ringbuf_space b) in
  (if sz <=? max_size then sz else max_size,
   u32 (cpu_ptr b + ACTS_RINGBUF_SIZE8 offset)).

Definition acts_ringbuf_put_finish (b : acts_ringbuf) (sz : Z) : Z * acts_ringbuf :=
  let offset := tail_offset b in
  let max_size := Z.min (u32 (size b - offset)) (acts_ringbuf_space b) in
  if sz >? max_size then (- EINVAL, b) else (0, advance_tail b sz).

(** The [do ... while (1)] of [acts_ringbuf_copy]; [None] when the fuel runs
    out before the loop breaks. *)
Fixpoint copy_loop (fuel : nat) (dst_buf src_buf : acts_ringbuf) (m : mem)
    (src_offset dst_offset sz : Z) : option mem :=
  match fuel with
  | O => None
  | S fuel' =>
      let len := Z.min (u32 (size src_buf - src_offset)) (u32 (size dst_buf - dst_offset)) in
      let len := if len >? sz then sz else len in
      let m := memcpy m (u32 (cpu_ptr dst_buf + ACTS_RINGBUF_SIZE8 dst_offset))
                 (u32 (cpu_ptr src_buf + ACTS_RINGBUF_SIZE8 src_offset))
                 (ACTS_RINGBUF_SIZE8 len) in
      let sz := u32 (sz - len) in
      if sz =? 0 then Some m else
      let src_offset := u32 (src_offset + len) in
      let src_offset := if src_offset >=? size src_buf then 0 else src_offset in
      let dst_offset := u32 (dst_offset + len) in
      let dst_offset := if dst_offset >=? size dst_buf then 0 else dst_offset in
      copy_loop fuel' dst_buf src_buf m src_offset dst_offset sz
  end.

(** A transfer crosses the end of each buffer at most once, so three rounds
    are enough; see [acts_ringbuf_copy_ok]. *)
Definition copy_fuel : nat := 3.

Definition acts_ringbuf_copy (dst_buf src_buf : acts_ringbuf) (m : mem) (sz : Z)
    : option (Z * acts_ringbuf * acts_ringbuf * mem) :=
  let src_length := acts_ringbuf_length src_buf in
  let dst_space := acts_ringbuf_space dst_buf in
  let sz := if sz >? src_length then src_length else sz in
  let sz := if sz >? dst_space then dst_space else sz in
  if sz =? 0 then Some (0, dst_buf, src_buf, m) else
  match copy_loop copy_fuel dst_buf src_buf m (head_offset src_buf) (tail_offset dst_buf) sz with
  | None => None
  | Some m => Some (sz, advance_tail dst_buf sz, advance_head src_buf sz, m)
  end.

Section StreamCallbacks.
Context {St : Type}.
(** [acts_ringbuf_write_fn] and [acts_ringbuf_read_fn]: a callback gets the
    stream handle, an address and a byte count, and returns an [int]. *)
Variable stream_write : St -> mem -> Z -> Z -> Z * St.
Variable stream_read : St -> mem -> Z -> Z -> Z * mem * St.

(** The callback part of [acts_ringbuf_read]: the stored bytes are offered in
    one piece, or in two when they wrap around the end of the data area. *)
Definition read_pieces (b : acts_ringbuf) (m : mem) (stream : St) (sz : Z) : Z * St :=
  let offset := head_offset b in
  let len := u32 (size b - offset) in
  if len >=? sz
  then stream_write stream m (u32 (cpu_ptr b + ACTS_RINGBUF_SIZE8 offset))
         (ACTS_RINGBUF_SIZE8 sz)
  else
    let '(stream_len, stream) :=
      stream_write stream m (u32 (cpu_ptr b + ACTS_RINGBUF_SIZE8 offset))
        (ACTS_RINGBUF_SIZE8 len) in
    if u32 stream_len =? ACTS_RINGBUF_SIZE8 len then
      let '(r, stream) :=
        stream_write stream m (cpu_ptr b) (ACTS_RINGBUF_SIZE8 (u32 (sz - len))) in
      let tmp := u32 r in
      (if tmp >? 0 then s32 (u32 stream_len + tmp) else stream_len, stream)
    else (stream_len, stream).

Definition acts_ringbuf_read (b : acts_ringbuf) (m : mem) (stream : St) (sz : Z)
    : Z * acts_ringbuf * St :=
  let len := acts_ringbuf_length b in
  if sz >? len then (0, b, stream) else
  let '(stream_len, stream) := read_pieces b m stream sz in
  if stream_len >? 0 then
    let stream_len := ACTS_RINGBUF_NELEM stream_len in
    (stream_len, advance_head b stream_len, stream)
  else (0, b, stream).

(** The callback part of [acts_ringbuf_write]. *)
Definition write_pieces (b : acts_ringbuf) (m : mem) (stream : St) (sz : Z)
    : Z * mem * St :=
  let offset := tail_offset b in
  let len := u32 (size b - offset) in
  if len >=? sz
  then stream_read stream m (u32 (cpu_ptr b + ACTS_RINGBUF_SIZE8 offset))
         (ACTS_RINGBUF_SIZE8 sz)
  else
    let '(stream_len, m, stream) :=
      stream_read stream m (u32 (cpu_ptr b + ACTS_RINGBUF_SIZE8 offset))
        (ACTS_RINGBUF_SIZE8 len) in
    if u32 stream_len =? ACTS_RINGBUF_SIZE8 len then
      let '(r, m, stream) :=
        stream_read stream m (cpu_ptr b) (ACTS_RINGBUF_SIZE8 (u32 (sz - len))) in
      let tmp := u32 r in
      (if tmp >? 0 then s32 (u32 stream_len + tmp) else stream_len, m, stream)
    else (stream_len, m, stream).

Definition acts_ringbuf_write (b : acts_ringbuf) (m : mem) (stream : St) (sz : Z)
    : Z * acts_ringbuf * mem * St :=
  let len := acts_ringbuf_space b in
  if sz >? len then (0, b, m, stream) else
  let '(stream_len, m, stream) := write_pieces b m stream sz in
  if stream_len >? 0 then
    let stream_len := ACTS_RINGBUF_NELEM stream_len in
    (stream_len, advance_tail b stream_len, m, stream)
  else (0, b, m, stream).
End StreamCallbacks.

Definition acts_ringbuf_drop (b : acts_ringbuf) (sz : Z) : Z * acts_ringbuf :=
  let length := acts_ringbuf_length b in
  if sz >? length then (0, b) else (sz, advance_head b sz).

Definition acts_ringbuf_drop_all (b : acts_ringbuf) : Z * acts_ringbuf :=
  let length := acts_ringbuf_length b in
  (length, advance_head b length).

Definition acts_ringbuf_fill (b : acts_ringbuf) (m : mem) (c sz : Z)
    : Z * acts_ringbuf * mem :=
  let len := acts_ringbuf_space b in
  if sz >? len then (0, b, m) else
  let offset := tail_offset b in
  let len := u32 (size b - offset) in
  let m' :=
    if len >=? sz
    then memset m (u32 (cpu_ptr b + ACTS_RINGBUF_SIZE8 offset)) c (ACTS_RINGBUF_SIZE8 sz)
    else
      let m1 := memset m (u32 (cpu_ptr b + ACTS_RINGBUF_SIZE8 offset)) c
                  (ACTS_RINGBUF_SIZE8 len) in
      memset m1 (cpu_ptr b) c (ACTS_RINGBUF_SIZE8 (u32 (sz - len))) in
  (sz, advance_tail b sz, m').

Definition acts_ringbuf_fill_none (b : acts_ringbuf) (sz : Z) : Z * acts_ringbuf :=
  let space := acts_ringbuf_space b in
  if sz >? space then (0, b) else (sz, advance_tail b sz).

Definition acts_ringbuf_head_ptr (b : acts_ringbuf) : Z * Z :=
  acts_ringbuf_get_claim b (acts_ringbuf_length b).

Definition acts_ringbuf_tail_ptr (b : acts_ringbuf) : Z * Z :=
  acts_ringbuf_put_claim b (acts_ringbuf_space b).

(** The code after the label [out_exit]. *)
Definition defrag_out_exit (b : acts_ringbuf) : acts_ringbuf :=
  let tail' := u32 (tail b - head b) in
  mk_ringbuf 0 tail' (size b) (mask b) (cpu_ptr b) (dsp_ptr b) 0 tail'.

Definition acts_ringbuf_defrag (b : acts_ringbuf) (m : mem) : acts_ringbuf * mem :=
  if (head_offset b =? 0) || acts_ringbuf_is_empty b then (defrag_out_exit b, m)
  else if head_offset b >=? tail_offset b then
    (mk_ringbuf (head_offset b) (u32 (tail_offset b + size b)) (size b) (mask b)
       (cpu_ptr b) (dsp_ptr b) (head_offset b) (tail_offset b), m)
  else
    let roff := ACTS_RINGBUF_SIZE8 (head_offset b) in
    let woff := ACTS_RINGBUF_SIZE8 (tail_offset b) in
    (defrag_out_exit b,
     memcpy m (cpu_ptr b) (u32 (cpu_ptr b + roff)) (u32 (woff - roff))).

(** ** Invariant and abstract view *)

Record wf (b : acts_ringbuf) : Prop := {
  wf_size : 0 < size b <= 2 ^ 31;
  wf_head : 0 <= head b < 2 ^ 32;
  wf_tail : 0 <= tail b < 2 ^ 32;
  wf_length : acts_ringbuf_length b <= size b;
  wf_head_offset : 0 <= head_offset b < size b;
  wf_tail_offset : tail_offset b = (head_offset b + acts_ringbuf_length b) mod size b;
  wf_area : 0 <= cpu_ptr b /\ cpu_ptr b + size b <= 2 ^ 32
}.

(** The address of the [i]-th cell counted from offset [off]. *)
Definition cell (b : acts_ringbuf) (off i : Z) : Z :=
  cpu_ptr b + (off + i) mod size b.

(** The queue of bytes held by the buffer, oldest first. *)
Definition contents (m : mem) (b : acts_ringbuf) : list Z :=
  (fun i => m (cell b (head_offset b) i)) <$> seqZ 0 (acts_ringbuf_length b).

(** [n] bytes [g 0], [g 1], ... were written at offset [off], nothing else. *)
Definition ring_written (b : acts_ringbuf) (m m' : mem) (off n : Z) (g : Z -> Z) : Prop :=
  (forall i, 0 <= i < n -> m' (cell b off i) = g i) /\
  (forall x, (forall i, 0 <= i < n -> x <> cell b off i) -> m' x = m x).

(** An address range outside the data area. *)
Definition apart (b : acts_ringbuf) (a n : Z) : Prop :=
  0 <= a /\ a + n <= 2 ^ 32 /\ (a + n <= cpu_ptr b \/ cpu_ptr b + size b <= a).

(** ** Ring arithmetic *)

Lemma length_range b : 0 <= acts_ringbuf_length b.
Proof. apply u32_range. Qed.

Lemma space_eq b : wf b -> acts_ringbuf_space b = size b - acts_ringbuf_length b.
Proof.
  intros [Hs _ _ Hl _ _ _]. pose proof (length_range b).
  unfold acts_ringbuf_space. apply u32_small. unfold acts_ringbuf_length in *. lia.
Qed.

Lemma size8_eq n : 0 <= n < 2 ^ 32 -> ACTS_RINGBUF_SIZE8 n = n.
Proof.
  intros H. unfold ACTS_RINGBUF_SIZE8, ACTS_RINGBUF_ELEMSZ.
  rewrite Z.mul_1_r. apply u32_small, H.
Qed.

Lemma ring_index s off i :
  0 <= off < s -> 0 <= i <= s ->
  (off + i) mod s = if off + i <? s then off + i else off + i - s.
Proof.
  intros Ho Hi. destruct (Z.ltb_spec (off + i) s).
  - apply Z.mod_small. lia.
  - symmetry. apply Z.mod_unique with 1; lia.
Qed.

Lemma cell_eq b off i :
  0 <= off < size b -> 0 <= i <= size b ->
  cell b off i = cpu_ptr b + (if off + i <? size b then off + i else off + i - size b).
Proof. intros. unfold cell. rewrite ring_index by lia. reflexivity. Qed.

Lemma cell_in b off i : 0 < size b -> cpu_ptr b <= cell b off i < cpu_ptr b + size b.
Proof. intros H. unfold cell. pose proof (Z.mod_pos_bound (off + i) (size b)). lia. Qed.

Lemma cell_shift b off k i : 0 < size b ->
  cell b ((off + k) mod size b) i = cell b off (k + i).
Proof.
  intros H. unfold cell. rewrite Zplus_mod_idemp_l. f_equal. f_equal. lia.
Qed.

Lemma cell_inj b off i j :
  0 <= off < size b -> 0 <= i < size b -> 0 <= j < size b ->
  cell b off i = cell b off j -> i = j.
Proof.
  intros Ho Hi Hj. rewrite !cell_eq by lia.
  destruct (Z.ltb_spec (off + i) (size b)), (Z.ltb_spec (off + j) (size b)); lia.
Qed.

Lemma wrap_offset_eq s off n :
  0 < s <= 2 ^ 31 -> 0 <= off < s -> 0 <= n <= s ->
  wrap_offset s (u32 (off + n)) = (off + n) mod s.
Proof.
  intros Hs Ho Hn. rewrite (u32_small (off + n)), ring_index by lia.
  unfold wrap_offset. destruct (Z.ltb_spec (off + n) s), (Z.leb_spec s (off + n));
    try lia. apply u32_small. lia.
Qed.

Lemma tail_offset_range b : wf b -> 0 <= tail_offset b < size b.
Proof. intros H. rewrite (wf_tail_offset b H). apply Z.mod_pos_bound, (wf_size b H). Qed.

(** ** The two index updates *)

Lemma length_advance_tail b n :
  wf b -> 0 <= n <= acts_ringbuf_space b ->
  acts_ringbuf_length (advance_tail b n) = acts_ringbuf_length b + n.
Proof.
  intros H Hn. rewrite (space_eq b H) in Hn. destruct H.
  unfold acts_ringbuf_length in *. simpl. wrap_lia.
Qed.

Lemma length_advance_head b n :
  wf b -> 0 <= n <= acts_ringbuf_length b ->
  acts_ringbuf_length (advance_head b n) = acts_ringbuf_length b - n.
Proof.
  intros H Hn. destruct H. unfold acts_ringbuf_length in *. simpl. wrap_lia.
Qed.

Lemma advance_tail_wf b n :
  wf b -> 0 <= n <= acts_ringbuf_space b -> wf (advance_tail b n).
Proof.
  intros H Hn. pose proof (length_advance_tail b n H Hn) as Hlen.
  pose proof (tail_offset_range b H). rewrite (space_eq b H) in Hn.
  pose proof (length_range b). destruct H as [Hs ? ? ? ? Ht ?].
  split; try apply u32_range; try assumption.
  - rewrite Hlen. simpl. lia.
  - rewrite Hlen. simpl.
    rewrite wrap_offset_eq by lia.
    rewrite Ht, Zplus_mod_idemp_l. f_equal. lia.
Qed.

Lemma advance_head_wf b n :
  wf b -> 0 <= n <= acts_ringbuf_length b -> wf (advance_head b n).
Proof.
  intros H Hn. pose proof (length_advance_head b n H Hn) as Hlen.
  destruct H as [Hs ? ? ? ? Ht ?].
  split; try apply u32_range; try assumption.
  - rewrite Hlen. simpl. lia.
  - simpl. rewrite wrap_offset_eq by lia. apply Z.mod_pos_bound. lia.
  - rewrite Hlen. simpl. rewrite wrap_offset_eq by lia.
    rewrite Zplus_mod_idemp_l, Ht. f_equal. lia.
Qed.

Lemma contents_length m b : length (contents m b) = Z.to_nat (acts_ringbuf_length b).
Proof. unfold contents. autorewrite with wrap. reflexivity. Qed.

Lemma contents_advance_head m b n :
  wf b -> 0 <= n <= acts_ringbuf_length b ->
  contents m (advance_head b n) = drop (Z.to_nat n) (contents m b).
Proof.
  intros H Hn. unfold contents. rewrite (length_advance_head b n H Hn).
  rewrite (seqZ_split 0 (acts_ringbuf_length b) n) by lia.
  rewrite fmap_app, drop_app_length' by (autorewrite with wrap; lia).
  rewrite (fmap_seqZ_shift _ (0 + n)). apply fmap_seqZ_ext. intros i Hi.
  destruct H as [Hs ? ? ? ? ? ?]. simpl head_offset.
  rewrite wrap_offset_eq by lia. f_equal.
  change (cell (advance_head b n)) with (cell b). apply cell_shift. lia.
Qed.

(** Writing behind the tail appends to the queue, whatever happens to the
    rest of the free cells. *)
Lemma contents_append_free m m' b n g :
  wf b -> 0 <= n <= acts_ringbuf_space b ->
  (forall i, 0 <= i < n -> m' (cell b (tail_offset b) i) = g i) ->
  (forall x, (forall i, 0 <= i < acts_ringbuf_space b -> x <> cell b (tail_offset b) i) ->
    m' x = m x) ->
  contents m' (advance_tail b n) = contents m b ++ (g <$> seqZ 0 n).
Proof.
  intros H Hn Hw Hf. unfold contents. rewrite (length_advance_tail b n H Hn).
  rewrite (space_eq b H) in Hn, Hf. pose proof (length_range b).
  rewrite seqZ_app, fmap_app by lia. destruct H as [Hs ? ? ? ? Ht ?].
  f_equal.
  - apply fmap_seqZ_ext. intros i Hi. apply Hf. intros j Hj Heq.
    change (cell (advance_tail b n)) with (cell b) in Heq. simpl head_offset in Heq.
    rewrite Ht, cell_shift in Heq by lia. apply cell_inj in Heq; lia.
  - rewrite (fmap_seqZ_shift _ (0 + acts_ringbuf_length b)).
    apply fmap_seqZ_ext. intros i Hi. rewrite <- Hw by lia.
    rewrite Ht, cell_shift by lia. reflexivity.
Qed.

Lemma contents_append m m' b n g :
  wf b -> 0 <= n <= acts_ringbuf_space b ->
  ring_written b m m' (tail_offset b) n g ->
  contents m' (advance_tail b n) = contents m b ++ (g <$> seqZ 0 n).
Proof.
  intros H Hn [Hw Hf]. apply contents_append_free; auto.
  intros x Hx. apply Hf. intros i Hi. apply Hx. lia.
Qed.

(** Memory changes outside the data area do not change the queue. *)
Lemma contents_frame m m' b :
  0 < size b ->
  (forall x, cpu_ptr b <= x < cpu_ptr b + size b -> m' x = m x) ->
  contents m' b = contents m b.
Proof. intros Hs H. apply fmap_seqZ_ext. intros i _. apply H, cell_in, Hs. Qed.

#[export] Hint Resolve advance_tail_wf advance_head_wf length_range : acts.

(** ** Copies between the ring and linear memory *)

(** The cells from [off] on form at most two address ranges. *)
Lemma not_cell b off n x :
  0 <= off < size b -> 0 <= n <= size b ->
  (forall i, 0 <= i < n -> x <> cell b off i) ->
  (x < cpu_ptr b + off \/ cpu_ptr b + Z.min (off + n) (size b) <= x) /\
  (x < cpu_ptr b \/ cpu_ptr b + (off + n - size b) <= x).
Proof.
  intros Ho Hn H. split.
  - destruct (decide (cpu_ptr b + off <= x < cpu_ptr b + Z.min (off + n) (size b)));
      [|lia].
    exfalso. apply (H (x - cpu_ptr b - off)); [lia|].
    rewrite cell_eq by lia. reflect_bools; lia.
  - destruct (decide (cpu_ptr b <= x < cpu_ptr b + (off + n - size b))); [|lia].
    exfalso. apply (H (x - cpu_ptr b - off + size b)); [lia|].
    rewrite cell_eq by lia. reflect_bools; lia.
Qed.

(** Address computations that do not wrap. *)
Ltac plain_addresses :=
  rewrite ?size8_eq by (rewrite ?u32_small by lia; lia);
  rewrite ?u32_small by (rewrite ?u32_small by lia; lia).

(** The copy into the ring of [acts_ringbuf_put], in one or two pieces. *)
Lemma ring_memcpy b m data off n :
  wf b -> 0 <= off < size b -> 0 <= n <= size b -> apart b data n ->
  ring_written b m
    (if u32 (size b - off) >=? n
     then memcpy m (u32 (cpu_ptr b + ACTS_RINGBUF_SIZE8 off)) data (ACTS_RINGBUF_SIZE8 n)
     else memcpy
       (memcpy m (u32 (cpu_ptr b + ACTS_RINGBUF_SIZE8 off)) data
          (ACTS_RINGBUF_SIZE8 (u32 (size b - off))))
       (cpu_ptr b) (u32 (data + ACTS_RINGBUF_SIZE8 (u32 (size b - off))))
       (ACTS_RINGBUF_SIZE8 (u32 (n - u32 (size b - off)))))
    off n (fun i => m (data + i)).
Proof.
  intros [Hs _ _ _ _ _ Ha] Ho Hn (Hd0 & Hd1 & Hd2).
  rewrite (u32_small (size b - off)) by lia.
  destruct (size b - off >=? n) eqn:Hcase; reflect_bools; plain_addresses; split.
  - intros i Hi. rewrite cell_eq, memcpy_spec by lia.
    reflect_bools; simpl; try lia. f_equal. lia.
  - intros x Hx. apply not_cell in Hx; [|lia..].
    rewrite memcpy_outside by lia. reflexivity.
  - intros i Hi. rewrite cell_eq, !memcpy_spec by lia.
    reflect_bools; simpl; try lia; f_equal; lia.
  - intros x Hx. apply not_cell in Hx; [|lia..].
    rewrite !memcpy_outside by lia. reflexivity.
Qed.

Lemma ring_memset b m c off n :
  wf b -> 0 <= off < size b -> 0 <= n <= size b ->
  ring_written b m
    (if u32 (size b - off) >=? n
     then memset m (u32 (cpu_ptr b + ACTS_RINGBUF_SIZE8 off)) c (ACTS_RINGBUF_SIZE8 n)
     else memset
       (memset m (u32 (cpu_ptr b + ACTS_RINGBUF_SIZE8 off)) c
          (ACTS_RINGBUF_SIZE8 (u32 (size b - off))))
       (cpu_ptr b) c (ACTS_RINGBUF_SIZE8 (u32 (n - u32 (size b - off)))))
    off n (fun _ => u8 c).
Proof.
  intros [Hs _ _ _ _ _ Ha] Ho Hn.
  rewrite (u32_small (size b - off)) by lia.
  destruct (size b - off >=? n) eqn:Hcase; reflect_bools; plain_addresses; split.
  - intros i Hi. rewrite cell_eq, memset_spec by lia.
    reflect_bools; simpl; try lia; reflexivity.
  - intros x Hx. apply not_cell in Hx; [|lia..].
    rewrite memset_spec. reflect_bools; simpl; try lia; reflexivity.
  - intros i Hi. rewrite cell_eq, !memset_spec by lia.
    reflect_bools; simpl; try lia; reflexivity.
  - intros x Hx. apply not_cell in Hx; [|lia..].
    rewrite !memset_spec. reflect_bools; simpl; try lia; reflexivity.
Qed.

(** The copy out of the ring of [acts_ringbuf_peek]. *)
Lemma ring_copy_out b m data off n x :
  wf b -> 0 <= off < size b -> 0 <= n <= size b -> apart b data n ->
  (if u32 (size b - off) >=? n
   then memcpy m data (u32 (cpu_ptr b + ACTS_RINGBUF_SIZE8 off)) (ACTS_RINGBUF_SIZE8 n)
   else memcpy
     (memcpy m data (u32 (cpu_ptr b + ACTS_RINGBUF_SIZE8 off))
        (ACTS_RINGBUF_SIZE8 (u32 (size b - off))))
     (u32 (data + ACTS_RINGBUF_SIZE8 (u32 (size b - off)))) (cpu_ptr b)
     (ACTS_RINGBUF_SIZE8 (u32 (n - u32 (size b - off))))) x
  = if (data <=? x) && (x <? data + n) then m (cell b off (x - data)) else m x.
Proof.
  intros [Hs _ _ _ _ _ Ha] Ho Hn (Hd0 & Hd1 & Hd2).
  rewrite (u32_small (size b - off)) by lia.
  destruct (size b - off >=? n) eqn:Hcase; reflect_bools; plain_addresses;
    rewrite !memcpy_spec by lia; reflect_bools; simpl; try lia; try reflexivity;
    rewrite cell_eq by lia; reflect_bools; try lia; f_equal; lia.
Qed.

(** ** The single operations *)

Lemma apart_le b a n k : 0 <= k <= n -> apart b a n -> apart b a k.
Proof. unfold apart. lia. Qed.

Lemma peek_spec b m data n :
  wf b -> data <> NULL -> 0 <= n <= acts_ringbuf_length b -> apart b data n ->
  exists m', acts_ringbuf_peek b m data n = (n, m') /\
    load m' data n = take (Z.to_nat n) (contents m b) /\
    (forall x, x < data \/ data + n <= x -> m' x = m x).
Proof.
  intros H Hd Hn Hap. unfold acts_ringbuf_peek.
  rewrite Z.gtb_ltb, (proj2 (Z.ltb_ge _ _)), (proj2 (Z.eqb_neq _ _) Hd) by lia.
  pose proof (wf_length b H). pose proof (wf_head_offset b H).
  eexists; split; [reflexivity|]. split.
  - unfold contents. rewrite (seqZ_split 0 (acts_ringbuf_length b) n) by lia.
    rewrite fmap_app, take_app_length' by (autorewrite with wrap; lia).
    apply fmap_seqZ_ext. intros i Hi.
    rewrite (ring_copy_out b m data _ n) by (auto; lia).
    rewrite (proj2 (Z.leb_le _ _)), (proj2 (Z.ltb_lt _ _)) by lia. simpl.
    f_equal. f_equal. lia.
  - intros x Hx. rewrite (ring_copy_out b m data _ n) by (auto; lia).
    reflect_bools; simpl; try lia; reflexivity.
Qed.

Lemma peek_refused b m data n :
  acts_ringbuf_length b < n -> acts_ringbuf_peek b m data n = (0, m).
Proof.
  intros H. unfold acts_ringbuf_peek.
  rewrite Z.gtb_ltb, (proj2 (Z.ltb_lt _ _)) by lia. reflexivity.
Qed.

Lemma put_spec b m data n :
  wf b -> data <> NULL -> 0 <= n <= acts_ringbuf_space b -> apart b data n ->
  exists m', acts_ringbuf_put b m data n = (n, advance_tail b n, m') /\
    contents m' (advance_tail b n) = contents m b ++ load m data n /\
    (forall x, x < cpu_ptr b \/ cpu_ptr b + size b <= x -> m' x = m x).
Proof.
  intros H Hd Hn Hap. unfold acts_ringbuf_put.
  rewrite Z.gtb_ltb, (proj2 (Z.ltb_ge _ _)), (proj2 (Z.eqb_neq _ _) Hd) by lia.
  pose proof (tail_offset_range b H) as Ht. pose proof (space_eq b H).
  pose proof (length_range b).
  eexists; split; [reflexivity|].
  pose proof (ring_memcpy b m data (tail_offset b) n H Ht ltac:(lia) Hap) as Hw.
  split; [apply contents_append; assumption|].
  intros x Hx. apply Hw. intros i Hi ->.
  pose proof (cell_in b (tail_offset b) i). lia.
Qed.

Lemma fill_spec b m c n :
  wf b -> 0 <= n <= acts_ringbuf_space b ->
  exists m', acts_ringbuf_fill b m c n = (n, advance_tail b n, m') /\
    contents m' (advance_tail b n) = contents m b ++ replicate (Z.to_nat n) (u8 c) /\
    (forall x, x < cpu_ptr b \/ cpu_ptr b + size b <= x -> m' x = m x).
Proof.
  intros H Hn. unfold acts_ringbuf_fill.
  rewrite Z.gtb_ltb, (proj2 (Z.ltb_ge _ _)) by lia.
  pose proof (tail_offset_range b H) as Ht. pose proof (space_eq b H).
  pose proof (length_range b).
  eexists; split; [reflexivity|].
  pose proof (ring_memset b m c (tail_offset b) n H Ht ltac:(lia)) as Hw.
  split.
  - erewrite contents_append by eassumption. f_equal.
    rewrite const_fmap with (y := u8 c) by reflexivity.
    autorewrite with wrap. reflexivity.
  - intros x Hx. apply Hw. intros i Hi ->.
    pose proof (cell_in b (tail_offset b) i). lia.
Qed.

(** ** Refinement: any sequence of operations behaves as a bounded queue *)

Inductive rb_op : Type :=
  | OpPut (bytes : list Z)
  | OpFill (c n : Z)
  | OpPeek (n : Z)
  | OpGet (n : Z)
  | OpDrop (n : Z)
  | OpDropAll
  | OpReset.

(** What the caller sees: the returned count and the bytes delivered. *)
Definition rb_obs : Type := Z * list Z.

(** The abstract queue with capacity [cap]: all or nothing. *)
Definition queue_step (cap : Z) (op : rb_op) (q : list Z) : rb_obs * list Z :=
  let len := Z.of_nat (length q) in
  match op with
  | OpPut l =>
      if Z.of_nat (length l) <=? cap - len
      then ((Z.of_nat (length l), []), q ++ l) else ((0, []), q)
  | OpFill c n =>
      if n <=? cap - len
      then ((n, []), q ++ replicate (Z.to_nat n) (u8 c)) else ((0, []), q)
  | OpPeek n => if n <=? len then ((n, take (Z.to_nat n) q), q) else ((0, []), q)
  | OpGet n =>
      if n <=? len then ((n, take (Z.to_nat n) q), drop (Z.to_nat n) q) else ((0, []), q)
  | OpDrop n => if n <=? len then ((n, []), drop (Z.to_nat n) q) else ((0, []), q)
  | OpDropAll => ((len, []), [])
  | OpReset => ((0, []), [])
  end.

(** The same operation on the real buffer; the caller's bytes live at [user]. *)
Definition rb_step (user : Z) (op : rb_op) (s : acts_ringbuf * mem)
    : rb_obs * (acts_ringbuf * mem) :=
  let (b, m) := s in
  match op with
  | OpPut l =>
      let '(r, b, m) := acts_ringbuf_put b (store m user l) user (Z.of_nat (length l)) in
      ((r, []), (b, m))
  | OpFill c n => let '(r, b, m) := acts_ringbuf_fill b m c n in ((r, []), (b, m))
  | OpPeek n => let '(r, m) := acts_ringbuf_peek b m user n in ((r, load m user r), (b, m))
  | OpGet n =>
      let '(r, b, m) := acts_ringbuf_get b m user n in ((r, load m user r), (b, m))
  | OpDrop n => let '(r, b) := acts_ringbuf_drop b n in ((r, []), (b, m))
  | OpDropAll => let '(r, b) := acts_ringbuf_drop_all b in ((r, []), (b, m))
  | OpReset => ((0, []), (acts_ringbuf_reset b, m))
  end.

Fixpoint run {S : Type} (step : rb_op -> S -> rb_obs * S) (ops : list rb_op) (s : S)
    : list rb_obs * S :=
  match ops with
  | [] => ([], s)
  | op :: ops =>
      let '(o, s) := step op s in
      let '(os, s) := run step ops s in (o :: os, s)
  end.

(** The byte counts of an operation fit the caller's area of [usz] bytes. *)
Definition op_fits (usz : Z) (op : rb_op) : Prop :=
  match op with
  | OpPut l => Z.of_nat (length l) <= usz
  | OpFill _ n => 0 <= n < 2 ^ 32
  | OpPeek n | OpGet n => 0 <= n <= usz
  | OpDrop n => 0 <= n < 2 ^ 32
  | OpDropAll | OpReset => True
  end.

Lemma reset_wf b : wf b -> wf (acts_ringbuf_reset b).
Proof.
  intros []. split; simpl; try lia; [change (0 <= size b); lia|].
  symmetry. apply (Zmod_0_l (size b)).
Qed.

Lemma reset_contents m b : contents m (acts_ringbuf_reset b) = [].
Proof. reflexivity. Qed.

Lemma contents_lengthZ m b : Z.of_nat (length (contents m b)) = acts_ringbuf_length b.
Proof. rewrite contents_length. pose proof (length_range b). lia. Qed.

Section Refinement.
Context (user usz : Z).

(** Simulation relation between the buffer in memory and the abstract queue. *)
Definition simulates (cap : Z) (s : acts_ringbuf * mem) (q : list Z) : Prop :=
  wf s.1 /\ size s.1 = cap /\ apart s.1 user usz /\ contents s.2 s.1 = q.

Hypothesis user_ok : user <> NULL.

(** Closes the part of a simulation that only moves an index. *)
Ltac sim_close Hap :=
  refine (conj _ (conj eq_refl (conj Hap _))); cbn [fst snd];
  try solve [auto with acts | apply advance_tail_wf; auto; lia
            | apply advance_head_wf; auto; lia].

Lemma step_simulates cap op s q :
  op_fits usz op -> simulates cap s q ->
  (rb_step user op s).1 = (queue_step cap op q).1 /\
  simulates cap (rb_step user op s).2 (queue_step cap op q).2.
Proof.
  destruct s as [b m]. intros Hfit (Hwf & Hcap & Hap & Hq). simpl in Hwf, Hcap, Hap, Hq.
  subst cap. subst q. unfold rb_step, queue_step.
  pose proof (space_eq b Hwf) as Hsp. pose proof (length_range b) as Hl0.
  rewrite (contents_lengthZ m b).
  destruct op as [l|c n|n|n|n| |]; simpl in Hfit.
  - set (m0 := store m user l).
    assert (Hm0 : contents m0 b = contents m b).
    { apply contents_frame; [apply Hwf|]. intros x Hx. apply store_outside.
      destruct Hap. lia. }
    destruct (Z.leb_spec (Z.of_nat (length l)) (size b - acts_ringbuf_length b)).
    + destruct (put_spec b m0 user (Z.of_nat (length l))) as (m' & -> & Hc & _);
        [assumption..|lia|eapply apart_le; [|exact Hap]; lia|].
      split; [reflexivity|]. sim_close Hap.
      rewrite Hc, Hm0. f_equal. apply load_store.
    + unfold acts_ringbuf_put. rewrite Z.gtb_ltb, (proj2 (Z.ltb_lt _ _)) by lia.
      split; [reflexivity|]. sim_close Hap.
  - destruct (Z.leb_spec n (size b - acts_ringbuf_length b)).
    + destruct (fill_spec b m c n) as (m' & -> & Hc & _); [assumption|lia|].
      split; [reflexivity|]. sim_close Hap.
    + unfold acts_ringbuf_fill. rewrite Z.gtb_ltb, (proj2 (Z.ltb_lt _ _)) by lia.
      split; [reflexivity|]. sim_close Hap.
  - destruct (Z.leb_spec n (acts_ringbuf_length b)).
    + destruct (peek_spec b m user n) as (m' & -> & Hc & Hf);
        [assumption..|lia|eapply apart_le; [|exact Hap]; lia|].
      rewrite Hc. split; [reflexivity|]. sim_close Hap.
      apply contents_frame; [apply Hwf|]. intros x Hx. apply Hf. destruct Hap. lia.
    + rewrite peek_refused by lia. split; [reflexivity|]. sim_close Hap.
  - unfold acts_ringbuf_get. destruct (Z.leb_spec n (acts_ringbuf_length b)).
    + destruct (peek_spec b m user n) as (m' & -> & Hc & Hf);
        [assumption..|lia|eapply apart_le; [|exact Hap]; lia|].
      rewrite Hc. split; [reflexivity|]. sim_close Hap.
      rewrite contents_advance_head by (auto; lia). f_equal.
      apply contents_frame; [apply Hwf|]. intros x Hx. apply Hf. destruct Hap. lia.
    + rewrite peek_refused by lia. split; [reflexivity|]. sim_close Hap.
      rewrite contents_advance_head by (auto; lia). reflexivity.
  - unfold acts_ringbuf_drop. rewrite Z.gtb_ltb.
    destruct (Z.leb_spec n (acts_ringbuf_length b)), (Z.ltb_spec (acts_ringbuf_length b) n);
      try lia; (split; [reflexivity|]); sim_close Hap.
    rewrite contents_advance_head by (auto; lia). reflexivity.
  - unfold acts_ringbuf_drop_all. split; [reflexivity|]. sim_close Hap.
    rewrite contents_advance_head by (auto; lia).
    apply drop_ge. rewrite contents_length. lia.
  - split; [reflexivity|]. sim_close Hap. apply reset_wf, Hwf.
Qed.

Lemma run_simulates cap ops : forall s q,
  Forall (op_fits usz) ops -> simulates cap s q ->
  (run (rb_step user) ops s).1 = (run (queue_step cap) ops q).1 /\
  simulates cap (run (rb_step user) ops s).2 (run (queue_step cap) ops q).2.
Proof.
  induction ops as [|op ops IH]; intros s q Hf Hs; [split; [reflexivity|exact Hs]|].
  inversion Hf as [|? ? Hop Hops]; subst.
  destruct (step_simulates cap op s q Hop Hs) as [Ho Hs'].
  simpl. destruct (rb_step user op s) as [o s1], (queue_step cap op q) as [o' q1].
  simpl in Ho, Hs'. subst o'. destruct (IH s1 q1 Hops Hs') as [Hos Hs''].
  destruct (run (rb_step user) ops s1), (run (queue_step cap) ops q1).
  simpl in *. subst. split; [reflexivity|exact Hs''].
Qed.
End Refinement.

Lemma init_wf data sz :
  0 < sz <= 2 ^ 31 -> 0 <= data -> data + sz <= 2 ^ 32 -> wf (acts_ringbuf_init data sz).
Proof.
  intros. split; simpl; try lia; [change (0 <= sz); lia|].
  symmetry. apply (Zmod_0_l sz).
Qed.

(** C1: Every sequence of put, fill, peek, get, drop, drop_all and reset calls
    on a well-formed ring buffer (any size up to 2^31, any position of the
    running indices, so also across their 32-bit wrap) returns to the caller
    exactly what a bounded FIFO queue of the same capacity returns - counts
    and delivered bytes - and leaves the buffer well formed and holding
    exactly the bytes of that queue. *)
Theorem ringbuf_refines_queue (user usz : Z) (ops : list rb_op) (b : acts_ringbuf) (m : mem) :
  wf b -> user <> NULL -> apart b user usz -> Forall (op_fits usz) ops ->
  let '(obs, (b', m')) := run (rb_step user) ops (b, m) in
  let '(obs', q') := run (queue_step (size b)) ops (contents m b) in
  obs = obs' /\ contents m' b' = q' /\ wf b' /\ size b' = size b.
Proof.
  intros Hwf Hu Hap Hops.
  destruct (run_simulates user usz Hu (size b) ops (b, m) (contents m b) Hops) as [Ho Hs];
    [refine (conj Hwf (conj eq_refl (conj Hap eq_refl)))|].
  destruct (run (rb_step user) ops (b, m)) as [obs [b' m']].
  destruct (run (queue_step (size b)) ops (contents m b)) as [obs' q'].
  destruct Hs as (Hw & Hsz & _ & Hc). auto.
Qed.

(** ** Transfers between two buffers *)

(** Rounds the loop of [acts_ringbuf_copy] still needs. *)
Definition crossing (s off n : Z) : Z := if n >? s - off then 1 else 0.

Lemma crossing_step s off len n :
  0 <= off < s -> 0 < n <= s -> 0 < len <= n -> len <= s - off ->
  0 <= (if off + len >=? s then 0 else off + len) < s /\
  (n - len = 0 \/
   crossing s (if off + len >=? s then 0 else off + len) (n - len)
     = crossing s off n - (if len =? s - off then 1 else 0)).
Proof. intros. unfold crossing. reflect_bools; lia. Qed.

(** Two consecutive ring writes are one. *)
Lemma ring_written_app b m m1 m2 off k n g :
  0 <= off < size b -> 0 <= k <= n -> n <= size b ->
  ring_written b m m1 off k g ->
  ring_written b m1 m2 ((off + k) mod size b) (n - k) (fun i => g (k + i)) ->
  ring_written b m m2 off n g.
Proof.
  intros Ho Hk Hn [H1 F1] [H2 F2]. split.
  - intros i Hi. destruct (Z.lt_ge_cases i k).
    + rewrite F2; [apply H1; lia|]. intros j Hj. rewrite cell_shift by lia.
      intros Heq. apply cell_inj in Heq; lia.
    + specialize (H2 (i - k) ltac:(lia)). rewrite cell_shift in H2 by lia.
      replace (k + (i - k)) with i in H2 by lia. exact H2.
  - intros x Hx. rewrite F2; [apply F1|]; intros i Hi.
    + apply Hx. lia.
    + rewrite cell_shift by lia. apply Hx. lia.
Qed.

(** The data areas of two buffers do not overlap. *)
Definition disjoint_bufs (b1 b2 : acts_ringbuf) : Prop :=
  cpu_ptr b1 + size b1 <= cpu_ptr b2 \/ cpu_ptr b2 + size b2 <= cpu_ptr b1.

(** One round: a linear piece of the source goes to a linear piece of the
    destination. *)
Lemma copy_round d s m so do len :
  wf d -> wf s -> disjoint_bufs d s ->
  0 <= so < size s -> 0 <= do < size d ->
  0 <= len -> len <= size s - so -> len <= size d - do ->
  ring_written d m
    (memcpy m (u32 (cpu_ptr d + ACTS_RINGBUF_SIZE8 do))
       (u32 (cpu_ptr s + ACTS_RINGBUF_SIZE8 so)) (ACTS_RINGBUF_SIZE8 len))
    do len (fun i => m (cell s so i)).
Proof.
  intros [? _ _ _ _ _ ?] [? _ _ _ _ _ ?] Hdis Hso Hdo Hl Hls Hld.
  unfold disjoint_bufs in Hdis. plain_addresses. split.
  - intros i Hi. rewrite !cell_eq, memcpy_spec by lia.
    reflect_bools; simpl; try lia; f_equal; lia.
  - intros x Hx. apply not_cell in Hx; [|lia..]. apply memcpy_outside. lia.
Qed.

Lemma ring_next s off len :
  0 < s -> 0 <= off < s -> 0 <= len <= s - off ->
  (if off + len >=? s then 0 else off + len) = (off + len) mod s.
Proof. intros. rewrite ring_index by lia. reflect_bools; lia. Qed.

Lemma ring_written_ext b m m' off n g g' :
  (forall i, 0 <= i < n -> g i = g' i) ->
  ring_written b m m' off n g -> ring_written b m m' off n g'.
Proof. intros Hg [Hw Hf]. split; [|exact Hf]. intros i Hi. rewrite Hw, Hg; auto. Qed.

Lemma ring_written_source d s m m' do n g so i :
  0 < size d -> 0 < size s -> disjoint_bufs d s ->
  ring_written d m m' do n g -> m' (cell s so i) = m (cell s so i).
Proof.
  intros Hd Hs Hdis [_ Hf]. apply Hf. intros j _.
  pose proof (cell_in d do j Hd). pose proof (cell_in s so i Hs).
  unfold disjoint_bufs in Hdis. lia.
Qed.

(** The loop copies everything, and returns when its fuel covers the pieces. *)
Lemma copy_loop_spec d s fuel :
  wf d -> wf s -> disjoint_bufs d s -> forall m so do n,
  0 <= so < size s -> 0 <= do < size d -> 0 < n -> n <= size s -> n <= size d ->
  crossing (size s) so n + crossing (size d) do n < Z.of_nat fuel ->
  exists m', copy_loop fuel d s m so do n = Some m' /\
    ring_written d m m' do n (fun i => m (cell s so i)).
Proof.
  intros Hd Hs Hdis. induction fuel as [|fuel IH]; intros m so do n Hso Hdo Hn Hns Hnd Hf.
  { unfold crossing in Hf. destruct (n >? size s - so), (n >? size d - do); lia. }
  pose proof (wf_size d Hd). pose proof (wf_size s Hs). cbn [copy_loop].
  rewrite (u32_small (size s - so)), (u32_small (size d - do)) by lia.
  set (len := if _ >? n then n else _).
  assert (Hlen : 0 < len <= n /\ len <= size s - so /\ len <= size d - do /\
    (len = n \/ len = size s - so \/ len = size d - do)).
  { subst len. reflect_bools; lia. }
  clearbody len. rewrite (u32_small (n - len)) by lia.
  pose proof (copy_round d s m so do len Hd Hs Hdis Hso Hdo) as Hr.
  set (m1 := memcpy _ _ _ _) in *. clearbody m1.
  specialize (Hr ltac:(lia) ltac:(lia) ltac:(lia)).
  destruct (Z.eqb_spec (n - len) 0) as [Heq|Hne].
  { exists m1. split; [reflexivity|]. replace n with len by lia. exact Hr. }
  rewrite (u32_small (so + len)), (u32_small (do + len)) by lia.
  pose proof (crossing_step (size s) so len n) as Cs.
  pose proof (crossing_step (size d) do len n) as Cd.
  rewrite ring_next in Cs |- * by lia. rewrite ring_next in Cd |- * by lia.
  destruct (IH m1 ((so + len) mod size s) ((do + len) mod size d) (n - len))
    as (m' & -> & Hw); try lia.
  { destruct (Z.eqb_spec len (size s - so)), (Z.eqb_spec len (size d - do)); lia. }
  exists m'. split; [reflexivity|].
  apply ring_written_app with (m1 := m1) (k := len); [lia..|exact Hr|].
  eapply ring_written_ext; [|exact Hw]. intros i Hi. simpl.
  rewrite cell_shift by lia. eapply ring_written_source; [| |exact Hdis|exact Hr]; lia.
Qed.

(** [acts_ringbuf_copy] between two buffers whose data areas do not
    overlap always leaves its loop, moves
    min(size, bytes stored in the source, room in the destination) bytes in
    FIFO order, removes exactly those bytes from the source, and keeps both
    buffers well formed. *)
Theorem acts_ringbuf_copy_ok (d s : acts_ringbuf) (m : mem) (n : Z) :
  wf d -> wf s -> disjoint_bufs d s -> 0 <= n ->
  let k := Z.min n (Z.min (acts_ringbuf_length s) (acts_ringbuf_space d)) in
  exists d' s' m', acts_ringbuf_copy d s m n = Some (k, d', s', m') /\
    wf d' /\ wf s' /\
    contents m' d' = contents m d ++ take (Z.to_nat k) (contents m s) /\
    contents m' s' = drop (Z.to_nat k) (contents m s).
Proof.
  intros Hd Hs Hdis Hn k. unfold acts_ringbuf_copy.
  pose proof (length_range s). pose proof (length_range d).
  pose proof (space_eq d Hd). pose proof (wf_length d Hd). pose proof (wf_length s Hs).
  pose proof (wf_size d Hd). pose proof (wf_size s Hs).
  set (k' := if _ >? acts_ringbuf_space d then _ else _).
  replace k' with k by (subst k k'; reflect_bools; lia). clear k'.
  assert (Hk : 0 <= k <= acts_ringbuf_length s /\ k <= acts_ringbuf_space d) by lia.
  clearbody k. destruct (Z.eqb_spec k 0) as [->|Hk0].
  { exists d, s, m. repeat split; auto; try apply Hd; try apply Hs.
    rewrite take_0, app_nil_r. reflexivity. }
  destruct (copy_loop_spec d s copy_fuel Hd Hs Hdis m (head_offset s) (tail_offset d) k)
    as (m' & -> & Hw); try lia; try apply Hs; try apply (tail_offset_range d Hd).
  { unfold crossing, copy_fuel. destruct (k >? _), (k >? _); lia. }
  exists (advance_tail d k), (advance_head s k), m'.
  split; [reflexivity|].
  split; [apply advance_tail_wf; auto; lia|].
  split; [apply advance_head_wf; auto; lia|]. split.
  - erewrite contents_append by (eauto; lia). f_equal.
    unfold contents. rewrite (seqZ_split 0 (acts_ringbuf_length s) k) by lia.
    rewrite fmap_app, take_app_length' by (autorewrite with wrap; lia). reflexivity.
  - rewrite contents_advance_head by (auto; lia). f_equal.
    apply fmap_seqZ_ext. intros i _.
    eapply ring_written_source; [| |exact Hdis|exact Hw]; lia.
Qed.

(** ** In-place access: claim and finish *)

(** Storing a list in one piece behind [off]. *)
Lemma ring_store b m off l :
  wf b -> 0 <= off < size b -> Z.of_nat (length l) <= size b - off ->
  ring_written b m (store m (cpu_ptr b + off) l) off (Z.of_nat (length l))
    (fun i => nth (Z.to_nat i) l 0).
Proof.
  intros [? _ _ _ _ _ ?] Ho Hl. split.
  - intros i Hi. rewrite cell_eq by lia. unfold store.
    reflect_bools; simpl; try lia. f_equal. lia.
  - intros x Hx. apply not_cell in Hx; [|lia..]. apply store_outside. lia.
Qed.

Lemma fmap_nth_seqZ (l : list Z) :
  (fun i => nth (Z.to_nat i) l 0) <$> seqZ 0 (Z.of_nat (length l)) = l.
Proof.
  apply list_eq. intros i. rewrite list_lookup_fmap.
  destruct (decide (i < length l)%nat) as [Hi|Hi].
  - rewrite lookup_seqZ_lt by lia. simpl.
    destruct (lookup_lt_is_Some_2 l i Hi) as [v Hv]. rewrite Hv. f_equal.
    replace (Z.to_nat (0 + Z.of_nat i)) with i by lia.
    apply nth_lookup_Some with (d := 0) in Hv. exact Hv.
  - rewrite lookup_seqZ_ge, lookup_ge_None_2 by lia. reflexivity.
Qed.

(** [acts_ringbuf_put_claim] hands out a writable range [p, p+r) that lies
    inside the data area and holds no queued byte; whatever bytes the caller
    stores there, committing them with [acts_ringbuf_put_finish] appends
    exactly those bytes to the queue.  A claim is empty only when nothing was
    asked for or the buffer is full, and finishing with more than the
    contiguous room is refused with -EINVAL and changes nothing. *)
Theorem put_claim_finish_ok (b : acts_ringbuf) (m : mem) (n : Z) :
  wf b -> 0 <= n < 2 ^ 32 ->
  let '(r, p) := acts_ringbuf_put_claim b n in
  0 <= r <= n /\ r <= acts_ringbuf_space b /\
  cpu_ptr b <= p /\ p + r <= cpu_ptr b + size b /\
  (r = 0 -> n = 0 \/ acts_ringbuf_is_full b = true) /\
  (forall l, Z.of_nat (length l) <= r ->
    exists b', acts_ringbuf_put_finish b (Z.of_nat (length l)) = (0, b') /\ wf b' /\
      contents (store m p l) b' = contents m b ++ l) /\
  (r < n -> acts_ringbuf_put_finish b n = (- EINVAL, b)).
Proof.
  intros H Hn. pose proof (tail_offset_range b H) as Ht.
  pose proof (wf_size b H). pose proof (wf_area b H). pose proof (space_eq b H).
  pose proof (length_range b). pose proof (wf_length b H).
  unfold acts_ringbuf_put_claim, acts_ringbuf_put_finish. plain_addresses.
  set (mx := Z.min (size b - tail_offset b) (acts_ringbuf_space b)).
  set (r := if n <=? mx then n else mx).
  assert (Hr : 0 <= r <= n /\ r <= mx /\ (r = n \/ r = mx)) by (subst r; reflect_bools; lia).
  assert (Hrn : r < n -> mx < n) by (subst r; reflect_bools; lia). clearbody r.
  repeat match goal with |- _ /\ _ => split end; try lia.
  - intros ->. unfold acts_ringbuf_is_full. fold (acts_ringbuf_length b). lia.
  - intros l Hl. rewrite Z.gtb_ltb, (proj2 (Z.ltb_ge _ _)) by lia.
    eexists; split; [reflexivity|]. split; [apply advance_tail_wf; auto; lia|].
    erewrite contents_append; [|auto|lia|apply ring_store; auto; lia].
    f_equal. apply fmap_nth_seqZ.
  - intros Hlt. rewrite Z.gtb_ltb, (proj2 (Z.ltb_lt _ _)) by (apply Hrn; auto).
    reflexivity.
Qed.

(** [acts_ringbuf_get_claim] hands out a readable range [p, p+r) that
    holds exactly the [r] oldest queued bytes; finishing with [k <= r] bytes
    removes exactly the [k] oldest, finishing with more than the contiguous
    length is refused with -EINVAL and changes nothing. *)
Theorem get_claim_finish_ok (b : acts_ringbuf) (m : mem) (n : Z) :
  wf b -> 0 <= n < 2 ^ 32 ->
  let '(r, p) := acts_ringbuf_get_claim b n in
  0 <= r <= n /\ load m p r = take (Z.to_nat r) (contents m b) /\
  (r = 0 -> n = 0 \/ acts_ringbuf_is_empty b = true) /\
  (forall k, 0 <= k <= r ->
    exists b', acts_ringbuf_get_finish b k = (0, b') /\ wf b' /\
      contents m b' = drop (Z.to_nat k) (contents m b)) /\
  (r < n -> acts_ringbuf_get_finish b n = (- EINVAL, b)).
Proof.
  intros H Hn. pose proof (wf_head_offset b H) as Ho.
  pose proof (wf_size b H). pose proof (wf_area b H). pose proof (length_range b).
  unfold acts_ringbuf_get_claim, acts_ringbuf_get_finish. plain_addresses.
  set (mx := Z.min (size b - head_offset b) (acts_ringbuf_length b)).
  set (r := if n <=? mx then n else mx).
  assert (Hr : 0 <= r <= n /\ r <= mx /\ (r = n \/ r = mx)) by (subst r; reflect_bools; lia).
  assert (Hrn : r < n -> mx < n) by (subst r; reflect_bools; lia). clearbody r.
  repeat match goal with |- _ /\ _ => split end; try lia.
  - unfold contents. rewrite (seqZ_split 0 (acts_ringbuf_length b) r) by lia.
    rewrite fmap_app, take_app_length' by (autorewrite with wrap; lia).
    apply fmap_seqZ_ext. intros i Hi. rewrite cell_eq by lia.
    rewrite (proj2 (Z.ltb_lt _ _)) by lia. f_equal. lia.
  - intros ->. destruct (wf_head b H), (wf_tail b H).
    unfold acts_ringbuf_is_empty. rewrite Z.eqb_eq.
    assert (Hl : n = 0 \/ acts_ringbuf_length b = 0) by lia.
    unfold acts_ringbuf_length in Hl. wrap_lia.
  - intros k Hk. rewrite Z.gtb_ltb, (proj2 (Z.ltb_ge _ _)) by lia.
    eexists; split; [reflexivity|]. split; [apply advance_head_wf; auto; lia|].
    apply contents_advance_head; auto; lia.
  - intros Hlt. rewrite Z.gtb_ltb, (proj2 (Z.ltb_lt _ _)) by (apply Hrn; auto).
    reflexivity.
Qed.

(** ** Transfers through a stream callback *)

(** A linear piece of the ring, from the [k]-th queued byte on. *)
Lemma load_ring m b off k n :
  0 <= off < size b -> 0 <= k -> 0 <= n -> k + n <= size b ->
  off + k + n <= size b \/ size b <= off + k ->
  load m (cell b off k) n = (fun i => m (cell b off (k + i))) <$> seqZ 0 n.
Proof.
  intros. apply fmap_seqZ_ext. intros i Hi. rewrite !cell_eq by lia.
  f_equal. reflect_bools; lia.
Qed.

Lemma take_contents m b n : 0 <= n <= acts_ringbuf_length b ->
  take (Z.to_nat n) (contents m b)
  = (fun i => m (cell b (head_offset b) i)) <$> seqZ 0 n.
Proof.
  intros Hn. unfold contents. rewrite (seqZ_split 0 (acts_ringbuf_length b) n) by lia.
  rewrite fmap_app. apply take_app_length'. autorewrite with wrap. lia.
Qed.

Lemma take_load m a n k : 0 <= k <= n -> take (Z.to_nat k) (load m a n) = load m a k.
Proof.
  intros Hk. replace n with (k + (n - k)) by lia. rewrite load_app by lia.
  apply take_app_length'. autorewrite with wrap. reflexivity.
Qed.

(** The piece before and the piece after the wrap of the ring. *)
Lemma take_contents_split m b n k :
  wf b -> 0 <= n -> 0 <= k -> n + k <= acts_ringbuf_length b ->
  n = size b - head_offset b ->
  take (Z.to_nat (n + k)) (contents m b)
  = load m (cpu_ptr b + head_offset b) n ++ load m (cpu_ptr b) k.
Proof.
  intros H Hn Hk Hnk Heq. pose proof (wf_head_offset b H). pose proof (wf_length b H).
  rewrite take_contents, seqZ_app, fmap_app, (fmap_seqZ_shift _ (0 + n)) by lia.
  f_equal; apply fmap_seqZ_ext; intros i Hi; rewrite cell_eq by lia; f_equal;
    reflect_bools; lia.
Qed.

Section StreamTheorems.
Context {St : Type}.
Variable stream_write : St -> mem -> Z -> Z -> Z * St.
Variable stream_read : St -> mem -> Z -> Z -> Z * mem * St.

(** The bytes a stream has taken in (as the target of [acts_ringbuf_read]) or
    given out (as the source of [acts_ringbuf_write]). *)
Variable taken : St -> list Z.
Variable given : St -> list Z.

(** A write callback takes a prefix of the bytes offered and returns how many. *)
Definition write_fn_ok : Prop := forall st m a n,
  0 <= n ->
  let '(r, st') := stream_write st m a n in
  0 <= r <= n /\ taken st' = taken st ++ take (Z.to_nat r) (load m a n).

(** A read callback stores bytes in the range it is given, which wraps
    nowhere, and returns how many of them are data. *)
Definition read_fn_ok : Prop := forall st m a n,
  0 <= n ->
  let '(r, m', st') := stream_read st m a n in
  0 <= r <= n /\ given st' = given st ++ load m' a r /\
  (forall x, x < a \/ a + n <= x -> m' x = m x).

(** The code adds the second count to the first with 32-bit arithmetic. *)
Lemma pieces_sum r r2 :
  0 <= r -> 0 <= r2 -> r + r2 < 2 ^ 31 ->
  (if u32 r2 >? 0 then s32 (r + u32 r2) else r) = r + r2.
Proof.
  intros. rewrite u32_small by lia. reflect_bools; [apply s32_small|]; lia.
Qed.

Lemma take_contents_first m b k :
  wf b -> 0 <= k <= acts_ringbuf_length b -> k <= size b - head_offset b ->
  take (Z.to_nat k) (contents m b) = load m (cpu_ptr b + head_offset b) k.
Proof.
  intros H Hk Hs. pose proof (wf_head_offset b H). pose proof (wf_length b H).
  rewrite take_contents by lia. apply fmap_seqZ_ext. intros i Hi.
  rewrite cell_eq by lia. f_equal. reflect_bools; lia.
Qed.

Lemma read_pieces_spec b m st n :
  write_fn_ok -> wf b -> 0 <= n <= acts_ringbuf_length b -> n < 2 ^ 31 ->
  let '(r, st') := read_pieces stream_write b m st n in
  0 <= r <= n /\ taken st' = taken st ++ take (Z.to_nat r) (contents m b).
Proof.
  intros Hok H Hn Hn31. pose proof (wf_head_offset b H). pose proof (wf_size b H).
  pose proof (wf_area b H). pose proof (wf_length b H). unfold read_pieces.
  rewrite (u32_small (size b - _)) by lia.
  destruct (size b - head_offset b >=? n) eqn:Hc; reflect_bools; plain_addresses.
  - specialize (Hok st m (cpu_ptr b + head_offset b) n ltac:(lia)).
    destruct (stream_write _ _ _ _) as [r st1]. destruct Hok as [Hr ->].
    split; [lia|]. rewrite take_load, take_contents_first by (auto; lia). reflexivity.
  - pose proof (Hok st m (cpu_ptr b + head_offset b) (size b - head_offset b) ltac:(lia)) as O1.
    destruct (stream_write _ _ _ _) as [r st1]. destruct O1 as [Hr O1].
    rewrite (u32_small r) by lia. destruct (Z.eqb_spec r (size b - head_offset b)) as [->|Hne].
    + pose proof (Hok st1 m (cpu_ptr b) (n - (size b - head_offset b)) ltac:(lia)) as O2.
      destruct (stream_write _ _ _ _) as [r2 st2]. destruct O2 as [Hr2 O2].
      rewrite pieces_sum by lia. split; [lia|].
      rewrite take_contents_split, O2, O1, <- app_assoc, !take_load by (auto; lia).
      reflexivity.
    + split; [lia|]. rewrite O1, take_load, take_contents_first by (auto; lia). reflexivity.
Qed.

(** With a write callback that takes some prefix of what it is offered,
    [acts_ringbuf_read] removes from the queue exactly the bytes the stream
    took, oldest first, and returns their number - also when the data wraps
    around the end of the buffer and when the callback stops early. *)
Theorem acts_ringbuf_read_ok (b : acts_ringbuf) (m : mem) (st : St) (n : Z) :
  write_fn_ok -> wf b -> 0 <= n <= acts_ringbuf_length b -> n < 2 ^ 31 ->
  let '(r, b', st') := acts_ringbuf_read stream_write b m st n in
  0 <= r <= n /\ wf b' /\
  taken st' = taken st ++ take (Z.to_nat r) (contents m b) /\
  contents m b' = drop (Z.to_nat r) (contents m b).
Proof.
  intros Hok H Hn Hn31. unfold acts_ringbuf_read.
  rewrite Z.gtb_ltb, (proj2 (Z.ltb_ge _ _)) by lia.
  pose proof (read_pieces_spec b m st n Hok H Hn Hn31) as Hp.
  destruct (read_pieces stream_write b m st n) as [r st']. destruct Hp as [Hr Ht].
  destruct (Z.gtb_spec r 0).
  - unfold ACTS_RINGBUF_NELEM, ACTS_RINGBUF_ELEMSZ. rewrite Z.quot_1_r.
    repeat split; try lia; try (apply advance_head_wf; auto; lia); [exact Ht|].
    apply contents_advance_head; auto; lia.
  - assert (r = 0) as -> by lia. repeat split; auto; try lia; apply H.
Qed.

(** The free cells behind the tail, as at most two linear pieces. *)
Lemma load_free_first m b k :
  wf b -> 0 <= k <= acts_ringbuf_space b -> k <= size b - tail_offset b ->
  load m (cpu_ptr b + tail_offset b) k
  = (fun i => m (cell b (tail_offset b) i)) <$> seqZ 0 k.
Proof.
  intros H Hk Hs. pose proof (tail_offset_range b H). pose proof (space_eq b H).
  pose proof (length_range b). apply fmap_seqZ_ext. intros i Hi.
  rewrite cell_eq by lia. f_equal. reflect_bools; lia.
Qed.

Lemma load_free_split m b n k :
  wf b -> 0 <= n -> 0 <= k -> n + k <= acts_ringbuf_space b ->
  n = size b - tail_offset b ->
  load m (cpu_ptr b + tail_offset b) n ++ load m (cpu_ptr b) k
  = (fun i => m (cell b (tail_offset b) i)) <$> seqZ 0 (n + k).
Proof.
  intros H Hn Hk Hnk Heq. pose proof (tail_offset_range b H). pose proof (space_eq b H).
  pose proof (length_range b).
  rewrite seqZ_app, fmap_app, (fmap_seqZ_shift _ (0 + n)) by lia.
  f_equal; apply fmap_seqZ_ext; intros i Hi; rewrite cell_eq by lia; f_equal;
    reflect_bools; lia.
Qed.

Lemma write_pieces_spec b m st n :
  read_fn_ok -> wf b -> 0 <= n <= acts_ringbuf_space b -> n < 2 ^ 31 ->
  let '(r, m', st') := write_pieces stream_read b m st n in
  0 <= r <= n /\
  given st' = given st ++ ((fun i => m' (cell b (tail_offset b) i)) <$> seqZ 0 r) /\
  (forall x, (forall i, 0 <= i < n -> x <> cell b (tail_offset b) i) -> m' x = m x).
Proof.
  intros Hok H Hn Hn31. pose proof (tail_offset_range b H). pose proof (wf_size b H).
  pose proof (wf_area b H). pose proof (space_eq b H). pose proof (length_range b).
  unfold write_pieces. rewrite (u32_small (size b - _)) by lia.
  destruct (size b - tail_offset b >=? n) eqn:Hc; reflect_bools; plain_addresses.
  - specialize (Hok st m (cpu_ptr b + tail_offset b) n ltac:(lia)).
    destruct (stream_read _ _ _ _) as [[r m1] st1]. destruct Hok as (Hr & -> & Hf).
    rewrite load_free_first by (auto; lia). repeat split; try lia.
    intros x Hx. apply not_cell in Hx; [|lia..]. apply Hf. lia.
  - pose proof (Hok st m (cpu_ptr b + tail_offset b) (size b - tail_offset b) ltac:(lia)) as O1.
    destruct (stream_read _ _ _ _) as [[r m1] st1]. destruct O1 as (Hr & O1 & F1).
    rewrite (u32_small r) by lia. destruct (Z.eqb_spec r (size b - tail_offset b)) as [->|Hne].
    + pose proof (Hok st1 m1 (cpu_ptr b) (n - (size b - tail_offset b)) ltac:(lia)) as O2.
      destruct (stream_read _ _ _ _) as [[r2 m2] st2]. destruct O2 as (Hr2 & O2 & F2).
      rewrite pieces_sum by lia. repeat split; try lia.
      * rewrite <- load_free_split by (auto; lia). rewrite O2, O1, <- app_assoc.
        f_equal. f_equal. apply load_ext. intros x Hx. symmetry. apply F2. lia.
      * intros x Hx. apply not_cell in Hx; [|lia..]. rewrite F2, F1 by lia. reflexivity.
    + rewrite O1, load_free_first by (auto; lia). repeat split; try lia.
      intros x Hx. apply not_cell in Hx; [|lia..]. apply F1. lia.
Qed.

(** With a read callback that fills a prefix of the range it is given,
    [acts_ringbuf_write] appends to the queue exactly the bytes the stream
    gave out, in order, and returns their number - also across the wrap of
    the buffer and when the callback stops early. *)
Theorem acts_ringbuf_write_ok (b : acts_ringbuf) (m : mem) (st : St) (n : Z) :
  read_fn_ok -> wf b -> 0 <= n <= acts_ringbuf_space b -> n < 2 ^ 31 ->
  let '(r, b', m', st') := acts_ringbuf_write stream_read b m st n in
  0 <= r <= n /\ wf b' /\
  exists bytes, Z.of_nat (length bytes) = r /\
    given st' = given st ++ bytes /\ contents m' b' = contents m b ++ bytes.
Proof.
  intros Hok H Hn Hn31. unfold acts_ringbuf_write.
  rewrite Z.gtb_ltb, (proj2 (Z.ltb_ge _ _)) by lia.
  pose proof (write_pieces_spec b m st n Hok H Hn Hn31) as Hp.
  destruct (write_pieces stream_read b m st n) as [[r m'] st'].
  destruct Hp as (Hr & Ht & Hf). set (bytes := _ <$> _) in Ht.
  assert (Hb : Z.of_nat (length bytes) = r) by (subst bytes; autorewrite with wrap; lia).
  assert (Hc : contents m' (advance_tail b r) = contents m b ++ bytes).
  { apply contents_append_free; auto; [lia|]. intros x Hx. apply Hf. intros i Hi. apply Hx. lia. }
  destruct (Z.gtb_spec r 0).
  - unfold ACTS_RINGBUF_NELEM, ACTS_RINGBUF_ELEMSZ. rewrite Z.quot_1_r.
    split; [lia|]. split; [apply advance_tail_wf; auto; lia|]. exists bytes. auto.
  - assert (r = 0) as -> by lia. split; [lia|]. split; [exact H|]. exists []. split; [reflexivity|].
    split; [exact Ht|]. rewrite app_nil_r. rewrite app_nil_r in Hc. rewrite <- Hc.
    unfold contents. rewrite length_advance_tail by (auto; lia). rewrite Z.add_0_r. reflexivity.
Qed.
End StreamTheorems.

(** ** Defragmentation *)

Lemma length_eq b : wf b ->
  tail_offset b = head_offset b + acts_ringbuf_length b \/
  tail_offset b = head_offset b + acts_ringbuf_length b - size b.
Proof.
  intros H. pose proof (length_range b). destruct H as [? ? ? ? ? -> ?].
  rewrite ring_index by lia. reflect_bools; lia.
Qed.

Lemma out_exit_wf b : wf b -> acts_ringbuf_length b < size b -> wf (defrag_out_exit b).
Proof.
  intros H Hl. pose proof (length_range b).
  assert (Hlen : acts_ringbuf_length (defrag_out_exit b) = acts_ringbuf_length b).
  { unfold acts_ringbuf_length. simpl. rewrite Z.sub_0_r. apply u32_small, u32_range. }
  destruct H. split; try rewrite Hlen; simpl; try lia; try apply u32_range.
  fold (acts_ringbuf_length b). rewrite Z.mod_small; lia.
Qed.

Lemma out_exit_length b : acts_ringbuf_length (defrag_out_exit b) = acts_ringbuf_length b.
Proof.
  unfold acts_ringbuf_length. simpl. rewrite Z.sub_0_r. apply u32_small, u32_range.
Qed.

Lemma is_empty_length b : wf b ->
  acts_ringbuf_is_empty b = true <-> acts_ringbuf_length b = 0.
Proof.
  intros []. unfold acts_ringbuf_is_empty, acts_ringbuf_length.
  rewrite Z.eqb_eq. split; intros; wrap_lia.
Qed.

(** [acts_ringbuf_defrag] keeps the buffer well formed and its queue
    byte for byte unchanged, and afterwards the data starts at offset 0 unless
    it wraps around the end, for every well-formed buffer except one that
    starts at offset 0 and is full. *)
Theorem acts_ringbuf_defrag_ok (b : acts_ringbuf) (m : mem) :
  wf b -> ~ (head_offset b = 0 /\ acts_ringbuf_is_full b = true) ->
  let '(b', m') := acts_ringbuf_defrag b m in
  wf b' /\ contents m' b' = contents m b /\
  (head_offset b' = 0 \/ tail_offset b' <= head_offset b') /\
  (forall x, x < cpu_ptr b \/ cpu_ptr b + size b <= x -> m' x = m x).
Proof.
  intros H Hnf. pose proof (length_range b) as Hl0. pose proof (length_eq b H) as Hle.
  pose proof (tail_offset_range b H). pose proof (is_empty_length b H) as He.
  assert (Hfull : acts_ringbuf_is_full b = true <-> acts_ringbuf_length b = size b).
  { unfold acts_ringbuf_is_full. fold (acts_ringbuf_length b). lia. }
  rewrite Hfull in Hnf. clear Hfull. unfold acts_ringbuf_defrag.
  destruct ((head_offset b =? 0) || acts_ringbuf_is_empty b) eqn:Hcase.
  - apply orb_true_iff in Hcase. rewrite Z.eqb_eq, He in Hcase.
    pose proof (wf_size b H). pose proof (wf_length b H).
    split; [apply out_exit_wf; auto; destruct Hcase; lia|].
    repeat split; [|left; reflexivity].
    unfold contents. rewrite out_exit_length. apply fmap_seqZ_ext. intros i Hi.
    unfold cell. simpl. destruct Hcase as [->|]; [reflexivity|lia].
  - apply orb_false_iff in Hcase. rewrite Z.eqb_neq in Hcase.
    assert (acts_ringbuf_length b <> 0) by (rewrite <- He; destruct Hcase; congruence).
    destruct H as [? ? ? ? ? Ht ?]. destruct (head_offset b >=? tail_offset b) eqn:Hw;
      reflect_bools.
    + set (b' := mk_ringbuf _ _ _ _ _ _ _ _).
      assert (Hlen : acts_ringbuf_length b' = acts_ringbuf_length b).
      { unfold acts_ringbuf_length at 1. simpl.
        rewrite (u32_small (tail_offset b + size b)) by lia.
        rewrite (u32_small (_ - _)) by lia. lia. }
      split; [split; try rewrite Hlen; try assumption; subst b'; simpl; try lia; apply u32_range|].
      split; [unfold contents; rewrite Hlen; reflexivity|].
      split; [simpl; lia|reflexivity].
    + assert (acts_ringbuf_length b < size b) by lia.
      split; [apply out_exit_wf; [split; auto|lia]|]. plain_addresses.
      repeat split; [|left; reflexivity|intros x Hx; apply memcpy_outside; lia].
      unfold contents. rewrite out_exit_length. apply fmap_seqZ_ext. intros i Hi.
      unfold cell. simpl. rewrite !Z.mod_small, memcpy_spec by lia.
      reflect_bools; simpl; try lia. f_equal. lia.
Qed.

(** On a full buffer that starts at offset 0, [acts_ringbuf_defrag] leaves
    the write offset at [size], outside the data area: once bytes are taken
    out, [acts_ringbuf_put_claim] still offers no room at all although the
    space counter says there is some. *)
Theorem acts_ringbuf_defrag_full (b : acts_ringbuf) (m : mem) (k n : Z) :
  wf b -> head_offset b = 0 -> acts_ringbuf_is_full b = true ->
  0 < k <= size b ->
  let b1 := (acts_ringbuf_defrag b m).1 in
  let b2 := (acts_ringbuf_drop b1 k).2 in
  tail_offset b1 = size b /\ ~ wf b1 /\
  acts_ringbuf_space b2 = k /\ (acts_ringbuf_put_claim b2 n).1 = Z.min n 0.
Proof.
  intros H Hho Hf Hk. pose proof (length_range b).
  assert (Hlen : acts_ringbuf_length b = size b).
  { unfold acts_ringbuf_is_full in Hf. fold (acts_ringbuf_length b) in Hf. lia. }
  assert (Hb1 : (acts_ringbuf_defrag b m).1 = defrag_out_exit b).
  { unfold acts_ringbuf_defrag. rewrite Hho. reflexivity. }
  assert (Ht1 : tail_offset (defrag_out_exit b) = size b) by (rewrite <- Hlen; reflexivity).
  rewrite Hb1. cbn zeta. split; [exact Ht1|]. split.
  { intros Hw. pose proof (tail_offset_range _ Hw) as Hr. rewrite Ht1 in Hr. simpl in Hr. lia. }
  unfold acts_ringbuf_drop. rewrite out_exit_length, Z.gtb_ltb, (proj2 (Z.ltb_ge _ _)) by lia.
  simpl. destruct H as [Hs _ _ _ _ _ _].
  assert (Hsp : acts_ringbuf_space (advance_head (defrag_out_exit b) k) = k).
  { unfold acts_ringbuf_space. simpl. fold (acts_ringbuf_length b). rewrite Hlen.
    wrap_lia. }
  split; [exact Hsp|]. unfold acts_ringbuf_put_claim. rewrite Hsp. simpl.
  fold (acts_ringbuf_length b). rewrite Hlen, Z.sub_diag.
  change (u32 0) with 0. reflect_bools; lia.
Qed.

(** When the queued bytes wrap around the end of the data area, the write
    callback takes the whole first piece of [len] bytes and then fails with
    the error code [-e] on the second, [acts_ringbuf_read] adds the error code
    to the count: it returns [len - e] and leaves the last [e] bytes that the
    stream already took in the queue, to be delivered a second time. *)
Theorem acts_ringbuf_read_error {St : Type} (stream_write : St -> mem -> Z -> Z -> Z * St)
    (b : acts_ringbuf) (m : mem) (st st1 st2 : St) (n e : Z) :
  let len := size b - head_offset b in
  wf b -> len < n <= acts_ringbuf_length b -> n < 2 ^ 31 -> 0 < e < len ->
  stream_write st m (cpu_ptr b + head_offset b) len = (len, st1) ->
  stream_write st1 m (cpu_ptr b) (n - len) = (- e, st2) ->
  exists b', acts_ringbuf_read stream_write b m st n = (len - e, b', st2) /\
    contents m b' = drop (Z.to_nat (len - e)) (contents m b).
Proof.
  intros len H Hn Hn31 He Hw1 Hw2. subst len.
  pose proof (wf_head_offset b H). pose proof (wf_size b H).
  pose proof (wf_area b H). pose proof (wf_length b H).
  exists (advance_head b (size b - head_offset b - e)).
  split; [|apply contents_advance_head; auto; lia].
  assert (Hp : read_pieces stream_write b m st n = (size b - head_offset b - e, st2)).
  { unfold read_pieces. rewrite (u32_small (size b - _)) by lia.
    rewrite Z.geb_leb, (proj2 (Z.leb_gt _ _)) by lia. plain_addresses.
    rewrite Hw1. plain_addresses. rewrite Z.eqb_refl, Hw2.
    f_equal. assert (Hu : u32 (- e) = 2 ^ 32 - e) by wrap_lia. rewrite Hu.
    rewrite Z.gtb_ltb, (proj2 (Z.ltb_lt _ _)) by lia. wrap_lia. }
  unfold acts_ringbuf_read. rewrite Hp, !Z.gtb_ltb, (proj2 (Z.ltb_ge _ _)) by lia.
  rewrite (proj2 (Z.ltb_lt _ _)) by lia.
  unfold ACTS_RINGBUF_NELEM, ACTS_RINGBUF_ELEMSZ. rewrite Z.quot_1_r. reflexivity.
Qed.

(** ** Concrete instances *)

(** A buffer of 8 bytes at 4096 with its running indices about to wrap,
    holding 5 bytes that wrap around its end. *)
Definition sample_buf : acts_ringbuf :=
  mk_ringbuf (2 ^ 32 - 2) 3 8 7 4096 0 6 3.

(** The same area, full and starting at offset 0. *)
Definition sample_full : acts_ringbuf := mk_ringbuf 0 8 8 7 4096 0 0 0.

Definition sample_mem : mem := fun x => u8 x.

Lemma sample_buf_wf : wf sample_buf.
Proof. split; vm_compute; intuition congruence. Qed.

Lemma sample_full_wf : wf sample_full.
Proof. split; vm_compute; intuition congruence. Qed.

(** A stream that takes at most two bytes per call, and one that fails at
    the start of the data area. *)
Definition sample_write (st : list Z) (m : mem) (a n : Z) : Z * list Z :=
  let r := Z.min n 2 in (r, st ++ load m a r).

Definition sample_failing (st : list Z) (m : mem) (a n : Z) : Z * list Z :=
  if a =? 4096 then (-1, st) else (n, st ++ load m a n).

Definition sample_read (st : list Z) (m : mem) (a n : Z) : Z * mem * list Z :=
  let r := Z.min n 2 in
  (r, store m a (replicate (Z.to_nat r) 9), st ++ replicate (Z.to_nat r) 9).

Lemma sample_write_ok : write_fn_ok sample_write id.
Proof.
  intros st m a n Hn. simpl. split; [lia|]. f_equal. rewrite take_load by lia. reflexivity.
Qed.

Lemma sample_read_ok : read_fn_ok sample_read id.
Proof.
  intros st m a n Hn. simpl. split; [lia|]. split.
  - f_equal. rewrite <- (load_store m a (replicate _ _)) at 1. f_equal.
    autorewrite with wrap. lia.
  - intros x Hx. apply store_outside. autorewrite with wrap. lia.
Qed.

Lemma ringbuf_refines_queue_witness :
  let ops := [OpGet 3; OpPut [1; 2; 3; 4]; OpPut [5]; OpFill 7 9; OpPeek 2; OpDrop 4; OpGet 8] in
  let '(obs, (b', m')) := run (rb_step 64) ops (sample_buf, sample_mem) in
  let '(obs', q') := run (queue_step (size sample_buf)) ops (contents sample_mem sample_buf) in
  obs = obs' /\ contents m' b' = q' /\ wf b' /\ size b' = size sample_buf.
Proof.
  apply (ringbuf_refines_queue 64 16 _ sample_buf sample_mem).
  - apply sample_buf_wf.
  - discriminate.
  - unfold apart. simpl. lia.
  - repeat constructor; simpl; lia.
Defined.

Lemma acts_ringbuf_copy_ok_witness :
  let d := acts_ringbuf_init 8192 4 in
  exists d' s' m', acts_ringbuf_copy d sample_buf sample_mem 9 = Some (4, d', s', m') /\
    wf d' /\ wf s' /\
    contents m' d' = contents sample_mem d ++ take 4 (contents sample_mem sample_buf) /\
    contents m' s' = drop 4 (contents sample_mem sample_buf).
Proof.
  apply (acts_ringbuf_copy_ok (acts_ringbuf_init 8192 4) sample_buf sample_mem 9).
  - apply init_wf; lia.
  - apply sample_buf_wf.
  - right. simpl. lia.
  - lia.
Defined.

Lemma put_claim_finish_ok_witness :
  let '(r, p) := acts_ringbuf_put_claim sample_buf 2 in
  0 <= r <= 2 /\ r <= acts_ringbuf_space sample_buf /\
  cpu_ptr sample_buf <= p /\ p + r <= cpu_ptr sample_buf + size sample_buf /\
  (r = 0 -> 2 = 0 \/ acts_ringbuf_is_full sample_buf = true) /\
  (forall l, Z.of_nat (length l) <= r ->
    exists b', acts_ringbuf_put_finish sample_buf (Z.of_nat (length l)) = (0, b') /\ wf b' /\
      contents (store sample_mem p l) b' = contents sample_mem sample_buf ++ l) /\
  (r < 2 -> acts_ringbuf_put_finish sample_buf 2 = (- EINVAL, sample_buf)).
Proof. apply (put_claim_finish_ok sample_buf sample_mem 2 sample_buf_wf). lia. Defined.

Lemma get_claim_finish_ok_witness :
  let '(r, p) := acts_ringbuf_get_claim sample_buf 4 in
  0 <= r <= 4 /\ load sample_mem p r = take (Z.to_nat r) (contents sample_mem sample_buf) /\
  (r = 0 -> 4 = 0 \/ acts_ringbuf_is_empty sample_buf = true) /\
  (forall k, 0 <= k <= r ->
    exists b', acts_ringbuf_get_finish sample_buf k = (0, b') /\ wf b' /\
      contents sample_mem b' = drop (Z.to_nat k) (contents sample_mem sample_buf)) /\
  (r < 4 -> acts_ringbuf_get_finish sample_buf 4 = (- EINVAL, sample_buf)).
Proof. apply (get_claim_finish_ok sample_buf sample_mem 4 sample_buf_wf). lia. Defined.

Lemma acts_ringbuf_read_ok_witness :
  let '(r, b', st') := acts_ringbuf_read sample_write sample_buf sample_mem [] 4 in
  0 <= r <= 4 /\ wf b' /\
  id st' = id [] ++ take (Z.to_nat r) (contents sample_mem sample_buf) /\
  contents sample_mem b' = drop (Z.to_nat r) (contents sample_mem sample_buf).
Proof.
  apply (acts_ringbuf_read_ok sample_write id sample_buf sample_mem [] 4 sample_write_ok
           sample_buf_wf).
  - vm_compute. intuition congruence.
  - lia.
Defined.

Lemma acts_ringbuf_write_ok_witness :
  let '(r, b', m', st') := acts_ringbuf_write sample_read sample_buf sample_mem [] 3 in
  0 <= r <= 3 /\ wf b' /\
  exists bytes, Z.of_nat (length bytes) = r /\
    id st' = id [] ++ bytes /\ contents m' b' = contents sample_mem sample_buf ++ bytes.
Proof.
  apply (acts_ringbuf_write_ok sample_read id sample_buf sample_mem [] 3 sample_read_ok
           sample_buf_wf).
  - vm_compute. intuition congruence.
  - lia.
Defined.

Lemma acts_ringbuf_defrag_ok_witness :
  let '(b', m') := acts_ringbuf_defrag sample_buf sample_mem in
  wf b' /\ contents m' b' = contents sample_mem sample_buf /\
  (head_offset b' = 0 \/ tail_offset b' <= head_offset b') /\
  (forall x, x < cpu_ptr sample_buf \/ cpu_ptr sample_buf + size sample_buf <= x ->
    m' x = sample_mem x).
Proof.
  apply (acts_ringbuf_defrag_ok sample_buf sample_mem sample_buf_wf).
  intros [Hh _]. discriminate Hh.
Defined.

Lemma acts_ringbuf_defrag_full_witness :
  let b1 := (acts_ringbuf_defrag sample_full sample_mem).1 in
  let b2 := (acts_ringbuf_drop b1 5).2 in
  tail_offset b1 = size sample_full /\ ~ wf b1 /\
  acts_ringbuf_space b2 = 5 /\ (acts_ringbuf_put_claim b2 4).1 = Z.min 4 0.
Proof.
  apply (acts_ringbuf_defrag_full sample_full sample_mem 5 4 sample_full_wf);
    [reflexivity|reflexivity|simpl; lia].
Defined.

Lemma acts_ringbuf_read_error_witness :
  exists b', acts_ringbuf_read sample_failing sample_buf sample_mem [] 4 = (1, b', [6; 7]) /\
    contents sample_mem b' = drop 1 (contents sample_mem sample_buf).
Proof.
  apply (acts_ringbuf_read_error sample_failing sample_buf sample_mem [] [6; 7] [6; 7] 4 1);
    first [exact sample_buf_wf | reflexivity | vm_compute; intuition congruence].
Defined.
