(* ===== verification/Stream.v ===== *)
(** * Streams (framework/base/utils/stream)

    stream.c is the interface through which audio and settings code reads and
    writes: a handle with a table of operations, a life cycle, observers and
    an attached stream that receives a copy of the data.  ringbuff_stream.c,
    bufferstream.c and zero_stream.c implement the table.

    The handles are addresses; [streams] is the store of the structures they
    point to, so that two names of one stream are one entry and a destroyed
    stream is an entry that is gone.  A function that follows a pointer to
    nothing, calls an operation that is NULL or takes a semaphore that is NULL
    ends in [Fault]; a wait that never ends in [Blocked].  mem_malloc clears
    the memory it returns (malloc.c, line 147); its result is an argument.
    The mutexes make each call atomic. *)

From stdpp Require Import base list numbers gmap.
From S2P Require Import Prelude RingBuf.
Open Scope Z_scope.

(** ** Constants (stream.h, errno.h) *)

Definition ENOSYS : Z := 88.

Definition STREAM_NOTIFY_READ : Z := 1.
Definition STREAM_NOTIFY_WRITE : Z := 2.
Definition STREAM_NOTIFY_SEEK : Z := 4.
Definition STREAM_NOTIFY_PRE_WRITE : Z := 16.

Inductive seek_dir : Type := SEEK_DIR_BEG | SEEK_DIR_CUR | SEEK_DIR_END | SEEK_DIR_OTHER.

Definition MODE_IN : Z := 1.
Definition MODE_OUT : Z := 2.
Definition MODE_IN_OUT : Z := 3.
Definition MODE_READ_BLOCK : Z := 4.
Definition MODE_WRITE_BLOCK : Z := 8.
Definition MODE_BLOCK_TIMEOUT : Z := 16.

Definition STATE_INIT : Z := 1.
Definition STATE_OPEN : Z := 2.
Definition STATE_CLOSE : Z := 3.

(** [mode & bit] as a truth value. *)
Definition has (mode bit : Z) : bool := negb (Z.land mode bit =? 0).

(** ** Data *)

(** The tables of operations of the repository. *)
Inductive kind : Type := ringbuff_stream_ops | ringbuff_stream_ops_ext | buffer_stream_ops | zero_stream_ops.

Record stream : Type := mk_stream {
  type : Z;
  mode : Z;                            (* uint8_t *)
  state : Z;                           (* uint8_t *)
  rofs : Z;                            (* uint32_t *)
  wofs : Z;                            (* uint32_t *)
  write_finished : bool;
  total_size : Z;                      (* uint32_t *)
  sync_sem : option bool;              (* NULL, or the count of a semaphore of limit 1 *)
  observers : list (option (Z * Z));   (* observer and observer_type, observer_notify set *)
  attach_mode : Z;
  attach_stream : Z;                   (* attach_stream[1] *)
  attached_stream : Z;
  ops : kind;
  data : Z
}.

(** What handle->data points to. *)
Inductive info : Type := ringbuff_info_t (buf : Z) | buffer_info_t (length buffer_base : Z).

(** A call of an observer. *)
Record note : Type := mk_note {
  n_observer : Z; n_readoff : Z; n_writeoff : Z; n_total : Z; n_buf : Z; n_num : Z; n_type : Z
}.

Record world : Type := mk_world {
  streams : gmap Z stream;
  infos : gmap Z info;
  rings : gmap Z acts_ringbuf;
  wmem : mem;
  pool_base : Z;                       (* the address of buff_pool *)
  bit_mask : Z;                        (* of buff_pool in ringbuff_stream.c *)
  notes : list note                    (* the latest first *)
}.

Definition set_streams (m : gmap Z stream) (w : world) : world :=
  mk_world m (infos w) (rings w) (wmem w) (pool_base w) (bit_mask w) (notes w).
Definition set_infos (m : gmap Z info) (w : world) : world :=
  mk_world (streams w) m (rings w) (wmem w) (pool_base w) (bit_mask w) (notes w).
Definition set_ring (r : Z) (b : acts_ringbuf) (w : world) : world :=
  mk_world (streams w) (infos w) (<[r := b]> (rings w)) (wmem w) (pool_base w) (bit_mask w) (notes w).
Definition set_mem (m : mem) (w : world) : world :=
  mk_world (streams w) (infos w) (rings w) m (pool_base w) (bit_mask w) (notes w).
Definition set_bit_mask (v : Z) (w : world) : world :=
  mk_world (streams w) (infos w) (rings w) (wmem w) (pool_base w) v (notes w).
Definition add_note (n : note) (w : world) : world :=
  mk_world (streams w) (infos w) (rings w) (wmem w) (pool_base w) (bit_mask w) (n :: notes w).

(** Writes to the fields of a stream. *)
Definition with_mode (v : Z) (s : stream) : stream :=
  mk_stream (type s) (u8 v) (state s) (rofs s) (wofs s) (write_finished s) (total_size s) (sync_sem s) (observers s)
    (attach_mode s) (attach_stream s) (attached_stream s) (ops s) (data s).
Definition with_state (v : Z) (s : stream) : stream :=
  mk_stream (type s) (mode s) (u8 v) (rofs s) (wofs s) (write_finished s) (total_size s) (sync_sem s) (observers s)
    (attach_mode s) (attach_stream s) (attached_stream s) (ops s) (data s).
Definition with_offsets (r w : Z) (s : stream) : stream :=
  mk_stream (type s) (mode s) (state s) (u32 r) (u32 w) (write_finished s) (total_size s) (sync_sem s) (observers s)
    (attach_mode s) (attach_stream s) (attached_stream s) (ops s) (data s).
Definition with_finished (b : bool) (s : stream) : stream :=
  mk_stream (type s) (mode s) (state s) (rofs s) (wofs s) b (total_size s) (sync_sem s) (observers s)
    (attach_mode s) (attach_stream s) (attached_stream s) (ops s) (data s).
Definition with_sem (v : option bool) (s : stream) : stream :=
  mk_stream (type s) (mode s) (state s) (rofs s) (wofs s) (write_finished s) (total_size s) v (observers s)
    (attach_mode s) (attach_stream s) (attached_stream s) (ops s) (data s).
Definition with_observers (l : list (option (Z * Z))) (s : stream) : stream :=
  mk_stream (type s) (mode s) (state s) (rofs s) (wofs s) (write_finished s) (total_size s) (sync_sem s) l
    (attach_mode s) (attach_stream s) (attached_stream s) (ops s) (data s).
Definition with_attach (m a : Z) (s : stream) : stream :=
  mk_stream (type s) (mode s) (state s) (rofs s) (wofs s) (write_finished s) (total_size s) (sync_sem s) (observers s)
    (u8 m) a (attached_stream s) (ops s) (data s).
Definition with_attached (a : Z) (s : stream) : stream :=
  mk_stream (type s) (mode s) (state s) (rofs s) (wofs s) (write_finished s) (total_size s) (sync_sem s) (observers s)
    (attach_mode s) (attach_stream s) a (ops s) (data s).
Definition with_data (t d total : Z) (s : stream) : stream :=
  mk_stream t (mode s) (state s) (rofs s) (wofs s) (write_finished s) (u32 total) (sync_sem s) (observers s)
    (attach_mode s) (attach_stream s) (attached_stream s) (ops s) d.

(** ** The monad *)

Inductive outcome (A : Type) : Type := Ok (a : A) (w : world) | Fault | Blocked.
Arguments Ok {A} a w.
Arguments Fault {A}.
Arguments Blocked {A}.

Definition M (A : Type) : Type := world -> outcome A.

#[export] Instance M_ret : MRet M := fun A a w => Ok a w.
#[export] Instance M_bind : MBind M := fun A B k c w =>
  match c w with Ok a w' => k a w' | Fault => Fault | Blocked => Blocked end.

Definition fault {A} : M A := fun _ => Fault.
Definition blocked {A} : M A := fun _ => Blocked.
Definition skip : M unit := mret tt.
Definition modify (f : world -> world) : M unit := fun w => Ok tt (f w).
Definition get {A} (f : world -> A) : M A := fun w => Ok (f w) w.

(** [handle->f] and the assignment of fields; NULL and freed handles fault. *)
Definition field {A} (h : Z) (f : stream -> A) : M A :=
  fun w => match streams w !! h with Some s => Ok (f s) w | None => Fault end.
Definition assign (h : Z) (f : stream -> stream) : M unit :=
  fun w => match streams w !! h with Some s => Ok tt (set_streams (<[h := f s]> (streams w)) w) | None => Fault end.

Definition get_info (p : Z) : M info := fun w => match infos w !! p with Some i => Ok i w | None => Fault end.
Definition get_ring (r : Z) : M acts_ringbuf := fun w => match rings w !! r with Some b => Ok b w | None => Fault end.

(** ** Ring buffer streams (ringbuff_stream.c) *)

Definition RINGBUFFER_STREAM_IMAG_NUM : Z := 0x55.

(** [info->buf] of a handle whose data is not NULL. *)
Definition info_ring (d : Z) : M Z :=
  i ← get_info d;
  match i with ringbuff_info_t r => mret r | buffer_info_t _ _ => fault end.

Definition ringbuff_stream_open (h mode : Z) : M Z :=
  d ← field h data;
  if d =? NULL then mret (- EACCES) else
  assign h (with_mode mode);; mret 0.

(** [handle->rofs = info->buf->head; handle->wofs = info->buf->tail;] *)
Definition update_offsets (h r : Z) : M unit :=
  b ← get_ring r;
  assign h (with_offsets (head b) (tail b)).

Definition ringbuff_stream_read (h buf len : Z) : M Z :=
  d ← field h data;
  if d =? NULL then mret (- EACCES) else
  r ← info_ring d;
  b ← get_ring r;
  m ← get wmem;
  let '(ret, b', m') := acts_ringbuf_get b m buf (u32 len) in
  modify (set_ring r b');; modify (set_mem m');;
  update_offsets h r;;
  mret (s32 ret).

Definition ringbuff_stream_write (h buf len : Z) : M Z :=
  d ← field h data;
  if d =? NULL then mret (- EACCES) else
  r ← info_ring d;
  b ← get_ring r;
  m ← get wmem;
  let '(ret, b', m') :=
    if buf =? NULL then let '(ret, b') := acts_ringbuf_fill_none b (u32 len) in (ret, b', m)
    else acts_ringbuf_put b m buf (u32 len) in
  modify (set_ring r b');; modify (set_mem m');;
  update_offsets h r;;
  mret (s32 ret).

Definition ringbuff_stream_get_length (h : Z) : M Z :=
  d ← field h data;
  if d =? NULL then mret (- EACCES) else
  r ← info_ring d;
  b ← get_ring r;
  mret (s32 (acts_ringbuf_length b)).

Definition ringbuff_stream_get_space (h : Z) : M Z :=
  d ← field h data;
  if d =? NULL then mret (- EACCES) else
  r ← info_ring d;
  b ← get_ring r;
  mret (s32 (acts_ringbuf_space b)).

Definition ringbuff_stream_tell (h : Z) : M Z := ringbuff_stream_get_length h.

Definition ringbuff_stream_flush (h : Z) : M Z :=
  d ← field h data;
  if d =? NULL then mret (- EACCES) else
  r ← info_ring d;
  b ← get_ring r;
  let len := s32 (acts_ringbuf_length b) in
  let '(ret, b') := acts_ringbuf_drop b (u32 len) in
  modify (set_ring r b');;
  mret (s32 ret).

Definition ringbuff_stream_close (h : Z) : M Z :=
  d ← field h data;
  if d =? NULL then mret (- EACCES) else mret 0.

Definition free_info (d : Z) : M unit := modify (fun w => set_infos (delete d (infos w)) w).

Definition ringbuff_stream_destroy (h : Z) : M Z :=
  d ← field h data;
  if d =? NULL then mret (- EACCES) else
  free_info d;;
  assign h (fun s => with_data (type s) NULL (total_size s) s);;
  mret 0.

(** [p] is what mem_malloc returns for the info, [r] the ring buffer. *)
Definition ringbuff_stream_init (h r p : Z) : M Z :=
  if p =? NULL then mret (- ENOMEM) else
  modify (fun w => set_infos (<[p := ringbuff_info_t r]> (infos w)) w);;
  b ← get_ring r;
  assign h (with_data RINGBUFFER_STREAM_IMAG_NUM p (acts_ringbuf_size b));;
  mret 0.

Definition ringbuff_stream_get_ringbuf (h : Z) : M Z :=
  if h =? NULL then mret NULL else
  t ← field h type;
  if negb (t =? RINGBUFFER_STREAM_IMAG_NUM) then mret NULL else
  d ← field h data;
  if d =? NULL then mret NULL else info_ring d.

Definition ringbuff_stream_get_ringbuf_buf (h : Z) : M Z :=
  r ← ringbuff_stream_get_ringbuf h;
  if r =? NULL then mret NULL else b ← get_ring r; mret (cpu_ptr b).

Definition ringbuff_stream_get_ringbuf_size (h : Z) : M Z :=
  r ← ringbuff_stream_get_ringbuf h;
  if r =? NULL then mret 0 else b ← get_ring r; mret (RingBuf.size b).

(** *** The pool of eight ring buffers *)

Definition MAX_SESSION_BUFF_NUM : nat := 8.

(** The address of [buff_pool[i]]; the structure has eight words. *)
Definition buff_pool (w : world) (i : nat) : Z := pool_base w + 32 * Z.of_nat i.

Fixpoint malloc_loop (i n : nat) : M Z :=
  match n with
  | O => mret NULL
  | S n' =>
      mask ← get bit_mask;
      if negb (has mask (Z.shiftl 1 (Z.of_nat i))) then
        modify (set_bit_mask (Z.lor mask (Z.shiftl 1 (Z.of_nat i))));;
        r ← get (fun w => buff_pool w i);
        modify (set_ring r (mk_ringbuf 0 0 0 0 0 0 0 0));;
        mret r
      else malloc_loop (S i) n'
  end.
Definition malloc_ring_buf : M Z := malloc_loop 0 MAX_SESSION_BUFF_NUM.

Fixpoint free_loop (r : Z) (i n : nat) : M unit :=
  match n with
  | O => skip
  | S n' =>
      b ← get (fun w => buff_pool w i);
      if b =? r then
        modify (fun w => set_bit_mask (Z.land (bit_mask w) (Z.lnot (Z.shiftl 1 (Z.of_nat i)))) w)
      else free_loop r (S i) n'
  end.
Definition free_ring_buf (r : Z) : M unit := free_loop r 0 MAX_SESSION_BUFF_NUM.

Definition ringbuff_stream_init_ext (h ring_buff ring_buff_size p : Z) : M Z :=
  r ← malloc_ring_buf;
  if r =? NULL then mret (- ENOMEM) else
  modify (set_ring r (acts_ringbuf_init ring_buff (u32 ring_buff_size)));;
  ringbuff_stream_init h r p;;
  mret 0.

Definition ringbuff_stream_destroy_ext (h : Z) : M Z :=
  d ← field h data;
  r ← info_ring d;
  (if negb (r =? NULL) then free_ring_buf r else skip);;
  ringbuff_stream_destroy h;;
  mret 0.

(** ** Zero streams (zero_stream.c) *)

Definition INT32_MAX : Z := 2 ^ 31 - 1.

Definition _zero_stream_open (h mode : Z) : M Z :=
  assign h (fun s => with_data (type s) (data s) (2 ^ 32 - 1) s);; mret 0.

Definition _zero_stream_read (h buf len : Z) : M Z :=
  modify (fun w => set_mem (memset (wmem w) buf 0 (u32 len)) w);;
  assign h (fun s => with_offsets (rofs s + len) (wofs s) s);;
  mret 0.

Definition _zero_stream_write (h buf len : Z) : M Z :=
  assign h (fun s => with_offsets (rofs s) (wofs s + len) s);; mret len.

Definition _zero_stream_get_length (h : Z) : M Z := mret INT32_MAX.
Definition _zero_stream_get_space (h : Z) : M Z := mret INT32_MAX.
Definition _zero_stream_close (h : Z) : M Z := mret 0.

(** ** Buffer streams (bufferstream.c) *)

Definition buffer_stream_open (h mode : Z) : M Z := assign h (with_mode mode);; mret 0.

(** [buffer_info_t *info = handle->data; assert(info);] *)
Definition buffer_info (h : Z) : M (Z * Z) :=
  d ← field h data;
  i ← get_info d;
  match i with buffer_info_t len base => mret (len, base) | ringbuff_info_t _ => fault end.

(** The unsigned remainder of an offset by the length of the buffer. *)
Definition file_offset (off len : Z) : M Z :=
  if len =? 0 then fault else mret (s32 (off mod (u32 len))).

Definition buffer_stream_read (h buf num : Z) : M Z :=
  i ← buffer_info h;
  let '(len, base) := i in
  st ← field h state;
  if negb (st =? STATE_OPEN) then mret 0 else
  md ← field h mode;
  if Z.land md MODE_IN_OUT =? MODE_IN_OUT then
    r ← field h rofs;
    file_off ← file_offset r len;
    let wraps := s32 (file_off + num) >? len in
    let brw := if wraps then s32 (len - file_off) else 0 in
    (if wraps then
       modify (fun w => set_mem (memcpy (wmem w) buf (u32 (base + file_off)) (u32 brw)) w);;
       assign h (fun s => with_offsets (rofs s + brw) (wofs s) s)
     else skip);;
    let num := s32 (num - brw) in
    r ← field h rofs;
    file_off ← file_offset r len;
    modify (fun w => set_mem (memcpy (wmem w) (u32 (buf + brw)) (u32 (base + file_off)) (u32 num)) w);;
    assign h (fun s => with_offsets (rofs s + num) (wofs s) s);;
    mret (s32 (brw + num))
  else
    r ← field h rofs;
    let read_len := if u32 (r + num) >? u32 len then s32 (len - r) else num in
    modify (fun w => set_mem (memcpy (wmem w) buf (u32 (base + r)) (u32 read_len)) w);;
    assign h (fun s => with_offsets (rofs s + read_len) (wofs s) s);;
    mret read_len.

Definition buffer_stream_seek (h offset : Z) : M Z :=
  st ← field h state;
  if negb (st =? STATE_OPEN) then mret (- EPERM) else
  assign h (fun s => with_offsets offset (wofs s) s);;
  mret 0.

Definition buffer_stream_tell (h : Z) : M Z := r ← field h rofs; mret (s32 r).

Definition buffer_stream_get_length (h : Z) : M Z :=
  md ← field h mode;
  r ← field h rofs;
  w ← field h wofs;
  t ← field h total_size;
  mret (if Z.land md MODE_IN_OUT =? MODE_IN_OUT then s32 (w - r) else s32 (t - r)).

Definition buffer_stream_write (h buf num : Z) : M Z :=
  i ← buffer_info h;
  let '(len, base) := i in
  wo ← field h wofs;
  file_off ← file_offset wo len;
  let wraps := s32 (file_off + num) >? len in
  let brw := if wraps then s32 (len - file_off) else 0 in
  (if wraps then
     modify (fun w => set_mem (memcpy (wmem w) (u32 (base + file_off)) buf (u32 brw)) w);;
     assign h (fun s => with_offsets (rofs s) (wofs s + brw) s)
   else skip);;
  let num := s32 (num - brw) in
  wo ← field h wofs;
  file_off ← file_offset wo len;
  modify (fun w => set_mem (memcpy (wmem w) (u32 (base + file_off)) (u32 (buf + brw)) (u32 num)) w);;
  assign h (fun s => with_offsets (rofs s) (wofs s + num) s);;
  mret (s32 (brw + num)).

Definition buffer_stream_close (h : Z) : M Z :=
  buffer_info h;;
  assign h (fun s => with_state STATE_CLOSE (with_offsets 0 0 s));;
  mret 0.

Definition buffer_stream_destory (h : Z) : M Z :=
  buffer_info h;;
  d ← field h data;
  free_info d;;
  assign h (fun s => with_data (type s) NULL (total_size s) s);;
  mret 0.

Definition buffer_stream_init (h length base p : Z) : M Z :=
  if p =? NULL then mret (- ENOMEM) else
  modify (fun w => set_infos (<[p := buffer_info_t length base]> (infos w)) w);;
  assign h (fun s => with_data (type s) p length s);;
  mret 0.

(** ** The tables of operations *)

(** The parameters of the init operations, with what mem_malloc returns. *)
Inductive init_param : Type :=
| ring_param (ring p : Z)
| ring_ext_param (ring_buff ring_buff_size p : Z)
| buffer_param (length base p : Z)
| no_param.

Record stream_ops_t : Type := mk_ops {
  op_init : option (Z -> init_param -> M Z);
  op_open : option (Z -> Z -> M Z);
  op_read : option (Z -> Z -> Z -> M Z);
  op_seek : option (Z -> Z -> M Z);
  op_tell : option (Z -> M Z);
  op_get_length : option (Z -> M Z);
  op_get_space : option (Z -> M Z);
  op_write : option (Z -> Z -> Z -> M Z);
  op_flush : option (Z -> M Z);
  op_close : option (Z -> M Z);
  op_destroy : option (Z -> M Z);
  op_get_ringbuffer : option (Z -> M Z)
}.

Definition ops_of (k : kind) : stream_ops_t :=
  match k with
  | ringbuff_stream_ops =>
      mk_ops (Some (fun h p => match p with ring_param r p => ringbuff_stream_init h r p | _ => fault end))
        (Some ringbuff_stream_open) (Some ringbuff_stream_read) None (Some ringbuff_stream_tell)
        (Some ringbuff_stream_get_length) (Some ringbuff_stream_get_space) (Some ringbuff_stream_write)
        (Some ringbuff_stream_flush) (Some ringbuff_stream_close) (Some ringbuff_stream_destroy)
        (Some ringbuff_stream_get_ringbuf)
  | ringbuff_stream_ops_ext =>
      mk_ops (Some (fun h p => match p with ring_ext_param b n p => ringbuff_stream_init_ext h b n p | _ => fault end))
        (Some ringbuff_stream_open) (Some ringbuff_stream_read) None (Some ringbuff_stream_tell)
        (Some ringbuff_stream_get_length) (Some ringbuff_stream_get_space) (Some ringbuff_stream_write)
        (Some ringbuff_stream_flush) (Some ringbuff_stream_close) (Some ringbuff_stream_destroy_ext)
        (Some ringbuff_stream_get_ringbuf)
  | buffer_stream_ops =>
      mk_ops (Some (fun h p => match p with buffer_param n b p => buffer_stream_init h n b p | _ => fault end))
        (Some buffer_stream_open) (Some buffer_stream_read) (Some buffer_stream_seek) (Some buffer_stream_tell)
        (Some buffer_stream_get_length) None (Some buffer_stream_write) None (Some buffer_stream_close)
        (Some buffer_stream_destory) None
  | zero_stream_ops =>
      mk_ops None (Some _zero_stream_open) (Some _zero_stream_read) None None (Some _zero_stream_get_length)
        (Some _zero_stream_get_space) (Some _zero_stream_write) None (Some _zero_stream_close) None None
  end.

(** [handle->ops->f], and the call of an operation that must not be NULL. *)
Definition op {A} (h : Z) (f : stream_ops_t -> option A) : M (option A) := field h (fun s => f (ops_of (ops s))).
Definition call {A} (h : Z) (f : stream_ops_t -> option A) : M A :=
  o ← op h f; match o with Some x => mret x | None => fault end.

(** ** The interface (stream.c) *)

Definition _stream_check_handle_state (h need_state : Z) : M bool :=
  if h =? NULL then mret false else
  st ← field h state;
  mret (st =? need_state).

(** A stream as mem_malloc returns it, after the assignments of stream_create. *)
Definition new_stream (k : kind) : stream :=
  mk_stream 0 0 STATE_INIT 0 0 false 0 None [None; None] 0 NULL NULL k NULL.

(** [h] is what mem_malloc returns for the stream. *)
Definition stream_create (k : kind) (param : init_param) (h : Z) : M Z :=
  if h =? NULL then mret NULL else
  modify (fun w => set_streams (<[h := new_stream k]> (streams w)) w);;
  init ← op h op_init;
  ret ← match init with Some f => f h param | None => mret 0 end;
  if negb (ret =? 0) then
    modify (fun w => set_streams (delete h (streams w)) w);; mret NULL
  else mret h.

(** [sem] says whether mem_malloc returns memory for the semaphore. *)
Definition stream_open (h mode : Z) (sem : bool) : M Z :=
  i ← _stream_check_handle_state h STATE_INIT;
  c ← (if i : bool then mret true else _stream_check_handle_state h STATE_CLOSE);
  if negb c then mret (- ENOSYS) else
  rd ← op h op_read;
  wr ← op h op_write;
  if (has mode MODE_IN && negb (bool_decide (is_Some rd))) || (has mode MODE_OUT && negb (bool_decide (is_Some wr)))
  then mret (- EPERM) else
  open ← call h op_open;
  res ← open h mode;
  if negb (res =? 0) then mret res else
  if has mode (Z.lor MODE_READ_BLOCK MODE_WRITE_BLOCK) && negb sem then
    assign h (with_sem None);; mret (- ENOMEM)
  else
    (if has mode (Z.lor MODE_READ_BLOCK MODE_WRITE_BLOCK)
     then assign h (fun s => with_finished false (with_sem (Some false) s)) else skip);;
    assign h (with_mode mode);;
    assign h (with_state STATE_OPEN);;
    mret res.

Definition stream_get_length (h : Z) : M Z :=
  o ← _stream_check_handle_state h STATE_OPEN;
  if negb o then mret (- ENOSYS) else
  f ← op h op_get_length;
  match f with
  | Some f => f h
  | None => r ← field h rofs; w ← field h wofs; mret (s32 (w - r))
  end.

(** The function calls itself for the attached stream; [depth] bounds the
    nesting, running out of it is a stack overflow. *)
Fixpoint get_space (depth : nat) (h : Z) : M Z :=
  match depth with
  | O => fault
  | S n =>
      o ← _stream_check_handle_state h STATE_OPEN;
      if negb o then mret (- ENOSYS) else
      f ← op h op_get_space;
      brw ← match f with
            | Some f => f h
            | None =>
                l ← stream_get_length h;
                if 0 <=? l then l ← stream_get_length h; t ← field h total_size; mret (s32 (t - l)) else mret l
            end;
      m ← field h attach_mode;
      a ← field h attach_stream;
      if negb (m =? MODE_OUT) || (a =? NULL) then mret brw else
      attached_space ← get_space n a;
      mret (if brw >? attached_space then attached_space else brw)
  end.

Definition stream_get_space (h : Z) : M Z := fun w => get_space (S (base.size (streams w))) h w.

Fixpoint notify_loop (l : list (option (Z * Z))) (h buf num type : Z) : M unit :=
  match l with
  | [] => skip
  | None :: l' => notify_loop l' h buf num type
  | Some (ob, t) :: l' =>
      (if has t type then
         r ← field h rofs; w ← field h wofs; t ← field h total_size;
         modify (add_note (mk_note ob r w t buf num type))
       else skip);;
      notify_loop l' h buf num type
  end.
Definition notify (h buf num type : Z) : M unit := l ← field h observers; notify_loop l h buf num type.

Definition os_sem_give (h : Z) : M unit :=
  s ← field h sync_sem;
  match s with Some _ => assign h (with_sem (Some true)) | None => fault end.

(** Taking the semaphore waits up to 50 ms; [others] is what other threads do
    meanwhile. *)
Definition os_sem_take (h : Z) (others : world -> world) : M unit :=
  s ← field h sync_sem;
  match s with
  | Some _ => assign h (with_sem (Some false));; modify others
  | None => fault
  end.

(** The write to the attached stream: its result, or [num] if there is none. *)
Definition write_attached (h dir buf num : Z) : M (option Z) :=
  m ← field h attach_mode;
  a ← field h attach_stream;
  if negb (m =? dir) || (a =? NULL) then mret None else
  wr ← call a op_write;
  brw ← wr a buf num;
  mret (Some brw).

(** The wait of a blocking read or write until [ready] holds: [Some r] makes
    the caller return [r].  [waits] is what other threads do in each wait; if
    there is nothing left the call waits for ever. *)
Fixpoint wait_loop (ready : M bool) (may_finish : bool) (waits : list (world -> world)) (try_cnt : nat) (h : Z) : M (option Z) :=
  r ← ready;
  if r : bool then mret None else
  md ← field h mode;
  let timeout := has md MODE_BLOCK_TIMEOUT in
  if timeout && (20 <? try_cnt)%nat then assign h (with_finished true);; mret (Some 0) else
  match waits with
  | [] => os_sem_take h id;; blocked
  | others :: waits' =>
      os_sem_take h others;;
      o ← _stream_check_handle_state h STATE_OPEN;
      if negb o then mret (Some (- ENOSYS)) else
      f ← field h write_finished;
      if may_finish && (f : bool) then mret None else
      wait_loop ready may_finish waits' (if timeout then S try_cnt else try_cnt) h
  end.

Definition stream_read (h buf num : Z) (waits : list (world -> world)) : M Z :=
  o ← _stream_check_handle_state h STATE_OPEN;
  if negb o then mret (- ENOSYS) else
  md ← field h mode;
  if negb (has md MODE_IN) then mret (- EPERM) else
  r ← (if has md MODE_READ_BLOCK
       then wait_loop (l ← stream_get_length h; mret (negb (l <? num))) true waits 0 h else mret None);
  match r with
  | Some v => mret v
  | None =>
      rd ← call h op_read;
      brw ← rd h buf num;
      if brw <? 0 then mret 0 else
      s ← field h sync_sem;
      (if bool_decide (is_Some s) then os_sem_give h else skip);;
      a ← write_attached h MODE_IN buf num;
      match a with
      | Some brw' =>
          if negb (brw' =? num) then mret brw' else
          notify h buf brw' STREAM_NOTIFY_READ;; mret brw'
      | None => notify h buf brw STREAM_NOTIFY_READ;; mret brw
      end
  end.

Definition stream_write (h buf num : Z) (waits : list (world -> world)) : M Z :=
  o ← _stream_check_handle_state h STATE_OPEN;
  if negb o then mret (- ENOSYS) else
  md ← field h mode;
  if negb (has md MODE_OUT) then mret (- EPERM) else
  r ← (if has md MODE_WRITE_BLOCK
       then wait_loop (l ← stream_get_space h; mret (negb (l <? num))) false waits 0 h else mret None);
  match r with
  | Some v => mret v
  | None =>
      notify h buf num STREAM_NOTIFY_PRE_WRITE;;
      wr ← call h op_write;
      brw ← wr h buf num;
      if negb (brw =? num) then mret brw else
      (if num =? 0 then assign h (with_finished true) else skip);;
      s ← field h sync_sem;
      (if bool_decide (is_Some s) then os_sem_give h else skip);;
      a ← write_attached h MODE_OUT buf num;
      match a with
      | Some brw' =>
          if negb (brw' =? num) then mret brw' else
          notify h buf num STREAM_NOTIFY_WRITE;; mret brw'
      | None => notify h buf num STREAM_NOTIFY_WRITE;; mret brw
      end
  end.

(** The wait of a seek in an IN_OUT stream for the writer. *)
Fixpoint seek_wait (waits : list (world -> world)) (target h : Z) : M (option Z) :=
  wo ← field h wofs;
  if negb (u32 target >? wo) then mret None else
  match waits with
  | [] => os_sem_take h id;; blocked
  | others :: waits' =>
      os_sem_take h others;;
      o ← _stream_check_handle_state h STATE_OPEN;
      if negb o then mret (Some (- ENOSYS)) else seek_wait waits' target h
  end.

Definition stream_seek (h offset : Z) (origin : seek_dir) (waits : list (world -> world)) : M Z :=
  o ← _stream_check_handle_state h STATE_OPEN;
  if negb o then mret (- ENOSYS) else
  sk ← op h op_seek;
  match sk with
  | None => mret (- ENOSYS)
  | Some sk =>
      md ← field h mode;
      r ← field h rofs;
      wo ← field h wofs;
      t ← field h total_size;
      match
        match origin with
        | SEEK_DIR_BEG => Some offset
        | SEEK_DIR_CUR => Some (s32 ((if Z.land md MODE_IN_OUT =? MODE_OUT then wo else r) + offset))
        | SEEK_DIR_END => Some (s32 (t + offset))
        | SEEK_DIR_OTHER => None
        end
      with
      | None => mret (-1)
      | Some target_off =>
          w ← (if Z.land md MODE_IN_OUT =? MODE_IN_OUT then seek_wait waits target_off h else mret None);
          match w with
          | Some v => mret v
          | None =>
              brw ← sk h target_off;
              if brw <? 0 then mret brw else
              notify h NULL 0 STREAM_NOTIFY_SEEK;; mret brw
          end
      end
  end.

Definition stream_tell (h : Z) : M Z :=
  o ← _stream_check_handle_state h STATE_OPEN;
  if negb o then mret (- ENOSYS) else
  f ← op h op_tell;
  match f with Some f => f h | None => mret (- ENOSYS) end.

Definition stream_flush (h : Z) : M Z :=
  o ← _stream_check_handle_state h STATE_OPEN;
  if negb o then mret (- ENOSYS) else
  f ← op h op_flush;
  match f with
  | None => mret 0
  | Some f => brw ← f h; if brw <? 0 then mret brw else mret 0
  end.

Definition stream_detach (origin detach_stream : Z) : M Z :=
  o ← _stream_check_handle_state origin STATE_OPEN;
  if negb o then assign detach_stream (with_attached NULL);; mret (- ENOSYS) else
  a ← field origin attach_stream;
  if a =? detach_stream then
    assign origin (with_attach 0 NULL);;
    assign detach_stream (with_attached NULL);;
    mret 0
  else mret (- ENOSYS).

Definition stream_close (h : Z) : M Z :=
  o ← _stream_check_handle_state h STATE_OPEN;
  if negb o then mret (- ENOSYS) else
  a ← field h attached_stream;
  (if negb (a =? NULL) then stream_detach a h;; skip else skip);;
  close ← call h op_close;
  res ← close h;
  s ← field h sync_sem;
  (if bool_decide (is_Some s) then assign h (with_finished true);; os_sem_give h else skip);;
  assign h (with_state STATE_CLOSE);;
  mret res.

Definition stream_destroy (h : Z) : M Z :=
  a ← field h attached_stream;
  (if negb (a =? NULL) then stream_detach a h;; skip else skip);;
  f ← op h op_destroy;
  res ← match f with Some f => f h | None => mret 0 end;
  modify (fun w => set_streams (delete h (streams w)) w);;
  mret res.

Definition stream_check_finished (h : Z) : M bool :=
  o ← _stream_check_handle_state h STATE_OPEN;
  if negb o then mret false else
  f ← field h write_finished;
  if negb f then mret false else
  l ← stream_get_length h;
  mret (l <=? 0).

Fixpoint observer_slot (l : list (option (Z * Z))) (v : Z * Z) : option (list (option (Z * Z))) :=
  match l with
  | [] => None
  | None :: l' => Some (Some v :: l')
  | Some x :: l' => cons (Some x) <$> observer_slot l' v
  end.

Definition stream_set_observer (h observer type : Z) : M Z :=
  o ← _stream_check_handle_state h STATE_OPEN;
  if negb o then mret (- ENOSYS) else
  l ← field h observers;
  match observer_slot l (observer, u8 type) with
  | Some l' => assign h (with_observers l');; mret 0
  | None => mret (- EBUSY)
  end.

Definition stream_attach (origin attach_stream_ attach_type : Z) : M Z :=
  md ← field attach_stream_ mode;
  if negb (has md MODE_OUT) then mret (- EINVAL) else
  o ← _stream_check_handle_state origin STATE_OPEN;
  if negb o then mret (- ENOSYS) else
  om ← field origin mode;
  if negb (has om attach_type) then mret (- EINVAL) else
  a ← field origin attach_stream;
  if a =? NULL then
    assign origin (with_attach attach_type attach_stream_);;
    assign attach_stream_ (with_attached origin);;
    mret 0
  else mret (- ENOSYS).

Definition stream_get_ringbuffer (h : Z) : M Z :=
  if h =? NULL then mret NULL else
  f ← op h op_get_ringbuffer;
  match f with Some f => f h | None => mret NULL end.

Definition ringbuff_stream_create (ring p h : Z) : M Z := stream_create ringbuff_stream_ops (ring_param ring p) h.
Definition ringbuff_stream_create_ext (ring_buff ring_buff_size p h : Z) : M Z :=
  stream_create ringbuff_stream_ops_ext (ring_ext_param ring_buff ring_buff_size p) h.
Definition buffer_stream_create (length base p h : Z) : M Z := stream_create buffer_stream_ops (buffer_param length base p) h.
Definition zero_stream_create (h : Z) : M Z := stream_create zero_stream_ops no_param h.
