(* ===== verification/StreamProof.v ===== *)
(** * Streams: the proofs

    A ring buffer stream is the queue of its ring buffer; an attached stream
    gets a copy of what is written; the life cycle refuses what is out of
    order; what the code does wrong is stated as well. *)

From stdpp Require Import base list numbers gmap.
From S2P Require Import Prelude RingBuf Stream.
Open Scope Z_scope.

(** ** Evaluating the monad *)

Lemma run_bind {A B} (c : M A) (k : A -> M B) w a w' : c w = Ok a w' -> (c ≫= k) w = k a w'.
Proof. intros H. unfold mbind, M_bind. rewrite H. reflexivity. Qed.

Lemma field_eq {A} h (f : stream -> A) w s : streams w !! h = Some s -> field h f w = Ok (f s) w.
Proof. intros H. unfold field. rewrite H. reflexivity. Qed.

Lemma assign_eq h f w s : streams w !! h = Some s -> assign h f w = Ok tt (set_streams (<[h := f s]> (streams w)) w).
Proof. intros H. unfold assign. rewrite H. reflexivity. Qed.

Lemma op_eq {A} h (f : stream_ops_t -> option A) w s : streams w !! h = Some s -> op h f w = Ok (f (ops_of (ops s))) w.
Proof. intros H. unfold op. rewrite (field_eq _ _ _ _ H). reflexivity. Qed.

Lemma call_eq {A} h (f : stream_ops_t -> option A) x w s : streams w !! h = Some s -> f (ops_of (ops s)) = Some x -> call h f w = Ok x w.
Proof. intros H E. unfold call. rewrite (run_bind _ _ _ _ _ (op_eq _ _ _ _ H)), E. reflexivity. Qed.

Lemma check_state_eq h n w s : h <> NULL -> streams w !! h = Some s -> _stream_check_handle_state h n w = Ok (state s =? n) w.
Proof.
  intros Hh H. unfold _stream_check_handle_state. rewrite (proj2 (Z.eqb_neq _ _) Hh).
  rewrite (run_bind _ _ _ _ _ (field_eq _ _ _ _ H)). reflexivity.
Qed.

Definition add_notes (l : list note) (w : world) : world :=
  mk_world (streams w) (infos w) (rings w) (wmem w) (pool_base w) (bit_mask w) (l ++ notes w).

(** Observers only see. *)
Lemma notify_loop_eq l h buf num t w s : streams w !! h = Some s ->
  exists ns, notify_loop l h buf num t w = Ok tt (add_notes ns w).
Proof.
  intros H. revert w H. induction l as [|[[ob t']|] l IH]; intros w H; cbn [notify_loop].
  - exists []. destruct w. reflexivity.
  - destruct (has t' t).
    + set (n := mk_note ob (rofs s) (wofs s) (total_size s) buf num t).
      destruct (IH (add_note n w) H) as [ns Hns]. exists (ns ++ [n]).
      rewrite (run_bind _ _ w tt (add_note n w)).
      * rewrite Hns. unfold add_notes, add_note. cbn. rewrite <- app_assoc. reflexivity.
      * rewrite !(run_bind _ _ _ _ _ (field_eq _ _ _ _ H)). reflexivity.
    + rewrite (run_bind skip _ w tt w eq_refl). apply IH, H.
  - apply IH, H.
Qed.

Lemma notify_eq h buf num t w s : streams w !! h = Some s -> exists ns, notify h buf num t w = Ok tt (add_notes ns w).
Proof. intros H. unfold notify. rewrite (run_bind _ _ _ _ _ (field_eq _ _ _ _ H)). apply notify_loop_eq with s, H. Qed.

(** ** A ring buffer stream *)

Definition ring_kind (k : kind) : Prop := k = ringbuff_stream_ops \/ k = ringbuff_stream_ops_ext.

(** The handle [h] points to [s], whose data points to the ring buffer [b] at [r]. *)
Record ring_at (w : world) (h : Z) (s : stream) (r : Z) (b : acts_ringbuf) : Prop := mk_ring_at {
  at_handle : h <> NULL;
  at_stream : streams w !! h = Some s;
  at_ops : ring_kind (ops s);
  at_data : data s <> NULL;
  at_info : infos w !! data s = Some (ringbuff_info_t r);
  at_ring : rings w !! r = Some b
}.

Lemma ring_ops_read s : ring_kind (ops s) -> op_read (ops_of (ops s)) = Some ringbuff_stream_read.
Proof. intros [-> | ->]; reflexivity. Qed.
Lemma ring_ops_write s : ring_kind (ops s) -> op_write (ops_of (ops s)) = Some ringbuff_stream_write.
Proof. intros [-> | ->]; reflexivity. Qed.
Lemma ring_ops_length s : ring_kind (ops s) -> op_get_length (ops_of (ops s)) = Some ringbuff_stream_get_length.
Proof. intros [-> | ->]; reflexivity. Qed.
Lemma ring_ops_space s : ring_kind (ops s) -> op_get_space (ops_of (ops s)) = Some ringbuff_stream_get_space.
Proof. intros [-> | ->]; reflexivity. Qed.
Lemma ring_ops_flush s : ring_kind (ops s) -> op_flush (ops_of (ops s)) = Some ringbuff_stream_flush.
Proof. intros [-> | ->]; reflexivity. Qed.

(** The world after a transfer: ring buffer, memory and offsets have changed. *)
Definition transferred (w : world) (h : Z) (s : stream) (r : Z) (b' : acts_ringbuf) (m' : mem) : world :=
  set_streams (<[h := with_offsets (head b') (tail b') s]> (streams w)) (set_mem m' (set_ring r b' w)).

(** The prefix common to all operations. *)
Lemma ring_prefix {A} (k : Z -> acts_ringbuf -> M A) (e : M A) w h s r b : ring_at w h s r b ->
  (d ← field h data; if d =? NULL then e else r ← info_ring d; b ← get_ring r; k r b) w = k r b w.
Proof.
  intros [Hh Hs Ho Hd Hi Hr]. rewrite (run_bind _ _ _ _ _ (field_eq _ _ _ _ Hs)), (proj2 (Z.eqb_neq _ _) Hd).
  unfold mbind, M_bind, info_ring, get_info, get_ring. unfold mbind, M_bind. rewrite Hi. cbn. rewrite Hr. reflexivity.
Qed.

Lemma update_offsets_eq w h s r b : streams w !! h = Some s -> rings w !! r = Some b ->
  update_offsets h r w = Ok tt (set_streams (<[h := with_offsets (head b) (tail b) s]> (streams w)) w).
Proof.
  intros Hs Hr. unfold update_offsets. rewrite (run_bind _ _ _ b w) by (unfold get_ring; rewrite Hr; reflexivity).
  apply (assign_eq _ _ _ _ Hs).
Qed.

Lemma finish_transfer {A} (v : A) w h s r b b' m' : ring_at w h s r b ->
  (modify (set_ring r b');; modify (set_mem m');; update_offsets h r;; mret v) w = Ok v (transferred w h s r b' m').
Proof.
  intros [Hh Hs Ho Hd Hi Hr]. rewrite (run_bind (modify _) _ w tt _ eq_refl). rewrite (run_bind (modify _) _ _ tt _ eq_refl).
  erewrite run_bind; [reflexivity|]. apply (update_offsets_eq (set_mem m' (set_ring r b' w)) h s r b'); [exact Hs|].
  apply lookup_insert_eq.
Qed.

Lemma ring_read_eq w h s r b buf n ret b' m' : ring_at w h s r b ->
  acts_ringbuf_get b (wmem w) buf (u32 n) = (ret, b', m') ->
  ringbuff_stream_read h buf n w = Ok (s32 ret) (transferred w h s r b' m').
Proof.
  intros H E. unfold ringbuff_stream_read. rewrite (ring_prefix _ _ _ _ _ _ _ H).
  rewrite (run_bind (get wmem) _ w _ _ eq_refl), E. apply (finish_transfer _ _ _ _ _ _ _ _ H).
Qed.

Lemma ring_write_eq w h s r b buf n ret b' m' : ring_at w h s r b -> buf <> NULL ->
  acts_ringbuf_put b (wmem w) buf (u32 n) = (ret, b', m') ->
  ringbuff_stream_write h buf n w = Ok (s32 ret) (transferred w h s r b' m').
Proof.
  intros H Hb E. unfold ringbuff_stream_write. rewrite (ring_prefix _ _ _ _ _ _ _ H).
  rewrite (run_bind (get wmem) _ w _ _ eq_refl), (proj2 (Z.eqb_neq _ _) Hb), E. apply (finish_transfer _ _ _ _ _ _ _ _ H).
Qed.

Lemma ring_length_eq w h s r b : ring_at w h s r b -> ringbuff_stream_get_length h w = Ok (s32 (acts_ringbuf_length b)) w.
Proof. intros H. unfold ringbuff_stream_get_length. rewrite (ring_prefix _ _ _ _ _ _ _ H). reflexivity. Qed.

Lemma ring_space_eq w h s r b : ring_at w h s r b -> ringbuff_stream_get_space h w = Ok (s32 (acts_ringbuf_space b)) w.
Proof. intros H. unfold ringbuff_stream_get_space. rewrite (ring_prefix _ _ _ _ _ _ _ H). reflexivity. Qed.

Lemma ring_flush_eq w h s r b ret b' : ring_at w h s r b ->
  acts_ringbuf_drop b (u32 (s32 (acts_ringbuf_length b))) = (ret, b') ->
  ringbuff_stream_flush h w = Ok (s32 ret) (set_ring r b' w).
Proof. intros H E. unfold ringbuff_stream_flush. rewrite (ring_prefix _ _ _ _ _ _ _ H), E. reflexivity. Qed.

(** ** The interface on a ring buffer stream *)

(** Open for reading and writing, without waiting. *)
Record opened (s : stream) : Prop := mk_opened {
  op_state : state s = STATE_OPEN;
  op_in : has (mode s) MODE_IN = true;
  op_out : has (mode s) MODE_OUT = true;
  op_rblock : has (mode s) MODE_READ_BLOCK = false;
  op_wblock : has (mode s) MODE_WRITE_BLOCK = false;
  op_sem : sync_sem s = None
}.

Lemma opened_offsets x y s : opened s -> opened (with_offsets x y s).
Proof. intros []; split; assumption. Qed.

Lemma opened_finished x s : opened s -> opened (with_finished x s).
Proof. intros []; split; assumption. Qed.

Definition finished_if (n : Z) (s : stream) : stream := if n =? 0 then with_finished true s else s.

Lemma opened_finished_if n s : opened s -> opened (finished_if n s).
Proof. unfold finished_if. destruct (n =? 0); [apply opened_finished|auto]. Qed.

Lemma ring_at_notes w h s r b ns : ring_at w h s r b -> ring_at (add_notes ns w) h s r b.
Proof. intros []; split; assumption. Qed.

Lemma ring_at_transferred w h s r b b' m' : ring_at w h s r b ->
  ring_at (transferred w h s r b' m') h (with_offsets (head b') (tail b') s) r b'.
Proof. intros []; split; auto; [apply lookup_insert_eq|apply lookup_insert_eq]. Qed.

Lemma ring_at_finished n w h s r b : ring_at w h s r b ->
  ring_at (set_streams (<[h := finished_if n s]> (streams w)) w) h (finished_if n s) r b.
Proof. unfold finished_if. intros []; destruct (n =? 0); split; auto; apply lookup_insert_eq. Qed.

(** A write that stores all of its [n] bytes goes on with the attached stream. *)
Definition write_rest (h buf n v : Z) : M Z :=
  a ← write_attached h MODE_OUT buf n;
  match a with
  | Some brw' => if negb (brw' =? n) then mret brw' else notify h buf n STREAM_NOTIFY_WRITE;; mret brw'
  | None => notify h buf n STREAM_NOTIFY_WRITE;; mret v
  end.

Definition wrote (w : world) (h : Z) (s : stream) (r n : Z) (b' : acts_ringbuf) (m' : mem) : world :=
  let w' := transferred w h s r b' m' in
  set_streams (<[h := finished_if n (with_offsets (head b') (tail b') s)]> (streams w')) w'.

Lemma stream_write_eq w h s r b buf n waits ret b' m' : ring_at w h s r b -> opened s -> buf <> NULL ->
  acts_ringbuf_put b (wmem w) buf (u32 n) = (ret, b', m') ->
  exists ns, stream_write h buf n waits w =
    if s32 ret =? n then write_rest h buf n (s32 ret) (wrote (add_notes ns w) h s r n b' m')
    else Ok (s32 ret) (transferred (add_notes ns w) h s r b' m').
Proof.
  intros H [Hst Hin Hout Hrb Hwb Hsem] Hb E. pose proof H as [Hh Hs Ho Hd Hi Hr].
  destruct (notify_eq h buf n STREAM_NOTIFY_PRE_WRITE w s Hs) as [ns Hns]. exists ns. unfold stream_write.
  rewrite (run_bind _ _ _ _ _ (check_state_eq _ _ _ _ Hh Hs)), Hst. cbn [negb Z.eqb].
  change (STATE_OPEN =? STATE_OPEN) with true. cbn [negb].
  rewrite (run_bind _ _ _ _ _ (field_eq _ _ _ _ Hs)), Hout, Hwb. cbn [negb].
  rewrite (run_bind (mret None) _ w None w eq_refl), (run_bind _ _ _ _ _ Hns).
  pose proof (ring_at_notes _ _ _ _ _ ns H) as Hn.
  rewrite (run_bind _ _ _ _ _ (call_eq _ _ _ _ _ (at_stream _ _ _ _ _ Hn) (ring_ops_write _ Ho))).
  rewrite (run_bind _ _ _ _ _ (ring_write_eq _ _ _ _ _ _ _ _ _ _ Hn Hb E)).
  destruct (s32 ret =? n); [|reflexivity]. cbn [negb]. pose proof (ring_at_transferred _ _ _ _ _ b' m' Hn) as Ht.
  set (w2 := transferred (add_notes ns w) h s r b' m') in *. set (s2 := with_offsets (head b') (tail b') s) in *.
  assert (Hf : (if n =? 0 then assign h (with_finished true) else skip) w2 =
    Ok tt (set_streams (<[h := finished_if n s2]> (streams w2)) w2)).
  { unfold finished_if. destruct (n =? 0); [apply (assign_eq _ _ _ _ (at_stream _ _ _ _ _ Ht))|].
    rewrite insert_id by apply (at_stream _ _ _ _ _ Ht). destruct w2; reflexivity. }
  rewrite (run_bind _ _ _ _ _ Hf). pose proof (ring_at_finished n _ _ _ _ _ Ht) as Hw.
  rewrite (run_bind _ _ _ _ _ (field_eq _ _ _ _ (at_stream _ _ _ _ _ Hw))).
  replace (sync_sem (finished_if n s2)) with (@None bool) by (unfold finished_if; destruct (n =? 0); symmetry; exact Hsem).
  reflexivity.
Qed.

(** Nothing is attached for the direction [dir]. *)
Definition unattached (dir : Z) (s : stream) : Prop := attach_mode s <> dir \/ attach_stream s = NULL.

Lemma write_attached_none h dir buf n w s : streams w !! h = Some s -> unattached dir s -> write_attached h dir buf n w = Ok None w.
Proof.
  intros Hs Hu. unfold write_attached. rewrite !(run_bind _ _ _ _ _ (field_eq _ _ _ _ Hs)).
  replace (negb _ || _) with true; [reflexivity|]. symmetry. apply orb_true_iff.
  destruct Hu as [Hu|Hu]; [left; apply negb_true_iff, Z.eqb_neq, Hu|right; apply Z.eqb_eq, Hu].
Qed.

Lemma write_rest_none h buf n v w s : streams w !! h = Some s -> unattached MODE_OUT s ->
  exists ns, write_rest h buf n v w = Ok v (add_notes ns w).
Proof.
  intros Hs Hu. unfold write_rest. rewrite (run_bind _ _ _ _ _ (write_attached_none _ _ buf n _ _ Hs Hu)).
  destruct (notify_eq h buf n STREAM_NOTIFY_WRITE w s Hs) as [ns Hns]. exists ns. rewrite (run_bind _ _ _ _ _ Hns). reflexivity.
Qed.

Lemma stream_read_eq w h s r b buf n waits ret b' m' : ring_at w h s r b -> opened s ->
  acts_ringbuf_get b (wmem w) buf (u32 n) = (ret, b', m') -> 0 <= s32 ret ->
  stream_read h buf n waits w =
    (a ← write_attached h MODE_IN buf n;
     match a with
     | Some brw' => if negb (brw' =? n) then mret brw' else notify h buf brw' STREAM_NOTIFY_READ;; mret brw'
     | None => notify h buf (s32 ret) STREAM_NOTIFY_READ;; mret (s32 ret)
     end) (transferred w h s r b' m').
Proof.
  intros H [Hst Hin Hout Hrb Hwb Hsem] E Hret. pose proof H as [Hh Hs Ho Hd Hi Hr]. unfold stream_read.
  rewrite (run_bind _ _ _ _ _ (check_state_eq _ _ _ _ Hh Hs)), Hst. change (STATE_OPEN =? STATE_OPEN) with true. cbn [negb].
  rewrite (run_bind _ _ _ _ _ (field_eq _ _ _ _ Hs)), Hin, Hrb. cbn [negb]. rewrite (run_bind (mret None) _ w None w eq_refl).
  rewrite (run_bind _ _ _ _ _ (call_eq _ _ _ _ _ Hs (ring_ops_read _ Ho))).
  rewrite (run_bind _ _ _ _ _ (ring_read_eq _ _ _ _ _ _ _ _ _ _ H E)).
  destruct (Z.ltb_spec (s32 ret) 0); [lia|].
  pose proof (ring_at_transferred _ _ _ _ _ b' m' H) as Ht.
  rewrite (run_bind _ _ _ _ _ (field_eq _ _ _ _ (at_stream _ _ _ _ _ Ht))).
  replace (sync_sem (with_offsets _ _ s)) with (@None bool) by (symmetry; exact Hsem). reflexivity.
Qed.

Lemma stream_length_eq w h s r b : ring_at w h s r b -> state s = STATE_OPEN ->
  stream_get_length h w = Ok (s32 (acts_ringbuf_length b)) w.
Proof.
  intros H Hst. pose proof H as [Hh Hs Ho Hd Hi Hr]. unfold stream_get_length.
  rewrite (run_bind _ _ _ _ _ (check_state_eq _ _ _ _ Hh Hs)), Hst. change (STATE_OPEN =? STATE_OPEN) with true. cbn [negb].
  rewrite (run_bind _ _ _ _ _ (op_eq _ _ _ _ Hs)), (ring_ops_length _ Ho). apply (ring_length_eq _ _ _ _ _ H).
Qed.

Lemma get_space_eq n w h s r b : ring_at w h s r b -> state s = STATE_OPEN ->
  get_space (S n) h w =
    let sp := s32 (acts_ringbuf_space b) in
    if negb (attach_mode s =? MODE_OUT) || (attach_stream s =? NULL) then Ok sp w
    else (attached_space ← get_space n (attach_stream s);
          mret (if sp >? attached_space then attached_space else sp)) w.
Proof.
  intros H Hst. pose proof H as [Hh Hs Ho Hd Hi Hr]. cbn [get_space].
  rewrite (run_bind _ _ _ _ _ (check_state_eq _ _ _ _ Hh Hs)), Hst. change (STATE_OPEN =? STATE_OPEN) with true. cbn [negb].
  rewrite (run_bind _ _ _ _ _ (op_eq _ _ _ _ Hs)), (ring_ops_space _ Ho).
  rewrite (run_bind _ _ _ _ _ (ring_space_eq _ _ _ _ _ H)), !(run_bind _ _ _ _ _ (field_eq _ _ _ _ Hs)). cbv zeta.
  destruct (negb _ || _); reflexivity.
Qed.

Lemma stream_space_plain w h s r b : ring_at w h s r b -> state s = STATE_OPEN -> unattached MODE_OUT s ->
  stream_get_space h w = Ok (s32 (acts_ringbuf_space b)) w.
Proof.
  intros H Hst Hu. unfold stream_get_space. rewrite (get_space_eq _ _ _ _ _ _ H Hst). cbv zeta.
  replace (negb _ || _) with true; [reflexivity|]. symmetry. apply orb_true_iff.
  destruct Hu as [Hu|Hu]; [left; apply negb_true_iff, Z.eqb_neq, Hu|right; apply Z.eqb_eq, Hu].
Qed.

Lemma stream_flush_eq w h s r b ret b' : ring_at w h s r b -> state s = STATE_OPEN ->
  acts_ringbuf_drop b (u32 (s32 (acts_ringbuf_length b))) = (ret, b') -> 0 <= s32 ret ->
  stream_flush h w = Ok 0 (set_ring r b' w).
Proof.
  intros H Hst E Hret. pose proof H as [Hh Hs Ho Hd Hi Hr]. unfold stream_flush.
  rewrite (run_bind _ _ _ _ _ (check_state_eq _ _ _ _ Hh Hs)), Hst. change (STATE_OPEN =? STATE_OPEN) with true. cbn [negb].
  rewrite (run_bind _ _ _ _ _ (op_eq _ _ _ _ Hs)), (ring_ops_flush _ Ho).
  rewrite (run_bind _ _ _ _ _ (ring_flush_eq _ _ _ _ _ _ _ H E)). destruct (Z.ltb_spec (s32 ret) 0); [lia|]. reflexivity.
Qed.

(** ** A ring buffer stream is a bounded queue *)

Inductive stream_call : Type := SWrite (l : list Z) | SRead (n : Z) | SFlush | SLength | SSpace.

Section queue.
Context (h user usz cap : Z).

(** The caller's bytes are at [user]; what a read delivers is part of what is seen. *)
Definition run_call (c : stream_call) : M (Z * list Z) :=
  match c with
  | SWrite l =>
      modify (fun w => set_mem (store (wmem w) user l) w);;
      v ← stream_write h user (Z.of_nat (length l)) []; mret (v, [])
  | SRead n => v ← stream_read h user n []; m ← get wmem; mret (v, load m user v)
  | SFlush => v ← stream_flush h; mret (v, [])
  | SLength => v ← stream_get_length h; mret (v, [])
  | SSpace => v ← stream_get_space h; mret (v, [])
  end.

Fixpoint run_calls (l : list stream_call) : M (list (Z * list Z)) :=
  match l with
  | [] => mret []
  | c :: l' => o ← run_call c; os ← run_calls l'; mret (o :: os)
  end.

Definition spec_call (c : stream_call) (q : list Z) : (Z * list Z) * list Z :=
  match c with
  | SWrite l => queue_step cap (OpPut l) q
  | SRead n => queue_step cap (OpGet n) q
  | SFlush => ((0, []), [])
  | SLength => ((Z.of_nat (length q), []), q)
  | SSpace => ((cap - Z.of_nat (length q), []), q)
  end.

Fixpoint spec_calls (l : list stream_call) (q : list Z) : list (Z * list Z) * list Z :=
  match l with
  | [] => ([], q)
  | c :: l' => let '(o, q1) := spec_call c q in let '(os, q2) := spec_calls l' q1 in (o :: os, q2)
  end.

Definition call_fits (c : stream_call) : Prop :=
  match c with SWrite l => Z.of_nat (length l) <= usz | SRead n => 0 <= n <= usz | _ => True end.

(** The open stream [h] holds the bytes [q]. *)
Definition queue_at (w : world) (q : list Z) : Prop :=
  exists s r b, ring_at w h s r b /\ opened s /\ unattached MODE_IN s /\ unattached MODE_OUT s /\
    simulates user usz cap (b, wmem w) q.

Hypothesis user_ok : user <> NULL.
Hypothesis usz_ok : 0 <= usz < 2 ^ 31.
Hypothesis cap_ok : 0 <= cap < 2 ^ 31.

Lemma queue_at_notes ns w q : queue_at w q -> queue_at (add_notes ns w) q.
Proof. intros (s & r & b & H & R). exists s, r, b. split; [apply ring_at_notes, H|exact R]. Qed.

Lemma queue_at_transferred w s r b b' m' q : ring_at w h s r b -> opened s -> unattached MODE_IN s -> unattached MODE_OUT s ->
  simulates user usz cap (b', m') q -> queue_at (transferred w h s r b' m') q.
Proof.
  intros H Ho Hi Hu S. eexists _, r, b'. split; [apply (ring_at_transferred _ _ _ _ _ _ _ H)|].
  split; [apply opened_offsets, Ho|]. auto.
Qed.

Lemma queue_at_wrote n w s r b b' m' q : ring_at w h s r b -> opened s -> unattached MODE_IN s -> unattached MODE_OUT s ->
  simulates user usz cap (b', m') q -> queue_at (wrote w h s r n b' m') q.
Proof.
  intros H Ho Hi Hu S. eexists _, r, b'. split; [apply ring_at_finished, (ring_at_transferred _ _ _ _ _ _ _ H)|].
  split; [apply opened_finished_if, opened_offsets, Ho|].
  unfold finished_if. destruct (n =? 0); auto.
Qed.

Lemma simulates_length b m q : simulates user usz cap (b, m) q -> acts_ringbuf_length b = Z.of_nat (length q) /\ wf b /\ RingBuf.size b = cap.
Proof. intros (Hw & Hc & _ & Hq). cbn in *. rewrite <- Hq, contents_lengthZ. auto. Qed.

Lemma write_step l w q : Z.of_nat (length l) <= usz -> queue_at w q ->
  exists w', run_call (SWrite l) w = Ok (spec_call (SWrite l) q).1 w' /\ queue_at w' (spec_call (SWrite l) q).2.
Proof.
  intros Hl (s & r & b & H & Ho & Hi & Hu & S). set (w0 := set_mem (store (wmem w) user l) w).
  assert (H0 : ring_at w0 h s r b) by (destruct H; split; assumption).
  destruct (step_simulates user usz user_ok cap (OpPut l) (b, wmem w) q Hl S) as [E S'].
  cbn [rb_step] in E, S'. destruct (acts_ringbuf_put b (store (wmem w) user l) user (Z.of_nat (length l))) as [[ret b'] m'] eqn:P.
  cbn [fst snd] in E, S'.
  destruct (stream_write_eq w0 h s r b user (Z.of_nat (length l)) [] ret b' m' H0 Ho user_ok) as [ns Hw];
    [rewrite u32_small by lia; exact P|].
  cbn [run_call]. erewrite (run_bind (modify _)) by reflexivity. fold w0.
  assert (Hr : s32 ret = ret).
  { apply s32_small. unfold queue_step in E. destruct (_ <=? _); cbn in E; injection E as ->; lia. }
  rewrite Hr in Hw. rewrite (eq_sym E : (spec_call (SWrite l) q).1 = (ret, [])).
  pose proof (ring_at_notes _ _ _ _ _ ns H0) as Hn. destruct (Z.eqb_spec ret (Z.of_nat (length l))) as [->|Hne].
  - pose proof (queue_at_wrote (Z.of_nat (length l)) _ _ _ _ _ _ _ Hn Ho Hi Hu S') as HQ.
    destruct HQ as (s2 & r2 & b2 & H2 & R2).
    destruct (write_rest_none h user (Z.of_nat (length l)) (Z.of_nat (length l)) _ _ (at_stream _ _ _ _ _ H2)
      (proj1 (proj2 (proj2 R2)))) as [ns2 Hns2].
    eexists. split; [rewrite (run_bind _ _ _ _ _ (eq_trans Hw Hns2)); reflexivity|].
    apply queue_at_notes. exists s2, r2, b2. auto.
  - eexists. split; [rewrite (run_bind _ _ _ _ _ Hw); reflexivity|].
    apply (queue_at_transferred _ _ _ _ _ _ _ Hn Ho Hi Hu S').
Qed.

Lemma read_step n w q : 0 <= n <= usz -> queue_at w q ->
  exists w', run_call (SRead n) w = Ok (spec_call (SRead n) q).1 w' /\ queue_at w' (spec_call (SRead n) q).2.
Proof.
  intros Hl (s & r & b & H & Ho & Hi & Hu & S).
  destruct (step_simulates user usz user_ok cap (OpGet n) (b, wmem w) q Hl S) as [E S'].
  cbn [rb_step] in E, S'. destruct (acts_ringbuf_get b (wmem w) user n) as [[ret b'] m'] eqn:P. cbn [fst snd] in E, S'.
  assert (Hr : s32 ret = ret /\ 0 <= ret).
  { unfold queue_step in E. destruct (_ <=? _); cbn in E; injection E as -> _; (split; [apply s32_small|]); lia. }
  destruct Hr as [Hr Hr0].
  pose proof (stream_read_eq w h s r b user n [] ret b' m' H Ho) as Hrd. rewrite Hr, u32_small in Hrd by lia.
  specialize (Hrd P Hr0). pose proof (queue_at_transferred _ _ _ _ _ _ _ H Ho Hi Hu S') as HQ.
  pose proof (ring_at_transferred _ _ _ _ _ b' m' H) as Ht.
  rewrite (run_bind _ _ _ _ _ (write_attached_none _ _ user n _ _ (at_stream _ _ _ _ _ Ht) Hi)) in Hrd.
  destruct (notify_eq h user ret STREAM_NOTIFY_READ _ _ (at_stream _ _ _ _ _ Ht)) as [ns Hns].
  rewrite (run_bind _ _ _ _ _ Hns) in Hrd. cbn [run_call].
  rewrite (eq_sym E : (spec_call (SRead n) q).1 = (ret, load m' user ret)).
  eexists. split; [rewrite (run_bind _ _ _ _ _ Hrd); reflexivity|]. apply queue_at_notes, HQ.
Qed.

Lemma flush_step w q : queue_at w q -> exists w', run_call SFlush w = Ok (0, []) w' /\ queue_at w' [].
Proof.
  intros (s & r & b & H & Ho & Hi & Hu & S). destruct (simulates_length _ _ _ S) as (Hlen & Hwf & Hsz).
  pose proof (wf_length _ Hwf) as Hle. pose proof (length_range b) as Hge.
  assert (Hd : acts_ringbuf_drop b (u32 (s32 (acts_ringbuf_length b))) = acts_ringbuf_drop_all b).
  { rewrite s32_small, u32_small by lia. unfold acts_ringbuf_drop, acts_ringbuf_drop_all.
    rewrite Z.gtb_ltb, (proj2 (Z.ltb_ge _ _)) by lia. reflexivity. }
  destruct (step_simulates user usz user_ok cap OpDropAll (b, wmem w) q I S) as [E S'].
  cbn [rb_step] in E, S'. destruct (acts_ringbuf_drop_all b) as [ret b'] eqn:P. cbn [fst snd queue_step] in E, S'.
  injection E as ->. cbn [run_call]. eexists. split.
  - rewrite (run_bind _ _ _ _ _ (stream_flush_eq _ _ _ _ _ _ _ H (op_state _ Ho) Hd ltac:(rewrite s32_small by lia; lia))). reflexivity.
  - exists s, r, b'. split; [destruct H; split; auto; apply lookup_insert_eq|]. auto.
Qed.

Lemma call_step c w q : call_fits c -> queue_at w q ->
  exists w', run_call c w = Ok (spec_call c q).1 w' /\ queue_at w' (spec_call c q).2.
Proof.
  intros Hf HQ. destruct c as [l|n| | |]; [apply write_step; assumption|apply read_step; assumption|apply (flush_step w q HQ)|..];
    pose proof HQ as (s & r & b & H & Ho & Hi & Hu & S); destruct (simulates_length _ _ _ S) as (Hlen & Hwf & Hsz);
    pose proof (wf_length _ Hwf) as Hle; pose proof (length_range b) as Hge; exists w; (split; [|exact HQ]);
    cbn [run_call spec_call fst].
  - rewrite (run_bind _ _ _ _ _ (stream_length_eq _ _ _ _ _ H (op_state _ Ho))), s32_small by lia. rewrite Hlen. reflexivity.
  - rewrite (run_bind _ _ _ _ _ (stream_space_plain _ _ _ _ _ H (op_state _ Ho) Hu)).
    rewrite (space_eq _ Hwf), Hlen, Hsz, s32_small by lia. reflexivity.
Qed.

Lemma calls_refine l w q : Forall call_fits l -> queue_at w q ->
  exists w', run_calls l w = Ok (spec_calls l q).1 w' /\ queue_at w' (spec_calls l q).2.
Proof.
  intros Hf. revert w q. induction Hf as [|c l Hc _ IH]; intros w q HQ; [exists w; auto|].
  destruct (call_step c w q Hc HQ) as (w1 & E1 & H1). cbn [run_calls spec_calls].
  destruct (spec_call c q) as [o q1]. cbn [fst snd] in *. destruct (IH w1 q1 H1) as (w2 & E2 & H2).
  destruct (spec_calls l q1) as [os q2]. exists w2. split; [|exact H2].
  rewrite (run_bind _ _ _ _ _ E1), (run_bind _ _ _ _ _ E2). reflexivity.
Qed.
End queue.

(** ** Creating and opening *)

Definition created (w : world) (ring p h : Z) (b : acts_ringbuf) : world :=
  set_streams (<[h := with_data RINGBUFFER_STREAM_IMAG_NUM p (acts_ringbuf_size b) (new_stream ringbuff_stream_ops)]> (streams w))
    (set_infos (<[p := ringbuff_info_t ring]> (infos w)) w).

Lemma create_eq w ring p h b : rings w !! ring = Some b -> h <> NULL -> p <> NULL ->
  ringbuff_stream_create ring p h w = Ok h (created w ring p h b).
Proof.
  intros Hr Hh Hp. unfold ringbuff_stream_create, stream_create. rewrite (proj2 (Z.eqb_neq _ _) Hh).
  erewrite run_bind by reflexivity. erewrite run_bind by (apply op_eq, lookup_insert_eq). cbn [ops new_stream ops_of op_init].
  unfold ringbuff_stream_init. rewrite (proj2 (Z.eqb_neq _ _) Hp).
  set (w1 := set_infos (<[p := ringbuff_info_t ring]> (infos w)) (set_streams (<[h := new_stream ringbuff_stream_ops]> (streams w)) w)).
  erewrite (run_bind (modify (fun w => set_infos _ w) ≫= _)).
  2: { erewrite run_bind by reflexivity. fold w1. erewrite run_bind by (unfold get_ring; cbn; rewrite Hr; reflexivity).
       erewrite run_bind by (apply assign_eq; cbn; apply lookup_insert_eq). reflexivity. }
  cbn [negb Z.eqb]. unfold w1, created. cbn. rewrite insert_insert_eq. reflexivity.
Qed.

Definition open_mode (md : Z) (s : stream) : stream := with_state STATE_OPEN (with_mode md (with_mode md s)).

(** Opening for reading and writing without waiting. *)
Lemma open_eq w h s sem : h <> NULL -> streams w !! h = Some s -> ring_kind (ops s) -> data s <> NULL ->
  state s = STATE_INIT \/ state s = STATE_CLOSE ->
  stream_open h MODE_IN_OUT sem w = Ok 0 (set_streams (<[h := open_mode MODE_IN_OUT s]> (streams w)) w).
Proof.
  intros Hh Hs Ho Hd Hst. unfold stream_open. rewrite (run_bind _ _ _ _ _ (check_state_eq _ _ _ _ Hh Hs)).
  assert (Hc : (if state s =? STATE_INIT then mret true else _stream_check_handle_state h STATE_CLOSE) w = Ok true w).
  { destruct Hst as [-> | E]; [reflexivity|]. rewrite E. cbn. rewrite (check_state_eq _ _ _ _ Hh Hs), E. reflexivity. }
  rewrite (run_bind _ _ _ _ _ Hc). cbn [negb]. rewrite !(run_bind _ _ _ _ _ (op_eq _ _ _ _ Hs)).
  rewrite (ring_ops_read _ Ho), (ring_ops_write _ Ho). cbn [andb orb].
  rewrite !bool_decide_eq_true_2 by eauto. cbn [negb andb orb]. rewrite !andb_false_r. cbn [orb].
  assert (Hop : op_open (ops_of (ops s)) = Some ringbuff_stream_open) by (destruct Ho as [-> | ->]; reflexivity).
  rewrite (run_bind _ _ _ _ _ (call_eq _ _ _ _ _ Hs Hop)). unfold ringbuff_stream_open at 1.
  set (w1 := set_streams (<[h := with_mode MODE_IN_OUT s]> (streams w)) w).
  erewrite (run_bind (field h data ≫= _) _ w 0 w1).
  2: { rewrite (run_bind _ _ _ _ _ (field_eq _ _ _ _ Hs)), (proj2 (Z.eqb_neq _ _) Hd).
       rewrite (run_bind _ _ _ _ _ (assign_eq _ _ _ _ Hs)). reflexivity. }
  cbn [negb Z.eqb]. change (has MODE_IN_OUT _) with false. cbn [andb].
  rewrite (run_bind skip _ w1 tt w1 eq_refl). erewrite run_bind by (apply assign_eq, lookup_insert_eq).
  erewrite run_bind by (apply assign_eq, lookup_insert_eq). unfold w1. cbn. rewrite !insert_insert_eq. reflexivity.
Qed.

Lemma open_mode_opened s : sync_sem s = None -> opened (open_mode MODE_IN_OUT s).
Proof. intros H. split; try reflexivity. exact H. Qed.

(** C9: A ring buffer stream that is created, opened for reading and writing
    and then used through stream_read, stream_write, stream_flush,
    stream_get_length and stream_get_space behaves as a bounded queue of the
    size of the ring buffer that holds what the ring buffer held: the values
    returned and the bytes delivered are those of the queue, and no call
    follows a NULL pointer. *)
Theorem stream_refines_queue (w : world) (ring p h user usz : Z) (b : acts_ringbuf) (sem : bool) (l : list stream_call) :
  rings w !! ring = Some b -> wf b -> RingBuf.size b < 2 ^ 31 -> apart b user usz -> user <> NULL -> 0 <= usz < 2 ^ 31 ->
  h <> NULL -> p <> NULL -> Forall (call_fits usz) l ->
  let cap := RingBuf.size b in
  exists w', (ringbuff_stream_create ring p h;; stream_open h MODE_IN_OUT sem;; run_calls h user l) w =
      Ok (spec_calls cap l (contents (wmem w) b)).1 w' /\
    queue_at h user usz cap w' (spec_calls cap l (contents (wmem w) b)).2.
Proof.
  intros Hr Hwf Hsz Hap Hu Husz Hh Hp Hl. cbv zeta. rewrite (run_bind _ _ _ _ _ (create_eq _ _ _ _ _ Hr Hh Hp)).
  erewrite run_bind.
  2: { apply open_eq; [exact Hh|apply lookup_insert_eq|left; reflexivity|exact Hp|left; reflexivity]. }
  apply calls_refine; [exact Hu|exact Husz|pose proof (wf_size _ Hwf); lia|exact Hl|].
  eexists _, ring, b. split; [split|split; [|split; [|split]]].
  - exact Hh.
  - apply lookup_insert_eq.
  - left. reflexivity.
  - exact Hp.
  - apply lookup_insert_eq.
  - exact Hr.
  - apply open_mode_opened. reflexivity.
  - right. reflexivity.
  - right. reflexivity.
  - split; [exact Hwf|]. split; [reflexivity|]. split; [exact Hap|reflexivity].
Qed.

(** ** An attached stream *)

Lemma write_attached_some w h dir user n s a s' r' b' ret c' m2 :
  streams w !! h = Some s -> ring_at w a s' r' b' -> attach_mode s = dir -> attach_stream s = a ->
  user <> NULL -> 0 <= n < 2 ^ 32 -> acts_ringbuf_put b' (wmem w) user n = (ret, c', m2) -> s32 ret = ret ->
  write_attached h dir user n w = Ok (Some ret) (transferred w a s' r' c' m2).
Proof.
  intros Hs Hat Hm Ha Hu Hn P Hr. unfold write_attached. rewrite !(run_bind _ _ _ _ _ (field_eq _ _ _ _ Hs)).
  rewrite Hm, Ha, Z.eqb_refl, (proj2 (Z.eqb_neq _ _) (at_handle _ _ _ _ _ Hat)). cbn [negb orb].
  rewrite (run_bind _ _ _ _ _ (call_eq _ _ _ _ _ (at_stream _ _ _ _ _ Hat) (ring_ops_write _ (at_ops _ _ _ _ _ Hat)))).
  erewrite run_bind; [reflexivity|]. rewrite <- Hr at 1.
  apply (ring_write_eq _ _ _ _ _ _ _ _ _ _ Hat Hu). rewrite u32_small by lia. exact P.
Qed.

Section tee.
Context (w : world) (h a user n : Z) (s s' : stream) (r r' : Z) (b b' : acts_ringbuf).
Hypothesis origin : ring_at w h s r b.
Hypothesis attached : ring_at w a s' r' b'.
Hypothesis distinct : h <> a /\ r <> r' /\ disjoint_bufs b b'.
Hypothesis well : wf b /\ wf b' /\ RingBuf.size b < 2 ^ 31 /\ RingBuf.size b' < 2 ^ 31.
Hypothesis opened_both : opened s /\ state s' = STATE_OPEN.
Hypothesis user_area : user <> NULL /\ apart b user n /\ apart b' user n /\ 0 <= n < 2 ^ 31.

(** What the memory of one ring buffer does not see of the other. *)
Lemma other_ring_contents (c c' : acts_ringbuf) m m' : wf c' -> disjoint_bufs c c' ->
  (forall x, x < cpu_ptr c \/ cpu_ptr c + RingBuf.size c <= x -> m' x = m x) -> contents m' c' = contents m c'.
Proof. intros Hw Hd Hm. apply contents_frame; [apply Hw|]. intros x Hx. apply Hm. unfold disjoint_bufs in Hd. lia. Qed.

Lemma user_bytes (c : acts_ringbuf) m m' : apart c user n ->
  (forall x, x < cpu_ptr c \/ cpu_ptr c + RingBuf.size c <= x -> m' x = m x) -> load m' user n = load m user n.
Proof. intros Ha Hm. apply load_ext. intros x Hx. apply Hm. destruct Ha. lia. Qed.

(** The attached ring buffer stream in a world in which only the origin has changed. *)
Lemma attached_still w1 : streams w1 !! a = streams w !! a -> infos w1 = infos w -> rings w1 !! r' = rings w !! r' ->
  ring_at w1 a s' r' b'.
Proof. intros H1 H2 H3. destruct attached. split; auto; congruence. Qed.

Definition tee_world (ns : list note) (c : acts_ringbuf) (m1 : mem) : world := wrote (add_notes ns w) h s r n c m1.

Lemma tee_attached ns c m1 : ring_at (tee_world ns c m1) a s' r' b'.
Proof.
  destruct distinct as (Hha & Hrr & _). apply attached_still; cbn; [|reflexivity|].
  - rewrite !lookup_insert_ne by congruence. reflexivity.
  - rewrite lookup_insert_ne by congruence. reflexivity.
Qed.

Lemma tee_origin ns c m1 : ring_at (tee_world ns c m1) h (finished_if n (with_offsets (head c) (tail c) s)) r c.
Proof. apply ring_at_finished, (ring_at_transferred _ _ _ _ b), ring_at_notes, origin. Qed.

Lemma tee_write_attached dir ns c m1 ret c' m2 : attach_mode s = dir -> attach_stream s = a ->
  acts_ringbuf_put b' m1 user n = (ret, c', m2) -> s32 ret = ret ->
  write_attached h dir user n (tee_world ns c m1) = Ok (Some ret) (transferred (tee_world ns c m1) a s' r' c' m2).
Proof.
  intros Hm Ha P Hr. destruct user_area as (Hu & _ & _ & Hn).
  apply (write_attached_some _ _ _ _ _ _ _ _ r' b' _ _ _ (at_stream _ _ _ _ _ (tee_origin ns c m1)) (tee_attached ns c m1));
    try assumption; [unfold finished_if; destruct (n =? 0); assumption..|lia].
Qed.

Lemma origin_after ns c m1 c' m2 : ring_at (transferred (tee_world ns c m1) a s' r' c' m2) h
  (finished_if n (with_offsets (head c) (tail c) s)) r c.
Proof.
  destruct distinct as (Hha & Hrr & _). pose proof (tee_origin ns c m1) as [H1 H2 H3 H4 H5 H6].
  split; auto; cbn in *; rewrite lookup_insert_ne by congruence; assumption.
Qed.

(** The write that both can take. *)
Lemma tee_write waits : attach_mode s = MODE_OUT -> attach_stream s = a ->
  n <= acts_ringbuf_space b -> n <= acts_ringbuf_space b' ->
  exists w' s2 s2', stream_write h user n waits w = Ok n w' /\
    ring_at w' h s2 r (advance_tail b n) /\ ring_at w' a s2' r' (advance_tail b' n) /\
    contents (wmem w') (advance_tail b n) = contents (wmem w) b ++ load (wmem w) user n /\
    contents (wmem w') (advance_tail b' n) = contents (wmem w) b' ++ load (wmem w) user n.
Proof.
  intros Hm Ha Hn Hn'. destruct well as (Hwf & Hwf' & _), user_area as (Hu & Hap & Hap' & Hn0), distinct as (Hha & Hrr & Hdis).
  destruct (put_spec b (wmem w) user n Hwf Hu ltac:(lia) Hap) as (m1 & P1 & C1 & F1).
  destruct (put_spec b' m1 user n Hwf' Hu ltac:(lia) Hap') as (m2 & P2 & C2 & F2).
  rewrite (other_ring_contents b b' _ _ Hwf' Hdis F1), (user_bytes b _ _ Hap F1) in C2.
  assert (C1' : contents m2 (advance_tail b n) = contents m1 (advance_tail b n)).
  { apply (other_ring_contents b' (advance_tail b n) _ _); [apply advance_tail_wf; [exact Hwf|lia]| |exact F2].
    unfold disjoint_bufs in *. cbn. lia. }
  assert (Hs : s32 n = n) by (apply s32_small; lia).
  destruct (stream_write_eq w h s r b user n waits n (advance_tail b n) m1 origin (proj1 opened_both) Hu) as [ns Hw];
    [rewrite u32_small by lia; exact P1|].
  rewrite Hs, Z.eqb_refl in Hw. fold (tee_world ns (advance_tail b n) m1) in Hw.
  pose proof (tee_write_attached MODE_OUT ns (advance_tail b n) m1 n (advance_tail b' n) m2 Hm Ha P2 Hs) as Hat.
  unfold write_rest in Hw. rewrite (run_bind _ _ _ _ _ Hat), Z.eqb_refl in Hw. cbn [negb] in Hw.
  pose proof (origin_after ns (advance_tail b n) m1 (advance_tail b' n) m2) as Ho.
  destruct (notify_eq h user n STREAM_NOTIFY_WRITE _ _ (at_stream _ _ _ _ _ Ho)) as [ns2 Hns2].
  rewrite (run_bind _ _ _ _ _ Hns2) in Hw. do 3 eexists. split; [exact Hw|].
  split; [apply ring_at_notes, Ho|]. split; [apply ring_at_notes, (ring_at_transferred _ _ _ _ b'), tee_attached|].
  cbn. rewrite C1', C1, C2. auto.
Qed.

Lemma tee_space : attach_mode s = MODE_OUT -> attach_stream s = a -> unattached MODE_OUT s' ->
  stream_get_space h w = Ok (Z.min (acts_ringbuf_space b) (acts_ringbuf_space b')) w.
Proof.
  intros Hm Ha Hu. destruct well as (Hwf & Hwf' & Hsz & Hsz'). unfold stream_get_space.
  destruct (base.size (streams w)) as [|k] eqn:Hk.
  { apply map_size_empty_inv in Hk. pose proof (at_stream _ _ _ _ _ origin) as Hs. rewrite Hk in Hs. discriminate. }
  rewrite (get_space_eq _ _ _ _ _ _ origin (op_state _ (proj1 opened_both))). cbv zeta.
  rewrite Hm, Ha, Z.eqb_refl, (proj2 (Z.eqb_neq _ _) (at_handle _ _ _ _ _ attached)). cbn [negb orb].
  assert (Hsp : get_space (S k) a w = Ok (s32 (acts_ringbuf_space b')) w).
  { rewrite (get_space_eq _ _ _ _ _ _ attached (proj2 opened_both)). cbv zeta.
    replace (negb _ || _) with true; [reflexivity|]. symmetry. apply orb_true_iff.
    destruct Hu as [Hu|Hu]; [left; apply negb_true_iff, Z.eqb_neq, Hu|right; apply Z.eqb_eq, Hu]. }
  rewrite (run_bind _ _ _ _ _ Hsp). pose proof (space_eq _ Hwf). pose proof (space_eq _ Hwf').
  pose proof (length_range b). pose proof (length_range b'). pose proof (wf_length _ Hwf). pose proof (wf_length _ Hwf').
  rewrite !s32_small by lia. rewrite Z.gtb_ltb.
  destruct (Z.ltb_spec (acts_ringbuf_space b') (acts_ringbuf_space b)); unfold mret, M_ret; f_equal; lia.
Qed.

(** A read of more than the origin holds. *)
Lemma tee_stale_read waits : attach_mode s = MODE_IN -> attach_stream s = a ->
  acts_ringbuf_length b < n -> n <= acts_ringbuf_space b' ->
  exists w' s2 s2', stream_read h user n waits w = Ok n w' /\
    ring_at w' h s2 r (advance_head b 0) /\ ring_at w' a s2' r' (advance_tail b' n) /\
    contents (wmem w') (advance_head b 0) = contents (wmem w) b /\
    contents (wmem w') (advance_tail b' n) = contents (wmem w) b' ++ load (wmem w) user n.
Proof.
  intros Hm Ha Hn Hn'. destruct well as (Hwf & Hwf' & _), user_area as (Hu & Hap & Hap' & Hn0), distinct as (Hha & Hrr & Hdis).
  assert (P1 : acts_ringbuf_get b (wmem w) user (u32 n) = (0, advance_head b 0, wmem w)).
  { unfold acts_ringbuf_get. rewrite u32_small, peek_refused by lia. reflexivity. }
  destruct (put_spec b' (wmem w) user n Hwf' Hu ltac:(lia) Hap') as (m2 & P2 & C2 & F2).
  pose proof (stream_read_eq w h s r b user n waits _ _ _ origin (proj1 opened_both) P1 ltac:(vm_compute; discriminate)) as Hrd.
  pose proof (ring_at_transferred w h s r b (advance_head b 0) (wmem w) origin) as Ho.
  set (w1 := transferred w h s r (advance_head b 0) (wmem w)) in *.
  assert (Hat : ring_at w1 a s' r' b').
  { apply attached_still; cbn; [|reflexivity|]; rewrite lookup_insert_ne by congruence; reflexivity. }
  assert (Hs : s32 n = n) by (apply s32_small; lia).
  rewrite (run_bind _ _ _ _ _ (write_attached_some w1 h MODE_IN user n _ a s' r' b' n _ m2 (at_stream _ _ _ _ _ Ho) Hat
    Hm Ha Hu ltac:(lia) P2 Hs)), Z.eqb_refl in Hrd. cbn [negb] in Hrd.
  assert (Ho2 : ring_at (transferred w1 a s' r' (advance_tail b' n) m2) h
    (with_offsets (head (advance_head b 0)) (tail (advance_head b 0)) s) r (advance_head b 0)).
  { destruct Ho as [H1 H2 H3 H4 H5 H6]. split; auto; cbn in *; rewrite lookup_insert_ne by congruence; assumption. }
  destruct (notify_eq h user n STREAM_NOTIFY_READ _ _ (at_stream _ _ _ _ _ Ho2)) as [ns Hns].
  rewrite (run_bind _ _ _ _ _ Hns) in Hrd. do 3 eexists. split; [exact Hrd|].
  split; [apply ring_at_notes, Ho2|]. split; [apply ring_at_notes, (ring_at_transferred _ _ _ _ b'), Hat|].
  cbn. split; [|exact C2]. rewrite contents_advance_head by (auto; pose proof (length_range b); lia). cbn [drop Z.to_nat].
  apply (other_ring_contents b' b); [exact Hwf| |exact F2]. unfold disjoint_bufs in *. lia.
Qed.
End tee.

(** An origin and the stream attached to it, both ring buffer streams on ring
    buffers of their own, and the caller's area of [usz] bytes. *)
Record tee_pair (w : world) (h a user usz : Z) (s s' : stream) (r r' : Z) (b b' : acts_ringbuf) : Prop := mk_tee {
  tee_h : ring_at w h s r b;
  tee_a : ring_at w a s' r' b';
  tee_apart : h <> a /\ r <> r' /\ disjoint_bufs b b';
  tee_wf : wf b /\ wf b' /\ RingBuf.size b < 2 ^ 31 /\ RingBuf.size b' < 2 ^ 31;
  tee_open : opened s /\ state s' = STATE_OPEN;
  tee_link : attach_stream s = a;
  tee_user : user <> NULL /\ apart b user usz /\ apart b' user usz /\ 0 <= usz < 2 ^ 31
}.

Lemma tee_user_le w h a user usz s s' r r' b b' n : tee_pair w h a user usz s s' r r' b b' -> 0 <= n <= usz ->
  user <> NULL /\ apart b user n /\ apart b' user n /\ 0 <= n < 2 ^ 31.
Proof. intros H Hn. destruct (tee_user _ _ _ _ _ _ _ _ _ _ _ H) as (? & ? & ? & ?). unfold apart in *. lia. Qed.

(** The space of a stream to which another is attached for writing is the
    smaller of the two, and a write of no more than that stores the same bytes
    at the end of both queues and reports all of them. *)
Theorem stream_write_copies (w : world) (h a user usz : Z) (s s' : stream) (r r' : Z) (b b' : acts_ringbuf) :
  tee_pair w h a user usz s s' r r' b b' -> attach_mode s = MODE_OUT -> unattached MODE_OUT s' ->
  exists sp, stream_get_space h w = Ok sp w /\
    forall n waits, 0 <= n <= usz -> n <= sp ->
    exists w' s2 s2', stream_write h user n waits w = Ok n w' /\
      ring_at w' h s2 r (advance_tail b n) /\ ring_at w' a s2' r' (advance_tail b' n) /\
      contents (wmem w') (advance_tail b n) = contents (wmem w) b ++ load (wmem w) user n /\
      contents (wmem w') (advance_tail b' n) = contents (wmem w) b' ++ load (wmem w) user n.
Proof.
  intros T Hm Hu. pose proof T as [Th Ta Tap Twf To Tl Tu]. eexists. split.
  - apply (tee_space w h a s s' r r' b b'); assumption.
  - intros n waits Hn Hsp. apply (tee_write w h a user n s s' r r' b b'); try assumption; try lia.
    exact (tee_user_le _ _ _ _ _ _ _ _ _ _ _ n T Hn).
Qed.

(** With a stream attached for reading, a read of more bytes than there
    are reports all of them although none was read: the queue is unchanged and
    the attached stream is given what was in the caller's buffer before. *)
Theorem stream_read_stale (w : world) (h a user usz : Z) (s s' : stream) (r r' : Z) (b b' : acts_ringbuf) (n : Z)
    (waits : list (world -> world)) :
  tee_pair w h a user usz s s' r r' b b' -> attach_mode s = MODE_IN ->
  0 <= n <= usz -> acts_ringbuf_length b < n -> n <= acts_ringbuf_space b' ->
  exists w' s2 s2', stream_read h user n waits w = Ok n w' /\
    ring_at w' h s2 r (advance_head b 0) /\ ring_at w' a s2' r' (advance_tail b' n) /\
    contents (wmem w') (advance_head b 0) = contents (wmem w) b /\
    contents (wmem w') (advance_tail b' n) = contents (wmem w) b' ++ load (wmem w) user n.
Proof.
  intros T Hm Hn Hlen Hsp. pose proof T as [Th Ta Tap Twf To Tl Tu].
  apply (tee_stale_read w h a user n s s' r r' b b'); try assumption.
  exact (tee_user_le _ _ _ _ _ _ _ _ _ _ _ n T Hn).
Qed.

(** ** The life cycle *)

Definition not_open (w : world) (h : Z) : Prop :=
  h = NULL \/ exists s, streams w !! h = Some s /\ state s <> STATE_OPEN.

Lemma not_open_check w h : not_open w h -> _stream_check_handle_state h STATE_OPEN w = Ok false w.
Proof.
  intros H. destruct (decide (h = NULL)) as [->|Hh]; [reflexivity|].
  destruct H as [H|(s & Hs & Hst)]; [contradiction|].
  rewrite (check_state_eq _ _ _ _ Hh Hs), (proj2 (Z.eqb_neq _ _) Hst). reflexivity.
Qed.

(** On a NULL handle or a stream that is not open every call but open,
    attach and destroy is refused with -ENOSYS (or false) and changes nothing,
    and an open stream cannot be opened again. *)
Theorem stream_life_cycle (w : world) (h : Z) :
  (not_open w h ->
     (forall buf n waits, stream_read h buf n waits w = Ok (- ENOSYS) w) /\
     (forall buf n waits, stream_write h buf n waits w = Ok (- ENOSYS) w) /\
     (forall off dir waits, stream_seek h off dir waits w = Ok (- ENOSYS) w) /\
     stream_tell h w = Ok (- ENOSYS) w /\ stream_flush h w = Ok (- ENOSYS) w /\ stream_close h w = Ok (- ENOSYS) w /\
     stream_get_length h w = Ok (- ENOSYS) w /\ stream_get_space h w = Ok (- ENOSYS) w /\
     (forall ob t, stream_set_observer h ob t w = Ok (- ENOSYS) w) /\ stream_check_finished h w = Ok false w) /\
  (forall s mode sem, h <> NULL -> streams w !! h = Some s -> state s = STATE_OPEN ->
     stream_open h mode sem w = Ok (- ENOSYS) w).
Proof.
  split.
  - intros H. pose proof (not_open_check w h H) as Hc.
    split; [intros; unfold stream_read; rewrite (run_bind _ _ _ _ _ Hc); reflexivity|].
    split; [intros; unfold stream_write; rewrite (run_bind _ _ _ _ _ Hc); reflexivity|].
    split; [intros; unfold stream_seek; rewrite (run_bind _ _ _ _ _ Hc); reflexivity|].
    split; [unfold stream_tell; rewrite (run_bind _ _ _ _ _ Hc); reflexivity|].
    split; [unfold stream_flush; rewrite (run_bind _ _ _ _ _ Hc); reflexivity|].
    split; [unfold stream_close; rewrite (run_bind _ _ _ _ _ Hc); reflexivity|].
    split; [unfold stream_get_length; rewrite (run_bind _ _ _ _ _ Hc); reflexivity|].
    split; [unfold stream_get_space; cbn [get_space]; rewrite (run_bind _ _ _ _ _ Hc); reflexivity|].
    split; [intros; unfold stream_set_observer; rewrite (run_bind _ _ _ _ _ Hc); reflexivity|].
    unfold stream_check_finished; rewrite (run_bind _ _ _ _ _ Hc); reflexivity.
  - intros s mode sem Hh Hs Hst. unfold stream_open.
    rewrite (run_bind _ _ _ _ _ (check_state_eq _ STATE_INIT _ _ Hh Hs)), Hst.
    change (STATE_OPEN =? STATE_INIT) with false. cbn iota.
    rewrite (run_bind _ _ _ _ _ (check_state_eq _ STATE_CLOSE _ _ Hh Hs)), Hst. reflexivity.
Qed.

(** ** Closing in the wrong order *)

Lemma ring_ops_close s : ring_kind (ops s) -> op_close (ops_of (ops s)) = Some ringbuff_stream_close.
Proof. intros [-> | ->]; reflexivity. Qed.

(** The part of stream_close after the stream was detached. *)
Lemma close_rest w h s : streams w !! h = Some s -> ring_kind (ops s) -> data s <> NULL -> sync_sem s = None ->
  (close ← call h op_close; res ← close h; sm ← field h sync_sem;
   (if bool_decide (is_Some sm) then assign h (with_finished true);; os_sem_give h else skip);;
   assign h (with_state STATE_CLOSE);; mret res) w =
    Ok 0 (set_streams (<[h := with_state STATE_CLOSE s]> (streams w)) w).
Proof.
  intros Hs Ho Hd Hsem. rewrite (run_bind _ _ _ _ _ (call_eq _ _ _ _ _ Hs (ring_ops_close _ Ho))).
  erewrite (run_bind (ringbuff_stream_close h) _ w 0 w).
  2: { unfold ringbuff_stream_close. rewrite (run_bind _ _ _ _ _ (field_eq _ _ _ _ Hs)), (proj2 (Z.eqb_neq _ _) Hd). reflexivity. }
  rewrite (run_bind _ _ _ _ _ (field_eq _ _ _ _ Hs)), Hsem.
  rewrite (bool_decide_eq_false_2 (is_Some None)) by (intros [? ?]; discriminate).
  rewrite (run_bind skip _ w tt w eq_refl), (run_bind _ _ _ _ _ (assign_eq _ _ _ _ Hs)). reflexivity.
Qed.

Lemma close_unattached w h s : h <> NULL -> streams w !! h = Some s -> opened s -> ring_kind (ops s) -> data s <> NULL ->
  attached_stream s = NULL -> stream_close h w = Ok 0 (set_streams (<[h := with_state STATE_CLOSE s]> (streams w)) w).
Proof.
  intros Hh Hs Hop Ho Hd Ha. unfold stream_close.
  rewrite (run_bind _ _ _ _ _ (check_state_eq _ _ _ _ Hh Hs)), (op_state _ Hop).
  change (STATE_OPEN =? STATE_OPEN) with true. cbn [negb].
  rewrite (run_bind _ _ _ _ _ (field_eq _ _ _ _ Hs)), Ha. change (NULL =? NULL) with true. cbn [negb].
  rewrite (run_bind skip _ w tt w eq_refl). apply close_rest; [assumption..|apply Hop].
Qed.

(** The origin is not open any more: only the back pointer is cleared. *)
Lemma close_after_origin w h a s s' : h <> NULL -> a <> NULL -> streams w !! h = Some s -> state s = STATE_CLOSE ->
  streams w !! a = Some s' -> opened s' -> ring_kind (ops s') -> data s' <> NULL -> attached_stream s' = h ->
  stream_close a w = Ok 0 (set_streams (<[a := with_state STATE_CLOSE (with_attached NULL s')]> (streams w)) w).
Proof.
  intros Hh Ha Hs Hst Hs' Hop Ho Hd Hat. unfold stream_close.
  rewrite (run_bind _ _ _ _ _ (check_state_eq _ _ _ _ Ha Hs')), (op_state _ Hop).
  change (STATE_OPEN =? STATE_OPEN) with true. cbn [negb].
  rewrite (run_bind _ _ _ _ _ (field_eq _ _ _ _ Hs')), Hat, (proj2 (Z.eqb_neq _ _) Hh). cbn [negb].
  set (w1 := set_streams (<[a := with_attached NULL s']> (streams w)) w).
  erewrite (run_bind (stream_detach h a ≫= _) _ w tt w1).
  2: { erewrite run_bind; [reflexivity|]. unfold stream_detach.
       rewrite (run_bind _ _ _ _ _ (check_state_eq _ _ _ _ Hh Hs)), Hst. change (STATE_CLOSE =? STATE_OPEN) with false. cbn [negb].
       rewrite (run_bind _ _ _ _ _ (assign_eq _ _ _ _ Hs')). reflexivity. }
  rewrite (close_rest w1 a (with_attached NULL s')); [|apply lookup_insert_eq|assumption..|apply Hop].
  unfold w1. cbn. rewrite insert_insert_eq. reflexivity.
Qed.

Lemma destroy_eq w a s' r : streams w !! a = Some s' -> ops s' = ringbuff_stream_ops -> data s' <> NULL ->
  attached_stream s' = NULL -> infos w !! data s' = Some r ->
  exists w', stream_destroy a w = Ok 0 w' /\ streams w' = delete a (streams w) /\ infos w' = delete (data s') (infos w) /\
    rings w' = rings w /\ wmem w' = wmem w.
Proof.
  intros Hs Ho Hd Ha Hi. unfold stream_destroy. rewrite (run_bind _ _ _ _ _ (field_eq _ _ _ _ Hs)), Ha.
  change (NULL =? NULL) with true. cbn [negb]. rewrite (run_bind skip _ w tt w eq_refl).
  rewrite (run_bind _ _ _ _ _ (op_eq _ _ _ _ Hs)), Ho. cbn [ops_of op_destroy].
  set (w1 := set_infos (delete (data s') (infos w)) w).
  set (w2 := set_streams (<[a := with_data (type s') NULL (total_size s') s']> (streams w1)) w1).
  rewrite (run_bind (ringbuff_stream_destroy a) _ w 0 w2).
  - rewrite (run_bind (modify _) _ w2 tt _ eq_refl). eexists. split; [reflexivity|]. cbn. rewrite delete_insert_eq. auto.
  - unfold ringbuff_stream_destroy. rewrite (run_bind _ _ _ _ _ (field_eq _ _ _ _ Hs)), (proj2 (Z.eqb_neq _ _) Hd).
    rewrite (run_bind (free_info _) _ w tt w1 eq_refl). rewrite (run_bind _ _ _ _ _ (assign_eq a _ w1 s' Hs)). reflexivity.
Qed.

(** A write while the attached stream is gone. *)
Lemma write_after_free w h a user n s r b waits : ring_at w h s r b -> opened s -> wf b -> attach_mode s = MODE_OUT ->
  attach_stream s = a -> a <> NULL -> h <> a -> streams w !! a = None -> user <> NULL -> apart b user n ->
  0 <= n < 2 ^ 31 -> n <= acts_ringbuf_space b -> stream_write h user n waits w = Fault.
Proof.
  intros R Hop Hwf Hm Hl Ha Hha Hg Hu Hap Hn Hsp.
  destruct (put_spec b (wmem w) user n Hwf Hu ltac:(lia) Hap) as (m' & P & _).
  destruct (stream_write_eq w h s r b user n waits n (advance_tail b n) m' R Hop Hu) as [ns Hw];
    [rewrite u32_small by lia; exact P|].
  rewrite Hw, s32_small, Z.eqb_refl by lia. set (w1 := wrote _ _ _ _ _ _ _).
  set (s1 := finished_if n (with_offsets (head (advance_tail b n)) (tail (advance_tail b n)) s)).
  assert (S1 : streams w1 !! h = Some s1) by apply lookup_insert_eq.
  assert (G1 : streams w1 !! a = None) by (cbn; rewrite !lookup_insert_ne by congruence; exact Hg).
  assert (F : write_attached h MODE_OUT user n w1 = Fault).
  { unfold write_attached. rewrite !(run_bind _ _ _ _ _ (field_eq _ _ _ _ S1)).
    replace (attach_mode s1) with MODE_OUT by (rewrite <- Hm; unfold s1, finished_if; destruct (n =? 0); reflexivity).
    replace (attach_stream s1) with a by (rewrite <- Hl; unfold s1, finished_if; destruct (n =? 0); reflexivity).
    rewrite Z.eqb_refl, (proj2 (Z.eqb_neq _ _) Ha). cbn [negb orb].
    unfold call, op, field, mbind, M_bind. rewrite G1. reflexivity. }
  unfold write_rest, mbind, M_bind. rewrite F. reflexivity.
Qed.

(** If the origin is closed first and the attached stream is then closed
    and destroyed, the origin keeps the pointer to it: the first write after
    the origin is opened again follows the freed pointer. *)
Theorem stream_attached_dangles (w : world) (h a user usz : Z) (s s' : stream) (r r' : Z) (b b' : acts_ringbuf)
    (n : Z) (sem : bool) (waits : list (world -> world)) :
  tee_pair w h a user usz s s' r r' b b' -> attach_mode s = MODE_OUT -> attached_stream s = NULL ->
  opened s' -> attached_stream s' = h -> ops s' = ringbuff_stream_ops -> data s <> data s' ->
  0 <= n <= usz -> n <= acts_ringbuf_space b ->
  (stream_close h;; stream_close a;; stream_destroy a;; stream_open h MODE_IN_OUT sem;; stream_write h user n waits) w = Fault.
Proof.
  intros T Hm Hat Hop' Hat' Hk Hdd Hn Hsp. pose proof T as [[H1 H2 H3 H4 H5 H6] [A1 A2 A3 A4 A5 A6] (Hha & _) (Hwf & _) (Hop & _) Hl (Hu & Hap & _)].
  rewrite (run_bind _ _ _ _ _ (close_unattached w h s H1 H2 Hop H3 H4 Hat)).
  set (w1 := set_streams _ w). set (s1 := with_state STATE_CLOSE s) in *.
  assert (S1 : streams w1 !! h = Some s1) by apply lookup_insert_eq.
  assert (S1' : streams w1 !! a = Some s') by (cbn; rewrite lookup_insert_ne by congruence; exact A2).
  rewrite (run_bind _ _ _ _ _ (close_after_origin w1 h a s1 s' H1 A1 S1 eq_refl S1' Hop' A3 A4 Hat')).
  set (w2 := set_streams _ w1). set (s2' := with_state STATE_CLOSE (with_attached NULL s')).
  assert (S2 : streams w2 !! h = Some s1) by (cbn; rewrite lookup_insert_ne by congruence; exact S1).
  destruct (destroy_eq w2 a s2' (ringbuff_info_t r')) as (w3 & E3 & St3 & In3 & Ri3 & Me3);
    [apply lookup_insert_eq|exact Hk|exact A4|reflexivity|exact A5|].
  rewrite (run_bind _ _ _ _ _ E3).
  assert (S3 : streams w3 !! h = Some s1) by (rewrite St3, lookup_delete_ne by congruence; exact S2).
  rewrite (run_bind _ _ _ _ _ (open_eq w3 h s1 sem H1 S3 H3 H4 (or_intror eq_refl))).
  set (w4 := set_streams _ w3). set (s4 := open_mode MODE_IN_OUT s1) in *.
  assert (R4 : ring_at w4 h s4 r b).
  { split; [exact H1|apply lookup_insert_eq|exact H3|exact H4| |].
    - change (infos w3 !! data s = Some (ringbuff_info_t r)). rewrite In3, lookup_delete_ne by (cbn; congruence). exact H5.
    - change (rings w3 !! r = Some b). rewrite Ri3. exact H6. }
  pose proof (tee_user_le _ _ _ _ _ _ _ _ _ _ _ n T Hn) as (_ & _ & _ & Hnb).
  apply (write_after_free w4 h a user n s4 r b); try assumption; try lia.
  - apply open_mode_opened, Hop.
  - cbn. rewrite lookup_insert_ne, St3 by congruence. apply lookup_delete_eq.
  - exact (apart_le _ _ _ _ Hn Hap).
Qed.

(** ** Buffer streams *)

Section buffer.
Context (h len base : Z).
Hypothesis h_ok : h <> NULL.
Hypothesis len_ok : 0 < len <= 2 ^ 30.
Hypothesis base_ok : 0 <= base /\ base + len <= 2 ^ 32.

(** The open stream [h] for reading and writing in the buffer at [base]. *)
Record buffer_at (w : world) (s : stream) : Prop := mk_buffer_at {
  buf_stream : streams w !! h = Some s;
  buf_ops : ops s = buffer_stream_ops;
  buf_mode : mode s = MODE_IN_OUT;
  buf_state : state s = STATE_OPEN;
  buf_info : infos w !! data s = Some (buffer_info_t len base)
}.

(** [n] bytes at [user], outside of the buffer. *)
Definition outside (user n : Z) : Prop :=
  0 <= user < 2 ^ 32 /\ user + n <= 2 ^ 32 /\ (user + n <= base \/ base + len <= user).

Lemma buffer_info_eq w s : buffer_at w s -> buffer_info h w = Ok (len, base) w.
Proof.
  intros [Hs _ _ _ Hi]. unfold buffer_info. rewrite (run_bind _ _ _ _ _ (field_eq _ _ _ _ Hs)).
  unfold mbind, M_bind, get_info. rewrite Hi. reflexivity.
Qed.

Lemma file_offset_eq off w : 0 <= off -> file_offset off len w = Ok (off mod len) w.
Proof.
  intros Ho. unfold file_offset. destruct (Z.eqb_spec len 0); [lia|]. rewrite u32_small by lia.
  pose proof (Z.mod_pos_bound off len ltac:(lia)). rewrite s32_small by lia. reflexivity.
Qed.

(** The position of the [i]-th byte after offset [o]. *)
Lemma position o i : 0 <= i <= len ->
  (o + i) mod len = if o mod len + i >=? len then o mod len + i - len else o mod len + i.
Proof.
  intros Hi. pose proof (Z.mod_pos_bound o len ltac:(lia)). rewrite <- Zplus_mod_idemp_l.
  rewrite Z.geb_leb. destruct (Z.leb_spec len (o mod len + i)).
  - symmetry. apply (Z.mod_unique _ _ 1); lia.
  - apply Z.mod_small. lia.
Qed.

(** The pieces of a transfer of [n] bytes from offset [o]. *)
Definition first_piece (o n : Z) : Z := if o mod len + n >? len then len - o mod len else 0.

Lemma pieces o n : 0 <= o -> 0 <= n <= len ->
  let k := first_piece o n in
  0 <= k <= n /\ (o + k) mod len = (if k =? 0 then o mod len else 0) /\ (k = 0 -> o mod len + n <= len) /\
  (k <> 0 -> k = len - o mod len).
Proof.
  intros Ho Hn. cbv zeta. unfold first_piece. pose proof (Z.mod_pos_bound o len ltac:(lia)).
  rewrite Z.gtb_ltb. destruct (Z.ltb_spec len (o mod len + n)).
  - rewrite position by lia. destruct (Z.eqb_spec (len - o mod len) 0); [lia|].
    rewrite (proj2 (Z.geb_le _ _)) by lia. lia.
  - rewrite Z.add_0_r. cbn. lia.
Qed.

Lemma with_offsets_same s r o : r = rofs s -> o = wofs s -> 0 <= r < 2 ^ 32 -> 0 <= o < 2 ^ 32 -> with_offsets r o s = s.
Proof. intros -> -> Hr Ho. unfold with_offsets. rewrite !u32_small by lia. destruct s; reflexivity. Qed.

(** A piece that is skipped when it is empty. *)
Lemma piece_eq (wraps : bool) (g : mem -> mem) (f : stream -> stream) w s :
  streams w !! h = Some s -> (wraps = false -> g (wmem w) = wmem w /\ f s = s) ->
  (if wraps then modify (fun w => set_mem (g (wmem w)) w);; assign h f else skip) w =
    Ok tt (set_streams (<[h := f s]> (streams w)) (set_mem (g (wmem w)) w)).
Proof.
  intros Hs Hf. destruct wraps; [exact (assign_eq h f (set_mem (g (wmem w)) w) s Hs)|].
  destruct (Hf eq_refl) as [-> ->]. rewrite insert_id by exact Hs. destruct w; reflexivity.
Qed.

(** The memory after the two pieces of a write. *)
Lemma two_pieces_in m user o n : 0 <= o -> 0 <= n <= len -> outside user n ->
  let k := first_piece o n in
  let m' := memcpy (memcpy m (base + o mod len) user k) (base + (o + k) mod len) (user + k) (n - k) in
  (forall i, 0 <= i < n -> m' (base + (o + i) mod len) = m (user + i)) /\
  (forall x, x < base \/ base + len <= x -> m' x = m x).
Proof.
  intros Ho Hn Hu. cbv zeta. unfold outside in Hu. destruct (pieces o n Ho Hn) as (Hk1 & Hk2 & Hk3 & Hk4).
  pose proof (Z.mod_pos_bound o len ltac:(lia)) as Hoff. rewrite Hk2.
  set (k := first_piece o n) in *. set (off := o mod len) in *. split.
  - intros i Hi. rewrite position by lia. fold off. destruct (Z.eqb_spec k 0) as [E|E].
    + rewrite E in *. rewrite !memcpy_spec by lia. reflect_bools; simpl; try lia; f_equal; lia.
    + rewrite !memcpy_spec by lia. reflect_bools; simpl; try lia; f_equal; lia.
  - intros x Hx. rewrite !memcpy_outside; [reflexivity|..]; destruct (Z.eqb_spec k 0); lia.
Qed.

Lemma buffer_write_ok w s user n : buffer_at w s -> 0 <= n <= len -> outside user n -> 0 <= wofs s -> wofs s + n < 2 ^ 32 ->
  0 <= rofs s < 2 ^ 32 ->
  exists m', buffer_stream_write h user n w =
      Ok n (set_streams (<[h := with_offsets (rofs s) (wofs s + n) s]> (streams w)) (set_mem m' w)) /\
    (forall i, 0 <= i < n -> m' (base + (wofs s + i) mod len) = wmem w (user + i)) /\
    (forall x, x < base \/ base + len <= x -> m' x = wmem w x).
Proof.
  intros H Hn Hu Ho Hon Hr. pose proof H as [Hs Hk Hm Hst Hi]. unfold outside in Hu.
  destruct (pieces (wofs s) n Ho Hn) as (Hk1 & Hk2 & Hk3 & Hk4).
  pose proof (Z.mod_pos_bound (wofs s) len ltac:(lia)) as Hoff. pose proof (position (wofs s)) as Hpos.
  unfold buffer_stream_write. rewrite (run_bind _ _ _ _ _ (buffer_info_eq _ _ H)).
  rewrite (run_bind _ _ _ _ _ (field_eq _ _ _ _ Hs)), (run_bind _ _ _ _ _ (file_offset_eq _ _ Ho)). cbv zeta.
  rewrite (s32_small (_ + n)), (s32_small (len - _)) by lia. fold (first_piece (wofs s) n).
  destruct (two_pieces_in (wmem w) user (wofs s) n Ho Hn Hu) as [HM1 HM2].
  set (k := first_piece (wofs s) n) in *. set (off := wofs s mod len) in *.
  assert (Hskip : (off + n >? len) = false -> k = 0) by (intros E; unfold k, first_piece; fold off; rewrite E; reflexivity).
  set (f := fun s0 => with_offsets (rofs s0) (wofs s0 + k) s0).
  assert (Hpiece : (off + n >? len) = false -> memcpy (wmem w) (u32 (base + off)) user (u32 k) = wmem w /\ f s = s).
  { intros E. unfold f. rewrite (Hskip E). split; [reflexivity|]. apply with_offsets_same; lia. }
  rewrite (run_bind _ _ _ _ _ (piece_eq _ (fun m => memcpy m (u32 (base + off)) user (u32 k)) f w s Hs Hpiece)).
  rewrite (u32_small (base + off)), (u32_small k) by lia.
  set (w1 := set_streams _ _). assert (S1 : streams w1 !! h = Some (f s)) by apply lookup_insert_eq.
  assert (Ef : wofs (f s) = wofs s + k) by (cbn; apply u32_small; lia).
  rewrite (run_bind _ _ _ _ _ (field_eq _ _ _ _ S1)), Ef, (run_bind _ _ _ _ _ (file_offset_eq (wofs s + k) w1 ltac:(lia))).
  rewrite !(s32_small (n - k)), (u32_small (n - k)), (u32_small (user + k)), (u32_small (base + (wofs s + k) mod len)).
  2-5: rewrite ?Hk2; destruct (k =? 0); lia.
  erewrite run_bind by reflexivity. erewrite run_bind by (apply assign_eq, S1).
  eexists. split; [|split; [exact HM1|exact HM2]]. unfold mret, M_ret. rewrite s32_small by lia.
  f_equal; [lia|]. unfold w1, f. cbn. rewrite insert_insert_eq, !u32_small by lia.
  replace (wofs s + k + (n - k)) with (wofs s + n) by lia. reflexivity.
Qed.

(** The memory after the two pieces of a read. *)
Lemma two_pieces_out m user o n : 0 <= o -> 0 <= n <= len -> outside user n ->
  let k := first_piece o n in
  let m' := memcpy (memcpy m user (base + o mod len) k) (user + k) (base + (o + k) mod len) (n - k) in
  (forall i, 0 <= i < n -> m' (user + i) = m (base + (o + i) mod len)) /\
  (forall x, x < user \/ user + n <= x -> m' x = m x).
Proof.
  intros Ho Hn Hu. cbv zeta. unfold outside in Hu. destruct (pieces o n Ho Hn) as (Hk1 & Hk2 & Hk3 & Hk4).
  pose proof (Z.mod_pos_bound o len ltac:(lia)) as Hoff. rewrite Hk2.
  set (k := first_piece o n) in *. set (off := o mod len) in *. split.
  - intros i Hi. rewrite position by lia. fold off. destruct (Z.eqb_spec k 0) as [E|E].
    + rewrite E in *. rewrite !memcpy_spec by lia. reflect_bools; simpl; try lia; f_equal; lia.
    + rewrite !memcpy_spec by lia. reflect_bools; simpl; try lia; f_equal; lia.
  - intros x Hx. rewrite !memcpy_outside; [reflexivity|..]; lia.
Qed.

Lemma buffer_read_ok w s user n : buffer_at w s -> 0 <= n <= len -> outside user n -> 0 <= rofs s -> rofs s + n < 2 ^ 32 ->
  0 <= wofs s < 2 ^ 32 ->
  exists m', buffer_stream_read h user n w =
      Ok n (set_streams (<[h := with_offsets (rofs s + n) (wofs s) s]> (streams w)) (set_mem m' w)) /\
    (forall i, 0 <= i < n -> m' (user + i) = wmem w (base + (rofs s + i) mod len)) /\
    (forall x, x < user \/ user + n <= x -> m' x = wmem w x).
Proof.
  intros H Hn Hu Ho Hon Hr. pose proof H as [Hs Hk Hm Hst Hi].
  destruct (pieces (rofs s) n Ho Hn) as (Hk1 & Hk2 & Hk3 & Hk4).
  pose proof (Z.mod_pos_bound (rofs s) len ltac:(lia)) as Hoff.
  unfold buffer_stream_read. rewrite (run_bind _ _ _ _ _ (buffer_info_eq _ _ H)).
  rewrite (run_bind _ _ _ _ _ (field_eq _ _ _ _ Hs)), Hst. change (STATE_OPEN =? STATE_OPEN) with true. cbn [negb].
  rewrite (run_bind _ _ _ _ _ (field_eq _ _ _ _ Hs)), Hm. change (Z.land MODE_IN_OUT MODE_IN_OUT =? MODE_IN_OUT) with true. cbn iota.
  rewrite (run_bind _ _ _ _ _ (field_eq _ _ _ _ Hs)), (run_bind _ _ _ _ _ (file_offset_eq _ _ Ho)). cbv zeta.
  rewrite (s32_small (_ + n)), (s32_small (len - _)) by lia. fold (first_piece (rofs s) n).
  destruct (two_pieces_out (wmem w) user (rofs s) n Ho Hn Hu) as [HM1 HM2]. unfold outside in Hu.
  set (k := first_piece (rofs s) n) in *. set (off := rofs s mod len) in *.
  assert (Hskip : (off + n >? len) = false -> k = 0) by (intros E; unfold k, first_piece; fold off; rewrite E; reflexivity).
  set (f := fun s0 => with_offsets (rofs s0 + k) (wofs s0) s0).
  assert (Hpiece : (off + n >? len) = false -> memcpy (wmem w) user (u32 (base + off)) (u32 k) = wmem w /\ f s = s).
  { intros E. unfold f. rewrite (Hskip E). split; [reflexivity|]. apply with_offsets_same; lia. }
  rewrite (run_bind _ _ _ _ _ (piece_eq _ (fun m => memcpy m user (u32 (base + off)) (u32 k)) f w s Hs Hpiece)).
  rewrite (u32_small (base + off)), (u32_small k) by lia.
  set (w1 := set_streams _ _). assert (S1 : streams w1 !! h = Some (f s)) by apply lookup_insert_eq.
  assert (Ef : rofs (f s) = rofs s + k) by (cbn; apply u32_small; lia).
  rewrite (run_bind _ _ _ _ _ (field_eq _ _ _ _ S1)), Ef, (run_bind _ _ _ _ _ (file_offset_eq (rofs s + k) w1 ltac:(lia))).
  rewrite !(s32_small (n - k)), (u32_small (n - k)), (u32_small (user + k)), (u32_small (base + (rofs s + k) mod len)).
  2-5: rewrite ?Hk2; destruct (k =? 0); lia.
  erewrite run_bind by reflexivity. erewrite run_bind by (apply assign_eq, S1).
  eexists. split; [|split; [exact HM1|exact HM2]]. unfold mret, M_ret. rewrite s32_small by lia.
  f_equal; [lia|]. unfold w1, f. cbn. rewrite insert_insert_eq, !u32_small by lia.
  replace (rofs s + k + (n - k)) with (rofs s + n) by lia. reflexivity.
Qed.
End buffer.

(** In a buffer stream open for reading and writing, whatever is written
    (at most the length of the buffer) is read back from where it was written,
    also across the end of the buffer, and both transfers report all bytes. *)
Theorem buffer_stream_roundtrip (w : world) (h len base src dst n : Z) (s : stream) :
  0 < len <= 2 ^ 30 -> 0 <= base /\ base + len <= 2 ^ 32 -> buffer_at h len base w s ->
  0 <= n <= len -> outside len base src n -> outside len base dst n ->
  rofs s = wofs s -> 0 <= wofs s -> wofs s + n < 2 ^ 32 ->
  exists w', (v ← buffer_stream_write h src n; v' ← buffer_stream_read h dst n; mret (v, v')) w = Ok (n, n) w' /\
    load (wmem w') dst n = load (wmem w) src n /\
    (rofs <$> streams w' !! h) = (wofs <$> streams w' !! h).
Proof.
  intros Hlen Hbase H Hn Hsrc Hdst Hrw Ho Hon.
  destruct (buffer_write_ok h len base Hlen Hbase w s src n H Hn Hsrc Ho Hon ltac:(lia)) as (m1 & E1 & C1 & F1).
  set (s1 := with_offsets (rofs s) (wofs s + n) s) in *. set (w1 := set_streams _ _) in E1.
  assert (H1 : buffer_at h len base w1 s1) by (destruct H; split; try assumption; apply lookup_insert_eq).
  assert (R1 : rofs s1 = wofs s) by (cbn; rewrite u32_small by lia; lia).
  assert (W1 : wofs s1 = wofs s + n) by (cbn; apply u32_small; lia).
  destruct (buffer_read_ok h len base Hlen Hbase w1 s1 dst n H1 Hn Hdst) as (m2 & E2 & C2 & F2); [lia..|].
  eexists. split; [rewrite (run_bind _ _ _ _ _ E1), (run_bind _ _ _ _ _ E2); reflexivity|]. split.
  - apply fmap_seqZ_ext. intros i Hi. cbn. rewrite C2, R1 by lia. apply C1. lia.
  - cbn. rewrite lookup_insert_eq. cbn. rewrite !u32_small by (cbn in *; lia). f_equal. cbn in *. lia.
Qed.

(** ** The pool of ring buffers *)

Definition slot_free (w : world) (i : nat) : Prop := Z.testbit (bit_mask w) (Z.of_nat i) = false.

Lemma has_bit m (i : nat) : has m (Z.shiftl 1 (Z.of_nat i)) = Z.testbit m (Z.of_nat i).
Proof.
  unfold has. rewrite Z.shiftl_1_l. destruct (Z.eqb_spec (Z.land m (2 ^ Z.of_nat i)) 0) as [E|E]; cbn.
  - symmetry. assert (B : Z.testbit (Z.land m (2 ^ Z.of_nat i)) (Z.of_nat i) = false) by (rewrite E; apply Z.bits_0).
    rewrite Z.land_spec, Z.pow2_bits_true, andb_true_r in B by lia. exact B.
  - symmetry. apply not_false_iff_true. intros B. apply E. apply Z.bits_inj'. intros k Hk.
    rewrite Z.land_spec, Z.bits_0. destruct (Z.eq_dec k (Z.of_nat i)) as [->|Hne]; [rewrite B; reflexivity|].
    rewrite Z.pow2_bits_false by lia. apply andb_false_r.
Qed.

(** The first free slot from [i] on among [n], marked as taken. *)
Lemma malloc_loop_ok n : forall i w,
  match malloc_loop i n w with
  | Ok r w' =>
      (exists k, (i <= k < i + n)%nat /\ slot_free w k /\ (forall j, (i <= j < k)%nat -> ~ slot_free w j) /\
         r = buff_pool w k /\ forall j, slot_free w' j <-> slot_free w j /\ j <> k) \/
      (r = NULL /\ w' = w /\ forall j, (i <= j < i + n)%nat -> ~ slot_free w j)
  | _ => False
  end.
Proof.
  induction n as [|n IH]; intros i w; cbn [malloc_loop].
  - right. split; [reflexivity|]. split; [reflexivity|]. lia.
  - rewrite (run_bind (get bit_mask) _ w _ w eq_refl), has_bit. destruct (Z.testbit (bit_mask w) (Z.of_nat i)) eqn:B; cbn [negb].
    + specialize (IH (S i) w). destruct (malloc_loop (S i) n w) as [r w'| |]; [|contradiction..].
      assert (T : ~ slot_free w i) by (unfold slot_free; congruence).
      destruct IH as [(k & Hk & Hf & Hl & Hr)|(-> & -> & Hall)]; [left|right].
      * exists k. split; [lia|]. split; [exact Hf|]. split; [|exact Hr].
        intros j Hj. destruct (decide (j = i)) as [->|]; [exact T|apply Hl; lia].
      * split; [reflexivity|]. split; [reflexivity|]. intros j Hj. destruct (decide (j = i)) as [->|]; [exact T|apply Hall; lia].
    + left. exists i. split; [lia|]. split; [exact B|]. split; [lia|]. split; [reflexivity|].
      intros j. unfold slot_free. cbn. rewrite Z.lor_spec, Z.shiftl_1_l, Z.pow2_bits_eqb by lia.
      rewrite orb_false_iff, Z.eqb_neq. intuition lia.
Qed.

(** malloc_ring_buf takes the first free one of the eight ring buffers and
    marks only that one as taken, and gives NULL only if all are taken. *)
Theorem malloc_ring_buf_ok (w : world) :
  match malloc_ring_buf w with
  | Ok r w' =>
      (exists k, (k < MAX_SESSION_BUFF_NUM)%nat /\ slot_free w k /\ (forall j, (j < k)%nat -> ~ slot_free w j) /\
         r = buff_pool w k /\ forall j, slot_free w' j <-> slot_free w j /\ j <> k) \/
      (r = NULL /\ w' = w /\ forall j, (j < MAX_SESSION_BUFF_NUM)%nat -> ~ slot_free w j)
  | _ => False
  end.
Proof.
  pose proof (malloc_loop_ok MAX_SESSION_BUFF_NUM 0 w) as H. unfold malloc_ring_buf. destruct (malloc_loop _ _ _); [|contradiction..].
  destruct H as [(k & Hk & Hf & Hl & Hr)|(-> & -> & Hall)]; [left; exists k|right].
  - split; [lia|]. split; [exact Hf|]. split; [intros j Hj; apply Hl; lia|exact Hr].
  - split; [reflexivity|]. split; [reflexivity|]. intros j Hj. apply Hall. lia.
Qed.

(** If there is no memory for the info of a stream with a ring buffer of
    the pool, the creation reports success all the same: the stream cannot be
    opened, the ring buffer stays taken, and destroying the stream follows a
    NULL pointer. *)
Theorem create_ext_without_memory (w : world) (ring_buff ring_buff_size h : Z) (sem : bool) :
  slot_free w 0 -> pool_base w <> NULL -> h <> NULL -> infos w !! NULL = None ->
  exists w', ringbuff_stream_create_ext ring_buff ring_buff_size NULL h w = Ok h w' /\
    stream_open h MODE_IN_OUT sem w' = Ok (- EACCES) w' /\ ~ slot_free w' 0 /\ stream_destroy h w' = Fault.
Proof.
  intros Hf Hb Hh Hi. unfold ringbuff_stream_create_ext, stream_create. rewrite (proj2 (Z.eqb_neq _ _) Hh).
  erewrite run_bind by reflexivity. erewrite run_bind by (apply op_eq, lookup_insert_eq). cbn [ops new_stream ops_of op_init].
  set (w1 := set_streams (<[h := new_stream ringbuff_stream_ops_ext]> (streams w)) w).
  set (r := buff_pool w1 0). set (mask := Z.lor (bit_mask w) (Z.shiftl 1 0)).
  set (w2 := set_ring r (mk_ringbuf 0 0 0 0 0 0 0 0) (set_bit_mask mask w1)).
  assert (Em : malloc_ring_buf w1 = Ok r w2).
  { unfold malloc_ring_buf, MAX_SESSION_BUFF_NUM. cbn [malloc_loop]. rewrite (run_bind (get bit_mask) _ w1 _ w1 eq_refl).
    rewrite has_bit. change (bit_mask w1) with (bit_mask w). rewrite Hf. reflexivity. }
  assert (Er : (r =? NULL) = false) by (apply Z.eqb_neq; unfold r, buff_pool; cbn; rewrite Z.add_0_r; exact Hb).
  set (w3 := set_ring r (acts_ringbuf_init ring_buff (u32 ring_buff_size)) w2).
  assert (S3 : streams w3 !! h = Some (new_stream ringbuff_stream_ops_ext)) by apply lookup_insert_eq.
  exists w3. split; [|split; [|split]].
  - erewrite run_bind.
    2: { unfold ringbuff_stream_init_ext. rewrite (run_bind _ _ _ _ _ Em), Er. reflexivity. }
    reflexivity.
  - unfold stream_open. rewrite (run_bind _ _ _ _ _ (check_state_eq _ _ _ _ Hh S3)). cbn [state new_stream].
    change (STATE_INIT =? STATE_INIT) with true. cbn iota. rewrite (run_bind (mret true) _ w3 true w3 eq_refl). cbn [negb].
    rewrite !(run_bind _ _ _ _ _ (op_eq _ _ _ _ S3)). cbn [ops new_stream ops_of op_read op_write].
    rewrite !bool_decide_eq_true_2 by eauto. cbn [negb andb orb]. rewrite !andb_false_r. cbn [orb].
    rewrite (run_bind _ _ _ _ _ (call_eq h op_open ringbuff_stream_open w3 _ S3 eq_refl)).
    erewrite (run_bind (ringbuff_stream_open h _) _ w3 (- EACCES) w3); [reflexivity|].
    unfold ringbuff_stream_open. rewrite (run_bind _ _ _ _ _ (field_eq _ _ _ _ S3)). reflexivity.
  - unfold slot_free. cbn. unfold mask. rewrite Z.lor_spec, Z.shiftl_0_r. change (Z.testbit 1 0) with true. rewrite orb_true_r. discriminate.
  - unfold stream_destroy. rewrite (run_bind _ _ _ _ _ (field_eq _ _ _ _ S3)). cbn [attached_stream new_stream].
    change (NULL =? NULL) with true. cbn [negb]. rewrite (run_bind skip _ w3 tt w3 eq_refl).
    rewrite (run_bind _ _ _ _ _ (op_eq _ _ _ _ S3)). cbn [ops new_stream ops_of op_destroy].
    unfold mbind, M_bind, ringbuff_stream_destroy_ext. rewrite (run_bind _ _ _ _ _ (field_eq _ _ _ _ S3)). cbn [data new_stream].
    unfold mbind, M_bind, info_ring, get_info. unfold mbind, M_bind. change (infos w3) with (infos w). rewrite Hi. reflexivity.
Qed.

(** ** Concrete instances *)

Definition ring1 : acts_ringbuf := acts_ringbuf_init 4096 16.
Definition ring2 : acts_ringbuf := acts_ringbuf_init 8192 16.

Lemma ring1_wf : wf ring1.
Proof. apply init_wf; lia. Qed.
Lemma ring2_wf : wf ring2.
Proof. apply init_wf; lia. Qed.

Definition empty_world : world := mk_world ∅ ∅ {[200 := ring1; 201 := ring2]} (fun x => u8 x) 1000 0 [].

Lemma stream_refines_queue_witness : exists w',
  (ringbuff_stream_create 200 300 400;; stream_open 400 MODE_IN_OUT true;;
   run_calls 400 64 [SWrite [7; 8; 9]; SLength; SRead 2; SSpace; SFlush; SLength]) empty_world =
    Ok [(3, []); (3, []); (2, [7; 8]); (15, []); (0, []); (0, [])] w'.
Proof.
  destruct (stream_refines_queue empty_world 200 300 400 64 32 ring1 true
    [SWrite [7; 8; 9]; SLength; SRead 2; SSpace; SFlush; SLength]) as (w' & H & _);
    [reflexivity|apply ring1_wf|vm_compute; reflexivity|unfold apart; cbn; lia|discriminate|lia|discriminate..|
     repeat constructor; cbn; lia|].
  exists w'. exact H.
Defined.

(** A stream on [ring1] at 1 and one on [ring2] at 2, the second attached to the first. *)
Definition ring_stream (d attach_m attach attached : Z) : stream :=
  mk_stream RINGBUFFER_STREAM_IMAG_NUM MODE_IN_OUT STATE_OPEN 0 0 false 16 None [None; None] attach_m attach attached ringbuff_stream_ops d.

Definition tee_example (dir : Z) : world :=
  mk_world {[1 := ring_stream 11 dir 2 NULL; 2 := ring_stream 12 0 NULL 1]}
    {[11 := ringbuff_info_t 200; 12 := ringbuff_info_t 201]} {[200 := ring1; 201 := ring2]} (fun x => u8 x) 1000 0 [].

Lemma tee_example_pair dir : tee_pair (tee_example dir) 1 2 64 16 (ring_stream 11 dir 2 NULL) (ring_stream 12 0 NULL 1) 200 201 ring1 ring2.
Proof.
  split.
  - split; try reflexivity; try discriminate. left. reflexivity.
  - split; try reflexivity; try discriminate. left. reflexivity.
  - split; [discriminate|]. split; [discriminate|]. left. cbn. lia.
  - split; [apply ring1_wf|]. split; [apply ring2_wf|]. split; cbn; lia.
  - split; [split; reflexivity|reflexivity].
  - reflexivity.
  - split; [discriminate|]. unfold apart. cbn. lia.
Qed.

Lemma stream_write_copies_witness : exists sp, stream_get_space 1 (tee_example MODE_OUT) = Ok sp (tee_example MODE_OUT).
Proof.
  destruct (stream_write_copies _ _ _ _ _ _ _ _ _ _ _ (tee_example_pair MODE_OUT)) as (sp & H & _);
    [reflexivity|right; reflexivity|]. exists sp. exact H.
Defined.

Lemma stream_read_stale_witness : exists w' , stream_read 1 64 5 [] (tee_example MODE_IN) = Ok 5 w'.
Proof.
  destruct (stream_read_stale _ _ _ _ _ _ _ _ _ _ _ 5 [] (tee_example_pair MODE_IN)) as (w' & s2 & s2' & H & _);
    [reflexivity|lia|vm_compute; reflexivity|vm_compute; discriminate|]. exists w'. exact H.
Defined.

Lemma stream_life_cycle_witness : stream_read 400 64 5 [] (created empty_world 200 300 400 ring1) =
  Ok (- ENOSYS) (created empty_world 200 300 400 ring1).
Proof.
  apply (proj1 (stream_life_cycle (created empty_world 200 300 400 ring1) 400)).
  right. eexists. split; [reflexivity|]. discriminate.
Defined.

Lemma stream_attached_dangles_witness :
  (stream_close 1;; stream_close 2;; stream_destroy 2;; stream_open 1 MODE_IN_OUT true;; stream_write 1 64 5 []) (tee_example MODE_OUT) = Fault.
Proof.
  apply (stream_attached_dangles _ _ _ _ _ _ _ _ _ _ _ 5 true [] (tee_example_pair MODE_OUT));
    try reflexivity; try (split; reflexivity); try discriminate; try lia; vm_compute; discriminate.
Defined.

Definition buffer_example : world :=
  mk_world {[1 := mk_stream 0 MODE_IN_OUT STATE_OPEN 13 13 false 16 None [None; None] 0 NULL NULL buffer_stream_ops 11]}
    {[11 := buffer_info_t 16 4096]} ∅ (fun x => u8 x) 1000 0 [].

Lemma buffer_stream_roundtrip_witness : exists w',
  (v ← buffer_stream_write 1 64 10; v' ← buffer_stream_read 1 128 10; mret (v, v')) buffer_example = Ok (10, 10) w' /\
  load (wmem w') 128 10 = load (wmem buffer_example) 64 10.
Proof.
  destruct (buffer_stream_roundtrip buffer_example 1 16 4096 64 128 10
    (mk_stream 0 MODE_IN_OUT STATE_OPEN 13 13 false 16 None [None; None] 0 NULL NULL buffer_stream_ops 11)) as (w' & H & H' & _);
    try (unfold outside; cbn; lia); [split; reflexivity|]. exists w'. auto.
Defined.

Lemma create_ext_without_memory_witness : exists w', ringbuff_stream_create_ext 4096 16 NULL 400 empty_world = Ok 400 w' /\ stream_destroy 400 w' = Fault.
Proof.
  destruct (create_ext_without_memory empty_world 4096 16 400 true) as (w' & H & _ & _ & H'); try reflexivity; try discriminate.
  exists w'. auto.
Defined.

(** A write to a buffer stream of more than the buffer holds runs over its end. *)
Example buffer_stream_overflow :
  match buffer_stream_write 1 64 40 buffer_example with
  | Ok n w' => (n, wmem w' 4120) = (40, wmem buffer_example (64 + 27))
  | _ => False
  end.
Proof. vm_compute. reflexivity. Qed.

(** A blocking read that times out ends after 21 waits and returns 0. *)
Example blocking_read_times_out :
  let s := with_sem (Some false) (with_mode (MODE_IN_OUT + MODE_READ_BLOCK + MODE_BLOCK_TIMEOUT) (ring_stream 11 0 NULL NULL)) in
  match stream_read 1 64 5 (replicate 21 id) (set_streams (<[1 := s]> (streams (tee_example MODE_OUT))) (tee_example MODE_OUT)) with
  | Ok v _ => v = 0
  | _ => False
  end.
Proof. vm_compute. reflexivity. Qed.

(** A seek past the written bytes of a stream open for reading and writing
    takes a semaphore that does not exist. *)
Example seek_without_semaphore : stream_seek 1 20 SEEK_DIR_BEG [] buffer_example = Fault.
Proof. vm_compute. reflexivity. Qed.
