(* ===== verification/Buddy.v ===== *)
(** * The buddy allocator of one memory page (framework/base/memory/page_buddy)

    A 2048-byte page is divided into 128 units of 16 bytes; the last eight
    units hold the allocator's own [struct buddy].  The free space is a binary
    tree of 255 nodes stored in heap order: node [index] has the children
    [2*index+1] and [2*index+2], and [max] keeps for every node the largest
    free power-of-two run below it, packed in 8, 4, 2 or 1 bits.  A request
    that is not a power of two is cut into the pieces of its binary expansion;
    the [type] bit of the first piece marks where an allocation starts.

    This file translates rom_buddy.c, buddy.c and buddy_init.c and proves the
    laws of the packed arrays.  The allocator's invariant and its refinement
    to a set of disjoint blocks are in the file BuddyProof. *)

From stdpp Require Import base list numbers.
From S2P Require Import Prelude.
Open Scope Z_scope.

(** ** Constants (buddy_inner.h, page_inner.h) *)

Definition CONFIG_POOL_PAGE_SHIFT : Z := 11.
Definition PAGE_SIZE : Z := Z.shiftl 1 CONFIG_POOL_PAGE_SHIFT.
Definition MAX_INDEX : Z := 128.
Definition UNIT_SIZE : Z := PAGE_SIZE / MAX_INDEX.
Definition SELF_SIZE : Z := 128.
Definition SELF_INDEX : Z := MAX_INDEX - SELF_SIZE / UNIT_SIZE.
Definition MAX_FREE_SIZE : Z := PAGE_SIZE - SELF_SIZE.
Definition BUDDY_SELF_SIZE : Z := SELF_SIZE / UNIT_SIZE.

Definition LEFT_LEAF (index : Z) : Z := index * 2 + 1.
Definition RIGHT_LEAF (index : Z) : Z := index * 2 + 2.
Definition PARENT (index : Z) : Z := (index + 1) / 2 - 1.
Definition RIGHT_SIBLING_LEFT_LEAF (index : Z) : Z := index * 2 + 3.

Definition IS_POWER_OF_2 (x : Z) : bool := Z.land x (x - 1) =? 0.

(** ** Data *)

Record buddy : Type := mk_buddy {
  page_no : Z;
  max_ : list Z;      (* uint8_t max[71] *)
  type_ : list Z;     (* uint32_t type[8] *)
  freed : Z           (* uint8_t *)
}.

Definition set_max (self : buddy) (l : list Z) : buddy :=
  mk_buddy (page_no self) l (type_ self) (freed self).
Definition set_type (self : buddy) (l : list Z) : buddy :=
  mk_buddy (page_no self) (max_ self) l (freed self).
Definition set_freed (self : buddy) (n : Z) : buddy :=
  mk_buddy (page_no self) (max_ self) (type_ self) (u8 n).

(** The initial image that [rom_new_buddy_no] copies into a page. *)
Definition model : buddy :=
  mk_buddy 0
    ([0x40; 0x40; 0x20; 0x20; 0x20; 0x20; 0x10;
      0x10; 0x10; 0x10; 0x10; 0x10; 0x10; 0x10; 0x08] ++
     [0x88; 0x88; 0x88; 0x88; 0x88; 0x88; 0x88; 0x08] ++
     replicate 16 0x44 ++ replicate 16 0xaa ++ replicate 16 0xff)
    (replicate 8 0) 0.

(** ** The packed arrays *)

(** [getMaxInfo]: byte index, shift and mask of a node. *)
Definition getMaxInfo (index : Z) : Z * Z * Z :=
  if index <=? 14 then (index, 0, 0xff)
  else if index <=? 62 then
    let index := index - 15 in
    (Z.shiftr index 1 + 15, Z.land index 0x1 * 4, 0x0f)
  else if index <=? 126 then
    let index := index - 63 in
    (Z.shiftr index 2 + 39, Z.land index 0x3 * 2, 0x03)
  else
    let index := index - 127 in
    (Z.shiftr index 3 + 55, Z.land index 0x7, 0x01).

Definition getMax (self : buddy) (index : Z) : Z :=
  let '(index, shift, mask) := getMaxInfo index in
  if index <=? MAX_INDEX
  then Z.land (Z.shiftr (max_ self !!! Z.to_nat index) shift) mask
  else u8 (-1).

Definition setMax (self : buddy) (index val : Z) : buddy :=
  let '(index, shift, mask) := getMaxInfo index in
  if index <=? MAX_INDEX
  then set_max self
         (<[Z.to_nat index :=
              u8 (Z.lor (Z.land (max_ self !!! Z.to_nat index) (Z.lnot (Z.shiftl mask shift)))
                    (Z.shiftl val shift))]> (max_ self))
  else self.

Definition setType (self : buddy) (index : Z) : buddy :=
  let shift := Z.land index 0x1f in
  let index := Z.shiftr index 5 in
  set_type self
    (<[Z.to_nat index := u32 (Z.lor (type_ self !!! Z.to_nat index) (Z.shiftl 1 shift))]>
       (type_ self)).

Definition clearType (self : buddy) (index : Z) : buddy :=
  let shift := Z.land index 0x1f in
  let index := Z.shiftr index 5 in
  set_type self
    (<[Z.to_nat index :=
         u32 (Z.land (type_ self !!! Z.to_nat index) (Z.lnot (Z.shiftl 1 shift)))]>
       (type_ self)).

Definition rom_buddy_getType (self : buddy) (index : Z) : Z :=
  let shift := Z.land index 0x1f in
  let index := Z.shiftr index 5 in
  Z.land (type_ self !!! Z.to_nat index) (Z.shiftl 1 shift).

(** ** Tree maintenance *)

Definition fixsize (size : Z) : Z :=
  let size := Z.lor size (Z.shiftr size 1) in
  let size := Z.lor size (Z.shiftr size 2) in
  let size := Z.lor size (Z.shiftr size 4) in
  let size := Z.lor size (Z.shiftr size 8) in
  let size := Z.lor size (Z.shiftr size 16) in
  u32 (size + 1).

(** The tree has eight levels: eight rounds lead from any node to the root. *)
Definition levels : nat := 8.

Fixpoint update_alloc_parent (fuel : nat) (self : buddy) (index : Z) : buddy :=
  match fuel with
  | O => self
  | S fuel =>
      if index =? 0 then self else
      let index := PARENT index in
      update_alloc_parent fuel
        (setMax self index
           (Z.max (getMax self (LEFT_LEAF index)) (getMax self (RIGHT_LEAF index))))
        index
  end.

Fixpoint update_free_parent (fuel : nat) (self : buddy) (index node_size : Z) : buddy :=
  match fuel with
  | O => self
  | S fuel =>
      if index =? 0 then self else
      let index := PARENT index in
      let node_size := node_size * 2 in
      let left_max := getMax self (LEFT_LEAF index) in
      let right_max := getMax self (RIGHT_LEAF index) in
      update_free_parent fuel
        (if left_max + right_max =? node_size then setMax self index node_size
         else setMax self index (Z.max left_max right_max))
        index node_size
  end.

Fixpoint contins_loop (fuel : nat) (self : buddy) (index node_size nsize : Z) : Z :=
  match fuel with
  | O => nsize
  | S fuel =>
      if (node_size >? 0) && (getMax self index =? node_size)
      then contins_loop fuel self (RIGHT_SIBLING_LEFT_LEAF index) (node_size / 2)
             (nsize + node_size)
      else nsize
  end.

(** [node_size] starts at most at 64, so it is 0 after seven halvings. *)
Definition get_contins_size (self : buddy) (index node_size : Z) : Z :=
  contins_loop levels self index node_size 0.

Definition get_buddy_max : Z := MAX_FREE_SIZE.

(** ** Initialisation and state query *)

Definition rom_new_buddy_no (page_no : Z) : buddy :=
  mk_buddy page_no (max_ model) (type_ model) SELF_INDEX.

Definition rom_is_buddy_idled (self : buddy) : bool := freed self =? SELF_INDEX.

(** ** Allocation *)

(** Descent to a free node of [nsize] units, to the right when it fits. *)
Fixpoint find_node (fuel : nat) (self : buddy) (nsize index node_size : Z) : Z * Z :=
  match fuel with
  | O => (index, node_size)
  | S fuel =>
      if node_size =? nsize then (index, node_size) else
      let index :=
        if getMax self (RIGHT_LEAF index) >=? nsize then RIGHT_LEAF index
        else LEFT_LEAF index in
      find_node fuel self nsize index (node_size / 2)
  end.

(** The node an allocation of [bsize] units is cut from: its index, its size
    and its offset in units; [None] is the [return NULL] of the search. *)
Definition choose_node (self : buddy) (bsize : Z) : option (Z * Z * Z) :=
  if bsize >? MAX_INDEX / 4 then
    if (bsize <=? MAX_INDEX / 2 - BUDDY_SELF_SIZE)
       && (get_contins_size self 5 (MAX_INDEX / 4) >=? bsize)
    then Some (2, MAX_INDEX / 2, MAX_INDEX / 2)
    else if get_contins_size self 1 (MAX_INDEX / 2) <? bsize then None
    else if bsize >? MAX_INDEX / 2 then Some (0, MAX_INDEX, 0)
    else Some (1, MAX_INDEX / 2, 0)
  else
    let bsize := if bsize =? 0 then 1 else bsize in
    let nsize := if negb (IS_POWER_OF_2 bsize) then fixsize bsize else bsize in
    if getMax self 0 <? nsize then None else
    let '(index, node_size) := find_node levels self nsize 0 MAX_INDEX in
    Some (index, node_size, (index + 1) * node_size - MAX_INDEX).

(** The loop that takes the pieces of the binary expansion of [nsize] below
    [index]; [node_size] is halved before every round. *)
Fixpoint take_pieces (fuel : nat) (self : buddy) (index node_size nsize : Z) : buddy :=
  match fuel with
  | O => self
  | S fuel =>
      if node_size >? 0 then
        if nsize >=? node_size then
          let self := setMax self (LEFT_LEAF index) 0 in
          let self := update_alloc_parent levels self (LEFT_LEAF index) in
          take_pieces fuel self (RIGHT_LEAF index) (node_size / 2) (nsize - node_size)
        else take_pieces fuel self (LEFT_LEAF index) (node_size / 2) nsize
      else self
  end.

Definition mark_block (self : buddy) (index node_size bsize : Z) : buddy :=
  if node_size >? bsize then
    take_pieces levels (setType self (LEFT_LEAF index)) index (node_size / 2) bsize
  else
    let self := setType self index in
    let self := setMax self index 0 in
    update_alloc_parent levels self index.

(** [page] is the address of page [buddy_no]; the result is the pointer, the
    new value of [*size] and the allocator's state. *)
Definition rom_buddy_alloc (page buddy_no : Z) (self : buddy) (size : Z) : Z * Z * buddy :=
  let bsize := size in
  if bsize <=? 0 then (NULL, size, self)
  else if bsize >? MAX_FREE_SIZE then (NULL, size, self)
  else if negb (page_no self =? buddy_no) then (NULL, size, self)
  else
    let bsize := (bsize + UNIT_SIZE - 1) / UNIT_SIZE in
    match choose_node self bsize with
    | None => (NULL, size, self)
    | Some (index, node_size, offset) =>
        let self := mark_block self index node_size bsize in
        (u32 (page + offset * UNIT_SIZE), bsize * UNIT_SIZE,
         set_freed self (freed self - bsize))
    end.

(** ** Release *)

(** The nodes of the allocation that starts at node [index], which has
    [node_size] units: the loop of [get_nsize_and_nodes] after the first node. *)
Fixpoint chain_nodes (fuel : nat) (self : buddy) (index node_size : Z) : list (Z * Z) :=
  match fuel with
  | O => []
  | S fuel =>
      if node_size =? 0 then [] else
      if getMax self index =? 0 then
        if negb (rom_buddy_getType self index =? 0) then []
        else if index >? MAX_INDEX then [(u8 index, u8 node_size)]
        else if negb (getMax self (LEFT_LEAF index) =? 0)
                && negb (getMax self (RIGHT_LEAF index) =? 0)
        then (u8 index, u8 node_size)
               :: chain_nodes fuel self (RIGHT_SIBLING_LEFT_LEAF index) (node_size / 2)
        else chain_nodes fuel self (LEFT_LEAF index) (node_size / 2)
      else if getMax self index =? node_size then []
      else chain_nodes fuel self (LEFT_LEAF index) (node_size / 2)
  end.

(** [get_nsize_and_nodes]: the total size and the array [free_nodes]. *)
Definition get_nsize_and_nodes (self : buddy) (index node_size : Z) : Z * list (Z * Z) :=
  let nodes := (u8 index, u8 node_size)
    :: chain_nodes levels self (RIGHT_SIBLING_LEFT_LEAF index) (node_size / 2) in
  (foldr (fun p acc => p.2 + acc) 0 nodes, nodes).

(** The search for the first node with [max] 0 on the way up from a unit;
    [None] is the endless [while(ii == 1)] at the root. *)
Fixpoint find_used (fuel : nat) (self : buddy) (index node_size : Z) : option (Z * Z) :=
  match fuel with
  | O => None
  | S fuel =>
      if getMax self index =? 0 then Some (index, node_size)
      else if index =? 0 then None
      else find_used fuel self (PARENT index) (node_size * 2)
  end.

(** The loop that gives the nodes back. *)
Definition release_node (self : buddy) (node : Z * Z) : buddy :=
  update_free_parent levels (setMax self node.1 node.2) node.1 node.2.

Inductive free_result : Type :=
  | FreeReturn (ret : Z) (info : option Z) (self : buddy)
  | FreeHang.

Definition load32 (m : mem) (a : Z) : Z :=
  m a + m (a + 1) * 2 ^ 8 + m (a + 2) * 2 ^ 16 + m (a + 3) * 2 ^ 24.

(** [ctx->halt] is [buddy_halt], which does nothing, so the code goes on after
    the "BUG" message when the address is not the start of an allocation. *)
Definition rom_buddy_free (page buddy_no : Z) (self : buddy) (m : mem) (where_ : Z)
    (info : bool) : free_result :=
  if negb (page_no self =? buddy_no) then FreeReturn (- EINVAL) None self else
  let offset := u32 (where_ - page) / UNIT_SIZE in
  if offset >=? SELF_INDEX then FreeReturn (- EINVAL) None self else
  match find_used levels self (offset + MAX_INDEX - 1) 1 with
  | None => FreeHang
  | Some (index, node_size) =>
      let '(node_size, free_nodes) := get_nsize_and_nodes self index node_size in
      let size := node_size * UNIT_SIZE in
      let word := if info then Some (load32 m (where_ + size - 4)) else None in
      let self := match free_nodes with
                  | [] => self
                  | (first, _) :: _ => clearType self first
                  end in
      let self := fold_left release_node free_nodes self in
      FreeReturn size word (set_freed self (freed self + node_size))
  end.

(** ** Checking a property of every node by evaluation *)

Definition all_nodes (P : Z -> bool) : bool := forallb P (seqZ 0 255).
Definition all_pairs (P : Z -> Z -> bool) : bool :=
  forallb (fun i => forallb (P i) (seqZ 0 255)) (seqZ 0 255).

Definition is_node (i : Z) : Prop := 0 <= i <= 254.

Lemma all_nodes_elim P : all_nodes P = true -> forall i, is_node i -> P i = true.
Proof.
  intros H i Hi. apply (forallb_seqZ P 0 255 H). unfold is_node in Hi. lia.
Qed.

Lemma all_pairs_elim P :
  all_pairs P = true -> forall i j, is_node i -> is_node j -> P i j = true.
Proof.
  unfold all_pairs. intros H i j Hi Hj.
  apply (all_nodes_elim (P i)); [|exact Hj].
  exact (all_nodes_elim (fun i => forallb (P i) (seqZ 0 255)) H i Hi).
Qed.

(** Turns a boolean fact about all nodes into hypotheses for [lia]. *)
Ltac split_facts H :=
  repeat rewrite ?andb_true_iff, ?orb_true_iff, ?Z.leb_le, ?Z.ltb_lt, ?Z.eqb_eq,
    ?negb_true_iff, ?Z.eqb_neq, ?Z.ltb_ge, ?Z.leb_gt in H.

(** ** Bit fields of a byte *)

Lemma field_get_set x v s w :
  0 <= s -> 0 <= w -> s + w <= 8 -> 0 <= v < 2 ^ w ->
  Z.land (Z.shiftr (u8 (Z.lor (Z.land x (Z.lnot (Z.shiftl (Z.ones w) s))) (Z.shiftl v s))) s)
    (Z.ones w) = v.
Proof.
  intros Hs Hw Hsw Hv. apply Z.bits_inj'. intros n Hn.
  rewrite Z.land_spec, Z.shiftr_spec by lia. destruct (Z.lt_ge_cases n w).
  - rewrite Z.ones_spec_low by lia. unfold u8. rewrite Z.mod_pow2_bits_low by lia.
    rewrite Z.lor_spec, Z.land_spec, Z.lnot_spec, !Z.shiftl_spec by lia.
    rewrite Z.add_simpl_r, Z.ones_spec_low by lia.
    rewrite andb_false_r, andb_true_r. reflexivity.
  - rewrite Z.ones_spec_high, andb_false_r by lia. symmetry.
    destruct (Z.eq_dec v 0) as [->|Hv0]; [apply Z.bits_0|].
    apply Z.bits_above_log2; [lia|].
    assert (Z.log2 v < w) by (apply Z.log2_lt_pow2; lia). lia.
Qed.

Lemma field_get_other x v s w s' w' :
  0 <= s -> 0 <= w -> 0 <= s' -> 0 <= w' -> s' + w' <= 8 -> 0 <= v < 2 ^ w ->
  s + w <= s' \/ s' + w' <= s ->
  Z.land (Z.shiftr (u8 (Z.lor (Z.land x (Z.lnot (Z.shiftl (Z.ones w) s))) (Z.shiftl v s))) s')
    (Z.ones w') = Z.land (Z.shiftr x s') (Z.ones w').
Proof.
  intros Hs Hw Hs' Hw' Hsw Hv Hdis. apply Z.bits_inj'. intros n Hn.
  rewrite !Z.land_spec, !Z.shiftr_spec by lia. destruct (Z.lt_ge_cases n w').
  - unfold u8. rewrite Z.mod_pow2_bits_low by lia. f_equal.
    rewrite Z.lor_spec, Z.land_spec, Z.lnot_spec, !Z.shiftl_spec by lia.
    assert (Hz : Z.testbit (Z.ones w) (n + s' - s) = false).
    { destruct Hdis; [apply Z.ones_spec_high; lia|apply Z.testbit_neg_r; lia]. }
    assert (Hv' : Z.testbit v (n + s' - s) = false).
    { destruct Hdis; [|apply Z.testbit_neg_r; lia].
      destruct (Z.eq_dec v 0) as [->|]; [apply Z.bits_0|].
      apply Z.bits_above_log2; [lia|].
    assert (Z.log2 v < w) by (apply Z.log2_lt_pow2; lia). lia. }
    rewrite Hz, Hv', andb_true_r, orb_false_r. reflexivity.
  - rewrite !(Z.ones_spec_high w') by lia. rewrite !andb_false_r. reflexivity.
Qed.

(** ** Laws of the packed [max] array *)

(** The width of a node's field; [2 ^ width] bounds the values it can hold. *)
Definition width (i : Z) : Z := Z.log2 (getMaxInfo i).2 + 1.

Lemma info_facts i : is_node i ->
  let '(q, s, mask) := getMaxInfo i in
  0 <= q < 71 /\ 0 <= s /\ 0 < width i /\ s + width i <= 8 /\ mask = Z.ones (width i).
Proof.
  intros Hi.
  pose proof (all_nodes_elim
    (fun i => let '(q, s, mask) := getMaxInfo i in
       (0 <=? q) && (q <? 71) && (0 <=? s) && (0 <? width i) && (s + width i <=? 8)
       && (mask =? Z.ones (width i))) ltac:(vm_compute; reflexivity) i Hi) as H.
  cbv beta in H. destruct (getMaxInfo i) as [[q s] mask]. split_facts H. lia.
Qed.

Lemma info_disjoint i j : is_node i -> is_node j -> i <> j ->
  let '(q, s, _) := getMaxInfo i in
  let '(q', s', _) := getMaxInfo j in
  q <> q' \/ s + width i <= s' \/ s' + width j <= s.
Proof.
  intros Hi Hj Hne.
  pose proof (all_pairs_elim
    (fun i j => let '(q, s, _) := getMaxInfo i in
       let '(q', s', _) := getMaxInfo j in
       (i =? j) || negb (q =? q') || (s + width i <=? s') || (s' + width j <=? s))
    ltac:(vm_compute; reflexivity) i j Hi Hj) as H.
  cbv beta in H. destruct (getMaxInfo i) as [[q s] mask], (getMaxInfo j) as [[q' s'] mask'].
  split_facts H. lia.
Qed.

(** The shape of the two arrays. *)
Definition arrays_ok (self : buddy) : Prop :=
  length (max_ self) = 71%nat /\ length (type_ self) = 8%nat.

Lemma getMax_setMax self i j v :
  arrays_ok self -> is_node i -> is_node j -> 0 <= v < 2 ^ width i ->
  getMax (setMax self i v) j = if i =? j then v else getMax self j.
Proof.
  intros [Hm _] Hi Hj Hv. unfold getMax, setMax.
  pose proof (info_facts i Hi) as Fi. pose proof (info_facts j Hj) as Fj.
  destruct (Z.eqb_spec i j) as [<-|Hne].
  - destruct (getMaxInfo i) as [[q s] mask]. destruct Fi as (Hq & Hs & Hw & Hsw & ->).
    rewrite (proj2 (Z.leb_le _ _)) by (unfold MAX_INDEX; lia). simpl.
    rewrite list_lookup_total_insert_eq by lia. apply field_get_set; lia.
  - pose proof (info_disjoint i j Hi Hj Hne) as Hdis.
    destruct (getMaxInfo i) as [[q s] mask], (getMaxInfo j) as [[q' s'] mask'].
    destruct Fi as (Hq & Hs & Hw & Hsw & ->), Fj as (Hq' & Hs' & Hw' & Hsw' & ->).
    rewrite !(proj2 (Z.leb_le _ _)) by (unfold MAX_INDEX; lia). simpl.
    destruct (Z.eq_dec q q') as [<-|Hqq].
    + rewrite list_lookup_total_insert_eq by lia. apply field_get_other; lia.
    + rewrite list_lookup_total_insert_ne by lia. reflexivity.
Qed.

Lemma arrays_ok_setMax self i v : arrays_ok self -> arrays_ok (setMax self i v).
Proof.
  intros [Hm Ht]. unfold setMax. destruct (getMaxInfo i) as [[q s] mask].
  destruct (q <=? MAX_INDEX); [|split; assumption].
  split; simpl; [rewrite length_insert|]; assumption.
Qed.

(** ** Laws of the [type] bits *)

(** Whether the [type] bit of a node is set. *)
Definition is_head (self : buddy) (i : Z) : bool := negb (rom_buddy_getType self i =? 0).

Lemma land_bit x s : 0 <= s -> negb (Z.land x (Z.shiftl 1 s) =? 0) = Z.testbit x s.
Proof.
  intros Hs. assert (Hb : Z.testbit (Z.shiftl 1 s) s = true).
  { rewrite Z.shiftl_spec, Z.sub_diag by lia. reflexivity. }
  destruct (Z.testbit x s) eqn:Hx.
  - apply negb_true_iff, Z.eqb_neq. intros H0.
    pose proof (Z.land_spec x (Z.shiftl 1 s) s) as Hl.
    rewrite H0, Z.bits_0, Hx, Hb in Hl. discriminate.
  - apply negb_false_iff, Z.eqb_eq. apply Z.bits_inj'. intros n Hn.
    rewrite Z.land_spec, Z.bits_0, Z.shiftl_spec by lia.
    destruct (Z.eq_dec n s) as [->|]; [rewrite Hx; reflexivity|].
    change 1 with (Z.ones 1). destruct (Z.lt_ge_cases n s).
    + rewrite (Z.testbit_neg_r _ (n - s)) by lia. apply andb_false_r.
    + rewrite (Z.ones_spec_high _ (n - s)) by lia. apply andb_false_r.
Qed.

Lemma type_index i : is_node i ->
  0 <= Z.shiftr i 5 < 8 /\ 0 <= Z.land i 31 < 32 /\ i = Z.shiftr i 5 * 32 + Z.land i 31.
Proof.
  intros Hi. unfold is_node in Hi. rewrite Z.shiftr_div_pow2 by lia.
  change 31 with (Z.ones 5). rewrite Z.land_ones by lia.
  change (2 ^ 5) with 32. Z.div_mod_to_equations. lia.
Qed.

Lemma bit_shift_one s n : 0 <= s -> 0 <= n -> Z.testbit (Z.shiftl 1 s) n = (s =? n).
Proof.
  intros. rewrite Z.shiftl_spec by lia. change 1 with (Z.ones 1).
  destruct (Z.eqb_spec s n) as [->|]; [rewrite Z.sub_diag; reflexivity|].
  destruct (Z.lt_ge_cases n s);
    [apply Z.testbit_neg_r|apply Z.ones_spec_high]; lia.
Qed.

Lemma is_head_setType self i j :
  arrays_ok self -> is_node i -> is_node j ->
  is_head (setType self i) j = (i =? j) || is_head self j.
Proof.
  intros [_ Ht] Hi Hj. pose proof (type_index i Hi). pose proof (type_index j Hj).
  unfold is_head, setType, rom_buddy_getType. simpl. rewrite !land_bit by lia.
  destruct (Z.eq_dec (Z.shiftr i 5) (Z.shiftr j 5)) as [He|He].
  - rewrite <- He. rewrite list_lookup_total_insert_eq by lia. unfold u32.
    rewrite Z.mod_pow2_bits_low, Z.lor_spec, bit_shift_one, orb_comm by lia.
    f_equal. destruct (Z.eqb_spec i j), (Z.eqb_spec (Z.land i 31) (Z.land j 31)); lia.
  - rewrite list_lookup_total_insert_ne by lia.
    destruct (Z.eqb_spec i j) as [->|]; [congruence|reflexivity].
Qed.

Lemma is_head_clearType self i j :
  arrays_ok self -> is_node i -> is_node j ->
  is_head (clearType self i) j = negb (i =? j) && is_head self j.
Proof.
  intros [_ Ht] Hi Hj. pose proof (type_index i Hi). pose proof (type_index j Hj).
  unfold is_head, clearType, rom_buddy_getType. simpl. rewrite !land_bit by lia.
  destruct (Z.eq_dec (Z.shiftr i 5) (Z.shiftr j 5)) as [He|He].
  - rewrite <- He. rewrite list_lookup_total_insert_eq by lia. unfold u32.
    rewrite Z.mod_pow2_bits_low, Z.land_spec, Z.lnot_spec, bit_shift_one, andb_comm by lia.
    f_equal. destruct (Z.eqb_spec i j), (Z.eqb_spec (Z.land i 31) (Z.land j 31)); lia.
  - rewrite list_lookup_total_insert_ne by lia.
    destruct (Z.eqb_spec i j) as [->|]; [congruence|reflexivity].
Qed.

Lemma arrays_ok_setType self i : arrays_ok self -> arrays_ok (setType self i).
Proof. intros [Hm Ht]. split; simpl; [|rewrite length_insert]; assumption. Qed.

Lemma arrays_ok_clearType self i : arrays_ok self -> arrays_ok (clearType self i).
Proof. intros [Hm Ht]. split; simpl; [|rewrite length_insert]; assumption. Qed.

Lemma is_head_setMax self i v j : is_head (setMax self i v) j = is_head self j.
Proof.
  unfold setMax. destruct (getMaxInfo i) as [[q s] mask].
  destruct (q <=? MAX_INDEX); reflexivity.
Qed.

Lemma getMax_setType self i j : getMax (setType self i) j = getMax self j.
Proof. reflexivity. Qed.

Lemma getMax_clearType self i j : getMax (clearType self i) j = getMax self j.
Proof. reflexivity. Qed.

#[export] Hint Resolve arrays_ok_setMax arrays_ok_setType arrays_ok_clearType : acts.
