(* ===== verification/BuddyProof.v ===== *)
(** * Correctness of the buddy allocator

    The tree of rom_buddy.c is described by one local equation per node: a
    node that belongs to an allocation stores 0, every other inner node
    combines the values of its two children, every other leaf stores 1
    ([local_ok]).  Both upward loops restore that equation on the path to the
    root, so allocation and release reduce to adding and removing nodes from
    the set of used nodes.

    On top of it, [inv] relates the packed state to a finite map of disjoint
    blocks (offset and size in units); allocation adds one block, release
    removes one, and the rest of the map is untouched. *)

From stdpp Require Import base list numbers gmap.
From S2P Require Import Prelude Buddy.
Open Scope Z_scope.

(** ** Geometry of the tree *)

(** Size and position of a node, in units. *)
Definition sz (i : Z) : Z :=
  if 127 <=? i then 1 else if 63 <=? i then 2 else if 31 <=? i then 4
  else if 15 <=? i then 8 else if 7 <=? i then 16 else if 3 <=? i then 32
  else if 1 <=? i then 64 else 128.
Definition lo (i : Z) : Z := (i + 1) * sz i - 128.

Definition contains (i j : Z) : Prop := lo i <= lo j /\ lo j + sz j <= lo i + sz i.
Definition apart (i j : Z) : Prop := lo i + sz i <= lo j \/ lo j + sz j <= lo i.

Lemma node_facts i : is_node i ->
  1 <= sz i <= 128 /\ sz i < 2 ^ width i /\ 0 <= lo i /\ lo i + sz i <= 128 /\
  (i < 127 -> is_node (LEFT_LEAF i) /\ is_node (RIGHT_LEAF i) /\
     sz i = 2 * sz (LEFT_LEAF i) /\ sz (RIGHT_LEAF i) = sz (LEFT_LEAF i) /\
     lo (LEFT_LEAF i) = lo i /\ lo (RIGHT_LEAF i) = lo i + sz (LEFT_LEAF i)) /\
  (127 <= i -> sz i = 1 /\ lo i = i - 127).
Proof.
  intros Hi.
  pose proof (all_nodes_elim
    (fun i => (1 <=? sz i) && (sz i <=? 128) && (sz i <? 2 ^ width i) && (0 <=? lo i)
       && (lo i + sz i <=? 128)
       && (if i <? 127 then (sz i =? 2 * sz (LEFT_LEAF i))
             && (sz (RIGHT_LEAF i) =? sz (LEFT_LEAF i))
             && (lo (LEFT_LEAF i) =? lo i) && (lo (RIGHT_LEAF i) =? lo i + sz (LEFT_LEAF i))
           else (sz i =? 1) && (lo i =? i - 127)))
    ltac:(vm_compute; reflexivity) i Hi) as H.
  cbv beta in H. unfold is_node, LEFT_LEAF, RIGHT_LEAF in *.
  destruct (Z.ltb_spec i 127); split_facts H; lia.
Qed.

Lemma parent_facts i : is_node i -> i <> 0 ->
  is_node (PARENT i) /\ PARENT i < 127 /\ PARENT i < i /\
  (i = LEFT_LEAF (PARENT i) \/ i = RIGHT_LEAF (PARENT i)).
Proof.
  unfold is_node, PARENT, LEFT_LEAF, RIGHT_LEAF. intros. Z.div_mod_to_equations. lia.
Qed.

Lemma pair_facts i j : is_node i -> is_node j ->
  (contains i j -> i <> j ->
     i < 127 /\ (contains (LEFT_LEAF i) j \/ contains (RIGHT_LEAF i) j)
     /\ contains i (PARENT j)) /\
  (contains i j \/ contains j i \/ apart i j) /\
  (contains i j -> contains j i -> i = j).
Proof.
  intros Hi Hj.
  pose (cb i j := (lo i <=? lo j) && (lo j + sz j <=? lo i + sz i)).
  pose proof (all_pairs_elim
    (fun i j =>
       if cb i j then
         if i =? j then true
         else (i <? 127) && (cb (LEFT_LEAF i) j || cb (RIGHT_LEAF i) j)
              && cb i (PARENT j) && negb (cb j i)
       else cb j i || (lo i + sz i <=? lo j) || (lo j + sz j <=? lo i))
    ltac:(vm_compute; reflexivity) i j Hi Hj) as H.
  assert (Hcb : forall a b, cb a b = true <-> contains a b).
  { intros. unfold cb, contains. rewrite andb_true_iff, !Z.leb_le. reflexivity. }
  cbv beta in H. unfold apart. destruct (cb i j) eqn:Hij.
  - rewrite Hcb in Hij. destruct (Z.eqb_spec i j); [tauto|].
    rewrite !andb_true_iff, orb_true_iff, negb_true_iff, <- not_true_iff_false, !Hcb,
      Z.ltb_lt in H. tauto.
  - rewrite <- not_true_iff_false, Hcb in Hij.
    rewrite !orb_true_iff, Hcb, !Z.leb_le in H. tauto.
Qed.

Lemma contains_refl i : contains i i.
Proof. unfold contains. lia. Qed.

Lemma contains_trans i j k : contains i j -> contains j k -> contains i k.
Proof. unfold contains. lia. Qed.

Lemma contains_step i j : is_node i -> is_node j -> contains i j ->
  i = j \/ (i < 127 /\ (contains (LEFT_LEAF i) j \/ contains (RIGHT_LEAF i) j)).
Proof.
  intros Hi Hj H. destruct (Z.eq_dec i j); [auto|right].
  destruct (pair_facts i j Hi Hj) as [H1 _]. destruct (H1 H n) as (? & ? & _). auto.
Qed.

Lemma contains_parent i j : is_node i -> is_node j -> contains i j -> i <> j ->
  contains i (PARENT j).
Proof. intros Hi Hj H Hne. apply (pair_facts i j Hi Hj); assumption. Qed.

Lemma contains_antisym i j : is_node i -> is_node j ->
  contains i j -> contains j i -> i = j.
Proof. intros Hi Hj. apply (pair_facts i j Hi Hj). Qed.

Lemma nested_or_apart i j : is_node i -> is_node j ->
  contains i j \/ contains j i \/ apart i j.
Proof. intros Hi Hj. apply (pair_facts i j Hi Hj). Qed.

Lemma contains_not_apart i j : is_node i -> is_node j -> contains i j -> ~ apart i j.
Proof.
  intros Hi Hj. pose proof (node_facts j Hj). unfold contains, apart. lia.
Qed.

Lemma child_contained i : is_node i -> i < 127 ->
  contains i (LEFT_LEAF i) /\ contains i (RIGHT_LEAF i).
Proof. intros Hi Hl. pose proof (node_facts i Hi). unfold contains. lia. Qed.

(** Induction from the leaves to the root. *)
Lemma node_ind_up (P : Z -> Prop) :
  (forall i, is_node i -> (i < 127 -> P (LEFT_LEAF i) /\ P (RIGHT_LEAF i)) -> P i) ->
  forall i, is_node i -> P i.
Proof.
  intros Hstep.
  assert (H : forall n i, 254 - i < Z.of_nat n -> is_node i -> P i).
  { induction n as [|n IH]; intros i Hn Hi; [unfold is_node in Hi; lia|].
    apply Hstep; [exact Hi|]. intros Hl.
    pose proof (node_facts i Hi). unfold is_node, LEFT_LEAF, RIGHT_LEAF in *.
    split; apply IH; unfold is_node; lia. }
  intros i Hi. apply (H 255%nat); [unfold is_node in Hi; lia|exact Hi].
Qed.

(** ** The local equation *)

Definition comb (i l r : Z) : Z := if l + r =? sz i then sz i else Z.max l r.

Definition local_ok (M : Z -> Z) (U : Z -> Prop) (i : Z) : Prop :=
  (U i -> M i = 0) /\
  (~ U i -> M i = if i <? 127 then comb i (M (LEFT_LEAF i)) (M (RIGHT_LEAF i)) else 1).

Definition bounded (M : Z -> Z) : Prop := forall i, is_node i -> 0 <= M i <= sz i.

(** The equation everywhere except on the strict ancestors of [j]. *)
Definition almost (M : Z -> Z) (U : Z -> Prop) (j : Z) : Prop :=
  forall i, is_node i -> ~ (contains i j /\ i <> j) -> local_ok M U i.

Record tree_ok (self : buddy) (U : Z -> Prop) : Prop := {
  tree_arrays : arrays_ok self;
  tree_bounded : bounded (getMax self);
  tree_local : forall i, is_node i -> local_ok (getMax self) U i
}.

Lemma tree_ok_ext self U U' :
  (forall i, is_node i -> U i <-> U' i) -> tree_ok self U -> tree_ok self U'.
Proof.
  intros He [Ha Hb Hl]. split; [assumption..|]. intros i Hi.
  destruct (Hl i Hi) as [H1 H2]. split; intros H; rewrite <- (He i Hi) in H; auto.
Qed.

(** A state with the same [max] and array shape. *)
Lemma tree_ok_max self self' U :
  max_ self' = max_ self -> length (type_ self') = length (type_ self) ->
  tree_ok self U -> tree_ok self' U.
Proof.
  intros Hm Ht [[Ha1 Ha2] Hb Hl].
  assert (Hg : forall i, getMax self' i = getMax self i).
  { intros i. unfold getMax. rewrite Hm. reflexivity. }
  split.
  - split; congruence.
  - intros i Hi. rewrite Hg. auto.
  - intros i Hi. destruct (Hl i Hi) as [H1 H2]. split; rewrite !Hg; auto.
Qed.

(** [self'] differs from [self] in the [max] array only. *)
Definition same_rest (self self' : buddy) : Prop :=
  page_no self' = page_no self /\ type_ self' = type_ self /\ freed self' = freed self.

Lemma same_rest_refl self : same_rest self self.
Proof. repeat split. Qed.

Lemma same_rest_trans a b c : same_rest a b -> same_rest b c -> same_rest a c.
Proof. unfold same_rest. intuition congruence. Qed.

Lemma same_rest_setMax self i v : same_rest self (setMax self i v).
Proof.
  unfold setMax. destruct (getMaxInfo i) as [[q s] mask].
  destruct (q <=? MAX_INDEX); repeat split.
Qed.

Lemma same_rest_head self self' i : same_rest self self' -> is_head self' i = is_head self i.
Proof. intros (_ & Ht & _). unfold is_head, rom_buddy_getType. rewrite Ht. reflexivity. Qed.

#[export] Hint Resolve contains_refl same_rest_refl same_rest_setMax : acts.

(** ** Values follow from the used nodes *)

Section Values.
Context (self : buddy) (U : Z -> Prop).
Hypothesis Htree : tree_ok self U.

Lemma used_zero i : is_node i -> U i -> getMax self i = 0.
Proof. intros Hi. apply (tree_local self U Htree i Hi). Qed.

Lemma inner_value i : is_node i -> ~ U i -> i < 127 ->
  getMax self i = comb i (getMax self (LEFT_LEAF i)) (getMax self (RIGHT_LEAF i)).
Proof.
  intros Hi Hu Hl. destruct (tree_local self U Htree i Hi) as [_ H].
  rewrite (H Hu), (proj2 (Z.ltb_lt _ _) Hl). reflexivity.
Qed.

Lemma leaf_value i : is_node i -> ~ U i -> 127 <= i -> getMax self i = 1.
Proof.
  intros Hi Hu Hl. destruct (tree_local self U Htree i Hi) as [_ H].
  rewrite (H Hu), (proj2 (Z.ltb_ge _ _) Hl). reflexivity.
Qed.

Lemma children_bounds i : is_node i -> i < 127 ->
  0 <= getMax self (LEFT_LEAF i) <= sz (LEFT_LEAF i) /\
  0 <= getMax self (RIGHT_LEAF i) <= sz (LEFT_LEAF i) /\ sz i = 2 * sz (LEFT_LEAF i).
Proof.
  intros Hi Hl. destruct (node_facts i Hi) as (_ & _ & _ & _ & Hc & _).
  destruct (Hc Hl) as (HL & HR & Hs & Hs' & _).
  pose proof (tree_bounded self U Htree _ HL). pose proof (tree_bounded self U Htree _ HR). lia.
Qed.

(** Without a used node below it, a node is completely free. *)
Lemma no_used_full i : is_node i ->
  (forall u, is_node u -> contains i u -> ~ U u) -> getMax self i = sz i.
Proof.
  revert i. apply (node_ind_up (fun i => (forall u, is_node u -> contains i u -> ~ U u) ->
    getMax self i = sz i)).
  intros i Hi IH Hno. pose proof (node_facts i Hi) as (_ & _ & _ & _ & Hc & Hlf).
  assert (HUi : ~ U i) by (apply Hno; auto with acts).
  destruct (Z.lt_ge_cases i 127) as [Hl|Hl].
  - destruct (IH Hl) as [IL IR]. destruct (child_contained i Hi Hl) as [CL CR].
    rewrite inner_value, IL, IR by (auto; intros u Hu Hcu; apply Hno; eauto using contains_trans).
    destruct (Hc Hl) as (_ & _ & Hs & Hs' & _). unfold comb. reflect_bools; lia.
  - rewrite leaf_value by auto. lia.
Qed.

(** A completely free node has no used node below it. *)
Lemma full_no_used i : is_node i -> getMax self i = sz i ->
  forall u, is_node u -> contains i u -> ~ U u.
Proof.
  revert i. apply (node_ind_up (fun i => getMax self i = sz i ->
    forall u, is_node u -> contains i u -> ~ U u)).
  intros i Hi IH Hfull u Hu Hcu HUu. pose proof (node_facts i Hi) as (Hsz & _ & _ & _ & Hc & _).
  assert (HUi : ~ U i) by (intros H; rewrite (used_zero i Hi H) in Hfull; lia).
  destruct (contains_step i u Hi Hu Hcu) as [->|[Hl Hcc]]; [contradiction|].
  destruct (IH Hl) as [IL IR]. pose proof (children_bounds i Hi Hl) as (BL & BR & Hs).
  rewrite inner_value in Hfull by auto. unfold comb in Hfull.
  destruct (Hc Hl) as (_ & _ & _ & Hs' & _).
  destruct (Z.eqb_spec (getMax self (LEFT_LEAF i) + getMax self (RIGHT_LEAF i)) (sz i)); [|lia].
  destruct Hcc as [Hcc|Hcc]; [apply (IL ltac:(lia) u Hu Hcc HUu)|apply (IR ltac:(lia) u Hu Hcc HUu)].
Qed.

(** An unused node stores 0 only if both children do. *)
Lemma unused_zero i : is_node i -> ~ U i -> getMax self i = 0 ->
  i < 127 /\ getMax self (LEFT_LEAF i) = 0 /\ getMax self (RIGHT_LEAF i) = 0.
Proof.
  intros Hi Hu H0. destruct (Z.lt_ge_cases i 127) as [Hl|Hl].
  - pose proof (children_bounds i Hi Hl) as (BL & BR & Hs). pose proof (node_facts i Hi).
    rewrite inner_value in H0 by auto. unfold comb in H0. split; [exact Hl|].
    destruct (Z.eqb_spec (getMax self (LEFT_LEAF i) + getMax self (RIGHT_LEAF i)) (sz i)); lia.
  - rewrite leaf_value in H0 by auto. lia.
Qed.

Lemma positive_unused i : is_node i -> 0 < getMax self i -> ~ U i.
Proof. intros Hi Hp HU. rewrite (used_zero i Hi HU) in Hp. lia. Qed.
End Values.

(** ** The two upward loops *)

(** Storing a value at [p] whose equation then holds moves the exception one
    level up. *)
Lemma almost_step self U j v :
  arrays_ok self -> is_node j -> j <> 0 -> ~ U (PARENT j) ->
  almost (getMax self) U j ->
  v = comb (PARENT j) (getMax self (LEFT_LEAF (PARENT j))) (getMax self (RIGHT_LEAF (PARENT j))) ->
  0 <= v < 2 ^ width (PARENT j) ->
  almost (getMax (setMax self (PARENT j) v)) U (PARENT j).
Proof.
  intros Ha Hj Hj0 HUp Hal Hv Hw. destruct (parent_facts j Hj Hj0) as (Hp & Hp127 & Hpj & Hch).
  pose proof (node_facts _ Hp) as (_ & _ & _ & _ & Hc & _).
  destruct (Hc Hp127) as (HL & HR & _). clear Hc.
  intros i Hi Hna. destruct (Z.eq_dec i (PARENT j)) as [->|Hne].
  - split; [contradiction|]. intros _. rewrite (proj2 (Z.ltb_lt _ _) Hp127).
    rewrite !getMax_setMax by auto. rewrite Z.eqb_refl, Hv.
    unfold is_node, LEFT_LEAF, RIGHT_LEAF in *.
    destruct (Z.eqb_spec (PARENT j) (PARENT j * 2 + 1)); [lia|].
    destruct (Z.eqb_spec (PARENT j) (PARENT j * 2 + 2)); [lia|]. reflexivity.
  - assert (Hold : local_ok (getMax self) U i).
    { apply Hal; [exact Hi|]. intros [Hc1 Hn1]. apply Hna. split; [|exact Hne].
      apply contains_parent; auto. }
    assert (Hkid : forall k, is_node k -> k <> PARENT j ->
      getMax (setMax self (PARENT j) v) k = getMax self k).
    { intros k Hk Hkp. rewrite getMax_setMax by auto.
      destruct (Z.eqb_spec (PARENT j) k); [congruence|reflexivity]. }
    destruct Hold as [H1 H2]. split; intros HU; rewrite Hkid by auto; [auto|].
    rewrite (H2 HU). destruct (Z.ltb_spec i 127) as [Hl|]; [|reflexivity].
    destruct (child_contained i Hi Hl) as [CL CR].
    pose proof (node_facts i Hi) as (_ & _ & _ & _ & Hc & _).
    destruct (Hc Hl) as (HLi & HRi & _).
    rewrite !Hkid; auto; intros Heq; apply Hna; (split; [|exact Hne]); rewrite <- Heq; auto.
Qed.

Lemma almost_root M U : almost M U 0 -> forall i, is_node i -> local_ok M U i.
Proof.
  intros H i Hi. apply H; [exact Hi|]. intros [Hc Hne]. apply Hne.
  apply contains_antisym; [exact Hi|unfold is_node; lia|exact Hc|].
  pose proof (node_facts i Hi). unfold contains. change (lo 0) with 0. change (sz 0) with 128. lia.
Qed.

Lemma bounded_setMax self i v :
  arrays_ok self -> is_node i -> 0 <= v <= sz i ->
  bounded (getMax self) -> bounded (getMax (setMax self i v)).
Proof.
  intros Ha Hi Hv Hb j Hj. pose proof (node_facts i Hi).
  rewrite getMax_setMax by (auto; lia). destruct (Z.eqb_spec i j) as [<-|]; auto.
Qed.

(** No used node strictly above [j]. *)
Definition clear_above (U : Z -> Prop) (j : Z) : Prop :=
  forall a, is_node a -> contains a j -> a <> j -> ~ U a.

Lemma clear_above_parent U j :
  is_node j -> j <> 0 -> clear_above U j -> clear_above U (PARENT j) /\ ~ U (PARENT j).
Proof.
  intros Hj Hj0 H. destruct (parent_facts j Hj Hj0) as (Hp & Hp127 & Hlt & Hch).
  destruct (child_contained _ Hp Hp127) as [CL CR].
  assert (Hcj : contains (PARENT j) j) by (destruct Hch as [Heq|Heq]; rewrite Heq at 2; assumption).
  split; [|apply H; auto; lia].
  intros a Ha Hc Hne. apply H; [exact Ha|eapply contains_trans; eauto|].
  intros ->. apply Hne, contains_antisym; auto.
Qed.

Lemma comb_range i l r :
  is_node i -> i < 127 -> 0 <= l <= sz (LEFT_LEAF i) -> 0 <= r <= sz (RIGHT_LEAF i) ->
  0 <= comb i l r <= sz i.
Proof.
  intros Hi Hl Hll Hrr. pose proof (node_facts i Hi) as (_ & _ & _ & _ & Hc & _).
  destruct (Hc Hl) as (_ & _ & Hs & Hs' & _). unfold comb. reflect_bools; lia.
Qed.

Lemma PARENT_fuel j n : 0 <= j -> j <> 0 -> j + 1 < 2 ^ (n + 1) -> 0 <= n ->
  PARENT j + 1 < 2 ^ n.
Proof.
  intros. unfold PARENT. rewrite Z.pow_add_r in * by lia. Z.div_mod_to_equations. lia.
Qed.

(** [update_free_parent] restores the equation up to the root. *)
Lemma update_free_parent_ok U fuel : forall self j,
  arrays_ok self -> bounded (getMax self) -> is_node j ->
  j + 1 < 2 ^ Z.of_nat fuel -> almost (getMax self) U j -> clear_above U j ->
  tree_ok (update_free_parent fuel self j (sz j)) U /\
  same_rest self (update_free_parent fuel self j (sz j)).
Proof.
  induction fuel as [|fuel IH]; intros self j Ha Hb Hj Hf Hal Hclr.
  { unfold is_node in Hj. simpl in Hf. lia. }
  simpl. destruct (Z.eqb_spec j 0) as [->|Hj0].
  { split; [|apply same_rest_refl]. split; auto. apply almost_root, Hal. }
  destruct (parent_facts j Hj Hj0) as (Hp & Hp127 & Hlt & Hch).
  destruct (clear_above_parent U j Hj Hj0 Hclr) as [Hclp HUp].
  pose proof (node_facts _ Hp) as (_ & Hw & _ & _ & Hc & _).
  destruct (Hc Hp127) as (HL & HR & Hs & Hs' & _).
  assert (Hsj : sz j * 2 = sz (PARENT j)) by (destruct Hch as [Heq|Heq]; rewrite Heq at 1; lia).
  rewrite Hsj.
  set (l := getMax self (LEFT_LEAF (PARENT j))). set (r := getMax self (RIGHT_LEAF (PARENT j))).
  pose proof (comb_range _ l r Hp Hp127 (Hb _ HL) (Hb _ HR)) as Hcr.
  assert (Hset : (if l + r =? sz (PARENT j) then setMax self (PARENT j) (sz (PARENT j))
    else setMax self (PARENT j) (Z.max l r)) = setMax self (PARENT j) (comb (PARENT j) l r)).
  { unfold comb. destruct (l + r =? sz (PARENT j)); reflexivity. }
  rewrite Hset. destruct (IH (setMax self (PARENT j) (comb (PARENT j) l r)) (PARENT j)) as [H1 H2];
    auto with acts.
  - apply bounded_setMax; auto.
  - apply PARENT_fuel; [unfold is_node in Hj; lia..| |lia].
    replace (Z.of_nat fuel + 1) with (Z.of_nat (S fuel)) by lia. exact Hf.
  - apply almost_step; auto. lia.
  - split; [exact H1|]. eapply same_rest_trans; [apply same_rest_setMax|exact H2].
Qed.

(** [update_alloc_parent] does, below a node that is not completely free. *)
Lemma update_alloc_parent_ok U fuel : forall self j,
  arrays_ok self -> bounded (getMax self) -> is_node j -> getMax self j < sz j ->
  j + 1 < 2 ^ Z.of_nat fuel -> almost (getMax self) U j -> clear_above U j ->
  tree_ok (update_alloc_parent fuel self j) U /\
  same_rest self (update_alloc_parent fuel self j).
Proof.
  induction fuel as [|fuel IH]; intros self j Ha Hb Hj Hnf Hf Hal Hclr.
  { unfold is_node in Hj. simpl in Hf. lia. }
  simpl. destruct (Z.eqb_spec j 0) as [->|Hj0].
  { split; [|apply same_rest_refl]. split; auto. apply almost_root, Hal. }
  destruct (parent_facts j Hj Hj0) as (Hp & Hp127 & Hlt & Hch).
  destruct (clear_above_parent U j Hj Hj0 Hclr) as [Hclp HUp].
  pose proof (node_facts _ Hp) as (_ & Hw & _ & _ & Hc & _).
  destruct (Hc Hp127) as (HL & HR & Hs & Hs' & _).
  pose proof (Hb _ HL). pose proof (Hb _ HR).
  set (l := getMax self (LEFT_LEAF (PARENT j))) in *.
  set (r := getMax self (RIGHT_LEAF (PARENT j))) in *.
  assert (Hcomb : Z.max l r = comb (PARENT j) l r).
  { unfold comb. destruct (Z.eqb_spec (l + r) (sz (PARENT j))); [|reflexivity].
    assert (l < sz (LEFT_LEAF (PARENT j)) \/ r < sz (RIGHT_LEAF (PARENT j))); [|lia].
    subst l r. destruct Hch as [Heq|Heq]; rewrite <- Heq; auto. }
  rewrite Hcomb.
  destruct (IH (setMax self (PARENT j) (comb (PARENT j) l r)) (PARENT j)) as [H1 H2];
    auto with acts.
  - apply bounded_setMax; auto. lia.
  - rewrite getMax_setMax, Z.eqb_refl by (auto; lia). pose proof (node_facts _ HL). lia.
  - apply PARENT_fuel; [unfold is_node in Hj; lia..| |lia].
    replace (Z.of_nat fuel + 1) with (Z.of_nat (S fuel)) by lia. exact Hf.
  - apply almost_step; auto. lia.
  - split; [exact H1|]. eapply same_rest_trans; [apply same_rest_setMax|exact H2].
Qed.

(** ** Taking and giving back nodes *)

#[local] Arguments levels : simpl never.
#[local] Arguments update_alloc_parent : simpl never.
#[local] Arguments update_free_parent : simpl never.
#[local] Arguments release_node : simpl never.

Definition mark (self : buddy) (p : Z) : buddy :=
  update_alloc_parent levels (setMax self p 0) p.

Lemma levels_enough j : is_node j -> j + 1 < 2 ^ Z.of_nat levels.
Proof. unfold is_node. change (2 ^ Z.of_nat levels) with 256. lia. Qed.

(** A single store at [p] only disturbs the equations of [p] and above. *)
Lemma almost_store self U U' p v :
  tree_ok self U -> is_node p -> 0 <= v <= sz p ->
  (forall i, is_node i -> i <> p -> U i <-> U' i) ->
  local_ok (getMax (setMax self p v)) U' p ->
  almost (getMax (setMax self p v)) U' p.
Proof.
  intros [Ha Hb Hl] Hp Hv HU Hlp i Hi Hna. pose proof (node_facts p Hp).
  destruct (Z.eq_dec i p) as [->|Hne]; [exact Hlp|].
  assert (Hk : forall k, is_node k -> k <> p -> getMax (setMax self p v) k = getMax self k).
  { intros k Hk Hkp. rewrite getMax_setMax by (auto; lia).
    destruct (Z.eqb_spec p k); [congruence|reflexivity]. }
  destruct (Hl i Hi) as [H1 H2].
  split; intros Hu; rewrite <- (HU i Hi Hne) in Hu; rewrite Hk by auto; [auto|].
  rewrite (H2 Hu). destruct (Z.ltb_spec i 127) as [Hl127|]; [|reflexivity].
  destruct (child_contained i Hi Hl127) as [CL CR].
  pose proof (node_facts i Hi) as (_ & _ & _ & _ & Hc & _). destruct (Hc Hl127) as (HLi & HRi & _).
  rewrite !Hk; auto; intros Heq; apply Hna; (split; [|exact Hne]); rewrite <- Heq; auto.
Qed.

Lemma mark_ok self U p :
  tree_ok self U -> is_node p -> clear_above U p ->
  tree_ok (mark self p) (fun u => U u \/ u = p) /\ same_rest self (mark self p).
Proof.
  intros Ht Hp Hclr. pose proof (node_facts p Hp) as (Hsz & Hw & _).
  destruct (update_alloc_parent_ok (fun u => U u \/ u = p) levels (setMax self p 0) p)
    as [H1 H2]; auto using levels_enough.
  - apply arrays_ok_setMax, Ht.
  - apply bounded_setMax; [apply Ht|exact Hp|lia|apply Ht].
  - rewrite getMax_setMax, Z.eqb_refl by (try apply Ht; auto; lia). lia.
  - apply almost_store with U; auto; [lia|intros; intuition congruence|].
    split; [|tauto]. intros _. rewrite getMax_setMax, Z.eqb_refl by (try apply Ht; auto; lia).
    reflexivity.
  - intros a Ha Hc Hne [HU| ->]; [exact (Hclr a Ha Hc Hne HU)|congruence].
  - split; [exact H1|]. eapply same_rest_trans; [apply same_rest_setMax|exact H2].
Qed.

Definition release (self : buddy) (p : Z) : buddy := release_node self (p, sz p).

#[local] Strategy expand [release mark].

Lemma release_ok self U p :
  tree_ok self U -> is_node p -> clear_above U p ->
  (forall u, is_node u -> contains p u -> u <> p -> ~ U u) ->
  tree_ok (release self p) (fun u => U u /\ u <> p) /\ same_rest self (release self p).
Proof.
  intros Ht Hp Hclr Hbelow. pose proof (node_facts p Hp) as (Hsz & Hw & _ & _ & Hc & Hlf).
  assert (Hg : forall k, is_node k ->
    getMax (setMax self p (sz p)) k = if p =? k then sz p else getMax self k).
  { intros k Hk. apply getMax_setMax; [apply Ht|auto..|lia]. }
  destruct (update_free_parent_ok (fun u => U u /\ u <> p) levels (setMax self p (sz p)) p)
    as [H1 H2]; auto using levels_enough.
  - apply arrays_ok_setMax, Ht.
  - apply bounded_setMax; [apply Ht|exact Hp|lia|apply Ht].
  - apply almost_store with U; auto; [lia|intros; tauto|].
    split; [tauto|]. intros _. rewrite Hg, Z.eqb_refl by auto.
    destruct (Z.ltb_spec p 127) as [Hl|Hl]; [|lia].
    destruct (Hc Hl) as (HL & HR & Hs & Hs' & _). destruct (child_contained p Hp Hl) as [CL CR].
    rewrite !Hg by auto. unfold is_node, LEFT_LEAF, RIGHT_LEAF in Hp, Hl |- *.
    destruct (Z.eqb_spec p (p * 2 + 1)); [lia|]. destruct (Z.eqb_spec p (p * 2 + 2)); [lia|].
    change (p * 2 + 1) with (LEFT_LEAF p). change (p * 2 + 2) with (RIGHT_LEAF p).
    assert (Hfree : forall k, is_node k -> contains p k -> sz k < sz p -> getMax self k = sz k).
    { intros k Hk Hck Hsk. apply (no_used_full self U Ht k Hk). intros u Hu Hcu.
      apply Hbelow; [exact Hu|eapply contains_trans; eauto|]. intros ->.
      unfold contains in *. lia. }
    rewrite !Hfree by (auto; lia). unfold comb. reflect_bools; lia.
  - intros a Ha Hca Hne [HU _]. exact (Hclr a Ha Hca Hne HU).
  - split; [exact H1|]. eapply same_rest_trans; [apply same_rest_setMax|exact H2].
Qed.

(** Nodes of a list that lie pairwise apart. *)
Definition antichain (U : Z -> Prop) : Prop :=
  forall u v, is_node u -> is_node v -> U u -> U v -> contains u v -> u = v.

Lemma fold_left_cons {A B} (f : A -> B -> A) (x : B) (l : list B) (a : A) :
  fold_left f (x :: l) a = fold_left f l (f a x).
Proof. reflexivity. Qed.

Lemma fold_left_fmap {A B C} (f : A -> B -> A) (g : C -> B) (l : list C) : forall a,
  fold_left f (g <$> l) a = fold_left (fun a c => f a (g c)) l a.
Proof. induction l as [|c l IH]; intros a; [reflexivity|apply IH]. Qed.

Lemma mark_list_ok l : forall self U,
  tree_ok self U -> Forall is_node l -> antichain (fun u => U u \/ u ∈ l) ->
  tree_ok (fold_left mark l self) (fun u => U u \/ u ∈ l) /\
  same_rest self (fold_left mark l self).
Proof.
  induction l as [|p l IH]; intros self U Ht Hn Hac; [|rewrite fold_left_cons].
  - split; [|apply same_rest_refl]. apply (tree_ok_ext self U); [|exact Ht].
    intros i _. split; [auto|]. intros [H|H]; [exact H|inversion H].
  - inversion Hn as [|? ? Hp Hl]; subst.
    destruct (mark_ok self U p Ht Hp) as [H1 H2].
    { intros a Ha Hc Hne HU. apply Hne, Hac; auto. right. constructor. }
    destruct (IH (mark self p) (fun u => U u \/ u = p) H1 Hl) as [H3 H4].
    { intros u v Hu Hv HUu HUv. apply Hac; auto; rewrite elem_of_cons; tauto. }
    split; [|eapply same_rest_trans; eauto].
    eapply tree_ok_ext; [|exact H3]. intros i _. cbv beta. rewrite elem_of_cons. tauto.
Qed.

Lemma release_list_ok l : forall self U,
  tree_ok self U -> Forall is_node l -> (forall p, p ∈ l -> U p) -> NoDup l -> antichain U ->
  tree_ok (fold_left release l self) (fun u => U u /\ u ∉ l) /\
  same_rest self (fold_left release l self).
Proof.
  induction l as [|p l IH]; intros self U Ht Hn HU Hnd Hac; [|rewrite fold_left_cons].
  - split; [|apply same_rest_refl]. apply (tree_ok_ext self U); [|exact Ht].
    intros i _. split; [|tauto]. intros H. split; [exact H|apply not_elem_of_nil].
  - inversion Hn as [|? ? Hp Hl]; subst. apply NoDup_cons in Hnd as [Hpl Hnd].
    assert (HUp : U p) by (apply HU; constructor).
    destruct (release_ok self U p Ht Hp) as [H1 H2].
    { intros a Ha Hc Hne HUa. apply Hne, Hac; auto. }
    { intros u Hu Hc Hne HUu. apply Hne. symmetry. apply Hac; auto. }
    destruct (IH (release self p) (fun u => U u /\ u <> p) H1 Hl) as [H3 H4]; auto.
    { intros q Hq. split; [apply HU; constructor; exact Hq|]. intros ->. contradiction. }
    { intros u v Hu Hv [HUu _] [HUv _]. apply Hac; auto. }
    split; [|eapply same_rest_trans; eauto].
    eapply tree_ok_ext; [|exact H3]. intros i _. cbv beta. rewrite not_elem_of_cons. tauto.
Qed.

(** ** The nodes of a block *)

(** The pieces of the binary expansion of [n] below [index], as the loop of
    [rom_buddy_alloc] visits them. *)
Fixpoint expand (fuel : nat) (index node_size n : Z) : list Z :=
  match fuel with
  | O => []
  | S fuel =>
      if node_size >? 0 then
        if n >=? node_size then
          LEFT_LEAF index :: expand fuel (RIGHT_LEAF index) (node_size / 2) (n - node_size)
        else expand fuel (LEFT_LEAF index) (node_size / 2) n
      else []
  end.

(** A block of [n] units is cut from a node of the next power of two. *)
Definition root_size (n : Z) : Z := 2 ^ Z.log2_up n.
Definition root (o n : Z) : Z := (o + 128) / root_size n - 1.

Definition pieces (o n : Z) : list Z :=
  if root_size n >? n then expand levels (root o n) (root_size n / 2) n else [root o n].

Definition validb (o n : Z) : bool :=
  (0 <=? o) && (1 <=? n) && (o + n <=? 120) && (o mod root_size n =? 0).
Definition valid (o n : Z) : Prop := validb o n = true.

Lemma take_pieces_fold fuel : forall self index s n,
  take_pieces fuel self index s n = fold_left mark (expand fuel index s n) self.
Proof.
  induction fuel as [|fuel IH]; intros self index s n;
    cbn [take_pieces expand]; [reflexivity|].
  destruct (s >? 0); [|reflexivity].
  destruct (n >=? s); rewrite IH; [rewrite fold_left_cons|]; reflexivity.
Qed.

(** Checking a property of every possible block by evaluation. *)
Definition all_blocks (P : Z -> Z -> bool) : bool :=
  forallb (fun o => forallb (fun n => if validb o n then P o n else true) (seqZ 1 120))
    (seqZ 0 120).

Lemma valid_bounds o n : valid o n -> 0 <= o /\ 1 <= n /\ o + n <= 120 /\ o mod root_size n = 0.
Proof. unfold valid, validb. intros H. split_facts H. lia. Qed.

Lemma all_blocks_elim P : all_blocks P = true -> forall o n, valid o n -> P o n = true.
Proof.
  intros H o n Hv. pose proof (valid_bounds o n Hv).
  unfold all_blocks in H. apply forallb_seqZ with (i := o) in H; [|lia]. cbv beta in H.
  apply forallb_seqZ with (i := n) in H; [|lia]. cbv beta in H.
  unfold valid in Hv. rewrite Hv in H. exact H.
Qed.

Definition apartb (i j : Z) : bool := (lo i + sz i <=? lo j) || (lo j + sz j <=? lo i).

Definition pieces_checkb (o n : Z) : bool :=
  match pieces o n with
  | [] => false
  | f :: l => (lo f =? o)
      && forallb (fun p => (0 <=? p) && (p <=? 254) && (o <=? lo p)
           && (lo p + sz p <=? o + n)) (f :: l)
      && forallb (fun p => o <? lo p) l
      && forallb (fun p => forallb (fun q => (p =? q) || apartb p q) (f :: l)) (f :: l)
      && bool_decide (NoDup (f :: l))
      && forallb (fun x => existsb (fun p => (lo p <=? x) && (x <? lo p + sz p)) (f :: l))
           (seqZ o n)
      && (foldr (fun p acc => sz p + acc) 0 (f :: l) =? n)
  end.

(** The pieces lie in the block, in order and pairwise apart; the first one
    starts the block and all others start later; together they fill it. *)
Lemma pieces_check o n : valid o n ->
  exists f l, pieces o n = f :: l /\ lo f = o /\
    Forall (fun p => is_node p /\ o <= lo p /\ lo p + sz p <= o + n) (pieces o n) /\
    Forall (fun p => o < lo p) l /\
    (forall p q, p ∈ pieces o n -> q ∈ pieces o n -> p = q \/ apart p q) /\
    NoDup (pieces o n) /\
    (forall x, o <= x < o + n -> exists p, p ∈ pieces o n /\ lo p <= x < lo p + sz p) /\
    foldr (fun p acc => sz p + acc) 0 (pieces o n) = n.
Proof.
  intros Hv.
  pose proof (all_blocks_elim pieces_checkb ltac:(vm_compute; reflexivity) o n Hv) as H.
  unfold pieces_checkb in H. destruct (pieces o n) as [|f l]; [discriminate|].
  exists f, l. rewrite !andb_true_iff, !forallb_forall, bool_decide_eq_true, !Z.eqb_eq in H.
  destruct H as ((((((H1 & H2) & H3) & H4) & H5) & H6) & H7).
  split; [reflexivity|]. split; [exact H1|].
  split; [|split; [|split; [|split; [exact H5|split; [|exact H7]]]]].
  - apply Forall_forall. intros p Hp. apply list_elem_of_In in Hp. specialize (H2 p Hp).
    split_facts H2. unfold is_node. lia.
  - apply Forall_forall. intros p Hp. apply list_elem_of_In in Hp. specialize (H3 p Hp).
    split_facts H3. lia.
  - intros p q Hp Hq. apply list_elem_of_In in Hp, Hq. specialize (H4 p Hp).
    rewrite forallb_forall in H4. specialize (H4 q Hq). unfold apartb in H4. split_facts H4.
    unfold apart. tauto.
  - intros x Hx. specialize (H6 x). rewrite <- list_elem_of_In, elem_of_seqZ in H6.
    specialize (H6 ltac:(lia)). apply existsb_exists in H6 as (p & Hp & Hpx). exists p. rewrite list_elem_of_In.
    split_facts Hpx. split; [exact Hp|lia].
Qed.

(** ** The abstract state: a map of blocks *)

Abbreviation blocks := (gmap Z Z).

(** The nodes in use: the allocator's own node 30 and those of the blocks. *)
Definition used (B : blocks) (u : Z) : Prop :=
  u = 30 \/ exists o n, B !! o = Some n /\ u ∈ pieces o n.

(** The nodes that start a block. *)
Definition starts (B : blocks) (u : Z) : Prop :=
  exists o n, B !! o = Some n /\ head (pieces o n) = Some u.

Definition total (B : blocks) : Z := map_fold (fun _ n acc => n + acc) 0 B.

Definition disjoint_ranges (o n o' n' : Z) : Prop := o + n <= o' \/ o' + n' <= o.

Record blocks_ok (B : blocks) : Prop := {
  blocks_valid : forall o n, B !! o = Some n -> valid o n;
  blocks_disjoint : forall o n o' n', B !! o = Some n -> B !! o' = Some n' -> o <> o' ->
    disjoint_ranges o n o' n'
}.

Record inv (self : buddy) (B : blocks) : Prop := {
  inv_blocks : blocks_ok B;
  inv_tree : tree_ok self (used B);
  inv_heads : forall i, is_node i -> is_head self i = true <-> starts B i;
  inv_freed : freed self = SELF_INDEX - total B
}.

Lemma piece_in o n p : valid o n -> p ∈ pieces o n ->
  is_node p /\ o <= lo p /\ lo p + sz p <= o + n.
Proof.
  intros Hv Hp. destruct (pieces_check o n Hv) as (f & l & _ & _ & Hall & _).
  rewrite Forall_forall in Hall. apply Hall, Hp.
Qed.

Lemma used_node B u : blocks_ok B -> used B u -> is_node u.
Proof.
  intros HB [->|(o & n & Ho & Hu)]; [unfold is_node; lia|].
  apply (piece_in o n u (blocks_valid B HB o n Ho) Hu).
Qed.

(** Used nodes do not overlap. *)
Lemma used_apart B u v : blocks_ok B -> used B u -> used B v -> u = v \/ apart u v.
Proof.
  intros HB. unfold used.
  assert (H30 : forall o n p, B !! o = Some n -> p ∈ pieces o n -> apart p 30).
  { intros o n p Ho Hp. pose proof (blocks_valid B HB o n Ho) as Hv.
    pose proof (piece_in o n p Hv Hp). pose proof (valid_bounds o n Hv).
    unfold apart. change (lo 30) with 120. lia. }
  intros [->|(o & n & Ho & Hu)] [->|(o' & n' & Ho' & Hv)].
  - auto.
  - right. destruct (H30 o' n' v Ho' Hv); [right|left]; assumption.
  - right. apply (H30 o n u Ho Hu).
  - pose proof (blocks_valid B HB o n Ho) as Hva. pose proof (blocks_valid B HB o' n' Ho') as Hva'.
    destruct (Z.eq_dec o o') as [<-|Hne].
    + assert (n = n') as <- by congruence.
      destruct (pieces_check o n Hva) as (_ & _ & _ & _ & _ & _ & Hap & _). apply Hap; assumption.
    + right. pose proof (piece_in o n u Hva Hu). pose proof (piece_in o' n' v Hva' Hv).
      destruct (blocks_disjoint B HB o n o' n' Ho Ho' Hne); [left|right]; lia.
Qed.

Lemma used_antichain B : blocks_ok B -> antichain (used B).
Proof.
  intros HB u v Hu Hv HUu HUv Hc. destruct (used_apart B u v HB HUu HUv) as [|Hap]; [assumption|].
  exfalso. exact (contains_not_apart u v Hu Hv Hc Hap).
Qed.

(** [o, o+n) meets no block of [B]. *)
Definition fresh (B : blocks) (o n : Z) : Prop :=
  forall o' n', B !! o' = Some n' -> disjoint_ranges o n o' n'.

Lemma fresh_lookup B o n : blocks_ok B -> valid o n -> fresh B o n -> B !! o = None.
Proof.
  intros HB Hv Hf. destruct (B !! o) as [n'|] eqn:Ho; [|reflexivity]. exfalso.
  pose proof (valid_bounds o n Hv). pose proof (valid_bounds o n' (blocks_valid B HB o n' Ho)).
  destruct (Hf o n' Ho); lia.
Qed.

Lemma insert_blocks_ok B o n :
  blocks_ok B -> valid o n -> fresh B o n -> blocks_ok (<[o := n]> B).
Proof.
  intros HB Hv Hf. split.
  - intros o' n' H. apply lookup_insert_Some in H as [[-> ->]|[_ H]]; [exact Hv|].
    apply (blocks_valid B HB o' n' H).
  - intros o1 n1 o2 n2 H1 H2 Hne.
    apply lookup_insert_Some in H1 as [[<- <-]|[Hn1 H1]];
      apply lookup_insert_Some in H2 as [[<- <-]|[Hn2 H2]]; try congruence.
    + apply Hf, H2.
    + destruct (Hf o1 n1 H1); [right|left]; assumption.
    + apply (blocks_disjoint B HB o1 n1 o2 n2 H1 H2 Hne).
Qed.

Lemma delete_blocks_ok B o : blocks_ok B -> blocks_ok (delete o B).
Proof.
  intros [Hv Hd]. split.
  - intros o' n' H. apply lookup_delete_Some in H as [_ H]. auto.
  - intros o1 n1 o2 n2 H1 H2. apply lookup_delete_Some in H1 as [_ H1], H2 as [_ H2]. auto.
Qed.

Lemma used_insert B o n u : B !! o = None ->
  used (<[o := n]> B) u <-> used B u \/ u ∈ pieces o n.
Proof.
  intros Ho. unfold used. split.
  - intros [->|(o' & n' & H & Hu)]; [auto|].
    apply lookup_insert_Some in H as [[-> ->]|[_ H]]; [auto|]. left. right. eauto.
  - intros [[->|(o' & n' & H & Hu)]|Hu]; [auto| |].
    + right. exists o', n'. rewrite lookup_insert_ne by congruence. auto.
    + right. exists o, n. rewrite lookup_insert_eq. auto.
Qed.

Lemma total_insert B o n : B !! o = None -> total (<[o := n]> B) = n + total B.
Proof. intros Ho. unfold total. rewrite map_fold_insert_L; [reflexivity|lia|exact Ho]. Qed.

Lemma total_delete B o n : B !! o = Some n -> total B = n + total (delete o B).
Proof.
  intros Ho. rewrite <- (insert_delete_id B o n Ho) at 1.
  apply total_insert, lookup_delete_eq.
Qed.

(** ** Counting units *)

Definition units (B : blocks) : gset Z :=
  map_fold (fun o n acc => list_to_set (seqZ o n) ∪ acc) ∅ B.

Lemma units_insert B o n : B !! o = None ->
  units (<[o := n]> B) = list_to_set (seqZ o n) ∪ units B.
Proof.
  intros Ho. unfold units. rewrite map_fold_insert_L; [reflexivity| |exact Ho].
  intros. set_solver.
Qed.

Lemma elem_of_units B x :
  x ∈ units B <-> exists o n, B !! o = Some n /\ o <= x < o + n.
Proof.
  induction B as [|o n B Ho IH] using map_ind.
  - split; [intros H; vm_compute in H; set_solver|intros (o & n & H & _)].
    rewrite lookup_empty in H. discriminate.
  - rewrite units_insert, elem_of_union, elem_of_list_to_set, elem_of_seqZ, IH by exact Ho.
    split.
    + intros [Hx|(o' & n' & H & Hx)]; [exists o, n; rewrite lookup_insert_eq; auto|].
      exists o', n'. rewrite lookup_insert_ne by congruence. auto.
    + intros (o' & n' & H & Hx). apply lookup_insert_Some in H as [[-> ->]|[_ H]]; [auto|].
      right. eauto.
Qed.

Lemma total_units B : blocks_ok B -> total B = Z.of_nat (size (units B)).
Proof.
  induction B as [|o n B Ho IH] using map_ind; intros HB; [reflexivity|].
  assert (HBo : blocks_ok B).
  { rewrite <- (delete_insert_id B o n Ho). apply delete_blocks_ok, HB. }
  rewrite total_insert, units_insert, IH by assumption.
  pose proof (blocks_valid _ HB o n ltac:(apply lookup_insert_eq)) as Hv.
  rewrite size_union, size_list_to_set.
  - rewrite length_seqZ. pose proof (valid_bounds o n Hv). lia.
  - apply NoDup_seqZ.
  - apply elem_of_disjoint. intros x Hx Hy. rewrite elem_of_list_to_set, elem_of_seqZ in Hx.
    apply elem_of_units in Hy as (o' & n' & H' & Hy).
    assert (o <> o') by congruence.
    destruct (blocks_disjoint _ HB o n o' n'); [apply lookup_insert_eq| |assumption|lia..].
    rewrite lookup_insert_ne; assumption.
Qed.

Lemma total_range B : blocks_ok B -> 0 <= total B <= SELF_INDEX.
Proof.
  intros HB. rewrite (total_units B HB). split; [lia|].
  assert (Hs : units B ⊆ list_to_set (seqZ 0 120)).
  { intros x Hx. apply elem_of_units in Hx as (o & n & Ho & Hx).
    pose proof (valid_bounds o n (blocks_valid B HB o n Ho)).
    rewrite elem_of_list_to_set, elem_of_seqZ. lia. }
  apply subseteq_size in Hs. rewrite size_list_to_set, length_seqZ in Hs by apply NoDup_seqZ.
  change SELF_INDEX with 120. lia.
Qed.

(** ** Searching for free space *)

Definition free_node (B : blocks) (i : Z) : Prop := forall u, used B u -> apart u i.

Lemma full_free self B i :
  inv self B -> is_node i -> getMax self i = sz i ->
  (forall u, used B u -> contains u i -> u = i) -> free_node B i.
Proof.
  intros [HB Ht _ _] Hi Hfull Habove u Hu. pose proof (used_node B u HB Hu) as Hn.
  assert (Hne : u <> i).
  { intros ->. rewrite (used_zero self _ Ht i Hi Hu) in Hfull. pose proof (node_facts i Hi). lia. }
  destruct (nested_or_apart u i Hn Hi) as [Hc|[Hc|Hap]]; [|exfalso|exact Hap].
  - exfalso. apply Hne, Habove; assumption.
  - exact (full_no_used self _ Ht i Hi Hfull u Hn Hc Hu).
Qed.

Lemma free_units_fresh B o n :
  blocks_ok B -> 1 <= n ->
  (forall x, o <= x < o + n -> exists i, free_node B i /\ lo i <= x < lo i + sz i) ->
  fresh B o n.
Proof.
  intros HB Hn Hcov o' n' Ho'. unfold disjoint_ranges.
  destruct (Z.le_gt_cases (o + n) o') as [|H1]; [auto|].
  destruct (Z.le_gt_cases (o' + n') o) as [|H2]; [auto|]. exfalso.
  pose proof (blocks_valid B HB o' n' Ho') as Hv. pose proof (valid_bounds o' n' Hv).
  destruct (Hcov (Z.max o o') ltac:(lia)) as (i & Hfree & Hi).
  destruct (pieces_check o' n' Hv) as (_ & _ & _ & _ & _ & _ & _ & _ & Hfill & _).
  destruct (Hfill (Z.max o o') ltac:(lia)) as (p & Hp & Hpx).
  assert (Hap : apart p i) by (apply Hfree; right; eauto).
  unfold apart in Hap. lia.
Qed.

Lemma root_size_cases n : 1 <= n <= 120 ->
  (n <= 32 -> (if negb (IS_POWER_OF_2 n) then fixsize n else n) = root_size n) /\
  (32 < n <= 64 -> root_size n = 64) /\ (64 < n -> root_size n = 128) /\
  n <= root_size n /\ (root_size n = 1 \/ root_size n = 2 \/ root_size n = 4 \/ root_size n = 8 \/
    root_size n = 16 \/ root_size n = 32 \/ root_size n = 64 \/ root_size n = 128).
Proof.
  intros Hn.
  pose proof (forallb_seqZ (fun n =>
    let r := root_size n in
    (if n <=? 32 then (if negb (IS_POWER_OF_2 n) then fixsize n else n) =? r
     else if n <=? 64 then r =? 64 else r =? 128)
    && (n <=? r) && existsb (Z.eqb r) [1; 2; 4; 8; 16; 32; 64; 128]) 1 120
    ltac:(vm_compute; reflexivity) n ltac:(lia)) as H.
  cbv beta zeta in H. rewrite !andb_true_iff in H. destruct H as [[H1 H2] H3].
  cbn [existsb] in H3. rewrite !orb_true_iff, !Z.eqb_eq in H3.
  apply Z.leb_le in H2.
  destruct (Z.leb_spec n 32); [|destruct (Z.leb_spec n 64)]; apply Z.eqb_eq in H1;
    (split; [intros; first [exact H1|lia]|]); lia.
Qed.

(** Whoever contains a child of [i] is that child or contains [i]. *)
Lemma contains_child u i c : is_node u -> is_node c -> PARENT c = i ->
  contains u c -> u = c \/ contains u i.
Proof.
  intros Hu Hc <- H. destruct (Z.eq_dec u c); [auto|right]. apply contains_parent; auto.
Qed.

(** If the right child is too small, the left one is large enough. *)
Lemma left_enough self U i n :
  tree_ok self U -> is_node i -> ~ U i -> i < 127 -> n <= getMax self i ->
  2 * n <= sz i -> getMax self (RIGHT_LEAF i) < n -> n <= getMax self (LEFT_LEAF i).
Proof.
  intros Ht Hi HU Hl Hn Hsz Hr. pose proof (children_bounds self U Ht i Hi Hl).
  rewrite (inner_value self U Ht i Hi HU Hl) in Hn. unfold comb in Hn.
  destruct (Z.eqb_spec (getMax self (LEFT_LEAF i) + getMax self (RIGHT_LEAF i)) (sz i)); lia.
Qed.

(** A child with enough free space is not inside a used node. *)
Lemma child_clear self B i c n :
  inv self B -> is_node c -> PARENT c = i -> 0 < n <= getMax self c ->
  (forall u, used B u -> ~ contains u i) -> forall u, used B u -> ~ contains u c.
Proof.
  intros [HB Ht _ _] Hc Hp Hn Hab u Hu Hcu. pose proof (used_node B u HB Hu) as Hun.
  destruct (contains_child u i c Hun Hc Hp Hcu) as [->|H]; [|exact (Hab u Hu H)].
  rewrite (used_zero self _ Ht c Hc Hu) in Hn. lia.
Qed.

(** The descent of [rom_buddy_alloc] ends at a free node of the wanted size. *)
Lemma find_node_ok self B nsize fuel : forall index,
  inv self B -> is_node index -> 1 <= nsize <= getMax self index ->
  (exists d, 0 <= d < Z.of_nat fuel /\ sz index = nsize * 2 ^ d) ->
  (forall u, used B u -> ~ contains u index) ->
  exists i, find_node fuel self nsize index (sz index) = (i, nsize) /\
    is_node i /\ sz i = nsize /\ free_node B i.
Proof.
  induction fuel as [|fuel IH]; intros index Hinv Hi Hns (d & Hd & Hsz) Hab; [lia|].
  cbn [find_node]. pose proof (inv_tree _ _ Hinv) as Ht.
  pose proof (tree_bounded _ _ Ht _ Hi) as Hb.
  destruct (Z.eqb_spec (sz index) nsize) as [Heq|Hne].
  - exists index. rewrite Heq. repeat split; try assumption; try apply Hi.
    apply (full_free self B index Hinv Hi); [lia|]. intros u Hu Hc. exfalso. exact (Hab u Hu Hc).
  - assert (Hd0 : d <> 0) by (intros ->; lia).
    replace d with (1 + (d - 1)) in Hsz by lia. rewrite Z.pow_add_r in Hsz by lia.
    change (2 ^ 1) with 2 in Hsz.
    pose proof (Z.pow_pos_nonneg 2 (d - 1) ltac:(lia) ltac:(lia)).
    pose proof (node_facts index Hi) as (_ & _ & _ & _ & Hc & Hlf).
    assert (Hl : index < 127).
    { destruct (Z.lt_ge_cases index 127); [assumption|]. destruct (Hlf ltac:(lia)). nia. }
    destruct (Hc Hl) as (HL & HR & Hs & Hs' & _).
    assert (HU : ~ used B index) by (intros HU; exact (Hab index HU (contains_refl index))).
    assert (Hhalf : sz index / 2 = sz (LEFT_LEAF index)).
    { rewrite Hs, Z.mul_comm. apply Z.div_mul. lia. }
    rewrite Hhalf, Z.geb_leb.
    destruct (Z.leb_spec nsize (getMax self (RIGHT_LEAF index))) as [Hr|Hr].
    + rewrite <- Hs'. apply IH; auto; [lia|exists (d - 1); split; lia|].
      apply (child_clear self B index _ nsize); auto; [|lia].
      unfold PARENT, RIGHT_LEAF. Z.div_mod_to_equations. lia.
    + pose proof (left_enough self _ index nsize Ht Hi HU Hl ltac:(lia) ltac:(nia) Hr).
      apply IH; auto; [lia|exists (d - 1); split; lia|].
      apply (child_clear self B index _ nsize); auto; [|lia].
      unfold PARENT, LEFT_LEAF. Z.div_mod_to_equations. lia.
Qed.

(** The ancestors of node 30 hold the allocator itself and are never used. *)
Lemma spine_unused B a : blocks_ok B -> is_node a -> contains a 30 -> used B a -> a = 30.
Proof.
  intros HB Ha Hc Hu. apply (used_antichain B HB a 30); auto; [unfold is_node; lia|left; reflexivity].
Qed.

(** A completely free node just off that path is free. *)
Lemma spine_free self B i :
  inv self B -> is_node i -> contains (PARENT i) 30 -> lo i < 120 ->
  getMax self i = sz i -> free_node B i.
Proof.
  intros Hinv Hi Hp Hlo Hf. apply (full_free self B i Hinv Hi Hf). intros u Hu Hc.
  pose proof (inv_blocks _ _ Hinv) as HB. pose proof (used_node B u HB Hu) as Hn.
  destruct (contains_child u _ i Hn Hi eq_refl Hc) as [|Hcp]; [assumption|]. exfalso.
  assert (u = 30) as ->.
  { apply (spine_unused B u HB Hn); [|exact Hu]. eapply contains_trans; eauto. }
  unfold contains in Hc. change (lo 30) with 120 in Hc. lia.
Qed.

(** What [get_contins_size] guarantees for the first [n] units of the page
    and of its second half. *)
Lemma contins_1 self n : n <= get_contins_size self 1 64 ->
  (0 < n -> getMax self 1 = 64) /\ (64 < n -> getMax self 5 = 32) /\
  (96 < n -> getMax self 13 = 16) /\ (112 < n -> getMax self 29 = 8).
Proof.
  unfold get_contins_size, levels. cbn [contins_loop].
  change (RIGHT_SIBLING_LEFT_LEAF 1) with 5. change (RIGHT_SIBLING_LEFT_LEAF 5) with 13.
  change (RIGHT_SIBLING_LEFT_LEAF 13) with 29. change (64 / 2) with 32.
  change (32 / 2) with 16. change (16 / 2) with 8.
  destruct (Z.eqb_spec (getMax self 1) 64); cbn [andb Z.gtb Z.compare]; [|lia].
  destruct (Z.eqb_spec (getMax self 5) 32); cbn [andb Z.gtb Z.compare]; [|lia].
  destruct (Z.eqb_spec (getMax self 13) 16); cbn [andb Z.gtb Z.compare]; [|lia].
  destruct (Z.eqb_spec (getMax self 29) 8); cbn [andb Z.gtb Z.compare]; lia.
Qed.

Lemma contins_5 self n : n <= get_contins_size self 5 32 ->
  (0 < n -> getMax self 5 = 32) /\ (32 < n -> getMax self 13 = 16) /\
  (48 < n -> getMax self 29 = 8).
Proof.
  unfold get_contins_size, levels. cbn [contins_loop].
  change (RIGHT_SIBLING_LEFT_LEAF 5) with 13.
  change (RIGHT_SIBLING_LEFT_LEAF 13) with 29. change (32 / 2) with 16. change (16 / 2) with 8.
  destruct (Z.eqb_spec (getMax self 5) 32); cbn [andb Z.gtb Z.compare]; [|lia].
  destruct (Z.eqb_spec (getMax self 13) 16); cbn [andb Z.gtb Z.compare]; [|lia].
  destruct (Z.eqb_spec (getMax self 29) 8); cbn [andb Z.gtb Z.compare]; lia.
Qed.

(** The four nodes that cover the page up to the allocator's own data. *)
Lemma cover_free self B i :
  inv self B -> i = 1 \/ i = 5 \/ i = 13 \/ i = 29 -> getMax self i = sz i -> free_node B i.
Proof.
  intros Hinv Hi Hf.
  destruct Hi as [->|[->|[->| ->]]];
    (apply (spine_free self B _ Hinv); [unfold is_node; lia| |reflexivity|exact Hf];
     split; vm_compute; congruence).
Qed.

Lemma contins_fresh self B o n :
  inv self B -> 1 <= n -> o + n <= 120 ->
  (o = 0 /\ n <= get_contins_size self 1 64 \/ o = 64 /\ n <= get_contins_size self 5 32) ->
  fresh B o n.
Proof.
  intros Hinv Hn Hon H. apply (free_units_fresh B o n (inv_blocks _ _ Hinv) Hn). intros x Hx.
  assert (Hcov : exists i, (i = 1 \/ i = 5 \/ i = 13 \/ i = 29) /\ getMax self i = sz i /\
    lo i <= x < lo i + sz i).
  { assert (lo 1 = 0 /\ sz 1 = 64 /\ lo 5 = 64 /\ sz 5 = 32 /\ lo 13 = 96 /\ sz 13 = 16 /\
      lo 29 = 112 /\ sz 29 = 8) as Hgeo by (repeat split; reflexivity).
    destruct (Z.lt_ge_cases x 64); [exists 1|destruct (Z.lt_ge_cases x 96); [exists 5|
      destruct (Z.lt_ge_cases x 112); [exists 13|exists 29]]];
    (split; [tauto|]); (split; [|lia]);
    destruct H as [[-> H]|[-> H]]; first [apply contins_1 in H|apply contins_5 in H]; lia. }
  destruct Hcov as (i & Hi & Hf & Hxi). exists i. split; [apply (cover_free self B i Hinv Hi Hf)|lia].
Qed.

(** The chosen node is the root of a valid block that meets no other. *)
Lemma choose_node_ok self B n index ns o :
  inv self B -> 1 <= n <= 120 -> choose_node self n = Some (index, ns, o) ->
  valid o n /\ fresh B o n /\ index = root o n /\ ns = root_size n.
Proof.
  intros Hinv Hn. pose proof (root_size_cases n Hn) as (Hr1 & Hr2 & Hr3 & Hrn & Hrc).
  unfold choose_node. change (MAX_INDEX / 4) with 32. change (MAX_INDEX / 2) with 64.
  change (64 - BUDDY_SELF_SIZE) with 56.
  assert (Hval : forall k, 0 <= k -> k + n <= 120 -> k mod root_size n = 0 -> valid k n).
  { intros k H1 H2 H3. unfold valid, validb. rewrite H3.
    rewrite !andb_true_iff, !Z.leb_le. repeat split; lia. }
  destruct (Z.gtb_spec n 32) as [Hbig|Hsmall].
  - destruct ((n <=? 56) && (get_contins_size self 5 32 >=? n)) eqn:Hc5.
    + apply andb_true_iff in Hc5. rewrite Z.geb_leb, !Z.leb_le in Hc5. intros [= <- <- <-].
      rewrite (Hr2 ltac:(lia)) in *. split; [apply Hval; [lia..|reflexivity]|].
      split; [|unfold root; rewrite Hr2 by lia; split; reflexivity].
      apply (contins_fresh self); auto; lia.
    + destruct (Z.ltb_spec (get_contins_size self 1 64) n); [discriminate|].
      destruct (Z.gtb_spec n 64); intros [= <- <- <-];
        (split; [apply Hval; [lia..|apply Zmod_0_l]|]);
        (split; [apply (contins_fresh self); auto; lia|]); unfold root;
        first [rewrite (Hr3 ltac:(lia)); split; reflexivity
              |rewrite (Hr2 ltac:(lia)); split; reflexivity].
  - destruct (Z.eqb_spec n 0); [lia|]. rewrite (Hr1 ltac:(lia)).
    destruct (Z.ltb_spec (getMax self 0) (root_size n)); [discriminate|].
    destruct (find_node_ok self B (root_size n) levels 0) as (i & Hf & Hi & Hsz & Hfree);
      auto; [unfold is_node; lia|lia| | |].
    { change (sz 0) with 128. change (Z.of_nat levels) with 8.
      destruct Hrc as [->|[->|[->|[->|[->|[->|[->| ->]]]]]]];
        [exists 7|exists 6|exists 5|exists 4|exists 3|exists 2|exists 1|exists 0]; lia. }
    { intros u Hu Hc. pose proof (used_node B u (inv_blocks _ _ Hinv) Hu) as Hun.
      assert (u = 30) as -> by (apply (spine_unused B u (inv_blocks _ _ Hinv) Hun); auto;
        eapply contains_trans; [exact Hc|vm_compute; intuition congruence]).
      destruct Hc as [Hc _]. vm_compute in Hc. congruence. }
    change (sz 0) with MAX_INDEX in Hf. rewrite Hf. intros [= <- <- <-].
    pose proof (node_facts i Hi) as (_ & _ & Hlo & Hhi & _).
    assert (Ho : (i + 1) * root_size n - MAX_INDEX = lo i) by (unfold lo; rewrite Hsz; reflexivity).
    rewrite Ho. pose proof (Hfree 30 (or_introl eq_refl)) as H30. unfold apart in H30.
    change (lo 30) with 120 in H30. change (sz 30) with 8 in H30.
    split; [|split; [|split; [|reflexivity]]].
    + apply Hval; [lia..|]. rewrite <- Ho. unfold MAX_INDEX.
      destruct Hrc as [->|[->|[->|[->|[->|[->|[->| ->]]]]]]];
        Z.div_mod_to_equations; lia.
    + apply free_units_fresh; [apply Hinv|lia|]. intros x Hx. exists i. split; [exact Hfree|lia].
    + unfold root. rewrite <- Ho. unfold MAX_INDEX. rewrite Z.sub_add, Z.div_mul; lia.
Qed.

(** ** Allocation *)

(** The node whose [type] bit [rom_buddy_alloc] sets is the first piece. *)
Lemma first_piece o n : valid o n ->
  head (pieces o n) =
    Some (if root_size n >? n then LEFT_LEAF (root o n) else root o n).
Proof.
  intros Hv.
  pose proof (all_blocks_elim (fun o n => match pieces o n with
    | f :: _ => f =? (if root_size n >? n then LEFT_LEAF (root o n) else root o n)
    | [] => false end) ltac:(vm_compute; reflexivity) o n Hv) as H.
  cbv beta in H. destruct (pieces o n) as [|f l]; [discriminate|].
  apply Z.eqb_eq in H. simpl. congruence.
Qed.

Lemma mark_block_eq self o n : valid o n ->
  mark_block self (root o n) (root_size n) n =
  fold_left mark (pieces o n)
    (setType self (if root_size n >? n then LEFT_LEAF (root o n) else root o n)).
Proof.
  intros Hv. unfold mark_block, pieces. destruct (root_size n >? n);
    [apply take_pieces_fold|reflexivity].
Qed.

Lemma insert_antichain B o n : blocks_ok B -> valid o n -> fresh B o n ->
  antichain (fun u => used B u \/ u ∈ pieces o n).
Proof.
  intros HB Hv Hf u v Hu Hv' HUu HUv Hc.
  pose proof (fresh_lookup B o n HB Hv Hf) as Ho.
  apply (used_antichain (<[o := n]> B) (insert_blocks_ok B o n HB Hv Hf)); auto;
    rewrite used_insert; auto.
Qed.

Lemma starts_insert B o n u : B !! o = None ->
  starts (<[o := n]> B) u <-> starts B u \/ head (pieces o n) = Some u.
Proof.
  intros Ho. unfold starts. split.
  - intros (o' & n' & H & Hu). apply lookup_insert_Some in H as [[-> ->]|[_ H]]; eauto.
  - intros [(o' & n' & H & Hu)|Hu].
    + exists o', n'. rewrite lookup_insert_ne by congruence. auto.
    + exists o, n. rewrite lookup_insert_eq. auto.
Qed.

(** Marking a fresh block extends the map by that block. *)
Lemma mark_block_ok self B o n :
  inv self B -> valid o n -> fresh B o n ->
  let self' := mark_block self (root o n) (root_size n) n in
  inv (set_freed self' (freed self' - n)) (<[o := n]> B) /\ page_no self' = page_no self.
Proof.
  intros [HB Ht Hh Hfr] Hv Hf. cbv zeta. rewrite (mark_block_eq self o n Hv).
  pose proof (first_piece o n Hv) as Hfp. set (f := if _ >? n then _ else _) in *.
  destruct (pieces_check o n Hv) as (f' & l & Hp & _ & Hall & _).
  assert (Hnodes : Forall is_node (pieces o n)) by (eapply Forall_impl; [exact Hall|intros p [Hp' _]; exact Hp']).
  assert (Hfn : is_node f).
  { rewrite Hp in Hfp, Hnodes. injection Hfp as <-. inversion Hnodes. assumption. }
  pose proof (fresh_lookup B o n HB Hv Hf) as Ho.
  destruct (mark_list_ok (pieces o n) (setType self f) (used B)) as [Ht' (Hpg & Hty & Hfd)]; auto.
  { apply (tree_ok_max self); auto. simpl. apply length_insert. }
  { apply insert_antichain; assumption. }
  set (self' := fold_left mark (pieces o n) (setType self f)) in *.
  split; [|exact Hpg]. split.
  - apply insert_blocks_ok; assumption.
  - apply (tree_ok_max self'); auto. apply (tree_ok_ext self' _ _) with (2 := Ht').
    intros i _. rewrite used_insert by exact Ho. reflexivity.
  - intros i Hi. assert (Hs : is_head (set_freed self' (freed self' - n)) i = is_head (setType self f) i).
    { unfold is_head, rom_buddy_getType. cbn [type_ set_freed]. rewrite Hty. reflexivity. }
    rewrite Hs, is_head_setType, starts_insert, orb_true_iff, (Hh i Hi), Hfp, Z.eqb_eq
      by (auto; apply Ht). split; [intros [->|H]|intros [H|[= H]]]; auto.
  - cbn [freed set_freed]. rewrite Hfd, total_insert by exact Ho. cbn [freed setType set_type].
    pose proof (total_range _ (insert_blocks_ok B o n HB Hv Hf)) as Hr.
    rewrite total_insert in Hr by exact Ho. rewrite Hfr. change SELF_INDEX with 120 in *.
    rewrite u8_small; lia.
Qed.

(** A new page holds no blocks. *)
Lemma new_inv no : inv (rom_new_buddy_no no) ∅.
Proof.
  assert (Hempty : forall u, used ∅ u <-> u = 30).
  { intros u. unfold used. split; [intros [->|(o & n & H & _)]; [auto|]|auto].
    rewrite lookup_empty in H. discriminate. }
  assert (Hchk : forall i, is_node i ->
    getMax (rom_new_buddy_no no) i =
      (if i =? 30 then 0 else if i <? 127
       then comb i (getMax (rom_new_buddy_no no) (LEFT_LEAF i)) (getMax (rom_new_buddy_no no) (RIGHT_LEAF i))
       else 1) /\ 0 <= getMax (rom_new_buddy_no no) i <= sz i /\
    is_head (rom_new_buddy_no no) i = false).
  { intros i Hi. set (g := getMax (rom_new_buddy_no 0)).
    pose proof (all_nodes_elim (fun i =>
      (g i =? (if i =? 30 then 0 else if i <? 127 then comb i (g (LEFT_LEAF i)) (g (RIGHT_LEAF i)) else 1))
      && (0 <=? g i) && (g i <=? sz i) && negb (is_head (rom_new_buddy_no 0) i))
      ltac:(vm_compute; reflexivity) i Hi) as H.
    cbv beta in H. split_facts H. destruct H as (((H1 & H2) & H3) & H4).
    split; [exact H1|]. split; [exact (conj H2 H3)|exact H4]. }
  split.
  - split; intros o n; rewrite lookup_empty; discriminate.
  - split; [split; reflexivity|intros i Hi; apply (Hchk i Hi)|].
    intros i Hi. destruct (Hchk i Hi) as (Hv & _). split; rewrite Hempty; intros H; rewrite Hv;
      destruct (Z.eqb_spec i 30); congruence.
  - intros i Hi. destruct (Hchk i Hi) as (_ & _ & ->). split; [discriminate|].
    intros (o & n & H & _). rewrite lookup_empty in H. discriminate.
  - reflexivity.
Qed.

(** ** Release *)

(** Below a used node every node is completely free, so it is not 0. *)
Lemma below_used self B f i :
  inv self B -> used B f -> is_node i -> contains f i -> i <> f -> getMax self i = sz i.
Proof.
  intros [HB Ht _ _] Hf Hi Hc Hne. pose proof (used_node B f HB Hf) as Hfn.
  apply (no_used_full self _ Ht i Hi). intros u Hu Hcu HU.
  assert (f = u) as <-.
  { apply (used_antichain B HB f u); auto. eapply contains_trans; eauto. }
  apply Hne, contains_antisym; auto.
Qed.

(** The way up from a unit ends at the used node that holds the unit. *)
Lemma find_used_ok self B f fuel : forall i,
  inv self B -> used B f -> is_node i -> contains f i ->
  (exists d, 0 <= d < Z.of_nat fuel /\ sz f = sz i * 2 ^ d) ->
  find_used fuel self i (sz i) = Some (f, sz f).
Proof.
  induction fuel as [|fuel IH]; intros i Hinv Hf Hi Hc (d & Hd & Hs); [lia|].
  cbn [find_used]. pose proof (node_facts i Hi) as (Hsz & _).
  pose proof (used_node B f (inv_blocks _ _ Hinv) Hf) as Hfn.
  destruct (Z.eq_dec i f) as [->|Hne].
  - rewrite (used_zero self _ (inv_tree _ _ Hinv) f Hfn Hf). reflexivity.
  - rewrite (below_used self B f i Hinv Hf Hi Hc Hne).
    destruct (Z.eqb_spec (sz i) 0); [lia|].
    assert (Hi0 : i <> 0).
    { intros ->. apply Hne, contains_antisym; auto. pose proof (node_facts f Hfn).
      unfold contains. change (lo 0) with 0. change (sz 0) with 128. lia. }
    destruct (Z.eqb_spec i 0); [contradiction|].
    destruct (parent_facts i Hi Hi0) as (Hp & Hp127 & _ & Hch).
    pose proof (node_facts _ Hp) as (_ & _ & _ & _ & Hk & _). destruct (Hk Hp127) as (_ & _ & Hs1 & Hs2 & _).
    assert (Hsp : sz i * 2 = sz (PARENT i)) by (destruct Hch as [Heq|Heq]; rewrite Heq at 1; lia).
    rewrite Hsp. apply IH; auto; [apply contains_parent; auto|].
    assert (d <> 0).
    { intros ->. apply Hne. apply contains_antisym; auto. unfold contains in *. lia. }
    exists (d - 1). split; [lia|]. rewrite <- Hsp.
    replace d with (1 + (d - 1)) in Hs by lia. rewrite Z.pow_add_r in Hs by lia. lia.
Qed.

(** If no node of the path is used, the way up never ends. *)
Lemma find_used_none self B fuel : forall i s,
  inv self B -> is_node i -> i + 1 < 2 ^ Z.of_nat fuel ->
  (forall u, used B u -> ~ contains u i) -> getMax self i <> 0 ->
  find_used fuel self i s = None.
Proof.
  induction fuel as [|fuel IH]; intros i s Hinv Hi Hf Hno Hm; [reflexivity|].
  cbn [find_used]. destruct (Z.eqb_spec (getMax self i) 0); [contradiction|].
  destruct (Z.eqb_spec i 0) as [|Hi0]; [reflexivity|].
  destruct (parent_facts i Hi Hi0) as (Hp & Hp127 & _ & Hch).
  destruct (child_contained _ Hp Hp127) as [CL CR].
  assert (Hci : contains (PARENT i) i) by (destruct Hch as [Heq|Heq]; rewrite Heq at 2; assumption).
  assert (Hnp : forall u, used B u -> ~ contains u (PARENT i)).
  { intros u Hu Hcu. apply (Hno u Hu). eapply contains_trans; eauto. }
  apply IH; auto.
  - apply PARENT_fuel; [unfold is_node in Hi; lia..| |lia].
    replace (Z.of_nat fuel + 1) with (Z.of_nat (S fuel)) by lia. exact Hf.
  - intros H0. destruct (unused_zero self _ (inv_tree _ _ Hinv) (PARENT i) Hp) as (_ & HL & HR); auto.
    { intros HU. exact (Hnp _ HU (contains_refl _)). }
    destruct Hch as [Heq|Heq]; rewrite <- Heq in *; contradiction.
Qed.

(** One level down in the loops that halve the node size. *)
Definition level (x s : Z) : Prop :=
  is_node x /\ (x < 127 -> s = sz (LEFT_LEAF x)) /\ (127 <= x -> s = 0).

Lemma level_child x s c :
  level x s -> x < 127 -> c = LEFT_LEAF x \/ c = RIGHT_LEAF x ->
  level c (s / 2) /\ sz c = s /\ 1 <= s /\ contains x c /\ sz c < sz x /\
  (forall n, 0 <= n < s -> n < 2 * (s / 2) \/ n = 0).
Proof.
  intros (Hx & Hs & _) Hl Hc. specialize (Hs Hl).
  pose proof (node_facts x Hx) as (_ & _ & _ & _ & Hk & _).
  destruct (Hk Hl) as (HL & HR & Hs1 & Hs2 & _). destruct (child_contained x Hx Hl).
  assert (Hcn : is_node c) by (destruct Hc as [->| ->]; assumption).
  assert (Hcs : sz c = s) by (destruct Hc as [->| ->]; lia).
  pose proof (node_facts c Hcn) as (Hc1 & _ & _ & _ & Hkc & Hlc).
  assert (Hhalf : c < 127 /\ s / 2 = sz (LEFT_LEAF c) /\ s = 2 * (s / 2) \/
                  127 <= c /\ s = 1 /\ s / 2 = 0).
  { destruct (Z.lt_ge_cases c 127) as [H127|H127].
    - left. destruct (Hkc H127) as (_ & _ & H2 & _).
      assert (s / 2 = sz (LEFT_LEAF c)) by (rewrite <- Hcs, H2, Z.mul_comm; apply Z.div_mul; lia).
      lia.
    - right. destruct (Hlc H127) as [H1 _]. rewrite <- Hcs, H1. auto. }
  split; [split; [exact Hcn|split; intros; lia]|].
  split; [exact Hcs|]. split; [lia|]. split; [destruct Hc as [->| ->]; assumption|].
  split; lia.
Qed.

Lemma expand_zero fuel : forall x s, 0 <= s -> expand fuel x s 0 = [].
Proof.
  induction fuel as [|fuel IH]; intros x s Hs; [reflexivity|]. cbn [expand].
  destruct (Z.gtb_spec s 0); [|reflexivity].
  rewrite Z.geb_leb, (proj2 (Z.leb_gt s 0)) by lia. apply IH. apply Z.div_pos; lia.
Qed.

Lemma expand_facts fuel : forall x s n,
  level x s -> s < 2 ^ (Z.of_nat fuel - 1) -> 0 <= n -> n < 2 * s \/ n = 0 ->
  (forall p, p ∈ expand fuel x s n -> is_node p /\ contains x p /\ sz p < sz x) /\
  (0 < n -> expand fuel x s n <> []).
Proof.
  induction fuel as [|fuel IH]; intros x s n Hlv Hf Hn Hns.
  { split; [intros p Hp; inversion Hp|]. change (2 ^ (Z.of_nat 0 - 1)) with 0 in Hf. intros. lia. }
  cbn [expand]. destruct (Z.lt_ge_cases x 127) as [Hl|Hl].
  2:{ destruct Hlv as (_ & _ & Hs0). rewrite (Hs0 Hl) in *. simpl.
      split; [intros p Hp; inversion Hp|lia]. }
  destruct (level_child x s (LEFT_LEAF x) Hlv Hl) as (HvL & HsL & H1 & HcL & HzL & HnL); [auto|].
  destruct (level_child x s (RIGHT_LEAF x) Hlv Hl) as (HvR & _ & _ & HcR & HzR & _); [auto|].
  assert (Hf' : s / 2 < 2 ^ (Z.of_nat fuel - 1)).
  { destruct fuel; [change (2 ^ (Z.of_nat 1 - 1)) with 1 in Hf; lia|].
    replace (Z.of_nat (S (S fuel)) - 1) with (1 + (Z.of_nat (S fuel) - 1)) in Hf by lia.
    rewrite Z.pow_add_r in Hf by lia. Z.div_mod_to_equations. lia. }
  rewrite Z.gtb_ltb, (proj2 (Z.ltb_lt 0 s)) by lia.
  rewrite Z.geb_leb. destruct (Z.leb_spec s n).
  - destruct (IH (RIGHT_LEAF x) (s / 2) (n - s) HvR Hf' ltac:(lia)
      (HnL (n - s) ltac:(lia))) as [Ha _].
    split; [|discriminate]. intros p Hp. apply elem_of_cons in Hp as [->|Hp].
    + split; [apply HvL|auto].
    + destruct (Ha p Hp) as (Hpn & Hpc & Hpz). split; [exact Hpn|].
      split; [exact (contains_trans _ _ _ HcR Hpc)|lia].
  - destruct (IH (LEFT_LEAF x) (s / 2) n HvL Hf' Hn (HnL n ltac:(lia))) as [Ha Hb].
    split; [|exact Hb]. intros p Hp. destruct (Ha p Hp) as (Hpn & Hpc & Hpz).
    split; [exact Hpn|]. split; [exact (contains_trans _ _ _ HcL Hpc)|lia].
Qed.

Lemma getType_head self i : (rom_buddy_getType self i =? 0) = negb (is_head self i).
Proof. unfold is_head. rewrite negb_involutive. reflexivity. Qed.

(** A used node that does not start a block lies behind the start of the page. *)
Lemma used_not_start B p : blocks_ok B -> used B p -> p <> 30 -> ~ starts B p -> 0 < lo p.
Proof.
  intros HB [->|(o & n & Ho & Hp)] H30 Hns; [congruence|].
  pose proof (blocks_valid B HB o n Ho) as Hv. pose proof (valid_bounds o n Hv).
  destruct (pieces_check o n Hv) as (f & l & Heq & _ & _ & Hl & _).
  rewrite Heq in Hp. apply elem_of_cons in Hp as [->|Hp].
  - exfalso. apply Hns. exists o, n. rewrite Heq. auto.
  - rewrite Forall_forall in Hl. specialize (Hl p Hp). lia.
Qed.

Section Chain.
Context (self : buddy) (B : blocks) (e : Z).
Hypothesis Hinv : inv self B.
Hypothesis Hend : forall u, used B u -> lo u = e -> starts B u \/ u = 30.

(** What the loop knows about the rest [n] of the block below [x]. *)
Definition rest_ok (fuel : nat) (x s n : Z) : Prop :=
  forall p, p ∈ expand fuel x s n -> used B p /\ ~ starts B p.

(** A piece of the block: the loop records it. *)
Lemma chain_piece x s j :
  level x s -> x < 127 -> 0 < lo x -> j = LEFT_LEAF x -> used B j -> ~ starts B j ->
  getMax self j = 0 /\ is_head self j = false /\ (j > MAX_INDEX -> s = 1) /\
  (j <= MAX_INDEX -> getMax self (LEFT_LEAF j) <> 0 /\ getMax self (RIGHT_LEAF j) <> 0).
Proof.
  intros Hlv Hl Hlo -> HU Hns. pose proof (inv_blocks _ _ Hinv) as HB.
  destruct (level_child x s (LEFT_LEAF x) Hlv Hl) as ((Hj & _) & Hsj & _); [auto|].
  pose proof (node_facts _ Hj) as (_ & _ & _ & _ & Hk & Hlf).
  destruct Hlv as (Hx & _). pose proof (node_facts x Hx) as (_ & _ & _ & _ & Hkx & _).
  destruct (Hkx Hl) as (_ & _ & _ & _ & HloL & _).
  split; [apply (used_zero self _ (inv_tree _ _ Hinv) _ Hj HU)|].
  split; [apply not_true_is_false; rewrite (inv_heads _ _ Hinv _ Hj); exact Hns|].
  unfold MAX_INDEX. split; [intros H; destruct (Hlf ltac:(lia)); lia|]. intros Hle.
  assert (Hj127 : LEFT_LEAF x < 127).
  { destruct (Z.lt_ge_cases (LEFT_LEAF x) 127) as [|H]; [assumption|].
    destruct (Hlf H). unfold LEFT_LEAF in *. lia. }
  destruct (Hk Hj127) as (HL & HR & _). destruct (child_contained _ Hj Hj127) as [CL CR].
  pose proof (node_facts _ HL). pose proof (node_facts _ HR).
  rewrite (below_used self B (LEFT_LEAF x) (LEFT_LEAF (LEFT_LEAF x)) Hinv HU HL CL),
    (below_used self B (LEFT_LEAF x) (RIGHT_LEAF (LEFT_LEAF x)) Hinv HU HR CR)
    by (unfold LEFT_LEAF, RIGHT_LEAF, is_node in *; lia). lia.
Qed.

(** Not a piece: the node is not used, or the block has ended before it. *)
Lemma chain_gap fuel x s n j :
  level x s -> x < 127 -> j = LEFT_LEAF x -> level j (s / 2) -> s / 2 < 2 ^ (Z.of_nat fuel - 1) ->
  0 <= n < s -> lo x + n = e -> rest_ok fuel j (s / 2) n ->
  (used B j -> n = 0 /\ starts B j) /\ (getMax self j = s -> n = 0).
Proof.
  intros Hlv Hl -> Hlvj Hf Hn He Hrest. pose proof (inv_blocks _ _ Hinv) as HB.
  destruct (level_child x s (LEFT_LEAF x) Hlv Hl) as (_ & Hsj & _ & _ & _ & Hnn); [auto|].
  destruct (expand_facts fuel (LEFT_LEAF x) (s / 2) n Hlvj Hf ltac:(lia) (Hnn n Hn)) as [Hex Hne].
  destruct Hlvj as (Hj & _).
  assert (Hbelow : 0 < n -> exists p, is_node p /\ used B p /\ contains (LEFT_LEAF x) p /\
    p <> LEFT_LEAF x).
  { intros H0. specialize (Hne H0). destruct (expand fuel _ _ n) as [|p l] eqn:Hexp; [congruence|].
    exists p. destruct (Hex p ltac:(constructor)) as (Hp & Hc & Hz).
    destruct (Hrest p ltac:(rewrite Hexp; constructor)) as [HU _].
    repeat split; try assumption; try apply Hp; try apply Hc. intros ->. lia. }
  split.
  - intros HU. assert (n = 0) as ->.
    { destruct (Z.eq_dec n 0) as [|Hn0]; [assumption|]. exfalso.
      destruct (Hbelow ltac:(lia)) as (p & Hp & HUp & Hc & Hpj). apply Hpj. symmetry.
      apply (used_antichain B HB); auto. }
    split; [reflexivity|].
    destruct Hlv as (Hx & _). pose proof (node_facts x Hx) as (_ & _ & _ & _ & Hkx & _).
    destruct (Hkx Hl) as (_ & _ & _ & _ & HloL & _).
    destruct (Hend _ HU ltac:(lia)) as [|H30]; [assumption|]. unfold LEFT_LEAF in H30. lia.
  - intros Hfull. destruct (Z.eq_dec n 0) as [|Hn0]; [assumption|]. exfalso.
    destruct (Hbelow ltac:(lia)) as (p & Hp & HUp & Hc & Hpj).
    exact (full_no_used self _ (inv_tree _ _ Hinv) _ Hj ltac:(lia) p Hp Hc HUp).
Qed.

Lemma half_fuel s fuel : 0 <= s -> s < 2 ^ (Z.of_nat (S fuel) - 1) -> 1 <= s ->
  s / 2 < 2 ^ (Z.of_nat fuel - 1).
Proof.
  intros Hs Hf H1. destruct fuel; [change (2 ^ (Z.of_nat 1 - 1)) with 1 in Hf; lia|].
  replace (Z.of_nat (S (S fuel)) - 1) with (1 + (Z.of_nat (S fuel) - 1)) in Hf by lia.
  rewrite Z.pow_add_r in Hf by lia. Z.div_mod_to_equations. lia.
Qed.

Lemma record_node j s : is_node j -> s = sz j -> (u8 j, u8 s) = (j, sz j).
Proof.
  intros Hj ->. pose proof (node_facts j Hj). unfold is_node in Hj. rewrite !u8_small; [reflexivity|lia..].
Qed.

(** The loop of [get_nsize_and_nodes] follows the binary expansion of the rest
    [n] of the block and stops at its end [e]. *)
Lemma chain_ok fuel : forall x s n,
  level x s -> s < 2 ^ (Z.of_nat fuel - 1) -> 0 <= n -> n < 2 * s \/ n = 0 ->
  0 < lo x -> lo x + n = e -> rest_ok fuel x s n ->
  chain_nodes fuel self (LEFT_LEAF x) s = (fun p => (p, sz p)) <$> expand fuel x s n.
Proof.
  induction fuel as [|fuel IH]; intros x s n Hlv Hf Hn Hns Hlo He Hrest; [reflexivity|].
  unfold rest_ok in Hrest. cbn [chain_nodes expand] in *.
  destruct (Z.lt_ge_cases x 127) as [Hl|Hl].
  2:{ destruct Hlv as (_ & _ & Hs0). rewrite (Hs0 Hl). reflexivity. }
  destruct (level_child x s (LEFT_LEAF x) Hlv Hl) as (HvL & HsL & H1 & _ & _ & HnL); [auto|].
  destruct (level_child x s (RIGHT_LEAF x) Hlv Hl) as (HvR & _); [auto|].
  pose proof (half_fuel s fuel ltac:(lia) Hf H1) as Hf'.
  assert (HloLR : lo (LEFT_LEAF x) = lo x /\ lo (RIGHT_LEAF x) = lo x + s).
  { destruct Hlv as (Hx & _). pose proof (node_facts x Hx) as (_ & _ & _ & _ & Hk & _).
    destruct (Hk Hl) as (_ & _ & _ & _ & ? & ?). lia. }
  assert (Hj : is_node (LEFT_LEAF x)) by apply HvL.
  rewrite (proj2 (Z.eqb_neq s 0)), (Z.gtb_ltb s 0) in * by lia.
  rewrite (proj2 (Z.ltb_lt 0 s)) in * by lia. rewrite (Z.geb_leb n s) in *.
  rewrite getType_head, negb_involutive. destruct (Z.leb_spec s n) as [Hge|Hlt].
  - destruct (Hrest (LEFT_LEAF x) ltac:(constructor)) as [HU Hst].
    destruct (chain_piece x s _ Hlv Hl Hlo eq_refl HU Hst) as (-> & -> & Hbig & Hsmall).
    rewrite fmap_cons, <- (record_node (LEFT_LEAF x) s Hj ltac:(lia)). simpl (0 =? 0).
    destruct (Z.gtb_spec (LEFT_LEAF x) MAX_INDEX) as [Hg|Hg].
    + rewrite (Hbig ltac:(lia)) in *. replace (n - 1) with 0 by lia.
      rewrite expand_zero by (vm_compute; congruence). reflexivity.
    + destruct (Hsmall Hg) as [H2 H3]. rewrite !(proj2 (Z.eqb_neq _ _)) by assumption. simpl.
      f_equal. replace (RIGHT_SIBLING_LEFT_LEAF (LEFT_LEAF x)) with (LEFT_LEAF (RIGHT_LEAF x))
        by (unfold RIGHT_SIBLING_LEFT_LEAF, LEFT_LEAF, RIGHT_LEAF; lia).
      apply IH; auto; try lia; [apply HnL; lia|].
      intros p Hp. apply Hrest. constructor. exact Hp.
  - assert (Hr : rest_ok fuel (LEFT_LEAF x) (s / 2) n) by exact Hrest.
    destruct (chain_gap fuel x s n _ Hlv Hl eq_refl HvL Hf' ltac:(lia) He Hr) as [Hused Hfull].
    assert (Hgo : chain_nodes fuel self (LEFT_LEAF (LEFT_LEAF x)) (s / 2) =
      (fun p => (p, sz p)) <$> expand fuel (LEFT_LEAF x) (s / 2) n).
    { apply IH; auto; try lia. }
    assert (Hstop : n = 0 -> [] = (fun p : Z => (p, sz p)) <$> expand fuel (LEFT_LEAF x) (s / 2) n).
    { intros ->. rewrite expand_zero; [reflexivity|apply Z.div_pos; lia]. }
    destruct (Z.eqb_spec (getMax self (LEFT_LEAF x)) 0) as [H0|H0].
    + destruct (is_head self (LEFT_LEAF x)) eqn:Hh.
      { apply Hstop. apply (inv_heads _ _ Hinv _ Hj) in Hh as (o & k & Ho & Hhd).
        apply Hused. right. exists o, k. split; [exact Ho|].
        destruct (pieces o k); [discriminate|]. injection Hhd as <-. constructor. }
      assert (HnU : ~ used B (LEFT_LEAF x)).
      { intros HU. destruct (Hused HU) as [_ Hst]. apply (inv_heads _ _ Hinv _ Hj) in Hst. congruence. }
      destruct (unused_zero self _ (inv_tree _ _ Hinv) _ Hj HnU H0) as (Hj127 & HL0 & HR0).
      rewrite HL0, HR0. unfold MAX_INDEX. rewrite Z.gtb_ltb, (proj2 (Z.ltb_ge _ _)) by lia.
      exact Hgo.
    + destruct (Z.eqb_spec (getMax self (LEFT_LEAF x)) s) as [Hs|Hs]; [|exact Hgo].
      apply Hstop, Hfull, Hs.
Qed.
End Chain.

(** The first piece of a block and the rest that follows it. *)
Definition first_checkb (o n : Z) : bool :=
  match pieces o n with
  | [] => false
  | f :: l => (0 <=? f + 1) && (f + 1 <=? 254) && (sz (f + 1) =? sz f)
      && (lo (f + 1) =? o + sz f) && (0 <=? n - sz f)
      && ((n - sz f <? 2 * (sz f / 2)) || (n - sz f =? 0)) && (sz f / 2 <? 128)
      && (sz f =? 2 ^ Z.log2 (sz f)) && (Z.log2 (sz f) <? 8)
      && bool_decide (l = expand levels (f + 1) (sz f / 2) (n - sz f))
  end.

Lemma first_facts o n : valid o n ->
  exists f l, pieces o n = f :: l /\ level (f + 1) (sz f / 2) /\ lo (f + 1) = o + sz f /\
    0 <= n - sz f /\ (n - sz f < 2 * (sz f / 2) \/ n - sz f = 0) /\ sz f / 2 < 128 /\
    (exists d, 0 <= d < 8 /\ sz f = 2 ^ d) /\
    l = expand levels (f + 1) (sz f / 2) (n - sz f).
Proof.
  intros Hv.
  pose proof (all_blocks_elim first_checkb ltac:(vm_compute; reflexivity) o n Hv) as H.
  unfold first_checkb in H. destruct (pieces o n) as [|f l] eqn:Hp; [discriminate|].
  exists f, l. apply andb_true_iff in H as (H & Hl). apply bool_decide_eq_true in Hl.
  split_facts H. destruct H as ((((((((H1 & H2) & H3) & H4) & H5) & H6) & H7) & H8) & H9).
  assert (Hn : is_node (f + 1)) by (unfold is_node; lia).
  pose proof (node_facts _ Hn) as (_ & _ & _ & _ & Hk & Hlf).
  split; [reflexivity|]. split; [|repeat split; try assumption; try lia].
  - split; [exact Hn|]. rewrite <- H3. split; intros H127.
    + destruct (Hk H127) as (_ & _ & -> & _). rewrite Z.mul_comm. apply Z.div_mul. lia.
    + destruct (Hlf H127) as [-> _]. reflexivity.
  - exists (Z.log2 (sz f)). pose proof (Z.log2_nonneg (sz f)). lia.
Qed.

(** Every used node that begins where a block ends starts a block itself. *)
Lemma end_of_block B o n u : blocks_ok B -> B !! o = Some n ->
  used B u -> lo u = o + n -> starts B u \/ u = 30.
Proof.
  intros HB Ho [->|(o' & n' & Ho' & Hu)] Hlo; [auto|left].
  pose proof (blocks_valid B HB o n Ho) as Hv. pose proof (blocks_valid B HB o' n' Ho') as Hv'.
  pose proof (valid_bounds o n Hv). pose proof (piece_in o' n' u Hv' Hu) as (Hun & Hin).
  pose proof (node_facts u Hun).
  destruct (pieces_check o' n' Hv') as (f & l & Hp & _ & _ & Hl & _).
  rewrite Hp in Hu. apply elem_of_cons in Hu as [->|Hu].
  - exists o', n'. rewrite Hp. auto.
  - exfalso. rewrite Forall_forall in Hl. specialize (Hl u Hu).
    destruct (Z.eq_dec o o') as [<-|Hne]; [assert (n = n') by congruence; lia|].
    destruct (blocks_disjoint B HB o n o' n' Ho Ho' Hne); lia.
Qed.

Lemma sum_fmap l : foldr (fun (p : Z * Z) acc => p.2 + acc) 0 ((fun p => (p, sz p)) <$> l)
  = foldr (fun p acc => sz p + acc) 0 l.
Proof. induction l as [|p l IH]; [reflexivity|]. rewrite fmap_cons. simpl. rewrite IH. reflexivity. Qed.

(** The nodes found for a live block are exactly its pieces. *)
Lemma block_nodes self B o n :
  inv self B -> B !! o = Some n ->
  exists f, find_used levels self (o + MAX_INDEX - 1) 1 = Some (f, sz f) /\
    head (pieces o n) = Some f /\
    get_nsize_and_nodes self f (sz f) = (n, (fun p => (p, sz p)) <$> pieces o n).
Proof.
  intros Hinv Ho. pose proof (inv_blocks _ _ Hinv) as HB.
  pose proof (blocks_valid B HB o n Ho) as Hv. pose proof (valid_bounds o n Hv).
  destruct (first_facts o n Hv) as (f & l & Hp & Hlv & Hlo & Hn0 & Hn1 & Hs & Hpow & Hl).
  destruct (pieces_check o n Hv) as (f' & l' & Hp' & Hlf & Hall & Hrest & _ & Hnd & _ & Hsum).
  rewrite Hp in Hp'. injection Hp' as <- <-.
  assert (HU : forall p, p ∈ pieces o n -> used B p) by (intros p Hpp; right; eauto).
  assert (Hfn : is_node f) by (rewrite Hp in Hall; inversion Hall; tauto).
  pose proof (node_facts f Hfn) as (Hszf & _).
  exists f. split; [|split; [rewrite Hp; reflexivity|]].
  - assert (Hi : is_node (o + MAX_INDEX - 1)) by (unfold is_node, MAX_INDEX; lia).
    pose proof (node_facts _ Hi) as (_ & _ & _ & _ & _ & Hleaf).
    destruct (Hleaf ltac:(unfold MAX_INDEX; lia)) as [Hs1 Hl1].
    pose proof (find_used_ok self B f levels (o + MAX_INDEX - 1) Hinv) as Hfu.
    rewrite Hs1 in Hfu. apply Hfu; auto.
    + apply HU. rewrite Hp. constructor.
    + unfold contains. rewrite Hs1, Hl1. unfold MAX_INDEX. lia.
    + destruct Hpow as (d & Hd & ->). exists d. change (Z.of_nat levels) with 8. lia.
  - unfold get_nsize_and_nodes.
    replace (RIGHT_SIBLING_LEFT_LEAF f) with (LEFT_LEAF (f + 1))
      by (unfold RIGHT_SIBLING_LEFT_LEAF, LEFT_LEAF; lia).
    rewrite (chain_ok self B (o + n) Hinv (fun u => end_of_block B o n u HB Ho) levels (f + 1)
               (sz f / 2) (n - sz f)); auto; try lia.
    + rewrite (record_node f (sz f) Hfn eq_refl), <- Hl.
      change ((f, sz f) :: ((fun p => (p, sz p)) <$> l)) with ((fun p => (p, sz p)) <$> (f :: l)).
      rewrite <- Hp, sum_fmap, Hsum. reflexivity.
    + intros p Hpe. rewrite <- Hl in Hpe. split; [apply HU; rewrite Hp; constructor; exact Hpe|].
      intros (o' & n' & Ho' & Hh). rewrite Forall_forall in Hrest. specialize (Hrest p Hpe).
      destruct (pieces_check o' n' (blocks_valid B HB o' n' Ho')) as (g & k & Hg & Hlg & _).
      rewrite Hg in Hh. injection Hh as ->.
      pose proof (piece_in o n p Hv ltac:(rewrite Hp; constructor; exact Hpe)) as (Hpn & Hin).
      pose proof (valid_bounds o' n' (blocks_valid B HB o' n' Ho')). pose proof (node_facts p Hpn).
      destruct (Z.eq_dec o o') as [<-|Hne]; [lia|].
      destruct (blocks_disjoint B HB o n o' n' Ho Ho' Hne); lia.
Qed.

Lemma starts_delete B o n u : blocks_ok B -> B !! o = Some n ->
  starts (delete o B) u <-> starts B u /\ head (pieces o n) <> Some u.
Proof.
  intros HB Ho. pose proof (blocks_valid B HB) as Hv. unfold starts. split.
  - intros (o' & n' & H & Hu). apply lookup_delete_Some in H as [Hne H]. split; [eauto|].
    intros Hu'. destruct (pieces_check o n (Hv o n Ho)) as (f & l & Hp & Hlf & _).
    destruct (pieces_check o' n' (Hv o' n' H)) as (f' & l' & Hp' & Hlf' & _).
    rewrite Hp in Hu'. rewrite Hp' in Hu. simpl in Hu, Hu'. congruence.
  - intros [(o' & n' & H & Hu) Hne]. exists o', n'. split; [|exact Hu].
    rewrite lookup_delete_ne; [exact H|]. intros <-. congruence.
Qed.

Lemma used_delete B o n u : blocks_ok B -> B !! o = Some n ->
  used (delete o B) u <-> used B u /\ u ∉ pieces o n.
Proof.
  intros HB Ho. unfold used. pose proof (blocks_valid B HB o n Ho) as Hv.
  pose proof (valid_bounds o n Hv). split.
  - intros [->|(o' & n' & H' & Hu)].
    + split; [auto|]. intros Hp. destruct (piece_in o n 30 Hv Hp) as (_ & _ & H30).
      change (lo 30) with 120 in H30. change (sz 30) with 8 in H30. lia.
    + apply lookup_delete_Some in H' as [Hne H']. split; [right; eauto|]. intros Hp.
      pose proof (piece_in o n u Hv Hp) as (Hn & Hin).
      pose proof (piece_in o' n' u (blocks_valid B HB o' n' H') Hu) as (_ & Hin').
      pose proof (node_facts u Hn). destruct (blocks_disjoint B HB o n o' n' Ho H' Hne); lia.
  - intros [[->|(o' & n' & H' & Hu)] Hnp]; [auto|]. right. exists o', n'.
    rewrite lookup_delete_ne; [auto|]. intros <-. assert (n = n') by congruence. subst. contradiction.
Qed.

(** Giving back the pieces of a live block removes it from the map. *)
Lemma release_block_ok self B o n f :
  inv self B -> B !! o = Some n -> head (pieces o n) = Some f ->
  let self' := fold_left release_node ((fun p => (p, sz p)) <$> pieces o n) (clearType self f) in
  inv (set_freed self' (freed self' + n)) (delete o B) /\ page_no self' = page_no self.
Proof.
  intros [HB Ht Hh Hfr] Ho Hf. cbv zeta. rewrite fold_left_fmap.
  change (fun a c => release_node a (c, sz c)) with release.
  pose proof (blocks_valid B HB o n Ho) as Hv.
  destruct (pieces_check o n Hv) as (f' & l & Hp & _ & Hall & _ & _ & Hnd & _ & _).
  assert (Hnodes : Forall is_node (pieces o n))
    by (eapply Forall_impl; [exact Hall|intros p [Hp' _]; exact Hp']).
  assert (Hfn : is_node f).
  { rewrite Hp in Hf, Hnodes. injection Hf as <-. inversion Hnodes. assumption. }
  destruct (release_list_ok (pieces o n) (clearType self f) (used B)) as [Ht' (Hpg & Hty & Hfd)]; auto.
  { apply (tree_ok_max self); auto. simpl. apply length_insert. }
  { intros p Hpp. right. eauto. }
  { apply used_antichain, HB. }
  set (self' := fold_left release (pieces o n) (clearType self f)) in *.
  split; [|exact Hpg]. split.
  - apply delete_blocks_ok, HB.
  - apply (tree_ok_max self'); auto. apply (tree_ok_ext self' _ _) with (2 := Ht').
    intros i _. rewrite (used_delete B o n) by assumption. reflexivity.
  - intros i Hi. assert (Hs : is_head (set_freed self' (freed self' + n)) i = is_head (clearType self f) i).
    { unfold is_head, rom_buddy_getType. cbn [type_ set_freed]. rewrite Hty. reflexivity. }
    rewrite Hs, is_head_clearType, (starts_delete B o n), andb_true_iff, negb_true_iff,
      (Hh i Hi), Hf, Z.eqb_neq by (auto; apply Ht).
    split; [intros [Hne HS]|intros [HS Hne]]; (split; [|congruence || exact HS]);
      [exact HS|congruence].
  - cbn [freed set_freed]. rewrite Hfd. cbn [freed clearType set_type].
    pose proof (total_delete B o n Ho). pose proof (total_range _ (delete_blocks_ok B o HB)).
    pose proof (total_range _ HB). rewrite Hfr. change SELF_INDEX with 120 in *.
    rewrite u8_small; lia.
Qed.

(** ** The operations of one page *)

(** Bytes to units. *)
Definition units_of (size : Z) : Z := (size + UNIT_SIZE - 1) / UNIT_SIZE.

Lemma units_of_range size : 0 < size <= MAX_FREE_SIZE -> 1 <= units_of size <= 120.
Proof.
  unfold units_of. change UNIT_SIZE with 16. change MAX_FREE_SIZE with 1920.
  intros. Z.div_mod_to_equations. lia.
Qed.

Section Steps.
Context (page no : Z).
Hypothesis page_pos : 0 < page.
Hypothesis page_fits : page + PAGE_SIZE <= 2 ^ 32.

Lemma alloc_step self B size :
  inv self B -> page_no self = no ->
  let '(p, size', self') := rom_buddy_alloc page no self size in
  (p = NULL /\ size' = size /\ self' = self) \/
  exists o, let n := units_of size in
    0 < size <= MAX_FREE_SIZE /\ p = page + o * UNIT_SIZE /\ size' = n * UNIT_SIZE /\
    0 <= o /\ o + n <= SELF_INDEX /\ fresh B o n /\
    inv self' (<[o := n]> B) /\ page_no self' = no.
Proof.
  intros Hinv Hno. unfold rom_buddy_alloc.
  destruct (Z.leb_spec size 0) as [|Hs0]; [left; auto|].
  destruct (Z.gtb_spec size MAX_FREE_SIZE) as [|Hs1]; [left; auto|].
  rewrite Hno, Z.eqb_refl. cbn [negb].
  fold (units_of size). pose proof (units_of_range size ltac:(lia)) as Hn.
  destruct (choose_node self (units_of size)) as [[[index ns] o]|] eqn:Hch; [|left; auto].
  right. exists o. cbv zeta.
  destruct (choose_node_ok self B _ _ _ _ Hinv Hn Hch) as (Hv & Hf & -> & ->).
  pose proof (valid_bounds _ _ Hv). pose proof (mark_block_ok self B o _ Hinv Hv Hf) as [Hi Hpg].
  change SELF_INDEX with 120. change UNIT_SIZE with 16. change PAGE_SIZE with 2048 in page_fits.
  rewrite u32_small by lia. split; [lia|]. split; [reflexivity|]. split; [reflexivity|].
  split; [lia|]. split; [lia|]. split; [exact Hf|]. split; [exact Hi|].
  cbn [page_no set_freed]. congruence.
Qed.

Lemma free_step self B m o n info :
  inv self B -> page_no self = no -> B !! o = Some n ->
  let p := page + o * UNIT_SIZE in
  exists self', rom_buddy_free page no self m p info =
    FreeReturn (n * UNIT_SIZE)
      (if info then Some (load32 m (p + n * UNIT_SIZE - 4)) else None) self' /\
    inv self' (delete o B) /\ page_no self' = no.
Proof.
  intros Hinv Hno Ho. cbv zeta. unfold rom_buddy_free. rewrite Hno, Z.eqb_refl. cbn [negb].
  pose proof (valid_bounds o n (blocks_valid B (inv_blocks _ _ Hinv) o n Ho)).
  assert (Hoff : u32 (page + o * UNIT_SIZE - page) / UNIT_SIZE = o).
  { change UNIT_SIZE with 16. change PAGE_SIZE with 2048 in page_fits. rewrite u32_small by lia.
    replace (page + o * 16 - page) with (o * 16) by lia. apply Z.div_mul. lia. }
  rewrite Hoff. change SELF_INDEX with 120. rewrite Z.geb_leb, (proj2 (Z.leb_gt _ _)) by lia.
  destruct (block_nodes self B o n Hinv Ho) as (f & -> & Hf & ->).
  assert (Hfirst : exists l, (fun p => (p, sz p)) <$> pieces o n = (f, sz f) :: l).
  { destruct (pieces o n) as [|g l]; [discriminate|]. injection Hf as ->. eexists. reflexivity. }
  destruct (release_block_ok self B o n f Hinv Ho Hf) as [Hi Hpg].
  destruct Hfirst as (l & Hl). rewrite Hl in *.
  eexists. split; [reflexivity|]. split; [exact Hi|]. cbn [page_no set_freed]. congruence.
Qed.

End Steps.

(** C34: Allocation from a page in any reachable state either returns NULL and
    changes nothing, or returns the address of a new block of
    ceil(size/16) units that lies inside the page's 1920 usable bytes and
    overlaps no live block; afterwards the page holds exactly the old blocks
    and the new one. *)
Theorem rom_buddy_alloc_ok (page no : Z) (self : buddy) (B : blocks) (size : Z) :
  inv self B -> page_no self = no -> 0 < page -> page + PAGE_SIZE <= 2 ^ 32 ->
  let '(p, size', self') := rom_buddy_alloc page no self size in
  (p = NULL /\ size' = size /\ self' = self) \/
  exists o, let n := units_of size in
    0 < size <= MAX_FREE_SIZE /\ p = page + o * UNIT_SIZE /\ size' = n * UNIT_SIZE /\
    0 <= o /\ o + n <= SELF_INDEX /\ fresh B o n /\
    inv self' (<[o := n]> B) /\ page_no self' = no.
Proof.
  intros Hinv Hno Hp0 Hp1. apply alloc_step; assumption.
Qed.

(** C35: In a page that satisfies the invariant and lies below 4 GiB, freeing the
    address of a live block returns its size in bytes (and, on request, the
    word stored at its end), and afterwards the page holds exactly the other
    blocks: the space of the block, and nothing else, is free again. *)
Theorem rom_buddy_free_ok (page no : Z) (self : buddy) (B : blocks) (m : mem) (o n : Z) (info : bool) :
  inv self B -> page_no self = no -> B !! o = Some n -> 0 < page -> page + PAGE_SIZE <= 2 ^ 32 ->
  let p := page + o * UNIT_SIZE in
  exists self', rom_buddy_free page no self m p info =
    FreeReturn (n * UNIT_SIZE)
      (if info then Some (load32 m (p + n * UNIT_SIZE - 4)) else None) self' /\
    inv self' (delete o B) /\ page_no self' = no.
Proof.
  intros Hinv Hno Ho Hp0 Hp1. apply (free_step page no self B); assumption.
Qed.

(** Freeing an address whose unit belongs to no live block - a second
    free, for instance - is caught: the search reaches the root of the tree
    and the code stops in its endless loop instead of corrupting the page. *)
Theorem rom_buddy_free_twice (page no : Z) (self : buddy) (B : blocks) (m : mem) (p : Z) (info : bool) :
  inv self B -> page_no self = no -> 0 < page -> page + PAGE_SIZE <= 2 ^ 32 ->
  page <= p < page + MAX_FREE_SIZE ->
  (forall o n, B !! o = Some n -> ~ o <= (p - page) / UNIT_SIZE < o + n) ->
  rom_buddy_free page no self m p info = FreeHang.
Proof.
  intros Hinv Hno Hp0 Hp1 Hp Hfree. unfold rom_buddy_free. rewrite Hno, Z.eqb_refl. cbn [negb].
  change PAGE_SIZE with 2048 in Hp1. change MAX_FREE_SIZE with 1920 in Hp.
  rewrite (u32_small (p - page)) by lia. set (o := (p - page) / UNIT_SIZE) in *.
  assert (Ho : 0 <= o < 120).
  { subst o. change UNIT_SIZE with 16. Z.div_mod_to_equations. lia. }
  change SELF_INDEX with 120. rewrite Z.geb_leb, (proj2 (Z.leb_gt _ _)) by lia.
  unfold MAX_INDEX. assert (Hi : is_node (o + 128 - 1)) by (unfold is_node; lia).
  pose proof (node_facts _ Hi) as (_ & _ & _ & _ & _ & Hleaf).
  destruct (Hleaf ltac:(lia)) as [Hsz Hlo].
  assert (Hno' : forall u, used B u -> ~ contains u (o + 128 - 1)).
  { intros u [->|(o' & n' & Ho' & Hu)] Hc; unfold contains in Hc; rewrite Hsz, Hlo in Hc.
    - change (lo 30) with 120 in Hc. lia.
    - pose proof (piece_in o' n' u (blocks_valid B (inv_blocks _ _ Hinv) o' n' Ho') Hu).
      apply (Hfree o' n' Ho'). lia. }
  rewrite (find_used_none self B levels); auto using levels_enough.
  intros H0. destruct (unused_zero self _ (inv_tree _ _ Hinv) _ Hi) as (Hlt & _); auto; [|lia].
  intros HU. exact (Hno' _ HU (contains_refl _)).
Qed.

(** ** When an allocation succeeds *)

(** Along a path without used nodes the values only grow towards the root. *)
Lemma root_at_least self B k : forall c,
  inv self B -> is_node c -> c + 1 < 2 ^ Z.of_nat k ->
  (forall a, is_node a -> contains a c -> ~ used B a) -> getMax self c <= getMax self 0.
Proof.
  induction k as [|k IH]; intros c Hinv Hc Hk Hno; [unfold is_node in Hc; simpl in Hk; lia|].
  destruct (Z.eq_dec c 0) as [->|Hc0]; [lia|].
  destruct (parent_facts c Hc Hc0) as (Hp & Hp127 & _ & Hch).
  destruct (child_contained _ Hp Hp127) as [CL CR].
  assert (Hcp : contains (PARENT c) c) by (destruct Hch as [Heq|Heq]; rewrite Heq at 2; assumption).
  pose proof (inv_tree _ _ Hinv) as Ht.
  pose proof (children_bounds self _ Ht _ Hp Hp127) as Hb.
  assert (Hup : getMax self c <= getMax self (PARENT c)).
  { rewrite (inner_value self _ Ht (PARENT c) Hp (Hno _ Hp Hcp) Hp127). unfold comb.
    destruct Hch as [Heq|Heq]; rewrite Heq at 1; reflect_bools; lia. }
  etransitivity; [exact Hup|]. apply IH; auto.
  - apply PARENT_fuel; [unfold is_node in Hc; lia..| |lia].
    replace (Z.of_nat k + 1) with (Z.of_nat (S k)) by lia. exact Hk.
  - intros a Ha Hca. apply Hno; [exact Ha|]. eapply contains_trans; eauto.
Qed.

Lemma power_block o s : s = root_size s -> valid o s ->
  exists i, is_node i /\ lo i = o /\ sz i = s.
Proof.
  intros Hs Hv. destruct (pieces_check o s Hv) as (f & l & Hp & Hlo & Hall & _ & _ & _ & _ & Hsum).
  unfold pieces in *. rewrite <- Hs, Z.gtb_ltb, Z.ltb_irrefl in *.
  injection Hp as <- <-. exists (root o s). inversion Hall as [|? ? [Hn _] _]; subst.
  simpl in Hsum. repeat split; try apply Hn; lia.
Qed.

Lemma choose_small self n : 1 <= n <= 32 -> root_size n <= getMax self 0 ->
  exists index ns o, choose_node self n = Some (index, ns, o).
Proof.
  intros Hn Hr. pose proof (root_size_cases n ltac:(lia)) as (Hr1 & _).
  unfold choose_node. change (MAX_INDEX / 4) with 32.
  rewrite Z.gtb_ltb, (proj2 (Z.ltb_ge _ _)) by lia.
  destruct (Z.eqb_spec n 0); [lia|]. rewrite (Hr1 ltac:(lia)), (proj2 (Z.ltb_ge _ _)) by lia.
  destruct (find_node _ _ _ _ _) as [index ns]. eauto.
Qed.

(** A request of at most 512 bytes succeeds whenever the page has a free,
    aligned run of the next power of two of units. *)
Theorem rom_buddy_alloc_complete (page no : Z) (self : buddy) (B : blocks) (size o : Z) :
  inv self B -> page_no self = no -> 0 < page -> page + PAGE_SIZE <= 2 ^ 32 ->
  0 < size <= 512 ->
  let s := root_size (units_of size) in
  0 <= o -> o + s <= SELF_INDEX -> o mod s = 0 -> fresh B o s ->
  (rom_buddy_alloc page no self size).1.1 <> NULL.
Proof.
  intros Hinv Hno Hp0 Hp1 Hsz s Ho Hos Hal Hf.
  pose proof (units_of_range size ltac:(change MAX_FREE_SIZE with 1920; lia)) as Hn.
  assert (Hn32 : units_of size <= 32).
  { unfold units_of. change UNIT_SIZE with 16. Z.div_mod_to_equations. lia. }
  pose proof (root_size_cases _ Hn) as (Hr1 & _ & _ & Hrn & Hrc).
  assert (Hss : s = root_size s).
  { subst s. destruct Hrc as [->|[->|[->|[->|[->|[->|[->| ->]]]]]]]; reflexivity. }
  assert (Hv : valid o s).
  { unfold valid, validb. change SELF_INDEX with 120 in Hos. rewrite <- Hss, Hal.
    rewrite !andb_true_iff, !Z.leb_le. repeat split; lia. }
  destruct (power_block o s Hss Hv) as (i & Hi & Hlo & Hszi).
  assert (Hfree : forall u, used B u -> apart u i).
  { intros u [->|(o' & n' & Ho' & Hu)]; unfold apart; rewrite Hlo, Hszi.
    - change (lo 30) with 120. change SELF_INDEX with 120 in Hos. lia.
    - pose proof (piece_in o' n' u (blocks_valid B (inv_blocks _ _ Hinv) o' n' Ho') Hu).
      destruct (Hf o' n' Ho'); lia. }
  assert (Hfull : getMax self i = s).
  { rewrite <- Hszi. apply (no_used_full self _ (inv_tree _ _ Hinv) i Hi). intros u Hu Hc HU.
    apply (contains_not_apart i u Hi Hu Hc). destruct (Hfree u HU); [right|left]; assumption. }
  assert (Hroot : s <= getMax self 0).
  { rewrite <- Hfull. apply (root_at_least self B levels); auto using levels_enough.
    intros a Ha Hc HU. exact (contains_not_apart a i Ha Hi Hc (Hfree a HU)). }
  destruct (choose_small self (units_of size) ltac:(lia) Hroot) as (index & ns & off & Hch).
  destruct (choose_node_ok self B _ _ _ _ Hinv Hn Hch) as (Hvo & _).
  pose proof (valid_bounds _ _ Hvo). unfold rom_buddy_alloc.
  rewrite (proj2 (Z.leb_gt _ _)), (Z.gtb_ltb size), (proj2 (Z.ltb_ge _ _))
    by (change MAX_FREE_SIZE with 1920; lia).
  rewrite Hno, Z.eqb_refl. cbn [negb]. fold (units_of size). rewrite Hch. cbn [fst].
  change UNIT_SIZE with 16. change PAGE_SIZE with 2048 in Hp1.
  rewrite u32_small by lia. unfold NULL. lia.
Qed.

(** ** Reachable states *)

(** The states of a page under any sequence of calls that frees only live
    blocks, with the blocks that are live. *)
Inductive reach (page no : Z) : buddy -> blocks -> Prop :=
  | reach_new : reach page no (rom_new_buddy_no no) ∅
  | reach_alloc self B size p size' self' :
      reach page no self B -> rom_buddy_alloc page no self size = (p, size', self') ->
      p <> NULL ->
      reach page no self' (<[(p - page) / UNIT_SIZE := size' / UNIT_SIZE]> B)
  | reach_alloc_null self B size size' self' :
      reach page no self B -> rom_buddy_alloc page no self size = (NULL, size', self') ->
      reach page no self' B
  | reach_free self B o n m info ret word self' :
      reach page no self B -> B !! o = Some n ->
      rom_buddy_free page no self m (page + o * UNIT_SIZE) info = FreeReturn ret word self' ->
      reach page no self' (delete o B).

Lemma total_zero B : blocks_ok B -> total B = 0 -> B = ∅.
Proof.
  intros HB H0. apply map_empty. intros o. destruct (B !! o) as [n|] eqn:Ho; [|reflexivity].
  exfalso. pose proof (total_delete B o n Ho).
  pose proof (total_range _ (delete_blocks_ok B o HB)).
  pose proof (valid_bounds o n (blocks_valid B HB o n Ho)). lia.
Qed.

Section Reachable.
Context (page no : Z).
Hypothesis page_pos : 0 < page.
Hypothesis page_fits : page + PAGE_SIZE <= 2 ^ 32.

Lemma reach_inv self B : reach page no self B -> inv self B /\ page_no self = no.
Proof.
  induction 1 as [|self B size p size' self' _ [Hinv Hno] Ha Hp
    |self B size size' self' _ [Hinv Hno] Ha|self B o n m info ret word self' _ [Hinv Hno] Ho Hf].
  - split; [apply new_inv|reflexivity].
  - pose proof (alloc_step page no page_pos page_fits self B size Hinv Hno) as H. rewrite Ha in H.
    destruct H as [[H _]|(o & _ & -> & -> & Ho & Hon & _ & H)]; [contradiction|].
    replace (page + o * UNIT_SIZE - page) with (o * UNIT_SIZE) by lia.
    change UNIT_SIZE with 16 in *. rewrite !Z.div_mul by lia. exact H.
  - pose proof (alloc_step page no page_pos page_fits self B size Hinv Hno) as H. rewrite Ha in H.
    destruct H as [(_ & _ & ->)|(o & _ & Hp & _ & Ho & _)]; [auto|]. exfalso.
    change UNIT_SIZE with 16 in Hp. unfold NULL in Hp. lia.
  - destruct (free_step page no self B m o n info Hinv Hno Ho) as (self1 & Hf' & H).
    cbv zeta in Hf'. rewrite Hf in Hf'. injection Hf' as _ _ ->. exact H.
Qed.
End Reachable.

(** C36: After any sequence of allocations and of frees of live blocks, the
    live blocks lie inside the 120 usable units and are pairwise disjoint,
    the [freed] counter is exactly the number of free units, and the page
    reports itself idle exactly when no block is live. *)
Theorem buddy_reachable (page no : Z) (self : buddy) (B : blocks) :
  0 < page -> page + PAGE_SIZE <= 2 ^ 32 -> reach page no self B ->
  (forall o n, B !! o = Some n -> 0 <= o /\ 1 <= n /\ o + n <= SELF_INDEX) /\
  (forall o n o' n', B !! o = Some n -> B !! o' = Some n' -> o <> o' ->
     o + n <= o' \/ o' + n' <= o) /\
  freed self = SELF_INDEX - total B /\
  (rom_is_buddy_idled self = true <-> B = ∅).
Proof.
  intros Hp0 Hp1 Hr. destruct (reach_inv page no Hp0 Hp1 self B Hr) as [[HB _ _ Hfr] _].
  split; [|split; [|split; [exact Hfr|]]].
  - intros o n Ho. pose proof (valid_bounds o n (blocks_valid B HB o n Ho)).
    change SELF_INDEX with 120. lia.
  - apply (blocks_disjoint B HB).
  - unfold rom_is_buddy_idled. rewrite Z.eqb_eq, Hfr. split.
    + intros H. apply (total_zero B HB). lia.
    + intros ->. reflexivity.
Qed.

(** ** Concrete instances *)

(** A page at 4096 after one allocation of 100 bytes. *)
Definition sample_page : buddy := (rom_buddy_alloc 4096 0 (rom_new_buddy_no 0) 100).2.

Lemma sample_reach : reach 4096 0 sample_page {[112 := 7]}.
Proof.
  exact (reach_alloc 4096 0 _ ∅ 100 5888 112 sample_page (reach_new 4096 0) eq_refl
           ltac:(discriminate)).
Qed.

Lemma sample_inv : inv sample_page {[112 := 7]}.
Proof. apply (reach_inv 4096 0); [lia|vm_compute; congruence|exact sample_reach]. Qed.

Lemma rom_buddy_alloc_ok_witness :
  let '(p, size', self') := rom_buddy_alloc 4096 0 sample_page 900 in
  (p = NULL /\ size' = 900 /\ self' = sample_page) \/
  exists o, let n := units_of 900 in
    0 < 900 <= MAX_FREE_SIZE /\ p = 4096 + o * UNIT_SIZE /\ size' = n * UNIT_SIZE /\
    0 <= o /\ o + n <= SELF_INDEX /\ fresh {[112 := 7]} o n /\
    inv self' (<[o := n]> {[112 := 7]}) /\ page_no self' = 0.
Proof.
  apply (rom_buddy_alloc_ok 4096 0 sample_page {[112 := 7]} 900 sample_inv);
    [reflexivity|lia|vm_compute; congruence].
Defined.

Lemma rom_buddy_free_ok_witness :
  exists self', rom_buddy_free 4096 0 sample_page (fun _ => 1) (4096 + 112 * UNIT_SIZE) true =
    FreeReturn (7 * UNIT_SIZE)
      (Some (load32 (fun _ => 1) (4096 + 112 * UNIT_SIZE + 7 * UNIT_SIZE - 4))) self' /\
    inv self' (delete 112 {[112 := 7]}) /\ page_no self' = 0.
Proof.
  apply (rom_buddy_free_ok 4096 0 sample_page {[112 := 7]} (fun _ => 1) 112 7 true sample_inv);
    [reflexivity|reflexivity|lia|vm_compute; congruence].
Defined.

Lemma rom_buddy_free_twice_witness :
  rom_buddy_free 4096 0 (rom_new_buddy_no 0) (fun _ => 1) 5888 true = FreeHang.
Proof.
  apply (rom_buddy_free_twice 4096 0 (rom_new_buddy_no 0) ∅ (fun _ => 1) 5888 true (new_inv 0));
    [reflexivity|lia|vm_compute; congruence|vm_compute; intuition congruence|].
  intros o n H. rewrite lookup_empty in H. discriminate.
Defined.

Lemma rom_buddy_alloc_complete_witness :
  (rom_buddy_alloc 4096 0 sample_page 500).1.1 <> NULL.
Proof.
  apply (rom_buddy_alloc_complete 4096 0 sample_page {[112 := 7]} 500 64 sample_inv);
    [reflexivity|lia|vm_compute; congruence|lia|lia|vm_compute; congruence|reflexivity|].
  intros o n H. apply lookup_singleton_Some in H as [<- <-]. left. vm_compute. congruence.
Defined.

Lemma buddy_reachable_witness :
  (forall o n, ({[112 := 7]} : blocks) !! o = Some n -> 0 <= o /\ 1 <= n /\ o + n <= SELF_INDEX) /\
  (forall o n o' n', ({[112 := 7]} : blocks) !! o = Some n -> ({[112 := 7]} : blocks) !! o' = Some n' ->
     o <> o' -> o + n <= o' \/ o' + n' <= o) /\
  freed sample_page = SELF_INDEX - total {[112 := 7]} /\
  (rom_is_buddy_idled sample_page = true <-> ({[112 := 7]} : blocks) = ∅).
Proof.
  apply (buddy_reachable 4096 0); [lia|vm_compute; congruence|exact sample_reach].
Defined.
