(* ===== verification/PagePool.v ===== *)
(** * The page pool (page_buddy/page.c, rom_page.c, page_init.c)

    The pool is an array of 2048-byte pages.  Every page has a list node; free
    pages are linked in a circular doubly linked list by index, whose head is
    the separate [freelist] with index 0xFF, and used pages carry the index
    0x7F in both links.  [freepage_num] counts the free pages.

    An access outside the page array, or a call through the NULL callback
    [pagepool_cache_ibank_into_freepage_cb], is [None]; the theorems show that
    neither happens.  The abstract state is the sequence of free pages. *)

From stdpp Require Import base numbers list.
From S2P Require Import Prelude Buddy.
Open Scope Z_scope.

(** ** Data (page_inner.h) *)

(** [POOL0_NUM] is CONFIG_RAM_POOL_PAGE_NUM, 8 in the application's
    configuration. *)
Definition POOL0_NUM : Z := 8.
Definition FREE_INDEX_FREE_FLAG : Z := 0xFF.
Definition FREE_INDEX_USED_FLAG : Z := 0x7F.

Definition SIZE2PAGE (size : Z) : Z :=
  Z.shiftr (u32 (size + PAGE_SIZE - 1)) CONFIG_POOL_PAGE_SHIFT.
Definition PAGE2SIZE (page : Z) : Z := Z.shiftl page CONFIG_POOL_PAGE_SHIFT.

Record list_index : Type := mk_list_index { next_index : Z; prev_index : Z }.

Record page : Type := mk_page { lru : list_index; ibank_no : Z }.

Record pool : Type := mk_pool {
  pagepool0 : list page;
  freelist : list_index;
  freepage_num : Z   (* unsigned char *)
}.

(** ** List nodes

    [NODE(index)] is the list head for 0xFF and a page otherwise. *)

Definition NODE (st : pool) (index : Z) : option list_index :=
  if index =? FREE_INDEX_FREE_FLAG then Some (freelist st)
  else if negb (Z.land index 0x80 =? 0) then None
  else lru <$> (pagepool0 st !! Z.to_nat (Z.land index 0x7f)).

Definition set_node (st : pool) (index : Z) (l : list_index) : option pool :=
  if index =? FREE_INDEX_FREE_FLAG
  then Some (mk_pool (pagepool0 st) l (freepage_num st))
  else if negb (Z.land index 0x80 =? 0) then None
  else
    let k := Z.to_nat (Z.land index 0x7f) in
    match pagepool0 st !! k with
    | None => None
    | Some p =>
        Some (mk_pool (<[k := mk_page l (ibank_no p)]> (pagepool0 st)) (freelist st)
                (freepage_num st))
    end.

Definition set_prev (st : pool) (index v : Z) : option pool :=
  n ← NODE st index; set_node st index (mk_list_index (next_index n) v).

Definition set_next (st : pool) (index v : Z) : option pool :=
  n ← NODE st index; set_node st index (mk_list_index v (prev_index n)).

(** ** page.c *)

Definition pagepool_convert_index_to_addr (pool_addr index : Z) : Z :=
  u32 (pool_addr + index * PAGE_SIZE).

Definition freelist_add_between (st : pool) (new_index prev_idx next_idx : Z) : option pool :=
  st ← set_prev st next_idx new_index;
  st ← set_next st new_index next_idx;
  st ← set_prev st new_index prev_idx;
  set_next st prev_idx new_index.

Definition freelist_del_between (st : pool) (prev_idx next_idx : Z) : option pool :=
  st ← set_prev st next_idx prev_idx;
  set_next st prev_idx next_idx.

Definition pagepool_freelist_add (st : pool) (new_index : Z) : option pool :=
  freelist_add_between st new_index FREE_INDEX_FREE_FLAG (next_index (freelist st)).

Definition pagepool_freelist_del (st : pool) (index : Z) : option pool :=
  n ← NODE st index;
  st ← freelist_del_between st (prev_index n) (next_index n);
  st ← set_prev st index FREE_INDEX_USED_FLAG;
  set_next st index FREE_INDEX_USED_FLAG.

Definition pagepool_is_page_in_freelist (n : list_index) : bool :=
  negb (prev_index n =? FREE_INDEX_USED_FLAG).

(** ** rom_page.c *)

Definition sub_freepage (st : pool) (n : Z) : pool :=
  mk_pool (pagepool0 st) (freelist st) (u8 (freepage_num st - n)).
Definition add_freepage (st : pool) (n : Z) : pool :=
  mk_pool (pagepool0 st) (freelist st) (u8 (freepage_num st + n)).

(** The loop for one page: the first page in the free list. *)
Fixpoint alloc_one (pool_addr : Z) (st : pool) (i : Z) (rounds : nat) : option (Z * pool) :=
  match rounds with
  | O => Some (NULL, st)
  | S rounds =>
      p ← pagepool0 st !! Z.to_nat i;
      if pagepool_is_page_in_freelist (lru p) then
        let index := u8 i in
        let recache := negb (index =? next_index (freelist st)) in
        st ← pagepool_freelist_del st index;
        let st := sub_freepage st 1 in
        if recache && negb (ibank_no p =? 0xffff) then None
        else Some (pagepool_convert_index_to_addr pool_addr index, st)
      else alloc_one pool_addr st (i + 1) rounds
  end.

(** Removing the pages [i], ..., [i + count - 1] from the free list. *)
Fixpoint del_pages (st : pool) (i : Z) (count : nat) : option pool :=
  match count with
  | O => Some st
  | S count => st ← pagepool_freelist_del st (u8 i); del_pages st (i + 1) count
  end.

(** The loop for several pages, from the end of the pool; [rounds] is [i + 1]. *)
Fixpoint alloc_run (pool_addr : Z) (st : pool) (page_num continus_index : Z) (rounds : nat)
    : option (Z * pool) :=
  match rounds with
  | O => Some (NULL, st)
  | S rounds' =>
      let i := Z.of_nat rounds' in
      p ← pagepool0 st !! rounds';
      if pagepool_is_page_in_freelist (lru p) then
        let continus_index := continus_index + 1 in
        if continus_index =? page_num then
          st ← del_pages st i (Z.to_nat page_num);
          Some (pagepool_convert_index_to_addr pool_addr (u8 i), sub_freepage st page_num)
        else alloc_run pool_addr st page_num continus_index rounds'
      else alloc_run pool_addr st page_num 0 rounds'
  end.

Definition rom_pagepool_alloc_pages (pool_addr : Z) (st : pool) (page_num : Z)
    : option (Z * pool) :=
  if page_num =? 0 then Some (NULL, st)
  else if freepage_num st <? page_num then Some (NULL, st)
  else if page_num =? 1 then alloc_one pool_addr st 0 (Z.to_nat POOL0_NUM)
  else alloc_run pool_addr st page_num 0 (Z.to_nat POOL0_NUM).

(** The first loop of [rom_pagepool_free_pages]: is one of the pages free? *)
Fixpoint any_free (st : pool) (index : Z) (count : nat) : option bool :=
  match count with
  | O => Some false
  | S count =>
      n ← NODE st index;
      if pagepool_is_page_in_freelist n then Some true else any_free st (u8 (index + 1)) count
  end.

(** The second loop; [page->ibank_no = -1] is stored after the insertion. *)
Fixpoint add_pages (st : pool) (index : Z) (count : nat) : option pool :=
  match count with
  | O => Some st
  | S count =>
      st ← pagepool_freelist_add st index;
      let k := Z.to_nat index in
      p ← pagepool0 st !! k;
      let st := mk_pool (<[k := mk_page (lru p) 0xffff]> (pagepool0 st)) (freelist st)
                  (freepage_num st) in
      add_pages st (u8 (index + 1)) count
  end.

Definition pagepool_convert_addr_to_pageindex (pool_addr addr : Z) : Z :=
  u8 (u32 (addr - pool_addr) / PAGE_SIZE).

Definition rom_pagepool_free_pages (pool_addr : Z) (st : pool) (addr page_num : Z)
    : option (Z * pool) :=
  let i := pagepool_convert_addr_to_pageindex pool_addr addr in
  if i >=? POOL0_NUM then Some (- EFAULT, st) else
  match any_free st i (Z.to_nat page_num) with
  | None => None
  | Some true => Some (- EINVAL, st)
  | Some false =>
      match add_pages st i (Z.to_nat page_num) with
      | None => None
      | Some st => Some (0, add_freepage st page_num)
      end
  end.

Definition pmalloc (pool_addr : Z) (st : pool) (size : Z) : option (Z * pool) :=
  rom_pagepool_alloc_pages pool_addr st (SIZE2PAGE size).

Definition pfree (pool_addr : Z) (st : pool) (addr page_num : Z) : option (Z * pool) :=
  rom_pagepool_free_pages pool_addr st addr page_num.

(** ** page_init.c *)

(** The loop of [pagepool_init] over the pages [i], [i + 1], ... *)
Fixpoint init_loop (st : pool) (i : Z) (rounds : nat) : option pool :=
  match rounds with
  | O => Some st
  | S rounds =>
      let k := Z.to_nat i in
      p ← pagepool0 st !! k;
      let st := mk_pool (<[k := mk_page (lru p) 0xffff]> (pagepool0 st)) (freelist st)
                  (freepage_num st) in
      st ← pagepool_freelist_add st (u8 i);
      init_loop st (i + 1) rounds
  end.

Definition pagepool_init (st : pool) : option pool :=
  init_loop (mk_pool (pagepool0 st) (freelist st) (u8 POOL0_NUM)) 0 (Z.to_nat POOL0_NUM).

(** The zero-initialised memory before [pagepool_init], with the two links of
    [freelist] as page.c initialises them. *)
Definition pool_at_boot : pool :=
  mk_pool (replicate (Z.to_nat POOL0_NUM) (mk_page (mk_list_index 0 0) 0))
    (mk_list_index FREE_INDEX_FREE_FLAG FREE_INDEX_FREE_FLAG) 0.

(** ** Node access on well-shaped pools *)

(** Indices of list nodes: the head and the pages. *)
Definition node_index (i : Z) : Prop := i = 255 \/ 0 <= i < 8.

Definition shaped (st : pool) : Prop :=
  length (pagepool0 st) = 8%nat /\ Forall (fun p => ibank_no p = 0xffff) (pagepool0 st).

Definition nxt (st : pool) (i : Z) : Z := default (-1) (next_index <$> NODE st i).
Definition prv (st : pool) (i : Z) : Z := default (-1) (prev_index <$> NODE st i).

(** [st'] is [st] with the links of the nodes changed to [n'] and [p']. *)
Definition relinked (st st' : pool) (n' p' : Z -> Z) : Prop :=
  shaped st' /\ freepage_num st' = freepage_num st /\
  forall j, node_index j -> nxt st' j = n' j /\ prv st' j = p' j.

Definition upd (f : Z -> Z) (i v : Z) : Z -> Z := fun j => if j =? i then v else f j.

Lemma upd_eq f i v : upd f i v i = v.
Proof. unfold upd. rewrite Z.eqb_refl. reflexivity. Qed.

Lemma upd_ne f i v j : j <> i -> upd f i v j = f j.
Proof. intros H. unfold upd. destruct (Z.eqb_spec j i); [contradiction|reflexivity]. Qed.

Lemma page_index i : 0 <= i < 8 -> Z.land i 128 = 0 /\ Z.land i 127 = i.
Proof.
  intros Hi. assert (i = 0 \/ i = 1 \/ i = 2 \/ i = 3 \/ i = 4 \/ i = 5 \/ i = 6 \/ i = 7) as H by lia.
  destruct H as [->|[->|[->|[->|[->|[->|[->| ->]]]]]]]; split; reflexivity.
Qed.

Lemma NODE_page st i : 0 <= i < 8 -> NODE st i = lru <$> (pagepool0 st !! Z.to_nat i).
Proof.
  intros Hi. unfold NODE, FREE_INDEX_FREE_FLAG. destruct (page_index i Hi) as [H1 H2].
  rewrite H1, H2. destruct (Z.eqb_spec i 255); [lia|reflexivity].
Qed.

Lemma NODE_some st i : shaped st -> node_index i -> exists l, NODE st i = Some l.
Proof.
  intros [Hl _] [->|Hi]; [eexists; reflexivity|]. rewrite NODE_page by exact Hi.
  destruct (lookup_lt_is_Some_2 (pagepool0 st) (Z.to_nat i) ltac:(lia)) as [p ->].
  eexists. reflexivity.
Qed.

Lemma NODE_links st i : shaped st -> node_index i ->
  NODE st i = Some (mk_list_index (nxt st i) (prv st i)).
Proof.
  intros Hs Hi. destruct (NODE_some st i Hs Hi) as [[n p] H]. unfold nxt, prv.
  rewrite H. reflexivity.
Qed.

Lemma set_node_ok st i n p :
  shaped st -> node_index i ->
  exists st', set_node st i (mk_list_index n p) = Some st' /\
    relinked st st' (upd (nxt st) i n) (upd (prv st) i p).
Proof.
  intros Hs Hi. pose proof Hs as [Hl Hb]. unfold set_node, FREE_INDEX_FREE_FLAG.
  destruct Hi as [->|Hi].
  - eexists. split; [reflexivity|]. split; [exact Hs|]. split; [reflexivity|].
    intros j Hj. unfold upd, nxt, prv. destruct (Z.eqb_spec j 255) as [->|Hne]; [auto|].
    destruct Hj as [|Hj]; [congruence|]. rewrite !NODE_page by exact Hj. auto.
  - destruct (page_index i Hi) as [H1 H2]. rewrite H1, H2.
    destruct (Z.eqb_spec i 255); [lia|]. simpl (negb _).
    destruct (lookup_lt_is_Some_2 (pagepool0 st) (Z.to_nat i) ltac:(lia)) as [pg Hpg].
    rewrite Hpg. eexists. split; [reflexivity|]. split; [|split; [reflexivity|]].
    + split; simpl; [rewrite length_insert; exact Hl|].
      apply Forall_insert; [exact Hb|]. simpl. rewrite Forall_lookup in Hb. exact (Hb _ _ Hpg).
    + intros j Hj. unfold upd, nxt, prv. destruct (Z.eqb_spec j i) as [->|Hne].
      * rewrite !NODE_page by exact Hi. simpl. rewrite list_lookup_insert_eq by lia. auto.
      * destruct Hj as [->|Hj]; [auto|]. rewrite !NODE_page by exact Hj. simpl.
        rewrite list_lookup_insert_ne by lia. auto.
Qed.

Lemma relinked_ext st st' n p n' p' :
  (forall j, node_index j -> n j = n' j /\ p j = p' j) ->
  relinked st st' n p -> relinked st st' n' p'.
Proof.
  intros He (Hs & Hf & Hl). split; [exact Hs|]. split; [exact Hf|]. intros j Hj.
  destruct (He j Hj) as [<- <-]. auto.
Qed.

(** One more store on top of a relinked state. *)
Lemma set_prev_ok st0 st n p i v :
  relinked st0 st n p -> node_index i ->
  exists st', set_prev st i v = Some st' /\ relinked st0 st' n (upd p i v).
Proof.
  intros (Hs & Hf & Hl) Hi. unfold set_prev. rewrite (NODE_links st i Hs Hi). cbn [mbind option_bind].
  destruct (set_node_ok st i (nxt st i) v Hs Hi) as (st' & Hst & Hs' & Hf' & Hl').
  exists st'. split; [exact Hst|]. split; [exact Hs'|]. split; [congruence|]. intros j Hj.
  destruct (Hl' j Hj) as [-> ->]. destruct (Hl j Hj) as [Hn Hp]. unfold upd.
  destruct (Z.eqb_spec j i) as [->|]; auto.
Qed.

Lemma set_next_ok st0 st n p i v :
  relinked st0 st n p -> node_index i ->
  exists st', set_next st i v = Some st' /\ relinked st0 st' (upd n i v) p.
Proof.
  intros (Hs & Hf & Hl) Hi. unfold set_next. rewrite (NODE_links st i Hs Hi). cbn [mbind option_bind].
  destruct (set_node_ok st i v (prv st i) Hs Hi) as (st' & Hst & Hs' & Hf' & Hl').
  exists st'. split; [exact Hst|]. split; [exact Hs'|]. split; [congruence|]. intros j Hj.
  destruct (Hl' j Hj) as [-> ->]. destruct (Hl j Hj) as [Hn Hp]. unfold upd.
  destruct (Z.eqb_spec j i) as [->|]; auto.
Qed.

Lemma relinked_refl st : shaped st -> relinked st st (nxt st) (prv st).
Proof. intros Hs. split; [exact Hs|]. auto. Qed.

(** ** Linked sequences of pages *)

(** From [a] the links lead through [F] back to the head 255. *)
Fixpoint linked (n p : Z -> Z) (a : Z) (F : list Z) : Prop :=
  match F with
  | [] => n a = 255 /\ p 255 = a
  | b :: F => n a = b /\ p b = a /\ linked n p b F
  end.

Lemma linked_ext n p n' p' F : forall a,
  linked n p a F ->
  (forall x, x = a \/ x ∈ F -> n' x = n x) -> (forall x, x = 255 \/ x ∈ F -> p' x = p x) ->
  linked n' p' a F.
Proof.
  induction F as [|b F IH]; intros a H Hn Hp; simpl in *.
  - rewrite Hn, Hp by auto. exact H.
  - destruct H as (H1 & H2 & H3). rewrite Hn, Hp by (rewrite ?elem_of_cons; auto).
    split; [exact H1|]. split; [exact H2|]. apply IH; [exact H3| |];
      intros x Hx; [apply Hn|apply Hp]; rewrite elem_of_cons; tauto.
Qed.

(** The predecessor of a member is the start or another member. *)
Lemma linked_prev n p F : forall a x, linked n p a F -> x ∈ F -> p x = a \/ p x ∈ F.
Proof.
  induction F as [|b F IH]; intros a x H Hx; [inversion Hx|]. simpl in H.
  destruct H as (_ & H2 & H3). apply elem_of_cons in Hx as [->|Hx]; [auto|].
  rewrite elem_of_cons. destruct (IH b x H3 Hx); auto.
Qed.

Lemma linked_next n p F : forall a x, linked n p a F -> x ∈ F -> n x = 255 \/ n x ∈ F.
Proof.
  induction F as [|b F IH]; intros a x H Hx; [inversion Hx|]. simpl in H.
  destruct H as (_ & _ & H3). rewrite elem_of_cons. apply elem_of_cons in Hx as [->|Hx].
  - destruct F as [|c F]; simpl in H3; [tauto|]. rewrite elem_of_cons. tauto.
  - destruct (IH b x H3 Hx); auto.
Qed.

(** Unlinking a member: its neighbours are joined. *)
Lemma linked_del n p F2 x : forall F1 a,
  linked n p a (F1 ++ x :: F2) -> NoDup (a :: F1 ++ x :: F2) -> 255 ∉ F1 ++ x :: F2 ->
  (p x = a \/ p x ∈ F1) /\ (n x = 255 \/ n x ∈ F2) /\
  linked (upd n (p x) (n x)) (upd p (n x) (p x)) a (F1 ++ F2).
Proof.
  induction F1 as [|b F1 IH]; intros a H Hnd H255; simpl in H.
  - change ([] ++ x :: F2) with (x :: F2) in *. destruct H as (H1 & H2 & H3).
    rewrite H2. split; [auto|]. apply NoDup_cons in Hnd as [Ha Hnd]. apply NoDup_cons in Hnd as [Hx Hnd].
    rewrite not_elem_of_cons in Ha, H255. destruct F2 as [|c F2]; simpl in H3 |- *.
    + destruct H3 as [-> H4]. split; [auto|]. rewrite !upd_eq. auto.
    + destruct H3 as (-> & H5 & H6). split; [right; constructor|].
      rewrite !upd_eq. split; [reflexivity|]. split; [reflexivity|].
      apply NoDup_cons in Hnd as [Hc Hnd]. rewrite not_elem_of_cons in Hx, H255.
      rewrite not_elem_of_cons in Ha.
      apply (linked_ext n p); [exact H6| |]; intros y Hy; apply upd_ne; intros ->;
        intuition congruence.
  - destruct H as (H1 & H2 & H3). apply NoDup_cons in Hnd as [Ha Hnd].
    change ((b :: F1) ++ x :: F2) with (b :: (F1 ++ x :: F2)) in *.
    rewrite not_elem_of_cons in H255.
    destruct (IH b H3 Hnd ltac:(tauto)) as (Hpx & Hnx & HL).
    apply NoDup_cons in Hnd as [Hb Hnd]. rewrite not_elem_of_cons in Ha.
    rewrite not_elem_of_app, not_elem_of_cons in Ha, Hb.
    split; [right; rewrite elem_of_cons; tauto|]. split; [exact Hnx|].
    simpl. rewrite !upd_ne; [auto| |]; intros Heq;
      [rewrite <- Heq in Hnx|rewrite <- Heq in Hpx]; intuition congruence.
Qed.

(** ** The invariant *)

Record links_ok (st : pool) (F : list Z) : Prop := {
  lk_shaped : shaped st;
  lk_linked : linked (nxt st) (prv st) 255 F;
  lk_nodup : NoDup F;
  lk_range : forall x, x ∈ F -> 0 <= x < 8;
  lk_used : forall x, 0 <= x < 8 -> x ∉ F -> prv st x = 127 /\ nxt st x = 127
}.

Definition pool_ok (st : pool) (F : list Z) : Prop :=
  links_ok st F /\ freepage_num st = Z.of_nat (length F).

(** The test of the code tells the free pages. *)
Lemma in_freelist_iff st F x : links_ok st F -> 0 <= x < 8 ->
  exists l, NODE st x = Some l /\ (pagepool_is_page_in_freelist l = true <-> x ∈ F).
Proof.
  intros [Hs Hl Hnd Hr Hu] Hx. exists (mk_list_index (nxt st x) (prv st x)).
  split; [apply NODE_links; [exact Hs|right; exact Hx]|].
  unfold pagepool_is_page_in_freelist, FREE_INDEX_USED_FLAG. simpl.
  rewrite negb_true_iff, Z.eqb_neq. split.
  - intros Hne. destruct (decide (x ∈ F)) as [|Hn]; [assumption|].
    destruct (Hu x Hx Hn). contradiction.
  - intros Hin. destruct (linked_prev _ _ F 255 x Hl Hin) as [->|Hp]; [lia|].
    specialize (Hr _ Hp). lia.
Qed.

Lemma in_freelist_page st F x : links_ok st F -> 0 <= x < 8 ->
  exists p, pagepool0 st !! Z.to_nat x = Some p /\ ibank_no p = 0xffff /\
    (pagepool_is_page_in_freelist (lru p) = true <-> x ∈ F).
Proof.
  intros H Hx. destruct (in_freelist_iff st F x H Hx) as (l & Hl & Hiff).
  rewrite NODE_page in Hl by exact Hx.
  destruct (pagepool0 st !! Z.to_nat x) as [p|] eqn:Hp; [|discriminate].
  exists p. split; [reflexivity|]. injection Hl as ->. split; [|exact Hiff].
  destruct (lk_shaped st F H) as [_ Hb]. rewrite Forall_lookup in Hb. exact (Hb _ _ Hp).
Qed.

(** Adding a page to the free list. *)
Lemma freelist_add_ok st F x : links_ok st F -> 0 <= x < 8 -> x ∉ F ->
  exists st', pagepool_freelist_add st x = Some st' /\ links_ok st' (x :: F) /\
    freepage_num st' = freepage_num st.
Proof.
  intros [Hs Hl Hnd Hr Hu] Hx Hni. unfold pagepool_freelist_add, freelist_add_between.
  set (h := next_index (freelist st)).
  assert (Hh : nxt st 255 = h) by reflexivity.
  assert (Hhn : node_index h /\ h <> x).
  { destruct F as [|b F]; simpl in Hl; destruct Hl as [H1 _]; rewrite Hh in H1; rewrite H1.
    - split; [left; reflexivity|lia].
    - specialize (Hr b ltac:(constructor)). split; [right; exact Hr|].
      rewrite not_elem_of_cons in Hni. intros ->. tauto. }
  destruct Hhn as [Hhn Hhx].
  destruct (set_prev_ok st st _ _ h x (relinked_refl st Hs) Hhn) as (s1 & -> & R1). cbn [mbind option_bind].
  destruct (set_next_ok st s1 _ _ x h R1 ltac:(right; exact Hx)) as (s2 & -> & R2). cbn [mbind option_bind].
  destruct (set_prev_ok st s2 _ _ x FREE_INDEX_FREE_FLAG R2 ltac:(right; exact Hx)) as (s3 & -> & R3).
  cbn [mbind option_bind].
  destruct (set_next_ok st s3 _ _ FREE_INDEX_FREE_FLAG x R3 ltac:(left; reflexivity)) as (s4 & -> & R4).
  exists s4. split; [reflexivity|]. destruct R4 as (Hs4 & Hf4 & Hl4). split; [|exact Hf4].
  unfold FREE_INDEX_FREE_FLAG in Hl4. split.
  - exact Hs4.
  - apply (linked_ext (upd (upd (nxt st) x h) 255 x) (upd (upd (prv st) h x) x 255)).
    2,3: intros y Hy; apply Hl4; rewrite ?elem_of_cons in Hy; destruct Hy as [->|[->|Hy]];
         [left; reflexivity|right; exact Hx|right; apply Hr, Hy].
    simpl. rewrite !upd_eq. split; [reflexivity|]. split; [reflexivity|].
    destruct F as [|b F]; simpl in Hl |- *.
    + destruct Hl as [H1 H2]. rewrite Hh in H1. rewrite H1.
      rewrite (upd_ne _ 255 x x), (upd_ne _ x 255 255) by lia. rewrite !upd_eq. auto.
    + destruct Hl as (H1 & H2 & H3). rewrite Hh in H1. rewrite <- H1 in H2, H3 |- *.
      apply NoDup_cons in Hnd as [Hb Hnd]. rewrite not_elem_of_cons in Hni.
      assert (Hb255 : h <> 255) by (rewrite H1; specialize (Hr b ltac:(constructor)); lia).
      assert (Hrest : forall y, y ∈ F -> y <> 255 /\ y <> x /\ y <> h).
      { intros y Hy. specialize (Hr y ltac:(constructor; exact Hy)).
        split; [lia|]. split; intros ->; [tauto|rewrite H1 in Hy; contradiction]. }
      rewrite (upd_ne _ 255 x x), (upd_ne _ x 255 h) by lia. rewrite !upd_eq.
      split; [reflexivity|]. split; [reflexivity|].
      apply (linked_ext (nxt st) (prv st)); [exact H3| |]; intros y [->|Hy];
        try specialize (Hrest y Hy); rewrite !upd_ne by (lia || tauto); reflexivity.
  - apply NoDup_cons. auto.
  - intros y Hy. apply elem_of_cons in Hy as [->|Hy]; auto.
  - intros y Hy Hny. rewrite not_elem_of_cons in Hny. destruct Hny as [Hyx Hny].
    destruct (Hl4 y ltac:(right; exact Hy)) as [-> ->].
    assert (Hyh : y <> h).
    { intros ->. destruct F as [|b F]; simpl in Hl; destruct Hl as [H1 _]; rewrite Hh in H1; [lia|].
      apply Hny. rewrite H1. constructor. }
    rewrite !upd_ne by lia. apply Hu; assumption.
Qed.

(** Removing a page from the free list. *)
Lemma freelist_del_ok st F x : links_ok st F -> x ∈ F ->
  exists st' F', pagepool_freelist_del st x = Some st' /\ links_ok st' F' /\
    freepage_num st' = freepage_num st /\ length F = S (length F') /\
    (forall y, y ∈ F' <-> y ∈ F /\ y <> x).
Proof.
  intros [Hs Hl Hnd Hr Hu] Hin. apply list_elem_of_split in Hin as (F1 & F2 & ->).
  assert (Hx : 0 <= x < 8) by (apply Hr; rewrite elem_of_app, elem_of_cons; auto).
  assert (H255 : 255 ∉ F1 ++ x :: F2) by (intros H; specialize (Hr 255 H); lia).
  destruct (linked_del _ _ F2 x F1 255 Hl) as (Hpx & Hnx & HL); [apply NoDup_cons; auto|exact H255|].
  apply NoDup_app in Hnd as (Hnd1 & Hdis & Hnd2). apply NoDup_cons in Hnd2 as [Hx2 Hnd2].
  assert (Hx1 : x ∉ F1) by (intros H; exact (Hdis x H ltac:(constructor))).
  assert (Hpi : node_index (prv st x) /\ prv st x <> x).
  { destruct Hpx as [->|H]; [split; [left; reflexivity|lia]|].
    split; [right; apply Hr; rewrite elem_of_app; auto|]. intros Heq. rewrite Heq in H. contradiction. }
  assert (Hni : node_index (nxt st x) /\ nxt st x <> x).
  { destruct Hnx as [->|H]; [split; [left; reflexivity|lia]|].
    split; [right; apply Hr; rewrite elem_of_app, elem_of_cons; auto|].
    intros Heq. rewrite Heq in H. contradiction. }
  unfold pagepool_freelist_del, freelist_del_between.
  rewrite (NODE_links st x Hs ltac:(right; exact Hx)). cbn [mbind option_bind prev_index next_index].
  set (pr := prv st x) in *. set (nx := nxt st x) in *.
  destruct (set_prev_ok st st _ _ nx pr (relinked_refl st Hs) (proj1 Hni)) as (s1 & -> & R1).
  cbn [mbind option_bind].
  destruct (set_next_ok st s1 _ _ pr nx R1 (proj1 Hpi)) as (s2 & -> & R2). cbn [mbind option_bind].
  destruct (set_prev_ok st s2 _ _ x FREE_INDEX_USED_FLAG R2 ltac:(right; exact Hx)) as (s3 & -> & R3).
  cbn [mbind option_bind].
  destruct (set_next_ok st s3 _ _ x FREE_INDEX_USED_FLAG R3 ltac:(right; exact Hx)) as (s4 & -> & R4).
  exists s4, (F1 ++ F2). destruct R4 as (Hs4 & Hf4 & Hl4).
  assert (Hmem : forall y, y ∈ F1 ++ F2 <-> y ∈ F1 ++ x :: F2 /\ y <> x).
  { intros y. rewrite !elem_of_app, elem_of_cons. split; [|tauto].
    intros [H|H]; (split; [tauto|]); intros ->; contradiction. }
  split; [reflexivity|]. split; [|split; [exact Hf4|split; [rewrite !length_app; simpl; lia|exact Hmem]]].
  assert (Hidx : forall y, y = 255 \/ y ∈ F1 ++ F2 -> node_index y /\ y <> x).
  { intros y [->|Hy]; [split; [left; reflexivity|lia]|]. apply Hmem in Hy as [Hy Hyx].
    split; [right; apply Hr, Hy|exact Hyx]. }
  split.
  - exact Hs4.
  - apply (linked_ext (upd (nxt st) pr nx) (upd (prv st) nx pr)); [exact HL| |];
      intros y Hy; destruct (Hidx y Hy) as [Hyi Hyx]; destruct (Hl4 y Hyi) as [H1 H2];
      rewrite ?H1, ?H2; apply upd_ne; exact Hyx.
  - apply NoDup_app. split; [exact Hnd1|]. split; [|exact Hnd2].
    intros y Hy Hy2. apply (Hdis y Hy). constructor. exact Hy2.
  - intros y Hy. apply Hr, Hmem, Hy.
  - intros y Hy Hny. destruct (Hl4 y ltac:(right; exact Hy)) as [-> ->].
    destruct (Z.eq_dec y x) as [->|Hyx]; [rewrite !upd_eq; auto|].
    assert (HyF : y ∉ F1 ++ x :: F2) by (intros H; apply Hny, Hmem; auto).
    rewrite !upd_ne; [apply Hu; auto|..]; try exact Hyx; intros ->; apply Hny.
    all: rewrite elem_of_app; first [destruct Hnx as [Hnx|]; [lia|solve [auto]]
      |destruct Hpx as [Hpx|]; [lia|solve [auto]]].
Qed.

(** ** Allocation of pages *)

Definition all_in (F : list Z) (i n : Z) : Prop := forall k, i <= k < i + n -> k ∈ F.

(** [F'] is [F] without the pages [i], ..., [i + n - 1]. *)
Definition without (F F' : list Z) (i n : Z) : Prop :=
  (forall y, y ∈ F' <-> y ∈ F /\ ~ i <= y < i + n) /\
  Z.of_nat (length F) = Z.of_nat (length F') + n.

Lemma del_pages_ok n : forall st F i,
  links_ok st F -> 0 <= i -> all_in F i (Z.of_nat n) -> i + Z.of_nat n <= 8 ->
  exists st' F', del_pages st i n = Some st' /\ links_ok st' F' /\
    freepage_num st' = freepage_num st /\ without F F' i (Z.of_nat n).
Proof.
  induction n as [|n IH]; intros st F i Hok Hi Hall Hb; cbn [del_pages].
  - exists st, F. split; [reflexivity|]. split; [exact Hok|]. split; [reflexivity|].
    split; [|lia]. intros y. split; [|tauto]. intros Hy. split; [exact Hy|lia].
  - rewrite u8_small by lia.
    destruct (freelist_del_ok st F i Hok (Hall i ltac:(lia))) as (s1 & F1 & -> & Hok1 & Hf1 & Hlen & Hmem).
    cbn [mbind option_bind].
    destruct (IH s1 F1 (i + 1) Hok1) as (s2 & F2 & -> & Hok2 & Hf2 & Hm2 & Hl2); try lia.
    { intros k Hk. apply Hmem. split; [apply Hall; lia|lia]. }
    exists s2, F2. split; [reflexivity|]. split; [exact Hok2|]. split; [congruence|].
    split; [|lia]. intros y. rewrite Hm2, Hmem. split.
    + intros [[H1 H2] H3]. split; [exact H1|lia].
    + intros [H1 H2]. split; [split; [exact H1|lia]|lia].
Qed.

Section Alloc.
Context (pool_addr : Z).
Hypothesis addr_pos : 0 < pool_addr.
Hypothesis addr_fits : pool_addr + 8 * PAGE_SIZE <= 2 ^ 32.

Lemma index_addr i : 0 <= i < 8 ->
  pagepool_convert_index_to_addr pool_addr i = pool_addr + i * PAGE_SIZE.
Proof.
  intros Hi. unfold pagepool_convert_index_to_addr. change PAGE_SIZE with 2048 in *.
  apply u32_small. lia.
Qed.

(** The outcome of an allocation of [n] pages. *)
Definition alloc_result (st : pool) (F : list Z) (n : Z) (r : Z * pool) : Prop :=
  (r = (NULL, st) /\ (n = 0 \/ forall i, 0 <= i -> i + n <= 8 -> ~ all_in F i n)) \/
  exists i F', r.1 = pool_addr + i * PAGE_SIZE /\ 0 <= i /\ i + n <= 8 /\ all_in F i n /\
    pool_ok r.2 F' /\ without F F' i n.

Lemma sub_freepage_ok st st' F F' i n :
  pool_ok st F -> links_ok st' F' -> freepage_num st' = freepage_num st -> without F F' i n ->
  pool_ok (sub_freepage st' n) F'.
Proof.
  intros [Hok Hf] Hok' Hf' [_ Hlen]. split.
  - destruct Hok' as [H1 H2 H3 H4 H5]. split; assumption.
  - simpl. rewrite Hf', Hf, Hlen.
    assert (Hl8 : (length F' <= 8)%nat).
    { pose proof (lk_nodup _ _ Hok') as Hnd. pose proof (lk_range _ _ Hok') as Hr.
      assert (Hsub : F' ⊆+ seqZ 0 8).
      { apply NoDup_submseteq; [exact Hnd|]. intros x Hx. apply elem_of_seqZ. specialize (Hr x Hx). lia. }
      apply submseteq_length in Hsub. rewrite length_seqZ in Hsub. lia. }
    rewrite u8_small; lia.
Qed.

Lemma alloc_one_ok rounds : forall st F i,
  pool_ok st F -> 0 <= i -> i + Z.of_nat rounds = 8 -> (forall k, 0 <= k < i -> k ∉ F) ->
  exists r, alloc_one pool_addr st i rounds = Some r /\ alloc_result st F 1 r.
Proof.
  induction rounds as [|rounds IH]; intros st F i Hok Hi Hr Hno; cbn [alloc_one].
  - eexists. split; [reflexivity|]. left. split; [reflexivity|]. right.
    intros k Hk0 Hk8 Hall. apply (Hno k ltac:(lia)), Hall. lia.
  - pose proof Hok as [Hlk Hf].
    destruct (in_freelist_page st F i Hlk ltac:(lia)) as (p & -> & Hib & Hiff). cbn [mbind option_bind].
    destruct (pagepool_is_page_in_freelist (lru p)) eqn:Hin.
    + assert (HiF : i ∈ F) by (apply Hiff; reflexivity).
      rewrite u8_small by lia.
      destruct (del_pages_ok 1 st F i Hlk Hi) as (s1 & F1 & Hd & Hok1 & Hf1 & Hw); [|lia|].
      { intros k Hk. replace k with i by lia. exact HiF. }
      cbn [del_pages] in Hd. rewrite u8_small in Hd by lia.
      destruct (pagepool_freelist_del st i) as [s|]; [|discriminate].
      cbn [mbind option_bind] in Hd |- *. injection Hd as ->.
      rewrite Hib, Z.eqb_refl, andb_false_r.
      eexists. split; [reflexivity|]. right. exists i, F1. simpl.
      split; [apply index_addr; lia|]. split; [lia|]. split; [lia|]. split.
      { intros k Hk. replace k with i by lia. exact HiF. }
      split; [|exact Hw]. exact (sub_freepage_ok st s1 F F1 i 1 Hok Hok1 Hf1 Hw).
    + apply IH; auto; [lia|lia|]. intros k Hk. destruct (Z.eq_dec k i) as [->|]; [|apply Hno; lia].
      intros HiF. apply Hiff in HiF. congruence.
Qed.

Lemma alloc_run_ok rounds : forall st F n c,
  pool_ok st F -> Z.of_nat rounds + c <= 8 -> 0 <= c < n ->
  all_in F (Z.of_nat rounds) c ->
  (Z.of_nat rounds + c = 8 \/ Z.of_nat rounds + c ∉ F) ->
  (forall i, Z.of_nat rounds <= i -> i + n <= 8 -> ~ all_in F i n) ->
  exists r, alloc_run pool_addr st n c rounds = Some r /\ alloc_result st F n r.
Proof.
  induction rounds as [|rounds IH]; intros st F n c Hok Hb Hc Hall Hend Hno; cbn [alloc_run].
  - eexists. split; [reflexivity|]. left. split; [reflexivity|]. right. intros i Hi. apply Hno. lia.
  - pose proof Hok as [Hlk Hf].
    destruct (in_freelist_page st F (Z.of_nat rounds) Hlk ltac:(lia)) as (p & Hp & Hib & Hiff).
    rewrite Nat2Z.id in Hp. rewrite Hp. cbn [mbind option_bind].
    destruct (pagepool_is_page_in_freelist (lru p)) eqn:Hin.
    + assert (HiF : Z.of_nat rounds ∈ F) by (apply Hiff; reflexivity).
      assert (Hall' : all_in F (Z.of_nat rounds) (c + 1)).
      { intros k Hk. destruct (Z.eq_dec k (Z.of_nat rounds)) as [->|]; [exact HiF|apply Hall; lia]. }
      destruct (Z.eqb_spec (c + 1) n) as [Heq|Hne].
      * destruct (del_pages_ok (Z.to_nat n) st F (Z.of_nat rounds) Hlk) as (s1 & F1 & -> & Hok1 & Hf1 & Hw);
          try lia.
        { rewrite Z2Nat.id by lia. rewrite <- Heq. exact Hall'. }
        rewrite Z2Nat.id in Hw by lia. cbn [mbind option_bind].
        eexists. split; [reflexivity|]. right. exists (Z.of_nat rounds), F1. simpl.
        rewrite u8_small by lia. split; [apply index_addr; lia|]. split; [lia|]. split; [lia|].
        split; [rewrite <- Heq; exact Hall'|]. split; [|exact Hw].
        exact (sub_freepage_ok st s1 F F1 _ n Hok Hok1 Hf1 Hw).
      * apply IH; auto; try lia.
        { destruct Hend as [|H]; [left; lia|right].
          replace (Z.of_nat rounds + (c + 1)) with (Z.of_nat (S rounds) + c) by lia. exact H. }
        intros i Hi Hin8. destruct (Z.eq_dec i (Z.of_nat rounds)) as [->|]; [|apply Hno; lia].
        intros Hrun. destruct Hend as [|H]; [lia|]. apply H, Hrun. lia.
    + assert (HiF : Z.of_nat rounds ∉ F) by (intros H; apply Hiff in H; congruence).
      apply IH; auto; try lia.
      { intros k Hk. lia. }
      { right. rewrite Z.add_0_r. exact HiF. }
      intros i Hi Hin8. destruct (Z.eq_dec i (Z.of_nat rounds)) as [->|]; [|apply Hno; lia].
      intros Hrun. apply HiF, Hrun. lia.
Qed.
End Alloc.

Lemma links_length st F : links_ok st F -> (length F <= 8)%nat.
Proof.
  intros Hok. assert (Hsub : F ⊆+ seqZ 0 8).
  { apply NoDup_submseteq; [apply Hok|]. intros x Hx. apply elem_of_seqZ.
    pose proof (lk_range _ _ Hok x Hx). lia. }
  apply submseteq_length in Hsub. rewrite length_seqZ in Hsub. lia.
Qed.

(** A run of [n] free pages needs [n] free pages. *)
Lemma all_in_length st F i n : links_ok st F -> all_in F i n -> 0 <= n -> n <= Z.of_nat (length F).
Proof.
  intros Hok Hall Hn. assert (Hsub : seqZ i n ⊆+ F).
  { apply NoDup_submseteq; [apply NoDup_seqZ|]. intros x Hx. apply elem_of_seqZ in Hx.
    apply Hall. lia. }
  apply submseteq_length in Hsub. rewrite length_seqZ in Hsub. lia.
Qed.

Lemma alloc_pages_ok pool_addr st F n :
  0 < pool_addr -> pool_addr + 8 * PAGE_SIZE <= 2 ^ 32 -> pool_ok st F -> 0 <= n ->
  exists r, rom_pagepool_alloc_pages pool_addr st n = Some r /\ alloc_result pool_addr st F n r.
Proof.
  intros Hp0 Hp1 Hok Hn. unfold rom_pagepool_alloc_pages, POOL0_NUM.
  destruct (Z.eqb_spec n 0) as [->|Hn0].
  { eexists. split; [reflexivity|]. left. auto. }
  destruct (Z.ltb_spec (freepage_num st) n) as [Hlt|Hge].
  { eexists. split; [reflexivity|]. left. split; [reflexivity|]. right. intros i _ _ Hall.
    destruct Hok as [Hok Hf]. pose proof (all_in_length st F i n Hok Hall Hn). lia. }
  destruct (Z.eqb_spec n 1) as [->|Hn1].
  - apply alloc_one_ok; auto; try lia; intros k Hk; lia.
  - apply alloc_run_ok; auto; try lia; intros k Hk; lia.
Qed.

(** ** Release of pages *)

Lemma any_free_ok n : forall st F i,
  links_ok st F -> 0 <= i -> i + Z.of_nat n <= 8 ->
  exists b, any_free st i n = Some b /\
    (b = true <-> exists k, i <= k < i + Z.of_nat n /\ k ∈ F).
Proof.
  induction n as [|n IH]; intros st F i Hok Hi Hb; cbn [any_free].
  - exists false. split; [reflexivity|]. split; [discriminate|]. intros (k & Hk & _). lia.
  - destruct (in_freelist_iff st F i Hok ltac:(lia)) as (l & -> & Hiff). cbn [mbind option_bind].
    destruct (pagepool_is_page_in_freelist l).
    + exists true. split; [reflexivity|]. split; [|auto]. intros _. exists i.
      split; [lia|]. apply Hiff. reflexivity.
    + rewrite u8_small by lia. destruct (IH st F (i + 1) Hok) as (b & -> & Hb'); try lia.
      exists b. split; [reflexivity|]. rewrite Hb'. split.
      * intros (k & Hk & HkF). exists k. split; [lia|exact HkF].
      * intros (k & Hk & HkF). exists k. split; [|exact HkF].
        destruct (Z.eq_dec k i) as [->|]; [|lia]. apply Hiff in HkF. discriminate.
Qed.

(** Storing [ibank_no] keeps the links. *)
Lemma set_ibank_ok st F k p : links_ok st F -> pagepool0 st !! k = Some p ->
  links_ok (mk_pool (<[k := mk_page (lru p) 0xffff]> (pagepool0 st)) (freelist st) (freepage_num st)) F.
Proof.
  intros [[Hlen Hib] Hl Hnd Hr Hu] Hp. set (st' := mk_pool _ _ _).
  assert (HN : forall j, node_index j -> NODE st' j = NODE st j).
  { intros j [->|Hj]; [reflexivity|]. rewrite !NODE_page by exact Hj. subst st'. simpl.
    destruct (decide (Z.to_nat j = k)) as [<-|Hne].
    - rewrite list_lookup_insert_eq by (apply lookup_lt_Some in Hp; exact Hp). rewrite Hp. reflexivity.
    - rewrite list_lookup_insert_ne by congruence. reflexivity. }
  assert (Hnp : forall j, node_index j -> nxt st' j = nxt st j /\ prv st' j = prv st j).
  { intros j Hj. unfold nxt, prv. rewrite (HN j Hj). auto. }
  split.
  - split; subst st'; simpl; [rewrite length_insert; exact Hlen|]. apply Forall_insert; [exact Hib|reflexivity].
  - apply (linked_ext (nxt st) (prv st)); [exact Hl| |]; intros x [->|Hx]; apply Hnp;
      first [left; reflexivity|right; apply Hr, Hx].
  - exact Hnd.
  - exact Hr.
  - intros x Hx Hn. destruct (Hnp x ltac:(right; exact Hx)) as [-> ->]. auto.
Qed.

(** [F'] is [F] with the pages [i], ..., [i + n - 1] added. *)
Definition with_pages (F F' : list Z) (i n : Z) : Prop :=
  (forall y, y ∈ F' <-> y ∈ F \/ i <= y < i + n) /\
  Z.of_nat (length F') = Z.of_nat (length F) + n.

Lemma add_pages_ok n : forall st F i,
  links_ok st F -> 0 <= i -> i + Z.of_nat n <= 8 ->
  (forall k, i <= k < i + Z.of_nat n -> k ∉ F) ->
  exists st' F', add_pages st i n = Some st' /\ links_ok st' F' /\
    freepage_num st' = freepage_num st /\ with_pages F F' i (Z.of_nat n).
Proof.
  induction n as [|n IH]; intros st F i Hok Hi Hb Hno; cbn [add_pages].
  - exists st, F. split; [reflexivity|]. split; [exact Hok|]. split; [reflexivity|].
    split; [|lia]. intros y. split; [auto|]. intros [Hy|Hy]; [exact Hy|lia].
  - destruct (freelist_add_ok st F i Hok ltac:(lia) (Hno i ltac:(lia))) as (s1 & -> & Hok1 & Hf1).
    cbn [mbind option_bind].
    destruct (lookup_lt_is_Some_2 (pagepool0 s1) (Z.to_nat i)) as [p Hp].
    { destruct (lk_shaped _ _ Hok1) as [-> _]. lia. }
    rewrite Hp. cbn [mbind option_bind]. rewrite u8_small by lia.
    pose proof (set_ibank_ok s1 (i :: F) (Z.to_nat i) p Hok1 Hp) as Hok2. set (s2 := mk_pool _ _ _) in *.
    destruct (IH s2 (i :: F) (i + 1) Hok2) as (s3 & F3 & -> & Hok3 & Hf3 & Hm3 & Hl3); try lia.
    { intros k Hk. rewrite not_elem_of_cons. split; [lia|apply Hno; lia]. }
    exists s3, F3. split; [reflexivity|]. split; [exact Hok3|].
    split; [rewrite Hf3; exact Hf1|]. split; [|simpl in Hl3; lia].
    intros y. rewrite Hm3, elem_of_cons. split.
    + intros [[->|H]|H]; [right; lia|left; exact H|right; lia].
    + intros [H|H]; [auto|]. destruct (Z.eq_dec y i) as [->|]; [auto|right; lia].
Qed.

Lemma addr_index pool_addr i : 0 < pool_addr -> 0 <= i < 8 ->
  pool_addr + 8 * PAGE_SIZE <= 2 ^ 32 ->
  pagepool_convert_addr_to_pageindex pool_addr (pool_addr + i * PAGE_SIZE) = i.
Proof.
  intros Hp Hi Hf. unfold pagepool_convert_addr_to_pageindex. change PAGE_SIZE with 2048 in *.
  replace (pool_addr + i * 2048 - pool_addr) with (i * 2048) by lia.
  rewrite u32_small, Z.div_mul, u8_small by lia. reflexivity.
Qed.

Lemma free_pages_ok pool_addr st F i n :
  0 < pool_addr -> pool_addr + 8 * PAGE_SIZE <= 2 ^ 32 -> pool_ok st F ->
  0 <= i < 8 -> 1 <= n -> i + n <= 8 ->
  exists r st', rom_pagepool_free_pages pool_addr st (pool_addr + i * PAGE_SIZE) n = Some (r, st') /\
    ((r = - EINVAL /\ st' = st /\ exists k, i <= k < i + n /\ k ∈ F) \/
     (r = 0 /\ (forall k, i <= k < i + n -> k ∉ F) /\
      exists F', pool_ok st' F' /\ with_pages F F' i n)).
Proof.
  intros Hp0 Hp1 [Hok Hf] Hi Hn Hb. unfold rom_pagepool_free_pages.
  rewrite (addr_index pool_addr i Hp0 Hi Hp1). unfold POOL0_NUM.
  rewrite Z.geb_leb, (proj2 (Z.leb_gt _ _)) by lia.
  destruct (any_free_ok (Z.to_nat n) st F i Hok) as (b & -> & Hb'); try lia.
  rewrite Z2Nat.id in Hb' by lia. destruct b.
  - do 2 eexists. split; [reflexivity|]. left. split; [reflexivity|]. split; [reflexivity|].
    apply Hb'. reflexivity.
  - assert (Hno : forall k, i <= k < i + n -> k ∉ F).
    { intros k Hk HkF. enough (false = true) by discriminate. apply Hb'. eauto. }
    destruct (add_pages_ok (Z.to_nat n) st F i Hok) as (s1 & F1 & -> & Hok1 & Hf1 & Hm & Hl); try lia.
    { rewrite Z2Nat.id by lia. exact Hno. }
    rewrite Z2Nat.id in Hm, Hl by lia.
    do 2 eexists. split; [reflexivity|]. right. split; [reflexivity|]. split; [exact Hno|].
    exists F1. split; [|split; assumption]. split.
    + destruct Hok1 as [H1 H2 H3 H4 H5]. split; assumption.
    + simpl. rewrite Hf1, Hf. pose proof (links_length _ _ Hok1). rewrite u8_small; lia.
Qed.

(** ** The interface of the pool *)

(** A request for pages in any consistent state of the pool returns
    either NULL, and then there is no run of that many free pages and nothing
    changed, or the address of the first of that many consecutive free pages,
    which are then no longer free; the free list stays a consistent doubly
    linked list and the page counter exact, and no access leaves the page
    array. *)
Theorem pmalloc_ok (pool_addr size : Z) (st : pool) (F : list Z) :
  0 < pool_addr -> pool_addr + 8 * PAGE_SIZE <= 2 ^ 32 -> pool_ok st F ->
  let n := SIZE2PAGE size in
  exists p st', pmalloc pool_addr st size = Some (p, st') /\
    ((p = NULL /\ st' = st /\ (n = 0 \/ forall i, 0 <= i -> i + n <= 8 -> ~ all_in F i n)) \/
     exists i F', p = pool_addr + i * PAGE_SIZE /\ 0 <= i /\ i + n <= 8 /\ all_in F i n /\
       pool_ok st' F' /\ without F F' i n).
Proof.
  intros Hp0 Hp1 Hok n. unfold pmalloc. fold n.
  assert (Hn : 0 <= n) by (apply Z.shiftr_nonneg, u32_range).
  destruct (alloc_pages_ok pool_addr st F n Hp0 Hp1 Hok Hn) as ([p st'] & -> & Hr).
  exists p, st'. split; [reflexivity|]. destruct Hr as [[[= -> ->] Hr]|Hr]; [left; auto|right; exact Hr].
Qed.

(** Freeing pages that were handed out makes exactly those pages free
    again and keeps the pool consistent; if one of them is already free the
    call returns -EINVAL and changes nothing. *)
Theorem pfree_ok (pool_addr i n : Z) (st : pool) (F : list Z) :
  0 < pool_addr -> pool_addr + 8 * PAGE_SIZE <= 2 ^ 32 -> pool_ok st F ->
  0 <= i < 8 -> 1 <= n -> i + n <= 8 ->
  exists r st', pfree pool_addr st (pool_addr + i * PAGE_SIZE) n = Some (r, st') /\
    ((r = - EINVAL /\ st' = st /\ exists k, i <= k < i + n /\ k ∈ F) \/
     (r = 0 /\ (forall k, i <= k < i + n -> k ∉ F) /\
      exists F', pool_ok st' F' /\ with_pages F F' i n)).
Proof. intros. apply free_pages_ok; assumption. Qed.

(** After [pagepool_init] all eight pages are free. *)
Lemma pagepool_init_ok :
  exists st, pagepool_init pool_at_boot = Some st /\ pool_ok st [7; 6; 5; 4; 3; 2; 1; 0].
Proof.
  eexists. split; [vm_compute; reflexivity|]. split; [|reflexivity]. split.
  - split; [reflexivity|]. repeat constructor.
  - repeat split; reflexivity.
  - apply (bool_decide_eq_true (NoDup [7; 6; 5; 4; 3; 2; 1; 0])). vm_compute. reflexivity.
  - intros x Hx. apply (list_elem_of_In) in Hx. simpl in Hx. lia.
  - intros x Hx Hn. exfalso. apply Hn. rewrite list_elem_of_In. simpl. lia.
Qed.

(** ** Concrete instances *)

Definition sample_pool : pool := default pool_at_boot (pagepool_init pool_at_boot).

Lemma sample_pool_ok : pool_ok sample_pool [7; 6; 5; 4; 3; 2; 1; 0].
Proof.
  destruct pagepool_init_ok as (st & Hst & Hok). unfold sample_pool. rewrite Hst. exact Hok.
Qed.

Lemma pmalloc_ok_witness :
  exists p st', pmalloc 4096 sample_pool 5000 = Some (p, st') /\
    ((p = NULL /\ st' = sample_pool /\
      (SIZE2PAGE 5000 = 0 \/ forall i, 0 <= i -> i + SIZE2PAGE 5000 <= 8 ->
        ~ all_in [7; 6; 5; 4; 3; 2; 1; 0] i (SIZE2PAGE 5000))) \/
     exists i F', p = 4096 + i * PAGE_SIZE /\ 0 <= i /\ i + SIZE2PAGE 5000 <= 8 /\
       all_in [7; 6; 5; 4; 3; 2; 1; 0] i (SIZE2PAGE 5000) /\
       pool_ok st' F' /\ without [7; 6; 5; 4; 3; 2; 1; 0] F' i (SIZE2PAGE 5000)).
Proof.
  apply (pmalloc_ok 4096 5000 sample_pool); [lia|vm_compute; congruence|exact sample_pool_ok].
Defined.

Lemma pfree_ok_witness :
  exists r st', pfree 4096 sample_pool (4096 + 3 * PAGE_SIZE) 2 = Some (r, st') /\
    ((r = - EINVAL /\ st' = sample_pool /\ exists k, 3 <= k < 3 + 2 /\ k ∈ [7; 6; 5; 4; 3; 2; 1; 0]) \/
     (r = 0 /\ (forall k, 3 <= k < 3 + 2 -> k ∉ [7; 6; 5; 4; 3; 2; 1; 0]) /\
      exists F', pool_ok st' F' /\ with_pages [7; 6; 5; 4; 3; 2; 1; 0] F' 3 2)).
Proof.
  apply (pfree_ok 4096 3 2 sample_pool); [lia|vm_compute; congruence|exact sample_pool_ok|lia..].
Defined.
