(* ===== verification/Heap.v ===== *)
(** * The system heap (mem_manager.c, mem_page.c, page_buddy/malloc.c, free.c)

    [mem_malloc] serves requests of up to 1920 bytes from the buddy pages that
    the heap owns, takes a new page from the pool when none of them has room,
    and serves larger requests with whole pages.  [sys_meminfo.buddys] lists
    what the heap owns: a buddy page is its page number, a run of pages is the
    first page number with bit 7 set, followed by the number of pages with the
    two top bits set when there is more than one; 0xff ends the list.

    The [struct buddy] at the end of a buddy page is kept in [selfs], apart
    from the bytes of [ram]: it is written completely when a page becomes a
    buddy page and lies outside of every block of the page.  An access outside
    of the pool or of [buddys] is [Fault]; [k_panic] is [Panic] with the
    error number that malloc.c prints.  The messages of [free_panic], which
    returns, are collected as a list of error codes. *)

From stdpp Require Import base list numbers.
From S2P Require Import Prelude Buddy PagePool.
Open Scope Z_scope.

(** ** Data *)

Record mem_info : Type := mk_mem_info {
  alloc_size : Z;
  original_size : Z;
  buddys : list Z       (* unsigned char buddys[28] *)
}.

Definition BUDDYS_SIZE : Z := 28.

Record heap : Type := mk_heap {
  pages : pool;
  selfs : list buddy;
  ram : mem;
  sys_meminfo : mem_info
}.

Definition set_pages (h : heap) (p : pool) : heap :=
  mk_heap p (selfs h) (ram h) (sys_meminfo h).
Definition set_self (h : heap) (no : Z) (b : buddy) : heap :=
  mk_heap (pages h) (<[Z.to_nat no := b]> (selfs h)) (ram h) (sys_meminfo h).
Definition set_ram (h : heap) (m : mem) : heap :=
  mk_heap (pages h) (selfs h) m (sys_meminfo h).
Definition set_info (h : heap) (i : mem_info) : heap :=
  mk_heap (pages h) (selfs h) (ram h) i.
Definition set_buddys (h : heap) (l : list Z) : heap :=
  set_info h (mk_mem_info (alloc_size (sys_meminfo h)) (original_size (sys_meminfo h)) l).

Inductive outcome (A : Type) : Type :=
  | Done (a : A)
  | Panic (code : Z)
  | Fault
  | Hang.
Arguments Done {A} a.
Arguments Panic {A} code.
Arguments Fault {A}.
Arguments Hang {A}.

Definition or_fault {A B} (x : option A) (f : A -> outcome B) : outcome B :=
  match x with Some a => f a | None => Fault end.

Declare Scope heap_scope.
Notation "'let?' x := e 'in' f" := (or_fault e (fun x => f))
  (at level 200, x pattern, f at level 200) : heap_scope.
Open Scope heap_scope.

(** [struct buddy_debug_info], the eight bytes at the end of a block. *)
Record buddy_debug_info : Type := mk_debug {
  size_ : Z;        (* uint16_t *)
  size_mask : Z;    (* uint16_t *)
  caller_ : Z;      (* 26 bits *)
  prio : Z          (* 6 bits *)
}.

Definition debug_bytes (d : buddy_debug_info) : list Z :=
  let w := Z.lor (Z.land (caller_ d) 0x03ffffff) (Z.shiftl (Z.land (prio d) 0x3f) 26) in
  [u8 (size_ d); u8 (size_ d / 2 ^ 8); u8 (size_mask d); u8 (size_mask d / 2 ^ 8);
   u8 w; u8 (w / 2 ^ 8); u8 (w / 2 ^ 16); u8 (w / 2 ^ 24)].

Definition PTR_DEFLATE (ptr : Z) : Z := if ptr =? 0 then 0 else Z.land ptr 0x03ffffff.

Definition size_check (size : Z) : Z := u16 (Z.lnot (u16 size + 0x1234)).

(** ** Allocation (malloc.c) *)

Section Heap.
(** The address of [mem_pool]. *)
Variable pool_addr : Z.

Definition buddy_alloc (h : heap) (buddy_no size : Z) : option (Z * Z * heap) :=
  self ← selfs h !! Z.to_nat buddy_no;
  let '(addr, size, self) :=
    rom_buddy_alloc (pagepool_convert_index_to_addr pool_addr buddy_no) buddy_no self size in
  Some (addr, size, set_self h buddy_no self).

(** The loop over the buddy pages; [None] inside means that none had room. *)
Fixpoint try_buddys (h : heap) (l : list Z) (real : Z) : option (option (Z * Z * heap)) :=
  match l with
  | [] => Some None
  | b :: l =>
      if b =? 0xff then Some None
      else if negb (Z.land b 0x80 =? 0) then try_buddys h l real
      else
        match buddy_alloc h b real with
        | None => None
        | Some (addr, real, h) =>
            if negb (addr =? NULL) then Some (Some (addr, real, h)) else try_buddys h l real
        end
  end.

(** The index of the first unused entry, [BUDDYS_SIZE] when there is none. *)
Fixpoint first_unused (l : list Z) : nat :=
  match l with
  | [] => O
  | b :: l => if b =? 0xff then O else S (first_unused l)
  end.

(** [mem_info->buddys[i] = v] *)
Definition set_entry (l : list Z) (i : nat) (v : Z) : option (list Z) :=
  if decide (i < length l)%nat then Some (<[i := u8 v]> l) else None.

(** From the label [success] on. *)
Definition malloc_success (h : heap) (addr real size need_size caller prio : Z) : Z * heap :=
  let size := Z.quot (size + 3) 4 * 4 in
  let d := mk_debug (u16 size) (size_check size) (PTR_DEFLATE caller) prio in
  let m := store (ram h) (u32 (addr + real - 8)) (debug_bytes d) in
  let m := memset m addr 0 (u32 need_size) in
  let i := sys_meminfo h in
  (addr, set_info (set_ram h m)
     (mk_mem_info (u32 (alloc_size i + real)) (u32 (original_size i + size)) (buddys i))).

(** The requests larger than a buddy page can hold. *)
Definition malloc_pages (h : heap) (size need_size caller prio : Z) : outcome (Z * heap) :=
  let page_num := SIZE2PAGE size in
  if negb (buddys (sys_meminfo h) !!! 26%nat =? 0xff) then Panic 1 else
  let? (page, p) := pmalloc pool_addr (pages h) size in
  let h := set_pages h p in
  if page =? NULL then Panic 2 else
  let page_no := pagepool_convert_addr_to_pageindex pool_addr page in
  let l := buddys (sys_meminfo h) in
  if negb (l !!! 26%nat =? 0xff) then
    let? _ := pfree pool_addr (pages h) page page_num in Panic 3
  else
    let i := first_unused l in
    let? l := set_entry l i (Z.lor page_no 0x80) in
    let? l := if page_num >? 1 then set_entry l (i + 1) (Z.lor page_num 0xc0) else Some l in
    Done (malloc_success (set_buddys h l) page (PAGE2SIZE page_num) size need_size caller prio).

(** A new buddy page. *)
Definition malloc_new_buddy (h : heap) (size need_size caller prio : Z) : outcome (Z * heap) :=
  if negb (buddys (sys_meminfo h) !!! 27%nat =? 0xff) then Panic 4 else
  let? (page, p) := pmalloc pool_addr (pages h) PAGE_SIZE in
  let h := set_pages h p in
  if page =? NULL then Panic 5 else
  let page_no := pagepool_convert_addr_to_pageindex pool_addr page in
  let h := set_self h page_no (rom_new_buddy_no page_no) in
  let? (addr, real, h) := buddy_alloc h page_no size in
  let l := buddys (sys_meminfo h) in
  if negb (l !!! 27%nat =? 0xff) then
    let? _ := pfree pool_addr (pages h) page 1 in Panic 6
  else
    let? l := set_entry l (first_unused l) page_no in
    Done (malloc_success (set_buddys h l) addr real size need_size caller prio).

Definition mem_buddy_malloc (h : heap) (size need_size caller prio : Z) : outcome (Z * heap) :=
  if size =? 0 then Done (NULL, h)
  else if size >? get_buddy_max then malloc_pages h size need_size caller prio
  else
    let? found := try_buddys h (buddys (sys_meminfo h)) size in
    match found with
    | Some (addr, real, h) => Done (malloc_success h addr real size need_size caller prio)
    | None => malloc_new_buddy h size need_size caller prio
    end.

(** ** Release (free.c) *)

Fixpoint shift_entries (rounds : nat) (l : list Z) (index nr : nat) : list Z :=
  match rounds with
  | O => l
  | S rounds => shift_entries rounds (<[index := l !!! (index + nr)%nat]> l) (S index) nr
  end.

(** The loop [for(nr--; nr >= 0; nr--)]. *)
Fixpoint clear_entries (l : list Z) (index nr : nat) : option (list Z) :=
  match nr with
  | O => Some l
  | S nr => match set_entry l (index + nr) (-1) with
            | None => None
            | Some l => clear_entries l index nr
            end
  end.

Definition del_buddy (l : list Z) (index nr : nat) : option (list Z) :=
  let rounds := (Z.to_nat BUDDYS_SIZE - nr - index)%nat in
  clear_entries (shift_entries rounds l index nr) (index + rounds) nr.

Definition is_count (c : Z) : bool := negb (c =? 0xff) && (Z.land c 0xc0 =? 0xc0).

(** The loop that looks for the owner of a page: 0 for a buddy page, the
    number of pages of a run, -1 when the page is not in the list. *)
Fixpoint find_owner (l : list Z) (buddy_no : Z) : Z :=
  match l with
  | [] => -1
  | b :: l =>
      if b =? 0xff then -1
      else if Z.land b 0x80 =? 0 then
        if b =? buddy_no then 0 else find_owner l buddy_no
      else if Z.land b 0x7f =? buddy_no then
        match l with
        | c :: _ => if is_count c then Z.land c 0x3f else 1
        | [] => 1
        end
      else
        match l with
        | c :: l' => if is_count c then find_owner l' buddy_no else find_owner l buddy_no
        | [] => find_owner l buddy_no
        end
  end.

Fixpoint index_of (l : list Z) (v : Z) : nat :=
  match l with
  | [] => O
  | b :: l => if b =? v then O else S (index_of l v)
  end.

Definition load16 (m : mem) (a : Z) : Z := m a + m (a + 1) * 2 ^ 8.

(** mem_page.c: the size of the block according to its last eight bytes, or
    the size of the whole block when they are not intact. *)
Definition check_mem_debug (i : mem_info) (m : mem) (buddy_debug size : Z) : mem_info :=
  let dsize := load16 m buddy_debug in
  let dsize :=
    if negb (load16 m (buddy_debug + 2) =? size_check dsize) then u16 size else dsize in
  mk_mem_info (alloc_size i) (u32 (original_size i - dsize)) (buddys i).

Definition sub_alloc (i : mem_info) (size : Z) : mem_info :=
  mk_mem_info (u32 (alloc_size i - size)) (original_size i) (buddys i).

Definition account_free (h : heap) (where_ size : Z) : heap :=
  set_info h (check_mem_debug (sub_alloc (sys_meminfo h) size) (ram h)
                (u32 (where_ + size - 8)) size).

(** [pfree] at the end of [mem_buddy_free]. *)
Definition free_pages (h : heap) (buddy_no page_num : Z) (reports : list Z)
    : outcome (list Z * heap) :=
  if page_num >? 0 then
    let page := pagepool_convert_index_to_addr pool_addr buddy_no in
    let? (ret_val, p) := pfree pool_addr (pages h) page page_num in
    Done (reports ++ (if ret_val <? 0 then [- EBUSY] else []), set_pages h p)
  else Done (reports, h).

(** The block belongs to a buddy page. *)
Definition free_in_buddy (h : heap) (where_ buddy_no : Z) (reports : list Z)
    : outcome (list Z * heap) :=
  let? self := selfs h !! Z.to_nat buddy_no in
  match rom_buddy_free (pagepool_convert_index_to_addr pool_addr buddy_no) buddy_no self
          (ram h) where_ false with
  | FreeHang => Hang
  | FreeReturn size _ self =>
      let reports := reports ++ (if size <=? 0 then [- EIO] else []) in
      let h := set_self h buddy_no self in
      if rom_is_buddy_idled self then
        let l := buddys (sys_meminfo h) in
        let? l := del_buddy l (index_of l buddy_no) 1 in
        free_pages (account_free (set_buddys h l) where_ size) buddy_no 1 reports
      else free_pages (account_free h where_ size) buddy_no 0 reports
  end.

(** The block is a run of pages (or, with [page_num] -1, unknown). *)
Definition free_run (h : heap) (where_ buddy_no page_num : Z) (reports : list Z)
    : outcome (list Z * heap) :=
  let reports := reports ++
    (if negb (Z.land where_ (PAGE_SIZE - 1) =? 0) then [- EPERM] else []) in
  let l := buddys (sys_meminfo h) in
  let? l := del_buddy l (index_of l (Z.lor buddy_no 0x80)) (if page_num >? 1 then 2 else 1) in
  let size := PAGE_SIZE * page_num in
  free_pages (account_free (set_buddys h l) where_ size) buddy_no page_num reports.

Definition mem_buddy_free (h : heap) (where_ : Z) : outcome (list Z * heap) :=
  let reports := if where_ =? NULL then [- EINVAL] else [] in
  let buddy_no := pagepool_convert_addr_to_pageindex pool_addr where_ in
  let page_num := find_owner (buddys (sys_meminfo h)) buddy_no in
  let reports := reports ++ (if page_num =? -1 then [- EACCES] else []) in
  if page_num =? 0 then free_in_buddy h where_ buddy_no reports
  else free_run h where_ buddy_no page_num reports.

(** ** mem_page.c and mem_manager.c *)

(** [num_bytes] is an [unsigned int], [mem_buddy_malloc] takes an [int]. *)
Definition mem_page_malloc (h : heap) (num_bytes caller prio : Z) : outcome (Z * heap) :=
  mem_buddy_malloc h (s32 num_bytes) (s32 num_bytes) caller prio.

Definition mem_page_free (h : heap) (ptr : Z) : outcome (list Z * heap) :=
  mem_buddy_free h ptr.

Definition mem_page_init (h : heap) : option heap :=
  p ← pagepool_init (pages h);
  Some (set_info (set_pages h p) (mk_mem_info 0 0 (replicate (Z.to_nat BUDDYS_SIZE) (u8 (-1))))).

Definition mem_malloc_debug (h : heap) (num_bytes caller prio : Z) : outcome (Z * heap) :=
  mem_page_malloc h num_bytes caller prio.

Definition mem_malloc (h : heap) (num_bytes caller prio : Z) : outcome (Z * heap) :=
  mem_malloc_debug h num_bytes caller prio.

Definition mem_free (h : heap) (ptr : Z) : outcome (list Z * heap) :=
  if ptr =? NULL then Done ([], h) else mem_page_free h ptr.

Definition app_mem_malloc (h : heap) (num_bytes caller prio : Z) : outcome (Z * heap) :=
  mem_page_malloc h num_bytes caller prio.

Definition app_mem_malloc_ext (h : heap) (num_bytes malloc_tag prio : Z) : outcome (Z * heap) :=
  mem_page_malloc h num_bytes malloc_tag prio.

Definition app_mem_free (h : heap) (ptr : Z) : outcome (list Z * heap) :=
  if ptr =? NULL then Done ([], h) else mem_page_free h ptr.

Definition mem_manager_init (h : heap) : option (Z * heap) :=
  h ← mem_page_init h; Some (0, h).

End Heap.
