(* ===== verification/HeapProof.v ===== *)
(** * Correctness of the system heap

    The abstract state of the heap is a finite map from the addresses of the
    live blocks to their sizes.  [heap_inv] relates it to the page pool, the
    buddy pages and the list [buddys]; it is kept by [mem_page_malloc] and
    [mem_page_free], which add and remove exactly one block. *)

From stdpp Require Import base list numbers gmap.
From S2P Require Import Prelude Buddy BuddyProof PagePool Heap.
Open Scope Z_scope.

(** ** What the heap owns *)

Inductive owner : Type :=
  | OBuddy (p : Z)
  | OPages (p n : Z).

Definition pages_of (o : owner) : list Z :=
  match o with OBuddy p => [p] | OPages p n => seqZ p n end.

Definition first_page (o : owner) : Z := match o with OBuddy p => p | OPages p _ => p end.

(** The entries of [buddys] for one owner. *)
Definition enc (o : owner) : list Z :=
  match o with
  | OBuddy p => [p]
  | OPages p n => if n =? 1 then [Z.lor p 0x80] else [Z.lor p 0x80; Z.lor n 0xc0]
  end.

Definition owned (E : list owner) : list Z := concat (pages_of <$> E).
Definition encs (E : list owner) : list Z := concat (enc <$> E).

Definition owner_ok (o : owner) : Prop :=
  match o with
  | OBuddy p => 0 <= p < 8
  | OPages p n => 0 <= p /\ 1 <= n /\ p + n <= 8
  end.

Lemma pages_of_range o x : owner_ok o -> x ∈ pages_of o -> 0 <= x < 8.
Proof.
  destruct o; simpl; intros Ho Hx; [apply list_elem_of_singleton in Hx; lia|].
  apply elem_of_seqZ in Hx. lia.
Qed.

Lemma first_page_in o : owner_ok o -> first_page o ∈ pages_of o.
Proof. destruct o; simpl; intros Ho; [set_solver|apply elem_of_seqZ; lia]. Qed.

Lemma elem_of_owned E x : x ∈ owned E <-> exists o, o ∈ E /\ x ∈ pages_of o.
Proof.
  unfold owned. setoid_rewrite list_elem_of_In. rewrite in_concat. setoid_rewrite in_map_iff. naive_solver.
Qed.

Lemma owned_app E E' : owned (E ++ E') = owned E ++ owned E'.
Proof. unfold owned. rewrite fmap_app. apply concat_app. Qed.

Lemma encs_app E E' : encs (E ++ E') = encs E ++ encs E'.
Proof. unfold encs. rewrite fmap_app. apply concat_app. Qed.

(** Two owners never share a page. *)
Lemma owners_disjoint E o o' x :
  NoDup (owned E) -> o ∈ E -> o' ∈ E -> x ∈ pages_of o -> x ∈ pages_of o' -> o = o'.
Proof.
  induction E as [|a E IH]; intros Hnd Ho Ho' Hx Hx'; [inversion Ho|].
  change (owned (a :: E)) with (pages_of a ++ owned E) in Hnd. apply NoDup_app in Hnd as (_ & Hd & Hnd).
  apply elem_of_cons in Ho, Ho'. destruct Ho as [->|Ho], Ho' as [->|Ho']; auto.
  - exfalso. apply (Hd x Hx). apply elem_of_owned. eauto.
  - exfalso. apply (Hd x Hx'). apply elem_of_owned. eauto.
Qed.

Lemma enc_length o : owner_ok o -> (length (enc o) <= length (pages_of o))%nat.
Proof.
  destruct o as [p|p n]; simpl; intros Ho; [lia|].
  rewrite length_seqZ. destruct (Z.eqb_spec n 1); simpl; lia.
Qed.

Lemma encs_length E : Forall owner_ok E -> (length (encs E) <= length (owned E))%nat.
Proof.
  induction 1 as [|o E Ho _ IH]; [simpl; lia|].
  change (encs (o :: E)) with (enc o ++ encs E). change (owned (o :: E)) with (pages_of o ++ owned E).
  rewrite !length_app. pose proof (enc_length o Ho). lia.
Qed.

Lemma owned_length E : Forall owner_ok E -> NoDup (owned E) -> (length (owned E) <= 8)%nat.
Proof.
  intros Hok Hnd. assert (Hsub : owned E ⊆+ seqZ 0 8).
  { apply NoDup_submseteq; [exact Hnd|]. intros x Hx. apply elem_of_seqZ.
    apply elem_of_owned in Hx as (o & Ho & Hx). rewrite Forall_forall in Hok.
    pose proof (pages_of_range o x (Hok o Ho) Hx). lia. }
  apply submseteq_length in Hsub. rewrite length_seqZ in Hsub. lia.
Qed.

(** Facts about the bits of an entry, by evaluation. *)
Lemma entry_facts p : 0 <= p < 8 ->
  Z.land p 0x80 = 0 /\ p <> 0xff /\ u8 p = p /\
  Z.lor p 0x80 = p + 128 /\ u8 (p + 128) = p + 128 /\ Z.land (p + 128) 0x80 = 0x80 /\
  Z.land (p + 128) 0x7f = p /\ is_count p = false /\ is_count (p + 128) = false.
Proof.
  intros Hp.
  assert (p = 0 \/ p = 1 \/ p = 2 \/ p = 3 \/ p = 4 \/ p = 5 \/ p = 6 \/ p = 7) as H by lia.
  destruct H as [->|[->|[->|[->|[->|[->|[->| ->]]]]]]]; repeat split; discriminate.
Qed.

Lemma count_facts n : 1 <= n <= 8 ->
  Z.lor n 0xc0 = n + 192 /\ u8 (n + 192) = n + 192 /\ Z.land (n + 192) 0x80 = 0x80 /\
  Z.land (n + 192) 0x3f = n /\ is_count (n + 192) = true.
Proof.
  intros Hn.
  assert (n = 1 \/ n = 2 \/ n = 3 \/ n = 4 \/ n = 5 \/ n = 6 \/ n = 7 \/ n = 8) as H by lia.
  destruct H as [->|[->|[->|[->|[->|[->|[->| ->]]]]]]]; repeat split; discriminate.
Qed.

(** ** The invariant *)

Section Heap.
Context (base : Z).
Hypothesis base_pos : 0 < base.
Hypothesis base_fits : base + 8 * PAGE_SIZE <= 2 ^ 32.

Definition page_addr (p : Z) : Z := base + p * PAGE_SIZE.

(** The live blocks: address and size. *)
Definition block_of (Bs : Z -> blocks) (o : owner) (a n : Z) : Prop :=
  match o with
  | OBuddy p => exists u k, Bs p !! u = Some k /\ a = page_addr p + u * UNIT_SIZE /\ n = k * UNIT_SIZE
  | OPages p c => a = page_addr p /\ n = c * PAGE_SIZE
  end.

Definition buddy_ok (h : heap) (Bs : Z -> blocks) (o : owner) : Prop :=
  match o with
  | OBuddy p => exists self, selfs h !! Z.to_nat p = Some self /\ inv self (Bs p) /\
      page_no self = p /\ Bs p <> ∅
  | OPages _ _ => True
  end.

Record heap_ok (h : heap) (E : list owner) (F : list Z) (Bs : Z -> blocks) : Prop := {
  hp_pool : pool_ok (pages h) F;
  hp_selfs : length (selfs h) = 8%nat;
  hp_owners : Forall owner_ok E;
  hp_nodup : NoDup (owned E);
  hp_split : forall x, 0 <= x < 8 -> x ∈ F <-> x ∉ owned E;
  hp_list : exists k, buddys (sys_meminfo h) = encs E ++ replicate k 0xff;
  hp_len : length (buddys (sys_meminfo h)) = 28%nat;
  hp_buddy : Forall (buddy_ok h Bs) E
}.

Definition heap_inv (h : heap) (A : gmap Z Z) : Prop :=
  exists E F Bs, heap_ok h E F Bs /\
    (forall a n, A !! a = Some n <-> exists o, o ∈ E /\ block_of Bs o a n) /\
    alloc_size (sys_meminfo h) = u32 (total A).

(** *** Geometry of the blocks *)

(** A block lies in the pages of its owner and starts in the first one. *)
Lemma block_span h E F Bs o a n : heap_ok h E F Bs -> o ∈ E -> block_of Bs o a n ->
  owner_ok o /\ 0 < n /\ page_addr (first_page o) <= a < page_addr (first_page o) + PAGE_SIZE /\
  a + n <= page_addr (first_page o) + Z.of_nat (length (pages_of o)) * PAGE_SIZE /\
  (a - base) mod UNIT_SIZE = 0 /\ n mod UNIT_SIZE = 0.
Proof.
  intros Hok Ho Hb. pose proof (hp_owners _ _ _ _ Hok) as HE. rewrite Forall_forall in HE.
  pose proof (HE o Ho) as Hoo. split; [exact Hoo|]. unfold page_addr.
  change PAGE_SIZE with 2048 in *. change UNIT_SIZE with 16 in *.
  destruct o as [p|p c]; simpl in *.
  - destruct Hb as (u & k & Hu & -> & ->). unfold page_addr. change PAGE_SIZE with 2048. change UNIT_SIZE with 16.
    pose proof (hp_buddy _ _ _ _ Hok) as HB. rewrite Forall_forall in HB.
    destruct (HB _ Ho) as (self & _ & Hinv & _).
    pose proof (valid_bounds u k (blocks_valid _ (inv_blocks _ _ Hinv) u k Hu)).
    repeat split; try lia; Z.div_mod_to_equations; lia.
  - destruct Hb as [-> ->]. unfold page_addr. change PAGE_SIZE with 2048. rewrite length_seqZ.
    repeat split; try lia; Z.div_mod_to_equations; lia.
Qed.

Lemma owner_pages o x : owner_ok o ->
  x ∈ pages_of o <-> first_page o <= x < first_page o + Z.of_nat (length (pages_of o)).
Proof.
  destruct o as [p|p c]; simpl; intros Ho.
  - rewrite list_elem_of_singleton. lia.
  - rewrite length_seqZ, elem_of_seqZ. lia.
Qed.

(** Live blocks are equal or disjoint. *)
Lemma blocks_apart h E F Bs o a n o' a' n' : heap_ok h E F Bs ->
  o ∈ E -> block_of Bs o a n -> o' ∈ E -> block_of Bs o' a' n' ->
  (a = a' /\ n = n' /\ o = o') \/ a + n <= a' \/ a' + n' <= a.
Proof.
  intros Hok Ho Hb Ho' Hb'.
  destruct (block_span _ _ _ _ _ _ _ Hok Ho Hb) as (Hoo & Hn & Ha & He & _).
  destruct (block_span _ _ _ _ _ _ _ Hok Ho' Hb') as (Hoo' & Hn' & Ha' & He' & _).
  destruct (decide (first_page o ∈ pages_of o' \/ first_page o' ∈ pages_of o)) as [Hin|Hout].
  - assert (o = o') as <-.
    { pose proof (hp_nodup _ _ _ _ Hok) as Hnd.
      destruct Hin as [Hin|Hin].
      - exact (owners_disjoint E o o' _ Hnd Ho Ho' (first_page_in o Hoo) Hin).
      - symmetry. exact (owners_disjoint E o' o _ Hnd Ho' Ho (first_page_in o' Hoo') Hin). }
    destruct o as [p|p c]; simpl in Hb, Hb'; [|destruct Hb as [-> ->], Hb' as [-> ->]; auto].
    destruct Hb as (u & k & Hu & -> & ->), Hb' as (u' & k' & Hu' & -> & ->).
    destruct (Z.eq_dec u u') as [<-|Hne]; [left; rewrite Hu in Hu'; injection Hu' as ->; auto|].
    pose proof (hp_buddy _ _ _ _ Hok) as HB. rewrite Forall_forall in HB.
    destruct (HB _ Ho) as (self & _ & Hinv & _). right. change UNIT_SIZE with 16.
    destruct (blocks_disjoint _ (inv_blocks _ _ Hinv) _ _ _ _ Hu Hu' Hne); lia.
  - rewrite (owner_pages o') in Hout by exact Hoo'. rewrite (owner_pages o) in Hout by exact Hoo.
    unfold page_addr in *. change PAGE_SIZE with 2048 in *. right. lia.
Qed.

(** *** The list of owners *)

Lemma entry_not_ff E : Forall owner_ok E -> Forall (fun b => b <> 0xff) (encs E).
Proof.
  induction 1 as [|o E Ho _ IH]; [constructor|]. change (encs (o :: E)) with (enc o ++ encs E).
  apply Forall_app. split; [|exact IH]. destruct o as [p|p n]; simpl in *.
  - repeat constructor. lia.
  - pose proof (entry_facts p ltac:(lia)) as (_ & _ & _ & -> & _).
    destruct (Z.eqb_spec n 1); repeat constructor; try lia.
    pose proof (count_facts n ltac:(lia)) as (-> & _). lia.
Qed.

Lemma first_unused_app l k : Forall (fun b => b <> 0xff) l ->
  first_unused (l ++ replicate k 0xff) = length l.
Proof.
  induction 1 as [|b l Hb _ IH]; [destruct k; reflexivity|]. simpl.
  destruct (Z.eqb_spec b 0xff); [contradiction|]. rewrite IH. reflexivity.
Qed.

Lemma set_entry_append l k v : set_entry (l ++ replicate (S k) 0xff) (length l) v =
  Some ((l ++ [u8 v]) ++ replicate k 0xff).
Proof.
  unfold set_entry. rewrite decide_True by (rewrite length_app, length_replicate; lia).
  f_equal. rewrite <- (Nat.add_0_r (length l)) at 1. rewrite insert_app_r. simpl.
  rewrite <- app_assoc. reflexivity.
Qed.

(** The entries for a run of pages. *)
Lemma append_run E i n k : 0 <= i -> 1 <= n -> i + n <= 8 ->
  let l0 := encs E ++ replicate (20 + k) 0xff in
  exists l k', set_entry l0 (length (encs E)) (Z.lor i 0x80) = Some l /\
    (if n >? 1 then set_entry l (length (encs E) + 1) (Z.lor n 0xc0) else Some l) =
      Some (encs (E ++ [OPages i n]) ++ replicate k' 0xff) /\
    length (encs (E ++ [OPages i n]) ++ replicate k' 0xff) = length l0.
Proof.
  intros Hi Hn Hin l0. subst l0.
  destruct (entry_facts i ltac:(lia)) as (_ & _ & _ & He & Hu & _).
  destruct (count_facts n ltac:(lia)) as (Hc & Hcu & _).
  change (20 + k)%nat with (S (19 + k)). rewrite set_entry_append, He, Hu. eexists.
  rewrite encs_app. change (encs [OPages i n]) with (enc (OPages i n) ++ []).
  rewrite app_nil_r. unfold enc. rewrite He, Z.gtb_ltb. destruct (Z.eqb_spec n 1) as [->|Hne].
  - exists (19 + k)%nat. split; [reflexivity|]. split; [reflexivity|].
    rewrite !length_app, !length_replicate. simpl. lia.
  - rewrite (proj2 (Z.ltb_lt _ _)) by lia. exists (18 + k)%nat. split; [reflexivity|].
    replace (length (encs E) + 1)%nat with (length (encs E ++ [i + 128])) by (rewrite length_app; reflexivity).
    change (19 + k)%nat with (S (18 + k)). rewrite set_entry_append, Hc, Hcu, <- !app_assoc.
    split; [reflexivity|]. rewrite !length_app, !length_replicate. simpl. lia.
Qed.

(** Eight pages need at most eight entries, so the last twenty are unused. *)
Lemma buddys_room h E F Bs : heap_ok h E F Bs ->
  exists k, buddys (sys_meminfo h) = encs E ++ replicate (20 + k) 0xff.
Proof.
  intros Hok. destruct (hp_list _ _ _ _ Hok) as (k & Hk). pose proof (hp_len _ _ _ _ Hok) as Hl.
  rewrite Hk, length_app, length_replicate in Hl.
  pose proof (encs_length E (hp_owners _ _ _ _ Hok)).
  pose proof (owned_length E (hp_owners _ _ _ _ Hok) (hp_nodup _ _ _ _ Hok)).
  exists (k - 20)%nat. rewrite Hk. do 2 f_equal. lia.
Qed.

Lemma buddys_tail h E F Bs i : heap_ok h E F Bs -> (8 <= i < 28)%nat ->
  buddys (sys_meminfo h) !!! i = 0xff.
Proof.
  intros Hok Hi. destruct (hp_list _ _ _ _ Hok) as (k & Hk). pose proof (hp_len _ _ _ _ Hok) as Hl.
  rewrite Hk, length_app, length_replicate in Hl.
  pose proof (encs_length E (hp_owners _ _ _ _ Hok)).
  pose proof (owned_length E (hp_owners _ _ _ _ Hok) (hp_nodup _ _ _ _ Hok)).
  rewrite Hk, list_lookup_total_alt, lookup_app_r, lookup_replicate_2 by lia. reflexivity.
Qed.

(** *** Preservation *)

(** The invariant does not depend on the bytes and the counters. *)
Lemma heap_ok_ext h h' E F Bs :
  pages h' = pages h -> selfs h' = selfs h -> buddys (sys_meminfo h') = buddys (sys_meminfo h) ->
  heap_ok h E F Bs -> heap_ok h' E F Bs.
Proof.
  intros Hp Hs Hb [H1 H2 H3 H4 H5 H6 H7 H8]. split; rewrite ?Hp, ?Hs, ?Hb; auto.
  eapply Forall_impl; [exact H8|]. intros [p|p n] Ho; [|exact I]. simpl in *. rewrite Hs. exact Ho.
Qed.

Definition upd_blocks (Bs : Z -> blocks) (p : Z) (B : blocks) : Z -> blocks :=
  fun q => if q =? p then B else Bs q.

Lemma upd_blocks_eq Bs p B : upd_blocks Bs p B p = B.
Proof. unfold upd_blocks. rewrite Z.eqb_refl. reflexivity. Qed.

Lemma upd_blocks_ne Bs p B q : q <> p -> upd_blocks Bs p B q = Bs q.
Proof. intros H. unfold upd_blocks. destruct (Z.eqb_spec q p); [contradiction|reflexivity]. Qed.

(** Changing one buddy page leaves the owners of other pages alone. *)
Lemma buddy_ok_other h h' Bs p B self o :
  selfs h' = <[Z.to_nat p := self]> (selfs h) -> 0 <= p -> owner_ok o -> p ∉ pages_of o ->
  buddy_ok h Bs o -> buddy_ok h' (upd_blocks Bs p B) o.
Proof.
  intros Hs Hp Hoo Hno. destruct o as [q|q n]; [|auto]. simpl in *.
  assert (q <> p) by set_solver. rewrite Hs, upd_blocks_ne by assumption.
  rewrite list_lookup_insert_ne by lia. auto.
Qed.

Lemma block_of_other Bs p B o a n : p ∉ pages_of o ->
  block_of (upd_blocks Bs p B) o a n <-> block_of Bs o a n.
Proof.
  destruct o as [q|q c]; simpl; intros Hno; [|reflexivity].
  rewrite upd_blocks_ne by set_solver. reflexivity.
Qed.

(** A new owner whose pages were free. *)
Lemma add_owner h h' E F F' Bs Bs' o k :
  heap_ok h E F Bs -> owner_ok o -> (forall x, x ∈ pages_of o -> x ∈ F) ->
  pool_ok (pages h') F' -> (forall y, y ∈ F' <-> y ∈ F /\ y ∉ pages_of o) ->
  length (selfs h') = 8%nat -> buddys (sys_meminfo h') = encs (E ++ [o]) ++ replicate k 0xff ->
  length (buddys (sys_meminfo h')) = 28%nat ->
  Forall (buddy_ok h' Bs') E -> buddy_ok h' Bs' o ->
  heap_ok h' (E ++ [o]) F' Bs'.
Proof.
  intros Hok Hoo Hfree Hp HF' Hs Hl Hlen HE Ho.
  assert (Ho1 : owned [o] = pages_of o) by apply app_nil_r.
  split; auto.
  - apply Forall_app. split; [apply Hok|repeat constructor; exact Hoo].
  - rewrite owned_app, Ho1. apply NoDup_app. split; [apply Hok|]. split.
    + intros x Hx Hxo. pose proof (pages_of_range o x Hoo Hxo) as Hr.
      apply (hp_split _ _ _ _ Hok x Hr); auto.
    + destruct o; simpl; [apply NoDup_singleton|apply NoDup_seqZ].
  - intros x Hx. rewrite HF', owned_app, Ho1, not_elem_of_app, (hp_split _ _ _ _ Hok x Hx). reflexivity.
  - eauto.
  - apply Forall_app. split; [exact HE|repeat constructor; exact Ho].
Qed.

(** *** Allocation *)

(** The result of an allocation from the buddy page [p]. *)
Definition buddy_block (B : blocks) (size p addr real : Z) (self' : buddy) : Prop :=
  exists u, addr = page_addr p + u * UNIT_SIZE /\ real = units_of size * UNIT_SIZE /\
    0 <= u /\ u + units_of size <= SELF_INDEX /\ 0 < size <= MAX_FREE_SIZE /\
    fresh B u (units_of size) /\ inv self' (<[u := units_of size]> B) /\ page_no self' = p.

Lemma buddy_alloc_ok h B self p size : 0 <= p < 8 ->
  selfs h !! Z.to_nat p = Some self -> inv self B -> page_no self = p ->
  exists addr real h', buddy_alloc base h p size = Some (addr, real, h') /\
    ((addr = NULL /\ real = size /\ h' = h) \/
     (addr <> NULL /\ exists self', h' = set_self h p self' /\ buddy_block B size p addr real self')).
Proof.
  intros Hp Hs Hinv Hno. unfold buddy_alloc. rewrite Hs. cbn [mbind option_bind].
  rewrite (index_addr base base_pos base_fits p Hp).
  change PAGE_SIZE with 2048 in *.
  pose proof (alloc_step (base + p * 2048) p ltac:(lia) ltac:(change PAGE_SIZE with 2048; lia) self B size Hinv Hno) as H.
  destruct (rom_buddy_alloc (base + p * 2048) p self size) as [[addr real] self'].
  exists addr, real, (set_self h p self'). split; [reflexivity|].
  destruct H as [(-> & -> & ->)|(u & Hsz & -> & -> & Hu & Hun & Hf & Hi & Hno')].
  - left. split; [reflexivity|]. split; [reflexivity|]. unfold set_self. rewrite list_insert_id by exact Hs.
    destruct h; reflexivity.
  - right. split; [unfold NULL; change UNIT_SIZE with 16; lia|]. exists self'. split; [reflexivity|].
    exists u. unfold page_addr. auto 12.
Qed.

Lemma try_buddys_ok h Bs size E k : length (selfs h) = 8%nat ->
  Forall owner_ok E -> Forall (buddy_ok h Bs) E ->
  exists r, try_buddys base h (encs E ++ replicate k 0xff) size = Some r /\
    match r with
    | None => True
    | Some (addr, real, h') => exists p self', OBuddy p ∈ E /\ h' = set_self h p self' /\
        buddy_block (Bs p) size p addr real self'
    end.
Proof.
  intros Hlen HE. induction HE as [|o E Hoo HE IH]; intros HB.
  - exists None. split; [destruct k; reflexivity|exact I].
  - apply Forall_cons in HB as [Ho HB]. destruct (IH HB) as (r & Hr & Hres).
    assert (Hw : match r with None => True | Some (addr, real, h') =>
      exists p self', OBuddy p ∈ o :: E /\ h' = set_self h p self' /\
        buddy_block (Bs p) size p addr real self' end).
    { destruct r as [[[addr real] h']|]; [|exact I]. destruct Hres as (p & self' & Hp & Hrest).
      exists p, self'. split; [right; exact Hp|exact Hrest]. }
    change (encs (o :: E)) with (enc o ++ encs E). rewrite <- app_assoc.
    destruct o as [p|p n]; simpl in Hoo.
    + destruct Ho as (self & Hs & Hinv & Hno & _).
      destruct (buddy_alloc_ok h (Bs p) self p size Hoo Hs Hinv Hno) as (addr & real & h' & Ha & Hcase).
      destruct (entry_facts p Hoo) as (Hb & Hff & _). simpl. rewrite Hb, Ha.
      destruct (Z.eqb_spec p 255); [contradiction|]. simpl.
      destruct Hcase as [(-> & -> & ->)|(Hnn & self' & -> & Hblk)].
      * exists r. auto.
      * destruct (Z.eqb_spec addr NULL); [contradiction|]. eexists. split; [reflexivity|].
        exists p, self'. split; [left|auto].
    + exists r. split; [|exact Hw]. rewrite <- Hr. simpl.
      destruct (entry_facts p ltac:(lia)) as (_ & _ & _ & -> & _ & Hb & _).
      destruct (count_facts n ltac:(lia)) as (-> & _ & Hb' & _).
      destruct (Z.eqb_spec n 1); simpl; rewrite ?Hb, ?Hb'; repeat
        match goal with |- context [?x =? 255] => destruct (Z.eqb_spec x 255); [lia|] end; reflexivity.
Qed.

(** A new buddy page has room for every size it may be asked for. *)
Lemma new_buddy_room p size : 0 <= p < 8 -> 0 < size <= MAX_FREE_SIZE ->
  (rom_buddy_alloc (page_addr p) p (rom_new_buddy_no p) size).1.1 <> NULL.
Proof.
  intros Hp Hsz. pose proof (units_of_range size Hsz) as Hn.
  pose proof (forallb_seqZ (fun p => forallb (fun n => match choose_node (rom_new_buddy_no p) n with
      Some (_, _, o) => (0 <=? o) && (o <? 128) | None => false end) (seqZ 1 120)) 0 8
    ltac:(vm_compute; reflexivity) p ltac:(lia)) as H.
  cbv beta in H. pose proof (forallb_seqZ _ _ _ H (units_of size) ltac:(lia)) as H'.
  cbv beta in H'. clear H. rename H' into H. set (new := rom_new_buddy_no p) in *.
  assert (Hno : page_no new = p) by reflexivity. clearbody new.
  unfold rom_buddy_alloc. rewrite (proj2 (Z.leb_gt _ _)), (Z.gtb_ltb size), (proj2 (Z.ltb_ge _ _)) by lia.
  rewrite Hno, Z.eqb_refl. cbn [negb]. fold (units_of size).
  destruct (choose_node new (units_of size)) as [[[i ns] o]|]; [|discriminate].
  cbn [fst]. apply andb_true_iff in H as [H1%Z.leb_le H2%Z.ltb_lt]. unfold page_addr, NULL.
  change PAGE_SIZE with 2048 in *. change UNIT_SIZE with 16. rewrite u32_small; lia.
Qed.

(** No live block touches page [x]. *)
Definition page_vacant (A : gmap Z Z) (x : Z) : Prop :=
  forall a n, A !! a = Some n -> a + n <= page_addr x \/ page_addr (x + 1) <= a.

(** [A] lists the blocks of the owners [E]. *)
Definition lists (E : list owner) (Bs : Z -> blocks) (A : gmap Z Z) : Prop :=
  forall a n, A !! a = Some n <-> exists o, o ∈ E /\ block_of Bs o a n.

Lemma vacant_free h E F Bs A x : heap_ok h E F Bs -> lists E Bs A -> 0 <= x < 8 ->
  page_vacant A x -> x ∈ F.
Proof.
  intros Hok HA Hx Hv. apply (hp_split _ _ _ _ Hok x Hx). intros Hin.
  apply elem_of_owned in Hin as (o & Ho & Hxo).
  assert (Hb : exists a n, block_of Bs o a n).
  { pose proof (hp_buddy _ _ _ _ Hok) as HB. rewrite Forall_forall in HB. specialize (HB o Ho).
    destruct o as [p|p c]; [|do 2 eexists; split; reflexivity].
    destruct HB as (self & _ & _ & _ & Hne). apply map_choose in Hne as (u & k & Hu).
    do 2 eexists. exists u, k. auto. }
  destruct Hb as (a & n & Hb). destruct (block_span _ _ _ _ _ _ _ Hok Ho Hb) as (Hoo & Hn & Ha & He & _).
  apply (owner_pages o x Hoo) in Hxo. specialize (Hv a n (proj2 (HA a n) (ex_intro _ o (conj Ho Hb)))).
  unfold page_addr in *. change PAGE_SIZE with 2048 in *.
  destruct o as [p|p c]; simpl in *.
  - assert (x = p) as -> by lia. lia.
  - destruct Hb as [-> ->]. unfold page_addr in *. change PAGE_SIZE with 2048 in *. rewrite length_seqZ in Hxo. lia.
Qed.

(** What a call of the allocator with [size] bytes may do. *)
Definition malloc_result (h : heap) (A : gmap Z Z) (size : Z) (r : outcome (Z * heap)) : Prop :=
  match r with
  | Done (a, h') => exists n,
      size <= n /\ n mod UNIT_SIZE = 0 /\ (a - base) mod UNIT_SIZE = 0 /\
      base <= a /\ a + n <= base + 8 * PAGE_SIZE /\
      (forall a' n', A !! a' = Some n' -> a + n <= a' \/ a' + n' <= a) /\
      heap_inv h' (<[a := n]> A) /\
      (forall x, a <= x < a + size -> ram h' x = 0) /\
      (forall x, x < a \/ a + n <= x -> ram h' x = ram h x)
  | Panic code =>
      (code = 2 /\ size > MAX_FREE_SIZE /\
       forall i, 0 <= i -> i + SIZE2PAGE size <= 8 ->
         ~ forall k, i <= k < i + SIZE2PAGE size -> page_vacant A k) \/
      (code = 5 /\ size <= MAX_FREE_SIZE /\ forall i, 0 <= i < 8 -> ~ page_vacant A i)
  | _ => False
  end.

Lemma malloc_success_ok h h1 A E F Bs o addr real size caller prio :
  heap_ok h1 E F Bs -> alloc_size (sys_meminfo h1) = u32 (total A) -> ram h1 = ram h ->
  o ∈ E -> block_of Bs o addr real -> 0 < size <= real ->
  (forall a n, (exists o, o ∈ E /\ block_of Bs o a n) <-> A !! a = Some n \/ (a = addr /\ n = real)) ->
  A !! addr = None ->
  malloc_result h A size (Done (malloc_success h1 addr real size size caller prio)).
Proof.
  intros Hok Htot Hram Ho Hb Hsz HA Hnew.
  destruct (block_span _ _ _ _ _ _ _ Hok Ho Hb) as (Hoo & Hn & Ha & He & Hal & Hrm).
  assert (Hlast : first_page o + Z.of_nat (length (pages_of o)) <= 8 /\ 0 <= first_page o).
  { destruct o; simpl in *; [|rewrite length_seqZ]; lia. }
  unfold malloc_result, malloc_success. cbn [fst snd]. exists real. unfold page_addr in *.
  change PAGE_SIZE with 2048 in *. change UNIT_SIZE with 16 in *.
  split; [lia|]. split; [exact Hrm|]. split; [exact Hal|]. split; [lia|]. split; [lia|]. split; [|split; [|split]].
  - intros a' n' Ha'. destruct (proj2 (HA a' n') (or_introl Ha')) as (o' & Ho' & Hb').
    destruct (blocks_apart _ _ _ _ _ _ _ _ _ _ Hok Ho Hb Ho' Hb') as [(<- & _)|H]; [congruence|exact H].
  - exists E, F, Bs. split; [apply (heap_ok_ext h1); auto|]. split.
    + intros a' n'. rewrite HA, lookup_insert_Some. split.
      * intros [[<- <-]|[_ H]]; auto.
      * intros [H|[-> ->]]; [|auto]. right. split; [congruence|exact H].
    + cbn [alloc_size sys_meminfo set_info]. rewrite Htot, total_insert by exact Hnew.
      unfold u32. rewrite Zplus_mod_idemp_l. f_equal. lia.
  - intros x Hx. cbn [ram set_info set_ram]. rewrite memset_spec, (u32_small size) by lia.
    rewrite (proj2 (Z.leb_le _ _)), (proj2 (Z.ltb_lt _ _)) by lia. reflexivity.
  - intros x Hx. cbn [ram set_info set_ram]. rewrite memset_spec, (u32_small size) by lia.
    replace ((addr <=? x) && (x <? addr + size)) with false
      by (symmetry; apply andb_false_iff; rewrite Z.leb_gt, Z.ltb_ge; lia).
    rewrite u32_small, store_outside by (try (change (Z.of_nat (length _)) with 8); Z.div_mod_to_equations; lia).
    rewrite Hram. reflexivity.
Qed.

Lemma size2page size : 0 < size < 2 ^ 31 ->
  size <= SIZE2PAGE size * PAGE_SIZE /\ 1 <= SIZE2PAGE size /\ PAGE2SIZE (SIZE2PAGE size) = SIZE2PAGE size * PAGE_SIZE.
Proof.
  intros H. unfold SIZE2PAGE, PAGE2SIZE. change CONFIG_POOL_PAGE_SHIFT with 11.
  rewrite Z.shiftl_mul_pow2, Z.shiftr_div_pow2, u32_small by (change PAGE_SIZE with 2048; lia).
  change PAGE_SIZE with 2048. change (2 ^ 11) with 2048. Z.div_mod_to_equations. lia.
Qed.

Section Malloc.
Context (h : heap) (A : gmap Z Z) (E : list owner) (F : list Z) (Bs : Z -> blocks).
Hypothesis Hok : heap_ok h E F Bs.
Hypothesis HA : lists E Bs A.
Hypothesis Htot : alloc_size (sys_meminfo h) = u32 (total A).
Context (caller prio : Z).

(** An address in a page that was free is the address of no live block. *)
Lemma free_page_addr x a : x ∈ F -> 0 <= x < 8 -> page_addr x <= a < page_addr x + PAGE_SIZE ->
  A !! a = None.
Proof.
  intros HxF Hx Ha. destruct (A !! a) as [n|] eqn:HAa; [|reflexivity]. exfalso.
  apply HA in HAa as (o & Ho & Hb). destruct (block_span _ _ _ _ _ _ _ Hok Ho Hb) as (Hoo & Hn & Hs & _).
  apply (hp_split _ _ _ _ Hok x Hx) in HxF. apply HxF. apply elem_of_owned. exists o. split; [exact Ho|].
  replace x with (first_page o); [apply first_page_in, Hoo|].
  unfold page_addr in *. change PAGE_SIZE with 2048 in *. lia.
Qed.

Lemma malloc_pages_ok size : MAX_FREE_SIZE < size < 2 ^ 31 ->
  malloc_result h A size (malloc_pages base h size size caller prio).
Proof.
  intros Hsz. change MAX_FREE_SIZE with 1920 in Hsz. unfold malloc_pages.
  destruct (size2page size ltac:(lia)) as (Hle & Hn1 & ->). set (n := SIZE2PAGE size) in *.
  rewrite (buddys_tail h E F Bs 26 Hok) by lia. simpl (negb _). cbv iota. unfold pmalloc. fold n.
  destruct (alloc_pages_ok base (pages h) F n base_pos base_fits (hp_pool _ _ _ _ Hok) ltac:(lia))
    as ([page st] & -> & Hr). cbn [or_fault]. cbv zeta.
  destruct Hr as [([= -> ->] & [|Hno])|(i & F' & Hpage & Hi & Hin & Hall & Hp & Hw)]; [lia| |].
  { rewrite Z.eqb_refl. left. split; [reflexivity|]. split; [change MAX_FREE_SIZE with 1920; lia|].
    fold n. intros i Hi Hin Hv. apply (Hno i Hi Hin). intros k Hk.
    apply (vacant_free h E F Bs A); auto. lia. }
  simpl in Hpage, Hp. subst page.
  destruct (Z.eqb_spec (base + i * PAGE_SIZE) NULL) as [Hc|_];
    [unfold NULL in Hc; change PAGE_SIZE with 2048 in *; lia|].
  rewrite (addr_index base i base_pos ltac:(lia) base_fits). cbn [set_pages sys_meminfo].
  rewrite (buddys_tail h E F Bs 26 Hok) by lia. simpl (negb _). cbv iota.
  destruct (buddys_room h E F Bs Hok) as (k & Hk).
  pose proof (hp_len _ _ _ _ Hok) as Hl. rewrite Hk in Hl.
  rewrite Hk, first_unused_app by (apply entry_not_ff, Hok).
  destruct (append_run E i n k Hi ltac:(lia) Hin) as (l & k' & -> & Happ & Hlen). cbn [or_fault].
  rewrite Happ. cbn [or_fault]. rewrite Hl in Hlen. set (o := OPages i n) in *.
  assert (Hoo : owner_ok o) by (simpl; lia).
  set (h1 := set_buddys _ _).
  assert (Hok1 : heap_ok h1 (E ++ [o]) F' Bs).
  { apply (add_owner h h1 E F F' Bs Bs o k'); auto; try apply Hok.
    - intros x Hx. apply elem_of_seqZ in Hx. apply Hall. lia.
    - intros y. unfold o. simpl pages_of. rewrite elem_of_seqZ. destruct Hw as [-> _]. reflexivity.
    - exact I. }
  assert (Hb : block_of Bs o (base + i * PAGE_SIZE) (n * PAGE_SIZE)) by (split; reflexivity).
  apply (malloc_success_ok h h1 A (E ++ [o]) F' Bs o); auto.
  - set_solver.
  - lia.
  - intros a m. setoid_rewrite elem_of_app. setoid_rewrite list_elem_of_singleton. rewrite (HA a m). split.
    + intros (o' & [Ho'| ->] & Hb'); [eauto|]. destruct Hb' as [-> ->]. auto.
    + intros [(o' & Ho' & Hb')|[-> ->]]; eauto.
  - apply (free_page_addr i); [apply Hall; lia|lia|]. unfold page_addr. change PAGE_SIZE with 2048. lia.
Qed.

Lemma fresh_none B u n : blocks_ok B -> 0 < n -> fresh B u n -> B !! u = None.
Proof.
  intros HB Hn Hf. destruct (B !! u) as [k|] eqn:Hu; [|reflexivity].
  pose proof (valid_bounds u k (blocks_valid B HB u k Hu)). destruct (Hf u k Hu); lia.
Qed.

(** The blocks of a buddy page after an allocation. *)
Lemma block_of_insert p B u k a n : B !! u = None ->
  block_of (upd_blocks Bs p (<[u := k]> B)) (OBuddy p) a n <->
  block_of (upd_blocks Bs p B) (OBuddy p) a n \/
    (a = page_addr p + u * UNIT_SIZE /\ n = k * UNIT_SIZE).
Proof.
  intros Hu. cbn [block_of]. rewrite !upd_blocks_eq. split.
  - intros (u' & k' & H & -> & ->). apply lookup_insert_Some in H as [[<- <-]|[_ H]]; [auto|].
    left. exists u', k'. auto.
  - intros [(u' & k' & H & -> & ->)|[-> ->]].
    + exists u', k'. rewrite lookup_insert_ne by congruence. auto.
    + exists u, k. rewrite lookup_insert_eq. auto.
Qed.

Lemma units_real size : 0 < size -> size <= units_of size * UNIT_SIZE.
Proof. intros. unfold units_of. change UNIT_SIZE with 16. Z.div_mod_to_equations. lia. Qed.

Lemma malloc_in_buddy_ok size p self' addr real : OBuddy p ∈ E -> 
  buddy_block (Bs p) size p addr real self' ->
  malloc_result h A size
    (Done (malloc_success (set_self h p self') addr real size size caller prio)).
Proof.
  intros Hp (u & -> & -> & Hu & Hun & Hsz & Hf & Hi & Hno).
  pose proof (hp_owners _ _ _ _ Hok) as HE. rewrite Forall_forall in HE. pose proof (HE _ Hp) as Hp8.
  simpl in Hp8. set (B' := <[u := units_of size]> (Bs p)) in *. set (h1 := set_self h p self').
  set (Bs' := upd_blocks Bs p B').
  assert (Hid : forall o, o ∈ E -> o = OBuddy p \/ p ∉ pages_of o).
  { intros o Ho. destruct (decide (p ∈ pages_of o)) as [Hin|]; [|auto]. left.
    apply (owners_disjoint E o (OBuddy p) p (hp_nodup _ _ _ _ Hok)); auto. set_solver. }
  pose proof (hp_buddy _ _ _ _ Hok) as HB. rewrite Forall_forall in HB.
  destruct (HB _ Hp) as (self & Hs & Hinv & _ & _).
  assert (Hnone : Bs p !! u = None).
  { apply (fresh_none _ u (units_of size)); [apply Hinv| |exact Hf]. pose proof (units_of_range size Hsz). lia. }
  assert (Hok1 : heap_ok h1 E F Bs').
  { destruct Hok as [H1 H2 H3 H4 H5 H6 H7 H8]. split; auto.
    - subst h1. simpl. rewrite length_insert. exact H2.
    - apply Forall_forall. intros o Ho. destruct (Hid o Ho) as [->|Hout].
      + exists self'. subst Bs'. rewrite upd_blocks_eq. subst h1. simpl.
        rewrite list_lookup_insert_eq by lia. split; [reflexivity|]. split; [exact Hi|]. split; [exact Hno|].
        apply insert_non_empty.
      + apply (buddy_ok_other h h1 Bs p B' self'); auto. lia. }
  assert (Hsame : forall o a n, o ∈ E -> block_of Bs' o a n <-> block_of Bs o a n \/
    (o = OBuddy p /\ a = page_addr p + u * UNIT_SIZE /\ n = units_of size * UNIT_SIZE)).
  { intros o a n Ho. destruct (Hid o Ho) as [->|Hout].
    - subst Bs' B'. rewrite block_of_insert by exact Hnone. cbn [block_of]. rewrite upd_blocks_eq. tauto.
    - subst Bs'. rewrite block_of_other by exact Hout. split; [auto|].
      intros [H|(-> & _)]; [exact H|]. exfalso. apply Hout. simpl. set_solver. }
  apply (malloc_success_ok h h1 A E F Bs' (OBuddy p)); auto.
  - apply (Hsame _ _ _ Hp). auto.
  - split; [lia|]. apply units_real. lia.
  - intros a n. rewrite (HA a n). split.
    + intros (o & Ho & Hb). apply (Hsame _ _ _ Ho) in Hb as [Hb|(-> & -> & ->)]; eauto.
    + intros [(o & Ho & Hb)|[-> ->]]; [exists o|exists (OBuddy p)]; split; auto; apply Hsame; auto.
  - destruct (A !! _) as [n|] eqn:HAa; [|reflexivity]. exfalso. apply HA in HAa as (o & Ho & Hb).
    destruct (block_span _ _ _ _ _ _ _ Hok Ho Hb) as (Hoo & _ & Hspan & _).
    assert (first_page o = p) as Hfp.
    { unfold page_addr in *. change PAGE_SIZE with 2048 in *. change UNIT_SIZE with 16 in *.
      change SELF_INDEX with 120 in *. pose proof (units_of_range size Hsz). lia. }
    destruct (Hid o Ho) as [->|Hout].
    + destruct Hb as (u' & k' & Hu' & Ha & _). change UNIT_SIZE with 16 in Ha.
      assert (u' = u) as -> by lia. congruence.
    + apply Hout. rewrite <- Hfp. apply first_page_in, Hoo.
Qed.

(** A fresh buddy page with the block that was asked for. *)
Lemma new_buddy_alloc h2 i size : 0 <= i < 8 -> 0 < size <= MAX_FREE_SIZE ->
  selfs h2 !! Z.to_nat i = Some (rom_new_buddy_no i) ->
  exists addr real self', buddy_alloc base h2 i size = Some (addr, real, set_self h2 i self') /\
    buddy_block ∅ size i addr real self'.
Proof.
  intros Hi Hsz Hs. pose proof (new_buddy_room i size Hi Hsz) as Hroom.
  destruct (buddy_alloc_ok h2 ∅ _ i size Hi Hs (new_inv i) eq_refl) as (addr & real & h' & Ha & Hc).
  destruct Hc as [(-> & _ & _)|(_ & self' & -> & Hb)]; [|eauto]. exfalso. apply Hroom.
  unfold buddy_alloc in Ha. rewrite Hs in Ha. cbn [mbind option_bind] in Ha.
  rewrite (index_addr base base_pos base_fits i Hi) in Ha. fold (page_addr i) in Ha.
  destruct (rom_buddy_alloc (page_addr i) i (rom_new_buddy_no i) size) as [[a r] s].
  injection Ha as -> _ _. reflexivity.
Qed.

Lemma malloc_new_buddy_ok size : 0 < size <= MAX_FREE_SIZE ->
  malloc_result h A size (malloc_new_buddy base h size size caller prio).
Proof.
  intros Hsz. unfold malloc_new_buddy, pmalloc.
  rewrite (buddys_tail h E F Bs 27 Hok) by lia. simpl (negb _). cbv iota.
  change (SIZE2PAGE PAGE_SIZE) with 1.
  destruct (alloc_pages_ok base (pages h) F 1 base_pos base_fits (hp_pool _ _ _ _ Hok) ltac:(lia))
    as ([page st] & -> & Hr). cbn [or_fault]. cbv zeta.
  destruct Hr as [([= -> ->] & [|Hno])|(i & F' & Hpage & Hi & Hin & Hall & Hp & Hw)]; [lia| |].
  { rewrite Z.eqb_refl. right. split; [reflexivity|]. split; [lia|]. intros i Hi Hv.
    apply (Hno i); [lia|lia|]. intros k Hk. replace k with i by lia.
    apply (vacant_free h E F Bs A); auto. }
  simpl in Hpage, Hp. subst page.
  destruct (Z.eqb_spec (base + i * PAGE_SIZE) NULL) as [Hc|_];
    [unfold NULL in Hc; change PAGE_SIZE with 2048 in *; lia|].
  rewrite (addr_index base i base_pos ltac:(lia) base_fits).
  set (h2 := set_self (set_pages h st) i (rom_new_buddy_no i)).
  assert (Hs8 : length (selfs h2) = 8%nat) by (subst h2; simpl; rewrite length_insert; apply Hok).
  assert (Hs2 : selfs h2 !! Z.to_nat i = Some (rom_new_buddy_no i)).
  { apply list_lookup_insert_eq. rewrite (hp_selfs _ _ _ _ Hok : length (selfs (set_pages h st)) = _). lia. }
  destruct (new_buddy_alloc h2 i size ltac:(lia) Hsz Hs2) as (addr & real & self' & -> & Hb).
  cbn [or_fault]. cbv zeta. change (sys_meminfo (set_self h2 i self')) with (sys_meminfo h).
  rewrite (buddys_tail h E F Bs 27 Hok) by lia. simpl (negb _). cbv iota.
  destruct (buddys_room h E F Bs Hok) as (k & Hk). pose proof (hp_len _ _ _ _ Hok) as Hl. rewrite Hk in Hl.
  rewrite Hk, first_unused_app by (apply entry_not_ff, Hok).
  change (20 + k)%nat with (S (19 + k)) in *. rewrite set_entry_append. cbn [or_fault].
  destruct (entry_facts i ltac:(lia)) as (_ & _ & -> & _). set (h3 := set_buddys _ _).
  destruct Hb as (u & Haddr & Hreal & Hu & Hun & _ & Hf & Hinv & Hno').
  set (B' := <[u := units_of size]> ∅) in *. set (Bs' := upd_blocks Bs i B').
  assert (HiF : i ∈ F) by (apply Hall; lia).
  assert (Hout : forall o, o ∈ E -> i ∉ pages_of o).
  { intros o Ho Hin'. apply (hp_split _ _ _ _ Hok i) in HiF; [|lia]. apply HiF, elem_of_owned. eauto. }
  assert (Hok3 : heap_ok h3 (E ++ [OBuddy i]) F' Bs').
  { apply (add_owner h h3 E F F' Bs Bs' (OBuddy i) (19 + k)); auto.
    - simpl. lia.
    - intros x Hx. apply list_elem_of_singleton in Hx. subst x. exact HiF.
    - intros y. simpl. rewrite list_elem_of_singleton. destruct Hw as [-> _].
      split; intros [H1 H2]; (split; [exact H1|]); intros H3; apply H2; lia.
    - subst h3. simpl. rewrite length_insert. exact Hs8.
    - subst h3. cbn [set_buddys set_info sys_meminfo buddys]. rewrite encs_app. reflexivity.
    - subst h3. cbn [set_buddys set_info sys_meminfo buddys].
      rewrite <- Hl, !length_app, !length_replicate. cbn [length]. lia.
    - apply Forall_forall. intros o Ho.
      pose proof (hp_buddy _ _ _ _ Hok) as HB. pose proof (hp_owners _ _ _ _ Hok) as HE.
      rewrite Forall_forall in HB, HE.
      apply (buddy_ok_other h h3 Bs i B' self'); auto. subst h3 h2. simpl. apply list_insert_insert_eq.
    - exists self'. subst Bs'. rewrite upd_blocks_eq.
      assert (Hs3 : selfs h3 !! Z.to_nat i = Some self') by (apply list_lookup_insert_eq; lia).
      split; [exact Hs3|]. split; [exact Hinv|]. split; [exact Hno'|].
      apply insert_non_empty. }
  assert (Hnew : forall a n, block_of Bs' (OBuddy i) a n <-> a = addr /\ n = real).
  { intros a n. subst Bs' B'. rewrite block_of_insert by apply lookup_empty. rewrite <- Haddr, <- Hreal.
    split; [|auto]. intros [(u' & k' & H & _)|H]; [|exact H].
    rewrite upd_blocks_eq, lookup_empty in H. discriminate. }
  apply (malloc_success_ok h h3 A (E ++ [OBuddy i]) F' Bs' (OBuddy i)); auto.
  - set_solver.
  - apply Hnew. auto.
  - split; [lia|]. rewrite Hreal. apply units_real. lia.
  - intros a n. setoid_rewrite elem_of_app. setoid_rewrite list_elem_of_singleton. rewrite (HA a n). split.
    + intros (o & [Ho| ->] & Hb'); [|right; apply Hnew, Hb']. left. exists o. split; [exact Ho|].
      apply (block_of_other Bs i B'); auto.
    + intros [(o & Ho & Hb')|Hb']; [exists o|exists (OBuddy i)]; (split; [auto|]); [|apply Hnew, Hb'].
      apply (block_of_other Bs i B'); auto.
  - apply (free_page_addr i); auto; [lia|]. rewrite Haddr.
    change PAGE_SIZE with 2048. change UNIT_SIZE with 16. change SELF_INDEX with 120 in Hun.
    pose proof (units_of_range size Hsz). lia.
Qed.

Lemma mem_page_malloc_step size : 0 < size < 2 ^ 31 ->
  malloc_result h A size (mem_page_malloc base h size caller prio).
Proof.
  intros Hsz. unfold mem_page_malloc, mem_buddy_malloc. rewrite s32_small by lia.
  destruct (Z.eqb_spec size 0); [lia|]. unfold get_buddy_max. rewrite Z.gtb_ltb.
  destruct (Z.ltb_spec MAX_FREE_SIZE size); [apply malloc_pages_ok; lia|].
  destruct (hp_list _ _ _ _ Hok) as (k & ->).
  destruct (try_buddys_ok h Bs size E k (hp_selfs _ _ _ _ Hok) (hp_owners _ _ _ _ Hok) (hp_buddy _ _ _ _ Hok))
    as ([[[addr real] h']|] & -> & Hr); cbn [or_fault].
  - destruct Hr as (p & self' & Hp & -> & Hb). apply (malloc_in_buddy_ok size p); auto.
  - apply malloc_new_buddy_ok. lia.
Qed.

End Malloc.

(** *** Release *)

(** Moving the tail [l3] over the removed entries [l2]. *)
Lemma shift_entries_ok l3 : forall l1 l2, (1 <= length l2)%nat ->
  exists l2', length l2' = length l2 /\
    shift_entries (length l3) (l1 ++ l2 ++ l3) (length l1) (length l2) = l1 ++ l3 ++ l2'.
Proof.
  induction l3 as [|y l3 IH]; intros l1 l2 Hl2; cbn [length shift_entries].
  - exists l2. rewrite !app_nil_r. auto.
  - destruct l2 as [|x t]; [simpl in Hl2; lia|].
    destruct (IH (l1 ++ [y]) (t ++ [y])) as (l2' & Hlen & Heq); [rewrite length_app; simpl; lia|].
    exists l2'. rewrite length_app in Hlen. split; [simpl in *; lia|].
    replace ((l1 ++ (x :: t) ++ y :: l3) !!! (length l1 + length (x :: t))%nat) with y.
    2: { rewrite lookup_total_app_r, lookup_total_app_r by lia.
         replace (_ - _ - _)%nat with 0%nat by lia. reflexivity. }
    rewrite <- (Nat.add_0_r (length l1)) at 1. rewrite insert_app_r. cbn [app insert list_insert].
    rewrite !length_app in Heq. cbn [length] in Heq. rewrite !Nat.add_1_r, <- !app_assoc in Heq.
    exact Heq.
Qed.

Lemma clear_entries_ok l t : forall s,
  clear_entries (l ++ t ++ s) (length l) (length t) = Some (l ++ replicate (length t) 0xff ++ s).
Proof.
  induction t as [|x t IH] using rev_ind; intros s; [reflexivity|].
  rewrite length_app, Nat.add_1_r. cbn [clear_entries length]. unfold set_entry.
  rewrite decide_True by (rewrite !length_app; simpl; lia).
  rewrite insert_app_r, <- app_assoc. rewrite <- (Nat.add_0_r (length t)) at 1. rewrite insert_app_r.
  cbn [app insert list_insert]. rewrite IH. rewrite replicate_S_end, <- app_assoc. reflexivity.
Qed.

Lemma del_buddy_ok l1 l2 l3 : (1 <= length l2)%nat -> length (l1 ++ l2 ++ l3) = 28%nat ->
  del_buddy (l1 ++ l2 ++ l3) (length l1) (length l2) = Some (l1 ++ l3 ++ replicate (length l2) 0xff).
Proof.
  intros Hl2 Hlen. unfold del_buddy. change (Z.to_nat BUDDYS_SIZE) with 28%nat.
  rewrite !length_app in Hlen. replace (28 - length l2 - length l1)%nat with (length l3) by lia.
  destruct (shift_entries_ok l3 l1 l2 Hl2) as (l2' & Hl & ->).
  rewrite <- Hl, <- length_app, app_assoc.
  rewrite <- (app_nil_r l2') at 1. rewrite clear_entries_ok, app_nil_r, <- app_assoc. reflexivity.
Qed.

(** What follows an owner's entries never looks like a page count. *)
Definition no_count (l : list Z) : Prop := forall c l', l = c :: l' -> is_count c = false.

Lemma encs_no_count E k : Forall owner_ok E -> no_count (encs E ++ replicate k 0xff).
Proof.
  intros HE c l. destruct HE as [|[q|q m] E Hq _]; [destruct k; [discriminate|intros [= <- _]; reflexivity]| |].
  - intros [= <- _]. apply entry_facts. exact Hq.
  - simpl in Hq. destruct (entry_facts q ltac:(lia)) as (_ & _ & _ & Hl & _ & _ & _ & _ & Hc).
    unfold encs. simpl. rewrite Hl. destruct (m =? 1); intros [= <- _]; exact Hc.
Qed.

Lemma find_owner_hit o rest : owner_ok o -> no_count rest ->
  find_owner (enc o ++ rest) (first_page o) = match o with OBuddy _ => 0 | OPages _ n => n end.
Proof.
  intros Ho Hnext. destruct o as [p|p n]; simpl in Ho |- *.
  - destruct (entry_facts p Ho) as (-> & _). rewrite !Z.eqb_refl.
    destruct (Z.eqb_spec p 255); [lia|reflexivity].
  - destruct (entry_facts p ltac:(lia)) as (_ & _ & _ & -> & _ & Hb & Hp & _).
    destruct (count_facts n ltac:(lia)) as (-> & _ & _ & Hn & Hc).
    destruct (Z.eqb_spec n 1) as [->|]; simpl; rewrite Hb, Hp, Z.eqb_refl;
      (destruct (Z.eqb_spec (p + 128) 255); [lia|]); simpl.
    + destruct rest as [|c l]; [reflexivity|]. rewrite (Hnext c l eq_refl). reflexivity.
    + rewrite Hc, Hn. reflexivity.
Qed.

Lemma find_owner_skip o p rest : owner_ok o -> no_count rest -> first_page o <> p ->
  find_owner (enc o ++ rest) p = find_owner rest p.
Proof.
  intros Ho Hnext Hne. destruct o as [q|q n]; simpl in Ho, Hne |- *.
  - destruct (entry_facts q Ho) as (-> & _). simpl.
    destruct (Z.eqb_spec q 255), (Z.eqb_spec q p); [lia..|reflexivity].
  - destruct (entry_facts q ltac:(lia)) as (_ & _ & _ & -> & _ & Hb & Hp & _).
    destruct (count_facts n ltac:(lia)) as (-> & _ & _ & Hn & Hc).
    destruct (Z.eqb_spec n 1) as [->|]; simpl; rewrite Hb, Hp;
      (destruct (Z.eqb_spec (q + 128) 255), (Z.eqb_spec q p); [lia..|]); simpl.
    + destruct rest as [|c l]; [reflexivity|]. rewrite (Hnext c l eq_refl). reflexivity.
    + rewrite Hc. reflexivity.
Qed.

Lemma encs_cons o E : encs (o :: E) = enc o ++ encs E.
Proof. reflexivity. Qed.

Lemma find_owner_ok E1 o E2 k : Forall owner_ok (E1 ++ o :: E2) ->
  (forall o', o' ∈ E1 -> first_page o' <> first_page o) ->
  find_owner (encs (E1 ++ o :: E2) ++ replicate k 0xff) (first_page o) =
    match o with OBuddy _ => 0 | OPages _ n => n end.
Proof.
  induction E1 as [|o' E1 IH]; intros Hok Hne; cbn [app] in *; apply Forall_cons in Hok as [Ho Hok];
    rewrite encs_cons, <- app_assoc.
  - apply find_owner_hit; auto using encs_no_count.
  - rewrite find_owner_skip; auto using encs_no_count; [|apply Hne; left].
    apply IH; [exact Hok|]. intros x Hx. apply Hne. right. exact Hx.
Qed.

(** The first entry of an owner. *)
Definition tag (o : owner) : Z := match o with OBuddy p => p | OPages p _ => p + 128 end.

Lemma enc_tag o : owner_ok o -> exists l, enc o = tag o :: l.
Proof.
  destruct o as [p|p n]; simpl; intros Ho; [eauto|].
  destruct (entry_facts p ltac:(lia)) as (_ & _ & _ & -> & _). destruct (n =? 1); eauto.
Qed.

Lemma tag_not_in o o' : owner_ok o -> owner_ok o' -> first_page o' <> first_page o -> tag o ∉ enc o'.
Proof.
  intros Ho Ho' Hne Hin. destruct o' as [p'|p' n']; simpl in *.
  - apply list_elem_of_singleton in Hin. destruct o; simpl in *; lia.
  - destruct (entry_facts p' ltac:(lia)) as (_ & _ & _ & He & _).
    destruct (count_facts n' ltac:(lia)) as (Hc & _). rewrite He, Hc in Hin.
    rewrite list_elem_of_In in Hin. destruct (n' =? 1), o; simpl in *; lia.
Qed.

Lemma index_of_app l v r : v ∉ l -> index_of (l ++ v :: r) v = length l.
Proof.
  induction l as [|b l IH]; intros Hv; simpl; [rewrite Z.eqb_refl; reflexivity|].
  rewrite not_elem_of_cons in Hv. destruct (Z.eqb_spec b v); [lia|]. rewrite IH; tauto.
Qed.

(** Finding and deleting the entries of the owner [o]. *)
Lemma del_owner E1 o E2 k : Forall owner_ok (E1 ++ o :: E2) ->
  (forall o', o' ∈ E1 -> first_page o' <> first_page o) ->
  let l := encs (E1 ++ o :: E2) ++ replicate k 0xff in
  length l = 28%nat ->
  exists k', del_buddy l (index_of l (tag o)) (length (enc o)) =
    Some (encs (E1 ++ E2) ++ replicate k' 0xff) /\
    length (encs (E1 ++ E2) ++ replicate k' 0xff) = 28%nat.
Proof.
  intros Hok Hne l Hlen. apply Forall_app in Hok as [H1 [Ho H2]%Forall_cons].
  destruct (enc_tag o Ho) as (t & Ht).
  assert (Hl : l = encs E1 ++ enc o ++ (encs E2 ++ replicate k 0xff)).
  { subst l. rewrite encs_app, encs_cons, <- !app_assoc. reflexivity. }
  assert (Hi : index_of l (tag o) = length (encs E1)).
  { rewrite Hl, Ht. cbn [app]. apply index_of_app. unfold encs. rewrite list_elem_of_In, in_concat.
    intros (x & Hx & Hin). apply in_map_iff in Hx as (o' & <- & Ho').
    apply list_elem_of_In in Ho', Hin. rewrite Forall_forall in H1.
    exact (tag_not_in o o' Ho (H1 o' Ho') (Hne o' Ho') Hin). }
  rewrite Hi, Hl. rewrite del_buddy_ok; [|rewrite Ht; simpl; lia|rewrite <- Hl; exact Hlen].
  exists (k + length (enc o))%nat. rewrite replicate_add, encs_app, <- !app_assoc.
  split; [reflexivity|]. rewrite Hl in Hlen. rewrite !length_app, !length_replicate in *. lia.
Qed.

Lemma remove_owner h h' E1 o E2 F F' Bs Bs' k :
  heap_ok h (E1 ++ o :: E2) F Bs -> pool_ok (pages h') F' ->
  (forall y, y ∈ F' <-> y ∈ F \/ y ∈ pages_of o) ->
  length (selfs h') = 8%nat -> buddys (sys_meminfo h') = encs (E1 ++ E2) ++ replicate k 0xff ->
  length (buddys (sys_meminfo h')) = 28%nat ->
  (forall o', o' ∈ E1 ++ E2 -> buddy_ok h' Bs' o') ->
  heap_ok h' (E1 ++ E2) F' Bs'.
Proof.
  intros Hok Hp HF' Hs Hl Hlen HE.
  pose proof (hp_owners _ _ _ _ Hok) as Hoo. rewrite Forall_app, Forall_cons in Hoo.
  pose proof (hp_nodup _ _ _ _ Hok) as Hnd. rewrite owned_app in Hnd.
  change (owned (o :: E2)) with (pages_of o ++ owned E2) in Hnd. rewrite !NoDup_app in Hnd.
  destruct Hnd as (H1 & H2 & H3 & H4 & H5).
  split; auto.
  - rewrite Forall_app. tauto.
  - rewrite owned_app, NoDup_app. split; [exact H1|]. split; [|exact H5].
    intros x Hx Hx'. apply (H2 x Hx). apply elem_of_app. auto.
  - intros x Hx. rewrite HF', (hp_split _ _ _ _ Hok x Hx), !owned_app.
    change (owned (o :: E2)) with (pages_of o ++ owned E2). rewrite !not_elem_of_app.
    destruct (decide (x ∈ pages_of o)) as [Hin|Hin]; [|tauto]. split; [|tauto]. intros _. split.
    + intros Hx1. apply (H2 x Hx1). apply elem_of_app. auto.
    + apply H4, Hin.
  - eauto.
  - apply Forall_forall. exact HE.
Qed.

Lemma idle_iff self B : inv self B -> rom_is_buddy_idled self = true <-> B = ∅.
Proof.
  intros [HB _ _ Hfr]. unfold rom_is_buddy_idled. rewrite Z.eqb_eq, Hfr. split.
  - intros H. apply (total_zero B HB). lia.
  - intros ->. reflexivity.
Qed.

Section Free.
Context (h : heap) (A : gmap Z Z) (E1 E2 : list owner) (o : owner) (F : list Z) (Bs : Z -> blocks).
Hypothesis Hok : heap_ok h (E1 ++ o :: E2) F Bs.
Hypothesis HA : lists (E1 ++ o :: E2) Bs A.
Hypothesis Htot : alloc_size (sys_meminfo h) = u32 (total A).
Context (a n : Z).
Hypothesis Hb : block_of Bs o a n.

Lemma Ho_in : o ∈ E1 ++ o :: E2.
Proof. set_solver. Qed.

Lemma Ho_ok : owner_ok o.
Proof. exact (proj1 (block_span _ _ _ _ _ _ _ Hok Ho_in Hb)). Qed.

Lemma block_live : A !! a = Some n.
Proof. apply HA. exists o. split; [apply Ho_in|exact Hb]. Qed.

(** The other owners have none of the pages of [o]. *)
Lemma others o' x : o' ∈ E1 ++ E2 -> x ∈ pages_of o -> x ∉ pages_of o'.
Proof.
  intros Ho' Hx Hx'. pose proof (hp_nodup _ _ _ _ Hok) as Hnd. rewrite owned_app in Hnd.
  change (owned (o :: E2)) with (pages_of o ++ owned E2) in Hnd. rewrite !NoDup_app in Hnd.
  destruct Hnd as (_ & H2 & _ & H4 & _). apply elem_of_app in Ho' as [Ho'|Ho'].
  - apply (H2 x); [apply elem_of_owned; eauto|apply elem_of_app; auto].
  - apply (H4 x Hx). apply elem_of_owned. eauto.
Qed.

Lemma others_first o' : o' ∈ E1 -> first_page o' <> first_page o.
Proof.
  intros Ho' Heq. apply (others o' (first_page o)); [apply elem_of_app; auto|apply first_page_in, Ho_ok|].
  rewrite <- Heq. apply first_page_in. pose proof (hp_owners _ _ _ _ Hok) as HE.
  rewrite Forall_app in HE. destruct HE as [HE _]. rewrite Forall_forall in HE. auto.
Qed.

Lemma addr_owner : pagepool_convert_addr_to_pageindex base a = first_page o.
Proof.
  destruct (block_span _ _ _ _ _ _ _ Hok Ho_in Hb) as (Hoo & Hn & Ha & He & _).
  pose proof (pages_of_range o _ Hoo (first_page_in o Hoo)).
  unfold pagepool_convert_addr_to_pageindex. unfold page_addr in Ha. change PAGE_SIZE with 2048 in *.
  rewrite u32_small by lia. replace ((a - base) / 2048) with (first_page o) by (Z.div_mod_to_equations; lia).
  apply u8_small. lia.
Qed.

(** The pages of [o] go back to the pool. *)
Lemma free_pages_step h1 reports : pages h1 = pages h ->
  exists st F', free_pages base h1 (first_page o) (Z.of_nat (length (pages_of o))) reports =
      Done (reports, set_pages h1 st) /\ pool_ok st F' /\
    forall y, y ∈ F' <-> y ∈ F \/ y ∈ pages_of o.
Proof.
  intros Hp. pose proof Ho_ok as Hoo. pose proof (pages_of_range o _ Hoo (first_page_in o Hoo)) as Hf.
  assert (Hlen : 1 <= Z.of_nat (length (pages_of o)) /\ first_page o + Z.of_nat (length (pages_of o)) <= 8).
  { destruct o; simpl in *; [|rewrite length_seqZ]; lia. }
  unfold free_pages, pfree. rewrite Z.gtb_ltb, (proj2 (Z.ltb_lt _ _)) by lia. cbv zeta.
  rewrite (index_addr base base_pos base_fits _ Hf), Hp.
  destruct (free_pages_ok base (pages h) F (first_page o) (Z.of_nat (length (pages_of o))) base_pos base_fits
    (hp_pool _ _ _ _ Hok)) as (r & st & -> & [(_ & _ & k & Hk & HkF)|(-> & _ & F' & Hst & HF' & _)]); try lia.
  - exfalso. apply (hp_split _ _ _ _ Hok k) in HkF; [|lia]. apply HkF. apply elem_of_owned. exists o.
    split; [apply Ho_in|]. apply owner_pages; assumption.
  - exists st, F'. cbn [or_fault]. simpl (0 <? 0). cbv iota. rewrite app_nil_r. split; [reflexivity|].
    split; [exact Hst|]. intros y. rewrite HF', (owner_pages o y Hoo). reflexivity.
Qed.

(** The counters after a release. *)
Lemma account_alloc h1 : alloc_size (sys_meminfo h1) = alloc_size (sys_meminfo h) ->
  alloc_size (sys_meminfo (account_free h1 a n)) = u32 (total (delete a A)).
Proof.
  intros H1. unfold account_free, check_mem_debug, sub_alloc. cbn [sys_meminfo set_info alloc_size].
  rewrite H1, Htot, (total_delete A a n block_live). unfold u32. rewrite Zminus_mod_idemp_l. f_equal. lia.
Qed.

(** Deleting the block leaves the blocks of the other owners. *)
Lemma lists_delete E' Bs' :
  (forall a' n', (exists o', o' ∈ E' /\ block_of Bs' o' a' n') <->
     (exists o', o' ∈ E1 ++ o :: E2 /\ block_of Bs o' a' n') /\ a' <> a) ->
  lists E' Bs' (delete a A).
Proof.
  intros H a' n'. rewrite H, lookup_delete_Some, (HA a' n'). split; intros [? ?]; split; auto.
Qed.

(** Blocks of the other owners, when page [p] of [o] may have changed. *)
Lemma blocks_without p B : p ∈ pages_of o -> (forall a' n', block_of Bs o a' n' -> a' = a) ->
  forall a' n', (exists o', o' ∈ E1 ++ E2 /\ block_of (upd_blocks Bs p B) o' a' n') <->
     (exists o', o' ∈ E1 ++ o :: E2 /\ block_of Bs o' a' n') /\ a' <> a.
Proof.
  intros Hp Hone a' n'. split.
  - intros (o' & Ho' & Hb'). rewrite block_of_other in Hb' by (apply (others o' p Ho' Hp)).
    assert (Hin : o' ∈ E1 ++ o :: E2) by set_solver. split; [eauto|]. intros ->.
    destruct (blocks_apart _ _ _ _ _ _ _ _ _ _ Hok Ho_in Hb Hin Hb') as [(_ & _ & <-)|H].
    + exact (others o p Ho' Hp Hp).
    + destruct (block_span _ _ _ _ _ _ _ Hok Ho_in Hb) as (_ & Hn & _).
      destruct (block_span _ _ _ _ _ _ _ Hok Hin Hb') as (_ & Hn' & _). lia.
  - intros [(o' & Ho' & Hb') Hne]. assert (o' ∈ E1 ++ E2) as Ho2.
    { rewrite elem_of_app, elem_of_cons in Ho'. rewrite elem_of_app.
      destruct Ho' as [?|[->|?]]; auto. exfalso. eauto. }
    exists o'. split; [exact Ho2|]. apply block_of_other; [|exact Hb']. apply (others o' p Ho2 Hp).
Qed.

(** The blocks after one block of a buddy page is gone. *)
Lemma blocks_minus p u k : o = OBuddy p -> Bs p !! u = Some k -> a = page_addr p + u * UNIT_SIZE ->
  forall a' n', (exists o', o' ∈ E1 ++ o :: E2 /\ block_of (upd_blocks Bs p (delete u (Bs p))) o' a' n') <->
     (exists o', o' ∈ E1 ++ o :: E2 /\ block_of Bs o' a' n') /\ a' <> a.
Proof.
  intros Heq Hu Ha a' n'.
  assert (Hkeep : forall o', o' ∈ E1 ++ o :: E2 ->
    block_of (upd_blocks Bs p (delete u (Bs p))) o' a' n' <-> block_of Bs o' a' n' /\ a' <> a).
  { intros o' Ho'. assert (Hcase : o' = o \/ o' ∈ E1 ++ E2).
    { rewrite elem_of_app, elem_of_cons in Ho'. rewrite elem_of_app. tauto. }
    destruct Hcase as [->|Ho2].
    - rewrite Heq, Ha. cbn [block_of]. rewrite upd_blocks_eq. change UNIT_SIZE with 16. split.
      + intros (u' & k' & H & -> & ->). apply lookup_delete_Some in H as [Hne H].
        split; [exists u', k'; auto|lia].
      + intros [(u' & k' & H & -> & ->) Hne]. exists u', k'. split; [|auto].
        apply lookup_delete_Some. split; [intros ->; lia|exact H].
    - assert (Hpin : p ∈ pages_of o) by (rewrite Heq; simpl; set_solver).
      rewrite block_of_other by (apply (others o' p Ho2 Hpin)). split; [|tauto].
      intros Hb'. split; [exact Hb'|]. intros ->.
      destruct (blocks_apart _ _ _ _ _ _ _ _ _ _ Hok Ho_in Hb Ho' Hb') as [(_ & _ & <-)|H].
      + exact (others o p Ho2 Hpin Hpin).
      + destruct (block_span _ _ _ _ _ _ _ Hok Ho_in Hb) as (_ & Hn & _).
        destruct (block_span _ _ _ _ _ _ _ Hok Ho' Hb') as (_ & Hn' & _). lia. }
  split.
  - intros (o' & Ho' & Hb'). apply (Hkeep o' Ho') in Hb' as [Hb' Hne]. eauto.
  - intros [(o' & Ho' & Hb') Hne]. exists o'. split; [exact Ho'|]. apply Hkeep; auto.
Qed.

(** What freeing the block may do. *)
Definition free_done (r : outcome (list Z * heap)) : Prop :=
  exists reports h', r = Done (reports, h') /\ heap_inv h' (delete a A) /\ ram h' = ram h /\
    (base mod PAGE_SIZE = 0 -> reports = []).

(** The owner [o] goes away with its only block. *)
Lemma release_owner h1 Bs' reports :
  pages h1 = pages h -> ram h1 = ram h -> length (selfs h1) = 8%nat ->
  alloc_size (sys_meminfo h1) = u32 (total (delete a A)) ->
  (exists k, buddys (sys_meminfo h1) = encs (E1 ++ E2) ++ replicate k 0xff) ->
  length (buddys (sys_meminfo h1)) = 28%nat ->
  (forall o', o' ∈ E1 ++ E2 -> buddy_ok h1 Bs' o') ->
  (forall a' n', (exists o', o' ∈ E1 ++ E2 /\ block_of Bs' o' a' n') <->
     (exists o', o' ∈ E1 ++ o :: E2 /\ block_of Bs o' a' n') /\ a' <> a) ->
  (base mod PAGE_SIZE = 0 -> reports = []) ->
  free_done (free_pages base h1 (first_page o) (Z.of_nat (length (pages_of o))) reports).
Proof.
  intros Hp Hram Hs Hal (k & Hl) Hlen HB Hblk Hrep.
  destruct (free_pages_step h1 reports Hp) as (st & F' & -> & Hst & HF').
  exists reports, (set_pages h1 st). split; [reflexivity|]. split; [|split; [exact Hram|exact Hrep]].
  exists (E1 ++ E2), F', Bs'. split; [|split; [apply lists_delete; exact Hblk|exact Hal]].
  apply (remove_owner h _ E1 o E2 F F' Bs Bs' k); auto.
Qed.

End Free.

Lemma free_run_ok h A E1 E2 p c F Bs a n :
  heap_ok h (E1 ++ OPages p c :: E2) F Bs -> lists (E1 ++ OPages p c :: E2) Bs A ->
  alloc_size (sys_meminfo h) = u32 (total A) -> block_of Bs (OPages p c) a n ->
  free_done h A a (free_run base h a p c []).
Proof.
  intros Hok HA Htot Hb. pose proof (Ho_ok h A E1 E2 _ F Bs Hok HA Htot a n Hb) as Hoo. simpl in Hoo. pose proof Hb as [Ha Hn].
  destruct (hp_list _ _ _ _ Hok) as (k & Hk). pose proof (hp_len _ _ _ _ Hok) as Hlen. rewrite Hk in Hlen.
  destruct (del_owner E1 (OPages p c) E2 k (hp_owners _ _ _ _ Hok) (others_first h A E1 E2 _ F Bs Hok HA Htot a n Hb) Hlen) as (k' & Hdel & Hlen').
  unfold free_run. rewrite Hk. destruct (entry_facts p ltac:(lia)) as (_ & _ & _ & -> & _).
  change (p + 128) with (tag (OPages p c)).
  replace (if c >? 1 then 2%nat else 1%nat) with (length (enc (OPages p c)))
    by (simpl; rewrite Z.gtb_ltb; destruct (Z.eqb_spec c 1), (Z.ltb_spec 1 c); simpl; lia).
  rewrite Hdel. cbn [or_fault app]. replace (PAGE_SIZE * c) with n by lia.
  set (h1 := account_free _ a n).
  pose proof (release_owner h A E1 E2 _ F Bs Hok HA Htot a n Hb h1 Bs) as Hrel. simpl pages_of in Hrel. rewrite length_seqZ, Z2Nat.id in Hrel by lia.
  apply Hrel; auto; try apply Hok.
  - apply (account_alloc h A E1 E2 _ F Bs Hok HA Htot a n Hb). reflexivity.
  - exists k'. reflexivity.
  - intros o' Ho'. pose proof (hp_buddy _ _ _ _ Hok) as HB. rewrite Forall_forall in HB.
    apply (HB o'). set_solver.
  - assert (Hpin : p ∈ pages_of (OPages p c)) by (apply elem_of_seqZ; lia).
    intros a' n'. pose proof (blocks_without h A E1 E2 _ F Bs Hok HA Htot a n Hb p (Bs p) Hpin (fun a' n' H => eq_trans (proj1 H) (eq_sym Ha)) a' n') as H.
    rewrite <- H. split; intros (o' & Ho' & Hb'); exists o'; (split; [exact Ho'|]);
      apply (block_of_other Bs p (Bs p) o'); auto; exact (others h E1 E2 _ F Bs Hok o' p Ho' Hpin).
  - intros Hal. rewrite Ha. unfold page_addr.
    replace (Z.land _ _) with ((base + p * PAGE_SIZE) mod 2 ^ 11)
      by (rewrite <- Z.land_ones by lia; reflexivity).
    change PAGE_SIZE with 2048 in *. change (2 ^ 11) with 2048. rewrite Z.mod_add, Hal by lia. reflexivity.
Qed.

Lemma free_in_buddy_ok h A E1 E2 p F Bs a n :
  heap_ok h (E1 ++ OBuddy p :: E2) F Bs -> lists (E1 ++ OBuddy p :: E2) Bs A ->
  alloc_size (sys_meminfo h) = u32 (total A) -> block_of Bs (OBuddy p) a n ->
  free_done h A a (free_in_buddy base h a p []).
Proof.
  intros Hok HA Htot Hb. pose proof (Ho_ok h A E1 E2 _ F Bs Hok HA Htot a n Hb) as Hoo. simpl in Hoo.
  pose proof Hb as (u & k & Hu & Ha & Hn).
  pose proof (hp_buddy _ _ _ _ Hok) as HB. rewrite Forall_forall in HB.
  destruct (HB _ (Ho_in h A E1 E2 _ F Bs Hok HA Htot a n Hb)) as (self & Hs & Hinv & Hno & _).
  unfold free_in_buddy. rewrite Hs. cbn [or_fault].
  rewrite (index_addr base base_pos base_fits p Hoo). fold (page_addr p).
  destruct (free_step (base + p * PAGE_SIZE) p
    self (Bs p) (ram h) u k false Hinv Hno Hu) as (self' & Hfree & Hi & Hno').
  cbv zeta in Hfree. fold (page_addr p) in Hfree. rewrite <- Ha, <- Hn in Hfree. rewrite Hfree.
  pose proof (block_span _ _ _ _ _ _ _ Hok (Ho_in h A E1 E2 _ F Bs Hok HA Htot a n Hb) Hb) as (_ & Hnpos & _).
  rewrite (proj2 (Z.leb_gt _ _)) by lia. cbn [app].
  assert (Hs' : selfs (set_self h p self') !! Z.to_nat p = Some self').
  { apply list_lookup_insert_eq. rewrite (hp_selfs _ _ _ _ Hok). lia. }
  assert (Hlen8 : length (selfs (set_self h p self')) = 8%nat).
  { cbn [selfs set_self]. rewrite length_insert. apply Hok. }
  assert (Hothers : forall h1 o', selfs h1 = selfs (set_self h p self') -> o' ∈ E1 ++ E2 ->
    buddy_ok h1 (upd_blocks Bs p (delete u (Bs p))) o').
  { intros h1 o' Hh1 Ho'. pose proof (hp_owners _ _ _ _ Hok) as HE. rewrite Forall_forall in HE.
    apply (buddy_ok_other h h1 Bs p _ self'); auto; [lia|apply HE; set_solver| |apply HB; set_solver].
    apply (others h E1 E2 _ F Bs Hok o' p Ho'). simpl. set_solver. }
  destruct (rom_is_buddy_idled self') eqn:Hidle.
  - apply (idle_iff self' _ Hi) in Hidle.
    destruct (hp_list _ _ _ _ Hok) as (m & Hm). pose proof (hp_len _ _ _ _ Hok) as Hlen. rewrite Hm in Hlen.
    destruct (del_owner E1 (OBuddy p) E2 m (hp_owners _ _ _ _ Hok) (others_first h A E1 E2 _ F Bs Hok HA Htot a n Hb) Hlen) as (m' & Hdel & Hlen').
    change (sys_meminfo (set_self h p self')) with (sys_meminfo h). rewrite Hm.
    change (del_buddy _ _ _) with (del_buddy (encs (E1 ++ OBuddy p :: E2) ++ replicate m 255)
      (index_of (encs (E1 ++ OBuddy p :: E2) ++ replicate m 255) (tag (OBuddy p))) (length (enc (OBuddy p)))).
    rewrite Hdel. cbn [or_fault].
    set (h1 := account_free _ a n).
    apply (release_owner h A E1 E2 _ F Bs Hok HA Htot a n Hb h1 (upd_blocks Bs p (delete u (Bs p)))); auto.
    + apply (account_alloc h A E1 E2 _ F Bs Hok HA Htot a n Hb). reflexivity.
    + exists m'. reflexivity.
    + apply (blocks_without h A E1 E2 _ F Bs Hok HA Htot a n Hb); [simpl; set_solver|]. intros a' n' (u' & k' & Hu' & -> & _).
      rewrite Ha. destruct (Z.eq_dec u' u) as [->|Hne]; [reflexivity|].
      rewrite <- (lookup_delete_ne _ u u') in Hu' by congruence. rewrite Hidle, lookup_empty in Hu'. discriminate.
  - unfold free_pages. simpl (0 >? 0). cbv iota. set (h1 := account_free _ a n).
    exists [], h1. split; [reflexivity|]. split; [|split; [reflexivity|reflexivity]].
    exists (E1 ++ OBuddy p :: E2), F, (upd_blocks Bs p (delete u (Bs p))).
    assert (Hself : buddy_ok h1 (upd_blocks Bs p (delete u (Bs p))) (OBuddy p)).
    { exists self'. rewrite upd_blocks_eq. split; [exact Hs'|]. split; [exact Hi|]. split; [exact Hno'|].
      intros Hemp. apply (idle_iff self' _ Hi) in Hemp. congruence. }
    split; [|split; [|apply (account_alloc h A E1 E2 _ F Bs Hok HA Htot a n Hb); reflexivity]].
    + destruct Hok as [H1 H2 H3 H4 H5 H6 H7 H8]. split; auto. apply Forall_forall. intros o' Ho'.
      rewrite elem_of_app, elem_of_cons in Ho'. destruct Ho' as [Ho'|[->|Ho']]; [|exact Hself|];
        apply Hothers; auto; set_solver.
    + apply (lists_delete A E1 E2 (OBuddy p) Bs HA a). intros a' n'.
      apply (blocks_minus h A E1 E2 _ F Bs Hok HA Htot a n Hb p u k); auto.
Qed.


Lemma mem_page_free_step h A a n : heap_inv h A -> A !! a = Some n ->
  free_done h A a (mem_page_free base h a).
Proof.
  intros (E & F & Bs & Hok & HA & Htot) Ha. fold (lists E Bs A) in HA.
  pose proof (proj1 (HA a n) Ha) as (o & Ho & Hb).
  destruct (list_elem_of_split E o Ho) as (E1 & E2 & ->).
  pose proof (addr_owner h A E1 E2 o F Bs Hok HA Htot a n Hb) as Hidx.
  pose proof (others_first h A E1 E2 o F Bs Hok HA Htot a n Hb) as Hfst.
  destruct (block_span _ _ _ _ _ _ _ Hok Ho Hb) as (Hoo & Hn & Hspan & _).
  pose proof (pages_of_range o _ Hoo (first_page_in o Hoo)) as Hrange.
  unfold mem_page_free, mem_buddy_free. rewrite Hidx. destruct (hp_list _ _ _ _ Hok) as (k & Hk).
  rewrite Hk, (find_owner_ok E1 o E2 k (hp_owners _ _ _ _ Hok) Hfst).
  unfold page_addr in Hspan. change PAGE_SIZE with 2048 in Hspan.
  destruct (Z.eqb_spec a NULL) as [Hc|_]; [unfold NULL in Hc; lia|].
  destruct o as [p|p c]; cbn [first_page] in *.
  - simpl (0 =? _). cbv iota. simpl (_ ++ _).
    apply (free_in_buddy_ok h A E1 E2 p F Bs a n); auto.
  - simpl in Hoo. destruct (Z.eqb_spec c (-1)), (Z.eqb_spec c 0); try lia. simpl (_ ++ _).
    apply (free_run_ok h A E1 E2 p c F Bs a n); auto.
Qed.

(** *** Initial state *)

Lemma init_inv h st : pages h = pool_at_boot -> length (selfs h) = 8%nat ->
  mem_page_init h = Some st -> heap_inv st ∅.
Proof.
  intros Hp Hs Hi. unfold mem_page_init in Hi. rewrite Hp in Hi.
  destruct pagepool_init_ok as (st0 & Hst0 & Hpool). rewrite Hst0 in Hi. injection Hi as <-.
  exists [], [7; 6; 5; 4; 3; 2; 1; 0], (fun _ => ∅). split; [|split].
  - split; auto.
    + constructor.
    + intros x Hx. split; [intros _; apply not_elem_of_nil|]. intros _. rewrite list_elem_of_In. simpl. lia.
    + exists 28%nat. reflexivity.
  - intros a n. rewrite lookup_empty. split; [discriminate|]. intros (o & Ho & _). inversion Ho.
  - reflexivity.
Qed.

(** The states of the heap under any sequence of allocations that succeed,
    releases of live blocks and stores to the memory, with the live blocks. *)
Inductive heap_reach : heap -> gmap Z Z -> Prop :=
  | hr_init h st : pages h = pool_at_boot -> length (selfs h) = 8%nat ->
      mem_manager_init h = Some (0, st) -> heap_reach st ∅
  | hr_malloc h A size caller prio a n h' : heap_reach h A -> 0 < size < 2 ^ 31 ->
      mem_malloc base h size caller prio = Done (a, h') ->
      alloc_size (sys_meminfo h') = u32 (alloc_size (sys_meminfo h) + n) -> 0 <= n < 2 ^ 32 ->
      heap_reach h' (<[a := n]> A)
  | hr_free h A a n reports h' : heap_reach h A -> A !! a = Some n ->
      mem_free base h a = Done (reports, h') -> heap_reach h' (delete a A)
  | hr_store h A m : heap_reach h A -> heap_reach (set_ram h m) A.

Lemma live_span h A a n : heap_inv h A -> A !! a = Some n ->
  base <= a /\ 0 < n /\ a + n <= base + 8 * PAGE_SIZE.
Proof.
  intros (E & F & Bs & Hok & HA & _) Ha. apply HA in Ha as (o & Ho & Hb).
  destruct (block_span _ _ _ _ _ _ _ Hok Ho Hb) as (Hoo & Hn & Hs & He & _).
  pose proof (pages_of_range o _ Hoo (first_page_in o Hoo)). unfold page_addr in *.
  assert (first_page o + Z.of_nat (length (pages_of o)) <= 8)
    by (destruct o; simpl in *; [|rewrite length_seqZ]; lia).
  change PAGE_SIZE with 2048 in *. lia.
Qed.

Lemma live_apart h A a n a' n' : heap_inv h A -> A !! a = Some n -> A !! a' = Some n' -> a <> a' ->
  a + n <= a' \/ a' + n' <= a.
Proof.
  intros (E & F & Bs & Hok & HA & _) Ha Ha' Hne. apply HA in Ha as (o & Ho & Hb), Ha' as (o' & Ho' & Hb').
  destruct (blocks_apart _ _ _ _ _ _ _ _ _ _ Hok Ho Hb Ho' Hb') as [(? & _)|H]; [contradiction|exact H].
Qed.

Lemma heap_reach_inv h A : heap_reach h A -> heap_inv h A.
Proof.
  induction 1 as [h st Hp Hs Hi|h A size caller prio a n h' _ (E & F & Bs & Hok & HA & Htot) Hsz Hm Hal Hn
    |h A a n reports h' _ IH Ha Hf|h A m _ (E & F & Bs & Hok & HA & Htot)].
  - unfold mem_manager_init in Hi. destruct (mem_page_init h) as [st'|] eqn:Hi'; [|discriminate].
    injection Hi as <-. exact (init_inv h st' Hp Hs Hi').
  - pose proof (mem_page_malloc_step h A E F Bs Hok HA Htot caller prio size Hsz) as Hr.
    unfold mem_malloc, mem_malloc_debug in Hm. rewrite Hm in Hr.
    destruct Hr as (n' & _ & _ & _ & Ha & Han & Hd & Hinv & _).
    replace n with n'; [exact Hinv|]. destruct Hinv as (E' & F' & Bs' & Hok' & HA' & Htot').
    assert (Hn' : 0 < n').
    { destruct (proj1 (HA' a n') (lookup_insert_eq _ _ _)) as (o & Ho & Hb).
      apply (block_span _ _ _ _ _ _ _ Hok' Ho Hb). }
    assert (Hnone : A !! a = None).
    { destruct (A !! a) as [m|] eqn:HAa; [|reflexivity]. exfalso. pose proof (Hd a m HAa).
      apply HA in HAa as (o & Ho & Hb). destruct (block_span _ _ _ _ _ _ _ Hok Ho Hb) as (_ & Hm' & _). lia. }
    rewrite Hal, Htot, total_insert in Htot' by exact Hnone. change PAGE_SIZE with 2048 in *.
    revert Htot' Hn Hn' Ha Han base_pos base_fits. clear. intros. unfold u32 in Htot'.
    rewrite Zplus_mod_idemp_l in Htot'. apply (f_equal (fun x => (x - total A) mod 2 ^ 32)) in Htot'.
    rewrite !Zminus_mod_idemp_l in Htot'.
    replace (total A + n - total A) with n in Htot' by lia. replace (n' + total A - total A) with n' in Htot' by lia.
    rewrite !Z.mod_small in Htot' by lia. lia.
  - unfold mem_free in Hf. pose proof (mem_page_free_step h A a n IH Ha) as (rep & h1 & H1 & Hinv & _).
    destruct (Z.eqb_spec a NULL) as [->|_]; [|congruence]. exfalso.
    pose proof (live_span h A NULL n IH Ha). unfold NULL in *. lia.
  - exists E, F, Bs. split; [|split; [exact HA|exact Htot]]. apply (heap_ok_ext h); auto.
Qed.

(** *** Requests that the heap does not expect *)

(** An owner has a block that starts in its first page. *)
Lemma owner_has_block h E F Bs o : heap_ok h E F Bs -> o ∈ E ->
  exists a n, block_of Bs o a n /\ (a - base) / PAGE_SIZE = first_page o.
Proof.
  intros Hok Ho. assert (Hb : exists a n, block_of Bs o a n).
  { pose proof (hp_buddy _ _ _ _ Hok) as HB. rewrite Forall_forall in HB. specialize (HB o Ho).
    destruct o as [p|p c]; [|do 2 eexists; split; reflexivity].
    destruct HB as (self & _ & _ & _ & Hne). apply map_choose in Hne as (u & k & Hu).
    do 2 eexists. exists u, k. auto. }
  destruct Hb as (a & n & Hb). exists a, n. split; [exact Hb|].
  destruct (block_span _ _ _ _ _ _ _ Hok Ho Hb) as (_ & _ & Ha & _). unfold page_addr in Ha.
  change PAGE_SIZE with 2048 in *. Z.div_mod_to_equations. lia.
Qed.

Lemma find_owner_none E p k : Forall owner_ok E -> (forall o, o ∈ E -> first_page o <> p) ->
  find_owner (encs E ++ replicate k 0xff) p = -1.
Proof.
  induction 1 as [|o E Ho HE IH]; intros Hne; [destruct k; reflexivity|].
  rewrite encs_cons, <- app_assoc, find_owner_skip; auto using encs_no_count; [|apply Hne; left].
  apply IH. intros o' Ho'. apply Hne. right. exact Ho'.
Qed.

Lemma index_of_none l v : v ∉ l -> index_of l v = length l.
Proof.
  induction l as [|b l IH]; intros Hv; simpl; [reflexivity|]. rewrite not_elem_of_cons in Hv.
  destruct (Z.eqb_spec b v); [lia|]. rewrite IH; tauto.
Qed.

Lemma tag_absent E p k : Forall owner_ok E -> 0 <= p < 8 -> (forall o, o ∈ E -> first_page o <> p) ->
  p + 128 ∉ encs E ++ replicate k 0xff.
Proof.
  intros HE Hp Hne. rewrite elem_of_app, elem_of_replicate. intros [Hin|[Hin _]]; [|lia].
  unfold encs in Hin. rewrite list_elem_of_In, in_concat in Hin. destruct Hin as (x & Hx & Hin).
  apply in_map_iff in Hx as (o & <- & Ho). apply list_elem_of_In in Ho, Hin. rewrite Forall_forall in HE.
  exact (tag_not_in (OPages p 1) o ltac:(simpl; lia) (HE o Ho) (Hne o Ho) Hin).
Qed.

Lemma free_unknown_step h A a : heap_inv h A -> base <= a < base + 8 * PAGE_SIZE ->
  (forall a' n', A !! a' = Some n' -> (a' - base) / PAGE_SIZE <> (a - base) / PAGE_SIZE) ->
  mem_page_free base h a = Fault.
Proof.
  intros (E & F & Bs & Hok & HA & _) Ha Hno. unfold mem_page_free, mem_buddy_free.
  set (p := (a - base) / PAGE_SIZE) in *.
  assert (Hp : pagepool_convert_addr_to_pageindex base a = p /\ 0 <= p < 8).
  { unfold pagepool_convert_addr_to_pageindex. subst p. change PAGE_SIZE with 2048 in *.
    rewrite u32_small by lia. assert (0 <= (a - base) / 2048 < 8) by (Z.div_mod_to_equations; lia).
    rewrite u8_small; lia. }
  destruct Hp as [-> Hp].
  assert (Hne : forall o, o ∈ E -> first_page o <> p).
  { intros o Ho Heq. destruct (owner_has_block h E F Bs o Hok Ho) as (a' & n' & Hb & Hi).
    apply (Hno a' n'); [apply HA; eauto|congruence]. }
  destruct (hp_list _ _ _ _ Hok) as (k & Hk). pose proof (hp_len _ _ _ _ Hok) as Hlen.
  rewrite Hk, (find_owner_none E p k (hp_owners _ _ _ _ Hok) Hne). rewrite Hk in Hlen.
  simpl (-1 =? 0). cbv iota. unfold free_run. rewrite Hk.
  destruct (entry_facts p Hp) as (_ & _ & _ & -> & _).
  rewrite (index_of_none _ _ (tag_absent E p k (hp_owners _ _ _ _ Hok) Hp Hne)), Hlen.
  unfold del_buddy. change (if -1 >? 1 then 2%nat else 1%nat) with 1%nat.
  change (Z.to_nat BUDDYS_SIZE - 1 - 28)%nat with 0%nat. cbn [clear_entries shift_entries].
  unfold set_entry. rewrite decide_False by (rewrite Hlen; lia). reflexivity.
Qed.

Lemma malloc_negative_step h A num caller prio : heap_inv h A -> 2 ^ 31 <= num < 2 ^ 32 ->
  mem_page_malloc base h num caller prio = Panic 5 \/
  exists h', mem_page_malloc base h num caller prio = Done (NULL, h') /\
    forall x, 0 <= x < num -> ram h' x = 0.
Proof.
  intros (E & F & Bs & Hok & HA & _) Hnum. unfold mem_page_malloc, mem_buddy_malloc.
  assert (Hs : s32 num = num - 2 ^ 32) by (unfold s32; Z.div_mod_to_equations; lia).
  rewrite Hs. set (size := num - 2 ^ 32).
  destruct (Z.eqb_spec size 0); [lia|]. unfold get_buddy_max. rewrite Z.gtb_ltb.
  destruct (Z.ltb_spec MAX_FREE_SIZE size) as [Hc|_]; [change MAX_FREE_SIZE with 1920 in Hc; lia|].
  destruct (hp_list _ _ _ _ Hok) as (k & Hk). rewrite Hk.
  destruct (try_buddys_ok h Bs size E k (hp_selfs _ _ _ _ Hok) (hp_owners _ _ _ _ Hok) (hp_buddy _ _ _ _ Hok))
    as ([[[addr real] h']|] & -> & Hr); cbn [or_fault].
  { destruct Hr as (p & self' & _ & _ & u & _ & _ & _ & _ & Hsz & _). lia. }
  unfold malloc_new_buddy, pmalloc. rewrite (buddys_tail h E F Bs 27 Hok) by lia. simpl (negb _). cbv iota.
  change (SIZE2PAGE PAGE_SIZE) with 1.
  destruct (alloc_pages_ok base (pages h) F 1 base_pos base_fits (hp_pool _ _ _ _ Hok) ltac:(lia))
    as ([page st] & -> & Hres). cbn [or_fault]. cbv zeta.
  destruct (Z.eqb_spec page NULL) as [->|Hpage]; [left; reflexivity|]. right.
  destruct Hres as [([= -> _] & _)|(i & F' & Hpg & Hi & Hin & _)]; [contradiction|].
  simpl in Hpg. subst page. rewrite (addr_index base i base_pos ltac:(lia) base_fits).
  set (h2 := set_self (set_pages h st) i (rom_new_buddy_no i)).
  assert (Hs2 : selfs h2 !! Z.to_nat i = Some (rom_new_buddy_no i)).
  { apply list_lookup_insert_eq. rewrite (hp_selfs _ _ _ _ Hok : length (selfs (set_pages h st)) = _). lia. }
  destruct (buddy_alloc_ok h2 ∅ _ i size ltac:(lia) Hs2 (new_inv i) eq_refl) as (addr & real & h' & -> & Hc).
  destruct Hc as [(-> & -> & ->)|(_ & self' & _ & u & _ & _ & _ & _ & Hsz & _)]; [|lia].
  cbn [or_fault]. cbv zeta. change (sys_meminfo h2) with (sys_meminfo h).
  rewrite (buddys_tail h E F Bs 27 Hok) by lia. simpl (negb _). cbv iota.
  destruct (buddys_room h E F Bs Hok) as (m & Hm). rewrite Hm, first_unused_app by (apply entry_not_ff, Hok).
  change (20 + m)%nat with (S (19 + m)). rewrite set_entry_append. cbn [or_fault].
  eexists. split; [reflexivity|]. intros x Hx. cbn [ram set_info set_ram]. rewrite memset_spec.
  replace (u32 size) with num by (subst size; unfold u32; Z.div_mod_to_equations; lia).
  unfold NULL. rewrite (proj2 (Z.leb_le _ _)), (proj2 (Z.ltb_lt _ _)) by lia. reflexivity.
Qed.

Lemma empty_heap h : heap_inv h ∅ ->
  freepage_num (pages h) = 8 /\ buddys (sys_meminfo h) = replicate 28 0xff /\ alloc_size (sys_meminfo h) = 0.
Proof.
  intros (E & F & Bs & Hok & HA & Htot). assert (E = []) as ->.
  { destruct E as [|o E]; [reflexivity|]. exfalso.
    destruct (owner_has_block h _ F Bs o Hok ltac:(left)) as (a & n & Hb & _).
    assert (Hn : (∅ : gmap Z Z) !! a = Some n) by (apply HA; exists o; split; [left|exact Hb]).
    rewrite lookup_empty in Hn. discriminate. }
  split; [|split; [|exact Htot]].
  - destruct (hp_pool _ _ _ _ Hok) as [Hlk ->].
    assert (Hsub : seqZ 0 8 ⊆+ F).
    { apply NoDup_submseteq; [apply NoDup_seqZ|]. intros x Hx. apply elem_of_seqZ in Hx.
      apply (hp_split _ _ _ _ Hok x); [lia|]. apply not_elem_of_nil. }
    apply submseteq_length in Hsub. rewrite length_seqZ in Hsub. pose proof (links_length _ _ Hlk). lia.
  - destruct (hp_list _ _ _ _ Hok) as (k & Hk). pose proof (hp_len _ _ _ _ Hok) as Hlen.
    rewrite Hk in *. simpl in *. rewrite length_replicate in Hlen. subst k. reflexivity.
Qed.

End Heap.

(** ** The interface of the heap *)

(** C2: A request of 1 to 2^31-1 bytes in any consistent state of the heap
    either returns a block inside the memory pool that is at least as large as
    requested, a multiple of 16 bytes, disjoint from every live block, cleared
    over the requested size, and then exactly that block is added to the live
    blocks and no byte outside of it changes; or the system panics, and then
    every page (for more than 1920 bytes: every run of enough pages) holds a
    live block.  The list [buddys] never overflows and no access leaves it. *)
Theorem mem_malloc_ok (base : Z) (h : heap) (A : gmap Z Z) (size caller prio : Z) :
  0 < base -> base + 8 * PAGE_SIZE <= 2 ^ 32 -> heap_inv base h A -> 0 < size < 2 ^ 31 ->
  malloc_result base h A size (mem_malloc base h size caller prio).
Proof.
  intros H0 H1 (E & F & Bs & Hok & HA & Htot) Hsz.
  exact (mem_page_malloc_step base H0 H1 h A E F Bs Hok HA Htot caller prio size Hsz).
Qed.

(** C3: Freeing a live block removes exactly that block from the live blocks
    and changes no byte of memory; the page goes back to the pool with its
    last block, and no error is reported when the pool is page-aligned. *)
Theorem mem_free_ok (base : Z) (h : heap) (A : gmap Z Z) (a n : Z) :
  0 < base -> base + 8 * PAGE_SIZE <= 2 ^ 32 -> heap_inv base h A -> A !! a = Some n ->
  free_done base h A a (app_mem_free base h a).
Proof.
  intros H0 H1 Hinv Ha. pose proof (mem_page_free_step base H0 H1 h A a n Hinv Ha) as H.
  unfold app_mem_free. destruct (Z.eqb_spec a NULL) as [->|_]; [|exact H]. exfalso.
  pose proof (live_span base h A NULL n Hinv Ha). unfold NULL in *. lia.
Qed.

(** C6: After any sequence of allocations, releases of live blocks and stores
    since start-up, the live blocks lie inside the pool and are pairwise
    disjoint and [alloc_size] is the sum of their sizes; when the last block
    has been freed, all eight pages are back in the pool and the list of owned
    pages is empty: nothing leaks. *)
Theorem heap_reachable (base : Z) (h : heap) (A : gmap Z Z) :
  0 < base -> base + 8 * PAGE_SIZE <= 2 ^ 32 -> heap_reach base h A ->
  (forall a n, A !! a = Some n -> base <= a /\ 0 < n /\ a + n <= base + 8 * PAGE_SIZE) /\
  (forall a n a' n', A !! a = Some n -> A !! a' = Some n' -> a <> a' -> a + n <= a' \/ a' + n' <= a) /\
  alloc_size (sys_meminfo h) = u32 (total A) /\
  (A = ∅ -> freepage_num (pages h) = 8 /\ buddys (sys_meminfo h) = replicate 28 0xff /\
     alloc_size (sys_meminfo h) = 0).
Proof.
  intros H0 H1 Hr. pose proof (heap_reach_inv base H0 H1 h A Hr) as Hinv.
  split; [|split; [|split]].
  - intros a n Ha. exact (live_span base h A a n Hinv Ha).
  - intros a n a' n'. exact (live_apart base h A a n a' n' Hinv).
  - destruct Hinv as (E & F & Bs & _ & _ & Htot). exact Htot.
  - intros ->. exact (empty_heap base h Hinv).
Qed.

(** Freeing a pointer into a page in which no live block starts - the
    second page of a large block, or a block freed before whose page went
    back to the pool - is reported but not refused: the code goes on to write
    one element past the end of [buddys]. *)
Theorem mem_free_unknown (base : Z) (h : heap) (A : gmap Z Z) (a : Z) :
  0 < base -> base + 8 * PAGE_SIZE <= 2 ^ 32 -> heap_inv base h A ->
  base <= a < base + 8 * PAGE_SIZE ->
  (forall a' n', A !! a' = Some n' -> (a' - base) / PAGE_SIZE <> (a - base) / PAGE_SIZE) ->
  mem_free base h a = Fault.
Proof.
  intros H0 H1 Hinv Ha Hno. unfold mem_free. destruct (Z.eqb_spec a NULL) as [->|_]; [unfold NULL in *; lia|].
  exact (free_unknown_step base h A a Hinv Ha Hno).
Qed.

(** A request of 2^31 bytes or more becomes a negative [int]: unless no
    page is free, [mem_malloc] takes a page for it, returns NULL and clears
    that many bytes of memory from address 0 on. *)
Theorem mem_malloc_negative (base : Z) (h : heap) (A : gmap Z Z) (num caller prio : Z) :
  0 < base -> base + 8 * PAGE_SIZE <= 2 ^ 32 -> heap_inv base h A -> 2 ^ 31 <= num < 2 ^ 32 ->
  mem_malloc base h num caller prio = Panic 5 \/
  exists h', mem_malloc base h num caller prio = Done (NULL, h') /\
    forall x, 0 <= x < num -> ram h' x = 0.
Proof. intros H0 H1. exact (malloc_negative_step base H0 H1 h A num caller prio). Qed.

(** ** Concrete instances *)

Definition boot_heap : heap :=
  mk_heap pool_at_boot (replicate 8 model) (fun _ => 0xa5) (mk_mem_info 0 0 []).

Definition sample_heap : heap := default boot_heap (mem_page_init boot_heap).

Lemma sample_heap_eq : mem_page_init boot_heap = Some sample_heap.
Proof. vm_compute. reflexivity. Qed.

Lemma sample_heap_reach : heap_reach 4096 sample_heap ∅.
Proof.
  apply (hr_init 4096 boot_heap); [reflexivity|reflexivity|].
  unfold mem_manager_init. rewrite sample_heap_eq. reflexivity.
Qed.

Lemma base_4096 : 4096 + 8 * PAGE_SIZE <= 2 ^ 32.
Proof. vm_compute. congruence. Qed.

Lemma sample_heap_inv : heap_inv 4096 sample_heap ∅.
Proof. exact (heap_reach_inv 4096 ltac:(lia) base_4096 _ _ sample_heap_reach). Qed.

(** The heap after [mem_malloc(100)] and [mem_malloc(3000)]. *)
Definition after_malloc (h : heap) (size : Z) : Z * heap :=
  match mem_malloc 4096 h size 0x1234 2 with Done r => r | _ => (NULL, h) end.

Definition heap1 : heap := (after_malloc sample_heap 100).2.

Lemma heap1_inv : exists n, heap_inv 4096 heap1 (<[(after_malloc sample_heap 100).1 := n]> ∅) /\ 100 <= n.
Proof.
  destruct (sample_heap_inv) as (E & F & Bs & Hok & HA & Htot).
  pose proof (mem_page_malloc_step 4096 ltac:(lia) base_4096 sample_heap ∅ E F Bs Hok HA Htot 0x1234 2 100
    ltac:(lia)) as Hr.
  unfold heap1, after_malloc, mem_malloc, mem_malloc_debug.
  destruct (mem_page_malloc 4096 sample_heap 100 4660 2) as [[a h']|code| |] eqn:Hm.
  - destruct Hr as (n & Hn & _ & _ & _ & _ & _ & Hi & _). exists n. cbn [fst snd]. auto.
  - exfalso. revert Hm. vm_compute. discriminate.
  - destruct Hr.
  - destruct Hr.
Qed.

Lemma mem_malloc_ok_witness :
  malloc_result 4096 sample_heap ∅ 5000 (mem_malloc 4096 sample_heap 5000 0x1234 2).
Proof. apply mem_malloc_ok; [lia|exact base_4096|exact sample_heap_inv|lia]. Defined.

Lemma mem_free_ok_witness : exists n,
  let a := (after_malloc sample_heap 100).1 in
  free_done 4096 heap1 (<[a := n]> ∅) a (app_mem_free 4096 heap1 a).
Proof.
  destruct heap1_inv as (n & Hi & _). exists n. cbv zeta. set (a := (after_malloc sample_heap 100).1) in *.
  apply (mem_free_ok 4096 heap1 (<[a := n]> ∅) a n); [lia|exact base_4096|exact Hi|].
  apply lookup_insert_eq.
Defined.

Lemma heap_reachable_witness : freepage_num (pages sample_heap) = 8.
Proof.
  apply (heap_reachable 4096 sample_heap ∅ ltac:(lia) base_4096 sample_heap_reach). reflexivity.
Defined.

Lemma mem_free_unknown_witness : mem_free 4096 sample_heap (4096 + 3 * PAGE_SIZE + 32) = Fault.
Proof.
  apply (mem_free_unknown 4096 sample_heap ∅); [lia|exact base_4096|exact sample_heap_inv| |].
  - change PAGE_SIZE with 2048. lia.
  - intros a' n' H. rewrite lookup_empty in H. discriminate.
Defined.

Lemma mem_malloc_negative_witness :
  mem_malloc 4096 sample_heap (2 ^ 32 - 1) 0x1234 2 = Panic 5 \/
  exists h', mem_malloc 4096 sample_heap (2 ^ 32 - 1) 0x1234 2 = Done (NULL, h') /\
    forall x, 0 <= x < 2 ^ 32 - 1 -> ram h' x = 0.
Proof.
  apply (mem_malloc_negative 4096 sample_heap ∅); [lia|exact base_4096|exact sample_heap_inv|lia].
Defined.

(** The clearing of a block can destroy the size stored at its end:
    [original_size] is then not what it was after an allocation and its
    release. *)
Example original_size_drift :
  match mem_malloc 4096 sample_heap 12 0x1234 2 with
  | Done (a, h) =>
      match mem_free 4096 h a with
      | Done (_, h) => original_size (sys_meminfo h) = 2 ^ 32 - 4
      | _ => False
      end
  | _ => False
  end.
Proof. vm_compute. reflexivity. Qed.
