(* ===== verification/RingHeap.v ===== *)
(** * Ring buffers on the heap (acts_ringbuf.c, lines 41-83)

    The functions that allocate and free ring buffers, on top of the heap of
    [Heap] and with the structure at its place in memory: eight little-endian
    words.  A ring buffer that was allocated is an empty queue of its size in a
    block of its own, and freeing it gives back exactly what was allocated. *)

From stdpp Require Import base list numbers gmap.
From S2P Require Import Prelude RingBuf Buddy BuddyProof PagePool Heap HeapProof.
Open Scope Z_scope.

(** ** The structure in memory *)

Definition le32 (v : Z) : list Z := [u8 v; u8 (v / 2 ^ 8); u8 (v / 2 ^ 16); u8 (v / 2 ^ 24)].

Definition ringbuf_words (b : acts_ringbuf) : list Z :=
  [head b; tail b; RingBuf.size b; mask b; cpu_ptr b; dsp_ptr b; head_offset b; tail_offset b].

Definition sizeof_ringbuf : Z := 32.

Definition ringbuf_store (m : mem) (p : Z) (b : acts_ringbuf) : mem := store m p (concat (le32 <$> ringbuf_words b)).

Definition ringbuf_load (m : mem) (p : Z) : acts_ringbuf :=
  mk_ringbuf (load32 m p) (load32 m (p + 4)) (load32 m (p + 8)) (load32 m (p + 12)) (load32 m (p + 16))
    (load32 m (p + 20)) (load32 m (p + 24)) (load32 m (p + 28)).

(** ** Operations

    [base] is the address of the page pool; the caller's address and priority
    are recorded by the heap. *)

Section RingHeap.
Context (base caller prio : Z).

Definition acts_ringbuf_init_ext (h : heap) (data size : Z) : outcome (Z * heap) :=
  match mem_malloc base h sizeof_ringbuf caller prio with
  | Done (buf, h1) =>
      if buf =? NULL then Done (NULL, h1)
      else Done (buf, set_ram h1 (ringbuf_store (ram h1) buf (acts_ringbuf_init data size)))
  | Panic c => Panic c
  | Fault => Fault
  | Hang => Hang
  end.

Definition acts_ringbuf_destroy_ext (h : heap) (buf : Z) : outcome heap :=
  if buf =? NULL then Done h else
  match mem_free base h buf with
  | Done (_, h') => Done h'
  | Panic c => Panic c
  | Fault => Fault
  | Hang => Hang
  end.

Definition acts_ringbuf_alloc (h : heap) (size : Z) : outcome (Z * heap) :=
  match mem_malloc base h sizeof_ringbuf caller prio with
  | Done (buf, h1) =>
      if buf =? NULL then Done (NULL, h1) else
      match mem_malloc base h1 (ACTS_RINGBUF_SIZE8 size) caller prio with
      | Done (data, h2) =>
          if data =? NULL then
            match mem_free base h2 buf with
            | Done (_, h3) => Done (NULL, h3)
            | Panic c => Panic c
            | Fault => Fault
            | Hang => Hang
            end
          else Done (buf, set_ram h2 (ringbuf_store (ram h2) buf (acts_ringbuf_init data size)))
      | Panic c => Panic c
      | Fault => Fault
      | Hang => Hang
      end
  | Panic c => Panic c
  | Fault => Fault
  | Hang => Hang
  end.

Definition acts_ringbuf_free (h : heap) (buf : Z) : outcome heap :=
  if buf =? NULL then Done h else
  match mem_free base h (cpu_ptr (ringbuf_load (ram h) buf)) with
  | Done (_, h1) =>
      match mem_free base h1 buf with
      | Done (_, h2) => Done h2
      | Panic c => Panic c
      | Fault => Fault
      | Hang => Hang
      end
  | Panic c => Panic c
  | Fault => Fault
  | Hang => Hang
  end.

(** ** The structure survives in memory *)

Definition words_ok (b : acts_ringbuf) : Prop := Forall (fun v => 0 <= v < 2 ^ 32) (ringbuf_words b).

Lemma load32_le32 m a v : 0 <= v < 2 ^ 32 -> (forall i, 0 <= i < 4 -> m (a + i) = nth (Z.to_nat i) (le32 v) 0) -> load32 m a = v.
Proof.
  intros Hv H. unfold load32. rewrite <- (Z.add_0_r a) at 1.
  rewrite (H 0), (H 1), (H 2), (H 3) by lia. change (u8 v + u8 (v / 2 ^ 8) * 2 ^ 8 + u8 (v / 2 ^ 16) * 2 ^ 16 + u8 (v / 2 ^ 24) * 2 ^ 24 = v).
  replace (v / 2 ^ 24) with (v / 2 ^ 8 / 2 ^ 8 / 2 ^ 8) by (rewrite !Z.div_div by lia; reflexivity).
  replace (v / 2 ^ 16) with (v / 2 ^ 8 / 2 ^ 8) by (rewrite !Z.div_div by lia; reflexivity).
  unfold u8. Z.div_mod_to_equations. lia.
Qed.

Lemma load32_store m p (pre post : list Z) v : 0 <= v < 2 ^ 32 ->
  load32 (store m p (pre ++ le32 v ++ post)) (p + Z.of_nat (length pre)) = v.
Proof.
  intros Hv. apply load32_le32; [exact Hv|]. intros i Hi. unfold store.
  rewrite !length_app. change (length (le32 v)) with 4%nat.
  rewrite (proj2 (Z.leb_le _ _)), (proj2 (Z.ltb_lt _ _)) by lia. cbn [andb].
  rewrite app_nth2 by lia. rewrite app_nth1 by (change (length (le32 v)) with 4%nat; lia). f_equal. lia.
Qed.

Lemma ringbuf_load_store m p b : words_ok b -> ringbuf_load (ringbuf_store m p b) p = b.
Proof.
  destruct b as [w0 w1 w2 w3 w4 w5 w6 w7]. unfold words_ok, ringbuf_words. cbn [head tail RingBuf.size mask cpu_ptr dsp_ptr head_offset tail_offset].
  intros H. repeat (apply Forall_cons in H as [? H]). unfold ringbuf_load, ringbuf_store. f_equal.
  - rewrite <- (Z.add_0_r p) at 2. exact (load32_store m p [] (concat (le32 <$> [w1; w2; w3; w4; w5; w6; w7])) w0 H0).
  - exact (load32_store m p (concat (le32 <$> [w0])) (concat (le32 <$> [w2; w3; w4; w5; w6; w7])) w1 H1).
  - exact (load32_store m p (concat (le32 <$> [w0; w1])) (concat (le32 <$> [w3; w4; w5; w6; w7])) w2 H2).
  - exact (load32_store m p (concat (le32 <$> [w0; w1; w2])) (concat (le32 <$> [w4; w5; w6; w7])) w3 H3).
  - exact (load32_store m p (concat (le32 <$> [w0; w1; w2; w3])) (concat (le32 <$> [w5; w6; w7])) w4 H4).
  - exact (load32_store m p (concat (le32 <$> [w0; w1; w2; w3; w4])) (concat (le32 <$> [w6; w7])) w5 H5).
  - exact (load32_store m p (concat (le32 <$> [w0; w1; w2; w3; w4; w5])) (concat (le32 <$> [w7])) w6 H6).
  - exact (load32_store m p (concat (le32 <$> [w0; w1; w2; w3; w4; w5; w6])) [] w7 H7).
Qed.

Lemma ringbuf_load_ext m m' p : (forall x, p <= x < p + sizeof_ringbuf -> m' x = m x) -> ringbuf_load m' p = ringbuf_load m p.
Proof.
  unfold sizeof_ringbuf. intros H. unfold ringbuf_load, load32. rewrite !H by lia. reflexivity.
Qed.

Lemma ringbuf_store_outside m p b x : x < p \/ p + sizeof_ringbuf <= x -> ringbuf_store m p b x = m x.
Proof. intros H. apply store_outside. exact H. Qed.

(** ** Allocation and release *)

Hypothesis base_pos : 0 < base.
Hypothesis base_fits : base + 8 * PAGE_SIZE <= 2 ^ 32.

Lemma block_malloc_step h A size : heap_inv base h A -> 0 < size < 2 ^ 31 ->
  malloc_result base h A size (mem_malloc base h size caller prio).
Proof.
  intros (E & F & Bs & Hok & HA & Htot) Hs.
  exact (mem_page_malloc_step base base_pos base_fits h A E F Bs Hok HA Htot caller prio size Hs).
Qed.

Lemma block_free_step h A a n : heap_inv base h A -> A !! a = Some n ->
  exists reports h', mem_free base h a = Done (reports, h') /\ heap_inv base h' (delete a A) /\ ram h' = ram h.
Proof.
  intros Hi Ha. destruct (mem_page_free_step base base_pos base_fits h A a n Hi Ha) as (rep & h' & H & Hi' & Hr & _).
  exists rep, h'. split; [|auto]. unfold mem_free. destruct (Z.eqb_spec a NULL) as [->|_]; [|exact H].
  pose proof (live_span base h A NULL n Hi Ha). unfold NULL in *. lia.
Qed.

Lemma heap_inv_ram h A m : heap_inv base h A -> heap_inv base (set_ram h m) A.
Proof.
  intros (E & F & Bs & Hok & HA & Htot). exists E, F, Bs. split; [|split; [exact HA|exact Htot]]. apply (heap_ok_ext h); auto.
Qed.

(** The ring buffer at [buf] has its data in the block at [data]. *)
Record on_heap (h : heap) (A : gmap Z Z) (buf data size : Z) : Prop := mk_on_heap {
  oh_inv : exists n1 n2, heap_inv base h (<[data := n2]> (<[buf := n1]> A)) /\ sizeof_ringbuf <= n1 /\ size <= n2;
  oh_fresh : A !! buf = None /\ A !! data = None /\ buf <> data;
  oh_nonnull : buf <> NULL /\ data <> NULL;
  oh_ptr : cpu_ptr (ringbuf_load (ram h) buf) = data
}.

Lemma init_words data size : 0 <= data < 2 ^ 32 -> 0 <= size < 2 ^ 32 -> words_ok (acts_ringbuf_init data size).
Proof.
  intros Hd Hs. unfold words_ok, ringbuf_words, acts_ringbuf_init. cbn [head tail RingBuf.size mask cpu_ptr dsp_ptr head_offset tail_offset].
  assert (Hm : 0 <= (if is_power_of_two size then u32 (size - 1) else 0) < 2 ^ 32) by (destruct (is_power_of_two size); [apply u32_range|lia]).
  assert (Hdsp : 0 <= mcu_to_dsp_data_address data < 2 ^ 32).
  { unfold mcu_to_dsp_data_address, mcu_to_dsp_address. repeat case_match; try lia;
      repeat match goal with H : _ && _ = true |- _ => apply andb_true_iff in H as [? ?] end; reflect_bools; try discriminate;
      Z.div_mod_to_equations; lia. }
  repeat (constructor; [lia|]). constructor.
Qed.

(** What an allocation promises: an empty, well-formed ring buffer of the size
    asked for in two new blocks, and no other byte of a live block changed. *)
Definition alloc_done (h : heap) (A : gmap Z Z) (size buf : Z) (h' : heap) : Prop :=
  exists data, on_heap h' A buf data size /\
    ringbuf_load (ram h') buf = acts_ringbuf_init data size /\ wf (acts_ringbuf_init data size) /\
    contents (ram h') (acts_ringbuf_init data size) = [] /\
    forall a n x, A !! a = Some n -> a <= x < a + n -> ram h' x = ram h x.

Lemma ringbuf_alloc_step h A size : heap_inv base h A -> 0 < size < 2 ^ 31 ->
  match acts_ringbuf_alloc h size with
  | Done (buf, h') => alloc_done h A size buf h'
  | Panic c => c = 2 \/ c = 5
  | _ => False
  end.
Proof.
  intros Hinv Hs. unfold acts_ringbuf_alloc.
  pose proof (block_malloc_step h A sizeof_ringbuf Hinv ltac:(unfold sizeof_ringbuf; lia)) as M1.
  destruct (mem_malloc base h sizeof_ringbuf caller prio) as [[buf h1]|c| |]; cbn in M1; [|intuition|contradiction..].
  destruct M1 as (n1 & Hn1 & _ & _ & Hb1 & Hb2 & Hap1 & Hinv1 & _ & Hram1).
  destruct (Z.eqb_spec buf NULL) as [E|Hnn]; [unfold NULL in E; lia|].
  change (ACTS_RINGBUF_SIZE8 size) with (u32 (size * 1)). rewrite Z.mul_1_r, u32_small by lia.
  pose proof (block_malloc_step h1 _ size Hinv1 Hs) as M2.
  destruct (mem_malloc base h1 size caller prio) as [[data h2]|c| |]; cbn in M2; [|intuition|contradiction..].
  destruct M2 as (n2 & Hn2 & _ & _ & Hd1 & Hd2 & Hap2 & Hinv2 & _ & Hram2).
  destruct (Z.eqb_spec data NULL) as [E|Hnd]; [unfold NULL in E; lia|].
  unfold sizeof_ringbuf in *. pose proof (Hap2 buf n1 (lookup_insert_eq _ _ _)) as Hbd.
  assert (HAb : A !! buf = None).
  { destruct (A !! buf) as [m|] eqn:Em; [|reflexivity]. pose proof (live_span base h A buf m Hinv Em). specialize (Hap1 buf m Em). lia. }
  assert (HAd : A !! data = None).
  { destruct (A !! data) as [m|] eqn:Em; [|reflexivity].
    assert (Em' : <[buf := n1]> A !! data = Some m) by (rewrite lookup_insert_ne by congruence; exact Em).
    pose proof (live_span base h A data m Hinv Em). specialize (Hap2 data m Em'). lia. }
  assert (Hl : ringbuf_load (ringbuf_store (ram h2) buf (acts_ringbuf_init data size)) buf = acts_ringbuf_init data size).
  { apply ringbuf_load_store, init_words; lia. }
  exists data. split; [split|].
  - exists n1, n2. split; [apply heap_inv_ram, Hinv2|]. unfold sizeof_ringbuf. lia.
  - split; [exact HAb|]. split; [exact HAd|]. lia.
  - auto.
  - cbn [ram set_ram]. rewrite Hl. reflexivity.
  - split; [exact Hl|]. split; [apply init_wf; lia|]. split; [reflexivity|].
    intros a n x Ha Hx. cbn [ram set_ram]. assert (buf <> a) by congruence.
    assert (Ha' : <[buf := n1]> A !! a = Some n) by (rewrite lookup_insert_ne by congruence; exact Ha).
    specialize (Hap1 a n Ha). specialize (Hap2 a n Ha').
    rewrite ringbuf_store_outside by (unfold sizeof_ringbuf; lia). rewrite Hram2, Hram1 by lia. reflexivity.
Qed.

Lemma free_ring_step h A buf data size : on_heap h A buf data size ->
  exists h', acts_ringbuf_free h buf = Done h' /\ heap_inv base h' A /\ ram h' = ram h.
Proof.
  intros [(n1 & n2 & Hinv & _) (HAb & HAd & Hne) (Hnb & Hnd) Hptr]. unfold acts_ringbuf_free.
  rewrite (proj2 (Z.eqb_neq _ _) Hnb), Hptr.
  destruct (block_free_step h _ data n2 Hinv (lookup_insert_eq _ _ _)) as (rep & h1 & -> & Hinv1 & Hr1).
  rewrite delete_insert_id in Hinv1 by (rewrite lookup_insert_ne by congruence; exact HAd).
  destruct (block_free_step h1 _ buf n1 Hinv1 (lookup_insert_eq _ _ _)) as (rep' & h2 & -> & Hinv2 & Hr2).
  rewrite delete_insert_id in Hinv2 by exact HAb. exists h2. split; [reflexivity|]. split; [exact Hinv2|]. congruence.
Qed.
End RingHeap.

(** On a heap in which the blocks [A] are live, acts_ringbuf_alloc returns
    a ring buffer whose structure and data are two new blocks: it is well
    formed, empty and of the size asked for, and no byte of another block has
    changed.  It panics only when the heap does. *)
Theorem acts_ringbuf_alloc_ok (base caller prio : Z) (h : heap) (A : gmap Z Z) (size : Z) :
  0 < base -> base + 8 * PAGE_SIZE <= 2 ^ 32 -> heap_inv base h A -> 0 < size < 2 ^ 31 ->
  match acts_ringbuf_alloc base caller prio h size with
  | Done (buf, h') => alloc_done base h A size buf h'
  | Panic c => c = 2 \/ c = 5
  | _ => False
  end.
Proof. intros H0 H1. apply (ringbuf_alloc_step base caller prio H0 H1). Qed.

(** Whatever is done to the memory between acts_ringbuf_alloc and
    acts_ringbuf_free, as long as the pointer to the data is intact, the pair
    leaves exactly the blocks live that were live before. *)
Theorem acts_ringbuf_alloc_free (base caller prio : Z) (h h1 : heap) (A : gmap Z Z) (size buf : Z) (m : mem) :
  0 < base -> base + 8 * PAGE_SIZE <= 2 ^ 32 -> heap_inv base h A -> 0 < size < 2 ^ 31 ->
  acts_ringbuf_alloc base caller prio h size = Done (buf, h1) ->
  cpu_ptr (ringbuf_load m buf) = cpu_ptr (ringbuf_load (ram h1) buf) ->
  exists h2, acts_ringbuf_free base (set_ram h1 m) buf = Done h2 /\ heap_inv base h2 A /\ ram h2 = m.
Proof.
  intros H0 H1 Hinv Hs E Hptr. pose proof (ringbuf_alloc_step base caller prio H0 H1 h A size Hinv Hs) as Ha. rewrite E in Ha.
  destruct Ha as (data & [(n1 & n2 & Hi & Hn) Hf Hnn Hp] & _).
  apply (free_ring_step base H0 H1 (set_ram h1 m) A buf data size). split; [|exact Hf|exact Hnn|cbn [ram set_ram]; congruence].
  exists n1, n2. split; [apply heap_inv_ram, Hi|exact Hn].
Qed.

(** ** Concrete instances *)

Lemma acts_ringbuf_alloc_ok_witness :
  match acts_ringbuf_alloc 4096 0x1234 2 sample_heap 500 with
  | Done (buf, h') => alloc_done 4096 sample_heap ∅ 500 buf h'
  | Panic c => c = 2 \/ c = 5
  | _ => False
  end.
Proof. apply acts_ringbuf_alloc_ok; [lia|exact base_4096|exact sample_heap_inv|lia]. Defined.

Definition ring_heap : Z * heap :=
  match acts_ringbuf_alloc 4096 0x1234 2 sample_heap 500 with Done r => r | _ => (0, sample_heap) end.

Lemma ring_heap_eq : acts_ringbuf_alloc 4096 0x1234 2 sample_heap 500 = Done ring_heap.
Proof. unfold ring_heap. destruct (acts_ringbuf_alloc 4096 0x1234 2 sample_heap 500) eqn:E; try reflexivity; exfalso; vm_compute in E; discriminate. Qed.

Lemma acts_ringbuf_alloc_free_witness : exists h2,
  acts_ringbuf_free 4096 (set_ram ring_heap.2 (ram ring_heap.2)) ring_heap.1 = Done h2 /\ heap_inv 4096 h2 ∅.
Proof.
  destruct (acts_ringbuf_alloc_free 4096 0x1234 2 sample_heap ring_heap.2 ∅ 500 ring_heap.1 (ram ring_heap.2)) as (h2 & H & Hi & _);
    [lia|exact base_4096|exact sample_heap_inv|lia|rewrite ring_heap_eq; destruct ring_heap; reflexivity|reflexivity|].
  exists h2. auto.
Defined.
