(* ===== verification/AppSwitch.v ===== *)
(** * The application switcher (framework/system/app_switcher.c)

    The switcher keeps the list of applications with a [pluged] flag each, the
    index of the current and of the last application and two lock masks;
    [app_switch] selects a target by name or by stepping through the list and
    asks the application manager to activate it.  The application manager is
    the interface [AppManager]; the file AppManager has the implementation.

    The loop of [app_switch] around the label [next] is given a number of
    rounds; [Running] means that it has not left the loop by then.  An access
    outside of [app_list], a NULL name or a division by zero is [SwitchFault]. *)

From stdpp Require Import base list numbers strings.
From S2P Require Import Prelude.
Open Scope Z_scope.

(** ** What the switcher needs of the application manager *)

Class AppManager (M : Type) : Type := {
  get_current_app : M -> option string;
  active_app : M -> string -> option (bool * M);   (* [None] is a crash *)
  foreground : M -> string -> Prop;
  active_app_current : forall m s m', foreground m s -> active_app m s = Some (true, m') ->
    get_current_app m' = Some s
}.

(** ** Data *)

Definition MAX_APP_NUM : Z := 25.
Definition APP_SWITCH_NEXT : Z := 0x1.
Definition APP_SWITCH_PREV : Z := 0x2.
Definition APP_SWITCH_LAST : Z := 0x04.
Definition APP_SWITCH_CURR : Z := 0x08.

Record app_switch_node : Type := mk_node {
  app_name : option string;    (* NULL is [None] *)
  pluged : Z                   (* uint8_t *)
}.

Record app_switch_ctx : Type := mk_ctx {
  locked : Z;
  force_locked : Z;
  cur_index : Z;
  last_index : Z;
  app_num : Z;
  app_actived_num : Z;
  app_list : list app_switch_node
}.

Definition set_locks (c : app_switch_ctx) (l f : Z) : app_switch_ctx :=
  mk_ctx l f (cur_index c) (last_index c) (app_num c) (app_actived_num c) (app_list c).
Definition set_index (c : app_switch_ctx) (cur last : Z) : app_switch_ctx :=
  mk_ctx (locked c) (force_locked c) cur last (app_num c) (app_actived_num c) (app_list c).
Definition set_apps (c : app_switch_ctx) (l : list app_switch_node) (n : Z) : app_switch_ctx :=
  mk_ctx (locked c) (force_locked c) (cur_index c) (last_index c) (app_num c) n l.

Definition is_pluged (n : app_switch_node) : bool := negb (pluged n =? 0).

(** [memcmp(app_node->app_name, app_name, strlen(app_name)) == 0] *)
Definition names_match (n : app_switch_node) (name : string) : option bool :=
  s ← app_name n; Some (String.prefix name s).

(** The first [app_num] entries, as the loops visit them. *)
Definition apps (c : app_switch_ctx) : list app_switch_node :=
  take (Z.to_nat (app_num c)) (app_list c).

(** ** Registration *)

Definition app_switch_get_app_name (c : app_switch_ctx) (appid : Z) : option string :=
  if appid <? app_num c then n ← app_list c !! Z.to_nat appid; app_name n else None.

(** The loops of [app_switch_add_app] and [app_switch_remove_app]: the new
    entries and the new counter. *)
Fixpoint add_loop (l : list app_switch_node) (name : string) (num : Z)
    : option (list app_switch_node * Z) :=
  match l with
  | [] => Some ([], num)
  | n :: l =>
      m ← names_match n name;
      let hit := m && negb (is_pluged n) in
      '(l, num) ← add_loop l name (if hit then u8 (num + 1) else num);
      Some ((if hit then mk_node (app_name n) 1 else n) :: l, num)
  end.

Fixpoint remove_loop (l : list app_switch_node) (name : string) (num : Z)
    : option (list app_switch_node * Z) :=
  match l with
  | [] => Some ([], num)
  | n :: l =>
      m ← names_match n name;
      let hit := m && is_pluged n in
      '(l, num) ← remove_loop l name (if hit then u8 (num - 1) else num);
      Some ((if hit then mk_node (app_name n) 0 else n) :: l, num)
  end.

(** The entries behind the first [app_num] stay as they are. *)
Definition with_apps (c : app_switch_ctx) (r : list app_switch_node * Z) : app_switch_ctx :=
  set_apps c (r.1 ++ drop (Z.to_nat (app_num c)) (app_list c)) r.2.

Definition app_switch_add_app (c : app_switch_ctx) (name : string) : option app_switch_ctx :=
  with_apps c <$> add_loop (apps c) name (app_actived_num c).

Definition app_switch_remove_app (c : app_switch_ctx) (name : string) : option app_switch_ctx :=
  with_apps c <$> remove_loop (apps c) name (app_actived_num c).

Definition app_switch_lock (c : app_switch_ctx) (reason : Z) : app_switch_ctx :=
  set_locks c (u8 (Z.lor (locked c) reason)) (force_locked c).
Definition app_switch_unlock (c : app_switch_ctx) (reason : Z) : app_switch_ctx :=
  set_locks c (u8 (Z.land (locked c) (Z.lnot reason))) (force_locked c).
Definition app_switch_force_lock (c : app_switch_ctx) (reason : Z) : app_switch_ctx :=
  set_locks c (locked c) (u8 (Z.lor (force_locked c) reason)).
Definition app_switch_force_unlock (c : app_switch_ctx) (reason : Z) : app_switch_ctx :=
  set_locks c (locked c) (u8 (Z.land (force_locked c) (Z.lnot reason))).

(** [app_switch_init] writes the entries before it looks at their number;
    more than [MAX_APP_NUM] names leave the array. *)
Definition app_switch_init (names : list string) : option app_switch_ctx :=
  if Z.of_nat (length names) <=? MAX_APP_NUM then
    Some (mk_ctx 0 0 0xff 0xff (u8 (Z.of_nat (length names))) 0
            (((fun s => mk_node (Some s) 0) <$> names)
             ++ replicate (Z.to_nat MAX_APP_NUM - length names) (mk_node None 0)))
  else None.

(** ** Switching *)

Inductive switch_result (A : Type) : Type :=
  | SwitchDone (a : A)
  | SwitchFault
  | Running.
Arguments SwitchDone {A} a.
Arguments SwitchFault {A}.
Arguments Running {A}.

(** The search by name: the last entry that matches. *)
Fixpoint find_app (l : list app_switch_node) (i : Z) (name : string) (force_switch : bool) (target : Z)
    : option Z :=
  match l with
  | [] => Some target
  | n :: l =>
      m ← names_match n name;
      find_app l (i + 1) name force_switch (if m && (is_pluged n || force_switch) then i else target)
  end.

(** [target_app_index], unchanged when a search by name finds nothing. *)
Definition target_index (c : app_switch_ctx) (name : option string) (mode : Z) (force_switch : bool)
    (target : Z) : option Z :=
  match name with
  | Some s => find_app (apps c) 0 s force_switch target
  | None =>
      if mode =? APP_SWITCH_NEXT then
        if app_num c =? 0 then None else Some ((cur_index c + 1) mod app_num c)
      else if mode =? APP_SWITCH_PREV then
        if app_num c =? 0 then None else Some ((cur_index c - 1 + app_num c) mod app_num c)
      else Some (last_index c)
  end.

(** From the label [next] to the call of [app_manager_active_app]: the node to
    activate, or [None] for the exit with 0xff. *)
Fixpoint switch_loop (rounds : nat) (c : app_switch_ctx) (name : option string) (mode : Z)
    (force_switch : bool) (target : Z) : switch_result (option app_switch_node * app_switch_ctx) :=
  match rounds with
  | O => Running
  | S rounds =>
      match target_index c name mode force_switch target with
      | None => SwitchFault
      | Some target =>
          if (target =? cur_index c) || (target <? 0) then SwitchDone (None, c)
          else
            let c := set_index c (u8 target) (cur_index c) in
            match app_list c !! Z.to_nat (cur_index c) with
            | None => SwitchFault
            | Some node =>
                if negb (is_pluged node) && negb force_switch then
                  switch_loop rounds c name
                    (if mode =? APP_SWITCH_LAST then APP_SWITCH_PREV else mode) force_switch target
                else SwitchDone (Some node, c)
            end
      end
  end.

Section AppSwitch.
Context {M : Type} `{AppManager M}.

(** The four early exits before the label [next]. *)
Definition blocked (c : app_switch_ctx) (m : M) (name : option string) (force_switch : bool)
    : option bool :=
  if negb (force_locked c =? 0) then Some true
  else if bool_decide (name <> None /\ get_current_app m = name) then Some true
  else if negb (locked c =? 0) && negb force_switch then Some true
  else if (app_actived_num c <=? 1) && negb (cur_index c =? 0xff) then
    node ← app_list c !! Z.to_nat (cur_index c);
    Some (is_pluged node && negb force_switch)
  else Some false.

Definition app_switch (rounds : nat) (c : app_switch_ctx) (m : M) (name : option string)
    (switch_mode : Z) (force_switch : bool) : switch_result (Z * app_switch_ctx * M) :=
  match blocked c m name force_switch with
  | None => SwitchFault
  | Some true => SwitchDone (0, c, m)
  | Some false =>
      match switch_loop rounds c name switch_mode force_switch (-1) with
      | SwitchFault => SwitchFault
      | Running => Running
      | SwitchDone (None, c) => SwitchDone (0xff, c, m)
      | SwitchDone (Some node, c) =>
          match app_name node with
          | None => SwitchFault
          | Some s =>
              match active_app m s with
              | None => SwitchFault
              | Some (ret, m) => SwitchDone (truth ret, c, m)
              end
          end
      end
  end.

End AppSwitch.

(** ** Invariant *)

Definition index_ok (c : app_switch_ctx) (i : Z) : Prop := i = 0xff \/ 0 <= i < app_num c.

Definition node_ok (n : app_switch_node) : Prop := app_name n <> None /\ (pluged n = 0 \/ pluged n = 1).

(** The number of plugged applications. *)
Definition count_pluged (l : list app_switch_node) : Z := foldr (fun n acc => pluged n + acc) 0 l.

Record ctx_ok (c : app_switch_ctx) : Prop := {
  ctx_num : 1 <= app_num c <= MAX_APP_NUM;
  ctx_len : length (app_list c) = 25%nat;
  ctx_nodes : Forall node_ok (apps c);
  ctx_count : app_actived_num c = count_pluged (apps c);
  ctx_cur : index_ok c (cur_index c);
  ctx_last : index_ok c (last_index c)
}.

Lemma apps_length c : ctx_ok c -> length (apps c) = Z.to_nat (app_num c).
Proof.
  intros Hok. pose proof (ctx_num c Hok). pose proof (ctx_len c Hok). unfold MAX_APP_NUM in *.
  unfold apps. rewrite length_take. lia.
Qed.

Lemma apps_lookup c i : 0 <= i < app_num c -> apps c !! Z.to_nat i = app_list c !! Z.to_nat i.
Proof. intros Hi. unfold apps. apply lookup_take_lt. lia. Qed.

Lemma app_at c i : ctx_ok c -> 0 <= i < app_num c ->
  exists n, app_list c !! Z.to_nat i = Some n /\ node_ok n.
Proof.
  intros Hok Hi. rewrite <- apps_lookup by exact Hi.
  destruct (lookup_lt_is_Some_2 (apps c) (Z.to_nat i)) as [n Hn]; [rewrite apps_length by exact Hok; lia|].
  exists n. split; [exact Hn|]. exact (Forall_lookup_1 _ _ _ _ (ctx_nodes c Hok) Hn).
Qed.

Lemma is_pluged_val n : node_ok n -> pluged n = truth (is_pluged n).
Proof. intros [_ [H|H]]; unfold is_pluged; rewrite H; reflexivity. Qed.

Lemma count_range l : Forall node_ok l -> 0 <= count_pluged l <= Z.of_nat (length l).
Proof.
  induction 1 as [|n l Hn _ IH]; simpl; [lia|]. rewrite (is_pluged_val n Hn).
  destruct (is_pluged n); simpl; lia.
Qed.

Lemma names_match_ok n name : node_ok n -> exists b, names_match n name = Some b.
Proof. intros [Hn _]. unfold names_match. destruct (app_name n); [eauto|contradiction]. Qed.

(** Registering keeps names and entries and counts what it changes. *)
Lemma add_loop_ok l name : forall num, Forall node_ok l -> 0 <= num -> num + Z.of_nat (length l) <= 255 ->
  exists l', add_loop l name num = Some (l', num + count_pluged l' - count_pluged l) /\
    Forall node_ok l' /\ length l' = length l /\ app_name <$> l' = app_name <$> l /\
    (forall i n, l !! i = Some n -> exists n', l' !! i = Some n' /\
       is_pluged n' = is_pluged n || bool_decide (names_match n name = Some true)).
Proof.
  induction l as [|n l IH]; intros num Hl Hn Hb; cbn [add_loop].
  - exists []. split; [simpl; do 2 f_equal; lia|]. repeat split; auto. intros i n Hi. discriminate.
  - apply Forall_cons in Hl as [Hnode Hl]. destruct (names_match_ok n name Hnode) as (b & Hm).
    rewrite Hm. cbn [mbind option_bind].
    set (hit := b && negb (is_pluged n)).
    set (num1 := if hit then u8 (num + 1) else num).
    set (n1 := if hit then mk_node (app_name n) 1 else n).
    assert (Hnum1 : num1 = num + truth hit).
    { subst num1. simpl in Hb. destruct hit; simpl; [rewrite u8_small|]; lia. }
    assert (Hn1 : node_ok n1 /\ app_name n1 = app_name n /\ pluged n1 = pluged n + truth hit /\
      is_pluged n1 = is_pluged n || b).
    { subst n1 hit. destruct Hnode as [Hnm Hpl]. destruct b; simpl.
      - destruct Hpl as [Hpl|Hpl]; unfold is_pluged; rewrite Hpl; simpl;
          repeat split; simpl; auto; lia.
      - rewrite orb_false_r. repeat split; auto; lia. }
    destruct Hn1 as (Hok1 & Hnm1 & Hpl1 & Hip1).
    destruct (IH num1 Hl) as (l' & -> & Hl' & Hlen & Hnames & Hlk).
    { destruct hit; simpl in Hnum1; lia. }
    { simpl in Hb. destruct hit; simpl in Hnum1; lia. }
    cbn [mbind option_bind]. exists (n1 :: l'). split; [simpl; do 2 f_equal; lia|].
    split; [constructor; assumption|]. split; [simpl; lia|]. split; [rewrite !fmap_cons, Hnm1, Hnames; reflexivity|].
    intros [|i] x Hi; [|exact (Hlk i x Hi)]. injection Hi as <-. exists n1. split; [reflexivity|].
    rewrite Hip1, Hm. destruct b; reflexivity.
Qed.

Lemma remove_loop_ok l name : forall num, Forall node_ok l -> count_pluged l <= num <= 255 ->
  exists l', remove_loop l name num = Some (l', num + count_pluged l' - count_pluged l) /\
    Forall node_ok l' /\ length l' = length l /\ app_name <$> l' = app_name <$> l /\
    (forall i n, l !! i = Some n -> exists n', l' !! i = Some n' /\
       is_pluged n' = is_pluged n && negb (bool_decide (names_match n name = Some true))).
Proof.
  induction l as [|n l IH]; intros num Hl Hb; cbn [remove_loop].
  - exists []. split; [simpl; do 2 f_equal; lia|]. repeat split; auto. intros i n Hi. discriminate.
  - apply Forall_cons in Hl as [Hnode Hl]. destruct (names_match_ok n name Hnode) as (b & Hm).
    rewrite Hm. cbn [mbind option_bind].
    set (hit := b && is_pluged n).
    set (num1 := if hit then u8 (num - 1) else num).
    set (n1 := if hit then mk_node (app_name n) 0 else n).
    pose proof (count_range l Hl) as Hcr. pose proof (is_pluged_val n Hnode) as Hpv. simpl in Hb.
    assert (Hnum1 : num1 = num - truth hit).
    { subst num1 hit. destruct b, (is_pluged n); simpl in *; try lia. rewrite u8_small; lia. }
    assert (Hn1 : node_ok n1 /\ app_name n1 = app_name n /\ pluged n1 = pluged n - truth hit /\
      is_pluged n1 = is_pluged n && negb b).
    { subst n1 hit. pose proof Hnode as [Hnm Hpl]. destruct b; simpl.
      - destruct Hpl as [Hpl|Hpl]; unfold is_pluged; rewrite Hpl; simpl; repeat split; simpl; auto; lia.
      - rewrite andb_true_r. repeat split; auto; lia. }
    destruct Hn1 as (Hok1 & Hnm1 & Hpl1 & Hip1).
    destruct (IH num1 Hl) as (l' & -> & Hl' & Hlen & Hnames & Hlk).
    { subst hit. destruct b, (is_pluged n); simpl in *; lia. }
    cbn [mbind option_bind]. exists (n1 :: l'). split; [simpl; do 2 f_equal; lia|].
    split; [constructor; assumption|]. split; [simpl; lia|]. split; [rewrite !fmap_cons, Hnm1, Hnames; reflexivity|].
    intros [|i] x Hi; [|exact (Hlk i x Hi)]. injection Hi as <-. exists n1. split; [reflexivity|].
    rewrite Hip1, Hm. destruct b; reflexivity.
Qed.

Lemma with_apps_ok c l num : ctx_ok c -> length l = Z.to_nat (app_num c) -> Forall node_ok l ->
  num = count_pluged l -> ctx_ok (with_apps c (l, num)) /\ apps (with_apps c (l, num)) = l.
Proof.
  intros Hok Hl Hn ->. pose proof (ctx_num c Hok) as H1. pose proof (ctx_len c Hok) as H2. unfold MAX_APP_NUM in H1.
  assert (Ha : apps (with_apps c (l, count_pluged l)) = l).
  { unfold apps, with_apps. simpl. rewrite <- Hl. apply take_app_length. }
  split; [|exact Ha]. split; simpl; rewrite ?Ha; auto.
  - rewrite length_app, length_drop. lia.
  - apply Hok.
  - apply Hok.
Qed.

Lemma add_app_ok c name : ctx_ok c -> exists c', app_switch_add_app c name = Some c' /\ ctx_ok c' /\
  app_num c' = app_num c /\ cur_index c' = cur_index c /\
  forall i n, apps c !! i = Some n -> exists n', apps c' !! i = Some n' /\ app_name n' = app_name n /\
    is_pluged n' = is_pluged n || bool_decide (names_match n name = Some true).
Proof.
  intros Hok. pose proof (ctx_num c Hok) as Hnum. unfold MAX_APP_NUM in Hnum.
  pose proof (count_range _ (ctx_nodes c Hok)) as Hr. pose proof (apps_length c Hok) as Hlen.
  destruct (add_loop_ok (apps c) name (app_actived_num c) (ctx_nodes c Hok)) as (l' & Hadd & Hl' & Hll & Hnm & Hlk);
    rewrite ?(ctx_count c Hok); try lia.
  unfold app_switch_add_app. rewrite Hadd. eexists. split; [reflexivity|].
  destruct (with_apps_ok c l' (app_actived_num c + count_pluged l' - count_pluged (apps c)) Hok) as [Hok' Ha]; auto.
  { congruence. } { rewrite (ctx_count c Hok). lia. }
  split; [exact Hok'|]. split; [reflexivity|]. split; [reflexivity|]. rewrite Ha. intros i n Hi.
  destruct (Hlk i n Hi) as (n' & Hn' & Hp). exists n'. split; [exact Hn'|]. split; [|exact Hp].
  apply (f_equal (fun l => l !! i)) in Hnm. rewrite !list_lookup_fmap, Hi, Hn' in Hnm. simpl in Hnm. congruence.
Qed.

Lemma remove_app_ok c name : ctx_ok c -> exists c', app_switch_remove_app c name = Some c' /\ ctx_ok c' /\
  app_num c' = app_num c /\ cur_index c' = cur_index c /\
  forall i n, apps c !! i = Some n -> exists n', apps c' !! i = Some n' /\ app_name n' = app_name n /\
    is_pluged n' = is_pluged n && negb (bool_decide (names_match n name = Some true)).
Proof.
  intros Hok. pose proof (ctx_num c Hok) as Hnum. unfold MAX_APP_NUM in Hnum.
  pose proof (count_range _ (ctx_nodes c Hok)) as Hr. pose proof (apps_length c Hok) as Hlen.
  destruct (remove_loop_ok (apps c) name (app_actived_num c) (ctx_nodes c Hok)) as (l' & Hadd & Hl' & Hll & Hnm & Hlk);
    rewrite ?(ctx_count c Hok); try lia.
  unfold app_switch_remove_app. rewrite Hadd. eexists. split; [reflexivity|].
  destruct (with_apps_ok c l' (app_actived_num c + count_pluged l' - count_pluged (apps c)) Hok) as [Hok' Ha]; auto.
  { congruence. } { rewrite (ctx_count c Hok). lia. }
  split; [exact Hok'|]. split; [reflexivity|]. split; [reflexivity|]. rewrite Ha. intros i n Hi.
  destruct (Hlk i n Hi) as (n' & Hn' & Hp). exists n'. split; [exact Hn'|]. split; [|exact Hp].
  apply (f_equal (fun l => l !! i)) in Hnm. rewrite !list_lookup_fmap, Hi, Hn' in Hnm. simpl in Hnm. congruence.
Qed.

Lemma set_index_ok c cur last : ctx_ok c -> index_ok c cur -> index_ok c last -> ctx_ok (set_index c cur last).
Proof. intros [H1 H2 H3 H4 H5 H6] Hc Hl. split; auto. Qed.

Lemma init_ok names : 1 <= Z.of_nat (length names) <= MAX_APP_NUM ->
  exists c, app_switch_init names = Some c /\ ctx_ok c.
Proof.
  intros Hn. unfold app_switch_init. rewrite (proj2 (Z.leb_le _ _)) by lia. eexists. split; [reflexivity|].
  unfold MAX_APP_NUM in *. set (l := (fun s => mk_node (Some s) 0) <$> names).
  assert (Hlen : length l = length names) by apply length_fmap.
  assert (Hl : Forall node_ok l /\ count_pluged l = 0).
  { subst l. clear. induction names as [|s names [IH1 IH2]]; [split; [constructor|reflexivity]|].
    split; [constructor; [split; [discriminate|left; reflexivity]|exact IH1]|exact IH2]. }
  rewrite u8_small by lia.
  assert (Ha : forall r, take (Z.to_nat (Z.of_nat (length names))) (l ++ r) = l).
  { intros r. rewrite Nat2Z.id, <- Hlen. apply take_app_length. }
  split; unfold apps; cbn [app_num app_list app_actived_num cur_index last_index]; rewrite ?Ha; try tauto; try lia.
  - rewrite length_app, length_replicate, Hlen. lia.
  - left. reflexivity.
  - left. reflexivity.
Qed.

(** ** Stepping through the list *)

Section Step.
Context (c : app_switch_ctx).
Hypothesis Hok : ctx_ok c.

(** The plugged flag of application [i]. *)
Definition plugged_at (i : Z) : bool :=
  match app_list c !! Z.to_nat i with Some n => is_pluged n | None => false end.

Definition dir (mode : Z) : Z := if mode =? APP_SWITCH_NEXT then 1 else -1.
Definition stepping (mode : Z) : Prop := mode = APP_SWITCH_NEXT \/ mode = APP_SWITCH_PREV.

(** The application [k] steps away. *)
Definition step_from (mode x k : Z) : Z := (x + dir mode * k) mod app_num c.

Lemma step_range mode x k : 0 <= step_from mode x k < app_num c.
Proof. pose proof (ctx_num c Hok). apply Z.mod_pos_bound. lia. Qed.

Lemma step_step mode x j k : step_from mode (step_from mode x j) k = step_from mode x (j + k).
Proof. unfold step_from. rewrite Zplus_mod_idemp_l. f_equal. lia. Qed.

Lemma target_step mode x last t : stepping mode ->
  target_index (set_index c x last) None mode false t = Some (step_from mode x 1).
Proof.
  intros Hm. pose proof (ctx_num c Hok). unfold target_index, step_from, dir. cbn [app_num cur_index set_index].
  destruct (Z.eqb_spec (app_num c) 0); [lia|].
  destruct Hm as [->| ->]; cbn; f_equal.
  replace (x - 1 + app_num c) with (x + -1 + 1 * app_num c) by lia. apply Z.mod_add. lia.
Qed.

(** One step never leads back to where it started, but for a single application. *)
Lemma step_ne mode x : stepping mode -> index_ok c x -> x = 0xff \/ 2 <= app_num c -> step_from mode x 1 <> x.
Proof.
  intros Hm Hx Hn Heq. pose proof (ctx_num c Hok). pose proof (step_range mode x 1) as Hr. unfold MAX_APP_NUM in *.
  destruct Hx as [->|Hx]; [lia|]. assert (Hn2 : 2 <= app_num c) by lia. clear Hn Hr.
  revert Heq. unfold step_from, dir. destruct Hm as [->| ->]; cbn -[Z.modulo Z.add Z.mul].
  - destruct (Z.eq_dec (x + 1) (app_num c)) as [He|].
    + replace (x + 1 * 1) with (0 + 1 * app_num c) by lia. rewrite Z.mod_add, Z.mod_0_l by lia. lia.
    + rewrite Z.mod_small by lia. lia.
  - destruct (Z.eq_dec x 0) as [->|].
    + replace (0 + -1 * 1) with (app_num c - 1 + -1 * app_num c) by lia. rewrite Z.mod_add, Z.mod_small by lia. lia.
    + rewrite Z.mod_small by lia. lia.
Qed.

Lemma switch_walk mode k : stepping mode -> forall rounds x last t,
  index_ok c x -> x = 0xff \/ 2 <= app_num c -> (Z.of_nat k = 0 \/ 2 <= app_num c) ->
  (forall j, 1 <= j <= Z.of_nat k -> plugged_at (step_from mode x j) = false) ->
  switch_loop (k + rounds) (set_index c x last) None mode false t =
  match k with
  | O => switch_loop rounds (set_index c x last) None mode false t
  | S k' => switch_loop rounds
      (set_index c (step_from mode x (Z.of_nat k))
         (if (k =? 1)%nat then x else step_from mode x (Z.of_nat k'))) None mode false (step_from mode x (Z.of_nat k))
  end.
Proof.
  intros Hm. induction k as [|k IH]; intros rounds x last t Hx Hxn Hkn Hun; [reflexivity|].
  cbn [Nat.add switch_loop]. rewrite (target_step mode x last t Hm). cbn [cur_index set_index].
  pose proof (step_range mode x 1) as Hr. pose proof (ctx_num c Hok). unfold MAX_APP_NUM in *.
  destruct (Z.eqb_spec (step_from mode x 1) x) as [Heq|_]; [exfalso; exact (step_ne mode x Hm Hx Hxn Heq)|].
  destruct (Z.ltb_spec (step_from mode x 1) 0); [lia|]. simpl (_ || _). cbv iota zeta. rewrite u8_small by lia.
  destruct (app_at c (step_from mode x 1) Hok Hr) as (n & Hn & _).
  change (set_index (set_index c x last) (step_from mode x 1) x) with (set_index c (step_from mode x 1) x).
  change (app_list (set_index c (step_from mode x 1) x)) with (app_list c). rewrite Hn. specialize (Hun 1 ltac:(lia)) as Hun1. unfold plugged_at in Hun1. rewrite Hn in Hun1.
  rewrite Hun1. simpl (negb _ && _). cbv iota.
  replace (mode =? APP_SWITCH_LAST) with false by (destruct Hm as [->| ->]; reflexivity).
  rewrite IH; [|right; exact Hr|lia|lia|].
  2: { intros j Hj. rewrite step_step. apply Hun. lia. }
  destruct k as [|k]; [reflexivity|]. rewrite !step_step.
  replace (1 + Z.of_nat (S k)) with (Z.of_nat (S (S k))) by lia.
  destruct k as [|k]; [reflexivity|]. cbn [Nat.eqb].
  replace (1 + Z.of_nat (S k)) with (Z.of_nat (S (S k))) by lia. reflexivity.
Qed.

(** The steps visit every application. *)
Lemma step_cover mode x j : stepping mode -> 0 <= j < app_num c ->
  exists k, 1 <= k <= app_num c /\ step_from mode x k = j.
Proof.
  intros Hm Hj. pose proof (ctx_num c Hok). set (E := dir mode * (j - x) - 1).
  exists (1 + E mod app_num c). pose proof (Z.mod_pos_bound E (app_num c) ltac:(lia)). split; [lia|].
  unfold step_from. rewrite (Z.mod_eq E (app_num c)) by lia.
  replace (x + dir mode * (1 + (E - app_num c * (E / app_num c))))
    with (j + (- dir mode * (E / app_num c)) * app_num c).
  - rewrite Z.mod_add by lia. apply Z.mod_small. lia.
  - subst E. unfold dir. destruct Hm as [->| ->]; cbn -[Z.div Z.mul Z.add Z.sub]; ring.
Qed.

(** The first plugged application on the way, if there is one. *)
Lemma first_step mode x : stepping mode -> (exists j, 0 <= j < app_num c /\ plugged_at j = true) ->
  exists k, Z.of_nat k < app_num c /\ plugged_at (step_from mode x (Z.of_nat k + 1)) = true /\
    forall j, 1 <= j <= Z.of_nat k -> plugged_at (step_from mode x j) = false.
Proof.
  intros Hm (j & Hj & Hpl). destruct (step_cover mode x j Hm Hj) as (k0 & Hk0 & Hstep).
  assert (Hmin : forall m, (forall i, 1 <= i <= Z.of_nat m -> plugged_at (step_from mode x i) = false) \/
    exists k, (k < m)%nat /\ plugged_at (step_from mode x (Z.of_nat k + 1)) = true /\
      forall i, 1 <= i <= Z.of_nat k -> plugged_at (step_from mode x i) = false).
  { induction m as [|m [IH|(k & Hk & IH)]]; [left; lia| |right; exists k; split; [lia|exact IH]].
    destruct (plugged_at (step_from mode x (Z.of_nat m + 1))) eqn:Hp.
    - right. exists m. auto.
    - left. intros i Hi. destruct (Z.eq_dec i (Z.of_nat m + 1)) as [->|]; [exact Hp|]. apply IH. lia. }
  destruct (Hmin (Z.to_nat (app_num c))) as [Hno|(k & Hk & Hrest)].
  - rewrite <- Hstep, Hno in Hpl by lia. discriminate.
  - exists k. split; [lia|exact Hrest].
Qed.

Lemma plugged_exists : 1 <= app_actived_num c -> exists j, 0 <= j < app_num c /\ plugged_at j = true.
Proof.
  rewrite (ctx_count c Hok). intros H1.
  assert (Hex : exists i n, apps c !! i = Some n /\ is_pluged n = true).
  { pose proof (ctx_nodes c Hok) as Hn. revert H1. induction Hn as [|n l Hn _ IH]; simpl; [lia|].
    rewrite (is_pluged_val n Hn). intros H1. destruct (is_pluged n) eqn:Hp.
    - exists 0%nat, n. auto.
    - destruct IH as (i & n' & Hi & Hp'); [simpl in H1; lia|]. exists (S i), n'. auto. }
  destruct Hex as (i & n & Hi & Hp). pose proof (lookup_lt_Some _ _ _ Hi) as Hlt.
  rewrite (apps_length c Hok) in Hlt. exists (Z.of_nat i). split; [lia|]. unfold plugged_at.
  rewrite <- apps_lookup by lia. rewrite Nat2Z.id, Hi. exact Hp.
Qed.

Lemma none_plugged j : app_actived_num c = 0 -> 0 <= j < app_num c -> plugged_at j = false.
Proof.
  rewrite (ctx_count c Hok). intros H0 Hj. unfold plugged_at.
  destruct (app_at c j Hok Hj) as (n & Hn & _). rewrite Hn. rewrite <- apps_lookup in Hn by exact Hj.
  revert H0 Hn. generalize (Z.to_nat j). pose proof (ctx_nodes c Hok) as Hns.
  induction Hns as [|x l Hx Hl IH]; intros i H0 Hi; [discriminate|]. simpl in H0.
  pose proof (count_range l Hl). rewrite (is_pluged_val x Hx) in H0.
  destruct i as [|i]; [injection Hi as <-; destruct (is_pluged x); [simpl in H0; lia|reflexivity]|].
  apply (IH i); [destruct (is_pluged x); simpl in H0; lia|exact Hi].
Qed.

(** The whole walk, when some application is plugged. *)
Lemma switch_to_first mode rounds t : stepping mode -> 1 <= app_actived_num c ->
  cur_index c = 0xff \/ 2 <= app_num c -> app_num c <= Z.of_nat rounds ->
  exists k node, 1 <= k <= app_num c /\ app_list c !! Z.to_nat (step_from mode (cur_index c) k) = Some node /\
    is_pluged node = true /\
    (forall j, 1 <= j < k -> plugged_at (step_from mode (cur_index c) j) = false) /\
    switch_loop rounds c None mode false t =
      SwitchDone (Some node, set_index c (step_from mode (cur_index c) k)
        (if k =? 1 then cur_index c else step_from mode (cur_index c) (k - 1))).
Proof.
  intros Hm Hact Hxn Hr. pose proof (ctx_num c Hok) as Hnum. unfold MAX_APP_NUM in Hnum.
  destruct (first_step mode (cur_index c) Hm (plugged_exists Hact)) as (k & Hk & Hpl & Hun).
  set (x := cur_index c) in *. set (i := step_from mode x (Z.of_nat k + 1)) in *.
  pose proof (step_range mode x (Z.of_nat k + 1)) as Hi. fold i in Hi.
  destruct (app_at c i Hok Hi) as (node & Hnode & _).
  unfold plugged_at in Hpl. rewrite Hnode in Hpl. exists (Z.of_nat k + 1), node. split; [lia|].
  split; [exact Hnode|]. split; [exact Hpl|]. split; [intros j Hj; apply Hun; lia|].
  assert (Hlast : forall y last t', index_ok c y -> y = 0xff \/ 2 <= app_num c -> step_from mode y 1 = i ->
    switch_loop (rounds - k) (set_index c y last) None mode false t' = SwitchDone (Some node, set_index c i y)).
  { intros y last t' Hy Hyn Hyi. destruct (rounds - k)%nat as [|r] eqn:Hrk; [lia|]. cbn [switch_loop].
    rewrite (target_step mode y last t' Hm). cbn [cur_index set_index].
    destruct (Z.eqb_spec (step_from mode y 1) y) as [Heq|_]; [exfalso; exact (step_ne mode y Hm Hy Hyn Heq)|].
    rewrite Hyi. destruct (Z.ltb_spec i 0); [lia|]. simpl (_ || _). cbv iota zeta. rewrite u8_small by lia.
    change (set_index (set_index c y last) i y) with (set_index c i y).
    change (app_list (set_index c i y)) with (app_list c). rewrite Hnode, Hpl. reflexivity. }
  replace c with (set_index c x (last_index c)) at 1 by (destruct c; reflexivity).
  replace rounds with (k + (rounds - k))%nat at 1 by lia.
  rewrite (switch_walk mode k Hm _ x _ t (ctx_cur c Hok) Hxn ltac:(lia) Hun).
  destruct k as [|k]; [apply Hlast; [apply Hok|exact Hxn|reflexivity]|].
  rewrite Hlast.
  - replace (Z.of_nat (S k) + 1 =? 1) with false by (symmetry; apply Z.eqb_neq; lia).
    replace (Z.of_nat (S k) + 1 - 1) with (Z.of_nat (S k)) by lia. reflexivity.
  - right. apply step_range.
  - lia.
  - apply step_step.
Qed.

Lemma walk_endless mode rounds t : stepping mode -> app_actived_num c = 0 -> 2 <= app_num c ->
  switch_loop rounds c None mode false t = Running.
Proof.
  intros Hm H0 Hn. replace c with (set_index c (cur_index c) (last_index c)) by (destruct c; reflexivity).
  rewrite <- (Nat.add_0_r rounds), (switch_walk mode rounds Hm); auto.
  - destruct rounds; reflexivity.
  - apply Hok.
  - intros j _. apply (none_plugged _ H0), step_range.
Qed.

End Step.

(** ** Switching by name *)

Definition hit (name : string) (force_switch : bool) (n : app_switch_node) : Prop :=
  names_match n name = Some true /\ is_pluged n || force_switch = true.

Lemma find_app_ok l name force : forall i t, Forall node_ok l ->
  exists r, find_app l i name force t = Some r /\
    ((r = t /\ forall k n, l !! k = Some n -> ~ hit name force n) \/
     exists k n, r = i + Z.of_nat k /\ l !! k = Some n /\ hit name force n /\
       forall k' n', (k < k')%nat -> l !! k' = Some n' -> ~ hit name force n').
Proof.
  induction l as [|n l IH]; intros i t Hl; cbn [find_app].
  - exists t. split; [reflexivity|]. left. split; [reflexivity|]. intros k n Hk. discriminate.
  - apply Forall_cons in Hl as [Hn Hl]. destruct (names_match_ok n name Hn) as (b & Hm). rewrite Hm.
    cbn [mbind option_bind]. set (t' := if b && (is_pluged n || force) then i else t).
    destruct (IH (i + 1) t' Hl) as (r & -> & [[-> Hno]|(k & x & -> & Hk & Hh & Hmax)]);
      (eexists; split; [reflexivity|]).
    + subst t'. destruct (b && (is_pluged n || force)) eqn:Hb.
      * right. exists 0%nat, n. apply andb_true_iff in Hb as [-> Hb]. split; [lia|]. split; [reflexivity|].
        split; [split; assumption|]. intros [|k'] n' Hk' Hlk; [lia|]. exact (Hno k' n' Hlk).
      * left. split; [reflexivity|]. intros [|k] x Hk; [|exact (Hno k x Hk)]. injection Hk as <-.
        intros [Hm' Hp]. rewrite Hm in Hm'. injection Hm' as ->. rewrite Hp in Hb. discriminate.
    + right. exists (S k), x. split; [lia|]. split; [exact Hk|]. split; [exact Hh|].
      intros [|k'] n' Hk' Hlk; [lia|]. apply (Hmax k' n'); [lia|exact Hlk].
Qed.

(** Every way through the loop keeps the invariant. *)
Lemma target_ok c name mode force t i : ctx_ok c -> (t < 0 \/ 0 <= t < app_num c) ->
  target_index c name mode force t = Some i -> i < 0 \/ index_ok c i.
Proof.
  intros Hok Ht. pose proof (ctx_num c Hok) as Hn. unfold target_index. destruct name as [s|].
  - destruct (find_app_ok (apps c) s force 0 t (ctx_nodes c Hok)) as (r & -> & Hr). intros [= <-].
    destruct Hr as [[-> _]|(k & n & -> & Hk & _)]; [unfold index_ok; lia|]. right. right.
    apply lookup_lt_Some in Hk. rewrite (apps_length c Hok) in Hk. lia.
  - destruct (Z.eqb_spec (app_num c) 0); [lia|].
    destruct (mode =? APP_SWITCH_NEXT); [|destruct (mode =? APP_SWITCH_PREV)]; intros [= <-];
      right; [right; apply Z.mod_pos_bound; lia..|apply Hok].
Qed.

Lemma switch_loop_ok rounds : forall c name mode force t r c', ctx_ok c ->
  (t < 0 \/ 0 <= t < app_num c) ->
  switch_loop rounds c name mode force t = SwitchDone (r, c') ->
  ctx_ok c' /\ app_num c' = app_num c /\ app_list c' = app_list c.
Proof.
  induction rounds as [|rounds IH]; intros c name mode force t r c' Hok Ht; cbn [switch_loop]; [discriminate|].
  destruct (target_index c name mode force t) as [i|] eqn:Hi; [|discriminate].
  pose proof (target_ok c name mode force t i Hok Ht Hi) as Hti.
  pose proof (ctx_num c Hok) as Hn. pose proof (ctx_len c Hok) as Hlen. unfold MAX_APP_NUM in Hn.
  destruct (Z.eqb_spec i (cur_index c)) as [_|_]; [intros [= <- <-]; auto|].
  destruct (Z.ltb_spec i 0); [intros [= <- <-]; auto|]. simpl.
  destruct Hti as [|Hti]; [lia|]. rewrite u8_small by (destruct Hti; lia).
  destruct (app_list c !! Z.to_nat i) as [node|] eqn:Hnode; [|discriminate].
  assert (Hi' : 0 <= i < app_num c).
  { destruct Hti as [->|]; [|assumption]. apply lookup_lt_Some in Hnode. lia. }
  assert (Hok' : ctx_ok (set_index c i (cur_index c))).
  { apply set_index_ok; auto. apply Hok. }
  destruct (negb (is_pluged node) && negb force).
  - intros Hl. apply (IH _ _ _ _ _ _ _ Hok') in Hl; [exact Hl|]. right. exact Hi'.
  - intros [= <- <-]. auto.
Qed.

Section Theorems.
Context {M : Type} `{AppManager M}.

(** The states of the switcher and of the application manager. *)
Inductive switch_reach : app_switch_ctx -> M -> Prop :=
  | sw_init names c m : 1 <= Z.of_nat (length names) <= MAX_APP_NUM ->
      app_switch_init names = Some c -> switch_reach c m
  | sw_add c m name c' : switch_reach c m -> app_switch_add_app c name = Some c' -> switch_reach c' m
  | sw_remove c m name c' : switch_reach c m -> app_switch_remove_app c name = Some c' -> switch_reach c' m
  | sw_lock c m l f : switch_reach c m -> switch_reach (set_locks c l f) m
  | sw_switch c m rounds name mode force ret c' m' : switch_reach c m ->
      app_switch rounds c m name mode force = SwitchDone (ret, c', m') -> switch_reach c' m'
  | sw_manager c m m' : switch_reach c m -> switch_reach c m'.

Lemma app_switch_step c m rounds name mode force ret c' m' : ctx_ok c ->
  app_switch rounds c m name mode force = SwitchDone (ret, c', m') -> ctx_ok c'.
Proof.
  intros Hok. unfold app_switch. destruct (blocked c m name force) as [[|]|]; [intros [= _ <- _]; exact Hok| |discriminate].
  destruct (switch_loop rounds c name mode force (-1)) as [[r c1]| |] eqn:Hl; [|discriminate..].
  destruct (switch_loop_ok rounds c name mode force (-1) r c1 Hok ltac:(lia) Hl) as (Hok1 & _).
  destruct r as [node|]; [|intros [= _ <- _]; exact Hok1].
  destruct (app_name node) as [s|]; [|discriminate]. destruct (active_app m s) as [[ret' m1]|]; [|discriminate].
  intros [= _ <- _]. exact Hok1.
Qed.

Lemma switch_reach_ok c m : switch_reach c m -> ctx_ok c.
Proof.
  induction 1 as [names c m Hn Hi|c m name c' _ IH Ha|c m name c' _ IH Ha|c m l f _ IH
    |c m rounds name mode force ret c' m' _ IH Hs|c m m' _ IH].
  - destruct (init_ok names Hn) as (c' & Hc & Hok). congruence.
  - destruct (add_app_ok c name IH) as (c1 & Hc & Hok & _). congruence.
  - destruct (remove_app_ok c name IH) as (c1 & Hc & Hok & _). congruence.
  - destruct IH. split; auto.
  - exact (app_switch_step _ _ _ _ _ _ _ _ _ IH Hs).
  - exact IH.
Qed.

Lemma blocked_step c m : ctx_ok c -> force_locked c = 0 -> locked c = 0 ->
  blocked c m None false = Some ((app_actived_num c <=? 1) && negb (cur_index c =? 0xff) && plugged_at c (cur_index c)).
Proof.
  intros Hok Hf Hl. unfold blocked. rewrite Hf, Hl. rewrite bool_decide_false by (intros [? _]; contradiction).
  simpl. destruct (app_actived_num c <=? 1); [|reflexivity].
  destruct (Z.eqb_spec (cur_index c) 255) as [|Hne]; [reflexivity|]. simpl.
  destruct (ctx_cur c Hok) as [|Hc]; [contradiction|].
  destruct (app_at c (cur_index c) Hok Hc) as (n & Hn & _). unfold plugged_at. rewrite Hn. simpl.
  rewrite andb_true_r. reflexivity.
Qed.

(** Without a block there is an application to step to. *)
Lemma unblocked_index c : ctx_ok c -> 1 <= app_actived_num c ->
  (app_actived_num c <=? 1) && negb (cur_index c =? 0xff) && plugged_at c (cur_index c) = false ->
  cur_index c = 0xff \/ 2 <= app_num c.
Proof.
  intros Hok Hact Hb. destruct (Z.eq_dec (cur_index c) 255) as [|Hne]; [auto|]. right.
  destruct (ctx_cur c Hok) as [|Hc]; [contradiction|].
  destruct (Z.eq_dec (app_num c) 1) as [H1|]; [|lia]. exfalso.
  destruct (plugged_exists c Hok Hact) as (j & Hj & Hp).
  replace j with (cur_index c) in Hp by lia. rewrite Hp, andb_true_r in Hb.
  pose proof (count_range _ (ctx_nodes c Hok)) as Hc1. rewrite <- (ctx_count c Hok), (apps_length c Hok) in Hc1.
  rewrite (proj2 (Z.leb_le _ _)), (proj2 (Z.eqb_neq _ _)) in Hb by lia. discriminate.
Qed.

End Theorems.

(** In every reachable state of the switcher the indices of the current and
    of the last application are valid or 0xff, every registered entry has a
    name, and [app_actived_num] is the number of plugged applications; [add]
    and [remove] never fail. *)
Theorem app_switch_invariant `{AppManager M} (c : app_switch_ctx) (m : M) (name : string) :
  switch_reach c m ->
  1 <= app_num c <= MAX_APP_NUM /\ index_ok c (cur_index c) /\ index_ok c (last_index c) /\
  app_actived_num c = count_pluged (apps c) /\
  (exists c', app_switch_add_app c name = Some c' /\
     forall i n, apps c !! i = Some n -> exists n', apps c' !! i = Some n' /\ app_name n' = app_name n /\
       is_pluged n' = is_pluged n || bool_decide (names_match n name = Some true)) /\
  (exists c', app_switch_remove_app c name = Some c' /\
     forall i n, apps c !! i = Some n -> exists n', apps c' !! i = Some n' /\ app_name n' = app_name n /\
       is_pluged n' = is_pluged n && negb (bool_decide (names_match n name = Some true))).
Proof.
  intros Hr. pose proof (switch_reach_ok c m Hr) as Hok.
  destruct (add_app_ok c name Hok) as (c1 & H1 & _ & _ & _ & H2).
  destruct (remove_app_ok c name Hok) as (c2 & H3 & _ & _ & _ & H4).
  destruct Hok. repeat (split; [assumption|]). split; [exists c1; auto|exists c2; auto].
Qed.

(** C16: Stepping to the next or previous application without force terminates
    within one round per application as soon as one application is plugged:
    either the only plugged application is the current one and nothing
    happens, or the manager is asked for the first plugged application on the
    way, which becomes the current index and, when the call succeeds for a
    foreground application, the manager's current application.  The last
    index becomes the previous stop on the way: the application that was
    current only if no unplugged one was passed. *)
Theorem app_switch_steps `{AppManager M} (c : app_switch_ctx) (m : M) (mode : Z) (rounds : nat) :
  ctx_ok c -> force_locked c = 0 -> locked c = 0 -> stepping mode -> 1 <= app_actived_num c ->
  app_num c <= Z.of_nat rounds ->
  (app_actived_num c = 1 /\ plugged_at c (cur_index c) = true /\
   app_switch rounds c m None mode false = SwitchDone (0, c, m)) \/
  exists k node s, 1 <= k <= app_num c /\
    app_list c !! Z.to_nat (step_from c mode (cur_index c) k) = Some node /\
    is_pluged node = true /\ app_name node = Some s /\
    (forall j, 1 <= j < k -> plugged_at c (step_from c mode (cur_index c) j) = false) /\
    (forall m', active_app m s = Some (true, m') -> foreground m s -> get_current_app m' = Some s) /\
    app_switch rounds c m None mode false =
      match active_app m s with
      | None => SwitchFault
      | Some (ret, m') =>
          SwitchDone (truth ret, set_index c (step_from c mode (cur_index c) k)
            (if k =? 1 then cur_index c else step_from c mode (cur_index c) (k - 1)), m')
      end.
Proof.
  intros Hok Hf Hl Hm Hact Hr. unfold app_switch. rewrite (blocked_step c m Hok Hf Hl).
  destruct ((app_actived_num c <=? 1) && negb (cur_index c =? 255) && plugged_at c (cur_index c)) eqn:Hb.
  { left. rewrite !andb_true_iff, Z.leb_le in Hb. destruct Hb as [[H1 _] H2]. split; [lia|]. auto. }
  right. pose proof (unblocked_index c Hok Hact Hb) as Hxn.
  destruct (switch_to_first c Hok mode rounds (-1) Hm Hact Hxn Hr) as (k & node & Hk & Hnode & Hp & Hun & ->).
  destruct (app_at c _ Hok (step_range c Hok mode (cur_index c) k)) as (n' & Hn' & [Hname _]).
  rewrite Hnode in Hn'. injection Hn' as <-. destruct (app_name node) as [s|] eqn:Hs; [|contradiction].
  exists k, node, s. do 5 (split; [assumption|]). split; [|reflexivity].
  intros m' Ha Hfg. exact (active_app_current m s m' Hfg Ha).
Qed.

(** When several applications are registered and none is plugged, stepping
    never leaves the loop around the label [next]: the call hangs, with the
    mutex of the switcher held. *)
Theorem app_switch_endless `{AppManager M} (c : app_switch_ctx) (m : M) (mode : Z) (rounds : nat) :
  ctx_ok c -> force_locked c = 0 -> locked c = 0 -> stepping mode -> app_actived_num c = 0 ->
  2 <= app_num c ->
  app_switch rounds c m None mode false = Running.
Proof.
  intros Hok Hf Hl Hm H0 Hn. unfold app_switch. rewrite (blocked_step c m Hok Hf Hl).
  replace (_ && _) with false.
  - rewrite (walk_endless c Hok mode rounds (-1) Hm H0 Hn). reflexivity.
  - symmetry. apply andb_false_iff. destruct (ctx_cur c Hok) as [->|Hc]; [left; apply andb_false_r|right].
    exact (none_plugged c Hok _ H0 Hc).
Qed.

(** Asking for the last application before there is one - after the first
    switch since start-up - reads [app_list[255]], far outside of the array. *)
Theorem app_switch_last_fault `{AppManager M} (c : app_switch_ctx) (m : M) (force : bool) (rounds : nat) :
  ctx_ok c -> blocked c m None force = Some false -> last_index c = 0xff -> cur_index c <> 0xff ->
  app_switch (S rounds) c m None APP_SWITCH_LAST force = SwitchFault.
Proof.
  intros Hok Hb Hl Hc. unfold app_switch. rewrite Hb. cbn [switch_loop]. unfold target_index.
  change (APP_SWITCH_LAST =? APP_SWITCH_NEXT) with false. change (APP_SWITCH_LAST =? APP_SWITCH_PREV) with false.
  cbv iota. rewrite Hl. destruct (Z.eqb_spec 255 (cur_index c)); [congruence|]. simpl (_ || _). cbv iota zeta.
  cbn [app_list cur_index set_index]. rewrite lookup_ge_None_2; [reflexivity|]. rewrite (ctx_len c Hok).
  change (u8 255) with 255. lia.
Qed.

(** Switching by name activates the last registered application whose name
    begins with the given one and that is plugged (or any, with force); if
    there is none, or if it is the current one, the call returns 0xff and
    changes nothing. *)
Theorem app_switch_by_name `{AppManager M} (c : app_switch_ctx) (m : M) (name : string) (mode : Z)
    (force : bool) (rounds : nat) :
  ctx_ok c -> blocked c m (Some name) force = Some false ->
  (app_switch (S rounds) c m (Some name) mode force = SwitchDone (0xff, c, m) /\
   ((forall k n, apps c !! k = Some n -> ~ hit name force n) \/
    exists n, apps c !! Z.to_nat (cur_index c) = Some n /\ hit name force n)) \/
  exists k n s, apps c !! k = Some n /\ hit name force n /\ app_name n = Some s /\
    Z.of_nat k <> cur_index c /\
    (forall k' n', (k < k')%nat -> apps c !! k' = Some n' -> ~ hit name force n') /\
    app_switch (S rounds) c m (Some name) mode force =
      match active_app m s with
      | None => SwitchFault
      | Some (ret, m') => SwitchDone (truth ret, set_index c (Z.of_nat k) (cur_index c), m')
      end.
Proof.
  intros Hok Hb. unfold app_switch. rewrite Hb. cbn [switch_loop target_index].
  destruct (find_app_ok (apps c) name force 0 (-1) (ctx_nodes c Hok)) as (r & -> & Hr).
  destruct Hr as [[-> Hno]|(k & n & -> & Hk & Hh & Hmax)].
  { left. rewrite orb_true_r. auto. }
  pose proof (lookup_lt_Some _ _ _ Hk) as Hlt. rewrite (apps_length c Hok) in Hlt.
  pose proof (ctx_num c Hok) as Hn. unfold MAX_APP_NUM in Hn. rewrite Z.add_0_l.
  destruct (Z.eqb_spec (Z.of_nat k) (cur_index c)) as [Heq|Hne].
  { left. split; [reflexivity|]. right. exists n. rewrite <- Heq, Nat2Z.id. auto. }
  right. destruct (Z.ltb_spec (Z.of_nat k) 0); [lia|]. simpl (_ || _). cbv iota zeta.
  cbn [app_list cur_index set_index]. rewrite u8_small, <- apps_lookup, Nat2Z.id, Hk by lia.
  replace (negb (is_pluged n) && negb force) with false
    by (destruct Hh as [_ Hp]; destruct (is_pluged n), force; (reflexivity || discriminate)).
  pose proof (Forall_lookup_1 _ _ _ _ (ctx_nodes c Hok) Hk) as [Hname _].
  destruct (app_name n) as [s|] eqn:Hs; [|contradiction].
  exists k, n, s. auto 10.
Qed.

(** ** Concrete instances *)

(** A manager that activates what it is asked for. *)
#[local] Instance plain_manager : AppManager (option string).
Proof.
  refine {| get_current_app := fun m => m; active_app := fun _ s => Some (true, Some s);
            foreground := fun _ _ => True |}.
  intros m s m' _ [= <-]. reflexivity.
Defined.

Definition sample_names : list string := ["btmusic"; "btcall"; "linein"]%string.
Definition no_ctx : app_switch_ctx := mk_ctx 0 0 0 0 0 0 [].
Definition sample_init : app_switch_ctx := default no_ctx (app_switch_init sample_names).
Definition sample_ctx : app_switch_ctx := default no_ctx (app_switch_add_app sample_init "linein").

Lemma sample_init_reach : switch_reach sample_init (None : option string).
Proof. apply (sw_init sample_names); [unfold MAX_APP_NUM; simpl; lia|reflexivity]. Qed.

Lemma switch_sample_reach : switch_reach sample_ctx (None : option string).
Proof. apply (sw_add sample_init None "linein"); [exact sample_init_reach|reflexivity]. Qed.

Lemma app_switch_invariant_witness : app_actived_num sample_ctx = count_pluged (apps sample_ctx).
Proof. apply (app_switch_invariant sample_ctx (None : option string) "btcall" switch_sample_reach). Defined.

Lemma app_switch_steps_witness : exists k node, 1 <= k <= 3 /\
  app_list sample_ctx !! Z.to_nat (step_from sample_ctx APP_SWITCH_PREV 0xff k) = Some node /\ is_pluged node = true.
Proof.
  destruct (app_switch_steps sample_ctx (None : option string) APP_SWITCH_PREV 3) as [(_ & H & _)|(k & node & s & Hk & Hn & Hp & _)].
  - exact (switch_reach_ok _ _ switch_sample_reach).
  - reflexivity.
  - reflexivity.
  - right. reflexivity.
  - vm_compute. congruence.
  - vm_compute. congruence.
  - exfalso. revert H. vm_compute. discriminate.
  - exists k, node. auto.
Defined.

Lemma app_switch_endless_witness :
  app_switch 1000 sample_init (None : option string) None APP_SWITCH_NEXT false = Running.
Proof.
  apply app_switch_endless; [exact (switch_reach_ok _ _ sample_init_reach)|reflexivity|reflexivity|left; reflexivity
    |reflexivity|vm_compute; congruence].
Defined.

(** The state after the first switch since start-up. *)
Definition after_first : app_switch_ctx :=
  match app_switch 3 sample_ctx (None : option string) None APP_SWITCH_PREV false with
  | SwitchDone (_, c, _) => c
  | _ => no_ctx
  end.

Lemma after_first_ok : ctx_ok after_first.
Proof.
  refine (app_switch_step sample_ctx (None : option string) 3 None APP_SWITCH_PREV false _ _ _ _ _);
    [exact (switch_reach_ok _ _ switch_sample_reach)|reflexivity].
Qed.

Lemma app_switch_last_fault_witness :
  app_switch 3 after_first (None : option string) None APP_SWITCH_LAST true = SwitchFault.
Proof.
  apply (app_switch_last_fault after_first (None : option string) true 2);
    [exact after_first_ok|reflexivity|reflexivity|vm_compute; congruence].
Defined.

Lemma app_switch_by_name_witness :
  exists k n s, apps sample_ctx !! k = Some n /\ hit "line" false n /\ app_name n = Some s /\
    app_switch 1 sample_ctx (None : option string) (Some "line"%string) APP_SWITCH_CURR false =
      match active_app (None : option string) s with
      | None => SwitchFault
      | Some (ret, m') => SwitchDone (truth ret, set_index sample_ctx (Z.of_nat k) (cur_index sample_ctx), m')
      end.
Proof.
  destruct (app_switch_by_name sample_ctx (None : option string) "line" APP_SWITCH_CURR false 0)
    as [[H _]|(k & n & s & H1 & H2 & H3 & _ & _ & H4)].
  - exact (switch_reach_ok _ _ switch_sample_reach).
  - reflexivity.
  - exfalso. revert H. vm_compute. discriminate.
  - exists k, n, s. auto.
Defined.
