(* ===== verification/AppManager.v ===== *)
(** * Applications, services and message receivers
      (framework/base/core/app_manager.c, srv_manager.c, msg_manager.c)

    The three managers share one state: the list of running applications with
    the active, previous and default application, the list of running
    services, and the list of message receivers by name.  Entry tables are
    made by the linker and are parameters, as are the kernel's answers: the
    thread identifier that [os_thread_create] returns (0 for failure) and
    whether [os_send_async_msg] finds a free message.

    [app_manager_exit_app] sends MSG_EXIT_APP and waits until the application's
    thread has called [app_manager_thread_exit] with its name; the model runs
    that call at this point.  [None] is the access through the NULL pointer
    [actived_app].  A request for memory is never refused with NULL for these
    sizes (see the file HeapProof), so the branches for it are left out. *)

From stdpp Require Import base list numbers strings.
From S2P Require Import Prelude AppSwitch.
Open Scope Z_scope.

(** ** Data *)

Definition FOREGROUND_APP : Z := 2.
Definition APP_ATRTRIBUTE_MASK : Z := 0x0f.
Definition DEFAULT_APP : Z := 0x10.
Definition ALL_RECEIVER_NAME : string := "all".

Record app_entry_t : Type := mk_entry {
  name : string;
  stack : Z;
  attribute : Z;
  thread_loop : Z        (* function pointer *)
}.

Record app_info : Type := mk_info {
  info_name : string;
  tid : Z;
  stackptr : Z;
  entry : nat            (* index in the entry table *)
}.

Record msg_listener : Type := mk_listener { listener_name : string; listener_tid : Z }.

Record managers : Type := mk_managers {
  global_app_list : list app_info;
  actived_app : option nat;
  prev_app : option nat;
  default_app : option nat;
  exit_to_default : bool;
  global_srv_list : list app_info;
  global_receiver_list : list msg_listener;
  start_msgs : list string      (* names sent to "main" with MSG_START_APP *)
}.

Definition set_app_list (m : managers) (l : list app_info) : managers :=
  mk_managers l (actived_app m) (prev_app m) (default_app m) (exit_to_default m)
    (global_srv_list m) (global_receiver_list m) (start_msgs m).
Definition set_actived (m : managers) (a p : option nat) : managers :=
  mk_managers (global_app_list m) a p (default_app m) (exit_to_default m)
    (global_srv_list m) (global_receiver_list m) (start_msgs m).
Definition set_default (m : managers) (d : option nat) : managers :=
  mk_managers (global_app_list m) (actived_app m) (prev_app m) d (exit_to_default m)
    (global_srv_list m) (global_receiver_list m) (start_msgs m).
Definition set_exit_to_default (m : managers) (b : bool) : managers :=
  mk_managers (global_app_list m) (actived_app m) (prev_app m) (default_app m) b
    (global_srv_list m) (global_receiver_list m) (start_msgs m).
Definition set_srv_list (m : managers) (l : list app_info) : managers :=
  mk_managers (global_app_list m) (actived_app m) (prev_app m) (default_app m) (exit_to_default m)
    l (global_receiver_list m) (start_msgs m).
Definition set_receivers (m : managers) (l : list msg_listener) : managers :=
  mk_managers (global_app_list m) (actived_app m) (prev_app m) (default_app m) (exit_to_default m)
    (global_srv_list m) l (start_msgs m).
Definition add_start_msg (m : managers) (s : string) : managers :=
  mk_managers (global_app_list m) (actived_app m) (prev_app m) (default_app m) (exit_to_default m)
    (global_srv_list m) (global_receiver_list m) (start_msgs m ++ [s]).

(** [sys_slist_find_and_remove] of the first node with a given name, the node
    that the search by name returns. *)
Fixpoint remove_named {A} (key : A -> string) (s : string) (l : list A) : list A :=
  match l with
  | [] => []
  | x :: l => if bool_decide (key x = s) then l else x :: remove_named key s l
  end.

Fixpoint find_named {A} (key : A -> string) (s : string) (l : list A) : option A :=
  match l with
  | [] => None
  | x :: l => if bool_decide (key x = s) then Some x else find_named key s l
  end.

(** The first entry with a name, as an index. *)
Fixpoint entry_index (l : list app_entry_t) (s : string) : option nat :=
  match l with
  | [] => None
  | e :: l => if bool_decide (name e = s) then Some O else S <$> entry_index l s
  end.

Section Managers.
Variable app_entry_table : list app_entry_t.
Variable service_entry_table : list app_entry_t.
Variable os_thread_create : app_entry_t -> Z.
Variable os_send_async_msg : Z -> bool.

(** ** Message receivers (msg_manager.c) *)

Definition msg_manager_find_by_name (m : managers) (s : string) : option msg_listener :=
  find_named listener_name s (global_receiver_list m).

Definition msg_manager_find_by_tid (m : managers) (t : Z) : option msg_listener :=
  head (filter (fun l => listener_tid l = t) (global_receiver_list m)).

Definition msg_manager_get_name_by_tid (m : managers) (t : Z) : option string :=
  listener_name <$> msg_manager_find_by_tid m t.

Definition msg_manager_add_listener (m : managers) (s : string) (t : Z) : managers :=
  set_receivers m (global_receiver_list m ++ [mk_listener s t]).

Definition msg_manager_remove_listener (m : managers) (s : string) : bool * managers :=
  match msg_manager_find_by_name m s with
  | Some _ => (true, set_receivers m (remove_named listener_name s (global_receiver_list m)))
  | None => (false, m)
  end.

Definition msg_manager_listener_tid (m : managers) (s : string) : Z :=
  match msg_manager_find_by_name m s with Some l => listener_tid l | None => NULL end.

(** [OS_ANY] is 0 as well. *)
Definition msg_manager_send_async_msg (m : managers) (receiver : string) : bool :=
  if bool_decide (receiver = ALL_RECEIVER_NAME) then os_send_async_msg 0
  else
    let t := msg_manager_listener_tid m receiver in
    if t =? NULL then false else os_send_async_msg t.

(** ** Applications (app_manager.c) *)

Definition app_manager_get_app_info (m : managers) (s : string) : option app_info :=
  find_named info_name s (global_app_list m).

Definition app_manager_check_stack_safe (m : managers) (stackptr_ : Z) : bool :=
  forallb (fun a => negb (stackptr a =? stackptr_)) (global_app_list m).

Definition get_app_entry_byname (s : string) : option nat := entry_index app_entry_table s.

Definition entry_name (e : option nat) : option string :=
  i ← e; e ← app_entry_table !! i; Some (name e).

Definition is_default (e : app_entry_t) : bool := Z.land (attribute e) DEFAULT_APP =? DEFAULT_APP.
Definition is_foreground (e : app_entry_t) : bool :=
  Z.land (attribute e) APP_ATRTRIBUTE_MASK =? FOREGROUND_APP.

(** [current] is the thread that calls, for [create_thread] false. *)
Definition app_manager_init_app (m : managers) (i : nat) (create_thread : bool) (current : Z)
    : bool * managers :=
  match app_entry_table !! i with
  | None => (false, m)
  | Some app =>
      if is_default app && bool_decide (default_app m <> None /\ default_app m <> Some i) then (false, m)
      else if negb (app_manager_check_stack_safe m (stack app)) then (false, m)
      else if create_thread && (thread_loop app =? NULL) then (false, m)
      else
        let t := if create_thread then os_thread_create app else current in
        if t =? NULL then (false, m)
        else
          let m := set_app_list m (global_app_list m ++ [mk_info (name app) t (stack app) i]) in
          let m := msg_manager_add_listener m (name app) t in
          let m := if is_default app && bool_decide (default_app m = None)
                   then set_default m (Some i) else m in
          (true, m)
  end.

Definition app_manager_get_apptid (m : managers) (s : string) : Z :=
  match app_manager_get_app_info m s with Some a => tid a | None => NULL end.

Definition app_manager_get_current_app (m : managers) : option string := entry_name (actived_app m).
Definition app_manager_get_prev_app (m : managers) : option string := entry_name (prev_app m).

Definition app_manager_thread_exit (m : managers) (s : string) : option (bool * managers) :=
  match app_manager_get_app_info m s with
  | None => Some (false, m)
  | Some _ =>
      let m := set_app_list m (remove_named info_name s (global_app_list m)) in
      let '(removed, m) := msg_manager_remove_listener m s in
      if negb removed then Some (false, m)
      else
        active ← entry_name (actived_app m);
        if bool_decide (active = s) then
          let m := set_actived m None (actived_app m) in
          match entry_name (default_app m) with
          | Some d =>
              if bool_decide (d <> s) && exit_to_default m then
                Some (true, if msg_manager_send_async_msg m "main" then add_start_msg m d else m)
              else Some (true, m)
          | None => Some (true, m)
          end
        else Some (true, m)
  end.

Definition app_manager_exit_app (m : managers) (s : string) (to_default : bool)
    : option (bool * managers) :=
  match app_manager_get_app_info m s with
  | None => Some (true, m)
  | Some _ =>
      let m := set_exit_to_default m to_default in
      if negb (msg_manager_send_async_msg m s) then Some (false, m)
      else
        '(_, m) ← app_manager_thread_exit m s;
        Some (true, m)
  end.

(** Leaving the active application first, for a foreground target or an
    unknown name; [None] inside means that nothing is active. *)
Definition leave_active (m : managers) (target : option nat) : option managers :=
  let must := match target with
              | None => true
              | Some i => match app_entry_table !! i with Some e => is_foreground e | None => false end
              end in
  match (if must then actived_app m else None) with
  | None => Some m
  | Some a =>
      match entry_name (Some a) with
      | None => None
      | Some s => '(_, m) ← app_manager_exit_app m s false; Some m
      end
  end.

Definition app_manager_active_app (m : managers) (s : string) : option (bool * managers) :=
  let target := get_app_entry_byname s in
  if bool_decide (target = actived_app m) then Some (true, m)
  else
    m ← leave_active m target;
    match target with
    | None => Some (false, m)
    | Some i =>
        let '(ok, m) := app_manager_init_app m i true NULL in
        if negb ok then Some (false, m)
        else
          match app_entry_table !! i with
          | Some e => Some (true, if is_foreground e then set_actived m (Some i) (prev_app m) else m)
          | None => None
          end
    end.

Definition app_manager_init (m : managers) (current : Z) : bool * managers :=
  let m := set_app_list m [] in
  match get_app_entry_byname "main" with
  | None => (false, m)
  | Some i => app_manager_init_app m i false current
  end.

(** ** Services (srv_manager.c) *)

Definition srv_manager_get_service_info (m : managers) (s : string) : option app_info :=
  find_named info_name s (global_srv_list m).

Definition srv_manager_check_stack_safe (m : managers) (stackptr_ : Z) : bool :=
  forallb (fun a => negb (stackptr a =? stackptr_)) (global_srv_list m).

Definition srv_manager_init_service (m : managers) (i : nat) (srv : app_entry_t) : bool * managers :=
  if negb (srv_manager_check_stack_safe m (stack srv)) then (false, m)
  else
    let t := os_thread_create srv in
    if t =? NULL then (false, m)
    else
      let m := set_srv_list m (global_srv_list m ++ [mk_info (name srv) t (stack srv) i]) in
      (true, msg_manager_add_listener m (name srv) t).

Definition srv_manager_active_service (m : managers) (s : string) : bool * managers :=
  match entry_index service_entry_table s with
  | None => (false, m)
  | Some i =>
      match service_entry_table !! i with
      | None => (false, m)
      | Some srv => srv_manager_init_service m i srv
      end
  end.

Definition srv_manager_thread_exit (m : managers) (s : string) : bool * managers :=
  match srv_manager_get_service_info m s with
  | None => (false, m)
  | Some _ =>
      let m := set_srv_list m (remove_named info_name s (global_srv_list m)) in
      msg_manager_remove_listener m s
  end.

Definition srv_manager_exit_service (m : managers) (s : string) : bool * managers :=
  match srv_manager_get_service_info m s with
  | None => (false, m)
  | Some _ =>
      if negb (msg_manager_send_async_msg m s) then (false, m)
      else (true, (srv_manager_thread_exit m s).2)
  end.

Definition srv_manager_check_service_is_actived (m : managers) (s : string) : bool :=
  bool_decide (srv_manager_get_service_info m s <> None).

Definition srv_manager_init (m : managers) : managers := set_srv_list m [].

End Managers.

(** ** Lists with unique names *)

Section Named.
Context {A : Type} (key : A -> string).

Lemma find_named_in s l x : find_named key s l = Some x -> x ∈ l /\ key x = s.
Proof.
  induction l as [|y l IH]; simpl; [discriminate|]. case_bool_decide.
  - intros [= ->]. split; [left|assumption].
  - intros Hf. destruct (IH Hf). split; [right|]; assumption.
Qed.

Lemma find_named_none s l : find_named key s l = None -> forall x, x ∈ l -> key x <> s.
Proof.
  induction l as [|y l IH]; simpl; intros Hf x Hx; [inversion Hx|]. case_bool_decide; [discriminate|].
  apply elem_of_cons in Hx as [->|Hx]; auto.
Qed.

Lemma find_named_unique l x : NoDup (key <$> l) -> x ∈ l -> find_named key (key x) l = Some x.
Proof.
  induction l as [|y l IH]; intros Hnd Hx; [inversion Hx|]. rewrite fmap_cons, NoDup_cons in Hnd.
  destruct Hnd as [Hy Hnd]. simpl. apply elem_of_cons in Hx as [->|Hx].
  - rewrite bool_decide_true by reflexivity. reflexivity.
  - case_bool_decide as Hk; [|auto]. exfalso. apply Hy. rewrite Hk. apply list_elem_of_fmap. eauto.
Qed.

Lemma remove_named_perm s l x : find_named key s l = Some x -> l ≡ₚ x :: remove_named key s l.
Proof.
  induction l as [|y l IH]; simpl; [discriminate|]. case_bool_decide.
  - intros [= ->]. reflexivity.
  - intros Hf. rewrite (IH Hf) at 1. apply Permutation_swap.
Qed.

End Named.

Section Invariant.
Context (app_entry_table service_entry_table : list app_entry_t).
Context (os_thread_create : app_entry_t -> Z) (os_send_async_msg : Z -> bool).

(** A running application or service comes from its table. *)
Definition info_ok (table : list app_entry_t) (a : app_info) : Prop :=
  exists e, table !! entry a = Some e /\ info_name a = name e /\ stackptr a = stack e /\ tid a <> NULL.

Definition receiver_of (a : app_info) : msg_listener := mk_listener (info_name a) (tid a).

Record mgr_ok (m : managers) : Prop := {
  mg_apps : Forall (info_ok app_entry_table) (global_app_list m);
  mg_srvs : Forall (info_ok service_entry_table) (global_srv_list m);
  mg_app_stacks : NoDup (stackptr <$> global_app_list m);
  mg_srv_stacks : NoDup (stackptr <$> global_srv_list m);
  mg_receivers : global_receiver_list m ≡ₚ receiver_of <$> (global_app_list m ++ global_srv_list m);
  mg_actived : forall i, actived_app m = Some i -> is_Some (app_entry_table !! i)
}.

(** Names are unique in the tables that the linker makes. *)
Hypothesis names_unique : NoDup (name <$> app_entry_table ++ service_entry_table).

Lemma table_names table l : NoDup (name <$> table) -> Forall (info_ok table) l -> NoDup (stackptr <$> l) ->
  NoDup (info_name <$> l).
Proof.
  intros Ht. induction 1 as [|a l Ha Hl IH]; intros Hs; [constructor|].
  rewrite fmap_cons, NoDup_cons in Hs. destruct Hs as [Hna Hs]. rewrite fmap_cons. constructor; [|auto].
  intros Hin. apply list_elem_of_fmap in Hin as (b & Hnb & Hb). apply Hna.
  rewrite Forall_forall in Hl. destruct (Hl b Hb) as (eb & Heb & Hbn & Hbs & _).
  destruct Ha as (ea & Hea & Han & Has & _).
  assert (entry a = entry b) as Hent.
  { eapply NoDup_lookup; [exact Ht|rewrite list_lookup_fmap, Hea; simpl; reflexivity|].
    rewrite list_lookup_fmap, Heb. simpl. congruence. }
  rewrite Hent, Heb in Hea. injection Hea as <-. rewrite Has, <- Hbs. apply list_elem_of_fmap. eauto.
Qed.

Lemma info_in_table table a : info_ok table a -> info_name a ∈ name <$> table.
Proof.
  intros (e & He & -> & _). apply list_elem_of_fmap. exists e. split; [reflexivity|].
  apply list_elem_of_lookup_2 in He. exact He.
Qed.

Lemma all_names m : mgr_ok m -> NoDup (info_name <$> global_app_list m ++ global_srv_list m).
Proof.
  intros Hok. pose proof names_unique as Hu. rewrite fmap_app, NoDup_app in Hu. destruct Hu as (Ha & Hd & Hs).
  rewrite fmap_app, NoDup_app. split; [|split].
  - exact (table_names _ _ Ha (mg_apps m Hok) (mg_app_stacks m Hok)).
  - intros s Hin Hin'. apply list_elem_of_fmap in Hin as (a & -> & Hin), Hin' as (b & Hab & Hin').
    pose proof (mg_apps m Hok) as HA. pose proof (mg_srvs m Hok) as HS. rewrite Forall_forall in HA, HS.
    apply (Hd (info_name a)); [exact (info_in_table _ _ (HA a Hin))|]. rewrite Hab. exact (info_in_table _ _ (HS b Hin')).
  - exact (table_names _ _ Hs (mg_srvs m Hok) (mg_srv_stacks m Hok)).
Qed.

Lemma receiver_names (l : list app_info) : listener_name <$> (receiver_of <$> l) = info_name <$> l.
Proof. rewrite <- list_fmap_compose. reflexivity. Qed.

Lemma receivers_nodup m : mgr_ok m -> NoDup (listener_name <$> global_receiver_list m).
Proof.
  intros Hok. rewrite (mg_receivers m Hok), receiver_names. exact (all_names m Hok).
Qed.

(** A name reaches exactly the thread that runs under it. *)
Lemma listener_tid_exact m s : mgr_ok m ->
  msg_manager_listener_tid m s =
    match find_named info_name s (global_app_list m ++ global_srv_list m) with
    | Some a => tid a
    | None => NULL
    end.
Proof.
  intros Hok. unfold msg_manager_listener_tid, msg_manager_find_by_name.
  destruct (find_named info_name s _) as [a|] eqn:Hf.
  - apply find_named_in in Hf as [Hin <-].
    assert (Hr : receiver_of a ∈ global_receiver_list m).
    { rewrite (mg_receivers m Hok). apply list_elem_of_fmap. eauto. }
    pose proof (find_named_unique listener_name _ _ (receivers_nodup m Hok) Hr) as Hu. simpl in Hu.
    rewrite Hu. reflexivity.
  - destruct (find_named listener_name s _) as [r|] eqn:Hr; [|reflexivity]. exfalso.
    apply find_named_in in Hr as [Hin <-]. rewrite (mg_receivers m Hok) in Hin.
    apply list_elem_of_fmap in Hin as (a & -> & Ha). exact (find_named_none info_name _ _ Hf a Ha eq_refl).
Qed.

(** ** Preservation *)

Lemma stack_safe (l : list app_info) s :
  forallb (fun a => negb (stackptr a =? s)) l = true -> s ∉ stackptr <$> l.
Proof.
  intros H Hin. apply list_elem_of_fmap in Hin as (a & Hs & Ha). rewrite forallb_forall in H.
  apply list_elem_of_In in Ha. specialize (H a Ha). rewrite Hs, Z.eqb_refl in H. discriminate.
Qed.

Lemma nodup_snoc {A} (l : list A) x : NoDup l -> x ∉ l -> NoDup (l ++ [x]).
Proof.
  intros Hl Hx. apply NoDup_app. split; [exact Hl|]. split; [|apply NoDup_singleton].
  intros y Hy Hyx. apply list_elem_of_singleton in Hyx. congruence.
Qed.

Ltac unchanged_state H := split; [exact H|split; [reflexivity|split; [reflexivity|discriminate]]].

Lemma init_app_ok m i ct cur : mgr_ok m ->
  let '(ok, m') := app_manager_init_app app_entry_table os_thread_create m i ct cur in
  mgr_ok m' /\ actived_app m' = actived_app m /\ (ok = false -> m' = m) /\
  (ok = true -> is_Some (app_entry_table !! i)).
Proof.
  intros Hok. unfold app_manager_init_app.
  destruct (app_entry_table !! i) as [app|] eqn:He; [|unchanged_state Hok].
  destruct (is_default app && _); [unchanged_state Hok|].
  destruct (app_manager_check_stack_safe m (stack app)) eqn:Hs; [|unchanged_state Hok].
  destruct (ct && _); [unchanged_state Hok|]. cbn [negb].
  set (t := if ct then _ else _). destruct (Z.eqb_spec t NULL) as [|Ht]; [unchanged_state Hok|].
  set (a := mk_info (name app) t (stack app) i).
  set (m1 := msg_manager_add_listener _ _ _).
  assert (Hok1 : mgr_ok m1).
  { destruct Hok as [H1 H2 H3 H4 H5 H6]. subst m1. split; simpl; auto.
    - apply Forall_app. split; [exact H1|]. repeat constructor. exists app. auto.
    - rewrite fmap_app. apply nodup_snoc; [exact H3|]. exact (stack_safe _ _ Hs).
    - change (mk_listener (name app) t) with (receiver_of a). rewrite H5, !fmap_app, <- !app_assoc.
      apply Permutation_app_head, Permutation_app_comm. }
  assert (Hd : forall d, mgr_ok (set_default m1 d)) by (intros d; destruct Hok1; split; auto).
  destruct (is_default app && _); (split; [auto|]); (split; [reflexivity|]); (split; [discriminate|eauto]).
Qed.

(** Removing the receiver of a thread that runs. *)
Lemma remove_receiver m m1 a : mgr_ok m -> global_receiver_list m1 = global_receiver_list m ->
  a ∈ global_app_list m ++ global_srv_list m ->
  let l := remove_named listener_name (info_name a) (global_receiver_list m) in
  msg_manager_remove_listener m1 (info_name a) = (true, set_receivers m1 l) /\
  forall l', global_app_list m ++ global_srv_list m ≡ₚ a :: l' -> l ≡ₚ receiver_of <$> l'.
Proof.
  intros Hok Hm1 Ha. unfold msg_manager_remove_listener, msg_manager_find_by_name. rewrite Hm1.
  assert (Hin : receiver_of a ∈ global_receiver_list m)
    by (rewrite (mg_receivers m Hok); apply list_elem_of_fmap; eauto).
  pose proof (find_named_unique listener_name _ _ (receivers_nodup m Hok) Hin) as Hu. simpl in Hu.
  rewrite Hu. split; [reflexivity|]. intros l' Hl'.
  apply (Permutation_cons_inv (a := receiver_of a)). rewrite <- (remove_named_perm _ _ _ _ Hu).
  rewrite (mg_receivers m Hok), Hl'. reflexivity.
Qed.

Lemma remove_info table (l : list app_info) s a : Forall (info_ok table) l -> NoDup (stackptr <$> l) ->
  find_named info_name s l = Some a ->
  Forall (info_ok table) (remove_named info_name s l) /\ NoDup (stackptr <$> remove_named info_name s l) /\
  a ∈ l /\ info_name a = s /\ l ≡ₚ a :: remove_named info_name s l.
Proof.
  intros Hl Hs Hf. pose proof (remove_named_perm _ _ _ _ Hf) as Hp.
  pose proof (find_named_in _ _ _ _ Hf) as [Hin Hn]. rewrite Hp in Hl, Hs.
  apply Forall_cons in Hl as [_ Hl]. rewrite fmap_cons, NoDup_cons in Hs. tauto.
Qed.

Lemma thread_exit_ok m s r : mgr_ok m ->
  app_manager_thread_exit app_entry_table os_send_async_msg m s = Some r -> mgr_ok r.2.
Proof.
  intros Hok. unfold app_manager_thread_exit, app_manager_get_app_info.
  destruct (find_named info_name s (global_app_list m)) as [a|] eqn:Hf; [|intros [= <-]; exact Hok].
  destruct (remove_info _ _ _ _ (mg_apps m Hok) (mg_app_stacks m Hok) Hf) as (H1 & H2 & Hin & <- & Hp).
  set (m1 := set_app_list m _). cbv zeta.
  destruct (remove_receiver m m1 a Hok eq_refl) as [-> Hl]; [apply elem_of_app; auto|]. cbn [negb].
  set (m2 := set_receivers m1 _).
  assert (Hok2 : mgr_ok m2).
  { destruct Hok. subst m2 m1. split; simpl; auto. apply Hl. rewrite Hp at 1. reflexivity. }
  destruct (entry_name app_entry_table (actived_app m2)) as [act|]; [|discriminate]. cbn [mbind option_bind].
  case_bool_decide; [|intros [= <-]; exact Hok2].
  assert (Hok3 : mgr_ok (set_actived m2 None (actived_app m2))) by (destruct Hok2; split; auto; discriminate).
  set (m3 := set_actived _ _ _) in *.
  destruct (entry_name app_entry_table (default_app m3)) as [d|]; [|intros [= <-]; exact Hok3].
  destruct (bool_decide _ && _); [|intros [= <-]; exact Hok3]. intros [= <-].
  destruct (msg_manager_send_async_msg _ m3 "main"); [|exact Hok3]. destruct Hok3; split; auto.
Qed.

Lemma exit_app_ok m s b r : mgr_ok m ->
  app_manager_exit_app app_entry_table os_send_async_msg m s b = Some r -> mgr_ok r.2.
Proof.
  intros Hok. unfold app_manager_exit_app.
  destruct (app_manager_get_app_info m s) as [a|]; [|intros [= <-]; exact Hok].
  assert (Hok1 : mgr_ok (set_exit_to_default m b)) by (destruct Hok; split; auto).
  destruct (msg_manager_send_async_msg _ _ s); [|intros [= <-]; exact Hok1]. cbn [negb].
  destruct (app_manager_thread_exit _ _ _ s) as [[x m2]|] eqn:Ht; [|discriminate]. intros [= <-].
  exact (thread_exit_ok _ _ _ Hok1 Ht).
Qed.

(** Leaving an active application never follows the NULL pointer. *)
Lemma entry_name_some m i : mgr_ok m -> actived_app m = Some i -> exists s, entry_name app_entry_table (Some i) = Some s.
Proof.
  intros Hok Hi. destruct (mg_actived m Hok i Hi) as [e He]. exists (name e). simpl. rewrite He. reflexivity.
Qed.

Lemma exit_app_total m s b : mgr_ok m -> actived_app m <> None ->
  exists r, app_manager_exit_app app_entry_table os_send_async_msg m s b = Some r.
Proof.
  intros Hok Ha. unfold app_manager_exit_app, app_manager_thread_exit, app_manager_get_app_info.
  destruct (find_named info_name s (global_app_list m)) as [a|] eqn:Hf; [|eauto].
  destruct (msg_manager_send_async_msg _ _ s); [|eauto]. cbn [negb set_exit_to_default global_app_list].
  rewrite Hf. set (m1 := set_app_list _ _). pose proof (find_named_in _ _ _ _ Hf) as [Hin <-].
  destruct (remove_receiver m m1 a Hok eq_refl) as [-> _]; [apply elem_of_app; auto|]. cbn [negb].
  change (actived_app (set_receivers m1 _)) with (actived_app m).
  destruct (actived_app m) as [i|] eqn:Hi; [|contradiction].
  destruct (entry_name_some m i Hok Hi) as (act & ->). cbn [mbind option_bind].
  case_bool_decide; [|eauto]. destruct (entry_name app_entry_table _); [|eauto].
  destruct (bool_decide _ && _); eauto.
Qed.

Lemma leave_active_ok m target : mgr_ok m ->
  exists m', leave_active app_entry_table os_send_async_msg m target = Some m' /\ mgr_ok m'.
Proof.
  intros Hok. unfold leave_active. destruct (if match target with None => true | Some i => _ end then _ else None)
    as [a|] eqn:Ha; [|eauto].
  assert (Hact : actived_app m = Some a) by (destruct (match target with None => true | _ => _ end); congruence).
  destruct (entry_name_some m a Hok Hact) as (s & ->).
  destruct (exit_app_total m s false Hok ltac:(congruence)) as ([b m'] & Hx). rewrite Hx. cbn [mbind option_bind].
  exists m'. split; [reflexivity|]. exact (exit_app_ok _ _ _ _ Hok Hx).
Qed.

Lemma active_app_ok m s : mgr_ok m ->
  exists ok m', app_manager_active_app app_entry_table os_thread_create os_send_async_msg m s = Some (ok, m') /\
    mgr_ok m'.
Proof.
  intros Hok. unfold app_manager_active_app. case_bool_decide; [eauto|].
  destruct (leave_active_ok m (get_app_entry_byname app_entry_table s) Hok) as (m1 & -> & Hok1).
  cbn [mbind option_bind]. destruct (get_app_entry_byname app_entry_table s) as [i|]; [|eauto].
  pose proof (init_app_ok m1 i true NULL Hok1) as Hi.
  destruct (app_manager_init_app _ _ m1 i true NULL) as [[] m2]; [|destruct Hi as [Hi _]; eauto].
  destruct Hi as (Hok2 & _ & _ & Hsome). destruct (Hsome eq_refl) as [e He]. cbn [negb]. rewrite He.
  eexists. eexists. split; [reflexivity|]. destruct (is_foreground e); [|exact Hok2].
  destruct Hok2. split; auto. simpl. intros j [= <-]. eauto.
Qed.

Lemma srv_active_ok m s : mgr_ok m -> mgr_ok (srv_manager_active_service service_entry_table os_thread_create m s).2.
Proof.
  intros Hok. unfold srv_manager_active_service. destruct (entry_index service_entry_table s) as [i|]; [|exact Hok].
  destruct (service_entry_table !! i) as [srv|] eqn:He; [|exact Hok]. unfold srv_manager_init_service.
  destruct (srv_manager_check_stack_safe m (stack srv)) eqn:Hs; [|exact Hok]. cbn [negb].
  destruct (Z.eqb_spec (os_thread_create srv) NULL) as [|Ht]; [exact Hok|].
  set (a := mk_info (name srv) (os_thread_create srv) (stack srv) i).
  destruct Hok as [H1 H2 H3 H4 H5 H6]. split; simpl; auto.
  - apply Forall_app. split; [exact H2|]. repeat constructor. exists srv. auto.
  - rewrite fmap_app. apply nodup_snoc; [exact H4|]. exact (stack_safe _ _ Hs).
  - change (mk_listener (name srv) (os_thread_create srv)) with (receiver_of a).
    rewrite H5, !fmap_app, <- app_assoc. reflexivity.
Qed.

Lemma srv_thread_exit_ok m s : mgr_ok m -> mgr_ok (srv_manager_thread_exit m s).2.
Proof.
  intros Hok. unfold srv_manager_thread_exit, srv_manager_get_service_info.
  destruct (find_named info_name s (global_srv_list m)) as [a|] eqn:Hf; [|exact Hok].
  destruct (remove_info _ _ _ _ (mg_srvs m Hok) (mg_srv_stacks m Hok) Hf) as (H1 & H2 & Hin & <- & Hp).
  set (m1 := set_srv_list m _).
  destruct (remove_receiver m m1 a Hok eq_refl) as [-> Hl]; [apply elem_of_app; auto|].
  destruct Hok. subst m1. split; simpl; auto. apply Hl. rewrite Hp at 1.
  symmetry. apply Permutation_middle.
Qed.

(** ** Reachable states *)

Definition managers_at_boot : managers := mk_managers [] None None None false [] [] [].

Inductive mgr_reach : managers -> Prop :=
  | mr_boot current : current <> NULL ->
      mgr_reach (app_manager_init app_entry_table os_thread_create managers_at_boot current).2
  | mr_active m s ok m' : mgr_reach m ->
      app_manager_active_app app_entry_table os_thread_create os_send_async_msg m s = Some (ok, m') -> mgr_reach m'
  | mr_exit m s b ok m' : mgr_reach m ->
      app_manager_exit_app app_entry_table os_send_async_msg m s b = Some (ok, m') -> mgr_reach m'
  | mr_thread_exit m s ok m' : mgr_reach m ->
      app_manager_thread_exit app_entry_table os_send_async_msg m s = Some (ok, m') -> mgr_reach m'
  | mr_service m s : mgr_reach m ->
      mgr_reach (srv_manager_active_service service_entry_table os_thread_create m s).2
  | mr_service_exit m s : mgr_reach m -> mgr_reach (srv_manager_exit_service os_send_async_msg m s).2
  | mr_service_thread_exit m s : mgr_reach m -> mgr_reach (srv_manager_thread_exit m s).2.

Lemma boot_ok : mgr_ok managers_at_boot.
Proof. split; simpl; try constructor. discriminate. Qed.

Lemma mgr_reach_ok m : mgr_reach m -> mgr_ok m.
Proof.
  induction 1 as [cur Hc|m s ok m' _ IH H|m s b ok m' _ IH H|m s ok m' _ IH H|m s _ IH|m s _ IH|m s _ IH].
  - unfold app_manager_init. change (set_app_list managers_at_boot []) with managers_at_boot.
    destruct (get_app_entry_byname app_entry_table "main") as [i|]; [|exact boot_ok].
    pose proof (init_app_ok managers_at_boot i false cur boot_ok) as H.
    destruct (app_manager_init_app _ _ _ _ _ _). apply H.
  - destruct (active_app_ok m s IH) as (ok1 & m1 & H1 & Hok1). congruence.
  - exact (exit_app_ok _ _ _ _ IH H).
  - exact (thread_exit_ok _ _ _ IH H).
  - exact (srv_active_ok m s IH).
  - unfold srv_manager_exit_service. destruct (srv_manager_get_service_info m s); [|exact IH].
    destruct (msg_manager_send_async_msg _ m s); [|exact IH]. exact (srv_thread_exit_ok m s IH).
  - exact (srv_thread_exit_ok m s IH).
Qed.

End Invariant.

(** ** The interface of the switcher *)

Section Instance_.
Context (table : list app_entry_t) (os_thread_create : app_entry_t -> Z) (os_send_async_msg : Z -> bool).

Lemma entry_index_name l s i : entry_index l s = Some i -> exists e, l !! i = Some e /\ name e = s.
Proof.
  revert i. induction l as [|e l IH]; intros i; simpl; [discriminate|]. case_bool_decide as Hn.
  - intros [= <-]. exists e. auto.
  - destruct (entry_index l s) as [j|]; [|discriminate]. intros [= <-]. exact (IH j eq_refl).
Qed.

Definition foreground_app (m : managers) (s : string) : Prop :=
  exists i e, get_app_entry_byname table s = Some i /\ table !! i = Some e /\ is_foreground e = true.

Lemma active_app_law m s m' : foreground_app m s ->
  app_manager_active_app table os_thread_create os_send_async_msg m s = Some (true, m') ->
  app_manager_get_current_app table m' = Some s.
Proof.
  intros (i & e & Hi & He & Hf). unfold app_manager_active_app. rewrite Hi.
  assert (Hname : entry_name table (Some i) = Some s).
  { destruct (entry_index_name table s i Hi) as (e' & He' & <-). simpl. rewrite He'. reflexivity. }
  case_bool_decide as Ha.
  - intros [= <-]. unfold app_manager_get_current_app. rewrite <- Ha. exact Hname.
  - destruct (leave_active _ _ m (Some i)) as [m1|]; [|discriminate]. cbn [mbind option_bind].
    destruct (app_manager_init_app _ _ m1 i true NULL) as [[] m2]; [|discriminate]. cbn [negb].
    rewrite He, Hf. intros [= <-]. exact Hname.
Qed.

#[export] Instance app_manager : AppSwitch.AppManager managers := {
  get_current_app := app_manager_get_current_app table;
  active_app := app_manager_active_app table os_thread_create os_send_async_msg;
  foreground := foreground_app;
  active_app_current := active_app_law
}.
End Instance_.

(** C17: In every reachable state of the three managers a name leads to exactly
    the thread of the running application or service with that name, and to
    no thread when none is running: the list of receivers never holds a
    stale, missing or doubled entry. *)
Theorem receivers_exact (apps srvs : list app_entry_t) (create : app_entry_t -> Z) (send : Z -> bool)
    (m : managers) (s : string) :
  NoDup (name <$> apps ++ srvs) -> mgr_reach apps srvs create send m ->
  msg_manager_listener_tid m s =
    match find_named info_name s (global_app_list m ++ global_srv_list m) with
    | Some a => tid a
    | None => NULL
    end /\
  NoDup (listener_name <$> global_receiver_list m) /\
  length (global_receiver_list m) = length (global_app_list m ++ global_srv_list m).
Proof.
  intros Hu Hr. pose proof (mgr_reach_ok apps srvs create send Hu m Hr) as Hok.
  split; [exact (listener_tid_exact apps srvs Hu m s Hok)|]. split; [exact (receivers_nodup apps srvs Hu m Hok)|].
  rewrite (mg_receivers _ _ m Hok), length_fmap. reflexivity.
Qed.

(** The switcher on top of the application manager: from any reachable
    state of the manager, stepping with at least one plugged application
    returns, without following a NULL pointer, with a consistent manager; a
    successful switch to a foreground application makes it the current one. *)
Theorem switch_with_manager (apps srvs : list app_entry_t) (create : app_entry_t -> Z) (send : Z -> bool)
    (m : managers) (c : app_switch_ctx) (mode : Z) (rounds : nat) :
  NoDup (name <$> apps ++ srvs) -> mgr_reach apps srvs create send m ->
  ctx_ok c -> force_locked c = 0 -> locked c = 0 -> stepping mode -> 1 <= app_actived_num c ->
  app_num c <= Z.of_nat rounds ->
  exists ret c' m',
    app_switch (H := app_manager apps create send) rounds c m None mode false = SwitchDone (ret, c', m') /\
    ctx_ok c' /\ mgr_ok apps srvs m' /\
    (ret = 1 -> forall s, app_switch_get_app_name c' (cur_index c') = Some s -> foreground_app apps m s ->
       app_manager_get_current_app apps m' = Some s).
Proof.
  intros Hu Hr Hc Hf Hl Hm Hact Hrounds. pose proof (mgr_reach_ok apps srvs create send Hu m Hr) as Hok.
  assert (Hcase : exists ret c' m',
    app_switch (H := app_manager apps create send) rounds c m None mode false = SwitchDone (ret, c', m') /\
    mgr_ok apps srvs m' /\ (ret = 1 -> forall s, app_switch_get_app_name c' (cur_index c') = Some s ->
      foreground_app apps m s -> app_manager_get_current_app apps m' = Some s)).
  { unfold app_switch. rewrite (blocked_step c m Hc Hf Hl).
    destruct (_ && _ && _) eqn:Hb.
    { exists 0, c, m. split; [reflexivity|]. split; [exact Hok|discriminate]. }
    destruct (switch_to_first c Hc mode rounds (-1) Hm Hact (unblocked_index c Hc Hact Hb) Hrounds)
      as (k & node & Hk & Hnode & Hp & _ & ->).
    pose proof (step_range c Hc mode (cur_index c) k) as Hrange.
    destruct (app_at c _ Hc Hrange) as (n' & Hn' & [Hname _]).
    rewrite Hnode in Hn'. injection Hn' as <-. destruct (app_name node) as [s|] eqn:Hs; [|contradiction].
    destruct (active_app_ok apps srvs create send Hu m s Hok) as (ok & m' & Ha & Hok').
    change (active_app m s) with (app_manager_active_app apps create send m s). rewrite Ha.
    do 3 eexists. split; [reflexivity|]. split; [exact Hok'|]. intros Hret s' Hs' Hfg.
    unfold app_switch_get_app_name in Hs'. cbn [app_num cur_index app_list set_index] in Hs'.
    rewrite (proj2 (Z.ltb_lt _ _)), Hnode in Hs' by lia. cbn [mbind option_bind] in Hs'. rewrite Hs in Hs'.
    injection Hs' as <-. destruct ok; [|discriminate]. exact (active_app_law apps create send m s m' Hfg Ha). }
  destruct Hcase as (ret & c' & m' & Hsw & Hok' & Hcur). exists ret, c', m'. split; [exact Hsw|].
  split; [exact (app_switch_step _ _ _ _ _ _ _ _ _ Hc Hsw)|]. auto.
Qed.

(** When no application is active, an application that ends - a background
    one, say - makes the manager follow the NULL pointer [actived_app]. *)
Theorem thread_exit_null (apps srvs : list app_entry_t) (create : app_entry_t -> Z) (send : Z -> bool)
    (m : managers) (s : string) (a : app_info) :
  NoDup (name <$> apps ++ srvs) -> mgr_reach apps srvs create send m ->
  actived_app m = None -> app_manager_get_app_info m s = Some a ->
  app_manager_thread_exit apps send m s = None.
Proof.
  intros Hu Hr Hact Hs. pose proof (mgr_reach_ok apps srvs create send Hu m Hr) as Hok.
  unfold app_manager_thread_exit. rewrite Hs. pose proof (find_named_in _ _ _ _ Hs) as [Hin <-].
  set (m1 := set_app_list m _).
  destruct (remove_receiver apps srvs Hu m m1 a Hok eq_refl) as [-> _]; [apply elem_of_app; auto|]. cbn [negb].
  change (actived_app (set_receivers m1 _)) with (actived_app m). rewrite Hact. reflexivity.
Qed.

(** Asking for an application that is not in the entry table ends the
    active application and returns false, but returns true and does nothing
    when no application is active. *)
Theorem active_unknown (apps srvs : list app_entry_t) (create : app_entry_t -> Z) (send : Z -> bool)
    (m : managers) (s : string) :
  NoDup (name <$> apps ++ srvs) -> mgr_reach apps srvs create send m ->
  get_app_entry_byname apps s = None ->
  match actived_app m with
  | None => app_manager_active_app apps create send m s = Some (true, m)
  | Some a => exists cur ok m', entry_name apps (Some a) = Some cur /\
      app_manager_exit_app apps send m cur false = Some (ok, m') /\
      app_manager_active_app apps create send m s = Some (false, m')
  end.
Proof.
  intros Hu Hr Hs. pose proof (mgr_reach_ok apps srvs create send Hu m Hr) as Hok.
  unfold app_manager_active_app, leave_active. rewrite Hs. destruct (actived_app m) as [a|] eqn:Ha; [|reflexivity].
  destruct (entry_name_some apps srvs m a Hok Ha) as (cur & Hcur).
  destruct (exit_app_total apps srvs send Hu m cur false Hok ltac:(congruence)) as ([ok m'] & Hx).
  exists cur, ok, m'. split; [exact Hcur|]. split; [exact Hx|]. rewrite bool_decide_false by discriminate.
  rewrite Hcur, Hx. reflexivity.
Qed.

(** ** Concrete instances *)

Definition sample_apps : list app_entry_t :=
  [mk_entry "main" 0x100 1 0; mk_entry "btmusic" 0x200 0x12 0x8000; mk_entry "linein" 0x200 0x02 0x8100;
   mk_entry "ota" 0x300 0x03 0x8200].
Definition sample_services : list app_entry_t := [mk_entry "bluetooth" 0x400 3 0x9000].
Definition sample_create (e : app_entry_t) : Z := stack e + 0x20000000.
Definition sample_send (t : Z) : bool := true.

Lemma sample_names_unique : NoDup (name <$> sample_apps ++ sample_services).
Proof. apply (bool_decide_eq_true (NoDup _)). vm_compute. reflexivity. Qed.

Definition m0 : managers := (app_manager_init sample_apps sample_create managers_at_boot 0x77).2.
Definition active (m : managers) (s : string) : managers :=
  match app_manager_active_app sample_apps sample_create sample_send m s with Some (_, m) => m | None => m end.

Abbreviation sample_reachable := (mgr_reach sample_apps sample_services sample_create sample_send).

Lemma m0_reach : sample_reachable m0.
Proof. apply mr_boot. unfold NULL. lia. Qed.

Lemma active_reach m s : sample_reachable m -> sample_reachable (active m s).
Proof.
  intros Hr. pose proof (mgr_reach_ok _ _ _ _ sample_names_unique m Hr) as Hok.
  destruct (active_app_ok _ _ sample_create sample_send sample_names_unique m s Hok) as (ok & m' & Ha & _).
  unfold active. rewrite Ha. exact (mr_active _ _ _ _ m s ok m' Hr Ha).
Qed.

Lemma receivers_exact_witness :
  let m := active (active m0 "btmusic") "linein" in
  msg_manager_listener_tid m "linein" = 0x20000200 /\ msg_manager_listener_tid m "btmusic" = NULL.
Proof.
  cbv zeta. set (m := active (active m0 "btmusic") "linein").
  assert (Hr : sample_reachable m) by (do 2 apply active_reach; exact m0_reach).
  split; rewrite (proj1 (receivers_exact _ _ _ _ m _ sample_names_unique Hr)); reflexivity.
Defined.

Lemma switch_with_manager_witness :
  exists ret c' m',
    app_switch (H := app_manager sample_apps sample_create sample_send) 3 sample_ctx m0 None APP_SWITCH_NEXT false =
      SwitchDone (ret, c', m') /\ ctx_ok c' /\ mgr_ok sample_apps sample_services m'.
Proof.
  destruct (switch_with_manager sample_apps sample_services sample_create sample_send m0 sample_ctx APP_SWITCH_NEXT 3)
    as (ret & c' & m' & H1 & H2 & H3 & _).
  - exact sample_names_unique.
  - exact m0_reach.
  - exact (switch_reach_ok _ _ switch_sample_reach).
  - reflexivity.
  - reflexivity.
  - left. reflexivity.
  - vm_compute. congruence.
  - vm_compute. congruence.
  - exists ret, c', m'. auto.
Defined.

Lemma thread_exit_null_witness :
  app_manager_thread_exit sample_apps sample_send (active m0 "ota") "ota" = None.
Proof.
  apply (thread_exit_null sample_apps sample_services sample_create sample_send _ _ (mk_info "ota" 0x20000300 0x300 3)
    sample_names_unique); [apply active_reach; exact m0_reach|reflexivity|reflexivity].
Defined.

Lemma active_unknown_witness :
  app_manager_active_app sample_apps sample_create sample_send m0 "nothing" = Some (true, m0) /\
  exists cur ok m', entry_name sample_apps (Some 1%nat) = Some cur /\
    app_manager_exit_app sample_apps sample_send (active m0 "btmusic") cur false = Some (ok, m') /\
    app_manager_active_app sample_apps sample_create sample_send (active m0 "btmusic") "nothing" = Some (false, m').
Proof.
  split.
  - exact (active_unknown sample_apps sample_services sample_create sample_send m0 "nothing"
      sample_names_unique m0_reach eq_refl).
  - exact (active_unknown sample_apps sample_services sample_create sample_send (active m0 "btmusic") "nothing"
      sample_names_unique (active_reach _ _ m0_reach) eq_refl).
Defined.
