(* ===== verification/Standby.v ===== *)
(** * Wake locks and standby (framework/system)

    sys_wakelock.c counts the holders of the two wake locks, sys_standby.c is
    the state machine that suspends the applications and puts the chip to
    sleep when no lock was held for a while, sys_monitor.c calls it every
    100 ms.  All three share the state [sys]; an operation is a [M]onadic
    function on it that may end in a failed assertion or follow a NULL
    pointer.

    What other code does meanwhile (the applications that react to the
    suspend and resume messages, other threads and interrupts between two
    statements of the handler and while it waits) is a list of [act]s, an
    argument of the operation: they take and release locks, let time pass, let
    the power-down timer expire and give the processor to the idle thread.
    Deep sleep is requested by a flag of policy_sleep.c; the chip goes to sleep
    and wakes up when the idle thread runs [pm_system_suspend] and finds it
    set.  The configuration is that of the earphone: CONFIG_SOC_EP_MODE,
    CONFIG_THREAD_TIMER, CONFIG_ASSERT, CONFIG_DEVICE_POWER_MANAGEMENT,
    CONFIG_PM_POLICY_APP, no simulator.  Timer and clock are
    those of the kernel: [uptime] is the 64-bit clock in milliseconds,
    [powerdown_timer] the duration the hrtimer was armed with. *)

From stdpp Require Import base list numbers strings option.
From S2P Require Import Prelude.
Open Scope Z_scope.

(** ** Data *)

Definition PARTIAL_WAKE_LOCK : Z := 0.
Definition FULL_WAKE_LOCK : Z := 1.
Definition MAX_WAKE_LOCK_TYPE : Z := 2.

Record wakelock_t : Type := mk_wakelock {
  wake_lock_type : Z;       (* uint8_t *)
  ref_cnt : Z;              (* uint16_t *)
  free_timestamp : Z        (* uint32_t *)
}.

Definition STANDBY_MIN_TIME_SEC : Z := 5.

Inductive standby_state_e : Type := STANDBY_NORMAL | STANDBY_S1 | STANDBY_S2 | STANDBY_S3.

#[export] Instance standby_state_eq_dec : EqDecision standby_state_e.
Proof. solve_decision. Defined.

Definition STANDBY_SLEEP : Z := 0.
Definition STANDBY_LIGHT_SLEEP : Z := 1.
Definition STANDBY_DEEP_SLEEP : Z := 2.

Record standby_context_t : Type := mk_context {
  auto_standby_time : Z;    (* uint32_t, milliseconds *)
  auto_powerdown_time : Z;  (* uint32_t, milliseconds *)
  standby_state : standby_state_e;
  standby_mode : Z;         (* uint8_t *)
  auto_powerdown : bool;
  wakeup_timestamp : Z;     (* uint32_t *)
  wakeup_flag : bool;
  force_standby : bool;
  last_app : option string; (* a name or NULL *)
  notifier : bool           (* a function is registered *)
}.

Definition SYS_EVENT_NONE : Z := 0.
Definition SYS_EVENT_POWER_ON : Z := 1.
Definition SLEEP_WK_SRC_BT : Z := 0.
Definition MAX_MONITOR_WORK_NUM : nat := 5.

(** The two messages of standby and who gets them. *)
Inductive notice : Type := MSG_SUSPEND_APP | MSG_RESUME_APP.
Inductive target : Type := ToNotifier | ToApp (name : option string) | ToServices.

(** What the rest of the system sees of the standby code, the latest first.
    [EnterS3] and [ChipSleeps] carry the counters of the locks at that
    moment. *)
Inductive event : Type :=
| Notified (t : target) (m : notice)
| EnterS3 (partial full : Z)
| ChipSleeps (partial full : Z)
| PowerOff
| EarlySuspend
| LateResume
| SysEvent (e : Z).

(** A work of the monitor: the standby handler or one of other code. *)
Inductive work : Type := StandbyWork | OtherWork (n : nat).

Record sys : Type := mk_sys {
  wakelocks : list wakelock_t;
  context : option standby_context_t;   (* standby_context, NULL at first *)
  lock_flag : bool;                     (* of msg_manager.c *)
  powerdown_timer : option Z;
  uptime : Z;
  monitor_stoped : bool;
  monitor_work : list (option work);
  b_enter_sleep : bool;                 (* of policy_sleep.c *)
  trace : list event
}.

Definition set_wakelocks (l : list wakelock_t) (s : sys) : sys :=
  mk_sys l (context s) (lock_flag s) (powerdown_timer s) (uptime s) (monitor_stoped s) (monitor_work s) (b_enter_sleep s) (trace s).
Definition set_context (c : option standby_context_t) (s : sys) : sys :=
  mk_sys (wakelocks s) c (lock_flag s) (powerdown_timer s) (uptime s) (monitor_stoped s) (monitor_work s) (b_enter_sleep s) (trace s).
Definition set_lock_flag (b : bool) (s : sys) : sys :=
  mk_sys (wakelocks s) (context s) b (powerdown_timer s) (uptime s) (monitor_stoped s) (monitor_work s) (b_enter_sleep s) (trace s).
Definition set_timer (t : option Z) (s : sys) : sys :=
  mk_sys (wakelocks s) (context s) (lock_flag s) t (uptime s) (monitor_stoped s) (monitor_work s) (b_enter_sleep s) (trace s).
Definition set_uptime (t : Z) (s : sys) : sys :=
  mk_sys (wakelocks s) (context s) (lock_flag s) (powerdown_timer s) t (monitor_stoped s) (monitor_work s) (b_enter_sleep s) (trace s).
Definition set_monitor (b : bool) (w : list (option work)) (s : sys) : sys :=
  mk_sys (wakelocks s) (context s) (lock_flag s) (powerdown_timer s) (uptime s) b w (b_enter_sleep s) (trace s).
Definition emit_event (e : event) (s : sys) : sys :=
  mk_sys (wakelocks s) (context s) (lock_flag s) (powerdown_timer s) (uptime s) (monitor_stoped s) (monitor_work s) (b_enter_sleep s) (e :: trace s).
Definition set_enter_sleep (b : bool) (s : sys) : sys :=
  mk_sys (wakelocks s) (context s) (lock_flag s) (powerdown_timer s) (uptime s) (monitor_stoped s) (monitor_work s) b (trace s).

Definition set_state (v : standby_state_e) (c : standby_context_t) : standby_context_t :=
  mk_context (auto_standby_time c) (auto_powerdown_time c) v (standby_mode c) (auto_powerdown c)
    (wakeup_timestamp c) (wakeup_flag c) (force_standby c) (last_app c) (notifier c).
Definition set_powerdown (v : bool) (c : standby_context_t) : standby_context_t :=
  mk_context (auto_standby_time c) (auto_powerdown_time c) (standby_state c) (standby_mode c) v
    (wakeup_timestamp c) (wakeup_flag c) (force_standby c) (last_app c) (notifier c).
Definition set_wakeup_timestamp (v : Z) (c : standby_context_t) : standby_context_t :=
  mk_context (auto_standby_time c) (auto_powerdown_time c) (standby_state c) (standby_mode c) (auto_powerdown c)
    v (wakeup_flag c) (force_standby c) (last_app c) (notifier c).
Definition set_wakeup_flag (v : bool) (c : standby_context_t) : standby_context_t :=
  mk_context (auto_standby_time c) (auto_powerdown_time c) (standby_state c) (standby_mode c) (auto_powerdown c)
    (wakeup_timestamp c) v (force_standby c) (last_app c) (notifier c).
Definition set_force (v : bool) (c : standby_context_t) : standby_context_t :=
  mk_context (auto_standby_time c) (auto_powerdown_time c) (standby_state c) (standby_mode c) (auto_powerdown c)
    (wakeup_timestamp c) (wakeup_flag c) v (last_app c) (notifier c).
Definition set_last_app (v : option string) (c : standby_context_t) : standby_context_t :=
  mk_context (auto_standby_time c) (auto_powerdown_time c) (standby_state c) (standby_mode c) (auto_powerdown c)
    (wakeup_timestamp c) (wakeup_flag c) (force_standby c) v (notifier c).
Definition set_notifier (v : bool) (c : standby_context_t) : standby_context_t :=
  mk_context (auto_standby_time c) (auto_powerdown_time c) (standby_state c) (standby_mode c) (auto_powerdown c)
    (wakeup_timestamp c) (wakeup_flag c) (force_standby c) (last_app c) v.
Definition set_mode (v : Z) (c : standby_context_t) : standby_context_t :=
  mk_context (auto_standby_time c) (auto_powerdown_time c) (standby_state c) v (auto_powerdown c)
    (wakeup_timestamp c) (wakeup_flag c) (force_standby c) (last_app c) (notifier c).
Definition set_standby_time (v : Z) (c : standby_context_t) : standby_context_t :=
  mk_context v (auto_powerdown_time c) (standby_state c) (standby_mode c) (auto_powerdown c)
    (wakeup_timestamp c) (wakeup_flag c) (force_standby c) (last_app c) (notifier c).
Definition set_powerdown_time (v : Z) (c : standby_context_t) : standby_context_t :=
  mk_context (auto_standby_time c) v (standby_state c) (standby_mode c) (auto_powerdown c)
    (wakeup_timestamp c) (wakeup_flag c) (force_standby c) (last_app c) (notifier c).

(** ** The monad

    [AssertFails] is a failed [assert], [NullDeref] a NULL pointer that is
    followed, [Asleep] a wait for a wake-up that never comes. *)

Inductive outcome (A : Type) : Type :=
| Ok (a : A) (s : sys)
| AssertFails
| NullDeref
| Asleep.
Arguments Ok {A} a s.
Arguments AssertFails {A}.
Arguments NullDeref {A}.
Arguments Asleep {A}.

Definition M (A : Type) : Type := sys -> outcome A.

#[export] Instance M_ret : MRet M := fun A a s => Ok a s.
#[export] Instance M_bind : MBind M := fun A B k c s =>
  match c s with Ok a s' => k a s' | AssertFails => AssertFails | NullDeref => NullDeref | Asleep => Asleep end.

Definition get {A} (f : sys -> A) : M A := fun s => Ok (f s) s.
Definition put (f : sys -> sys) : M unit := fun s => Ok tt (f s).
Definition assert (b : bool) : M unit := fun s => if b then Ok tt s else AssertFails.
Definition null_deref {A} : M A := fun _ => NullDeref.
Definition emit (e : event) : M unit := put (emit_event e).
Definition skip : M unit := mret tt.

(** Reading and writing a field through the pointer [standby_context]. *)
Definition get_context {A} (f : standby_context_t -> A) : M A :=
  fun s => match context s with Some c => Ok (f c) s | None => NullDeref end.
Definition put_context (f : standby_context_t -> standby_context_t) : M unit :=
  fun s => match context s with Some c => Ok tt (set_context (Some (f c)) s) | None => NullDeref end.
(** The same under [if (standby_context)]. *)
Definition if_context (f : standby_context_t -> standby_context_t) : M unit :=
  put (fun s => set_context (f <$> context s) s).

Definition os_uptime_get_32 : M Z := get (fun s => u32 (uptime s)).

(** ** Wake locks (sys_wakelock.c) *)

Fixpoint lookup_from (i : nat) (l : list wakelock_t) (t : Z) : option nat :=
  match l with
  | [] => None
  | w :: l' => if wake_lock_type w =? t then Some i else lookup_from (S i) l' t
  end.

Definition _sys_wakelock_lookup (t : Z) : M (option nat) := get (fun s => lookup_from 0 (wakelocks s) t).

Definition wakelock_field {A} (f : wakelock_t -> A) (d : A) (i : nat) : M A :=
  get (fun s => default d (f <$> wakelocks s !! i)).
Definition wakelock_put (f : wakelock_t -> wakelock_t) (i : nat) : M unit :=
  put (fun s => set_wakelocks (alter f i (wakelocks s)) s).
Definition set_ref_cnt (v : Z) (w : wakelock_t) : wakelock_t := mk_wakelock (wake_lock_type w) (u16 v) (free_timestamp w).
Definition set_free_timestamp (v : Z) (w : wakelock_t) : wakelock_t := mk_wakelock (wake_lock_type w) (ref_cnt w) (u32 v).

Definition system_clear_fast_standby : M unit := if_context (set_force false).
Definition system_request_fast_standby : M unit := if_context (set_force true).

(** [ref_cnt++] and the cleared time stamp, lines 66-69 and 151-154. *)
Definition take_lock (i : nat) : M unit :=
  c ← wakelock_field ref_cnt 0 i;
  assert (c <? 0xFFFF);;
  wakelock_put (set_ref_cnt (c + 1)) i;;
  wakelock_put (set_free_timestamp 0) i.

(** [ref_cnt--] and the new time stamps, lines 103-115 and 156-168. *)
Definition drop_lock (t : Z) (i : nat) : M unit :=
  c ← wakelock_field ref_cnt 0 i;
  assert (0 <? c);;
  wakelock_put (set_ref_cnt (c - 1)) i;;
  (if negb (c =? 0) then
     now ← os_uptime_get_32;
     if t =? FULL_WAKE_LOCK
     then put (fun s => set_wakelocks (set_free_timestamp now <$> wakelocks s) s)
     else wakelock_put (set_free_timestamp now) i
   else skip);;
  system_clear_fast_standby.

(** The log line after the label exit follows the pointer also when no lock
    was found. *)
Definition sys_wake_lock (t : Z) : M Z :=
  w ← _sys_wakelock_lookup t;
  match w with
  | None => null_deref
  | Some i => take_lock i;; mret 0
  end.

Definition sys_wake_unlock (t : Z) : M Z :=
  w ← _sys_wakelock_lookup t;
  match w with
  | None => null_deref
  | Some i => drop_lock t i;; mret 0
  end.

Definition sys_wake_lock_reset (t : Z) : M Z :=
  w ← _sys_wakelock_lookup t;
  match w with
  | None => mret (- EEXIST)
  | Some i => take_lock i;; drop_lock t i;; mret 0
  end.

Definition sys_wakelocks_init : M Z :=
  now ← os_uptime_get_32;
  put (set_wakelocks ((fun i => mk_wakelock (Z.of_nat i) 0 now) <$> seq 0 (Z.to_nat MAX_WAKE_LOCK_TYPE)));;
  sys_wake_lock FULL_WAKE_LOCK;;
  mret 0.

Definition sys_wakelocks_check (t : Z) : M Z :=
  w ← _sys_wakelock_lookup t;
  match w with
  | None => mret 0
  | Some i => wakelock_field ref_cnt 0 i
  end.

Definition sys_wakelocks_get_free_time (t : Z) : M Z :=
  w ← _sys_wakelock_lookup t;
  match w with
  | None => mret 0
  | Some i =>
      c ← wakelock_field ref_cnt 0 i;
      if c =? 0 then
        now ← os_uptime_get_32;
        ts ← wakelock_field free_timestamp 0 i;
        mret (u32 (now - ts))
      else mret 0
  end.

(** ** What other threads and interrupts do meanwhile *)

Inductive act : Type :=
| Lock (t : Z)
| Unlock (t : Z)
| ResetLock (t : Z)
| Elapse (ms : nat)
| RequestFastStandby
| TimerExpires
| Idle (suspended : bool).

(** The handler of the power-down timer, which is not periodic. *)
Definition _sys_standby_powerdown_timer_handler : M unit := put_context (set_powerdown true).

(** The chip has left deep sleep. *)
Definition _sys_standby_exit_sleep : M unit := put_context (set_wakeup_flag true).

(** Deep sleep is requested (policy_sleep.c). *)
Definition sys_pm_enter_deep_sleep : M unit := put (set_enter_sleep true).

(** [true] is PM_STATE_SUSPEND_TO_RAM, [false] PM_STATE_ACTIVE. *)
Definition pm_policy_next_state : M bool :=
  b ← get b_enter_sleep;
  if b : bool then put (set_enter_sleep false);; mret true else mret false.

(** The idle thread (power.c).  [suspended] says whether all devices could be
    suspended; if not, the chip stays awake and no notifier is called. *)
Definition pm_system_suspend (suspended : bool) : M unit :=
  ram ← pm_policy_next_state;
  if negb ram then skip else
  if negb suspended then skip else
  p ← sys_wakelocks_check PARTIAL_WAKE_LOCK;
  f ← sys_wakelocks_check FULL_WAKE_LOCK;
  emit (ChipSleeps p f);;
  _sys_standby_exit_sleep.

Definition run_act (a : act) : M unit :=
  match a with
  | Lock t => sys_wake_lock t;; skip
  | Unlock t => sys_wake_unlock t;; skip
  | ResetLock t => sys_wake_lock_reset t;; skip
  | Elapse ms => put (fun s => set_uptime (uptime s + Z.of_nat ms) s)
  | RequestFastStandby => system_request_fast_standby
  | TimerExpires =>
      t ← get powerdown_timer;
      match t with
      | Some _ => put (set_timer None);; _sys_standby_powerdown_timer_handler
      | None => skip
      end
  | Idle suspended => pm_system_suspend suspended
  end.

Fixpoint run_acts (l : list act) : M unit :=
  match l with
  | [] => skip
  | a :: l' => run_act a;; run_acts l'
  end.

(** Places between two statements of the handler where other threads and
    interrupts may run. *)
Inductive place : Type :=
| AfterPowerdownCheck | AfterArming | BeforeSleepRequest | AfterWakeup | BeforeTimerStop.

(** The environment of one call of the standby handler. *)
Record env : Type := mk_env {
  current_app : option string;               (* app_manager_get_current_app *)
  reaction : target -> notice -> list act;   (* of the receivers of a message *)
  asleep : list act;                         (* while the handler waits for the wake-up *)
  preempt : place -> list act;               (* between two statements *)
  s3_wksrc : Z                               (* sys_s3_wksrc_get *)
}.

Definition notify (e : env) (t : target) (m : notice) : M unit :=
  emit (Notified t m);; run_acts (reaction e t m).

(** ** The state machine (sys_standby.c) *)

Definition send_power_off : M unit := emit PowerOff.

Definition _sys_standby_check_auto_powerdown : M Z :=
  d ← get_context auto_powerdown;
  if d : bool then mret 1 else
  p ← sys_wakelocks_get_free_time PARTIAL_WAKE_LOCK;
  limit ← get_context auto_powerdown_time;
  f ← sys_wakelocks_get_free_time FULL_WAKE_LOCK;
  if (p >? limit) && (f >? limit) then
    put_context (set_powerdown true);;
    send_power_off;;
    mret 1
  else mret 0.

Definition _sys_standby_enter_s1 : M unit :=
  put_context (set_state STANDBY_S1);; emit EarlySuspend.

Definition _sys_standby_exit_s1 : M unit :=
  put_context (set_state STANDBY_NORMAL);;
  now ← os_uptime_get_32;
  put_context (set_wakeup_timestamp now);;
  emit LateResume.

(** [sys_wakelocks_check(PARTIAL_WAKE_LOCK) || sys_wakelocks_check(FULL_WAKE_LOCK)] *)
Definition any_lock : M bool :=
  p ← sys_wakelocks_check PARTIAL_WAKE_LOCK;
  if negb (p =? 0) then mret true else
  f ← sys_wakelocks_check FULL_WAKE_LOCK;
  mret (negb (f =? 0)).

Definition _sys_standby_enter_s2 (e : env) : M unit :=
  put_context (set_state STANDBY_S2);;
  m ← get_context standby_mode;
  if m =? STANDBY_DEEP_SLEEP then
    n ← get_context notifier;
    (if n : bool then notify e ToNotifier MSG_SUSPEND_APP else skip);;
    put_context (set_last_app (current_app e));;
    app ← get_context last_app;
    notify e (ToApp app) MSG_SUSPEND_APP;;
    l ← any_lock;
    (if l : bool then put_context (set_state STANDBY_S1) else skip);;
    notify e ToServices MSG_SUSPEND_APP;;
    l ← any_lock;
    (if l : bool then put_context (set_state STANDBY_S1) else skip);;
    put (set_lock_flag true)
  else skip.

Definition _sys_standby_exit_s2 (e : env) : M unit :=
  put_context (set_state STANDBY_S1);;
  app ← get_context last_app;
  (match app with
   | Some a =>
       put (set_lock_flag false);;
       notify e ToServices MSG_RESUME_APP;;
       notify e (ToApp (Some a)) MSG_RESUME_APP
   | None => skip
   end);;
  n ← get_context notifier;
  if n : bool then notify e ToNotifier MSG_RESUME_APP else skip.

(** [while (!wakeup_flag) os_sleep(2);] *)
Fixpoint wait_wakeup (l : list act) : M unit :=
  w ← get_context wakeup_flag;
  if w : bool then skip else
  match l with
  | [] => fun _ => Asleep
  | a :: l' => run_act a;; wait_wakeup l'
  end.

Definition _sys_standby_enter_s3 (e : env) : M unit :=
  put_context (set_state STANDBY_S3);;
  put_context (set_wakeup_flag false);;
  p ← sys_wakelocks_check PARTIAL_WAKE_LOCK;
  f ← sys_wakelocks_check FULL_WAKE_LOCK;
  emit (EnterS3 p f);;
  run_acts (preempt e BeforeSleepRequest);;
  sys_pm_enter_deep_sleep;;
  wait_wakeup (asleep e);;
  run_acts (preempt e AfterWakeup).

Definition _sys_standby_process_normal : M Z :=
  l ← sys_wakelocks_check FULL_WAKE_LOCK;
  if negb (l =? 0) then mret 0 else
  force ← get_context force_standby;
  t ← sys_wakelocks_get_free_time FULL_WAKE_LOCK;
  limit ← get_context auto_standby_time;
  (if (force : bool) || (t >? limit) then _sys_standby_enter_s1 else skip);;
  mret 0.

Definition _sys_standby_process_s1 (e : env) : M Z :=
  l ← sys_wakelocks_check FULL_WAKE_LOCK;
  force ← get_context force_standby;
  limit ← get_context auto_standby_time;
  f ← sys_wakelocks_get_free_time FULL_WAKE_LOCK;
  p ← sys_wakelocks_get_free_time PARTIAL_WAKE_LOCK;
  held ← sys_wakelocks_check PARTIAL_WAKE_LOCK;
  (if negb (l =? 0) then _sys_standby_exit_s1
   else if f <? limit then (if force : bool then skip else _sys_standby_exit_s1)
   else if p >? limit then (if held =? 0 then _sys_standby_enter_s2 e else skip)
   else if force then (if held =? 0 then _sys_standby_enter_s2 e else skip)
   else skip);;
  mret 0.

Definition _sys_standby_wakeup_from_s2 : bool := true.

(** The [while(true)] loop; [rounds] bounds its rounds. *)
Fixpoint s2_loop (rounds : nat) (e : env) : M unit :=
  match rounds with
  | O => fun _ => Asleep
  | S n =>
      l ← any_lock;
      if l : bool then _sys_standby_exit_s2 e else
      _sys_standby_enter_s3 e;;
      if _sys_standby_wakeup_from_s2 then _sys_standby_exit_s2 e else s2_loop n e
  end.

(** The power-down timer is armed with what is left of the time, in
    microseconds.  The local variable is an int, the comparison unsigned. *)
Definition arm_powerdown_timer : M unit :=
  limit ← get_context auto_powerdown_time;
  if limit =? u32 (-1) then skip else
  f ← sys_wakelocks_get_free_time FULL_WAKE_LOCK;
  p ← sys_wakelocks_get_free_time PARTIAL_WAKE_LOCK;
  let rest := s32 (limit - f) in
  let rest := if u32 rest >? u32 (limit - p) then s32 (limit - p) else rest in
  if rest >? 0 then put (set_timer (Some (s32 (rest * 1000)))) else skip.

Definition _sys_standby_process_s2 (e : env) : M Z :=
  put_context (set_force false);;
  arm_powerdown_timer;;
  run_acts (preempt e AfterArming);;
  s2_loop 1 e;;
  d ← get_context auto_powerdown;
  if d : bool then send_power_off;; mret 1 else
  run_acts (preempt e BeforeTimerStop);;
  put (set_timer None);;
  (if negb (s3_wksrc e =? SLEEP_WK_SRC_BT) then
     sys_wake_lock FULL_WAKE_LOCK;; _sys_standby_exit_s1;; sys_wake_unlock FULL_WAKE_LOCK;; skip
   else
     sys_wake_lock PARTIAL_WAKE_LOCK;; sys_wake_unlock PARTIAL_WAKE_LOCK;; skip);;
  mret 0.

Definition _sys_standby_work_handle (e : env) : M Z :=
  r ← _sys_standby_check_auto_powerdown;
  if negb (r =? 0) then mret r else
  run_acts (preempt e AfterPowerdownCheck);;
  st ← get_context standby_state;
  match st with
  | STANDBY_NORMAL => _sys_standby_process_normal
  | STANDBY_S1 => _sys_standby_process_s1 e
  | STANDBY_S2 => _sys_standby_process_s2 e
  | STANDBY_S3 => mret r
  end.

(** [ret] and [temp] are what property_get gives for CFG_AUTO_POWERDOWN. *)
Definition _sys_standby_is_auto_powerdown (ret : Z) (temp : string) : bool :=
  negb ((ret >? 0) && bool_decide (temp = "false"%string)).

(** ** The monitor (sys_monitor.c) *)

Fixpoint add_work_loop (w : work) (l : list (option work)) : option (list (option work)) :=
  match l with
  | [] => None
  | None :: l' => Some (Some w :: l')
  | Some x :: l' => (fun r => Some x :: r) <$> add_work_loop w l'
  end.

Definition sys_monitor_add_work (w : work) : M Z := fun s =>
  match add_work_loop w (monitor_work s) with
  | Some l => Ok 0 (set_monitor (monitor_stoped s) l s)
  | None => Ok (- ESRCH) s
  end.

(** [standby_sec] and [powerdown_sec] are CONFIG_AUTO_STANDBY_TIME_SEC and
    CONFIG_AUTO_POWEDOWN_TIME_SEC. *)
Definition sys_standby_init (standby_sec powerdown_sec ret : Z) (temp : string) : M Z :=
  now ← os_uptime_get_32;
  let st := if standby_sec =? 0 then u32 (-1)
            else if standby_sec <? STANDBY_MIN_TIME_SEC then STANDBY_MIN_TIME_SEC * 1000
            else u32 (s32 (standby_sec * 1000)) in
  let pd := if _sys_standby_is_auto_powerdown ret temp then u32 (s32 (powerdown_sec * 1000)) else u32 (-1) in
  put (set_context (Some (mk_context st pd STANDBY_NORMAL STANDBY_DEEP_SLEEP false now false false None false)));;
  sys_wakelocks_init;;
  r ← sys_monitor_add_work StandbyWork;
  if negb (r =? 0) then mret (- EFAULT) else
  put (set_timer None);;
  mret 0.

Definition sys_monitor_init (standby_sec powerdown_sec ret : Z) (temp : string) : M unit :=
  put (set_monitor false (replicate MAX_MONITOR_WORK_NUM None));;
  sys_standby_init standby_sec powerdown_sec ret temp;;
  skip.

Definition sys_event_notify (e : Z) : M unit := emit (SysEvent e).

(** [other n] is the work [OtherWork n] of other code. *)
Fixpoint work_loop (e : env) (other : nat -> M Z) (l : list (option work)) : M unit :=
  match l with
  | [] => skip
  | w :: l' =>
      (match w with
       | None => skip
       | Some w =>
           ev ← match w with StandbyWork => _sys_standby_work_handle e | OtherWork n => other n end;
           if negb (ev =? SYS_EVENT_NONE) then sys_event_notify ev else skip
       end);;
      work_loop e other l'
  end.

Definition _sys_monitor_timer_handle (e : env) (other : nat -> M Z) : M unit :=
  stop ← get monitor_stoped;
  if stop : bool then skip else
  l ← get monitor_work;
  work_loop e other l.

Definition sys_monitor_stop : M unit := put (fun s => set_monitor true (monitor_work s) s).

(** ** The operations of the applications (sys_standby.c) *)

Definition system_wakeup_time : M Z :=
  t ← get_context wakeup_timestamp;
  now ← os_uptime_get_32;
  mret (if t =? 0 then u32 (-1) else u32 (now - t)).

Definition system_boot_time : M Z := get (fun s => u32 (uptime s)).

Definition system_set_standby_mode (m : Z) : M unit := if_context (set_mode (u8 m)).

(** Seconds to milliseconds; 0 is never. *)
Definition timeout_ms (timeout : Z) : Z := if timeout =? 0 then u32 (-1) else u32 (timeout * 1000).
Definition system_set_autosleep_time (timeout : Z) : M unit := if_context (set_standby_time (timeout_ms timeout)).
Definition system_set_auto_poweroff_time (timeout : Z) : M unit := if_context (set_powerdown_time (timeout_ms timeout)).

Definition system_is_screen_on : M bool :=
  get (fun s => match context s with Some c => bool_decide (standby_state c = STANDBY_NORMAL) | None => false end).

Definition system_register_standby_notifier : M Z := fun s =>
  match context s with
  | Some c => if notifier c then Ok (-1) s else Ok 0 (set_context (Some (set_notifier true c)) s)
  | None => Ok (-1) s
  end.

(** Before the first call nothing is initialised. *)
Definition boot : sys := mk_sys [] None false None 0 false [] false [].
