(* ===== verification/StandbyProof.v ===== *)
(** * Wake locks and standby: the proofs

    The locks refine counters with the time of their last release; the
    standby state machine keeps an invariant over everything the rest of the
    system may do; it reaches deep sleep when nothing holds a lock. *)

From stdpp Require Import base list numbers strings option.
From S2P Require Import Prelude Standby.
Open Scope Z_scope.

(** ** Evaluating the monad *)

Lemma bind_ok {A B} (c : M A) (k : A -> M B) s a s' : c s = Ok a s' -> (c ≫= k) s = k a s'.
Proof. intros H. unfold mbind, M_bind. rewrite H. reflexivity. Qed.

(** [post c s Q]: if [c] returns, it returns a value and a state in [Q]. *)
Definition post {A} (c : M A) (s : sys) (Q : A -> sys -> Prop) : Prop :=
  match c s with Ok a s' => Q a s' | _ => True end.

Lemma post_bind {A B} (c : M A) (k : A -> M B) s Q :
  post c s (fun a s' => post (k a) s' Q) -> post (c ≫= k) s Q.
Proof. unfold post, mbind, M_bind. destruct (c s); auto. Qed.

Lemma post_mono {A} (c : M A) s (Q Q' : A -> sys -> Prop) :
  post c s Q -> (forall a s', Q a s' -> Q' a s') -> post c s Q'.
Proof. unfold post. destruct (c s); auto. Qed.

Lemma post_ok {A} (c : M A) s Q a s' : c s = Ok a s' -> Q a s' -> post c s Q.
Proof. intros H. unfold post. rewrite H. auto. Qed.

Lemma post_elim {A} (c : M A) s Q a s' : post c s Q -> c s = Ok a s' -> Q a s'.
Proof. intros H E. unfold post in H. rewrite E in H. exact H. Qed.

(** What the reading operations see. *)
Definition held (t : Z) (s : sys) : Z :=
  match lookup_from 0 (wakelocks s) t with
  | Some i => default 0 (ref_cnt <$> wakelocks s !! i)
  | None => 0
  end.

Definition free_for (t : Z) (s : sys) : Z :=
  match lookup_from 0 (wakelocks s) t with
  | Some i =>
      if default 0 (ref_cnt <$> wakelocks s !! i) =? 0
      then u32 (u32 (uptime s) - default 0 (free_timestamp <$> wakelocks s !! i)) else 0
  | None => 0
  end.

Lemma check_eq t s : sys_wakelocks_check t s = Ok (held t s) s.
Proof.
  unfold sys_wakelocks_check, held, _sys_wakelock_lookup, mbind, M_bind, get.
  destruct (lookup_from _ _ _); reflexivity.
Qed.

Lemma free_time_eq t s : sys_wakelocks_get_free_time t s = Ok (free_for t s) s.
Proof.
  unfold sys_wakelocks_get_free_time, free_for, _sys_wakelock_lookup, mbind, M_bind, get, wakelock_field.
  destruct (lookup_from _ _ _); [|reflexivity]. cbn. destruct (_ =? 0); reflexivity.
Qed.

Definition any_held (s : sys) : bool :=
  negb (held PARTIAL_WAKE_LOCK s =? 0) || negb (held FULL_WAKE_LOCK s =? 0).

Lemma any_lock_eq s : any_lock s = Ok (any_held s) s.
Proof.
  unfold any_lock, any_held. rewrite (bind_ok _ _ _ _ _ (check_eq _ s)).
  destruct (negb _); [reflexivity|]. rewrite (bind_ok _ _ _ _ _ (check_eq _ s)). reflexivity.
Qed.

Lemma get_context_eq {A} (f : standby_context_t -> A) s c : context s = Some c -> get_context f s = Ok (f c) s.
Proof. intros H. unfold get_context. rewrite H. reflexivity. Qed.

Lemma put_context_eq f s c : context s = Some c -> put_context f s = Ok tt (set_context (Some (f c)) s).
Proof. intros H. unfold put_context. rewrite H. reflexivity. Qed.

(** ** The table of locks *)

(** The table of the two locks. *)
Definition table (p tp f tf : Z) : list wakelock_t :=
  [mk_wakelock PARTIAL_WAKE_LOCK p tp; mk_wakelock FULL_WAKE_LOCK f tf].

Definition u16_range (v : Z) : Prop := 0 <= v <= 0xFFFF.

Definition locks_ok (s : sys) : Prop :=
  exists p tp f tf, wakelocks s = table p tp f tf /\ u16_range p /\ u16_range f.

Definition known (t : Z) : Prop := t = PARTIAL_WAKE_LOCK \/ t = FULL_WAKE_LOCK.

Lemma lookup_known t p tp f tf :
  lookup_from 0 (table p tp f tf) t =
    if t =? PARTIAL_WAKE_LOCK then Some 0%nat else if t =? FULL_WAKE_LOCK then Some 1%nat else None.
Proof.
  unfold table, PARTIAL_WAKE_LOCK, FULL_WAKE_LOCK. cbn [lookup_from wake_lock_type].
  rewrite !(Z.eqb_sym _ t). reflexivity.
Qed.

Lemma u16_id v : u16_range v -> u16 v = v.
Proof. unfold u16_range, u16. intros H. apply Z.mod_small. lia. Qed.

(** ** Specification of the locks

    A lock has a number of holders and the time since which it counts as
    free: that of its last release, or of the last release of the full lock,
    which counts for both. *)

Record lock_spec : Type := mk_lock_spec { holders : Z; free_since : Z }.
Record locks_spec : Type := mk_locks_spec { partial : lock_spec; full : lock_spec; now : Z }.

Inductive spec_outcome : Type := Done (a : locks_spec) | TooMany | Unknown.

Definition touch (n : Z) (l : lock_spec) : lock_spec := mk_lock_spec (holders l) n.
Definition count (d : Z) (l : lock_spec) : lock_spec := mk_lock_spec (holders l + d) (free_since l).

Definition spec_act (x : act) (a : locks_spec) : spec_outcome :=
  match x with
  | Lock t =>
      if t =? PARTIAL_WAKE_LOCK then
        if holders (partial a) <? 0xFFFF then Done (mk_locks_spec (count 1 (partial a)) (full a) (now a)) else TooMany
      else if t =? FULL_WAKE_LOCK then
        if holders (full a) <? 0xFFFF then Done (mk_locks_spec (partial a) (count 1 (full a)) (now a)) else TooMany
      else Unknown
  | Unlock t =>
      if t =? PARTIAL_WAKE_LOCK then
        if 0 <? holders (partial a) then Done (mk_locks_spec (touch (now a) (count (-1) (partial a))) (full a) (now a)) else TooMany
      else if t =? FULL_WAKE_LOCK then
        if 0 <? holders (full a) then Done (mk_locks_spec (touch (now a) (partial a)) (touch (now a) (count (-1) (full a))) (now a)) else TooMany
      else Unknown
  | ResetLock t =>
      if t =? PARTIAL_WAKE_LOCK then
        if holders (partial a) <? 0xFFFF then Done (mk_locks_spec (touch (now a) (partial a)) (full a) (now a)) else TooMany
      else if t =? FULL_WAKE_LOCK then
        if holders (full a) <? 0xFFFF then Done (mk_locks_spec (touch (now a) (partial a)) (touch (now a) (full a)) (now a)) else TooMany
      else Done a
  | Elapse ms => Done (mk_locks_spec (partial a) (full a) (now a + Z.of_nat ms))
  | _ => Done a
  end.

Fixpoint spec_acts (l : list act) (a : locks_spec) : spec_outcome :=
  match l with
  | [] => Done a
  | x :: l' => match spec_act x a with Done a' => spec_acts l' a' | o => o end
  end.

(** The table implements the specification. *)
Definition lock_rel (l : lock_spec) (r ts : Z) : Prop :=
  u16_range (holders l) /\ r = holders l /\ (holders l = 0 -> ts = u32 (free_since l)).

Definition locks_rel (a : locks_spec) (s : sys) : Prop :=
  exists p tp f tf, wakelocks s = table p tp f tf /\
    lock_rel (partial a) p tp /\ lock_rel (full a) f tf /\ uptime s = now a /\ is_Some (context s).

Lemma u32_id v : u32 (u32 v) = u32 v.
Proof. unfold u32. apply Z.mod_mod. lia. Qed.

(** One operation on the table, computed: [i] is the entry of type [t]. *)
Definition taken (s : sys) (t p tp f tf : Z) : outcome unit :=
  if t =? PARTIAL_WAKE_LOCK
  then if p <? 0xFFFF then Ok tt (set_wakelocks (table (u16 (p + 1)) 0 f tf) s) else AssertFails
  else if f <? 0xFFFF then Ok tt (set_wakelocks (table p tp (u16 (f + 1)) 0) s) else AssertFails.

Definition dropped (s : sys) (t p tp f tf : Z) : outcome unit :=
  let n := u32 (uptime s) in
  let s' := set_context (set_force false <$> context s) s in
  if t =? PARTIAL_WAKE_LOCK
  then if 0 <? p then Ok tt (set_wakelocks (table (u16 (p - 1)) n f tf) s') else AssertFails
  else if 0 <? f then Ok tt (set_wakelocks (table p n (u16 (f - 1)) n) s') else AssertFails.

Definition entry (t : Z) : nat := if t =? PARTIAL_WAKE_LOCK then 0%nat else 1%nat.

Lemma take_lock_eq s t p tp f tf : known t -> wakelocks s = table p tp f tf ->
  take_lock (entry t) s = taken s t p tp f tf.
Proof.
  intros Ht H. destruct s as [wl c lf tm up ms mw tr]. cbn in H. subst wl. unfold take_lock, taken.
  destruct Ht as [-> | ->]; cbn [entry]; unfold mbind, M_bind, assert, wakelock_field, get; cbn.
  - destruct (p <? 65535); reflexivity.
  - destruct (f <? 65535); reflexivity.
Qed.

Lemma drop_lock_eq s t p tp f tf : known t -> wakelocks s = table p tp f tf ->
  drop_lock t (entry t) s = dropped s t p tp f tf.
Proof.
  intros Ht H. destruct s as [wl c lf tm up ms mw tr]. cbn in H. subst wl. unfold drop_lock, dropped.
  destruct Ht as [-> | ->]; cbn [entry]; unfold mbind, M_bind, assert, wakelock_field, get; cbn.
  - destruct (Z.ltb_spec 0 p); [|reflexivity]. destruct (Z.eqb_spec p 0); [lia|]. cbn. unfold set_free_timestamp. cbn. rewrite u32_id. reflexivity.
  - destruct (Z.ltb_spec 0 f); [|reflexivity]. destruct (Z.eqb_spec f 0); [lia|]. cbn. unfold set_free_timestamp. cbn. rewrite u32_id. reflexivity.
Qed.

(** The three operations of sys_wakelock.c on the table. *)
Definition lock_case (t : Z) {A} (k : outcome A) (u : outcome A) : outcome A :=
  if (t =? PARTIAL_WAKE_LOCK) || (t =? FULL_WAKE_LOCK) then k else u.

Definition seq_outcome {A B} (o : outcome A) (k : sys -> outcome B) : outcome B :=
  match o with Ok _ s => k s | AssertFails => AssertFails | NullDeref => NullDeref | Asleep => Asleep end.

Lemma lookup_split t s p tp f tf : wakelocks s = table p tp f tf ->
  (known t /\ _sys_wakelock_lookup t s = Ok (Some (entry t)) s /\ (t =? PARTIAL_WAKE_LOCK) || (t =? FULL_WAKE_LOCK) = true) \/
  (_sys_wakelock_lookup t s = Ok None s /\ (t =? PARTIAL_WAKE_LOCK) || (t =? FULL_WAKE_LOCK) = false).
Proof.
  intros H. unfold _sys_wakelock_lookup, get, known, entry. rewrite H, lookup_known.
  destruct (Z.eqb_spec t PARTIAL_WAKE_LOCK); [left; auto|]. destruct (Z.eqb_spec t FULL_WAKE_LOCK); [left|right]; auto.
Qed.

Lemma wake_lock_eq s t p tp f tf : wakelocks s = table p tp f tf ->
  sys_wake_lock t s = lock_case t (seq_outcome (taken s t p tp f tf) (Ok 0)) NullDeref.
Proof.
  intros H. unfold sys_wake_lock, lock_case.
  destruct (lookup_split t s p tp f tf H) as [(Hk & Hl & ->) | (Hl & ->)]; rewrite (bind_ok _ _ _ _ _ Hl); [|reflexivity].
  unfold mbind, M_bind. rewrite (take_lock_eq _ _ _ _ _ _ Hk H). destruct (taken _ _ _ _ _ _); reflexivity.
Qed.

Lemma wake_unlock_eq s t p tp f tf : wakelocks s = table p tp f tf ->
  sys_wake_unlock t s = lock_case t (seq_outcome (dropped s t p tp f tf) (Ok 0)) NullDeref.
Proof.
  intros H. unfold sys_wake_unlock, lock_case.
  destruct (lookup_split t s p tp f tf H) as [(Hk & Hl & ->) | (Hl & ->)]; rewrite (bind_ok _ _ _ _ _ Hl); [|reflexivity].
  unfold mbind, M_bind. rewrite (drop_lock_eq _ _ _ _ _ _ Hk H). destruct (dropped _ _ _ _ _ _); reflexivity.
Qed.

Definition reset_done (s : sys) (t p tp f tf : Z) : outcome Z :=
  let n := u32 (uptime s) in
  let s' := set_context (set_force false <$> context s) s in
  if t =? PARTIAL_WAKE_LOCK
  then if p <? 0xFFFF then Ok 0 (set_wakelocks (table p n f tf) s') else AssertFails
  else if f <? 0xFFFF then Ok 0 (set_wakelocks (table p n f n) s') else AssertFails.

Lemma wake_reset_eq s t p tp f tf : wakelocks s = table p tp f tf -> u16_range p -> u16_range f ->
  sys_wake_lock_reset t s = lock_case t (reset_done s t p tp f tf) (Ok (- EEXIST) s).
Proof.
  intros H Hp Hf. unfold sys_wake_lock_reset, lock_case, reset_done.
  destruct (lookup_split t s p tp f tf H) as [(Hk & Hl & ->) | (Hl & ->)]; rewrite (bind_ok _ _ _ _ _ Hl); [|reflexivity].
  unfold mbind, M_bind. rewrite (take_lock_eq _ _ _ _ _ _ Hk H). unfold taken.
  destruct Hk as [-> | ->]; cbn [Z.eqb PARTIAL_WAKE_LOCK FULL_WAKE_LOCK].
  - destruct (Z.ltb_spec p 0xFFFF); [|reflexivity]. unfold u16_range in *.
    rewrite (drop_lock_eq _ _ (p + 1) 0 f tf); [|left; reflexivity|cbn; rewrite u16_id; [reflexivity|unfold u16_range; lia]].
    unfold dropped. cbn [Z.eqb PARTIAL_WAKE_LOCK]. destruct (Z.ltb_spec 0 (p + 1)); [|lia].
    rewrite Z.add_simpl_r, !u16_id by (unfold u16_range; lia). reflexivity.
  - destruct (Z.ltb_spec f 0xFFFF); [|reflexivity]. unfold u16_range in *.
    rewrite (drop_lock_eq _ _ p tp (f + 1) 0); [|right; reflexivity|cbn; rewrite u16_id; [reflexivity|unfold u16_range; lia]].
    unfold dropped. cbn [Z.eqb PARTIAL_WAKE_LOCK FULL_WAKE_LOCK]. destruct (Z.ltb_spec 0 (f + 1)); [|lia].
    rewrite Z.add_simpl_r, !u16_id by (unfold u16_range; lia). reflexivity.
Qed.

(** ** The locks refine the specification *)

Definition agrees (o : outcome unit) (r : spec_outcome) : Prop :=
  match o, r with
  | Ok _ s, Done a => locks_rel a s
  | AssertFails, TooMany => True
  | NullDeref, Unknown => True
  | _, _ => False
  end.

(** The relation after one entry of the table changed. *)
Ltac lock_rel_tac :=
  unfold agrees, locks_rel, lock_rel, count, touch in *; cbn; do 4 eexists; (split; [reflexivity|]);
  unfold u16_range in *; rewrite ?u16_id by (unfold u16_range; lia);
  (split; [split; [cbn; lia|split; [cbn; lia|cbn; (reflexivity || (intros; (lia || eauto)))]]|]);
  (split; [split; [cbn; lia|split; [cbn; lia|cbn; (reflexivity || (intros; (lia || eauto)))]]|]);
  (split; [cbn; assumption || lia|cbn; rewrite ?fmap_is_Some; assumption]).

Lemma lock_agrees t a s : locks_rel a s -> agrees (run_act (Lock t) s) (spec_act (Lock t) a).
Proof.
  intros (p & tp & f & tf & H & (Hp & -> & Tp) & (Hf & -> & Tf) & Hn & Hc). cbn [run_act spec_act].
  unfold mbind at 1, M_bind at 1. rewrite (wake_lock_eq _ _ _ _ _ _ H). unfold lock_case, taken.
  destruct (Z.eqb_spec t PARTIAL_WAKE_LOCK); cbn [orb].
  - destruct (Z.ltb_spec (holders (partial a)) 0xFFFF); [|exact I]. lock_rel_tac.
  - destruct (Z.eqb_spec t FULL_WAKE_LOCK); cbn; [|exact I].
    destruct (Z.ltb_spec (holders (full a)) 0xFFFF); [|exact I]. lock_rel_tac.
Qed.

Lemma unlock_agrees t a s : locks_rel a s -> agrees (run_act (Unlock t) s) (spec_act (Unlock t) a).
Proof.
  intros (p & tp & f & tf & H & (Hp & -> & Tp) & (Hf & -> & Tf) & Hn & Hc). cbn [run_act spec_act].
  unfold mbind at 1, M_bind at 1. rewrite (wake_unlock_eq _ _ _ _ _ _ H). unfold lock_case, dropped.
  destruct (Z.eqb_spec t PARTIAL_WAKE_LOCK); cbn [orb].
  - destruct (Z.ltb_spec 0 (holders (partial a))); [|exact I]. rewrite Hn. lock_rel_tac.
  - destruct (Z.eqb_spec t FULL_WAKE_LOCK); cbn; [|exact I].
    destruct (Z.ltb_spec 0 (holders (full a))); [|exact I]. rewrite Hn. lock_rel_tac.
Qed.

Lemma reset_agrees t a s : locks_rel a s -> agrees (run_act (ResetLock t) s) (spec_act (ResetLock t) a).
Proof.
  intros (p & tp & f & tf & H & (Hp & -> & Tp) & (Hf & -> & Tf) & Hn & Hc). cbn [run_act spec_act].
  unfold mbind at 1, M_bind at 1. rewrite (wake_reset_eq _ _ _ _ _ _ H Hp Hf). unfold lock_case, reset_done.
  destruct (Z.eqb_spec t PARTIAL_WAKE_LOCK); cbn [orb].
  - destruct (Z.ltb_spec (holders (partial a)) 0xFFFF); [|exact I]. rewrite Hn. lock_rel_tac.
  - destruct (Z.eqb_spec t FULL_WAKE_LOCK); cbn.
    + destruct (Z.ltb_spec (holders (full a)) 0xFFFF); [|exact I]. rewrite Hn. lock_rel_tac.
    + do 4 eexists. split; [exact H|]. unfold lock_rel. auto.
Qed.

(** The idle thread, computed. *)
Lemma suspend_eq ok s c : context s = Some c ->
  pm_system_suspend ok s = Ok tt (if b_enter_sleep s then
    if ok then set_context (Some (set_wakeup_flag true c))
                 (emit_event (ChipSleeps (held PARTIAL_WAKE_LOCK s) (held FULL_WAKE_LOCK s)) (set_enter_sleep false s))
    else set_enter_sleep false s else s).
Proof.
  intros Hc. unfold pm_system_suspend, pm_policy_next_state, mbind, M_bind, get. destruct (b_enter_sleep s); [|reflexivity].
  destruct ok; [|reflexivity]. cbn. rewrite !check_eq. unfold emit, put, _sys_standby_exit_sleep.
  rewrite (put_context_eq _ _ c) by exact Hc. reflexivity.
Qed.

Lemma act_agrees x a s : locks_rel a s -> agrees (run_act x s) (spec_act x a).
Proof.
  destruct x as [t|t|t|ms| | |ok]; [apply lock_agrees|apply unlock_agrees|apply reset_agrees|..];
    intros (p & tp & f & tf & H & HP & HF & Hn & [c Hc]); cbn [run_act spec_act].
  - do 4 eexists. split; [exact H|]. rewrite <- Hn. cbn. eauto.
  - do 4 eexists. split; [exact H|]. cbn. rewrite Hc. cbn. eauto.
  - unfold mbind at 1, M_bind at 1, get. destruct (powerdown_timer s); [|do 4 eexists; eauto].
    unfold mbind, M_bind, put, _sys_standby_powerdown_timer_handler. rewrite (put_context_eq _ _ c) by exact Hc. do 4 eexists. split; [exact H|]. cbn. eauto.
  - rewrite (suspend_eq ok s c Hc). destruct (b_enter_sleep s); [destruct ok|]; do 4 eexists; (split; [exact H|]); cbn; eauto.
Qed.

Lemma acts_agree l a s : locks_rel a s -> agrees (run_acts l s) (spec_acts l a).
Proof.
  revert a s. induction l as [|x l IH]; intros a s H; [exact H|]. cbn [run_acts spec_acts].
  unfold mbind, M_bind. pose proof (act_agrees x a s H) as Hx.
  destruct (run_act x s), (spec_act x a); cbn in Hx; try contradiction; try exact I. apply IH, Hx.
Qed.

Lemma u32_minus a b : u32 (u32 a - u32 b) = u32 (a - b).
Proof. unfold u32. symmetry. apply Zminus_mod. Qed.

Lemma rel_observe a s : locks_rel a s ->
  sys_wakelocks_check PARTIAL_WAKE_LOCK s = Ok (holders (partial a)) s /\
  sys_wakelocks_check FULL_WAKE_LOCK s = Ok (holders (full a)) s /\
  sys_wakelocks_get_free_time PARTIAL_WAKE_LOCK s =
    Ok (if holders (partial a) =? 0 then u32 (now a - free_since (partial a)) else 0) s /\
  sys_wakelocks_get_free_time FULL_WAKE_LOCK s =
    Ok (if holders (full a) =? 0 then u32 (now a - free_since (full a)) else 0) s.
Proof.
  intros (p & tp & f & tf & H & (Hp & -> & Tp) & (Hf & -> & Tf) & <- & Hc).
  rewrite !check_eq, !free_time_eq. unfold held, free_for. rewrite H, !lookup_known. cbn.
  repeat split;
    (destruct (Z.eqb_spec (holders (partial a)) 0) as [E|E] || idtac);
    (destruct (Z.eqb_spec (holders (full a)) 0) as [E'|E'] || idtac); try reflexivity;
    rewrite ?(Tp E), ?(Tf E'), ?u32_minus; reflexivity.
Qed.

(** The state after start-up: the full lock is held once. *)
Definition started (standby_sec powerdown_sec ret : Z) (temp : string) (up : Z) (lf : bool) (tr : list event) : sys :=
  let st := if standby_sec =? 0 then u32 (-1)
            else if standby_sec <? STANDBY_MIN_TIME_SEC then STANDBY_MIN_TIME_SEC * 1000
            else u32 (s32 (standby_sec * 1000)) in
  let pd := if _sys_standby_is_auto_powerdown ret temp then u32 (s32 (powerdown_sec * 1000)) else u32 (-1) in
  mk_sys (table 0 (u32 up) 1 0)
    (Some (mk_context st pd STANDBY_NORMAL STANDBY_DEEP_SLEEP false (u32 up) false false None false))
    lf None up false [Some StandbyWork; None; None; None; None] false tr.

Lemma init_eq standby_sec powerdown_sec ret temp s :
  sys_monitor_init standby_sec powerdown_sec ret temp s =
    Ok tt (set_enter_sleep (b_enter_sleep s) (started standby_sec powerdown_sec ret temp (uptime s) (lock_flag s) (trace s))).
Proof. destruct s as [wl c lf tm up ms mw b tr]. reflexivity. Qed.

Definition spec_start (t : Z) : locks_spec := mk_locks_spec (mk_lock_spec 0 t) (mk_lock_spec 1 t) t.

Lemma started_rel standby_sec powerdown_sec ret temp up lf b tr :
  locks_rel (spec_start up) (set_enter_sleep b (started standby_sec powerdown_sec ret temp up lf tr)).
Proof.
  do 4 eexists. split; [reflexivity|]. unfold lock_rel, u16_range. cbn.
  split; [lia|]. split; [lia|]. split; [reflexivity|]. eauto.
Qed.

(** What the rest of the system sees of the locks. *)
Definition observes (a : locks_spec) (s : sys) : Prop :=
  sys_wakelocks_check PARTIAL_WAKE_LOCK s = Ok (holders (partial a)) s /\
  sys_wakelocks_check FULL_WAKE_LOCK s = Ok (holders (full a)) s /\
  sys_wakelocks_get_free_time PARTIAL_WAKE_LOCK s =
    Ok (if holders (partial a) =? 0 then u32 (now a - free_since (partial a)) else 0) s /\
  sys_wakelocks_get_free_time FULL_WAKE_LOCK s =
    Ok (if holders (full a) =? 0 then u32 (now a - free_since (full a)) else 0) s.

(** C13: From start-up on, the wake locks behave as two counters of holders
    with the time of the last release, for any sequence of calls: the checks
    and the free times are those of the counters; a call fails its assertion
    exactly when a lock without a holder is released or a lock with 65535
    holders is taken, and a NULL pointer is followed exactly when an unknown
    lock is taken or released. *)
Theorem wakelocks_refine_counters (standby_sec powerdown_sec ret : Z) (temp : string) (s : sys) (l : list act) :
  match (sys_monitor_init standby_sec powerdown_sec ret temp;; run_acts l) s, spec_acts l (spec_start (uptime s)) with
  | Ok _ s', Done a => observes a s'
  | AssertFails, TooMany => True
  | NullDeref, Unknown => True
  | _, _ => False
  end.
Proof.
  rewrite (bind_ok _ _ _ _ _ (init_eq _ _ _ _ s)).
  pose proof (acts_agree l _ _ (started_rel standby_sec powerdown_sec ret temp (uptime s) (lock_flag s) (b_enter_sleep s) (trace s))) as H.
  destruct (run_acts _ _), (spec_acts _ _); try exact H. apply rel_observe, H.
Qed.

(** ** What the rest of the system cannot change *)

(** The timer either stays, or expires and sets the flag. *)
Definition timer_step (s s' : sys) (c c' : standby_context_t) : Prop :=
  powerdown_timer s' = powerdown_timer s /\ auto_powerdown c' = auto_powerdown c \/
  is_Some (powerdown_timer s) /\ powerdown_timer s' = None /\ auto_powerdown c' = true.

Definition same_config (c c' : standby_context_t) : Prop :=
  standby_state c' = standby_state c /\ standby_mode c' = standby_mode c /\
  auto_standby_time c' = auto_standby_time c /\ auto_powerdown_time c' = auto_powerdown_time c /\
  last_app c' = last_app c /\ notifier c' = notifier c.

(** A request for deep sleep stays, is dropped because a device could not be
    suspended, or makes the chip sleep once and wake up. *)
Definition sleep_step (s s' : sys) (c c' : standby_context_t) : Prop :=
  wakeup_flag c' = wakeup_flag c /\ trace s' = trace s /\ (b_enter_sleep s' = true -> b_enter_sleep s = true) \/
  wakeup_flag c' = true /\ b_enter_sleep s = true /\ b_enter_sleep s' = false /\
    exists p f, trace s' = ChipSleeps p f :: trace s.

Record frame (s s' : sys) : Prop := mk_frame {
  frame_locks : locks_ok s -> locks_ok s';
  frame_flag : lock_flag s' = lock_flag s;
  frame_monitor : monitor_work s' = monitor_work s /\ monitor_stoped s' = monitor_stoped s;
  frame_uptime : uptime s <= uptime s';
  frame_context : forall c, context s = Some c ->
    exists c', context s' = Some c' /\ same_config c c' /\ timer_step s s' c c' /\ sleep_step s s' c c'
}.

Lemma sleep_step_trans s1 s2 s3 c1 c2 c3 : sleep_step s1 s2 c1 c2 -> sleep_step s2 s3 c2 c3 -> sleep_step s1 s3 c1 c3.
Proof.
  intros [(W1 & T1 & B1)|(W1 & B1 & B1' & p & f & T1)] [(W2 & T2 & B2)|(W2 & B2 & B2' & p' & f' & T2)].
  - left. split; [congruence|]. split; [congruence|auto].
  - right. split; [exact W2|]. split; [auto|]. split; [exact B2'|]. exists p', f'. congruence.
  - right. split; [congruence|]. split; [exact B1|]. split; [|exists p, f; congruence].
    destruct (b_enter_sleep s3); [|reflexivity]. rewrite (B2 eq_refl) in B1'. exact B1'.
  - congruence.
Qed.

Lemma sleep_step_same s s' c c' : wakeup_flag c' = wakeup_flag c -> trace s' = trace s ->
  b_enter_sleep s' = b_enter_sleep s -> sleep_step s s' c c'.
Proof. intros W T B. left. split; [exact W|]. split; [exact T|congruence]. Qed.

#[export] Instance frame_preorder : PreOrder frame.
Proof.
  split.
  - intros s. split; auto; [lia|]. intros c Hc. exists c. split; [exact Hc|]. split; [unfold same_config; auto 10|].
    split; [left; auto|apply sleep_step_same; reflexivity].
  - intros s1 s2 s3 [L1 F1 M1 U1 C1] [L2 F2 M2 U2 C2]. split; auto; [congruence|intuition congruence|lia|].
    intros c Hc. destruct (C1 c Hc) as (c2 & Hc2 & S1 & E1 & P1). destruct (C2 c2 Hc2) as (c3 & Hc3 & S2 & E2 & P2).
    exists c3. split; [exact Hc3|]. split; [unfold same_config in *; intuition congruence|].
    split; [|apply (sleep_step_trans _ _ _ _ _ _ P1 P2)]. unfold timer_step in *.
    destruct E1 as [[E1 E1']|(E1 & E1' & E1'')], E2 as [[E2 E2']|(E2 & E2' & E2'')].
    + left. split; congruence.
    + right. rewrite <- E1. auto.
    + right. repeat split; [auto|congruence..].
    + right. auto.
Qed.

Lemma frame_refl s : frame s s.
Proof. reflexivity. Qed.

Definition keeps_flags (c c' : standby_context_t) : Prop :=
  same_config c c' /\ auto_powerdown c' = auto_powerdown c /\ wakeup_flag c' = wakeup_flag c.

(** Changes of the locks and of the flags that are not part of the frame. *)
Lemma frame_lock s wl f :
  (forall c, keeps_flags c (f c)) ->
  (locks_ok s -> locks_ok (set_wakelocks wl s)) ->
  frame s (set_wakelocks wl (set_context (f <$> context s) s)).
Proof.
  intros Hf Hw. split; auto; [cbn; lia|]. intros c Hc. cbn. rewrite Hc. exists (f c).
  split; [reflexivity|]. split; [apply Hf|]. split; [left; split; [reflexivity|apply Hf]|].
  apply sleep_step_same; [apply Hf|reflexivity..].
Qed.

Lemma locks_ok_table s p tp f tf : u16_range p -> u16_range f -> locks_ok (set_wakelocks (table p tp f tf) s).
Proof. intros Hp Hf. do 4 eexists. split; [reflexivity|]. auto. Qed.

Lemma force_config b c : keeps_flags c (set_force b c).
Proof. unfold keeps_flags, same_config. cbn. auto 10. Qed.

Lemma context_self s : set_context (id <$> context s) s = s.
Proof. destruct s as [wl [c|] lf tm up ms mw b tr]; reflexivity. Qed.

Lemma frame_take s wl : (locks_ok s -> locks_ok (set_wakelocks wl s)) -> frame s (set_wakelocks wl s).
Proof.
  intros H. rewrite <- (context_self s) at 2. apply frame_lock; [|exact H].
  intros c. unfold keeps_flags, same_config. cbn. auto 10.
Qed.

Lemma wake_lock_frame t s : locks_ok s -> post (sys_wake_lock t) s (fun _ s' => frame s s').
Proof.
  intros (p & tp & f & tf & H & Hp & Hf). unfold post. rewrite (wake_lock_eq _ _ _ _ _ _ H).
  unfold lock_case, taken, u16_range in *. destruct (_ || _); [|exact I].
  destruct (t =? PARTIAL_WAKE_LOCK);
    [destruct (Z.ltb_spec p 0xFFFF)|destruct (Z.ltb_spec f 0xFFFF)]; try exact I; cbn;
    apply frame_take; intros _; rewrite u16_id by (unfold u16_range; lia);
    apply locks_ok_table; unfold u16_range; lia.
Qed.

Lemma wake_unlock_frame t s : locks_ok s -> post (sys_wake_unlock t) s (fun _ s' => frame s s').
Proof.
  intros (p & tp & f & tf & H & Hp & Hf). unfold post. rewrite (wake_unlock_eq _ _ _ _ _ _ H).
  unfold lock_case, dropped, u16_range in *. destruct (_ || _); [|exact I].
  destruct (t =? PARTIAL_WAKE_LOCK);
    [destruct (Z.ltb_spec 0 p)|destruct (Z.ltb_spec 0 f)]; try exact I; cbn;
    (apply frame_lock; [apply force_config|]); intros _; rewrite u16_id by (unfold u16_range; lia);
    apply locks_ok_table; unfold u16_range; lia.
Qed.

Lemma wake_reset_frame t s : locks_ok s -> post (sys_wake_lock_reset t) s (fun _ s' => frame s s').
Proof.
  intros (p & tp & f & tf & H & Hp & Hf). unfold post. rewrite (wake_reset_eq _ _ _ _ _ _ H Hp Hf).
  unfold lock_case, reset_done. destruct (_ || _); [|reflexivity].
  destruct (t =? PARTIAL_WAKE_LOCK);
    [destruct (Z.ltb_spec p 0xFFFF)|destruct (Z.ltb_spec f 0xFFFF)]; try exact I; cbn;
    (apply frame_lock; [apply force_config|]); intros _; apply locks_ok_table; assumption.
Qed.

Lemma run_act_frame x s : locks_ok s -> post (run_act x) s (fun _ s' => frame s s').
Proof.
  intros H. destruct x as [t|t|t|ms| | |ok]; cbn [run_act].
  - apply post_bind. apply (post_mono _ _ _ _ (wake_lock_frame t s H)). intros _ s' Hs. exact Hs.
  - apply post_bind. apply (post_mono _ _ _ _ (wake_unlock_frame t s H)). intros _ s' Hs. exact Hs.
  - apply post_bind. apply (post_mono _ _ _ _ (wake_reset_frame t s H)). intros _ s' Hs. exact Hs.
  - cbn. split; auto; [cbn; lia|]. intros c Hc. exists c. split; [exact Hc|].
    split; [unfold same_config; auto 10|]. split; [left; auto|apply sleep_step_same; reflexivity].
  - split; auto; [cbn; lia|]. intros c Hc. cbn. rewrite Hc. eexists. split; [reflexivity|].
    split; [apply force_config|]. split; [left; auto|apply sleep_step_same; reflexivity].
  - apply post_bind. unfold post at 1, get. destruct (powerdown_timer s) as [d|] eqn:Ht; [|exact (frame_refl s)].
    unfold post, mbind, M_bind, put, _sys_standby_powerdown_timer_handler, put_context. cbn.
    destruct (context s) as [c|] eqn:Hc; [|exact I]. split; auto; [cbn; lia|]. intros c' Hc'. cbn.
    rewrite Hc in Hc'. injection Hc' as <-. eexists. split; [reflexivity|]. split; [unfold same_config; cbn; auto 10|].
    split; [right; rewrite Ht; split; [eauto|split; reflexivity]|apply sleep_step_same; reflexivity].
  - destruct (context s) as [c|] eqn:Hc; [|unfold post, pm_system_suspend, pm_policy_next_state, mbind, M_bind, get].
    + unfold post. rewrite (suspend_eq ok s c Hc). destruct (b_enter_sleep s) eqn:Hb; [destruct ok|reflexivity].
      * split; auto; [cbn; lia|]. intros c' Hc'. rewrite Hc in Hc'. injection Hc' as <-. eexists. split; [reflexivity|].
        split; [unfold same_config; cbn; auto 10|]. split; [left; auto|]. right. cbn. eauto 10.
      * split; auto; [cbn; lia|]. intros c' Hc'. exists c'. split; [exact Hc'|]. split; [unfold same_config; auto 10|].
        split; [left; auto|]. left. split; [reflexivity|]. split; [reflexivity|discriminate].
    + destruct (b_enter_sleep s); [destruct ok|exact (frame_refl s)]; cbn.
      * rewrite !check_eq. unfold emit, put, _sys_standby_exit_sleep, put_context. cbn. rewrite Hc. exact I.
      * split; auto; [cbn; lia|]. intros c' Hc'. cbn in Hc'. congruence.
Qed.

Lemma run_acts_frame l s : locks_ok s -> post (run_acts l) s (fun _ s' => frame s s').
Proof.
  revert s. induction l as [|x l IH]; intros s H; [exact (frame_refl s)|]. cbn [run_acts]. apply post_bind.
  apply (post_mono _ _ _ _ (run_act_frame x s H)). intros _ s1 H1.
  apply (post_mono _ _ _ _ (IH s1 (frame_locks _ _ H1 H))). intros _ s2 H2. etransitivity; eassumption.
Qed.

(** A wait that ends was ended by a wake-up. *)
Lemma wait_wakeup_frame l s : locks_ok s ->
  post (wait_wakeup l) s (fun _ s' => frame s s' /\ forall c, context s' = Some c -> wakeup_flag c = true).
Proof.
  revert s. induction l as [|x l IH]; intros s H; cbn [wait_wakeup]; apply post_bind;
    unfold post at 1, get_context; destruct (context s) as [c|] eqn:Hc; try exact I;
    destruct (wakeup_flag c) eqn:Hw; try (split; [exact (frame_refl s)|congruence]); [exact I|].
  apply post_bind. apply (post_mono _ _ _ _ (run_act_frame x s H)). intros _ s1 H1.
  apply (post_mono _ _ _ _ (IH s1 (frame_locks _ _ H1 H))). intros _ s2 [H2 Hf]. split; [etransitivity; eassumption|exact Hf].
Qed.

(** Without a request the wait does not end. *)
Lemma wait_forever l s c : locks_ok s -> context s = Some c -> wakeup_flag c = false -> b_enter_sleep s = false ->
  post (wait_wakeup l) s (fun _ _ => False).
Proof.
  intros L Hc Hw Hb. apply (post_mono _ _ _ _ (wait_wakeup_frame l s L)). intros _ s' [F Hf].
  destruct (frame_context _ _ F c Hc) as (c' & Hc' & _ & _ & [(W & _)|(_ & B & _)]); [|congruence].
  rewrite (Hf c' Hc') in W. congruence.
Qed.

(** ** The invariant of the state machine *)

Definition deep_ok (e : event) : Prop := match e with EnterS3 p f => p = 0 /\ f = 0 | _ => True end.

(** How often the power was switched off, the state of deep sleep entered, and
    the chip asleep. *)
Definition is_power_off (e : event) : bool := match e with PowerOff => true | _ => false end.
Definition is_enter_s3 (e : event) : bool := match e with EnterS3 _ _ => true | _ => false end.
Definition is_chip_sleeps (e : event) : bool := match e with ChipSleeps _ _ => true | _ => false end.
Definition times (p : event -> bool) (tr : list event) : nat := length (List.filter p tr).
Abbreviation power_offs := (times is_power_off).
Abbreviation s3_entries := (times is_enter_s3).
Abbreviation chip_sleeps := (times is_chip_sleeps).

Definition plain (e : event) : Prop :=
  match e with EnterS3 _ _ | ChipSleeps _ _ | PowerOff => False | _ => True end.

Lemma plain_spec e tr : plain e ->
  power_offs (e :: tr) = power_offs tr /\ s3_entries (e :: tr) = s3_entries tr /\
  chip_sleeps (e :: tr) = chip_sleeps tr /\ deep_ok e.
Proof. destruct e; cbn; tauto. Qed.

(** No request for deep sleep is pending; each time the state of deep sleep
    was entered no lock was held, and the chip slept once. *)
Definition slept_ok (s : sys) : Prop :=
  Forall deep_ok (trace s) /\ chip_sleeps (trace s) = s3_entries (trace s) /\ b_enter_sleep s = false.

(** While a handler runs: [armed] says whether the power-down timer may be
    running, [n] how many power-off messages were sent, [d] is the flag if the
    timer is not running, [st] the state of the machine. *)
Record running (armed : bool) (n : nat) (d : bool) (st : standby_state_e) (s : sys) : Prop := mk_running {
  run_locks : locks_ok s;
  run_sleep : slept_ok s;
  run_off : power_offs (trace s) = n;
  run_context : exists c, context s = Some c /\ standby_state c = st /\
    if armed then auto_powerdown c = true -> powerdown_timer s = None
    else powerdown_timer s = None /\ auto_powerdown c = d
}.

Lemma running_frame a n d st s s' : frame s s' -> running a n d st s -> running a n d st s'.
Proof.
  intros F [L S O (c & Hc & HS & HT)]. destruct (frame_context _ _ F c Hc) as (c' & Hc' & (HS' & _) & T & P).
  destruct S as (S1 & S2 & S3).
  destruct P as [(_ & PT & PB)|(_ & PB & _)]; [|congruence].
  split; [apply (frame_locks _ _ F L)|unfold slept_ok; rewrite PT|rewrite PT; exact O|].
  { split; [exact S1|]. split; [exact S2|]. destruct (b_enter_sleep s'); [rewrite PB in S3; auto|reflexivity]. }
  exists c'. split; [exact Hc'|]. split; [congruence|]. unfold timer_step in T. destruct a.
  - intros Hd. destruct T as [[T T']|(_ & T & _)]; [|exact T]. rewrite T. apply HT. congruence.
  - destruct HT as [HT HD]. destruct T as [[T T']|(T & _)]; [|destruct T; congruence].
    rewrite T, T'. auto.
Qed.

(** A part of the system that keeps the frame keeps the machine as it is. *)
Lemma post_frame {A} (c : M A) a n d st s Q :
  running a n d st s -> (locks_ok s -> post c s (fun _ s' => frame s s')) ->
  (forall r s', running a n d st s' -> Q r s') -> post c s Q.
Proof.
  intros R F HQ. apply (post_mono _ _ _ _ (F (run_locks _ _ _ _ _ R))). intros r s' Hs.
  apply HQ, (running_frame _ _ _ _ _ _ Hs R).
Qed.

(** A write to the context. *)
Lemma post_put_context f a n d st st' s (Q : unit -> sys -> Prop) :
  (forall c, standby_state c = st -> standby_state (f c) = st') ->
  (forall c, auto_powerdown (f c) = auto_powerdown c) ->
  running a n d st s -> (forall s', running a n d st' s' -> Q tt s') -> post (put_context f) s Q.
Proof.
  intros Hst Hd [L S O (c & Hc & HS & HT)] HQ. unfold post. rewrite (put_context_eq _ _ _ Hc). apply HQ.
  split; [exact L|exact S|exact O|]. exists (f c). split; [reflexivity|]. split; [apply Hst, HS|]. rewrite Hd. exact HT.
Qed.

Lemma post_get_context {A} (f : standby_context_t -> A) a n d st s (Q : A -> sys -> Prop) :
  running a n d st s -> (forall c, context s = Some c -> Q (f c) s) -> post (get_context f) s Q.
Proof.
  intros [L S O (c & Hc & _)] HQ. unfold post. rewrite (get_context_eq _ _ _ Hc). auto.
Qed.

Lemma post_emit ev a n d st s (Q : unit -> sys -> Prop) :
  plain ev ->
  running a n d st s -> (forall s', running a n d st s' -> Q tt s') -> post (emit ev) s Q.
Proof.
  intros He [L (S1 & S2 & S3) O C] HQ. apply HQ. destruct (plain_spec ev (trace s) He) as (Ep & Es & Ec & Ed).
  split; [exact L| |cbn [trace emit_event]; rewrite Ep; exact O|exact C].
  split; [constructor; [exact Ed|exact S1]|]. cbn [trace emit_event]. rewrite Ec, Es. auto.
Qed.

Lemma post_flag b a n d st s (Q : unit -> sys -> Prop) :
  running a n d st s -> (forall s', running a n d st s' -> Q tt s') -> post (put (set_lock_flag b)) s Q.
Proof. intros [L S O C] HQ. apply HQ. split; assumption. Qed.

Lemma post_notify e t m a n d st s (Q : unit -> sys -> Prop) :
  running a n d st s -> (forall s', running a n d st s' -> Q tt s') -> post (notify e t m) s Q.
Proof.
  intros R HQ. apply post_bind. eapply post_emit; [exact I|exact R|]. intros s1 R1.
  apply (post_frame _ _ _ _ _ _ _ R1 (run_acts_frame _ _)). intros [] s2 R2. auto.
Qed.

Lemma post_read {A} (c : M A) v s (Q : A -> sys -> Prop) : c s = Ok v s -> Q v s -> post c s Q.
Proof. apply post_ok. Qed.

Lemma post_skip s (Q : unit -> sys -> Prop) : Q tt s -> post skip s Q.
Proof. auto. Qed.

Lemma post_enter_s1 a n d st s (Q : unit -> sys -> Prop) :
  running a n d st s -> (forall s', running a n d STANDBY_S1 s' -> Q tt s') -> post _sys_standby_enter_s1 s Q.
Proof.
  intros R HQ. apply post_bind. apply (post_put_context _ a n d st STANDBY_S1); [reflexivity..|exact R|].
  intros s1 R1. eapply post_emit; [exact I|exact R1|exact HQ].
Qed.

Lemma post_exit_s1 a n d st s (Q : unit -> sys -> Prop) :
  running a n d st s -> (forall s', running a n d STANDBY_NORMAL s' -> Q tt s') -> post _sys_standby_exit_s1 s Q.
Proof.
  intros R HQ. apply post_bind. apply (post_put_context _ a n d st STANDBY_NORMAL); [reflexivity..|exact R|].
  intros s1 R1. apply post_bind. eapply post_read; [reflexivity|]. apply post_bind.
  apply (post_put_context _ a n d STANDBY_NORMAL STANDBY_NORMAL); [auto|reflexivity|exact R1|].
  intros s2 R2. eapply post_emit; [exact I|exact R2|exact HQ].
Qed.

(** Back to S1 when a lock is held. *)
Lemma post_back_to_s1 (l : bool) a n d st s (Q : unit -> sys -> Prop) :
  st = STANDBY_S1 \/ st = STANDBY_S2 -> running a n d st s ->
  (forall st' s', st' = STANDBY_S1 \/ st' = STANDBY_S2 -> running a n d st' s' -> Q tt s') ->
  post (if l then put_context (set_state STANDBY_S1) else skip) s Q.
Proof.
  intros Hst R HQ. destruct l; [|apply (HQ st); auto].
  apply (post_put_context _ a n d st STANDBY_S1); [reflexivity..|exact R|]. intros s1 R1. apply (HQ STANDBY_S1); auto.
Qed.

Lemma post_enter_s2 e a n d st s (Q : unit -> sys -> Prop) :
  running a n d st s ->
  (forall st' s', st' = STANDBY_S1 \/ st' = STANDBY_S2 -> running a n d st' s' -> Q tt s') ->
  post (_sys_standby_enter_s2 e) s Q.
Proof.
  intros R HQ. apply post_bind. apply (post_put_context _ a n d st STANDBY_S2); [reflexivity..|exact R|].
  intros s1 R1. apply post_bind. apply (post_get_context _ _ _ _ _ _ _ R1). intros c _.
  destruct (_ =? _); [|apply (HQ STANDBY_S2); auto].
  apply post_bind. apply (post_get_context _ _ _ _ _ _ _ R1). intros c' _.
  apply post_bind. assert (H2 : forall s2, running a n d STANDBY_S2 s2 -> post
    (put_context (set_last_app (current_app e));;
     app ← get_context last_app; notify e (ToApp app) MSG_SUSPEND_APP;;
     l ← any_lock; (if l : bool then put_context (set_state STANDBY_S1) else skip);;
     notify e ToServices MSG_SUSPEND_APP;;
     l ← any_lock; (if l : bool then put_context (set_state STANDBY_S1) else skip);;
     put (set_lock_flag true)) s2 Q).
  { intros s2 R2. apply post_bind.
    apply (post_put_context _ a n d STANDBY_S2 STANDBY_S2); [auto|reflexivity|exact R2|]. intros s3 R3.
    apply post_bind. apply (post_get_context _ _ _ _ _ _ _ R3). intros c3 _.
    apply post_bind. apply (post_notify _ _ _ _ _ _ _ _ _ R3). intros s4 R4.
    apply post_bind. apply (post_read _ _ _ _ (any_lock_eq s4)). apply post_bind.
    apply (post_back_to_s1 _ _ _ _ _ _ _ (or_intror eq_refl) R4). intros st5 s5 H5 R5.
    apply post_bind. apply (post_notify _ _ _ _ _ _ _ _ _ R5). intros s6 R6.
    apply post_bind. apply (post_read _ _ _ _ (any_lock_eq s6)). apply post_bind.
    apply (post_back_to_s1 _ _ _ _ _ _ _ H5 R6). intros st7 s7 H7 R7.
    apply (post_flag _ _ _ _ _ _ _ R7). intros s8 R8. apply (HQ st7 s8 H7 R8). }
  destruct (notifier c'); [apply (post_notify _ _ _ _ _ _ _ _ _ R1)|apply post_skip]; auto.
Qed.

Lemma post_exit_s2 e a n d st s (Q : unit -> sys -> Prop) :
  running a n d st s -> (forall s', running a n d STANDBY_S1 s' -> Q tt s') -> post (_sys_standby_exit_s2 e) s Q.
Proof.
  intros R HQ. apply post_bind. apply (post_put_context _ a n d st STANDBY_S1); [reflexivity..|exact R|].
  intros s1 R1. apply post_bind. apply (post_get_context _ _ _ _ _ _ _ R1). intros c _. apply post_bind.
  assert (H2 : forall s2, running a n d STANDBY_S1 s2 -> post
    (n ← get_context notifier; if n : bool then notify e ToNotifier MSG_RESUME_APP else skip) s2 Q).
  { intros s2 R2. apply post_bind. apply (post_get_context _ _ _ _ _ _ _ R2). intros c2 _.
    destruct (notifier c2); [apply (post_notify _ _ _ _ _ _ _ _ _ R2)|apply post_skip]; auto. }
  destruct (last_app c); [|apply post_skip; auto].
  apply post_bind. apply (post_flag _ _ _ _ _ _ _ R1). intros s2 R2.
  apply post_bind. apply (post_notify _ _ _ _ _ _ _ _ _ R2). intros s3 R3.
  apply (post_notify _ _ _ _ _ _ _ _ _ R3). auto.
Qed.

Lemma held_zero s : any_held s = false -> held PARTIAL_WAKE_LOCK s = 0 /\ held FULL_WAKE_LOCK s = 0.
Proof. intros H. apply orb_false_iff in H as [H1 H2]. rewrite negb_false_iff, Z.eqb_eq in H1, H2. auto. Qed.

(** The counts while a request is pending. *)
Record requested (n : nat) (s : sys) : Prop := mk_requested {
  rq_locks : locks_ok s;
  rq_deep : Forall deep_ok (trace s);
  rq_count : S (chip_sleeps (trace s)) = s3_entries (trace s);
  rq_off : power_offs (trace s) = n;
  rq_context : exists c, context s = Some c /\ standby_state c = STANDBY_S3 /\ wakeup_flag c = false /\
    (auto_powerdown c = true -> powerdown_timer s = None)
}.

Lemma post_wait l n d s (Q : unit -> sys -> Prop) :
  requested n s -> (forall s', running true n d STANDBY_S3 s' -> Q tt s') -> post (wait_wakeup l) s Q.
Proof.
  intros [L S C O (c & Hc & HS & Hw & HT)] HQ.
  apply (post_mono _ _ _ _ (wait_wakeup_frame l s L)). intros [] s' [F Hf]. apply HQ.
  destruct (frame_context _ _ F c Hc) as (c' & Hc' & (HS' & _) & T & P). specialize (Hf c' Hc').
  destruct P as [(P & _)|(_ & PB & PB' & p & f & PT)]; [congruence|].
  split; [apply (frame_locks _ _ F L)|unfold slept_ok; rewrite PT|rewrite PT; exact O|].
  - split; [constructor; [exact I|exact S]|]. split; [exact C|exact PB'].
  - exists c'. split; [exact Hc'|]. split; [congruence|]. intros Hd. destruct T as [[T T']|(_ & T & _)]; [|exact T].
    rewrite T. apply HT. congruence.
Qed.

(** Before the request the machine is in S3 with a count to come. *)
Lemma requested_frame n s s' : b_enter_sleep s = false -> frame s s' -> requested n s -> requested n s'.
Proof.
  intros Hb F [L S C O (c & Hc & HS & Hw & HT)].
  destruct (frame_context _ _ F c Hc) as (c' & Hc' & (HS' & _) & T & P).
  destruct P as [(PW & PT & PB)|(_ & PB & _)]; [|congruence].
  split; [apply (frame_locks _ _ F L)|rewrite PT; assumption..|].
  exists c'. split; [exact Hc'|]. split; [congruence|]. split; [congruence|].
  intros Hd. destruct T as [[T T']|(_ & T & _)]; [|exact T]. rewrite T. apply HT. congruence.
Qed.

Lemma post_enter_s3 e n d st s (Q : unit -> sys -> Prop) :
  any_held s = false -> running true n d st s -> (forall s', running true n d STANDBY_S3 s' -> Q tt s') ->
  post (_sys_standby_enter_s3 e) s Q.
Proof.
  intros Hh [L (S1 & S2 & S3) O (c & Hc & HS & HT)] HQ. unfold _sys_standby_enter_s3.
  set (s2 := set_context (Some (set_wakeup_flag false (set_state STANDBY_S3 c))) s).
  apply post_bind. apply (post_ok _ _ _ _ _ (put_context_eq _ _ _ Hc)).
  apply post_bind. apply (post_ok _ _ _ tt s2); [reflexivity|].
  apply post_bind. apply (post_read _ _ _ _ (check_eq _ s2)).
  apply post_bind. apply (post_read _ _ _ _ (check_eq _ s2)). apply post_bind.
  set (s3 := emit_event (EnterS3 (held PARTIAL_WAKE_LOCK s2) (held FULL_WAKE_LOCK s2)) s2).
  apply (post_ok _ _ _ tt s3); [reflexivity|].
  assert (R3 : requested n s3).
  { split; [exact L|constructor; [exact (held_zero s Hh)|exact S1]|cbn; unfold times in *; cbn; congruence|exact O|].
    eexists. split; [reflexivity|]. split; [reflexivity|]. split; [reflexivity|exact HT]. }
  apply post_bind. apply (post_mono _ _ _ _ (run_acts_frame _ s3 L)). intros [] s4 F4.
  pose proof (requested_frame n s3 s4 S3 F4 R3) as R4.
  apply post_bind. apply (post_ok _ _ _ tt (set_enter_sleep true s4)); [reflexivity|].
  apply post_bind. apply (post_wait _ n d); [destruct R4; split; assumption|]. intros s5 R5.
  apply (post_frame _ _ _ _ _ _ _ R5 (run_acts_frame _ s5)). intros [] s6 R6. auto.
Qed.

Abbreviation offs d := (if d : bool then 1 else 0)%nat.

(** The invariant between two calls. *)
Definition standby_inv (s : sys) : Prop :=
  exists n d st, (n <= offs d)%nat /\ st <> STANDBY_S3 /\ running false n d st s.

Lemma post_check_auto_powerdown n d st s (Q : Z -> sys -> Prop) :
  running false n d st s -> (n <= offs d)%nat ->
  (forall n' s', (n' <= 1)%nat -> running false n' true st s' -> Q 1 s') ->
  (d = false -> running false 0 false st s -> Q 0 s) ->
  post _sys_standby_check_auto_powerdown s Q.
Proof.
  intros R Hn HQ1 HQ0. destruct R as [L S O (c & Hc & HS & HT & HD)] eqn:ER. clear ER.
  apply post_bind. apply (post_read _ _ _ _ (get_context_eq _ _ _ Hc)). rewrite HD.
  destruct d; [apply (HQ1 n), mk_running; eauto|]. assert (n = 0%nat) as -> by lia.
  apply post_bind. apply (post_read _ _ _ _ (free_time_eq _ s)).
  apply post_bind. apply (post_read _ _ _ _ (get_context_eq _ _ _ Hc)).
  apply post_bind. apply (post_read _ _ _ _ (free_time_eq _ s)).
  destruct (_ && _); [|apply HQ0; [reflexivity|apply mk_running; eauto]].
  apply post_bind. apply (post_ok _ _ _ _ _ (put_context_eq _ _ _ Hc)). apply (HQ1 1%nat); [lia|].
  destruct S as (S1 & S2 & S3).
  split; [exact L|split; [constructor; [exact I|exact S1]|split; [exact S2|exact S3]]|cbn; unfold times in *; cbn; rewrite O; reflexivity|].
  eexists. split; [reflexivity|]. split; [exact HS|]. split; [exact HT|reflexivity].
Qed.

Lemma inv_intro n d st s : (n <= offs d)%nat -> st <> STANDBY_S3 -> running false n d st s -> standby_inv s.
Proof. intros Hn Hst R. exists n, d, st. auto. Qed.

Lemma post_process_normal s (Q : Z -> sys -> Prop) :
  running false 0 false STANDBY_NORMAL s -> (forall r s', standby_inv s' -> Q r s') ->
  post _sys_standby_process_normal s Q.
Proof.
  intros R HQ. apply post_bind. apply (post_read _ _ _ _ (check_eq _ s)).
  assert (I0 : standby_inv s) by (apply (inv_intro 0 false STANDBY_NORMAL); auto; discriminate).
  destruct (negb _); [apply HQ, I0|]. apply post_bind. apply (post_get_context _ _ _ _ _ _ _ R). intros c _.
  apply post_bind. apply (post_read _ _ _ _ (free_time_eq _ s)).
  apply post_bind. apply (post_get_context _ _ _ _ _ _ _ R). intros c' _. apply post_bind.
  destruct (_ || _); [|apply HQ, I0]. apply (post_enter_s1 _ _ _ _ _ _ R). intros s1 R1.
  apply HQ, (inv_intro 0 false STANDBY_S1); auto; discriminate.
Qed.

Lemma post_process_s1 e s (Q : Z -> sys -> Prop) :
  running false 0 false STANDBY_S1 s -> (forall r s', standby_inv s' -> Q r s') ->
  post (_sys_standby_process_s1 e) s Q.
Proof.
  intros R HQ. apply post_bind. apply (post_read _ _ _ _ (check_eq _ s)).
  apply post_bind. apply (post_get_context _ _ _ _ _ _ _ R). intros c _.
  apply post_bind. apply (post_get_context _ _ _ _ _ _ _ R). intros c' _.
  apply post_bind. apply (post_read _ _ _ _ (free_time_eq _ s)).
  apply post_bind. apply (post_read _ _ _ _ (free_time_eq _ s)).
  apply post_bind. apply (post_read _ _ _ _ (check_eq _ s)). apply post_bind.
  assert (K : post skip s (fun _ s' => post (mret 0 : M Z) s' Q)) by (apply HQ, (inv_intro 0 false STANDBY_S1); auto; discriminate).
  assert (E : post _sys_standby_exit_s1 s (fun _ s' => post (mret 0 : M Z) s' Q)).
  { apply (post_exit_s1 _ _ _ _ _ _ R). intros s1 R1. apply HQ, (inv_intro 0 false STANDBY_NORMAL); auto; discriminate. }
  assert (N : post (_sys_standby_enter_s2 e) s (fun _ s' => post (mret 0 : M Z) s' Q)).
  { apply (post_enter_s2 _ _ _ _ _ _ _ R). intros st s1 Hst R1. apply HQ, (inv_intro 0 false st); [lia| |exact R1].
    destruct Hst as [-> | ->]; discriminate. }
  destruct (negb _); [exact E|]. destruct (_ <? _); [destruct (force_standby c); assumption|].
  destruct (_ >? _); [destruct (_ =? _); assumption|].
  destruct (force_standby c); [destruct (_ =? _); assumption|exact K].
Qed.

Lemma post_arm n st s (Q : unit -> sys -> Prop) :
  running false n false st s -> (forall s', running true n false st s' -> Q tt s') -> post arm_powerdown_timer s Q.
Proof.
  intros [L S O (c & Hc & HS & HT & HD)] HQ.
  apply post_bind. apply (post_read _ _ _ _ (get_context_eq _ _ _ Hc)).
  assert (K : Q tt s) by (apply HQ; split; eauto).
  destruct (_ =? _); [exact K|]. apply post_bind. apply (post_read _ _ _ _ (free_time_eq _ s)).
  apply post_bind. apply (post_read _ _ _ _ (free_time_eq _ s)). cbv zeta.
  destruct (_ >? 0); [|exact K]. apply HQ. split; [assumption..|]. exists c. split; [exact Hc|].
  split; [exact HS|]. intros H. congruence.
Qed.

Lemma post_s2_loop e n d st s (Q : unit -> sys -> Prop) :
  running true n d st s -> (forall s', running true n d STANDBY_S1 s' -> Q tt s') -> post (s2_loop 1 e) s Q.
Proof.
  intros R HQ. apply post_bind. apply (post_read _ _ _ _ (any_lock_eq s)). destruct (any_held s) eqn:Hh.
  - apply (post_exit_s2 _ _ _ _ _ _ _ R HQ).
  - apply post_bind. apply (post_enter_s3 _ _ _ _ _ _ Hh R). intros s1 R1. apply (post_exit_s2 _ _ _ _ _ _ _ R1 HQ).
Qed.

Lemma post_process_s2 e s (Q : Z -> sys -> Prop) :
  running false 0 false STANDBY_S2 s -> (forall r s', standby_inv s' -> Q r s') ->
  post (_sys_standby_process_s2 e) s Q.
Proof.
  intros R HQ. apply post_bind.
  apply (post_put_context _ false 0 false STANDBY_S2 STANDBY_S2); [auto|reflexivity|exact R|]. intros s1 R1.
  apply post_bind. apply (post_arm _ _ _ _ R1). intros s2 R2.
  apply post_bind. apply (post_frame _ _ _ _ _ _ _ R2 (run_acts_frame _ s2)). intros [] s2' R2'.
  apply post_bind. apply (post_s2_loop _ _ _ _ _ _ R2'). intros s3 R3.
  destruct (run_context _ _ _ _ _ R3) as (c & Hc & HS & HT).
  apply post_bind. apply (post_read _ _ _ _ (get_context_eq _ _ _ Hc)). destruct (auto_powerdown c) eqn:Hd.
  - destruct R3 as [L (S1 & S2 & S3) O _]. apply HQ, (inv_intro 1 true STANDBY_S1); [lia|discriminate|].
    split; [exact L|split; [constructor; [exact I|exact S1]|split; [exact S2|exact S3]]|cbn; unfold times in *; cbn; rewrite O; reflexivity|].
    exists c. auto.
  - apply post_bind. apply (post_frame _ _ _ _ _ _ _ R3 (run_acts_frame _ s3)). intros [] s4 [L S O (c4 & Hc4 & HS4 & _)].
    apply post_bind. set (s5 := set_timer None s4). apply (post_ok _ _ _ tt s5); [reflexivity|].
    assert (R5 : running false 0 (auto_powerdown c4) STANDBY_S1 s5) by (split; [assumption..|exists c4; auto]). apply post_bind.
    destruct (negb _).
    + apply post_bind. apply (post_frame _ _ _ _ _ _ _ R5 (wake_lock_frame _ s5)). intros _ s6 R6.
      apply post_bind. apply (post_exit_s1 _ _ _ _ _ _ R6). intros s7 R7.
      apply post_bind. apply (post_frame _ _ _ _ _ _ _ R7 (wake_unlock_frame _ s7)). intros _ s8 R8.
      apply HQ, (inv_intro 0 (auto_powerdown c4) STANDBY_NORMAL); [lia|discriminate|exact R8].
    + apply post_bind. apply (post_frame _ _ _ _ _ _ _ R5 (wake_lock_frame _ s5)). intros _ s6 R6.
      apply post_bind. apply (post_frame _ _ _ _ _ _ _ R6 (wake_unlock_frame _ s6)). intros _ s7 R7.
      apply HQ, (inv_intro 0 (auto_powerdown c4) STANDBY_S1); [lia|discriminate|exact R7].
Qed.

Lemma work_handle_inv e s : standby_inv s -> post (_sys_standby_work_handle e) s (fun _ s' => standby_inv s').
Proof.
  intros (n & d & st & Hn & Hst & R). apply post_bind. apply (post_check_auto_powerdown _ _ _ _ _ R Hn).
  - intros n' s1 Hn' R1. apply (inv_intro n' true st); assumption.
  - intros -> R0. apply post_bind. apply (post_frame _ _ _ _ _ _ _ R0 (run_acts_frame _ s)). intros [] s1 R1.
    apply post_bind. destruct (run_context _ _ _ _ _ R1) as (c & Hc & HS & _).
    apply (post_read _ _ _ _ (get_context_eq _ _ _ Hc)). rewrite HS. destruct st; [..|congruence].
    + apply (post_process_normal _ _ R1). auto.
    + apply (post_process_s1 _ _ _ R1). auto.
    + apply (post_process_s2 _ _ _ R1). auto.
Qed.

(** ** Everything that can happen

    Besides the [act]s, the settings of the applications, the registration of
    further works and the rounds of the monitor, in which the other works do
    a list of [act]s each. *)

Inductive setting : Type :=
| SetMode (m : Z) | SetAutosleep (t : Z) | SetAutoPoweroff (t : Z) | RegisterNotifier | AddWork (n : nat) | StopMonitor.

Definition run_setting (o : setting) : M unit :=
  match o with
  | SetMode m => system_set_standby_mode m
  | SetAutosleep t => system_set_autosleep_time t
  | SetAutoPoweroff t => system_set_auto_poweroff_time t
  | RegisterNotifier => system_register_standby_notifier;; skip
  | AddWork n => sys_monitor_add_work (OtherWork n);; skip
  | StopMonitor => sys_monitor_stop
  end.

Definition other_works (acts : nat -> list act) (res : nat -> Z) (n : nat) : M Z := run_acts (acts n);; mret (res n).

Inductive reachable : sys -> Prop :=
| reach_start standby_sec powerdown_sec ret temp :
    reachable (started standby_sec powerdown_sec ret temp 0 false [])
| reach_act x s s' : reachable s -> run_act x s = Ok tt s' -> reachable s'
| reach_setting o s s' : reachable s -> run_setting o s = Ok tt s' -> reachable s'
| reach_round e acts res s s' :
    reachable s -> _sys_monitor_timer_handle e (other_works acts res) s = Ok tt s' -> reachable s'.

Lemma inv_frame s s' : frame s s' -> standby_inv s -> standby_inv s'.
Proof. intros F (n & d & st & Hn & Hst & R). apply (inv_intro n d st _ Hn Hst), (running_frame _ _ _ _ _ _ F R). Qed.

Lemma inv_locks s : standby_inv s -> locks_ok s.
Proof. intros (n & d & st & _ & _ & R). apply R. Qed.

Lemma inv_set_context f s :
  (forall c, standby_state (f c) = standby_state c /\ auto_powerdown (f c) = auto_powerdown c) ->
  standby_inv s -> standby_inv (set_context (f <$> context s) s).
Proof.
  intros Hf (n & d & st & Hn & Hst & [L S O (c & Hc & HS & HT & HD)]). apply (inv_intro n d st _ Hn Hst).
  split; [assumption..|]. cbn. rewrite Hc. exists (f c). split; [reflexivity|]. destruct (Hf c) as [-> ->]. auto.
Qed.

Lemma inv_set_monitor b w s : standby_inv s -> standby_inv (set_monitor b w s).
Proof. intros (n & d & st & Hn & Hst & [L S O C]). apply (inv_intro n d st _ Hn Hst). split; assumption. Qed.

Lemma setting_inv o s s' : standby_inv s -> run_setting o s = Ok tt s' -> standby_inv s'.
Proof.
  intros H E. destruct o; cbn in E.
  1-3: injection E as <-; apply inv_set_context; [intros c; cbn; auto|exact H].
  - unfold mbind, M_bind, system_register_standby_notifier in E. destruct (context s) as [c|] eqn:Hc.
    + destruct (notifier c); injection E as <-; [exact H|].
      replace (Some (set_notifier true c)) with (set_notifier true <$> context s) by (rewrite Hc; reflexivity).
      apply inv_set_context; [intros c'; cbn; auto|exact H].
    + injection E as <-. exact H.
  - unfold mbind, M_bind, sys_monitor_add_work in E. destruct (add_work_loop _ _); injection E as <-; [apply inv_set_monitor|]; exact H.
  - injection E as <-. apply inv_set_monitor, H.
Qed.

Lemma inv_emit ev s (Q : unit -> sys -> Prop) : plain ev -> standby_inv s ->
  (forall s', standby_inv s' -> Q tt s') -> post (emit ev) s Q.
Proof.
  intros He (n & d & st & Hn & Hst & R) HQ. apply (post_emit _ _ _ _ _ _ _ He R). intros s' R'. apply HQ, (inv_intro n d st); assumption.
Qed.

Lemma work_loop_inv e acts res l s : standby_inv s ->
  post (work_loop e (other_works acts res) l) s (fun _ s' => standby_inv s').
Proof.
  revert s. induction l as [|w l IH]; intros s H; [exact H|]. cbn [work_loop]. apply post_bind.
  destruct w as [w|]; [|apply post_skip, IH, H]. apply post_bind.
  assert (K : post (match w with StandbyWork => _sys_standby_work_handle e | OtherWork n => other_works acts res n end) s
    (fun _ s' => standby_inv s')).
  { destruct w as [|n]; [apply work_handle_inv, H|]. apply post_bind.
    apply (post_mono _ _ _ _ (run_acts_frame (acts n) s (inv_locks _ H))). intros _ s1 F. apply (inv_frame _ _ F H). }
  apply (post_mono _ _ _ _ K). intros ev s1 H1. destruct (negb _); [|apply post_skip, IH, H1].
  apply (inv_emit (SysEvent ev)); [exact I|exact H1|apply IH].
Qed.

Lemma reachable_inv s : reachable s -> standby_inv s.
Proof.
  induction 1 as [standby_sec powerdown_sec ret temp|x s s' _ IH E|o s s' _ IH E|e acts res s s' _ IH E].
  - apply (inv_intro 0 false STANDBY_NORMAL); [lia|discriminate|].
    split; [|split; [constructor|split; reflexivity]|reflexivity|eexists; split; [reflexivity|auto]].
    apply (locks_ok_table (started standby_sec powerdown_sec ret temp 0 false [])); unfold u16_range; lia.
  - apply (inv_frame s); [|exact IH]. apply (post_elim _ _ _ _ _ (run_act_frame x s (inv_locks _ IH)) E).
  - apply (setting_inv _ _ _ IH E).
  - refine (post_elim _ _ (fun _ s' => standby_inv s') _ _ _ E). apply post_bind. eapply post_read; [reflexivity|].
    destruct (monitor_stoped s); [exact IH|]. apply post_bind. eapply post_read; [reflexivity|]. apply work_loop_inv, IH.
Qed.

(** C14: Whatever the applications, the other threads and the interrupts do
    while the handler waits and at the places named in [place], and whatever
    the settings are, in every state between two calls: the handler entered the
    state of deep sleep, and requested it, only after finding no lock held; the
    chip slept exactly once for each time, and no request is left over; the
    state machine is not left in that state; the power-down timer is not
    running; and the message that switches the power off was given to
    send_async_msg at most once, and only if the power-down flag is set.  The
    chip itself sleeps later, from the idle thread, which does not look at the
    locks ([late_lock_does_not_stop_sleep]). *)
Theorem standby_invariant (s : sys) : reachable s ->
  (forall p f, EnterS3 p f ∈ trace s -> p = 0 /\ f = 0) /\
  chip_sleeps (trace s) = s3_entries (trace s) /\ b_enter_sleep s = false /\
  powerdown_timer s = None /\
  exists c, context s = Some c /\ standby_state c <> STANDBY_S3 /\
    (power_offs (trace s) <= offs (auto_powerdown c))%nat.
Proof.
  intros (n & d & st & Hn & Hst & [L (S1 & S2 & S3) O (c & Hc & HS & HT & HD)])%reachable_inv.
  split; [|split; [exact S2|split; [exact S3|split; [exact HT|]]]].
  - intros p f H. rewrite Forall_forall in S1. exact (S1 _ (proj1 (list_elem_of_In _ _) H)).
  - exists c. split; [exact Hc|]. split; [congruence|]. rewrite HD, O. exact Hn.
Qed.

(** ** Going to sleep and waking up *)

Lemma exit_s1_eq s c : context s = Some c ->
  _sys_standby_exit_s1 s =
    Ok tt (emit_event LateResume (set_context (Some (set_wakeup_timestamp (u32 (uptime s)) (set_state STANDBY_NORMAL c))) s)).
Proof. intros Hc. unfold _sys_standby_exit_s1. rewrite (bind_ok _ _ _ _ _ (put_context_eq _ _ _ Hc)). reflexivity. Qed.

Section sleep.
Context (ast apt : Z) (mw : list (option work)) (ms nt : bool).

(** A machine in which no lock is held; the locks are free since [tp] and [tf]. *)
Definition idle (st : standby_state_e) (force wf : bool) (la : option string) (tp tf wt up : Z) (lf : bool) (tr : list event) : sys :=
  mk_sys (table 0 tp 0 tf)
    (Some (mk_context ast apt st STANDBY_DEEP_SLEEP false wt wf force la nt)) lf None up ms mw false tr.

Lemma idle_get {A} (f : standby_context_t -> A) st force wf la tp tf wt up lf tr :
  get_context f (idle st force wf la tp tf wt up lf tr) =
    Ok (f (mk_context ast apt st STANDBY_DEEP_SLEEP false wt wf force la nt)) (idle st force wf la tp tf wt up lf tr).
Proof. reflexivity. Qed.

Context (tp tf up : Z) (app : string) (e : env) (d : nat).
Context (Happ : current_app e = Some app) (Hquiet : forall t m, reaction e t m = []).
Context (Hsleep : asleep e = [Elapse d; Idle true]) (Hpre : forall q, preempt e q = []).
Context (Hp : u32 (u32 up - tp) > ast) (Hf : u32 (u32 up - tf) > ast).
Context (Hp' : u32 (u32 up - tp) <= apt).

(** Both locks are free for longer than the standby time, but not for the power-down time. *)
Lemma idle_check st force wf la wt lf tr :
  _sys_standby_check_auto_powerdown (idle st force wf la tp tf wt up lf tr) = Ok 0 (idle st force wf la tp tf wt up lf tr).
Proof.
  unfold _sys_standby_check_auto_powerdown, mbind, M_bind. cbn. rewrite free_time_eq. cbn. rewrite free_time_eq.
  unfold free_for. cbn. rewrite Z.gtb_ltb. destruct (Z.ltb_spec apt (u32 (u32 up - tp))); [lia|]. reflexivity.
Qed.

Lemma idle_handle st force wf la wt lf tr :
  let s := idle st force wf la tp tf wt up lf tr in
  _sys_standby_work_handle e s =
    match st with
    | STANDBY_NORMAL => _sys_standby_process_normal s
    | STANDBY_S1 => _sys_standby_process_s1 e s
    | STANDBY_S2 => _sys_standby_process_s2 e s
    | STANDBY_S3 => Ok 0 s
    end.
Proof.
  cbv zeta. unfold _sys_standby_work_handle. rewrite (bind_ok _ _ _ _ _ (idle_check _ _ _ _ _ _ _)), Hpre. destruct st; reflexivity.
Qed.

Lemma idle_normal force wf la wt lf tr :
  _sys_standby_work_handle e (idle STANDBY_NORMAL force wf la tp tf wt up lf tr) =
    Ok 0 (idle STANDBY_S1 force wf la tp tf wt up lf (EarlySuspend :: tr)).
Proof.
  rewrite idle_handle. unfold _sys_standby_process_normal, mbind, M_bind. rewrite check_eq. cbn.
  rewrite free_time_eq. unfold free_for. cbn. rewrite Z.gtb_ltb.
  destruct (Z.ltb_spec ast (u32 (u32 up - tf))); [|lia]. rewrite orb_true_r. reflexivity.
Qed.

Lemma notify_quiet t m s : notify e t m s = Ok tt (emit_event (Notified t m) s).
Proof. unfold notify. rewrite Hquiet. reflexivity. Qed.

Definition suspended : list event :=
  [Notified ToServices MSG_SUSPEND_APP; Notified (ToApp (Some app)) MSG_SUSPEND_APP] ++
  (if nt then [Notified ToNotifier MSG_SUSPEND_APP] else []).

Definition resumed : list event :=
  (if nt then [Notified ToNotifier MSG_RESUME_APP] else []) ++
  [Notified (ToApp (Some app)) MSG_RESUME_APP; Notified ToServices MSG_RESUME_APP].

Lemma idle_enter_s2 force wf la wt lf tr :
  _sys_standby_enter_s2 e (idle STANDBY_S1 force wf la tp tf wt up lf tr) =
    Ok tt (idle STANDBY_S2 force wf (Some app) tp tf wt up true (suspended ++ tr)).
Proof.
  unfold _sys_standby_enter_s2, suspended, idle, mbind, M_bind. rewrite Happ. cbn.
  destruct nt; rewrite ?notify_quiet; cbn; rewrite ?notify_quiet; rewrite any_lock_eq; cbn;
    rewrite notify_quiet, any_lock_eq; cbn; reflexivity.
Qed.

Lemma process_s1_due force wf la wt lf tr s' :
  _sys_standby_enter_s2 e (idle STANDBY_S1 force wf la tp tf wt up lf tr) = Ok tt s' ->
  _sys_standby_process_s1 e (idle STANDBY_S1 force wf la tp tf wt up lf tr) = Ok 0 s'.
Proof.
  intros Hs. unfold _sys_standby_process_s1. rewrite (bind_ok _ _ _ _ _ (check_eq _ _)).
  rewrite (bind_ok _ _ _ _ _ (idle_get _ _ _ _ _ _ _ _ _ _ _)), (bind_ok _ _ _ _ _ (idle_get _ _ _ _ _ _ _ _ _ _ _)).
  rewrite (bind_ok _ _ _ _ _ (free_time_eq _ _)), (bind_ok _ _ _ _ _ (free_time_eq _ _)), (bind_ok _ _ _ _ _ (check_eq _ _)).
  change (negb (held FULL_WAKE_LOCK _ =? 0)) with false. change (held PARTIAL_WAKE_LOCK _ =? 0) with true.
  change (free_for FULL_WAKE_LOCK _) with (u32 (u32 up - tf)). change (free_for PARTIAL_WAKE_LOCK _) with (u32 (u32 up - tp)).
  cbn [force_standby auto_standby_time]. rewrite Z.gtb_ltb. destruct (Z.ltb_spec (u32 (u32 up - tf)) ast); [lia|].
  destruct (Z.ltb_spec ast (u32 (u32 up - tp))); [|lia]. rewrite (bind_ok _ _ _ _ _ Hs). reflexivity.
Qed.

Lemma idle_s1 force wf la wt lf tr :
  _sys_standby_work_handle e (idle STANDBY_S1 force wf la tp tf wt up lf tr) =
    Ok 0 (idle STANDBY_S2 force wf (Some app) tp tf wt up true (suspended ++ tr)).
Proof. rewrite idle_handle. apply process_s1_due, idle_enter_s2. Qed.

Lemma arm_any s c : context s = Some c -> exists t, arm_powerdown_timer s = Ok tt (set_timer t s).
Proof.
  intros Hc. unfold arm_powerdown_timer. rewrite (bind_ok _ _ _ _ _ (get_context_eq _ _ _ Hc)).
  assert (E : set_timer (powerdown_timer s) s = s) by (destruct s; reflexivity).
  destruct (_ =? _); [exists (powerdown_timer s); rewrite E; reflexivity|].
  rewrite (bind_ok _ _ _ _ _ (free_time_eq _ _)), (bind_ok _ _ _ _ _ (free_time_eq _ _)). cbv zeta.
  destruct (_ >? 0); [eexists; reflexivity|]. exists (powerdown_timer s). rewrite E. reflexivity.
Qed.

(** The chip sleeps for [d] milliseconds. *)
Lemma idle_sleeps t force wf wt lf tr :
  s2_loop 1 e (set_timer t (idle STANDBY_S2 force wf (Some app) tp tf wt up lf tr)) =
    Ok tt (set_timer t (idle STANDBY_S1 force true (Some app) tp tf wt (up + Z.of_nat d) false
      (resumed ++ ChipSleeps 0 0 :: EnterS3 0 0 :: tr))).
Proof.
  cbn [s2_loop]. rewrite (bind_ok _ _ _ _ _ (any_lock_eq _)). change (any_held _) with false. cbn iota.
  assert (H3 : _sys_standby_enter_s3 e (set_timer t (idle STANDBY_S2 force wf (Some app) tp tf wt up lf tr)) =
    Ok tt (set_timer t (idle STANDBY_S3 force true (Some app) tp tf wt (up + Z.of_nat d) lf (ChipSleeps 0 0 :: EnterS3 0 0 :: tr)))).
  { unfold _sys_standby_enter_s3. rewrite Hsleep, !Hpre. reflexivity. }
  rewrite (bind_ok _ _ _ _ _ H3). unfold _sys_standby_wakeup_from_s2, _sys_standby_exit_s2, resumed, idle, mbind, M_bind. cbn.
  rewrite !notify_quiet. destruct nt; cbn; rewrite ?notify_quiet; reflexivity.
Qed.

(** What woke the chip up decides whether the screen comes on. *)
Definition woken (wt : Z) (tr : list event) : sys :=
  let up' := up + Z.of_nat d in
  let n := u32 up' in
  if negb (s3_wksrc e =? SLEEP_WK_SRC_BT)
  then idle STANDBY_NORMAL false true (Some app) n n n up' false (LateResume :: resumed ++ ChipSleeps 0 0 :: EnterS3 0 0 :: tr)
  else idle STANDBY_S1 false true (Some app) n tf wt up' false (resumed ++ ChipSleeps 0 0 :: EnterS3 0 0 :: tr).

Lemma idle_s2 force wf wt lf tr :
  _sys_standby_work_handle e (idle STANDBY_S2 force wf (Some app) tp tf wt up lf tr) = Ok 0 (woken wt tr).
Proof.
  rewrite idle_handle. unfold _sys_standby_process_s2.
  set (s1 := idle STANDBY_S2 false wf (Some app) tp tf wt up lf tr).
  destruct (arm_any s1 _ eq_refl) as [t Ht].
  rewrite (bind_ok (put_context _) _ _ tt s1) by reflexivity. rewrite (bind_ok _ _ _ _ _ Ht).
  rewrite !Hpre, (bind_ok (run_acts []) _ _ tt (set_timer t s1)) by reflexivity. unfold s1. rewrite (bind_ok _ _ _ _ _ (idle_sleeps _ _ _ _ _ _)).
  unfold woken, mbind, M_bind. cbn [get_context set_timer idle context auto_powerdown put run_acts skip mret M_ret].
  destruct (negb _).
  - rewrite (wake_lock_eq _ _ 0 tp 0 tf) by reflexivity. cbn.
    erewrite exit_s1_eq by reflexivity. rewrite (wake_unlock_eq _ _ 0 tp 1 0) by reflexivity. cbn. unfold idle. rewrite ?u32_id. reflexivity.
  - rewrite (wake_lock_eq _ _ 0 tp 0 tf) by reflexivity. cbn.
    rewrite (wake_unlock_eq _ _ 1 0 0 tf) by reflexivity. cbn. unfold idle. rewrite ?u32_id. reflexivity.
Qed.
End sleep.

(** C15: Let there be a current application, the mode be that of deep sleep,
    both locks be free for longer than the standby time but not both for the
    power-down time, and let no receiver of a message and no other thread do
    anything with the locks or the timer during three calls of the handler.
    Then these suspend the notifier, the application and the services, put the
    chip to deep sleep (from the idle thread, with all devices suspended) and
    resume them in the reverse order; the screen comes on again unless
    Bluetooth woke the chip up, and the time to the next standby starts anew. *)
Theorem standby_sleeps_and_wakes (e : env) (app : string) (d : nat) (s : sys) (c : standby_context_t) (tp tf : Z) :
  wakelocks s = table 0 tp 0 tf -> context s = Some c -> powerdown_timer s = None -> b_enter_sleep s = false ->
  standby_state c = STANDBY_NORMAL -> standby_mode c = STANDBY_DEEP_SLEEP -> auto_powerdown c = false ->
  current_app e = Some app -> (forall t m, reaction e t m = []) -> asleep e = [Elapse d; Idle true] ->
  (forall q, preempt e q = []) ->
  u32 (u32 (uptime s) - tp) > auto_standby_time c -> u32 (u32 (uptime s) - tf) > auto_standby_time c ->
  u32 (u32 (uptime s) - tp) <= auto_powerdown_time c ->
  let nt := notifier c in
  let by_bt := s3_wksrc e =? SLEEP_WK_SRC_BT in
  exists s', (_sys_standby_work_handle e;; _sys_standby_work_handle e;; _sys_standby_work_handle e) s = Ok 0 s' /\
    trace s' = (if by_bt then [] else [LateResume]) ++ resumed nt app ++ ChipSleeps 0 0 :: EnterS3 0 0 :: suspended nt app ++ EarlySuspend :: trace s /\
    standby_state <$> context s' = Some (if by_bt then STANDBY_S1 else STANDBY_NORMAL) /\
    any_held s' = false /\ uptime s' = uptime s + Z.of_nat d /\ free_for PARTIAL_WAKE_LOCK s' = 0 /\
    (by_bt = false -> free_for FULL_WAKE_LOCK s' = 0).
Proof.
  intros Hw Hc Ht Hb HS Hm Hd Happ Hquiet Hsleep Hpre Hp Hf Hp'. cbv zeta.
  destruct s as [wl ctx lf tm up ms mw b tr], c as [ast apt st m pd wt wf force la nt].
  cbn [wakelocks context powerdown_timer standby_state standby_mode auto_powerdown auto_standby_time auto_powerdown_time
    uptime notifier b_enter_sleep trace] in *. subst.
  assert (Z0 : u32 (u32 (up + Z.of_nat d) - u32 (up + Z.of_nat d)) = 0) by (rewrite Z.sub_diag; reflexivity).
  assert (Hrun : (_sys_standby_work_handle e;; _sys_standby_work_handle e;; _sys_standby_work_handle e)
    (idle ast apt mw ms nt STANDBY_NORMAL force wf la tp tf wt up lf tr) =
    Ok 0 (woken ast apt mw ms nt tf up app e d wt (suspended nt app ++ EarlySuspend :: tr))).
  { erewrite bind_ok by (apply idle_normal; assumption).
    erewrite bind_ok by (eapply idle_s1; eassumption). apply idle_s2; assumption. }
  eexists. split; [exact Hrun|]. clear Hrun. unfold woken.
  destruct (s3_wksrc e =? SLEEP_WK_SRC_BT); cbn; (split; [reflexivity|]); (split; [reflexivity|]);
    (split; [reflexivity|]); (split; [reflexivity|]); (split; [exact Z0|]); intros H; [discriminate|exact Z0].
Qed.

(** ** The power-down timer *)

Lemma free_for_range t s : 0 <= free_for t s < 2 ^ 32.
Proof.
  unfold free_for. destruct (lookup_from _ _ _); [|lia]. destruct (_ =? 0); [|lia]. unfold u32. apply Z.mod_pos_bound. lia.
Qed.

(** On the way to deep sleep, with some of the power-down time left for
    both locks, the timer is armed with the time left of the lock that is
    free for longer, in microseconds; the 32-bit product is right exactly
    when at most 2147483 ms (35 minutes) are left. *)
Theorem powerdown_timer_duration (s : sys) (c : standby_context_t) :
  let limit := auto_powerdown_time c in
  let rest := limit - Z.max (free_for PARTIAL_WAKE_LOCK s) (free_for FULL_WAKE_LOCK s) in
  context s = Some c -> limit < 2 ^ 31 -> 0 < rest ->
  exists t, arm_powerdown_timer s = Ok tt (set_timer (Some t) s) /\ (t = rest * 1000 <-> rest <= 2147483).
Proof.
  cbv zeta. intros Hc Hl Hr. set (p := free_for PARTIAL_WAKE_LOCK s) in *. set (f := free_for FULL_WAKE_LOCK s) in *.
  pose proof (free_for_range PARTIAL_WAKE_LOCK s) as Rp. pose proof (free_for_range FULL_WAKE_LOCK s) as Rf. fold p in Rp. fold f in Rf.
  set (limit := auto_powerdown_time c) in *. exists (s32 ((limit - Z.max p f) * 1000)). split.
  - unfold arm_powerdown_timer. rewrite (bind_ok _ _ _ _ _ (get_context_eq _ _ _ Hc)). fold limit.
    destruct (Z.eqb_spec limit (u32 (-1))) as [E|_]; [exfalso; change (u32 (-1)) with 4294967295 in E; lia|].
    rewrite (bind_ok _ _ _ _ _ (free_time_eq _ _)), (bind_ok _ _ _ _ _ (free_time_eq _ _)). fold p f. cbv zeta.
    rewrite !(s32_small (limit - _)) by lia. rewrite !(u32_small (limit - _)) by lia. rewrite !Z.gtb_ltb.
    destruct (Z.ltb_spec (limit - p) (limit - f)).
    + destruct (Z.ltb_spec 0 (limit - p)); [|lia]. rewrite Z.max_l by lia. reflexivity.
    + destruct (Z.ltb_spec 0 (limit - f)); [|lia]. rewrite Z.max_r by lia. reflexivity.
  - split; intros H; [|apply s32_small; lia].
    assert (B : s32 ((limit - Z.max p f) * 1000) < 2 ^ 31); [|lia].
    unfold s32. pose proof (Z.mod_pos_bound ((limit - Z.max p f) * 1000 + 2 ^ 31) (2 ^ 32)). lia.
Qed.

(** ** A suspend that is given up *)

(** The reactions of [e]: only the application takes a lock. *)
Definition clings (e : env) : Prop :=
  forall t m, reaction e t m = match t with ToApp _ => [Lock FULL_WAKE_LOCK] | _ => [] end.

(** The machine after the suspend was given up. *)
Definition given_up (ast apt : Z) (mw : list (option work)) (ms nt force wf : bool) (app : string) (tp wt up : Z) (tr : list event) : sys :=
  mk_sys (table 0 tp 1 0)
    (Some (mk_context ast apt STANDBY_S1 STANDBY_DEEP_SLEEP false wt wf force (Some app) nt)) true None up ms mw false
    (suspended nt app ++ tr).

Lemma give_up_s2 ast apt mw ms nt force wf la tp tf wt up lf tr e app :
  clings e -> current_app e = Some app ->
  _sys_standby_enter_s2 e (idle ast apt mw ms nt STANDBY_S1 force wf la tp tf wt up lf tr) =
    Ok tt (given_up ast apt mw ms nt force wf app tp wt up tr).
Proof.
  intros He Happ. unfold _sys_standby_enter_s2, given_up, suspended, idle, notify, mbind, M_bind.
  rewrite Happ. destruct nt; cbn; rewrite ?He; cbn; rewrite ?He; cbn; rewrite ?He; reflexivity.
Qed.

Lemma give_up_handle ast apt mw ms nt force wf app tp wt up tr e :
  0 <= apt -> (forall q, preempt e q = []) ->
  _sys_standby_work_handle e (given_up ast apt mw ms nt force wf app tp wt up tr) =
    Ok 0 (mk_sys (table 0 tp 1 0)
      (Some (mk_context ast apt STANDBY_NORMAL STANDBY_DEEP_SLEEP false (u32 up) wf force (Some app) nt)) true None up ms mw false
      (LateResume :: suspended nt app ++ tr)).
Proof.
  intros H Hpre. unfold _sys_standby_work_handle, _sys_standby_check_auto_powerdown, given_up, mbind, M_bind. rewrite Hpre. cbn.
  rewrite free_time_eq. cbn. rewrite free_time_eq. unfold free_for. cbn.
  rewrite (Z.gtb_ltb 0 apt). destruct (Z.ltb_spec apt 0); [lia|]. rewrite andb_false_r. cbn.
  unfold _sys_standby_process_s1, mbind, M_bind. rewrite !check_eq. cbn. rewrite !free_time_eq, check_eq. reflexivity.
Qed.

(** If the application takes the full lock while it is being suspended,
    the handler gives deep sleep up and the next call switches the screen on
    again, but nobody is sent the resume message and the message manager
    stays locked. *)
Theorem suspend_given_up (e e' : env) (app : string) (s : sys) (c : standby_context_t) (tp tf : Z) :
  wakelocks s = table 0 tp 0 tf -> context s = Some c -> powerdown_timer s = None -> b_enter_sleep s = false ->
  standby_state c = STANDBY_S1 -> standby_mode c = STANDBY_DEEP_SLEEP -> auto_powerdown c = false ->
  current_app e = Some app ->
  clings e -> (forall q, preempt e q = []) -> (forall q, preempt e' q = []) ->
  u32 (u32 (uptime s) - tp) > auto_standby_time c -> u32 (u32 (uptime s) - tf) > auto_standby_time c ->
  u32 (u32 (uptime s) - tp) <= auto_powerdown_time c ->
  exists s', (_sys_standby_work_handle e;; _sys_standby_work_handle e') s = Ok 0 s' /\
    standby_state <$> context s' = Some STANDBY_NORMAL /\ held FULL_WAKE_LOCK s' = 1 /\
    trace s' = LateResume :: suspended (notifier c) app ++ trace s /\ lock_flag s' = true.
Proof.
  intros Hw Hc Ht Hb HS Hm Hd Happ He Hpre Hpre' Hp Hf Hp'.
  destruct s as [wl ctx lf tm up ms mw b tr], c as [ast apt st m pd wt wf force la nt].
  cbn [wakelocks context powerdown_timer standby_state standby_mode auto_powerdown auto_standby_time auto_powerdown_time
    uptime notifier b_enter_sleep trace] in *. subst.
  assert (Hrun : _sys_standby_work_handle e (idle ast apt mw ms nt STANDBY_S1 force wf la tp tf wt up lf tr) =
    Ok 0 (given_up ast apt mw ms nt force wf app tp wt up tr)).
  { rewrite idle_handle by assumption. apply process_s1_due; [assumption..|]. apply give_up_s2; assumption. }
  eexists. split; [rewrite (bind_ok _ _ _ _ _ Hrun); apply give_up_handle; [|exact Hpre']|auto].
  pose proof (Z.mod_pos_bound (u32 up - tp) (2 ^ 32)). unfold u32 at 1 in Hp'. lia.
Qed.

(** Once the power-down flag is set, every round of the monitor reports
    the return value 1 of the standby handler as the event 1, which is
    SYS_EVENT_POWER_ON, and does nothing else. *)
Theorem powered_down_rounds (e : env) (other : nat -> M Z) (s : sys) (c : standby_context_t) :
  context s = Some c -> auto_powerdown c = true -> monitor_stoped s = false ->
  monitor_work s = [Some StandbyWork; None; None; None; None] ->
  _sys_monitor_timer_handle e other s = Ok tt (emit_event (SysEvent SYS_EVENT_POWER_ON) s).
Proof.
  intros Hc Hd Hm Hw. unfold _sys_monitor_timer_handle.
  rewrite (bind_ok (get _) _ s _ s eq_refl), Hm, (bind_ok (get _) _ s _ s eq_refl), Hw. cbn [work_loop].
  assert (H : _sys_standby_work_handle e s = Ok 1 s).
  { unfold _sys_standby_work_handle, _sys_standby_check_auto_powerdown, mbind, M_bind, get_context. rewrite Hc, Hd. reflexivity. }
  unfold mbind, M_bind. rewrite H. reflexivity.
Qed.

(** ** Concrete instances *)

Definition ear : string := "earphone".
Definition quiet_env : env := mk_env (Some ear) (fun _ _ => []) [Elapse 700; Idle true] (fun _ => []) 1.
Definition clinging_env : env :=
  mk_env (Some ear) (fun t _ => match t with ToApp _ => [Lock FULL_WAKE_LOCK] | _ => [] end) [] (fun _ => []) 1.

(** Start-up with a standby time of 5 s, the debug lock released, 5.1 s later. *)
Definition rest_time : nat := 51 * 100.
Definition calm (st : standby_state_e) : sys :=
  mk_sys (table 0 0 0 0) (Some (mk_context 5000 1800000 st STANDBY_DEEP_SLEEP false 0 false false None false))
    false None (Z.of_nat rest_time) false [Some StandbyWork; None; None; None; None] false [].

Lemma calm_reachable : reachable (calm STANDBY_NORMAL).
Proof.
  apply (reach_act (Elapse rest_time) (set_uptime 0 (calm STANDBY_NORMAL))); [|vm_compute; reflexivity].
  apply (reach_act (Unlock FULL_WAKE_LOCK) (started 5 1800 0 "" 0 false [])); [|vm_compute; reflexivity].
  apply reach_start.
Qed.

Definition round (s : sys) : sys :=
  match _sys_monitor_timer_handle quiet_env (other_works (fun _ => []) (fun _ => 0)) s with Ok _ s' => s' | _ => s end.

Lemma slept_reachable : reachable (round (round (round (calm STANDBY_NORMAL)))).
Proof.
  apply (reach_round quiet_env (fun _ => []) (fun _ => 0) (round (round (calm STANDBY_NORMAL)))); [|vm_compute; reflexivity].
  apply (reach_round quiet_env (fun _ => []) (fun _ => 0) (round (calm STANDBY_NORMAL))); [|vm_compute; reflexivity].
  apply (reach_round quiet_env (fun _ => []) (fun _ => 0) (calm STANDBY_NORMAL)); [|vm_compute; reflexivity].
  apply calm_reachable.
Qed.

Lemma standby_invariant_witness :
  s3_entries (trace (round (round (round (calm STANDBY_NORMAL))))) = 1%nat /\
  chip_sleeps (trace (round (round (round (calm STANDBY_NORMAL))))) =
    s3_entries (trace (round (round (round (calm STANDBY_NORMAL))))).
Proof.
  split; [vm_compute; reflexivity|]. apply (standby_invariant _ slept_reachable).
Defined.

Lemma standby_sleeps_and_wakes_witness : exists s',
  (_sys_standby_work_handle quiet_env;; _sys_standby_work_handle quiet_env;; _sys_standby_work_handle quiet_env)
    (calm STANDBY_NORMAL) = Ok 0 s'.
Proof.
  destruct (standby_sleeps_and_wakes quiet_env ear 700 (calm STANDBY_NORMAL)
    (mk_context 5000 1800000 STANDBY_NORMAL STANDBY_DEEP_SLEEP false 0 false false None false) 0 0)
    as (s' & H & _); try reflexivity; try (vm_compute; congruence). exists s'. exact H.
Defined.

Lemma powerdown_timer_duration_witness : exists t,
  arm_powerdown_timer (calm STANDBY_S2) = Ok tt (set_timer (Some t) (calm STANDBY_S2)) /\ (t = 1794900 * 1000 <-> 1794900 <= 2147483).
Proof.
  apply (powerdown_timer_duration (calm STANDBY_S2)
    (mk_context 5000 1800000 STANDBY_S2 STANDBY_DEEP_SLEEP false 0 false false None false)); vm_compute; congruence.
Defined.

Lemma suspend_given_up_witness : exists s',
  (_sys_standby_work_handle clinging_env;; _sys_standby_work_handle quiet_env) (calm STANDBY_S1) = Ok 0 s' /\ lock_flag s' = true.
Proof.
  destruct (suspend_given_up clinging_env quiet_env ear (calm STANDBY_S1)
    (mk_context 5000 1800000 STANDBY_S1 STANDBY_DEEP_SLEEP false 0 false false None false) 0 0)
    as (s' & H & _ & _ & _ & Hl); try reflexivity; try (vm_compute; congruence). exists s'. auto.
Defined.

Definition powered_down : sys :=
  set_context (Some (mk_context 5000 1800000 STANDBY_S1 STANDBY_DEEP_SLEEP true 0 false false None false)) (calm STANDBY_S1).

Lemma powered_down_rounds_witness :
  _sys_monitor_timer_handle quiet_env (other_works (fun _ => []) (fun _ => 0)) powered_down =
    Ok tt (emit_event (SysEvent SYS_EVENT_POWER_ON) powered_down).
Proof.
  apply (powered_down_rounds _ _ powered_down
    (mk_context 5000 1800000 STANDBY_S1 STANDBY_DEEP_SLEEP true 0 false false None false)); reflexivity.
Defined.

(** One hour to power-down makes the product negative. *)
Example powerdown_timer_overflow :
  arm_powerdown_timer (set_context (Some (mk_context 5000 3600000 STANDBY_S2 STANDBY_DEEP_SLEEP false 0 false false None false)) (calm STANDBY_S2)) =
    Ok tt (set_timer (Some (-700067296)) (set_context (Some (mk_context 5000 3600000 STANDBY_S2 STANDBY_DEEP_SLEEP false 0 false false None false)) (calm STANDBY_S2))).
Proof. vm_compute. reflexivity. Qed.

(** A request for fast standby leaves NORMAL at once, but S1 is left for S2
    only after the standby time. *)
Example fast_standby_waits_in_s1 :
  match (system_request_fast_standby;; _sys_standby_work_handle quiet_env;; _sys_standby_work_handle quiet_env)
    (set_uptime 100 (calm STANDBY_NORMAL)) with
  | Ok _ s => standby_state <$> context s = Some STANDBY_S1
  | _ => False
  end.
Proof. vm_compute. reflexivity. Qed.

(** ** What happens between the check and the sleep *)

(** A thread takes the partial lock after the handler found no lock held and
    before it requests deep sleep: the chip sleeps with the lock held. *)
Definition late_env : env :=
  mk_env (Some ear) (fun _ _ => []) [Idle true] (fun q => match q with BeforeSleepRequest => [Lock PARTIAL_WAKE_LOCK] | _ => [] end) 1.

Example late_lock_does_not_stop_sleep :
  match _sys_standby_work_handle late_env (calm STANDBY_S2) with
  | Ok _ s => ChipSleeps 1 0 ∈ trace s
  | _ => False
  end.
Proof. vm_compute. right. left. Qed.

(** The power-down timer fires between the test of the flag and the stop of the
    timer: the flag is set, no message was sent, and from then on every call
    of the handler returns at once, so the power is never switched off. *)
Definition gap_env : env :=
  mk_env (Some ear) (fun _ _ => []) [Idle true] (fun q => match q with BeforeTimerStop => [TimerExpires] | _ => [] end) 1.

Theorem powerdown_lost (e : env) :
  match _sys_standby_work_handle gap_env (calm STANDBY_S2) with
  | Ok r s => r = 0 /\ power_offs (trace s) = 0%nat /\ (auto_powerdown <$> context s) = Some true /\
      _sys_standby_work_handle e s = Ok 1 s
  | _ => False
  end.
Proof. vm_compute. repeat split. Qed.

(** A device that cannot be suspended: the request is used up, no notifier is
    called, and the handler waits for ever. *)
Theorem refused_sleep_waits (l : list act) (s : sys) (c : standby_context_t) :
  locks_ok s -> context s = Some c -> wakeup_flag c = false ->
  post (pm_system_suspend false;; wait_wakeup l) s (fun _ _ => False).
Proof.
  intros L Hc Hw. apply post_bind. unfold post at 1. rewrite (suspend_eq false s c Hc).
  destruct (b_enter_sleep s) eqn:Hb; apply (wait_forever l _ c); try assumption; try reflexivity.
Qed.

Lemma refused_sleep_waits_witness : post (pm_system_suspend false;; wait_wakeup [Idle true]) (calm STANDBY_S3) (fun _ _ => False).
Proof.
  apply (refused_sleep_waits [Idle true] (calm STANDBY_S3)
    (mk_context 5000 1800000 STANDBY_S3 STANDBY_DEEP_SLEEP false 0 false false None false)); [|reflexivity..].
  exists 0, 0, 0, 0. split; [reflexivity|]. unfold u16_range. lia.
Defined.
