(* ===== verification/UiRegion.v ===== *)
(** * Screen regions (framework/display/ui_region.c)

    A region is the rectangle [x1, x2] x [y1, y2] of signed 16-bit
    coordinates, both ends included.  The operations are translated with the
    truncation to [int16_t] at every store; the theorems relate them to sets
    of points. *)

From stdpp Require Import base list numbers.
From S2P Require Import Prelude.
Open Scope Z_scope.

(** ** Data (ui_region.h, ui_math.h) *)

Record ui_point_t : Type := mk_point { x : Z; y : Z }.
Record ui_region_t : Type := mk_region { x1 : Z; y1 : Z; x2 : Z; y2 : Z }.

Definition UI_MIN (a b : Z) : Z := if a <? b then a else b.
Definition UI_MAX (a b : Z) : Z := if a >? b then a else b.

(** ** Operations *)

Definition ui_point_set (px py : Z) : ui_point_t := mk_point px py.
Definition ui_point_move (p : ui_point_t) (dx dy : Z) : ui_point_t :=
  mk_point (s16 (x p + dx)) (s16 (y p + dy)).

Definition ui_region_set (a b c d : Z) : ui_region_t := mk_region a b c d.
Definition ui_region_copy (src : ui_region_t) : ui_region_t := mk_region (x1 src) (y1 src) (x2 src) (y2 src).
Definition ui_region_get_width (r : ui_region_t) : Z := s16 (x2 r - x1 r + 1).
Definition ui_region_get_height (r : ui_region_t) : Z := s16 (y2 r - y1 r + 1).
Definition ui_region_get_size (r : ui_region_t) : Z := s32 (s32 (x2 r - x1 r + 1) * (y2 r - y1 r + 1)).

Definition ui_region_set_x (r : ui_region_t) (px : Z) : ui_region_t :=
  mk_region px (y1 r) (s16 (x2 r + (px - x1 r))) (y2 r).
Definition ui_region_set_y (r : ui_region_t) (py : Z) : ui_region_t :=
  mk_region (x1 r) py (x2 r) (s16 (y2 r + (py - y1 r))).
Definition ui_region_set_pos (r : ui_region_t) (px py : Z) : ui_region_t :=
  ui_region_set_y (ui_region_set_x r px) py.
Definition ui_region_set_width (r : ui_region_t) (w : Z) : ui_region_t :=
  mk_region (x1 r) (y1 r) (s16 (x1 r + w - 1)) (y2 r).
Definition ui_region_set_height (r : ui_region_t) (h : Z) : ui_region_t :=
  mk_region (x1 r) (y1 r) (x2 r) (s16 (y1 r + h - 1)).
Definition ui_region_move (r : ui_region_t) (dx dy : Z) : ui_region_t :=
  mk_region (s16 (x1 r + dx)) (s16 (y1 r + dy)) (s16 (x2 r + dx)) (s16 (y2 r + dy)).

Definition ui_region_intersect (a b : ui_region_t) : bool * ui_region_t :=
  let r := mk_region (UI_MAX (x1 a) (x1 b)) (UI_MAX (y1 a) (y1 b))
             (UI_MIN (x2 a) (x2 b)) (UI_MIN (y2 a) (y2 b)) in
  (negb ((x1 r >? x2 r) || (y1 r >? y2 r)), r).

Definition ui_region_merge (a b : ui_region_t) : ui_region_t :=
  mk_region (UI_MIN (x1 a) (x1 b)) (UI_MIN (y1 a) (y1 b)) (UI_MAX (x2 a) (x2 b)) (UI_MAX (y2 a) (y2 b)).

Definition ui_region_is_point_on (r : ui_region_t) (p : ui_point_t) : bool :=
  (x p >=? x1 r) && (x p <=? x2 r) && ((y p >=? y1 r) && (y p <=? y2 r)).

Definition ui_region_is_on (a b : ui_region_t) : bool :=
  (x1 a <=? x2 b) && (x2 a >=? x1 b) && (y1 a <=? y2 b) && (y2 a >=? y1 b).

Definition ui_region_is_in (r holder : ui_region_t) : bool :=
  (x1 r >=? x1 holder) && (y1 r >=? y1 holder) && (x2 r <=? x2 holder) && (y2 r <=? y2 holder).

Definition ui_region_is_valid (r : ui_region_t) : bool :=
  (ui_region_get_width r >=? 0) && (ui_region_get_height r >=? 0).
Definition ui_region_is_empty (r : ui_region_t) : bool :=
  (ui_region_get_width r <=? 0) || (ui_region_get_height r <=? 0).

(** The parts that [ui_region_subtract] stores in [result[0]], ...,
    [result[cnt - 1]]. *)
Definition ui_region_subtract (region exclude : ui_region_t) : list ui_region_t :=
  if (x1 region >=? x1 exclude) && (y1 region >=? y1 exclude)
     && (x2 region <=? x1 exclude) && (y2 region <=? y1 exclude) then []
  else if negb (ui_region_is_on region exclude) then [ui_region_copy region]
  else
    let top := y1 region <? y1 exclude in
    let cur_y := if top then y1 exclude else y1 region in
    (if top then [mk_region (x1 region) (y1 region) (x2 region) (s16 (y1 exclude - 1))] else [])
    ++ (if x1 region <? x1 exclude
        then [mk_region (x1 region) cur_y (s16 (x1 exclude - 1)) (UI_MIN (y2 region) (y2 exclude))]
        else [])
    ++ (if x2 region >? x2 exclude
        then [mk_region (s16 (x2 exclude + 1)) cur_y (x2 region) (UI_MIN (y2 region) (y2 exclude))]
        else [])
    ++ (if y2 region >? y2 exclude
        then [mk_region (x1 region) (s16 (y2 exclude + 1)) (x2 region) (y2 region)]
        else []).

(** The displacement along one axis. *)
Definition fit_axis (r1 r2 h1 h2 : Z) : Z :=
  if (r1 <? h1) && (r2 <? h2) then s16 (UI_MIN (h1 - r1) (h2 - r2))
  else if (r1 >? h1) && (r2 >? h2) then s16 (UI_MAX (h1 - r1) (h2 - r2))
  else 0.

Definition ui_region_fit_in (r holder : ui_region_t) : ui_region_t :=
  let dx := fit_axis (x1 r) (x2 r) (x1 holder) (x2 holder) in
  let dy := fit_axis (y1 r) (y2 r) (y1 holder) (y2 holder) in
  ui_region_set_pos r (s16 (x1 r + dx)) (s16 (y1 r + dy)).

(** ** Regions as sets of points *)

Definition int16 (v : Z) : Prop := - 2 ^ 15 <= v < 2 ^ 15.

(** A region of 16-bit coordinates with at least one point. *)
Definition region_ok (r : ui_region_t) : Prop :=
  int16 (x1 r) /\ int16 (y1 r) /\ int16 (x2 r) /\ int16 (y2 r) /\ x1 r <= x2 r /\ y1 r <= y2 r.

Definition on (r : ui_region_t) (p : ui_point_t) : Prop :=
  x1 r <= x p <= x2 r /\ y1 r <= y p <= y2 r.

Lemma is_point_on_iff r p : ui_region_is_point_on r p = true <-> on r p.
Proof.
  unfold ui_region_is_point_on, on. rewrite !andb_true_iff, !Z.geb_le, !Z.leb_le. lia.
Qed.

Lemma UI_MIN_min a b : UI_MIN a b = Z.min a b.
Proof. unfold UI_MIN. destruct (Z.ltb_spec a b); lia. Qed.

Lemma UI_MAX_max a b : UI_MAX a b = Z.max a b.
Proof. unfold UI_MAX. rewrite Z.gtb_ltb. destruct (Z.ltb_spec b a); lia. Qed.

#[local] Hint Rewrite UI_MIN_min UI_MAX_max : wrap.

(** Boolean tests of a region operation to linear arithmetic. *)
Ltac region_cases :=
  repeat match goal with
  | |- context [Z.gtb ?a ?b] => rewrite (Z.gtb_ltb a b)
  | |- context [Z.geb ?a ?b] => rewrite (Z.geb_leb a b)
  | |- context [Z.ltb ?a ?b] => destruct (Z.ltb_spec a b)
  | |- context [Z.leb ?a ?b] => destruct (Z.leb_spec a b)
  end.

(** The parts as conditional rectangles of unbounded coordinates. *)
Definition parts (r e : ui_region_t) : list ui_region_t :=
  let cur_y := Z.max (y1 r) (y1 e) in
  let bot := Z.min (y2 r) (y2 e) in
  (if y1 r <? y1 e then [mk_region (x1 r) (y1 r) (x2 r) (y1 e - 1)] else [])
  ++ (if x1 r <? x1 e then [mk_region (x1 r) cur_y (x1 e - 1) bot] else [])
  ++ (if x2 e <? x2 r then [mk_region (x2 e + 1) cur_y (x2 r) bot] else [])
  ++ (if y2 e <? y2 r then [mk_region (x1 r) (y2 e + 1) (x2 r) (y2 r)] else []).

Lemma s16_id v : int16 v -> s16 v = v.
Proof. intros H. apply s16_small. unfold int16 in H. lia. Qed.

(** On overlapping regions no coordinate wraps around. *)
Lemma subtract_parts r e : region_ok r -> region_ok e -> ui_region_is_on r e = true ->
  ui_region_subtract r e =
  if (x1 r >=? x1 e) && (y1 r >=? y1 e) && (x2 r <=? x1 e) && (y2 r <=? y1 e) then [] else parts r e.
Proof.
  intros (Hx1 & Hy1 & Hx2 & Hy2 & Hx & Hy) (Ex1 & Ey1 & Ex2 & Ey2 & Ex & Ey) Hon.
  unfold ui_region_subtract. rewrite Hon. cbn [negb].
  destruct (_ && _ && _ && _); [reflexivity|].
  unfold parts. rewrite !UI_MIN_min, !Z.gtb_ltb. unfold int16 in *.
  replace (if y1 r <? y1 e then y1 e else y1 r) with (Z.max (y1 r) (y1 e))
    by (destruct (Z.ltb_spec (y1 r) (y1 e)); lia).
  f_equal; [|f_equal; [|f_equal]]; region_cases; try reflexivity; rewrite s16_id by (unfold int16; lia); reflexivity.
Qed.

Lemma parts_valid r e q : region_ok r -> region_ok e -> ui_region_is_on r e = true ->
  q ∈ parts r e -> region_ok q.
Proof.
  unfold ui_region_is_on, region_ok, int16, parts. intros Hr He Hon.
  rewrite !andb_true_iff, !Z.geb_le, !Z.leb_le in Hon. rewrite !elem_of_app.
  region_cases; rewrite ?list_elem_of_singleton, ?elem_of_nil;
    intros [Hq|[Hq|[Hq|Hq]]]; try contradiction; subst q; simpl; lia.
Qed.

Lemma parts_points r e p : region_ok r -> region_ok e -> ui_region_is_on r e = true ->
  (exists q, q ∈ parts r e /\ on q p) <-> on r p /\ ~ on e p.
Proof.
  unfold ui_region_is_on, region_ok, int16. intros Hr He Hon.
  rewrite !andb_true_iff, !Z.geb_le, !Z.leb_le in Hon. unfold parts. split.
  - intros (q & Hq & Hp). rewrite !elem_of_app in Hq. unfold on in *.
    destruct Hq as [Hq|[Hq|[Hq|Hq]]];
      match type of Hq with context [?a <? ?b] => destruct (Z.ltb_spec a b) end; rewrite ?list_elem_of_singleton, ?elem_of_nil in Hq;
      try contradiction; subst q; simpl in Hp; lia.
  - intros [Hin Hout]. unfold on in Hin, Hout. setoid_rewrite elem_of_app.
    destruct (Z.ltb_spec (y p) (y1 e)) as [Htop|Htop].
    { eexists. split; [left; rewrite (proj2 (Z.ltb_lt _ _)) by lia; left|]. unfold on; simpl; lia. }
    destruct (Z.ltb_spec (y2 e) (y p)) as [Hbot|Hbot].
    { eexists. split; [right; rewrite !elem_of_app; right; right; rewrite (proj2 (Z.ltb_lt (y2 e) _)) by lia; left|].
      unfold on; simpl; lia. }
    destruct (Z.ltb_spec (x p) (x1 e)) as [Hl|Hl].
    { eexists. split; [right; rewrite !elem_of_app; left; rewrite (proj2 (Z.ltb_lt (x1 r) _)) by lia; left|].
      unfold on; simpl; lia. }
    eexists. split; [right; rewrite !elem_of_app; right; left; rewrite (proj2 (Z.ltb_lt (x2 e) _)) by lia; left|].
    unfold on; simpl; lia.
Qed.

(** No point is in two parts. *)
Definition disjoint (q q' : ui_region_t) : Prop := forall p, on q p -> on q' p -> False.

Lemma parts_disjoint r e : region_ok r -> region_ok e -> ui_region_is_on r e = true ->
  ForallOrdPairs disjoint (parts r e).
Proof.
  unfold ui_region_is_on, region_ok, int16. intros Hr He Hon.
  rewrite !andb_true_iff, !Z.geb_le, !Z.leb_le in Hon. unfold parts.
  region_cases; cbn [app]; repeat constructor; unfold disjoint, on; simpl; lia.
Qed.

Lemma ord_pairs_lookup {A} (R : A -> A -> Prop) l : ForallOrdPairs R l ->
  forall i j a b, (i < j)%nat -> l !! i = Some a -> l !! j = Some b -> R a b.
Proof.
  induction 1 as [|x l Hx _ IH]; intros i j a b Hij Hi Hj; [discriminate|].
  destruct j as [|j]; [lia|]. destruct i as [|i].
  - injection Hi as <-. rewrite Forall_forall in Hx. apply Hx, list_elem_of_In.
    exact (list_elem_of_lookup_2 l j b Hj).
  - apply (IH i j a b); [lia|exact Hi|exact Hj].
Qed.

(** The intersection of two points' sets. *)
Lemma is_on_iff a b : region_ok a -> region_ok b ->
  ui_region_is_on a b = true <-> exists p, on a p /\ on b p.
Proof.
  unfold region_ok, ui_region_is_on, on. intros Ha Hb. rewrite !andb_true_iff, !Z.geb_le, !Z.leb_le. split.
  - intros H. exists (mk_point (Z.max (x1 a) (x1 b)) (Z.max (y1 a) (y1 b))). simpl. lia.
  - intros (p & H1 & H2). lia.
Qed.

(** C37: Subtracting one region from another gives at most four regions, each
    with at least one point and within 16-bit coordinates, no two of them with
    a common point, that together hold exactly the points of the first region
    that are not on the second. *)
Theorem ui_region_subtract_ok (r e : ui_region_t) :
  region_ok r -> region_ok e ->
  let l := ui_region_subtract r e in
  (length l <= 4)%nat /\ Forall region_ok l /\
  (forall i j q q', (i < j)%nat -> l !! i = Some q -> l !! j = Some q' -> disjoint q q') /\
  forall p, (exists q, q ∈ l /\ ui_region_is_point_on q p = true) <->
    ui_region_is_point_on r p = true /\ ui_region_is_point_on e p = false.
Proof.
  intros Hr He. cbv zeta. setoid_rewrite <- not_true_iff_false. setoid_rewrite is_point_on_iff.
  destruct (ui_region_is_on r e) eqn:Hon.
  - rewrite (subtract_parts r e Hr He Hon). destruct (_ && _ && _ && _) eqn:Hall.
    + split; [simpl; lia|]. split; [constructor|]. split; [discriminate|]. intros p. split.
      * intros (q & Hq & _). inversion Hq.
      * intros [Hp Hn]. exfalso. apply Hn. rewrite !andb_true_iff, !Z.geb_le, !Z.leb_le in Hall.
        unfold region_ok, on in *. lia.
    + split; [unfold parts; region_cases; simpl; lia|]. split.
      * apply Forall_forall. intros q Hq%list_elem_of_In. revert Hq. apply parts_valid; assumption.
      * split; [intros i j q q'; apply (ord_pairs_lookup _ _ (parts_disjoint r e Hr He Hon))|].
        intros p. apply parts_points; assumption.
  - unfold ui_region_subtract. rewrite Hon. replace (_ && _ && _ && _) with false.
    + cbn [negb]. split; [simpl; lia|]. split; [repeat constructor; apply Hr|]. split.
      * intros i j q q' Hij _ Hj. destruct j as [|[|j]]; [lia|discriminate..].
      * intros p. setoid_rewrite list_elem_of_singleton. split.
        -- intros (q & -> & Hp). split; [exact Hp|]. intros Hp'.
           enough (ui_region_is_on r e = true) by congruence. apply is_on_iff; eauto.
        -- intros [Hp _]. eexists. split; [reflexivity|]. exact Hp.
    + symmetry. apply not_true_iff_false. rewrite !andb_true_iff, !Z.geb_le, !Z.leb_le. intros H.
      apply not_true_iff_false in Hon. apply Hon. unfold ui_region_is_on, region_ok in *.
      rewrite !andb_true_iff, !Z.geb_le, !Z.leb_le. lia.
Qed.

(** The intersection of two regions is reported exactly when they have a
    common point and then holds exactly the common points; the merged region
    is the smallest region that holds both. *)
Theorem ui_region_intersect_merge_ok (a b : ui_region_t) :
  region_ok a -> region_ok b ->
  (let '(ok, r) := ui_region_intersect a b in
   (ok = true <-> exists p, on a p /\ on b p) /\ (forall p, on r p <-> on a p /\ on b p)) /\
  (forall p, on a p \/ on b p -> on (ui_region_merge a b) p) /\
  (forall r, (forall p, on a p \/ on b p -> on r p) -> forall p, on (ui_region_merge a b) p -> on r p).
Proof.
  intros Ha Hb. unfold ui_region_intersect, ui_region_merge, region_ok, on in *. rewrite !UI_MIN_min, !UI_MAX_max.
  cbn [x1 x2 y1 y2]. split; [split|split].
  - rewrite negb_true_iff, orb_false_iff, !Z.gtb_ltb, !Z.ltb_ge. split.
    + intros H. exists (mk_point (Z.max (x1 a) (x1 b)) (Z.max (y1 a) (y1 b))). simpl. lia.
    + intros (p & H). lia.
  - intros p. lia.
  - intros p. lia.
  - intros r Hr p Hp.
    pose proof (Hr (mk_point (x1 a) (y1 a))) as H1. pose proof (Hr (mk_point (x2 a) (y2 a))) as H2.
    pose proof (Hr (mk_point (x1 b) (y1 b))) as H3. pose proof (Hr (mk_point (x2 b) (y2 b))) as H4.
    simpl in *. lia.
Qed.

(** One axis of a region that fits into the holder. *)
Lemma fit_axis_ok r1 r2 h1 h2 :
  - 2 ^ 14 <= r1 -> r2 < 2 ^ 14 -> - 2 ^ 14 <= h1 -> h2 < 2 ^ 14 -> r1 <= r2 -> r2 - r1 <= h2 - h1 ->
  let d := fit_axis r1 r2 h1 h2 in
  s16 (r1 + d) = r1 + d /\ s16 (r2 + (r1 + d - r1)) = r2 + d /\ h1 <= r1 + d /\ r2 + d <= h2 /\
  forall d', h1 <= r1 + d' -> r2 + d' <= h2 -> Z.abs d <= Z.abs d'.
Proof.
  intros H1 H2 H3 H4 H5 H6. cbv zeta.
  assert (Hd : exists d, fit_axis r1 r2 h1 h2 = d /\ h1 <= r1 + d /\ r2 + d <= h2 /\
    forall d', h1 <= r1 + d' -> r2 + d' <= h2 -> Z.abs d <= Z.abs d').
  { unfold fit_axis. rewrite UI_MIN_min, UI_MAX_max. region_cases; cbn [andb]; rewrite ?s16_small by lia;
      eexists; (split; [reflexivity|]); (split; [lia|]); (split; [lia|]); intros d' Hd1 Hd2; lia. }
  destruct Hd as (d & -> & Hd1 & Hd2 & Hd3). rewrite !s16_small by lia. repeat split; auto; lia.
Qed.

(** Fitting a region into a holder that is at least as large, with
    coordinates of at most 2^14, keeps its width and height and moves it
    inside, by the smallest distance that does. *)
Theorem ui_region_fit_in_ok (r h : ui_region_t) :
  let small v := - 2 ^ 14 <= v < 2 ^ 14 in
  let inside r' := x1 h <= x1 r' /\ x2 r' <= x2 h /\ y1 h <= y1 r' /\ y2 r' <= y2 h in
  small (x1 r) -> small (x2 r) -> small (y1 r) -> small (y2 r) ->
  small (x1 h) -> small (x2 h) -> small (y1 h) -> small (y2 h) ->
  x1 r <= x2 r -> y1 r <= y2 r -> x2 r - x1 r <= x2 h - x1 h -> y2 r - y1 r <= y2 h - y1 h ->
  let f := ui_region_fit_in r h in
  inside f /\ x2 f - x1 f = x2 r - x1 r /\ y2 f - y1 f = y2 r - y1 r /\
  forall dx dy, inside (mk_region (x1 r + dx) (y1 r + dy) (x2 r + dx) (y2 r + dy)) ->
    Z.abs (x1 f - x1 r) <= Z.abs dx /\ Z.abs (y1 f - y1 r) <= Z.abs dy.
Proof.
  cbv beta zeta. intros Hrx1 Hrx2 Hry1 Hry2 Hhx1 Hhx2 Hhy1 Hhy2 Hx Hy Hw Hh.
  unfold ui_region_fit_in, ui_region_set_pos, ui_region_set_x, ui_region_set_y. cbn [x1 x2 y1 y2].
  destruct (fit_axis_ok (x1 r) (x2 r) (x1 h) (x2 h)) as (-> & -> & Hx1 & Hx2 & Hxm); try lia.
  destruct (fit_axis_ok (y1 r) (y2 r) (y1 h) (y2 h)) as (-> & -> & Hy1 & Hy2 & Hym); try lia.
  split; [lia|]. split; [lia|]. split; [lia|]. intros dx dy Hd.
  specialize (Hxm dx ltac:(lia) ltac:(lia)). specialize (Hym dy ltac:(lia) ltac:(lia)). lia.
Qed.

(** ** Concrete instances *)

Definition screen : ui_region_t := mk_region 0 0 239 239.
Definition window : ui_region_t := mk_region 60 80 100 300.

Lemma screen_ok : region_ok screen.
Proof. unfold region_ok, int16. simpl. lia. Qed.

Lemma window_ok : region_ok window.
Proof. unfold region_ok, int16. simpl. lia. Qed.

Lemma ui_region_subtract_ok_witness : (length (ui_region_subtract screen window) <= 4)%nat.
Proof. apply (ui_region_subtract_ok screen window screen_ok window_ok). Defined.

Lemma ui_region_intersect_merge_ok_witness :
  forall p, on screen p \/ on window p -> on (ui_region_merge screen window) p.
Proof. apply (ui_region_intersect_merge_ok screen window screen_ok window_ok). Defined.

Lemma ui_region_fit_in_ok_witness :
  let f := ui_region_fit_in (mk_region (-30) 200 9 300) screen in x2 f - x1 f = 39.
Proof. apply (ui_region_fit_in_ok (mk_region (-30) 200 9 300) screen); cbv beta zeta; cbn [x1 x2 y1 y2 screen]; lia. Defined.
