(* ===== verification/Nvram.v ===== *)
(** * What the property layer relies on: the persistent configuration store

    The interface of [nvram_config_get] and [nvram_config_set]
    (zephyr/include/drivers/nvram_config.h), as a class: two operations on a
    store state and the finite map the state stands for.  A read returns the
    length of the stored value, cut to the caller's buffer, or a negative
    error code; a write of a non-empty value either returns 0 and stores it or
    returns an error code and changes nothing.  A store has room for a limited
    set of names and value lengths: [nv_name] says which names may be looked up,
    [nv_allowed] which pairs may be written, and [nv_inv] is the invariant that
    such writes keep.  The client's
    theorems are proved against this class. *)

From stdpp Require Import base numbers list strings gmap.
From S2P Require Import Prelude.
Open Scope Z_scope.

Class Nvram (S : Type) : Type := {
  nvram_config_get : S -> string -> Z -> Z * list Z;
  nvram_config_set : S -> string -> list Z -> Z * S;
  nv_view : S -> gmap string (list Z);
  nv_inv : S -> Prop;
  nv_name : string -> Prop;
  nv_allowed : string -> list Z -> Prop;
  nvram_get_found : forall s k v max, nv_inv s -> nv_name k -> 0 < max ->
    nv_view s !! k = Some v ->
    nvram_config_get s k max = (Z.min max (Z.of_nat (length v)), take (Z.to_nat max) v);
  nvram_get_missing : forall s k max, nv_inv s -> nv_name k -> 0 < max ->
    nv_view s !! k = None ->
    exists e, 0 < e /\ nvram_config_get s k max = (- e, []);
  nvram_set_result : forall s k v r s', nv_inv s -> nv_allowed k v -> v <> [] ->
    nvram_config_set s k v = (r, s') ->
    nv_inv s' /\
    ((r = 0 /\ nv_view s' = <[k := v]> (nv_view s)) \/ (r < 0 /\ nv_view s' = nv_view s))
}.

(** A store that keeps the map itself and refuses values longer than its
    second component, as a concrete instance of the interface. *)
Record map_store : Type := mk_map_store { ms_map : gmap string (list Z); ms_limit : nat }.

Definition map_store_get (s : map_store) (k : string) (max : Z) : Z * list Z :=
  match ms_map s !! k with
  | Some v => (Z.min max (Z.of_nat (length v)), take (Z.to_nat max) v)
  | None => (- ENOENT, [])
  end.

Definition map_store_set (s : map_store) (k : string) (v : list Z) : Z * map_store :=
  if bool_decide (length v <= ms_limit s)%nat
  then (0, mk_map_store (<[k := v]> (ms_map s)) (ms_limit s))
  else (- EINVAL, s).

Lemma map_store_get_found s k v max :
  True -> True -> 0 < max -> ms_map s !! k = Some v ->
  map_store_get s k max = (Z.min max (Z.of_nat (length v)), take (Z.to_nat max) v).
Proof. intros _ _ _ H. unfold map_store_get. rewrite H. reflexivity. Qed.

Lemma map_store_get_missing s k max :
  True -> True -> 0 < max -> ms_map s !! k = None ->
  exists e, 0 < e /\ map_store_get s k max = (- e, []).
Proof. intros _ _ _ H. exists ENOENT. unfold map_store_get. rewrite H. split; reflexivity. Qed.

Lemma map_store_set_result s k v r s' :
  True -> True -> v <> [] -> map_store_set s k v = (r, s') ->
  True /\
  ((r = 0 /\ ms_map s' = <[k := v]> (ms_map s)) \/ (r < 0 /\ ms_map s' = ms_map s)).
Proof.
  intros _ _ _. unfold map_store_set.
  case_bool_decide; intros [= <- <-]; (split; [exact I|]); [left | right]; split; reflexivity.
Qed.

#[export] Instance map_store_nvram : Nvram map_store := {
  nvram_config_get := map_store_get;
  nvram_config_set := map_store_set;
  nv_view := ms_map;
  nv_inv := fun _ => True;
  nv_name := fun _ => True;
  nv_allowed := fun _ _ => True;
  nvram_get_found := map_store_get_found;
  nvram_get_missing := map_store_get_missing;
  nvram_set_result := map_store_set_result
}.
