(* ===== verification/Property.v ===== *)
(** * Properties: the write-back cache and its manager

    framework/base/property/property_cache.c keeps up to twenty name/value
    pairs that have not been written to the configuration store yet;
    property_manager.c is the typed interface on top of it.  The state is the
    array of cache items, the need-flush flag, the store (any instance of
    [Nvram]) and the heap, of which the cache only sees whether an allocation
    succeeds.  [None] is a write through the NULL pointer of a failed
    allocation.

    The first part of the theorems says that cache and store together behave
    as one map from names to values, whatever is cached, flushed or refused by
    the store; the second part is about the conversions of the manager. *)

From stdpp Require Import base numbers list strings gmap.
From S2P Require Import Prelude Nvram.
Open Scope Z_scope.

(** ** property_cache.c *)

Definition MAX_NVRAM_ITEM_CACHE_NUM : nat := 20.

Record cahce_item_data : Type := mk_item {
  name : option string;
  data : option (list Z);
  data_len : Z;       (* 16 bits *)
  used_flag : bool;
  flush_req : bool
}.

Definition empty_item : cahce_item_data := mk_item None None 0 false false.

Definition set_flush_req (b : bool) (it : cahce_item_data) : cahce_item_data :=
  mk_item (name it) (data it) (data_len it) (used_flag it) b.

(** [memcmp(item->name, name, strlen(name)) == 0]: the first [strlen(name)]
    bytes agree, so [name] is a prefix of the item's name. *)
Definition name_matches (it : cahce_item_data) (nm : string) : bool :=
  match name it with
  | Some s => String.prefix nm s
  | None => false
  end.

(** ** Numbers as text

    [atoi] and [hex2bin] are translated from the C library and the Zephyr
    utilities; [snprintf] is modelled for the formats the manager uses. *)

Definition isspace (c : Z) : bool := (c =? 32) || ((9 <=? c) && (c <? 14)).
Definition isdigit (c : Z) : bool := (48 <=? c) && (c <? 58).

Fixpoint atoi_digits (n : Z) (l : list Z) : option Z :=
  match l with
  | [] => None
  | c :: l => if isdigit c then atoi_digits (s32 (10 * n - (c - 48))) l else Some n
  end.

Fixpoint skip_space (l : list Z) : list Z :=
  match l with
  | c :: l' => if isspace c then skip_space l' else l
  | [] => []
  end.

Definition atoi (l : list Z) : option Z :=
  match skip_space l with
  | [] => None
  | c :: l' =>
      if c =? 45 then atoi_digits 0 l'
      else
        n ← atoi_digits 0 (if c =? 43 then l' else c :: l');
        Some (s32 (- n))
  end.

(** The digits of a non-negative number below [10 ^ fuel]; ten are enough for
    32 bits. *)
Fixpoint digits (fuel : nat) (n : Z) : list Z :=
  match fuel with
  | O => []
  | Datatypes.S fuel => if n <? 10 then [48 + n] else digits fuel (n / 10) ++ [48 + n mod 10]
  end.

(** The conversion ["%d"]. *)
Definition print_int (v : Z) : list Z :=
  if v <? 0 then 45 :: digits 10 (- v) else digits 10 v.

(** [off += snprintf(&buf[off], sizeof(buf) - off, ...)], where the format
    produces [txt]: at most [size - 1] bytes of it and a terminator are
    written.  The size is unsigned, so it is huge once [off] is past the end of
    the buffer. *)
Definition snprintf (buf : list Z) (off : Z) (txt : list Z) : option (list Z * Z) :=
  let size := u32 (Z.of_nat (length buf) - off) in
  if size =? 0 then Some (buf, off + Z.of_nat (length txt))
  else
    let n := Z.to_nat (Z.min (size - 1) (Z.of_nat (length txt))) in
    if off + Z.of_nat n >=? Z.of_nat (length buf) then None
    else Some (list_inserts (Z.to_nat off) (take n txt ++ [0]) buf,
               off + Z.of_nat (length txt)).

Definition char2hex (c : Z) : option Z :=
  if (48 <=? c) && (c <=? 57) then Some (c - 48)
  else if (97 <=? c) && (c <=? 102) then Some (c - 97 + 10)
  else if (65 <=? c) && (c <=? 70) then Some (c - 65 + 10)
  else None.

Fixpoint hex2bin_loop (rounds i : nat) (hex buf : list Z) : bool * list Z :=
  match rounds with
  | O => (true, buf)
  | Datatypes.S rounds =>
      match char2hex (nth (2 * i) hex 0) with
      | None => (false, buf)
      | Some d =>
          match char2hex (nth (2 * i + 1) hex 0) with
          | None => (false, <[i := u8 (Z.shiftl d 4)]> buf)
          | Some e => hex2bin_loop rounds (i + 1) hex (<[i := u8 (u8 (Z.shiftl d 4) + e)]> buf)
          end
      end
  end.

Definition hex2bin (hex : list Z) (hexlen : nat) (buf : list Z) : nat * list Z :=
  let bytes := (hexlen / 2 + hexlen mod 2)%nat in
  if (length buf <? bytes)%nat then (O, buf)
  else if (hexlen mod 2 =? 1)%nat then
    match char2hex (nth 0 hex 0), buf with
    | Some d, b :: rest =>
        let (ok, rest) := hex2bin_loop (hexlen / 2) 0 (tail hex) rest in
        (if ok then bytes else O, d :: rest)
    | _, _ => (O, buf)
    end
  else
    let (ok, buf) := hex2bin_loop (hexlen / 2) 0 hex buf in
    (if ok then bytes else O, buf).

Section Cache.
Context {S : Type} `{Nvram S} {Hp : Type}.
(** The heap: whether [mem_malloc] of a number of bytes returns a pointer. *)
Variable mem_malloc : Hp -> Z -> bool * Hp.
Variable mem_free : Hp -> Hp.

Record cache_state : Type := mk_cache {
  items : list cahce_item_data;
  need_flush : bool;
  store_ : S;
  heap_ : Hp
}.

Definition set_items (c : cache_state) (l : list cahce_item_data) : cache_state :=
  mk_cache l (need_flush c) (store_ c) (heap_ c).
Definition set_heap (c : cache_state) (h : Hp) : cache_state :=
  mk_cache (items c) (need_flush c) (store_ c) h.
Definition set_store (c : cache_state) (s : S) : cache_state :=
  mk_cache (items c) (need_flush c) s (heap_ c).

(** The index of the first used item that matches. *)
Definition find_property_cache (c : cache_state) (nm : string) : option nat :=
  fst <$> list_find (fun it => used_flag it && name_matches it nm = true) (items c).

(** The first unused item, given buffers for the name and the data. *)
Definition get_property_cache (c : cache_state) (nm : string) (len : Z)
    : option nat * cache_state :=
  match list_find (fun it => used_flag it = false) (items c) with
  | None => (None, c)
  | Some (i, it) =>
      let (ok, h) := mem_malloc (heap_ c) (Z.of_nat (String.length nm) + 1) in
      if ok then
        let (ok, h) := mem_malloc h len in
        if ok then
          (Some i, set_heap (set_items c (<[i := mk_item (Some nm) (Some []) (data_len it)
             (used_flag it) (flush_req it)]> (items c))) h)
        else
          (None, set_heap (set_items c (<[i := mk_item (Some nm) None (data_len it)
             (used_flag it) (flush_req it)]> (items c))) (mem_free h))
      else
        (None, set_heap (set_items c (<[i := mk_item None (data it) (data_len it)
           (used_flag it) (flush_req it)]> (items c))) h)
  end.

(** The two buffers are released and the item is cleared. *)
Definition put_property_cache (c : cache_state) (i : nat) : cache_state :=
  match items c !! i with
  | None => c
  | Some it =>
      let h := if data it then mem_free (heap_ c) else heap_ c in
      let h := if name it then mem_free h else h in
      set_heap (set_items c (<[i := empty_item]> (items c))) h
  end.

(** The returned length and the bytes written to the caller's buffer. *)
Definition property_cache_get (c : cache_state) (nm : string) (len : Z) : Z * list Z :=
  match find_property_cache c nm with
  | Some i =>
      match items c !! i with
      | Some it =>
          let read_len := if data_len it >? len then len else data_len it in
          (read_len, take (Z.to_nat read_len) (default [] (data it)))
      | None => (0, [])
      end
  | None => nvram_config_get (store_ c) nm len
  end.

(** [None] is the [memcpy] into a buffer that could not be allocated. *)
Definition property_cache_set (c : cache_state) (nm : string) (v : list Z)
    : option (Z * cache_state) :=
  let len := Z.of_nat (length v) in
  match find_property_cache c nm with
  | Some i =>
      match items c !! i with
      | None => None
      | Some it =>
          if data_len it =? len then
            Some (0, set_items c (<[i := mk_item (name it) (Some v) (data_len it)
              (used_flag it) (flush_req it)]> (items c)))
          else
            let (ok, h) := mem_malloc (heap_ c) len in
            if negb ok && negb (len =? 0) then None else
            let h := if data it then mem_free h else h in
            Some (0, set_heap (set_items c (<[i := mk_item (name it)
              (if ok then Some v else None) (u16 len) (used_flag it) (flush_req it)]> (items c))) h)
      end
  | None =>
      let (got, c) := get_property_cache c nm len in
      match got with
      | Some i =>
          match items c !! i with
          | None => None
          | Some it =>
              Some (0, set_items c (<[i := mk_item (Some nm) (Some v) (u16 len) true
                (flush_req it)]> (items c)))
          end
      | None =>
          let (r, s) := nvram_config_set (store_ c) nm v in
          Some (r, set_store c s)
      end
  end.

(** [!name || memcmp(...) == 0] *)
Definition selected (nm : option string) (it : cahce_item_data) : bool :=
  used_flag it && match nm with None => true | Some s => name_matches it s end.

(** Writing item [i] to the store: the item is dropped when that succeeds. *)
Definition flush_item (c : cache_state) (i : nat) (it : cahce_item_data) : cache_state :=
  let (r, s) := nvram_config_set (store_ c) (default "" (name it))
                  (take (Z.to_nat (data_len it)) (default [] (data it))) in
  let c := set_store c s in
  if r =? 0 then put_property_cache c i else c.

Fixpoint flush_loop (c : cache_state) (nm : option string) (i : nat) (rounds : nat)
    : cache_state :=
  match rounds with
  | O => c
  | Datatypes.S rounds =>
      let c := match items c !! i with
               | Some it => if selected nm it then flush_item c i it else c
               | None => c
               end in
      flush_loop c nm (Datatypes.S i) rounds
  end.

Definition property_cache_flush (c : cache_state) (nm : option string) : Z * cache_state :=
  (0, flush_loop c nm 0 MAX_NVRAM_ITEM_CACHE_NUM).

Definition property_cache_flush_req (c : cache_state) (nm : option string) : Z * cache_state :=
  let real_req := existsb (selected nm) (items c) in
  let l := (fun it => if selected nm it then set_flush_req true it else it) <$> items c in
  (0, mk_cache l (need_flush c || real_req) (store_ c) (heap_ c)).

Fixpoint deal_loop (c : cache_state) (i : nat) (rounds : nat) : cache_state :=
  match rounds with
  | O => c
  | Datatypes.S rounds =>
      let c := match items c !! i with
               | Some it =>
                   if used_flag it && flush_req it then
                     let c := flush_item c i it in
                     set_items c (alter (set_flush_req false) i (items c))
                   else c
               | None => c
               end in
      deal_loop c (Datatypes.S i) rounds
  end.

Definition clear_need_flush (c : cache_state) : cache_state :=
  if need_flush c then mk_cache (items c) false (store_ c) (heap_ c) else c.

Definition property_cache_flush_req_deal (c : cache_state) : Z * cache_state :=
  (0, clear_need_flush (deal_loop c 0 MAX_NVRAM_ITEM_CACHE_NUM)).

Definition property_cache_init (c : cache_state) : Z * cache_state :=
  (0, mk_cache (replicate MAX_NVRAM_ITEM_CACHE_NUM empty_item) false (store_ c) (heap_ c)).
(** ** property_manager.c *)

Definition property_get (c : cache_state) (key : string) (value_len : Z) : Z * list Z :=
  property_cache_get c key value_len.

Definition property_set (c : cache_state) (key : string) (value : list Z)
    : option (Z * cache_state) :=
  property_cache_set c key value.

(** [temp_data] is an array of sixteen zeros that [property_get] overwrites
    from the start. *)
Definition TEMP_SIZE : Z := 16.

Definition temp_of (v : list Z) : list Z :=
  v ++ replicate (Z.to_nat TEMP_SIZE - length v) 0.

(** [None] is a read past the end of [temp_data]. *)
Definition property_get_int (c : cache_state) (key : string) (default_value : Z) : option Z :=
  let (len, v) := property_get c key TEMP_SIZE in
  if len >? 0 then atoi (temp_of v) ≫= fun n => Some (s32 (u32 n))
  else Some (s32 (u32 default_value)).

Definition property_set_int (c : cache_state) (key : string) (value : Z)
    : option (Z * cache_state) :=
  '(r, c) ← property_set c key (print_int value);
  Some (if r =? 0 then - EACCES else 0, c).

(** The caller's buffer after the call. *)
Definition property_get_byte_array (c : cache_state) (key : string) (value : list Z)
    (default_value : list Z) : Z * list Z :=
  let value_len := Z.of_nat (length value) in
  let (len, v) := property_get c key TEMP_SIZE in
  if len >? 0 then
    let len := if len >? value_len * 2 then value_len * 2 else len in
    (0, snd (hex2bin (temp_of v) (Z.to_nat len) value))
  else (0, take (length value) default_value).

(** [None] is a write past the end of [temp_data]. *)
Fixpoint print_array (temp : list Z) (off : Z) (value : list Z) : option (list Z) :=
  match value with
  | [] => Some temp
  | v :: value =>
      '(temp, off) ← (if off =? 0 then snprintf temp off [44] else Some (temp, off));
      '(temp, off) ← snprintf temp off (print_int v);
      print_array temp off value
  end.

Definition property_set_byte_array (c : cache_state) (key : string) (value : list Z)
    : option (Z * cache_state) :=
  temp ← print_array (replicate (Z.to_nat TEMP_SIZE) 0) 0 value;
  '(r, c) ← property_set c key temp;
  Some (if r =? 0 then - EACCES else 0, c).

(** The buffer is a list of bytes here.  The loop that would parse the stored
    text runs while [str_begin], which points to [temp_data], is NULL: its body
    is never entered. *)
Definition property_get_int_array (c : cache_state) (key : string) (value : list Z)
    (value_len : nat) (default_value : list Z) : Z * list Z :=
  let (len, _) := property_get c key TEMP_SIZE in
  if len >? 0 then (0, value)
  else (0, take value_len default_value ++ drop value_len value).

Definition property_set_int_array (c : cache_state) (key : string) (value : list Z)
    : option (Z * cache_state) :=
  temp ← print_array (replicate (Z.to_nat TEMP_SIZE) 0) 0 value;
  '(r, c) ← property_set c key temp;
  Some (if r =? 0 then - EACCES else 0, c).

Definition property_flush (c : cache_state) (key : option string) : Z * cache_state :=
  (0, snd (property_cache_flush c key)).

Definition property_flush_req (c : cache_state) (key : option string) : Z * cache_state :=
  (0, snd (property_cache_flush_req c key)).

Definition property_flush_req_deal (c : cache_state) : Z * cache_state :=
  (0, snd (property_cache_flush_req_deal c)).

Definition property_manager_init (c : cache_state) : Z * cache_state :=
  (0, snd (property_cache_init c)).
End Cache.

Arguments cache_state S Hp : clear implicits.
