(* ===== verification/PropertyProof.v ===== *)
(** * Theorems about the property cache and its manager

    The cache and the store are seen as one finite map, [view]: the pairs of
    the used items take precedence over what is stored.  Reads return what the
    map holds, writes update it, and the flush operations move pairs into the
    store without changing it.  Because the cache compares only the first
    [strlen(name)] bytes, this holds for the names that are neither a prefix
    of another name in use nor have one as a prefix ([isolated]), whatever is
    done under the other names; [property_cache_prefix_clash] shows what
    happens to names that are prefixes of each other.

    The second part is about the conversions of property_manager.c. *)

From stdpp Require Import base numbers list strings gmap.
From S2P Require Import Prelude Nvram Property.
Open Scope Z_scope.

(** ** The pairs of the cache items *)

Definition binds (it : cahce_item_data) (k : string) (v : list Z) : Prop :=
  used_flag it = true /\ name it = Some k /\ data it = Some v.

Definition item_map (it : cahce_item_data) : gmap string (list Z) :=
  if used_flag it then
    match name it, data it with Some k, Some v => {[ k := v ]} | _, _ => ∅ end
  else ∅.

Definition cmap (l : list cahce_item_data) : gmap string (list Z) :=
  foldr (fun it m => item_map it ∪ m) ∅ l.

Definition distinct (l : list cahce_item_data) : Prop :=
  forall i j a b k v w, l !! i = Some a -> l !! j = Some b ->
    binds a k v -> binds b k w -> i = j.

Lemma item_map_Some it k v : item_map it !! k = Some v <-> binds it k v.
Proof.
  unfold item_map, binds. destruct (used_flag it); [|rewrite lookup_empty; naive_solver].
  destruct (name it) as [k'|], (data it) as [v'|]; rewrite ?lookup_empty; try naive_solver.
  rewrite lookup_singleton_Some. naive_solver.
Qed.

Lemma item_map_None it k : item_map it !! k = None <-> forall v, ~ binds it k v.
Proof.
  split.
  - intros H v Hb. apply item_map_Some in Hb. congruence.
  - intros H. destruct (item_map it !! k) as [v|] eqn:E; [|reflexivity].
    apply item_map_Some in E. destruct (H v E).
Qed.

Lemma binds_fun it k k' v v' : binds it k v -> binds it k' v' -> k = k' /\ v = v'.
Proof. unfold binds. naive_solver. Qed.

Lemma distinct_tail it l : distinct (it :: l) -> distinct l.
Proof.
  intros H i j a b k v w Ha Hb Hk Hk'.
  apply Nat.succ_inj. exact (H (S i) (S j) a b k v w Ha Hb Hk Hk').
Qed.

Lemma cmap_None l k : cmap l !! k = None <-> forall i it v, l !! i = Some it -> ~ binds it k v.
Proof.
  induction l as [|it l IH]; simpl.
  - rewrite lookup_empty. split; [|reflexivity]. intros _ i it v Hi. discriminate Hi.
  - rewrite lookup_union_None, IH, item_map_None. split.
    + intros [H1 H2] [|i] it' v Hi; simpl in Hi; [injection Hi as <-; apply H1 | eapply H2; exact Hi].
    + intros H. split; [intros v; exact (H O it v eq_refl)|].
      intros i it' v Hi. exact (H (S i) it' v Hi).
Qed.

Lemma cmap_Some l k v : distinct l ->
  cmap l !! k = Some v <-> exists i it, l !! i = Some it /\ binds it k v.
Proof.
  induction l as [|it l IH]; intros Hd; simpl.
  - rewrite lookup_empty. split; [discriminate|]. intros (i & it & Hi & _). discriminate Hi.
  - rewrite lookup_union_Some_raw, (IH (distinct_tail _ _ Hd)), item_map_Some, item_map_None. split.
    + intros [Hb|(_ & i & it' & Hi & Hb)]; [exists O, it | exists (S i), it']; auto.
    + intros ([|i] & it' & Hi & Hb); simpl in Hi.
      * injection Hi as <-. left. exact Hb.
      * right. split; [|eauto]. intros w Hw.
        discriminate (Hd O (S i) it it' k w v eq_refl Hi Hw Hb).
Qed.

(** Replacing the item at one index. *)
Lemma distinct_insert l i it' : distinct l ->
  (forall k v, binds it' k v -> forall j b w, l !! j = Some b -> binds b k w -> j = i) ->
  distinct (<[i := it']> l).
Proof.
  intros Hd Hn j j' a b k v w Ha Hb Hv Hw.
  apply list_lookup_insert_Some in Ha, Hb.
  destruct Ha as [(-> & <- & _)|[Hne Ha]], Hb as [(-> & <- & _)|[Hne' Hb]]; try reflexivity.
  - symmetry. eapply Hn; eassumption.
  - eapply Hn; eassumption.
  - eapply Hd; eassumption.
Qed.

Lemma cmap_replace l i it it' : distinct l -> distinct (<[i := it']> l) ->
  l !! i = Some it ->
  (forall k v, binds it k v <-> binds it' k v) -> cmap (<[i := it']> l) = cmap l.
Proof.
  intros Hd Hd' Hi He. apply map_eq. intros k. apply option_eq. intros v.
  rewrite !cmap_Some by assumption. split; intros (j & b & Hj & Hb).
  - apply list_lookup_insert_Some in Hj. destruct Hj as [(-> & <- & _)|[_ Hj]]; [|eauto].
    exists j, it. split; [exact Hi | apply He; exact Hb].
  - destruct (decide (i = j)) as [<-|Hne].
    + exists i, it'. rewrite list_lookup_insert_eq by (eapply lookup_lt_Some; exact Hi).
      split; [reflexivity|]. apply He. congruence.
    + exists j, b. rewrite list_lookup_insert_ne by exact Hne. auto.
Qed.

Lemma cmap_write l i it it' k v : distinct l -> distinct (<[i := it']> l) ->
  l !! i = Some it -> binds it' k v ->
  (forall k' v', binds it k' v' -> k' = k) -> cmap (<[i := it']> l) = <[k := v]> (cmap l).
Proof.
  intros Hd Hd' Hi Hb Hold.
  assert (Hi' : <[i := it']> l !! i = Some it').
  { apply list_lookup_insert_eq. eapply lookup_lt_Some. exact Hi. }
  apply map_eq. intros k'. destruct (decide (k' = k)) as [->|Hne].
  - rewrite lookup_insert_eq. apply cmap_Some; eauto.
  - rewrite lookup_insert_ne by congruence. apply option_eq. intros w.
    rewrite !cmap_Some by assumption. split; intros (j & b & Hj & Hbj).
    + apply list_lookup_insert_Some in Hj. destruct Hj as [(-> & <- & _)|[_ Hj]]; [|eauto].
      destruct Hne. exact (proj1 (binds_fun _ _ _ _ _ Hbj Hb)).
    + exists j, b. split; [|exact Hbj]. rewrite list_lookup_insert_ne; [exact Hj|].
      intros <-. destruct Hne. apply (Hold k' w). congruence.
Qed.

Lemma cmap_drop l i it it' k v : distinct l -> distinct (<[i := it']> l) ->
  l !! i = Some it -> binds it k v -> (forall k' v', ~ binds it' k' v') ->
  cmap (<[i := it']> l) = delete k (cmap l).
Proof.
  intros Hd Hd' Hi Hb Hnew. apply map_eq. intros k'. destruct (decide (k' = k)) as [->|Hne].
  - rewrite lookup_delete_eq, cmap_None. intros j b w Hj Hw.
    apply list_lookup_insert_Some in Hj. destruct Hj as [(-> & <- & _)|[Hij Hj]].
    + exact (Hnew _ _ Hw).
    + exact (Hij (Hd _ _ _ _ _ _ _ Hi Hj Hb Hw)).
  - rewrite lookup_delete_ne by congruence. apply option_eq. intros w.
    rewrite !cmap_Some by assumption. split; intros (j & b & Hj & Hbj).
    + apply list_lookup_insert_Some in Hj. destruct Hj as [(-> & <- & _)|[_ Hj]]; [|eauto].
      destruct (Hnew _ _ Hbj).
    + exists j, b. split; [|exact Hbj]. rewrite list_lookup_insert_ne; [exact Hj|].
      intros <-. destruct Hne. rewrite Hi in Hj. injection Hj as <-.
      exact (proj1 (binds_fun _ _ _ _ _ Hbj Hb)).
Qed.

(** Moving a cached pair into the store leaves the union alone. *)
Lemma move_to_store (m s : gmap string (list Z)) k v :
  m !! k = Some v -> delete k m ∪ <[k := v]> s = m ∪ s.
Proof.
  intros Hk. apply map_eq. intros k'. destruct (decide (k' = k)) as [->|Hne].
  - rewrite lookup_union_r by apply lookup_delete_eq.
    rewrite lookup_insert_eq. symmetry. apply lookup_union_Some_l. exact Hk.
  - rewrite !lookup_union, lookup_delete_ne, lookup_insert_ne by congruence. reflexivity.
Qed.

(** ** The invariant and the view *)

Section Cache.
Context {S : Type} `{!Nvram S} {Hp : Type}.
Variable mem_malloc : Hp -> Z -> bool * Hp.
Variable mem_free : Hp -> Hp.
(** The names in use. *)
Variable K : string -> Prop.
Hypothesis K_names : forall k, K k -> nv_name k.

(** A name in use that is no prefix of another one and has none as a prefix. *)
Definition isolated (k : string) : Prop :=
  K k /\ forall j, K j -> String.prefix j k = true \/ String.prefix k j = true -> j = k.

Abbreviation cache := (cache_state S Hp).

Definition item_ok (it : cahce_item_data) : Prop :=
  used_flag it = true ->
  exists k v, binds it k v /\ data_len it = Z.of_nat (length v) /\
    Z.of_nat (length v) < 2 ^ 16 /\ v <> [] /\ K k /\ nv_allowed k v.

Record cache_wf (c : cache) : Prop := mk_wf {
  wf_length : length (items c) = MAX_NVRAM_ITEM_CACHE_NUM;
  wf_distinct : distinct (items c);
  wf_items : Forall item_ok (items c);
  wf_store : nv_inv (store_ c)
}.

Definition view (c : cache) : gmap string (list Z) := cmap (items c) ∪ nv_view (store_ c).

Lemma prefix_refl k : String.prefix k k = true.
Proof. induction k as [|a k IH]; simpl; [reflexivity|]. destruct (Ascii.ascii_dec a a); [exact IH|congruence]. Qed.

Lemma matches_name it k : item_ok it -> used_flag it && name_matches it k = true ->
  exists k' v, binds it k' v /\ data_len it = Z.of_nat (length v) /\ K k' /\ String.prefix k k' = true.
Proof.
  intros Hit [Hu Hm]%andb_true_iff. destruct (Hit Hu) as (k' & v & Hb & Hl & _ & _ & Hk' & _).
  unfold name_matches in Hm. rewrite (proj1 (proj2 Hb)) in Hm. exists k', v. auto.
Qed.

Lemma binds_matches it k v : binds it k v -> used_flag it && name_matches it k = true.
Proof. intros (Hu & Hn & _). unfold name_matches. rewrite Hu, Hn. apply prefix_refl. Qed.

(** Looking a name up finds an item whose name starts with it, and finds the
    item of that very name when there is one and no other name matches. *)
Lemma find_property_cache_ok c k : cache_wf c ->
  match find_property_cache c k with
  | Some i => exists it k' v, items c !! i = Some it /\ binds it k' v /\ K k' /\
                String.prefix k k' = true /\
                data_len it = Z.of_nat (length v) /\ cmap (items c) !! k' = Some v
  | None => cmap (items c) !! k = None
  end.
Proof.
  intros Hwf. unfold find_property_cache.
  destruct (list_find _ _) as [[i it]|] eqn:E; simpl.
  - apply list_find_Some in E. destruct E as (Hi & Hm & _).
    pose proof (Forall_lookup_1 _ _ _ _ (wf_items c Hwf) Hi) as Hit.
    destruct (matches_name it k Hit Hm) as (k' & v & Hb & Hl & Hk' & Hpre).
    exists it, k', v. repeat split; try apply Hb; try assumption.
    apply cmap_Some; [apply Hwf | eauto].
  - apply list_find_None in E. apply cmap_None. intros i it v Hi Hb.
    exact (Forall_lookup_1 _ _ _ _ E Hi (binds_matches it k v Hb)).
Qed.

(** *** Reading *)

Lemma cache_get_step c k len : cache_wf c -> isolated k -> 0 < len ->
  match view c !! k with
  | Some v => property_cache_get c k len =
                (Z.min len (Z.of_nat (length v)), take (Z.to_nat len) v)
  | None => exists e, 0 < e /\ property_cache_get c k len = (- e, [])
  end.
Proof.
  intros Hwf [Hk Hiso] Hlen. unfold property_cache_get, view.
  pose proof (find_property_cache_ok c k Hwf) as Hf.
  destruct (find_property_cache c k) as [i|].
  - destruct Hf as (it & k' & v & Hi & Hb & Hk' & Hpre & Hl & Hc). rewrite Hi.
    rewrite (Hiso k' Hk' (or_intror Hpre)) in Hc.
    rewrite (lookup_union_Some_l _ _ _ _ Hc), (proj2 (proj2 Hb)), Hl. simpl.
    rewrite Z.gtb_ltb. destruct (Z.ltb_spec len (Z.of_nat (length v))).
    + rewrite Z.min_l by lia. reflexivity.
    + rewrite Z.min_r by lia. f_equal. rewrite !take_ge by lia. reflexivity.
  - rewrite lookup_union_r by exact Hf.
    destruct (nv_view (store_ c) !! k) as [v|] eqn:E.
    + apply nvram_get_found; [apply Hwf | apply K_names; exact Hk | exact Hlen | exact E].
    + apply nvram_get_missing; [apply Hwf | apply K_names; exact Hk | exact Hlen | exact E].
Qed.

(** *** Replacing an item *)

Lemma wf_replace c i it' : cache_wf c -> item_ok it' -> distinct (<[i := it']> (items c)) ->
  cache_wf (set_items c (<[i := it']> (items c))).
Proof.
  intros [H1 H2 H3 H4] Hit Hd. split; simpl; [rewrite length_insert| | |]; try assumption.
  apply Forall_insert; assumption.
Qed.

Lemma wf_set_heap c h : cache_wf (set_heap c h) <-> cache_wf c.
Proof. split; intros [H1 H2 H3 H4]; split; assumption. Qed.

Lemma view_set_heap c h : view (set_heap c h) = view c.
Proof. reflexivity. Qed.

(** An unused item may be overwritten by anything that binds nothing. *)
Lemma replace_unused c i it it' : cache_wf c -> items c !! i = Some it ->
  used_flag it = false -> used_flag it' = false ->
  cache_wf (set_items c (<[i := it']> (items c))) /\
  cmap (<[i := it']> (items c)) = cmap (items c).
Proof.
  intros Hwf Hi Hu Hu'.
  assert (Hd : distinct (<[i := it']> (items c))).
  { apply distinct_insert; [apply Hwf|]. intros k v [H _]. congruence. }
  split; [apply wf_replace; [exact Hwf | | exact Hd] |].
  - intros H. congruence.
  - eapply cmap_replace; [apply Hwf | exact Hd | exact Hi |].
    intros k v. split; intros [H _]; congruence.
Qed.

(** Binding [k] to [v] in an item that binds nothing else. *)
Lemma replace_write c i it it' k v : cache_wf c -> K k -> nv_allowed k v -> v <> [] ->
  Z.of_nat (length v) < 2 ^ 16 -> items c !! i = Some it ->
  (forall k' v', binds it k' v' -> k' = k) ->
  ((exists w, binds it k w) \/ cmap (items c) !! k = None) ->
  binds it' k v -> data_len it' = Z.of_nat (length v) ->
  cache_wf (set_items c (<[i := it']> (items c))) /\
  view (set_items c (<[i := it']> (items c))) = <[k := v]> (view c).
Proof.
  intros Hwf Hk Hal Hv Hlen Hi Honly Hwas Hb Hdl.
  assert (Hd : distinct (<[i := it']> (items c))).
  { apply distinct_insert; [apply Hwf|]. intros k' v' Hb' j b w Hj Hw.
    destruct (binds_fun _ _ _ _ _ Hb Hb') as [<- <-]. destruct Hwas as [(u & Hu)|Hn].
    - eapply (wf_distinct c Hwf); eassumption.
    - destruct (proj1 (cmap_None _ _) Hn j b w Hj Hw). }
  split.
  - apply wf_replace; [exact Hwf | | exact Hd]. intros _. exists k, v. auto 10.
  - unfold view. simpl. rewrite insert_union_l. f_equal.
    eapply cmap_write; [apply Hwf | exact Hd | exact Hi | exact Hb | exact Honly].
Qed.

(** *** Writing *)

(** A slot for a new name, or none; the view is untouched. *)
Lemma get_property_cache_ok c k len : cache_wf c ->
  let (got, c') := get_property_cache mem_malloc mem_free c k len in
  cache_wf c' /\ cmap (items c') = cmap (items c) /\ store_ c' = store_ c /\
  match got with
  | Some i => exists it, items c' !! i = Some it /\ used_flag it = false
  | None => True
  end.
Proof.
  intros Hwf. unfold get_property_cache.
  destruct (list_find _ _) as [[i it]|] eqn:E; [|auto].
  apply list_find_Some in E. destruct E as (Hi & Hu & _).
  pose proof (lookup_lt_Some _ _ _ Hi) as Hlt.
  pose proof (fun x Hx => replace_unused c i it x Hwf Hi Hu Hx) as Hrep.
  destruct (mem_malloc (heap_ c) _) as [[] h1];
    [destruct (mem_malloc h1 len) as [[] h2]|]; rewrite wf_set_heap; simpl;
    match goal with |- cache_wf (set_items _ (<[_ := ?x]> _)) /\ _ =>
      destruct (Hrep x Hu) as [Hwf' Hc] end; repeat (split; [eassumption || reflexivity|]);
    try exact I.
  eexists. split; [apply list_lookup_insert_eq; exact Hlt | exact Hu].
Qed.

Lemma u16_length (v : list Z) : Z.of_nat (length v) < 2 ^ 16 ->
  u16 (Z.of_nat (length v)) = Z.of_nat (length v).
Proof. intros H. unfold u16. apply Z.mod_small. lia. Qed.

(** What a write of [v] to [k] that returned [r] may have done: the value is
    in the map under [k] or a name that starts with [k]. *)
Definition written (k : string) (v : list Z) (r : Z) (m m' : gmap string (list Z)) : Prop :=
  (r = 0 /\ exists k', K k' /\ String.prefix k k' = true /\ m' = <[k' := v]> m) \/
  (r < 0 /\ m' = m).

Lemma written_as k k' v m m' (P : Prop) : K k' -> String.prefix k k' = true ->
  P /\ m' = <[k' := v]> m -> P /\ written k v 0 m m'.
Proof. intros Hk Hpre [HP ->]. split; [exact HP|]. left. split; [reflexivity | eauto]. Qed.

(** The names a value may end up under accept it. *)
Definition value_ok (k : string) (v : list Z) : Prop :=
  (forall k', K k' -> String.prefix k k' = true -> nv_allowed k' v) /\
  v <> [] /\ Z.of_nat (length v) < 2 ^ 16.

Lemma cache_set_step c k v : cache_wf c -> K k -> value_ok k v ->
  match property_cache_set mem_malloc mem_free c k v with
  | Some (r, c') => cache_wf c' /\ written k v r (view c) (view c')
  | None => fst (mem_malloc (heap_ c) (Z.of_nat (length v))) = false
  end.
Proof.
  intros Hwf Hk (Hal & Hv & Hlen). unfold property_cache_set.
  pose proof (fun c0 H0 i it it' k' Hk' Hpk =>
    replace_write c0 i it it' k' v H0 Hk' (Hal k' Hk' Hpk) Hv Hlen) as Hrep.
  pose proof (find_property_cache_ok c k Hwf) as Hf.
  destruct (find_property_cache c k) as [i|].
  - destruct Hf as (it & k' & w & Hi & Hb & Hk' & Hpre & Hl & Hc). rewrite Hi.
    assert (Honly : forall j v', binds it j v' -> j = k').
    { intros j v' Hb'. exact (proj1 (binds_fun _ _ _ _ _ Hb' Hb)). }
    destruct (Z.eqb_spec (data_len it) (Z.of_nat (length v))) as [E|E].
    + apply (written_as k k'), (Hrep c Hwf i it); try assumption; [eauto|].
      split; [apply Hb | split; [apply Hb | reflexivity]].
    + destruct (mem_malloc (heap_ c) (Z.of_nat (length v))) as [ok h] eqn:Em. destruct ok; simpl.
      * rewrite wf_set_heap, view_set_heap.
        apply (written_as k k'), (Hrep c Hwf i it); try assumption;
          [eauto | | apply u16_length; exact Hlen].
        split; [apply Hb | split; [apply Hb | reflexivity]].
      * destruct (Z.eqb_spec (Z.of_nat (length v)) 0) as [E0|_]; [|reflexivity].
        destruct v; [congruence | discriminate E0].
  - pose proof (get_property_cache_ok c k (Z.of_nat (length v)) Hwf) as Hg.
    destruct (get_property_cache mem_malloc mem_free c k (Z.of_nat (length v))) as [[i|] c1];
      destruct Hg as (Hwf1 & Hc1 & Hs1 & Hgot).
    + destruct Hgot as (it & Hi & Hu). rewrite Hi.
      assert (Hvw1 : view c1 = view c) by (unfold view; rewrite Hc1, Hs1; reflexivity).
      rewrite <- Hvw1.
      apply (written_as k k); [exact Hk | apply prefix_refl|]. apply (Hrep c1 Hwf1 i it);
        [exact Hk | apply prefix_refl | exact Hi | | | repeat split | apply u16_length; exact Hlen].
      * intros k' v' [H _]. congruence.
      * right. rewrite Hc1. exact Hf.
    + destruct (nvram_config_set (store_ c1) k v) as [r s] eqn:Es.
      destruct (nvram_set_result _ _ _ _ _ (wf_store c1 Hwf1) (Hal k Hk (prefix_refl k)) Hv Es) as [Hinv Hr].
      split; [split; try apply Hwf1; exact Hinv|].
      unfold written, view. simpl. rewrite Hc1, <- Hs1.
      destruct Hr as [[-> ->]|[Hr ->]]; [left | right; auto].
      split; [reflexivity|]. exists k. split; [exact Hk|]. split; [apply prefix_refl|].
      symmetry. apply insert_union_r. exact Hf.
Qed.

(** At an isolated name the write is the one of that name, or none. *)
Lemma written_isolated k v r m m' q : K k -> written k v r m m' -> isolated q ->
  m' !! q = (if r =? 0 then <[k := v]> m else m) !! q.
Proof.
  intros Hk [(-> & k' & Hk' & Hpre & ->)|[Hr ->]] [Hq Hiso].
  - change (0 =? 0) with true. cbv iota. destruct (decide (k = q)) as [->|Hne].
    + rewrite (Hiso k' Hk' (or_intror Hpre)). reflexivity.
    + rewrite !lookup_insert_ne; [reflexivity | exact Hne|].
      intros ->. apply Hne. exact (Hiso k Hk (or_introl Hpre)).
  - destruct (Z.eqb_spec r 0); [lia | reflexivity].
Qed.

(** *** Flushing *)

Lemma put_property_cache_items (c : cache) i it : items c !! i = Some it ->
  items (put_property_cache mem_free c i) = <[i := empty_item]> (items c) /\
  store_ (put_property_cache mem_free c i) = store_ c /\
  need_flush (put_property_cache mem_free c i) = need_flush c.
Proof. intros Hi. unfold put_property_cache. rewrite Hi. auto. Qed.

(** Writing one used item: it is dropped, or kept as it was. *)
Lemma flush_item_ok c i it : cache_wf c -> items c !! i = Some it -> used_flag it = true ->
  cache_wf (flush_item mem_free c i it) /\ view (flush_item mem_free c i it) = view c /\
  (items (flush_item mem_free c i it) = items c \/
   items (flush_item mem_free c i it) = <[i := empty_item]> (items c)).
Proof.
  intros Hwf Hi Hu. unfold flush_item.
  destruct (Forall_lookup_1 _ _ _ _ (wf_items c Hwf) Hi Hu) as (k & v & Hb & Hl & Hlen & Hv & Hk & Hal).
  rewrite (proj1 (proj2 Hb)), (proj2 (proj2 Hb)), Hl, Nat2Z.id. simpl. rewrite firstn_all.
  destruct (nvram_config_set (store_ c) k v) as [r s] eqn:Es.
  destruct (nvram_set_result _ _ _ _ _ (wf_store c Hwf) Hal Hv Es) as [Hinv Hr].
  destruct (Z.eqb_spec r 0) as [->|Hr0].
  - destruct Hr as [[_ Hs]|[H0 _]]; [|lia].
    pose proof (put_property_cache_items (set_store c s) i it Hi) as (Hit & Hst & _).
    assert (Hd : distinct (<[i := empty_item]> (items c))).
    { apply distinct_insert; [apply Hwf|]. intros k' v' [H _]. discriminate H. }
    split; [|split; [|right; exact Hit]].
    + split; rewrite ?Hit, ?Hst; simpl; [rewrite length_insert; apply Hwf | exact Hd | | exact Hinv].
      apply Forall_insert; [apply Hwf | intros H; discriminate H].
    + unfold view. rewrite Hit, Hst. simpl. rewrite Hs.
      erewrite cmap_drop; [| apply Hwf | exact Hd | exact Hi | exact Hb |].
      * apply move_to_store. apply cmap_Some; [apply Hwf | eauto].
      * intros k' v' [H _]. discriminate H.
  - destruct Hr as [[H0 _]|[_ Hs]]; [lia|].
    split; [split; try apply Hwf; exact Hinv|]. split; [|left; reflexivity].
    unfold view. simpl. rewrite Hs. reflexivity.
Qed.

Lemma flush_loop_ok nm rounds : forall c i, cache_wf c ->
  cache_wf (flush_loop mem_free c nm i rounds) /\
  view (flush_loop mem_free c nm i rounds) = view c.
Proof.
  induction rounds as [|rounds IH]; intros c i Hwf; simpl; [auto|].
  destruct (items c !! i) as [it|] eqn:Hi; [|apply IH; exact Hwf].
  destruct (selected nm it) eqn:Hs; [|apply IH; exact Hwf].
  apply andb_true_iff in Hs. destruct (flush_item_ok c i it Hwf Hi (proj1 Hs)) as (Hwf' & Hv & _).
  destruct (IH _ (Datatypes.S i) Hwf') as [H1 H2]. split; [exact H1 | congruence].
Qed.

(** Changing request flags changes no pair. *)
Lemma wf_same_pairs c l : cache_wf c -> length l = length (items c) ->
  (forall i it', l !! i = Some it' -> exists it, items c !! i = Some it /\
     used_flag it' = used_flag it /\ name it' = name it /\ data it' = data it /\
     data_len it' = data_len it) ->
  distinct l /\ Forall item_ok l /\ cmap l = cmap (items c).
Proof.
  intros Hwf Hlen Hl.
  assert (Hb : forall i it' k v, l !! i = Some it' -> binds it' k v ->
            exists it, items c !! i = Some it /\ binds it k v).
  { intros i it' k v Hi [H1 [H2 H3]]. destruct (Hl i it' Hi) as (it & Hi' & E1 & E2 & E3 & _).
    exists it. split; [exact Hi'|]. unfold binds. rewrite <- E1, <- E2, <- E3. auto. }
  assert (Hd : distinct l).
  { intros i j a b k v w Ha Hb' Hv Hw.
    destruct (Hb _ _ _ _ Ha Hv) as (a' & Ha' & Hva), (Hb _ _ _ _ Hb' Hw) as (b' & Hb'' & Hwb).
    eapply (wf_distinct c Hwf); eassumption. }
  split; [exact Hd|split].
  - apply Forall_lookup_2. intros i it' Hi Hu. destruct (Hl i it' Hi) as (it & Hi' & E1 & E2 & E3 & E4).
    rewrite E1 in Hu. destruct (Forall_lookup_1 _ _ _ _ (wf_items c Hwf) Hi' Hu) as (k & v & Hkv & Hr).
    exists k, v. rewrite E4. split; [|exact Hr]. unfold binds. rewrite E1, E2, E3. exact Hkv.
  - apply map_eq. intros k. apply option_eq. intros v.
    rewrite !cmap_Some by (assumption || apply Hwf). split.
    + intros (i & it' & Hi & Hv). destruct (Hb _ _ _ _ Hi Hv) as (it & H). eauto.
    + intros (i & it & Hi & Hv).
      destruct (lookup_lt_is_Some_2 l i) as [it' Hi'].
      { rewrite Hlen. eapply lookup_lt_Some. exact Hi. }
      destruct (Hl i it' Hi') as (it2 & Hi2 & E1 & E2 & E3 & _). exists i, it'.
      split; [exact Hi'|]. unfold binds. rewrite E1, E2, E3.
      rewrite Hi in Hi2. injection Hi2 as <-. exact Hv.
Qed.

Lemma flush_req_ok nm (c : cache) : cache_wf c ->
  cache_wf (snd (property_cache_flush_req c nm)) /\
  view (snd (property_cache_flush_req c nm)) = view c.
Proof.
  intros Hwf. unfold property_cache_flush_req, view. simpl.
  destruct (wf_same_pairs c ((fun it => if selected nm it then set_flush_req true it else it) <$> items c)
              Hwf) as (Hd & Hi & Hc); [apply length_fmap | |].
  - intros i it'. rewrite list_lookup_fmap. destruct (items c !! i) as [it|]; [|discriminate].
    intros [= <-]. exists it. split; [reflexivity|]. destruct (selected nm it); auto.
  - rewrite Hc. split; [|reflexivity]. split; simpl; [rewrite length_fmap; apply Hwf | exact Hd | exact Hi | apply Hwf].
Qed.

Lemma clear_req_ok c i : cache_wf c ->
  cache_wf (set_items c (alter (set_flush_req false) i (items c))) /\
  view (set_items c (alter (set_flush_req false) i (items c))) = view c.
Proof.
  intros Hwf. unfold view. simpl.
  destruct (wf_same_pairs c (alter (set_flush_req false) i (items c)) Hwf) as (Hd & Hi & Hc);
    [apply length_alter | |].
  - intros j it'. destruct (decide (i = j)) as [<-|Hne].
    + rewrite list_lookup_alter_eq. destruct (items c !! i) as [it|]; [|discriminate].
      intros [= <-]. exists it. auto.
    + rewrite list_lookup_alter_ne by exact Hne. intros Hj. exists it'. auto.
  - rewrite Hc. split; [|reflexivity]. split; simpl; [rewrite length_alter; apply Hwf | exact Hd | exact Hi | apply Hwf].
Qed.

Lemma deal_loop_ok rounds : forall c i, cache_wf c ->
  cache_wf (deal_loop mem_free c i rounds) /\
  view (deal_loop mem_free c i rounds) = view c.
Proof.
  induction rounds as [|rounds IH]; intros c i Hwf; simpl; [auto|].
  destruct (items c !! i) as [it|] eqn:Hi; [|apply IH; exact Hwf].
  destruct (used_flag it && flush_req it) eqn:Hs; [|apply IH; exact Hwf].
  apply andb_true_iff in Hs. destruct (flush_item_ok c i it Hwf Hi (proj1 Hs)) as (Hwf' & Hv & _).
  destruct (clear_req_ok _ i Hwf') as [Hwf2 Hv2].
  destruct (IH _ (Datatypes.S i) Hwf2) as [H1 H2]. split; [exact H1 | congruence].
Qed.

Lemma clear_need_flush_ok (c : cache) : cache_wf c ->
  cache_wf (clear_need_flush c) /\ view (clear_need_flush c) = view c.
Proof.
  intros Hwf. unfold clear_need_flush. destruct (need_flush c); [|auto].
  split; [|reflexivity]. destruct Hwf. split; assumption.
Qed.

Lemma flush_req_deal_ok c : cache_wf c ->
  cache_wf (clear_need_flush (deal_loop mem_free c 0 MAX_NVRAM_ITEM_CACHE_NUM)) /\
  view (clear_need_flush (deal_loop mem_free c 0 MAX_NVRAM_ITEM_CACHE_NUM)) = view c.
Proof.
  intros Hwf. destruct (deal_loop_ok MAX_NVRAM_ITEM_CACHE_NUM c 0 Hwf) as [H1 H2].
  destruct (clear_need_flush_ok _ H1) as [H3 H4]. split; [exact H3 | rewrite H4; exact H2].
Qed.

Lemma cache_flush_wf nm c : cache_wf c -> cache_wf (snd (property_flush mem_free c nm)).
Proof. intros Hwf. exact (proj1 (flush_loop_ok nm MAX_NVRAM_ITEM_CACHE_NUM c 0 Hwf)). Qed.

(** *** What an accepting store leaves in the cache *)

Section Accepting.
Hypothesis accepts : forall s k v, nv_inv s -> nv_allowed k v -> v <> [] ->
  fst (nvram_config_set s k v) = 0.

Lemma flush_item_accepted c i it : cache_wf c -> items c !! i = Some it -> used_flag it = true ->
  items (flush_item mem_free c i it) = <[i := empty_item]> (items c).
Proof.
  intros Hwf Hi Hu. unfold flush_item.
  destruct (Forall_lookup_1 _ _ _ _ (wf_items c Hwf) Hi Hu) as (k & v & Hb & Hl & Hlen & Hv & Hk & Hal).
  rewrite (proj1 (proj2 Hb)), (proj2 (proj2 Hb)), Hl, Nat2Z.id. simpl. rewrite firstn_all.
  pose proof (accepts (store_ c) k v (wf_store c Hwf) Hal Hv) as Ha.
  destruct (nvram_config_set (store_ c) k v) as [r s]. simpl in Ha. subst r. simpl.
  exact (proj1 (put_property_cache_items (set_store c s) i it Hi)).
Qed.

Lemma flush_loop_left nm rounds : forall c i j it, cache_wf c ->
  items (flush_loop mem_free c nm i rounds) !! j = Some it -> used_flag it = true ->
  items c !! j = Some it /\ ((i <= j < i + rounds)%nat -> selected nm it = false).
Proof.
  induction rounds as [|rounds IH]; intros c i j it Hwf Hj Hu; simpl in Hj; [split; [exact Hj | lia]|].
  destruct (items c !! i) as [x|] eqn:Hi.
  - destruct (selected nm x) eqn:Hs.
    + pose proof (proj1 (proj1 (andb_true_iff _ _) Hs)) as Hx.
      destruct (flush_item_ok c i x Hwf Hi Hx) as (Hwf' & _ & _).
      destruct (IH _ _ _ _ Hwf' Hj Hu) as [Hj' Hsel].
      rewrite (flush_item_accepted c i x Hwf Hi Hx) in Hj'.
      apply list_lookup_insert_Some in Hj'. destruct Hj' as [(_ & <- & _)|[Hne Hj']]; [discriminate Hu|].
      split; [exact Hj' | intros Hr; apply Hsel; lia].
    + destruct (IH _ _ _ _ Hwf Hj Hu) as [Hj' Hsel]. split; [exact Hj'|]. intros Hr.
      destruct (decide (i = j)) as [->|Hne]; [congruence | apply Hsel; lia].
  - destruct (IH _ _ _ _ Hwf Hj Hu) as [Hj' Hsel]. split; [exact Hj'|]. intros Hr.
    destruct (decide (i = j)) as [->|Hne]; [congruence | apply Hsel; lia].
Qed.

Lemma deal_loop_left rounds : forall c i j it, cache_wf c ->
  items (deal_loop mem_free c i rounds) !! j = Some it -> used_flag it = true ->
  items c !! j = Some it /\ ((i <= j < i + rounds)%nat -> flush_req it = false).
Proof.
  induction rounds as [|rounds IH]; intros c i j it Hwf Hj Hu; simpl in Hj; [split; [exact Hj | lia]|].
  destruct (items c !! i) as [x|] eqn:Hi.
  - destruct (used_flag x && flush_req x) eqn:Hs.
    + pose proof (proj1 (proj1 (andb_true_iff _ _) Hs)) as Hx.
      destruct (flush_item_ok c i x Hwf Hi Hx) as (Hwf' & _ & _).
      destruct (IH _ _ _ _ (proj1 (clear_req_ok _ i Hwf')) Hj Hu) as [Hj' Hsel]. simpl in Hj'.
      rewrite (flush_item_accepted c i x Hwf Hi Hx) in Hj'. destruct (decide (i = j)) as [<-|Hne].
      * rewrite list_lookup_alter_eq, list_lookup_insert_eq in Hj'
          by (eapply lookup_lt_Some; exact Hi). simpl in Hj'. injection Hj' as <-. discriminate Hu.
      * rewrite list_lookup_alter_ne, list_lookup_insert_ne in Hj' by exact Hne.
        split; [exact Hj' | intros Hr; apply Hsel; lia].
    + destruct (IH _ _ _ _ Hwf Hj Hu) as [Hj' Hsel]. split; [exact Hj'|]. intros Hr.
      destruct (decide (i = j)) as [->|Hne]; [|apply Hsel; lia].
      rewrite Hi in Hj'. injection Hj' as ->. rewrite Hu in Hs. exact Hs.
  - destruct (IH _ _ _ _ Hwf Hj Hu) as [Hj' Hsel]. split; [exact Hj'|]. intros Hr.
    destruct (decide (i = j)) as [->|Hne]; [congruence | apply Hsel; lia].
Qed.

(** A name that is bound by no item is read from the store. *)
Lemma view_stored (c : cache) k : (forall i it v, items c !! i = Some it -> ~ binds it k v) ->
  nv_view (store_ c) !! k = view c !! k.
Proof. intros H. unfold view. rewrite lookup_union_r; [reflexivity | apply cmap_None; exact H]. Qed.

Lemma wf_index c i it : cache_wf c -> items c !! i = Some it -> (i < MAX_NVRAM_ITEM_CACHE_NUM)%nat.
Proof. intros Hwf Hi. rewrite <- (wf_length c Hwf). eapply lookup_lt_Some. exact Hi. Qed.

Lemma selected_binds nm it k v : nm = None \/ nm = Some k -> binds it k v -> selected nm it = true.
Proof.
  intros Hnm (Hu & Hn & _). unfold selected. rewrite Hu.
  destruct Hnm as [->| ->]; [reflexivity|]. unfold name_matches. rewrite Hn. apply prefix_refl.
Qed.

Lemma flush_durable c nm k : cache_wf c -> nm = None \/ nm = Some k ->
  nv_view (store_ (snd (property_cache_flush mem_free c nm))) !! k = view c !! k.
Proof.
  intros Hwf Hnm.
  change (snd (property_cache_flush mem_free c nm))
    with (flush_loop mem_free c nm 0 MAX_NVRAM_ITEM_CACHE_NUM).
  destruct (flush_loop_ok nm MAX_NVRAM_ITEM_CACHE_NUM c 0 Hwf) as [Hwf' Hv]. rewrite <- Hv.
  apply view_stored. intros i it v Hi Hb.
  destruct (flush_loop_left _ _ _ _ _ _ Hwf Hi (proj1 Hb)) as [_ Hs].
  rewrite (selected_binds nm it k v Hnm Hb) in Hs.
  pose proof (wf_index _ _ _ Hwf' Hi). discriminate Hs. lia.
Qed.

Lemma property_flush_stored c nm k : cache_wf c -> nm = None \/ nm = Some k ->
  nv_view (store_ (snd (property_flush mem_free c nm))) !! k = view c !! k.
Proof. exact (flush_durable c nm k). Qed.

Lemma flush_req_durable c nm k : cache_wf c -> nm = None \/ nm = Some k ->
  nv_view (store_ (snd (property_cache_flush_req_deal mem_free
    (snd (property_cache_flush_req c nm))))) !! k = view c !! k.
Proof.
  intros Hwf Hnm. destruct (flush_req_ok nm c Hwf) as [Hwf1 Hv1]. rewrite <- Hv1.
  set (c1 := snd (property_cache_flush_req c nm)) in *.
  change (snd (property_cache_flush_req_deal mem_free c1)) with
    (clear_need_flush (deal_loop mem_free c1 0 MAX_NVRAM_ITEM_CACHE_NUM)).
  destruct (deal_loop_ok MAX_NVRAM_ITEM_CACHE_NUM c1 0 Hwf1) as [Hwf2 Hv2]. rewrite <- Hv2.
  assert (Hst : forall d : cache, store_ (clear_need_flush d) = store_ d).
  { intros d. unfold clear_need_flush. destruct (need_flush d); reflexivity. }
  rewrite Hst. apply view_stored. intros i it v Hi Hb.
  destruct (deal_loop_left _ _ _ _ _ Hwf1 Hi (proj1 Hb)) as [Hi1 Hr].
  assert (Hreq : flush_req it = true).
  { subst c1. simpl in Hi1. rewrite list_lookup_fmap in Hi1.
    destruct (items c !! i) as [x|]; [|discriminate Hi1]. simpl in Hi1.
    destruct (selected nm x) eqn:Hs; injection Hi1 as <-; [reflexivity|].
    rewrite (selected_binds nm x k v Hnm Hb) in Hs. discriminate Hs. }
  rewrite Hreq in Hr. pose proof (wf_index _ _ _ Hwf2 Hi). discriminate Hr. lia.
Qed.
End Accepting.

(** *** Sequences of operations *)

Inductive prop_op : Type :=
  | OpSet (k : string) (v : list Z)
  | OpFlush (nm : option string)
  | OpFlushReq (nm : option string)
  | OpDeal.

Definition prop_step (c : cache) (o : prop_op) : option (Z * cache) :=
  match o with
  | OpSet k v => property_cache_set mem_malloc mem_free c k v
  | OpFlush nm => Some (property_cache_flush mem_free c nm)
  | OpFlushReq nm => Some (property_cache_flush_req c nm)
  | OpDeal => Some (property_cache_flush_req_deal mem_free c)
  end.

Fixpoint prop_run (c : cache) (ops : list prop_op) : option (list Z * cache) :=
  match ops with
  | [] => Some ([], c)
  | o :: ops => '(r, c) ← prop_step c o; '(rs, c) ← prop_run c ops; Some (r :: rs, c)
  end.

(** The abstract machine: a map, changed by the writes that report success. *)
Definition spec_step (m : gmap string (list Z)) (o : prop_op) (r : Z) : gmap string (list Z) :=
  match o with OpSet k v => if r =? 0 then <[k := v]> m else m | _ => m end.

Fixpoint spec_run (m : gmap string (list Z)) (ops : list prop_op) (rs : list Z)
    : gmap string (list Z) :=
  match ops, rs with
  | o :: ops, r :: rs => spec_run (spec_step m o r) ops rs
  | _, _ => m
  end.

Definition op_ok (o : prop_op) : Prop :=
  match o with OpSet k v => K k /\ value_ok k v | _ => True end.

(** Two maps that agree on the isolated names. *)
Definition agree (m m' : gmap string (list Z)) : Prop := forall q, isolated q -> m !! q = m' !! q.

Lemma agree_refl m : agree m m.
Proof. intros q _. reflexivity. Qed.

Lemma agree_trans m1 m2 m3 : agree m1 m2 -> agree m2 m3 -> agree m1 m3.
Proof. intros H1 H2 q Hq. rewrite (H1 q Hq). exact (H2 q Hq). Qed.

Lemma spec_step_agree m m' o r : agree m m' -> agree (spec_step m o r) (spec_step m' o r).
Proof.
  intros H q Hq. destruct o as [k v| | |]; try exact (H q Hq). simpl. destruct (r =? 0); [|exact (H q Hq)].
  destruct (decide (k = q)) as [->|Hne]; [rewrite !lookup_insert_eq; reflexivity|].
  rewrite !lookup_insert_ne by exact Hne. exact (H q Hq).
Qed.

Lemma spec_run_agree ops : forall m m' rs, agree m m' -> agree (spec_run m ops rs) (spec_run m' ops rs).
Proof.
  induction ops as [|o ops IH]; intros m m' [|r rs] H; try exact H.
  apply IH, spec_step_agree, H.
Qed.

(** An allocation was refused. *)
Definition malloc_failed : Prop := exists h n, 0 < n /\ fst (mem_malloc h n) = false.

Lemma prop_step_ok c o : cache_wf c -> op_ok o ->
  match prop_step c o with
  | Some (r, c') => cache_wf c' /\ agree (view c') (spec_step (view c) o r)
  | None => malloc_failed
  end.
Proof.
  intros Hwf Ho. destruct o as [k v|nm|nm|]; cbn [prop_step spec_step].
  - destruct Ho as [Hk Hval]. pose proof (cache_set_step c k v Hwf Hk Hval) as Hs.
    destruct (property_cache_set _ _ c k v) as [[r c']|].
    + destruct Hs as [Hwf' Hw]. split; [exact Hwf'|]. intros q Hq. exact (written_isolated k v r _ _ q Hk Hw Hq).
    + exists (heap_ c), (Z.of_nat (length v)). split; [|exact Hs].
      destruct Hval as (_ & Hv & _). destruct v; [congruence | simpl; lia].
  - destruct (flush_loop_ok nm MAX_NVRAM_ITEM_CACHE_NUM c 0 Hwf) as [H1 H2].
    unfold property_cache_flush. rewrite H2. split; [exact H1 | apply agree_refl].
  - destruct (flush_req_ok nm c Hwf) as [H1 H2]. unfold property_cache_flush_req in *. cbn [snd] in *.
    rewrite H2. split; [exact H1 | apply agree_refl].
  - destruct (flush_req_deal_ok c Hwf) as [H1 H2]. unfold property_cache_flush_req_deal.
    rewrite H2. split; [exact H1 | apply agree_refl].
Qed.

Lemma prop_run_ok ops : forall c, cache_wf c -> Forall op_ok ops ->
  match prop_run c ops with
  | Some (rs, c') => cache_wf c' /\ agree (view c') (spec_run (view c) ops rs)
  | None => malloc_failed
  end.
Proof.
  induction ops as [|o ops IH]; intros c Hwf Hops; [split; [exact Hwf | apply agree_refl]|].
  inversion_clear Hops as [|? ? Ho Hops'].
  pose proof (prop_step_ok c o Hwf Ho) as H1. cbn [prop_run].
  destruct (prop_step c o) as [[r c1]|]; cbn [mbind option_bind]; [|exact H1]. destruct H1 as [Hwf1 Hv1].
  pose proof (IH c1 Hwf1 Hops') as H2.
  destruct (prop_run c1 ops) as [[rs c2]|]; cbn [mbind option_bind]; [|exact H2]. destruct H2 as [Hwf2 Hv2].
  split; [exact Hwf2|]. cbn [spec_run]. apply (agree_trans _ _ _ Hv2), spec_run_agree, Hv1.
Qed.

(** *** The claims about the cache *)

(** C5: Cache and store together are one map on the names of which no other
    name in use is a prefix and which are a prefix of no other ([isolated]):
    for every sequence of writes (to these and to any other names), flushes,
    flush requests and request handling, a read of such a name afterwards
    gives the value of the last write of that name that reported success (cut
    to the caller's buffer), or a negative error code when there is none.  The
    sequence runs to its end unless [mem_malloc] refuses memory for a value,
    where the code writes through NULL.  Values are not empty, shorter than
    64 KiB, and of a size the store takes.  Names that are prefixes of each
    other, such as BT_CF and BT_CFO_VAL, are excluded: see
    [property_cache_prefix_clash]. *)
Theorem property_cache_refines_map c ops :
  cache_wf c -> Forall op_ok ops ->
  match prop_run c ops with
  | Some (rs, c') => forall k len, isolated k -> 0 < len ->
      match spec_run (view c) ops rs !! k with
      | Some v => property_cache_get c' k len =
                    (Z.min len (Z.of_nat (length v)), take (Z.to_nat len) v)
      | None => exists e, 0 < e /\ property_cache_get c' k len = (- e, [])
      end
  | None => exists h n, 0 < n /\ fst (mem_malloc h n) = false
  end.
Proof.
  intros Hwf Hops. pose proof (prop_run_ok ops c Hwf Hops) as H.
  destruct (prop_run c ops) as [[rs c']|]; [|exact H]. destruct H as [Hwf' Hv].
  intros k len Hk Hlen. rewrite <- (Hv k Hk). apply cache_get_step; assumption.
Qed.

(** When the store accepts its writes, both ways of flushing a name (or
    all names, with NULL) leave the value that reads return in the store:
    nothing is lost when the cache disappears. *)
Theorem property_flush_durable c nm k :
  (forall s k v, nv_inv s -> nv_allowed k v -> v <> [] -> fst (nvram_config_set s k v) = 0) ->
  cache_wf c -> nm = None \/ nm = Some k ->
  nv_view (store_ (snd (property_flush mem_free c nm))) !! k = view c !! k /\
  nv_view (store_ (snd (property_flush_req_deal mem_free
    (snd (property_flush_req c nm))))) !! k = view c !! k.
Proof.
  intros Ha Hwf Hnm. split.
  - exact (flush_durable Ha c nm k Hwf Hnm).
  - exact (flush_req_durable Ha c nm k Hwf Hnm).
Qed.
End Cache.

(** ** Names that are prefixes of each other *)

Section Prefix.
Context {S : Type} `{!Nvram S} {Hp : Type}.
Variable mem_malloc : Hp -> Z -> bool * Hp.
Variable mem_free : Hp -> Hp.

(** Names are compared over [strlen] of the name looked up, so a name that
    is a proper prefix of a cached one reads that other property's value,
    whatever the store holds for it, and writing it overwrites that other
    property and leaves its own name unset. *)
Theorem property_cache_prefix_clash (c : cache_state S Hp) it rest a b v w len :
  items c = it :: rest -> binds it b v -> data_len it = Z.of_nat (length v) ->
  String.prefix a b = true -> length w = length v -> 0 < len ->
  property_cache_get c a len = (Z.min len (Z.of_nat (length v)), take (Z.to_nat len) v) /\
  exists c', property_cache_set mem_malloc mem_free c a w = Some (0, c') /\
    store_ c' = store_ c /\
    property_cache_get c' b len = (Z.min len (Z.of_nat (length w)), take (Z.to_nat len) w).
Proof.
  intros Hi (Hu & Hn & Hd) Hl Hp' Hw Hlen.
  assert (Hget : forall (d : cache_state S Hp) x k u,
    items d = x :: rest -> used_flag x = true -> name x = Some b -> data x = Some u ->
    data_len x = Z.of_nat (length u) -> String.prefix k b = true ->
    find_property_cache d k = Some O /\
    property_cache_get d k len = (Z.min len (Z.of_nat (length u)), take (Z.to_nat len) u)).
  { intros d x k u Hx H1 H2 H3 H4 H5.
    assert (Hf : find_property_cache d k = Some O).
    { unfold find_property_cache, name_matches. rewrite Hx. simpl. rewrite H1, H2, H5. reflexivity. }
    split; [exact Hf|]. unfold property_cache_get. rewrite Hf, Hx. simpl. rewrite H3, H4. simpl.
    rewrite Z.gtb_ltb. destruct (Z.ltb_spec len (Z.of_nat (length u))).
    - rewrite Z.min_l by lia. reflexivity.
    - rewrite Z.min_r by lia. rewrite !take_ge by lia. reflexivity. }
  destruct (Hget c it a v Hi Hu Hn Hd Hl Hp') as [Hf Hg]. split; [exact Hg|].
  unfold property_cache_set. rewrite Hf, Hi. simpl. rewrite Hl, <- Hw, Z.eqb_refl.
  eexists. split; [reflexivity|]. split; [reflexivity|].
  match goal with |- property_cache_get ?d _ _ = _ =>
    refine (proj2 (Hget d _ b w eq_refl Hu Hn eq_refl eq_refl (prefix_refl b))) end.
Qed.
End Prefix.

(** ** Numbers as text *)

Definition digit_step (n c : Z) : Z := s32 (10 * n - (c - 48)).

Lemma atoi_digits_app ds : forall n rest, Forall (fun c => isdigit c = true) ds ->
  atoi_digits n (ds ++ rest) = atoi_digits (fold_left digit_step ds n) rest.
Proof.
  induction ds as [|c ds IH]; intros n rest Hds; [reflexivity|].
  inversion_clear Hds as [|? ? Hc Hds']. simpl. rewrite Hc. apply IH. exact Hds'.
Qed.

Lemma digits_ok fuel : forall n, 0 <= n < 10 ^ Z.of_nat fuel -> n <= 2 ^ 31 ->
  Forall (fun c => isdigit c = true) (digits fuel n) /\
  (length (digits fuel n) <= fuel)%nat /\ fold_left digit_step (digits fuel n) 0 = - n.
Proof.
  induction fuel as [|fuel IH]; intros n Hn Hb; [simpl in *; split; [constructor|split; [lia|lia]]|].
  cbn [digits]. destruct (Z.ltb_spec n 10) as [Hlt|Hge].
  - split; [|split; [simpl; lia|]].
    + constructor; [|constructor]. unfold isdigit. reflect_bools; simpl; lia.
    + cbn [fold_left]. unfold digit_step. rewrite s32_small; lia.
  - rewrite Nat2Z.inj_succ, Z.pow_succ_r in Hn by lia.
    destruct (IH (n / 10)) as (H1 & H2 & H3); [Z.div_mod_to_equations; lia..|].
    split; [|split].
    + apply Forall_app. split; [exact H1|]. constructor; [|constructor].
      unfold isdigit. reflect_bools; simpl; Z.div_mod_to_equations; lia.
    + rewrite length_app. simpl. lia.
    + rewrite fold_left_app, H3. cbn [fold_left]. unfold digit_step.
      rewrite s32_small; Z.div_mod_to_equations; lia.
Qed.

Lemma digits_nonempty fuel n : fuel <> O -> exists c l, digits fuel n = c :: l.
Proof.
  destruct fuel as [|fuel]; [congruence|]. intros _. cbn [digits].
  destruct (n <? 10); [eauto|]. destruct (digits fuel (n / 10)); simpl; eauto.
Qed.

(** The text of a number, followed by a terminator, reads back as it. *)
Lemma atoi_print_int v rest : - 2 ^ 31 <= v < 2 ^ 31 ->
  atoi (print_int v ++ 0 :: rest) = Some v.
Proof.
  intros Hv. unfold print_int. destruct (Z.ltb_spec v 0) as [Hneg|Hpos].
  - destruct (digits_ok 10 (- v)) as (Hd & _ & Hf); [lia..|].
    change (atoi_digits 0 (digits 10 (- v) ++ 0 :: rest) = Some v).
    rewrite atoi_digits_app, Hf by exact Hd. cbn [atoi_digits isdigit]. simpl. f_equal. lia.
  - destruct (digits_ok 10 v) as (Hd & _ & Hf); [lia..|].
    destruct (digits_nonempty 10 v) as (c & l & E); [discriminate|].
    pose proof Hd as Hc. rewrite E in Hc. inversion_clear Hc as [|? ? Hc0 _].
    unfold atoi. assert (Hsk : skip_space (digits 10 v ++ 0 :: rest) = digits 10 v ++ 0 :: rest).
    { rewrite E. simpl. unfold isspace, isdigit in *. reflect_bools; simpl in *; try lia; reflexivity. }
    rewrite Hsk. rewrite E at 1. cbn [app].
    unfold isdigit in Hc0. destruct (Z.eqb_spec c 45), (Z.eqb_spec c 43);
      [subst; discriminate Hc0.. |].
    change (c :: l ++ 0 :: rest) with ((c :: l) ++ 0 :: rest). rewrite <- E.
    rewrite atoi_digits_app, Hf by exact Hd. simpl.
    rewrite s32_small by lia. f_equal. lia.
Qed.

Lemma print_int_length v : - 2 ^ 31 <= v < 2 ^ 31 -> (1 <= length (print_int v) <= 11)%nat.
Proof.
  intros Hv. unfold print_int. destruct (Z.ltb_spec v 0); cbn [length].
  - destruct (digits_ok 10 (- v)) as (_ & Hl & _); lia.
  - destruct (digits_ok 10 v) as (_ & Hl & _); [lia..|].
    destruct (digits_nonempty 10 v) as (c & l & E); [discriminate|]. rewrite E in *. simpl in *. lia.
Qed.

(** *** Printing into [temp_data] *)

Lemma snprintf_keeps buf off txt buf' off' : 0 < off -> snprintf buf off txt = Some (buf', off') ->
  length buf' = length buf /\ nth 0 buf' 0 = nth 0 buf 0 /\ off' = off + Z.of_nat (length txt).
Proof.
  intros Hoff. unfold snprintf. destruct (_ =? 0); [intros [= <- <-]; auto|].
  destruct (_ >=? _); [discriminate|]. intros [= <- <-]. split; [apply length_inserts|].
  split; [|reflexivity]. rewrite !nth_lookup, list_lookup_inserts_lt by lia. reflexivity.
Qed.

Lemma snprintf_fits buf off txt : 0 <= off -> off + Z.of_nat (length txt) <= Z.of_nat (length buf) ->
  Z.of_nat (length buf) < 2 ^ 32 -> exists buf', snprintf buf off txt = Some (buf', off + Z.of_nat (length txt)).
Proof.
  intros H0 Hfit Hb. unfold snprintf. rewrite u32_small by lia.
  destruct (Z.eqb_spec (Z.of_nat (length buf) - off) 0); [eauto|].
  rewrite Z.geb_leb. destruct (Z.leb_spec (Z.of_nat (length buf))
    (off + Z.of_nat (Z.to_nat (Z.min (Z.of_nat (length buf) - off - 1) (Z.of_nat (length txt))))));
    [lia | eauto].
Qed.

Lemma print_array_keeps value : forall temp off temp', 0 < off ->
  Forall (fun b => 0 <= b < 256) value -> print_array temp off value = Some temp' ->
  length temp' = length temp /\ nth 0 temp' 0 = nth 0 temp 0.
Proof.
  induction value as [|b value IH]; intros temp off temp' Hoff Hb; cbn [print_array]; [intros [= <-]; auto|].
  inversion_clear Hb as [|? ? Hb0 Hb'].
  destruct (Z.eqb_spec off 0); [lia|]. cbn [mbind option_bind].
  destruct (snprintf temp off (print_int b)) as [[t o]|] eqn:E; cbn [mbind option_bind]; [|discriminate].
  destruct (snprintf_keeps _ _ _ _ _ Hoff E) as (Hl & Hn & ->). intros H.
  apply IH in H; [|lia|exact Hb']. destruct H as [Hl' Hn'].
  split; congruence.
Qed.

Lemma print_array_fits value : forall temp off, 0 < off -> length temp = 16%nat ->
  off + 3 * Z.of_nat (length value) <= 16 -> Forall (fun b => 0 <= b < 256) value ->
  exists temp', print_array temp off value = Some temp'.
Proof.
  induction value as [|b value IH]; intros temp off Hoff Ht Hfit Hb; cbn [print_array]; [eauto|].
  inversion_clear Hb as [|? ? Hb0 Hb']. cbn [length] in Hfit.
  assert (Hlen : (length (print_int b) <= 3)%nat).
  { pose proof (forallb_seqZ (fun b => (length (print_int b) <=? 3)%nat) 0 256 ltac:(vm_compute; reflexivity) b) as H.
    apply Nat.leb_le, H. lia. }
  destruct (Z.eqb_spec off 0); [lia|]. cbn [mbind option_bind].
  destruct (snprintf_fits temp off (print_int b)) as [t E]; [lia..|]. rewrite E. cbn [mbind option_bind].
  destruct (snprintf_keeps _ _ _ _ _ Hoff E) as (Hl & _ & _).
  apply IH; [lia | congruence | lia | exact Hb'].
Qed.

(** The stored text of a non-empty array starts with a comma. *)
Lemma print_array_comma value temp : value <> [] -> Forall (fun b => 0 <= b < 256) value ->
  print_array (replicate (Z.to_nat TEMP_SIZE) 0) 0 value = Some temp ->
  length temp = 16%nat /\ nth 0 temp 0 = 44.
Proof.
  destruct value as [|b value]; [congruence|]. intros _ Hb. inversion_clear Hb as [|? ? Hb0 Hb'].
  change (print_array (replicate (Z.to_nat TEMP_SIZE) 0) 0 (b :: value)) with
    ('(temp, off) ← snprintf (44 :: replicate 15 0) 1 (print_int b); print_array temp off value).
  destruct (snprintf (44 :: replicate 15 0) 1 (print_int b)) as [[t o]|] eqn:E;
    cbn [mbind option_bind]; [|discriminate].
  apply snprintf_keeps in E; [|lia]. destruct E as (Hl & Hn & ->). intros H.
  apply print_array_keeps in H; [|lia|exact Hb']. destruct H as [Hl' Hn'].
  split; [rewrite Hl', Hl; reflexivity | rewrite Hn', Hn; reflexivity].
Qed.

Lemma print_array_defined value : (length value <= 5)%nat -> Forall (fun b => 0 <= b < 256) value ->
  exists temp, print_array (replicate (Z.to_nat TEMP_SIZE) 0) 0 value = Some temp.
Proof.
  intros Hlen Hb. destruct value as [|b value]; [cbn [print_array]; eauto|].
  change (print_array (replicate (Z.to_nat TEMP_SIZE) 0) 0 (b :: value)) with
    (print_array (44 :: replicate 15 0) 1 (b :: value)).
  apply print_array_fits; [lia | reflexivity | lia | exact Hb].
Qed.

Lemma hex2bin_comma hex n buf : nth 0 hex 0 = 44 -> (n mod 2 = 0)%nat -> snd (hex2bin hex n buf) = buf.
Proof.
  intros Hh Hn. unfold hex2bin. destruct (_ <? _)%nat; [reflexivity|]. rewrite Hn. simpl (0 =? 1)%nat.
  destruct (n / 2)%nat as [|m]; [reflexivity|]. cbn [hex2bin_loop].
  change (2 * 0)%nat with O. rewrite Hh. reflexivity.
Qed.

(** ** The claims about the manager *)

Section Manager.
Context {S : Type} `{!Nvram S} {Hp : Type}.
Variable mem_malloc : Hp -> Z -> bool * Hp.
Variable mem_free : Hp -> Hp.
Variable K : string -> Prop.
Hypothesis K_names : forall k, K k -> nv_name k.
Hypothesis malloc_ok : forall h n, 0 < n -> fst (mem_malloc h n) = true.

Lemma property_set_get c k v : cache_wf K c -> isolated K k -> nv_allowed k v -> v <> [] ->
  Z.of_nat (length v) <= TEMP_SIZE ->
  exists r c', property_set mem_malloc mem_free c k v = Some (r, c') /\
    ((r = 0 /\ property_get c' k TEMP_SIZE = (Z.of_nat (length v), v)) \/
     (r < 0 /\ view c' = view c)).
Proof.
  intros Hwf Hiso Hal Hv Hlen. unfold TEMP_SIZE in *. unfold property_set, property_get.
  assert (Hval : value_ok K k v).
  { split; [|split; [exact Hv | lia]]. intros j Hj Hpj. rewrite (proj2 Hiso j Hj (or_intror Hpj)). exact Hal. }
  pose proof (cache_set_step mem_malloc mem_free K c k v Hwf (proj1 Hiso) Hval) as Hs.
  destruct (property_cache_set _ _ c k v) as [[r c']|].
  - exists r, c'. split; [reflexivity|]. destruct Hs as [Hwf' Hw].
    pose proof (written_isolated K k v r _ _ k (proj1 Hiso) Hw Hiso) as Hvw.
    destruct Hw as [(-> & _)|H]; [left | right; exact H].
    split; [reflexivity|]. pose proof (cache_get_step K K_names c' k 16 Hwf' Hiso ltac:(lia)) as Hg.
    rewrite Hvw in Hg. cbn [Z.eqb] in Hg. rewrite lookup_insert_eq in Hg.
    rewrite Hg, Z.min_r, take_ge by lia. reflexivity.
  - rewrite malloc_ok in Hs; [discriminate Hs|]. destruct v; [congruence | simpl; lia].
Qed.

(** An integer written with [property_set_int] reads back as itself, for
    every 32-bit value.  The return codes are inverted: -EACCES is what a
    successful write returns, and 0 means that nothing was written. *)
Theorem property_int_roundtrip c k v def :
  cache_wf K c -> isolated K k -> nv_allowed k (print_int v) -> - 2 ^ 31 <= v < 2 ^ 31 ->
  exists ret c', property_set_int mem_malloc mem_free c k v = Some (ret, c') /\
    ((ret = - EACCES /\ property_get_int c' k def = Some v) \/
     (ret = 0 /\ view c' = view c)).
Proof.
  intros Hwf Hk Hal Hv. pose proof (print_int_length v Hv) as Hl.
  destruct (property_set_get c k (print_int v) Hwf Hk Hal) as (r & c' & Hset & Hr);
    [intros E; rewrite E in Hl; simpl in Hl; lia | unfold TEMP_SIZE; lia |].
  unfold property_set_int. rewrite Hset. cbn [mbind option_bind]. eexists _, c'.
  split; [reflexivity|]. destruct Hr as [[-> Hg]|[Hr Hvw]].
  - left. split; [reflexivity|]. unfold property_get_int. rewrite Hg, Z.gtb_ltb.
    destruct (Z.ltb_spec 0 (Z.of_nat (length (print_int v)))); [|lia].
    unfold temp_of. destruct (Z.to_nat TEMP_SIZE - length (print_int v))%nat as [|m] eqn:E;
      [unfold TEMP_SIZE in E; lia|].
    cbn [replicate]. rewrite atoi_print_int by exact Hv. simpl. f_equal.
    unfold s32, u32. rewrite Zplus_mod_idemp_l. apply s32_small. exact Hv.
  - right. split; [destruct (Z.eqb_spec r 0); [lia | reflexivity] | exact Hvw].
Qed.

(** A byte array written with [property_set_byte_array] cannot be read
    back: the text starts with a comma and is decimal, the reader expects
    hexadecimal digits and stops at the first character, so it reports success
    and leaves the caller's buffer as it was. *)
Theorem property_byte_array_lost c k value old def :
  cache_wf K c -> isolated K k -> (forall v, nv_allowed k v) ->
  value <> [] -> (length value <= 5)%nat -> Forall (fun b => 0 <= b < 256) value ->
  exists ret c', property_set_byte_array mem_malloc mem_free c k value = Some (ret, c') /\
    (ret = - EACCES -> property_get_byte_array c' k old def = (0, old)).
Proof.
  intros Hwf Hk Hal Hne Hlen Hb. destruct (print_array_defined value Hlen Hb) as [temp Ht].
  destruct (print_array_comma value temp Hne Hb Ht) as [Hl H0].
  destruct (property_set_get c k temp Hwf Hk (Hal temp)) as (r & c' & Hset & Hr);
    [intros ->; discriminate Hl | rewrite Hl; unfold TEMP_SIZE; lia |].
  unfold property_set_byte_array. rewrite Ht. cbn [mbind option_bind]. rewrite Hset.
  cbn [mbind option_bind]. eexists _, c'. split; [reflexivity|].
  destruct Hr as [[-> Hg]|[Hr _]]; [|destruct (Z.eqb_spec r 0); [lia | discriminate]].
  intros _. unfold property_get_byte_array. rewrite Hg, Hl. cbn [Z.gtb Z.compare Z.of_nat].
  change (Z.of_nat 16 >? 0) with true. cbv iota. f_equal. apply hex2bin_comma.
  - unfold temp_of. destruct temp; [discriminate Hl | exact H0].
  - destruct (_ >? _); [|reflexivity].
    rewrite Z2Nat.inj_mul, Nat2Z.id by lia. apply Nat.Div0.mod_mul.
Qed.
End Manager.

(** ** Concrete instances *)

Lemma property_cache_init_ok {S : Type} `{!Nvram S} {Hp : Type} K (c : cache_state S Hp) :
  nv_inv (store_ c) ->
  cache_wf K (snd (property_cache_init c)) /\
  view (snd (property_cache_init c)) = nv_view (store_ c).
Proof.
  intros Hinv. assert (Hr : forall i it, replicate MAX_NVRAM_ITEM_CACHE_NUM empty_item !! i = Some it ->
                         used_flag it = false).
  { intros i it Hi. apply lookup_replicate in Hi. destruct Hi as [-> _]. reflexivity. }
  split.
  - split; simpl; [reflexivity | | | exact Hinv].
    + intros i j a b k v w Ha _ [Hu _] _. rewrite (Hr i a Ha) in Hu. discriminate Hu.
    + apply Forall_lookup_2. intros i it Hi Hu. rewrite (Hr i it Hi) in Hu. discriminate Hu.
  - unfold view. cbn [snd property_cache_init items store_].
    replace (cmap _) with (∅ : gmap string (list Z)); [apply map_empty_union|].
    symmetry. apply map_empty. intros k. apply cmap_None. intros i it v Hi [Hu _].
    rewrite (Hr i it Hi) in Hu. discriminate Hu.
Qed.

(** Four names the firmware uses, two of which clash. *)
Definition names0 (k : string) : Prop :=
  k = "BT_MAC"%string \/ k = "BT_NAME"%string \/ k = "BT_CF"%string \/ k = "BT_CFO_VAL"%string.

Lemma names0_isolated k : k = "BT_MAC"%string \/ k = "BT_NAME"%string -> isolated names0 k.
Proof.
  intros [->| ->]; (split; [unfold names0; auto|]);
    intros j [->|[->|[->| ->]]] [H|H]; vm_compute in H; congruence.
Qed.

Lemma names_map k : names0 k -> nv_name (S := map_store) k.
Proof. intros _. exact I. Qed.

Definition malloc0 (h : unit) (n : Z) : bool * unit := (0 <? n, h).

Lemma malloc0_ok h n : 0 < n -> fst (malloc0 h n) = true.
Proof. intros Hn. apply Z.ltb_lt. exact Hn. Qed.

Definition cache0 : cache_state map_store unit :=
  snd (property_cache_init (mk_cache [] false (mk_map_store {[ "BT_MAC"%string := [9] ]} 512) tt)).

Lemma cache0_wf : cache_wf names0 cache0.
Proof. apply property_cache_init_ok. exact I. Qed.

Definition ops0 : list prop_op :=
  [OpSet "BT_MAC" [1; 2]; OpSet "BT_CFO_VAL" [8]; OpSet "BT_CF" [4]; OpFlush None; OpSet "BT_NAME" [3]; OpFlushReq (Some "BT_NAME"%string); OpDeal].

Lemma ops0_ok : Forall (op_ok (S := map_store) names0) ops0.
Proof.
  repeat (apply List.Forall_cons; [try exact I|]); [..|apply List.Forall_nil];
    (split; [unfold names0; auto|]); repeat split; discriminate.
Qed.

Lemma property_cache_refines_map_witness :
  match prop_run malloc0 id cache0 ops0 with
  | Some (rs, c') => forall k len, isolated names0 k -> 0 < len ->
      match spec_run (view cache0) ops0 rs !! k with
      | Some v => property_cache_get c' k len =
                    (Z.min len (Z.of_nat (length v)), take (Z.to_nat len) v)
      | None => exists e, 0 < e /\ property_cache_get c' k len = (- e, [])
      end
  | None => exists h n, 0 < n /\ fst (malloc0 h n) = false
  end.
Proof.
  exact (property_cache_refines_map malloc0 id names0 names_map cache0 ops0 cache0_wf ops0_ok).
Defined.

(** A store that accepts every write; values have at most 16 bytes. *)
Record small_store : Type := mk_small { sm_map : gmap string (list Z) }.

Definition small_get (s : small_store) : string -> Z -> Z * list Z :=
  map_store_get (mk_map_store (sm_map s) 16).
Definition small_set (s : small_store) (k : string) (v : list Z) : Z * small_store :=
  (0, mk_small (<[k := v]> (sm_map s))).

Lemma small_set_result s k v r s' :
  True -> (length v <= 16)%nat -> v <> [] -> small_set s k v = (r, s') ->
  True /\ ((r = 0 /\ sm_map s' = <[k := v]> (sm_map s)) \/ (r < 0 /\ sm_map s' = sm_map s)).
Proof. intros _ _ _ [= <- <-]. auto. Qed.

#[export] Instance small_nvram : Nvram small_store := {
  nvram_config_get := small_get;
  nvram_config_set := small_set;
  nv_view := sm_map;
  nv_inv := fun _ => True;
  nv_name := fun _ => True;
  nv_allowed := fun _ v => (length v <= 16)%nat;
  nvram_get_found := fun s => map_store_get_found (mk_map_store (sm_map s) 16);
  nvram_get_missing := fun s => map_store_get_missing (mk_map_store (sm_map s) 16);
  nvram_set_result := small_set_result
}.

Lemma names_small k : names0 k -> nv_name (S := small_store) k.
Proof. intros _. exact I. Qed.

Definition item0 : cahce_item_data := mk_item (Some "BT_MAC"%string) (Some [1; 2]) 2 true false.

Definition cache1 : cache_state small_store unit :=
  mk_cache (item0 :: replicate 19 empty_item) false (mk_small ∅) tt.

Lemma cache1_wf : cache_wf names0 cache1.
Proof.
  split; [reflexivity | | | exact I].
  - assert (Hone : forall i a, items cache1 !! i = Some a -> used_flag a = true -> i = O).
    { intros [|i] a Hi Hu; [reflexivity|]. change (replicate 19 empty_item !! i = Some a) in Hi.
      apply lookup_replicate in Hi. destruct Hi as [-> _]. discriminate Hu. }
    intros i j a b k v w Ha Hb [Hu _] [Hu' _].
    rewrite (Hone i a Ha Hu), (Hone j b Hb Hu'). reflexivity.
  - constructor.
    + intros _. exists "BT_MAC"%string, [1; 2].
      repeat split; try discriminate; [left; reflexivity | simpl; lia].
    + apply Forall_replicate. intros H. discriminate H.
Qed.

Lemma property_flush_durable_witness :
  nv_view (store_ (snd (property_flush id cache1 None))) !! "BT_MAC"%string
    = view cache1 !! "BT_MAC"%string /\
  nv_view (store_ (snd (property_flush_req_deal id
    (snd (property_flush_req cache1 None))))) !! "BT_MAC"%string = view cache1 !! "BT_MAC"%string.
Proof.
  apply (property_flush_durable id names0 cache1 None "BT_MAC"%string);
    [reflexivity | exact cache1_wf | left; reflexivity].
Defined.

Definition item2 : cahce_item_data := mk_item (Some "BT_CFO_VAL"%string) (Some [1; 2]) 2 true false.

Definition cache2 : cache_state small_store unit :=
  mk_cache (item2 :: replicate 19 empty_item) false (mk_small {[ "BT_CF"%string := [7; 7] ]}) tt.

Lemma property_cache_prefix_clash_witness :
  property_cache_get cache2 "BT_CF" 8 = (Z.min 8 2, take 8 [1; 2]) /\
  exists c', property_cache_set malloc0 id cache2 "BT_CF" [5; 6] = Some (0, c') /\
    store_ c' = store_ cache2 /\
    property_cache_get c' "BT_CFO_VAL" 8 = (Z.min 8 2, take 8 [5; 6]).
Proof.
  apply (property_cache_prefix_clash malloc0 id cache2 item2 (replicate 19 empty_item) "BT_CF" "BT_CFO_VAL"
           [1; 2] [5; 6] 8); repeat split.
Defined.

Lemma property_int_roundtrip_witness :
  exists ret c', property_set_int malloc0 id cache1 "BT_MAC" (-2147483648) = Some (ret, c') /\
    ((ret = - EACCES /\ property_get_int c' "BT_MAC" 0 = Some (-2147483648)) \/
     (ret = 0 /\ view c' = view cache1)).
Proof.
  apply (property_int_roundtrip malloc0 id names0 names_small malloc0_ok cache1);
    [exact cache1_wf | apply names0_isolated; left; reflexivity | vm_compute; lia | lia].
Defined.

Lemma property_byte_array_lost_witness :
  exists ret c', property_set_byte_array malloc0 id cache0 "BT_MAC" [0x12; 0x34] = Some (ret, c') /\
    (ret = - EACCES -> property_get_byte_array c' "BT_MAC" [0; 0] [0; 0] = (0, [0; 0])).
Proof.
  apply (property_byte_array_lost malloc0 id names0 names_map malloc0_ok cache0);
    [exact cache0_wf | apply names0_isolated; left; reflexivity | intros v; exact I | discriminate | simpl; lia
    | repeat constructor; lia].
Defined.
