(* ===== verification/NvramConfig.v ===== *)
(** * The configuration store (zephyr/drivers/nvram/nvram_config.c)

    Configuration values live in three flash regions (user, factory rw,
    factory).  A region is an array of segments; one segment is current and
    holds a log of items, each a header, a name and its data, aligned to 16
    bytes.  Writing a value appends an item and marks the item it replaces as
    obsolete; when the segment is full the valid items are copied to the next
    segment.  The user region also keeps a bitmap of the valid items, to search
    faster.

    The flash is NOR memory: a write can only clear bits and an erase sets
    them.  Regions are in disjoint partitions, so every region has its own
    memory, addressed relative to the partition's start; that accesses stay
    inside it is what the bounds checks of [region_read], [region_write] and
    [region_erase] are for.  Flash errors other than these checks are not
    modelled, and neither is the semaphore, which makes each call atomic.

    [None] is the use of a buffer whose read failed, an access outside the
    128-byte [nvram_buf] or the item bitmap, or missing fuel. *)

From stdpp Require Import base numbers list strings.
From S2P Require Import Prelude.
Open Scope Z_scope.

Definition NVRAM_REGION_SEG_VERSION : Z := 1.
Definition NVRAM_MAX_NAME_SIZE : Z := 112.
Definition NVRAM_MAX_DATA_SIZE : Z := 512.
Definition NVRAM_ITEM_ALIGN_SIZE : Z := 0x10.
Definition NVRAM_ERASE_ALIGN_SIZE : Z := 0x1000.
Definition NVRAM_BUFFER_SIZE : Z := 128.

Inductive item_status : Type :=
  | ITEM_STATUS_EMPTY | ITEM_STATUS_VALID | ITEM_STATUS_OBSOLETE | ITEM_STATUS_INVALID.

#[export] Instance item_status_eq_dec : EqDecision item_status.
Proof. solve_decision. Defined.

Definition NVRAM_REGION_SEG_MAGIC : Z := 0x5253564E.
Definition NVRAM_REGION_ITEM_MAGIC : Z := 0x49.
Definition NVRAM_REGION_SEG_HEADER_CRC_OFFSET : nat := 6.
Definition NVRAM_REGION_ITEM_CRC_OFFSET : nat := 3.
Definition NVRAM_REGION_SEG_STATE_VALID : Z := 0xff.
Definition NVRAM_REGION_SEG_STATE_OBSOLETE : Z := 0x5a.
Definition NVRAM_ITEM_STATE_VALID : Z := 0xff.
Definition NVRAM_ITEM_STATE_OBSOLETE : Z := 0x5a.
Definition NVRAM_SEG_ITEM_START_OFFSET : Z := 16.

(** ** Structures and their bytes *)

Definition le16 (x : Z) : list Z := [u8 x; u8 (Z.shiftr x 8)].
Definition le32 (x : Z) : list Z :=
  [u8 x; u8 (Z.shiftr x 8); u8 (Z.shiftr x 16); u8 (Z.shiftr x 24)].
Definition of_le (l : list Z) : Z := foldr (fun b acc => b + 256 * acc) 0 l.

Record region_seg_header : Type := mk_seg_header {
  sh_magic : Z; sh_state : Z; sh_crc : Z; sh_version : Z; sh_reserved : Z;
  sh_seq_id : Z; sh_head_size : Z; sh_seg_size : Z; sh_reserved2 : list Z
}.

Definition seg_header_bytes (h : region_seg_header) : list Z :=
  le32 (sh_magic h) ++ [sh_state h; sh_crc h; sh_version h; sh_reserved h; sh_seq_id h;
    sh_head_size h] ++ le16 (sh_seg_size h) ++ sh_reserved2 h.

Definition seg_header_of (l : list Z) : region_seg_header :=
  mk_seg_header (of_le (take 4 l)) (nth 4 l 0) (nth 5 l 0) (nth 6 l 0) (nth 7 l 0)
    (nth 8 l 0) (nth 9 l 0) (of_le (take 2 (drop 10 l))) (take 4 (drop 12 l)).

Definition SEG_HEADER_SIZE : Z := 16.

Record nvram_item : Type := mk_nvram_item {
  it_magic : Z; it_state : Z; it_crc : Z; it_hash : Z; it_reserved : Z;
  it_name_size : Z; it_data_size : Z
}.

Definition item_bytes (i : nvram_item) : list Z :=
  [it_magic i; it_state i; it_crc i; it_hash i; it_reserved i; it_name_size i]
  ++ le16 (it_data_size i).

Definition item_of (l : list Z) : nvram_item :=
  mk_nvram_item (nth 0 l 0) (nth 1 l 0) (nth 2 l 0) (nth 3 l 0) (nth 4 l 0) (nth 5 l 0)
    (of_le (take 2 (drop 6 l))).

Definition ITEM_SIZE : Z := 8.

Record region_info : Type := mk_region {
  storage : bool;                 (* the device pointer is not NULL *)
  flash : mem;
  total_size : Z;
  seg_size : Z;
  seg_offset : Z;
  seg_write_offset : Z;
  seg_seq_id : Z;
  seg_item_map : option (list Z)  (* NULL, or words of 32 bits *)
}.

Definition set_flash (r : region_info) (m : mem) : region_info :=
  mk_region (storage r) m (total_size r) (seg_size r) (seg_offset r) (seg_write_offset r)
    (seg_seq_id r) (seg_item_map r).
Definition set_seg (r : region_info) (off woff seq : Z) : region_info :=
  mk_region (storage r) (flash r) (total_size r) (seg_size r) off woff seq (seg_item_map r).
Definition set_write_offset (r : region_info) (woff : Z) : region_info :=
  set_seg r (seg_offset r) woff (seg_seq_id r).
Definition set_item_map (r : region_info) (m : option (list Z)) : region_info :=
  mk_region (storage r) (flash r) (total_size r) (seg_size r) (seg_offset r) (seg_write_offset r)
    (seg_seq_id r) m.

(** The bytes of a C string with its terminator. *)
Definition cstr (s : string) : list Z :=
  (fun a => Z.of_N (Ascii.N_of_ascii a)) <$> String.list_ascii_of_string s ++ [Ascii.zero].

(** ** Checksums *)

Definition calc_hash (key : list Z) : Z :=
  Z.lxor (fold_left (fun h b => u8 (h + b)) key 0) 0xa5.

Definition crc8_table : list Z :=
  [0x00; 0x5E; 0xBC; 0xE2; 0x61; 0x3F; 0xDD; 0x83;
   0xC2; 0x9C; 0x7E; 0x20; 0xA3; 0xFD; 0x1F; 0x41;
   0x00; 0x9D; 0x23; 0xBE; 0x46; 0xDB; 0x65; 0xF8;
   0x8C; 0x11; 0xAF; 0x32; 0xCA; 0x57; 0xE9; 0x74].

Definition crc8_step (crc b : Z) : Z :=
  let crc := Z.lxor b crc in
  Z.lxor (nth (Z.to_nat (Z.land crc 0x0f)) crc8_table 0)
         (nth (Z.to_nat (16 + Z.land (Z.shiftr crc 4) 0x0f)) crc8_table 0).

Definition calc_crc8 (l : list Z) (initial_crc : Z) : Z := fold_left crc8_step l initial_crc.

(** ** The storage device (nvram_storage.c) *)

Definition flash_write (m : mem) (addr : Z) (buf : list Z) : mem :=
  fun x => if (addr <=? x) && (x <? addr + Z.of_nat (length buf))
           then Z.land (m x) (nth (Z.to_nat (x - addr)) buf 0) else m x.

Definition flash_erase (m : mem) (addr size : Z) : mem := memset m addr 0xff size.

Definition NVRAM_STORAGE_READ_SEGMENT_SIZE : Z := 256.
Definition NVRAM_STORAGE_WRITE_SEGMENT_SIZE : Z := 32.

(** The chunked loops; every round moves at least one byte. *)
Fixpoint storage_write_loop (fuel : nat) (m : mem) (addr : Z) (buf : list Z) : mem :=
  match fuel with
  | O => m
  | S fuel =>
      if Z.of_nat (length buf) >? 0 then
        let wlen := if Z.of_nat (length buf) <? NVRAM_STORAGE_WRITE_SEGMENT_SIZE
                    then Z.of_nat (length buf) else NVRAM_STORAGE_WRITE_SEGMENT_SIZE in
        storage_write_loop fuel (flash_write m addr (take (Z.to_nat wlen) buf)) (addr + wlen)
          (drop (Z.to_nat wlen) buf)
      else m
  end.

Definition nvram_storage_write (m : mem) (addr : Z) (buf : list Z) : mem :=
  storage_write_loop (S (length buf)) m addr buf.

Fixpoint storage_read_loop (fuel : nat) (m : mem) (addr size : Z) : list Z :=
  match fuel with
  | O => []
  | S fuel =>
      if size >? 0 then
        let rlen := if size <? NVRAM_STORAGE_READ_SEGMENT_SIZE
                    then size else NVRAM_STORAGE_READ_SEGMENT_SIZE in
        load m addr rlen ++ storage_read_loop fuel m (addr + rlen) (size - rlen)
      else []
  end.

Definition nvram_storage_read (m : mem) (addr size : Z) : list Z :=
  storage_read_loop (S (Z.to_nat size)) m addr size.

Definition nvram_storage_erase (m : mem) (addr size : Z) : mem := flash_erase m addr size.

(** ** Regions *)

(** The error code, or the bytes read. *)
Definition region_read (r : region_info) (offset len : Z) : Z + list Z :=
  if negb (storage r) || (u32 (offset + len) >? total_size r) then inl (- EINVAL)
  else inr (nvram_storage_read (flash r) offset len).

Definition region_write (r : region_info) (offset : Z) (buf : list Z) : Z * region_info :=
  if negb (storage r) || (u32 (offset + Z.of_nat (length buf)) >? total_size r) then (- EINVAL, r)
  else (0, set_flash r (nvram_storage_write (flash r) offset buf)).

(** A read whose error code the caller ignores. *)
Definition must_read (r : region_info) (offset len : Z) : option (list Z) :=
  match region_read r offset len with inl _ => None | inr l => Some l end.

(** Reading into [nvram_buf]. *)
Definition read_buf (r : region_info) (offset len : Z) : option (list Z) :=
  if len >? NVRAM_BUFFER_SIZE then None else must_read r offset len.

Fixpoint region_copy (fuel : nat) (r : region_info) (src_offset dest_offset len : Z)
    : Z * region_info :=
  match fuel with
  | O => (0, r)
  | S fuel =>
      if len >? 0 then
        let write_size := if len <? NVRAM_BUFFER_SIZE then len else NVRAM_BUFFER_SIZE in
        match region_read r src_offset write_size with
        | inl err => (err, r)
        | inr buf =>
            let (_, r) := region_write r dest_offset buf in
            region_copy fuel r (src_offset + write_size) (dest_offset + write_size)
              (len - write_size)
        end
      else (0, r)
  end.

Fixpoint region_is_empy (fuel : nat) (r : region_info) (offset size : Z) : bool :=
  match fuel with
  | O => true
  | S fuel =>
      if size >? 0 then
        let read_size := if size <? NVRAM_BUFFER_SIZE then size else NVRAM_BUFFER_SIZE in
        let buf := nvram_storage_read (flash r) offset read_size in
        if forallb (Z.eqb 0xff) (take (4 * Z.to_nat (read_size / 4)) buf)
        then region_is_empy fuel r (offset + read_size) (size - read_size)
        else false
      else true
  end.

(** Fuel that is enough for a chunked loop over [n] bytes. *)
Definition chunks (n : Z) : nat := S (Z.to_nat n).

Fixpoint erase_loop (fuel : nat) (r : region_info) (offset size : Z) : region_info :=
  match fuel with
  | O => r
  | S fuel =>
      if size >? 0 then
        let r := if region_is_empy (chunks NVRAM_ERASE_ALIGN_SIZE) r offset NVRAM_ERASE_ALIGN_SIZE
                 then r
                 else set_flash r (nvram_storage_erase (flash r) offset NVRAM_ERASE_ALIGN_SIZE) in
        erase_loop fuel r (offset + NVRAM_ERASE_ALIGN_SIZE) (size - NVRAM_ERASE_ALIGN_SIZE)
      else r
  end.

Definition region_erase (r : region_info) (offset size : Z) : Z * region_info :=
  if negb (storage r) || (u32 (offset + size) >? total_size r)
     || negb (Z.land offset (NVRAM_ERASE_ALIGN_SIZE - 1) =? 0)
     || negb (Z.land size (NVRAM_ERASE_ALIGN_SIZE - 1) =? 0) then (- EINVAL, r)
  else (0, erase_loop (S (Z.to_nat (size / NVRAM_ERASE_ALIGN_SIZE))) r offset size).

Definition ROUND_UP (x align : Z) : Z := Z.land (u32 (x + (align - 1))) (u32 (Z.lnot (align - 1))).

Definition region_clear (r : region_info) (clear_size : Z) : Z * region_info :=
  let clear_size := ROUND_UP clear_size (seg_size r) in
  let clear_size := if clear_size >? total_size r - seg_size r
                    then total_size r - seg_size r else clear_size in
  let offset := seg_offset r + seg_size r in
  let '(r, offset, clear_size) :=
    if offset + clear_size >? total_size r then
      let erase_size := total_size r - offset in
      (snd (region_erase r offset erase_size), 0, clear_size - erase_size)
    else (r, offset, clear_size) in
  (0, snd (region_erase r offset clear_size)).

(** ** The item bitmap *)

Definition find_lsb_set (op : Z) : Z :=
  match find (Z.testbit op) (seqZ 0 32) with Some i => i + 1 | None => 0 end.

Definition BITS_PER_LONG : Z := 32.

(** [*p]; [None] outside the array. *)
Definition word (addr : list Z) (p : Z) : option Z := addr !! Z.to_nat p.

(** The tail of both searches: full words, then the last partial one. *)
Fixpoint find_bit_words (fuel : nat) (addr : list Z) (p result size : Z) : option Z :=
  match fuel with
  | O => None
  | S fuel =>
      if negb (Z.land size (Z.lnot (BITS_PER_LONG - 1)) =? 0) then
        tmp ← word addr p;
        if negb (tmp =? 0) then Some (result + (find_lsb_set tmp - 1))
        else find_bit_words fuel addr (p + 1) (result + BITS_PER_LONG) (size - BITS_PER_LONG)
      else if size =? 0 then Some result
      else
        tmp ← word addr p;
        let tmp := Z.land tmp (Z.shiftr 0xffffffff (BITS_PER_LONG - size)) in
        if tmp =? 0 then Some (result + size) else Some (result + (find_lsb_set tmp - 1))
  end.

Definition find_first_bit (addr : list Z) (size : Z) : option Z :=
  find_bit_words (S (Z.to_nat size)) addr 0 0 size.

Definition find_next_bit (addr : list Z) (size offset : Z) : option Z :=
  let p := offset / BITS_PER_LONG in
  let result := Z.land offset (Z.lnot (BITS_PER_LONG - 1)) in
  if offset >=? size then Some size
  else
    let size := size - result in
    let offset := offset mod BITS_PER_LONG in
    if negb (offset =? 0) then
      tmp ← word addr p;
      let tmp := Z.land tmp (u32 (Z.shiftl 0xffffffff offset)) in
      if size <? BITS_PER_LONG then
        let tmp := Z.land tmp (Z.shiftr 0xffffffff (BITS_PER_LONG - size)) in
        if tmp =? 0 then Some (result + size) else Some (result + (find_lsb_set tmp - 1))
      else if negb (tmp =? 0) then Some (result + (find_lsb_set tmp - 1))
      else find_bit_words (S (Z.to_nat size)) addr (p + 1) (result + BITS_PER_LONG)
             (size - BITS_PER_LONG)
    else find_bit_words (S (Z.to_nat size)) addr p result size.

Definition ITEM_BITMAP_BIT_TO_OFFSET (bit : Z) : Z := bit * NVRAM_ITEM_ALIGN_SIZE.
Definition ITEM_BITMAP_OFFSET_TO_BIT (offset : Z) : Z := offset / NVRAM_ITEM_ALIGN_SIZE.

Definition item_bitmap_first_offset (m : option (list Z)) (seg_size : Z) : option Z :=
  match m with
  | None => Some NVRAM_SEG_ITEM_START_OFFSET
  | Some m =>
      bit ← find_first_bit m (ITEM_BITMAP_OFFSET_TO_BIT seg_size);
      Some (ITEM_BITMAP_BIT_TO_OFFSET bit)
  end.

Definition item_bitmap_next_offset (m : option (list Z)) (seg_size offset : Z) : option Z :=
  match m with
  | None => Some offset
  | Some m =>
      bit ← find_next_bit m (ITEM_BITMAP_OFFSET_TO_BIT seg_size) (ITEM_BITMAP_OFFSET_TO_BIT offset);
      Some (ITEM_BITMAP_BIT_TO_OFFSET bit)
  end.

Definition item_bitmap_update (m : option (list Z)) (offset : Z) (is_set : bool)
    : option (option (list Z)) :=
  match m with
  | None => Some None
  | Some m =>
      let bit := ITEM_BITMAP_OFFSET_TO_BIT offset in
      let w := bit / 32 in
      let b := bit mod 32 in
      x ← word m w;
      Some (Some (<[Z.to_nat w := if is_set then Z.lor x (Z.shiftl 1 b)
                                  else Z.land x (u32 (Z.lnot (Z.shiftl 1 b)))]> m))
  end.

Definition item_bitmap_clear_all (m : option (list Z)) : option (list Z) :=
  (fun m => replicate (length m) 0) <$> m.

Definition update_map (r : region_info) (offset : Z) (is_set : bool) : option region_info :=
  m ← item_bitmap_update (seg_item_map r) offset is_set; Some (set_item_map r m).

(** ** Items *)

Definition item_is_empty (item : nvram_item) : bool := forallb (Z.eqb 0xff) (item_bytes item).

Definition item_calc_real_size (name_size data_size : Z) : Z := ITEM_SIZE + name_size + data_size.
Definition item_calc_aligned_size (name_size data_size : Z) : Z :=
  ROUND_UP (item_calc_real_size name_size data_size) NVRAM_ITEM_ALIGN_SIZE.
Definition item_get_real_size (item : nvram_item) : Z :=
  item_calc_real_size (it_name_size item) (it_data_size item).
Definition item_get_aligned_size (item : nvram_item) : Z :=
  item_calc_aligned_size (it_name_size item) (it_data_size item).

(** The state byte is the second one of the item. *)
Definition item_update_state (r : region_info) (item_offset state : Z) : region_info :=
  snd (region_write r (item_offset + 1) [state]).

Fixpoint item_calc_data_crc (fuel : nat) (r : region_info) (offset size crc : Z) : option Z :=
  match fuel with
  | O => None
  | S fuel =>
      if size >? 0 then
        let read_size := if size <? NVRAM_BUFFER_SIZE then size else NVRAM_BUFFER_SIZE in
        buf ← read_buf r offset read_size;
        item_calc_data_crc fuel r (offset + read_size) (size - read_size) (calc_crc8 buf crc)
      else Some crc
  end.

(** The status, and the region: an item with a wrong checksum is marked. *)
Definition item_check_validity (r : region_info) (item_offs : Z) (item : nvram_item)
    (check_crc : bool) : option (item_status * region_info) :=
  if negb (it_magic item =? NVRAM_REGION_ITEM_MAGIC) then
    Some (if item_is_empty item then ITEM_STATUS_EMPTY else ITEM_STATUS_INVALID, r)
  else if negb (it_state item =? NVRAM_ITEM_STATE_VALID) then
    Some (if it_state item =? NVRAM_ITEM_STATE_OBSOLETE then ITEM_STATUS_OBSOLETE
          else ITEM_STATUS_INVALID, r)
  else
    let name_offset := item_offs + ITEM_SIZE in
    nm ← read_buf r name_offset (it_name_size item);
    if negb (it_hash item =? calc_hash nm) then Some (ITEM_STATUS_INVALID, r)
    else if check_crc then
      let crc := calc_crc8 (drop NVRAM_REGION_ITEM_CRC_OFFSET (item_bytes item)) 0 in
      let crc := calc_crc8 nm crc in
      crc ← item_calc_data_crc (chunks (it_data_size item)) r (name_offset + it_name_size item)
              (it_data_size item) crc;
      if negb (it_crc item =? crc) then
        Some (ITEM_STATUS_INVALID,
              item_update_state r (item_offs - seg_offset r) NVRAM_ITEM_STATE_OBSOLETE)
      else Some (ITEM_STATUS_VALID, r)
    else Some (ITEM_STATUS_VALID, r).

(** Every item is at least 16 bytes long. *)
Definition seg_rounds (r : region_info) : nat := S (Z.to_nat (seg_size r / NVRAM_ITEM_ALIGN_SIZE)).

(** The offset of the item in the region and its header, or -ENOENT. *)
Fixpoint find_item_loop (fuel : nat) (r : region_info) (name : list Z) (hash offs : Z)
    : option (Z * nvram_item) :=
  match fuel with
  | O => None
  | S fuel =>
      if offs <? seg_size r then
        let item_offs := seg_offset r + offs in
        hdr ← must_read r item_offs ITEM_SIZE;
        let item := item_of hdr in
        if negb (it_magic item =? NVRAM_REGION_ITEM_MAGIC) then Some (- ENOENT, item)
        else
          found ← (if (it_state item =? NVRAM_ITEM_STATE_VALID) && (it_hash item =? hash) then
                     nm ← read_buf r (item_offs + ITEM_SIZE) (it_name_size item);
                     Some (bool_decide (take (length nm) name = nm))
                   else Some false);
          if (found : bool) then Some (item_offs, item)
          else
            offs ← item_bitmap_next_offset (seg_item_map r) (seg_size r)
                     (offs + item_get_aligned_size item);
            find_item_loop fuel r name hash offs
      else Some (- ENOENT, item_of [])
  end.

Definition region_find_item (r : region_info) (name : string) : option (Z * nvram_item) :=
  offs ← item_bitmap_first_offset (seg_item_map r) (seg_size r);
  find_item_loop (seg_rounds r) r (cstr name) (calc_hash (cstr name)) offs.

(** The state byte is the fifth one of the header. *)
Definition region_seg_update_state (r : region_info) (seg_off state : Z) : region_info :=
  snd (region_write r (seg_off + 4) [state]).

Fixpoint region_write_data (fuel : nat) (r : region_info) (offset : Z) (data : list Z)
    : region_info :=
  match fuel with
  | O => r
  | S fuel =>
      if Z.of_nat (length data) >? 0 then
        let wsize := if Z.of_nat (length data) <? NVRAM_BUFFER_SIZE
                     then Z.of_nat (length data) else NVRAM_BUFFER_SIZE in
        region_write_data fuel (snd (region_write r offset (take (Z.to_nat wsize) data)))
          (offset + wsize) (drop (Z.to_nat wsize) data)
      else r
  end.

Definition new_item (name data : list Z) : nvram_item :=
  let name_size := u8 (Z.of_nat (length name)) in
  let data_size := u16 (Z.of_nat (length data)) in
  let item := mk_nvram_item NVRAM_REGION_ITEM_MAGIC NVRAM_ITEM_STATE_VALID 0
                (calc_hash (take (Z.to_nat name_size) name)) 0 name_size data_size in
  let crc := calc_crc8 (drop NVRAM_REGION_ITEM_CRC_OFFSET (item_bytes item)) 0 in
  let crc := calc_crc8 (take (Z.to_nat name_size) name) crc in
  let crc := calc_crc8 (take (Z.to_nat data_size) data) crc in
  mk_nvram_item (it_magic item) (it_state item) crc (it_hash item) 0 name_size data_size.

Definition region_write_item (r : region_info) (offset : Z) (name : string) (data : list Z)
    : Z * region_info :=
  let item := new_item (cstr name) data in
  let item_data_offs := ITEM_SIZE + it_name_size item in
  let item_size := item_data_offs + it_data_size item in
  if item_data_offs >? NVRAM_BUFFER_SIZE then (- EINVAL, r)
  else
    let (_, r) := region_write r offset
                    (item_bytes item ++ take (Z.to_nat (it_name_size item)) (cstr name)) in
    (item_size, region_write_data (S (length data)) r (offset + item_data_offs) data).

(** ** Segments *)

Fixpoint copy_seg_loop (fuel : nat) (r : region_info) (new_seg_offset item_offs new_item_offs end_ : Z)
    (check_crc : bool) : option (Z * region_info) :=
  match fuel with
  | O => None
  | S fuel =>
      if item_offs <? end_ then
        hdr ← must_read r item_offs ITEM_SIZE;
        let item := item_of hdr in
        '(status, r) ← item_check_validity r item_offs item check_crc;
        match status with
        | ITEM_STATUS_INVALID | ITEM_STATUS_EMPTY => Some (new_item_offs, r)
        | ITEM_STATUS_VALID =>
            let r := snd (region_copy (chunks (item_get_real_size item)) r item_offs new_item_offs
                            (item_get_real_size item)) in
            r ← update_map r (new_item_offs - new_seg_offset) true;
            copy_seg_loop fuel r new_seg_offset (item_offs + item_get_aligned_size item)
              (new_item_offs + item_get_aligned_size item) end_ check_crc
        | ITEM_STATUS_OBSOLETE =>
            copy_seg_loop fuel r new_seg_offset (item_offs + item_get_aligned_size item)
              new_item_offs end_ check_crc
        end
      else Some (new_item_offs, r)
  end.

Definition region_copy_seg (r : region_info) (new_seg_offset old_seg_offset copy_size : Z)
    (check_crc : bool) : option region_info :=
  let r := set_item_map r (item_bitmap_clear_all (seg_item_map r)) in
  '(new_item_offs, r) ← copy_seg_loop (seg_rounds r) r new_seg_offset
     (old_seg_offset + NVRAM_SEG_ITEM_START_OFFSET) (new_seg_offset + NVRAM_SEG_ITEM_START_OFFSET)
     (old_seg_offset + copy_size) check_crc;
  Some (set_write_offset r new_item_offs).

Definition new_seg_header (seg_size seq_id : Z) : region_seg_header :=
  let h := mk_seg_header NVRAM_REGION_SEG_MAGIC NVRAM_REGION_SEG_STATE_VALID 0
             NVRAM_REGION_SEG_VERSION 0 (u8 (seq_id + 1)) SEG_HEADER_SIZE (u16 seg_size)
             [0; 0; 0; 0] in
  let crc := calc_crc8 (drop NVRAM_REGION_SEG_HEADER_CRC_OFFSET (seg_header_bytes h)) 0 in
  mk_seg_header (sh_magic h) (sh_state h) crc (sh_version h) 0 (sh_seq_id h) (sh_head_size h)
    (sh_seg_size h) [0; 0; 0; 0].

Definition region_init_new_seg (r : region_info) (seg_off : Z) : region_info :=
  let h := new_seg_header (seg_size r) (seg_seq_id r) in
  let r := snd (region_erase r seg_off (seg_size r)) in
  let r := snd (region_write r seg_off (seg_header_bytes h)) in
  let r := set_seg r seg_off (seg_off + NVRAM_SEG_ITEM_START_OFFSET) (sh_seq_id h) in
  set_item_map r (item_bitmap_clear_all (seg_item_map r)).

(** Where the next segment goes, with its flash erased. *)
Definition purge_target (r : region_info) : Z :=
  let new_seg_offset := seg_offset r + seg_size r in
  if new_seg_offset >=? total_size r then 0 else new_seg_offset.

(** The first half of a purge: the new segment is erased and initialised. *)
Definition purge_start (r : region_info) : region_info :=
  let new_seg_offset := purge_target r in
  let r := if region_is_empy (chunks (seg_size r)) r new_seg_offset (seg_size r) then r
           else snd (region_erase r new_seg_offset (seg_size r)) in
  region_init_new_seg r new_seg_offset.

Definition region_purge_seg (r : region_info) (check_crc : bool) : option region_info :=
  let new_seg_offset := purge_target r in
  let old_seg_offset := seg_offset r in
  let seg_copy_size := seg_write_offset r - seg_offset r in
  let r := purge_start r in
  r ← region_copy_seg r new_seg_offset old_seg_offset seg_copy_size check_crc;
  Some (region_seg_update_state r old_seg_offset NVRAM_REGION_SEG_STATE_OBSOLETE).

Definition region_prepare_write_item (r : region_info) (item_size : Z) : option region_info :=
  if seg_write_offset r + item_size >? seg_offset r + seg_size r
  then region_purge_seg r false else Some r.

Fixpoint same_data_loop (fuel : nat) (r : region_info) (offset : Z) (data : list Z) : option bool :=
  match fuel with
  | O => None
  | S fuel =>
      if Z.of_nat (length data) >? 0 then
        let read_size := if Z.of_nat (length data) <? NVRAM_BUFFER_SIZE
                         then Z.of_nat (length data) else NVRAM_BUFFER_SIZE in
        buf ← read_buf r offset read_size;
        if bool_decide (buf = take (Z.to_nat read_size) data)
        then same_data_loop fuel r (offset + read_size) (drop (Z.to_nat read_size) data)
        else Some false
      else Some true
  end.

Definition region_is_same_config_data (r : region_info) (name : string) (data : list Z)
    : option bool :=
  '(old_item_offs, item) ← region_find_item r name;
  if (old_item_offs >? 0) && (Z.of_nat (length data) =? it_data_size item) then
    same_data_loop (S (length data)) r (old_item_offs + ITEM_SIZE + it_name_size item) data
  else Some false.

(** ** Reading and writing a value *)

(** Marking the item that was replaced. *)
Definition obsolete_old (r : region_info) (old_item_offs : Z) : option region_info :=
  if old_item_offs >? 0 then
    let r := item_update_state r old_item_offs NVRAM_ITEM_STATE_OBSOLETE in
    update_map r (old_item_offs - seg_offset r) false
  else Some r.

(** Appending the new item; the offset of the old one is found first. *)
Definition append_item (r : region_info) (name : string) (data : list Z)
    : option (Z * region_info) :=
  let new_item_size := item_calc_aligned_size (u8 (Z.of_nat (length (cstr name))))
                         (u16 (Z.of_nat (length data))) in
  r ← region_prepare_write_item r new_item_size;
  '(old_item_offs, _) ← region_find_item r name;
  let (_, r) := region_write_item r (seg_write_offset r) name data in
  r ← update_map r (seg_write_offset r - seg_offset r) true;
  Some (old_item_offs, set_write_offset r (seg_write_offset r + new_item_size)).

Definition region_set (r : region_info) (name : string) (data : list Z)
    : option (Z * region_info) :=
  if Z.of_nat (length data) >? NVRAM_MAX_DATA_SIZE then Some (- EINVAL, r)
  else if Z.of_nat (length (cstr name)) >? NVRAM_MAX_NAME_SIZE then Some (- EINVAL, r)
  else if Z.of_nat (length data) >? 0 then
    same ← region_is_same_config_data r name data;
    if (same : bool) then Some (0, r)
    else
      '(old_item_offs, r) ← append_item r name data;
      r ← obsolete_old r old_item_offs;
      Some (0, r)
  else
    '(old_item_offs, _) ← region_find_item r name;
    r ← obsolete_old r old_item_offs;
    Some (0, r).

Definition region_get (r : region_info) (name : string) (max_len : Z) : option (Z * list Z) :=
  if max_len =? 0 then Some (- EINVAL, [])
  else
    '(item_offs, item) ← region_find_item r name;
    if item_offs <? 0 then Some (- ENOENT, [])
    else
      let data_offs := item_offs + ITEM_SIZE + it_name_size item in
      let len := if max_len <? it_data_size item then max_len else it_data_size item in
      data ← must_read r data_offs len;
      Some (len, data).

(** ** Finding the log at start-up *)

Definition is_valid_region_seg_header (hdr : region_seg_header) : bool :=
  (sh_magic hdr =? NVRAM_REGION_SEG_MAGIC) && (sh_state hdr =? NVRAM_REGION_SEG_STATE_VALID)
  && (sh_crc hdr =? calc_crc8 (drop NVRAM_REGION_SEG_HEADER_CRC_OFFSET (seg_header_bytes hdr)) 0).

(** The loop of [region_seg_scan]: where it stops, whether it met an invalid
    item, and the region; or the error of a read. *)
Fixpoint seg_scan_loop (fuel : nat) (r : region_info) (offs : Z)
    : option (Z * region_info + Z * bool * region_info) :=
  match fuel with
  | O => None
  | S fuel =>
      if offs <? seg_size r then
        let item_offs := seg_offset r + offs in
        match region_read r item_offs ITEM_SIZE with
        | inl err => Some (inl (err, r))
        | inr hdr =>
            let item := item_of hdr in
            '(status, r) ← item_check_validity r item_offs item true;
            match status with
            | ITEM_STATUS_EMPTY => Some (inr (offs, false, r))
            | ITEM_STATUS_INVALID => Some (inr (offs, true, r))
            | ITEM_STATUS_VALID =>
                r ← update_map r offs true;
                seg_scan_loop fuel r (offs + item_get_aligned_size item)
            | ITEM_STATUS_OBSOLETE => seg_scan_loop fuel r (offs + item_get_aligned_size item)
            end
        end
      else Some (inr (offs, false, r))
  end.

Definition region_seg_scan (r : region_info) : option (Z * region_info) :=
  let r := set_item_map r (item_bitmap_clear_all (seg_item_map r)) in
  res ← seg_scan_loop (seg_rounds r) r NVRAM_SEG_ITEM_START_OFFSET;
  match res with
  | inl failed => Some failed
  | inr (offs, need_purge, r) =>
      let item_offs := seg_offset r + offs in
      let r := set_write_offset r item_offs in
      let need_purge :=
        need_purge || (if offs >=? seg_size r then true
                       else negb (region_is_empy (chunks (seg_size r - offs)) r item_offs
                                    (seg_size r - offs))) in
      if need_purge then r ← region_purge_seg r true; Some (0, r) else Some (0, r)
  end.

(** The newest segment with a valid header: the error of a read, or whether
    one was found. *)
Fixpoint scan_loop (fuel : nat) (r : region_info) (offs : Z) (found : bool)
    : option (Z * region_info + bool * region_info) :=
  match fuel with
  | O => None
  | S fuel =>
      if offs <? total_size r then
        match region_read r offs SEG_HEADER_SIZE with
        | inl err => Some (inl (err, r))
        | inr l =>
            let hdr := seg_header_of l in
            let take_it := is_valid_region_seg_header hdr
                           && (negb found || (s8 (sh_seq_id hdr - seg_seq_id r) >? 0)) in
            let r := if take_it then set_seg r offs (seg_write_offset r) (sh_seq_id hdr) else r in
            scan_loop fuel r (offs + seg_size r) (found || take_it)
        end
      else Some (inr (found, r))
  end.

Definition region_scan (r : region_info) : option (Z * region_info) :=
  res ← scan_loop (S (Z.to_nat (total_size r))) r 0 false;
  match res with
  | inl failed => Some failed
  | inr (found, r) =>
      if (found : bool) then
        '(err, r) ← region_seg_scan r;
        Some (if negb (err =? 0) then -1 else 0, r)
      else Some (0, region_init_new_seg r 0)
  end.

(** ** The interface *)

Record nvram_state : Type := mk_nvram {
  user_nvram_region : region_info;
  factory_rw_nvram_region : region_info;
  factory_nvram_region : region_info
}.

Definition nvram_config_set_factory (s : nvram_state) (name : string) (data : list Z)
    : option (Z * nvram_state) :=
  '(ret, r) ← region_set (factory_rw_nvram_region s) name data;
  Some (ret, mk_nvram (user_nvram_region s) r (factory_nvram_region s)).

Definition nvram_config_set (s : nvram_state) (name : string) (data : list Z)
    : option (Z * nvram_state) :=
  '(ret, r) ← region_set (user_nvram_region s) name data;
  Some (ret, mk_nvram r (factory_rw_nvram_region s) (factory_nvram_region s)).

Definition nvram_config_get_factory (s : nvram_state) (name : string) (max_len : Z)
    : option (Z * list Z) :=
  '(ret, data) ← region_get (factory_rw_nvram_region s) name max_len;
  if ret >=? 0 then Some (ret, data) else region_get (factory_nvram_region s) name max_len.

Definition nvram_config_get (s : nvram_state) (name : string) (max_len : Z)
    : option (Z * list Z) :=
  '(ret, data) ← region_get (user_nvram_region s) name max_len;
  if ret >=? 0 then Some (ret, data)
  else
    '(ret, data) ← region_get (factory_rw_nvram_region s) name max_len;
    if ret >=? 0 then Some (ret, data)
    else region_get (factory_nvram_region s) name max_len.

Definition nvram_config_clear (s : nvram_state) (len : Z) : Z * nvram_state :=
  let (ret, r) := region_clear (user_nvram_region s) len in
  (ret, mk_nvram r (factory_rw_nvram_region s) (factory_nvram_region s)).

Definition nvram_config_clear_all (s : nvram_state) : option (Z * nvram_state) :=
  let r := user_nvram_region s in
  let (_, r) := region_erase r 0 (total_size r) in
  '(_, r) ← region_scan r;
  Some (0, mk_nvram r (factory_rw_nvram_region s) (factory_nvram_region s)).

(** The partition entries found at boot, with the storage device bound. *)
Definition attach (r : region_info) (part_size : option Z) : region_info :=
  mk_region true (flash r) (default (total_size r) part_size) (seg_size r) (seg_offset r)
    (seg_write_offset r) (seg_seq_id r) (seg_item_map r).

Definition nvram_config_init (s : nvram_state) (user_part factory_rw_part factory_part : option Z)
    : option (Z * nvram_state) :=
  let fac := attach (factory_nvram_region s) factory_part in
  let user := attach (user_nvram_region s) user_part in
  let rw := attach (factory_rw_nvram_region s) factory_rw_part in
  '(_, rw) ← region_scan rw;
  '(_, fac) ← region_scan fac;
  '(_, user) ← region_scan user;
  let (_, user) := region_clear user (total_size user / 2) in
  Some (0, mk_nvram user rw fac).
