(* ===== verification/NvramLog.v ===== *)
(** * The log of a segment of the configuration store

    Lemmas about the storage device, the item bitmap and the items of
    NvramConfig.v, and the representation of a segment as a list of entries:
    [log_at] says that the flash holds the entries from an offset on, [map_ok]
    that the bitmap marks exactly the valid ones. *)

From stdpp Require Import base numbers list strings.
From S2P Require Import Prelude NvramConfig.
Open Scope Z_scope.

(** ** The storage device *)

Lemma storage_read_loop_load fuel : forall m addr size, 0 <= size < Z.of_nat fuel ->
  storage_read_loop fuel m addr size = load m addr size.
Proof.
  induction fuel as [|fuel IH]; intros m addr size Hs; [lia|].
  cbn [storage_read_loop]. rewrite Z.gtb_ltb. destruct (Z.ltb_spec 0 size).
  - unfold NVRAM_STORAGE_READ_SEGMENT_SIZE. destruct (Z.ltb_spec size 256).
    + rewrite IH, Z.sub_diag by lia. rewrite app_nil_r. reflexivity.
    + rewrite IH, <- load_app by lia. f_equal. lia.
  - replace size with 0 by lia. reflexivity.
Qed.

Lemma nvram_storage_read_load m addr size : 0 <= size ->
  nvram_storage_read m addr size = load m addr size.
Proof. intros Hs. apply storage_read_loop_load. lia. Qed.

Lemma flash_write_app m a l1 l2 x :
  flash_write (flash_write m a l1) (a + Z.of_nat (length l1)) l2 x = flash_write m a (l1 ++ l2) x.
Proof.
  unfold flash_write. rewrite length_app.
  destruct (Z.leb_spec (a + Z.of_nat (length l1)) x), (Z.leb_spec a x); simpl; try lia.
  - destruct (Z.ltb_spec x (a + Z.of_nat (length l1) + Z.of_nat (length l2))),
      (Z.ltb_spec x (a + Z.of_nat (length l1))), (Z.ltb_spec x (a + Z.of_nat (length l1 + length l2)));
      try lia. f_equal. rewrite app_nth2 by lia. f_equal. lia.
  - destruct (Z.ltb_spec x (a + Z.of_nat (length l1))),
      (Z.ltb_spec x (a + Z.of_nat (length l1 + length l2))); try lia.
    f_equal. rewrite app_nth1 by lia. reflexivity.
Qed.

Lemma flash_write_outside m a l x :
  x < a \/ a + Z.of_nat (length l) <= x -> flash_write m a l x = m x.
Proof.
  intros H. unfold flash_write.
  destruct (Z.leb_spec a x), (Z.ltb_spec x (a + Z.of_nat (length l))); simpl; try reflexivity; lia.
Qed.

Lemma flash_write_proper m m' a l x : m x = m' x -> flash_write m a l x = flash_write m' a l x.
Proof. intros H. unfold flash_write. rewrite H. reflexivity. Qed.

Lemma storage_write_loop_flash fuel : forall m addr buf x, (length buf < fuel)%nat ->
  storage_write_loop fuel m addr buf x = flash_write m addr buf x.
Proof.
  induction fuel as [|fuel IH]; intros m addr buf x Hf; [lia|].
  cbn [storage_write_loop]. rewrite Z.gtb_ltb.
  destruct (Z.ltb_spec 0 (Z.of_nat (length buf))).
  - set (w := if _ <? _ then _ else _).
    assert (Hw : 0 < w <= Z.of_nat (length buf)).
    { subst w. unfold NVRAM_STORAGE_WRITE_SEGMENT_SIZE. reflect_bools; lia. }
    rewrite IH by (rewrite length_drop; lia).
    rewrite <- (take_drop (Z.to_nat w) buf) at 3. rewrite <- flash_write_app.
    rewrite length_take. f_equal. lia.
  - destruct buf; [|simpl in *; lia]. symmetry. apply flash_write_outside. simpl. lia.
Qed.

Lemma nvram_storage_write_flash m addr buf x :
  nvram_storage_write m addr buf x = flash_write m addr buf x.
Proof. apply storage_write_loop_flash. lia. Qed.

(** Flash that has not been written since it was erased. *)
Definition erased (m : mem) (a b : Z) : Prop := forall x, a <= x < b -> m x = 0xff.

Lemma byte_land_ff b : 0 <= b < 256 -> Z.land 0xff b = b.
Proof.
  intros Hb. rewrite Z.land_comm. change 0xff with (Z.ones 8). rewrite Z.land_ones by lia.
  apply Z.mod_small. exact Hb.
Qed.

Lemma load_flash_write m a l : erased m a (a + Z.of_nat (length l)) ->
  Forall (fun b => 0 <= b < 256) l -> load (flash_write m a l) a (Z.of_nat (length l)) = l.
Proof.
  intros He Hb. apply list_eq. intros i.
  destruct (decide (i < length l)%nat) as [Hi|Hi].
  - rewrite load_lookup by lia. unfold flash_write.
    rewrite (proj2 (Z.leb_le _ _)), (proj2 (Z.ltb_lt _ _)) by lia. simpl.
    destruct (lookup_lt_is_Some_2 l i Hi) as [v Hv]. rewrite Hv, He by lia. f_equal.
    replace (Z.to_nat (a + Z.of_nat i - a)) with i by lia.
    apply nth_lookup_Some with (d := 0) in Hv as Hn. rewrite Hn. apply byte_land_ff.
    exact (Forall_lookup_1 _ _ _ _ Hb Hv).
  - rewrite !lookup_ge_None_2; [reflexivity | lia | rewrite load_length; lia].
Qed.

(** ** Reads and writes inside the region *)

Definition in_region (r : region_info) (a b : Z) : Prop :=
  storage r = true /\ 0 <= a /\ b <= total_size r /\ total_size r < 2 ^ 31.

Lemma region_read_ok r off len : in_region r off (off + len) -> 0 <= len ->
  region_read r off len = inr (load (flash r) off len).
Proof.
  intros (Hs & H0 & H1 & H2) Hl. unfold region_read. rewrite Hs, u32_small, Z.gtb_ltb by lia.
  destruct (Z.ltb_spec (total_size r) (off + len)); [lia|]. simpl.
  rewrite nvram_storage_read_load by exact Hl. reflexivity.
Qed.

Lemma must_read_ok r off len : in_region r off (off + len) -> 0 <= len ->
  must_read r off len = Some (load (flash r) off len).
Proof. intros H1 H2. unfold must_read. rewrite region_read_ok by assumption. reflexivity. Qed.

Lemma read_buf_ok r off len : in_region r off (off + len) -> 0 <= len <= 128 ->
  read_buf r off len = Some (load (flash r) off len).
Proof.
  intros H1 H2. unfold read_buf, NVRAM_BUFFER_SIZE. rewrite Z.gtb_ltb.
  destruct (Z.ltb_spec 128 len); [lia|]. apply must_read_ok; [exact H1 | lia].
Qed.

(** [r'] is [r] with another flash content. *)
Definition rewrites (r r' : region_info) (f : mem) : Prop :=
  exists m, r' = set_flash r m /\ forall x, m x = f x.

Lemma rewrites_trans r r1 r2 f g : rewrites r r1 f -> rewrites r1 r2 g -> rewrites r r2 g.
Proof. intros (m & -> & _) (m2 & -> & Hg). exists m2. split; [reflexivity | exact Hg]. Qed.

Lemma rewrites_ext r r' f g : rewrites r r' f -> (forall x, f x = g x) -> rewrites r r' g.
Proof. intros (m & -> & Hf) H. exists m. split; [reflexivity|]. intros x. rewrite Hf. apply H. Qed.

Lemma rewrites_refl r : rewrites r r (flash r).
Proof. exists (flash r). destruct r. split; reflexivity. Qed.

Lemma in_region_flash r m a b : in_region (set_flash r m) a b <-> in_region r a b.
Proof. reflexivity. Qed.

Lemma in_region_sub r a b c d : in_region r a b -> a <= c -> d <= b -> in_region r c d.
Proof. unfold in_region. intuition lia. Qed.

Lemma region_write_ok r off l : in_region r off (off + Z.of_nat (length l)) ->
  rewrites r (snd (region_write r off l)) (flash_write (flash r) off l).
Proof.
  intros (Hs & H0 & H1 & H2). unfold region_write. rewrite Hs, u32_small, Z.gtb_ltb by lia.
  destruct (Z.ltb_spec (total_size r) (off + Z.of_nat (length l))); [lia|]. simpl.
  eexists. split; [reflexivity|]. intros x. apply nvram_storage_write_flash.
Qed.

Lemma flash_write_nil m a x : flash_write m a [] x = m x.
Proof. apply flash_write_outside. simpl. lia. Qed.

Lemma region_write_data_ok fuel : forall r off l, (length l < fuel)%nat ->
  in_region r off (off + Z.of_nat (length l)) ->
  rewrites r (region_write_data fuel r off l) (flash_write (flash r) off l).
Proof.
  induction fuel as [|fuel IH]; intros r off l Hf Hin; [lia|]. cbn [region_write_data].
  rewrite Z.gtb_ltb. destruct (Z.ltb_spec 0 (Z.of_nat (length l))).
  - set (w := if _ <? _ then _ else _).
    assert (Hw : 0 < w <= Z.of_nat (length l)).
    { subst w. unfold NVRAM_BUFFER_SIZE. reflect_bools; lia. }
    assert (Htk : Z.of_nat (length (take (Z.to_nat w) l)) = w) by (rewrite length_take; lia).
    assert (Hdr : Z.of_nat (length (drop (Z.to_nat w) l)) = Z.of_nat (length l) - w)
      by (rewrite length_drop; lia).
    destruct (region_write_ok r off (take (Z.to_nat w) l)) as (m & -> & Hm).
    { rewrite Htk. eapply in_region_sub; [exact Hin | lia | lia]. }
    eapply rewrites_ext; [eapply rewrites_trans; [exists m; split; [reflexivity|intros x; reflexivity]|]|].
    + apply IH; [lia|]. apply in_region_flash. rewrite Hdr. eapply in_region_sub; [exact Hin | lia | lia].
    + intros x. simpl. rewrite <- (take_drop (Z.to_nat w) l) at 2.
      rewrite <- flash_write_app, Htk. apply flash_write_proper. apply Hm.
  - destruct l; [|simpl in *; lia].
    eapply rewrites_ext; [apply rewrites_refl|]. intros x. symmetry. apply flash_write_nil.
Qed.

Lemma region_is_empy_ok fuel : forall r off size,
  0 <= size < Z.of_nat fuel -> (4 | size) ->
  region_is_empy fuel r off size = true <-> erased (flash r) off (off + size).
Proof.
  induction fuel as [|fuel IH]; intros r off size Hf Hd; [lia|]. cbn [region_is_empy].
  rewrite Z.gtb_ltb. destruct (Z.ltb_spec 0 size).
  - set (w := if _ <? _ then _ else _).
    assert (Hw : 0 < w <= size) by (subst w; unfold NVRAM_BUFFER_SIZE; reflect_bools; lia).
    assert (Hw4 : (4 | w)).
    { subst w. unfold NVRAM_BUFFER_SIZE. destruct (_ <? _); [exact Hd | exists 32; reflexivity]. }
    assert (Hall : (4 * Z.to_nat (w / 4))%nat = Z.to_nat w).
    { destruct Hw4 as [q ->]. rewrite Z.div_mul by lia. lia. }
    rewrite nvram_storage_read_load, Hall, take_ge by (try rewrite load_length; lia).
    destruct (forallb (Z.eqb 255) (load (flash r) off w)) eqn:E.
    + rewrite IH; [|lia|]; [|apply Z.divide_sub_r; assumption].
      assert (Hlo : erased (flash r) off (off + w)).
      { intros x Hx. rewrite forallb_forall in E. symmetry. apply Z.eqb_eq, E.
        apply list_elem_of_In, list_elem_of_fmap. exists (x - off). split; [f_equal; lia|].
        apply elem_of_seqZ. lia. }
      split; intros He x Hx.
      * destruct (decide (x < off + w)); [apply Hlo; lia | apply He; lia].
      * apply He. lia.
    + split; [discriminate|]. intros He. rewrite <- E.
      apply forallb_forall. intros x Hx%list_elem_of_In%list_elem_of_fmap.
      destruct Hx as (i & -> & Hi%elem_of_seqZ). apply Z.eqb_eq. symmetry. apply He. lia.
  - split; [|reflexivity]. intros _ x Hx. lia.
Qed.

(** Erasing whole sectors. *)
Definition erased_mem (m : mem) (a b : Z) : mem :=
  fun x => if (a <=? x) && (x <? b) then 0xff else m x.

Lemma erase_loop_ok fuel : forall r off n, Z.of_nat n < Z.of_nat fuel ->
  rewrites r (erase_loop fuel r off (Z.of_nat n * 0x1000))
    (erased_mem (flash r) off (off + Z.of_nat n * 0x1000)).
Proof.
  induction fuel as [|fuel IH]; intros r off n Hf; [lia|]. cbn [erase_loop].
  rewrite Z.gtb_ltb. destruct (Z.ltb_spec 0 (Z.of_nat n * 0x1000)) as [Hpos|Hz].
  - destruct n as [|n]; [lia|]. unfold NVRAM_ERASE_ALIGN_SIZE.
    replace (Z.of_nat (S n) * 0x1000 - 0x1000) with (Z.of_nat n * 0x1000) by lia.
    set (r1 := if region_is_empy _ _ _ _ then _ else _).
    assert (H1 : rewrites r r1 (erased_mem (flash r) off (off + 0x1000))).
    { subst r1. destruct (region_is_empy _ r off 0x1000) eqn:E.
      - eapply rewrites_ext; [apply rewrites_refl|]. intros x. unfold erased_mem.
        apply region_is_empy_ok in E; [|unfold chunks; lia | exists 1024; reflexivity].
        destruct (Z.leb_spec off x), (Z.ltb_spec x (off + 0x1000)); simpl; try reflexivity.
        apply E. lia.
      - eexists. split; [reflexivity|]. intros x. reflexivity. }
    eapply rewrites_ext; [eapply rewrites_trans; [exact H1 | apply IH; lia]|].
    intros x. destruct H1 as (m & -> & Hm). simpl. unfold erased_mem in *. rewrite Hm.
    reflect_bools; simpl; try reflexivity; lia.
  - eapply rewrites_ext; [apply rewrites_refl|]. intros x. unfold erased_mem.
    reflect_bools; simpl; try reflexivity; lia.
Qed.

Lemma region_erase_ok r i n : storage r = true -> 0 <= i -> 0 <= n ->
  (i + n) * 0x1000 <= total_size r -> total_size r < 2 ^ 31 ->
  rewrites r (snd (region_erase r (i * 0x1000) (n * 0x1000)))
    (erased_mem (flash r) (i * 0x1000) ((i + n) * 0x1000)).
Proof.
  intros Hs Hi Hn Ht Hb. unfold region_erase. rewrite Hs, u32_small, Z.gtb_ltb by lia.
  destruct (Z.ltb_spec (total_size r) (i * 0x1000 + n * 0x1000)); [lia|].
  assert (Hal : forall k, Z.land (k * 0x1000) (NVRAM_ERASE_ALIGN_SIZE - 1) = 0).
  { intros k. change (NVRAM_ERASE_ALIGN_SIZE - 1) with (Z.ones 12). rewrite Z.land_ones by lia.
    change (2 ^ 12) with 0x1000. apply Z.mod_mul. lia. }
  rewrite !Hal. simpl negb. cbn [orb snd]. unfold NVRAM_ERASE_ALIGN_SIZE. rewrite Z.div_mul by lia.
  replace (n * 0x1000) with (Z.of_nat (Z.to_nat n) * 0x1000) at 1 by lia.
  eapply rewrites_ext; [apply erase_loop_ok; lia|]. intros x.
  replace (i * 0x1000 + Z.of_nat (Z.to_nat n) * 0x1000) with ((i + n) * 0x1000) by lia. reflexivity.
Qed.

(** ** The item bitmap *)

Definition mbit (m : list Z) (b : Z) : bool :=
  Z.testbit (nth (Z.to_nat (b / 32)) m 0) (b mod 32).

Definition words_ok (m : list Z) : Prop := Forall (fun w => 0 <= w < 2 ^ 32) m.

(** [b] is the first set bit from [lo] on, or [hi] when there is none below it. *)
Definition first_bit (m : list Z) (lo hi b : Z) : Prop :=
  lo <= b <= hi /\ (forall j, lo <= j < b -> mbit m j = false) /\ (b < hi -> mbit m b = true).

Lemma find_seqZ_first (P : Z -> bool) n : forall a,
  match find P (seqZ a (Z.of_nat n)) with
  | Some i => a <= i < a + Z.of_nat n /\ P i = true /\ forall j, a <= j < i -> P j = false
  | None => forall j, a <= j < a + Z.of_nat n -> P j = false
  end.
Proof.
  induction n as [|n IH]; intros a; [simpl; intros j Hj; lia|].
  rewrite seqZ_cons by lia. cbn [find]. destruct (P a) eqn:E.
  - split; [lia|]. split; [exact E|]. intros j Hj. lia.
  - replace (Z.pred (Z.of_nat (S n))) with (Z.of_nat n) by lia. specialize (IH (Z.succ a)).
    assert (Hstep : forall j, a <= j -> (Z.succ a <= j -> P j = false) -> P j = false).
    { intros j Hj H. destruct (decide (j = a)) as [->|]; [exact E | apply H; lia]. }
    destruct (find P _) as [i|].
    + destruct IH as (H1 & H2 & H3). split; [lia|]. split; [exact H2|].
      intros j Hj. apply Hstep; [lia|]. intros H. apply H3. lia.
    + intros j Hj. apply Hstep; [lia|]. intros H. apply IH. lia.
Qed.

Lemma find_lsb_set_ok x : 0 <= x < 2 ^ 32 -> x <> 0 ->
  exists i, 0 <= i < 32 /\ find_lsb_set x - 1 = i /\ Z.testbit x i = true /\
    forall j, 0 <= j < i -> Z.testbit x j = false.
Proof.
  intros Hx H0. unfold find_lsb_set. pose proof (find_seqZ_first (Z.testbit x) 32 0) as H.
  change (Z.of_nat 32) with 32 in H. destruct (find _ _) as [i|].
  - destruct H as (H1 & H2 & H3). exists i. split; [lia|]. split; [lia|]. split; assumption.
  - destruct H0. apply Z.bits_inj_0. intros j.
    destruct (decide (j < 0)); [apply Z.testbit_neg_r; lia|].
    destruct (decide (j < 32)); [apply H; lia|].
    apply Z.bits_above_log2; [lia|]. destruct (decide (x = 0)) as [->|]; [simpl; lia|].
    apply Z.log2_lt_pow2; [lia|]. eapply Z.lt_le_trans; [apply Hx|]. apply Z.pow_le_mono_r; lia.
Qed.

Lemma mbit_word m p j : 0 <= p -> 0 <= j < 32 ->
  mbit m (32 * p + j) = Z.testbit (nth (Z.to_nat p) m 0) j.
Proof.
  intros Hp Hj. unfold mbit. replace (32 * p + j) with (j + p * 32) by lia.
  rewrite Z.div_add, Z.mod_add, Z.div_small, Z.mod_small by lia. reflexivity.
Qed.

Lemma word_ok m p : words_ok m -> 0 <= p < Z.of_nat (length m) ->
  word m p = Some (nth (Z.to_nat p) m 0) /\ 0 <= nth (Z.to_nat p) m 0 < 2 ^ 32.
Proof.
  intros Hm Hp. unfold word. destruct (lookup_lt_is_Some_2 m (Z.to_nat p)) as [w Hw]; [lia|].
  pose proof (nth_lookup_Some m (Z.to_nat p) 0 w Hw) as Hn. rewrite Hn. split; [exact Hw|].
  exact (Forall_lookup_1 _ _ _ _ Hm Hw).
Qed.

Lemma zero_word_bits m p : 0 <= p -> nth (Z.to_nat p) m 0 = 0 ->
  forall j, 32 * p <= j < 32 * (p + 1) -> mbit m j = false.
Proof.
  intros Hp H j Hj. replace j with (32 * p + (j - 32 * p)) by lia.
  rewrite mbit_word, H by lia. apply Z.testbit_0_l.
Qed.

Lemma ones_32_shift s : 0 <= s <= 32 -> Z.shiftr 0xffffffff (32 - s) = Z.ones s.
Proof.
  intros Hs. pose proof (forallb_seqZ (fun s => Z.shiftr 0xffffffff (32 - s) =? Z.ones s) 0 33
    ltac:(vm_compute; reflexivity) s) as H. apply Z.eqb_eq, H. lia.
Qed.

(** The lowest set bit of a word masked to the bits [lo .. hi). *)
Lemma masked_word m p x lo hi : words_ok m -> 0 <= p < Z.of_nat (length m) -> 0 <= lo -> hi <= 32 ->
  (forall j, 0 <= j -> Z.testbit x j = Z.testbit (nth (Z.to_nat p) m 0) j && (lo <=? j) && (j <? hi)) ->
  0 <= x < 2 ^ 32 ->
  if x =? 0 then forall j, 32 * p + lo <= j < 32 * p + hi -> mbit m j = false
  else exists b, find_lsb_set x - 1 = b /\ lo <= b < hi /\ mbit m (32 * p + b) = true /\
         forall j, 32 * p + lo <= j < 32 * p + b -> mbit m j = false.
Proof.
  intros Hm Hp Hlo Hhi Hx Hr.
  assert (Hb : forall j, 32 * p + lo <= j < 32 * p + hi -> mbit m j = Z.testbit x (j - 32 * p)).
  { intros j Hj. replace j with (32 * p + (j - 32 * p)) at 1 by lia. rewrite mbit_word, Hx by lia.
    rewrite (proj2 (Z.leb_le _ _)), (proj2 (Z.ltb_lt _ _)), !andb_true_r by lia. reflexivity. }
  destruct (Z.eqb_spec x 0) as [->|Hne].
  - intros j Hj. rewrite Hb by lia. apply Z.testbit_0_l.
  - destruct (find_lsb_set_ok x Hr Hne) as (i & Hi & Hl & Ht & Hlow). exists i.
    pose proof Ht as Ht'. rewrite Hx in Ht' by lia.
    apply andb_true_iff in Ht'. destruct Ht' as [Ht' H2]. apply andb_true_iff in Ht'.
    apply Z.ltb_lt in H2. destruct Ht' as [_ H1]. apply Z.leb_le in H1.
    split; [exact Hl|]. split; [lia|]. split.
    + rewrite Hb by lia. replace (32 * p + i - 32 * p) with i by lia. exact Ht.
    + intros j Hj. rewrite Hb by lia. apply Hlow. lia.
Qed.

Lemma land_range x y : 0 <= x < 2 ^ 32 -> 0 <= Z.land x y < 2 ^ 32.
Proof.
  intros Hx. assert (E : Z.land x y = Z.land x y mod 2 ^ 32).
  { rewrite <- Z.land_ones by lia. rewrite (Z.land_comm x y), <- Z.land_assoc. f_equal.
    rewrite Z.land_ones by lia. symmetry. apply Z.mod_small. exact Hx. }
  rewrite E. apply Z.mod_pos_bound. lia.
Qed.

Lemma find_bit_words_ok m : words_ok m -> forall fuel p size,
  0 <= p -> 0 <= size < Z.of_nat fuel -> 32 * p + size <= 32 * Z.of_nat (length m) ->
  exists b, find_bit_words fuel m p (32 * p) size = Some b /\ first_bit m (32 * p) (32 * p + size) b.
Proof.
  intros Hm. induction fuel as [|fuel IH]; intros p size Hp Hs Hlen; [lia|]. cbn [find_bit_words].
  assert (Hland : Z.land size (Z.lnot (BITS_PER_LONG - 1)) = 32 * (size / 32)).
  { change (Z.lnot (BITS_PER_LONG - 1)) with (Z.lnot (Z.ones 5)).
    rewrite <- Z.ldiff_land, Z.ldiff_ones_r by lia. rewrite Z.shiftr_div_pow2, Z.shiftl_mul_pow2 by lia.
    change (2 ^ 5) with 32. lia. }
  rewrite Hland. destruct (Z.eqb_spec (32 * (size / 32)) 0) as [E|E]; simpl negb; cbv iota.
  - assert (Hs32 : size < 32) by (Z.div_mod_to_equations; lia).
    destruct (Z.eqb_spec size 0) as [->|Hne].
    + exists (32 * p). split; [reflexivity|]. unfold first_bit. repeat split; intros; lia.
    + destruct (word_ok m p Hm) as [Hw Hr]; [lia|]. rewrite Hw. cbn [mbind option_bind].
      unfold BITS_PER_LONG. rewrite ones_32_shift by lia. set (x := Z.land _ _).
      pose proof (masked_word m p x 0 size Hm ltac:(lia) ltac:(lia) ltac:(lia)) as Hk.
      assert (Hx : forall j, 0 <= j -> Z.testbit x j =
                (Z.testbit (nth (Z.to_nat p) m 0) j && (0 <=? j)) && (j <? size)).
      { intros j Hj. subst x. rewrite Z.land_spec. rewrite (proj2 (Z.leb_le 0 j)), andb_true_r by lia.
        f_equal. destruct (Z.ltb_spec j size); [apply Z.ones_spec_low | apply Z.ones_spec_high]; lia. }
      specialize (Hk Hx ltac:(apply land_range; exact Hr)).
      destruct (Z.eqb_spec x 0).
      * exists (32 * p + size). split; [reflexivity|]. unfold first_bit.
        split; [lia|]. split; [intros; apply Hk; lia | intros; lia].
      * destruct Hk as (b & -> & Hb & Ht & Hl). exists (32 * p + b). split; [reflexivity|].
        unfold first_bit. split; [lia|]. split; [intros; apply Hl; lia | intros; exact Ht].
  - assert (Hs32 : 32 <= size) by (Z.div_mod_to_equations; lia).
    destruct (word_ok m p Hm) as [Hw Hr]; [lia|]. rewrite Hw. cbn [mbind option_bind].
    destruct (Z.eqb_spec (nth (Z.to_nat p) m 0) 0) as [E0|E0]; simpl negb; cbv iota.
    + destruct (IH (p + 1) (size - 32)) as (b & Hb & Hf); [lia..|].
      unfold BITS_PER_LONG. replace (32 * p + 32) with (32 * (p + 1)) by lia. exists b.
      split; [exact Hb|]. destruct Hf as (H1 & H2 & H3). unfold first_bit.
      split; [lia|]. split; [|intros H; apply H3; lia]. intros j Hj.
      destruct (decide (j < 32 * (p + 1))); [apply (zero_word_bits m p); [lia | exact E0 | lia] | apply H2; lia].
    + destruct (find_lsb_set_ok _ Hr E0) as (i & Hi & -> & Ht & Hl). exists (32 * p + i).
      split; [reflexivity|]. unfold first_bit. split; [lia|]. split.
      * intros j Hj. replace j with (32 * p + (j - 32 * p)) by lia. rewrite mbit_word by lia. apply Hl. lia.
      * intros _. rewrite mbit_word by lia. exact Ht.
Qed.

Lemma find_first_bit_spec m size : words_ok m -> 0 <= size <= 32 * Z.of_nat (length m) ->
  exists b, find_first_bit m size = Some b /\ first_bit m 0 size b.
Proof.
  intros Hm Hs. destruct (find_bit_words_ok m Hm (S (Z.to_nat size)) 0 size) as (b & Hb & Hf); [lia..|].
  exists b. split; [exact Hb | exact Hf].
Qed.

Lemma shifted_ones k : 0 <= k < 32 -> forall j, 0 <= j ->
  Z.testbit (u32 (Z.shiftl 0xffffffff k)) j = (k <=? j) && (j <? 32).
Proof.
  intros Hk j Hj. unfold u32. change 0xffffffff with (Z.ones 32).
  destruct (Z.ltb_spec j 32).
  - rewrite Z.mod_pow2_bits_low, Z.shiftl_spec, andb_true_r by lia.
    destruct (Z.leb_spec k j); [apply Z.ones_spec_low; lia | apply Z.testbit_neg_r; lia].
  - rewrite Z.mod_pow2_bits_high by lia. rewrite andb_false_r. reflexivity.
Qed.

Lemma find_next_bit_spec m size offset : words_ok m -> 0 <= size <= 32 * Z.of_nat (length m) ->
  0 <= offset ->
  exists b, find_next_bit m size offset = Some b /\
    (if offset <? size then first_bit m offset size b else b = size).
Proof.
  intros Hm Hs Ho. unfold find_next_bit. rewrite Z.geb_leb.
  destruct (Z.leb_spec size offset), (Z.ltb_spec offset size); try lia; [eauto|].
  assert (Hres : Z.land offset (Z.lnot (BITS_PER_LONG - 1)) = 32 * (offset / 32)).
  { change (Z.lnot (BITS_PER_LONG - 1)) with (Z.lnot (Z.ones 5)).
    rewrite <- Z.ldiff_land, Z.ldiff_ones_r by lia. rewrite Z.shiftr_div_pow2, Z.shiftl_mul_pow2 by lia.
    change (2 ^ 5) with 32. lia. }
  rewrite Hres. unfold BITS_PER_LONG. set (p := offset / 32).
  assert (Hoff : offset = 32 * p + offset mod 32) by (apply Z.div_mod; lia).
  pose proof (Z.mod_pos_bound offset 32 ltac:(lia)) as Hmod. set (k := offset mod 32) in *.
  assert (Hp : 0 <= p) by (apply Z.div_pos; lia).
  destruct (Z.eqb_spec k 0) as [Ek|Ek]; simpl negb; cbv iota.
  - destruct (find_bit_words_ok m Hm (S (Z.to_nat (size - 32 * p))) p (size - 32 * p)) as (b & Hb & Hf);
      [lia..|]. exists b. split; [exact Hb|].
    replace (32 * p + (size - 32 * p)) with size in Hf by lia.
    replace offset with (32 * p) by lia. exact Hf.
  - destruct (word_ok m p Hm) as [Hw Hr]; [lia|]. rewrite Hw. cbn [mbind option_bind].
    set (x := Z.land _ (u32 _)).
    assert (Hxr : 0 <= x < 2 ^ 32) by (apply land_range; exact Hr).
    assert (Hx : forall j, 0 <= j -> Z.testbit x j =
              (Z.testbit (nth (Z.to_nat p) m 0) j && (k <=? j)) && (j <? 32)).
    { intros j Hj. subst x. rewrite Z.land_spec, shifted_ones by lia. apply andb_assoc. }
    destruct (Z.ltb_spec (size - 32 * p) 32) as [Hsm|Hbig].
    + rewrite ones_32_shift by lia. set (y := Z.land x _).
      assert (Hy : forall j, 0 <= j -> Z.testbit y j =
                (Z.testbit (nth (Z.to_nat p) m 0) j && (k <=? j)) && (j <? size - 32 * p)).
      { intros j Hj. subst y. rewrite Z.land_spec, Hx by lia. rewrite <- andb_assoc. f_equal.
        destruct (Z.ltb_spec j (size - 32 * p)).
        - rewrite Z.ones_spec_low, (proj2 (Z.ltb_lt j 32)) by lia. reflexivity.
        - rewrite Z.ones_spec_high by lia. apply andb_false_r. }
      pose proof (masked_word m p y k (size - 32 * p) Hm ltac:(lia) ltac:(lia) ltac:(lia) Hy
        ltac:(apply land_range; exact Hxr)) as Hk.
      destruct (Z.eqb_spec y 0).
      * exists (32 * p + (size - 32 * p)). split; [reflexivity|]. unfold first_bit.
        split; [lia|]. split; [intros; apply Hk; lia | intros; lia].
      * destruct Hk as (b & -> & Hb & Ht & Hl). exists (32 * p + b). split; [reflexivity|].
        unfold first_bit. split; [lia|]. split; [intros; apply Hl; lia | intros; exact Ht].
    + pose proof (masked_word m p x k 32 Hm ltac:(lia) ltac:(lia) ltac:(lia) Hx Hxr) as Hk.
      destruct (Z.eqb_spec x 0); simpl negb; cbv iota.
      * destruct (find_bit_words_ok m Hm (S (Z.to_nat (size - 32 * p))) (p + 1) (size - 32 * p - 32))
          as (b & Hb & Hf); [lia..|].
        replace (32 * p + 32) with (32 * (p + 1)) by lia. exists b. split; [exact Hb|].
        destruct Hf as (H1 & H2 & H3). unfold first_bit. split; [lia|].
        split; [|intros; apply H3; lia]. intros j Hj.
        destruct (decide (j < 32 * p + 32)); [apply Hk; lia | apply H2; lia].
      * destruct Hk as (b & -> & Hb & Ht & Hl). exists (32 * p + b). split; [reflexivity|].
        unfold first_bit. split; [lia|]. split; [intros; apply Hl; lia | intros; exact Ht].
Qed.

Lemma mbit_insert m w x j : (w < length m)%nat ->
  mbit (<[w := x]> m) j = if (Z.to_nat (j / 32) =? w)%nat then Z.testbit x (j mod 32) else mbit m j.
Proof.
  intros Hw. unfold mbit. rewrite !nth_lookup. destruct (Nat.eqb_spec (Z.to_nat (j / 32)) w) as [<-|Hne].
  - rewrite list_lookup_insert_eq by exact Hw. reflexivity.
  - rewrite list_lookup_insert_ne by congruence. reflexivity.
Qed.

Lemma single_bit b i : 0 <= b -> Z.testbit (Z.shiftl 1 b) i = (i =? b).
Proof.
  intros Hb. rewrite Z.shiftl_mul_pow2, Z.mul_1_l by lia. rewrite Z.eqb_sym.
  destruct (decide (0 <= i)); [apply Z.pow2_bits_eqb; lia|].
  rewrite Z.testbit_neg_r by lia. symmetry. apply Z.eqb_neq. lia.
Qed.

Lemma clear_bit_word b i : 0 <= i < 32 -> 0 <= b < 32 ->
  Z.testbit (u32 (Z.lnot (Z.shiftl 1 b))) i = negb (i =? b).
Proof.
  intros Hi Hb. unfold u32. rewrite Z.mod_pow2_bits_low, Z.lnot_spec, single_bit by lia. reflexivity.
Qed.

Lemma set_bit_range x b : 0 <= x < 2 ^ 32 -> 0 <= b < 32 -> 0 <= Z.lor x (Z.shiftl 1 b) < 2 ^ 32.
Proof.
  intros Hx Hb. assert (Hs : 0 <= Z.shiftl 1 b < 2 ^ 32).
  { rewrite Z.shiftl_mul_pow2, Z.mul_1_l by lia.
    split; [apply Z.pow_nonneg; lia | apply Z.pow_lt_mono_r; lia]. }
  split; [apply Z.lor_nonneg; lia|].
  destruct (decide (Z.lor x (Z.shiftl 1 b) = 0)) as [->|Hne]; [lia|].
  apply Z.log2_lt_cancel. rewrite Z.log2_lor, Z.log2_pow2 by lia.
  apply Z.max_lub_lt.
  - destruct (decide (x = 0)) as [->|]; [simpl; lia | apply Z.log2_lt_pow2; lia].
  - apply Z.log2_lt_pow2; [|lia]. rewrite Z.shiftl_mul_pow2 by lia.
    apply Z.mul_pos_pos; [lia | apply Z.pow_pos_nonneg; lia].
Qed.

Lemma item_bitmap_update_ok m off is_set : words_ok m -> 0 <= off -> off / 16 < 32 * Z.of_nat (length m) ->
  exists m', item_bitmap_update (Some m) off is_set = Some (Some m') /\ words_ok m' /\
    length m' = length m /\
    forall j, 0 <= j -> mbit m' j = if j =? off / 16 then is_set else mbit m j.
Proof.
  intros Hm Ho Hb. unfold item_bitmap_update, ITEM_BITMAP_OFFSET_TO_BIT, NVRAM_ITEM_ALIGN_SIZE.
  set (bit := off / 16) in *. assert (Hbit : 0 <= bit) by (apply Z.div_pos; lia).
  assert (Hw : 0 <= bit / 32 < Z.of_nat (length m)) by (Z.div_mod_to_equations; lia).
  pose proof (Z.mod_pos_bound bit 32 ltac:(lia)) as Hmod.
  destruct (word_ok m (bit / 32) Hm Hw) as [-> Hr]. cbn [mbind option_bind]. set (x := nth _ m 0) in *.
  eexists. split; [reflexivity|]. split; [|split; [apply length_insert|]].
  - apply Forall_insert; [exact Hm|]. destruct is_set; [apply set_bit_range; assumption|].
    apply land_range. exact Hr.
  - intros j Hj. rewrite mbit_insert by lia.
    destruct (Nat.eqb_spec (Z.to_nat (j / 32)) (Z.to_nat (bit / 32))) as [E|E].
    + assert (Ej : j / 32 = bit / 32) by (pose proof (Z.div_pos j 32); lia).
      assert (Eq : (j mod 32 =? bit mod 32) = (j =? bit)).
      { destruct (Z.eqb_spec j bit) as [->|Hne]; [apply Z.eqb_refl|]. apply Z.eqb_neq.
        intros H. apply Hne. rewrite (Z.div_mod j 32), (Z.div_mod bit 32) by lia. congruence. }
      pose proof (Z.mod_pos_bound j 32 ltac:(lia)) as Hmj.
      assert (Hxj : Z.testbit x (j mod 32) = mbit m j) by (unfold mbit; rewrite E; reflexivity).
      destruct is_set.
      * rewrite Z.lor_spec, single_bit, Eq, Hxj by lia. destruct (j =? bit); [apply orb_true_r | apply orb_false_r].
      * rewrite Z.land_spec, clear_bit_word, Eq, Hxj by lia.
        destruct (j =? bit); [apply andb_false_r | apply andb_true_r].
    + destruct (Z.eqb_spec j bit) as [->|]; [congruence | reflexivity].
Qed.

(** ** Entries *)

Record entry : Type := mk_entry { e_valid : bool; e_name : string; e_data : list Z }.

Definition name_bytes (k : string) : list Z :=
  (fun a => Z.of_N (Ascii.N_of_ascii a)) <$> String.list_ascii_of_string k.

Definition name_ok (k : string) : Prop :=
  Forall (fun b => b <> 0) (name_bytes k) /\ Z.of_nat (length (cstr k)) <= NVRAM_MAX_NAME_SIZE.

Definition data_ok (d : list Z) : Prop :=
  Forall (fun b => 0 <= b < 256) d /\ 0 < Z.of_nat (length d) <= NVRAM_MAX_DATA_SIZE.

Definition entry_ok (e : entry) : Prop := name_ok (e_name e) /\ data_ok (e_data e).

Definition with_state (i : nvram_item) (st : Z) : nvram_item :=
  mk_nvram_item (it_magic i) st (it_crc i) (it_hash i) (it_reserved i) (it_name_size i) (it_data_size i).

Definition state_of (valid : bool) : Z :=
  if valid then NVRAM_ITEM_STATE_VALID else NVRAM_ITEM_STATE_OBSOLETE.

Definition e_item (e : entry) : nvram_item :=
  with_state (new_item (cstr (e_name e)) (e_data e)) (state_of (e_valid e)).

Definition e_bytes (e : entry) : list Z := item_bytes (e_item e) ++ cstr (e_name e) ++ e_data e.

Definition e_size (e : entry) : Z :=
  8 + Z.of_nat (length (cstr (e_name e))) + Z.of_nat (length (e_data e)).

(** The size rounded up to a multiple of 16. *)
Definition e_aligned (e : entry) : Z := 16 * ((e_size e + 15) / 16).

Definition invalidate (e : entry) : entry := mk_entry false (e_name e) (e_data e).

Lemma cstr_bytes k : cstr k = name_bytes k ++ [0].
Proof. unfold cstr, name_bytes. rewrite fmap_app. reflexivity. Qed.

Lemma name_bytes_inj k k' : name_bytes k = name_bytes k' -> k = k'.
Proof.
  unfold name_bytes. intros H. apply list_fmap_eq_inj in H.
  - rewrite <- (String.string_of_list_ascii_of_string k),
      <- (String.string_of_list_ascii_of_string k'), H. reflexivity.
  - intros a b E. apply N2Z.inj in E.
    rewrite <- (Ascii.ascii_N_embedding a), <- (Ascii.ascii_N_embedding b), E. reflexivity.
Qed.

Lemma name_bytes_range k : Forall (fun b => 0 <= b < 256) (cstr k).
Proof.
  unfold cstr. apply Forall_fmap, Forall_true. intros a. simpl.
  pose proof (Ascii.N_ascii_bounded a). lia.
Qed.

(** A stored name is a prefix of the name looked up only if they are equal. *)
Lemma cstr_prefix k k' : Forall (fun b => b <> 0) (name_bytes k) ->
  take (length (cstr k')) (cstr k) = cstr k' <-> k = k'.
Proof.
  intros Hk. split; [|intros ->; rewrite take_ge by lia; reflexivity]. rewrite !cstr_bytes.
  intros H. apply name_bytes_inj.
  assert (Hlen : (length (name_bytes k') <= length (name_bytes k))%nat).
  { apply (f_equal length) in H. rewrite length_take, !length_app in H. simpl in H. lia. }
  destruct (decide (length (name_bytes k') < length (name_bytes k))%nat) as [Hlt|Hge].
  - assert (H0 : name_bytes k !! length (name_bytes k') = Some 0).
    { assert (Hx : (name_bytes k' ++ [0]) !! length (name_bytes k') = Some 0).
      { rewrite lookup_app_r, Nat.sub_diag by lia. reflexivity. }
      rewrite <- H, lookup_take_lt, lookup_app_l in Hx by (rewrite ?length_app; simpl; lia). exact Hx. }
    destruct (Forall_lookup_1 _ _ _ _ Hk H0). reflexivity.
  - rewrite take_ge in H by (rewrite !length_app; simpl; lia).
    apply app_inj_tail in H. apply H.
Qed.

(** *** The bytes of an entry *)

Lemma byte_lxor a b : 0 <= a < 256 -> 0 <= b < 256 -> 0 <= Z.lxor a b < 256.
Proof.
  intros Ha Hb. split; [apply Z.lxor_nonneg; lia|].
  destruct (decide (Z.lxor a b = 0)) as [->|Hne]; [lia|].
  assert (Hl : forall x, 0 <= x < 256 -> Z.log2 x < 8).
  { intros x Hx. destruct (decide (x = 0)) as [->|]; [simpl; lia|]. apply Z.log2_lt_pow2; lia. }
  apply Z.log2_lt_pow2 with (b := 8); [pose proof (Z.lxor_nonneg a b); lia|].
  eapply Z.le_lt_trans; [apply Z.log2_lxor; lia|]. apply Z.max_lub_lt; apply Hl; assumption.
Qed.

Lemma crc8_table_byte i : 0 <= nth i crc8_table 0 < 256.
Proof.
  destruct (nth_in_or_default i crc8_table 0) as [H| ->]; [|lia].
  assert (Ht : Forall (fun b => 0 <= b < 256) crc8_table) by (repeat constructor; lia).
  rewrite List.Forall_forall in Ht. apply Ht. exact H.
Qed.

Lemma calc_crc8_byte l c : 0 <= c < 256 -> 0 <= calc_crc8 l c < 256.
Proof.
  unfold calc_crc8. revert c. induction l as [|b l IH]; intros c Hc; [exact Hc|].
  cbn [fold_left]. apply IH. unfold crc8_step. apply byte_lxor; apply crc8_table_byte.
Qed.

Lemma calc_hash_byte l : 0 <= calc_hash l < 256.
Proof.
  unfold calc_hash. apply byte_lxor; [|lia]. assert (H : forall l c, 0 <= c < 256 ->
    0 <= fold_left (fun h b => u8 (h + b)) l c < 256).
  { clear l. induction l as [|b l IH]; intros c Hc; [exact Hc|]. cbn [fold_left]. apply IH.
    apply u8_range. }
  apply H. lia.
Qed.

Lemma le16_of_le x : 0 <= x < 2 ^ 16 -> of_le (le16 x) = x.
Proof.
  intros Hx. unfold of_le, le16, u8. cbn [foldr]. rewrite Z.shiftr_div_pow2 by lia.
  change (2 ^ 8) with 256. rewrite (Z.mod_small (x / 256)) by (Z.div_mod_to_equations; lia).
  rewrite (Z.div_mod x 256) at 3 by lia. lia.
Qed.

Lemma item_of_bytes i : 0 <= it_data_size i < 2 ^ 16 -> item_of (item_bytes i) = i.
Proof.
  intros Hi. unfold item_of, item_bytes.
  change (take 2 (drop 6 ([it_magic i; it_state i; it_crc i; it_hash i; it_reserved i; it_name_size i]
            ++ le16 (it_data_size i)))) with (le16 (it_data_size i)).
  rewrite le16_of_le by exact Hi. destruct i. reflexivity.
Qed.

Lemma ROUND_UP_pow2 x k : 0 <= x < 2 ^ 31 -> 0 <= k <= 31 ->
  ROUND_UP x (2 ^ k) = 2 ^ k * ((x + (2 ^ k - 1)) / 2 ^ k).
Proof.
  intros Hx Hk. assert (Hp : 0 < 2 ^ k <= 2 ^ 31) by (split; [apply Z.pow_pos_nonneg | apply Z.pow_le_mono_r]; lia).
  unfold ROUND_UP. rewrite u32_small by lia. replace (2 ^ k - 1) with (Z.ones k) by (rewrite Z.ones_equiv; lia).
  assert (Ho : Z.ones k = 2 ^ k - 1) by (rewrite Z.ones_equiv; lia).
  replace (Z.land (x + Z.ones k) (u32 (Z.lnot (Z.ones k)))) with (Z.ldiff (x + Z.ones k) (Z.ones k)).
  - rewrite Z.ldiff_ones_r, Z.shiftr_div_pow2, Z.shiftl_mul_pow2 by lia. lia.
  - apply Z.bits_inj'. intros j Hj. unfold u32. rewrite Z.ldiff_spec, Z.land_spec.
    destruct (decide (j < 32)).
    + rewrite Z.mod_pow2_bits_low, Z.lnot_spec by lia. reflexivity.
    + rewrite Z.mod_pow2_bits_high by lia.
      replace (Z.testbit (x + Z.ones k) j) with false; [reflexivity|]. symmetry.
      destruct (decide (x + Z.ones k = 0)) as [->|]; [apply Z.testbit_0_l|].
      apply Z.bits_above_log2; [lia|]. apply Z.log2_lt_pow2; [lia|].
      apply Z.lt_le_trans with (2 ^ 32); [lia | apply Z.pow_le_mono_r; lia].
Qed.

Lemma ROUND_UP_16 x : 0 <= x < 2 ^ 31 -> ROUND_UP x NVRAM_ITEM_ALIGN_SIZE = 16 * ((x + 15) / 16).
Proof. intros Hx. apply (ROUND_UP_pow2 x 4); lia. Qed.

Section Entry.
Variable e : entry.
Hypothesis He : entry_ok e.

Lemma name_len : 1 <= Z.of_nat (length (cstr (e_name e))) <= 112.
Proof.
  destruct He as [[_ H] _]. split; [|exact H]. rewrite cstr_bytes, length_app. simpl. lia.
Qed.

Lemma data_len_ok : 1 <= Z.of_nat (length (e_data e)) <= 512.
Proof. destruct He as [_ [_ H]]. unfold NVRAM_MAX_DATA_SIZE in H. lia. Qed.

Lemma e_size_bound : 10 <= e_size e <= 632.
Proof. pose proof name_len. pose proof data_len_ok. unfold e_size. lia. Qed.

Lemma e_aligned_bound : e_size e <= e_aligned e <= e_size e + 15 /\ 16 <= e_aligned e.
Proof. pose proof e_size_bound. unfold e_aligned. Z.div_mod_to_equations. lia. Qed.

Lemma e_item_fields :
  it_magic (e_item e) = NVRAM_REGION_ITEM_MAGIC /\ it_state (e_item e) = state_of (e_valid e) /\
  it_hash (e_item e) = calc_hash (cstr (e_name e)) /\
  it_name_size (e_item e) = Z.of_nat (length (cstr (e_name e))) /\
  it_data_size (e_item e) = Z.of_nat (length (e_data e)) /\
  it_crc (e_item e) = calc_crc8 (e_data e) (calc_crc8 (cstr (e_name e))
    (calc_crc8 (drop NVRAM_REGION_ITEM_CRC_OFFSET (item_bytes (e_item e))) 0)).
Proof.
  pose proof name_len. pose proof data_len_ok. unfold e_item, with_state, new_item. cbn [it_magic it_state it_hash it_name_size it_data_size it_crc].
  rewrite (u8_small (Z.of_nat (length (cstr (e_name e))))) by lia.
  assert (Hd : u16 (Z.of_nat (length (e_data e))) = Z.of_nat (length (e_data e)))
    by (apply Z.mod_small; lia).
  rewrite Hd, !Nat2Z.id, !take_ge by lia. repeat split; reflexivity.
Qed.

Lemma item_bytes_length i : length (item_bytes i) = 8%nat.
Proof. reflexivity. Qed.

Lemma e_bytes_length : Z.of_nat (length (e_bytes e)) = e_size e.
Proof. unfold e_bytes, e_size. rewrite !length_app, item_bytes_length. lia. Qed.

Lemma e_bytes_range : Forall (fun b => 0 <= b < 256) (e_bytes e).
Proof.
  destruct e_item_fields as (H1 & H2 & H3 & H4 & H5 & H6).
  pose proof name_len. pose proof data_len_ok.
  unfold e_bytes. apply Forall_app. split; [|apply Forall_app; split; [apply name_bytes_range | apply He]].
  unfold item_bytes. rewrite H1, H2, H3, H4, H6.
  assert (Hcrc : forall l1 l2 l3, 0 <= calc_crc8 l1 (calc_crc8 l2 (calc_crc8 l3 0)) < 256).
  { intros. do 3 apply calc_crc8_byte. lia. }
  repeat apply List.Forall_cons; [unfold NVRAM_REGION_ITEM_MAGIC; lia | | apply Hcrc
    | apply calc_hash_byte | simpl; lia | lia | apply u8_range | apply u8_range | apply List.Forall_nil].
  unfold state_of, NVRAM_ITEM_STATE_VALID, NVRAM_ITEM_STATE_OBSOLETE. destruct (e_valid e); lia.
Qed.

Lemma item_real_size : item_get_real_size (e_item e) = e_size e.
Proof.
  destruct e_item_fields as (_ & _ & _ & H4 & H5 & _).
  unfold item_get_real_size, item_calc_real_size, ITEM_SIZE. rewrite H4, H5. unfold e_size. lia.
Qed.

Lemma item_aligned_size : item_get_aligned_size (e_item e) = e_aligned e.
Proof.
  pose proof e_size_bound. pose proof item_real_size as Hr. unfold item_get_real_size in Hr.
  unfold item_get_aligned_size, item_calc_aligned_size. rewrite Hr. apply ROUND_UP_16. lia.
Qed.

(** The parts of an entry in the flash. *)
Lemma entry_parts m off : load m off (e_size e) = e_bytes e ->
  load m off 8 = item_bytes (e_item e) /\
  load m (off + 8) (Z.of_nat (length (cstr (e_name e)))) = cstr (e_name e) /\
  load m (off + 8 + Z.of_nat (length (cstr (e_name e)))) (Z.of_nat (length (e_data e))) = e_data e.
Proof.
  unfold e_size, e_bytes. rewrite load_app, load_app by lia. rewrite <- app_assoc.
  intros H. apply app_inj_1 in H; [|apply load_length]. destruct H as [H1 H].
  apply app_inj_1 in H; [|rewrite load_length; lia]. destruct H as [H2 H3].
  rewrite Z.add_assoc in H3. auto.
Qed.

Lemma entry_item m off : load m off (e_size e) = e_bytes e -> item_of (load m off 8) = e_item e.
Proof.
  intros H. destruct (entry_parts m off H) as [-> _]. apply item_of_bytes.
  destruct e_item_fields as (_ & _ & _ & _ & -> & _). pose proof data_len_ok. lia.
Qed.
End Entry.

Lemma calc_crc8_app l1 l2 c : calc_crc8 (l1 ++ l2) c = calc_crc8 l2 (calc_crc8 l1 c).
Proof. apply fold_left_app. Qed.

Lemma item_calc_data_crc_ok fuel : forall r off size c, 0 <= size < Z.of_nat fuel ->
  in_region r off (off + size) ->
  item_calc_data_crc fuel r off size c = Some (calc_crc8 (load (flash r) off size) c).
Proof.
  induction fuel as [|fuel IH]; intros r off size c Hf Hin; [lia|]. cbn [item_calc_data_crc].
  rewrite Z.gtb_ltb. destruct (Z.ltb_spec 0 size).
  - set (w := if _ <? _ then _ else _).
    assert (Hw : 0 < w <= size /\ w <= 128) by (subst w; unfold NVRAM_BUFFER_SIZE; reflect_bools; lia).
    rewrite read_buf_ok by (lia || (eapply in_region_sub; [exact Hin | lia | lia])). cbn [mbind option_bind].
    rewrite IH by (lia || (eapply in_region_sub; [exact Hin | lia | lia])).
    rewrite <- calc_crc8_app, <- load_app by lia. do 3 f_equal. lia.
  - replace size with 0 by lia. reflexivity.
Qed.

(** Checking an entry changes nothing and finds its state. *)
Lemma item_check_entry r off e check : entry_ok e -> in_region r off (off + e_size e) ->
  load (flash r) off (e_size e) = e_bytes e ->
  item_check_validity r off (e_item e) check =
    Some (if e_valid e then ITEM_STATUS_VALID else ITEM_STATUS_OBSOLETE, r).
Proof.
  intros He Hin Hl. destruct (e_item_fields e He) as (H1 & H2 & H3 & H4 & H5 & H6).
  destruct (entry_parts e _ _ Hl) as (_ & Hn & Hd).
  pose proof (name_len e He). pose proof (data_len_ok e He). unfold e_size in Hin.
  unfold item_check_validity. rewrite H1. simpl negb at 1. cbv iota. rewrite H2.
  destruct (e_valid e); [|reflexivity]. simpl negb at 1. cbv iota. unfold ITEM_SIZE. rewrite H4.
  rewrite read_buf_ok by (lia || (eapply in_region_sub; [exact Hin | lia | lia])). cbn [mbind option_bind].
  rewrite Hn, H3, Z.eqb_refl. cbn [negb]. destruct check; [|reflexivity].
  rewrite H5, item_calc_data_crc_ok by (unfold chunks; lia || (eapply in_region_sub; [exact Hin | lia | lia])).
  cbn [mbind option_bind]. rewrite Hd, <- H6, Z.eqb_refl. reflexivity.
Qed.
