(* ===== verification/NvramProof.v ===== *)
(** * Theorems about the configuration store

    A region in a good state ([region_ok]) holds the log of some entries, of
    which at most one per name is valid, and stands for the finite map of the
    valid ones.  Reading a name returns its value in that map, writing updates
    it, compaction (with or without checksums) and a restart keep it.  The
    three regions together are an instance of the class [Nvram].

    The last part is about power failures: what a restart finds when an
    operation was cut between two flash writes. *)

From stdpp Require Import base numbers list strings gmap.
From S2P Require Import Prelude Nvram NvramConfig NvramLog.
Open Scope Z_scope.

(** The segment size of all three regions in the board's configuration. *)
Definition SEG : Z := 0x1000.

(** ** The log of a segment *)

Definition log_len (es : list entry) : Z := foldr (fun e n => e_aligned e + n) 0 es.

Fixpoint log_at (m : mem) (off : Z) (es : list entry) : Prop :=
  match es with
  | [] => True
  | e :: es => load m off (e_size e) = e_bytes e /\ log_at m (off + e_aligned e) es
  end.

(** A valid entry starts at [b]. *)
Fixpoint valid_at (off : Z) (es : list entry) (b : Z) : Prop :=
  match es with
  | [] => False
  | e :: es => (e_valid e = true /\ b = off) \/ valid_at (off + e_aligned e) es b
  end.

Fixpoint next_valid (off : Z) (es : list entry) : Z :=
  match es with
  | [] => SEG
  | e :: es => if e_valid e then off else next_valid (off + e_aligned e) es
  end.

Fixpoint find_entry (off : Z) (es : list entry) (k : string) : option (Z * entry) :=
  match es with
  | [] => None
  | e :: es => if e_valid e && bool_decide (k = e_name e) then Some (off, e)
               else find_entry (off + e_aligned e) es k
  end.

Abbreviation entries_ok := (Forall entry_ok).

Lemma log_len_nonneg es : entries_ok es -> 0 <= log_len es.
Proof.
  induction 1 as [|e es He _ IH]; simpl; [lia|]. pose proof (e_aligned_bound e He). lia.
Qed.

Lemma log_len_app es1 es2 : log_len (es1 ++ es2) = log_len es1 + log_len es2.
Proof. induction es1 as [|e es1 IH]; simpl; [reflexivity|]. rewrite IH. lia. Qed.

Lemma log_len_count es : entries_ok es -> 16 * Z.of_nat (length es) <= log_len es.
Proof.
  induction 1 as [|e es He _ IH]; cbn [length log_len foldr]; [lia|].
  pose proof (e_aligned_bound e He). unfold log_len in IH. lia.
Qed.

Lemma log_len_16 es : (16 | log_len es).
Proof.
  induction es as [|e es IH]; simpl; [apply Z.divide_0_r|]. apply Z.divide_add_r; [|exact IH].
  exists ((e_size e + 15) / 16). unfold e_aligned. lia.
Qed.

Lemma log_at_ext m m' es : entries_ok es -> forall off,
  (forall x, off <= x < off + log_len es -> m x = m' x) -> log_at m off es -> log_at m' off es.
Proof.
  induction 1 as [|e es He Hes IH]; intros off Hm; simpl; [auto|]. intros [H1 H2].
  pose proof (e_aligned_bound e He). pose proof (log_len_nonneg es Hes). simpl in Hm.
  split; [rewrite <- H1; apply load_ext; intros x Hx; symmetry; apply Hm; lia|].
  apply IH; [|exact H2]. intros x Hx. apply Hm. lia.
Qed.

Lemma log_at_app m es1 es2 : forall off,
  log_at m off (es1 ++ es2) <-> log_at m off es1 /\ log_at m (off + log_len es1) es2.
Proof.
  induction es1 as [|e es1 IH]; intros off; simpl; [rewrite Z.add_0_r; tauto|].
  rewrite IH, Z.add_assoc. tauto.
Qed.

Lemma valid_at_app es1 es2 b : forall off,
  valid_at off (es1 ++ es2) b <-> valid_at off es1 b \/ valid_at (off + log_len es1) es2 b.
Proof.
  induction es1 as [|e es1 IH]; intros off; simpl; [rewrite Z.add_0_r; tauto|].
  rewrite IH, Z.add_assoc. tauto.
Qed.

Lemma valid_at_range es b : entries_ok es -> forall off, valid_at off es b ->
  off <= b /\ b + 16 <= off + log_len es.
Proof.
  induction 1 as [|e es He Hes IH]; intros off; simpl; [tauto|].
  pose proof (e_aligned_bound e He). pose proof (log_len_nonneg es Hes).
  intros [[_ ->]|H1]; [lia|]. apply IH in H1. lia.
Qed.

Lemma next_valid_spec es : entries_ok es -> forall off, off + log_len es <= SEG ->
  off <= next_valid off es <= SEG /\
  (forall b, off <= b < next_valid off es -> ~ valid_at off es b) /\
  (next_valid off es < SEG -> valid_at off es (next_valid off es)).
Proof.
  induction 1 as [|e es He Hes IH]; intros off Hfit; simpl in *.
  - repeat split; intros; try lia; tauto.
  - pose proof (e_aligned_bound e He). pose proof (log_len_nonneg es Hes).
    destruct (e_valid e) eqn:Ev; [repeat split; intros; try lia; auto|].
    destruct (IH (off + e_aligned e)) as (H1 & H2 & H3); [lia|].
    split; [lia|]. split; [|intros Hlt; right; apply H3; exact Hlt].
    intros b Hb [[Hv _]|Hv]; [discriminate|].
    pose proof (valid_at_range es b Hes _ Hv). apply (H2 b); [lia | exact Hv].
Qed.

Lemma next_valid_16 es : forall off, (16 | off) -> (16 | next_valid off es).
Proof.
  induction es as [|e es IH]; intros off Ho; simpl; [exists 256; reflexivity|].
  destruct (e_valid e); [exact Ho|]. apply IH. apply Z.divide_add_r; [exact Ho|].
  exists ((e_size e + 15) / 16). unfold e_aligned. lia.
Qed.

(** ** The bitmap marks the valid entries *)

Definition map_ok (om : option (list Z)) (es : list entry) : Prop :=
  match om with
  | None => True
  | Some m => words_ok m /\ length m = 8%nat /\
              forall j, 0 <= j < 256 -> mbit m j = true <-> valid_at 16 es (16 * j)
  end.

Lemma first_bit_unique m lo hi b b' : first_bit m lo hi b -> first_bit m lo hi b' -> b = b'.
Proof.
  intros (H1 & H2 & H3) (H1' & H2' & H3'). destruct (Z.lt_trichotomy b b') as [Hlt|[E|Hgt]]; [|exact E|].
  - rewrite H2' in H3 by lia. discriminate H3. lia.
  - rewrite H2 in H3' by lia. discriminate H3'. lia.
Qed.

(** The search continues at the next valid entry. *)
Lemma next_valid_bit m pre rest : map_ok (Some m) (pre ++ rest) -> entries_ok (pre ++ rest) ->
  log_len (pre ++ rest) <= SEG - 16 ->
  first_bit m ((16 + log_len pre) / 16) 256 (next_valid (16 + log_len pre) rest / 16).
Proof.
  intros (_ & _ & Hm) Hok Hfit. apply Forall_app in Hok as Hok'. destruct Hok' as [Hpre Hrest].
  rewrite log_len_app in Hfit. unfold SEG in *. pose proof (log_len_nonneg pre Hpre).
  pose proof (log_len_nonneg rest Hrest).
  assert (H16 : (16 | 16 + log_len pre)) by (apply Z.divide_add_r; [exists 1; reflexivity | apply log_len_16]).
  destruct (next_valid_spec rest Hrest (16 + log_len pre)) as (H1 & H2 & H3); [unfold SEG; lia|].
  pose proof (next_valid_16 rest _ H16) as Hn16. unfold SEG in *.
  set (nv := next_valid _ rest) in *. destruct H16 as [p Hp], Hn16 as [n Hn]. rewrite Hp, Hn in *.
  rewrite !Z.div_mul by lia. unfold first_bit. split; [lia|].
  assert (Hbit : forall j, p <= j < 256 -> mbit m j = true <-> valid_at (p * 16) rest (16 * j)).
  { intros j Hj. rewrite Hm by lia. rewrite valid_at_app, Hp. split; [|auto]. intros [Hv|Hv]; [|exact Hv].
    pose proof (valid_at_range pre _ Hpre _ Hv). lia. }
  split.
  - intros j Hj. destruct (mbit m j) eqn:E; [|reflexivity]. apply Hbit in E; [|lia].
    destruct (H2 (16 * j)); [lia | exact E].
  - intros Hlt. apply Hbit; [lia|]. rewrite (Z.mul_comm 16 n). apply H3. lia.
Qed.

Lemma bitmap_first m es : map_ok (Some m) es -> entries_ok es -> log_len es <= SEG - 16 ->
  item_bitmap_first_offset (Some m) SEG = Some (next_valid 16 es).
Proof.
  intros Hm Hok Hfit. pose proof (next_valid_bit m [] es Hm Hok Hfit) as Hb.
  destruct Hm as (Hw & Hl & Hm). cbn [log_len foldr] in Hb. change ((16 + 0) / 16) with 1 in Hb.
  unfold item_bitmap_first_offset, ITEM_BITMAP_OFFSET_TO_BIT, ITEM_BITMAP_BIT_TO_OFFSET, NVRAM_ITEM_ALIGN_SIZE.
  change (SEG / 16) with 256. destruct (find_first_bit_spec m 256 Hw) as (b & -> & Hf); [rewrite Hl; lia|].
  cbn [mbind option_bind]. change (16 + 0) with 16 in Hb.
  assert (Hb0 : first_bit m 0 256 (next_valid 16 es / 16)).
  { destruct Hb as (H1 & H2 & H3). split; [lia|]. split; [|exact H3]. intros j Hj.
    destruct (decide (j = 0)) as [->|]; [|apply H2; lia].
    destruct (mbit m 0) eqn:E; [|reflexivity]. apply Hm in E; [|lia].
    pose proof (valid_at_range es _ Hok _ E). lia. }
  rewrite (first_bit_unique _ _ _ _ _ Hf Hb0). f_equal.
  destruct (next_valid_16 es 16) as [n ->]; [exists 1; reflexivity|]. rewrite Z.div_mul; lia.
Qed.

Lemma bitmap_next m pre rest : map_ok (Some m) (pre ++ rest) -> entries_ok (pre ++ rest) ->
  log_len (pre ++ rest) <= SEG - 16 ->
  item_bitmap_next_offset (Some m) SEG (16 + log_len pre) = Some (next_valid (16 + log_len pre) rest).
Proof.
  intros Hm Hok Hfit. pose proof (next_valid_bit m pre rest Hm Hok Hfit) as Hb.
  destruct Hm as (Hw & Hl & Hm). apply Forall_app in Hok. destruct Hok as [Hpre Hrest].
  rewrite log_len_app in Hfit. pose proof (log_len_nonneg pre Hpre). pose proof (log_len_nonneg rest Hrest).
  assert (H16 : (16 | 16 + log_len pre)) by (apply Z.divide_add_r; [exists 1; reflexivity | apply log_len_16]).
  pose proof (next_valid_16 rest _ H16) as Hn16.
  unfold item_bitmap_next_offset, ITEM_BITMAP_OFFSET_TO_BIT, ITEM_BITMAP_BIT_TO_OFFSET, NVRAM_ITEM_ALIGN_SIZE.
  change (SEG / 16) with 256. unfold SEG in *.
  destruct (find_next_bit_spec m 256 ((16 + log_len pre) / 16) Hw) as (b & -> & Hf);
    [rewrite Hl; lia | Z.div_mod_to_equations; lia |]. cbn [mbind option_bind]. f_equal.
  destruct Hn16 as [n Hn]. rewrite Hn in *. rewrite Z.div_mul in Hb by lia.
  destruct (Z.ltb_spec ((16 + log_len pre) / 16) 256).
  - rewrite (first_bit_unique _ _ _ _ _ Hf Hb). reflexivity.
  - destruct Hb as (Hb & _). subst b. lia.
Qed.

(** ** Regions *)

Definition hdr_at (m : mem) (off : Z) : region_seg_header := seg_header_of (load m off SEG_HEADER_SIZE).

(** A region of [n] segments. *)
Record geometry (n : Z) (r : region_info) : Prop := mk_geometry {
  g_storage : storage r = true;
  g_seg : seg_size r = SEG;
  g_n : 2 <= n;
  g_total : total_size r = n * SEG;
  g_bound : total_size r < 2 ^ 31
}.

Definition seg_aligned (n off : Z) : Prop := exists i, 0 <= i < n /\ off = i * SEG.

(** The log of the segment at [off]. *)
Record seg_log (r : region_info) (off woff : Z) (es : list entry) : Prop := mk_seg_log {
  sl_entries : entries_ok es;
  sl_log : log_at (flash r) (off + 16) es;
  sl_fit : log_len es <= SEG - 16;
  sl_woff : woff = off + 16 + log_len es;
  sl_erased : erased (flash r) woff (off + SEG)
}.

(** The current segment is the only one with a valid header. *)
Record headers_ok (n : Z) (r : region_info) : Prop := mk_headers {
  h_current : is_valid_region_seg_header (hdr_at (flash r) (seg_offset r)) = true;
  h_seq : sh_seq_id (hdr_at (flash r) (seg_offset r)) = seg_seq_id r;
  h_seq_byte : 0 <= seg_seq_id r < 256;
  h_others : forall off, seg_aligned n off -> off <> seg_offset r ->
    is_valid_region_seg_header (hdr_at (flash r) off) = false
}.

Record region_log (n : Z) (r : region_info) (es : list entry) : Prop := mk_region_log {
  rl_geometry : geometry n r;
  rl_offset : seg_aligned n (seg_offset r);
  rl_seg : seg_log r (seg_offset r) (seg_write_offset r) es;
  rl_map : map_ok (seg_item_map r) es;
  rl_headers : headers_ok n r
}.

Lemma seg_in_region n r off : geometry n r -> seg_aligned n off -> in_region r off (off + SEG).
Proof.
  intros [H1 H2 H3 H4 H5] (i & Hi & ->). unfold in_region, SEG in *.
  split; [exact H1|]. rewrite H4 in *. nia.
Qed.

(** *** Searching *)

Definition found_at (so : Z) (o : option (Z * entry)) (res : option (Z * nvram_item)) : Prop :=
  match o with
  | Some (off, e) => res = Some (so + off, e_item e)
  | None => exists it, res = Some (- ENOENT, it)
  end.

Section Find.
Variables (n : Z) (r : region_info) (k : string).
Hypothesis Hg : geometry n r.
Hypothesis Hso : seg_aligned n (seg_offset r).
Hypothesis Hk : Forall (fun b => b <> 0) (name_bytes k).

Abbreviation so := (seg_offset r).

(** One round at an entry: it is the one, or the search goes on. *)
Lemma find_round fuel off e : entry_ok e -> 0 <= off -> off + e_aligned e <= SEG ->
  load (flash r) (so + off) (e_size e) = e_bytes e ->
  find_item_loop (S fuel) r (cstr k) (calc_hash (cstr k)) off =
    if e_valid e && bool_decide (k = e_name e) then Some (so + off, e_item e)
    else offs ← item_bitmap_next_offset (seg_item_map r) SEG (off + e_aligned e);
         find_item_loop fuel r (cstr k) (calc_hash (cstr k)) offs.
Proof.
  intros He H0 Hfit Hl. pose proof (seg_in_region n r _ Hg Hso) as Hin.
  destruct (e_item_fields e He) as (H1 & H2 & H3 & H4 & H5 & _).
  destruct (entry_parts e _ _ Hl) as (_ & Hnm & _).
  pose proof (e_aligned_bound e He). pose proof (e_size_bound e He). pose proof (name_len e He).
  pose proof (item_aligned_size e He) as Hal.
  assert (Hsz : e_size e = 8 + Z.of_nat (length (cstr (e_name e))) + Z.of_nat (length (e_data e)))
    by reflexivity.
  cbn [find_item_loop]. rewrite (g_seg n r Hg). destruct (Z.ltb_spec off SEG); [|lia].
  unfold ITEM_SIZE. rewrite must_read_ok by (lia || (eapply in_region_sub; [exact Hin | lia | lia])).
  cbn [mbind option_bind]. rewrite (entry_item e He _ _ Hl), H1. simpl negb. cbv iota.
  rewrite H2, H3, H4, Hal. destruct (e_valid e); [|reflexivity]. simpl (state_of true =? _). cbn [andb].
  destruct (Z.eqb_spec (calc_hash (cstr (e_name e))) (calc_hash (cstr k))) as [E|E].
  - rewrite read_buf_ok by (lia || (eapply in_region_sub; [exact Hin | lia | lia])).
    cbn [mbind option_bind]. rewrite Hnm.
    destruct (decide (k = e_name e)) as [Ek|Ek].
    + rewrite !bool_decide_eq_true_2; [reflexivity | exact Ek | apply cstr_prefix; assumption].
    + rewrite !bool_decide_eq_false_2; [reflexivity | exact Ek |].
      intros Hp. apply Ek. apply cstr_prefix; assumption.
  - cbn [mbind option_bind]. rewrite bool_decide_eq_false_2; [reflexivity | congruence].
Qed.

(** Without a bitmap the loop visits every entry. *)
Lemma find_loop_plain rest : seg_item_map r = None -> entries_ok rest ->
  forall off fuel, 0 <= off -> off + log_len rest <= SEG -> log_at (flash r) (so + off) rest ->
  erased (flash r) (so + off + log_len rest) (so + SEG) -> (off + log_len rest <= SEG - 16 \/ off + log_len rest = SEG) ->
  (length rest < fuel)%nat ->
  found_at so (find_entry off rest k) (find_item_loop fuel r (cstr k) (calc_hash (cstr k)) off).
Proof.
  intros Hmap. induction 1 as [|e rest He Hrest IH]; intros off fuel H0 Hfit Hlog Her Hend Hf.
  - destruct fuel as [|fuel]; [simpl in Hf; lia|]. cbn [log_len foldr find_entry found_at] in *.
    cbn [find_item_loop]. rewrite (g_seg n r Hg).
    destruct (Z.ltb_spec off SEG); [|eauto]. pose proof (seg_in_region n r _ Hg Hso) as Hin.
    unfold ITEM_SIZE. rewrite must_read_ok by (lia || (eapply in_region_sub; [exact Hin | lia | lia])).
    cbn [mbind option_bind]. eexists. unfold item_of at 1. cbn [it_magic].
    rewrite nth_lookup, load_lookup, Her by lia. reflexivity.
  - destruct fuel as [|fuel]; [simpl in Hf; lia|]. cbn [log_len foldr find_entry] in *. destruct Hlog as [Hl Hlog].
    pose proof (e_aligned_bound e He). pose proof (log_len_nonneg rest Hrest). unfold log_len in *.
    rewrite (find_round fuel off e He H0) by (exact Hl || lia).
    destruct (e_valid e && bool_decide (k = e_name e)); [reflexivity|].
    rewrite Hmap. cbn [item_bitmap_next_offset mbind option_bind].
    apply IH; rewrite ?Z.add_assoc in *; try lia; try assumption. simpl in Hf. lia.
Qed.

(** With the bitmap it visits the valid ones. *)
Lemma find_loop_map rest : entries_ok rest -> forall off fuel, 0 <= off -> off + log_len rest <= SEG ->
  log_at (flash r) (so + off) rest ->
  (forall pre post, rest = pre ++ post ->
     item_bitmap_next_offset (seg_item_map r) SEG (off + log_len pre)
       = Some (next_valid (off + log_len pre) post)) ->
  (length rest < fuel)%nat ->
  found_at so (find_entry off rest k)
    (find_item_loop fuel r (cstr k) (calc_hash (cstr k)) (next_valid off rest)).
Proof.
  induction 1 as [|e rest He Hrest IH]; intros off fuel H0 Hfit Hlog Hnext Hf.
  - destruct fuel as [|fuel]; [simpl in Hf; lia|]. cbn [next_valid find_entry found_at find_item_loop].
    rewrite (g_seg n r Hg). eauto.
  - cbn [log_len foldr find_entry next_valid] in *. destruct Hlog as [Hl Hlog].
    pose proof (e_aligned_bound e He). pose proof (log_len_nonneg rest Hrest). unfold log_len in *.
    assert (Hnext' : forall pre post, rest = pre ++ post ->
       item_bitmap_next_offset (seg_item_map r) SEG (off + e_aligned e + log_len pre)
         = Some (next_valid (off + e_aligned e + log_len pre) post)).
    { intros pre post ->. specialize (Hnext (e :: pre) post eq_refl). simpl in Hnext.
      rewrite Z.add_assoc in Hnext. exact Hnext. }
    destruct (e_valid e) eqn:Ev.
    + destruct fuel as [|fuel]; [simpl in Hf; lia|].
      rewrite (find_round fuel off e He H0) by (exact Hl || lia). rewrite Ev.
      destruct (true && bool_decide (k = e_name e)); [reflexivity|].
      specialize (Hnext' [] rest eq_refl) as Hn0. cbn [log_len foldr] in Hn0. rewrite Z.add_0_r in Hn0.
      rewrite Hn0. cbn [mbind option_bind].
      apply IH; rewrite ?Z.add_assoc in *; try lia; try assumption. simpl in Hf. lia.
    + cbn [andb]. apply IH; rewrite ?Z.add_assoc in *; try lia; try assumption. simpl in Hf. lia.
Qed.
End Find.

Lemma seg_rounds_enough n r es : geometry n r -> entries_ok es -> log_len es <= SEG - 16 ->
  (length es < seg_rounds r)%nat.
Proof.
  intros Hg Hok Hfit. pose proof (log_len_count es Hok). unfold seg_rounds. rewrite (g_seg n r Hg).
  unfold SEG in *. change (0x1000 / NVRAM_ITEM_ALIGN_SIZE) with 256. lia.
Qed.

Lemma find_item_seg n r es k : geometry n r -> seg_aligned n (seg_offset r) ->
  seg_log r (seg_offset r) (seg_write_offset r) es -> map_ok (seg_item_map r) es ->
  Forall (fun b => b <> 0) (name_bytes k) ->
  found_at (seg_offset r) (find_entry 16 es k) (region_find_item r k).
Proof.
  intros Hg Hso [Hok Hlog Hfit Hw Her] Hm Hk. unfold region_find_item. rewrite (g_seg n r Hg).
  pose proof (log_len_nonneg es Hok).
  destruct (seg_item_map r) as [m|] eqn:Em.
  - rewrite (bitmap_first m es Hm Hok Hfit). cbn [mbind option_bind].
    apply (find_loop_map n r k Hg Hso Hk es Hok); [lia | lia | exact Hlog | |
      apply (seg_rounds_enough n r es Hg Hok Hfit)].
    intros pre post ->. rewrite Em. apply bitmap_next; assumption.
  - cbn [item_bitmap_first_offset mbind option_bind].
    apply (find_loop_plain n r k Hg Hso Hk es Em Hok); unfold NVRAM_SEG_ITEM_START_OFFSET;
      [lia | lia | exact Hlog | rewrite <- Hw; exact Her | | apply (seg_rounds_enough n r es Hg Hok Hfit)].
    pose proof (log_len_16 es) as [q Hq]. unfold SEG in *. lia.
Qed.

Lemma region_find_item_ok n r es k : region_log n r es -> Forall (fun b => b <> 0) (name_bytes k) ->
  found_at (seg_offset r) (find_entry 16 es k) (region_find_item r k).
Proof. intros [Hg Hso Hs Hm _] Hk. apply (find_item_seg n); assumption. Qed.

(** *** The map of the valid entries *)

Fixpoint log_view (es : list entry) : gmap string (list Z) :=
  match es with
  | [] => ∅
  | e :: es => if e_valid e then <[e_name e := e_data e]> (log_view es) else log_view es
  end.

Lemma find_entry_view es k : forall off,
  match find_entry off es k with
  | Some (_, e) => log_view es !! k = Some (e_data e)
  | None => log_view es !! k = None
  end.
Proof.
  induction es as [|e es IH]; intros off; simpl; [apply lookup_empty|].
  destruct (e_valid e); simpl; [|apply IH]. case_bool_decide as E.
  - rewrite E. apply lookup_insert_eq.
  - specialize (IH (off + e_aligned e)). destruct (find_entry _ es k) as [[o x]|];
      rewrite lookup_insert_ne by congruence; exact IH.
Qed.

(** Where the entry found is in the log. *)
Lemma find_entry_split es k : forall off o e, find_entry off es k = Some (o, e) ->
  exists pre post, es = pre ++ e :: post /\ o = off + log_len pre /\ e_valid e = true /\ e_name e = k.
Proof.
  induction es as [|x es IH]; intros off o e; simpl; [discriminate|].
  destruct (e_valid x && bool_decide (k = e_name x)) eqn:E.
  - intros [= <- <-]. apply andb_true_iff in E. destruct E as [E1 E2%bool_decide_eq_true].
    exists [], es. rewrite Z.add_0_r. auto.
  - intros (pre & post & -> & -> & H1 & H2)%IH. exists (x :: pre), post. simpl. rewrite Z.add_assoc. auto.
Qed.

Lemma find_entry_none es k : forall off, find_entry off es k = None ->
  Forall (fun e => e_valid e = true -> e_name e <> k) es.
Proof.
  induction es as [|x es IH]; intros off; simpl; [constructor|].
  destruct (e_valid x && bool_decide (k = e_name x)) eqn:E; [discriminate|]. intros H. constructor.
  - intros Hv Hn. rewrite Hv, bool_decide_eq_true_2 in E; [discriminate | congruence].
  - eapply IH. exact H.
Qed.

Lemma region_get_step n r es k max : region_log n r es -> Forall (fun b => b <> 0) (name_bytes k) ->
  0 < max ->
  region_get r k max = match log_view es !! k with
                       | Some v => Some (Z.min max (Z.of_nat (length v)), take (Z.to_nat max) v)
                       | None => Some (- ENOENT, [])
                       end.
Proof.
  intros Hr Hk Hmax. pose proof (region_find_item_ok n r es k Hr Hk) as Hf.
  destruct Hr as [Hg Hso [Hok Hlog Hfit Hw Her] _ _]. unfold region_get.
  destruct (Z.eqb_spec max 0); [lia|]. pose proof (find_entry_view es k 16) as Hv.
  destruct (find_entry 16 es k) as [[o e]|] eqn:E; simpl in Hf.
  - rewrite Hf, Hv. cbn [mbind option_bind]. destruct (find_entry_split es k _ _ _ E) as (pre & post & -> & -> & _ & _).
    apply Forall_app in Hok. destruct Hok as [Hpre [He Hpost]%List.Forall_cons_iff].
    rewrite log_at_app in Hlog. destruct Hlog as [_ [Hl _]]. rewrite log_len_app in Hfit. simpl in Hfit.
    pose proof (log_len_nonneg pre Hpre). pose proof (log_len_nonneg post Hpost).
    pose proof (e_aligned_bound e He). unfold log_len in *.
    pose proof (seg_in_region n r _ Hg Hso) as Hin. pose proof Hin as (_ & Hso0 & _).
    destruct (e_item_fields e He) as (_ & _ & _ & H4 & H5 & _).
    rewrite <- Z.add_assoc in Hl. destruct (entry_parts e _ _ Hl) as (_ & _ & Hd).
    unfold ITEM_SIZE. rewrite H4, H5.
    set (o := seg_offset r + (16 + _)) in *.
    destruct (Z.ltb_spec o 0); [lia|]. unfold e_size in *.
    assert (Hlen : (if max <? Z.of_nat (length (e_data e)) then max else Z.of_nat (length (e_data e)))
                   = Z.min max (Z.of_nat (length (e_data e)))) by (reflect_bools; lia).
    rewrite Hlen, must_read_ok by (lia || (eapply in_region_sub; [exact Hin | lia | lia])).
    cbn [mbind option_bind]. do 2 f_equal. rewrite <- Hd at 2. unfold load. rewrite <- fmap_take.
    destruct (decide (max < Z.of_nat (length (e_data e)))).
    + rewrite Z.min_l by lia. f_equal. rewrite (seqZ_split 0 (Z.of_nat (length (e_data e))) max) by lia.
      rewrite take_app_length' by (rewrite length_seqZ; reflexivity). reflexivity.
    + rewrite Z.min_r by lia. rewrite take_ge by (rewrite length_seqZ; lia). reflexivity.
  - destruct Hf as [it ->]. rewrite Hv. reflexivity.
Qed.

(** *** Appending and invalidating entries *)

Lemma log_view_app es1 es2 : log_view (es1 ++ es2) = log_view es1 ∪ log_view es2.
Proof.
  induction es1 as [|e es1 IH]; simpl; [rewrite (left_id_L ∅ (∪)); reflexivity|].
  destruct (e_valid e); rewrite IH; [apply insert_union_l | reflexivity].
Qed.

Lemma log_view_none es k : Forall (fun e => e_valid e = true -> e_name e <> k) es ->
  log_view es !! k = None.
Proof.
  induction 1 as [|e es He _ IH]; simpl; [apply lookup_empty|].
  destruct (e_valid e); [|exact IH]. rewrite lookup_insert_ne; [exact IH | apply He; reflexivity].
Qed.

(** At most one valid entry per name. *)
Definition valid_names (es : list entry) : list string := e_name <$> filter (fun e => e_valid e = true) es.
Definition unique_names (es : list entry) : Prop := NoDup (valid_names es).

Lemma valid_names_app es1 es2 : valid_names (es1 ++ es2) = valid_names es1 ++ valid_names es2.
Proof. unfold valid_names. rewrite filter_app, fmap_app. reflexivity. Qed.

Lemma valid_names_not_in es k : k ∉ valid_names es -> Forall (fun e => e_valid e = true -> e_name e <> k) es.
Proof.
  intros H. apply Forall_forall. intros e He Hv <-. apply H. unfold valid_names.
  apply list_elem_of_fmap. exists e. split; [reflexivity|]. apply list_elem_of_filter. auto.
Qed.

Lemma not_in_valid_names es k : Forall (fun e => e_valid e = true -> e_name e <> k) es -> k ∉ valid_names es.
Proof.
  intros H. unfold valid_names. intros (e & -> & [Hv He]%list_elem_of_filter)%list_elem_of_fmap.
  rewrite Forall_forall in H. exact (H e He Hv eq_refl).
Qed.

(** Writing [k]: the old entry is invalidated and the new one appended. *)
Lemma view_replaced pre e post k v : unique_names (pre ++ e :: post) -> e_valid e = true -> e_name e = k ->
  unique_names ((pre ++ invalidate e :: post) ++ [mk_entry true k v]) /\
  log_view ((pre ++ invalidate e :: post) ++ [mk_entry true k v]) = <[k := v]> (log_view (pre ++ e :: post)).
Proof.
  intros Hu Hv Hn. unfold unique_names in Hu. rewrite valid_names_app in Hu.
  assert (Hve : valid_names (e :: post) = k :: valid_names post).
  { unfold valid_names. rewrite filter_cons_True by exact Hv. simpl. rewrite Hn. reflexivity. }
  rewrite Hve in Hu. apply NoDup_app in Hu. destruct Hu as (Hu1 & Hu2 & Hu3).
  apply NoDup_cons in Hu3. destruct Hu3 as [Hk Hu3].
  assert (Hkpre : k ∉ valid_names pre) by (intros H; apply (Hu2 k H); left).
  assert (Hinv : forall l, valid_names (invalidate e :: l) = valid_names l).
  { intros l. unfold valid_names. rewrite filter_cons_False; [reflexivity|]. simpl. congruence. }
  split.
  - unfold unique_names. rewrite !valid_names_app, Hinv. apply NoDup_app. split; [|split].
    + apply NoDup_app. split; [exact Hu1|]. split; [|exact Hu3].
      intros x Hx Hx'. apply (Hu2 x Hx). right. exact Hx'.
    + intros x Hx Hx'. apply list_elem_of_singleton in Hx'. subst x.
      apply elem_of_app in Hx. tauto.
    + apply NoDup_singleton.
  - rewrite <- app_assoc. cbn [app]. rewrite !log_view_app. cbn [log_view invalidate e_valid].
    rewrite log_view_app, Hv, Hn. cbn [log_view e_valid e_name e_data].
    apply valid_names_not_in in Hk, Hkpre. apply log_view_none in Hk, Hkpre.
    apply map_eq. intros x. destruct (decide (x = k)) as [->|Hne].
    + rewrite lookup_insert_eq, lookup_union_r by exact Hkpre.
      rewrite lookup_union_r by exact Hk. apply lookup_insert_eq.
    + rewrite lookup_insert_ne, !lookup_union, !lookup_insert_ne by congruence.
      rewrite lookup_empty. destruct (log_view pre !! x), (log_view post !! x); reflexivity.
Qed.

Lemma view_appended es k v : unique_names es -> Forall (fun e => e_valid e = true -> e_name e <> k) es ->
  unique_names (es ++ [mk_entry true k v]) /\
  log_view (es ++ [mk_entry true k v]) = <[k := v]> (log_view es).
Proof.
  intros Hu Hn. split.
  - unfold unique_names. rewrite valid_names_app. apply NoDup_app. split; [exact Hu|].
    split; [|apply NoDup_singleton]. intros x Hx Hx'. apply list_elem_of_singleton in Hx'. subst x.
    exact (not_in_valid_names es k Hn Hx).
  - rewrite log_view_app. simpl. rewrite <- insert_union_r by (apply log_view_none; exact Hn).
    rewrite (right_id_L ∅ (∪)). reflexivity.
Qed.

(** *** What a change of the flash preserves *)

Lemma hdr_at_ext m m' off : (forall x, off <= x < off + 16 -> m x = m' x) -> hdr_at m off = hdr_at m' off.
Proof. intros H. unfold hdr_at, SEG_HEADER_SIZE. f_equal. apply load_ext. exact H. Qed.

Lemma headers_ext n r r' : seg_aligned n (seg_offset r) ->
  seg_offset r' = seg_offset r -> seg_seq_id r' = seg_seq_id r ->
  (forall off x, seg_aligned n off -> off <= x < off + 16 -> flash r' x = flash r x) ->
  headers_ok n r -> headers_ok n r'.
Proof.
  intros Ha E1 E2 Hx [H1 H2 H3 H4].
  assert (Hh : forall off, seg_aligned n off -> hdr_at (flash r') off = hdr_at (flash r) off).
  { intros off Ho. apply hdr_at_ext. intros x Hx'. apply (Hx off x Ho Hx'). }
  split; rewrite ?E1, ?E2, ?(Hh _ Ha); try assumption.
  intros off Ho Hne. rewrite (Hh off Ho). apply H4; assumption.
Qed.

(** Headers and the body of a segment do not overlap. *)
Lemma header_apart n off off' x : seg_aligned n off -> seg_aligned n off' -> off <= x < off + 16 ->
  x < off' + 16 \/ off' + SEG <= x.
Proof. intros (i & Hi & ->) (j & Hj & ->) Hx. unfold SEG in *. lia. Qed.

Lemma update_map_ok r off is_set es es' : map_ok (seg_item_map r) es -> 0 <= off < SEG -> (16 | off) ->
  (forall b, 0 <= b < SEG -> valid_at 16 es' b <-> (if b =? off then is_set = true else valid_at 16 es b)) ->
  exists om, update_map r off is_set = Some (set_item_map r om) /\ map_ok om es'.
Proof.
  intros Hm Ho [q Hq] Hv. unfold update_map, SEG in *. destruct (seg_item_map r) as [m|].
  - destruct Hm as (Hw & Hl & Hb).
    destruct (item_bitmap_update_ok m off is_set Hw) as (m' & -> & Hw' & Hl' & Hb');
      [lia | rewrite Hl; Z.div_mod_to_equations; lia |].
    cbn [mbind option_bind]. eexists. split; [reflexivity|]. split; [exact Hw'|]. split; [congruence|].
    intros j Hj. rewrite Hb', Hv by lia. subst off. rewrite Z.div_mul by lia.
    destruct (Z.eqb_spec j q), (Z.eqb_spec (16 * j) (q * 16)); try lia; [tauto|]. apply Hb. lia.
  - cbn [item_bitmap_update mbind option_bind]. eexists. split; [reflexivity | exact I].
Qed.

Lemma erased_sub m a b c d : erased m a b -> a <= c -> d <= b -> erased m c d.
Proof. intros H Ha Hb x Hx. apply H. lia. Qed.

Lemma region_write_item_ok n r es k v : region_log n r es ->
  entry_ok (mk_entry true k v) -> log_len es + e_aligned (mk_entry true k v) <= SEG - 16 ->
  exists sz m, region_write_item r (seg_write_offset r) k v = (sz, set_flash r m) /\
    forall x, m x = flash_write (flash r) (seg_write_offset r) (e_bytes (mk_entry true k v)) x.
Proof.
  intros [Hg Hso [Hok Hlog Hfit Hw Her] _ _] He Hnew. set (e := mk_entry true k v) in *.
  pose proof (name_len e He) as Hnl. pose proof (e_aligned_bound e He). pose proof (log_len_nonneg es Hok).
  pose proof (seg_in_region n r _ Hg Hso) as Hin.
  destruct (e_item_fields e He) as (_ & _ & _ & H4 & _ & _).
  assert (Hitem : e_item e = new_item (cstr k) v).
  { subst e. unfold e_item, with_state. cbn [e_name e_data e_valid]. destruct (new_item (cstr k) v) eqn:E.
    unfold new_item in E. injection E as <- <- <- <- <- <- <-. reflexivity. }
  rewrite Hitem in H4. unfold e_size in *. change (e_name e) with k in *. change (e_data e) with v in *.
  unfold region_write_item. rewrite H4, Nat2Z.id, take_ge by lia. unfold ITEM_SIZE, NVRAM_BUFFER_SIZE.
  rewrite Z.gtb_ltb. destruct (Z.ltb_spec 128 (8 + Z.of_nat (length (cstr k)))); [lia|].
  set (wo := seg_write_offset r) in *.
  assert (Hhl : Z.of_nat (length (item_bytes (new_item (cstr k) v) ++ cstr k)) = 8 + Z.of_nat (length (cstr k)))
    by (rewrite length_app, item_bytes_length; lia).
  destruct (region_write_ok r wo (item_bytes (new_item (cstr k) v) ++ cstr k)) as (m1 & E1 & Hm1).
  { rewrite Hhl. eapply in_region_sub; [exact Hin | lia | lia]. }
  destruct (region_write r wo _) as [err r1]. cbn [snd] in E1. subst r1.
  destruct (region_write_data_ok (S (length v)) (set_flash r m1) (wo + (8 + Z.of_nat (length (cstr k)))) v)
    as (m2 & E2 & Hm2); [lia | |].
  { apply in_region_flash. eapply in_region_sub; [exact Hin | lia | lia]. }
  rewrite E2. eexists _, m2. split; [reflexivity|]. intros x. rewrite Hm2. simpl flash.
  rewrite (flash_write_proper _ _ _ _ _ (Hm1 x)), <- Hhl, flash_write_app.
  unfold e_bytes. rewrite Hitem, <- app_assoc. reflexivity.
Qed.

(** The log with the new entry at its end. *)
Lemma append_log r off es woff e m : seg_log r off woff es -> entry_ok e ->
  log_len es + e_aligned e <= SEG - 16 ->
  (forall x, m x = flash_write (flash r) woff (e_bytes e) x) ->
  seg_log (set_flash r m) off (woff + e_aligned e) (es ++ [e]).
Proof.
  intros [Hok Hlog Hfit Hw Her] He Hnew Hm. pose proof (e_aligned_bound e He).
  pose proof (log_len_nonneg es Hok). pose proof (e_bytes_length e).
  split; simpl flash.
  - apply Forall_app. split; [exact Hok | constructor; [exact He | constructor]].
  - rewrite log_at_app. split; [|split; [|exact I]].
    + eapply log_at_ext; [exact Hok | | exact Hlog]. intros x Hx. symmetry. rewrite Hm.
      apply flash_write_outside. lia.
    + rewrite <- Hw, <- (load_flash_write (flash r) woff (e_bytes e)); [|eapply erased_sub; [exact Her | lia | lia]
        | apply e_bytes_range; exact He].
      rewrite e_bytes_length. apply load_ext. intros x _. apply Hm.
  - rewrite log_len_app. simpl. lia.
  - rewrite log_len_app. simpl. lia.
  - intros x Hx. rewrite Hm, flash_write_outside by lia. apply Her. lia.
Qed.

Lemma valid_at_append es e b : valid_at 16 (es ++ [e]) b <->
  valid_at 16 es b \/ (e_valid e = true /\ b = 16 + log_len es).
Proof. rewrite valid_at_app. simpl. tauto. Qed.

(** Writing the item and its bit. *)
Lemma append_written n r es k v : region_log n r es ->
  entry_ok (mk_entry true k v) -> log_len es + e_aligned (mk_entry true k v) <= SEG - 16 ->
  exists sz m om, region_write_item r (seg_write_offset r) k v = (sz, set_flash r m) /\
    update_map (set_flash r m) (seg_write_offset r - seg_offset r) true = Some (set_item_map (set_flash r m) om) /\
    region_log n (set_write_offset (set_item_map (set_flash r m) om)
                    (seg_write_offset r + e_aligned (mk_entry true k v))) (es ++ [mk_entry true k v]).
Proof.
  intros Hr He Hnew. destruct (region_write_item_ok n r es k v Hr He Hnew) as (sz & m & Hwr & Hm).
  set (e := mk_entry true k v) in *. pose proof (e_aligned_bound e He).
  destruct Hr as [Hg Hso Hseg Hmap Hh]. pose proof (log_len_nonneg es (sl_entries _ _ _ _ Hseg)) as Hnn.
  pose proof (sl_woff _ _ _ _ Hseg) as Hw. pose proof (e_bytes_length e).
  destruct (update_map_ok (set_flash r m) (seg_write_offset r - seg_offset r) true es (es ++ [e]) Hmap)
    as (om & Hum & Hom).
  { lia. }
  { rewrite Hw. replace (seg_offset r + 16 + log_len es - seg_offset r) with (16 + log_len es) by lia.
    apply Z.divide_add_r; [exists 1; reflexivity | apply log_len_16]. }
  { intros b Hb. rewrite valid_at_append. rewrite Hw.
    destruct (Z.eqb_spec b (seg_offset r + 16 + log_len es - seg_offset r)) as [->|Hne]; [|].
    - split; [reflexivity|]. intros _. right. split; [reflexivity | lia].
    - split; [|auto]. intros [Hv|[_ ->]]; [exact Hv | lia]. }
  exists sz, m, om. split; [exact Hwr|]. split; [exact Hum|]. split.
  - destruct Hg. split; assumption.
  - exact Hso.
  - pose proof (append_log r (seg_offset r) es (seg_write_offset r) e m Hseg He Hnew Hm) as [A B C D E].
    split; assumption.
  - exact Hom.
  - eapply headers_ext; [exact Hso | reflexivity | reflexivity | | exact Hh]. intros off x Ho Hx. simpl.
    rewrite Hm. apply flash_write_outside. pose proof (header_apart n off _ x Ho Hso Hx).
    unfold SEG in *. lia.
Qed.

(** *** Marking an entry as obsolete *)

Lemma e_size_invalidate e : e_size (invalidate e) = e_size e.
Proof. reflexivity. Qed.

Lemma e_aligned_invalidate e : e_aligned (invalidate e) = e_aligned e.
Proof. reflexivity. Qed.

Lemma e_bytes_invalidate e : e_bytes (invalidate e) = <[1%nat := NVRAM_ITEM_STATE_OBSOLETE]> (e_bytes e).
Proof. reflexivity. Qed.

Lemma load_write_byte m off b size : 2 <= size ->
  load (flash_write m (off + 1) [b]) off size = <[1%nat := Z.land (m (off + 1)) b]> (load m off size).
Proof.
  intros Hs. apply list_eq. intros i. destruct (decide (Z.of_nat i < size)) as [Hi|Hi].
  - rewrite load_lookup by exact Hi. destruct (decide (i = 1%nat)) as [->|Hne].
    + rewrite list_lookup_insert_eq by (rewrite load_length; lia). unfold flash_write. simpl length.
      rewrite (proj2 (Z.leb_le _ _)), (proj2 (Z.ltb_lt _ _)) by lia. simpl andb. cbv iota.
      rewrite Z.sub_diag. reflexivity.
    + rewrite list_lookup_insert_ne, load_lookup by (congruence || lia).
      f_equal. apply flash_write_outside. simpl. lia.
  - rewrite !lookup_ge_None_2; [reflexivity | rewrite length_insert, load_length; lia | rewrite load_length; lia].
Qed.

Lemma log_len_invalidate pre e post : log_len (pre ++ invalidate e :: post) = log_len (pre ++ e :: post).
Proof. rewrite !log_len_app. reflexivity. Qed.

Lemma valid_at_invalidate pre e post b : entries_ok (pre ++ e :: post) -> e_valid e = true ->
  valid_at 16 (pre ++ invalidate e :: post) b <->
  (if b =? 16 + log_len pre then false = true else valid_at 16 (pre ++ e :: post) b).
Proof.
  intros [Hpre [He Hpost]%List.Forall_cons_iff]%Forall_app Hv. rewrite !valid_at_app. cbn [valid_at].
  rewrite e_aligned_invalidate. simpl e_valid. pose proof (e_aligned_bound e He).
  destruct (Z.eqb_spec b (16 + log_len pre)) as [->|Hne].
  - split; [|discriminate]. intros [Hx|[[Hx _]|Hx]]; [|discriminate|].
    + apply valid_at_range in Hx; [lia | exact Hpre].
    + apply valid_at_range in Hx; [lia | exact Hpost].
  - rewrite valid_at_app. cbn [valid_at]. split; intros [Hx|[[Hx Hy]|Hx]]; auto; contradiction.
Qed.

Lemma obsolete_old_ok n r pre e post : region_log n r (pre ++ e :: post) -> e_valid e = true ->
  exists r', obsolete_old r (seg_offset r + (16 + log_len pre)) = Some r' /\
    region_log n r' (pre ++ invalidate e :: post).
Proof.
  intros [Hg Hso Hseg Hmap Hh] Hv. pose proof (seg_in_region n r _ Hg Hso) as Hin.
  pose proof Hin as (_ & Hso0 & _). destruct Hseg as [Hok Hlog Hfit Hw Her].
  pose proof Hok as [Hpre [He Hpost]%List.Forall_cons_iff]%Forall_app.
  pose proof (log_len_nonneg pre Hpre). pose proof (log_len_nonneg post Hpost).
  pose proof (e_aligned_bound e He). pose proof (e_size_bound e He).
  rewrite log_at_app in Hlog. destruct Hlog as [Hlp [Hl Hlq]].
  rewrite log_len_app in Hfit. cbn [log_len foldr] in Hfit. unfold log_len in *. fold (log_len pre) in *. fold (log_len post) in *.
  unfold obsolete_old. set (o := seg_offset r + (16 + log_len pre)) in *.
  rewrite Z.gtb_ltb. destruct (Z.ltb_spec 0 o); [|lia].
  unfold item_update_state.
  destruct (region_write_ok r (o + 1) [NVRAM_ITEM_STATE_OBSOLETE]) as (m & -> & Hm).
  { simpl length. eapply in_region_sub; [exact Hin | lia | lia]. }
  destruct (update_map_ok (set_flash r m) (o - seg_offset r) false (pre ++ e :: post)
              (pre ++ invalidate e :: post) Hmap) as (om & Hum & Hom).
  { lia. }
  { replace (o - seg_offset r) with (16 + log_len pre) by lia.
    apply Z.divide_add_r; [exists 1; reflexivity | apply log_len_16]. }
  { intros b Hb. replace (o - seg_offset r) with (16 + log_len pre) by lia.
    apply valid_at_invalidate; assumption. }
  exists (set_item_map (set_flash r m) om). split; [exact Hum|].
  assert (Hout : forall x, x <> o + 1 -> m x = flash r x).
  { intros x Hx. rewrite Hm. apply flash_write_outside. simpl. lia. }
  split; [destruct Hg; split; assumption | exact Hso | | exact Hom |].
  - split; simpl flash; simpl seg_offset; simpl seg_write_offset.
    + apply Forall_app. split; [exact Hpre | constructor; [exact He | exact Hpost]].
    + rewrite log_at_app. split; [|split].
      * eapply log_at_ext; [exact Hpre | | exact Hlp]. intros x Hx. symmetry. apply Hout. lia.
      * rewrite e_size_invalidate, e_bytes_invalidate.
        replace (seg_offset r + 16 + log_len pre) with o in * by lia.
        rewrite (load_ext m (flash_write (flash r) (o + 1) [NVRAM_ITEM_STATE_OBSOLETE])) by (intros x _; apply Hm).
        rewrite load_write_byte, Hl by lia. f_equal.
        assert (Hst : load (flash r) o (e_size e) !! 1%nat = Some NVRAM_ITEM_STATE_VALID).
        { rewrite Hl. change (e_bytes e !! 1%nat) with (Some (it_state (e_item e))).
          destruct (e_item_fields e He) as (_ & -> & _). rewrite Hv. reflexivity. }
        rewrite load_lookup in Hst by lia. injection Hst as Hst.
        change (o + 1) with (o + Z.of_nat 1). rewrite Hst. reflexivity.
      * rewrite e_aligned_invalidate. eapply log_at_ext; [exact Hpost | | exact Hlq].
        intros x Hx. symmetry. apply Hout. lia.
    + rewrite log_len_app. simpl. fold (log_len post). rewrite e_aligned_invalidate. lia.
    + rewrite Hw, !log_len_app. reflexivity.
    + intros x Hx. rewrite Hout; [apply Her; exact Hx|]. rewrite log_len_app in Hw. cbn [log_len foldr] in Hw.
      unfold log_len in *. lia.
  - eapply headers_ext; [exact Hso | reflexivity | reflexivity | | exact Hh]. intros off x Ho Hx. simpl.
    apply Hout. pose proof (header_apart n off _ x Ho Hso Hx). unfold SEG in *. lia.
Qed.

(** *** Comparing with the stored value *)

Lemma same_data_loop_ok fuel : forall r off d, (length d < fuel)%nat ->
  in_region r off (off + Z.of_nat (length d)) ->
  same_data_loop fuel r off d = Some (bool_decide (load (flash r) off (Z.of_nat (length d)) = d)).
Proof.
  induction fuel as [|fuel IH]; intros r off d Hf Hin; [lia|]. cbn [same_data_loop].
  rewrite Z.gtb_ltb. destruct (Z.ltb_spec 0 (Z.of_nat (length d))).
  - set (w := if _ <? _ then _ else _).
    assert (Hw : 0 < w <= Z.of_nat (length d) /\ w <= 128)
      by (subst w; unfold NVRAM_BUFFER_SIZE; reflect_bools; lia).
    rewrite read_buf_ok by (lia || (eapply in_region_sub; [exact Hin | lia | lia])). cbn [mbind option_bind].
    assert (Hdl : Z.of_nat (length (drop (Z.to_nat w) d)) = Z.of_nat (length d) - w)
      by (rewrite length_drop; lia).
    assert (Hsplit : load (flash r) off (Z.of_nat (length d)) =
              load (flash r) off w ++ load (flash r) (off + w) (Z.of_nat (length d) - w)).
    { rewrite <- load_app by lia. f_equal. lia. }
    case_bool_decide as E.
    + rewrite IH by (lia || (rewrite Hdl; eapply in_region_sub; [exact Hin | lia | lia])). f_equal.
      rewrite Hdl. apply bool_decide_ext. rewrite Hsplit, E.
      split; intros Hx; [rewrite Hx; apply take_drop|].
      apply (app_inv_head (take (Z.to_nat w) d)). rewrite Hx, take_drop. reflexivity.
    + rewrite bool_decide_eq_false_2; [reflexivity|]. rewrite Hsplit. intros E2. apply E.
      rewrite <- E2. rewrite take_app_length' by (rewrite load_length; lia). reflexivity.
  - destruct d; [|simpl in *; lia]. reflexivity.
Qed.

Lemma region_is_same_ok n r es k v : region_log n r es -> Forall (fun b => b <> 0) (name_bytes k) ->
  v <> [] -> region_is_same_config_data r k v = Some (bool_decide (log_view es !! k = Some v)).
Proof.
  intros Hr Hk Hv. pose proof (region_find_item_ok n r es k Hr Hk) as Hf.
  destruct Hr as [Hg Hso [Hok Hlog Hfit Hw Her] _ _]. unfold region_is_same_config_data.
  pose proof (find_entry_view es k 16) as Hvw.
  destruct (find_entry 16 es k) as [[o e]|] eqn:E; simpl in Hf.
  - rewrite Hf, Hvw. cbn [mbind option_bind].
    destruct (find_entry_split es k _ _ _ E) as (pre & post & -> & -> & _ & _).
    apply Forall_app in Hok. destruct Hok as [Hpre [He Hpost]%List.Forall_cons_iff].
    rewrite log_at_app in Hlog. destruct Hlog as [_ [Hl _]]. rewrite log_len_app in Hfit. simpl in Hfit.
    pose proof (log_len_nonneg pre Hpre). pose proof (log_len_nonneg post Hpost).
    pose proof (e_aligned_bound e He). unfold log_len in *.
    pose proof (seg_in_region n r _ Hg Hso) as Hin. pose proof Hin as (_ & Hso0 & _).
    destruct (e_item_fields e He) as (_ & _ & _ & H4 & H5 & _).
    rewrite <- Z.add_assoc in Hl. destruct (entry_parts e _ _ Hl) as (_ & _ & Hd).
    set (o := seg_offset r + (16 + _)) in *. unfold ITEM_SIZE, e_size in *. rewrite H4, H5.
    rewrite Z.gtb_ltb. destruct (Z.ltb_spec 0 o); [|lia]. cbn [andb].
    destruct (Z.eqb_spec (Z.of_nat (length v)) (Z.of_nat (length (e_data e)))) as [El|El].
    + rewrite same_data_loop_ok by (lia || (eapply in_region_sub; [exact Hin | lia | lia])).
      rewrite El, Hd. f_equal. apply bool_decide_ext. split; congruence.
    + rewrite bool_decide_eq_false_2; [reflexivity|]. intros [= Hx]. congruence.
  - destruct Hf as [it ->]. rewrite Hvw. cbn [mbind option_bind]. rewrite bool_decide_eq_false_2 by congruence.
    reflexivity.
Qed.

(** ** Compaction *)

Lemma region_copy_ok fuel : forall r src dst len, 0 <= len < Z.of_nat fuel ->
  in_region r src (src + len) -> in_region r dst (dst + len) ->
  src + len <= dst \/ dst + len <= src ->
  rewrites r (snd (region_copy fuel r src dst len)) (flash_write (flash r) dst (load (flash r) src len)).
Proof.
  induction fuel as [|fuel IH]; intros r src dst len Hf Hs Hd Hdis; [lia|]. cbn [region_copy].
  rewrite Z.gtb_ltb. destruct (Z.ltb_spec 0 len).
  - set (w := if _ <? _ then _ else _).
    assert (Hw : 0 < w <= len) by (subst w; unfold NVRAM_BUFFER_SIZE; reflect_bools; lia).
    rewrite region_read_ok by (lia || (eapply in_region_sub; [exact Hs | lia | lia])).
    assert (Hll : Z.of_nat (length (load (flash r) src w)) = w) by (rewrite load_length; lia).
    destruct (region_write_ok r dst (load (flash r) src w)) as (m & E & Hm).
    { rewrite Hll. eapply in_region_sub; [exact Hd | lia | lia]. }
    destruct (region_write r dst _) as [err r1]. cbn [snd] in E. subst r1.
    eapply rewrites_ext; [eapply rewrites_trans; [exists m; split; [reflexivity | intros x; reflexivity]|]|].
    + apply IH; [lia | | | lia]; apply in_region_flash.
      * eapply in_region_sub; [exact Hs | lia | lia].
      * eapply in_region_sub; [exact Hd | lia | lia].
    + intros x. simpl flash. replace len with (w + (len - w)) at 2 by lia. rewrite load_app by lia.
      rewrite <- flash_write_app, Hll.
      rewrite (load_ext m (flash r)); [apply flash_write_proper; apply Hm|].
      intros y Hy. rewrite Hm. apply flash_write_outside. rewrite Hll. lia.
  - eapply rewrites_ext; [apply rewrites_refl|]. intros x. replace len with 0 by lia.
    symmetry. apply flash_write_nil.
Qed.

Definition live (es : list entry) : list entry := filter (fun e => e_valid e = true) es.

Lemma live_ok es : entries_ok es -> entries_ok (live es).
Proof.
  rewrite !Forall_forall. intros H e [_ He]%list_elem_of_filter. apply H. exact He.
Qed.

Lemma live_len es : entries_ok es -> log_len (live es) <= log_len es.
Proof.
  induction 1 as [|e es He Hes IH]; [reflexivity|]. unfold live in *. rewrite filter_cons.
  pose proof (e_aligned_bound e He). case_decide; cbn [log_len foldr]; unfold log_len in *; lia.
Qed.

Lemma live_view es : log_view (live es) = log_view es.
Proof.
  induction es as [|e es IH]; [reflexivity|]. unfold live in *. rewrite filter_cons. cbn [log_view].
  case_decide as E; cbn [log_view]; [rewrite E, IH; reflexivity|].
  destruct (e_valid e); [congruence | exact IH].
Qed.

Lemma live_names es : valid_names (live es) = valid_names es.
Proof. unfold valid_names, live. rewrite list_filter_filter. f_equal. apply list_filter_iff. tauto. Qed.

Lemma seg_log_meta r r' off woff es : flash r' = flash r -> seg_log r off woff es -> seg_log r' off woff es.
Proof. intros E [H1 H2 H3 H4 H5]. split; rewrite ?E; assumption. Qed.

Lemma geometry_flash n r m om : geometry n r -> geometry n (set_item_map (set_flash r m) om).
Proof. intros [H1 H2 H3 H4 H5]. split; assumption. Qed.

(** The copy loop appends the valid ones of the remaining entries. *)
Lemma copy_seg_loop_ok n check newoff oldoff : seg_aligned n newoff -> seg_aligned n oldoff -> newoff <> oldoff ->
  forall rest, entries_ok rest -> forall fuel r pos done,
  geometry n r -> oldoff + 16 <= pos -> pos + log_len rest <= oldoff + SEG ->
  log_at (flash r) pos rest -> seg_log r newoff (newoff + 16 + log_len done) done ->
  map_ok (seg_item_map r) done -> log_len done + log_len rest <= SEG - 16 -> (length rest < fuel)%nat ->
  exists m om, copy_seg_loop fuel r newoff pos (newoff + 16 + log_len done) (pos + log_len rest) check =
      Some (newoff + 16 + log_len (done ++ live rest), set_item_map (set_flash r m) om) /\
    seg_log (set_item_map (set_flash r m) om) newoff (newoff + 16 + log_len (done ++ live rest)) (done ++ live rest) /\
    map_ok om (done ++ live rest) /\
    (forall x, x < newoff + 16 \/ newoff + SEG <= x -> m x = flash r x).
Proof.
  intros Hnew Hold Hne. induction 1 as [|e rest He Hrest IH]; intros fuel r pos done Hg Hp1 Hp2 Hlog Hseg Hmap Hfit Hf.
  - destruct fuel as [|fuel]; [simpl in Hf; lia|]. cbn [copy_seg_loop log_len foldr] in *.
    rewrite Z.add_0_r. destruct (Z.ltb_spec pos pos); [lia|].
    change (live []) with (@nil entry). rewrite app_nil_r. exists (flash r), (seg_item_map r).
    replace (set_item_map (set_flash r (flash r)) (seg_item_map r)) with r by (destruct r; reflexivity). auto.
  - destruct fuel as [|fuel]; [simpl in Hf; lia|]. cbn [log_len foldr] in *. fold (log_len rest) in *.
    destruct Hlog as [Hl Hlog]. pose proof (e_aligned_bound e He). pose proof (e_size_bound e He).
    pose proof (log_len_nonneg rest Hrest).
    pose proof (seg_in_region n r _ Hg Hold) as Hin. pose proof (seg_in_region n r _ Hg Hnew) as Hin'.
    pose proof (log_len_nonneg done (sl_entries _ _ _ _ Hseg)).
    cbn [copy_seg_loop]. destruct (Z.ltb_spec pos (pos + (e_aligned e + log_len rest))); [|lia].
    unfold ITEM_SIZE. rewrite must_read_ok by (lia || (eapply in_region_sub; [exact Hin | lia | lia])).
    cbn [mbind option_bind]. rewrite (entry_item e He _ _ Hl).
    rewrite item_check_entry by (assumption || (eapply in_region_sub; [exact Hin | lia | lia])).
    cbn [mbind option_bind]. rewrite item_real_size, item_aligned_size by exact He.
    rewrite (Z.add_assoc pos). unfold live. rewrite filter_cons.
    destruct (e_valid e) eqn:Ev; [rewrite decide_True by reflexivity | rewrite decide_False by discriminate].
    + assert (Hdis : pos + e_size e <= newoff + 16 + log_len done \/ newoff + 16 + log_len done + e_size e <= pos).
      { destruct Hnew as (i & Hi & ->), Hold as (j & Hj & ->). unfold SEG in *. assert (i <> j) by congruence. lia. }
      destruct (region_copy_ok (chunks (e_size e)) r pos (newoff + 16 + log_len done) (e_size e))
        as (m & -> & Hm); [unfold chunks; lia | eapply in_region_sub; [exact Hin | lia | lia]
        | eapply in_region_sub; [exact Hin' | lia | lia] | exact Hdis |].
      rewrite Hl in Hm.
      pose proof (append_log r newoff done _ e m Hseg He ltac:(lia) Hm) as Hseg'.
      destruct (update_map_ok (set_flash r m) (newoff + 16 + log_len done - newoff) true done (done ++ [e]) Hmap)
        as (om & -> & Hom).
      { unfold SEG in *. lia. }
      { replace (newoff + 16 + log_len done - newoff) with (16 + log_len done) by lia.
        apply Z.divide_add_r; [exists 1; reflexivity | apply log_len_16]. }
      { intros b Hb. rewrite valid_at_append, Ev.
        destruct (Z.eqb_spec b (newoff + 16 + log_len done - newoff)) as [->|Hneb].
        - split; [reflexivity|]. intros _. right. split; [reflexivity | lia].
        - split; [|auto]. intros [Hv|[_ ->]]; [exact Hv | lia]. }
      cbn [mbind option_bind].
      assert (Hd1 : newoff + 16 + log_len done + e_aligned e = newoff + 16 + log_len (done ++ [e]))
        by (rewrite log_len_app; simpl; lia).
      rewrite Hd1 in *.
      destruct (IH fuel (set_item_map (set_flash r m) om) (pos + e_aligned e) (done ++ [e]))
        as (m' & om' & Hrun & Hs' & Hm' & Hout).
      * apply geometry_flash. exact Hg.
      * lia.
      * lia.
      * simpl. eapply log_at_ext; [exact Hrest | | exact Hlog]. intros x Hx. symmetry. rewrite Hm.
        apply flash_write_outside. rewrite e_bytes_length.
        destruct Hnew as (i & Hi & ->), Hold as (j & Hj & ->). unfold SEG in *. assert (i <> j) by congruence. lia.
      * eapply seg_log_meta; [|exact Hseg']. reflexivity.
      * exact Hom.
      * rewrite log_len_app. simpl. lia.
      * simpl in Hf. lia.
      * rewrite <- app_assoc in Hrun, Hs', Hm'. cbn [app] in Hrun, Hs', Hm'. exists m', om'.
        split; [exact Hrun|]. split; [exact Hs'|]. split; [exact Hm'|].
        intros x Hx. rewrite Hout by exact Hx. simpl. rewrite Hm. apply flash_write_outside.
        rewrite e_bytes_length. unfold SEG in *. lia.
    + apply IH; try assumption; try lia. simpl in Hf. lia.
Qed.

(** *** A new segment *)

Lemma new_seg_header_ok seq : 0 <= seq < 256 ->
  let l := seg_header_bytes (new_seg_header SEG seq) in
  length l = 16%nat /\ Forall (fun b => 0 <= b < 256) l /\
  is_valid_region_seg_header (seg_header_of l) = true /\
  sh_seq_id (seg_header_of l) = u8 (seq + 1).
Proof.
  intros Hs. cbv zeta.
  pose proof (forallb_seqZ (fun seq =>
    let l := seg_header_bytes (new_seg_header SEG seq) in
    (length l =? 16)%nat && forallb (fun b => (0 <=? b) && (b <? 256)) l
    && is_valid_region_seg_header (seg_header_of l) && (sh_seq_id (seg_header_of l) =? u8 (seq + 1)))
    0 256 ltac:(vm_compute; reflexivity) seq ltac:(lia)) as H.
  cbv zeta in H. rewrite !andb_true_iff in H. destruct H as (((H1 & H2) & H3) & H4).
  split; [apply Nat.eqb_eq; exact H1|]. split; [|split; [exact H3 | apply Z.eqb_eq; exact H4]].
  apply Forall_forall. intros b Hb. rewrite forallb_forall in H2.
  specialize (H2 b ltac:(apply list_elem_of_In; exact Hb)). apply andb_true_iff in H2. lia.
Qed.

(** The flash after [region_init_new_seg]. *)
Definition new_seg_mem (m : mem) (off : Z) (hdr : list Z) : mem :=
  flash_write (erased_mem m off (off + SEG)) off hdr.

Lemma new_seg_mem_out m off hdr x : length hdr = 16%nat -> x < off \/ off + SEG <= x ->
  new_seg_mem m off hdr x = m x.
Proof.
  intros Hl Hx. unfold new_seg_mem. rewrite flash_write_outside by (rewrite Hl; unfold SEG in *; lia).
  unfold erased_mem. reflect_bools; simpl; try reflexivity; lia.
Qed.

Lemma new_seg_mem_erased m off hdr : length hdr = 16%nat -> erased (new_seg_mem m off hdr) (off + 16) (off + SEG).
Proof.
  intros Hl x Hx. unfold new_seg_mem. rewrite flash_write_outside by (rewrite Hl; lia).
  unfold erased_mem. reflect_bools; simpl; try reflexivity; lia.
Qed.

Lemma new_seg_mem_header m off hdr : length hdr = 16%nat -> Forall (fun b => 0 <= b < 256) hdr ->
  load (new_seg_mem m off hdr) off 16 = hdr.
Proof.
  intros Hl Hb. change 16 with (Z.of_nat 16). rewrite <- Hl. apply load_flash_write; [|exact Hb].
  intros x Hx. rewrite Hl in Hx. unfold erased_mem, SEG. reflect_bools; simpl; try reflexivity; lia.
Qed.

Lemma cleared_map_ok om : match om with Some m => length m = 8%nat | None => True end ->
  map_ok (item_bitmap_clear_all om) [].
Proof.
  destruct om as [m|]; [|intros _; exact I]. simpl. intros ->. split; [|split; [reflexivity|]].
  - apply Forall_replicate. lia.
  - intros j Hj. unfold mbit. rewrite nth_lookup. destruct (_ !! _) as [w|] eqn:E.
    + apply lookup_replicate in E. destruct E as [-> _]. simpl. rewrite Z.testbit_0_l. split; [discriminate | tauto].
    + simpl. rewrite Z.testbit_0_l. split; [discriminate | tauto].
Qed.

Definition map_shape (om : option (list Z)) : Prop :=
  match om with Some m => length m = 8%nat | None => True end.

Lemma map_ok_shape om es : map_ok om es -> map_shape om.
Proof. destruct om as [m|]; [|trivial]. intros (_ & H & _). exact H. Qed.

Lemma region_init_new_seg_ok n r off : geometry n r -> seg_aligned n off -> map_shape (seg_item_map r) ->
  0 <= seg_seq_id r < 256 ->
  exists m, region_init_new_seg r off =
      set_item_map (set_seg (set_flash r m) off (off + 16) (u8 (seg_seq_id r + 1)))
        (item_bitmap_clear_all (seg_item_map r)) /\
    forall x, m x = new_seg_mem (flash r) off (seg_header_bytes (new_seg_header SEG (seg_seq_id r))) x.
Proof.
  intros Hg Ho Hms Hseq. pose proof (seg_in_region n r off Hg Ho) as Hin.
  destruct (new_seg_header_ok (seg_seq_id r) Hseq) as (Hl & Hb & _ & _).
  unfold region_init_new_seg. rewrite (g_seg n r Hg).
  destruct Ho as (i & Hi & ->). unfold SEG in *.
  destruct (region_erase_ok r i 1) as (m1 & E1 & Hm1); [apply Hg | lia | lia | | apply Hg |].
  { rewrite (g_total n r Hg). unfold SEG. lia. }
  rewrite Z.mul_1_l in E1. rewrite E1.
  set (hdr := seg_header_bytes _) in *.
  destruct (region_write_ok (set_flash r m1) (i * 0x1000) hdr) as (m2 & E2 & Hm2).
  { apply in_region_flash. rewrite Hl. eapply in_region_sub; [exact Hin | lia | lia]. }
  rewrite E2. exists m2. split; [reflexivity|]. intros x. rewrite Hm2. unfold new_seg_mem.
  apply flash_write_proper. simpl. rewrite Hm1. unfold SEG. rewrite Z.mul_add_distr_r. reflexivity.
Qed.

(** A segment that has just been initialised has an empty log. *)
Lemma new_seg_log n r r' off m hdr : geometry n r -> flash r' = m ->
  (forall x, m x = new_seg_mem (flash r) off hdr x) -> length hdr = 16%nat ->
  seg_log r' off (off + 16) [].
Proof.
  intros Hg E Hm Hl. split; rewrite ?E; simpl; try exact I; try (unfold SEG; lia); [constructor|].
  intros x Hx. rewrite Hm. apply new_seg_mem_erased; assumption.
Qed.

Lemma purge_target_ok n r : geometry n r -> seg_aligned n (seg_offset r) ->
  seg_aligned n (purge_target r) /\ purge_target r <> seg_offset r.
Proof.
  intros [H1 H2 H3 H4 H5] (i & Hi & Ei). unfold purge_target. rewrite H2, H4, Ei.
  unfold SEG in *. rewrite Z.geb_leb. destruct (Z.leb_spec (n * 0x1000) (i * 0x1000 + 0x1000)).
  - split; [exists 0; lia | lia].
  - split; [exists (i + 1); unfold SEG; lia | lia].
Qed.

(** The header of a segment marked obsolete is not valid any more. *)
Lemma obsolete_header m off : Z.land (m (off + 4)) NVRAM_REGION_SEG_STATE_OBSOLETE <> NVRAM_REGION_SEG_STATE_VALID ->
  is_valid_region_seg_header (hdr_at (flash_write m (off + 4) [NVRAM_REGION_SEG_STATE_OBSOLETE]) off) = false.
Proof.
  intros H. unfold is_valid_region_seg_header.
  replace (sh_state (hdr_at _ off)) with (Z.land (m (off + 4)) NVRAM_REGION_SEG_STATE_OBSOLETE).
  - apply Z.eqb_neq in H. rewrite H, andb_false_r. reflexivity.
  - unfold hdr_at, seg_header_of. cbn [sh_state]. rewrite nth_lookup, load_lookup by (unfold SEG_HEADER_SIZE; lia).
    simpl default. unfold flash_write. simpl length.
    rewrite (proj2 (Z.leb_le _ _)), (proj2 (Z.ltb_lt _ _)) by lia. simpl andb. cbv iota.
    change (Z.of_nat 4) with 4. replace (off + 4 - (off + 4)) with 0 by lia. reflexivity.
Qed.

Lemma land_5a_ne b : Z.land b 0x5a <> 0xff.
Proof.
  intros H. assert (Hb : Z.testbit (Z.land b 0x5a) 0 = Z.testbit 0xff 0) by (rewrite H; reflexivity).
  rewrite Z.land_spec in Hb. change (Z.testbit 0x5a 0) with false in Hb.
  rewrite andb_false_r in Hb. discriminate Hb.
Qed.

(** *** Purging

    The state that the purge starts from: the log of the current segment is
    known, headers are good, and nothing is assumed about what is after the
    log (a scan purges a segment whose end is not clean). *)
Record purgeable (n : Z) (r : region_info) (es : list entry) : Prop := mk_purgeable {
  pu_geometry : geometry n r;
  pu_offset : seg_aligned n (seg_offset r);
  pu_entries : entries_ok es;
  pu_log : log_at (flash r) (seg_offset r + 16) es;
  pu_fit : log_len es <= SEG - 16;
  pu_woff : seg_write_offset r = seg_offset r + 16 + log_len es;
  pu_shape : map_shape (seg_item_map r);
  pu_headers : headers_ok n r
}.

Lemma region_log_purgeable n r es : region_log n r es -> purgeable n r es.
Proof.
  intros [Hg Ho [H1 H2 H3 H4 H5] Hm Hh]. split; try assumption. eapply map_ok_shape. exact Hm.
Qed.

Lemma not_erased_erase n r off : geometry n r -> seg_aligned n off ->
  exists m, (if region_is_empy (chunks (seg_size r)) r off (seg_size r) then r
             else snd (region_erase r off (seg_size r))) = set_flash r m /\
    forall x, x < off \/ off + SEG <= x -> m x = flash r x.
Proof.
  intros Hg (i & Hi & ->). destruct (region_is_empy _ _ _ _).
  - exists (flash r). split; [destruct r; reflexivity | reflexivity].
  - rewrite (g_seg n r Hg). unfold SEG.
    destruct (region_erase_ok r i 1) as (m & E & Hm); [apply Hg | lia | lia | | apply Hg |].
    { rewrite (g_total n r Hg). unfold SEG. lia. }
    rewrite Z.mul_1_l in E. exists m. split; [exact E|]. intros x Hx. rewrite Hm. unfold erased_mem.
    reflect_bools; simpl; try reflexivity; lia.
Qed.

(** The states between the steps of a purge: after the new segment has been
    initialised, and after the entries have been copied. *)
Lemma purge_init_ok n r es : purgeable n r es ->
  exists m m', (if region_is_empy (chunks (seg_size r)) r (purge_target r) (seg_size r) then r
             else snd (region_erase r (purge_target r) (seg_size r))) = set_flash r m /\
    region_init_new_seg (set_flash r m) (purge_target r) =
      set_item_map (set_seg (set_flash r m') (purge_target r) (purge_target r + 16) (u8 (seg_seq_id r + 1)))
        (item_bitmap_clear_all (seg_item_map r)) /\
    (forall x, x < purge_target r \/ purge_target r + SEG <= x -> m' x = flash r x) /\
    erased m' (purge_target r + 16) (purge_target r + SEG) /\
    is_valid_region_seg_header (hdr_at m' (purge_target r)) = true /\
    sh_seq_id (hdr_at m' (purge_target r)) = u8 (seg_seq_id r + 1).
Proof.
  intros [Hg Ho Hok Hlog Hfit Hw Hsh Hh]. destruct (purge_target_ok n r Hg Ho) as [Ht Hne].
  destruct (not_erased_erase n r (purge_target r) Hg Ht) as (m & E & Hm).
  destruct (region_init_new_seg_ok n (set_flash r m) (purge_target r)) as (m' & E' & Hm').
  { destruct Hg; split; assumption. } { exact Ht. } { exact Hsh. } { apply Hh. }
  simpl flash in Hm'. simpl seg_seq_id in Hm'.
  destruct (new_seg_header_ok (seg_seq_id r)) as (Hl & Hb & Hv & Hs); [apply Hh|].
  exists m, m'. split; [exact E|]. split; [exact E'|].
  assert (Hhdr : hdr_at m' (purge_target r) = seg_header_of (seg_header_bytes (new_seg_header SEG (seg_seq_id r)))).
  { unfold hdr_at. f_equal. unfold SEG_HEADER_SIZE.
    rewrite <- (new_seg_mem_header m (purge_target r) _ Hl Hb). apply load_ext. intros x _. apply Hm'. }
  rewrite Hhdr. split; [|split; [|split; [exact Hv | exact Hs]]].
  - intros x Hx. rewrite Hm', new_seg_mem_out by assumption. apply Hm. exact Hx.
  - intros x Hx. rewrite Hm'. apply new_seg_mem_erased; assumption.
Qed.

Lemma purge_ok n r es check : purgeable n r es ->
  exists r', region_purge_seg r check = Some r' /\ seg_offset r' = purge_target r /\
    region_log n r' (live es).
Proof.
  intros Hp. destruct (purge_init_ok n r es Hp) as (m & m' & E & E' & Hout & Her & Hv & Hs).
  destruct Hp as [Hg Ho Hok Hlog Hfit Hw Hsh Hh]. destruct (purge_target_ok n r Hg Ho) as [Ht Hne].
  set (new := purge_target r) in *. set (old := seg_offset r) in *.
  assert (Hapart : forall x, old <= x < old + SEG -> x < new \/ new + SEG <= x).
  { intros x Hx. destruct Ht as (i & Hi & Ei), Ho as (j & Hj & Ej). rewrite Ei, Ej in *. unfold SEG in *.
    assert (i <> j) by congruence. lia. }
  pose proof (log_len_nonneg es Hok) as Hnn.
  unfold region_purge_seg, purge_start. fold new. rewrite E, E'. fold old.
  unfold region_copy_seg. cbn [seg_item_map set_item_map].
  set (r2 := set_item_map _ (item_bitmap_clear_all (item_bitmap_clear_all (seg_item_map r)))).
  assert (Hg2 : geometry n r2) by (destruct Hg; split; assumption).
  assert (Hsh2 : map_shape (item_bitmap_clear_all (seg_item_map r))).
  { destruct (seg_item_map r) as [w|]; [|exact I]. simpl in *. rewrite length_replicate. exact Hsh. }
  destruct (copy_seg_loop_ok n check new old Ht Ho Hne es Hok (seg_rounds r2) r2 (old + 16) [])
    as (m3 & om & Hrun & Hseg & Hmap & Hout3).
  - exact Hg2.
  - lia.
  - unfold SEG in *. lia.
  - simpl. eapply log_at_ext; [exact Hok | | exact Hlog]. intros x Hx. symmetry. apply Hout.
    apply Hapart. unfold SEG in *. lia.
  - cbn [log_len foldr]. rewrite Z.add_0_r. split; simpl; try exact I; try (unfold SEG; lia); [constructor | exact Her].
  - apply cleared_map_ok. exact Hsh2.
  - cbn [log_len foldr]. lia.
  - apply (seg_rounds_enough n r2 es Hg2 Hok Hfit).
  - cbn [app log_len foldr] in *. rewrite Z.add_0_r in Hrun. unfold NVRAM_SEG_ITEM_START_OFFSET.
    replace (old + (seg_write_offset r - old)) with (old + 16 + log_len es) by (rewrite Hw; lia).
    fold (log_len es) in Hrun. fold (log_len (live es)) in *. rewrite Hrun. cbn [mbind option_bind]. clear Hrun.
    set (r3 := set_item_map (set_flash r2 m3) om) in *.
    assert (Hg3 : geometry n (set_write_offset r3 (new + 16 + log_len (live es))))
      by (destruct Hg; split; assumption).
    pose proof (seg_in_region n _ old Hg3 Ho) as Hin. unfold region_seg_update_state.
    destruct (region_write_ok (set_write_offset r3 (new + 16 + log_len (live es))) (old + 4)
                [NVRAM_REGION_SEG_STATE_OBSOLETE]) as (m4 & -> & Hm4).
    { simpl length. eapply in_region_sub; [exact Hin | lia | unfold SEG; lia]. }
    simpl flash in Hm4. eexists. split; [reflexivity|]. split; [reflexivity|].
    assert (Hm4n : forall x, x <> old + 4 -> m4 x = m3 x).
    { intros x Hx. rewrite Hm4. apply flash_write_outside. simpl. lia. }
    assert (H4o : old <= old + 4 < old + SEG) by (unfold SEG; lia).
    pose proof (Hapart _ H4o) as Hap4.
    assert (Hhead : forall off x, seg_aligned n off -> off <= x < off + 16 -> m3 x = m' x).
    { intros off x Hoff Hx. rewrite Hout3; [reflexivity|]. exact (header_apart n off new x Hoff Ht Hx). }
    split; [destruct Hg; split; assumption | exact Ht | | exact Hmap |].
    + destruct Hseg as [S1 S2 S3 S4 S5]. split; simpl in *; try assumption.
      * eapply log_at_ext; [exact S1 | | exact S2]. intros x Hx. symmetry. apply Hm4n. unfold SEG in *. lia.
      * intros x Hx. rewrite Hm4n; [apply S5; exact Hx|]. pose proof (log_len_nonneg (live es) S1). lia.
    + split;
        [change (is_valid_region_seg_header (hdr_at m4 new) = true)
        | change (sh_seq_id (hdr_at m4 new) = u8 (seg_seq_id r + 1)) | |
         change (forall off, seg_aligned n off -> off <> new ->
                   is_valid_region_seg_header (hdr_at m4 off) = false)].
      * rewrite (hdr_at_ext m4 m'); [exact Hv|]. intros x Hx. rewrite Hm4n by (unfold SEG in *; lia).
        apply (Hhead new); assumption.
      * rewrite (hdr_at_ext m4 m'); [exact Hs|]. intros x Hx. rewrite Hm4n by (unfold SEG in *; lia).
        apply (Hhead new); assumption.
      * apply u8_range.
      * intros off Hoff Hoffne. destruct (decide (off = old)) as [->|Hno].
        -- rewrite (hdr_at_ext m4 (flash_write m3 (old + 4) [NVRAM_REGION_SEG_STATE_OBSOLETE]))
             by (intros x _; apply Hm4). apply obsolete_header. apply land_5a_ne.
        -- rewrite (hdr_at_ext m4 (flash r)); [apply (h_others n r Hh off Hoff Hno)|].
           intros x Hx. assert (Hx4 : x <> old + 4 /\ (x < new \/ new + SEG <= x)).
           { destruct Ho as (j & Hj & Ej), Hoff as (l & Hll & El), Ht as (i & Hi & Ei).
             rewrite Ej, El, Ei in *. unfold SEG in *. assert (l <> j /\ l <> i) by (split; congruence). lia. }
           rewrite Hm4n, (Hhead off) by tauto. apply Hout. tauto.
Qed.

(** ** Writing a value *)

(** A good state: the log, and one valid entry per name. *)
Record region_ok (n : Z) (r : region_info) (es : list entry) : Prop := mk_region_ok {
  ro_log : region_log n r es;
  ro_unique : unique_names es
}.

(** Room for one more entry after a compaction. *)
Definition fits (es : list entry) (k : string) (v : list Z) : Prop :=
  log_len (live es) + e_aligned (mk_entry true k v) <= SEG - 16.

Lemma new_size_ok k v : entry_ok (mk_entry true k v) ->
  item_calc_aligned_size (u8 (Z.of_nat (length (cstr k)))) (u16 (Z.of_nat (length v)))
    = e_aligned (mk_entry true k v).
Proof. intros He. apply (item_aligned_size _ He). Qed.

Lemma prepare_ok n r es k v : region_ok n r es -> entry_ok (mk_entry true k v) -> fits es k v ->
  exists r' es', region_prepare_write_item r (e_aligned (mk_entry true k v)) = Some r' /\
    region_ok n r' es' /\ log_view es' = log_view es /\ log_len es' <= log_len es /\
    log_len es' + e_aligned (mk_entry true k v) <= SEG - 16.
Proof.
  intros [Hr Hu] He Hfit. unfold region_prepare_write_item. pose proof Hr as [Hg _ [_ _ _ Hw _] _ _].
  rewrite Hw, (g_seg n r Hg), Z.gtb_ltb. destruct (Z.ltb_spec (seg_offset r + SEG)
    (seg_offset r + 16 + log_len es + e_aligned (mk_entry true k v))).
  - destruct (purge_ok n r es false (region_log_purgeable n r es Hr)) as (r' & E & _ & Hr').
    exists r', (live es). split; [exact E|].
    split; [|split; [apply live_view | split; [apply live_len; apply Hr | exact Hfit]]].
    split; [exact Hr'|]. unfold unique_names. rewrite live_names. exact Hu.
  - exists r, es. split; [reflexivity|]. split; [split; assumption|]. split; [reflexivity | lia].
Qed.

(** The state between the two flash writes of a set. *)
Lemma append_item_ok n r es k v : region_ok n r es -> entry_ok (mk_entry true k v) -> fits es k v ->
  exists old r1 es1, append_item r k v = Some (old, r1) /\
    unique_names es1 /\ log_view es1 = log_view es /\ log_len es1 <= log_len es /\ region_log n r1 (es1 ++ [mk_entry true k v]) /\
    match find_entry 16 es1 k with
    | Some (o, _) => old = seg_offset r1 + o
    | None => old = - ENOENT
    end.
Proof.
  intros Hr He Hfit. unfold append_item. rewrite (new_size_ok k v He).
  destruct (prepare_ok n r es k v Hr He Hfit) as (r1 & es1 & -> & [Hr1 Hu1] & Hv1 & Hle1 & Hf1).
  cbn [mbind option_bind].
  destruct (append_written n r1 es1 k v Hr1 He Hf1) as (sz & m & om & Hw & Hum & Hr2).
  pose proof (region_find_item_ok n r1 es1 k Hr1 (proj1 (proj1 He))) as Hf.
  assert (Hold : exists old it, region_find_item r1 k = Some (old, it) /\
            match find_entry 16 es1 k with Some (o, _) => old = seg_offset r1 + o | None => old = - ENOENT end).
  { destruct (find_entry 16 es1 k) as [[o e]|]; simpl in Hf; [eauto | destruct Hf as [it ->]; eauto]. }
  destruct Hold as (old & it & -> & Hold). cbn [mbind option_bind]. rewrite Hw. simpl seg_write_offset.
  simpl seg_offset. rewrite Hum. cbn [mbind option_bind]. eexists _, _, es1. split; [reflexivity|]. auto.
Qed.

Lemma region_set_step n r es k v : region_ok n r es -> name_ok k -> data_ok v -> fits es k v ->
  exists r' es', region_set r k v = Some (0, r') /\ region_ok n r' es' /\
    log_view es' = <[k := v]> (log_view es).
Proof.
  intros Hr Hk Hv Hfit. pose proof Hv as [_ Hlen]. pose proof Hk as [Hk0 Hkl].
  assert (He : entry_ok (mk_entry true k v)) by (split; assumption).
  assert (Hnil : v <> []) by (intros ->; simpl in Hlen; lia).
  unfold region_set, NVRAM_MAX_DATA_SIZE, NVRAM_MAX_NAME_SIZE in *. rewrite !Z.gtb_ltb.
  destruct (Z.ltb_spec 512 (Z.of_nat (length v))); [lia|].
  destruct (Z.ltb_spec 112 (Z.of_nat (length (cstr k)))); [lia|].
  destruct (Z.ltb_spec 0 (Z.of_nat (length v))); [|lia].
  rewrite (region_is_same_ok n r es k v (ro_log _ _ _ Hr) Hk0 Hnil). cbn [mbind option_bind].
  case_bool_decide as Esame.
  - exists r, es. split; [reflexivity|]. split; [exact Hr|]. rewrite insert_id; [reflexivity | exact Esame].
  - destruct (append_item_ok n r es k v Hr He Hfit) as (old & r1 & es1 & -> & Hu1 & Hv1 & _ & Hr1 & Hold).
    cbn [mbind option_bind]. destruct (find_entry 16 es1 k) as [[o e]|] eqn:Ef.
    + destruct (find_entry_split es1 k _ _ _ Ef) as (pre & post & -> & -> & Hev & Hen). subst old.
      rewrite <- app_assoc in Hr1. cbn [app] in Hr1.
      destruct (obsolete_old_ok n r1 pre e (post ++ [mk_entry true k v]) Hr1 Hev) as (r2 & -> & Hr2).
      cbn [mbind option_bind].
      destruct (view_replaced pre e post k v Hu1 Hev Hen) as [Hu2 Hv2].
      exists r2, ((pre ++ invalidate e :: post) ++ [mk_entry true k v]).
      split; [reflexivity|]. split; [split; [|exact Hu2] | rewrite Hv2, Hv1; reflexivity].
      rewrite <- app_assoc. exact Hr2.
    + subst old. cbn [obsolete_old]. unfold obsolete_old. simpl (_ >? 0). cbv iota. cbn [mbind option_bind].
      destruct (view_appended es1 k v Hu1 (find_entry_none es1 k _ Ef)) as [Hu2 Hv2].
      exists r1, (es1 ++ [mk_entry true k v]). split; [reflexivity|].
      split; [split; assumption | rewrite Hv2, Hv1; reflexivity].
Qed.

Lemma view_deleted pre e post : unique_names (pre ++ e :: post) -> e_valid e = true ->
  unique_names (pre ++ invalidate e :: post) /\
  log_view (pre ++ invalidate e :: post) = delete (e_name e) (log_view (pre ++ e :: post)).
Proof.
  intros Hu Hv. unfold unique_names in *. rewrite !valid_names_app in *.
  assert (Hve : valid_names (e :: post) = e_name e :: valid_names post).
  { unfold valid_names. rewrite filter_cons_True by exact Hv. reflexivity. }
  assert (Hvi : valid_names (invalidate e :: post) = valid_names post).
  { unfold valid_names. rewrite filter_cons_False; [reflexivity|]. simpl. congruence. }
  rewrite Hve in Hu. rewrite Hvi. apply NoDup_app in Hu. destruct Hu as (Hu1 & Hu2 & Hu3).
  apply NoDup_cons in Hu3. destruct Hu3 as [Hk Hu3]. split.
  - apply NoDup_app. split; [exact Hu1|]. split; [|exact Hu3]. intros x Hx Hx'. apply (Hu2 x Hx). right. exact Hx'.
  - assert (Hkp : e_name e ∉ valid_names pre) by (intros Hx; apply (Hu2 _ Hx); left).
    apply valid_names_not_in in Hk, Hkp. apply log_view_none in Hk, Hkp.
    rewrite !log_view_app. cbn [log_view invalidate e_valid]. rewrite Hv.
    rewrite delete_union, delete_insert_eq, !delete_id by assumption. reflexivity.
Qed.

(** An empty value deletes the name. *)
Lemma region_delete_step n r es k : region_ok n r es -> name_ok k ->
  exists r' es', region_set r k [] = Some (0, r') /\ region_ok n r' es' /\
    log_view es' = delete k (log_view es).
Proof.
  intros [Hr Hu] [Hk0 Hkl]. unfold region_set, NVRAM_MAX_NAME_SIZE in *. rewrite !Z.gtb_ltb.
  destruct (Z.ltb_spec NVRAM_MAX_DATA_SIZE (Z.of_nat (length (@nil Z)))); [unfold NVRAM_MAX_DATA_SIZE in *; simpl in *; lia|].
  destruct (Z.ltb_spec 112 (Z.of_nat (length (cstr k)))); [lia|].
  destruct (Z.ltb_spec 0 (Z.of_nat (length (@nil Z)))); [simpl in *; lia|].
  pose proof (region_find_item_ok n r es k Hr Hk0) as Hf. pose proof (find_entry_view es k 16) as Hvw.
  destruct (find_entry 16 es k) as [[o e]|] eqn:Ef; simpl in Hf.
  - rewrite Hf. cbn [mbind option_bind]. destruct (find_entry_split es k _ _ _ Ef) as (pre & post & -> & -> & Hev & Hen).
    destruct (obsolete_old_ok n r pre e post Hr Hev) as (r2 & -> & Hr2). cbn [mbind option_bind].
    destruct (view_deleted pre e post Hu Hev) as [Hu2 Hv2]. rewrite Hen in Hv2.
    exists r2, (pre ++ invalidate e :: post). split; [reflexivity|]. split; [split; assumption | exact Hv2].
  - destruct Hf as [it ->]. cbn [mbind option_bind]. unfold obsolete_old. simpl (_ >? 0). cbv iota. cbn [mbind option_bind].
    exists r, es. split; [reflexivity|]. split; [split; assumption|]. rewrite delete_id; [reflexivity | exact Hvw].
Qed.

(** ** Start-up *)

Lemma load_erased m a len : 0 <= len -> erased m a (a + len) -> load m a len = replicate (Z.to_nat len) 0xff.
Proof.
  intros Hl He. apply list_eq. intros i. destruct (decide (Z.of_nat i < len)) as [Hi|Hi].
  - rewrite load_lookup, He, lookup_replicate_2 by lia. reflexivity.
  - rewrite !lookup_ge_None_2; [reflexivity | rewrite length_replicate; lia | rewrite load_length; lia].
Qed.

Lemma seg_scan_loop_ok n : forall rest, entries_ok rest -> forall fuel r pre,
  geometry n r -> seg_aligned n (seg_offset r) -> entries_ok pre ->
  log_at (flash r) (seg_offset r + (16 + log_len pre)) rest ->
  16 + log_len pre + log_len rest <= SEG ->
  erased (flash r) (seg_offset r + 16 + log_len (pre ++ rest)) (seg_offset r + SEG) ->
  map_ok (seg_item_map r) pre -> (length rest < fuel)%nat ->
  exists om, seg_scan_loop fuel r (16 + log_len pre) =
      Some (inr (16 + log_len (pre ++ rest), false, set_item_map r om)) /\
    map_ok om (pre ++ rest).
Proof.
  induction 1 as [|e rest He Hrest IH]; intros fuel r pre Hg Ho Hpre Hlog Hfit Her Hmap Hf.
  - destruct fuel as [|fuel]; [simpl in Hf; lia|]. rewrite app_nil_r in *. cbn [seg_scan_loop].
    exists (seg_item_map r). replace (set_item_map r (seg_item_map r)) with r by (destruct r; reflexivity).
    split; [|exact Hmap]. rewrite (g_seg n r Hg). pose proof (log_len_nonneg pre Hpre).
    destruct (Z.ltb_spec (16 + log_len pre) SEG); [|reflexivity].
    pose proof (seg_in_region n r _ Hg Ho) as Hin. pose proof (log_len_16 pre) as [q Hq].
    assert (Hroom : 16 + log_len pre + 16 <= SEG) by (unfold SEG in *; lia).
    unfold ITEM_SIZE. rewrite region_read_ok by (lia || (eapply in_region_sub; [exact Hin | lia | lia])).
    rewrite load_erased by (lia || (eapply erased_sub; [exact Her | lia | lia])). reflexivity.
  - destruct fuel as [|fuel]; [simpl in Hf; lia|]. destruct Hlog as [Hl Hlog].
    cbn [log_len foldr] in Hfit. fold (log_len rest) in Hfit.
    pose proof (e_aligned_bound e He). pose proof (e_size_bound e He). pose proof (log_len_nonneg rest Hrest).
    pose proof (log_len_nonneg pre Hpre). pose proof (seg_in_region n r _ Hg Ho) as Hin.
    cbn [seg_scan_loop]. rewrite (g_seg n r Hg). destruct (Z.ltb_spec (16 + log_len pre) SEG); [|lia].
    unfold ITEM_SIZE. rewrite region_read_ok by (lia || (eapply in_region_sub; [exact Hin | lia | lia])).
    rewrite (entry_item e He _ _ Hl).
    rewrite item_check_entry by (assumption || (eapply in_region_sub; [exact Hin | lia | lia])).
    cbn [mbind option_bind]. rewrite item_aligned_size by exact He.
    assert (Hstep : 16 + log_len pre + e_aligned e = 16 + log_len (pre ++ [e]))
      by (rewrite log_len_app; simpl; lia).
    assert (Happ : pre ++ e :: rest = (pre ++ [e]) ++ rest) by (rewrite <- app_assoc; reflexivity).
    assert (Hpre' : entries_ok (pre ++ [e])) by (apply Forall_app; split; [exact Hpre | constructor; [exact He | constructor]]).
    rewrite Happ in *.
    assert (Hgo : forall om, map_ok om (pre ++ [e]) ->
      exists om', seg_scan_loop fuel (set_item_map r om) (16 + log_len (pre ++ [e])) =
        Some (inr (16 + log_len ((pre ++ [e]) ++ rest), false, set_item_map r om')) /\
        map_ok om' ((pre ++ [e]) ++ rest)).
    { intros om Hom. apply (IH fuel (set_item_map r om) (pre ++ [e])); try assumption.
      - destruct Hg; split; assumption.
      - simpl. rewrite <- Hstep. rewrite <- !Z.add_assoc in *. exact Hlog.
      - lia.
      - simpl in Hf. lia. }
    rewrite Hstep. destruct (e_valid e) eqn:Ev.
    + destruct (update_map_ok r (16 + log_len pre) true pre (pre ++ [e]) Hmap) as (om & -> & Hom).
      { lia. }
      { apply Z.divide_add_r; [exists 1; reflexivity | apply log_len_16]. }
      { intros b Hb. rewrite valid_at_append, Ev. destruct (Z.eqb_spec b (16 + log_len pre)) as [->|Hne].
        - split; auto.
        - split; [|auto]. intros [Hv|[_ ->]]; [exact Hv | lia]. }
      cbn [mbind option_bind]. apply Hgo. exact Hom.
    + specialize (Hgo (seg_item_map r)).
      replace (set_item_map r (seg_item_map r)) with r in Hgo by (destruct r; reflexivity). apply Hgo.
      destruct (seg_item_map r) as [m|]; [|exact I]. destruct Hmap as (Hw & Hl8 & Hb). split; [exact Hw|].
      split; [exact Hl8|]. intros j Hj. rewrite Hb, valid_at_append, Ev by exact Hj.
      split; [auto|]. intros [Hv|[Hv _]]; [exact Hv | discriminate].
Qed.

(** The log in the flash, as a restart finds it: RAM fields are arbitrary. *)
Record stored_log (n : Z) (r : region_info) (cur : Z) (es : list entry) : Prop := mk_stored {
  st_geometry : geometry n r;
  st_cur : seg_aligned n cur;
  st_seg : seg_log r cur (cur + 16 + log_len es) es;
  st_shape : map_shape (seg_item_map r);
  st_valid : forall off, seg_aligned n off ->
    is_valid_region_seg_header (hdr_at (flash r) off) = bool_decide (off = cur);
  st_seq : 0 <= sh_seq_id (hdr_at (flash r) cur) < 256
}.

Lemma shape_clear om : map_shape om -> map_shape (item_bitmap_clear_all om).
Proof. destruct om as [m|]; [|trivial]. simpl. rewrite length_replicate. trivial. Qed.

Lemma region_seg_scan_ok n r es : stored_log n r (seg_offset r) es ->
  seg_seq_id r = sh_seq_id (hdr_at (flash r) (seg_offset r)) ->
  exists r' es', region_seg_scan r = Some (0, r') /\ region_log n r' es' /\
    (es' = es \/ es' = live es).
Proof.
  intros [Hg Ho Hseg Hsh Hval Hseq] Hsid. pose proof Hseg as [Hok Hlog Hfit Hw Her].
  pose proof (log_len_nonneg es Hok) as Hnn.
  unfold region_seg_scan. set (r1 := set_item_map r (item_bitmap_clear_all (seg_item_map r))).
  assert (Hg1 : geometry n r1) by (destruct Hg; split; assumption).
  destruct (seg_scan_loop_ok n es Hok (seg_rounds r1) r1 []) as (om & Hrun & Hom);
    try assumption; try (cbn [log_len foldr app]; fold (log_len es); lia).
  { constructor. }
  { apply cleared_map_ok. exact Hsh. }
  { apply (seg_rounds_enough n r1 es Hg1 Hok Hfit). }
  cbn [app] in *. change (16 + log_len []) with NVRAM_SEG_ITEM_START_OFFSET in Hrun. rewrite Hrun.
  cbn [mbind option_bind]. set (r2 := set_item_map r1 om).
  set (r3 := set_write_offset r2 (seg_offset r2 + (16 + log_len es))).
  assert (Hh3 : headers_ok n r3).
  { split; simpl.
    - fold (hdr_at (flash r) (seg_offset r)). rewrite (Hval _ Ho). apply bool_decide_eq_true_2. reflexivity.
    - symmetry. exact Hsid.
    - rewrite Hsid. exact Hseq.
    - intros off Hoff Hne. rewrite (Hval _ Hoff). apply bool_decide_eq_false_2. exact Hne. }
  assert (Hl3 : region_log n r3 es).
  { split; [destruct Hg; split; assumption | exact Ho | | exact Hom | exact Hh3].
    subst r3. simpl. rewrite Z.add_assoc. split; assumption. }
  rewrite orb_false_l. change (seg_size r3) with (seg_size r). rewrite (g_seg n r Hg), Z.geb_leb.
  destruct (Z.leb_spec SEG (16 + log_len es)).
  - destruct (purge_ok n r3 es true (region_log_purgeable n r3 es Hl3)) as (r4 & -> & _ & Hr4).
    cbn [mbind option_bind]. exists r4, (live es). auto.
  - assert (Hemp : region_is_empy (chunks (SEG - (16 + log_len es))) r3 (seg_offset r2 + (16 + log_len es))
                     (SEG - (16 + log_len es)) = true).
    { apply region_is_empy_ok; [unfold chunks; lia | |].
      - apply Z.divide_sub_r; [exists 1024; reflexivity|]. apply Z.divide_add_r; [exists 4; reflexivity|].
        apply (Z.divide_trans _ 16); [exists 4; reflexivity | apply log_len_16].
      - subst r3 r2 r1. simpl. eapply erased_sub; [exact Her | lia | lia]. }
    rewrite Hemp. exists r3, es. auto.
Qed.

Section Scan.
Variables (n cur : Z) (es : list entry).

Lemma scan_loop_ok : forall k fuel r i, stored_log n r cur es -> 0 <= i -> Z.of_nat k = n - i ->
  (k < fuel)%nat ->
  scan_loop fuel r (i * SEG) (cur <? i * SEG) =
    Some (inr (true, if cur <? i * SEG then r
                     else set_seg r cur (seg_write_offset r) (sh_seq_id (hdr_at (flash r) cur)))).
Proof.
  induction k as [|k IH]; intros fuel r i Hst Hi Hk Hf; destruct fuel as [|fuel]; try lia;
    pose proof Hst as [Hg (c & Hc & Ec) Hseg Hsh Hval Hseq]; cbn [scan_loop]; rewrite (g_total n r Hg).
  - destruct (Z.ltb_spec (i * SEG) (n * SEG)); [unfold SEG in *; lia|].
    destruct (Z.ltb_spec cur (i * SEG)); [reflexivity | unfold SEG in *; lia].
  - destruct (Z.ltb_spec (i * SEG) (n * SEG)); [|unfold SEG in *; lia].
    assert (Hal : seg_aligned n (i * SEG)) by (exists i; lia).
    pose proof (seg_in_region n r _ Hg Hal) as Hin.
    assert (Hin16 : in_region r (i * SEG) (i * SEG + SEG_HEADER_SIZE)).
    { eapply in_region_sub; [exact Hin | reflexivity | unfold SEG_HEADER_SIZE, SEG; lia]. }
    rewrite region_read_ok by (exact Hin16 || (unfold SEG_HEADER_SIZE; lia)). fold (hdr_at (flash r) (i * SEG)). rewrite (Hval _ Hal).
    case_bool_decide as E.
    + rewrite E in *. rewrite Z.ltb_irrefl. cbn [negb orb andb].
      set (r1 := set_seg r cur _ _). change (seg_size r1) with (seg_size r).
      assert (Hlt : (cur <? (i + 1) * SEG) = true) by (apply Z.ltb_lt; unfold SEG in *; lia).
      rewrite (g_seg n r Hg). replace (cur + SEG) with ((i + 1) * SEG) by lia. rewrite <- Hlt at 1.
      rewrite (IH fuel r1 (i + 1)); [rewrite Hlt; reflexivity | | lia | lia | lia].
      destruct Hst as [A1 A2 A3 A4 A5 A6].
      split; try assumption; [destruct A1; split; assumption|]. destruct A3. split; assumption.
    + cbn [andb]. rewrite orb_false_r.
      assert (Hlt : (cur <? (i + 1) * SEG) = (cur <? i * SEG)).
      { destruct (Z.ltb_spec cur ((i + 1) * SEG)), (Z.ltb_spec cur (i * SEG)); try reflexivity; [|unfold SEG in *; lia].
        exfalso. apply E. unfold SEG in *. lia. }
      rewrite (g_seg n r Hg). replace (i * SEG + SEG) with ((i + 1) * SEG) by lia.
      rewrite <- Hlt. apply IH; [exact Hst | lia | lia | lia].
Qed.
End Scan.

Lemma region_scan_stored n r cur es : stored_log n r cur es ->
  exists r' es', region_scan r = Some (0, r') /\ region_log n r' es' /\ (es' = es \/ es' = live es).
Proof.
  intros Hst. pose proof Hst as [Hg (c & Hc & Ec) Hseg Hsh Hval Hseq]. unfold region_scan.
  pose proof (scan_loop_ok n cur es (Z.to_nat n) (S (Z.to_nat (total_size r))) r 0 Hst) as Hs.
  rewrite Z.mul_0_l in Hs. destruct (Z.ltb_spec cur 0) as [Hneg|_]; [unfold SEG in *; lia|].
  rewrite Hs by (try lia; rewrite (g_total n r Hg); unfold SEG; pose proof (g_n n r Hg); lia).
  cbn [mbind option_bind].
  set (r1 := set_seg r cur _ _).
  destruct (region_seg_scan_ok n r1 es) as (r' & es' & -> & Hl & He).
  - destruct Hst as [A1 A2 A3 A4 A5 A6].
    split; try assumption; [destruct A1; split; assumption|]. destruct A3. split; assumption.
  - reflexivity.
  - cbn [mbind option_bind]. exists r', es'. auto.
Qed.
