(* ===== verification/NvramStore.v ===== *)
(** * The configuration store as a whole

    The three regions behind [nvram_config_get] and [nvram_config_set]: the
    map they stand for, computed from the flash; restart; the instance of the
    class [Nvram] that the property cache is verified against; and what a power
    failure in the middle of an operation leads to. *)

From stdpp Require Import base numbers list strings gmap.
From S2P Require Import Prelude Nvram NvramConfig NvramLog NvramProof.
Open Scope Z_scope.

(** ** The map in the flash *)

Definition name_of (l : list Z) : string :=
  String.string_of_list_ascii ((fun b => Ascii.ascii_of_N (Z.to_N b)) <$> removelast l).

(** The entries of the log from an offset of the current segment on. *)
Fixpoint read_log (fuel : nat) (r : region_info) (offs : Z) : list entry :=
  match fuel with
  | O => []
  | S fuel =>
      if offs <? seg_size r then
        let o := seg_offset r + offs in
        let item := item_of (load (flash r) o 8) in
        if it_magic item =? NVRAM_REGION_ITEM_MAGIC then
          mk_entry (it_state item =? NVRAM_ITEM_STATE_VALID)
            (name_of (load (flash r) (o + 8) (it_name_size item)))
            (load (flash r) (o + 8 + it_name_size item) (it_data_size item))
          :: read_log fuel r (offs + item_get_aligned_size item)
        else []
      else []
  end.

Definition region_entries (r : region_info) : list entry := read_log (seg_rounds r) r 16.
Definition region_view (r : region_info) : gmap string (list Z) := log_view (region_entries r).

Lemma name_of_cstr k : name_of (cstr k) = k.
Proof.
  unfold name_of. rewrite cstr_bytes, removelast_last. unfold name_bytes. rewrite <- list_fmap_compose.
  rewrite (list_fmap_ext _ id).
  - rewrite list_fmap_id. apply String.string_of_list_ascii_of_string.
  - intros i a _. simpl. rewrite N2Z.id. apply Ascii.ascii_N_embedding.
Qed.

Lemma read_log_ok n r : geometry n r -> seg_aligned n (seg_offset r) ->
  forall es, entries_ok es -> forall fuel offs, 0 <= offs -> offs + log_len es <= SEG -> (16 | offs) ->
  log_at (flash r) (seg_offset r + offs) es ->
  erased (flash r) (seg_offset r + offs + log_len es) (seg_offset r + SEG) -> (length es < fuel)%nat ->
  read_log fuel r offs = es.
Proof.
  intros Hg Ho. induction 1 as [|e es He Hes IH]; intros fuel offs H0 Hfit H16 Hlog Her Hf;
    destruct fuel as [|fuel]; try (simpl in Hf; lia); cbn [read_log]; rewrite (g_seg n r Hg).
  - cbn [log_len foldr] in *. destruct (Z.ltb_spec offs SEG); [|reflexivity].
    assert (Hroom : offs + 16 <= SEG) by (destruct H16 as [q ->]; unfold SEG in *; lia).
    rewrite load_erased by (lia || (eapply erased_sub; [exact Her | lia | lia])). reflexivity.
  - cbn [log_len foldr] in *. fold (log_len es) in *. destruct Hlog as [Hl Hlog].
    pose proof (e_aligned_bound e He). pose proof (log_len_nonneg es Hes).
    destruct (Z.ltb_spec offs SEG); [|lia]. rewrite (entry_item e He _ _ Hl).
    destruct (e_item_fields e He) as (-> & Es & _ & En & Ed & _). rewrite Es, En, Ed, item_aligned_size by exact He.
    destruct (entry_parts e _ _ Hl) as (_ & -> & ->). rewrite name_of_cstr. cbn [Z.eqb].
    assert (Hst : (state_of (e_valid e) =? NVRAM_ITEM_STATE_VALID) = e_valid e) by (destruct (e_valid e); reflexivity).
    rewrite Hst. simpl (NVRAM_REGION_ITEM_MAGIC =? NVRAM_REGION_ITEM_MAGIC). cbv iota. f_equal; [destruct e; reflexivity|].
    apply IH; rewrite ?Z.add_assoc in *; try lia; try assumption.
    + apply Z.divide_add_r; [exact H16|]. exists ((e_size e + 15) / 16). unfold e_aligned. lia.
    + simpl in Hf. lia.
Qed.

Lemma region_entries_ok n r es : region_log n r es -> region_entries r = es.
Proof.
  intros [Hg Ho [Hok Hlog Hfit Hw Her] _ _]. unfold region_entries.
  apply (read_log_ok n r Hg Ho es Hok); try assumption; try lia.
  - exists 1. reflexivity.
  - rewrite <- Hw. exact Her.
  - apply (seg_rounds_enough n r es Hg Hok Hfit).
Qed.

(** A region in a good state, with the entries read from its flash. *)
Definition good (n : Z) (r : region_info) : Prop := region_ok n r (region_entries r).

Lemma good_of n r es : region_ok n r es -> good n r /\ region_view r = log_view es.
Proof.
  intros [Hl Hu]. unfold good, region_view. rewrite (region_entries_ok n r es Hl). split; [split; assumption | reflexivity].
Qed.

Lemma region_get_good n r k max : good n r -> name_ok k -> 0 < max ->
  region_get r k max = match region_view r !! k with
                       | Some v => Some (Z.min max (Z.of_nat (length v)), take (Z.to_nat max) v)
                       | None => Some (- ENOENT, [])
                       end.
Proof. intros [Hl _] [Hk _] Hm. apply (region_get_step n); assumption. Qed.

(** ** Restart *)

Lemma region_log_stored n r es r0 : region_log n r es -> geometry n r0 -> flash r0 = flash r ->
  map_shape (seg_item_map r0) -> stored_log n r0 (seg_offset r) es.
Proof.
  intros [Hg Ho Hseg Hm [H1 H2 H3 H4]] Hg0 Ef Hsh. split; try assumption; rewrite ?Ef.
  - rewrite <- (sl_woff _ _ _ _ Hseg). eapply seg_log_meta; [exact Ef | exact Hseg].
  - intros off Hoff. case_bool_decide as E; [rewrite E; exact H1 | apply H4; assumption].
  - rewrite H2. exact H3.
Qed.

Lemma region_restart n r r0 : good n r -> geometry n r0 -> flash r0 = flash r -> map_shape (seg_item_map r0) ->
  exists r', region_scan r0 = Some (0, r') /\ good n r' /\ region_view r' = region_view r.
Proof.
  intros [Hl Hu] Hg0 Ef Hsh.
  destruct (region_scan_stored n r0 _ _ (region_log_stored n r _ r0 Hl Hg0 Ef Hsh)) as (r' & es' & Hs & Hl' & He).
  exists r'. split; [exact Hs|]. unfold region_view at 2.
  destruct He as [-> | ->].
  - apply (good_of n). split; assumption.
  - rewrite <- live_view. apply (good_of n). split; [exact Hl'|]. unfold unique_names. rewrite live_names. exact Hu.
Qed.

(** The first start: the flash is erased. *)
Lemma region_first_start n r : geometry n r -> map_shape (seg_item_map r) -> 0 <= seg_seq_id r < 256 ->
  erased (flash r) 0 (n * SEG) ->
  exists r', region_scan r = Some (0, r') /\ good n r' /\ region_view r' = ∅.
Proof.
  intros Hg Hsh Hseq Her. pose proof (g_n n r Hg) as Hn.
  assert (Hinv : forall off, seg_aligned n off -> is_valid_region_seg_header (hdr_at (flash r) off) = false).
  { intros off (i & Hi & ->). unfold hdr_at, SEG_HEADER_SIZE. rewrite load_erased; [reflexivity | lia|].
    eapply erased_sub; [exact Her | unfold SEG; lia | unfold SEG; nia]. }
  assert (Hscan : forall k fuel i, 0 <= i -> Z.of_nat k = n - i -> (k < fuel)%nat ->
            scan_loop fuel r (i * SEG) false = Some (inr (false, r))).
  { induction k as [|k IH]; intros fuel i Hi Hk Hf; destruct fuel as [|fuel]; try lia; cbn [scan_loop];
      rewrite (g_total n r Hg).
    - destruct (Z.ltb_spec (i * SEG) (n * SEG)); [unfold SEG in *; lia | reflexivity].
    - destruct (Z.ltb_spec (i * SEG) (n * SEG)); [|unfold SEG in *; lia].
      assert (Hal : seg_aligned n (i * SEG)) by (exists i; lia).
      assert (Hin16 : in_region r (i * SEG) (i * SEG + SEG_HEADER_SIZE)).
      { eapply in_region_sub; [exact (seg_in_region n r _ Hg Hal) | reflexivity | unfold SEG_HEADER_SIZE, SEG; lia]. }
      rewrite region_read_ok by (exact Hin16 || (unfold SEG_HEADER_SIZE; lia)).
      fold (hdr_at (flash r) (i * SEG)). rewrite (Hinv _ Hal). cbn [andb orb]. rewrite (g_seg n r Hg).
      replace (i * SEG + SEG) with ((i + 1) * SEG) by lia. apply IH; lia. }
  unfold region_scan. specialize (Hscan (Z.to_nat n) (S (Z.to_nat (total_size r))) 0). rewrite Z.mul_0_l in Hscan.
  rewrite Hscan by (try lia; rewrite (g_total n r Hg); unfold SEG; lia). cbn [mbind option_bind].
  assert (H0 : seg_aligned n 0) by (exists 0; lia).
  destruct (region_init_new_seg_ok n r 0 Hg H0 Hsh Hseq) as (m & -> & Hm).
  destruct (new_seg_header_ok (seg_seq_id r) Hseq) as (Hl & Hb & Hv & Hs).
  eexists. split; [reflexivity|]. change (∅ : gmap string (list Z)) with (log_view []). apply (good_of n).
  assert (Hhdr : hdr_at m 0 = seg_header_of (seg_header_bytes (new_seg_header SEG (seg_seq_id r)))).
  { unfold hdr_at, SEG_HEADER_SIZE. f_equal. rewrite <- (new_seg_mem_header (flash r) 0 _ Hl Hb).
    apply load_ext. intros x _. apply Hm. }
  split; [|unfold unique_names; constructor].
  split; [destruct Hg; split; assumption | exact H0 | | apply cleared_map_ok; exact Hsh |].
  - eapply (new_seg_log n r); [exact Hg | reflexivity | exact Hm | exact Hl].
  - split; cbn [flash seg_offset seg_seq_id set_item_map set_seg set_flash].
    + rewrite Hhdr. exact Hv.
    + rewrite Hhdr. exact Hs.
    + apply u8_range.
    + intros off Hoff Hne. rewrite (hdr_at_ext m (flash r)); [apply Hinv; exact Hoff|].
      intros x Hx. rewrite Hm. apply new_seg_mem_out; [exact Hl|]. destruct Hoff as (i & Hi & ->). unfold SEG in *. lia.
Qed.

(** ** Clearing unused segments *)

(** A change of the flash outside the current segment that leaves every other
    header alone or erases it. *)
Lemma good_outside n r m : good n r ->
  (forall x, seg_offset r <= x < seg_offset r + SEG -> m x = flash r x) ->
  (forall off, seg_aligned n off -> off <> seg_offset r ->
     (forall x, off <= x < off + 16 -> m x = flash r x) \/ erased m off (off + 16)) ->
  good n (set_flash r m) /\ region_view (set_flash r m) = region_view r.
Proof.
  intros [Hl Hu] Hin Hout. apply (good_of n). split; [|exact Hu].
  destruct Hl as [Hg Ho [Hok Hlog Hfit Hw Her] Hm [H1 H2 H3 H4]].
  pose proof (log_len_nonneg _ Hok).
  assert (Hh : hdr_at m (seg_offset r) = hdr_at (flash r) (seg_offset r)).
  { apply hdr_at_ext. intros x Hx. apply Hin. unfold SEG. lia. }
  split; [destruct Hg; split; assumption | exact Ho | | exact Hm |].
  - split; cbn [flash set_flash seg_offset seg_write_offset]; try assumption.
    + eapply log_at_ext; [exact Hok | | exact Hlog]. intros x Hx. symmetry. apply Hin. unfold SEG in *. lia.
    + intros x Hx. rewrite Hin by lia. apply Her. exact Hx.
  - split; cbn [flash set_flash seg_offset seg_seq_id]; rewrite ?Hh; try assumption.
    intros off Hoff Hne. destruct (Hout off Hoff Hne) as [Hsame|Her'].
    + rewrite (hdr_at_ext m (flash r)); [apply H4; assumption | exact Hsame].
    + unfold hdr_at, SEG_HEADER_SIZE. rewrite load_erased; [reflexivity | lia | exact Her'].
Qed.

Lemma region_clear_step n r size : good n r -> 0 <= size <= total_size r ->
  good n (snd (region_clear r size)) /\ region_view (snd (region_clear r size)) = region_view r.
Proof.
  intros Hgood Hs. pose proof Hgood as [[Hg (i & Hi & Ei) _ _ _] _]. pose proof Hg as [G1 G2 G3 G4 G5].
  pose proof (ROUND_UP_pow2 size 12 ltac:(lia) ltac:(lia)) as HR. change (2 ^ 12) with SEG in HR.
  set (c0 := (size + (SEG - 1)) / SEG) in HR.
  assert (Hc0 : 0 <= c0) by (apply Z.div_pos; unfold SEG; lia).
  unfold region_clear. rewrite G2, HR, G4. clear HR.
  set (c := if SEG * c0 >? n * SEG - SEG then n * SEG - SEG else SEG * c0).
  assert (Hc : exists k, 0 <= k <= n - 1 /\ c = k * SEG).
  { subst c. rewrite Z.gtb_ltb. destruct (Z.ltb_spec (n * SEG - SEG) (SEG * c0)).
    - exists (n - 1). lia.
    - exists c0. unfold SEG in *. lia. }
  destruct Hc as (k & Hk & ->). rewrite Ei.
  assert (Hcur : forall off, seg_aligned n off -> off <> i * SEG -> exists j, off = j * SEG /\ j <> i /\ 0 <= j < n).
  { intros off (j & Hj & ->) Hne. exists j. split; [reflexivity|]. split; [congruence | exact Hj]. }
  rewrite Z.gtb_ltb. destruct (Z.ltb_spec (n * SEG) (i * SEG + SEG + k * SEG)).
  - replace (n * SEG - (i * SEG + SEG)) with ((n - 1 - i) * SEG) by lia.
    replace (i * SEG + SEG) with ((i + 1) * SEG) by lia.
    replace (k * SEG - (n - 1 - i) * SEG) with ((k - (n - 1 - i)) * SEG) by lia. unfold SEG.
    destruct (region_erase_ok r (i + 1) (n - 1 - i)) as (m1 & -> & Hm1); try lia; [exact G1 | rewrite G4; unfold SEG; lia |].
    cbn [snd]. destruct (region_erase_ok (set_flash r m1) 0 (k - (n - 1 - i))) as (m2 & Em2 & Hm2); try lia;
      [exact G1 | unfold SEG in *; lia | simpl; rewrite G4; unfold SEG; lia | exact G5 |].
    rewrite Z.mul_0_l in Em2, Hm2. rewrite Em2.
    change (set_flash (set_flash r m1) m2) with (set_flash r m2). simpl flash in Hm2.
    apply good_outside; [exact Hgood | |].
    + intros x Hx. rewrite Ei in Hx. rewrite Hm2. unfold erased_mem. rewrite Hm1. unfold erased_mem, SEG in *.
      reflect_bools; simpl; try reflexivity; lia.
    + intros off Hoff Hne. rewrite Ei in Hne. destruct (Hcur off Hoff Hne) as (j & -> & Hj & Hjn).
      assert (Hcase : forall x, j * SEG <= x < j * SEG + SEG ->
                m2 x = if (j <? k - (n - 1 - i)) || (i <? j) then 0xff else flash r x).
      { intros x Hx. rewrite Hm2. unfold erased_mem. rewrite Hm1. unfold erased_mem, SEG in *.
        destruct (Z.ltb_spec j (k - (n - 1 - i))), (Z.ltb_spec i j); simpl; reflect_bools; simpl; try reflexivity; lia. }
      destruct ((j <? k - (n - 1 - i)) || (i <? j)); [right | left]; intros x Hx; apply Hcase; unfold SEG in *; lia.
  - replace (i * SEG + SEG) with ((i + 1) * SEG) by lia. unfold SEG in *.
    destruct (region_erase_ok r (i + 1) k) as (m & -> & Hm); try lia; [exact G1|].
    apply good_outside; [exact Hgood | |].
    + intros x Hx. rewrite Ei in Hx. rewrite Hm. unfold erased_mem, SEG in *. reflect_bools; simpl; try reflexivity; lia.
    + intros off Hoff Hne. rewrite Ei in Hne. destruct (Hcur off Hoff Hne) as (j & -> & Hj & Hjn).
      assert (Hcase : forall x, j * SEG <= x < j * SEG + SEG ->
                m x = if (i <? j) && (j <? i + 1 + k) then 0xff else flash r x).
      { intros x Hx. rewrite Hm. unfold erased_mem, SEG in *.
        destruct (Z.ltb_spec i j), (Z.ltb_spec j (i + 1 + k)); simpl; reflect_bools; simpl; try reflexivity; lia. }
      destruct ((i <? j) && (j <? i + 1 + k)); [right | left]; intros x Hx; apply Hcase; unfold SEG in *; lia.
Qed.

(** ** The three regions *)

(** User values hide factory values. *)
Definition store_view (s : nvram_state) : gmap string (list Z) :=
  region_view (user_nvram_region s) ∪
  (region_view (factory_rw_nvram_region s) ∪ region_view (factory_nvram_region s)).

Record store_good (nu nr nf : Z) (s : nvram_state) : Prop := mk_store_good {
  sg_user : good nu (user_nvram_region s);
  sg_rw : good nr (factory_rw_nvram_region s);
  sg_fac : good nf (factory_nvram_region s)
}.

Definition read_result (max : Z) (o : option (list Z)) : Z * list Z :=
  match o with
  | Some v => (Z.min max (Z.of_nat (length v)), take (Z.to_nat max) v)
  | None => (- ENOENT, [])
  end.

Lemma config_get_step nu nr nf s k max : store_good nu nr nf s -> name_ok k -> 0 < max ->
  nvram_config_get s k max = Some (read_result max (store_view s !! k)).
Proof.
  intros [Hu Hr Hf] Hk Hm. unfold nvram_config_get, store_view, read_result.
  rewrite (region_get_good nu _ k max Hu Hk Hm), (region_get_good nr _ k max Hr Hk Hm),
    (region_get_good nf _ k max Hf Hk Hm).
  assert (Hge : forall v : list Z, (Z.min max (Z.of_nat (length v)) >=? 0) = true).
  { intros v. rewrite Z.geb_leb. apply Z.leb_le. lia. }
  rewrite !lookup_union. destruct (region_view (user_nvram_region s) !! k) as [v|]; cbn [mbind option_bind].
  { rewrite Hge. destruct (_ !! k), (_ !! k); reflexivity. }
  destruct (region_view (factory_rw_nvram_region s) !! k) as [v|]; cbn [mbind option_bind].
  { rewrite Hge. destruct (region_view (factory_nvram_region s) !! k); reflexivity. }
  destruct (region_view (factory_nvram_region s) !! k); reflexivity.
Qed.

(** ** Space: a table of the names and the longest value of each *)

Definition budget_size (p : string * nat) : Z :=
  16 * ((8 + Z.of_nat (length (cstr (fst p))) + Z.of_nat (snd p) + 15) / 16).

Definition budget_total (B : list (string * nat)) : Z := foldr (fun p n => budget_size p + n) 0 B.

Definition allowed (B : list (string * nat)) (k : string) (v : list Z) : Prop :=
  name_ok k /\ data_ok v /\ exists mx, (k, mx) ∈ B /\ (length v <= mx)%nat.

Record budget_ok (B : list (string * nat)) : Prop := mk_budget_ok {
  b_unique : NoDup (fst <$> B);
  b_fits : forall p, p ∈ B -> budget_total B + budget_size p <= SEG - 16
}.

#[local] Instance budget_total_proper : Proper ((≡ₚ) ==> (=)) budget_total.
Proof.
  induction 1 as [|p l l' _ IH|p q l|l l' l'' _ IH1 _ IH2]; cbn [budget_total foldr] in *; unfold budget_total in *; lia.
Qed.

Lemma budget_size_mono k mx v : (length v <= mx)%nat -> e_aligned (mk_entry true k v) <= budget_size (k, mx).
Proof.
  intros H. unfold e_aligned, e_size, budget_size. cbn [e_name e_data fst snd].
  apply Z.mul_le_mono_nonneg_l; [lia|]. apply Z.div_le_mono; lia.
Qed.

Lemma live_budget B : NoDup (fst <$> B) -> forall es, unique_names es ->
  (forall e, e ∈ es -> e_valid e = true -> exists mx, (e_name e, mx) ∈ B /\ (length (e_data e) <= mx)%nat) ->
  log_len (live es) <= budget_total B.
Proof.
  intros HB es. revert B HB. induction es as [|e es IH]; intros B HB Hu Hin.
  - clear. change (log_len (live [])) with 0. induction B as [|p B IH]; [reflexivity|].
    assert (0 <= budget_size p) by (unfold budget_size; Z.div_mod_to_equations; lia).
    cbn [budget_total foldr] in *. unfold budget_total in IH. lia.
  - unfold live. rewrite filter_cons. unfold unique_names, valid_names in Hu. rewrite filter_cons in Hu.
    case_decide as Ev.
    + destruct (Hin e ltac:(left) Ev) as (mx & Hm & Hlen). apply elem_of_Permutation in Hm. destruct Hm as [B' HB'].
      assert (HBn : NoDup (fst <$> (e_name e, mx) :: B')) by (rewrite <- HB'; exact HB).
      cbn [fmap list_fmap fst] in HBn. apply NoDup_cons in HBn. destruct HBn as [Hnot HBn].
      cbn [fmap list_fmap] in Hu. apply NoDup_cons in Hu. destruct Hu as [Hfresh Hu].
      rewrite HB'. change (e_aligned e + log_len (live es) <= budget_size (e_name e, mx) + budget_total B').
      pose proof (budget_size_mono (e_name e) mx (e_data e) Hlen) as Hb.
      assert (Ee : e_aligned (mk_entry true (e_name e) (e_data e)) = e_aligned e) by reflexivity. rewrite Ee in Hb.
      enough (log_len (live es) <= budget_total B') by lia.
      apply IH; [exact HBn | exact Hu |]. intros x Hx Hv.
      destruct (Hin x ltac:(right; exact Hx) Hv) as (mx' & Hm' & Hlen'). exists mx'. split; [|exact Hlen'].
      rewrite HB' in Hm'. apply elem_of_cons in Hm'. destruct Hm' as [Heq|Hm']; [|exact Hm'].
      injection Heq as En _. destruct Hfresh. apply list_elem_of_fmap. exists x. split; [congruence|].
      apply list_elem_of_filter. auto.
    + apply IH; [exact HB | exact Hu |]. intros x Hx Hv. apply Hin; [right; exact Hx | exact Hv].
Qed.

(** The values of the user region keep to the table. *)
Definition within (B : list (string * nat)) (r : region_info) : Prop :=
  forall k v, region_view r !! k = Some v -> allowed B k v.

Lemma valid_entry_view es : unique_names es -> forall e, e ∈ es -> e_valid e = true ->
  log_view es !! e_name e = Some (e_data e).
Proof.
  induction es as [|x es IH]; intros Hu e He Hv; [inversion He|]. unfold unique_names, valid_names in Hu.
  rewrite filter_cons in Hu. apply elem_of_cons in He. cbn [log_view]. destruct He as [->|He].
  - rewrite Hv. apply lookup_insert_eq.
  - case_decide as Ex.
    + rewrite Ex. cbn [fmap list_fmap] in Hu. apply NoDup_cons in Hu. destruct Hu as [Hn Hu].
      rewrite lookup_insert_ne; [apply IH; assumption|]. intros E. apply Hn. rewrite E.
      apply list_elem_of_fmap. exists e. split; [reflexivity|]. apply list_elem_of_filter. auto.
    + destruct (e_valid x); [congruence|]. apply IH; assumption.
Qed.

Lemma within_fits B n r k v : budget_ok B -> good n r -> within B r -> allowed B k v ->
  fits (region_entries r) k v.
Proof.
  intros [HB1 HB2] [Hl Hu] Hw (Hk & Hv & mx & Hm & Hlen). unfold fits.
  pose proof (HB2 _ Hm) as Hb. pose proof (budget_size_mono k mx v Hlen).
  enough (log_len (live (region_entries r)) <= budget_total B) by lia.
  apply live_budget; [exact HB1 | exact Hu |]. intros e He Hev.
  destruct (Hw (e_name e) (e_data e)) as (_ & _ & H1); [|exact H1].
  apply valid_entry_view; assumption.
Qed.

(** Writing an allowed pair. *)
Lemma region_set_within B n r k v : budget_ok B -> good n r -> within B r -> allowed B k v ->
  exists r', region_set r k v = Some (0, r') /\ good n r' /\ within B r' /\
    region_view r' = <[k := v]> (region_view r).
Proof.
  intros HB Hg Hw Ha. pose proof (within_fits B n r k v HB Hg Hw Ha) as Hf. pose proof Ha as (Hk & Hv & _).
  destruct (region_set_step n r _ k v Hg Hk Hv Hf) as (r' & es' & Hs & Hr' & Hvw).
  destruct (good_of n r' es' Hr') as [Hg' Hvw']. exists r'. split; [exact Hs|]. split; [exact Hg'|].
  rewrite Hvw'. split; [|exact Hvw]. intros k' v' Hl. rewrite Hvw', Hvw in Hl.
  destruct (decide (k' = k)) as [->|Hne].
  - rewrite lookup_insert_eq in Hl. injection Hl as <-. exact Ha.
  - rewrite lookup_insert_ne in Hl by congruence. apply Hw. exact Hl.
Qed.

(** ** The instance of the class *)

Section Store.
Variable B : list (string * nat).
Hypothesis HB : budget_ok B.

Definition store_inv (s : nvram_state) : Prop :=
  (exists nu nr nf, store_good nu nr nf s) /\ within B (user_nvram_region s).

(** [None], an undefined read, does not happen in a good state. *)
Definition store_get (s : nvram_state) (k : string) (max : Z) : Z * list Z :=
  default (- EIO, []) (nvram_config_get s k max).
Definition store_set (s : nvram_state) (k : string) (v : list Z) : Z * nvram_state :=
  default (- EIO, s) (nvram_config_set s k v).

Lemma store_get_found s k v max : store_inv s -> name_ok k -> 0 < max -> store_view s !! k = Some v ->
  store_get s k max = (Z.min max (Z.of_nat (length v)), take (Z.to_nat max) v).
Proof.
  intros [(nu & nr & nf & Hg) _] Hk Hm Hv. unfold store_get.
  rewrite (config_get_step _ _ _ s k max Hg Hk Hm), Hv. reflexivity.
Qed.

Lemma store_get_missing s k max : store_inv s -> name_ok k -> 0 < max -> store_view s !! k = None ->
  exists e, 0 < e /\ store_get s k max = (- e, []).
Proof.
  intros [(nu & nr & nf & Hg) _] Hk Hm Hv. unfold store_get.
  rewrite (config_get_step _ _ _ s k max Hg Hk Hm), Hv. exists ENOENT. split; reflexivity.
Qed.

Lemma store_set_ok s k v : store_inv s -> allowed B k v ->
  exists s', nvram_config_set s k v = Some (0, s') /\ store_inv s' /\
    store_view s' = <[k := v]> (store_view s).
Proof.
  intros [(nu & nr & nf & [Hu Hr Hf]) Hw] Ha.
  destruct (region_set_within B nu _ k v HB Hu Hw Ha) as (r' & Hs & Hg' & Hw' & Hv').
  unfold nvram_config_set. rewrite Hs. cbn [mbind option_bind]. eexists. split; [reflexivity|].
  split; [split; [exists nu, nr, nf; split; assumption | exact Hw']|].
  unfold store_view. cbn [user_nvram_region factory_rw_nvram_region factory_nvram_region].
  rewrite Hv'. symmetry. apply insert_union_l.
Qed.

Lemma store_set_result s k v r s' : store_inv s -> allowed B k v -> v <> [] -> store_set s k v = (r, s') ->
  store_inv s' /\
  ((r = 0 /\ store_view s' = <[k := v]> (store_view s)) \/ (r < 0 /\ store_view s' = store_view s)).
Proof.
  intros Hi Ha _. unfold store_set. destruct (store_set_ok s k v Hi Ha) as (s1 & -> & Hi1 & Hv1).
  simpl. intros [= <- <-]. auto.
Qed.

Definition nvram_store : Nvram nvram_state := {|
  Nvram.nvram_config_get := store_get;
  Nvram.nvram_config_set := store_set;
  nv_view := store_view;
  nv_inv := store_inv;
  nv_name := name_ok;
  nv_allowed := allowed B;
  nvram_get_found := store_get_found;
  nvram_get_missing := store_get_missing;
  nvram_set_result := store_set_result
|}.
End Store.

(** ** Restart of the store *)

(** RAM after a reset: the flash is [r]'s, everything else is arbitrary. *)
Definition reset_of (r0 r : region_info) : Prop :=
  flash r0 = flash r /\ seg_size r0 = SEG /\ map_shape (seg_item_map r0).

Lemma attach_geometry n r r0 : good n r -> reset_of r0 r -> geometry n (attach r0 (Some (total_size r))).
Proof.
  intros [[Hg _ _ _ _] _] (_ & Hs & _). destruct Hg. split; try assumption. reflexivity.
Qed.

Lemma attach_restart n r r0 : good n r -> reset_of r0 r ->
  exists r', region_scan (attach r0 (Some (total_size r))) = Some (0, r') /\ good n r' /\
    region_view r' = region_view r.
Proof.
  intros Hr H0. pose proof H0 as (Hf & _ & Hm). apply (region_restart n r);
    [exact Hr | apply (attach_geometry n r r0 Hr H0) | exact Hf | exact Hm].
Qed.

Lemma config_init_step nu nr nf s s0 : store_good nu nr nf s ->
  reset_of (user_nvram_region s0) (user_nvram_region s) ->
  reset_of (factory_rw_nvram_region s0) (factory_rw_nvram_region s) ->
  reset_of (factory_nvram_region s0) (factory_nvram_region s) ->
  exists s', nvram_config_init s0 (Some (total_size (user_nvram_region s)))
               (Some (total_size (factory_rw_nvram_region s)))
               (Some (total_size (factory_nvram_region s))) = Some (0, s') /\
    store_good nu nr nf s' /\ region_view (user_nvram_region s') = region_view (user_nvram_region s) /\
    store_view s' = store_view s.
Proof.
  intros [Hu Hr Hf] R1 R2 R3. unfold nvram_config_init.
  destruct (attach_restart nu _ _ Hu R1) as (ru & Eu & Gu & Vu).
  destruct (attach_restart nr _ _ Hr R2) as (rr & Er & Gr & Vr).
  destruct (attach_restart nf _ _ Hf R3) as (rf & Ef & Gf & Vf).
  rewrite Er. cbn [mbind option_bind]. rewrite Ef. cbn [mbind option_bind]. rewrite Eu. cbn [mbind option_bind].
  pose proof Gu as [[Hgu _ _ _ _] _].
  destruct (region_clear_step nu ru (total_size ru / 2) Gu) as [Gc Vc].
  { pose proof (g_total nu ru Hgu). pose proof (g_n nu ru Hgu). unfold SEG in *. Z.div_mod_to_equations. lia. }
  destruct (region_clear ru (total_size ru / 2)) as [err rc]. cbn [snd] in Gc, Vc.
  eexists. split; [reflexivity|]. split; [split; assumption|].
  unfold store_view. cbn [user_nvram_region factory_rw_nvram_region factory_nvram_region].
  rewrite Vc, Vu, Vr, Vf. auto.
Qed.

(** ** Power failures *)

(** One round of the scan. *)
Lemma scan_round n r i found fuel : geometry n r -> 0 <= i < n ->
  scan_loop (S fuel) r (i * SEG) found =
    let hdr := hdr_at (flash r) (i * SEG) in
    let take_it := is_valid_region_seg_header hdr
                   && (negb found || (s8 (sh_seq_id hdr - seg_seq_id r) >? 0)) in
    scan_loop fuel (if take_it then set_seg r (i * SEG) (seg_write_offset r) (sh_seq_id hdr) else r)
      ((i + 1) * SEG) (found || take_it).
Proof.
  intros Hg Hi. cbn [scan_loop]. rewrite (g_total n r Hg).
  destruct (Z.ltb_spec (i * SEG) (n * SEG)); [|unfold SEG in *; lia].
  assert (Hal : seg_aligned n (i * SEG)) by (exists i; lia).
  assert (Hin16 : in_region r (i * SEG) (i * SEG + SEG_HEADER_SIZE)).
  { eapply in_region_sub; [exact (seg_in_region n r _ Hg Hal) | reflexivity | unfold SEG_HEADER_SIZE, SEG; lia]. }
  rewrite region_read_ok by (exact Hin16 || (unfold SEG_HEADER_SIZE; lia)).
  fold (hdr_at (flash r) (i * SEG)). cbv zeta.
  replace ((i + 1) * SEG) with (i * SEG + SEG) by lia. rewrite <- (g_seg n r Hg).
  destruct (_ && _); reflexivity.
Qed.

Lemma scan_end n r i found fuel : geometry n r -> n <= i ->
  scan_loop (S fuel) r (i * SEG) found = Some (inr (found, r)).
Proof.
  intros Hg Hi. cbn [scan_loop]. rewrite (g_total n r Hg).
  destruct (Z.ltb_spec (i * SEG) (n * SEG)); [unfold SEG in *; lia | reflexivity].
Qed.

Lemma geometry_seg n r a b c : geometry n r -> geometry n (set_seg r a b c).
Proof. intros [H1 H2 H3 H4 H5]. split; assumption. Qed.

(** The scan with two valid headers, of segment [a] and of the newer one [b]. *)
Section TwoHeaders.
Variables (n a b so : Z) (m : mem).
Hypothesis Hab : 0 <= a < n /\ 0 <= b < n /\ a <> b.
Hypothesis Hso : 0 <= so < 256.
Hypothesis Hvalid : forall i, 0 <= i < n ->
  is_valid_region_seg_header (hdr_at m (i * SEG)) = (i =? a) || (i =? b).
Hypothesis Ha : sh_seq_id (hdr_at m (a * SEG)) = so.
Hypothesis Hb : sh_seq_id (hdr_at m (b * SEG)) = u8 (so + 1).

Lemma newer : (s8 (u8 (so + 1) - so) >? 0) = true /\ (s8 (so - u8 (so + 1)) >? 0) = false.
Proof.
  pose proof (forallb_seqZ (fun so => (s8 (u8 (so + 1) - so) >? 0) && negb (s8 (so - u8 (so + 1)) >? 0)) 0 256
    ltac:(vm_compute; reflexivity) so ltac:(lia)) as H.
  apply andb_true_iff in H. destruct H as [H1 H2]. split; [exact H1 | apply negb_true_iff; exact H2].
Qed.

Lemma scan_have_new : forall k fuel r i, geometry n r -> flash r = m -> seg_seq_id r = u8 (so + 1) ->
  b < i -> Z.of_nat k = n - i -> (k < fuel)%nat -> scan_loop fuel r (i * SEG) true = Some (inr (true, r)).
Proof.
  induction k as [|k IH]; intros fuel r i Hg Hf Hs Hi Hk Hfu; destruct fuel as [|fuel]; try lia.
  - apply (scan_end n); [exact Hg | lia].
  - rewrite (scan_round n r i true fuel Hg) by lia. cbv zeta. rewrite Hf, Hvalid, Hs by lia. cbn [negb orb].
    destruct newer as [_ Hnew]. destruct (Z.eqb_spec i b) as [->|_]; [lia|].
    destruct (Z.eqb_spec i a) as [->|_]; [rewrite Ha, Hnew|]; cbn [andb orb]; apply IH; (assumption || lia).
Qed.

Lemma scan_have_old : forall k fuel r i, geometry n r -> flash r = m -> seg_seq_id r = so ->
  a < i <= b -> Z.of_nat k = n - i -> (k < fuel)%nat ->
  scan_loop fuel r (i * SEG) true =
    Some (inr (true, set_seg r (b * SEG) (seg_write_offset r) (u8 (so + 1)))).
Proof.
  induction k as [|k IH]; intros fuel r i Hg Hf Hs Hi Hk Hfu; destruct fuel as [|fuel]; try lia.
  rewrite (scan_round n r i true fuel Hg) by lia. cbv zeta. rewrite Hf, Hvalid, Hs by lia. cbn [negb orb].
  destruct newer as [Hnew _]. destruct (Z.eqb_spec i a) as [->|_]; [lia|].
  destruct (Z.eqb_spec i b) as [->|Hne]; cbn [orb andb].
  - rewrite Hb, Hnew. apply (scan_have_new k); try (reflexivity || lia); [apply geometry_seg; exact Hg | exact Hf].
  - apply IH; (assumption || lia).
Qed.

Lemma scan_have_none : forall k fuel r i, geometry n r -> flash r = m -> 0 <= i -> i <= a -> i <= b ->
  Z.of_nat k = n - i -> (k < fuel)%nat ->
  scan_loop fuel r (i * SEG) false =
    Some (inr (true, set_seg r (b * SEG) (seg_write_offset r) (u8 (so + 1)))).
Proof.
  induction k as [|k IH]; intros fuel r i Hg Hf H0 Hia Hib Hk Hfu; destruct fuel as [|fuel]; try lia.
  rewrite (scan_round n r i false fuel Hg) by lia. cbv zeta. rewrite Hf, Hvalid by lia. cbn [negb orb].
  rewrite andb_true_r. destruct (Z.eqb_spec i a) as [->|Hne]; cbn [orb].
  - rewrite (scan_have_old k fuel); try (exact Ha || lia); [reflexivity | apply geometry_seg; exact Hg | exact Hf].
  - destruct (Z.eqb_spec i b) as [->|Hneb].
    + rewrite Hb. apply (scan_have_new k); try (reflexivity || lia); [apply geometry_seg; exact Hg | exact Hf].
    + apply IH; (assumption || lia).
Qed.
End TwoHeaders.

(** The flash after the first half of a purge. *)
Lemma purge_start_flash n r es : purgeable n r es -> exists m,
  flash (purge_start r) = m /\
  (forall x, x < purge_target r \/ purge_target r + SEG <= x -> m x = flash r x) /\
  erased m (purge_target r + 16) (purge_target r + SEG) /\
  is_valid_region_seg_header (hdr_at m (purge_target r)) = true /\
  sh_seq_id (hdr_at m (purge_target r)) = u8 (seg_seq_id r + 1).
Proof.
  intros Hp. destruct (purge_init_ok n r es Hp) as (m & m' & E & E' & H). exists m'.
  split; [|exact H]. unfold purge_start. rewrite E, E'. reflexivity.
Qed.

(** Starting from an empty segment gives an empty map, whatever else is in the
    flash. *)
Lemma empty_seg_scan n r : geometry n r -> seg_aligned n (seg_offset r) -> map_shape (seg_item_map r) ->
  erased (flash r) (seg_offset r + 16) (seg_offset r + SEG) ->
  exists r', region_seg_scan r = Some (0, r') /\ region_view r' = ∅ /\
    forall k max, name_ok k -> 0 < max -> region_get r' k max = Some (- ENOENT, []).
Proof.
  intros Hg Ho Hsh Her. unfold region_seg_scan.
  set (r1 := set_item_map r (item_bitmap_clear_all (seg_item_map r))).
  assert (Hg1 : geometry n r1) by (destruct Hg; split; assumption).
  destruct (seg_scan_loop_ok n [] ltac:(constructor) (seg_rounds r1) r1 []) as (om & Hrun & Hom);
    try assumption; try exact I.
  { constructor. } { unfold SEG. simpl. lia. } { simpl. rewrite Z.add_0_r. exact Her. }
  { apply cleared_map_ok. exact Hsh. }
  { unfold seg_rounds. simpl. lia. }
  cbn [app] in *. change (16 + log_len []) with NVRAM_SEG_ITEM_START_OFFSET in Hrun. rewrite Hrun.
  cbn [mbind option_bind]. set (r2 := set_write_offset _ _).
  assert (Hg2 : geometry n r2) by (destruct Hg; split; assumption).
  rewrite orb_false_l. rewrite (g_seg n r2 Hg2). change (16 >=? SEG) with false. cbv iota.
  change NVRAM_SEG_ITEM_START_OFFSET with 16.
  assert (Hemp : region_is_empy (chunks (SEG - 16)) r2 (seg_offset r + 16) (SEG - 16) = true).
  { apply region_is_empy_ok; [unfold chunks, SEG; lia | exists 1020; reflexivity |]. simpl.
    eapply erased_sub; [exact Her | lia | lia]. }
  change (seg_offset (set_item_map r1 om)) with (seg_offset r). rewrite Hemp. cbn [negb].
  assert (Hseg : seg_log r2 (seg_offset r2) (seg_write_offset r2) []).
  { subst r2. split; simpl; [apply List.Forall_nil | exact I | unfold SEG; lia | | exact Her].
    unfold NVRAM_SEG_ITEM_START_OFFSET. lia. }
  exists r2. split; [reflexivity|]. split.
  - unfold region_view, region_entries.
    rewrite (read_log_ok n r2 Hg2 Ho [] ltac:(apply List.Forall_nil) (seg_rounds r2) 16); [reflexivity | lia | | | exact I | |].
    + unfold SEG. simpl. lia.
    + exists 1. reflexivity.
    + simpl. rewrite Z.add_0_r. exact Her.
    + unfold seg_rounds. simpl. lia.
  - intros k max [Hk _] Hmax. pose proof (find_item_seg n r2 [] k Hg2 Ho Hseg Hom Hk) as [it Hf].
    unfold region_get. destruct (Z.eqb_spec max 0); [lia|]. rewrite Hf. reflexivity.
Qed.

Lemma purge_power_loss_step n r r0 : good n r -> geometry n r0 -> map_shape (seg_item_map r0) ->
  flash r0 = flash (purge_start r) ->
  exists r', region_scan r0 = Some (0, r') /\ region_view r' = ∅ /\
    forall k max, name_ok k -> 0 < max -> region_get r' k max = Some (- ENOENT, []).
Proof.
  intros [Hl _] Hg0 Hsh Hf. pose proof Hl as [Hg Ho _ _ [H1 H2 H3 H4]].
  destruct (purge_target_ok n r Hg Ho) as [Ht Hne].
  destruct (purge_start_flash n r _ (region_log_purgeable n r _ Hl)) as (m & Em & Hout & Her & Hv & Hs).
  rewrite Em in Hf. destruct Ho as (a & Ha & Ea), Ht as (b & Hb & Eb). rewrite Eb, Ea in *.
  assert (Hab : a <> b) by (intros ->; congruence).
  assert (Hsame : forall i, 0 <= i < n -> i <> b -> hdr_at m (i * SEG) = hdr_at (flash r) (i * SEG)).
  { intros i Hi Hib. apply hdr_at_ext. intros x Hx. apply Hout. unfold SEG in *. lia. }
  unfold region_scan. pose proof (scan_have_none n a b (seg_seq_id r) m) as Hscan.
  specialize (Hscan ltac:(lia) H3).
  rewrite <- (Z.mul_0_l SEG). rewrite (Hscan) with (k := Z.to_nat n); try assumption; try lia.
  - cbn [mbind option_bind].
    destruct (empty_seg_scan n (set_seg r0 (b * SEG) (seg_write_offset r0) (u8 (seg_seq_id r + 1))))
      as (r' & -> & Hr'); [apply geometry_seg; exact Hg0 | exists b; split; [lia | reflexivity] | exact Hsh | |].
    + cbn [flash set_seg seg_offset]. rewrite Hf. exact Her.
    + cbn [mbind option_bind]. exists r'. auto.
  - intros i Hi. destruct (Z.eqb_spec i b) as [->|Hib]; [rewrite orb_true_r; exact Hv|]. rewrite orb_false_r, Hsame by assumption.
    destruct (Z.eqb_spec i a) as [->|Hia]; [exact H1|].
    apply H4; [exists i; lia | unfold SEG; lia].
  - rewrite Hsame by lia. exact H2.
  - pose proof (g_total n r0 Hg0). pose proof (g_n n r0 Hg0). unfold SEG in *. lia.
Qed.

(** *** A write that was cut before the old item was marked *)

Lemma set_duplicate n r L k v1 v2 v3 : region_log n r (L ++ [mk_entry true k v2]) -> unique_names L ->
  log_view L !! k = Some v1 -> v3 <> v1 -> name_ok k -> data_ok v3 ->
  log_len (L ++ [mk_entry true k v2]) + e_aligned (mk_entry true k v3) <= SEG - 16 ->
  exists r' L', region_set r k v3 = Some (0, r') /\ region_log n r' L' /\ log_view L' !! k = Some v2.
Proof.
  intros Hr Hu Hv1 Hne Hk Hv3 Hfit. pose proof Hk as [Hk0 Hkl]. pose proof Hv3 as [_ Hlen].
  assert (He : entry_ok (mk_entry true k v3)) by (split; assumption).
  assert (Hnil : v3 <> []) by (intros ->; simpl in Hlen; lia).
  unfold region_set, NVRAM_MAX_DATA_SIZE, NVRAM_MAX_NAME_SIZE in *. rewrite !Z.gtb_ltb.
  destruct (Z.ltb_spec 512 (Z.of_nat (length v3))); [lia|].
  destruct (Z.ltb_spec 112 (Z.of_nat (length (cstr k)))); [lia|].
  destruct (Z.ltb_spec 0 (Z.of_nat (length v3))); [|lia].
  rewrite (region_is_same_ok n r _ k v3 Hr Hk0 Hnil). cbn [mbind option_bind].
  rewrite log_view_app, (lookup_union_Some_l _ _ _ _ Hv1), bool_decide_eq_false_2 by congruence.
  unfold append_item, region_prepare_write_item. rewrite (new_size_ok k v3 He).
  pose proof Hr as [Hg _ [_ _ _ Hw _] _ _]. rewrite (g_seg n r Hg), Z.gtb_ltb.
  destruct (Z.ltb_spec (seg_offset r + SEG) (seg_write_offset r + e_aligned (mk_entry true k v3))); [lia|].
  cbn [mbind option_bind].
  pose proof (find_entry_view L k 16) as Hfv. destruct (find_entry 16 L k) as [[o e]|] eqn:Ef; [|congruence].
  assert (Ef' : find_entry 16 (L ++ [mk_entry true k v2]) k = Some (o, e)).
  { clear -Ef. revert Ef. generalize 16. induction L as [|x L IH]; intros z; simpl; [discriminate|].
    destruct (e_valid x && bool_decide (k = e_name x)); [auto | apply IH]. }
  pose proof (region_find_item_ok n r _ k Hr Hk0) as Hf. rewrite Ef' in Hf. simpl in Hf. rewrite Hf.
  cbn [mbind option_bind].
  destruct (append_written n r _ k v3 Hr He ltac:(lia)) as (sz & m & om & Hwr & Hum & Hr2).
  rewrite Hwr. simpl seg_offset. simpl seg_write_offset. rewrite Hum. cbn [mbind option_bind].
  destruct (find_entry_split L k _ _ _ Ef) as (pre & post & -> & -> & Hev & Hen).
  repeat rewrite <- app_assoc in Hr2. cbn [app] in Hr2.
  destruct (obsolete_old_ok n _ pre e (post ++ [mk_entry true k v2; mk_entry true k v3]) Hr2 Hev) as (r3 & Hob & Hr3).
  simpl seg_offset in Hob. simpl seg_write_offset. rewrite Hob. cbn [mbind option_bind].
  eexists r3, _. split; [reflexivity|]. split; [exact Hr3|].
  destruct (view_replaced pre e post k v2 Hu Hev Hen) as [_ Hvw].
  rewrite log_view_app. cbn [log_view invalidate e_valid]. rewrite log_view_app. cbn [log_view e_valid e_name e_data].
  assert (Hlk : log_view ((pre ++ invalidate e :: post) ++ [mk_entry true k v2]) !! k = Some v2)
    by (rewrite Hvw; apply lookup_insert_eq).
  rewrite <- app_assoc, log_view_app in Hlk. cbn [app log_view invalidate e_valid] in Hlk.
  rewrite log_view_app in Hlk. cbn [log_view e_valid e_name e_data] in Hlk.
  rewrite !lookup_union, lookup_insert_eq in *. exact Hlk.
Qed.

Lemma live_idem es : live (live es) = live es.
Proof. unfold live. rewrite list_filter_filter. apply list_filter_iff. tauto. Qed.

Lemma live_append es k v : live (es ++ [mk_entry true k v]) = live es ++ [mk_entry true k v].
Proof. unfold live. rewrite filter_app. reflexivity. Qed.

(** ** The claims *)

(** C4: Writing and reading: for names and values within the space of a
    segment, [nvram_config_set] returns 0 and afterwards every name reads as
    before, except the one written, which reads as the new value, whether or
    not the segment had to be compacted. *)
Theorem nvram_config_set_get B s k v :
  budget_ok B -> store_inv B s -> allowed B k v ->
  exists s', nvram_config_set s k v = Some (0, s') /\ store_inv B s' /\
    forall k' max, name_ok k' -> 0 < max ->
      nvram_config_get s k' max = Some (read_result max (store_view s !! k')) /\
      nvram_config_get s' k' max =
        Some (read_result max (if decide (k' = k) then Some v else store_view s !! k')).
Proof.
  intros HB Hi Ha. destruct (store_set_ok B HB s k v Hi Ha) as (s' & Hs & Hi' & Hv).
  exists s'. split; [exact Hs|]. split; [exact Hi'|]. intros k' max Hk Hm.
  destruct Hi as [(nu & nr & nf & Hg) _], Hi' as [(nu' & nr' & nf' & Hg') _].
  split; [apply (config_get_step nu nr nf); assumption|].
  rewrite (config_get_step nu' nr' nf' s' k' max Hg' Hk Hm), Hv. do 2 f_equal.
  destruct (decide (k' = k)) as [->|Hne]; [apply lookup_insert_eq | apply lookup_insert_ne; congruence].
Qed.

(** C7: Values survive a restart: from the flash of a good store and arbitrary
    RAM contents, [nvram_config_init] comes back with a store in which every
    name reads as before. *)
Theorem nvram_config_restart nu nr nf s s0 :
  store_good nu nr nf s ->
  reset_of (user_nvram_region s0) (user_nvram_region s) ->
  reset_of (factory_rw_nvram_region s0) (factory_rw_nvram_region s) ->
  reset_of (factory_nvram_region s0) (factory_nvram_region s) ->
  exists s', nvram_config_init s0 (Some (total_size (user_nvram_region s)))
               (Some (total_size (factory_rw_nvram_region s)))
               (Some (total_size (factory_nvram_region s))) = Some (0, s') /\
    store_good nu nr nf s' /\
    forall k max, name_ok k -> 0 < max -> nvram_config_get s' k max = nvram_config_get s k max.
Proof.
  intros Hg R1 R2 R3. destruct (config_init_step nu nr nf s s0 Hg R1 R2 R3) as (s' & Hs & Hg' & _ & Hv).
  exists s'. split; [exact Hs|]. split; [exact Hg'|]. intros k max Hk Hm.
  rewrite (config_get_step nu nr nf s' k max Hg' Hk Hm), (config_get_step nu nr nf s k max Hg Hk Hm), Hv.
  reflexivity.
Qed.

(** Compaction, with or without checking the checksums, moves the log to
    another segment, drops exactly the obsolete entries and keeps the map. *)
Theorem region_purge_keeps n r check :
  good n r ->
  exists r', region_purge_seg r check = Some r' /\ good n r' /\ seg_offset r' = purge_target r /\
    region_entries r' = live (region_entries r) /\ region_view r' = region_view r.
Proof.
  intros [Hl Hu]. destruct (purge_ok n r _ check (region_log_purgeable n r _ Hl)) as (r' & Hp & Ho & Hl').
  exists r'. split; [exact Hp|]. destruct (good_of n r' (live (region_entries r))) as [Hg Hv].
  { split; [exact Hl'|]. unfold unique_names. rewrite live_names. exact Hu. }
  split; [exact Hg|]. split; [exact Ho|].
  split; [apply (region_entries_ok n); exact Hl' | rewrite Hv; apply live_view].
Qed.

(** Writing an empty value deletes the name, and nothing else changes. *)
Theorem region_set_empty n r k :
  good n r -> name_ok k ->
  exists r', region_set r k [] = Some (0, r') /\ good n r' /\ region_view r' = delete k (region_view r).
Proof.
  intros Hg Hk. destruct (region_delete_step n r _ k Hg Hk) as (r' & es' & Hs & Hr' & Hv).
  destruct (good_of n r' es' Hr') as [Hg' Hv']. exists r'. split; [exact Hs|]. split; [exact Hg'|].
  rewrite Hv'. exact Hv.
Qed.

(** The bitmap search returns the first set bit from the offset on, or the
    size when there is none, for every size up to the length of the bitmap. *)
Theorem find_next_bit_ok m size offset :
  words_ok m -> 0 <= size <= 32 * Z.of_nat (length m) -> 0 <= offset < size ->
  exists b, find_next_bit m size offset = Some b /\ offset <= b <= size /\
    (forall j, offset <= j < b -> mbit m j = false) /\ (b < size -> mbit m b = true).
Proof.
  intros Hm Hs Ho. destruct (find_next_bit_spec m size offset Hm Hs) as (b & Hb & Hf); [lia|].
  exists b. split; [exact Hb|]. destruct (Z.ltb_spec offset size); [exact Hf | lia].
Qed.

(** C38: A power failure in a compaction right after the header of the new
    segment is written, before any item is copied, loses every value: the new
    segment is valid and newer as soon as its header is there, and the next
    start takes it.  (Later in the compaction the items already copied are
    kept; the theorem is about this first moment.) *)
Theorem purge_power_loss n r r0 :
  good n r -> geometry n r0 -> map_shape (seg_item_map r0) -> flash r0 = flash (purge_start r) ->
  exists r', region_scan r0 = Some (0, r') /\ region_view r' = ∅ /\
    forall k max, name_ok k -> 0 < max -> region_get r' k max = Some (- ENOENT, []).
Proof. apply purge_power_loss_step. Qed.

(** A power failure between the two flash writes of a [region_set] makes
    later writes of that name ineffective: after the restart the old value
    [v1] is read, but the next write, of [v3], reports success and the name
    then reads as [v2], the value of the interrupted write. *)
Theorem region_set_power_loss n r k v1 v2 v3 :
  good n r -> region_view r !! k = Some v1 -> name_ok k -> data_ok v2 -> data_ok v3 -> v3 <> v1 ->
  log_len (region_entries r) + e_aligned (mk_entry true k v2) + e_aligned (mk_entry true k v3) <= SEG - 16 ->
  exists old r1, append_item r k v2 = Some (old, r1) /\
    forall r0, geometry n r0 -> map_shape (seg_item_map r0) -> flash r0 = flash r1 ->
    exists r2 r3, region_scan r0 = Some (0, r2) /\ region_set r2 k v3 = Some (0, r3) /\
      forall max, 0 < max -> region_get r2 k max = Some (read_result max (Some v1)) /\
                             region_get r3 k max = Some (read_result max (Some v2)).
Proof.
  intros [Hl Hu] Hv1 Hk H2 H3 Hne Hfit. pose proof Hk as [Hk0 _].
  assert (He2 : entry_ok (mk_entry true k v2)) by (split; assumption).
  pose proof (e_aligned_bound (mk_entry true k v3) ltac:(split; assumption)).
  pose proof (live_len (region_entries r) ltac:(apply Hl)).
  destruct (append_item_ok n r _ k v2 (mk_region_ok _ _ _ Hl Hu) He2 ltac:(unfold fits; lia))
    as (old & r1 & es1 & Ha & Hu1 & Hvw1 & Hle & Hl1 & _).
  exists old, r1. split; [exact Ha|]. intros r0 Hg0 Hsh Hf.
  destruct (region_scan_stored n r0 _ _ (region_log_stored n r1 _ r0 Hl1 Hg0 Hf Hsh)) as (r2 & es2 & Hs & Hl2 & Hes).
  assert (HL : exists L, es2 = L ++ [mk_entry true k v2] /\ unique_names L /\ log_view L = log_view es1 /\
            log_len L <= log_len es1).
  { destruct Hes as [-> | ->].
    - exists es1. auto using Z.le_refl.
    - exists (live es1). rewrite live_append. unfold unique_names. rewrite live_names.
      split; [reflexivity|]. split; [exact Hu1|]. split; [apply live_view | apply live_len].
      pose proof (sl_entries _ _ _ _ (rl_seg _ _ _ Hl1)) as Hok. apply Forall_app in Hok. apply Hok. }
  destruct HL as (L & -> & HuL & HvL & HlL).
  assert (HvL1 : log_view L !! k = Some v1) by (rewrite HvL, Hvw1; exact Hv1).
  destruct (set_duplicate n r2 L k v1 v2 v3 Hl2 HuL HvL1 Hne Hk H3) as (r3 & L3 & Hs3 & Hl3 & Hv3).
  { rewrite log_len_app. simpl. lia. }
  exists r2, r3. split; [exact Hs|]. split; [exact Hs3|]. intros max Hm.
  rewrite (region_get_step n r2 _ k max Hl2 Hk0 Hm), (region_get_step n r3 _ k max Hl3 Hk0 Hm), Hv3.
  rewrite log_view_app, (lookup_union_Some_l _ _ _ _ HvL1). auto.
Qed.

(** Without a factory partition (its size stays 0) a name that is in
    neither writable region makes [nvram_config_get] interpret an item header
    that was never read. *)
Theorem get_without_factory_partition nu nr s k max :
  good nu (user_nvram_region s) -> good nr (factory_rw_nvram_region s) ->
  total_size (factory_nvram_region s) = 0 -> seg_item_map (factory_nvram_region s) = None ->
  seg_size (factory_nvram_region s) = SEG -> 0 <= seg_offset (factory_nvram_region s) < 2 ^ 31 ->
  name_ok k -> 0 < max ->
  region_view (user_nvram_region s) !! k = None -> region_view (factory_rw_nvram_region s) !! k = None ->
  nvram_config_get s k max = None.
Proof.
  intros Hu Hr Ht Hm Hs Ho Hk Hmax Hv1 Hv2. unfold nvram_config_get.
  rewrite (region_get_good nu _ k max Hu Hk Hmax), Hv1. cbn [mbind option_bind]. simpl (_ >=? 0). cbv iota.
  rewrite (region_get_good nr _ k max Hr Hk Hmax), Hv2. cbn [mbind option_bind]. simpl (_ >=? 0). cbv iota.
  unfold region_get, region_find_item. destruct (Z.eqb_spec max 0); [lia|]. rewrite Hm.
  cbn [item_bitmap_first_offset mbind option_bind]. unfold seg_rounds. rewrite Hs.
  cbn [find_item_loop]. rewrite Hs. simpl (NVRAM_SEG_ITEM_START_OFFSET <? SEG). cbv iota.
  unfold must_read, region_read, ITEM_SIZE, NVRAM_SEG_ITEM_START_OFFSET.
  rewrite Ht, u32_small, Z.gtb_ltb by lia. rewrite (proj2 (Z.ltb_lt 0 _)) by lia.
  rewrite orb_true_r. reflexivity.
Qed.

(** ** Concrete instances *)

Definition blank (om : option (list Z)) : region_info :=
  mk_region true (fun _ => 0xff) (2 * SEG) SEG 0 0 0 om.

Definition started (om : option (list Z)) : region_info :=
  match region_scan (blank om) with Some (_, r) => r | None => blank om end.

Lemma blank_geometry om : geometry 2 (blank om).
Proof. split; simpl; unfold SEG; lia || reflexivity. Qed.

Lemma blank_flash_geometry om m : geometry 2 (set_flash (blank om) m).
Proof. destruct (blank_geometry om). split; assumption. Qed.

Lemma started_good om : map_shape om -> good 2 (started om) /\ region_view (started om) = ∅.
Proof.
  intros Hm. destruct (region_first_start 2 (blank om) (blank_geometry om) Hm ltac:(simpl; lia)
    ltac:(intros x _; reflexivity)) as (r' & E & H). unfold started. rewrite E. exact H.
Qed.

Definition bitmap0 : option (list Z) := Some (replicate 8 0).

Definition store0 : nvram_state := mk_nvram (started bitmap0) (started None) (started None).

Lemma store0_good : store_good 2 2 2 store0.
Proof. split; apply started_good; exact I || reflexivity. Qed.

Definition B0 : list (string * nat) := [("BT_MAC"%string, 6%nat); ("BT_NAME"%string, 32%nat)].

Lemma B0_ok : budget_ok B0.
Proof.
  split.
  - apply NoDup_cons. split; [intros H; apply list_elem_of_singleton in H; discriminate H | apply NoDup_singleton].
  - intros p Hp. apply elem_of_cons in Hp. destruct Hp as [->|Hp%list_elem_of_singleton]; [|subst p]; vm_compute; discriminate.
Qed.

Lemma store0_inv : store_inv B0 store0.
Proof.
  split; [exists 2, 2, 2; exact store0_good|]. intros k v Hl.
  change (user_nvram_region store0) with (started bitmap0) in Hl.
  rewrite (proj2 (started_good bitmap0 eq_refl)), lookup_empty in Hl. discriminate Hl.
Qed.

Lemma mac_allowed : allowed B0 "BT_MAC" [1; 2; 3; 4; 5; 6].
Proof.
  split; [|split].
  - split; [repeat constructor; discriminate | vm_compute; discriminate].
  - split; [repeat constructor; lia | split; vm_compute; [reflexivity | discriminate]].
  - exists 6%nat. split; [left | simpl; lia].
Qed.

Lemma nvram_config_set_get_witness :
  exists s', nvram_config_set store0 "BT_MAC" [1; 2; 3; 4; 5; 6] = Some (0, s') /\ store_inv B0 s' /\
    forall k' max, name_ok k' -> 0 < max ->
      nvram_config_get store0 k' max = Some (read_result max (store_view store0 !! k')) /\
      nvram_config_get s' k' max =
        Some (read_result max (if decide (k' = "BT_MAC"%string) then Some [1; 2; 3; 4; 5; 6]
                               else store_view store0 !! k')).
Proof. exact (nvram_config_set_get B0 store0 "BT_MAC" _ B0_ok store0_inv mac_allowed). Defined.

Lemma reset_self n r : good n r -> reset_of r r.
Proof.
  intros [[Hg _ _ Hm _] _]. split; [reflexivity|]. split; [apply (g_seg n r Hg) | eapply map_ok_shape; exact Hm].
Qed.

Lemma nvram_config_restart_witness :
  exists s', nvram_config_init store0 (Some (total_size (user_nvram_region store0)))
               (Some (total_size (factory_rw_nvram_region store0)))
               (Some (total_size (factory_nvram_region store0))) = Some (0, s') /\
    store_good 2 2 2 s' /\
    forall k max, name_ok k -> 0 < max -> nvram_config_get s' k max = nvram_config_get store0 k max.
Proof.
  exact (nvram_config_restart 2 2 2 store0 store0 store0_good (reset_self 2 _ (sg_user _ _ _ _ store0_good))
    (reset_self 2 _ (sg_rw _ _ _ _ store0_good)) (reset_self 2 _ (sg_fac _ _ _ _ store0_good))).
Defined.

(** A region that holds one value. *)
Definition region1 : region_info :=
  match region_set (started bitmap0) "BT_MAC" [1; 2; 3; 4; 5; 6] with Some (_, r) => r | None => started bitmap0 end.

Lemma region1_good : good 2 region1 /\ region_view region1 !! "BT_MAC"%string = Some [1; 2; 3; 4; 5; 6].
Proof.
  destruct (started_good bitmap0 eq_refl) as [Hg Hv].
  destruct (region_set_within B0 2 (started bitmap0) _ _ B0_ok Hg (proj2 store0_inv) mac_allowed)
    as (r' & E & Hg' & _ & Hv'). unfold region1. rewrite E. split; [exact Hg'|].
  rewrite Hv'. apply lookup_insert_eq.
Qed.

Lemma region_purge_keeps_witness :
  exists r', region_purge_seg region1 true = Some r' /\ good 2 r' /\ seg_offset r' = purge_target region1 /\
    region_entries r' = live (region_entries region1) /\ region_view r' = region_view region1.
Proof. exact (region_purge_keeps 2 region1 true (proj1 region1_good)). Defined.

Lemma mac_name : name_ok "BT_MAC".
Proof. apply mac_allowed. Qed.

Lemma region_set_empty_witness :
  exists r', region_set region1 "BT_MAC" [] = Some (0, r') /\ good 2 r' /\
    region_view r' = delete "BT_MAC"%string (region_view region1).
Proof. exact (region_set_empty 2 region1 "BT_MAC" (proj1 region1_good) mac_name). Defined.

Lemma find_next_bit_ok_witness :
  exists b, find_next_bit [12; 0; 8] 96 4 = Some b /\ 4 <= b <= 96 /\
    (forall j, 4 <= j < b -> mbit [12; 0; 8] j = false) /\ (b < 96 -> mbit [12; 0; 8] b = true).
Proof. apply (find_next_bit_ok [12; 0; 8] 96 4); [repeat constructor; lia | simpl; lia | lia]. Defined.

Lemma purge_power_loss_witness :
  exists r', region_scan (set_flash (blank bitmap0) (flash (purge_start region1))) = Some (0, r') /\
    region_view r' = ∅ /\
    forall k max, name_ok k -> 0 < max -> region_get r' k max = Some (- ENOENT, []).
Proof.
  apply (purge_power_loss 2 region1 (set_flash (blank bitmap0) (flash (purge_start region1))));
    [apply region1_good | apply blank_flash_geometry | exact eq_refl | reflexivity].
Defined.

Lemma region_set_power_loss_witness :
  exists old r1, append_item region1 "BT_MAC" [6; 5; 4; 3; 2; 1] = Some (old, r1) /\
    forall r0, geometry 2 r0 -> map_shape (seg_item_map r0) -> flash r0 = flash r1 ->
    exists r2 r3, region_scan r0 = Some (0, r2) /\ region_set r2 "BT_MAC" [7; 7] = Some (0, r3) /\
      forall max, 0 < max ->
        region_get r2 "BT_MAC" max = Some (read_result max (Some [1; 2; 3; 4; 5; 6])) /\
        region_get r3 "BT_MAC" max = Some (read_result max (Some [6; 5; 4; 3; 2; 1])).
Proof.
  apply (region_set_power_loss 2 region1 "BT_MAC" [1; 2; 3; 4; 5; 6]);
    [apply region1_good | apply region1_good | exact mac_name | | | discriminate | vm_compute; discriminate];
    (split; [repeat constructor; lia | split; vm_compute; [reflexivity | discriminate]]).
Defined.

Definition store_no_factory : nvram_state :=
  mk_nvram (started bitmap0) (started None) (mk_region true (fun _ => 0xff) 0 SEG 0 16 1 None).

Lemma get_without_factory_partition_witness : nvram_config_get store_no_factory "BT_MAC" 6 = None.
Proof.
  destruct (started_good bitmap0 eq_refl) as [G1 V1], (started_good None I) as [G2 V2].
  apply (get_without_factory_partition 2 2 store_no_factory "BT_MAC" 6 G1 G2 eq_refl eq_refl eq_refl);
    [simpl; lia | exact mac_name | lia | |].
  - change (region_view (started bitmap0) !! "BT_MAC"%string = None). rewrite V1. apply lookup_empty.
  - change (region_view (started None) !! "BT_MAC"%string = None). rewrite V2. apply lookup_empty.
Defined.
