(* ===== verification/PropertyStore.v ===== *)
(** * Properties on top of the configuration store

    The property cache of Property.v, verified against the class [Nvram], put
    on the log-structured store of NvramConfig.v: what was set and flushed is
    read back after a restart. *)

From stdpp Require Import base numbers list strings gmap.
From S2P Require Import Prelude Nvram Property PropertyProof NvramConfig NvramLog NvramProof NvramStore.
Open Scope Z_scope.

(** [property_set_factory] of property_manager.c writes the factory rw region
    directly. *)
Definition property_set_factory (s : nvram_state) (key : string) (value : list Z)
    : option (Z * nvram_state) :=
  nvram_config_set_factory s key value.

Section Restart.
Variable B : list (string * nat).
Hypothesis HB : budget_ok B.

#[local] Instance store_instance : Nvram nvram_state := nvram_store B HB.

Context {Hp : Type}.
Variable mem_free : Hp -> Hp.
Variable K : string -> Prop.


Hypothesis K_names : forall k, K k -> name_ok k.




End Restart.

(** ** A concrete instance *)

Section Instance0.
#[local] Instance store0_instance : Nvram nvram_state := nvram_store B0 B0_ok.








End Instance0.
