(* ===== verification/Rtc.v ===== *)
(** * The calendar and the real-time clock (zephyr/drivers/rtc)

    rtc_lib.c converts between seconds since 1970 and calendar dates;
    rtc_acts.c keeps the date in packed registers of the clock and arms its
    alarm.  A read outside of the table of month lengths is [None].  The
    reference of the conversions is the calendar counted day by day
    ([next_day] from the first of January 1970).

    The registers are a record; a write to them is complete when the function
    returns (rtc_acts_update_regs waits for that).  What a write does to the
    control register is up to the clock (its pending bit is cleared by writing
    one), so that it is a parameter, [hw_ctrl old written].  Time does not pass
    within a call. *)

From stdpp Require Import base list numbers option.
From S2P Require Import Prelude.
Open Scope Z_scope.

(** ** Dates (rtc_lib.c) *)

Record rtc_time : Type := mk_rtc_time {
  tm_sec : Z;    (* uint8_t *)
  tm_min : Z;    (* uint8_t *)
  tm_hour : Z;   (* uint8_t *)
  tm_mday : Z;   (* uint8_t, 1-31 *)
  tm_mon : Z;    (* uint8_t, 0-11 inside of the driver *)
  tm_wday : Z;   (* uint8_t *)
  tm_year : Z;   (* uint16_t, since 1900 *)
  tm_ms : Z      (* uint16_t *)
}.

Definition rtc_days_in_month : list Z := [31; 28; 31; 30; 31; 30; 31; 31; 30; 31; 30; 31].

Definition LEAPS_THRU_END_OF (y : Z) : Z := y / 4 - y / 100 + y / 400.

Definition is_leap_year (year : Z) : bool :=
  ((year mod 4 =? 0) && negb (year mod 100 =? 0)) || (year mod 400 =? 0).

Definition rtc_month_days (month year : Z) : option Z :=
  (fun d => d + truth (is_leap_year year && (month =? 1))) <$> rtc_days_in_month !! Z.to_nat month.

(** The loop of rtc_time_to_tm: [n] rounds are left, [month] counts up. *)
Fixpoint month_loop (n : nat) (month days year : Z) : option (Z * Z) :=
  match n with
  | O => Some (month, days)
  | S n' =>
      len ← rtc_month_days month year;
      let newdays := days - len in
      if newdays <? 0 then Some (month, days) else month_loop n' (month + 1) newdays year
  end.

Definition rtc_time_to_tm (time : Z) : option rtc_time :=
  let days := s32 (time / 86400) in
  let time := u32 (time - u32 days * 86400) in
  let wday := u8 (Z.rem (days + 4) 7) in
  let year := u32 (1970 + Z.quot days 365) in
  let days := s32 (days - ((year - 1970) * 365 + LEAPS_THRU_END_OF (u32 (year - 1)) - LEAPS_THRU_END_OF (1970 - 1))) in
  let '(year, days) := if days <? 0 then (u32 (year - 1), days + 365 + truth (is_leap_year (u32 (year - 1)))) else (year, days) in
  '(month, days) ← month_loop 11 0 days year;
  let hour := u8 (time / 3600) in
  let time := u32 (time - hour * 3600) in
  let min := u8 (time / 60) in
  let sec := u8 (time - min * 60) in
  Some (mk_rtc_time sec min hour (u8 (days + 1)) (u8 month) wday (u16 (year - 1900)) 0).

Definition rtc_valid_tm (tm : rtc_time) : option Z :=
  if (tm_year tm <? 70) || (12 <=? tm_mon tm) || (tm_mday tm <? 1) then Some (- EINVAL)
  else
    len ← rtc_month_days (tm_mon tm) (tm_year tm + 1900);
    Some (if (len <? tm_mday tm) || (24 <=? tm_hour tm) || (60 <=? tm_min tm) || (60 <=? tm_sec tm)
             || (1000 <=? tm_ms tm)
          then - EINVAL else 0).

(** Unsigned longs have 32 bits; one reduction at the end is the same as one
    after each of the sums and products, the quotients are of words. *)
Definition mktime (year0 mon0 day hour min sec : Z) : Z :=
  let mon := u32 (mon0 - 2) in
  let '(mon, year) := if s32 mon <=? 0 then (u32 (mon + 12), u32 (year0 - 1)) else (mon, year0) in
  u32 (((((year / 4 - year / 100 + year / 400 + u32 (367 * mon) / 12 + day) + year * 365 - 719499) * 24 + hour) * 60
        + min) * 60 + sec).

Definition rtc_tm_to_time (tm : rtc_time) : Z :=
  mktime (tm_year tm + 1900) (tm_mon tm + 1) (tm_mday tm) (tm_hour tm) (tm_min tm) (tm_sec tm).

(** ** The clock (rtc_acts.c) *)

Definition RTC_CTL_ALIP : Z := 1.
Definition RTC_CTL_ALIE : Z := 2.
Definition RTC_CTL_CALEN : Z := 16.
Definition RTC_DEFAULT_INIT_TIME : Z := 1483200000.

Definition RTC_MS_MUL10 (x : Z) : Z := Z.land x 0x7f * 10.
Definition RTC_MS_DIV10 (x : Z) : Z := (x + 9) / 10.
Definition RTC_YMD_Y (ymd : Z) : Z := Z.shiftr (Z.land ymd (Z.shiftl 0x7f 16)) 16.
Definition RTC_YMD_M (ymd : Z) : Z := Z.shiftr (Z.land ymd (Z.shiftl 0xf 8)) 8.
Definition RTC_YMD_D (ymd : Z) : Z := Z.land ymd 0x1f.
Definition RTC_YMD_VAL (y m d : Z) : Z := Z.lor (Z.lor (Z.shiftl y 16) (Z.shiftl m 8)) d.
Definition RTC_HMS_H (hms : Z) : Z := Z.shiftr (Z.land hms (Z.shiftl 0x1f 16)) 16.
Definition RTC_HMS_M (hms : Z) : Z := Z.shiftr (Z.land hms (Z.shiftl 0x3f 8)) 8.
Definition RTC_HMS_S (hms : Z) : Z := Z.land hms 0x3f.
Definition RTC_HMS_VAL (h m s : Z) : Z := Z.lor (Z.lor (Z.shiftl h 16) (Z.shiftl m 8)) s.

Record acts_rtc_controller : Type := mk_regs {
  ctrl : Z;
  ms_alarm : Z; hms_alarm : Z; ymd_alarm : Z;
  ms : Z; hms : Z; ymd : Z
}.

(** What an alarm calls: the driver's own handler of periodic alarms, a
    function of a client (by number). *)
Inductive alarm_fn : Type := PeriodHandler | Client (f : nat).

(** struct rtc_alarm_period_config. *)
Record rtc_alarm_period_config : Type := mk_period {
  tm_msec : Z;             (* uint16_t *)
  period_sec : Z;          (* uint8_t tm_sec *)
  period_cb : option nat
}.

(** struct acts_rtc_data. *)
Record acts_rtc_data : Type := mk_rtc_data {
  base : acts_rtc_controller;
  alarm_cb_fn : option alarm_fn;
  alarm_en : bool;
  period_config : rtc_alarm_period_config;
  alarm_wakeup : bool
}.

Definition set_base (r : acts_rtc_controller) (d : acts_rtc_data) : acts_rtc_data :=
  mk_rtc_data r (alarm_cb_fn d) (alarm_en d) (period_config d) (alarm_wakeup d).
Definition set_alarm_cb (cb : option alarm_fn) (en : bool) (d : acts_rtc_data) : acts_rtc_data :=
  mk_rtc_data (base d) cb en (period_config d) (alarm_wakeup d).
Definition set_period (p : rtc_alarm_period_config) (d : acts_rtc_data) : acts_rtc_data :=
  mk_rtc_data (base d) (alarm_cb_fn d) (alarm_en d) p (alarm_wakeup d).
Definition set_wakeup (b : bool) (d : acts_rtc_data) : acts_rtc_data :=
  mk_rtc_data (base d) (alarm_cb_fn d) (alarm_en d) (period_config d) b.

Section Clock.
Variable hw_ctrl : Z -> Z -> Z.

Definition write_ctrl (v : Z) (r : acts_rtc_controller) : acts_rtc_controller :=
  mk_regs (u32 (hw_ctrl (ctrl r) v)) (ms_alarm r) (hms_alarm r) (ymd_alarm r) (ms r) (hms r) (ymd r).
Definition ctrl_set (bits : Z) (r : acts_rtc_controller) : acts_rtc_controller :=
  write_ctrl (Z.lor (ctrl r) bits) r.
Definition ctrl_clear (bits : Z) (r : acts_rtc_controller) : acts_rtc_controller :=
  write_ctrl (Z.land (ctrl r) (Z.lxor (2 ^ 32 - 1) bits)) r.

(** The fields of a date as the registers give them. *)
Definition unpack_time (ymd hms ms : Z) : rtc_time :=
  mk_rtc_time (RTC_HMS_S hms) (RTC_HMS_M hms) (RTC_HMS_H hms) (RTC_YMD_D ymd) (u8 (RTC_YMD_M ymd - 1)) 0
    (100 + RTC_YMD_Y ymd) (RTC_MS_MUL10 (u8 ms)).

Definition rtc_acts_get_datetime (d : acts_rtc_data) : rtc_time :=
  unpack_time (ymd (base d)) (hms (base d)) (ms (base d)).

Definition rtc_acts_set_datetime (d : acts_rtc_data) (tm : rtc_time) : acts_rtc_data :=
  let r := ctrl_clear RTC_CTL_CALEN (base d) in
  let r := mk_regs (ctrl r) (ms_alarm r) (hms_alarm r) (ymd_alarm r)
             (u32 (RTC_MS_DIV10 (tm_ms tm)))
             (u32 (RTC_HMS_VAL (tm_hour tm) (tm_min tm) (tm_sec tm)))
             (u32 (RTC_YMD_VAL (tm_year tm mod 100) (tm_mon tm + 1) (tm_mday tm))) in
  set_base (ctrl_set RTC_CTL_CALEN r) d.

Definition rtc_acts_set_alarm_interrupt (r : acts_rtc_controller) (enable : bool) : acts_rtc_controller :=
  if enable then ctrl_set RTC_CTL_ALIE r else ctrl_clear RTC_CTL_ALIE r.

Definition rtc_acts_get_pending_int (d : acts_rtc_data) : Z * acts_rtc_data :=
  let pending := Z.land (ctrl (base d)) RTC_CTL_ALIP in
  if pending =? 0 then (pending, d) else (pending, set_base (ctrl_set RTC_CTL_ALIP (base d)) d).

Definition rtc_acts_enable (d : acts_rtc_data) : acts_rtc_data := set_base (ctrl_set RTC_CTL_CALEN (base d)) d.
Definition rtc_acts_disable (d : acts_rtc_data) : acts_rtc_data := set_base (ctrl_clear RTC_CTL_CALEN (base d)) d.

Definition rtc_acts_get_time (d : acts_rtc_data) : Z * rtc_time := (0, rtc_acts_get_datetime d).

Definition rtc_acts_set_time (d : acts_rtc_data) (tm : rtc_time) : option (Z * acts_rtc_data) :=
  bad ← rtc_valid_tm tm;
  Some (if bad =? 0 then (0, rtc_acts_set_datetime d tm) else (- ENOEXEC, d)).

Definition rtc_acts_set_alarm_time (r : acts_rtc_controller) (tm : rtc_time) : acts_rtc_controller :=
  let r := rtc_acts_set_alarm_interrupt r false in
  let r := mk_regs (ctrl r) (u32 (RTC_MS_DIV10 (tm_ms tm)))
             (u32 (RTC_HMS_VAL (tm_hour tm) (tm_min tm) (tm_sec tm)))
             (u32 (RTC_YMD_VAL (tm_year tm mod 100) (tm_mon tm + 1) (tm_mday tm))) (ms r) (hms r) (ymd r) in
  rtc_acts_set_alarm_interrupt r true.

(** [config] is NULL or an alarm time with its callback. *)
Definition rtc_acts_set_alarm (d : acts_rtc_data) (config : option (rtc_time * option alarm_fn)) (enable : bool)
  : option (Z * acts_rtc_data) :=
  let d := snd (rtc_acts_get_pending_int d) in
  if enable then
    match config with
    | None => Some (- EINVAL, d)
    | Some (tm, cb) =>
        bad ← rtc_valid_tm tm;
        Some (if bad =? 0
              then (0, set_base (rtc_acts_set_alarm_time (base d) tm) (set_alarm_cb cb true d))
              else (- ENOEXEC, d))
    end
  else Some (0, set_alarm_cb None false (set_base (rtc_acts_set_alarm_interrupt (base d) false) d)).

Definition rtc_acts_get_alarm (d : acts_rtc_data) : bool * rtc_time :=
  (alarm_en d, unpack_time (ymd_alarm (base d)) (hms_alarm (base d)) (ms_alarm (base d))).

(** The interrupt handler and the callback it calls. *)
Definition rtc_acts_isr (d : acts_rtc_data) : option alarm_fn * acts_rtc_data :=
  let pending := Z.land (ctrl (base d)) RTC_CTL_ALIP in
  let r := if pending =? 0 then base d else ctrl_set RTC_CTL_ALIP (base d) in
  let d := set_base (rtc_acts_set_alarm_interrupt r false) d in
  (if negb (pending =? 0) && alarm_en d then alarm_cb_fn d else None, d).

(** The hands of the clock are moved by the hardware: what a later read finds. *)
Definition set_clock (c : Z * Z * Z) (d : acts_rtc_data) : acts_rtc_data :=
  let '(y, h, m) := c in
  set_base (mk_regs (ctrl (base d)) (ms_alarm (base d)) (hms_alarm (base d)) (ymd_alarm (base d)) m h y) d.

(** __rtc_acts_set_alarm_period.  Each round of its loop reads the clock twice
    and the time since the call began once; [rounds] has what it finds.  The
    result is none if the loop is still running after them. *)
Fixpoint rtc_acts_set_alarm_period (d : acts_rtc_data) (rounds : list ((Z * Z * Z) * (Z * Z * Z) * Z))
  : option (Z * acts_rtc_data) :=
  match rounds with
  | [] => None
  | (c1, c2, elapsed) :: rounds' =>
      let d := set_clock c1 d in
      let p := period_config d in
      let tm := rtc_acts_get_datetime d in
      let time := rtc_tm_to_time tm in
      let '(time, ms) := if 1000 <=? tm_ms tm + tm_msec p
                         then (u32 (time + 1), tm_ms tm + tm_msec p - 1000)
                         else (time, tm_ms tm + tm_msec p) in
      let time := u32 (time + period_sec p) in
      tm ← rtc_time_to_tm time;
      let tm := mk_rtc_time (tm_sec tm) (tm_min tm) (tm_hour tm) (tm_mday tm) (tm_mon tm) (tm_wday tm)
                  (tm_year tm) (u16 ms) in
      '(ret, d) ← rtc_acts_set_alarm d (Some (tm, Some PeriodHandler)) true;
      if negb (ret =? 0) then Some (ret, d)
      else
        let d := set_clock c2 d in
        let tm' := rtc_acts_get_datetime d in
        let time' := rtc_tm_to_time tm' in
        if (tm_ms tm' <=? tm_ms tm) && (time' =? time) then Some (0, d)
        else if (tm_ms tm <? tm_ms tm') && (time =? u32 (time' + 1)) then Some (0, d)
        else if time' <? time then Some (0, d)
        else if elapsed <? 1000 then Some (- ETIMEDOUT, d)
        else rtc_acts_set_alarm_period d rounds'
  end.

(** rtc_acts_period_alarm_cb_fn, with the client it calls. *)
Definition rtc_acts_period_alarm_cb_fn (d : acts_rtc_data) (rounds : list ((Z * Z * Z) * (Z * Z * Z) * Z))
  : option (option nat * acts_rtc_data) :=
  '(_, d') ← rtc_acts_set_alarm_period d rounds; Some (period_cb (period_config d), d').

Definition rtc_acts_set_period_alarm (d : acts_rtc_data) (config : rtc_alarm_period_config) (enable : bool)
  (rounds : list ((Z * Z * Z) * (Z * Z * Z) * Z)) : option (Z * acts_rtc_data) :=
  if enable then rtc_acts_set_alarm_period (set_period config d) rounds
  else rtc_acts_set_alarm (set_period (mk_period 0 0 None) d) None false.

(** rtc_acts_check_datetime without the power-management backup. *)
Definition rtc_acts_check_datetime (d : acts_rtc_data) : option acts_rtc_data :=
  bad ← rtc_valid_tm (rtc_acts_get_datetime d);
  if bad <? 0 then tm ← rtc_time_to_tm RTC_DEFAULT_INIT_TIME; Some (rtc_acts_set_datetime d tm) else Some d.

(** rtc_acts_init_clksource, what it does to the clock's own registers. *)
Definition rtc_acts_init_clksource (hosc : bool) (r : acts_rtc_controller) : acts_rtc_controller :=
  if hosc then ctrl_set (Z.shiftl 2 2) (ctrl_clear (Z.shiftl 3 2) r)
  else ctrl_set (2 ^ 17) (write_ctrl RTC_CTL_ALIP r).

Definition rtc_acts_init (hosc woken : bool) (d : acts_rtc_data) : option acts_rtc_data :=
  let d := set_wakeup woken d in
  let r := base d in
  let r := if Z.land (ctrl r) RTC_CTL_ALIE =? 0 then r else ctrl_set RTC_CTL_ALIE r in
  let r := rtc_acts_init_clksource hosc r in
  rtc_acts_check_datetime (rtc_acts_enable (set_base r d)).

End Clock.

(** ** The calendar, counted day by day *)

Record date : Type := mk_date { year : Z; month : Z; day : Z }.

Definition epoch : date := mk_date 1970 0 1.

(** The length of a month, by its length in a common year. *)
Definition month_len (y m : Z) : Z := nth (Z.to_nat m) rtc_days_in_month 0 + truth (is_leap_year y && (m =? 1)).

Definition next_day (c : date) : date :=
  if day c <? month_len (year c) (month c) then mk_date (year c) (month c) (day c + 1)
  else if month c <? 11 then mk_date (year c) (month c + 1) 1
  else mk_date (year c + 1) 0 1.

(** The date [n] days after the first of January 1970. *)
Definition calendar (n : Z) : date := Nat.iter (Z.to_nat n) next_day epoch.

Definition date_of (tm : rtc_time) : date := mk_date (tm_year tm + 1900) (tm_mon tm) (tm_mday tm).

Definition valid_date (c : date) : Prop :=
  1970 <= year c /\ 0 <= month c < 12 /\ 1 <= day c <= month_len (year c) (month c).

Definition valid_tm (tm : rtc_time) : Prop :=
  valid_date (date_of tm) /\ 0 <= tm_hour tm < 24 /\ 0 <= tm_min tm < 60 /\ 0 <= tm_sec tm < 60 /\ 0 <= tm_ms tm < 1000.

(** The days before a month of a year and the number of a date, 0 for [epoch]. *)
Definition month_start (y m : Z) : Z :=
  nth (Z.to_nat m) [0; 31; 59; 90; 120; 151; 181; 212; 243; 273; 304; 334] 0 + truth (is_leap_year y && (2 <=? m)).
Definition day_number (c : date) : Z :=
  (year c - 1970) * 365 + LEAPS_THRU_END_OF (year c - 1) - LEAPS_THRU_END_OF 1969
  + month_start (year c) (month c) + day c - 1.

Lemma leaps_step y : LEAPS_THRU_END_OF y = LEAPS_THRU_END_OF (y - 1) + truth (is_leap_year y).
Proof.
  unfold LEAPS_THRU_END_OF, is_leap_year, truth. reflect_bools; cbn [andb orb negb]; Z.div_mod_to_equations; lia.
Qed.

Lemma twelve m : 0 <= m < 12 ->
  m = 0 \/ m = 1 \/ m = 2 \/ m = 3 \/ m = 4 \/ m = 5 \/ m = 6 \/ m = 7 \/ m = 8 \/ m = 9 \/ m = 10 \/ m = 11.
Proof. lia. Qed.

(** Case analysis on a month number. *)
Ltac by_month H := let H' := fresh in pose proof (twelve _ H) as H'; clear H; repeat destruct H' as [->|H']; [..|subst].

Lemma rtc_month_days_len m y : 0 <= m < 12 -> rtc_month_days m y = Some (month_len y m).
Proof. intros H. by_month H; reflexivity. Qed.

Lemma month_start_step y m : 0 <= m < 11 -> month_start y (m + 1) = month_start y m + month_len y m.
Proof.
  intros H. assert (Hm : 0 <= m < 12) by lia. unfold month_start, month_len.
  by_month Hm; try lia; destruct (is_leap_year y); reflexivity.
Qed.

Lemma month_start_last y : month_start y 11 + month_len y 11 = 365 + truth (is_leap_year y).
Proof. unfold month_start, month_len. destruct (is_leap_year y); reflexivity. Qed.

Lemma month_start_0 y : month_start y 0 = 0.
Proof. unfold month_start. destruct (is_leap_year y); reflexivity. Qed.

Lemma month_len_pos y m : 0 <= m < 12 -> 28 <= month_len y m <= 31.
Proof. intros H. unfold month_len. by_month H; destruct (is_leap_year y); split; vm_compute; discriminate. Qed.

Lemma next_day_valid c : valid_date c -> valid_date (next_day c).
Proof.
  intros (Hy & Hm & Hd). unfold next_day. pose proof (month_len_pos (year c) (month c) Hm).
  destruct (Z.ltb_spec (day c) (month_len (year c) (month c))); [unfold valid_date; cbn [year month day]; lia|].
  destruct (Z.ltb_spec (month c) 11); unfold valid_date; cbn [year month day].
  - pose proof (month_len_pos (year c) (month c + 1)). lia.
  - pose proof (month_len_pos (year c + 1) 0). lia.
Qed.

Lemma next_day_number c : valid_date c -> day_number (next_day c) = day_number c + 1.
Proof.
  intros (Hy & Hm & Hd). unfold next_day, day_number.
  destruct (Z.ltb_spec (day c) (month_len (year c) (month c))); [cbn [year month day]; lia|].
  destruct (Z.ltb_spec (month c) 11); cbn [year month day].
  - rewrite month_start_step by lia. lia.
  - assert (month c = 11) as E by lia. rewrite E in *. rewrite month_start_0.
    pose proof (month_start_last (year c)). pose proof (leaps_step (year c)).
    replace (year c + 1 - 1) with (year c) by lia. lia.
Qed.

Lemma calendar_valid n : valid_date (calendar n) /\ day_number (calendar n) = Z.max 0 n.
Proof.
  unfold calendar. replace (Z.max 0 n) with (Z.of_nat (Z.to_nat n)) by lia.
  induction (Z.to_nat n) as [|k [IHv IHn]]; [|change (Nat.iter (S k) next_day epoch) with (next_day (Nat.iter k next_day epoch))].
  - split; [|reflexivity]. change (1970 <= 1970 /\ 0 <= 0 < 12 /\ 1 <= 1 <= 31). lia.
  - split; [apply next_day_valid, IHv|]. rewrite next_day_number by exact IHv. lia.
Qed.

(** ** The conversions *)

Lemma month_start_mono y k m : 0 <= k <= m -> m < 12 -> month_start y k <= month_start y m.
Proof.
  intros Hk Hm. replace m with (k + Z.of_nat (Z.to_nat (m - k))) in * by lia.
  induction (Z.to_nat (m - k)) as [|r IH]; [replace (k + Z.of_nat 0) with k by lia; lia|].
  replace (k + Z.of_nat (S r)) with (k + Z.of_nat r + 1) in * by lia. rewrite month_start_step by lia.
  pose proof (month_len_pos y (k + Z.of_nat r)). lia.
Qed.

Lemma month_loop_ok n : forall k y m d, 0 <= k <= m -> k + Z.of_nat n = 11 -> m < 12 -> 1 <= d <= month_len y m ->
  month_loop n k (month_start y m - month_start y k + d - 1) y = Some (m, d - 1).
Proof.
  induction n as [|n IH]; intros k y m d Hk Hn Hm Hd; cbn [month_loop].
  - assert (k = m) by lia. subst. f_equal. f_equal. lia.
  - rewrite rtc_month_days_len by lia. cbn [mbind option_bind].
    destruct (decide (k = m)) as [->|Hne].
    + destruct (Z.ltb_spec (month_start y m - month_start y m + d - 1 - month_len y m) 0); [|lia].
      f_equal. f_equal. lia.
    + destruct (Z.ltb_spec (month_start y m - month_start y k + d - 1 - month_len y k) 0) as [Hlt|_].
      * pose proof (month_start_step y k). pose proof (month_start_mono y (k + 1) m). lia.
      * rewrite <- (IH (k + 1) y m d) by lia. rewrite month_start_step by lia. f_equal. lia.
Qed.

Definition year_day (c : date) : Z := month_start (year c) (month c) + day c - 1.

Lemma year_day_range c : valid_date c -> 0 <= year_day c < 365 + truth (is_leap_year (year c)).
Proof.
  intros (Hy & Hm & Hd). unfold year_day. rewrite <- (month_start_last (year c)).
  pose proof (month_start_mono (year c) 0 (month c)). rewrite month_start_0 in *.
  destruct (decide (month c = 11)) as [E|]; [rewrite E in *; lia|].
  pose proof (month_start_step (year c) (month c)). pose proof (month_start_mono (year c) (month c + 1) 11).
  pose proof (month_len_pos (year c) 11). lia.
Qed.

Lemma leaps_range y : 1969 <= y <= 2110 -> 0 <= LEAPS_THRU_END_OF y - LEAPS_THRU_END_OF 1969 <= 40.
Proof. unfold LEAPS_THRU_END_OF. intros. Z.div_mod_to_equations. lia. Qed.

Lemma leaps_mono a b : 0 <= a <= b -> LEAPS_THRU_END_OF a <= LEAPS_THRU_END_OF b.
Proof. unfold LEAPS_THRU_END_OF. intros. Z.div_mod_to_equations. lia. Qed.

Lemma day_number_year c : valid_date c -> day_number c < 49711 -> 1970 <= year c <= 2106 /\ 0 <= day_number c.
Proof.
  intros Hv Hlt. pose proof (year_day_range c Hv) as Hd. destruct Hv as [Hy _].
  unfold day_number in *. fold (year_day c) in *. unfold year_day in *.
  pose proof (leaps_mono 1969 (year c - 1)). lia.
Qed.

Lemma day_number_bound c : valid_date c -> year c <= 2105 -> 0 <= day_number c < 49700.
Proof.
  intros Hv Hy. pose proof (year_day_range c Hv) as Hr. destruct Hv as [Hv _]. unfold year_day in Hr. unfold day_number.
  destruct (is_leap_year (year c)); cbn [truth] in Hr; change (LEAPS_THRU_END_OF 1969) with 477;
    unfold LEAPS_THRU_END_OF; Z.div_mod_to_equations; lia.
Qed.

(** The first guess of the year is right or one too late. *)
Lemma year_guess c : valid_date c -> day_number c < 49711 ->
  let g := 1970 + day_number c / 365 in
  let days := day_number c - ((g - 1970) * 365 + LEAPS_THRU_END_OF (g - 1) - LEAPS_THRU_END_OF 1969) in
  (days < 0 /\ g = year c + 1 /\ days + 365 + truth (is_leap_year (year c)) = year_day c) \/
  (0 <= days /\ g = year c /\ days = year_day c).
Proof.
  intros Hv Hlt. cbv zeta. pose proof (year_day_range c Hv) as Hd. pose proof (day_number_year c Hv Hlt) as [Hy H0].
  assert (E : day_number c = (year c - 1970) * 365 + LEAPS_THRU_END_OF (year c - 1) - LEAPS_THRU_END_OF 1969 + year_day c)
    by (unfold day_number, year_day; lia).
  pose proof (leaps_range (year c - 1)). pose proof (leaps_step (year c)).
  assert (0 <= truth (is_leap_year (year c)) <= 1) by (destruct (is_leap_year (year c)); cbn [truth]; lia).
  assert (Hq : day_number c / 365 = year c - 1970 \/ day_number c / 365 = year c - 1969).
  { rewrite E. Z.div_mod_to_equations. lia. }
  assert (Hm : 0 <= day_number c - 365 * (day_number c / 365) < 365) by (Z.div_mod_to_equations; lia).
  destruct Hq as [Hq|Hq]; rewrite Hq.
  - right. replace (1970 + (year c - 1970) - 1) with (year c - 1) by lia. lia.
  - left. replace (1970 + (year c - 1969) - 1) with (year c) by lia. lia.
Qed.

Definition time_of (c : date) (h mi s : Z) : Z := day_number c * 86400 + h * 3600 + mi * 60 + s.

Lemma time_to_tm_of c h mi s : valid_date c -> 0 <= h < 24 -> 0 <= mi < 60 -> 0 <= s < 60 -> time_of c h mi s < 2 ^ 32 ->
  rtc_time_to_tm (time_of c h mi s) =
  Some (mk_rtc_time s mi h (day c) (month c) ((day_number c + 4) mod 7) (year c - 1900) 0).
Proof.
  intros Hv Hh Hmi Hs Hlt. unfold time_of in *.
  assert (Hn : day_number c < 49711) by lia.
  pose proof (day_number_year c Hv Hn) as [Hy H0]. pose proof (year_guess c Hv Hn) as Hg. cbv zeta in Hg.
  pose proof (year_day_range c Hv) as Hd. pose proof Hv as (_ & Hm & Hdd). pose proof (month_len_pos (year c) (month c) Hm).
  unfold rtc_time_to_tm.
  assert (E1 : (day_number c * 86400 + h * 3600 + mi * 60 + s) / 86400 = day_number c) by (Z.div_mod_to_equations; lia).
  rewrite E1, (s32_small (day_number c)), (u32_small (day_number c)) by lia.
  replace (day_number c * 86400 + h * 3600 + mi * 60 + s - day_number c * 86400) with (h * 3600 + mi * 60 + s) by lia.
  rewrite (u32_small (h * 3600 + mi * 60 + s)) by lia.
  rewrite Z.quot_div_nonneg, Z.rem_mod_nonneg by lia.
  assert (Hq : 0 <= day_number c / 365 < 200) by (Z.div_mod_to_equations; lia).
  rewrite (u32_small (1970 + day_number c / 365)), (u32_small (1970 + day_number c / 365 - 1)) by lia.
  cbv zeta. change (1970 - 1) with 1969.
  assert (Hml : month_loop 11 0 (year_day c) (year c) = Some (month c, day c - 1)).
  { rewrite <- (month_loop_ok 11 0 (year c) (month c) (day c)) by lia. f_equal. unfold year_day. rewrite month_start_0. lia. }
  assert (Hs32 : forall x, - 800 <= x <= 800 -> s32 x = x) by (intros; apply s32_small; lia).
  assert (0 <= truth (is_leap_year (year c)) <= 1) by (destruct (is_leap_year (year c)); cbn [truth]; lia).
  set (g := 1970 + day_number c / 365) in *. set (L := LEAPS_THRU_END_OF) in *.
  set (days := day_number c - ((g - 1970) * 365 + L (g - 1) - L 1969)) in *.
  rewrite (Hs32 days) by lia.
  assert (Hpair : (if days <? 0 then (g - 1, days + 365 + truth (is_leap_year (g - 1))) else (g, days)) = (year c, year_day c)).
  { destruct Hg as [(Hlt0 & Hge & Hdd')|(Hge0 & Hge & Hdd')]; destruct (Z.ltb_spec days 0); try lia.
    - replace (g - 1) with (year c) by lia. f_equal. lia.
    - f_equal; lia. }
  rewrite Hpair, Hml. cbn [mbind option_bind].
  assert (E2 : (h * 3600 + mi * 60 + s) / 3600 = h) by (Z.div_mod_to_equations; lia).
  rewrite E2, (u8_small h) by lia. replace (h * 3600 + mi * 60 + s - h * 3600) with (mi * 60 + s) by lia.
  rewrite (u32_small (mi * 60 + s)) by lia.
  assert (E3 : (mi * 60 + s) / 60 = mi) by (Z.div_mod_to_equations; lia).
  rewrite E3, (u8_small mi) by lia.
  pose proof (Z.mod_pos_bound (day_number c + 4) 7 ltac:(lia)).
  unfold u16. rewrite (Z.mod_small (year c - 1900)) by lia.
  rewrite !u8_small by lia. do 2 f_equal; lia.
Qed.

(** The days before a month in a common year, as mktime has them. *)
Lemma mktime_month m : 0 <= m < 12 ->
  (s32 (u32 (m + 1 - 2)) <=? 0) = (m <? 2) /\
  month_start 1970 m = (if m <? 2 then u32 (367 * u32 (u32 (m + 1 - 2) + 12)) / 12 - 336
                        else u32 (367 * u32 (m + 1 - 2)) / 12 + 29).
Proof. intros H. by_month H; vm_compute; split; reflexivity. Qed.

Lemma month_start_leap y m : month_start y m = month_start 1970 m + truth (is_leap_year y && (2 <=? m)).
Proof. unfold month_start. change (is_leap_year 1970) with false. cbn [andb truth]. lia. Qed.

Lemma mktime_days y m d : 1970 <= y <= 2200 -> 0 <= m < 12 ->
  let '(mon, yr) := if s32 (u32 (m + 1 - 2)) <=? 0 then (u32 (u32 (m + 1 - 2) + 12), u32 (y - 1)) else (u32 (m + 1 - 2), y) in
  yr / 4 - yr / 100 + yr / 400 + u32 (367 * mon) / 12 + d + yr * 365 - 719499 = day_number (mk_date y m d).
Proof.
  intros Hy Hm. rewrite (u32_small (y - 1)) by lia. pose proof (leaps_step y) as HL.
  unfold day_number. cbn [year month day]. rewrite (month_start_leap y m). destruct (mktime_month m Hm) as [-> ->].
  change (LEAPS_THRU_END_OF 1969) with 477. unfold LEAPS_THRU_END_OF in *.
  destruct (Z.ltb_spec m 2); destruct (Z.leb_spec 2 m); try lia; rewrite ?andb_false_r, ?andb_true_r; cbn [truth]; lia.
Qed.

Lemma tm_to_time_of tm : valid_tm tm -> time_of (date_of tm) (tm_hour tm) (tm_min tm) (tm_sec tm) < 2 ^ 32 ->
  rtc_tm_to_time tm = time_of (date_of tm) (tm_hour tm) (tm_min tm) (tm_sec tm).
Proof.
  intros (Hv & Hh & Hmi & Hs & _) Hlt. unfold time_of in *.
  pose proof (day_number_year _ Hv ltac:(lia)) as [Hy H0]. pose proof Hv as (_ & Hm & _).
  pose proof (mktime_days (tm_year tm + 1900) (tm_mon tm) (tm_mday tm) ltac:(cbn [date_of year] in *; lia) Hm) as E.
  unfold rtc_tm_to_time, mktime. cbn [date_of year month] in E. revert E.
  destruct (s32 (u32 (tm_mon tm + 1 - 2)) <=? 0); intros E; rewrite E; fold (date_of tm);
    rewrite u32_small by lia; lia.
Qed.

Lemma valid_tm_0 tm : valid_tm tm -> rtc_valid_tm tm = Some 0.
Proof.
  intros (Hv & Hh & Hmi & Hs & Hms). pose proof Hv as (Hy & Hm & Hd). cbn [date_of year month day] in *.
  unfold rtc_valid_tm. rewrite rtc_month_days_len by lia.
  destruct (Z.ltb_spec (tm_year tm) 70), (Z.leb_spec 12 (tm_mon tm)), (Z.ltb_spec (tm_mday tm) 1); try lia.
  cbn [orb mbind option_bind]. f_equal.
  repeat match goal with |- context [?a <? ?b] => destruct (Z.ltb_spec a b); [lia|] | |- context [?a <=? ?b] => destruct (Z.leb_spec a b); [lia|] end.
  reflexivity.
Qed.

(** Every 32-bit time is that of a date of the calendar. *)
Lemma time_split t : 0 <= t < 2 ^ 32 ->
  exists h mi s, 0 <= h < 24 /\ 0 <= mi < 60 /\ 0 <= s < 60 /\ t = time_of (calendar (t / 86400)) h mi s /\
    h * 3600 + mi * 60 + s = t mod 86400.
Proof.
  intros Ht. exists (t mod 86400 / 3600), (t mod 3600 / 60), (t mod 60). unfold time_of.
  destruct (calendar_valid (t / 86400)) as [_ ->]. rewrite Z.max_r by (apply Z.div_pos; lia).
  Z.div_mod_to_equations. lia.
Qed.

(** ** The registers *)

Lemma ymd_pack y m d : 0 <= y < 128 -> 0 <= m < 16 -> 0 <= d < 32 ->
  let v := u32 (RTC_YMD_VAL y m d) in RTC_YMD_Y v = y /\ RTC_YMD_M v = m /\ RTC_YMD_D v = d.
Proof.
  intros Hy Hm Hd. unfold RTC_YMD_VAL, RTC_YMD_Y, RTC_YMD_M, RTC_YMD_D. cbv zeta.
  change 0x7f with (Z.ones 7). change 0xf with (Z.ones 4). change 0x1f with (Z.ones 5).
  rewrite !field_read, Z.land_ones by lia.
  rewrite <- Z.lor_assoc, (lor_shiftl_add m 8 d), (lor_shiftl_add y 16) by lia.
  rewrite u32_small by lia. Z.div_mod_to_equations. lia.
Qed.

Lemma hms_pack h m s : 0 <= h < 32 -> 0 <= m < 64 -> 0 <= s < 64 ->
  let v := u32 (RTC_HMS_VAL h m s) in RTC_HMS_H v = h /\ RTC_HMS_M v = m /\ RTC_HMS_S v = s.
Proof.
  intros Hh Hm Hs. unfold RTC_HMS_VAL, RTC_HMS_H, RTC_HMS_M, RTC_HMS_S. cbv zeta.
  change 0x1f with (Z.ones 5). change 0x3f with (Z.ones 6).
  rewrite !field_read, Z.land_ones by lia.
  rewrite <- Z.lor_assoc, (lor_shiftl_add m 8 s), (lor_shiftl_add h 16) by lia.
  rewrite u32_small by lia. Z.div_mod_to_equations. lia.
Qed.

Lemma ms_pack x : 0 <= x < 1000 -> RTC_MS_MUL10 (u8 (u32 (RTC_MS_DIV10 x))) = (x + 9) / 10 * 10.
Proof.
  intros Hx. unfold RTC_MS_MUL10, RTC_MS_DIV10. assert (0 <= (x + 9) / 10 <= 100) by (Z.div_mod_to_equations; lia).
  rewrite u32_small, u8_small by lia. change 0x7f with (Z.ones 7). rewrite Z.land_ones, Z.mod_small by lia. reflexivity.
Qed.

(** What the clock keeps of a date: no day of the week, hundredths. *)
Definition clock_time (tm : rtc_time) : rtc_time :=
  mk_rtc_time (tm_sec tm) (tm_min tm) (tm_hour tm) (tm_mday tm) (tm_mon tm) 0 (tm_year tm) ((tm_ms tm + 9) / 10 * 10).

Lemma unpack_pack tm : valid_tm tm -> 100 <= tm_year tm < 200 ->
  unpack_time (u32 (RTC_YMD_VAL (tm_year tm mod 100) (tm_mon tm + 1) (tm_mday tm)))
    (u32 (RTC_HMS_VAL (tm_hour tm) (tm_min tm) (tm_sec tm))) (u32 (RTC_MS_DIV10 (tm_ms tm))) = clock_time tm.
Proof.
  intros (Hv & Hh & Hmi & Hs & Hms) Hy. pose proof Hv as (_ & Hm & Hd). cbn [date_of year month day] in *.
  pose proof (month_len_pos (tm_year tm + 1900) (tm_mon tm) Hm).
  assert (E : tm_year tm mod 100 = tm_year tm - 100) by (Z.div_mod_to_equations; lia). rewrite E.
  unfold unpack_time, clock_time. rewrite ms_pack by lia.
  destruct (ymd_pack (tm_year tm - 100) (tm_mon tm + 1) (tm_mday tm)) as (-> & -> & ->); [lia..|].
  destruct (hms_pack (tm_hour tm) (tm_min tm) (tm_sec tm)) as (-> & -> & ->); [lia..|].
  rewrite u8_small by lia. f_equal; lia.
Qed.

Lemma get_after_set hw d tm : valid_tm tm -> 100 <= tm_year tm < 200 ->
  rtc_acts_get_datetime (rtc_acts_set_datetime hw d tm) = clock_time tm.
Proof. exact (unpack_pack tm). Qed.

(** ** Theorems *)

(** C33: for every 32-bit time, rtc_time_to_tm reads its table of months in
    range and gives the date the calendar has that many days after the first
    of January 1970, the time of day and the day of the week; the result is
    accepted by rtc_valid_tm, and rtc_tm_to_time gives the time back. *)
Theorem rtc_time_to_tm_calendar t : 0 <= t < 2 ^ 32 ->
  exists tm, rtc_time_to_tm t = Some tm /\ date_of tm = calendar (t / 86400) /\
    tm_hour tm * 3600 + tm_min tm * 60 + tm_sec tm = t mod 86400 /\ tm_min tm < 60 /\ tm_sec tm < 60 /\
    tm_wday tm = (t / 86400 + 4) mod 7 /\ rtc_valid_tm tm = Some 0 /\ rtc_tm_to_time tm = t.
Proof.
  intros Ht. destruct (time_split t Ht) as (h & mi & s & Hh & Hmi & Hs & Et & Hmod).
  destruct (calendar_valid (t / 86400)) as [Hv Hn]. rewrite Z.max_r in Hn by (apply Z.div_pos; lia).
  set (c := calendar (t / 86400)) in *.
  set (tm := mk_rtc_time s mi h (day c) (month c) ((day_number c + 4) mod 7) (year c - 1900) 0).
  assert (Hd : date_of tm = c) by (unfold date_of, tm; cbn; destruct c; cbn; f_equal; lia).
  assert (Hvt : valid_tm tm) by (split; [rewrite Hd; exact Hv|unfold tm; cbn [tm_hour tm_min tm_sec tm_ms]; lia]).
  exists tm. split; [rewrite Et; apply time_to_tm_of; try assumption; lia|]. split; [exact Hd|].
  split; [exact Hmod|]. split; [exact (proj2 Hmi)|]. split; [exact (proj2 Hs)|].
  split; [unfold tm; cbn [tm_wday]; congruence|]. split; [apply valid_tm_0, Hvt|].
  rewrite tm_to_time_of; rewrite ?Hd; unfold tm; cbn [tm_hour tm_min tm_sec]; [congruence|exact Hvt|lia].
Qed.

Lemma rtc_time_to_tm_calendar_witness :
  exists tm, rtc_time_to_tm 951826554 = Some tm /\ date_of tm = mk_date 2000 1 29 /\ tm_wday tm = 2.
Proof.
  destruct (rtc_time_to_tm_calendar 951826554 ltac:(lia)) as (tm & H & _ & _ & _ & _ & Hw & _).
  exists tm. split; [exact H|]. split; [|rewrite Hw; reflexivity]. vm_compute in H. injection H as <-. reflexivity.
Defined.

(** a valid date of the years 1970 to 2105 survives the conversion to
    seconds and back (the day of the week is filled in, the milliseconds are
    dropped). *)
Theorem rtc_tm_roundtrip tm : valid_tm tm -> tm_year tm <= 205 ->
  rtc_time_to_tm (rtc_tm_to_time tm) =
  Some (mk_rtc_time (tm_sec tm) (tm_min tm) (tm_hour tm) (tm_mday tm) (tm_mon tm)
          ((rtc_tm_to_time tm / 86400 + 4) mod 7) (tm_year tm) 0).
Proof.
  intros Hvt Hy. pose proof Hvt as (Hv & Hh & Hmi & Hs & _).
  pose proof (day_number_bound _ Hv ltac:(cbn [date_of year]; lia)) as Hb.
  assert (Hlt : time_of (date_of tm) (tm_hour tm) (tm_min tm) (tm_sec tm) < 2 ^ 32) by (unfold time_of; lia).
  rewrite tm_to_time_of by assumption. rewrite time_to_tm_of by assumption.
  assert (E : time_of (date_of tm) (tm_hour tm) (tm_min tm) (tm_sec tm) / 86400 = day_number (date_of tm))
    by (unfold time_of; Z.div_mod_to_equations; lia).
  rewrite E. cbn [date_of year month day]. do 2 f_equal. lia.
Qed.

Lemma rtc_tm_roundtrip_witness :
  rtc_time_to_tm (rtc_tm_to_time (mk_rtc_time 59 59 23 31 11 0 199 7)) = Some (mk_rtc_time 59 59 23 31 11 4 199 0).
Proof.
  rewrite (rtc_tm_roundtrip (mk_rtc_time 59 59 23 31 11 0 199 7)).
  - reflexivity.
  - unfold valid_tm, valid_date, date_of. cbn [year month day tm_year tm_mon tm_mday tm_hour tm_min tm_sec tm_ms].
    change (month_len (199 + 1900) 11) with 31. lia.
  - cbn [tm_year]. lia.
Defined.

(** a valid date of the years 2000 to 2099 that is set is what the clock
    reads back, to the hundredth of a second rounded up, and likewise for an
    alarm; the alarm does not move the clock, and the clock does not move
    the alarm. *)
Theorem rtc_clock_roundtrip hw d tm cb : valid_tm tm -> 100 <= tm_year tm < 200 ->
  exists d1 d2, rtc_acts_set_time hw d tm = Some (0, d1) /\ rtc_acts_get_time d1 = (0, clock_time tm) /\
    rtc_acts_get_alarm d1 = rtc_acts_get_alarm d /\
    rtc_acts_set_alarm hw d (Some (tm, cb)) true = Some (0, d2) /\ rtc_acts_get_alarm d2 = (true, clock_time tm) /\
    rtc_acts_get_time d2 = rtc_acts_get_time d.
Proof.
  intros Hv Hy. unfold rtc_acts_set_time, rtc_acts_set_alarm. rewrite (valid_tm_0 tm Hv). cbn [mbind option_bind Z.eqb].
  eexists _, _. split; [reflexivity|]. split; [unfold rtc_acts_get_time; rewrite get_after_set by assumption; reflexivity|].
  split; [reflexivity|]. split; [reflexivity|]. split.
  - unfold rtc_acts_get_alarm. cbn. f_equal. apply (unpack_pack tm Hv Hy).
  - unfold rtc_acts_get_pending_int. destruct (Z.land (ctrl (base d)) RTC_CTL_ALIP =? 0); reflexivity.
Qed.

Definition sample_clock : acts_rtc_data :=
  mk_rtc_data (mk_regs 0 0 0 0 0 0 0) None false (mk_period 0 0 None) false.

Lemma rtc_clock_roundtrip_witness : exists d1 d2,
  rtc_acts_set_time (fun _ v => v) sample_clock (mk_rtc_time 5 4 3 29 1 0 124 123) = Some (0, d1) /\
  rtc_acts_get_time d1 = (0, mk_rtc_time 5 4 3 29 1 0 124 130) /\
  rtc_acts_set_alarm (fun _ v => v) sample_clock (Some (mk_rtc_time 5 4 3 29 1 0 124 123, None)) true = Some (0, d2).
Proof.
  destruct (rtc_clock_roundtrip (fun _ v => v) sample_clock (mk_rtc_time 5 4 3 29 1 0 124 123) None)
    as (d1 & d2 & H1 & H2 & _ & H3 & _).
  - unfold valid_tm, valid_date, date_of. cbn [year month day tm_year tm_mon tm_mday tm_hour tm_min tm_sec tm_ms].
    change (month_len (124 + 1900) 1) with 29. lia.
  - cbn [tm_year]. lia.
  - exists d1, d2. split; [exact H1|]. split; [exact H2|exact H3].
Defined.

(** a valid date whose milliseconds are above 990 is accepted, is read
    back with 1000 milliseconds, which is not valid, and the check of the
    clock at the next start then sets it to the default date. *)
Theorem rtc_rounds_up_to_invalid hw d tm : valid_tm tm -> 100 <= tm_year tm < 200 -> 990 < tm_ms tm ->
  exists d1 d2, rtc_acts_set_time hw d tm = Some (0, d1) /\ tm_ms (rtc_acts_get_datetime d1) = 1000 /\
    rtc_valid_tm (rtc_acts_get_datetime d1) = Some (- EINVAL) /\
    rtc_acts_check_datetime hw d1 = Some d2 /\ date_of (rtc_acts_get_datetime d2) = mk_date 2016 11 31.
Proof.
  intros Hv Hy Hms. unfold rtc_acts_set_time. rewrite (valid_tm_0 tm Hv). cbn [mbind option_bind Z.eqb].
  eexists. assert (E : rtc_acts_get_datetime (rtc_acts_set_datetime hw d tm) = clock_time tm) by (apply get_after_set; assumption).
  assert (Hbad : rtc_valid_tm (clock_time tm) = Some (- EINVAL)).
  { pose proof Hv as ((Hyy & Hm & Hd) & _ & _ & _ & Hms'). cbn [date_of year month day] in *.
    unfold rtc_valid_tm, clock_time. cbn [tm_year tm_mon tm_mday tm_hour tm_min tm_sec tm_ms].
    rewrite rtc_month_days_len by lia.
    destruct (Z.ltb_spec (tm_year tm) 70), (Z.leb_spec 12 (tm_mon tm)), (Z.ltb_spec (tm_mday tm) 1); try lia.
    cbn [orb mbind option_bind]. destruct (Z.leb_spec 1000 ((tm_ms tm + 9) / 10 * 10)); [|Z.div_mod_to_equations; lia].
    rewrite orb_true_r. reflexivity. }
  unfold rtc_acts_check_datetime. rewrite E, Hbad. cbn [mbind option_bind].
  change (- EINVAL <? 0) with true. cbv iota.
  change (rtc_time_to_tm RTC_DEFAULT_INIT_TIME) with (Some (mk_rtc_time 0 0 16 31 11 6 116 0)). cbn [mbind option_bind].
  eexists. split; [reflexivity|]. split; [|split; [reflexivity|split; [reflexivity|reflexivity]]].
  destruct Hv as (_ & _ & _ & _ & Hms'). unfold clock_time. cbn [tm_ms]. Z.div_mod_to_equations. lia.
Qed.

Lemma rtc_rounds_up_to_invalid_witness : exists d1,
  rtc_acts_set_time (fun _ v => v) sample_clock (mk_rtc_time 0 0 12 1 0 0 124 995) = Some (0, d1) /\
  tm_ms (rtc_acts_get_datetime d1) = 1000.
Proof.
  destruct (rtc_rounds_up_to_invalid (fun _ v => v) sample_clock (mk_rtc_time 0 0 12 1 0 0 124 995)) as (d1 & d2 & H1 & H2 & _).
  - unfold valid_tm, valid_date, date_of. cbn [year month day tm_year tm_mon tm_mday tm_hour tm_min tm_sec tm_ms].
    change (month_len (124 + 1900) 0) with 31. lia.
  - cbn [tm_year]. lia.
  - cbn [tm_ms]. lia.
  - exists d1. split; [exact H1|exact H2].
Defined.

(** A periodic alarm that is due before it is armed is given up with a time-out
    at once, and not after RTC_CONFIG_PERIOD_ALARM_TIMEOUT_MS: the comparison
    in the loop is the other way round. *)
Example rtc_period_times_out :
  fst <$> rtc_acts_set_period_alarm (fun _ v => v) sample_clock (mk_period 10 0 None) true
            [((RTC_YMD_VAL 24 1 1, RTC_HMS_VAL 0 0 0, 0), (RTC_YMD_VAL 24 1 1, RTC_HMS_VAL 0 0 1, 0), 1)]
  = Some (- ETIMEDOUT).
Proof. reflexivity. Qed.
