(* ===== verification/Alarm.v ===== *)
(** * Alarm manager (framework/system/alarm_manager/alarm_manager.c)

    The manager keeps three alarms and three snoozes by their second of the
    day, of which at most one, the next to come, is programmed into the
    hardware.  The configuration is the one with the clock driver and the
    8 Hz alarm (CONFIG_RTC_ACTS, CONFIG_ALARM8HZ_ACTS, CONFIG_PROPERTY): in
    the other one alarm_set_rtc ends without returning a value.

    The devices are an argument: whether they are there, what the clock reads
    during the call, what the power-management unit answers when it is armed
    (soc_pmu_alarm8hz_enable is not part of the sources) and what the property
    store answers.  The shared state is [sys]: the manager, the alarm of the
    unit in milliseconds from the call, and what was saved last.  An operation
    is [None] if it reads outside of the table of month lengths. *)

From stdpp Require Import base list numbers option.
From S2P Require Import Prelude Rtc.
Open Scope Z_scope.

Definition MAX_ALARM_SUPPORT : nat := 3.
Definition ALARM_DEFAULF_TIME : Z := 7 * 60 * 60.

Definition ALARM_STATE_NULL : Z := 0.
Definition ALARM_STATE_OFF : Z := 1.
Definition ALARM_STATE_FREE : Z := 2.
Definition ALARM_STATE_OK : Z := 3.

Record alarm_info : Type := mk_info {
  alarm_time : Z;   (* int, hour*3600+min*60+sec *)
  state : Z         (* int *)
}.

Definition with_state (v : Z) (a : alarm_info) : alarm_info := mk_info (alarm_time a) v.
Definition with_time (t : Z) (a : alarm_info) : alarm_info := mk_info (s32 t) (state a).

Record alarm_manager : Type := mk_manager {
  alarm : list alarm_info;
  sn_alarm : list alarm_info
}.

Record devices : Type := mk_devices {
  rtc_dev : bool;
  rtc_now : Z * rtc_time;        (* rtc_get_time: result and reading *)
  alarm8hz_dev : bool;
  pmu_enable : Z -> Z;           (* soc_pmu_alarm8hz_enable *)
  property_set_ret : Z;
  property_get_ret : Z
}.

Record sys : Type := mk_sys {
  al_manager : alarm_manager;
  get_alarm_times : Z;           (* uint8_t *)
  call_back : option nat;
  pmu : option Z;                (* milliseconds until the armed alarm *)
  alarm_cb : bool;               (* the alarm's callback is alarm_manager_callback *)
  saved : option alarm_manager   (* CFG_ALARM_INFO *)
}.

Definition set_manager (m : alarm_manager) (s : sys) : sys :=
  mk_sys m (get_alarm_times s) (call_back s) (pmu s) (alarm_cb s) (saved s).
Definition set_pmu (p : option Z) (cb : bool) (s : sys) : sys :=
  mk_sys (al_manager s) (get_alarm_times s) (call_back s) p cb (saved s).
Definition set_times (n : Z) (s : sys) : sys :=
  mk_sys (al_manager s) n (call_back s) (pmu s) (alarm_cb s) (saved s).

(** ** Time of day *)

Definition tm_to_time (tm : rtc_time) : Z := u32 ((tm_hour tm * 60 + tm_min tm) * 60 + tm_sec tm).

Definition tm_add_one_day (tm : rtc_time) : option rtc_time :=
  let mday := u8 (tm_mday tm + 1) in
  len ← rtc_month_days (tm_mon tm) (tm_year tm);
  Some (if len <? mday then
          let mon := u8 (tm_mon tm + 1) in
          if 13 <=? mon
          then mk_rtc_time (tm_sec tm) (tm_min tm) (tm_hour tm) 1 1 (tm_wday tm) (u16 (tm_year tm + 1)) (tm_ms tm)
          else mk_rtc_time (tm_sec tm) (tm_min tm) (tm_hour tm) 1 mon (tm_wday tm) (tm_year tm) (tm_ms tm)
        else mk_rtc_time (tm_sec tm) (tm_min tm) (tm_hour tm) mday (tm_mon tm) (tm_wday tm) (tm_year tm) (tm_ms tm)).

Definition time_to_tm (tm : rtc_time) (time : Z) : rtc_time :=
  let hour := u8 (time / 3600) in
  mk_rtc_time (u8 (time mod 60)) (u8 (time / 60 - hour * 60)) hour (tm_mday tm) (tm_mon tm) (tm_wday tm)
    (tm_year tm) (tm_ms tm).

Definition check_alarm_time (time : Z) : Z := if (time <? 0) || (86400 <=? time) then - EINVAL else 0.

Section Manager.
Variable dv : devices.

(** ** The 8 Hz alarm (zephyr/drivers/rtc/alarm8hz_acts.c) *)

Definition alarm8hz_acts_set_alarm (config : option Z) (enable : bool) (s : sys) : Z * sys :=
  if enable then
    match config with
    | None => (- EINVAL, s)
    | Some msec =>
        let ret := pmu_enable dv msec in
        if negb (ret =? 0) then (ret, s) else (ret, set_pmu (Some msec) true s)
    end
  else (0, set_pmu None false s).

Definition alarm_set_alarm8hz (tm : rtc_time) (s : sys) : Z * sys :=
  if negb (alarm8hz_dev dv) then (- ENXIO, s)
  else
    let '(ret, cur_tm) := rtc_now dv in
    if negb (ret =? 0) then (ret, s)
    else
      let cur_time := rtc_tm_to_time cur_tm in
      let alarm_time := rtc_tm_to_time tm in
      if (alarm_time <? cur_time) || (4294967 <? u32 (alarm_time - cur_time)) then (- EINVAL, s)
      else
        let alarm_msec := u32 (u32 (alarm_time - cur_time) * 1000) in
        (0, snd (alarm8hz_acts_set_alarm (Some alarm_msec) true s)).

Definition property_set (s : sys) : Z * sys :=
  (property_set_ret dv,
   if property_set_ret dv <? 0 then s
   else mk_sys (al_manager s) (get_alarm_times s) (call_back s) (pmu s) (alarm_cb s) (Some (al_manager s))).

(** ** The next alarm *)

(** Lines 111-126: the alarm that is programmed becomes free. *)
Fixpoint free_current (cur_time : Z) (l sn : list alarm_info) : list alarm_info * list alarm_info :=
  match l, sn with
  | a :: l', b :: sn' =>
      if state a =? ALARM_STATE_OK then (with_state ALARM_STATE_FREE a :: l', sn)
      else if state b =? ALARM_STATE_OK then
        (l, with_state (if (cur_time <? u32 (alarm_time b)) && (u32 (alarm_time b - cur_time) <? 36000)
                        then ALARM_STATE_FREE else ALARM_STATE_NULL) b :: sn')
      else let '(x, y) := free_current cur_time l' sn' in (a :: x, b :: y)
  | _, _ => (l, sn)
  end.

(** One comparison of the search: [later] tells the two passes apart. *)
Definition earliest_of (later : bool) (cur_time earliest : Z) (a : alarm_info) : Z :=
  if (state a =? ALARM_STATE_FREE)
     && (if later then cur_time <? u32 (alarm_time a) else u32 (alarm_time a) <=? cur_time)
  then if earliest =? 0 then alarm_time a else if alarm_time a <? earliest then alarm_time a else earliest
  else earliest.

Fixpoint find_earliest (later : bool) (cur_time earliest : Z) (l sn : list alarm_info) : Z :=
  match l, sn with
  | a :: l', b :: sn' =>
      let earliest := earliest_of later cur_time earliest a in
      let earliest := earliest_of later cur_time earliest b in
      find_earliest later cur_time earliest l' sn'
  | _, _ => earliest
  end.

(** Lines 190-204: the alarm that was programmed is marked. *)
Fixpoint mark_alarm (t : Z) (l sn : list alarm_info) : list alarm_info * list alarm_info :=
  match l, sn with
  | a :: l', b :: sn' =>
      if (state a =? ALARM_STATE_FREE) && (alarm_time a =? t) then (with_state ALARM_STATE_OK a :: l', sn)
      else if (state b =? ALARM_STATE_FREE) && (alarm_time b =? t) then (l, with_state ALARM_STATE_OK b :: sn')
      else let '(x, y) := mark_alarm t l' sn' in (a :: x, b :: y)
  | _, _ => (l, sn)
  end.

Definition find_and_set_alarm (s : sys) : option (Z * sys) :=
  if negb (rtc_dev dv) then Some (-1, s)
  else
    let '(ret, tm) := rtc_now dv in
    if negb (ret =? 0) then Some (-1, s)
    else
      let cur_time := tm_to_time tm in
      let '(l, sn) := free_current cur_time (alarm (al_manager s)) (sn_alarm (al_manager s)) in
      let s := set_manager (mk_manager l sn) s in
      let earliest := find_earliest true cur_time 0 l sn in
      let earliest := if earliest =? 0 then find_earliest false cur_time 0 l sn else earliest in
      '(ret, s) ←
        (if negb (earliest =? 0) then
           let tm := time_to_tm tm (u32 earliest) in
           tm ← (if u32 earliest <=? cur_time then tm_add_one_day tm else Some tm);
           let '(ret, s) := alarm_set_alarm8hz tm s in
           if negb (ret =? 0) then Some (-1, s)
           else let '(l, sn) := mark_alarm earliest l sn in Some (0, set_manager (mk_manager l sn) s)
         else Some (0, s));
      if ret <? 0 then Some (-1, s)
      else
        let '(ret, s) := property_set s in
        Some (if ret <? 0 then -1 else 0, s).

(** ** Adding an alarm *)

Definition is_used (a : alarm_info) : bool := ALARM_STATE_OFF <? state a.

Definition is_alarm_full (is_snooze : bool) (m : alarm_manager) : Z :=
  if existsb (fun a => negb (is_used a)) (if is_snooze then sn_alarm m else alarm m) then 0 else -2.

Definition ALARM_EXIST : Z := 1.
Definition SN_ALARM_EXIST : Z := 2.

Fixpoint exist_loop (time : Z) (l sn : list alarm_info) : Z :=
  match l, sn with
  | a :: l', b :: sn' =>
      if (u32 (alarm_time b) =? time) && is_used b then SN_ALARM_EXIST
      else if (u32 (alarm_time a) =? time) && is_used a then ALARM_EXIST
      else exist_loop time l' sn'
  | _, _ => 0
  end.
Definition is_alarm_exist (time : Z) (m : alarm_manager) : Z := exist_loop time (alarm m) (sn_alarm m).

(** The first entry that satisfies [p] is replaced. *)
Fixpoint update_first (p : alarm_info -> bool) (f : alarm_info -> alarm_info) (l : list alarm_info) : list alarm_info :=
  match l with
  | [] => []
  | a :: l' => if p a then f a :: l' else a :: update_first p f l'
  end.

Definition delect_sn_alarm (time : Z) (m : alarm_manager) : alarm_manager :=
  mk_manager (alarm m)
    (update_first (fun b => (u32 (alarm_time b) =? time) && is_used b) (with_state ALARM_STATE_NULL) (sn_alarm m)).

Definition is_armed (a : alarm_info) : bool := state a =? ALARM_STATE_OK.

(** Lines 276-287: which of the two arrays has the programmed alarm. *)
Fixpoint armed_kind (l sn : list alarm_info) : option bool :=
  match l, sn with
  | a :: l', b :: sn' => if is_armed a then Some false else if is_armed b then Some true else armed_kind l' sn'
  | _, _ => None
  end.

(** Lines 296-320 and 323-346: whether an alarm at [time] comes before the
    first programmed one of an array, which is then freed. *)
Definition displaces (time cur_time : Z) (a : alarm_info) : bool :=
  if cur_time <? time then (time <? u32 (alarm_time a)) || (u32 (alarm_time a) <? cur_time)
  else if time <? cur_time then (time <? u32 (alarm_time a)) && (u32 (alarm_time a) <? cur_time)
  else false.

Fixpoint displace (time cur_time : Z) (l : list alarm_info) : Z * list alarm_info :=
  match l with
  | [] => (0, [])
  | a :: l' =>
      if is_armed a then
        if displaces time cur_time a then (1, with_state ALARM_STATE_FREE a :: l') else (0, l)
      else let '(r, x) := displace time cur_time l' in (r, a :: x)
  end.

Definition is_need_set_alarm (time : Z) (m : alarm_manager) : Z * alarm_manager :=
  match armed_kind (alarm m) (sn_alarm m) with
  | None => (1, m)
  | Some is_snooze_alarm_set =>
      let '(ret, tm) := rtc_now dv in
      if negb (ret =? 0) then (0, m)
      else
        let cur_time := tm_to_time tm in
        if is_snooze_alarm_set
        then let '(r, x) := displace time cur_time (sn_alarm m) in (r, mk_manager (alarm m) x)
        else let '(r, x) := displace time cur_time (alarm m) in (r, mk_manager x (sn_alarm m))
  end.

Definition alarm_set_state (is_snooze : bool) (time alarm_state : Z) (m : alarm_manager) : alarm_manager :=
  let put := update_first (fun a => negb (is_used a)) (fun _ => mk_info (s32 time) (u8 alarm_state)) in
  if is_snooze then mk_manager (alarm m) (put (sn_alarm m)) else mk_manager (put (alarm m)) (sn_alarm m).

(** The date is given with months from 1 and full years; it is changed in
    place, which no caller below uses. *)
Definition system_add_alarm (tm : rtc_time) (is_snooze : bool) (s : sys) : option (Z * sys) :=
  let tm := mk_rtc_time (tm_sec tm) (tm_min tm) (tm_hour tm) (tm_mday tm) (u8 (tm_mon tm - 1)) (tm_wday tm)
              (u16 (tm_year tm - 1900)) (tm_ms tm) in
  bad ← rtc_valid_tm tm;
  if negb (bad =? 0) then Some (- ENOEXEC, s)
  else if negb (is_alarm_full is_snooze (al_manager s) =? 0) then Some (-2, s)
  else
    let time := tm_to_time tm in
    let exists_already := is_alarm_exist time (al_manager s) in
    if negb (exists_already =? 0) && negb ((exists_already =? SN_ALARM_EXIST) && negb is_snooze) then Some (-3, s)
    else
      let s := if exists_already =? 0 then s else set_manager (delect_sn_alarm time (al_manager s)) s in
      let '(need, m) := is_need_set_alarm time (al_manager s) in
      let s := set_manager m s in
      '(ret, s) ←
        (if negb (need =? 0) then
           let '(ret, s) := alarm_set_alarm8hz tm s in
           Some (if negb (ret =? 0) then (-1, s)
                 else (0, set_manager (alarm_set_state is_snooze time ALARM_STATE_OK (al_manager s)) s))
         else Some (0, set_manager (alarm_set_state is_snooze time ALARM_STATE_FREE (al_manager s)) s));
      if negb (ret =? 0) then Some (ret, s)
      else let '(ret, s) := property_set s in Some (if ret <? 0 then -1 else 0, s).

Definition alarm_manager_set_alarm (tm : rtc_time) (is_snooze : bool) (s : sys) : option (Z * sys) :=
  if negb (rtc_dev dv) then Some (-1, s)
  else
    '(ret, s) ← system_add_alarm tm is_snooze s;
    Some (if negb (ret =? 0) then (-1, s) else (ret, set_times (u8 (get_alarm_times s - 1)) s)).

(** ** Deleting, changing and listing alarms *)

(** The index of the first used alarm at [time]. *)
Fixpoint used_at (time : Z) (i : nat) (l : list alarm_info) : option nat :=
  match l with
  | [] => None
  | a :: l' => if is_used a && (u32 (alarm_time a) =? time) then Some i else used_at time (S i) l'
  end.

Definition set_alarm_state (i : nat) (v : Z) (m : alarm_manager) : alarm_manager :=
  mk_manager (alter (with_state v) i (alarm m)) (sn_alarm m).

Definition save_result (s : sys) : Z * sys := let '(ret, s) := property_set s in (if ret <? 0 then -1 else 0, s).

Definition system_delete_alarm (tm : rtc_time) (s : sys) : option (Z * sys) :=
  let time := tm_to_time tm in
  match used_at time 0 (alarm (al_manager s)) with
  | None => Some (0, s)
  | Some i =>
      if default false (is_armed <$> alarm (al_manager s) !! i) then
        if negb (alarm8hz_dev dv) then Some (-1, s)
        else
          let '(_, s) := alarm8hz_acts_set_alarm None false s in
          let s := set_manager (set_alarm_state i ALARM_STATE_OFF (al_manager s)) s in
          '(ret, s) ← find_and_set_alarm s;
          if ret =? 0 then Some (0, s) else Some (save_result s)
      else Some (save_result (set_manager (set_alarm_state i ALARM_STATE_OFF (al_manager s)) s))
  end.

Definition alarm_manager_delete_alarm (tm : rtc_time) (s : sys) : option (Z * sys) :=
  if negb (rtc_dev dv) then Some (-1, s)
  else '(ret, s) ← system_delete_alarm tm s; Some (if negb (ret =? 0) then -1 else ret, s).

(** The local date of the function is not initialised but for the time of day. *)
Definition alarm_manager_update_alarm (junk : rtc_time) (time_sec : Z) (alarm_index : nat) (alarm_state : Z) (s : sys)
  : option (Z * sys) :=
  let m := al_manager s in
  if Nat.leb MAX_ALARM_SUPPORT alarm_index || (alarm_state =? ALARM_STATE_NULL) then Some (- EINVAL, s)
  else if alarm_state =? ALARM_STATE_OFF then
    if default false (negb ∘ is_used <$> alarm m !! alarm_index) then
      let m := mk_manager (alter (fun a => with_state alarm_state (with_time time_sec a)) alarm_index (alarm m)) (sn_alarm m) in
      Some (save_result (set_manager m s))
    else
      let tm := time_to_tm junk time_sec in
      let m := mk_manager (alter (with_time time_sec) alarm_index (alarm m)) (sn_alarm m) in
      '(_, s) ← alarm_manager_delete_alarm tm (set_manager m s); Some (0, s)
  else
    let m := mk_manager (alter (fun a => with_state ALARM_STATE_FREE (with_time time_sec a)) alarm_index (alarm m)) (sn_alarm m) in
    '(_, s) ← find_and_set_alarm (set_manager m s); Some (0, s).

(** system_get_alarm: the time of day and the switch of the next alarm to list;
    [n] rounds of its loop are left. *)
Fixpoint get_alarm_loop (n : nat) (s : sys) : option (Z * bool) * sys :=
  match n with
  | O => (None, s)
  | S n' =>
      let s := if Z.of_nat MAX_ALARM_SUPPORT <=? get_alarm_times s then set_times 0 s else s in
      let a := nth (Z.to_nat (get_alarm_times s)) (alarm (al_manager s)) (mk_info 0 0) in
      let s' := set_times (u8 (get_alarm_times s + 1)) s in
      if negb (check_alarm_time (alarm_time a) =? 0) then get_alarm_loop n' s'
      else (Some (alarm_time a, negb (state a =? 0)), s')
  end.

Definition alarm_manager_get_alarm (tm : rtc_time) (is_on : bool) (s : sys) : Z * rtc_time * bool * sys :=
  match get_alarm_loop MAX_ALARM_SUPPORT s with
  | (Some (t, on), s') => (0, time_to_tm tm t, on, s')
  | (None, s') => (0, tm, is_on, s')
  end.

(** ** Start and clock *)

Definition default_alarm (a : alarm_info) : alarm_info :=
  if (state a =? ALARM_STATE_NULL) && negb (alarm_time a =? ALARM_DEFAULF_TIME) then mk_info ALARM_DEFAULF_TIME (state a) else a.

Definition no_alarm : alarm_info := mk_info 0 ALARM_STATE_NULL.

(** A property_get that fails leaves the cleared structure as it is. *)
Definition alarm_manager_init (s : sys) : Z * sys :=
  if negb (rtc_dev dv) then (-1, s)
  else
    let zero := mk_manager (replicate MAX_ALARM_SUPPORT no_alarm) (replicate MAX_ALARM_SUPPORT no_alarm) in
    let m := if property_get_ret dv <? 0 then zero else default zero (saved s) in
    let s := set_manager (mk_manager (default_alarm <$> alarm m) (sn_alarm m)) s in
    (if property_get_ret dv <? 0 then -1 else 0, s).

Definition system_registry_alarm_callback (cb : option nat) (s : sys) : Z * sys :=
  (0, mk_sys (al_manager s) (get_alarm_times s) cb (pmu s) (alarm_cb s) (saved s)).

(** alarm8hz_acts_pmu_notify and alarm_manager_callback: what is called when
    the alarm rings. *)
Definition alarm_rings (s : sys) : option nat := if alarm_cb s then call_back s else None.

Definition alarm_manager_get_time : Z * rtc_time :=
  let '(ret, tm) := rtc_now dv in
  if negb (ret =? 0) then (-1, tm)
  else (ret, mk_rtc_time (tm_sec tm) (tm_min tm) (tm_hour tm) (tm_mday tm) (u8 (tm_mon tm + 1)) (tm_wday tm)
               (u16 (tm_year tm + 1900)) (tm_ms tm)).

(** The driver's rtc_set_time, on the date with months from 0. *)
Definition alarm_manager_set_time (hw : Z -> Z -> Z) (d : acts_rtc_data) (tm : rtc_time) : option (Z * acts_rtc_data) :=
  if negb (rtc_dev dv) then Some (-1, d)
  else
    let tm := mk_rtc_time (tm_sec tm) (tm_min tm) (tm_hour tm) (tm_mday tm) (u8 (tm_mon tm - 1)) (tm_wday tm)
                (u16 (tm_year tm - 1900)) (tm_ms tm) in
    '(ret, d) ← rtc_acts_set_time hw d tm;
    Some (if negb (ret =? 0) then -1 else ret, d).

End Manager.
