(* ===== verification/AlarmProof.v ===== *)
(** * Theorems of the alarm manager

    The next alarm is found and programmed, at most one alarm is marked as
    programmed, adding keeps the earliest one programmed; and what an alarm at
    midnight and a refused date do. *)

From stdpp Require Import base list numbers option sets.
From S2P Require Import Prelude Rtc Alarm.
Open Scope Z_scope.

(** ** The search for the next alarm *)

(** Seconds from [cur] until the next [t] o'clock. *)
Definition delay (cur t : Z) : Z := if cur <? t then t - cur else t + 86400 - cur.

Definition free (a : alarm_info) : Prop := state a = ALARM_STATE_FREE.
Definition armed (a : alarm_info) : Prop := state a = ALARM_STATE_OK.
Definition in_day (a : alarm_info) : Prop := free a -> 0 < alarm_time a < 86400.

(** The order in which the loops visit the two arrays. *)
Fixpoint interleave (l sn : list alarm_info) : list alarm_info :=
  match l, sn with
  | a :: l', b :: sn' => a :: b :: interleave l' sn'
  | _, _ => []
  end.

Lemma elem_of_interleave l : forall sn x, length l = length sn -> x ∈ interleave l sn <-> x ∈ l \/ x ∈ sn.
Proof.
  induction l as [|a l IH]; intros [|b sn] x Hl; try discriminate; cbn [interleave]; [set_solver|].
  injection Hl as Hl. specialize (IH sn x Hl). set_solver.
Qed.

Lemma find_earliest_fold later cur l : forall sn e,
  find_earliest later cur e l sn = fold_left (earliest_of later cur) (interleave l sn) e.
Proof. induction l as [|a l IH]; intros [|b sn] e; cbn [find_earliest interleave fold_left]; auto. Qed.

(** The alarms one pass of the search looks at. *)
Definition candidate (later : bool) (cur : Z) (a : alarm_info) : Prop :=
  free a /\ if later then cur < alarm_time a else alarm_time a <= cur.

Lemma earliest_of_spec later cur e a : in_day a -> 0 <= e ->
  let r := earliest_of later cur e a in
  (candidate later cur a /\ r = (if e =? 0 then alarm_time a else Z.min (alarm_time a) e)) \/ (~ candidate later cur a /\ r = e).
Proof.
  intros Ha He. cbv zeta. unfold earliest_of, candidate, free, in_day in *.
  destruct (Z.eqb_spec (state a) ALARM_STATE_FREE) as [Hs|Hs]; cbn [andb]; [|right; split; [tauto|reflexivity]].
  specialize (Ha Hs). rewrite u32_small by lia.
  destruct later; reflect_bools; try (left; lia); right; lia.
Qed.

Lemma fold_earliest later cur xs : forall e, Forall in_day xs -> 0 <= e ->
  let r := fold_left (earliest_of later cur) xs e in
  (r = e /\ (e <> 0 \/ forall b, b ∈ xs -> ~ candidate later cur b) \/
   exists a, a ∈ xs /\ candidate later cur a /\ alarm_time a = r) /\
  (forall b, b ∈ xs -> candidate later cur b -> r <= alarm_time b) /\ (e <> 0 -> r <= e) /\ 0 <= r.
Proof.
  induction xs as [|a xs IH]; intros e Hd He; cbv zeta; cbn [fold_left].
  - split; [left; split; [reflexivity|right; intros b Hb; inversion Hb]|]. split; [intros b Hb; inversion Hb|lia].
  - inversion Hd as [|? ? Ha Hxs]; subst.
    assert (He' : 0 <= earliest_of later cur e a).
    { destruct (earliest_of_spec later cur e a Ha He) as [[[Hf _] ->]|[_ ->]]; [|lia]. specialize (Ha Hf). destruct (e =? 0); lia. }
    destruct (IH (earliest_of later cur e a) Hxs He') as (H1 & H2 & H3 & H4).
    destruct (earliest_of_spec later cur e a Ha He) as [[Hc E]|[Hc E]]; rewrite E in *.
    + pose proof (Ha (proj1 Hc)) as Hda.
      assert (Hr : fold_left (earliest_of later cur) xs (if e =? 0 then alarm_time a else Z.min (alarm_time a) e) <= alarm_time a)
        by (destruct (Z.eqb_spec e 0); lia).
      split; [|split; [intros b Hb Hcb; inversion Hb; subst; auto; lia|]].
      * destruct H1 as [[-> _]|(b & Hb & Hcb & Eb)]; [|right; exists b; split; [right; exact Hb|auto]].
        destruct (Z.eqb_spec e 0); [right; exists a; split; [left|split; [exact Hc|reflexivity]]|].
        destruct (Z.min_spec (alarm_time a) e) as [[_ ->]|[_ ->]]; [right; exists a; split; [left|split; [exact Hc|reflexivity]]|].
        left. split; [reflexivity|left; lia].
      * split; [|exact H4]. intros. destruct (Z.eqb_spec e 0); lia.
    + split; [|split; [intros b Hb Hcb; inversion Hb; subst; [contradiction|auto]|split; assumption]].
      destruct H1 as [[-> Hn]|(b & Hb & Hcb & Eb)]; [|right; exists b; split; [right; exact Hb|auto]].
      left. split; [reflexivity|]. destruct Hn as [|Hn]; [left; assumption|]. right.
      intros b Hb. inversion Hb; subst; auto.
Qed.

(** Both passes together find the alarm with the smallest delay. *)
Definition earliest_alarm (cur : Z) (l sn : list alarm_info) : Z :=
  let e := find_earliest true cur 0 l sn in if e =? 0 then find_earliest false cur 0 l sn else e.

Lemma earliest_alarm_spec cur l sn : length l = length sn -> Forall in_day (l ++ sn) -> 0 <= cur ->
  let e := earliest_alarm cur l sn in
  (e = 0 /\ (forall b, b ∈ l \/ b ∈ sn -> ~ free b)) \/
  (exists a, (a ∈ l \/ a ∈ sn) /\ free a /\ alarm_time a = e /\ 0 < e < 86400 /\
     forall b, b ∈ l \/ b ∈ sn -> free b -> delay cur e <= delay cur (alarm_time b)).
Proof.
  intros Hl Hd Hc. cbv zeta. unfold earliest_alarm. rewrite !find_earliest_fold.
  assert (Hi : forall b, b ∈ interleave l sn <-> b ∈ l \/ b ∈ sn) by (intros b; apply elem_of_interleave, Hl).
  assert (Hdb : forall b, b ∈ l \/ b ∈ sn -> in_day b).
  { intros b Hb. rewrite Forall_forall in Hd. apply Hd, elem_of_app, Hb. }
  assert (Hf : Forall in_day (interleave l sn)).
  { apply Forall_forall. intros b Hb. apply Hdb, Hi, Hb. }
  destruct (fold_earliest true cur _ 0 Hf ltac:(lia)) as (H1 & H2 & _ & H4).
  set (e := fold_left (earliest_of true cur) (interleave l sn) 0) in *.
  destruct (Z.eqb_spec e 0) as [E|E].
  - destruct H1 as [[_ [?|Hn]]|(a & Ha & Hca & Ea)]; [lia| |apply Hi, Hdb in Ha; specialize (Ha (proj1 Hca)); lia].
    destruct (fold_earliest false cur _ 0 Hf ltac:(lia)) as (K1 & K2 & _ & K4).
    set (r := fold_left (earliest_of false cur) (interleave l sn) 0) in *.
    destruct K1 as [[-> [?|Kn]]|(a & Ha & Hca & Ea)]; [lia| |].
    + left. split; [reflexivity|]. intros b Hb Hfb. destruct (Z.lt_ge_cases cur (alarm_time b)).
      * apply (Hn b); [apply Hi, Hb|split; assumption].
      * apply (Kn b); [apply Hi, Hb|split; assumption].
    + right. exists a. apply Hi in Ha. pose proof (Hdb a Ha (proj1 Hca)) as Hda. destruct Hca as [Hfa Hle].
      split; [exact Ha|]. split; [exact Hfa|]. split; [exact Ea|]. split; [lia|]. intros b Hb Hfb.
      assert (Hbc : alarm_time b <= cur).
      { destruct (Z.lt_ge_cases cur (alarm_time b)); [|lia]. exfalso. apply (Hn b); [apply Hi, Hb|split; assumption]. }
      pose proof (K2 b ltac:(apply Hi, Hb) ltac:(split; assumption)). unfold delay. reflect_bools; lia.
  - destruct H1 as [[? _]|(a & Ha & Hca & Ea)]; [lia|]. apply Hi in Ha.
    pose proof (Hdb a Ha (proj1 Hca)) as Hda. destruct Hca as [Hfa Hlt].
    right. exists a. split; [exact Ha|]. split; [exact Hfa|]. split; [exact Ea|]. split; [lia|]. intros b Hb Hfb.
    pose proof (Hdb b Hb Hfb) as Hdb'.
    destruct (Z.lt_ge_cases cur (alarm_time b)); [|unfold delay; reflect_bools; lia].
    pose proof (H2 b ltac:(apply Hi, Hb) ltac:(split; assumption)). unfold delay. reflect_bools; lia.
Qed.

(** ** Dates of the next alarm *)

Lemma leap_since_1900 y : 101 <= y <= 199 -> is_leap_year y = is_leap_year (y + 1900).
Proof. intros H. unfold is_leap_year. reflect_bools; cbn; try reflexivity; exfalso; Z.div_mod_to_equations; lia. Qed.

Lemma month_len_since_1900 y m : 101 <= y <= 199 -> month_len y m = month_len (y + 1900) m.
Proof. intros H. unfold month_len. rewrite (leap_since_1900 y H). reflexivity. Qed.

(** mktime takes the thirteenth month of a year for the first of the next. *)
Lemma mktime_month_13 y d : 1970 <= y <= 2200 ->
  mktime y 13 d = mktime (y + 1) 1 d.
Proof.
  intros Hy. unfold mktime. change (s32 (u32 (13 - 2)) <=? 0) with false. change (s32 (u32 (1 - 2)) <=? 0) with true.
  change (u32 (13 - 2)) with 11. change (u32 (u32 (1 - 2) + 12)) with 11. cbv iota zeta.
  replace (u32 (y + 1 - 1)) with y by (rewrite u32_small; lia). reflexivity.
Qed.

(** A date of the next day at the same time of day is a day later. *)
Lemma next_date_time tm tm' : valid_tm tm -> tm_year tm <= 204 -> date_of tm' = next_day (date_of tm) ->
  tm_hour tm' = tm_hour tm -> tm_min tm' = tm_min tm -> tm_sec tm' = tm_sec tm -> tm_ms tm' = tm_ms tm ->
  rtc_tm_to_time tm' = rtc_tm_to_time tm + 86400.
Proof.
  intros Hv Hy Ed E1 E2 E3 E4. pose proof Hv as (Hd & Hh & Hmi & Hs & Hms).
  pose proof (day_number_bound _ Hd ltac:(cbn [date_of year]; lia)) as Hb.
  pose proof (next_day_number _ Hd) as Hn. pose proof (next_day_valid _ Hd) as Hnv.
  rewrite (tm_to_time_of tm Hv) by (unfold time_of; lia).
  rewrite tm_to_time_of; rewrite ?Ed, ?E1, ?E2, ?E3; unfold time_of; rewrite ?Hn; [lia| |lia].
  unfold valid_tm. rewrite Ed, E1, E2, E3, E4. auto.
Qed.

Lemma next_day_time tm tm' : valid_tm tm -> 101 <= tm_year tm <= 199 -> tm_add_one_day tm = Some tm' ->
  rtc_tm_to_time tm' = rtc_tm_to_time tm + 86400.
Proof.
  intros Hv Hy E. pose proof Hv as ((Hyy & Hm & Hdd) & Hh & Hmi & Hs & Hms).
  cbn [date_of year month day] in *. pose proof (month_len_pos (tm_year tm + 1900) (tm_mon tm) Hm) as Hlen.
  unfold tm_add_one_day in E. rewrite rtc_month_days_len, month_len_since_1900 in E by lia. cbn [mbind option_bind] in E.
  injection E as <-. rewrite (u8_small (tm_mday tm + 1)), (u8_small (tm_mon tm + 1)) by lia.
  assert (Hnext : next_day (date_of tm) =
    if tm_mday tm <? month_len (tm_year tm + 1900) (tm_mon tm) then mk_date (tm_year tm + 1900) (tm_mon tm) (tm_mday tm + 1)
    else if tm_mon tm <? 11 then mk_date (tm_year tm + 1900) (tm_mon tm + 1) 1 else mk_date (tm_year tm + 1900 + 1) 0 1)
    by reflexivity.
  destruct (Z.ltb_spec (tm_mday tm) (month_len (tm_year tm + 1900) (tm_mon tm)));
    destruct (Z.ltb_spec (month_len (tm_year tm + 1900) (tm_mon tm)) (tm_mday tm + 1)); try lia.
  - apply next_date_time; try reflexivity; try assumption; try lia. rewrite Hnext. reflexivity.
  - destruct (Z.leb_spec 13 (tm_mon tm + 1)); [lia|]. destruct (Z.ltb_spec (tm_mon tm) 11).
    + apply next_date_time; try reflexivity; try assumption; try lia. rewrite Hnext. reflexivity.
    + unfold rtc_tm_to_time at 1. cbn [tm_year tm_mon tm_mday tm_hour tm_min tm_sec].
      replace (tm_mon tm + 1 + 1) with 13 by lia. rewrite mktime_month_13 by lia.
      replace (tm_year tm + 1900 + 1) with (tm_year tm + 1 + 1900) in * by lia.
      apply (next_date_time tm (mk_rtc_time (tm_sec tm) (tm_min tm) (tm_hour tm) 1 0 (tm_wday tm) (tm_year tm + 1) (tm_ms tm)));
        try reflexivity; try assumption; try lia. rewrite Hnext. reflexivity.
Qed.

(** The clock, the alarm and the store work, and the date is of this century. *)
Record ready (dv : devices) (tm : rtc_time) : Prop := mk_ready {
  ready_rtc : rtc_dev dv = true;
  ready_alarm : alarm8hz_dev dv = true;
  ready_now : rtc_now dv = (0, tm);
  ready_valid : valid_tm tm;
  ready_year : 101 <= tm_year tm <= 199;
  ready_pmu : forall ms, pmu_enable dv ms = 0;
  ready_store : 0 <= property_set_ret dv
}.

Lemma tm_to_time_range tm : valid_tm tm ->
  tm_to_time tm = tm_hour tm * 3600 + tm_min tm * 60 + tm_sec tm /\ 0 <= tm_to_time tm < 86400.
Proof. intros (_ & Hh & Hmi & Hs & _). unfold tm_to_time. rewrite u32_small by lia. lia. Qed.

Lemma time_to_tm_today tm e : valid_tm tm -> tm_year tm <= 199 -> 0 <= e < 86400 ->
  valid_tm (time_to_tm tm e) /\ rtc_tm_to_time (time_to_tm tm e) = rtc_tm_to_time tm - tm_to_time tm + e.
Proof.
  intros Hv Hy He. pose proof Hv as (Hd & Hh & Hmi & Hs & Hms).
  pose proof (day_number_bound _ Hd ltac:(cbn [date_of year]; lia)) as Hb.
  assert (Eh : u8 (e / 3600) = e / 3600) by (apply u8_small; Z.div_mod_to_equations; lia).
  assert (Em : u8 (e / 60 - e / 3600 * 60) = e / 60 - e / 3600 * 60) by (apply u8_small; Z.div_mod_to_equations; lia).
  assert (Es : u8 (e mod 60) = e mod 60) by (apply u8_small; Z.div_mod_to_equations; lia).
  assert (Hv' : valid_tm (time_to_tm tm e)).
  { unfold valid_tm, time_to_tm. cbv zeta. rewrite Eh, Em, Es. cbn [tm_hour tm_min tm_sec tm_ms].
    split; [exact Hd|]. Z.div_mod_to_equations. lia. }
  split; [exact Hv'|]. rewrite (proj1 (tm_to_time_range tm Hv)).
  assert (Hsum : e / 3600 * 3600 + (e / 60 - e / 3600 * 60) * 60 + e mod 60 = e) by (Z.div_mod_to_equations; lia).
  assert (Hr : 0 <= e / 3600 < 24 /\ 0 <= e / 60 - e / 3600 * 60 < 60 /\ 0 <= e mod 60 < 60) by (Z.div_mod_to_equations; lia).
  rewrite (tm_to_time_of tm Hv), (tm_to_time_of _ Hv');
    unfold time_of, time_to_tm; cbv zeta; rewrite ?Eh, ?Em, ?Es; cbn [tm_hour tm_min tm_sec]; unfold date_of in *;
    cbn [tm_year tm_mon tm_mday]; lia.
Qed.

Lemma set_alarm8hz_at dv now tm d s : ready dv now -> rtc_tm_to_time tm = rtc_tm_to_time now + d -> 0 <= d <= 86400 ->
  alarm_set_alarm8hz dv tm s = (0, set_pmu (Some (1000 * d)) true s).
Proof.
  intros Hr E Hd. unfold alarm_set_alarm8hz. rewrite (ready_alarm _ _ Hr), (ready_now _ _ Hr). cbn [negb Z.eqb]. rewrite E.
  replace (rtc_tm_to_time now + d - rtc_tm_to_time now) with d by lia. rewrite (u32_small d), (u32_small (d * 1000)) by lia.
  destruct (Z.ltb_spec (rtc_tm_to_time now + d) (rtc_tm_to_time now)); [lia|]. destruct (Z.ltb_spec 4294967 d); [lia|].
  cbn [orb]. unfold alarm8hz_acts_set_alarm. rewrite (ready_pmu _ _ Hr). cbn [negb Z.eqb snd]. rewrite (Z.mul_comm 1000). reflexivity.
Qed.

(** A working store keeps what the manager has. *)
Lemma save_ready dv tm s : ready dv tm -> property_set dv s = (property_set_ret dv,
  mk_sys (al_manager s) (get_alarm_times s) (call_back s) (pmu s) (alarm_cb s) (Some (al_manager s))).
Proof.
  intros Hr. pose proof (ready_store _ _ Hr). unfold property_set.
  destruct (Z.ltb_spec (property_set_ret dv) 0); [lia|reflexivity].
Qed.

(** Arming the alarm for the next [e] o'clock. *)
Lemma arm_next dv tm e s : ready dv tm -> 0 < e < 86400 ->
  exists tm', (if e <=? tm_to_time tm then tm_add_one_day (time_to_tm tm e) else Some (time_to_tm tm e)) = Some tm' /\
    alarm_set_alarm8hz dv tm' s = (0, set_pmu (Some (1000 * delay (tm_to_time tm) e)) true s).
Proof.
  intros Hr He. pose proof Hr as [_ _ _ Hv Hy _ _]. pose proof (tm_to_time_range tm Hv) as [_ Hc].
  destruct (time_to_tm_today tm e Hv ltac:(lia) ltac:(lia)) as [Hv' Ht].
  unfold delay. destruct (Z.leb_spec e (tm_to_time tm)); destruct (Z.ltb_spec (tm_to_time tm) e); try lia.
  - assert (exists tm', tm_add_one_day (time_to_tm tm e) = Some tm') as [tm' E].
    { destruct Hv' as ((_ & Hm & _) & _). unfold tm_add_one_day. rewrite rtc_month_days_len by exact Hm. eexists. reflexivity. }
    exists tm'. split; [exact E|]. pose proof (next_day_time _ _ Hv' ltac:(exact Hy) E) as Hn.
    apply (set_alarm8hz_at dv tm); [exact Hr|lia|lia].
  - exists (time_to_tm tm e). split; [reflexivity|]. apply (set_alarm8hz_at dv tm); [exact Hr|lia|lia].
Qed.

(** ** The marks *)

Fixpoint count_armed (l : list alarm_info) : nat :=
  match l with
  | [] => 0%nat
  | a :: l' => ((if is_armed a then 1 else 0) + count_armed l')%nat
  end.

Lemma count_armed_0 l a : count_armed l = 0%nat -> a ∈ l -> is_armed a = false.
Proof.
  induction l as [|b l IH]; intros Hc Ha; [inversion Ha|]. cbn [count_armed] in Hc.
  inversion Ha; subst; [destruct (is_armed b); [lia|reflexivity]|apply IH; [lia|assumption]].
Qed.

Lemma is_armed_with v a : is_armed (with_state v a) = (v =? ALARM_STATE_OK).
Proof. reflexivity. Qed.

(** Freeing the programmed alarm leaves none, and no time is changed. *)
Lemma free_current_ok cur l : forall sn x y, length l = length sn -> (count_armed l + count_armed sn <= 1)%nat ->
  free_current cur l sn = (x, y) ->
  count_armed x = 0%nat /\ count_armed y = 0%nat /\ alarm_time <$> x = alarm_time <$> l /\ alarm_time <$> y = alarm_time <$> sn.
Proof.
  induction l as [|a l IH]; intros [|b sn] x y Hl Hc E; try discriminate; cbn [free_current count_armed] in *;
    [injection E as <- <-; auto|].
  fold (is_armed a) (is_armed b) in E. injection Hl as Hl.
  destruct (is_armed a) eqn:Ha; [|destruct (is_armed b) eqn:Hb].
  - injection E as <- <-. cbn [count_armed]. rewrite is_armed_with. cbn. destruct (is_armed b); repeat split; lia.
  - injection E as <- <-. cbn [count_armed]. rewrite is_armed_with, Ha.
    destruct ((cur <? u32 (alarm_time b)) && (u32 (alarm_time b - cur) <? 36000)); cbn; repeat split; lia.
  - destruct (free_current cur l sn) as [x' y'] eqn:E'. injection E as <- <-.
    destruct (IH sn x' y' Hl ltac:(lia) E') as (H1 & H2 & H3 & H4). cbn [count_armed]. rewrite Ha, Hb, H1, H2.
    cbn. rewrite H3, H4. auto.
Qed.

(** One entry [a] of one of two arrays becomes [a']. *)
Definition replaced (a a' : alarm_info) (l sn x y : list alarm_info) : Prop :=
  (exists i, l !! i = Some a /\ x = <[i := a']> l /\ y = sn) \/ (exists i, sn !! i = Some a /\ y = <[i := a']> sn /\ x = l).

Lemma replaced_cons a a' b c l sn x y : replaced a a' l sn x y -> replaced a a' (b :: l) (c :: sn) (b :: x) (c :: y).
Proof. intros [(i & H1 & -> & ->)|(i & H1 & -> & ->)]; [left|right]; exists (S i); auto. Qed.

Lemma count_armed_insert l a a' i : l !! i = Some a ->
  (count_armed (<[i := a']> l) + (if is_armed a then 1 else 0) = count_armed l + (if is_armed a' then 1 else 0))%nat.
Proof.
  revert i. induction l as [|b l IH]; intros [|i] E; try discriminate.
  - injection E as ->. change (<[0%nat := a']> (a :: l)) with (a' :: l). cbn [count_armed]. lia.
  - change (<[S i := a']> (b :: l)) with (b :: <[i := a']> l). cbn [count_armed]. pose proof (IH i E). lia.
Qed.

Lemma replaced_count a a' l sn x y : replaced a a' l sn x y ->
  (count_armed x + count_armed y + (if is_armed a then 1 else 0) =
   count_armed l + count_armed sn + (if is_armed a' then 1 else 0))%nat.
Proof.
  intros [(i & H1 & -> & ->)|(i & H1 & -> & ->)]; pose proof (count_armed_insert _ a a' i H1); lia.
Qed.

Lemma mark_alarm_ok t l : forall sn, length l = length sn ->
  (exists a, (a ∈ l \/ a ∈ sn) /\ free a /\ alarm_time a = t) ->
  exists a x y, mark_alarm t l sn = (x, y) /\ free a /\ alarm_time a = t /\ replaced a (with_state ALARM_STATE_OK a) l sn x y.
Proof.
  induction l as [|a l IH]; intros [|b sn] Hl (c & Hc & Hf & Ht); try discriminate;
    [destruct Hc as [Hc|Hc]; inversion Hc|]. injection Hl as Hl. cbn [mark_alarm]. unfold free in Hf.
  destruct ((state a =? ALARM_STATE_FREE) && (alarm_time a =? t)) eqn:Ea; [|destruct ((state b =? ALARM_STATE_FREE) && (alarm_time b =? t)) eqn:Eb].
  - apply andb_true_iff in Ea as [E1%Z.eqb_eq E2%Z.eqb_eq]. exists a, (with_state ALARM_STATE_OK a :: l), (b :: sn).
    split; [reflexivity|]. split; [exact E1|]. split; [exact E2|]. left. exists 0%nat. auto.
  - apply andb_true_iff in Eb as [E1%Z.eqb_eq E2%Z.eqb_eq]. exists b, (a :: l), (with_state ALARM_STATE_OK b :: sn).
    split; [reflexivity|]. split; [exact E1|]. split; [exact E2|]. right. exists 0%nat. auto.
  - destruct (IH sn Hl) as (d & x & y & E & H1 & H2 & H3).
    { exists c. split; [|auto]. destruct Hc as [Hc|Hc]; inversion Hc; subst; auto; exfalso.
      - rewrite Hf, !Z.eqb_refl in Ea. discriminate.
      - rewrite Hf, !Z.eqb_refl in Eb. discriminate. }
    exists d, (a :: x), (b :: y). rewrite E. auto using replaced_cons.
Qed.

(** ** The manager *)

(** Three alarms and three snoozes, at most one of them programmed. *)
Definition wf (m : alarm_manager) : Prop :=
  length (alarm m) = MAX_ALARM_SUPPORT /\ length (sn_alarm m) = MAX_ALARM_SUPPORT /\
  (count_armed (alarm m) + count_armed (sn_alarm m) <= 1)%nat.

(** Every alarm in use is at a time of the day, and none at midnight. *)
Definition daytime (l : list alarm_info) : Prop := Forall (fun a => is_used a = true -> 0 < alarm_time a < 86400) l.

Lemma daytime_free l : daytime l -> Forall in_day l.
Proof. intros Hl. apply (Forall_impl _ _ _ Hl). intros a H Hf. apply H. unfold is_used. rewrite Hf. reflexivity. Qed.

Lemma free_current_daytime cur l : forall sn x y, free_current cur l sn = (x, y) -> daytime l -> daytime sn ->
  daytime x /\ daytime y.
Proof.
  induction l as [|a l IH]; intros [|b sn] x y E Hl Hsn; cbn [free_current] in E; try (injection E as <- <-; auto; fail).
  inversion Hl as [|? ? Ha Hl']; inversion Hsn as [|? ? Hb Hsn']; subst.
  destruct (Z.eqb_spec (state a) ALARM_STATE_OK) as [Ea|Ea]; [|destruct (Z.eqb_spec (state b) ALARM_STATE_OK) as [Eb|Eb]].
  - injection E as <- <-. split; [|exact Hsn]. constructor; [|exact Hl']. intros _. apply Ha. unfold is_used. rewrite Ea. reflexivity.
  - injection E as <- <-. split; [exact Hl|]. constructor; [|exact Hsn']. intros _. apply Hb. unfold is_used. rewrite Eb. reflexivity.
  - destruct (free_current cur l sn) as [x' y'] eqn:E'. injection E as <- <-.
    destruct (IH sn x' y' E' Hl' Hsn'). split; constructor; assumption.
Qed.

Lemma lengths_of (x l : list alarm_info) : alarm_time <$> x = alarm_time <$> l -> length x = length l.
Proof. intros H. apply (f_equal length) in H. rewrite !length_fmap in H. exact H. Qed.

Lemma find_step dv tm s l sn : ready dv tm -> wf (al_manager s) ->
  daytime (alarm (al_manager s)) -> daytime (sn_alarm (al_manager s)) ->
  free_current (tm_to_time tm) (alarm (al_manager s)) (sn_alarm (al_manager s)) = (l, sn) ->
  exists s', find_and_set_alarm dv s = Some (0, s') /\ saved s' = Some (al_manager s') /\
    ((forall b, b ∈ l \/ b ∈ sn -> ~ free b) /\ al_manager s' = mk_manager l sn /\ pmu s' = pmu s \/
     exists a, free a /\ replaced a (with_state ALARM_STATE_OK a) l sn (alarm (al_manager s')) (sn_alarm (al_manager s')) /\
       (forall b, b ∈ l \/ b ∈ sn -> free b -> delay (tm_to_time tm) (alarm_time a) <= delay (tm_to_time tm) (alarm_time b)) /\
       pmu s' = Some (1000 * delay (tm_to_time tm) (alarm_time a)) /\ alarm_cb s' = true).
Proof.
  intros Hr (Hl1 & Hl2 & Hc) Hd1 Hd2 Ef. pose proof Hr as [Hrtc _ Hnow Hv _ _ Hst].
  pose proof (tm_to_time_range tm Hv) as [_ Hcur].
  destruct (free_current_ok _ _ _ _ _ (eq_trans Hl1 (eq_sym Hl2)) Hc Ef) as (_ & _ & Ht1 & Ht2).
  destruct (free_current_daytime _ _ _ _ _ Ef Hd1 Hd2) as [Hx Hy].
  assert (Hlen : length l = length sn) by (rewrite (lengths_of _ _ Ht1), (lengths_of _ _ Ht2); congruence).
  pose proof (earliest_alarm_spec (tm_to_time tm) l sn Hlen
    ltac:(apply Forall_app; split; apply daytime_free; assumption) ltac:(lia)) as He. cbv zeta in He.
  unfold find_and_set_alarm. rewrite Hrtc, Hnow. cbn [negb Z.eqb]. rewrite Ef. cbv zeta.
  fold (earliest_alarm (tm_to_time tm) l sn). set (e := earliest_alarm (tm_to_time tm) l sn) in *.
  destruct He as [[-> Hnone]|(a & Ha & Hfa & Hta & Hrange & Hmin)].
  - cbn [negb Z.eqb mbind option_bind Z.ltb Z.compare]. rewrite (save_ready _ _ _ Hr).
    destruct (Z.ltb_spec (property_set_ret dv) 0); [lia|]. eexists. split; [reflexivity|]. split; [reflexivity|]. left. auto.
  - destruct (Z.eqb_spec e 0); [lia|]. cbn [negb]. rewrite (u32_small e) by lia.
    destruct (arm_next dv tm e (set_manager (mk_manager l sn) s) Hr Hrange) as (tm' & -> & Harm).
    destruct (mark_alarm_ok e l sn Hlen ltac:(exists a; auto)) as (c & x & y & Em & Hfc & Htc & Hrep).
    cbn [mbind option_bind]. rewrite Harm. cbn [negb Z.eqb]. rewrite Em. cbn [mbind option_bind Z.ltb Z.compare].
    rewrite (save_ready _ _ _ Hr). destruct (Z.ltb_spec (property_set_ret dv) 0); [lia|]. eexists. split; [reflexivity|].
    split; [reflexivity|]. right. exists c. rewrite Htc. auto.
Qed.

(** ** At most one alarm is programmed, whatever the devices answer *)

Definition armed_total (m : alarm_manager) : nat := (count_armed (alarm m) + count_armed (sn_alarm m))%nat.
Definition same_shape (m m' : alarm_manager) : Prop :=
  length (alarm m') = length (alarm m) /\ length (sn_alarm m') = length (sn_alarm m).

Lemma mark_alarm_count t l : forall sn x y, mark_alarm t l sn = (x, y) ->
  length x = length l /\ length y = length sn /\ (count_armed x + count_armed y <= count_armed l + count_armed sn + 1)%nat.
Proof.
  induction l as [|a l IH]; intros [|b sn] x y E; cbn [mark_alarm] in E; try (injection E as <- <-; repeat split; lia).
  destruct ((state a =? ALARM_STATE_FREE) && (alarm_time a =? t)); [|destruct ((state b =? ALARM_STATE_FREE) && (alarm_time b =? t))].
  - injection E as <- <-. cbn [count_armed length]. rewrite is_armed_with. cbn. destruct (is_armed a); lia.
  - injection E as <- <-. cbn [count_armed length]. rewrite is_armed_with. cbn. destruct (is_armed b); lia.
  - destruct (mark_alarm t l sn) as [x' y'] eqn:E'. injection E as <- <-. specialize (IH sn x' y' E').
    cbn [count_armed length]. lia.
Qed.

(** Replacing an entry that is not programmed. *)
Lemma update_first_count p f l : (forall a, p a = true -> is_armed a = false) ->
  length (update_first p f l) = length l /\
  (count_armed (update_first p f l) <= count_armed l + (if existsb (fun a => p a && is_armed (f a)) l then 1 else 0))%nat.
Proof.
  intros Hp. induction l as [|a l [IH1 IH2]]; [split; reflexivity|]. cbn [update_first existsb].
  destruct (p a) eqn:Ep; cbn [length count_armed andb orb].
  - rewrite (Hp a Ep). destruct (is_armed (f a)); cbn [orb]; lia.
  - lia.
Qed.

Lemma update_first_disarms p v l : (v =? ALARM_STATE_OK) = false ->
  length (update_first p (with_state v) l) = length l /\ (count_armed (update_first p (with_state v) l) <= count_armed l)%nat.
Proof.
  intros Hv. induction l as [|a l [IH1 IH2]]; [split; reflexivity|]. cbn [update_first].
  destruct (p a); cbn [length count_armed]; rewrite ?is_armed_with, ?Hv; lia.
Qed.

Lemma alarm_set_state_count sn t v m :
  same_shape m (alarm_set_state sn t v m) /\
  (armed_total (alarm_set_state sn t v m) <= armed_total m + (if (u8 v =? ALARM_STATE_OK)%Z then 1 else 0))%nat.
Proof.
  assert (Hp : forall a, negb (is_used a) = true -> is_armed a = false).
  { intros a. unfold is_used, is_armed, ALARM_STATE_OFF, ALARM_STATE_OK.
    destruct (Z.ltb_spec 1 (state a)); [discriminate|]. destruct (Z.eqb_spec (state a) 3); [lia|reflexivity]. }
  unfold alarm_set_state, same_shape, armed_total.
  pose proof (update_first_count (fun a => negb (is_used a)) (fun _ => mk_info (s32 t) (u8 v)) (alarm m) Hp) as [L1 C1].
  pose proof (update_first_count (fun a => negb (is_used a)) (fun _ => mk_info (s32 t) (u8 v)) (sn_alarm m) Hp) as [L2 C2].
  assert (Hc : forall l, ((if existsb (fun a => negb (is_used a) && is_armed (mk_info (s32 t) (u8 v))) l then 1 else 0)
                          <= (if (u8 v =? ALARM_STATE_OK)%Z then 1 else 0))%nat).
  { intros l. unfold is_armed. cbn [state]. destruct (u8 v =? ALARM_STATE_OK); [destruct (existsb _ l); lia|].
    induction l as [|b l IH]; cbn [existsb]; [lia|]. rewrite andb_false_r. exact IH. }
  destruct sn; cbn [alarm sn_alarm].
  - split; [split; [reflexivity|exact L2]|]. specialize (Hc (sn_alarm m)). lia.
  - split; [split; [exact L1|reflexivity]|]. specialize (Hc (alarm m)). lia.
Qed.

Lemma displace_count t cur l : forall r x, displace t cur l = (r, x) ->
  length x = length l /\ (r <> 0 -> (count_armed x + 1 = count_armed l)%nat) /\ (count_armed x <= count_armed l)%nat.
Proof.
  induction l as [|a l IH]; intros r x E; cbn [displace] in E; [injection E as <- <-; lia|].
  destruct (is_armed a) eqn:Ha; [destruct (displaces t cur a)|].
  - injection E as <- <-. cbn [count_armed length]. rewrite Ha, is_armed_with. cbn. lia.
  - injection E as <- <-. lia.
  - destruct (displace t cur l) as [r' x'] eqn:E'. injection E as <- <-. specialize (IH r' x' eq_refl).
    cbn [count_armed length]. rewrite Ha. lia.
Qed.

Lemma armed_kind_none l : forall sn, length l = length sn -> armed_kind l sn = None ->
  (count_armed l + count_armed sn = 0)%nat.
Proof.
  induction l as [|a l IH]; intros [|b sn] Hl E; try discriminate; [reflexivity|]. injection Hl as Hl.
  cbn [armed_kind count_armed] in *. destruct (is_armed a); [discriminate|]. destruct (is_armed b); [discriminate|].
  specialize (IH sn Hl E). lia.
Qed.

Lemma is_need_set_count dv t m r m' : wf m -> is_need_set_alarm dv t m = (r, m') ->
  same_shape m m' /\ (armed_total m' <= 1)%nat /\ (r <> 0 -> armed_total m' = 0%nat).
Proof.
  intros (H1 & H2 & Hc) E. unfold is_need_set_alarm in E.
  destruct (armed_kind (alarm m) (sn_alarm m)) as [k|] eqn:Ek.
  - destruct (rtc_now dv) as [ret tm]. destruct (negb (ret =? 0)).
    { injection E as <- <-. split; [split; reflexivity|]. unfold armed_total. split; [exact Hc|lia]. }
    destruct k.
    + destruct (displace t (tm_to_time tm) (sn_alarm m)) as [r' x] eqn:Ed. injection E as <- <-.
      destruct (displace_count _ _ _ _ _ Ed) as (L & C1 & C2). unfold same_shape, armed_total. cbn [alarm sn_alarm].
      split; [split; [reflexivity|exact L]|]. lia.
    + destruct (displace t (tm_to_time tm) (alarm m)) as [r' x] eqn:Ed. injection E as <- <-.
      destruct (displace_count _ _ _ _ _ Ed) as (L & C1 & C2). unfold same_shape, armed_total. cbn [alarm sn_alarm].
      split; [split; [exact L|reflexivity]|]. lia.
  - injection E as <- <-. pose proof (armed_kind_none _ _ (eq_trans H1 (eq_sym H2)) Ek).
    split; [split; reflexivity|]. unfold armed_total. lia.
Qed.

(** The operations of the manager, each with the devices it meets. *)
Inductive op : Type :=
| Init
| Find
| SetAlarm (tm : rtc_time) (is_snooze : bool)
| Delete (tm : rtc_time)
| Update (junk : rtc_time) (time_sec : Z) (index : nat) (alarm_state : Z)
| GetAlarm (tm : rtc_time) (is_on : bool)
| Register (cb : option nat).

Definition step (dv : devices) (o : op) (s : sys) : option sys :=
  match o with
  | Init => Some (snd (alarm_manager_init dv s))
  | Find => snd <$> find_and_set_alarm dv s
  | SetAlarm tm sn => snd <$> alarm_manager_set_alarm dv tm sn s
  | Delete tm => snd <$> alarm_manager_delete_alarm dv tm s
  | Update junk t i st => snd <$> alarm_manager_update_alarm dv junk t i st s
  | GetAlarm tm on => Some (snd (alarm_manager_get_alarm tm on s))
  | Register cb => Some (snd (system_registry_alarm_callback cb s))
  end.

Inductive reachable : sys -> Prop :=
| reach_boot n cb p c : reachable (mk_sys (mk_manager (replicate 3 no_alarm) (replicate 3 no_alarm)) n cb p c None)
| reach_step s dv o s' : reachable s -> step dv o s = Some s' -> reachable s'.

Definition inv (s : sys) : Prop := wf (al_manager s) /\ (forall m, saved s = Some m -> wf m).

Lemma inv_manager s m : inv s -> wf m -> inv (set_manager m s).
Proof. intros [_ Hs] Hm. split; [exact Hm|exact Hs]. Qed.

Lemma inv_pmu s p c : inv s -> inv (set_pmu p c s).
Proof. intros H. exact H. Qed.

Lemma inv_save dv s : inv s -> inv (snd (property_set dv s)).
Proof.
  intros [Hm Hs]. unfold property_set. destruct (property_set_ret dv <? 0); [split; assumption|].
  split; [exact Hm|]. cbn [saved snd]. intros m [= <-]. exact Hm.
Qed.

Lemma inv_save_result dv s : inv s -> inv (snd (save_result dv s)).
Proof.
  intros H. unfold save_result. pose proof (inv_save dv s H) as Hs. destruct (property_set dv s) as [r s']. exact Hs.
Qed.

Lemma inv_alarm8hz dv c b s : inv s -> inv (snd (alarm8hz_acts_set_alarm dv c b s)).
Proof.
  intros H. unfold alarm8hz_acts_set_alarm. destruct b; [|exact H]. destruct c as [ms|]; [|exact H].
  destruct (negb (pmu_enable dv ms =? 0)); exact H.
Qed.

Lemma inv_set_alarm8hz dv tm s : inv s -> inv (snd (alarm_set_alarm8hz dv tm s)).
Proof.
  intros H. unfold alarm_set_alarm8hz. destruct (negb (alarm8hz_dev dv)); [exact H|].
  destruct (rtc_now dv) as [r cur]. destruct (negb (r =? 0)); [exact H|].
  destruct ((_ <? _) || (_ <? _)); [exact H|]. cbn [snd]. apply inv_alarm8hz, H.
Qed.

Lemma manager_set_alarm8hz dv tm s : al_manager (snd (alarm_set_alarm8hz dv tm s)) = al_manager s.
Proof.
  unfold alarm_set_alarm8hz. destruct (negb (alarm8hz_dev dv)); [reflexivity|].
  destruct (rtc_now dv) as [r cur]. destruct (negb (r =? 0)); [reflexivity|].
  destruct ((_ <? _) || (_ <? _)); [reflexivity|]. cbn [snd]. unfold alarm8hz_acts_set_alarm.
  destruct (negb (pmu_enable dv _ =? 0)); reflexivity.
Qed.

Lemma wf_shape m m' : wf m -> same_shape m m' -> (armed_total m' <= 1)%nat -> wf m'.
Proof. intros (H1 & H2 & _) (S1 & S2) Hc. split; [congruence|]. split; [congruence|exact Hc]. Qed.

Lemma find_inv dv s r s' : inv s -> find_and_set_alarm dv s = Some (r, s') -> inv s'.
Proof.
  intros Hi E. pose proof Hi as [(H1 & H2 & Hc) _]. unfold find_and_set_alarm in E.
  destruct (negb (rtc_dev dv)); [injection E as _ <-; exact Hi|]. destruct (rtc_now dv) as [ret tm].
  destruct (negb (ret =? 0)); [injection E as _ <-; exact Hi|].
  destruct (free_current (tm_to_time tm) (alarm (al_manager s)) (sn_alarm (al_manager s))) as [l sn] eqn:Ef.
  destruct (free_current_ok _ _ _ _ _ (eq_trans H1 (eq_sym H2)) Hc Ef) as (C1 & C2 & T1 & T2).
  apply lengths_of in T1, T2.
  assert (Hw : wf (mk_manager l sn)) by (split; [|split]; cbn [alarm sn_alarm]; [congruence|congruence|lia]).
  cbv zeta in E. apply bind_Some in E as ([ret2 s2] & E1 & E2).
  assert (Hs2 : inv s2).
  { destruct (negb _); [|injection E1 as _ <-; apply inv_manager; assumption].
    apply bind_Some in E1 as (tm' & _ & E1). set (e := if _ =? 0 then _ else _) in E1.
    pose proof (inv_set_alarm8hz dv tm' _ (inv_manager s _ Hi Hw)) as Ha.
    destruct (alarm_set_alarm8hz dv tm' _) as [r3 s3]. cbn [snd] in Ha.
    destruct (negb (r3 =? 0)); [injection E1 as _ <-; exact Ha|].
    destruct (mark_alarm e l sn) as [x y] eqn:Em. injection E1 as _ <-. apply inv_manager; [exact Ha|].
    destruct (mark_alarm_count _ _ _ _ _ Em) as (L1 & L2 & Cm).
    split; [|split]; cbn [alarm sn_alarm]; [congruence|congruence|lia]. }
  destruct (ret2 <? 0); [injection E2 as _ <-; exact Hs2|].
  pose proof (inv_save dv s2 Hs2) as Hv. destruct (property_set dv s2) as [r4 s4]. injection E2 as _ <-. exact Hv.
Qed.

Lemma add_inv dv tm sn s r s' : inv s -> system_add_alarm dv tm sn s = Some (r, s') -> inv s'.
Proof.
  intros Hi E. unfold system_add_alarm in E. apply bind_Some in E as (bad & _ & E).
  destruct (negb (bad =? 0)); [injection E as _ <-; exact Hi|].
  destruct (negb (is_alarm_full sn (al_manager s) =? 0)); [injection E as _ <-; exact Hi|]. cbv zeta in E.
  set (t := tm_to_time _) in E. set (tm0 := mk_rtc_time _ _ _ _ _ _ _ _) in *.
  destruct (negb (is_alarm_exist t (al_manager s) =? 0) && _); [injection E as _ <-; exact Hi|].
  set (s1 := if is_alarm_exist t (al_manager s) =? 0 then s else _) in E.
  assert (Hi1 : inv s1).
  { unfold s1. destruct (_ =? 0); [exact Hi|]. apply inv_manager; [exact Hi|]. destruct Hi as [(H1 & H2 & Hc) _].
    destruct (update_first_disarms (fun b => (u32 (alarm_time b) =? t) && is_used b) ALARM_STATE_NULL (sn_alarm (al_manager s)) eq_refl).
    split; [exact H1|]. unfold delect_sn_alarm. cbn [alarm sn_alarm]. split; [congruence|lia]. }
  clearbody s1. clear Hi. destruct (is_need_set_alarm dv t (al_manager s1)) as [need m] eqn:En.
  pose proof Hi1 as [Hw1 _]. destruct (is_need_set_count _ _ _ _ _ Hw1 En) as (Hsh & Hc1 & Hc0).
  pose proof (wf_shape _ _ Hw1 Hsh Hc1) as Hwm. pose proof (inv_manager s1 m Hi1 Hwm) as Him.
  apply bind_Some in E as ([ret2 s2] & E1 & E2). assert (Hs2 : inv s2).
  { destruct (Z.eqb_spec need 0) as [|Hne]; cbn [negb] in E1.
    - injection E1 as _ <-. apply inv_manager; [exact Him|]. cbn [al_manager set_manager].
      destruct (alarm_set_state_count sn t ALARM_STATE_FREE m) as [Hs C]. change (u8 ALARM_STATE_FREE =? ALARM_STATE_OK) with false in C; cbv iota in C.
      apply (wf_shape m); [exact Hwm|exact Hs|lia].
    - specialize (Hc0 Hne). pose proof (inv_set_alarm8hz dv tm0 _ Him) as Ha.
      pose proof (manager_set_alarm8hz dv tm0 (set_manager m s1)) as Em.
      destruct (alarm_set_alarm8hz dv tm0 (set_manager m s1)) as [r3 s3]. cbn [snd] in Ha, Em.
      destruct (negb (r3 =? 0)); injection E1 as _ <-; [exact Ha|]. apply inv_manager; [exact Ha|].
      rewrite Em. cbn [al_manager set_manager]. destruct (alarm_set_state_count sn t ALARM_STATE_OK m) as [Hs C]. change (u8 ALARM_STATE_OK =? ALARM_STATE_OK) with true in C; cbv iota in C.
      apply (wf_shape m); [exact Hwm|exact Hs|lia]. }
  destruct (negb (ret2 =? 0)); [injection E2 as _ <-; exact Hs2|].
  pose proof (inv_save dv s2 Hs2) as Hv. destruct (property_set dv s2) as [r4 s4]. injection E2 as _ <-. exact Hv.
Qed.

(** Changing an alarm by its number; a change that does not arm it. *)
Lemma alter_count f i l : (forall a, is_armed (f a) = true -> is_armed a = true) ->
  length (alter f i l) = length l /\ (count_armed (alter f i l) <= count_armed l)%nat.
Proof.
  intros Hf. split; [apply length_alter|]. revert i. induction l as [|a l IH]; intros [|i]; [reflexivity..| |].
  - change (alter f 0%nat (a :: l)) with (f a :: l). cbn [count_armed]. specialize (Hf a).
    destruct (is_armed (f a)); [rewrite Hf by reflexivity; lia|]. destruct (is_armed a); lia.
  - change (alter f (S i) (a :: l)) with (a :: alter f i l). cbn [count_armed]. specialize (IH i). lia.
Qed.

Lemma wf_alter f i m : (forall a, is_armed (f a) = true -> is_armed a = true) -> wf m ->
  wf (mk_manager (alter f i (alarm m)) (sn_alarm m)).
Proof.
  intros Hf (H1 & H2 & Hc). destruct (alter_count f i (alarm m) Hf) as [L C].
  split; [|split]; cbn [alarm sn_alarm]; [congruence|exact H2|lia].
Qed.

Lemma delete_inv dv tm s r s' : inv s -> alarm_manager_delete_alarm dv tm s = Some (r, s') -> inv s'.
Proof.
  intros Hi E. unfold alarm_manager_delete_alarm in E. destruct (negb (rtc_dev dv)); [injection E as _ <-; exact Hi|].
  apply bind_Some in E as ([r1 s1] & E & E1). injection E1 as _ <-. unfold system_delete_alarm in E.
  destruct (used_at _ 0 _) as [i|]; [|injection E as _ <-; exact Hi].
  assert (Hoff : forall s0, inv s0 -> inv (set_manager (set_alarm_state i ALARM_STATE_OFF (al_manager s0)) s0)).
  { intros s0 H0. apply inv_manager; [exact H0|]. apply wf_alter; [intros a; rewrite is_armed_with; discriminate|exact (proj1 H0)]. }
  destruct (default false _).
  - destruct (negb (alarm8hz_dev dv)); [injection E as _ <-; exact Hi|]. cbn [alarm8hz_acts_set_alarm] in E.
    apply bind_Some in E as ([r2 s2] & E1 & E2). apply find_inv in E1; [|apply Hoff, inv_pmu, Hi].
    destruct (r2 =? 0); [injection E2 as _ <-; exact E1|]. pose proof (inv_save_result dv s2 E1) as Hv.
    assert (Es : save_result dv s2 = (r1, s1)) by congruence. rewrite Es in Hv. exact Hv.
  - pose proof (inv_save_result dv _ (Hoff s Hi)) as Hv.
    assert (Es : save_result dv (set_manager (set_alarm_state i ALARM_STATE_OFF (al_manager s)) s) = (r1, s1)) by congruence.
    rewrite Es in Hv. exact Hv.
Qed.

Lemma update_inv dv junk t i st s r s' : inv s -> alarm_manager_update_alarm dv junk t i st s = Some (r, s') -> inv s'.
Proof.
  intros Hi E. unfold alarm_manager_update_alarm in E. destruct (Nat.leb MAX_ALARM_SUPPORT i || _); [injection E as _ <-; exact Hi|].
  destruct (Z.eqb_spec st ALARM_STATE_OFF) as [->|].
  - destruct (default false _).
    + match type of E with context [set_manager ?m s] => assert (Hm : inv (set_manager m s)) end.
      { apply inv_manager; [exact Hi|]. apply wf_alter; [intros a; rewrite is_armed_with; discriminate|exact (proj1 Hi)]. }
      pose proof (inv_save_result dv _ Hm) as Hv. match type of E with Some ?x = _ => assert (Es : x = (r, s')) by congruence end.
      rewrite Es in Hv. exact Hv.
    + apply bind_Some in E as ([r1 s1] & E & E1). injection E1 as _ <-. apply delete_inv in E; [exact E|].
      apply inv_manager; [exact Hi|]. apply wf_alter; [intros a H; exact H|exact (proj1 Hi)].
  - apply bind_Some in E as ([r1 s1] & E & E1). injection E1 as _ <-. apply find_inv in E; [exact E|].
    apply inv_manager; [exact Hi|]. apply wf_alter; [intros a; rewrite is_armed_with; discriminate|exact (proj1 Hi)].
Qed.

Lemma get_alarm_inv n : forall s, inv s -> inv (snd (get_alarm_loop n s)).
Proof.
  induction n as [|n IH]; intros s Hi; [exact Hi|]. cbn [get_alarm_loop].
  set (s1 := if _ <=? _ then set_times 0 s else s). assert (H1 : inv s1) by (unfold s1; destruct (_ <=? _); exact Hi).
  clearbody s1. destruct (negb _); [apply IH; exact H1|exact H1].
Qed.

Lemma alarm_init_inv dv s : inv s -> inv (snd (alarm_manager_init dv s)).
Proof.
  intros Hi. unfold alarm_manager_init. destruct (negb (rtc_dev dv)); [exact Hi|]. cbn [snd].
  apply inv_manager; [exact Hi|]. set (z := mk_manager (replicate _ _) (replicate _ _)).
  assert (Hm : wf (if property_get_ret dv <? 0 then z else default z (saved s))).
  { assert (Hz : wf z) by (split; [reflexivity|split; [reflexivity|change (0 <= 1)%nat; lia]]). destruct (_ <? 0); [exact Hz|].
    destruct (saved s) as [m|] eqn:E; [apply (proj2 Hi), E|exact Hz]. }
  destruct Hm as (H1 & H2 & Hc). set (m := if property_get_ret dv <? 0 then z else default z (saved s)) in *. clearbody m.
  split; cbn [alarm sn_alarm]; [rewrite length_fmap; exact H1|]. split; [exact H2|].
  replace (count_armed (default_alarm <$> alarm m)) with (count_armed (alarm m)); [exact Hc|].
  clear H1 H2 Hc. induction (alarm m) as [|a l IH]; [reflexivity|]. rewrite fmap_cons. cbn [count_armed]. rewrite IH. f_equal.
  unfold default_alarm. destruct (_ && _); reflexivity.
Qed.

Lemma step_inv dv o s s' : inv s -> step dv o s = Some s' -> inv s'.
Proof.
  intros Hi E. destruct o as [| |tm sn|tm|junk t i st|tm on|cb]; cbn [step] in E.
  - injection E as <-. apply alarm_init_inv, Hi.
  - apply fmap_Some in E as ([r s1] & E & ->). apply (find_inv dv s r), E. exact Hi.
  - apply fmap_Some in E as ([r s1] & E & ->). unfold alarm_manager_set_alarm in E.
    destruct (negb (rtc_dev dv)); [injection E as _ <-; exact Hi|].
    apply bind_Some in E as ([r2 s2] & E & E2). apply add_inv in E; [|exact Hi].
    destruct (negb (r2 =? 0)); injection E2 as _ <-; exact E.
  - apply fmap_Some in E as ([r s1] & E & ->). apply (delete_inv dv tm s r), E. exact Hi.
  - apply fmap_Some in E as ([r s1] & E & ->). apply (update_inv dv junk t i st s r), E. exact Hi.
  - injection E as <-. unfold alarm_manager_get_alarm. pose proof (get_alarm_inv MAX_ALARM_SUPPORT s Hi) as H.
    destruct (get_alarm_loop MAX_ALARM_SUPPORT s) as [[[t b]|] s1]; exact H.
  - injection E as <-. exact Hi.
Qed.

(** ** Adding keeps the earliest alarm programmed *)

Definition entry (m : alarm_manager) (a : alarm_info) : Prop := a ∈ alarm m \/ a ∈ sn_alarm m.

(** The programmed alarm is the next one to come; if there is none, no alarm
    is in use. *)
Definition earliest_armed (cur : Z) (m : alarm_manager) : Prop :=
  (forall a b, entry m a -> is_armed a = true -> entry m b -> is_used b = true ->
     delay cur (alarm_time a) <= delay cur (alarm_time b)) /\
  (armed_total m = 0%nat -> forall b, entry m b -> is_used b = false).

Lemma count_armed_pos l : (0 < count_armed l)%nat -> exists a, a ∈ l /\ is_armed a = true.
Proof.
  induction l as [|a l IH]; cbn [count_armed]; [lia|]. intros H. destruct (is_armed a) eqn:Ha.
  - exists a. split; [left|exact Ha].
  - destruct (IH ltac:(lia)) as (b & Hb & Hb'). exists b. split; [right; exact Hb|exact Hb'].
Qed.

Lemma count_armed_elem l a : a ∈ l -> is_armed a = true -> (0 < count_armed l)%nat.
Proof.
  induction l as [|b l IH]; intros Ha E; [inversion Ha|]. cbn [count_armed].
  inversion Ha; subst; [rewrite E; lia|]. specialize (IH ltac:(assumption) E). lia.
Qed.

(** [displace] on the array that has the programmed alarm [a]. *)
Lemma displace_ok t cur l a : a ∈ l -> is_armed a = true -> (count_armed l <= 1)%nat ->
  exists i, l !! i = Some a /\
  displace t cur l = (if displaces t cur a then (1, <[i := with_state ALARM_STATE_FREE a]> l) else (0, l)).
Proof.
  induction l as [|b l IH]; intros Ha E Hc; [inversion Ha|]. cbn [displace count_armed] in *.
  destruct (is_armed b) eqn:Hb.
  - inversion Ha as [|? ? ? Hin]; subst; [|pose proof (count_armed_elem _ _ Hin E); lia].
    exists 0%nat. split; [reflexivity|]. destruct (displaces t cur b); reflexivity.
  - inversion Ha as [|? ? ? Hin]; subst; [congruence|]. destruct (IH Hin E ltac:(lia)) as (i & Hi & ->).
    exists (S i). split; [exact Hi|]. destruct (displaces t cur a); reflexivity.
Qed.

Lemma armed_kind_some l : forall sn k, armed_kind l sn = Some k -> exists a, a ∈ (if k : bool then sn else l) /\ is_armed a = true.
Proof.
  induction l as [|a l IH]; intros [|b sn] k E; try discriminate. cbn [armed_kind] in E.
  destruct (is_armed a) eqn:Ha; [injection E as <-; exists a; split; [left|exact Ha]|].
  destruct (is_armed b) eqn:Hb; [injection E as <-; exists b; split; [left|exact Hb]|].
  destruct (IH sn k E) as (c & Hc & Hc'). exists c. split; [|exact Hc']. destruct k; right; exact Hc.
Qed.

(** Whether an alarm at [t] displaces the programmed one, by their delays. *)
Lemma displaces_delay t cur a : 0 <= t < 86400 -> 0 <= alarm_time a < 86400 -> alarm_time a <> cur ->
  displaces t cur a = (delay cur t <? delay cur (alarm_time a)).
Proof.
  intros Ht Ha Hne. unfold displaces, delay. rewrite u32_small by lia.
  destruct (Z.ltb_spec cur t), (Z.ltb_spec t cur), (Z.ltb_spec t (alarm_time a)), (Z.ltb_spec (alarm_time a) cur),
    (Z.ltb_spec cur (alarm_time a)); cbn [orb andb]; try lia; symmetry; first [apply Z.ltb_lt; lia | apply Z.ltb_ge; lia].
Qed.

(** What [is_need_set_alarm] answers: the programmed alarm, if there is one, is
    freed exactly if the new one comes first. *)
Lemma is_need_set_ok dv tm t m : ready dv tm -> wf m -> 0 <= t < 86400 ->
  (forall a, entry m a -> is_armed a = true -> 0 <= alarm_time a < 86400 /\ alarm_time a <> tm_to_time tm) ->
  (armed_total m = 0%nat /\ is_need_set_alarm dv t m = (1, m)) \/
  (exists a, entry m a /\ is_armed a = true /\
     ((delay (tm_to_time tm) t < delay (tm_to_time tm) (alarm_time a) /\
       exists x y, is_need_set_alarm dv t m = (1, mk_manager x y) /\
         replaced a (with_state ALARM_STATE_FREE a) (alarm m) (sn_alarm m) x y) \/
      (delay (tm_to_time tm) (alarm_time a) <= delay (tm_to_time tm) t /\ is_need_set_alarm dv t m = (0, m)))).
Proof.
  intros Hr (H1 & H2 & Hc) Ht Hd. unfold is_need_set_alarm. rewrite (ready_now _ _ Hr). cbn [negb Z.eqb].
  destruct (armed_kind (alarm m) (sn_alarm m)) as [k|] eqn:Ek.
  - right. destruct (armed_kind_some _ _ _ Ek) as (a & Ha & Harm).
    assert (He : entry m a) by (destruct k; [right|left]; exact Ha). destruct (Hd a He Harm) as [Hra Hne].
    exists a. split; [exact He|]. split; [exact Harm|].
    destruct k.
    + destruct (displace_ok t (tm_to_time tm) _ a Ha Harm ltac:(lia)) as (i & Hi & ->).
      rewrite displaces_delay by assumption. destruct (Z.ltb_spec (delay (tm_to_time tm) t) (delay (tm_to_time tm) (alarm_time a))).
      * left. split; [assumption|]. eexists _, _. split; [reflexivity|]. right. exists i. auto.
      * right. split; [assumption|]. destruct m; reflexivity.
    + destruct (displace_ok t (tm_to_time tm) _ a Ha Harm ltac:(lia)) as (i & Hi & ->).
      rewrite displaces_delay by assumption. destruct (Z.ltb_spec (delay (tm_to_time tm) t) (delay (tm_to_time tm) (alarm_time a))).
      * left. split; [assumption|]. eexists _, _. split; [reflexivity|]. left. exists i. auto.
      * right. split; [assumption|]. destruct m; reflexivity.
  - left. split; [|reflexivity]. exact (armed_kind_none _ _ (eq_trans H1 (eq_sym H2)) Ek).
Qed.

Lemma insert_elem (l : list alarm_info) i a a' c : l !! i = Some a -> c ∈ <[i := a']> l -> c = a' \/ c ∈ l.
Proof.
  intros Hi Hc. apply list_elem_of_lookup in Hc as [j Hj]. destruct (decide (i = j)) as [->|Hne].
  - rewrite list_lookup_insert_eq in Hj by (apply lookup_lt_Some in Hi; exact Hi). left. congruence.
  - rewrite list_lookup_insert_ne in Hj by exact Hne. right. apply list_elem_of_lookup. eauto.
Qed.

Lemma insert_keeps (l : list alarm_info) i a a' c : l !! i = Some a -> c ∈ l -> c <> a -> c ∈ <[i := a']> l.
Proof.
  intros Hi Hc Hne. apply list_elem_of_lookup in Hc as [j Hj]. apply list_elem_of_lookup. exists j.
  rewrite list_lookup_insert_ne; [exact Hj|]. intros ->. congruence.
Qed.

(** The entries after a replacement. *)
Lemma replaced_entry a a' l sn m' : replaced a a' l sn (alarm m') (sn_alarm m') -> forall c, entry m' c ->
  c = a' \/ entry (mk_manager l sn) c.
Proof.
  unfold entry. cbn [alarm sn_alarm]. intros [(i & Hi & -> & ->)|(i & Hi & -> & ->)] c [Hc|Hc]; auto.
  - destruct (insert_elem _ _ _ _ _ Hi Hc); auto.
  - destruct (insert_elem _ _ _ _ _ Hi Hc); auto.
Qed.

Lemma replaced_new a a' l sn m' : replaced a a' l sn (alarm m') (sn_alarm m') -> entry m' a'.
Proof.
  unfold entry. intros [(i & Hi & -> & ->)|(i & Hi & -> & ->)]; [left|right]; apply list_elem_of_lookup; exists i;
    apply list_lookup_insert_eq, (lookup_lt_Some _ _ _ Hi).
Qed.

Lemma replaced_keeps a a' l sn m' k c : replaced a a' l sn (alarm m') (sn_alarm m') -> c ∈ (if k : bool then sn else l) -> c <> a ->
  c ∈ (if k then sn_alarm m' else alarm m').
Proof.
  intros [(i & Hi & -> & ->)|(i & Hi & -> & ->)] Hc Hne; destruct k; try exact Hc; exact (insert_keeps _ _ _ _ _ Hi Hc Hne).
Qed.

Lemma replaced_keeps_entry a a' m m' c : replaced a a' (alarm m) (sn_alarm m) (alarm m') (sn_alarm m') ->
  entry m c -> c <> a -> entry m' c.
Proof.
  intros Hr [Hc|Hc] Hne; [left; exact (replaced_keeps _ _ _ _ _ false c Hr Hc Hne)|right; exact (replaced_keeps _ _ _ _ _ true c Hr Hc Hne)].
Qed.

Lemma is_armed_used a : is_armed a = true -> is_used a = true.
Proof. unfold is_armed, is_used, ALARM_STATE_OK, ALARM_STATE_OFF. intros E%Z.eqb_eq. rewrite E. reflexivity. Qed.

(** A replacement of an unused entry, or one that keeps time and use, loses no
    alarm in use. *)
Lemma replaced_keeps_used b c c' m m' : replaced c c' (alarm m) (sn_alarm m) (alarm m') (sn_alarm m') ->
  entry m b -> is_used b = true -> is_used c = false \/ alarm_time c' = alarm_time c /\ is_used c' = true ->
  exists b', entry m' b' /\ alarm_time b' = alarm_time b /\ is_used b' = true.
Proof.
  intros Hrep Hb Hu Hc. destruct (decide (alarm_time b = alarm_time c' /\ is_used c' = true)) as [[Et Eu]|Hne].
  - exists c'. split; [exact (replaced_new _ _ _ _ _ Hrep)|]. split; [symmetry; exact Et|exact Eu].
  - exists b. split; [|auto]. apply (replaced_keeps_entry _ _ _ _ _ Hrep Hb). intros ->.
    destruct Hc as [Hc|[Hc1 Hc2]]; [congruence|]. apply Hne. split; [symmetry; exact Hc1|exact Hc2].
Qed.

Lemma update_first_ok p f l : (exists b, b ∈ l /\ p b = true) ->
  exists i b, l !! i = Some b /\ p b = true /\ update_first p f l = <[i := f b]> l.
Proof.
  intros (b & Hb & Hp). induction l as [|c l IH]; [inversion Hb|]. cbn [update_first]. destruct (p c) eqn:E.
  - exists 0%nat, c. auto.
  - inversion Hb; subst; [congruence|]. destruct (IH ltac:(assumption)) as (i & d & Hi & Hd & ->). exists (S i), d. auto.
Qed.

(** There is room: a free place in the array, which [alarm_set_state] takes. *)
Definition room (sn : bool) (m : alarm_manager) : Prop := exists b, b ∈ (if sn then sn_alarm m else alarm m) /\ is_used b = false.

Lemma is_alarm_full_room sn m : is_alarm_full sn m = 0 -> room sn m.
Proof.
  unfold is_alarm_full. destruct (existsb _ _) eqn:E; [|discriminate]. intros _. apply existsb_exists in E as (b & Hb & E).
  exists b. split; [apply list_elem_of_In, Hb|]. destruct (is_used b); [discriminate|reflexivity].
Qed.

Lemma alarm_set_state_ok sn t v m : 0 <= t < 86400 -> 0 <= v < 256 -> room sn m ->
  exists b m', alarm_set_state sn t v m = m' /\ is_used b = false /\
    replaced b (mk_info t v) (alarm m) (sn_alarm m) (alarm m') (sn_alarm m').
Proof.
  intros Ht Hv (b & Hb & Hu). unfold alarm_set_state. rewrite s32_small, u8_small by lia.
  assert (Hp : exists b, b ∈ (if sn then sn_alarm m else alarm m) /\ negb (is_used b) = true) by (exists b; rewrite Hu; auto).
  destruct sn; destruct (update_first_ok _ (fun _ => mk_info t v) _ Hp) as (i & c & Hi & Hc & ->); exists c;
    (eexists; split; [reflexivity|]; split; [destruct (is_used c); [discriminate|reflexivity]|]); cbn [alarm sn_alarm].
  - right. exists i. auto.
  - left. exists i. auto.
Qed.

(** The three ways the manager changes when an alarm at [t] is added. *)
Inductive added (cur t : Z) (m m' : alarm_manager) : bool -> Prop :=
| added_first b : armed_total m = 0%nat -> is_used b = false ->
    replaced b (mk_info t ALARM_STATE_OK) (alarm m) (sn_alarm m) (alarm m') (sn_alarm m') -> added cur t m m' true
| added_before a b m2 : entry m a -> is_armed a = true -> delay cur t < delay cur (alarm_time a) -> is_used b = false ->
    replaced a (with_state ALARM_STATE_FREE a) (alarm m) (sn_alarm m) (alarm m2) (sn_alarm m2) ->
    replaced b (mk_info t ALARM_STATE_OK) (alarm m2) (sn_alarm m2) (alarm m') (sn_alarm m') -> added cur t m m' true
| added_after a b : entry m a -> is_armed a = true -> delay cur (alarm_time a) <= delay cur t -> is_used b = false ->
    replaced b (mk_info t ALARM_STATE_FREE) (alarm m) (sn_alarm m) (alarm m') (sn_alarm m') -> added cur t m m' false.

Lemma added_earliest cur t m m' k : wf m -> earliest_armed cur m -> added cur t m m' k -> earliest_armed cur m'.
Proof.
  intros (_ & _ & Hc) [Hmin Hnone] Ha. destruct Ha as [b Hz Hb Hrep|a b m2 Ha Harm Hlt Hb Hrep1 Hrep2|a b Ha Harm Hle Hb Hrep].
  - assert (Hone : forall c, entry m' c -> is_used c = true -> c = mk_info t ALARM_STATE_OK).
    { intros c Hin Hu. destruct (replaced_entry _ _ _ _ _ Hrep c Hin) as [->|Hin']; [reflexivity|].
      rewrite (Hnone Hz c Hin') in Hu. discriminate. }
    split.
    + intros c d Hin Hcarm Hd Hu. rewrite (Hone c Hin (is_armed_used c Hcarm)), (Hone d Hd Hu). lia.
    + intros H0. pose proof (replaced_new _ _ _ _ _ Hrep) as [Hin|Hin];
        pose proof (count_armed_elem _ _ Hin eq_refl); unfold armed_total in H0; lia.
  - pose proof (replaced_count _ _ _ _ _ _ Hrep1) as C1. rewrite Harm, is_armed_with in C1. cbn in C1.
    assert (H20 : forall c, entry m2 c -> is_armed c = false).
    { intros c [Hin|Hin]; [apply (count_armed_0 (alarm m2) c)|apply (count_armed_0 (sn_alarm m2) c)]; try exact Hin; lia. }
    split.
    + intros c d Hin Hcarm Hd Hu.
      assert (c = mk_info t ALARM_STATE_OK) as ->.
      { destruct (replaced_entry _ _ _ _ _ Hrep2 c Hin) as [->|Hin']; [reflexivity|]. rewrite (H20 c Hin') in Hcarm. discriminate. }
      cbn [alarm_time]. destruct (replaced_entry _ _ _ _ _ Hrep2 d Hd) as [->|Hd']; [cbn [alarm_time]; lia|].
      destruct (replaced_entry _ _ _ _ _ Hrep1 d Hd') as [->|Hd'']; [cbn [alarm_time with_state]; lia|].
      pose proof (Hmin a d Ha Harm Hd'' Hu). lia.
    + intros H0. pose proof (replaced_new _ _ _ _ _ Hrep2) as [Hin|Hin];
        pose proof (count_armed_elem _ _ Hin eq_refl); unfold armed_total in H0; lia.
  - split.
    + intros c d Hin Hcarm Hd Hu. destruct (replaced_entry _ _ _ _ _ Hrep c Hin) as [->|Hin']; [discriminate|].
      destruct (replaced_entry _ _ _ _ _ Hrep d Hd) as [->|Hd']; [|apply Hmin; assumption].
      pose proof (Hmin c a Hin' Hcarm Ha (is_armed_used a Harm)). cbn [alarm_time]. lia.
    + intros H0. assert (Hk : entry m' a) by (apply (replaced_keeps_entry _ _ m m' a Hrep Ha); intros ->; rewrite (is_armed_used b Harm) in Hb; discriminate).
      destruct Hk as [Hin|Hin]; pose proof (count_armed_elem _ _ Hin Harm); unfold armed_total in H0; lia.
Qed.

(** A date with months from 1 and full years as the driver has it. *)
Definition driver_tm (tm : rtc_time) : rtc_time :=
  mk_rtc_time (tm_sec tm) (tm_min tm) (tm_hour tm) (tm_mday tm) (u8 (tm_mon tm - 1)) (tm_wday tm) (u16 (tm_year tm - 1900)) (tm_ms tm).

Lemma add_step dv now tm sn s : ready dv now -> wf (al_manager s) ->
  (forall a, entry (al_manager s) a -> is_armed a = true -> 0 <= alarm_time a < 86400 /\ alarm_time a <> tm_to_time now) ->
  valid_tm (driver_tm tm) ->
  rtc_tm_to_time (driver_tm tm) = rtc_tm_to_time now + delay (tm_to_time now) (tm_to_time (driver_tm tm)) ->
  is_alarm_full sn (al_manager s) = 0 -> is_alarm_exist (tm_to_time (driver_tm tm)) (al_manager s) = 0 ->
  exists s' k, alarm_manager_set_alarm dv tm sn s = Some (0, s') /\ saved s' = Some (al_manager s') /\
    added (tm_to_time now) (tm_to_time (driver_tm tm)) (al_manager s) (al_manager s') k /\
    pmu s' = (if k then Some (1000 * delay (tm_to_time now) (tm_to_time (driver_tm tm))) else pmu s).
Proof.
  intros Hr Hw Had Hv Hdate Hfull Hex. pose proof (tm_to_time_range _ Hv) as [_ Ht].
  pose proof (tm_to_time_range _ (ready_valid _ _ Hr)) as [_ Hcur].
  set (t := tm_to_time (driver_tm tm)) in *. set (cur := tm_to_time now) in *.
  assert (Hset : forall s1, alarm_set_alarm8hz dv (driver_tm tm) s1 = (0, set_pmu (Some (1000 * delay cur t)) true s1)).
  { intros s1. apply (set_alarm8hz_at dv now); [exact Hr|exact Hdate|unfold delay; reflect_bools; lia]. }
  pose proof (is_alarm_full_room _ _ Hfull) as Hroom. pose proof (ready_store _ _ Hr) as Hst.
  unfold alarm_manager_set_alarm, system_add_alarm. rewrite (ready_rtc _ _ Hr). fold (driver_tm tm).
  rewrite (valid_tm_0 _ Hv). cbn [negb mbind option_bind Z.eqb]. rewrite Hfull. cbn [negb Z.eqb]. cbv zeta. fold t.
  rewrite Hex. cbn [negb Z.eqb andb].
  assert (HOK : 0 <= ALARM_STATE_OK < 256) by (unfold ALARM_STATE_OK; lia).
  assert (HFREE : 0 <= ALARM_STATE_FREE < 256) by (unfold ALARM_STATE_FREE; lia).
  destruct (is_need_set_ok dv now t (al_manager s) Hr Hw Ht Had) as
    [[Hz ->]|(a & Ha & Harm & [(Hlt & x & y & -> & Hrep1)|(Hle & ->)])]; cbn [negb Z.eqb mbind option_bind].
  - rewrite Hset. cbn [negb Z.eqb]. cbn [al_manager set_manager set_pmu mbind option_bind negb Z.eqb].
    destruct (alarm_set_state_ok sn t ALARM_STATE_OK (al_manager s) Ht HOK Hroom) as (b & m' & -> & Hb & Hrep).
    rewrite (save_ready _ _ _ Hr). destruct (Z.ltb_spec (property_set_ret dv) 0); [lia|]. cbn [negb Z.eqb].
    eexists _, true. split; [reflexivity|]. split; [reflexivity|]. split; [|reflexivity]. exact (added_first _ _ _ _ b Hz Hb Hrep).
  - rewrite Hset. cbn [negb Z.eqb]. cbn [al_manager set_manager set_pmu mbind option_bind negb Z.eqb].
    assert (Hroom2 : room sn (mk_manager x y)).
    { destruct Hroom as (b & Hin & Hb). exists b. split; [|exact Hb].
      apply (replaced_keeps _ _ _ _ (mk_manager x y) sn b Hrep1 Hin). intros ->. rewrite (is_armed_used a Harm) in Hb. discriminate. }
    destruct (alarm_set_state_ok sn t ALARM_STATE_OK (mk_manager x y) Ht HOK Hroom2) as (b & m' & -> & Hb & Hrep).
    rewrite (save_ready _ _ _ Hr). destruct (Z.ltb_spec (property_set_ret dv) 0); [lia|]. cbn [negb Z.eqb].
    eexists _, true. split; [reflexivity|]. split; [reflexivity|]. split; [|reflexivity].
    exact (added_before _ _ _ _ a b (mk_manager x y) Ha Harm Hlt Hb Hrep1 Hrep).
  - cbn [al_manager set_manager set_pmu].
    destruct (alarm_set_state_ok sn t ALARM_STATE_FREE (al_manager s) Ht HFREE Hroom) as (b & m' & -> & Hb & Hrep).
    rewrite (save_ready _ _ _ Hr). destruct (Z.ltb_spec (property_set_ret dv) 0); [lia|]. cbn [negb Z.eqb].
    eexists _, false. split; [reflexivity|]. split; [reflexivity|]. split; [|reflexivity].
    exact (added_after _ _ _ _ a b Ha Harm Hle Hb Hrep).
Qed.

(** ** Theorems *)

(** C32: with working devices (the real-time clock gives a valid time of the
    years 2001 to 2099, the 8 Hz alarm and the store accept what they are
    given), at most one entry programmed, and no alarm or snooze in use at
    midnight, where time 0 stands for none, find_and_set_alarm succeeds and saves its state; after the programmed alarm is released it
    either finds no free alarm, and changes nothing more, or it marks exactly
    one entry as programmed, one that comes before or with every other free
    alarm on the clock, and arms the hardware for that moment, today or
    tomorrow, the end of a month or year included. *)
Theorem find_arms_next dv tm s l sn : ready dv tm -> wf (al_manager s) ->
  daytime (alarm (al_manager s)) -> daytime (sn_alarm (al_manager s)) ->
  free_current (tm_to_time tm) (alarm (al_manager s)) (sn_alarm (al_manager s)) = (l, sn) ->
  exists s', find_and_set_alarm dv s = Some (0, s') /\ saved s' = Some (al_manager s') /\
    ((forall b, b ∈ l \/ b ∈ sn -> ~ free b) /\ al_manager s' = mk_manager l sn /\ pmu s' = pmu s \/
     exists a, free a /\ replaced a (with_state ALARM_STATE_OK a) l sn (alarm (al_manager s')) (sn_alarm (al_manager s')) /\
       (forall b, b ∈ l \/ b ∈ sn -> free b -> delay (tm_to_time tm) (alarm_time a) <= delay (tm_to_time tm) (alarm_time b)) /\
       pmu s' = Some (1000 * delay (tm_to_time tm) (alarm_time a)) /\ alarm_cb s' = true).
Proof. apply find_step. Qed.

(** New Year's Eve, eight in the evening. *)
Definition sample_tm : rtc_time := mk_rtc_time 0 0 20 31 11 0 124 0.
Definition sample_devices : devices := mk_devices true (0, sample_tm) true (fun _ => 0) 0 0.

Lemma sample_valid : valid_tm sample_tm.
Proof.
  unfold valid_tm, valid_date, date_of, sample_tm. cbn [year month day tm_year tm_mon tm_mday tm_hour tm_min tm_sec tm_ms].
  change (month_len (124 + 1900) 11) with 31. lia.
Qed.

Lemma sample_ready : ready sample_devices sample_tm.
Proof.
  split; [reflexivity|reflexivity|reflexivity|exact sample_valid| |reflexivity|];
    cbn [sample_tm tm_year sample_devices property_set_ret]; lia.
Qed.

Definition off : alarm_info := mk_info 25200 ALARM_STATE_OFF.
Definition sample_sys : sys :=
  mk_sys (mk_manager [mk_info 25200 ALARM_STATE_FREE; mk_info 64800 ALARM_STATE_FREE; off] [off; off; off]) 0 None None false None.

Lemma sample_daytime : daytime (alarm (al_manager sample_sys)) /\ daytime (sn_alarm (al_manager sample_sys)).
Proof. split; repeat constructor; intros _; cbn [alarm_time off]; lia. Qed.

Lemma find_arms_next_witness : exists s',
  find_and_set_alarm sample_devices sample_sys = Some (0, s') /\ pmu s' = Some (1000 * (11 * 3600)).
Proof.
  destruct (find_arms_next sample_devices sample_tm sample_sys (alarm (al_manager sample_sys)) (sn_alarm (al_manager sample_sys))
    sample_ready ltac:(split; [reflexivity|split; [reflexivity|change (0 <= 1)%nat; lia]])
    (proj1 sample_daytime) (proj2 sample_daytime) eq_refl) as (s' & H & _).
  exists s'. split; [exact H|]. vm_compute in H. injection H as <-. reflexivity.
Defined.

(** from the start, whatever the devices answer and in whatever order the
    operations are called, there are three alarms and three snoozes and at most
    one of the six is marked as programmed. *)
Theorem one_alarm_armed s : reachable s -> wf (al_manager s) /\ (forall m, saved s = Some m -> wf m).
Proof.
  induction 1 as [n cb p c|s dv o s' _ IH E]; [|exact (step_inv dv o s s' IH E)].
  split; [|discriminate]. split; [reflexivity|]. split; [reflexivity|]. change (0 <= 1)%nat. lia.
Qed.

Lemma one_alarm_armed_witness : exists s,
  reachable s /\ pmu s = Some (1000 * (11 * 3600)) /\ (count_armed (alarm (al_manager s)) <= 1)%nat.
Proof.
  set (s0 := mk_sys (mk_manager (replicate 3 no_alarm) (replicate 3 no_alarm)) 0 None None false None).
  assert (H0 : reachable s0) by apply reach_boot.
  destruct (step sample_devices (SetAlarm (mk_rtc_time 0 0 7 1 1 0 2025 0) false) s0) as [s|] eqn:E; [|vm_compute in E; discriminate].
  assert (H1 : reachable s) by exact (reach_step _ _ _ _ H0 E).
  exists s. split; [exact H1|]. split; [vm_compute in E; injection E as <-; reflexivity|].
  destruct (proj1 (one_alarm_armed s H1)) as (_ & _ & Hc). lia.
Defined.

(** if the programmed alarm is the next one to come, then after an alarm
    was added for its next occurrence, with room for it and no other alarm at
    the same time, the programmed alarm is still the next one to come; the
    hardware is armed for the new alarm if that is the next, and left alone
    otherwise; the new alarm is in use and every old one still is. *)
Theorem add_keeps_earliest dv now tm sn s : ready dv now -> wf (al_manager s) ->
  (forall a, entry (al_manager s) a -> is_armed a = true -> 0 <= alarm_time a < 86400 /\ alarm_time a <> tm_to_time now) ->
  earliest_armed (tm_to_time now) (al_manager s) ->
  valid_tm (driver_tm tm) ->
  rtc_tm_to_time (driver_tm tm) = rtc_tm_to_time now + delay (tm_to_time now) (tm_to_time (driver_tm tm)) ->
  is_alarm_full sn (al_manager s) = 0 -> is_alarm_exist (tm_to_time (driver_tm tm)) (al_manager s) = 0 ->
  exists s' new, alarm_manager_set_alarm dv tm sn s = Some (0, s') /\ saved s' = Some (al_manager s') /\
    earliest_armed (tm_to_time now) (al_manager s') /\
    entry (al_manager s') new /\ alarm_time new = tm_to_time (driver_tm tm) /\ is_used new = true /\
    (forall b, entry (al_manager s) b -> is_used b = true ->
       exists b', entry (al_manager s') b' /\ alarm_time b' = alarm_time b /\ is_used b' = true) /\
    pmu s' = (if is_armed new then Some (1000 * delay (tm_to_time now) (alarm_time new)) else pmu s).
Proof.
  intros Hr Hw Had He Hv Hdate Hfull Hex.
  destruct (add_step dv now tm sn s Hr Hw Had Hv Hdate Hfull Hex) as (s' & k & H1 & H2 & Ha & Hp).
  pose proof (added_earliest _ _ _ _ _ Hw He Ha) as He'.
  destruct Ha as [b Hz Hb Hrep|a b m2 Hin Harm Hlt Hb Hrep1 Hrep2|a b Hin Harm Hle Hb Hrep].
  - exists s', (mk_info (tm_to_time (driver_tm tm)) ALARM_STATE_OK). do 3 (split; [assumption|]).
    split; [exact (replaced_new _ _ _ _ _ Hrep)|]. split; [reflexivity|]. split; [reflexivity|]. split; [|exact Hp].
    intros c Hc Hu. apply (replaced_keeps_used c b _ _ _ Hrep Hc Hu). left. exact Hb.
  - exists s', (mk_info (tm_to_time (driver_tm tm)) ALARM_STATE_OK). do 3 (split; [assumption|]).
    split; [exact (replaced_new _ _ _ _ _ Hrep2)|]. split; [reflexivity|]. split; [reflexivity|]. split; [|exact Hp].
    intros c Hc Hu. destruct (replaced_keeps_used c a _ _ _ Hrep1 Hc Hu) as (c' & Hc' & Et & Eu); [right; split; reflexivity|].
    destruct (replaced_keeps_used c' b _ _ _ Hrep2 Hc' Eu) as (c'' & H3 & H4 & H5); [left; exact Hb|]. exists c''. split; [exact H3|]. split; [congruence|exact H5].
  - exists s', (mk_info (tm_to_time (driver_tm tm)) ALARM_STATE_FREE). do 3 (split; [assumption|]).
    split; [exact (replaced_new _ _ _ _ _ Hrep)|]. split; [reflexivity|]. split; [reflexivity|]. split; [|exact Hp].
    intros c Hc Hu. apply (replaced_keeps_used c b _ _ _ Hrep Hc Hu). left. exact Hb.
Qed.

Definition armed_sys : sys :=
  mk_sys (mk_manager [mk_info 25200 ALARM_STATE_OK; off; off] [off; off; off]) 0 None (Some 39600000) true None.

Lemma armed_sys_entry a : entry (al_manager armed_sys) a -> a = mk_info 25200 ALARM_STATE_OK \/ a = off.
Proof. unfold entry, armed_sys. cbn [al_manager alarm sn_alarm]. set_solver. Qed.

Lemma add_keeps_earliest_witness : exists s',
  alarm_manager_set_alarm sample_devices (mk_rtc_time 0 0 6 1 1 0 2025 0) false armed_sys = Some (0, s') /\
  saved s' = Some (al_manager s') /\ earliest_armed (tm_to_time sample_tm) (al_manager s').
Proof.
  destruct (add_keeps_earliest sample_devices sample_tm (mk_rtc_time 0 0 6 1 1 0 2025 0) false armed_sys) as (s' & new & H1 & H2 & H3 & _).
  - exact sample_ready.
  - split; [reflexivity|]. split; [reflexivity|]. change (1 <= 1)%nat. lia.
  - intros a [->| ->]%armed_sys_entry; [intros _|discriminate]. cbn [alarm_time]. change (tm_to_time sample_tm) with 72000. lia.
  - split; [|discriminate]. intros a b [->| ->]%armed_sys_entry; [intros _|discriminate].
    intros [->| ->]%armed_sys_entry; [intros _; lia|discriminate].
  - unfold valid_tm, valid_date, date_of, driver_tm. cbn [year month day tm_year tm_mon tm_mday tm_hour tm_min tm_sec tm_ms].
    change (month_len (u16 (2025 - 1900) + 1900) (u8 (1 - 1))) with 31. change (u16 (2025 - 1900)) with 125. change (u8 (1 - 1)) with 0. lia.
  - reflexivity.
  - reflexivity.
  - reflexivity.
  - exists s'. split; [exact H1|]. split; [exact H2|exact H3].
Defined.

(** an alarm at midnight hides the others: if it is visited after an alarm
    that is due tomorrow, the search ends with the value that stands for "no
    alarm", and find_and_set_alarm reports success without programming any. *)
Theorem midnight_alarm_hides dv tm s t c sn : ready dv tm -> 0 < t <= tm_to_time tm ->
  al_manager s = mk_manager [mk_info t ALARM_STATE_FREE; mk_info 0 ALARM_STATE_FREE; c] sn -> length sn = 3%nat ->
  is_used c = false -> (forall b, b ∈ sn -> is_used b = false) ->
  exists s', find_and_set_alarm dv s = Some (0, s') /\ al_manager s' = al_manager s /\ pmu s' = pmu s.
Proof.
  intros Hr Ht Em Hlen Hc Hsn. pose proof (ready_store _ _ Hr) as Hst. destruct sn as [|b1 [|b2 [|b3 [|? ?]]]]; try discriminate.
  pose proof (tm_to_time_range _ (ready_valid _ _ Hr)) as [_ Hcur].
  assert (Hst0 : forall a, is_used a = false -> (state a =? ALARM_STATE_OK) = false /\ (state a =? ALARM_STATE_FREE) = false).
  { intros a. unfold is_used, ALARM_STATE_OFF, ALARM_STATE_OK, ALARM_STATE_FREE. intros H%Z.ltb_ge.
    split; apply Z.eqb_neq; lia. }
  destruct (Hst0 c Hc) as [Cc1 Cc2]. destruct (Hst0 b1 (Hsn b1 ltac:(set_solver))) as [C11 C12].
  destruct (Hst0 b2 (Hsn b2 ltac:(set_solver))) as [C21 C22]. destruct (Hst0 b3 (Hsn b3 ltac:(set_solver))) as [C31 C32].
  unfold find_and_set_alarm. rewrite (ready_rtc _ _ Hr), (ready_now _ _ Hr). cbn [negb Z.eqb]. rewrite Em. cbn [alarm sn_alarm].
  cbn [free_current state]. rewrite Cc1, C11, C21, C31. change (ALARM_STATE_FREE =? ALARM_STATE_OK) with false. cbv iota zeta.
  cbn [find_earliest]. unfold earliest_of. cbn [state alarm_time]. rewrite Cc2, C12, C22, C32.
  change (ALARM_STATE_FREE =? ALARM_STATE_FREE) with true. cbn [andb]. rewrite (u32_small t), (u32_small 0) by lia.
  destruct (Z.ltb_spec (tm_to_time tm) t); [lia|]. destruct (Z.ltb_spec (tm_to_time tm) 0); [lia|].
  cbn [Z.eqb]. destruct (Z.leb_spec t (tm_to_time tm)); [|lia]. destruct (Z.leb_spec 0 (tm_to_time tm)); [|lia].
  destruct (Z.eqb_spec t 0); [lia|]. destruct (Z.ltb_spec 0 t); [|lia]. cbn [negb mbind option_bind Z.eqb Z.ltb Z.compare].
  rewrite (save_ready _ _ _ Hr). destruct (Z.ltb_spec (property_set_ret dv) 0); [lia|].
  eexists. split; [reflexivity|]. split; reflexivity.
Qed.

Lemma midnight_alarm_hides_witness : exists s',
  find_and_set_alarm sample_devices
    (mk_sys (mk_manager [mk_info 25200 ALARM_STATE_FREE; mk_info 0 ALARM_STATE_FREE; off] [off; off; off]) 0 None None false None)
  = Some (0, s') /\ pmu s' = None.
Proof.
  destruct (midnight_alarm_hides sample_devices sample_tm
    (mk_sys (mk_manager [mk_info 25200 ALARM_STATE_FREE; mk_info 0 ALARM_STATE_FREE; off] [off; off; off]) 0 None None false None)
    25200 off [off; off; off]) as (s' & H1 & _ & H2).
  - exact sample_ready.
  - change (tm_to_time sample_tm) with 72000. lia.
  - reflexivity.
  - reflexivity.
  - reflexivity.
  - intros b Hb. assert (b = off) as -> by set_solver. reflexivity.
  - exists s'. split; [exact H1|exact H2].
Defined.

(** an alarm that comes before the programmed one but is given with a date
    in the past is refused only after the programmed one was released: nothing
    is marked any more, the hardware is still armed, and the next alarm that
    is added is programmed even if it comes later. *)
Theorem refused_alarm_releases dv now tm s a : ready dv now -> wf (al_manager s) ->
  entry (al_manager s) a -> is_armed a = true -> 0 <= alarm_time a < 86400 -> alarm_time a <> tm_to_time now ->
  (forall b, entry (al_manager s) b -> is_armed b = true -> b = a) ->
  valid_tm (driver_tm tm) -> rtc_tm_to_time (driver_tm tm) < rtc_tm_to_time now ->
  delay (tm_to_time now) (tm_to_time (driver_tm tm)) < delay (tm_to_time now) (alarm_time a) ->
  is_alarm_full false (al_manager s) = 0 -> is_alarm_exist (tm_to_time (driver_tm tm)) (al_manager s) = 0 ->
  exists s', alarm_manager_set_alarm dv tm false s = Some (-1, s') /\ pmu s' = pmu s /\ armed_total (al_manager s') = 0%nat /\
    forall t, is_need_set_alarm dv t (al_manager s') = (1, al_manager s').
Proof.
  intros Hr Hw Ha Harm Hrange Hne Hone Hv Hpast Hlt Hfull Hex. pose proof (tm_to_time_range _ Hv) as [_ Ht].
  destruct (is_need_set_ok dv now (tm_to_time (driver_tm tm)) (al_manager s) Hr Hw Ht) as
    [[Hz _]|(c & Hc & Hcarm & Hcase)].
  { intros b Hb Hbarm. rewrite (Hone b Hb Hbarm). auto. }
  { destruct Ha as [Ha|Ha]; pose proof (count_armed_elem _ _ Ha Harm); unfold armed_total in Hz; lia. }
  rewrite (Hone c Hc Hcarm) in Hcase. destruct Hcase as [(_ & x & y & En & Hrep)|(Hle & _)]; [|lia].
  destruct Hw as (H1 & H2 & Hcnt). pose proof (replaced_count _ _ _ _ _ _ Hrep) as C. rewrite Harm, is_armed_with in C. cbn in C.
  unfold alarm_manager_set_alarm, system_add_alarm. rewrite (ready_rtc _ _ Hr). fold (driver_tm tm).
  rewrite (valid_tm_0 _ Hv). cbn [negb mbind option_bind Z.eqb]. rewrite Hfull. cbn [negb Z.eqb]. cbv zeta.
  rewrite Hex. cbn [negb Z.eqb andb]. rewrite En. cbn [negb Z.eqb].
  assert (Hset : alarm_set_alarm8hz dv (driver_tm tm) (set_manager (mk_manager x y) s) = (- EINVAL, set_manager (mk_manager x y) s)).
  { unfold alarm_set_alarm8hz. rewrite (ready_alarm _ _ Hr), (ready_now _ _ Hr). cbn [negb Z.eqb].
    destruct (Z.ltb_spec (rtc_tm_to_time (driver_tm tm)) (rtc_tm_to_time now)); [reflexivity|lia]. }
  rewrite Hset. cbn [negb Z.eqb mbind option_bind]. eexists. split; [reflexivity|]. split; [reflexivity|].
  cbn [al_manager set_manager]. split; [unfold armed_total; cbn [alarm sn_alarm]; lia|]. intros t. unfold is_need_set_alarm.
  cbn [alarm sn_alarm]. destruct (armed_kind x y) as [k|] eqn:Ek; [|reflexivity].
  destruct (armed_kind_some _ _ _ Ek) as (d & Hd & Hdarm). destruct k; pose proof (count_armed_elem _ _ Hd Hdarm); lia.
Qed.

Lemma refused_alarm_releases_witness : exists s',
  alarm_manager_set_alarm sample_devices (mk_rtc_time 0 0 6 31 12 0 2024 0) false armed_sys = Some (-1, s') /\
  pmu s' = Some 39600000 /\ armed_total (al_manager s') = 0%nat.
Proof.
  destruct (refused_alarm_releases sample_devices sample_tm (mk_rtc_time 0 0 6 31 12 0 2024 0) armed_sys (mk_info 25200 ALARM_STATE_OK))
    as (s' & H1 & H2 & H3 & _).
  - exact sample_ready.
  - split; [reflexivity|]. split; [reflexivity|]. change (1 <= 1)%nat. lia.
  - left. left.
  - reflexivity.
  - cbn [alarm_time]. lia.
  - cbn [alarm_time]. change (tm_to_time sample_tm) with 72000. lia.
  - intros b [->| ->]%armed_sys_entry; [reflexivity|discriminate].
  - unfold valid_tm, valid_date, date_of, driver_tm. cbn [year month day tm_year tm_mon tm_mday tm_hour tm_min tm_sec tm_ms].
    change (month_len (u16 (2024 - 1900) + 1900) (u8 (12 - 1))) with 31. change (u16 (2024 - 1900)) with 124. change (u8 (12 - 1)) with 11. lia.
  - vm_compute. reflexivity.
  - vm_compute. reflexivity.
  - reflexivity.
  - reflexivity.
  - exists s'. split; [exact H1|]. split; [exact H2|exact H3].
Defined.

(** what is set with alarm_manager_set_time, a date with months from 1 of
    the years 2000 to 2099, is what alarm_manager_get_time gives while the
    clock stands, without the day of the week and to the hundredth of a second
    rounded up. *)
Theorem manager_time_roundtrip hw d dv tm : rtc_dev dv = true -> 1 <= tm_mon tm <= 12 -> 2000 <= tm_year tm < 2100 ->
  valid_tm (driver_tm tm) ->
  exists d', alarm_manager_set_time dv hw d tm = Some (0, d') /\
    alarm_manager_get_time (mk_devices true (rtc_acts_get_time d') true (pmu_enable dv) 0 0) =
    (0, mk_rtc_time (tm_sec tm) (tm_min tm) (tm_hour tm) (tm_mday tm) (tm_mon tm) 0 (tm_year tm) ((tm_ms tm + 9) / 10 * 10)).
Proof.
  intros Hrtc Hmon Hyear Hv. unfold alarm_manager_set_time. rewrite Hrtc. cbn [negb]. fold (driver_tm tm).
  unfold rtc_acts_set_time. rewrite (valid_tm_0 _ Hv). cbn [mbind option_bind Z.eqb negb].
  assert (Ey : u16 (tm_year tm - 1900) = tm_year tm - 1900) by (apply u16_small; lia).
  assert (Em : u8 (tm_mon tm - 1) = tm_mon tm - 1) by (apply u8_small; lia).
  eexists. split; [reflexivity|]. unfold alarm_manager_get_time, rtc_acts_get_time. cbn [rtc_now].
  rewrite get_after_set by (try exact Hv; unfold driver_tm; cbn [tm_year]; lia).
  unfold clock_time, driver_tm. cbn [negb Z.eqb tm_sec tm_min tm_hour tm_mday tm_mon tm_wday tm_year tm_ms].
  rewrite Ey, Em, u8_small, u16_small by lia. f_equal. f_equal; lia.
Qed.

Lemma manager_time_roundtrip_witness : exists d',
  alarm_manager_set_time sample_devices (fun _ v => v) sample_clock (mk_rtc_time 1 2 3 4 5 0 2025 0) = Some (0, d') /\
  alarm_manager_get_time (mk_devices true (rtc_acts_get_time d') true (pmu_enable sample_devices) 0 0) =
  (0, mk_rtc_time 1 2 3 4 5 0 2025 0).
Proof.
  apply (manager_time_roundtrip (fun _ v => v) sample_clock sample_devices (mk_rtc_time 1 2 3 4 5 0 2025 0)).
  - reflexivity.
  - cbn [tm_mon]. lia.
  - cbn [tm_year]. lia.
  - unfold valid_tm, valid_date, date_of, driver_tm. cbn [year month day tm_year tm_mon tm_mday tm_hour tm_min tm_sec tm_ms].
    change (month_len (u16 (2025 - 1900) + 1900) (u8 (5 - 1))) with 31. change (u16 (2025 - 1900)) with 125. change (u8 (5 - 1)) with 4. lia.
Defined.
