(* ===== verification/Keypad.v ===== *)
(** * Keypad (framework/system/input/input_keypad.c)

    Key drivers call keypad_scan_callback with every sample of a key, repeatedly
    while it is down.  The state machine turns the samples into clicks (single
    to quintuple), long presses, holds and combinations of two keys, and
    reports them through three delayed works.  The configuration is that of
    the earphone: CONFIG_SOC_EP_MODE, CONFIG_INPUT_MUTIPLE_CLICK, no
    CONFIG_SAMPLE_CASE_XNT.

    A delayed work is the time it is due at, or none; submitting one that is
    pending moves it, as k_delayed_work_submit does.  A sample comes with the
    two clocks the code reads: the uptime, and
    k_cyc_to_us_near32(k_cycle_get_32()) / 1000, milliseconds made of a 32-bit
    counter.  What leaves the module (messages to the main thread, calls of
    the registered callback) is the [trace], the latest first. *)

From stdpp Require Import base list numbers option.
From S2P Require Import Prelude.
Open Scope Z_scope.

(** ** Key types (input_manager_type.h) *)

Definition EV_KEY : Z := 1.
Definition KEY_VALUE_DOWN : Z := 1.
Definition KEY_VALUE_UP : Z := 0.
Definition KEY_COMBO_1 : Z := 50.
Definition KEY_COMBO_3 : Z := 52.

Definition KEY_TYPE_LONG_DOWN : Z := 0x10000000.
Definition KEY_TYPE_DOUBLE_CLICK : Z := 0x40000000.
Definition KEY_TYPE_HOLD : Z := 0x08000000.
Definition KEY_TYPE_SHORT_UP : Z := 0x04000000.
Definition KEY_TYPE_LONG_UP : Z := 0x02000000.
Definition KEY_TYPE_HOLD_UP : Z := 0x01000000.
Definition KEY_TYPE_LONG6S_UP : Z := 0x00800000.
Definition KEY_TYPE_LONG6S : Z := 0x00400000.
Definition KEY_TYPE_LONG : Z := 0x00200000.
Definition KEY_TYPE_TRIPLE_CLICK : Z := 0x00100000.
Definition KEY_TYPE_QUAD_CLICK : Z := 0x00080000.
Definition KEY_TYPE_QUINT_CLICK : Z := 0x00040000.
Definition KEY_TYPE_LONG1S : Z := KEY_TYPE_LONG_DOWN.
Definition KEY_TYPE_LONG1S_UP : Z := KEY_TYPE_LONG_UP.
Definition KEY_TYPE_LONG3S : Z := KEY_TYPE_LONG.
Definition KEY_TYPE_LONG3S_UP : Z := KEY_TYPE_HOLD_UP.

(** The masks the code builds of them. *)
Definition LONG_MASK : Z := Z.lor KEY_TYPE_LONG1S (Z.lor KEY_TYPE_LONG3S KEY_TYPE_LONG6S).
Definition LONG_UP_MASK : Z := Z.lor KEY_TYPE_LONG1S_UP (Z.lor KEY_TYPE_LONG3S_UP KEY_TYPE_LONG6S_UP).
Definition CLICK_MASK : Z :=
  Z.lor KEY_TYPE_SHORT_UP (Z.lor KEY_TYPE_DOUBLE_CLICK (Z.lor KEY_TYPE_TRIPLE_CLICK (Z.lor KEY_TYPE_QUAD_CLICK KEY_TYPE_QUINT_CLICK))).

Definition CONFIG_NUM_MBOX_ASYNC_MSGS : Z := 40.

(** [x & mask] as a condition, and [x & ~mask] on 32 bits. *)
Definition has (x mask : Z) : bool := negb (Z.land x mask =? 0).
Definition without (x mask : Z) : Z := Z.land x (Z.lxor (2 ^ 32 - 1) mask).

(** ** State *)

(** struct input_dev_init_param, milliseconds. *)
Record input_dev_init_param : Type := mk_param {
  long_press_time : Z;
  super_long_press_time : Z;
  super_long_press_6s_time : Z;
  single_click_valid_time : Z;
  quickly_click_duration : Z;
  key_event_cancel_duration : Z;
  hold_delay_time : Z;
  hold_interval_time : Z
}.

Record input_keypad_info : Type := mk_keypad {
  press_type : Z;              (* uint32_t *)
  press_code : Z;              (* uint16_t *)
  report_press_code : Z;       (* uint16_t *)
  report_key_value : Z;        (* uint32_t *)
  last_report_key_value : Z;   (* uint32_t *)
  callback_key_value : Z;      (* uint32_t *)
  report_stamp : Z;            (* int64_t *)
  press_timer : Z;             (* uint32_t *)
  last_lradc_key_code : Z;     (* uint8_t *)
  click_num : Z;               (* 4 bits *)
  key_hold : bool;
  filter_itself : bool;
  combo_mode : bool;
  combo_state_0 : Z;           (* 1 bit *)
  combo_state_1 : Z            (* 1 bit *)
}.

Definition set_press_type v k := mk_keypad (u32 v) (press_code k) (report_press_code k) (report_key_value k) (last_report_key_value k) (callback_key_value k) (report_stamp k) (press_timer k) (last_lradc_key_code k) (click_num k) (key_hold k) (filter_itself k) (combo_mode k) (combo_state_0 k) (combo_state_1 k).
Definition set_press_code v k := mk_keypad (press_type k) (u16 v) (report_press_code k) (report_key_value k) (last_report_key_value k) (callback_key_value k) (report_stamp k) (press_timer k) (last_lradc_key_code k) (click_num k) (key_hold k) (filter_itself k) (combo_mode k) (combo_state_0 k) (combo_state_1 k).
Definition set_report_press_code v k := mk_keypad (press_type k) (press_code k) (u16 v) (report_key_value k) (last_report_key_value k) (callback_key_value k) (report_stamp k) (press_timer k) (last_lradc_key_code k) (click_num k) (key_hold k) (filter_itself k) (combo_mode k) (combo_state_0 k) (combo_state_1 k).
Definition set_report_value v k := mk_keypad (press_type k) (press_code k) (report_press_code k) (u32 v) (u32 v) (callback_key_value k) (report_stamp k) (press_timer k) (last_lradc_key_code k) (click_num k) (key_hold k) (filter_itself k) (combo_mode k) (combo_state_0 k) (combo_state_1 k).
Definition set_callback_value v k := mk_keypad (press_type k) (press_code k) (report_press_code k) (report_key_value k) (last_report_key_value k) (u32 v) (report_stamp k) (press_timer k) (last_lradc_key_code k) (click_num k) (key_hold k) (filter_itself k) (combo_mode k) (combo_state_0 k) (combo_state_1 k).
Definition set_stamp v k := mk_keypad (press_type k) (press_code k) (report_press_code k) (report_key_value k) (last_report_key_value k) (callback_key_value k) v (press_timer k) (last_lradc_key_code k) (click_num k) (key_hold k) (filter_itself k) (combo_mode k) (combo_state_0 k) (combo_state_1 k).
Definition set_press_timer v k := mk_keypad (press_type k) (press_code k) (report_press_code k) (report_key_value k) (last_report_key_value k) (callback_key_value k) (report_stamp k) (u32 v) (last_lradc_key_code k) (click_num k) (key_hold k) (filter_itself k) (combo_mode k) (combo_state_0 k) (combo_state_1 k).
Definition set_lradc v k := mk_keypad (press_type k) (press_code k) (report_press_code k) (report_key_value k) (last_report_key_value k) (callback_key_value k) (report_stamp k) (press_timer k) (u8 v) (click_num k) (key_hold k) (filter_itself k) (combo_mode k) (combo_state_0 k) (combo_state_1 k).
Definition set_click_num v k := mk_keypad (press_type k) (press_code k) (report_press_code k) (report_key_value k) (last_report_key_value k) (callback_key_value k) (report_stamp k) (press_timer k) (last_lradc_key_code k) (v mod 16) (key_hold k) (filter_itself k) (combo_mode k) (combo_state_0 k) (combo_state_1 k).
Definition set_key_hold v k := mk_keypad (press_type k) (press_code k) (report_press_code k) (report_key_value k) (last_report_key_value k) (callback_key_value k) (report_stamp k) (press_timer k) (last_lradc_key_code k) (click_num k) v (filter_itself k) (combo_mode k) (combo_state_0 k) (combo_state_1 k).
Definition set_filter v k := mk_keypad (press_type k) (press_code k) (report_press_code k) (report_key_value k) (last_report_key_value k) (callback_key_value k) (report_stamp k) (press_timer k) (last_lradc_key_code k) (click_num k) (key_hold k) v (combo_mode k) (combo_state_0 k) (combo_state_1 k).
Definition set_combo v k := mk_keypad (press_type k) (press_code k) (report_press_code k) (report_key_value k) (last_report_key_value k) (callback_key_value k) (report_stamp k) (press_timer k) (last_lradc_key_code k) (click_num k) (key_hold k) (filter_itself k) v (combo_state_0 k) (combo_state_1 k).
Definition set_combo_0 v k := mk_keypad (press_type k) (press_code k) (report_press_code k) (report_key_value k) (last_report_key_value k) (callback_key_value k) (report_stamp k) (press_timer k) (last_lradc_key_code k) (click_num k) (key_hold k) (filter_itself k) (combo_mode k) v (combo_state_1 k).
Definition set_combo_1 v k := mk_keypad (press_type k) (press_code k) (report_press_code k) (report_key_value k) (last_report_key_value k) (callback_key_value k) (report_stamp k) (press_timer k) (last_lradc_key_code k) (click_num k) (key_hold k) (filter_itself k) (combo_mode k) (combo_state_0 k) v.

(** What leaves the module: a message to the main thread, or a call of the
    registered callback. *)
Inductive output : Type := Report (key : Z) | Callback (key : Z).

Record sys : Type := mk_sys {
  keypad : input_keypad_info;
  param : input_dev_init_param;
  report_work : option Z;
  hold_key_work : option Z;
  callback_work : option Z;
  event_cb : bool;                (* a callback is registered *)
  locked : bool;                  (* input_manager_islock *)
  adckey : option Z;              (* the device behind adckey_handle *)
  onoff : bool;                   (* onoff_handle is not NULL *)
  trace : list output
}.

Definition upd (f : input_keypad_info -> input_keypad_info) (s : sys) : sys :=
  mk_sys (f (keypad s)) (param s) (report_work s) (hold_key_work s) (callback_work s) (event_cb s) (locked s) (adckey s) (onoff s) (trace s).
Definition set_report_work (w : option Z) (s : sys) : sys :=
  mk_sys (keypad s) (param s) w (hold_key_work s) (callback_work s) (event_cb s) (locked s) (adckey s) (onoff s) (trace s).
Definition set_hold_work (w : option Z) (s : sys) : sys :=
  mk_sys (keypad s) (param s) (report_work s) w (callback_work s) (event_cb s) (locked s) (adckey s) (onoff s) (trace s).
Definition set_callback_work (w : option Z) (s : sys) : sys :=
  mk_sys (keypad s) (param s) (report_work s) (hold_key_work s) w (event_cb s) (locked s) (adckey s) (onoff s) (trace s).
Definition emit (o : output) (s : sys) : sys :=
  mk_sys (keypad s) (param s) (report_work s) (hold_key_work s) (callback_work s) (event_cb s) (locked s) (adckey s) (onoff s) (o :: trace s).
Definition set_locked (b : bool) (s : sys) : sys :=
  mk_sys (keypad s) (param s) (report_work s) (hold_key_work s) (callback_work s) (event_cb s) b (adckey s) (onoff s) (trace s).
Definition set_param (p : input_dev_init_param) (s : sys) : sys :=
  mk_sys (keypad s) p (report_work s) (hold_key_work s) (callback_work s) (event_cb s) (locked s) (adckey s) (onoff s) (trace s).

(** ** The works *)

(** report_key_event_work_handle. *)
Definition report_key_event_work_handle (s : sys) : sys :=
  let t := press_type (keypad s) in
  let s := if has t LONG_UP_MASK then upd (set_press_type 0) s
           else if has t CLICK_MASK then if negb (has t LONG_MASK) then upd (set_press_type 0) s else s
           else s in
  let last := last_report_key_value (keypad s) in
  if filter_itself (keypad s) then
    if has last KEY_TYPE_SHORT_UP || has last KEY_TYPE_DOUBLE_CLICK || has last KEY_TYPE_TRIPLE_CLICK
       || has last KEY_TYPE_QUAD_CLICK || has last KEY_TYPE_QUINT_CLICK || has last KEY_TYPE_LONG_UP
    then upd (set_filter false) s else s
  else
    let s := upd (set_click_num 0) s in
    emit (Report (last_report_key_value (keypad s))) s.

Definition callback_key_event_work_handle (s : sys) : sys :=
  if event_cb s then emit (Callback (callback_key_value (keypad s))) s else s.

(** [uptime] is when the work runs, [free_msgs] the free entries of the message
    pool. *)
Definition check_hold_key_work_handle (uptime free_msgs : Z) (s : sys) : sys :=
  let '(key_value, s) :=
    if key_hold (keypad s) then
      let s := set_hold_work (Some (uptime + hold_interval_time (param s))) s in
      (if negb (locked s) then Z.lor KEY_TYPE_HOLD (press_code (keypad s)) else 0, s)
    else (0, s) in
  if negb (key_value =? 0) then
    if filter_itself (keypad s) then s
    else if free_msgs <=? CONFIG_NUM_MBOX_ASYNC_MSGS / 2 then s
    else emit (Report key_value) s
  else s.

(** ** The scan callback *)

Definition get_click_key_type (n : Z) : Z :=
  if (1 <=? n) && (n <=? 5)
  then nth (Z.to_nat (n - 1)) [KEY_TYPE_SHORT_UP; KEY_TYPE_DOUBLE_CLICK; KEY_TYPE_TRIPLE_CLICK; KEY_TYPE_QUAD_CLICK; KEY_TYPE_QUINT_CLICK] 0
  else 0.

Definition is_lradc_input_dev (s : sys) (dev : Z) : bool :=
  match adckey s with Some d => dev =? d | None => false end.
Definition is_lradc_combo_key (c : Z) : bool := (KEY_COMBO_1 <=? c) && (c <=? KEY_COMBO_3).

(** A sample: the device, struct input_value and the two clocks. *)
Record sample : Type := mk_sample {
  dev : Z;
  vtype : Z;
  code : Z;      (* uint16_t *)
  value : Z;     (* uint32_t *)
  cyc_ms : Z;    (* k_cyc_to_us_near32(k_cycle_get_32()) / 1000 *)
  uptime : Z     (* milliseconds *)
}.

Definition low (c : Z) : Z := Z.land c 0xff.
Definition high (c : Z) : Z := Z.land (Z.shiftr c 8) 0xff.

Definition click_delay (s : sys) : Z := quickly_click_duration (param s) + key_event_cancel_duration (param s).

(** Lines 275-306: the code to report, none if a key of a combination is still
    down. *)
Definition release_code (v : sample) (s : sys) : bool * sys :=
  if negb (combo_mode (keypad s)) then
    let s := if negb (is_lradc_input_dev s (dev v)) then upd (set_press_code (code v)) s else s in
    let s := upd (set_report_press_code (press_code (keypad s))) s in
    (true, upd (set_press_code 0) s)
  else
    let pc := press_code (keypad s) in
    let s := if low pc =? code v then upd (set_combo_0 KEY_VALUE_UP) s
             else if high pc =? code v then upd (set_combo_1 KEY_VALUE_UP) s else s in
    let s := if is_lradc_input_dev s (dev v) then
               if low pc =? last_lradc_key_code (keypad s) then upd (set_combo_0 KEY_VALUE_UP) s
               else if high pc =? last_lradc_key_code (keypad s) then upd (set_combo_1 KEY_VALUE_UP) s else s
             else s in
    let s := upd (set_report_press_code pc) s in
    if (combo_state_0 (keypad s) =? combo_state_1 (keypad s)) && (combo_state_0 (keypad s) =? KEY_VALUE_UP)
    then (true, upd (set_press_code 0) (upd (set_combo false) s))
    else (false, s).

(** Lines 309-353: the type of the released key. *)
Definition release_type (v : sample) (s : sys) : sys :=
  let k := keypad s in
  let t := press_type k in
  if has t KEY_TYPE_LONG1S then upd (set_press_type (Z.lor (without t KEY_TYPE_LONG1S) KEY_TYPE_LONG1S_UP)) s
  else if has t KEY_TYPE_LONG3S then upd (set_press_type (Z.lor (without t KEY_TYPE_LONG3S) KEY_TYPE_LONG3S_UP)) s
  else if has t KEY_TYPE_LONG6S then upd (set_press_type (Z.lor (without t KEY_TYPE_LONG6S) KEY_TYPE_LONG6S_UP)) s
  else
    let s := if negb (click_num k =? 0) then set_report_work None s else s in
    let s := if last_report_key_value k =? Z.lor t (report_press_code k)
             then upd (set_click_num (click_num k + 1)) s else upd (set_click_num 1) s in
    let s := upd (set_stamp (uptime v)) s in
    upd (set_press_type (get_click_key_type (click_num (keypad s)))) s.

(** The case KEY_VALUE_UP: none if the function returns in it, otherwise
    whether a report is needed. *)
Definition scan_up (v : sample) (s : sys) : option bool * sys :=
  let '(go, s) := release_code v s in
  if negb go then (None, s)
  else
    let s := upd (set_key_hold false) s in
    let s := release_type v s in
    let time_ms := u32 (cyc_ms v - press_timer (keypad s)) in
    let '(need_report, s) :=
      if has (press_type (keypad s)) LONG_UP_MASK then (true, s)
      else if time_ms <=? single_click_valid_time (param s) then (true, s)
      else (false, set_report_work None (upd (set_click_num 0) (upd (set_press_type 0) s))) in
    (Some need_report, upd (set_press_timer (cyc_ms v)) s).

(** A new key goes down, lines 382-416. *)
Definition press_key (v : sample) (s : sys) : sys :=
  let k := keypad s in
  let adc := is_lradc_input_dev s (dev v) in
  let s :=
    if (low (press_code k) =? 0)
       || ((press_code k =? last_lradc_key_code k) && adc && negb (is_lradc_combo_key (press_code k))) then
      let s := upd (set_combo_0 KEY_VALUE_DOWN) (upd (set_combo false) (upd (set_press_code (code v)) s)) in
      if adc then upd (set_lradc (code v)) s else s
    else if (high (press_code k) =? 0) && negb ((press_code k =? last_lradc_key_code k) && adc) then
      let c := if press_code k <? code v then Z.lor (Z.shiftl (press_code k) 8) (code v)
               else Z.lor (Z.shiftl (code v) 8) (press_code k) in
      let s := upd (set_combo_1 KEY_VALUE_DOWN) (upd (set_combo true) (upd (set_press_code c) s)) in
      if adc then upd (set_lradc (code v)) s else s
    else s in
  upd (set_filter false) (upd (set_press_timer (cyc_ms v)) s).

(** One of the three long presses is reached, lines 424-447. *)
Definition long_press (l : Z) (s : sys) : bool * sys :=
  let k := keypad s in
  if negb (has (press_type k) l) then
    let s := upd (set_report_press_code (press_code k)) s in
    (true, upd (set_press_type (Z.lor (Z.lor (without (press_type k) (Z.lxor LONG_MASK l)) l) (get_click_key_type (click_num k)))) s)
  else (false, s).

(** The repetition of a held key begins, lines 467-483. *)
Definition start_hold (v : sample) (time_ms : Z) (s : sys) : sys :=
  if (hold_delay_time (param s) <=? time_ms) && (click_num (keypad s) =? 0) && negb (key_hold (keypad s))
     && negb (has (press_type (keypad s)) CLICK_MASK)
  then set_hold_work (Some (uptime v)) (upd (set_key_hold true) s) else s.

(** The key stays down, lines 419-483. *)
Definition keep_key (v : sample) (s : sys) : bool * sys :=
  let time_ms := u32 (cyc_ms v - press_timer (keypad s)) in
  let '(need_report, s) :=
    if super_long_press_6s_time (param s) <=? time_ms then long_press KEY_TYPE_LONG6S s
    else if super_long_press_time (param s) <=? time_ms then long_press KEY_TYPE_LONG3S s
    else if long_press_time (param s) <=? time_ms then long_press KEY_TYPE_LONG1S s
    else (false, s) in
  (need_report, start_hold v time_ms s).

Definition scan_down (v : sample) (s : sys) : bool * sys :=
  let pc := press_code (keypad s) in
  if negb (code v =? low pc) && negb (code v =? high pc) then (false, press_key v s) else keep_key v s.

(** The end of the function, lines 490-540. *)
Definition scan_report (v : sample) (need_report : bool) (s : sys) : sys :=
  let s := if event_cb s
           then set_callback_work (Some (uptime v)) (upd (set_callback_value (Z.lor (Z.shiftl (value v) 31) (code v))) s)
           else s in
  let s := if (value v =? KEY_VALUE_DOWN) && negb (click_num (keypad s) =? 0)
           then set_report_work (Some (uptime v + click_delay s)) s else s in
  if need_report then
    let s := upd (set_report_value (Z.lor (press_type (keypad s)) (report_press_code (keypad s)))) s in
    if locked s then upd (set_click_num 0) s
    else
      let s := upd (set_stamp (uptime v)) s in
      if has (press_type (keypad s)) (Z.lor LONG_MASK LONG_UP_MASK)
      then set_report_work (Some (uptime v)) s
      else set_report_work (Some (uptime v + click_delay s)) s
  else s.

Definition keypad_scan_callback (v : sample) (s : sys) : sys :=
  if negb (vtype v =? EV_KEY) then s
  else if value v =? KEY_VALUE_UP then
    match scan_up v s with (None, s) => s | (Some need, s) => scan_report v need s end
  else if value v =? KEY_VALUE_DOWN then let '(need, s) := scan_down v s in scan_report v need s
  else scan_report v false s.

(** ** Start and settings *)

Definition no_press : input_keypad_info := mk_keypad 0 0 0 0 0 0 0 0 0 0 false false false 0 0.

Definition default_param : input_dev_init_param := mk_param 400 2000 6000 500 300 50 500 200.

Definition input_keypad_device_init (cb : bool) (adc : option Z) (on : bool) (s : sys) : sys :=
  mk_sys no_press default_param None None None cb (locked s) adc on (trace s).

Definition input_keypad_set_init_param (p : input_dev_init_param) (s : sys) : sys := set_param p s.

(** input_manager.c. *)
Definition input_manager_lock (s : sys) : sys := set_locked true s.
Definition input_manager_unlock (s : sys) : sys := set_locked false s.

(** The call on the device of the key: its samples are stopped or resumed. *)
Inductive device_call : Type := key_device_abort_cb (inner : bool) | key_device_enable_cb (inner : bool).

Definition handle_open (inner_onoff : bool) (s : sys) : bool :=
  if inner_onoff then onoff s else bool_decide (is_Some (adckey s)).

(** Opening and closing the direct inquiry of the on/off key; [inner_onoff]
    chooses the device. *)
Definition input_keypad_onoff_inquiry_enable (inner_onoff enable : bool) (s : sys) : Z * option device_call * sys :=
  if negb (handle_open inner_onoff s) then (-1, None, s)
  else
    (0, Some (if enable then key_device_abort_cb inner_onoff else key_device_enable_cb inner_onoff),
     upd (fun k => mk_keypad 0 0 0 0 (last_report_key_value k) 0 (report_stamp k) 0 (last_lradc_key_code k) 0 false
                     (filter_itself k) (combo_mode k) (combo_state_0 k) (combo_state_1 k)) s).

(** [inquiry c] is what the device answers when it is asked with code [c]: a code
    and a value. *)
Definition input_keypad_onoff_inquiry (inquiry : Z -> Z * Z) (inner_onoff : bool) (keycode : Z) (s : sys) : Z :=
  if negb (handle_open inner_onoff s) then -1
  else
    let '(c, val) := inquiry (if inner_onoff then 0 else u16 keycode) in
    if c =? keycode then val else KEY_VALUE_UP.

(** ** Time

    [advance fuel t s] runs the works that are due until [t], the earliest
    first; [free_msgs] is what the pool has meanwhile. *)
Definition before (a b : option Z) : bool :=
  match a, b with Some x, Some y => x <=? y | Some _, None => true | None, _ => false end.

Definition run_one (free_msgs t : Z) (s : sys) : option sys :=
  let '(r, h, c) := (report_work s, hold_key_work s, callback_work s) in
  if before r h && before r c then
    if default (t + 1) r <=? t then Some (report_key_event_work_handle (set_report_work None s)) else None
  else if before h c then
    if default (t + 1) h <=? t then Some (check_hold_key_work_handle (default 0 h) free_msgs (set_hold_work None s)) else None
  else if default (t + 1) c <=? t then Some (callback_key_event_work_handle (set_callback_work None s)) else None.

Fixpoint advance (fuel : nat) (free_msgs t : Z) (s : sys) : sys :=
  match fuel with
  | O => s
  | S f => match run_one free_msgs t s with Some s' => advance f free_msgs t s' | None => s end
  end.

(** The samples in order, each after the works that are due before it. *)
Fixpoint run (fuel : nat) (free_msgs : Z) (vs : list sample) (s : sys) : sys :=
  match vs with
  | [] => s
  | v :: vs' => run fuel free_msgs vs' (keypad_scan_callback v (advance fuel free_msgs (uptime v) s))
  end.
