(* ===== verification/KeypadProof.v ===== *)
(** * Theorems of the keypad

    Executions interleave samples and works: a work runs when it is due, and
    every work that is due runs before the next sample.  Clicks, long presses
    and combinations are reported as they were made, in every execution; an
    invariant says that nothing that is pending is forgotten. *)

From stdpp Require Import base list numbers option relations.
From S2P Require Import Prelude Keypad.
Open Scope Z_scope.

(** Evaluation of the fields of a changed state. *)
Ltac kcbn := cbn [keypad param report_work hold_key_work callback_work event_cb locked adckey onoff trace
  upd set_report_work set_hold_work set_callback_work emit set_locked set_param
  press_type press_code report_press_code report_key_value last_report_key_value callback_key_value report_stamp press_timer
  last_lradc_key_code click_num key_hold filter_itself combo_mode combo_state_0 combo_state_1
  set_press_type set_press_code set_report_press_code set_report_value set_callback_value set_stamp set_press_timer set_lradc
  set_click_num set_key_hold set_filter set_combo set_combo_0 set_combo_1 negb andb orb].

(** ** Executions *)

(** The next sample, if there is one, is not before [t]. *)
Definition next_after (t : Z) (vs : list sample) : Prop :=
  match vs with v :: _ => t <= uptime v | [] => True end.

Inductive exec : sys -> list sample -> sys -> Prop :=
| exec_nil s : exec s [] s
| exec_scan s v vs s' free :
    run_one free (uptime v) s = None -> exec (keypad_scan_callback v s) vs s' -> exec s (v :: vs) s'
| exec_work s vs s1 s' free t :
    next_after t vs -> run_one free t s = Some s1 -> exec s1 vs s' -> exec s vs s'.

(** The functions [advance] and [run] compute executions, if the fuel was
    enough for the works that were due. *)
Lemma advance_exec fuel free t : forall s vs s', next_after t vs -> exec (advance fuel free t s) vs s' -> exec s vs s'.
Proof.
  induction fuel as [|n IH]; intros s vs s' Ht H; cbn [advance] in H; [exact H|].
  destruct (run_one free t s) as [s1|] eqn:E; [|exact H]. exact (exec_work s vs s1 s' free t Ht E (IH s1 vs s' Ht H)).
Qed.

(** What was reported, and the part of it that is not the repetition of a held
    key. *)
Definition reports (s : sys) : list Z := omap (fun o => match o with Report k => Some k | Callback _ => None end) (trace s).
Definition key_reports (s : sys) : list Z := filter (fun k => has k KEY_TYPE_HOLD = false) (reports s).

(** The three works, one at a time. *)
Lemma run_one_cases free t s s1 : run_one free t s = Some s1 ->
  (exists r, report_work s = Some r /\ r <= t /\ s1 = report_key_event_work_handle (set_report_work None s)) \/
  (exists h, hold_key_work s = Some h /\ h <= t /\ s1 = check_hold_key_work_handle h free (set_hold_work None s)) \/
  (exists c, callback_work s = Some c /\ c <= t /\ s1 = callback_key_event_work_handle (set_callback_work None s)).
Proof.
  unfold run_one. destruct (report_work s) as [r|] eqn:Hr, (hold_key_work s) as [h|] eqn:Hh, (callback_work s) as [c|] eqn:Hc;
    cbn [before andb default from_option id];
    repeat match goal with |- context [?a <=? ?b] => destruct (Z.leb_spec a b); cbn [andb] end;
    intros [= <-]; try lia; first [left; exists r; auto; fail | right; left; exists h; auto; fail | right; right; exists c; auto].
Qed.

Lemma run_one_none free t s : run_one free t s = None -> forall r, report_work s = Some r -> t < r.
Proof.
  unfold run_one. intros E r Hr. rewrite Hr in E. revert E.
  destruct (hold_key_work s) as [h|], (callback_work s) as [c|]; cbn [before andb default from_option id];
    repeat match goal with |- context [?a <=? ?b] => destruct (Z.leb_spec a b); cbn [andb] end; intros; try discriminate; lia.
Qed.

(** ** Key types *)

Lemma click_type_cases i : get_click_key_type i = 0 \/ get_click_key_type i = KEY_TYPE_SHORT_UP \/
  get_click_key_type i = KEY_TYPE_DOUBLE_CLICK \/ get_click_key_type i = KEY_TYPE_TRIPLE_CLICK \/
  get_click_key_type i = KEY_TYPE_QUAD_CLICK \/ get_click_key_type i = KEY_TYPE_QUINT_CLICK.
Proof.
  unfold get_click_key_type. destruct (Z.leb_spec 1 i), (Z.leb_spec i 5); cbn [andb]; auto.
  assert (i = 1 \/ i = 2 \/ i = 3 \/ i = 4 \/ i = 5) as [->|[->|[->|[->| ->]]]] by lia; cbn; auto 6.
Qed.

(** A number of the upper half word and a key code do not overlap. *)
Lemma type_code_range k c : 0 <= k < 2 ^ 16 -> 0 <= c < 2 ^ 16 -> 0 <= Z.lor (Z.shiftl k 16) c < 2 ^ 32.
Proof. intros Hk Hc. rewrite lor_shiftl_add by lia. lia. Qed.

Ltac by_click i := destruct (click_type_cases i) as [->|[->|[->|[->|[->| ->]]]]].

Lemma click_type_u32 i : u32 (get_click_key_type i) = get_click_key_type i.
Proof. by_click i; reflexivity. Qed.

Lemma click_report_u32 i c : 0 <= c < 2 ^ 16 -> u32 (Z.lor (get_click_key_type i) c) = Z.lor (get_click_key_type i) c.
Proof.
  intros Hc. apply u32_small. assert (exists k, 0 <= k < 2 ^ 16 /\ get_click_key_type i = Z.shiftl k 16) as (k & Hk & ->).
  { exists (get_click_key_type i / 2 ^ 16). by_click i; split; reflexivity || (vm_compute; split; congruence). }
  apply type_code_range; assumption.
Qed.

Lemma click_type_long i : has (get_click_key_type i) LONG_MASK = false /\ has (get_click_key_type i) LONG_UP_MASK = false /\
  has (get_click_key_type i) (Z.lor LONG_MASK LONG_UP_MASK) = false /\ has (get_click_key_type i) KEY_TYPE_LONG1S = false /\
  has (get_click_key_type i) KEY_TYPE_LONG3S = false /\ has (get_click_key_type i) KEY_TYPE_LONG6S = false.
Proof. by_click i; repeat split. Qed.

(** ** Clicks *)

(** Between samples of a series of clicks of key [c]: [i] were made, the key is
    up or went down at [down], the report is due at [dl] if there was a click,
    and [r] was reported before. *)
Record at_click (p : input_dev_init_param) (c i dl : Z) (down : option Z) (r : list Z) (s : sys) : Prop := mk_at_click {
  ac_param : param s = p;
  ac_code : press_code (keypad s) = match down with Some _ => c | None => 0 end;
  ac_timer : match down with Some t => press_timer (keypad s) = t | None => True end;
  ac_num : click_num (keypad s) = i;
  ac_type : press_type (keypad s) = get_click_key_type i;
  ac_last : i <> 0 -> last_report_key_value (keypad s) = Z.lor (get_click_key_type i) c;
  ac_work : report_work s = if i =? 0 then None else Some dl;
  ac_hold : key_hold (keypad s) = false;
  ac_holdw : hold_key_work s = None;
  ac_combo : combo_mode (keypad s) = false;
  ac_filter : filter_itself (keypad s) = false;
  ac_locked : locked s = false;
  ac_reports : reports s = r
}.

(** A work that runs: the callback, or the report that is due. *)
Lemma at_click_work p c i dl down r s free t s1 : at_click p c i dl down r s -> run_one free t s = Some s1 ->
  at_click p c i dl down r s1 \/
  (i <> 0 /\ dl <= t /\ at_click p c 0 dl down (Z.lor (get_click_key_type i) c :: r) s1).
Proof.
  intros [] E. apply run_one_cases in E as [(x & Hx & Hle & ->)|[(h & Hh & _ & _)|(cb & _ & _ & ->)]]; [|congruence|].
  - right. rewrite ac_work0 in Hx. destruct (Z.eqb_spec i 0) as [|Hne]; [discriminate|]. injection Hx as <-.
    split; [exact Hne|]. split; [exact Hle|]. destruct (click_type_long i) as (H1 & H2 & _).
    unfold report_key_event_work_handle. cbn [keypad set_report_work]. rewrite ac_type0, H2, H1. cbn [negb].
    destruct (has (get_click_key_type i) CLICK_MASK) eqn:Hc.
    + cbn [upd keypad filter_itself set_press_type set_report_work]. rewrite ac_filter0.
      split; try assumption; try reflexivity; [intros []; reflexivity|].
      unfold reports, emit. cbn [trace omap list_omap]. cbn. f_equal; [exact (ac_last0 Hne)|exact ac_reports0].
    + assert (Hz : get_click_key_type i = 0).
      { destruct (click_type_cases i) as [Hz|[Hz|[Hz|[Hz|[Hz|Hz]]]]]; [exact Hz|rewrite Hz in Hc; discriminate..]. }
      cbn [upd keypad filter_itself set_report_work]. rewrite ac_filter0.
      split; try assumption; try reflexivity; [cbn; rewrite ac_type0; exact Hz|intros []; reflexivity|].
      unfold reports, emit. cbn. f_equal; [exact (ac_last0 Hne)|exact ac_reports0].
  - left. unfold callback_key_event_work_handle. cbn [event_cb set_callback_work]. destruct (event_cb s); split; assumption.
Qed.

(** A sample of key [c], up or down. *)
Definition key_sample (c val : Z) (v : sample) : Prop := vtype v = EV_KEY /\ code v = c /\ value v = val.

Lemma low_small c : 0 <= c < 256 -> low c = c.
Proof. intros H. unfold low. change 0xff with (Z.ones 8). rewrite Z.land_ones, Z.mod_small by lia. reflexivity. Qed.

Lemma high_small c : 0 <= c < 256 -> high c = 0.
Proof. intros H. unfold high. rewrite Z.shiftr_div_pow2, Z.div_small by lia. reflexivity. Qed.

Lemma mod16_small i : 0 <= i < 16 -> i mod 16 = i.
Proof. apply Z.mod_small. Qed.

(** The end of the scan of a key that is down and needs no report. *)
Lemma at_click_down_end p c i dl down r s v : at_click p c i dl down r s -> value v = KEY_VALUE_DOWN ->
  at_click p c i (uptime v + (quickly_click_duration p + key_event_cancel_duration p)) down r (scan_report v false s).
Proof.
  intros [] Hv. unfold scan_report. rewrite Hv. change (KEY_VALUE_DOWN =? KEY_VALUE_DOWN) with true. cbn [andb].
  destruct (event_cb s); cbn [keypad upd set_callback_work set_callback_value click_num]; rewrite ac_num0;
    (destruct (Z.eqb_spec i 0) as [->|Hne]; cbn [negb];
     [split; try assumption|split; try assumption; cbn [report_work set_report_work]; unfold click_delay;
       destruct (Z.eqb_spec i 0); [contradiction|]; cbn; rewrite ?ac_param0; reflexivity]).
Qed.

Lemma at_click_press p c i dl r s v : at_click p c i dl None r s -> key_sample c KEY_VALUE_DOWN v -> 1 <= c < 256 ->
  0 <= cyc_ms v < 2 ^ 32 ->
  at_click p c i (uptime v + (quickly_click_duration p + key_event_cancel_duration p)) (Some (cyc_ms v)) r (keypad_scan_callback v s).
Proof.
  intros H (Ht & Hc & Hv) Hr Hcyc. unfold keypad_scan_callback. rewrite Ht, Hv. cbn [negb].
  change (EV_KEY =? EV_KEY) with true. change (KEY_VALUE_DOWN =? KEY_VALUE_UP) with false.
  change (KEY_VALUE_DOWN =? KEY_VALUE_DOWN) with true. cbn [negb]. unfold scan_down. rewrite Hc, (ac_code _ _ _ _ _ _ _ H).
  change (low 0) with 0. change (high 0) with 0. destruct (Z.eqb_spec c 0); [lia|]. cbn [negb andb].
  apply at_click_down_end with dl; [|exact Hv]. destruct H. unfold press_key. rewrite ac_code0. change (low 0 =? 0) with true.
  cbn [orb]. assert (Hu : u16 c = c) by (apply u16_small; lia). assert (Ht' : u32 (cyc_ms v) = cyc_ms v) by (apply u32_small; lia).
  destruct (is_lradc_input_dev s (dev v)); split; try assumption; try reflexivity; cbn; rewrite ?Hc; try exact Hu; try exact Ht'.
Qed.

Lemma at_click_keep p c i dl t r s v : at_click p c i dl (Some t) r s -> key_sample c KEY_VALUE_DOWN v -> 1 <= c < 256 ->
  0 <= cyc_ms v - t < 2 ^ 32 -> cyc_ms v - t < long_press_time p -> cyc_ms v - t < hold_delay_time p ->
  long_press_time p <= super_long_press_time p <= super_long_press_6s_time p ->
  at_click p c i (uptime v + (quickly_click_duration p + key_event_cancel_duration p)) (Some t) r (keypad_scan_callback v s).
Proof.
  intros H (Ht & Hc & Hv) Hr Hcyc Hlong Hhold Hord. unfold keypad_scan_callback. rewrite Ht, Hv. cbn [negb].
  change (EV_KEY =? EV_KEY) with true. change (KEY_VALUE_DOWN =? KEY_VALUE_UP) with false.
  change (KEY_VALUE_DOWN =? KEY_VALUE_DOWN) with true. cbn [negb]. unfold scan_down. rewrite Hc, (ac_code _ _ _ _ _ _ _ H).
  rewrite (low_small c) by lia. rewrite Z.eqb_refl. cbn [negb andb]. unfold keep_key.
  rewrite (ac_timer _ _ _ _ _ _ _ H), (ac_param _ _ _ _ _ _ _ H), u32_small by lia.
  destruct (Z.leb_spec (super_long_press_6s_time p) (cyc_ms v - t)); [lia|].
  destruct (Z.leb_spec (super_long_press_time p) (cyc_ms v - t)); [lia|].
  destruct (Z.leb_spec (long_press_time p) (cyc_ms v - t)); [lia|].
  unfold start_hold. rewrite (ac_param _ _ _ _ _ _ _ H). destruct (Z.leb_spec (hold_delay_time p) (cyc_ms v - t)); [lia|]. cbn [andb].
  apply at_click_down_end with dl; [exact H|exact Hv].
Qed.

(** Releasing a single key: its code is the one to report. *)
Lemma release_code_single c v s : combo_mode (keypad s) = false -> code v = c -> press_code (keypad s) = c -> 0 <= c < 2 ^ 16 ->
  release_code v s = (true, upd (set_press_code 0) (upd (set_report_press_code c) s)).
Proof.
  intros Hcombo Hc Hpc Hr. unfold release_code. rewrite Hcombo. kcbn.
  assert (Hu : u16 c = c) by (apply u16_small; lia).
  destruct (is_lradc_input_dev s (dev v)); kcbn; rewrite ?Hpc, ?Hc, ?Hu; reflexivity.
Qed.

(** A click that continues a series of [i], or begins one. *)
Lemma release_type_click i v s : click_num (keypad s) = i -> press_type (keypad s) = get_click_key_type i -> 0 <= i < 15 ->
  (i <> 0 -> last_report_key_value (keypad s) = Z.lor (get_click_key_type i) (report_press_code (keypad s))) ->
  exists w, release_type v s = set_report_work w
    (upd (set_press_type (get_click_key_type (i + 1))) (upd (set_stamp (uptime v)) (upd (set_click_num (i + 1)) s))).
Proof.
  intros Hn Ht Hi Hl. unfold release_type. rewrite Hn, Ht. destruct (click_type_long i) as (_ & _ & _ & -> & -> & ->).
  exists (if negb (i =? 0) then None else report_work s).
  destruct (Z.eqb_spec i 0) as [->|Hne]; kcbn.
  - destruct (_ =? _); kcbn; reflexivity.
  - rewrite (Hl Hne), Z.eqb_refl. kcbn. rewrite (mod16_small (i + 1)) by lia. reflexivity.
Qed.

Lemma at_click_release p c i dl t r s v : at_click p c i dl (Some t) r s -> key_sample c KEY_VALUE_UP v -> 1 <= c < 256 ->
  0 <= cyc_ms v - t < 2 ^ 32 -> cyc_ms v - t <= single_click_valid_time p -> 0 <= i < 15 ->
  at_click p c (i + 1) (uptime v + (quickly_click_duration p + key_event_cancel_duration p)) None r (keypad_scan_callback v s).
Proof.
  intros [] (Ht & Hc & Hv) Hr Hcyc Hvalid Hi. unfold keypad_scan_callback. rewrite Ht, Hv.
  change (EV_KEY =? EV_KEY) with true. change (KEY_VALUE_UP =? KEY_VALUE_UP) with true. cbn [negb].
  assert (Hu : u16 c = c) by (apply u16_small; lia). destruct (click_type_long (i + 1)) as (_ & U1 & U2 & _).
  unfold scan_up. rewrite (release_code_single c) by (assumption || lia). cbn [negb].
  destruct (release_type_click i v (upd (set_key_hold false) (upd (set_press_code 0) (upd (set_report_press_code c) s)))) as [w ->];
    [exact ac_num0|exact ac_type0|exact Hi|kcbn; rewrite Hu; exact ac_last0|].
  kcbn. rewrite click_type_u32, U1, ac_timer0, ac_param0, u32_small by lia.
  destruct (Z.leb_spec (cyc_ms v - t) (single_click_valid_time p)); [|lia].
  assert (Hrep : u32 (Z.lor (get_click_key_type (i + 1)) c) = Z.lor (get_click_key_type (i + 1)) c) by (apply click_report_u32; lia).
  assert (Hi1 : (i + 1 =? 0) = false) by (apply Z.eqb_neq; lia).
  unfold scan_report, click_delay. rewrite Hv. change (KEY_VALUE_UP =? KEY_VALUE_DOWN) with false.
  destruct (event_cb _); kcbn; rewrite click_type_u32, ac_locked0, U2, Hu;
    (split; kcbn; [exact ac_param0|reflexivity|exact I|apply mod16_small; lia|apply click_type_u32|intros _; exact Hrep
                  |rewrite Hi1, ac_param0; reflexivity|reflexivity|exact ac_holdw0|exact ac_combo0|exact ac_filter0|exact ac_locked0
                  |exact ac_reports0]).
Qed.

(** The samples of a series of clicks of key [c]: [i] were made before, [n] in
    the end; [down] is when the key went down, if it is.  The key goes down, is
    sampled for a time that makes no long press, and is released in time. *)
Inductive clicks (p : input_dev_init_param) (c : Z) : Z -> option Z -> list sample -> Z -> Prop :=
| clicks_end i : clicks p c i None [] i
| clicks_press i v vs n : key_sample c KEY_VALUE_DOWN v -> 0 <= cyc_ms v < 2 ^ 32 ->
    clicks p c i (Some (cyc_ms v)) vs n -> clicks p c i None (v :: vs) n
| clicks_keep i t v vs n : key_sample c KEY_VALUE_DOWN v -> 0 <= cyc_ms v - t < 2 ^ 32 ->
    cyc_ms v - t < long_press_time p -> cyc_ms v - t < hold_delay_time p ->
    clicks p c i (Some t) vs n -> clicks p c i (Some t) (v :: vs) n
| clicks_release i t v vs n : key_sample c KEY_VALUE_UP v -> 0 <= cyc_ms v - t < 2 ^ 32 ->
    cyc_ms v - t <= single_click_valid_time p -> 0 <= i < 15 ->
    clicks p c (i + 1) None vs n -> clicks p c i (Some t) (v :: vs) n.

(** Every sample comes less than [d] after the one before. *)
Fixpoint paced (d t : Z) (vs : list sample) : Prop :=
  match vs with [] => True | v :: vs' => uptime v < t + d /\ paced d (uptime v) vs' end.

Definition ordered (p : input_dev_init_param) : Prop :=
  long_press_time p <= super_long_press_time p <= super_long_press_6s_time p.

Definition delay_of (p : input_dev_init_param) : Z := quickly_click_duration p + key_event_cancel_duration p.

(** No key is down and nothing is pending. *)
Definition idle (p : input_dev_init_param) (r : list Z) (s : sys) : Prop := at_click p 0 0 0 None r s.

Lemma idle_at p c dl r s : idle p r s <-> at_click p c 0 dl None r s.
Proof. split; intros []; split; try assumption; intros []; reflexivity. Qed.

(** During the series, and after its report. *)
Definition clicking (p : input_dev_init_param) (c n : Z) (r : list Z) (s : sys) (vs : list sample) : Prop :=
  (exists i dl down t, at_click p c i dl down r s /\ clicks p c i down vs n /\ (i <> 0 -> dl = t + delay_of p) /\ paced (delay_of p) t vs) \/
  (vs = [] /\ n <> 0 /\ idle p (Z.lor (get_click_key_type n) c :: r) s).

Lemma clicking_scan p c n r s v vs : ordered p -> 1 <= c < 256 -> clicking p c n r s (v :: vs) ->
  clicking p c n r (keypad_scan_callback v s) vs.
Proof.
  intros Ho Hc [(i & dl & down & t & Ha & Hs & Hdl & Hp)|(? & _)]; [|discriminate]. cbn [paced] in Hp. destruct Hp as [_ Hp].
  left. inversion Hs as [|? ? ? ? Hk Hcyc Hr|? ? ? ? ? Hk Hcyc Hl Hh Hr|? ? ? ? ? Hk Hcyc Hv Hi Hr]; subst.
  - exists i, (uptime v + delay_of p), (Some (cyc_ms v)), (uptime v).
    split; [exact (at_click_press _ _ _ _ _ _ _ Ha Hk Hc Hcyc)|]. auto.
  - exists i, (uptime v + delay_of p), (Some t0), (uptime v).
    split; [exact (at_click_keep _ _ _ _ _ _ _ _ Ha Hk Hc Hcyc Hl Hh Ho)|]. auto.
  - exists (i + 1), (uptime v + delay_of p), None, (uptime v).
    split; [exact (at_click_release _ _ _ _ _ _ _ _ Ha Hk Hc Hcyc Hv Hi)|]. auto.
Qed.

Lemma clicking_work p c n r s vs free t s1 : next_after t vs -> clicking p c n r s vs -> run_one free t s = Some s1 ->
  clicking p c n r s1 vs.
Proof.
  intros Ht [(i & dl & down & t0 & Ha & Hs & Hdl & Hp)|(-> & Hn & Ha)] E.
  - destruct (at_click_work _ _ _ _ _ _ _ _ _ _ Ha E) as [Ha'|(Hi & Hle & Ha')]; [left; exists i, dl, down, t0; auto|].
    destruct vs as [|v vs]; [|cbn [next_after paced] in *; specialize (Hdl Hi); lia].
    inversion Hs; subst. right. split; [reflexivity|]. split; [exact Hi|]. exact (proj2 (idle_at p c dl _ _) Ha').
  - right. split; [reflexivity|]. split; [exact Hn|].
    destruct (at_click_work _ _ _ _ _ _ _ _ _ _ Ha E) as [Ha'|(Hi & _)]; [exact Ha'|contradiction Hi; reflexivity].
Qed.

Lemma clicking_exec p c n r s vs s' : ordered p -> 1 <= c < 256 -> exec s vs s' -> clicking p c n r s vs -> clicking p c n r s' [].
Proof.
  intros Ho Hc H. induction H as [s|s v vs s' free _ _ IH|s vs s1 s' free t Ht E _ IH]; intros Hs.
  - exact Hs.
  - apply IH, clicking_scan; assumption.
  - apply IH. exact (clicking_work _ _ _ _ _ _ _ _ _ Ht Hs E).
Qed.

(** C20: a series of up to fifteen clicks of one key, each released in time and
    the samples close enough together, is reported by exactly one message in
    every execution: the type of that many clicks (single to quintuple, no type
    from the sixth on) with the code of the key; then the keypad is idle
    again. *)
Theorem keypad_clicks p c n r s t vs s' : ordered p -> 1 <= c < 256 -> 1 <= n ->
  idle p r s -> clicks p c 0 None vs n -> paced (delay_of p) t vs -> exec s vs s' -> report_work s' = None ->
  reports s' = Z.lor (get_click_key_type n) c :: r /\ idle p (reports s') s'.
Proof.
  intros Ho Hc Hn Hi Hs Hp He Hw.
  assert (Hstart : clicking p c n r s vs).
  { left. exists 0, 0, None, t. split; [exact (proj1 (idle_at p c 0 r s) Hi)|]. split; [exact Hs|]. split; [intros []; reflexivity|exact Hp]. }
  destruct (clicking_exec _ _ _ _ _ _ _ Ho Hc He Hstart) as [(i & dl & down & t0 & Ha & Hend & _)|(_ & _ & Ha)].
  - inversion Hend; subst. pose proof (ac_work _ _ _ _ _ _ _ Ha) as Hwork. rewrite Hw in Hwork.
    destruct (Z.eqb_spec n 0); [lia|discriminate].
  - pose proof (ac_reports _ _ _ _ _ _ _ Ha) as Hr. rewrite Hr. split; [reflexivity|exact Ha].
Qed.

Definition sample_dev (val t : Z) : sample := mk_sample 1 EV_KEY 9 val t t.
Definition sample_keypad : sys :=
  input_manager_unlock (input_keypad_device_init true (Some 7) true (mk_sys no_press default_param None None None false true None false [])).

Lemma sample_idle : idle default_param [] sample_keypad.
Proof. split; try reflexivity; intros []; reflexivity. Qed.

Definition double_click : list sample := [sample_dev 1 100; sample_dev 1 150; sample_dev 0 200; sample_dev 1 400; sample_dev 0 500].

Lemma double_click_ok : clicks default_param 9 0 None double_click 2 /\ paced 350 100 double_click.
Proof.
  split; [|cbn; lia].
  apply clicks_press; [repeat split|cbn; lia|]. apply clicks_keep; [repeat split|cbn; lia..|].
  apply clicks_release; [repeat split|cbn; lia..|]. apply clicks_press; [repeat split|cbn; lia|].
  apply clicks_release; [repeat split|cbn; lia..|]. apply clicks_end.
Qed.

(** [run] had enough fuel: no work was left before a sample. *)
Fixpoint run_complete (fuel : nat) (free : Z) (vs : list sample) (s : sys) : bool :=
  match vs with
  | [] => true
  | v :: vs' =>
      let s1 := advance fuel free (uptime v) s in
      match run_one free (uptime v) s1 with None => run_complete fuel free vs' (keypad_scan_callback v s1) | Some _ => false end
  end.

Lemma run_exec fuel free vs : forall s s', run_complete fuel free vs s = true -> exec (run fuel free vs s) [] s' -> exec s vs s'.
Proof.
  induction vs as [|v vs IH]; intros s s' Hf H; [exact H|]. cbn [run run_complete] in *.
  destruct (run_one free (uptime v) (advance fuel free (uptime v) s)) eqn:E; [discriminate|].
  apply (advance_exec fuel free (uptime v)); [cbn [next_after]; lia|]. apply (exec_scan _ _ _ _ free); [exact E|].
  apply IH; assumption.
Qed.

(** The state after the samples and the works due until [t]. *)
Definition run_until (t : Z) (vs : list sample) (s : sys) : sys := advance 50 40 t (run 50 40 vs s).

Lemma run_until_exec t vs s : run_complete 50 40 vs s = true -> exec s vs (run_until t vs s).
Proof.
  intros H. apply (run_exec 50 40); [exact H|]. apply (advance_exec 50 40 t); [exact I|]. apply exec_nil.
Qed.

Lemma keypad_clicks_witness : reports (run_until 1000 double_click sample_keypad) = [Z.lor KEY_TYPE_DOUBLE_CLICK 9].
Proof.
  apply (keypad_clicks default_param 9 2 [] sample_keypad 100 double_click (run_until 1000 double_click sample_keypad)).
  - split; cbn; lia.
  - lia.
  - lia.
  - exact sample_idle.
  - exact (proj1 double_click_ok).
  - exact (proj2 double_click_ok).
  - apply run_until_exec. vm_compute. reflexivity.
  - vm_compute. reflexivity.
Defined.

(** ** Long presses *)

(** 1, 2 and 3 for the three long presses. *)
Definition level (p : input_dev_init_param) (e : Z) : Z :=
  if super_long_press_6s_time p <=? e then 3
  else if super_long_press_time p <=? e then 2
  else if long_press_time p <=? e then 1 else 0.
Definition level_type (l : Z) : Z :=
  if l =? 1 then KEY_TYPE_LONG1S else if l =? 2 then KEY_TYPE_LONG3S else if l =? 3 then KEY_TYPE_LONG6S else 0.
Definition level_up (l : Z) : Z :=
  if l =? 1 then KEY_TYPE_LONG1S_UP else if l =? 2 then KEY_TYPE_LONG3S_UP else if l =? 3 then KEY_TYPE_LONG6S_UP else 0.

Lemma level_range p e : 0 <= level p e <= 3.
Proof. unfold level. repeat destruct (_ <=? _); lia. Qed.

Lemma four l : 0 <= l <= 3 -> l = 0 \/ l = 1 \/ l = 2 \/ l = 3.
Proof. lia. Qed.

Ltac by_level H := destruct (four _ H) as [->|[->|[->| ->]]].

(** A type of the upper half word with a code does not read as a held key. *)
Lemma code_hold k c : 0 <= k < 2 ^ 16 -> 0 <= c < 2 ^ 16 -> has (Z.lor (Z.shiftl k 16) c) KEY_TYPE_HOLD = has (Z.shiftl k 16) KEY_TYPE_HOLD.
Proof.
  intros Hk Hc. unfold has. f_equal. rewrite Z.land_lor_distr_l.
  replace (Z.land c KEY_TYPE_HOLD) with 0; [rewrite Z.lor_0_r; reflexivity|]. symmetry.
  apply Z.bits_inj'. intros i Hi. rewrite Z.land_spec, Z.bits_0. change KEY_TYPE_HOLD with (Z.shiftl 0x800 16).
  destruct (Z.ltb_spec i 16); [rewrite Z.shiftl_spec_low, andb_false_r by lia; reflexivity|].
  rewrite <- (Z.mod_small c (2 ^ 16)), Z.mod_pow2_bits_high by lia. reflexivity.
Qed.

Lemma level_report l c : 0 <= l <= 3 -> 0 <= c < 2 ^ 16 ->
  u32 (Z.lor (level_type l) c) = Z.lor (level_type l) c /\ has (Z.lor (level_type l) c) KEY_TYPE_HOLD = false /\
  u32 (Z.lor (level_up l) c) = Z.lor (level_up l) c /\ has (Z.lor (level_up l) c) KEY_TYPE_HOLD = false.
Proof.
  intros Hl Hc. assert (exists a b, 0 <= a < 2 ^ 16 /\ 0 <= b < 2 ^ 16 /\ level_type l = Z.shiftl a 16 /\ level_up l = Z.shiftl b 16 /\
    has (level_type l) KEY_TYPE_HOLD = false /\ has (level_up l) KEY_TYPE_HOLD = false) as (a & b & Ha & Hb & Ea & Eb & Fa & Fb).
  { exists (level_type l / 2 ^ 16), (level_up l / 2 ^ 16). by_level Hl; vm_compute; repeat split; congruence. }
  rewrite Ea in *. rewrite Eb in *. rewrite !code_hold, !u32_small by (try apply type_code_range; assumption). auto.
Qed.

Lemma hold_report c : 0 <= c < 2 ^ 16 -> has (Z.lor KEY_TYPE_HOLD c) KEY_TYPE_HOLD = true.
Proof. intros Hc. change (Z.lor KEY_TYPE_HOLD c) with (Z.lor (Z.shiftl 0x800 16) c). rewrite code_hold by lia. reflexivity. Qed.

(** While key [c] is held, or after it was released: [ty] is the type of the
    press, [q] when its report is due, [r] what was reported but for
    repetitions. *)
Record at_long (p : input_dev_init_param) (c t0 ty pc : Z) (q : option Z) (r : list Z) (s : sys) : Prop := mk_at_long {
  al_param : param s = p;
  al_code : press_code (keypad s) = pc;
  al_timer : pc <> 0 -> press_timer (keypad s) = t0;
  al_num : click_num (keypad s) = 0;
  al_type : press_type (keypad s) = ty;
  al_work : report_work s = q;
  al_last : q <> None -> last_report_key_value (keypad s) = Z.lor ty c;
  al_combo : combo_mode (keypad s) = false;
  al_filter : filter_itself (keypad s) = false;
  al_locked : locked s = false;
  al_reports : key_reports s = r
}.

Lemma key_reports_emit k s : key_reports (emit (Report k) s) = if has k KEY_TYPE_HOLD then key_reports s else k :: key_reports s.
Proof.
  unfold key_reports, reports. kcbn. cbn [omap list_omap]. destruct (has k KEY_TYPE_HOLD) eqn:E.
  - rewrite filter_cons_False; [reflexivity|congruence].
  - rewrite filter_cons_True; [reflexivity|exact E].
Qed.

Lemma key_reports_callback k s : key_reports (emit (Callback k) s) = key_reports s.
Proof. reflexivity. Qed.

(** The types of long presses hold no click, and only the ones of a release are
    cleared by their report. *)
Lemma at_long_work p c t0 ty pc q r s free t s1 : 0 <= pc < 2 ^ 16 ->
  has ty CLICK_MASK = false -> has (Z.lor ty c) KEY_TYPE_HOLD = false ->
  at_long p c t0 ty pc q r s -> run_one free t s = Some s1 ->
  at_long p c t0 ty pc q r s1 \/
  (exists d, q = Some d /\ at_long p c t0 (if has ty LONG_UP_MASK then 0 else ty) pc None (Z.lor ty c :: r) s1).
Proof.
  intros Hpc Hclick Hnh [] E. apply run_one_cases in E as [(d & Hd & _ & ->)|[(h & Hh & _ & ->)|(cb & Hcb & _ & ->)]].
  - right. exists d. split; [congruence|]. unfold report_key_event_work_handle. kcbn. rewrite al_type0, Hclick.
    assert (Hl : last_report_key_value (keypad s) = Z.lor ty c) by (apply al_last0; congruence).
    destruct (has ty LONG_UP_MASK); kcbn; rewrite al_filter0; split; kcbn; try assumption; try reflexivity; try congruence;
      rewrite key_reports_emit, Hl, Hnh; f_equal; exact al_reports0.
  - left. unfold check_hold_key_work_handle. kcbn. destruct (key_hold (keypad s)); kcbn; [|split; assumption].
    rewrite al_locked0, al_code0. kcbn. destruct (Z.eqb_spec (Z.lor KEY_TYPE_HOLD pc) 0); kcbn; [split; assumption|].
    rewrite al_filter0. destruct (free <=? _); split; kcbn; try assumption.
    rewrite key_reports_emit, hold_report by assumption. exact al_reports0.
  - left. unfold callback_key_event_work_handle. kcbn. destruct (event_cb s); split; assumption.
Qed.

(** A sample of the held key. *)
Lemma at_long_keep p c t0 l r s v : at_long p c t0 (level_type l) c None r s -> key_sample c KEY_VALUE_DOWN v -> 1 <= c < 256 ->
  0 <= l <= level p (u32 (cyc_ms v - t0)) ->
  at_long p c t0 (level_type (level p (u32 (cyc_ms v - t0)))) c (if level p (u32 (cyc_ms v - t0)) =? l then None else Some (uptime v)) r
    (keypad_scan_callback v s).
Proof.
  intros [] (Ht & Hc & Hv) Hr Hl. unfold keypad_scan_callback. rewrite Ht, Hv.
  change (EV_KEY =? EV_KEY) with true. change (KEY_VALUE_DOWN =? KEY_VALUE_UP) with false.
  change (KEY_VALUE_DOWN =? KEY_VALUE_DOWN) with true. cbn [negb]. unfold scan_down. rewrite Hc, al_code0, (low_small c), Z.eqb_refl by lia.
  cbn [negb andb]. unfold keep_key. rewrite al_timer0, al_param0 by lia. set (w := u32 (cyc_ms v - t0)) in *.
  pose proof (level_range p w) as Hlr.
  assert (Hu : u16 c = c) by (apply u16_small; lia).
  set (e := level p w) in *.
  assert (Hlong : forall k, 1 <= k <= 3 -> l <= k ->
    long_press (level_type k) s = if k =? l then (false, s) else (true, upd (set_press_type (level_type k)) (upd (set_report_press_code c) s))).
  { intros k Hk Hlk. unfold long_press. rewrite al_type0, al_num0, al_code0. change (get_click_key_type 0) with 0.
    assert (Hl3 : 0 <= l <= 3) by lia. assert (Hk3 : 0 <= k <= 3) by lia. by_level Hl3; by_level Hk3; try lia; reflexivity. }
  assert (Hdisp : (if super_long_press_6s_time p <=? w then long_press KEY_TYPE_LONG6S s
    else if super_long_press_time p <=? w then long_press KEY_TYPE_LONG3S s
    else if long_press_time p <=? w then long_press KEY_TYPE_LONG1S s else (false, s)) =
    if e =? l then (false, s) else (true, upd (set_press_type (level_type e)) (upd (set_report_press_code c) s))).
  { unfold e, level in *. destruct (super_long_press_6s_time p <=? w); [apply (Hlong 3); lia|].
    destruct (super_long_press_time p <=? w); [apply (Hlong 2); lia|].
    destruct (long_press_time p <=? w); [apply (Hlong 1); lia|].
    assert (l = 0) as -> by lia. reflexivity. }
  rewrite Hdisp. clear Hdisp Hlong.
  destruct (level_report e c Hlr ltac:(lia)) as (R1 & _ & _ & _).
  assert (Hlm : e <> l -> has (level_type e) (Z.lor LONG_MASK LONG_UP_MASK) = true /\ u32 (level_type e) = level_type e).
  { intros Hne. assert (He3 : 1 <= e) by lia. by_level Hlr; try lia; split; reflexivity. }
  destruct (Z.eqb_spec e l) as [Eel|Hne].
  - rewrite Eel. set (s2 := start_hold v _ s).
    assert (H2 : at_long p c t0 (level_type l) c None r s2) by (unfold s2, start_hold; destruct (_ && _); split; assumption).
    clearbody s2. destruct H2. unfold scan_report. rewrite Hv. change (KEY_VALUE_DOWN =? KEY_VALUE_DOWN) with true.
    destruct (event_cb s2); kcbn; rewrite al_num1; change (0 =? 0) with true; kcbn; split; kcbn; assumption.
  - destruct (Hlm Hne) as [Hlm1 Hlm2]. set (s1 := upd (set_press_type (level_type e)) (upd (set_report_press_code c) s)).
    set (s2 := start_hold v _ s1).
    assert (H2 : keypad s2 = set_key_hold (key_hold (keypad s2)) (keypad s1) /\ param s2 = p /\ report_work s2 = None /\ locked s2 = false /\
      key_reports s2 = r /\ event_cb s2 = event_cb s).
    { unfold s2, s1, start_hold. destruct (_ && _); kcbn; repeat split; assumption. }
    clearbody s2. destruct H2 as (K & Hp & Hw & Hlk & Hkr & Hev).
    unfold scan_report. rewrite Hv. change (KEY_VALUE_DOWN =? KEY_VALUE_DOWN) with true.
    destruct (event_cb s2); kcbn; rewrite K; unfold s1; kcbn; rewrite al_num0; change (0 =? 0) with true; kcbn;
      rewrite K, Hlk; unfold s1; kcbn; rewrite Hlm2, Hlm1, Hu; split; kcbn; try assumption; try reflexivity; try (rewrite R1; reflexivity);
      rewrite K; unfold s1; kcbn; assumption.
Qed.

(** The release of a key that was held for a long press. *)
Lemma at_long_release p c t0 l r s v : at_long p c t0 (level_type l) c None r s -> key_sample c KEY_VALUE_UP v -> 1 <= c < 256 ->
  1 <= l <= 3 -> at_long p c t0 (level_up l) 0 (Some (uptime v)) r (keypad_scan_callback v s).
Proof.
  intros [] (Ht & Hc & Hv) Hr Hl. unfold keypad_scan_callback. rewrite Ht, Hv.
  change (EV_KEY =? EV_KEY) with true. change (KEY_VALUE_UP =? KEY_VALUE_UP) with true. cbn [negb].
  assert (Hu : u16 c = c) by (apply u16_small; lia). assert (Hl3 : 0 <= l <= 3) by lia.
  destruct (level_report l c Hl3 ltac:(lia)) as (_ & _ & R1 & _).
  unfold scan_up. rewrite (release_code_single c) by (assumption || lia). cbn [negb].
  set (s1 := upd (set_key_hold false) (upd (set_press_code 0) (upd (set_report_press_code c) s))).
  assert (Hrt : release_type v s1 = upd (set_press_type (level_up l)) s1).
  { unfold release_type, s1. kcbn. rewrite al_type0. by_level Hl3; try lia; reflexivity. }
  rewrite Hrt. unfold s1. kcbn.
  assert (Hm : has (level_up l) LONG_UP_MASK = true /\ has (level_up l) (Z.lor LONG_MASK LONG_UP_MASK) = true /\ u32 (level_up l) = level_up l)
    by (by_level Hl3; try lia; repeat split; reflexivity).
  destruct Hm as (M1 & M2 & M3). rewrite M3, M1. unfold scan_report. rewrite Hv. change (KEY_VALUE_UP =? KEY_VALUE_DOWN) with false.
  destruct (event_cb _); kcbn; rewrite al_locked0, M3, M2, Hu;
    (split; kcbn; [exact al_param0|reflexivity|intros []; reflexivity|exact al_num0|exact M3|reflexivity|intros _; exact R1
                  |exact al_combo0|exact al_filter0|exact al_locked0|exact al_reports0]).
Qed.

(** The samples of key [c] held from [t0] on, after long press [l] was reached,
    and the reports they make: one for each further long press and one for
    the release. *)
Inductive held (p : input_dev_init_param) (c t0 : Z) : Z -> list sample -> list Z -> Prop :=
| held_keep l v vs rs : key_sample c KEY_VALUE_DOWN v -> 0 <= cyc_ms v - t0 < 2 ^ 32 -> l <= level p (cyc_ms v - t0) ->
    held p c t0 (level p (cyc_ms v - t0)) vs rs ->
    held p c t0 l (v :: vs)
      (if level p (cyc_ms v - t0) =? l then rs else Z.lor (level_type (level p (cyc_ms v - t0))) c :: rs)
| held_release l v : key_sample c KEY_VALUE_UP v -> 1 <= l -> held p c t0 l [v] [Z.lor (level_up l) c].

Fixpoint rising (t : Z) (vs : list sample) : Prop :=
  match vs with [] => True | v :: vs' => t <= uptime v /\ rising (uptime v) vs' end.

(** A report that is still due. *)
Definition pending (q : option Z) (x : Z) : list Z := match q with Some _ => [x] | None => [] end.

(** While the key is held, and after its release; [all] is what will have been
    reported in the end. *)
Definition holding (p : input_dev_init_param) (c t0 : Z) (all : list Z) (s : sys) (vs : list sample) : Prop :=
  (exists l q t r rs, 0 <= l <= 3 /\ at_long p c t0 (level_type l) c q r s /\ held p c t0 l vs rs /\ rising t vs /\
     (q = None \/ q = Some t) /\ all = rev rs ++ pending q (Z.lor (level_type l) c) ++ r) \/
  (exists l (q : option Z) r, vs = [] /\ 1 <= l <= 3 /\ at_long p c t0 (match q with Some _ => level_up l | None => 0 end) 0 q r s /\ all = pending q (Z.lor (level_up l) c) ++ r).

Lemma holding_scan p c t0 all s v vs free : 1 <= c < 256 -> run_one free (uptime v) s = None ->
  holding p c t0 all s (v :: vs) -> holding p c t0 all (keypad_scan_callback v s) vs.
Proof.
  intros Hc Hn [(l & q & t & r & rs & Hl & Ha & Hh & Hr & Hq & ->)|(? & ? & ? & ? & _)]; [|discriminate].
  cbn [rising] in Hr. destruct Hr as [Hle Hr].
  assert (q = None) as ->.
  { destruct Hq as [->| ->]; [reflexivity|]. pose proof (run_one_none _ _ _ Hn _ (al_work _ _ _ _ _ _ _ _ Ha)). lia. }
  inversion Hh as [l0 v0 vs0 rs0 Hk He Hlv Hrest|l0 v0 Hk Hl1]; subst.
  - left. pose proof (at_long_keep p c t0 l r s v Ha Hk Hc) as Ha'. rewrite u32_small in Ha' by lia. specialize (Ha' (conj (proj1 Hl) Hlv)). pose proof (level_range p (cyc_ms v - t0)) as Hlr.
    destruct (Z.eqb_spec (level p (cyc_ms v - t0)) l) as [El|Hne].
    + exists (level p (cyc_ms v - t0)), None, (uptime v), r, rs0. rewrite El in *. auto 12.
    + exists (level p (cyc_ms v - t0)), (Some (uptime v)), (uptime v), r, rs0.
      split; [exact Hlr|]. split; [exact Ha'|]. split; [exact Hrest|]. split; [exact Hr|]. split; [right; reflexivity|].
      cbn [pending rev app]. rewrite <- app_assoc. reflexivity.
  - right. exists l, (Some (uptime v)), r. split; [reflexivity|]. split; [lia|].
    split; [exact (at_long_release _ _ _ _ _ _ _ Ha Hk Hc ltac:(lia))|reflexivity].
Qed.

Lemma holding_work p c t0 all s vs free t s1 : 1 <= c < 256 -> holding p c t0 all s vs -> run_one free t s = Some s1 ->
  holding p c t0 all s1 vs.
Proof.
  intros Hc [(l & q & t1 & r & rs & Hl & Ha & Hh & Hr & Hq & ->)|(l & q & r & -> & Hl & Ha & ->)] E.
  - destruct (level_report l c Hl ltac:(lia)) as (_ & R1 & _ & _).
    assert (Hck : has (level_type l) CLICK_MASK = false /\ has (level_type l) LONG_UP_MASK = false) by (by_level Hl; split; reflexivity).
    destruct (at_long_work p c t0 (level_type l) c q r s free t s1 ltac:(lia) (proj1 Hck) R1 Ha E) as [Ha'|(d & -> & Ha')];
      [left; exists l, q, t1, r, rs; auto 12|].
    rewrite (proj2 Hck) in Ha'. left. exists l, None, t1, (Z.lor (level_type l) c :: r), rs. auto 12.
  - assert (Hl3 : 0 <= l <= 3) by lia. destruct (level_report l c Hl3 ltac:(lia)) as (_ & _ & _ & R2).
    assert (Hck : has (level_up l) CLICK_MASK = false /\ has (level_up l) LONG_UP_MASK = true) by (by_level Hl3; try lia; split; reflexivity).
    destruct q as [d|].
    + destruct (at_long_work p c t0 (level_up l) 0 (Some d) r s free t s1 ltac:(lia) (proj1 Hck) R2 Ha E) as [Ha'|(d' & _ & Ha')];
        right; [exists l, (Some d), r; auto 12|]. rewrite (proj2 Hck) in Ha'. exists l, None, (Z.lor (level_up l) c :: r). auto 12.
    + assert (Hz : has (Z.lor 0 c) KEY_TYPE_HOLD = false) by (destruct (level_report 0 c ltac:(lia) ltac:(lia)) as (_ & R & _ & _); exact R).
      destruct (at_long_work p c t0 0 0 None r s free t s1 ltac:(lia) eq_refl Hz Ha E) as [Ha'|(d' & ? & _)]; [|discriminate].
      right. exists l, None, r. auto 12.
Qed.

Lemma holding_exec p c t0 all s vs s' : 1 <= c < 256 -> exec s vs s' -> holding p c t0 all s vs -> holding p c t0 all s' [].
Proof.
  intros Hc H. induction H as [s|s v vs s' free Hn _ IH|s vs s1 s' free t Ht E _ IH]; intros Hs; [exact Hs| |].
  - apply IH. exact (holding_scan _ _ _ _ _ _ _ _ Hc Hn Hs).
  - apply IH. exact (holding_work _ _ _ _ _ _ _ _ _ Hc Hs E).
Qed.

(** C21: a key that goes down on an idle keypad, is sampled while it is held and
    released after a long press is reported in every execution, but for the
    repetitions of a held key, by one message for each of the long presses its
    samples reached, in the order of their times, and one for the release that
    names the last of them; then the keypad has no type left over. *)
Theorem keypad_long_press p c r s v vs rs s' : ordered p -> 1 <= c < 256 -> idle p r s ->
  key_sample c KEY_VALUE_DOWN v -> 0 <= cyc_ms v < 2 ^ 32 -> held p c (cyc_ms v) 0 vs rs -> rising (uptime v) vs ->
  exec (keypad_scan_callback v s) vs s' -> report_work s' = None ->
  key_reports s' = rev rs ++ key_reports s /\ press_type (keypad s') = 0 /\ press_code (keypad s') = 0.
Proof.
  intros Ho Hc Hi Hk Hcyc Hh Hr He Hw.
  pose proof (at_click_press p c 0 0 r s v (proj1 (idle_at p c 0 r s) Hi) Hk Hc Hcyc) as [].
  assert (Hkr : key_reports (keypad_scan_callback v s) = key_reports s).
  { unfold key_reports. f_equal. rewrite ac_reports0. symmetry. exact (ac_reports _ _ _ _ _ _ _ Hi). }
  assert (Hstart : holding p c (cyc_ms v) (rev rs ++ key_reports s) (keypad_scan_callback v s) vs).
  { left. exists 0, None, (uptime v), (key_reports s), rs. split; [lia|]. split; [|split; [exact Hh|]; split; [exact Hr|]; auto].
    split; try assumption; [intros _; exact ac_timer0|congruence]. }
  destruct (holding_exec _ _ _ _ _ _ _ Hc He Hstart) as [(l & q & t & r' & rs' & _ & _ & Hend & _)|(l & q & r' & _ & _ & Ha & E)];
    [inversion Hend|].
  destruct q as [d|]; [pose proof (al_work _ _ _ _ _ _ _ _ Ha); congruence|].
  rewrite E, (al_reports _ _ _ _ _ _ _ _ Ha), (al_type _ _ _ _ _ _ _ _ Ha), (al_code _ _ _ _ _ _ _ _ Ha). auto.
Qed.

Definition long_press_samples : list sample :=
  [sample_dev 1 300; sample_dev 1 600; sample_dev 1 900; sample_dev 1 2200; sample_dev 0 2300].

Lemma keypad_long_press_witness :
  key_reports (run_until 5000 long_press_samples (keypad_scan_callback (sample_dev 1 100) sample_keypad)) =
  [Z.lor KEY_TYPE_LONG3S_UP 9; Z.lor KEY_TYPE_LONG3S 9; Z.lor KEY_TYPE_LONG1S 9].
Proof.
  apply (keypad_long_press default_param 9 [] sample_keypad (sample_dev 1 100) long_press_samples
    [Z.lor KEY_TYPE_LONG1S 9; Z.lor KEY_TYPE_LONG3S 9; Z.lor KEY_TYPE_LONG3S_UP 9]).
  - split; cbn; lia.
  - lia.
  - exact sample_idle.
  - repeat split.
  - cbn. lia.
  - assert (Hkeep : forall l t vs rs, 100 <= t < 4294967 -> l <= level default_param (t - 100) ->
      held default_param 9 100 (level default_param (t - 100)) vs rs ->
      held default_param 9 100 l (sample_dev 1 t :: vs)
        (if level default_param (t - 100) =? l then rs else Z.lor (level_type (level default_param (t - 100))) 9 :: rs)).
    { intros l t vs rs Ht Hl Hrest. apply (held_keep default_param 9 100 l (sample_dev 1 t)); try assumption; [repeat split|cbn [cyc_ms sample_dev]; lia]. }
    apply (Hkeep 0 300); [lia|vm_compute; discriminate|]. apply (Hkeep 0 600 _ [_; _]); [lia|vm_compute; discriminate|].
    apply (Hkeep 1 900); [lia|vm_compute; discriminate|]. apply (Hkeep 1 2200 _ [_]); [lia|vm_compute; discriminate|].
    apply (held_release default_param 9 100 2 (sample_dev 0 2300)); [repeat split|lia].
  - cbn. lia.
  - apply run_until_exec. vm_compute. reflexivity.
  - vm_compute. reflexivity.
Defined.

(** ** Combinations of two keys *)

(** Keys are down: [pc] is the code, [two] whether there are two, [st0] and
    [st1] which of them is still down. *)
Record at_combo (p : input_dev_init_param) (pc : Z) (two : bool) (t st0 st1 : Z) (r : list Z) (s : sys) : Prop := mk_at_combo {
  co_param : param s = p;
  co_code : press_code (keypad s) = pc;
  co_two : combo_mode (keypad s) = two;
  co_low : combo_state_0 (keypad s) = st0;
  co_high : two = true -> combo_state_1 (keypad s) = st1;
  co_timer : press_timer (keypad s) = t;
  co_num : click_num (keypad s) = 0;
  co_type : press_type (keypad s) = 0;
  co_work : report_work s = None;
  co_hold : key_hold (keypad s) = false;
  co_holdw : hold_key_work s = None;
  co_filter : filter_itself (keypad s) = false;
  co_locked : locked s = false;
  co_reports : reports s = r
}.

Lemma at_combo_work p pc two t st0 st1 r s free t1 s1 : at_combo p pc two t st0 st1 r s -> run_one free t1 s = Some s1 ->
  at_combo p pc two t st0 st1 r s1.
Proof.
  intros [] E. apply run_one_cases in E as [(x & Hx & _)|[(h & Hh & _)|(cb & _ & _ & ->)]]; [congruence|congruence|].
  unfold callback_key_event_work_handle. kcbn. destruct (event_cb s); split; assumption.
Qed.

(** The end of a scan that needs no report. *)
Lemma at_combo_end p pc two t st0 st1 r s v : at_combo p pc two t st0 st1 r s -> at_combo p pc two t st0 st1 r (scan_report v false s).
Proof.
  intros []. unfold scan_report.
  destruct (event_cb s); kcbn; rewrite co_num0; change (0 =? 0) with true; rewrite andb_false_r; split; assumption.
Qed.

Definition plain_dev (v : sample) (s : sys) : Prop := is_lradc_input_dev s (dev v) = false.

Lemma at_combo_first p r s v a : idle p r s -> key_sample a KEY_VALUE_DOWN v -> 1 <= a < 256 -> 0 <= cyc_ms v < 2 ^ 32 ->
  at_combo p a false (cyc_ms v) KEY_VALUE_DOWN 0 r (keypad_scan_callback v s).
Proof.
  intros [] (Ht & Hc & Hv) Ha Hcyc. unfold keypad_scan_callback. rewrite Ht, Hv.
  change (EV_KEY =? EV_KEY) with true. change (KEY_VALUE_DOWN =? KEY_VALUE_UP) with false.
  change (KEY_VALUE_DOWN =? KEY_VALUE_DOWN) with true. cbn [negb]. unfold scan_down. rewrite Hc, ac_code0.
  change (low 0) with 0. change (high 0) with 0. destruct (Z.eqb_spec a 0); [lia|]. cbn [negb andb].
  apply at_combo_end. unfold press_key. rewrite ac_code0, Hc. change (low 0 =? 0) with true. cbn [orb].
  destruct (is_lradc_input_dev s (dev v)); split; kcbn; try assumption; try reflexivity; try discriminate;
    first [apply u16_small; lia | apply u32_small; lia].
Qed.

(** The code of a combination, whichever key went down first. *)
Definition combo_code (a b : Z) : Z := Z.lor (Z.shiftl (Z.min a b) 8) (Z.max a b).

Lemma combo_code_parts a b : 1 <= a < 256 -> 1 <= b < 256 ->
  low (combo_code a b) = Z.max a b /\ high (combo_code a b) = Z.min a b /\ 0 <= combo_code a b < 2 ^ 16.
Proof.
  intros Ha Hb. unfold combo_code, low, high. rewrite lor_shiftl_add by lia. change 0xff with (Z.ones 8).
  rewrite !Z.land_ones, Z.shiftr_div_pow2 by lia. Z.div_mod_to_equations. lia.
Qed.

Lemma at_combo_second p r s v a b t : at_combo p a false t KEY_VALUE_DOWN 0 r s -> key_sample b KEY_VALUE_DOWN v -> plain_dev v s ->
  1 <= a < 256 -> 1 <= b < 256 -> a <> b -> 0 <= cyc_ms v < 2 ^ 32 ->
  at_combo p (combo_code a b) true (cyc_ms v) KEY_VALUE_DOWN KEY_VALUE_DOWN r (keypad_scan_callback v s).
Proof.
  intros [] (Ht & Hc & Hv) Hd Ha Hb Hne Hcyc. unfold keypad_scan_callback. rewrite Ht, Hv.
  change (EV_KEY =? EV_KEY) with true. change (KEY_VALUE_DOWN =? KEY_VALUE_UP) with false.
  change (KEY_VALUE_DOWN =? KEY_VALUE_DOWN) with true. cbn [negb]. unfold scan_down. rewrite Hc, co_code0, (low_small a), (high_small a) by lia.
  destruct (Z.eqb_spec b a); [lia|]. destruct (Z.eqb_spec b 0); [lia|]. cbn [negb andb].
  apply at_combo_end. unfold press_key. unfold plain_dev in Hd. rewrite Hd, co_code0, Hc, (low_small a), (high_small a) by lia.
  destruct (Z.eqb_spec a 0); [lia|]. rewrite !andb_false_r. cbn [orb andb negb]. change (0 =? 0) with true. cbn [andb].
  assert (Hcode : (if a <? b then Z.lor (Z.shiftl a 8) b else Z.lor (Z.shiftl b 8) a) = combo_code a b).
  { unfold combo_code. destruct (Z.ltb_spec a b).
    - rewrite Z.min_l, Z.max_r by lia. reflexivity.
    - rewrite Z.min_r, Z.max_l by lia. reflexivity. }
  rewrite Hcode. destruct (combo_code_parts a b Ha Hb) as (_ & _ & Hr).
  split; kcbn; try assumption; try reflexivity; first [apply u16_small; lia | apply u32_small; lia].
Qed.

(** One of the two is released. *)
Lemma at_combo_one_up p r s v a b t x : at_combo p (combo_code a b) true t KEY_VALUE_DOWN KEY_VALUE_DOWN r s ->
  key_sample x KEY_VALUE_UP v -> plain_dev v s -> 1 <= a < 256 -> 1 <= b < 256 -> a <> b -> x = a \/ x = b ->
  at_combo p (combo_code a b) true t (if x =? Z.max a b then KEY_VALUE_UP else KEY_VALUE_DOWN)
    (if x =? Z.max a b then KEY_VALUE_DOWN else KEY_VALUE_UP) r (keypad_scan_callback v s).
Proof.
  intros [] (Ht & Hc & Hv) Hd Ha Hb Hne Hx. unfold keypad_scan_callback. rewrite Ht, Hv.
  change (EV_KEY =? EV_KEY) with true. change (KEY_VALUE_UP =? KEY_VALUE_UP) with true. cbn [negb].
  destruct (combo_code_parts a b Ha Hb) as (E1 & E2 & Hr). specialize (co_high0 eq_refl).
  unfold scan_up, release_code. rewrite co_two0, co_code0, E1, E2, Hc. kcbn. unfold plain_dev in Hd.
  rewrite (Z.eqb_sym (Z.max a b) x). destruct (Z.eqb_spec x (Z.max a b)) as [Ex|Ex]; kcbn.
  - unfold is_lradc_input_dev in *. kcbn. rewrite Hd. kcbn. rewrite co_high0.
    change (KEY_VALUE_UP =? KEY_VALUE_DOWN) with false. kcbn.
    split; kcbn; try assumption; try (intros _; assumption); reflexivity.
  - destruct (Z.eqb_spec (Z.min a b) x); [|lia]. unfold is_lradc_input_dev in *. kcbn. rewrite Hd. kcbn. rewrite co_low0.
    change (KEY_VALUE_DOWN =? KEY_VALUE_UP) with false. kcbn.
    split; kcbn; try assumption; try (intros _; assumption); reflexivity.
Qed.

(** The other one is released. *)
Lemma at_combo_two_up p r s v a b t x y : at_combo p (combo_code a b) true t (if x =? Z.max a b then KEY_VALUE_UP else KEY_VALUE_DOWN)
    (if x =? Z.max a b then KEY_VALUE_DOWN else KEY_VALUE_UP) r s ->
  key_sample y KEY_VALUE_UP v -> plain_dev v s -> 1 <= a < 256 -> 1 <= b < 256 -> a <> b -> (x = a /\ y = b) \/ (x = b /\ y = a) ->
  0 <= cyc_ms v - t < 2 ^ 32 -> cyc_ms v - t <= single_click_valid_time p ->
  at_click p (combo_code a b) 1 (uptime v + delay_of p) None r (keypad_scan_callback v s).
Proof.
  intros [] (Ht & Hc & Hv) Hd Ha Hb Hne Hxy Hcyc Hvalid. unfold keypad_scan_callback. rewrite Ht, Hv.
  change (EV_KEY =? EV_KEY) with true. change (KEY_VALUE_UP =? KEY_VALUE_UP) with true. cbn [negb].
  destruct (combo_code_parts a b Ha Hb) as (E1 & E2 & Hr). specialize (co_high0 eq_refl).
  assert (Hu : u16 (combo_code a b) = combo_code a b) by (apply u16_small; lia).
  assert (Hrc : exists s0, release_code v s = (true, s0) /\ keypad s0 = mk_keypad 0 0 (combo_code a b) (report_key_value (keypad s))
      (last_report_key_value (keypad s)) (callback_key_value (keypad s)) (report_stamp (keypad s)) t (last_lradc_key_code (keypad s)) 0 false false false 0 0 /\
    param s0 = p /\ report_work s0 = None /\ hold_key_work s0 = None /\ locked s0 = false /\ reports s0 = r).
  { unfold release_code. rewrite co_two0, co_code0, E1, E2, Hc. kcbn. unfold plain_dev in Hd.
    destruct (Z.eqb_spec (Z.max a b) y) as [Ey|Ey]; kcbn.
    - destruct (Z.eqb_spec x (Z.max a b)); [lia|]. unfold is_lradc_input_dev in *. kcbn. rewrite Hd. kcbn. rewrite co_high0.
      change (KEY_VALUE_UP =? KEY_VALUE_UP) with true. kcbn. eexists. split; [reflexivity|]. kcbn.
      split; [unfold set_press_code, set_combo, set_report_press_code, set_combo_0, set_combo_1; kcbn;
        rewrite Hu, co_type0, co_num0, co_hold0, co_filter0, co_timer0, co_high0; reflexivity|repeat split; assumption].
    - destruct (Z.eqb_spec (Z.min a b) y); [|lia]. destruct (Z.eqb_spec x (Z.max a b)); [|lia].
      unfold is_lradc_input_dev in *. kcbn. rewrite Hd. kcbn. rewrite co_low0.
      change (KEY_VALUE_UP =? KEY_VALUE_UP) with true. kcbn. eexists. split; [reflexivity|]. kcbn.
      split; [unfold set_press_code, set_combo, set_report_press_code, set_combo_0, set_combo_1; kcbn;
        rewrite Hu, co_type0, co_num0, co_hold0, co_filter0, co_timer0, co_low0; reflexivity|repeat split; assumption]. }
  destruct Hrc as (s0 & Erc & K & Hp & Hw & Hh & Hl & Hrp). unfold scan_up. rewrite Erc. cbn [negb].
  destruct (release_type_click 0 v (upd (set_key_hold false) s0)) as [w Hrt]; [kcbn; rewrite K; reflexivity..|lia|intros []; reflexivity|].
  rewrite Hrt. kcbn. rewrite K, Hp. kcbn. change (u32 (get_click_key_type (0 + 1))) with KEY_TYPE_SHORT_UP.
  change (has KEY_TYPE_SHORT_UP LONG_UP_MASK) with false. rewrite u32_small by lia.
  destruct (Z.leb_spec (cyc_ms v - t) (single_click_valid_time p)); [|lia].
  assert (Hrep : u32 (Z.lor KEY_TYPE_SHORT_UP (combo_code a b)) = Z.lor KEY_TYPE_SHORT_UP (combo_code a b)) by (apply (click_report_u32 1); lia).
  unfold scan_report, click_delay. rewrite Hv. change (KEY_VALUE_UP =? KEY_VALUE_DOWN) with false.
  destruct (event_cb _); kcbn; rewrite Hl, K; kcbn; change (u32 (get_click_key_type (0 + 1))) with KEY_TYPE_SHORT_UP;
    change (has KEY_TYPE_SHORT_UP (Z.lor LONG_MASK LONG_UP_MASK)) with false;
    (split; kcbn; try assumption; try reflexivity; try (intros _; exact Hrep); try (rewrite K; reflexivity); unfold delay_of; rewrite Hp; reflexivity).
Qed.

(** The device of the ADC keys is not changed by samples and works. *)
Lemma scan_report_adckey v need s : adckey (scan_report v need s) = adckey s.
Proof. unfold scan_report. repeat (kcbn; case_match); reflexivity. Qed.

Lemma scan_adckey v s : adckey (keypad_scan_callback v s) = adckey s.
Proof.
  unfold keypad_scan_callback. destruct (negb _); [reflexivity|]. destruct (value v =? KEY_VALUE_UP).
  - unfold scan_up, release_code, release_type. repeat (kcbn; case_match; simplify_eq); rewrite ?scan_report_adckey; reflexivity.
  - destruct (value v =? KEY_VALUE_DOWN); [|apply scan_report_adckey].
    unfold scan_down, press_key, keep_key, long_press, start_hold.
    repeat (kcbn; case_match; simplify_eq); rewrite ?scan_report_adckey; reflexivity.
Qed.

Lemma work_adckey free t s s1 : run_one free t s = Some s1 -> adckey s1 = adckey s.
Proof.
  intros E. apply run_one_cases in E as [(x & _ & _ & ->)|[(h & _ & _ & ->)|(cb & _ & _ & ->)]].
  - unfold report_key_event_work_handle. repeat (kcbn; case_match); reflexivity.
  - unfold check_hold_key_work_handle. repeat (kcbn; case_match; simplify_eq); reflexivity.
  - unfold callback_key_event_work_handle. repeat (kcbn; case_match); reflexivity.
Qed.

(** A key that is down is sampled again, too early for a long press. *)
Lemma at_combo_keep p pc two t st0 st1 r s v x : at_combo p pc two t st0 st1 r s -> key_sample x KEY_VALUE_DOWN v ->
  x = low pc \/ x = high pc -> 0 <= cyc_ms v - t < 2 ^ 32 -> cyc_ms v - t < long_press_time p -> cyc_ms v - t < hold_delay_time p ->
  ordered p -> at_combo p pc two t st0 st1 r (keypad_scan_callback v s).
Proof.
  intros H (Ht & Hc & Hv) Hx Hcyc Hl Hh [O1 O2]. unfold keypad_scan_callback. rewrite Ht, Hv.
  change (EV_KEY =? EV_KEY) with true. change (KEY_VALUE_DOWN =? KEY_VALUE_UP) with false.
  change (KEY_VALUE_DOWN =? KEY_VALUE_DOWN) with true. cbn [negb]. unfold scan_down. rewrite (co_code _ _ _ _ _ _ _ _ H), Hc.
  assert (negb (x =? low pc) && negb (x =? high pc) = false) as ->
    by (destruct Hx as [<-| <-]; rewrite Z.eqb_refl, ?andb_false_r; reflexivity).
  unfold keep_key. rewrite (co_timer _ _ _ _ _ _ _ _ H), (co_param _ _ _ _ _ _ _ _ H), u32_small by lia.
  destruct (Z.leb_spec (super_long_press_6s_time p) (cyc_ms v - t)); [lia|].
  destruct (Z.leb_spec (super_long_press_time p) (cyc_ms v - t)); [lia|].
  destruct (Z.leb_spec (long_press_time p) (cyc_ms v - t)); [lia|].
  unfold start_hold. rewrite (co_param _ _ _ _ _ _ _ _ H). destruct (Z.leb_spec (hold_delay_time p) (cyc_ms v - t)); [lia|]. cbn [andb].
  apply at_combo_end. exact H.
Qed.

(** A combination of keys [a] and [b]: [a] is down since [t], both are and the
    second since [t], [x] of them is up again, both are. *)
Inductive stage : Type := NoneDown | OneDown (t : Z) | BothDown (t : Z) | OneUp (x t : Z) | BothUp.

Definition combining (p : input_dev_init_param) (a b : Z) (g : stage) (r : list Z) (s : sys) : Prop :=
  match g with
  | NoneDown => idle p r s
  | OneDown t => at_combo p a false t KEY_VALUE_DOWN 0 r s
  | BothDown t => at_combo p (combo_code a b) true t KEY_VALUE_DOWN KEY_VALUE_DOWN r s
  | OneUp x t => at_combo p (combo_code a b) true t (if x =? Z.max a b then KEY_VALUE_UP else KEY_VALUE_DOWN)
                   (if x =? Z.max a b then KEY_VALUE_DOWN else KEY_VALUE_UP) r s
  | BothUp => (exists dl, at_click p (combo_code a b) 1 dl None r s) \/ idle p (Z.lor KEY_TYPE_SHORT_UP (combo_code a b) :: r) s
  end.

(** A sample of a key that stays down, too early for a long press. *)
Definition kept (p : input_dev_init_param) (t : Z) (v : sample) : Prop :=
  0 <= cyc_ms v - t < 2 ^ 32 /\ cyc_ms v - t < long_press_time p /\ cyc_ms v - t < hold_delay_time p.

(** The samples of a combination: [a] goes down, then [b], either of them is
    released first and the other in time, and the keys that are down are
    sampled meanwhile. *)
Inductive combo (p : input_dev_init_param) (a b : Z) : stage -> list sample -> Prop :=
| combo_first v vs : key_sample a KEY_VALUE_DOWN v -> 0 <= cyc_ms v < 2 ^ 32 -> combo p a b (OneDown (cyc_ms v)) vs ->
    combo p a b NoneDown (v :: vs)
| combo_keep_one t v vs : key_sample a KEY_VALUE_DOWN v -> kept p t v -> combo p a b (OneDown t) vs -> combo p a b (OneDown t) (v :: vs)
| combo_second t v vs : key_sample b KEY_VALUE_DOWN v -> 0 <= cyc_ms v < 2 ^ 32 -> combo p a b (BothDown (cyc_ms v)) vs ->
    combo p a b (OneDown t) (v :: vs)
| combo_keep_both t x v vs : x = a \/ x = b -> key_sample x KEY_VALUE_DOWN v -> kept p t v -> combo p a b (BothDown t) vs ->
    combo p a b (BothDown t) (v :: vs)
| combo_one_up t x v vs : x = a \/ x = b -> key_sample x KEY_VALUE_UP v -> combo p a b (OneUp x t) vs -> combo p a b (BothDown t) (v :: vs)
| combo_keep_last t x y v vs : x = a /\ y = b \/ x = b /\ y = a -> key_sample y KEY_VALUE_DOWN v -> kept p t v ->
    combo p a b (OneUp x t) vs -> combo p a b (OneUp x t) (v :: vs)
| combo_two_up t x y v : x = a /\ y = b \/ x = b /\ y = a -> key_sample y KEY_VALUE_UP v ->
    0 <= cyc_ms v - t < 2 ^ 32 -> cyc_ms v - t <= single_click_valid_time p -> combo p a b (OneUp x t) [v]
| combo_done : combo p a b BothUp [].

Lemma combo_code_either a b x : 1 <= a < 256 -> 1 <= b < 256 -> x = a \/ x = b -> x = low (combo_code a b) \/ x = high (combo_code a b).
Proof. intros Ha Hb. destruct (combo_code_parts a b Ha Hb) as (-> & -> & _). lia. Qed.

Lemma combining_scan p a b g r s v vs : ordered p -> 1 <= a < 256 -> 1 <= b < 256 -> a <> b -> plain_dev v s ->
  combo p a b g (v :: vs) -> combining p a b g r s -> exists g', combo p a b g' vs /\ combining p a b g' r (keypad_scan_callback v s).
Proof.
  intros Ho Ha Hb Hne Hd Hs Hg.
  inversion Hs as [? ? K C N|? ? ? K (C1 & C2 & C3) N|? ? ? K C N|? x ? ? Hx K (C1 & C2 & C3) N|? x ? ? Hx K N
                  |? x y ? ? Hx K (C1 & C2 & C3) N|? x y ? Hx K C1 C2|]; subst; cbn [combining] in Hg.
  - eexists. split; [exact N|]. exact (at_combo_first _ _ _ _ _ Hg K Ha C).
  - eexists. split; [exact N|]. apply (at_combo_keep _ _ _ _ _ _ _ _ _ a Hg K); try assumption. rewrite low_small by lia. auto.
  - eexists. split; [exact N|]. exact (at_combo_second _ _ _ _ _ _ _ Hg K Hd Ha Hb Hne C).
  - eexists. split; [exact N|]. apply (at_combo_keep _ _ _ _ _ _ _ _ _ x Hg K); try assumption. apply combo_code_either; assumption.
  - eexists. split; [exact N|]. exact (at_combo_one_up _ _ _ _ _ _ _ _ Hg K Hd Ha Hb Hne Hx).
  - eexists. split; [exact N|]. apply (at_combo_keep _ _ _ _ _ _ _ _ _ y Hg K); try assumption. apply combo_code_either; [assumption..|tauto].
  - exists BothUp. split; [apply combo_done|]. left. eexists. exact (at_combo_two_up _ _ _ _ _ _ _ _ _ Hg K Hd Ha Hb Hne Hx C1 C2).
Qed.

Lemma combining_work p a b g r s free t s1 : combining p a b g r s -> run_one free t s = Some s1 -> combining p a b g r s1.
Proof.
  assert (Hidle : forall r s, idle p r s -> run_one free t s = Some s1 -> idle p r s1).
  { intros r' s' Hi E. destruct (at_click_work _ _ _ _ _ _ _ _ _ _ Hi E) as [H|(H & _)]; [exact H|contradiction H; reflexivity]. }
  destruct g; cbn [combining]; intros H E; try (exact (at_combo_work _ _ _ _ _ _ _ _ _ _ _ H E)); [eapply Hidle; eassumption|].
  destruct H as [[dl H]|H]; [|right; eapply Hidle; eassumption].
  destruct (at_click_work _ _ _ _ _ _ _ _ _ _ H E) as [H1|(_ & _ & H1)]; [left; exists dl; exact H1|].
  right. exact (proj2 (idle_at _ _ _ _ _) H1).
Qed.

Lemma combining_exec p a b g r s vs s' : ordered p -> 1 <= a < 256 -> 1 <= b < 256 -> a <> b -> exec s vs s' ->
  Forall (fun v => adckey s <> Some (dev v)) vs -> combo p a b g vs -> combining p a b g r s ->
  exists g', combo p a b g' [] /\ combining p a b g' r s'.
Proof.
  intros Ho Ha Hb Hne H. revert g. induction H as [s|s v vs s' free _ _ IH|s vs s1 s' free t Ht E _ IH]; intros g Hd Hs Hg.
  - exists g. auto.
  - inversion Hd as [|? ? Hv Hrest]; subst.
    assert (Hp : plain_dev v s).
    { unfold plain_dev, is_lradc_input_dev. destruct (adckey s) as [d|]; [|reflexivity]. apply Z.eqb_neq. congruence. }
    destruct (combining_scan _ _ _ _ _ _ _ _ Ho Ha Hb Hne Hp Hs Hg) as (g' & Hs' & Hg').
    apply (IH g'); [rewrite scan_adckey; exact Hrest|exact Hs'|exact Hg'].
  - apply (IH g); [rewrite (work_adckey _ _ _ _ E); exact Hd|exact Hs|exact (combining_work _ _ _ _ _ _ _ _ _ Hg E)].
Qed.

(** two keys that are not behind the ADC and are down together, whichever
    goes down first and whichever is released first, make one report in every
    execution: a short press of the combination, whose code has the smaller key
    in its upper byte; neither key is reported by itself, and the keypad is
    idle again. *)
Theorem keypad_combo p a b r s vs s' : ordered p -> 1 <= a < 256 -> 1 <= b < 256 -> a <> b -> idle p r s ->
  Forall (fun v => adckey s <> Some (dev v)) vs -> combo p a b NoneDown vs -> exec s vs s' -> report_work s' = None ->
  reports s' = Z.lor KEY_TYPE_SHORT_UP (combo_code a b) :: r /\ idle p (reports s') s'.
Proof.
  intros Ho Ha Hb Hne Hi Hd Hs He Hw.
  destruct (combining_exec _ _ _ _ r _ _ _ Ho Ha Hb Hne He Hd Hs Hi) as (g & Hend & Hg).
  inversion Hend; subst. destruct Hg as [[dl Hg]|Hg].
  - pose proof (ac_work _ _ _ _ _ _ _ Hg). change (1 =? 0) with false in *. cbv iota in *. congruence.
  - pose proof (ac_reports _ _ _ _ _ _ _ Hg) as Hr. rewrite Hr. split; [reflexivity|exact Hg].
Qed.

Definition key_at (c val t : Z) : sample := mk_sample 1 EV_KEY c val t t.
Definition combo_press : list sample := [key_at 9 1 100; key_at 9 1 140; key_at 4 1 180; key_at 9 1 200; key_at 9 0 260; key_at 4 1 300; key_at 4 0 340].

Lemma combo_press_ok : combo default_param 9 4 NoneDown combo_press.
Proof.
  assert (S : forall c val t, key_sample c val (key_at c val t)) by (intros; repeat split).
  apply combo_first; [apply S|cbn; lia|]. apply combo_keep_one; [apply S|cbv -[Z.lt Z.le Z.sub]; lia|].
  apply combo_second; [apply S|cbn; lia|]. apply (combo_keep_both _ _ _ _ 9); [lia|apply S|cbv -[Z.lt Z.le Z.sub]; lia|].
  apply (combo_one_up _ _ _ _ 9); [lia|apply S|]. apply (combo_keep_last _ _ _ _ _ 4); [lia|apply S|cbv -[Z.lt Z.le Z.sub]; lia|].
  apply (combo_two_up _ _ _ _ _ 4); [lia|apply S|cbn; lia..].
Qed.

Lemma keypad_combo_witness : reports (run_until 1000 combo_press sample_keypad) = [0x04000409].
Proof.
  apply (keypad_combo default_param 9 4 [] sample_keypad combo_press (run_until 1000 combo_press sample_keypad)).
  - split; cbn; lia.
  - lia.
  - lia.
  - lia.
  - exact sample_idle.
  - repeat constructor; discriminate.
  - exact combo_press_ok.
  - apply run_until_exec. vm_compute. reflexivity.
  - vm_compute. reflexivity.
Defined.

(** ** The clock of the presses wraps *)

(** Lines 355-372 when the time between is out of range: the click is dropped. *)
Lemma at_click_late p c dl t r s v : at_click p c 0 dl (Some t) r s -> key_sample c KEY_VALUE_UP v -> 1 <= c < 256 ->
  single_click_valid_time p < u32 (cyc_ms v - t) -> idle p r (keypad_scan_callback v s).
Proof.
  intros [] (Ht & Hc & Hv) Hr Hlate. unfold keypad_scan_callback. rewrite Ht, Hv.
  change (EV_KEY =? EV_KEY) with true. change (KEY_VALUE_UP =? KEY_VALUE_UP) with true. cbn [negb].
  assert (Hu : u16 c = c) by (apply u16_small; lia).
  unfold scan_up. rewrite (release_code_single c) by (assumption || lia). cbn [negb].
  destruct (release_type_click 0 v (upd (set_key_hold false) (upd (set_press_code 0) (upd (set_report_press_code c) s)))) as [w ->];
    [exact ac_num0|exact ac_type0|lia|intros []; reflexivity|].
  kcbn. change (has (u32 (get_click_key_type (0 + 1))) LONG_UP_MASK) with false. cbv iota. rewrite ac_timer0, ac_param0.
  destruct (Z.leb_spec (u32 (cyc_ms v - t)) (single_click_valid_time p)); [lia|].
  unfold scan_report. rewrite Hv. change (KEY_VALUE_UP =? KEY_VALUE_DOWN) with false.
  destruct (event_cb _); kcbn; (split; kcbn; try assumption; try reflexivity; intros []; reflexivity).
Qed.

Lemma u32_wrapped x : - 2 ^ 31 <= x < 0 -> 2 ^ 31 <= u32 x.
Proof. intros H. unfold u32. rewrite <- (Z.mod_add x 1), Z.mod_small by lia. lia. Qed.

(** the milliseconds a press is measured with are made of a 32-bit counter
    of microseconds and start again at 0 after 4294967.  A key that goes down
    before that and is released after it is not reported at all, however short
    the press was; if it is sampled after that, the six second press is due at
    once. *)
Theorem keypad_clock_wrap p c r s v w : ordered p -> 1 <= c < 256 -> idle p r s ->
  key_sample c KEY_VALUE_DOWN v -> code w = c -> vtype w = EV_KEY -> 0 <= cyc_ms w < cyc_ms v -> cyc_ms v <= (2 ^ 32 - 1) / 1000 ->
  0 <= single_click_valid_time p < 2 ^ 31 -> super_long_press_6s_time p < 2 ^ 31 ->
  let s' := keypad_scan_callback w (keypad_scan_callback v s) in
  (value w = KEY_VALUE_UP -> idle p r s') /\
  (value w = KEY_VALUE_DOWN -> report_work s' = Some (uptime w) /\ last_report_key_value (keypad s') = Z.lor KEY_TYPE_LONG6S c).
Proof.
  intros Ho Hc Hi Hk Hwc Hwt Hcyc Hmax Hvalid Hsix s'.
  assert (Hm : (2 ^ 32 - 1) / 1000 = 4294967) by reflexivity.
  assert (Hwrap : 2 ^ 31 <= u32 (cyc_ms w - cyc_ms v)) by (apply u32_wrapped; lia).
  pose proof (at_click_press p c 0 0 r s v (proj1 (idle_at p c 0 r s) Hi) Hk Hc ltac:(lia)) as Ha.
  split; intros Hv.
  - apply (at_click_late _ _ _ _ _ _ _ Ha); [repeat split; assumption|exact Hc|lia].
  - destruct Ha.
    assert (Hl : at_long p c (cyc_ms v) (level_type 0) c None (key_reports (keypad_scan_callback v s)) (keypad_scan_callback v s)).
    { split; try assumption; try reflexivity; [intros _; exact ac_timer0|congruence]. }
    assert (Hlev : level p (u32 (cyc_ms w - cyc_ms v)) = 3).
    { unfold level. destruct (Z.leb_spec (super_long_press_6s_time p) (u32 (cyc_ms w - cyc_ms v))); [reflexivity|lia]. }
    pose proof (at_long_keep p c (cyc_ms v) 0 _ _ w Hl ltac:(repeat split; assumption) Hc) as H. rewrite Hlev in H.
    destruct (H ltac:(lia)). split; [exact al_work0|apply al_last0; discriminate].
Qed.

Lemma keypad_clock_wrap_witness :
  idle default_param [] (keypad_scan_callback (mk_sample 1 EV_KEY 9 0 33 4295000) (keypad_scan_callback (mk_sample 1 EV_KEY 9 1 4294900 4294900) sample_keypad)).
Proof.
  apply (keypad_clock_wrap default_param 9 [] sample_keypad (mk_sample 1 EV_KEY 9 1 4294900 4294900) (mk_sample 1 EV_KEY 9 0 33 4295000)).
  - split; cbn; lia.
  - lia.
  - exact sample_idle.
  - repeat split.
  - reflexivity.
  - reflexivity.
  - cbn. lia.
  - vm_compute. discriminate.
  - cbn. lia.
  - cbn. lia.
  - reflexivity.
Defined.

(** ** Nothing is forgotten, whatever happens when *)

(** Any sample, any pending work at any time, and the calls of other modules,
    in any order. *)
Inductive kstep : sys -> sys -> Prop :=
| kstep_scan v s : kstep s (keypad_scan_callback v s)
| kstep_report s d : report_work s = Some d -> kstep s (report_key_event_work_handle (set_report_work None s))
| kstep_hold s d now free : hold_key_work s = Some d -> kstep s (check_hold_key_work_handle now free (set_hold_work None s))
| kstep_callback s d : callback_work s = Some d -> kstep s (callback_key_event_work_handle (set_callback_work None s))
| kstep_lock s : kstep s (input_manager_lock s)
| kstep_unlock s : kstep s (input_manager_unlock s)
| kstep_param p s : kstep s (input_keypad_set_init_param p s)
| kstep_inquiry inner enable s : kstep s (input_keypad_onoff_inquiry_enable inner enable s).2.

(** The type has at most one long press and no bit of a code. *)
Definition TYPE_CODE_MASK : Z := Z.lor LONG_MASK 0xffff.
Definition one_long (t : Z) : Prop :=
  Z.land t TYPE_CODE_MASK = 0 \/ Z.land t TYPE_CODE_MASK = KEY_TYPE_LONG1S \/
  Z.land t TYPE_CODE_MASK = KEY_TYPE_LONG3S \/ Z.land t TYPE_CODE_MASK = KEY_TYPE_LONG6S.

Lemma land_masked t m k : Z.land m k = k -> Z.land t k = Z.land (Z.land t m) k.
Proof. intros H. rewrite <- Z.land_assoc, H. reflexivity. Qed.

Lemma land_u32_mask t : Z.land (u32 t) TYPE_CODE_MASK = Z.land t TYPE_CODE_MASK.
Proof.
  unfold u32. rewrite <- (Z.land_ones t 32) by lia. rewrite <- Z.land_assoc. reflexivity.
Qed.

Lemma click_type_mask i : Z.land (get_click_key_type i) TYPE_CODE_MASK = 0.
Proof. by_click i; reflexivity. Qed.

Lemma one_long_click i : one_long (u32 (get_click_key_type i)).
Proof. left. rewrite land_u32_mask. apply click_type_mask. Qed.

(** The change of a long press [l] that is not reached yet. *)
Lemma one_long_down t l i : l = KEY_TYPE_LONG1S \/ l = KEY_TYPE_LONG3S \/ l = KEY_TYPE_LONG6S -> one_long t -> has t l = false ->
  one_long (u32 (Z.lor (Z.lor (without t (Z.lxor LONG_MASK l)) l) (get_click_key_type i))).
Proof.
  intros Hl Ht Hn. unfold one_long. rewrite land_u32_mask, !Z.land_lor_distr_l, click_type_mask, Z.lor_0_r. unfold without.
  rewrite <- Z.land_assoc, (land_masked t TYPE_CODE_MASK) by (destruct Hl as [->|[->| ->]]; reflexivity).
  unfold has in Hn. rewrite (land_masked t TYPE_CODE_MASK) in Hn by (destruct Hl as [->|[->| ->]]; reflexivity).
  destruct Ht as [E|[E|[E|E]]]; rewrite E in *; destruct Hl as [->|[->| ->]]; first [discriminate Hn | vm_compute; tauto].
Qed.

Lemma one_long_up t l u : l = KEY_TYPE_LONG1S \/ l = KEY_TYPE_LONG3S \/ l = KEY_TYPE_LONG6S -> Z.land u TYPE_CODE_MASK = 0 -> one_long t ->
  one_long (u32 (Z.lor (without t l) u)).
Proof.
  intros Hl Hu Ht. unfold one_long. rewrite land_u32_mask, Z.land_lor_distr_l, Hu, Z.lor_0_r. unfold without.
  rewrite <- Z.land_assoc, (land_masked t TYPE_CODE_MASK) by (destruct Hl as [->|[->| ->]]; reflexivity).
  destruct Ht as [E|[E|[E|E]]]; rewrite E; destruct Hl as [->|[->| ->]]; vm_compute; tauto.
Qed.

(** What holds also within a scan, and the invariant. *)
Record kinv0 (s : sys) : Prop := mk_kinv0 {
  ki_filter : filter_itself (keypad s) = false;
  ki_long : one_long (press_type (keypad s));
  ki_hold : key_hold (keypad s) = true -> hold_key_work s <> None
}.
Record kinv (s : sys) : Prop := mk_kinv {
  ki_base : kinv0 s;
  ki_clicks : click_num (keypad s) <> 0 -> report_work s <> None
}.

Lemma scan_report_inv v need s : kinv0 s -> (need = true \/ (click_num (keypad s) <> 0 -> report_work s <> None)) ->
  kinv (scan_report v need s).
Proof.
  intros [] Hn. unfold scan_report. destruct (event_cb s), (value v =? KEY_VALUE_DOWN), need; kcbn;
    repeat (case_match; kcbn); split; try (split; assumption); kcbn; try discriminate; try congruence;
    try (intros Hc; destruct Hn as [?|Hn]; [discriminate|exact (Hn Hc)]);
    intros Hc; contradiction Hc; reflexivity.
Qed.

Lemma release_code_inv v s : kinv0 s -> kinv0 (release_code v s).2 /\
  click_num (keypad (release_code v s).2) = click_num (keypad s) /\ report_work (release_code v s).2 = report_work s.
Proof.
  intros []. unfold release_code. repeat (case_match; kcbn); (split; [split; assumption|split; reflexivity]).
Qed.

Lemma release_type_inv v s : kinv0 s -> kinv0 (release_type v s).
Proof.
  intros []. unfold release_type.
  assert (Hup : forall l u, l = KEY_TYPE_LONG1S \/ l = KEY_TYPE_LONG3S \/ l = KEY_TYPE_LONG6S -> Z.land u TYPE_CODE_MASK = 0 ->
    kinv0 (upd (set_press_type (Z.lor (without (press_type (keypad s)) l) u)) s)).
  { intros l u Hl Hu. split; [exact ki_filter0|apply one_long_up; assumption|exact ki_hold0]. }
  destruct (has (press_type (keypad s)) KEY_TYPE_LONG1S); [apply Hup; [tauto|reflexivity]|].
  destruct (has (press_type (keypad s)) KEY_TYPE_LONG3S); [apply Hup; [tauto|reflexivity]|].
  destruct (has (press_type (keypad s)) KEY_TYPE_LONG6S); [apply Hup; [tauto|reflexivity]|].
  repeat case_match; (split; [exact ki_filter0|apply one_long_click|exact ki_hold0]).
Qed.

Lemma scan_up_inv v s : kinv s -> match scan_up v s with
  | (None, s') => kinv s'
  | (Some need, s') => kinv0 s' /\ (need = true \/ (click_num (keypad s') <> 0 -> report_work s' <> None))
  end.
Proof.
  intros [Hb Hc]. unfold scan_up. destruct (release_code_inv v s Hb) as (Hb1 & N1 & W1).
  destruct (release_code v s) as [go s1]. cbn [snd] in *. destruct go; cbn [negb].
  - assert (Hb2 : kinv0 (upd (set_key_hold false) s1)) by (destruct Hb1; split; [assumption|assumption|discriminate]).
    pose proof (release_type_inv v _ Hb2) as Hb3. set (s3 := release_type v _) in *. clearbody s3.
    destruct (has _ _); [split; [destruct Hb3; split; assumption|left; reflexivity]|].
    destruct (_ <=? _); [split; [destruct Hb3; split; assumption|left; reflexivity]|].
    destruct Hb3. split; [split; [assumption|left; reflexivity|assumption]|right]. kcbn. intros []. reflexivity.
  - split; [exact Hb1|]. rewrite N1, W1. exact Hc.
Qed.

Lemma long_press_inv l s : l = KEY_TYPE_LONG1S \/ l = KEY_TYPE_LONG3S \/ l = KEY_TYPE_LONG6S -> kinv s -> kinv (long_press l s).2.
Proof.
  intros Hl [[] Hc]. unfold long_press. destruct (has (press_type (keypad s)) l) eqn:E; kcbn; cbn [snd]; [split; [split|]; assumption|].
  split; [|exact Hc]. split; [assumption|apply one_long_down; assumption|assumption].
Qed.

Lemma scan_down_inv v s : kinv s -> kinv (scan_down v s).2.
Proof.
  intros H. unfold scan_down. destruct (_ && _); cbn [snd].
  - destruct H as [[] Hc]. unfold press_key. repeat (case_match; kcbn); (split; [split|]; kcbn; assumption || reflexivity).
  - unfold keep_key.
    assert (Hd : kinv (if super_long_press_6s_time (param s) <=? u32 (cyc_ms v - press_timer (keypad s)) then long_press KEY_TYPE_LONG6S s
      else if super_long_press_time (param s) <=? u32 (cyc_ms v - press_timer (keypad s)) then long_press KEY_TYPE_LONG3S s
      else if long_press_time (param s) <=? u32 (cyc_ms v - press_timer (keypad s)) then long_press KEY_TYPE_LONG1S s else (false, s)).2).
    { repeat destruct (_ <=? _); first [exact H | apply long_press_inv; [tauto|exact H]]. }
    destruct (if super_long_press_6s_time (param s) <=? _ then _ else _) as [need s1]. cbn [snd] in *.
    destruct Hd as [[] Hc]. unfold start_hold. destruct (_ && _); (split; [split|]; kcbn; try assumption; discriminate).
Qed.

Lemma kstep_inv s s' : kstep s s' -> kinv s -> kinv s'.
Proof.
  intros [v s0|s0 d _|s0 d now free _|s0 d _|s0|s0|p s0|inner enable s0] H; try (destruct H as [[] Hc]; split; [split|]; assumption).
  - unfold keypad_scan_callback. destruct (negb _); [exact H|]. destruct (value v =? KEY_VALUE_UP).
    + pose proof (scan_up_inv v s0 H) as Hu. destruct (scan_up v s0) as [[need|] s1]; [|exact Hu]. apply scan_report_inv; apply Hu.
    + destruct (value v =? KEY_VALUE_DOWN).
      * pose proof (scan_down_inv v s0 H) as [Hb Hc]. destruct (scan_down v s0) as [need s1]. apply scan_report_inv; [exact Hb|right; exact Hc].
      * destruct H as [Hb Hc]. apply scan_report_inv; [exact Hb|right; exact Hc].
  - destruct H as [[] _]. unfold report_key_event_work_handle.
    kcbn. destruct (has (press_type (keypad s0)) LONG_UP_MASK), (has (press_type (keypad s0)) CLICK_MASK), (has (press_type (keypad s0)) LONG_MASK); kcbn; rewrite ki_filter0;
      (split; [split; kcbn; try assumption; left; reflexivity|kcbn; intros []; reflexivity]).
  - destruct H as [[] Hc]. unfold check_hold_key_work_handle. kcbn. destruct (key_hold (keypad s0)) eqn:E; kcbn.
    + rewrite ki_filter0. repeat (case_match; kcbn); (split; [split; kcbn; try assumption; discriminate|exact Hc]).
    + change (0 =? 0) with true. kcbn. split; [split; kcbn; try assumption; congruence|exact Hc].
  - destruct H as [[] Hc]. unfold callback_key_event_work_handle. kcbn. destruct (event_cb s0); (split; [split|]; assumption).
  - unfold input_keypad_onoff_inquiry_enable. destruct (negb _); cbn [snd]; [exact H|].
    destruct H as [[] Hc]. split; [split; kcbn; [assumption|left; reflexivity|discriminate]|kcbn; intros []; reflexivity].
Qed.

(** The code of what a report will carry can be read back: the lower half word
    of a type is empty. *)
Lemma one_long_code t c : one_long t -> 0 <= c < 2 ^ 16 -> Z.land (Z.lor t c) 0xffff = c.
Proof.
  intros Ht Hc. rewrite Z.land_lor_distr_l, (land_masked t TYPE_CODE_MASK 0xffff) by reflexivity.
  replace (Z.land c 0xffff) with c by (change 0xffff with (Z.ones 16); rewrite Z.land_ones, Z.mod_small by lia; reflexivity).
  destruct Ht as [E|[E|[E|E]]]; rewrite E; apply Z.lor_0_l.
Qed.

(** after the keypad is initialized, whatever samples arrive, whichever
    pending works run and however late, and however it is locked, set up and
    inquired meanwhile: counted clicks always have a report pending, a held
    key always its repetition, and the type of a press has at most one of
    the three long presses and leaves the bits of the code to the code. *)
Theorem keypad_invariant cb adc on s0 s : rtc kstep (input_keypad_device_init cb adc on s0) s ->
  (click_num (keypad s) <> 0 -> report_work s <> None) /\
  (key_hold (keypad s) = true -> hold_key_work s <> None) /\
  one_long (press_type (keypad s)) /\
  (forall c, 0 <= c < 2 ^ 16 -> Z.land (Z.lor (press_type (keypad s)) c) 0xffff = c).
Proof.
  intros H. assert (Hi : kinv (input_keypad_device_init cb adc on s0)).
  { split; [split; [reflexivity|left; reflexivity|discriminate]|intros []; reflexivity]. }
  assert (Hs : kinv s) by (induction H as [|? ? ? Hst _ IH]; [exact Hi|apply IH; exact (kstep_inv _ _ Hst Hi)]).
  destruct Hs as [[] Hc]. split; [exact Hc|]. split; [exact ki_hold0|]. split; [exact ki_long0|].
  intros c Hcr. apply one_long_code; assumption.
Qed.

Lemma keypad_invariant_witness :
  click_num (keypad (keypad_scan_callback (sample_dev 0 200) (keypad_scan_callback (sample_dev 1 100) sample_keypad))) = 1 /\
  report_work (keypad_scan_callback (sample_dev 0 200) (keypad_scan_callback (sample_dev 1 100) sample_keypad)) <> None.
Proof.
  split; [reflexivity|].
  apply (keypad_invariant true (Some 7) true (mk_sys no_press default_param None None None false true None false [])); [|discriminate].
  eapply rtc_l; [apply kstep_unlock|]. eapply rtc_l; [apply (kstep_scan (sample_dev 1 100))|].
  eapply rtc_l; [apply (kstep_scan (sample_dev 0 200))|]. apply rtc_refl.
Defined.
