(* ===== verification/Tts.v ===== *)
(** * Voice prompts and tones (framework/system/tts/tts_manager.c)

    Prompts wait in a list of at most three; one is played at a time, tones
    apart from them.  The configuration is that of the earphone: tones, the
    stream of several files for telephone numbers and hardware decoding, no key
    tones, no transceiver.

    Items, streams and players are memory or handles of other modules: each has
    a number, and the state keeps the numbers that are allocated or open, so
    that what is lost is visible.  What other modules answer is an argument:
    whether memory is left, the file opens, the player opens, the message to
    main is accepted, and how the message to the current application ends.
    tts_manager_play_process gives up its mutex while the application answers; a
    thread in that state is an item of [starting], and it goes on with
    [tts_play_resume].  tip_manager_play takes tip_mutex twice, to stop the old
    tone and to start the new one; a thread between the two is a name of
    [tip_starting], and it goes on with [tip_play_resume].  The other calls are
    atomic: the mutex is given up in _tts_remove_current_node too, but only the
    memory of the item is freed after that. *)

From Stdlib Require Import String Ascii.
From stdpp Require Import base list numbers option strings.
From S2P Require Import Prelude.
Open Scope Z_scope.

Definition BLOCK_UNINTERRUPTABLE : Z := 0x2.
Definition UNBLOCK_UNINTERRUPTABLE : Z := 0x4.
Definition PLAY_IMMEDIATELY : Z := 0x10.
Definition TTS_MODE_TELE_NUM : Z := 0x20.
Definition UINT64_MAX : Z := 2 ^ 64 - 1.
Definition ENOLCK : Z := 46.

(** ** State *)

Record tts_item_t : Type := mk_item {
  item_id : nat;
  bt_clk : Z;
  pattern : option string;
  tts_mode : Z;            (* uint8_t *)
  tele_num_index : Z;      (* uint8_t *)
  tts_file_name : string
}.

(** What the module does with others, the latest first. *)
Inductive action : Type :=
| Lisener (name : string) (start : bool)      (* the registered listener *)
| AppEvent (start : bool)                     (* to the current application *)
| Play (player : nat) (name : string)
| StopPlayer (player : nat).

Record tts_manager_ctx_t : Type := mk_ctx {
  tts_list : list tts_item_t;
  tts_curr : option tts_item_t;
  tts_manager_locked : Z;          (* 8 bits *)
  tts_item_num : Z;                (* 8 bits *)
  player_handle : option nat;
  tts_stream : option nat;
  lisener : bool;
  stop_work : bool;                (* submitted *)
  tip_seq : Z;                     (* 4 bits *)
  tip_seq_stopped : Z;             (* 4 bits *)
  tip_player_handle : option nat;
  tip_stream : option nat;
  tip_file_name : string;
  tip_stop_work : bool;
  (* other modules *)
  items : list nat;                (* allocated *)
  streams : list nat;              (* open *)
  players : list nat;              (* open *)
  next_id : nat;
  starting : list tts_item_t;      (* threads that wait for the application *)
  triggers : nat;                  (* messages that main has not handled *)
  actions : list action;
  tip_starting : list string       (* threads that have stopped the old tone *)
}.

Definition set_tts_list v c := mk_ctx v (tts_curr c) (tts_manager_locked c) (tts_item_num c) (player_handle c) (tts_stream c) (lisener c) (stop_work c) (tip_seq c) (tip_seq_stopped c) (tip_player_handle c) (tip_stream c) (tip_file_name c) (tip_stop_work c) (items c) (streams c) (players c) (next_id c) (starting c) (triggers c) (actions c) (tip_starting c).
Definition set_curr v c := mk_ctx (tts_list c) v (tts_manager_locked c) (tts_item_num c) (player_handle c) (tts_stream c) (lisener c) (stop_work c) (tip_seq c) (tip_seq_stopped c) (tip_player_handle c) (tip_stream c) (tip_file_name c) (tip_stop_work c) (items c) (streams c) (players c) (next_id c) (starting c) (triggers c) (actions c) (tip_starting c).
Definition set_lock v c := mk_ctx (tts_list c) (tts_curr c) (v mod 256) (tts_item_num c) (player_handle c) (tts_stream c) (lisener c) (stop_work c) (tip_seq c) (tip_seq_stopped c) (tip_player_handle c) (tip_stream c) (tip_file_name c) (tip_stop_work c) (items c) (streams c) (players c) (next_id c) (starting c) (triggers c) (actions c) (tip_starting c).
Definition set_num v c := mk_ctx (tts_list c) (tts_curr c) (tts_manager_locked c) (v mod 256) (player_handle c) (tts_stream c) (lisener c) (stop_work c) (tip_seq c) (tip_seq_stopped c) (tip_player_handle c) (tip_stream c) (tip_file_name c) (tip_stop_work c) (items c) (streams c) (players c) (next_id c) (starting c) (triggers c) (actions c) (tip_starting c).
Definition set_player v c := mk_ctx (tts_list c) (tts_curr c) (tts_manager_locked c) (tts_item_num c) v (tts_stream c) (lisener c) (stop_work c) (tip_seq c) (tip_seq_stopped c) (tip_player_handle c) (tip_stream c) (tip_file_name c) (tip_stop_work c) (items c) (streams c) (players c) (next_id c) (starting c) (triggers c) (actions c) (tip_starting c).
Definition set_stream v c := mk_ctx (tts_list c) (tts_curr c) (tts_manager_locked c) (tts_item_num c) (player_handle c) v (lisener c) (stop_work c) (tip_seq c) (tip_seq_stopped c) (tip_player_handle c) (tip_stream c) (tip_file_name c) (tip_stop_work c) (items c) (streams c) (players c) (next_id c) (starting c) (triggers c) (actions c) (tip_starting c).
Definition set_lisener v c := mk_ctx (tts_list c) (tts_curr c) (tts_manager_locked c) (tts_item_num c) (player_handle c) (tts_stream c) v (stop_work c) (tip_seq c) (tip_seq_stopped c) (tip_player_handle c) (tip_stream c) (tip_file_name c) (tip_stop_work c) (items c) (streams c) (players c) (next_id c) (starting c) (triggers c) (actions c) (tip_starting c).
Definition set_stop_work v c := mk_ctx (tts_list c) (tts_curr c) (tts_manager_locked c) (tts_item_num c) (player_handle c) (tts_stream c) (lisener c) v (tip_seq c) (tip_seq_stopped c) (tip_player_handle c) (tip_stream c) (tip_file_name c) (tip_stop_work c) (items c) (streams c) (players c) (next_id c) (starting c) (triggers c) (actions c) (tip_starting c).
Definition set_tip_seq v c := mk_ctx (tts_list c) (tts_curr c) (tts_manager_locked c) (tts_item_num c) (player_handle c) (tts_stream c) (lisener c) (stop_work c) (v mod 16) (tip_seq_stopped c) (tip_player_handle c) (tip_stream c) (tip_file_name c) (tip_stop_work c) (items c) (streams c) (players c) (next_id c) (starting c) (triggers c) (actions c) (tip_starting c).
Definition set_tip_stopped v c := mk_ctx (tts_list c) (tts_curr c) (tts_manager_locked c) (tts_item_num c) (player_handle c) (tts_stream c) (lisener c) (stop_work c) (tip_seq c) (v mod 16) (tip_player_handle c) (tip_stream c) (tip_file_name c) (tip_stop_work c) (items c) (streams c) (players c) (next_id c) (starting c) (triggers c) (actions c) (tip_starting c).
Definition set_tip_player v c := mk_ctx (tts_list c) (tts_curr c) (tts_manager_locked c) (tts_item_num c) (player_handle c) (tts_stream c) (lisener c) (stop_work c) (tip_seq c) (tip_seq_stopped c) v (tip_stream c) (tip_file_name c) (tip_stop_work c) (items c) (streams c) (players c) (next_id c) (starting c) (triggers c) (actions c) (tip_starting c).
Definition set_tip_stream v c := mk_ctx (tts_list c) (tts_curr c) (tts_manager_locked c) (tts_item_num c) (player_handle c) (tts_stream c) (lisener c) (stop_work c) (tip_seq c) (tip_seq_stopped c) (tip_player_handle c) v (tip_file_name c) (tip_stop_work c) (items c) (streams c) (players c) (next_id c) (starting c) (triggers c) (actions c) (tip_starting c).
Definition set_tip_name v c := mk_ctx (tts_list c) (tts_curr c) (tts_manager_locked c) (tts_item_num c) (player_handle c) (tts_stream c) (lisener c) (stop_work c) (tip_seq c) (tip_seq_stopped c) (tip_player_handle c) (tip_stream c) v (tip_stop_work c) (items c) (streams c) (players c) (next_id c) (starting c) (triggers c) (actions c) (tip_starting c).
Definition set_tip_work v c := mk_ctx (tts_list c) (tts_curr c) (tts_manager_locked c) (tts_item_num c) (player_handle c) (tts_stream c) (lisener c) (stop_work c) (tip_seq c) (tip_seq_stopped c) (tip_player_handle c) (tip_stream c) (tip_file_name c) v (items c) (streams c) (players c) (next_id c) (starting c) (triggers c) (actions c) (tip_starting c).
Definition set_items v c := mk_ctx (tts_list c) (tts_curr c) (tts_manager_locked c) (tts_item_num c) (player_handle c) (tts_stream c) (lisener c) (stop_work c) (tip_seq c) (tip_seq_stopped c) (tip_player_handle c) (tip_stream c) (tip_file_name c) (tip_stop_work c) v (streams c) (players c) (next_id c) (starting c) (triggers c) (actions c) (tip_starting c).
Definition set_streams v c := mk_ctx (tts_list c) (tts_curr c) (tts_manager_locked c) (tts_item_num c) (player_handle c) (tts_stream c) (lisener c) (stop_work c) (tip_seq c) (tip_seq_stopped c) (tip_player_handle c) (tip_stream c) (tip_file_name c) (tip_stop_work c) (items c) v (players c) (next_id c) (starting c) (triggers c) (actions c) (tip_starting c).
Definition set_players v c := mk_ctx (tts_list c) (tts_curr c) (tts_manager_locked c) (tts_item_num c) (player_handle c) (tts_stream c) (lisener c) (stop_work c) (tip_seq c) (tip_seq_stopped c) (tip_player_handle c) (tip_stream c) (tip_file_name c) (tip_stop_work c) (items c) (streams c) v (next_id c) (starting c) (triggers c) (actions c) (tip_starting c).
Definition set_next v c := mk_ctx (tts_list c) (tts_curr c) (tts_manager_locked c) (tts_item_num c) (player_handle c) (tts_stream c) (lisener c) (stop_work c) (tip_seq c) (tip_seq_stopped c) (tip_player_handle c) (tip_stream c) (tip_file_name c) (tip_stop_work c) (items c) (streams c) (players c) v (starting c) (triggers c) (actions c) (tip_starting c).
Definition set_starting v c := mk_ctx (tts_list c) (tts_curr c) (tts_manager_locked c) (tts_item_num c) (player_handle c) (tts_stream c) (lisener c) (stop_work c) (tip_seq c) (tip_seq_stopped c) (tip_player_handle c) (tip_stream c) (tip_file_name c) (tip_stop_work c) (items c) (streams c) (players c) (next_id c) v (triggers c) (actions c) (tip_starting c).
Definition set_triggers v c := mk_ctx (tts_list c) (tts_curr c) (tts_manager_locked c) (tts_item_num c) (player_handle c) (tts_stream c) (lisener c) (stop_work c) (tip_seq c) (tip_seq_stopped c) (tip_player_handle c) (tip_stream c) (tip_file_name c) (tip_stop_work c) (items c) (streams c) (players c) (next_id c) (starting c) v (actions c) (tip_starting c).
Definition act a c := mk_ctx (tts_list c) (tts_curr c) (tts_manager_locked c) (tts_item_num c) (player_handle c) (tts_stream c) (lisener c) (stop_work c) (tip_seq c) (tip_seq_stopped c) (tip_player_handle c) (tip_stream c) (tip_file_name c) (tip_stop_work c) (items c) (streams c) (players c) (next_id c) (starting c) (triggers c) (a :: actions c) (tip_starting c).
Definition set_tip_starting v c := mk_ctx (tts_list c) (tts_curr c) (tts_manager_locked c) (tts_item_num c) (player_handle c) (tts_stream c) (lisener c) (stop_work c) (tip_seq c) (tip_seq_stopped c) (tip_player_handle c) (tip_stream c) (tip_file_name c) (tip_stop_work c) (items c) (streams c) (players c) (next_id c) (starting c) (triggers c) (actions c) v.

(** ** Handles of other modules *)

Definition remove_id (n : nat) (l : list nat) : list nat := filter (fun m => m <> n) l.

Definition open_stream (c : tts_manager_ctx_t) : nat * tts_manager_ctx_t :=
  (next_id c, set_next (S (next_id c)) (set_streams (next_id c :: streams c) c)).
(** stream_close and stream_destroy. *)
Definition close_stream (n : nat) (c : tts_manager_ctx_t) : tts_manager_ctx_t := set_streams (remove_id n (streams c)) c.
Definition open_player (c : tts_manager_ctx_t) : nat * tts_manager_ctx_t :=
  (next_id c, set_next (S (next_id c)) (set_players (next_id c :: players c) c)).
(** media_player_stop and media_player_close. *)
Definition close_player (n : nat) (c : tts_manager_ctx_t) : tts_manager_ctx_t := act (StopPlayer n) (set_players (remove_id n (players c)) c).
Definition free_item (i : tts_item_t) (c : tts_manager_ctx_t) : tts_manager_ctx_t := set_items (remove_id (item_id i) (items c)) c.

(** strstr. *)
Definition contains (sub s : string) : bool := if String.index 0 sub s then true else false.

(** ** Prompts *)

(** _tts_create_stream; [ok] is whether the file is there and its stream opens
    (a stream that does not open is destroyed). *)
Definition _tts_create_stream (ok : bool) (c : tts_manager_ctx_t) : option nat * tts_manager_ctx_t :=
  if ok then let '(n, c) := open_stream c in (Some n, c) else (None, c).

(** The message to the current application; [app] is none if there is no
    application, otherwise whether the message is accepted.  True if the thread
    waits for the answer. *)
Definition _tts_event_nodify (start sync_mode : bool) (app : option bool) (c : tts_manager_ctx_t) : bool * tts_manager_ctx_t :=
  match app with
  | None => (false, c)
  | Some false => (false, c)
  | Some true => (sync_mode, act (AppEvent start) c)
  end.

(** [sent] is whether send_async_msg succeeds: it needs a free message of the
    pool.  Its result is not looked at. *)
Definition _tts_manager_triggle_play_tts (sent : bool) (c : tts_manager_ctx_t) : tts_manager_ctx_t :=
  if sent then set_triggers (S (triggers c)) c else c.

Definition _tts_remove_current_node (item : option tts_item_t) (app : option bool) (c : tts_manager_ctx_t) : tts_manager_ctx_t :=
  match item with
  | None => c
  | Some i =>
      let c := match player_handle c with Some n => set_player None (close_player n c) | None => c end in
      let c := match tts_stream c with Some n => set_stream None (close_stream n c) | None => c end in
      let c := set_curr None c in
      let c := if lisener c then act (Lisener (tts_file_name i) false) c else c in
      let c := (_tts_event_nodify false false app c).2 in
      free_item i c
  end.

(** [player_ok] is whether the player opens. *)
Definition _tts_start_play (item : tts_item_t) (player_ok : bool) (app : option bool) (c : tts_manager_ctx_t) : Z * tts_manager_ctx_t :=
  let c := set_curr (Some item) c in
  if player_ok then
    let '(n, c) := open_player c in
    (0, act (Play n (tts_file_name item)) (set_player (Some n) c))
  else (-1, _tts_remove_current_node (Some item) app (set_player None c)).

(** What the other modules answer to one call. *)
Record answers : Type := mk_answers {
  file_opens : bool;
  player_opens : bool;
  app_answer : option bool;     (* to the message before the start *)
  msg_sent : bool               (* the message to main, if there is one *)
}.

(** None: the thread waits for the application. *)
Definition tts_manager_play_process (e : answers) (c : tts_manager_ctx_t) : option Z * tts_manager_ctx_t :=
  match tts_list c with
  | [] => (Some (- ENOENT), c)
  | item :: rest =>
      if (if tts_curr c then true else false) || negb (tts_manager_locked c =? 0) then (Some (- ENOLCK), c)
      else
        let c := set_num (tts_item_num c - 1) (set_tts_list rest c) in
        let c := if lisener c then act (Lisener (tts_file_name item) true) c else c in
        let item := if negb (Z.land (tts_mode item) TTS_MODE_TELE_NUM =? 0)
                    then mk_item (item_id item) (bt_clk item) (pattern item) (tts_mode item) (u8 (tele_num_index item + 1)) (tts_file_name item)
                    else item in
        let '(st, c) := _tts_create_stream (file_opens e) c in
        let c := set_stream st c in
        match st with
        | None => (Some (- EEXIST), _tts_manager_triggle_play_tts (msg_sent e) (_tts_remove_current_node (Some item) (app_answer e) c))
        | Some _ =>
            let '(waits, c) := _tts_event_nodify true true (app_answer e) c in
            if waits then (None, set_starting (item :: starting c) c)
            else (Some 0, (_tts_start_play item (player_opens e) (app_answer e) c).2)
        end
  end.

(** The thread of the [k]-th item of [starting] goes on. *)
Definition tts_play_resume (k : nat) (e : answers) (c : tts_manager_ctx_t) : tts_manager_ctx_t :=
  match starting c !! k with
  | None => c
  | Some item => (_tts_start_play item (player_opens e) (app_answer e) (set_starting (delete k (starting c)) c)).2
  end.

(** The player of a prompt tells that it is at the end. *)
Definition _tts_manager_play_event_notify (c : tts_manager_ctx_t) : tts_manager_ctx_t := set_stop_work true c.

Definition _tts_manager_stop_work (sent : bool) (app : option bool) (c : tts_manager_ctx_t) : tts_manager_ctx_t :=
  let c := set_stop_work false c in
  _tts_manager_triggle_play_tts sent (_tts_remove_current_node (tts_curr c) app c).

Definition _tts_create_item (mem_ok : bool) (name : string) (mode clk : Z) (pat : option string) (c : tts_manager_ctx_t)
  : option tts_item_t * tts_manager_ctx_t :=
  if mem_ok then
    (Some (mk_item (next_id c) clk pat (u8 mode) 0 name), set_next (S (next_id c)) (set_items (next_id c :: items c) c))
  else (None, c).

Definition tts_manager_unlock (c : tts_manager_ctx_t) : tts_manager_ctx_t :=
  if 0 <? tts_manager_locked c then set_lock (tts_manager_locked c - 1) c else c.
Definition tts_manager_lock (c : tts_manager_ctx_t) : tts_manager_ctx_t := set_lock (tts_manager_locked c + 1) c.
Definition tts_manager_is_locked (c : tts_manager_ctx_t) : bool := 0 <? tts_manager_locked c.

(** The waiting for the current prompt is the caller's; then the list is
    cleaned. *)
Definition tts_manager_wait_finished (clean_all : bool) (c : tts_manager_ctx_t) : tts_manager_ctx_t :=
  match tts_list c with
  | [] => c
  | l => if clean_all then set_num 0 (set_tts_list [] (fold_left (fun c i => free_item i c) l c)) else c
  end.

(** The part of tts_manager_play_with_time under the mutex. *)
Definition enqueue (mem_ok : bool) (name : string) (mode clk : Z) (pat : option string) (c : tts_manager_ctx_t) : Z * tts_manager_ctx_t :=
  if 0 <? tts_manager_locked c then (- ENOLCK, c)
  else if contains ".pcm" name then (0, c)
  else
    let c := if 3 <=? tts_item_num c then
               match tts_list c with
               | item :: rest => free_item item (set_num (tts_item_num c - 1) (set_tts_list rest c))
               | [] => c
               end
             else c in
    let '(item, c) := _tts_create_item mem_ok name mode clk pat c in
    match item with
    | None => (- ENOMEM, c)
    | Some i => (0, set_num (tts_item_num c + 1) (set_tts_list (tts_list c ++ [i]) c))
    end.

Definition tts_manager_play_with_time (mem_ok : bool) (e : answers) (name : string) (mode clk : Z) (pat : option string) (c : tts_manager_ctx_t)
  : option Z * tts_manager_ctx_t :=
  let '(res, c) := enqueue mem_ok name mode clk pat c in
  if (res =? 0) && negb (if tts_curr c then true else false) then
    if negb (Z.land mode PLAY_IMMEDIATELY =? 0) then tts_manager_play_process e c
    else (Some 0, _tts_manager_triggle_play_tts (msg_sent e) c)
  else (Some res, c).

Definition tts_manager_stop (sent : bool) (app : option bool) (c : tts_manager_ctx_t) : tts_manager_ctx_t :=
  let c := match tts_curr c with
           | None => c
           | Some i => if (tts_mode i =? UNBLOCK_UNINTERRUPTABLE) || (tts_mode i =? BLOCK_UNINTERRUPTABLE) then c
                       else _tts_remove_current_node (Some i) app c
           end in
  _tts_manager_triggle_play_tts sent c.

(** The prompt is played in the calling thread: what it opens it closes. *)
Definition tts_manager_play_block (e : answers) (name : string) (c : tts_manager_ctx_t) : Z * tts_manager_ctx_t :=
  if 0 <? tts_manager_locked c then (- ENOLCK, c)
  else if negb (file_opens e) then (0, c)
  else
    let '(st, c) := open_stream c in
    let c := if player_opens e then let '(n, c) := open_player c in close_player n (act (Play n name) c) else c in
    (0, close_stream st c).

Definition tts_manager_add_event_lisener (c : tts_manager_ctx_t) : tts_manager_ctx_t := set_lisener true c.
Definition tts_manager_remove_event_lisener (c : tts_manager_ctx_t) : tts_manager_ctx_t := set_lisener false c.

(** The entry of an event in the map of the configuration. *)
Fixpoint find_ui_event (ui_event : Z) (m : list (Z * Z * string)) : option (Z * string) :=
  match m with
  | [] => None
  | (ev, mode, name) :: m' => if ev =? ui_event then Some (mode, name) else find_ui_event ui_event m'
  end.

(** [tts_map] is the map of the configuration that is registered. *)
Definition tts_manager_process_ui_event (tts_map : option (list (Z * Z * string))) (mem_ok : bool) (e : answers) (ui_event : Z) (c : tts_manager_ctx_t)
  : Z * tts_manager_ctx_t :=
  match tts_map with
  | None => (- ENOENT, c)
  | Some m =>
      match find_ui_event ui_event m with
      | Some (mode, name) => (0, (tts_manager_play_with_time mem_ok e name mode UINT64_MAX None c).2)
      | None => (0, c)
      end
  end.

(** ** Tones *)

Definition _tip_manager_stop (c : tts_manager_ctx_t) : tts_manager_ctx_t :=
  let c := set_tip_name "" c in
  let c := match tip_player_handle c with Some n => set_tip_player None (close_player n c) | None => c end in
  match tip_stream c with Some n => set_tip_stream None (close_stream n c) | None => c end.

Definition _tip_manager_stop_work (c : tts_manager_ctx_t) : tts_manager_ctx_t :=
  let c := set_tip_work false c in
  if tip_seq_stopped c =? tip_seq c then _tip_manager_stop c else c.

(** [user_data] is what the player was opened with. *)
Definition _tip_manager_play_event_notify (user_data : Z) (c : tts_manager_ctx_t) : tts_manager_ctx_t :=
  set_tip_work true (set_tip_stopped user_data c).

Definition tip_manager_stop (c : tts_manager_ctx_t) : tts_manager_ctx_t := _tip_manager_stop c.

(** tip_manager_play up to the end of tip_manager_stop; the thread then waits for
    tip_mutex. *)
Definition tip_manager_play (name : string) (c : tts_manager_ctx_t) : tts_manager_ctx_t :=
  let c := tip_manager_stop c in
  set_tip_starting (name :: tip_starting c) c.

(** The rest of it, under tip_mutex. *)
Definition tip_manager_start (e : answers) (name : string) (c : tts_manager_ctx_t) : Z * tts_manager_ctx_t :=
  if Nat.leb 12 (String.length name) then (-1, c)
  else
    let '(st, c) := _tts_create_stream (file_opens e) c in
    let c := set_tip_stream st c in
    match st with
    | None => (-1, c)
    | Some _ =>
        let c := set_tip_seq (tip_seq c + 1) c in
        let c := if tip_seq c =? 0 then set_tip_seq 1 c else c in
        let c := set_tip_name name c in
        if player_opens e then
          let '(n, c) := open_player c in
          (0, act (Play n name) (set_tip_player (Some n) c))
        else (-1, _tip_manager_stop (set_tip_player None c))
    end.

(** The thread of the [k]-th name of [tip_starting] goes on. *)
Definition tip_play_resume (k : nat) (e : answers) (c : tts_manager_ctx_t) : tts_manager_ctx_t :=
  match tip_starting c !! k with
  | None => c
  | Some name => (tip_manager_start e name (set_tip_starting (delete k (tip_starting c)) c)).2
  end.

Definition tip_manager_get_playing_filename (c : tts_manager_ctx_t) : string := tip_file_name c.

Definition tts_manager_init : tts_manager_ctx_t :=
  mk_ctx [] None 0 0 None None false false 0 0 None None "" false [] [] [] 0 [] 0 [] [].

(** ** The stream of a telephone number

    A file for each digit of the name, one after the other. *)

Record mfile : Type := mk_mfile { buffer : list Z; rofs : Z; digits : list ascii }.

Section Mfile.
(** The file of a digit (the name is made by sprintf with the pattern), none if
    there is none. *)
Variable sd_fmap : ascii -> option (list Z).

(** The next file, if the buffer is used up and there is a digit left. *)
Definition mfile_next (m : mfile) : mfile :=
  if Z.of_nat (length (buffer m)) <=? rofs m then
    match digits m with
    | [] => m
    | d :: ds =>
        match sd_fmap d with
        | None => mk_mfile (buffer m) (rofs m) ds
        | Some b => mk_mfile b 0 ds
        end
    end
  else m.

Definition mfile_stream_read (num : Z) (m : mfile) : list Z * mfile :=
  let m := mfile_next m in
  let read_len := if Z.of_nat (length (buffer m)) <? rofs m + num then Z.of_nat (length (buffer m)) - rofs m else num in
  (take (Z.to_nat read_len) (drop (Z.to_nat (rofs m)) (buffer m)), mk_mfile (buffer m) (rofs m + read_len) (digits m)).
End Mfile.
