(* ===== verification/TtsProof.v ===== *)
(** * Theorems of the voice prompts

    While one thread at a time starts prompts, and one tones, nothing that is
    opened or allocated is lost; with two it is.  No prompt is forgotten while
    the manager is unlocked, players open and main accepts messages.  The end of an
    old tone never ends a new one, but for the sixteenth; a telephone number is
    read file by file. *)

From Stdlib Require Import String Ascii.
From stdpp Require Import base list numbers option strings relations.
From S2P Require Import Prelude Tts.
Open Scope Z_scope.

Ltac tcbn := cbn [tts_list tts_curr tts_manager_locked tts_item_num player_handle tts_stream lisener stop_work tip_seq tip_seq_stopped
  tip_player_handle tip_stream tip_file_name tip_stop_work items streams players next_id starting triggers actions tip_starting
  set_tts_list set_curr set_lock set_num set_player set_stream set_lisener set_stop_work set_tip_seq set_tip_stopped set_tip_player set_tip_stream
  set_tip_name set_tip_work set_items set_streams set_players set_next set_starting set_triggers set_tip_starting act open_stream close_stream open_player
  close_player free_item fst snd negb andb orb].

(** ** Lists of handles *)

Definition opt (o : option nat) : list nat := match o with Some n => [n] | None => [] end.

Lemma remove_id_in n l m : m ∈ remove_id n l <-> m ∈ l /\ m <> n.
Proof. unfold remove_id. rewrite list_elem_of_filter. tauto. Qed.

Lemma remove_id_out n l : n ∉ l -> remove_id n l = l.
Proof.
  unfold remove_id. induction l as [|x l IH]; intros H; [reflexivity|]. rewrite filter_cons_True by (intros ->; apply H; left).
  f_equal. apply IH. intros Hin. apply H. right. exact Hin.
Qed.

Lemma remove_id_perm n l l' : NoDup l -> l ≡ₚ n :: l' -> remove_id n l ≡ₚ l'.
Proof.
  intros Hn Hp. assert (Hn' : NoDup (n :: l')) by (rewrite <- Hp; exact Hn). apply NoDup_cons in Hn' as [Hni Hn'].
  apply NoDup_Permutation; [apply NoDup_filter; exact Hn|exact Hn'|]. intros x. rewrite remove_id_in, Hp, elem_of_cons. split.
  - intros [[->|Hx] Hne]; [contradiction|exact Hx].
  - intros Hx. split; [right; exact Hx|]. intros ->. contradiction.
Qed.

(** ** What the prompts own *)

Definition owned (c : tts_manager_ctx_t) : list nat := item_id <$> (tts_list c ++ option_list (tts_curr c) ++ starting c).

(** No prompt, one that plays, or one whose thread waits. *)
Definition one_prompt (c : tts_manager_ctx_t) : Prop :=
  match tts_curr c, starting c with
  | None, [] => player_handle c = None /\ tts_stream c = None
  | Some _, [] => is_Some (player_handle c) /\ is_Some (tts_stream c)
  | None, [_] => player_handle c = None /\ is_Some (tts_stream c)
  | _, _ => False
  end.

(** No thread is between the two parts of tip_manager_play, or one, and no tone
    plays. *)
Definition one_tone (c : tts_manager_ctx_t) : Prop :=
  match tip_starting c with
  | [] => True
  | [_] => tip_player_handle c = None /\ tip_stream c = None
  | _ => False
  end.

Record tinv (c : tts_manager_ctx_t) : Prop := mk_tinv {
  ti_num : tts_item_num c = Z.of_nat (length (tts_list c));
  ti_max : (length (tts_list c) <= 3)%nat;
  ti_items : items c ≡ₚ owned c;
  ti_streams : streams c ≡ₚ opt (tts_stream c) ++ opt (tip_stream c);
  ti_players : players c ≡ₚ opt (player_handle c) ++ opt (tip_player_handle c);
  ti_nodup : NoDup (items c) /\ NoDup (streams c) /\ NoDup (players c);
  ti_fresh : forall n, n ∈ items c \/ n ∈ streams c \/ n ∈ players c -> (n < next_id c)%nat;
  ti_one : one_prompt c;
  ti_tip : one_tone c
}.

(** The fields after a prompt is removed. *)
Lemma remove_node_fields i ap c :
  let c' := _tts_remove_current_node (Some i) ap c in
  tts_list c' = tts_list c /\ tts_curr c' = None /\ tts_manager_locked c' = tts_manager_locked c /\ tts_item_num c' = tts_item_num c /\
  player_handle c' = None /\ tts_stream c' = None /\ tip_player_handle c' = tip_player_handle c /\ tip_stream c' = tip_stream c /\
  items c' = remove_id (item_id i) (items c) /\
  streams c' = match tts_stream c with Some n => remove_id n (streams c) | None => streams c end /\
  players c' = match player_handle c with Some n => remove_id n (players c) | None => players c end /\
  next_id c' = next_id c /\ starting c' = starting c /\ triggers c' = triggers c /\ tip_starting c' = tip_starting c.
Proof.
  cbv zeta. unfold _tts_remove_current_node, _tts_event_nodify.
  destruct (player_handle c) eqn:Ep, (tts_stream c) eqn:Es, (lisener c) eqn:El, ap as [[]|]; tcbn; rewrite ?Es, ?El; tcbn; rewrite ?Ep, ?El; tcbn; repeat split; assumption.
Qed.

Lemma drop_opt (l : list nat) (o : option nat) rest : NoDup l -> l ≡ₚ opt o ++ rest ->
  match o with Some n => remove_id n l | None => l end ≡ₚ rest /\ NoDup (match o with Some n => remove_id n l | None => l end).
Proof.
  intros Hn Hp. destruct o as [n|]; cbn [opt app] in Hp; [|auto]. split; [apply remove_id_perm; assumption|apply NoDup_filter; exact Hn].
Qed.

(** Prompt [i] is out of the list, held by the calling thread or playing. *)
Record popped (i : tts_item_t) (c : tts_manager_ctx_t) : Prop := mk_popped {
  po_num : tts_item_num c = Z.of_nat (length (tts_list c));
  po_max : (length (tts_list c) <= 3)%nat;
  po_items : items c ≡ₚ item_id i :: (item_id <$> tts_list c);
  po_start : starting c = [];
  po_streams : streams c ≡ₚ opt (tts_stream c) ++ opt (tip_stream c);
  po_players : players c ≡ₚ opt (player_handle c) ++ opt (tip_player_handle c);
  po_nodup : NoDup (items c) /\ NoDup (streams c) /\ NoDup (players c);
  po_fresh : forall n, n ∈ items c \/ n ∈ streams c \/ n ∈ players c -> (n < next_id c)%nat;
  po_tip : one_tone c
}.

Lemma remove_node_inv i ap c : popped i c -> tinv (_tts_remove_current_node (Some i) ap c).
Proof.
  intros [Hnum Hmax Hit Hst Hs Hp (N1 & N2 & N3) Hf Htip].
  destruct (remove_node_fields i ap c) as (F1 & F2 & F3 & F4 & F5 & F6 & F7 & F8 & F9 & F10 & F11 & F12 & F13 & _ & F15).
  destruct (drop_opt _ _ _ N2 Hs) as [S1 S2]. destruct (drop_opt _ _ _ N3 Hp) as [P1 P2]. split.
  - rewrite F4, F1. exact Hnum.
  - rewrite F1. exact Hmax.
  - unfold owned. rewrite F9, F1, F2, F13, Hst. cbn [option_list app]. rewrite app_nil_r. apply remove_id_perm; assumption.
  - rewrite F10, F6, F8. exact S1.
  - rewrite F11, F5, F7. exact P1.
  - rewrite F9, F10, F11. split; [apply NoDup_filter; exact N1|auto].
  - intros n. rewrite F9, F10, F11, F12. intros H. apply Hf. rewrite remove_id_in in H. destruct H as [[H _]|[H|H]]; [auto| |].
    + right. left. destruct (tts_stream c); [apply remove_id_in in H as [H _]|]; exact H.
    + right. right. destruct (player_handle c); [apply remove_id_in in H as [H _]|]; exact H.
  - unfold one_prompt. rewrite F2, F13, Hst, F5, F6. auto.
  - unfold one_tone. rewrite F15, F7, F8. exact Htip.
Qed.

(** Opening: the handle is new. *)
Lemma fresh_cons (l : list nat) n : NoDup l -> (forall m, m ∈ l -> (m < n)%nat) -> NoDup (n :: l).
Proof. intros Hn Hf. apply NoDup_cons. split; [|exact Hn]. intros Hin. specialize (Hf n Hin). lia. Qed.

Lemma start_play_inv i ok ap c : popped i c -> player_handle c = None -> is_Some (tts_stream c) -> tinv (_tts_start_play i ok ap c).2.
Proof.
  intros H Hpl [st Est]. unfold _tts_start_play. destruct ok; tcbn.
  - destruct H as [Hnum Hmax Hit Hst Hs Hp (N1 & N2 & N3) Hf Htip]. rewrite Hpl in Hp. cbn [opt app] in Hp. split; tcbn; try assumption.
    + rewrite Hit. unfold owned. tcbn. rewrite Hst. cbn [option_list app]. rewrite fmap_app. cbn [fmap list_fmap]. apply Permutation_cons_append.
    + cbn [opt app]. rewrite Hp. reflexivity.
    + repeat split; try assumption. apply fresh_cons; [exact N3|]. intros m Hm. apply Hf. auto.
    + intros n Hn. rewrite elem_of_cons in Hn. destruct Hn as [Hn|[Hn|[->|Hn]]]; [..|lia|]; specialize (Hf n ltac:(auto)); lia.
    + unfold one_prompt. tcbn. rewrite Hst, Est. eauto.
  - apply remove_node_inv. destruct H as [Hnum Hmax Hit Hst Hs Hp Hn Hf Htip]. rewrite Hpl in Hp. split; tcbn; assumption.
Qed.

Lemma item_id_bump (b : bool) i n : item_id (if b then mk_item (item_id i) (bt_clk i) (pattern i) (tts_mode i) n (tts_file_name i) else i) = item_id i.
Proof. destruct b; reflexivity. Qed.

Lemma trigger_inv sent c : tinv c -> tinv (_tts_manager_triggle_play_tts sent c).
Proof. intros []. destruct sent; split; assumption. Qed.

Lemma play_process_inv e c : tinv c -> starting c = [] -> tinv (tts_manager_play_process e c).2.
Proof.
  intros H Hst. unfold tts_manager_play_process. destruct (tts_list c) as [|i rest] eqn:El; [exact H|].
  destruct (tts_curr c) as [cur|] eqn:Ec; [exact H|]. cbn [orb]. destruct (negb (tts_manager_locked c =? 0)); [exact H|].
  set (i' := if negb (Z.land _ _ =? 0) then _ else _). assert (Hid : item_id i' = item_id i) by apply item_id_bump. clearbody i'.
  destruct H as [Hnum Hmax Hit Hs Hp (N1 & N2 & N3) Hf Hone Htip]. unfold owned, one_prompt in *. rewrite El, Ec, Hst in *. cbn [length option_list app] in *.
  rewrite app_nil_r in Hit. destruct Hone as [Hpl Hstr]. rewrite Hstr in Hs. rewrite Hpl in Hp. cbn [opt app] in Hs, Hp.
  assert (Hpop : forall c1 st, tts_list c1 = rest -> tts_item_num c1 = (tts_item_num c - 1) mod 256 -> items c1 = items c -> starting c1 = [] ->
    (match st with Some n => n = next_id c /\ streams c1 = n :: streams c | None => streams c1 = streams c end) -> tts_stream c1 = st ->
    tip_stream c1 = tip_stream c -> players c1 = players c -> player_handle c1 = None -> tip_player_handle c1 = tip_player_handle c ->
    (next_id c <= next_id c1)%nat -> (st = None \/ (next_id c < next_id c1)%nat) -> tip_starting c1 = tip_starting c -> popped i' c1).
  { intros c1 st E1 E2 E3 E4 E5 E6 E7 E8 E9 E10 E11 E12 E13. split; rewrite ?E1, ?E2, ?E3, ?E6, ?E7, ?E8, ?E9, ?E10.
    - rewrite Z.mod_small by lia. lia.
    - lia.
    - rewrite Hid, Hit. reflexivity.
    - exact E4.
    - destruct st; [destruct E5 as [_ ->]|rewrite E5]; rewrite Hs; reflexivity.
    - exact Hp.
    - repeat split; try assumption. destruct st; [destruct E5 as [-> ->]|rewrite E5; exact N2]. apply fresh_cons; [exact N2|]. intros m Hm. apply Hf. auto.
    - intros n Hn. destruct st as [m|].
      + destruct E5 as [-> E5]. rewrite E5, elem_of_cons in Hn. destruct E12 as [E12|E12]; [discriminate|].
        destruct Hn as [Hn|[[->|Hn]|Hn]]; [..|exact E12| |]; specialize (Hf n ltac:(auto)); lia.
      + rewrite E5 in Hn. specialize (Hf n Hn). lia.
    - unfold one_tone. rewrite E13, E7, E10. exact Htip. }
  unfold _tts_create_stream. destruct (file_opens e); tcbn.
  - destruct (lisener c); tcbn; unfold _tts_event_nodify; destruct (app_answer e) as [[]|]; tcbn.
    all: try (apply start_play_inv; [apply (Hpop _ (Some (next_id c))); tcbn; auto; lia|exact Hpl|tcbn; eauto]).
    all: pose proof (Hpop (set_stream (Some (next_id c)) (set_next (S (next_id c)) (set_streams (next_id c :: streams c)
           (set_num (tts_item_num c - 1) (set_tts_list rest c))))) (Some (next_id c)) eq_refl eq_refl eq_refl Hst (conj eq_refl eq_refl) eq_refl eq_refl eq_refl Hpl eq_refl
           ltac:(tcbn; lia) ltac:(tcbn; right; lia) eq_refl) as [Q1 Q2 Q3 Q4 Q5 Q6 Q7 Q8 Q9]; split; tcbn; try assumption.
    all: try (unfold owned; tcbn; rewrite Ec, Hst; cbn [option_list app]; rewrite fmap_app; etransitivity; [exact Q3|apply Permutation_cons_append]).
    all: unfold one_prompt; tcbn; rewrite Ec, Hst; eauto.
  - destruct (lisener c); tcbn.
    all: apply trigger_inv, remove_node_inv, (Hpop _ None); tcbn; auto.
Qed.

Lemma starting_one c : tinv c -> starting c = [] \/ exists i, starting c = [i] /\ tts_curr c = None.
Proof. intros []. unfold one_prompt in *. destruct (tts_curr c), (starting c) as [|i [|]]; try contradiction; eauto. Qed.

(** The prompt outside of the list. *)
Lemma waiting_popped i c : tinv c -> starting c = [i] -> popped i (set_starting [] c) /\ player_handle c = None /\ is_Some (tts_stream c).
Proof.
  intros [Hnum Hmax Hit Hs Hp Hn Hf Hone Htip] Hst. unfold one_prompt, owned in *. rewrite Hst in *. destruct (tts_curr c); [contradiction|].
  split; [|exact Hone]. cbn [option_list app] in Hit. rewrite fmap_app in Hit. split; tcbn; try assumption; [|reflexivity].
  rewrite Hit. symmetry. apply Permutation_cons_append.
Qed.

Lemma playing_popped i c : tinv c -> tts_curr c = Some i -> popped i c.
Proof.
  intros [Hnum Hmax Hit Hs Hp Hn Hf Hone Htip] Hc. unfold one_prompt, owned in *. rewrite Hc in *. destruct (starting c) eqn:Est; [|contradiction].
  split; try assumption. rewrite Hit. cbn [option_list app]. rewrite fmap_app. symmetry. apply Permutation_cons_append.
Qed.

Lemma resume_inv k e c : tinv c -> tinv (tts_play_resume k e c).
Proof.
  intros H. unfold tts_play_resume. destruct (starting c !! k) as [i|] eqn:E; [|exact H].
  destruct (starting_one c H) as [Hst|(j & Hst & _)]; rewrite Hst in E; [discriminate|]. destruct k as [|k]; [|destruct k; discriminate]. injection E as ->.
  rewrite Hst. cbn [delete list_delete]. destruct (waiting_popped i c H Hst) as (Hpop & Hpl & Hstr). apply start_play_inv; assumption.
Qed.

Lemma remove_curr_inv ap c : tinv c -> tinv (_tts_remove_current_node (tts_curr c) ap c).
Proof. intros H. destruct (tts_curr c) as [i|] eqn:E; [|exact H]. apply remove_node_inv, playing_popped; assumption. Qed.

Lemma stop_inv sent ap c : tinv c -> tinv (tts_manager_stop sent ap c).
Proof.
  intros H. unfold tts_manager_stop. apply trigger_inv. destruct (tts_curr c) as [i|] eqn:E; [|exact H].
  destruct (_ || _); [exact H|]. apply remove_node_inv, playing_popped; assumption.
Qed.

(** Dropping the oldest prompt of the list. *)
Lemma drop_head_inv i rest c : tinv c -> tts_list c = i :: rest -> tinv (free_item i (set_num (tts_item_num c - 1) (set_tts_list rest c))).
Proof.
  intros [Hnum Hmax Hit Hs Hp (N1 & N2 & N3) Hf Hone Htip] El. rewrite El in *. cbn [length] in *. split; tcbn; try assumption.
  - rewrite Z.mod_small by lia. lia.
  - lia.
  - unfold owned in *. tcbn. rewrite El in Hit. cbn [app] in Hit. rewrite fmap_cons in Hit. apply remove_id_perm; assumption.
  - split; [apply NoDup_filter; exact N1|auto].
  - intros n [Hn|Hn]; [apply remove_id_in in Hn as [Hn _]|]; apply Hf; auto.
Qed.

Lemma create_item_inv name mode clk pat i c : tinv c -> (length (tts_list c) < 3)%nat -> (_tts_create_item true name mode clk pat c).1 = Some i ->
  let c' := (_tts_create_item true name mode clk pat c).2 in tinv (set_num (tts_item_num c' + 1) (set_tts_list (tts_list c' ++ [i]) c')).
Proof.
  intros [Hnum Hmax Hit Hs Hp (N1 & N2 & N3) Hf Hone Htip] Hlen E. cbn [_tts_create_item fst] in E. injection E as <-. cbv zeta. cbn [_tts_create_item]. tcbn.
  split; tcbn; try assumption.
  - rewrite length_app. cbn [length]. rewrite Z.mod_small by lia. lia.
  - rewrite length_app. cbn [length]. lia.
  - unfold owned in *. tcbn. rewrite Hit, !fmap_app. cbn [fmap list_fmap item_id]. rewrite <- !app_assoc. cbn [app]. apply Permutation_middle.
  - split; [|auto]. apply fresh_cons; [exact N1|]. intros m Hm. apply Hf. auto.
  - intros n. rewrite elem_of_cons. intros [[->|Hn]|Hn]; [lia|specialize (Hf n ltac:(auto)); lia|specialize (Hf n ltac:(auto)); lia].
Qed.

Lemma enqueue_inv mem name mode clk pat c : tinv c -> tinv (enqueue mem name mode clk pat c).2 /\
  starting (enqueue mem name mode clk pat c).2 = starting c /\ tts_curr (enqueue mem name mode clk pat c).2 = tts_curr c.
Proof.
  intros H. unfold enqueue. destruct (0 <? tts_manager_locked c); [auto|]. destruct (contains ".pcm" name); [auto|].
  set (c1 := if 3 <=? tts_item_num c then _ else c).
  assert (H1 : tinv c1 /\ (length (tts_list c1) < 3)%nat /\ starting c1 = starting c /\ tts_curr c1 = tts_curr c).
  { unfold c1. pose proof (ti_num c H) as Hn. pose proof (ti_max c H) as Hm. destruct (Z.leb_spec 3 (tts_item_num c)); [|split; [exact H|split; [lia|auto]]].
    destruct (tts_list c) as [|i rest] eqn:El; [cbn in Hn; lia|]. split; [apply drop_head_inv; assumption|]. cbn [length] in *. tcbn. split; [lia|auto]. }
  clearbody c1. destruct H1 as (H1 & Hlen & Hst & Hcu). destruct mem; [|cbn [_tts_create_item snd]; auto].
  pose proof (fun i => create_item_inv name mode clk pat i c1 H1 Hlen) as Hi. cbn [_tts_create_item fst snd] in *. split; [exact (Hi _ eq_refl)|]. tcbn. auto.
Qed.

Lemma wait_finished_inv all c : tinv c -> tinv (tts_manager_wait_finished all c).
Proof.
  intros H. unfold tts_manager_wait_finished. destruct all; [|destruct (tts_list c); exact H].
  assert (G : forall l c, tinv c -> tts_list c = l ->
    tinv (set_num 0 (set_tts_list [] (fold_left (fun c i => free_item i c) l c)))).
  { induction l as [|i l IH]; intros c0 H0 El.
    - cbn [fold_left]. destruct H0 as [Hnum Hmax Hit Hs Hp Hn Hf Hone Htip]. unfold owned in *. rewrite El in *. split; tcbn; try assumption; reflexivity.
    - cbn [fold_left]. specialize (IH _ (drop_head_inv i l c0 H0 El) eq_refl).
      assert (E : forall k d1 d2, set_num 0 (set_tts_list [] d1) = set_num 0 (set_tts_list [] d2) ->
        set_num 0 (set_tts_list [] (fold_left (fun c i => free_item i c) k d1)) = set_num 0 (set_tts_list [] (fold_left (fun c i => free_item i c) k d2))).
      { induction k as [|j k IHk]; intros d1 d2 Ed; [exact Ed|]. cbn [fold_left]. apply IHk. unfold free_item, set_num, set_tts_list, set_items in *. tcbn.
        injection Ed as -> -> -> -> -> -> -> -> -> -> -> -> -> -> -> -> -> -> -> ->. reflexivity. }
      rewrite (E l (free_item i c0) (free_item i (set_num (tts_item_num c0 - 1) (set_tts_list l c0)))); [exact IH|reflexivity]. }
  destruct (tts_list c) eqn:El; [exact H|]. rewrite <- El. apply G; [exact H|reflexivity].
Qed.

(** Tones. *)
Lemma tip_stop_inv c : tinv c -> tinv (_tip_manager_stop c) /\ tip_stream (_tip_manager_stop c) = None /\ tip_player_handle (_tip_manager_stop c) = None /\
  starting (_tip_manager_stop c) = starting c /\ tip_starting (_tip_manager_stop c) = tip_starting c.
Proof.
  intros [Hnum Hmax Hit Hs Hp (N1 & N2 & N3) Hf Hone Htip]. unfold _tip_manager_stop. tcbn.
  rewrite Permutation_app_comm in Hs, Hp. destruct (drop_opt _ _ _ N2 Hs) as [S1 S2]. destruct (drop_opt _ _ _ N3 Hp) as [P1 P2].
  destruct (tip_player_handle c) as [pl|] eqn:Ep, (tip_stream c) as [st|] eqn:Es; tcbn; rewrite ?Es; tcbn; rewrite ?Ep; (split; [|auto]); split; tcbn;
    rewrite ?Es, ?Ep; cbn [opt app]; rewrite ?app_nil_r; try assumption; try (repeat split; assumption);
    try (unfold one_tone in *; tcbn; rewrite ?Es, ?Ep in *; destruct (tip_starting c) as [|? [|]]; tauto);
    intros n; rewrite ?remove_id_in; intros Hn; apply Hf; tauto.
Qed.

Lemma tip_play_inv name c : tinv c -> tip_starting c = [] -> tinv (tip_manager_play name c).
Proof.
  intros H Ht. unfold tip_manager_play, tip_manager_stop. destruct (tip_stop_inv c H) as (H1 & Es & Ep & _ & Ht1). rewrite Ht in Ht1.
  destruct H1. split; tcbn; try assumption. unfold one_tone. tcbn. rewrite Ht1. auto.
Qed.

(** The stream of the new tone is open, its player not yet. *)
Lemma tip_stream_inv name c : tinv c -> tip_starting c = [] -> tip_stream c = None -> tip_player_handle c = None ->
  let c1 := set_tip_stream (Some (next_id c)) (open_stream c).2 in
  let c2 := set_tip_seq (tip_seq c1 + 1) c1 in
  let c3 := set_tip_name name (if tip_seq c2 =? 0 then set_tip_seq 1 c2 else c2) in
  tinv c3 /\ tip_player_handle c3 = None /\ tip_starting c3 = [].
Proof.
  intros [Hnum Hmax Hit Hs Hp (N1 & N2 & N3) Hf Hone Htip] Ht Es Ep. cbv zeta. rewrite Es in Hs. cbn [opt] in Hs. rewrite app_nil_r in Hs.
  destruct (_ =? 0); tcbn; (split; [|auto]); (split; tcbn; try assumption).
  all: try (cbn [opt]; rewrite Hs; apply Permutation_cons_append).
  all: try (repeat split; try assumption; apply fresh_cons; [exact N2|]; intros m Hm; apply Hf; auto).
  all: try (unfold one_tone; tcbn; rewrite Ht; exact I).
  all: intros n; rewrite elem_of_cons; intros [Hn|[[->|Hn]|Hn]]; try lia; specialize (Hf n ltac:(auto)); lia.
Qed.

Lemma tip_start_inv e name c : tinv c -> tip_starting c = [] -> tip_stream c = None -> tip_player_handle c = None -> tinv (tip_manager_start e name c).2.
Proof.
  intros H Ht Es Ep. unfold tip_manager_start. destruct (Nat.leb 12 (String.length name)); [exact H|]. unfold _tts_create_stream. destruct (file_opens e).
  - destruct (tip_stream_inv name c H Ht Es Ep) as (H2 & Ep2 & Ht2). unfold open_stream, open_player in *. cbv beta iota zeta in *. cbn [snd] in *.
    set (c2 := set_tip_name name _) in *. clearbody c2. destruct (player_opens e); tcbn.
    + destruct H2 as [Hnum Hmax Hit Hs Hp (N1 & N2 & N3) Hf Hone Htip]. rewrite Ep2 in Hp. cbn [opt] in Hp. rewrite app_nil_r in Hp. split; tcbn; try assumption.
      * cbn [opt]. rewrite Hp. apply Permutation_cons_append.
      * repeat split; try assumption. apply fresh_cons; [exact N3|]. intros m Hm. apply Hf. auto.
      * intros n. rewrite elem_of_cons. intros [Hn|[Hn|[->|Hn]]]; [..|lia|]; specialize (Hf n ltac:(auto)); lia.
      * unfold one_tone. tcbn. rewrite Ht2. exact I.
    + apply tip_stop_inv. destruct H2. unfold one_tone in *. rewrite Ep2 in *. split; tcbn; assumption.
  - destruct H. unfold one_tone in *. rewrite Es in *. split; tcbn; assumption.
Qed.

Lemma tip_resume_inv k e c : tinv c -> tinv (tip_play_resume k e c).
Proof.
  intros H. unfold tip_play_resume. pose proof (ti_tip c H) as Ht. unfold one_tone in Ht.
  destruct (tip_starting c) as [|name [|]] eqn:E; [exact H| |contradiction]. destruct k as [|k]; [|exact H]. cbn [lookup list_lookup delete list_delete].
  destruct Ht as [Ep Es]. apply tip_start_inv; tcbn; try assumption; [|reflexivity]. destruct H. split; tcbn; try assumption. exact I.
Qed.

Lemma play_block_inv e name c : tinv c -> tinv (tts_manager_play_block e name c).2.
Proof.
  intros H. unfold tts_manager_play_block. destruct (0 <? _); [exact H|]. destruct (file_opens e); [|exact H]. tcbn.
  destruct H as [Hnum Hmax Hit Hs Hp (N1 & N2 & N3) Hf Hone Htip].
  assert (Hout : forall l, (forall n, n ∈ l -> (n < next_id c)%nat) -> forall k, (next_id c <= k)%nat -> remove_id k (k :: l) = l).
  { intros l Hl k Hk. unfold remove_id. rewrite filter_cons_False by tauto. change (remove_id k l = l). apply remove_id_out. intros Hin. specialize (Hl k Hin). lia. }
  destruct (player_opens e); tcbn; split; tcbn; try assumption; rewrite ?Hout by (lia || (intros n Hn; apply Hf; auto)); try assumption; try (repeat split; assumption);
    intros n Hn; specialize (Hf n Hn); lia.
Qed.

(** ** Reachable states *)

(** One thread at a time starts prompts: no other call starts one while a thread
    waits for the application; and one at a time starts tones.  With [good],
    players open, messages to main are accepted and the manager is not locked. *)
Definition works (good : bool) (e : answers) : Prop := good = true -> player_opens e = true /\ msg_sent e = true.

Inductive tstep (good : bool) : tts_manager_ctx_t -> tts_manager_ctx_t -> Prop :=
| ts_main e c n : starting c = [] -> triggers c = S n -> works good e ->
    tstep good c (tts_manager_play_process e (set_triggers n c)).2
| ts_request mem e name mode clk pat c : Z.land mode PLAY_IMMEDIATELY = 0 \/ starting c = [] -> works good e ->
    tstep good c (tts_manager_play_with_time mem e name mode clk pat c).2
| ts_resume k e c : works good e -> tstep good c (tts_play_resume k e c)
| ts_end c : tstep good c (_tts_manager_play_event_notify c)
| ts_work sent ap c : stop_work c = true -> (good = true -> sent = true) -> tstep good c (_tts_manager_stop_work sent ap c)
| ts_stop sent ap c : (good = true -> sent = true) -> tstep good c (tts_manager_stop sent ap c)
| ts_lock c : good = false -> tstep good c (tts_manager_lock c)
| ts_unlock c : tstep good c (tts_manager_unlock c)
| ts_clean all c : tstep good c (tts_manager_wait_finished all c)
| ts_block e name c : tstep good c (tts_manager_play_block e name c).2
| ts_lisener c : tstep good c (tts_manager_add_event_lisener c)
| ts_no_lisener c : tstep good c (tts_manager_remove_event_lisener c)
| ts_tip name c : tip_starting c = [] -> tstep good c (tip_manager_play name c)
| ts_tip_resume k e c : tstep good c (tip_play_resume k e c)
| ts_tip_stop c : tstep good c (tip_manager_stop c)
| ts_tip_end u c : tstep good c (_tip_manager_play_event_notify u c)
| ts_tip_work c : tip_stop_work c = true -> tstep good c (_tip_manager_stop_work c).

Lemma request_inv mem e name mode clk pat c : tinv c -> Z.land mode PLAY_IMMEDIATELY = 0 \/ starting c = [] ->
  tinv (tts_manager_play_with_time mem e name mode clk pat c).2.
Proof.
  intros H Hm. unfold tts_manager_play_with_time. destruct (enqueue_inv mem name mode clk pat c H) as (H1 & Hst & _).
  destruct (enqueue mem name mode clk pat c) as [res c1]. cbn [snd] in *. destruct (_ && _); [|exact H1].
  destruct (Z.eqb_spec (Z.land mode PLAY_IMMEDIATELY) 0) as [E|E]; cbn [negb]; [apply trigger_inv; exact H1|].
  destruct Hm as [Hm|Hm]; [contradiction|]. apply play_process_inv; [exact H1|congruence].
Qed.

Lemma tip_work_inv c : tinv c -> tinv (_tip_manager_stop_work c).
Proof.
  intros H. assert (H1 : tinv (set_tip_work false c)) by (destruct H; split; assumption). unfold _tip_manager_stop_work.
  destruct (_ =? _); [apply tip_stop_inv|]; exact H1.
Qed.

Lemma tstep_inv good c c' : tstep good c c' -> tinv c -> tinv c'.
Proof.
  intros Hs H. destruct Hs; try (destruct H; split; assumption).
  - apply play_process_inv; [destruct H; split; assumption|assumption].
  - apply request_inv; assumption.
  - apply resume_inv; exact H.
  - unfold _tts_manager_stop_work. apply trigger_inv, remove_curr_inv. destruct H; split; assumption.
  - apply stop_inv; exact H.
  - unfold tts_manager_unlock. destruct (_ <? _); [destruct H; split; assumption|exact H].
  - apply wait_finished_inv; exact H.
  - apply play_block_inv; exact H.
  - apply tip_play_inv; assumption.
  - apply tip_resume_inv; exact H.
  - apply tip_stop_inv; exact H.
  - apply tip_work_inv; exact H.
Qed.

Lemma init_tinv : tinv tts_manager_init.
Proof.
  split; try reflexivity; [cbn; lia|repeat split; apply NoDup_nil_2| |split; reflexivity].
  intros n [Hn|[Hn|Hn]]; apply not_elem_of_nil in Hn; contradiction.
Qed.

Lemma tinv_reach good c : rtc (tstep good) tts_manager_init c -> tinv c.
Proof.
  intros H. pose proof init_tinv as Hi. induction H as [|? ? ? Hs _ IH]; [exact Hi|]. apply IH. exact (tstep_inv _ _ _ Hs Hi).
Qed.

(** C30: while only one thread at a time starts prompts and only one at a time
    starts tones (tip_manager_play gives up its mutex between the stop of the
    old tone and the start of the new one), in every reachable state
    the counter is the length of the list, which is at most three; the items
    that are allocated are the ones of the list, of the current prompt and of
    the thread that waits; the open streams and players are the ones of the
    current prompt and of the current tone; and there is at most one prompt
    outside of the list, with its player and its stream. *)
Theorem tts_owns_what_is_open c : rtc (tstep false) tts_manager_init c ->
  tts_item_num c = Z.of_nat (length (tts_list c)) /\ (length (tts_list c) <= 3)%nat /\ items c ≡ₚ owned c /\
  streams c ≡ₚ opt (tts_stream c) ++ opt (tip_stream c) /\ players c ≡ₚ opt (player_handle c) ++ opt (tip_player_handle c) /\ one_prompt c.
Proof. intros H. destruct (tinv_reach _ _ H). auto 8. Qed.

Definition yes : answers := mk_answers true true None true.
Definition asks : answers := mk_answers true true (Some true) true.
Definition first_request : tts_manager_ctx_t := (tts_manager_play_with_time true yes "a.act" PLAY_IMMEDIATELY UINT64_MAX None tts_manager_init).2.
Definition two_requests : tts_manager_ctx_t := (tts_manager_play_with_time true yes "b.act" 0 UINT64_MAX None first_request).2.

Lemma two_requests_reach good : rtc (tstep good) tts_manager_init two_requests.
Proof.
  apply (rtc_l _ _ first_request); [apply ts_request; [right; reflexivity|split; reflexivity]|].
  apply rtc_once. apply ts_request; [left; reflexivity|split; reflexivity].
Qed.

Lemma tts_owns_what_is_open_witness : players two_requests = [2%nat] /\ items two_requests ≡ₚ owned two_requests /\ length (items two_requests) = 2%nat.
Proof.
  split; [reflexivity|]. split; [|reflexivity]. apply (tts_owns_what_is_open two_requests). apply two_requests_reach.
Defined.

(** ** No prompt is forgotten *)

(** A prompt plays, a thread starts one, nothing waits, or main was told. *)
Definition served (c : tts_manager_ctx_t) : Prop :=
  tts_manager_locked c = 0 /\ (tts_curr c <> None \/ starting c <> [] \/ tts_list c = [] \/ triggers c <> 0%nat).

Lemma start_play_served i ap c : tts_manager_locked c = 0 -> served (_tts_start_play i true ap c).2.
Proof. intros H. split; [exact H|]. left. discriminate. Qed.

Lemma remove_node_locked i ap c : tts_manager_locked (_tts_remove_current_node (Some i) ap c) = tts_manager_locked c.
Proof. apply (remove_node_fields i ap c). Qed.

Lemma triggered_served c : tts_manager_locked c = 0 -> served (_tts_manager_triggle_play_tts true c).
Proof. intros H. split; [exact H|]. right. right. right. discriminate. Qed.

Lemma play_process_served e c : tts_manager_locked c = 0 -> works true e -> served (tts_manager_play_process e c).2.
Proof.
  intros Hl Hw. destruct (Hw eq_refl) as [Hp Hm]. unfold tts_manager_play_process. destruct (tts_list c) as [|i rest] eqn:El; [split; auto|].
  destruct (tts_curr c) eqn:Ec; cbn [orb]; [split; [exact Hl|left; cbn [snd]; rewrite Ec; discriminate]|]. rewrite Hl. change (0 =? 0) with true. cbn [negb].
  unfold _tts_create_stream, _tts_event_nodify. destruct (file_opens e); tcbn.
  - rewrite Hp. destruct (lisener c), (app_answer e) as [[]|]; tcbn; try (apply start_play_served; exact Hl); (split; [exact Hl|right; left; discriminate]).
  - rewrite Hm. apply triggered_served. rewrite remove_node_locked. destruct (lisener c); exact Hl.
Qed.

Lemma enqueue_fields mem name mode clk pat c : let c' := (enqueue mem name mode clk pat c).2 in
  tts_manager_locked c' = tts_manager_locked c /\ starting c' = starting c /\ tts_curr c' = tts_curr c /\ triggers c' = triggers c /\
  (tts_manager_locked c = 0 -> (enqueue mem name mode clk pat c).1 = 0 \/ (enqueue mem name mode clk pat c).1 = - ENOMEM).
Proof.
  cbv zeta. unfold enqueue. destruct (Z.ltb_spec 0 (tts_manager_locked c)); [repeat split; lia|]. destruct (contains ".pcm" name); [auto 8|].
  destruct (3 <=? tts_item_num c), (tts_list c), mem; tcbn; auto 8.
Qed.

(** The list only shrinks if the request fails. *)
Lemma enqueue_failed mem name mode clk pat c : (enqueue mem name mode clk pat c).1 <> 0 -> tts_manager_locked c = 0 ->
  tts_list c = [] -> tts_list (enqueue mem name mode clk pat c).2 = [].
Proof.
  unfold enqueue. intros Hr Hl El. rewrite Hl in *. change (0 <? 0) with false in *. destruct (contains ".pcm" name); [contradiction Hr; reflexivity|].
  rewrite El in *. destruct (3 <=? tts_item_num c), mem; cbn [_tts_create_item fst snd] in *; try (contradiction Hr; reflexivity); exact El.
Qed.

Lemma request_served mem e name mode clk pat c : served c -> works true e ->
  served (tts_manager_play_with_time mem e name mode clk pat c).2.
Proof.
  intros [Hl Hs] Hp. unfold tts_manager_play_with_time. destruct (enqueue_fields mem name mode clk pat c) as (E1 & E2 & E3 & E4 & E5).
  pose proof (enqueue_failed mem name mode clk pat c) as Hfail. destruct (enqueue mem name mode clk pat c) as [res c1]. cbn [fst snd] in *.
  destruct (Z.eqb_spec res 0) as [Er|Er]; cbn [andb].
  - destruct (tts_curr c1) as [i|] eqn:Ec; cbn [negb]; [cbn [snd]; split; [congruence|left; congruence]|].
    destruct (negb _); [apply play_process_served; [congruence|exact Hp]|]. rewrite (proj2 (Hp eq_refl)). apply triggered_served. congruence.
  - cbn [snd]. split; [congruence|]. rewrite E2, E3, E4. destruct Hs as [Hs|[Hs|[Hs|Hs]]]; auto.
Qed.

Lemma unchanged_served c c' : served c -> tts_manager_locked c' = tts_manager_locked c -> tts_curr c' = tts_curr c -> starting c' = starting c ->
  tts_list c' = tts_list c -> triggers c' = triggers c -> served c'.
Proof. intros [Hl Hs] E1 E2 E3 E4 E5. unfold served. rewrite E1, E2, E3, E4, E5. auto. Qed.

Lemma tip_stop_fields c : let c' := _tip_manager_stop c in tts_manager_locked c' = tts_manager_locked c /\ tts_curr c' = tts_curr c /\
  starting c' = starting c /\ tts_list c' = tts_list c /\ triggers c' = triggers c.
Proof.
  cbv zeta. unfold _tip_manager_stop. tcbn. destruct (tip_player_handle c); tcbn; destruct (tip_stream c); tcbn; auto.
Qed.

Lemma tip_start_fields e name c : let c' := (tip_manager_start e name c).2 in tts_manager_locked c' = tts_manager_locked c /\ tts_curr c' = tts_curr c /\
  starting c' = starting c /\ tts_list c' = tts_list c /\ triggers c' = triggers c.
Proof.
  cbv zeta. unfold tip_manager_start. destruct (Nat.leb 12 (String.length name)); [auto 8|]. unfold _tts_create_stream. destruct (file_opens e); [|tcbn; auto 8].
  unfold open_stream, open_player. cbv beta iota zeta. destruct (player_opens e).
  - destruct (tip_seq _ =? 0); tcbn; auto 8.
  - cbn [snd]. match goal with |- context [_tip_manager_stop ?x] => destruct (tip_stop_fields x) as (-> & -> & -> & -> & ->) end. tcbn. destruct (_ =? 0); tcbn; auto 8.
Qed.

Lemma tstep_served c c' : tstep true c c' -> served c -> served c'.
Proof.
  intros Hs H. destruct Hs as [e c n Hst Ht Hp|mem e name mode clk pat c _ Hp|k e c Hp|c|sent ap c _ Hm|sent ap c Hm|c Hg|c|all c|e name c|c|c|name c _|k e c|c|u c|c _].
  - apply play_process_served; [exact (proj1 H)|auto].
  - apply request_served; auto.
  - unfold tts_play_resume. destruct (starting c !! k); [|exact H]. rewrite (proj1 (Hp eq_refl)). apply start_play_served. exact (proj1 H).
  - apply (unchanged_served c); auto.
  - unfold _tts_manager_stop_work. rewrite (Hm eq_refl). apply triggered_served. destruct (tts_curr _); [rewrite remove_node_locked|]; exact (proj1 H).
  - unfold tts_manager_stop. rewrite (Hm eq_refl). apply triggered_served. destruct (tts_curr c); [|exact (proj1 H)]. destruct (_ || _); [|rewrite remove_node_locked]; exact (proj1 H).
  - discriminate.
  - unfold tts_manager_unlock. rewrite (proj1 H). exact H.
  - unfold tts_manager_wait_finished. destruct (tts_list c) as [|i l] eqn:El; [exact H|]. destruct all; [|exact H].
    assert (F : forall l c, tts_manager_locked (fold_left (fun c i => free_item i c) l c) = tts_manager_locked c).
    { induction l0 as [|j l0 IH]; intros c0; [reflexivity|]. cbn [fold_left]. rewrite IH. reflexivity. }
    split; [tcbn; rewrite F; exact (proj1 H)|]. right. right. left. reflexivity.
  - unfold tts_manager_play_block. destruct (_ <? _); [exact H|]. destruct (file_opens e); [|exact H]. destruct (player_opens e); apply (unchanged_served c); auto.
  - apply (unchanged_served c); auto.
  - apply (unchanged_served c); auto.
  - destruct (tip_stop_fields c) as (E1 & E2 & E3 & E4 & E5). apply (unchanged_served c); assumption.
  - unfold tip_play_resume. destruct (tip_starting c !! k) as [name|]; [|exact H].
    destruct (tip_start_fields e name (set_tip_starting (delete k (tip_starting c)) c)) as (E1 & E2 & E3 & E4 & E5). apply (unchanged_served c); assumption.
  - destruct (tip_stop_fields c) as (E1 & E2 & E3 & E4 & E5). apply (unchanged_served c); assumption.
  - apply (unchanged_served c); auto.
  - unfold _tip_manager_stop_work. destruct (_ =? _); [|apply (unchanged_served c); auto].
    destruct (tip_stop_fields (set_tip_work false c)) as (E1 & E2 & E3 & E4 & E5). apply (unchanged_served c); assumption.
Qed.

(** C31: while the manager is never locked, players open, main has room for the
    messages of the prompts, and one thread at a time starts prompts and one
    tones, a prompt that waits is never forgotten: another one plays or is being
    started, or main has a message to start it; and when nothing plays or is
    being started, tts_manager_play_process, which main calls for the message,
    plays the first of the list, or asks the application, if its file opens. *)
Theorem tts_not_forgotten c i rest : rtc (tstep true) tts_manager_init c -> tts_list c = i :: rest ->
  (tts_curr c <> None \/ starting c <> [] \/ triggers c <> 0%nat) /\
  (tts_curr c = None -> starting c = [] -> forall e, file_opens e = true -> player_opens e = true ->
     let c' := (tts_manager_play_process e c).2 in
     tts_list c' = rest /\ (exists j, item_id j = item_id i /\ tts_file_name j = tts_file_name i /\ (tts_curr c' = Some j \/ starting c' = [j]))).
Proof.
  intros H El. assert (Hs : served c).
  { assert (Hi : served tts_manager_init) by (split; auto). clear El. induction H as [|? ? ? Hst _ IH]; [exact Hi|]. apply IH. exact (tstep_served _ _ Hst Hi). }
  destruct Hs as [Hl Hs]. split.
  - destruct Hs as [Hs|[Hs|[Hs|Hs]]]; auto. congruence.
  - intros Hc Hst e Hf Hp. cbv zeta. unfold tts_manager_play_process. rewrite El, Hc, Hl. change (0 =? 0) with true. cbn [negb orb].
    set (i' := if negb (Z.land _ _ =? 0) then _ else _).
    assert (Hi : item_id i' = item_id i /\ tts_file_name i' = tts_file_name i) by (unfold i'; destruct (negb _); auto). clearbody i'.
    unfold _tts_create_stream, _tts_event_nodify, _tts_start_play. rewrite Hf, Hp. tcbn. destruct (lisener c), (app_answer e) as [[]|]; tcbn;
      (split; [reflexivity|]); exists i'; (split; [apply Hi|]); (split; [apply Hi|]); rewrite ?Hst; auto.
Qed.

Lemma tts_not_forgotten_witness : tts_curr two_requests <> None \/ starting two_requests <> [] \/ triggers two_requests <> 0%nat.
Proof.
  apply (tts_not_forgotten two_requests (mk_item 3 UINT64_MAX None 0 0 "b.act") []); [apply two_requests_reach|reflexivity].
Defined.

(** ** What goes wrong *)

(** the mutex is given up between the test that nothing plays and the moment
    the prompt is noted as the current one.  Two threads that start prompts in
    that time both play: the first prompt's item, stream and player are open
    for ever, and nothing refers to them. *)
Theorem two_starts_leak c i j rest e : tinv c -> tts_list c = i :: j :: rest -> tts_curr c = None -> starting c = [] -> tts_manager_locked c = 0 ->
  file_opens e = true -> player_opens e = true -> app_answer e = Some true ->
  let c2 := (tts_manager_play_process e (tts_manager_play_process e c).2).2 in
  let c4 := tts_play_resume 0 e (tts_play_resume 1 e c2) in
  (item_id i ∈ items c4 /\ item_id i ∉ owned c4) /\
  (exists n, n ∈ streams c4 /\ tts_stream c4 <> Some n /\ tip_stream c4 <> Some n) /\
  (exists n, n ∈ players c4 /\ player_handle c4 <> Some n /\ tip_player_handle c4 <> Some n).
Proof.
  intros [Hnum Hmax Hit Hs Hp (N1 & N2 & N3) Hf Hone Htip] El Hc Hst Hl He1 He2 He3. cbv zeta.
  assert (Hstep : forall d x l st, tts_list d = x :: l -> tts_curr d = None -> tts_manager_locked d = 0 -> starting d = st ->
    exists x', item_id x' = item_id x /\ let d' := (tts_manager_play_process e d).2 in
      tts_list d' = l /\ tts_curr d' = None /\ tts_manager_locked d' = 0 /\ starting d' = x' :: st /\ items d' = items d /\
      streams d' = next_id d :: streams d /\ players d' = players d /\ next_id d' = S (next_id d) /\ tts_stream d' = Some (next_id d) /\
      tip_stream d' = tip_stream d /\ tip_player_handle d' = tip_player_handle d /\ player_handle d' = player_handle d).
  { intros d x l st E1 E2 E3 E4. unfold tts_manager_play_process. rewrite E1, E2, E3. change (0 =? 0) with true. cbn [orb negb].
    set (x' := if negb (Z.land _ _ =? 0) then _ else _). exists x'. split; [apply item_id_bump|]. clearbody x'.
    unfold _tts_create_stream, _tts_event_nodify. rewrite He1, He3. tcbn. destruct (lisener d); tcbn; rewrite E4; auto 15. }
  destruct (Hstep c i (j :: rest) [] El Hc Hl Hst) as (i' & Ei & F1). destruct F1 as (A1 & A2 & A3 & A4 & A5 & A6 & A7 & A8 & A9 & A10 & A11 & A12).
  set (c1 := (tts_manager_play_process e c).2) in *. clearbody c1.
  destruct (Hstep c1 j rest [i'] A1 A2 A3 A4) as (j' & Ej & F2). destruct F2 as (B1 & B2 & B3 & B4 & B5 & B6 & B7 & B8 & B9 & B10 & B11 & B12).
  set (c2 := (tts_manager_play_process e c1).2) in *. clearbody c2.
  assert (Hres : forall d k x, starting d !! k = Some x -> let d' := tts_play_resume k e d in
    tts_list d' = tts_list d /\ tts_curr d' = Some x /\ starting d' = delete k (starting d) /\ items d' = items d /\ streams d' = streams d /\
    players d' = next_id d :: players d /\ next_id d' = S (next_id d) /\ tts_stream d' = tts_stream d /\ player_handle d' = Some (next_id d) /\
    tip_stream d' = tip_stream d /\ tip_player_handle d' = tip_player_handle d).
  { intros d k x E. cbv zeta. unfold tts_play_resume, _tts_start_play. rewrite E, He2. tcbn. auto 12. }
  destruct (Hres c2 1%nat i') as (C1 & C2 & C3 & C4 & C5 & C6 & C7 & C8 & C9 & C10 & C11); [rewrite B4; reflexivity|].
  set (c3 := tts_play_resume 1 e c2) in *. clearbody c3. rewrite B4 in C3. cbn [delete list_delete] in C3.
  destruct (Hres c3 0%nat j') as (D1 & D2 & D3 & D4 & D5 & D6 & D7 & D8 & D9 & D10 & D11); [rewrite C3; reflexivity|].
  set (c4 := tts_play_resume 0 e c3) in *. clearbody c4. rewrite C3 in D3. cbn [delete list_delete] in D3.
  rewrite D4, C4, D5, C5, D6, C6, C7, D8, C8, D9, C7, D10, C10, D11, C11.
  rewrite B5, A5, B6, A6, B7, A7, B8, A8, B9, A8, B10, A10, B11, A11. unfold owned in *. rewrite El, Hc, Hst in Hit. cbn [option_list app] in Hit. rewrite app_nil_r in Hit.
  repeat split.
  - rewrite Hit. left.
  - rewrite D1, C1, B1, D2, D3. cbn [option_list app]. rewrite fmap_app. change (item_id <$> option_list (Some j') ++ []) with [item_id j']. rewrite Ej. rewrite Hit in N1.
    apply NoDup_cons in N1 as [N1 _]. intros Hin. apply N1. apply elem_of_app in Hin as [Hin|Hin]; [right; exact Hin|].
    apply list_elem_of_singleton in Hin. rewrite Hin. left.
  - exists (next_id c). split; [right; left|]. split; [intros [= E]; lia|]. intros E. specialize (Hf (next_id c)). rewrite Hs, E in Hf.
    specialize (Hf ltac:(right; left; apply elem_of_app; right; left)). lia.
  - exists (S (S (next_id c))). split; [right; left|]. split; [intros [= E]; lia|]. intros E. specialize (Hf (S (S (next_id c)))). rewrite Hp, E in Hf.
    specialize (Hf ltac:(right; right; apply elem_of_app; right; left)). lia.
Qed.

Definition queued_two : tts_manager_ctx_t :=
  (tts_manager_play_with_time true yes "b.act" 0 UINT64_MAX None (tts_manager_play_with_time true yes "a.act" 0 UINT64_MAX None tts_manager_init).2).2.

Lemma two_starts_leak_witness :
  let c4 := tts_play_resume 0 asks (tts_play_resume 1 asks (tts_manager_play_process asks (tts_manager_play_process asks queued_two).2).2) in
  0%nat ∈ items c4 /\ 0%nat ∉ owned c4.
Proof.
  cbv zeta. apply (two_starts_leak queued_two (mk_item 0 UINT64_MAX None 0 0 "a.act") (mk_item 1 UINT64_MAX None 0 0 "b.act") [] asks); try reflexivity.
  unfold queued_two. apply request_inv; [apply request_inv; [exact init_tinv|left; reflexivity]|left; reflexivity].
Defined.

(** the end of a prompt is noted by a work that removes whatever prompt is
    the current one when it runs.  If the prompt is stopped meanwhile and the
    next one started, the work stops that one. *)
Theorem stale_stop_work c i j rest e sent ap : tts_curr c = Some i -> tts_mode i <> UNBLOCK_UNINTERRUPTABLE -> tts_mode i <> BLOCK_UNINTERRUPTABLE ->
  stop_work c = true -> tts_list c = j :: rest -> tts_manager_locked c = 0 ->
  file_opens e = true -> player_opens e = true -> app_answer e <> Some true ->
  let c2 := (tts_manager_play_process e (tts_manager_stop sent ap c)).2 in
  (exists j', item_id j' = item_id j /\ tts_curr c2 = Some j') /\ stop_work c2 = true /\
  tts_curr (_tts_manager_stop_work sent ap c2) = None /\ item_id j ∉ items (_tts_manager_stop_work sent ap c2).
Proof.
  intros Hc M1 M2 Hw El Hl He1 He2 He3. cbv zeta. unfold tts_manager_stop. rewrite Hc.
  destruct (Z.eqb_spec (tts_mode i) UNBLOCK_UNINTERRUPTABLE); [contradiction|]. destruct (Z.eqb_spec (tts_mode i) BLOCK_UNINTERRUPTABLE); [contradiction|]. cbn [orb].
  destruct (remove_node_fields i ap c) as (F1 & F2 & F3 & _).
  assert (Fw : stop_work (_tts_remove_current_node (Some i) ap c) = true).
  { unfold _tts_remove_current_node, _tts_event_nodify. destruct (player_handle c), (tts_stream c), (lisener c), ap as [[]|]; tcbn; repeat case_match; tcbn; exact Hw. }
  set (c1 := _tts_remove_current_node (Some i) ap c) in *. clearbody c1.
  assert (T : forall d, tts_curr (_tts_manager_triggle_play_tts sent d) = tts_curr d /\ items (_tts_manager_triggle_play_tts sent d) = items d) by (intros; destruct sent; auto).
  assert (H2 : exists j', item_id j' = item_id j /\ tts_curr (tts_manager_play_process e (_tts_manager_triggle_play_tts sent c1)).2 = Some j' /\
    stop_work (tts_manager_play_process e (_tts_manager_triggle_play_tts sent c1)).2 = true).
  { assert (Hd : forall d, tts_list d = j :: rest -> tts_curr d = None -> tts_manager_locked d = 0 -> stop_work d = true ->
      exists j', item_id j' = item_id j /\ tts_curr (tts_manager_play_process e d).2 = Some j' /\ stop_work (tts_manager_play_process e d).2 = true).
    { intros d D1 D2 D3 D4. unfold tts_manager_play_process. rewrite D1, D2, D3. change (0 =? 0) with true. cbn [orb negb].
    set (j' := if negb (Z.land _ _ =? 0) then _ else _). exists j'. split; [apply item_id_bump|]. clearbody j'.
    unfold _tts_create_stream, _tts_event_nodify, _tts_start_play. rewrite He1, He2. tcbn. destruct (lisener d), (app_answer e) as [[]|]; try (contradiction He3; reflexivity); tcbn; auto. }
    apply Hd; destruct sent; cbn [_tts_manager_triggle_play_tts]; tcbn; congruence. }
  destruct H2 as (j' & Ej & Hcur & Hsw). set (c2 := (tts_manager_play_process e _).2) in *. clearbody c2.
  split; [eauto|]. split; [exact Hsw|]. unfold _tts_manager_stop_work. tcbn. rewrite Hcur.
  destruct (remove_node_fields j' ap (set_stop_work false c2)) as (_ & G2 & _ & _ & _ & _ & _ & _ & G9 & _). destruct (T (_tts_remove_current_node (Some j') ap (set_stop_work false c2))) as [T1 T2].
  rewrite T1, T2, G2, G9. split; [reflexivity|].
  rewrite Ej, remove_id_in. tauto.
Qed.

Lemma stale_stop_work_witness :
  let c2 := (tts_manager_play_process yes (tts_manager_stop true None (_tts_manager_play_event_notify two_requests))).2 in
  tts_curr (_tts_manager_stop_work true None c2) = None.
Proof.
  cbv zeta. apply (stale_stop_work (_tts_manager_play_event_notify two_requests) (mk_item 0 UINT64_MAX None 16 0 "a.act") (mk_item 3 UINT64_MAX None 0 0 "b.act") [] yes true None);
    try reflexivity; discriminate.
Defined.

(** a prompt whose message main handles while the manager is locked waits on
    after the manager is unlocked, with nothing left to start it. *)
Theorem lock_forgets c e n : tts_list c <> [] -> tts_curr c = None -> starting c = [] -> tts_manager_locked c = 0 -> triggers c = S n ->
  let c' := tts_manager_unlock (tts_manager_play_process e (set_triggers n (tts_manager_lock c))).2 in
  tts_list c' = tts_list c /\ tts_curr c' = None /\ starting c' = [] /\ tts_manager_locked c' = 0 /\ triggers c' = n.
Proof.
  intros El Hc Hst Hl Ht. cbv zeta. unfold tts_manager_play_process, tts_manager_lock. tcbn. destruct (tts_list c) as [|i rest] eqn:E; [contradiction|]. rewrite Hc, Hl.
  change (negb ((0 + 1) mod 256 =? 0)) with true. cbn [orb snd]. unfold tts_manager_unlock. tcbn. rewrite ?Hl. change (0 <? (0 + 1) mod 256) with true. cbv iota. tcbn.
  rewrite ?E, ?Hc, ?Hst. auto.
Qed.

Lemma lock_forgets_witness :
  let c := (tts_manager_play_with_time true yes "a.act" 0 UINT64_MAX None tts_manager_init).2 in
  let c' := tts_manager_unlock (tts_manager_play_process yes (set_triggers 0 (tts_manager_lock c))).2 in
  tts_list c' = tts_list c /\ tts_curr c' = None /\ starting c' = [] /\ tts_manager_locked c' = 0 /\ triggers c' = 0%nat.
Proof. cbv zeta. apply lock_forgets; try reflexivity. discriminate. Defined.

(** the result of the message to main is not looked at: if no message is left in
    the pool, a request while nothing plays is accepted with 0, the prompt
    stays in the list, and nothing plays, is being started or was sent. *)
Theorem failed_send_forgets c e name mode clk pat : tts_curr c = None -> starting c = [] -> tts_manager_locked c = 0 -> triggers c = 0%nat ->
  contains ".pcm" name = false -> Z.land mode PLAY_IMMEDIATELY = 0 -> msg_sent e = false ->
  let r := tts_manager_play_with_time true e name mode clk pat c in
  r.1 = Some 0 /\ (exists l i, tts_list r.2 = l ++ [i] /\ tts_file_name i = name) /\
  tts_curr r.2 = None /\ starting r.2 = [] /\ triggers r.2 = 0%nat.
Proof.
  intros Hc Hst Hl Ht Hn Hm Hs. cbv zeta. unfold tts_manager_play_with_time. destruct (enqueue_fields true name mode clk pat c) as (_ & E2 & E3 & E4 & _).
  assert (E5 : (enqueue true name mode clk pat c).1 = 0 /\ exists l i, tts_list (enqueue true name mode clk pat c).2 = l ++ [i] /\ tts_file_name i = name).
  { unfold enqueue. rewrite Hl, Hn. change (0 <? 0) with false. cbv iota. destruct (3 <=? tts_item_num c); [destruct (tts_list c)|]; tcbn; (split; [reflexivity|]);
      eexists _, _; (split; reflexivity). }
  destruct (enqueue true name mode clk pat c) as [res c1]. cbn [fst snd] in *. destruct E5 as [-> E5]. rewrite E3, Hc, Hm, Hs. cbn [Z.eqb andb negb _tts_manager_triggle_play_tts fst snd].
  repeat split; try assumption; congruence.
Qed.

Lemma failed_send_forgets_witness :
  let r := tts_manager_play_with_time true (mk_answers true true None false) "a.act" 0 UINT64_MAX None tts_manager_init in
  r.1 = Some 0 /\ tts_curr r.2 = None /\ triggers r.2 = 0%nat /\ length (tts_list r.2) = 1%nat.
Proof.
  cbv zeta. destruct (failed_send_forgets tts_manager_init (mk_answers true true None false) "a.act" 0 UINT64_MAX None) as (H1 & _ & H2 & _ & H3); try reflexivity.
  repeat split; assumption.
Defined.

(** ** Tones *)

(** Both parts of tip_manager_play, with no other tone between them. *)
Definition tone (e : answers) (name : string) (c : tts_manager_ctx_t) : tts_manager_ctx_t := tip_play_resume 0 e (tip_manager_play name c).

(** What the second part does when all goes well. *)
Lemma tip_start_ok e name c : file_opens e = true -> player_opens e = true -> (String.length name < 12)%nat ->
  let c' := (tip_manager_start e name c).2 in
  streams c' = next_id c :: streams c /\ players c' = S (next_id c) :: players c /\ next_id c' = S (S (next_id c)) /\
  tip_stream c' = Some (next_id c) /\ tip_player_handle c' = Some (S (next_id c)) /\ tts_stream c' = tts_stream c /\ player_handle c' = player_handle c /\
  tip_starting c' = tip_starting c.
Proof.
  intros H1 H2 Hn. cbv zeta. unfold tip_manager_start. destruct (Nat.leb_spec 12 (String.length name)); [lia|].
  unfold _tts_create_stream. rewrite H1, H2. unfold open_stream, open_player. cbv beta iota zeta. destruct (tip_seq _ =? 0); tcbn; auto 10.
Qed.

Lemma tip_resume_at k e c name : tip_starting c !! k = Some name ->
  tip_play_resume k e c = (tip_manager_start e name (set_tip_starting (delete k (tip_starting c)) c)).2.
Proof. intros E. unfold tip_play_resume. rewrite E. reflexivity. Qed.

(** tip_manager_play gives up tip_mutex between the stop of the old tone and the
    start of the new one.  Two threads that are both there start both tones:
    the stream and the player of the first are open for ever, and nothing
    refers to them. *)
Theorem two_tones_leak c n1 n2 e : tinv c -> tip_starting c = [] -> file_opens e = true -> player_opens e = true ->
  (String.length n1 < 12)%nat -> (String.length n2 < 12)%nat ->
  let c4 := tip_play_resume 0 e (tip_play_resume 1 e (tip_manager_play n2 (tip_manager_play n1 c))) in
  tip_starting c4 = [] /\
  (exists n, n ∈ streams c4 /\ tts_stream c4 <> Some n /\ tip_stream c4 <> Some n) /\
  (exists n, n ∈ players c4 /\ player_handle c4 <> Some n /\ tip_player_handle c4 <> Some n).
Proof.
  intros H Ht Hf Hp L1 L2. cbv zeta. unfold tip_manager_play, tip_manager_stop.
  pose proof (tip_play_inv n1 c H Ht) as H1. assert (E1 : tip_starting (tip_manager_play n1 c) = [n1]).
  { unfold tip_manager_play, tip_manager_stop. tcbn. destruct (tip_stop_inv c H) as (_ & _ & _ & _ & ->). rewrite Ht. reflexivity. }
  unfold tip_manager_play, tip_manager_stop in *. set (c1 := set_tip_starting _ (_tip_manager_stop c)) in *. clearbody c1.
  destruct (tip_stop_inv c1 H1) as (H2 & _ & _ & _ & E2). set (c2 := _tip_manager_stop c1) in *. clearbody c2. rewrite E1 in E2.
  rewrite E2, (tip_resume_at 1 e _ n1) by reflexivity.
  set (d := set_tip_starting _ (set_tip_starting _ c2)). destruct (tip_start_ok e n1 d Hf Hp L1) as (A1 & A2 & A3 & A4 & A5 & A6 & A7 & A8).
  set (c3 := (tip_manager_start e n1 d).2) in *. clearbody c3. change (tip_starting d) with [n2] in A8.
  rewrite (tip_resume_at 0 e c3 n2), A8 by (rewrite A8; reflexivity). change (delete 0%nat [n2]) with (@nil string).
  destruct (tip_start_ok e n2 (set_tip_starting [] c3) Hf Hp L2) as (B1 & B2 & B3 & B4 & B5 & B6 & B7 & B8).
  rewrite B1, B2, B4, B5, B6, B7, B8. tcbn. rewrite A1, A2, A3, A6, A7. unfold d. tcbn. destruct H2 as [_ _ _ Hs Hpl _ Hfr _ _]. split; [reflexivity|]. split.
  - exists (next_id c2). split; [right; left|]. split; [|intros [= E]; lia]. intros E. specialize (Hfr (next_id c2)). rewrite Hs, E in Hfr.
    specialize (Hfr ltac:(right; left; left)). lia.
  - exists (S (next_id c2)). split; [right; left|]. split; [|intros [= E]; lia]. intros E. specialize (Hfr (S (next_id c2))). rewrite Hpl, E in Hfr.
    specialize (Hfr ltac:(right; right; left)). lia.
Qed.

Lemma two_tones_leak_witness :
  let c4 := tip_play_resume 0 yes (tip_play_resume 1 yes (tip_manager_play "l.act" (tip_manager_play "k.act" tts_manager_init))) in
  tip_starting c4 = [] /\ length (players c4) = 2%nat.
Proof.
  cbv zeta. split; [|reflexivity]. apply (two_tones_leak tts_manager_init "k.act" "l.act" yes init_tinv); [reflexivity..|vm_compute; lia|vm_compute; lia].
Defined.

(** The number of the next tone: 1 to 15, then 1 again. *)
Definition tip_next (q : Z) : Z := if (q + 1) mod 16 =? 0 then 1 else (q + 1) mod 16.

Lemma tone_seq e name c : file_opens e = true -> player_opens e = true -> (String.length name < 12)%nat -> tip_seq (tone e name c) = tip_next (tip_seq c).
Proof.
  intros H1 H2 Hn. unfold tone, tip_play_resume, tip_manager_play, tip_manager_stop. tcbn. cbn [lookup list_lookup delete list_delete].
  assert (Hs : tip_seq (_tip_manager_stop c) = tip_seq c).
  { unfold _tip_manager_stop. tcbn. destruct (tip_player_handle c); tcbn; destruct (tip_stream c); reflexivity. }
  rewrite <- Hs. set (c1 := _tip_manager_stop c). clearbody c1. unfold tip_manager_start. destruct (Nat.leb_spec 12 (String.length name)); [lia|].
  unfold _tts_create_stream. rewrite H1, H2. unfold open_stream, open_player. cbv beta iota zeta. unfold tip_next. tcbn.
  destruct ((tip_seq c1 + 1) mod 16 =? 0); reflexivity.
Qed.

Fixpoint play_tones (names : list string) (c : tts_manager_ctx_t) : tts_manager_ctx_t :=
  match names with [] => c | n :: ns => play_tones ns (tone yes n c) end.

(** The numbers count from 1 to 15 and start again. *)
Lemma tip_next_count q : 1 <= q <= 15 -> tip_next q = q mod 15 + 1.
Proof.
  intros H. unfold tip_next. destruct (Z.eqb_spec ((q + 1) mod 16) 0) as [E|E]; Z.div_mod_to_equations; lia.
Qed.

Lemma play_tones_seq names : forall c, Forall (fun n => String.length n < 12)%nat names -> 1 <= tip_seq c <= 15 ->
  tip_seq (play_tones names c) = (tip_seq c - 1 + Z.of_nat (length names)) mod 15 + 1.
Proof.
  induction names as [|n ns IH]; intros c Hn Hq; cbn [play_tones length].
  - rewrite Z.add_0_r, Z.mod_small by lia. lia.
  - inversion Hn as [|? ? Hn1 Hns]; subst. pose proof (tone_seq yes n c eq_refl eq_refl Hn1) as E.
    rewrite tip_next_count in E by lia. rewrite IH; [rewrite E|exact Hns|rewrite E; Z.div_mod_to_equations; lia].
    f_equal. replace (tip_seq c mod 15 + 1 - 1 + Z.of_nat (length ns)) with (tip_seq c mod 15 + Z.of_nat (length ns)) by lia.
    rewrite Z.add_mod_idemp_l by lia. f_equal. lia.
Qed.

(** when the player of a tone tells its end late, after [n] more tones were
    started, the tone that plays now goes on; only if [n] is a multiple of
    fifteen, where the numbers start again, it is stopped. *)
Theorem tone_end_is_its_own names c : 1 <= tip_seq c <= 15 -> Forall (fun n => String.length n < 12)%nat names ->
  let c1 := play_tones names c in
  let c2 := _tip_manager_stop_work (_tip_manager_play_event_notify (tip_seq c) c1) in
  (Z.of_nat (length names) mod 15 <> 0 -> tip_player_handle c2 = tip_player_handle c1 /\ tip_stream c2 = tip_stream c1 /\ tip_file_name c2 = tip_file_name c1) /\
  (Z.of_nat (length names) mod 15 = 0 -> tip_player_handle c2 = None /\ tip_stream c2 = None).
Proof.
  intros Hq Hn. cbv zeta. pose proof (play_tones_seq names c Hn Hq) as Hs. set (c1 := play_tones names c) in *. clearbody c1.
  unfold _tip_manager_stop_work, _tip_manager_play_event_notify. tcbn. rewrite (Z.mod_small (tip_seq c) 16) by lia. rewrite Hs.
  split; intros Hm.
  - destruct (Z.eqb_spec (tip_seq c) ((tip_seq c - 1 + Z.of_nat (length names)) mod 15 + 1)) as [E|E]; [|tcbn; auto].
    contradiction Hm. Z.div_mod_to_equations. lia.
  - destruct (Z.eqb_spec (tip_seq c) ((tip_seq c - 1 + Z.of_nat (length names)) mod 15 + 1)) as [E|E].
    + unfold _tip_manager_stop. tcbn. destruct (tip_player_handle c1) eqn:Ep; tcbn; destruct (tip_stream c1) eqn:Es; tcbn; rewrite ?Es, ?Ep; auto.
    + contradiction E. Z.div_mod_to_equations. lia.
Qed.

Lemma tone_end_is_its_own_witness :
  let c := (tone yes "k.act" tts_manager_init) in
  let c1 := play_tones ["l.act"; "m.act"] c in
  tip_player_handle (_tip_manager_stop_work (_tip_manager_play_event_notify (tip_seq c) c1)) = tip_player_handle c1 /\ tip_file_name c1 = "m.act".
Proof.
  cbv zeta. split; [|reflexivity]. refine (proj1 (proj1 (tone_end_is_its_own ["l.act"; "m.act"] (tone yes "k.act" tts_manager_init) _ _) _)).
  - vm_compute. split; discriminate.
  - repeat constructor; vm_compute; lia.
  - vm_compute. discriminate.
Defined.

(** ** Telephone numbers *)

Section Number.
Variable sd_fmap : ascii -> option (list Z).

Definition file_of (d : ascii) : list Z := default [] (sd_fmap d).
(** What is still to be read. *)
Definition remaining (m : mfile) : list Z := drop (Z.to_nat (rofs m)) (buffer m) ++ concat (file_of <$> digits m).

Definition number_ok (m : mfile) : Prop :=
  0 <= rofs m <= Z.of_nat (length (buffer m)) /\ Forall (fun d => exists b, sd_fmap d = Some b /\ b <> []) (digits m).

Lemma mfile_next_ok m : number_ok m -> number_ok (mfile_next sd_fmap m) /\ remaining (mfile_next sd_fmap m) = remaining m /\
  (rofs (mfile_next sd_fmap m) < Z.of_nat (length (buffer (mfile_next sd_fmap m))) \/ remaining m = []).
Proof.
  intros [Hr Hd]. unfold mfile_next. destruct (Z.leb_spec (Z.of_nat (length (buffer m))) (rofs m)); [|split; [split; assumption|auto]].
  unfold remaining. rewrite (drop_ge (buffer m)) by lia. destruct (digits m) as [|d ds] eqn:Ed.
  - split; [split; [assumption|rewrite Ed; constructor]|]. rewrite (drop_ge (buffer m)), Ed by lia. auto.
  - inversion Hd as [|? ? (b & Eb & Hne) Hds]; subst. rewrite Eb. cbn [buffer rofs digits]. split; [split; cbn [buffer rofs digits]; [lia|exact Hds]|].
    split; [cbn [fmap list_fmap concat app]; unfold file_of at 2; rewrite Eb; reflexivity|]. left. destruct b; [contradiction|cbn [length]; lia].
Qed.

(** A read returns the next bytes, at least one while there are some. *)
Lemma mfile_read_ok num m : number_ok m -> 0 < num ->
  let '(d, m') := mfile_stream_read sd_fmap num m in
  number_ok m' /\ d ++ remaining m' = remaining m /\ Z.of_nat (length d) <= num /\ (d = [] -> remaining m = []).
Proof.
  intros H Hnum. destruct (mfile_next_ok m H) as ([Hr Hd] & Hrem & Hlt). unfold mfile_stream_read. set (m1 := mfile_next sd_fmap m) in *. clearbody m1.
  set (n := if Z.of_nat (length (buffer m1)) <? rofs m1 + num then Z.of_nat (length (buffer m1)) - rofs m1 else num).
  assert (Hn : 0 <= n <= num /\ rofs m1 + n <= Z.of_nat (length (buffer m1)) /\ (rofs m1 < Z.of_nat (length (buffer m1)) -> 0 < n)).
  { unfold n. destruct (Z.ltb_spec (Z.of_nat (length (buffer m1))) (rofs m1 + num)); lia. }
  split; [split; cbn [buffer rofs digits]; [lia|exact Hd]|]. rewrite <- Hrem. unfold remaining at 1 2. cbn [buffer rofs digits]. split; [|split].
  - rewrite app_assoc. f_equal. replace (Z.to_nat (rofs m1 + n)) with (Z.to_nat (rofs m1) + Z.to_nat n)%nat by lia.
    rewrite <- drop_drop. apply take_drop.
  - rewrite length_take. lia.
  - intros E. destruct Hlt as [Hlt|Hlt]; [|rewrite Hrem; exact Hlt]. apply (f_equal length) in E. rewrite length_take, length_drop in E. cbn [length] in E. lia.
Qed.

(** The reads of the decoder, [num] bytes at a time, until one returns
    nothing. *)
Fixpoint reads (fuel : nat) (num : Z) (m : mfile) : option (list Z) :=
  match fuel with
  | O => None
  | S f => match mfile_stream_read sd_fmap num m with
           | ([], _) => Some []
           | (d, m') => match reads f num m' with Some r => Some (d ++ r) | None => None end
           end
  end.

Lemma reads_all fuel num : forall m, number_ok m -> 0 < num -> (length (remaining m) < fuel)%nat -> reads fuel num m = Some (remaining m).
Proof.
  induction fuel as [|f IH]; intros m H Hnum Hlen; [lia|]. cbn [reads]. pose proof (mfile_read_ok num m H Hnum) as Hr.
  destruct (mfile_stream_read sd_fmap num m) as [d m']. destruct Hr as (H' & Hrem & _ & Hend). destruct d as [|x d].
  - rewrite (Hend eq_refl). reflexivity.
  - rewrite <- Hrem in *. cbn [app length] in Hlen. rewrite length_app in Hlen. rewrite IH by (assumption || lia). reflexivity.
Qed.
End Number.

(** if every digit has a file that is not empty, the decoder's reads, of
    whatever size, return the first file and then the files of the other
    digits in order, whole, and end. *)
Theorem number_is_read_whole (sd_fmap : ascii -> option (list Z)) first ds num fuel :
  Forall (fun d => exists b, sd_fmap d = Some b /\ b <> []) ds -> 0 < num ->
  (length (first ++ concat (file_of sd_fmap <$> ds)) < fuel)%nat ->
  reads sd_fmap fuel num (mk_mfile first 0 ds) = Some (first ++ concat (file_of sd_fmap <$> ds)).
Proof.
  intros Hd Hnum Hf. apply (reads_all sd_fmap fuel num (mk_mfile first 0 ds)); [|exact Hnum|exact Hf].
  split; [cbn; lia|exact Hd].
Qed.

Definition sample_files (d : ascii) : option (list Z) := if Ascii.eqb d "1" then Some [11; 12; 13] else if Ascii.eqb d "2" then Some [21; 22] else None.

Lemma number_is_read_whole_witness : reads sample_files 20 2 (mk_mfile [1; 2; 3] 0 ["1"; "2"; "1"]%char) = Some [1; 2; 3; 11; 12; 13; 21; 22; 11; 12; 13].
Proof.
  apply (number_is_read_whole sample_files [1; 2; 3] ["1"; "2"; "1"]%char 2 20); [|lia|vm_compute; lia].
  repeat constructor; eexists; (split; [reflexivity|discriminate]).
Defined.
