(* ===== verification/Mailbox.v ===== *)
(** * Messages (zephyr/framework/osal/os_wrapper.c, framework/base/core/msg_manager.c, zephyr/kernel/mailbox.c)

    A message is copied into one of the buffers of a pool and put into the
    mailbox by means of an asynchronous descriptor, whose dummy thread waits in
    the queue of senders; the receiver reads the buffer when it runs again, and
    only then are the descriptor and the buffer free.  The buffer is therefore
    shared by sender and receiver: the model keeps the pool, the descriptors
    and the queues of the mailbox, with the numbers of buffers and descriptors
    as pointers.

    A receiving thread finds a message, or waits for one; either way it has a
    match that it consumes in a step of its own, so that other threads run in
    between.  Threads are their identifiers, K_ANY is 0.  The synchronous half
    of mailbox.c is not used by the message manager and is left out, as is the
    memory block of a message, which is unused when it has a buffer. *)

From stdpp Require Import base list numbers option strings.
From S2P Require Import Prelude AppManager.
Open Scope Z_scope.

Definition CONFIG_NUM_MBOX_ASYNC_MSGS : nat := 40.
Definition MSG_MEM_SIZE : nat := 16.
Definition K_ANY : Z := 0.
Definition ENOMSG : Z := 35.
Definition EAGAIN : Z := 11.

(** ** State *)

(** struct msg_info: the semaphore's count and the buffer. *)
Record msg_info : Type := mk_info { msg_sem : Z; msg : list Z }.

(** struct k_mbox_msg; [tx_data] and [async_sem] are a buffer of the pool,
    [syncing_thread] is a descriptor. *)
Record k_mbox_msg : Type := mk_msg {
  size : Z;
  info : Z;
  tx_data : option nat;
  rx_source_thread : Z;
  tx_target_thread : Z;
  syncing_thread : option nat;
  async_sem : option nat
}.

Record k_mbox_async : Type := mk_async { prio : Z; tx_msg : k_mbox_msg }.

(** A thread in os_receive_msg: its argument and its message descriptor. *)
Record receiver : Type := mk_receiver { thread : Z; thread_prio : Z; msg_size : Z; rx_msg : k_mbox_msg }.

Record sys : Type := mk_sys {
  pool : list msg_info;                (* msg_pool_buff *)
  async_msg : list k_mbox_async;
  async_msg_free : list nat;           (* the stack, its top first *)
  tx_msg_queue : list nat;             (* descriptors *)
  rx_msg_queue : list receiver;
  matched : list receiver              (* out of the queue, the message not consumed *)
}.

Definition set_pool (l : list msg_info) (s : sys) : sys :=
  mk_sys l (async_msg s) (async_msg_free s) (tx_msg_queue s) (rx_msg_queue s) (matched s).
Definition set_async (l : list k_mbox_async) (s : sys) : sys :=
  mk_sys (pool s) l (async_msg_free s) (tx_msg_queue s) (rx_msg_queue s) (matched s).
Definition set_free (l : list nat) (s : sys) : sys :=
  mk_sys (pool s) (async_msg s) l (tx_msg_queue s) (rx_msg_queue s) (matched s).
Definition set_tx (l : list nat) (s : sys) : sys :=
  mk_sys (pool s) (async_msg s) (async_msg_free s) l (rx_msg_queue s) (matched s).
Definition set_rx (l : list receiver) (s : sys) : sys :=
  mk_sys (pool s) (async_msg s) (async_msg_free s) (tx_msg_queue s) l (matched s).
Definition set_matched (l : list receiver) (s : sys) : sys :=
  mk_sys (pool s) (async_msg s) (async_msg_free s) (tx_msg_queue s) (rx_msg_queue s) l.

Definition no_msg : k_mbox_msg := mk_msg 0 0 None 0 0 None None.
Definition async_at (d : nat) (s : sys) : k_mbox_async := default (mk_async 0 no_msg) (async_msg s !! d).
Definition buffer_at (p : nat) (s : sys) : list Z := default [] (msg <$> pool s !! p).

(** ** Wait queues (z_priq_dumb_add) *)

(** A thread goes before the first one of less priority, whose number is
    larger. *)
Fixpoint priq_add {A} (prio_of : A -> Z) (x : A) (l : list A) : list A :=
  match l with
  | [] => [x]
  | y :: l' => if 0 <? prio_of y - prio_of x then x :: l else y :: priq_add prio_of x l'
  end.

(** ** The pool *)

(** The first buffer whose semaphore can be taken is cleared. *)
Fixpoint get_free_loop (i : nat) (l : list msg_info) : option (nat * list msg_info) :=
  match l with
  | [] => None
  | b :: l' =>
      if negb (msg_sem b =? 0) then Some (i, mk_info (msg_sem b - 1) (replicate MSG_MEM_SIZE 0) :: l')
      else match get_free_loop (S i) l' with Some (p, l1) => Some (p, b :: l1) | None => None end
  end.

Definition msg_pool_get_free_msg_info (s : sys) : option (nat * sys) :=
  match get_free_loop 0 (pool s) with Some (p, l) => Some (p, set_pool l s) | None => None end.

(** Each semaphore is taken and given back. *)
Fixpoint used_loop (l : list msg_info) : Z :=
  match l with [] => 0 | b :: l' => (if msg_sem b =? 0 then 1 else 0) + used_loop l' end.
Definition msg_pool_get_free_msg_num (s : sys) : Z := Z.of_nat CONFIG_NUM_MBOX_ASYNC_MSGS - used_loop (pool s).

(** k_sem_give; the limit is 1. *)
Definition sem_give (p : nat) (s : sys) : sys :=
  set_pool (alter (fun b => mk_info (if msg_sem b =? 1 then 1 else msg_sem b + 1) (msg b)) p (pool s)) s.

Definition os_msg_init (s : sys) : sys := set_pool ((fun b => mk_info 1 (msg b)) <$> pool s) s.

(** ** The mailbox *)

Definition mbox_message_match (tx rx : k_mbox_msg) : option (k_mbox_msg * k_mbox_msg) :=
  if ((tx_target_thread tx =? K_ANY) || (tx_target_thread tx =? tx_target_thread rx))
     && ((rx_source_thread rx =? K_ANY) || (rx_source_thread rx =? rx_source_thread tx)) then
    Some (mk_msg (size tx) (info rx) (tx_data tx) (rx_source_thread tx) (tx_target_thread rx) (syncing_thread tx) (async_sem tx),
          mk_msg (if size tx <? size rx then size tx else size rx) (info tx) (tx_data tx) (rx_source_thread tx)
            (tx_target_thread rx) (syncing_thread tx) (async_sem rx))
  else None.

Definition set_tx_msg (d : nat) (m : k_mbox_msg) (s : sys) : sys :=
  set_async (alter (fun a => mk_async (prio a) m) d (async_msg s)) s.

(** The descriptor of an asynchronous send is freed, then its semaphore is
    given. *)
Definition mbox_message_dispose (rx : k_mbox_msg) (s : sys) : sys :=
  match syncing_thread rx with
  | None => s
  | Some d =>
      let tx := tx_msg (async_at d s) in
      let tx := mk_msg (size rx) (info tx) (tx_data tx) (rx_source_thread tx) (tx_target_thread tx) (syncing_thread tx) (async_sem tx) in
      let s := set_free (d :: async_msg_free s) (set_tx_msg d tx s) in
      match async_sem tx with Some p => sem_give p s | None => s end
  end.

(** The first receiver that matches; both descriptors are changed. *)
Fixpoint find_receiver (tx : k_mbox_msg) (q : list receiver) : option (k_mbox_msg * receiver * list receiver) :=
  match q with
  | [] => None
  | r :: q' =>
      match mbox_message_match tx (rx_msg r) with
      | Some (tx', rx') => Some (tx', mk_receiver (thread r) (thread_prio r) (msg_size r) rx', q')
      | None => match find_receiver tx q' with Some (tx', r', q1) => Some (tx', r', r :: q1) | None => None end
      end
  end.

(** mbox_message_put of descriptor [d] with K_FOREVER. *)
Definition mbox_message_put (current : Z) (d : nat) (s : sys) : sys :=
  let tx := tx_msg (async_at d s) in
  let tx := mk_msg (size tx) (info tx) (tx_data tx) current (tx_target_thread tx) (syncing_thread tx) (async_sem tx) in
  match find_receiver tx (rx_msg_queue s) with
  | Some (tx', r, q) => set_matched (r :: matched s) (set_rx q (set_tx_msg d tx' s))
  | None =>
      let s := set_tx_msg d tx s in
      set_tx (priq_add (fun e => prio (async_at e s)) d (tx_msg_queue s)) s
  end.

(** None if the calling thread has to wait for a descriptor. *)
Definition k_mbox_async_put (current current_prio : Z) (m : k_mbox_msg) (sem : nat) (s : sys) : option sys :=
  match async_msg_free s with
  | [] => None
  | d :: free =>
      let m := mk_msg (size m) (info m) (tx_data m) (rx_source_thread m) (tx_target_thread m) (Some d) (Some sem) in
      let s := set_async (<[d := mk_async current_prio m]> (async_msg s)) (set_free free s) in
      Some (mbox_message_put current d s)
  end.

(** The first message that matches, and the queue without it. *)
Fixpoint find_sender (s : sys) (rx : k_mbox_msg) (q : list nat) : option (nat * k_mbox_msg * k_mbox_msg * list nat) :=
  match q with
  | [] => None
  | d :: q' =>
      match mbox_message_match (tx_msg (async_at d s)) rx with
      | Some (tx', rx') => Some (d, tx', rx', q')
      | None => match find_sender s rx q' with Some (e, tx', rx', q1) => Some (e, tx', rx', d :: q1) | None => None end
      end
  end.

Inductive found : Type := Found | NoMessage (err : Z) | Waits.

(** The first part of k_mbox_get, until the thread has a match or waits. *)
Definition k_mbox_get (current current_prio msg_size : Z) (no_wait : bool) (rx : k_mbox_msg) (s : sys) : found * sys :=
  let rx := mk_msg (size rx) (info rx) (tx_data rx) (rx_source_thread rx) current (syncing_thread rx) (async_sem rx) in
  match find_sender s rx (tx_msg_queue s) with
  | Some (d, tx', rx', q) =>
      (Found, set_matched (mk_receiver current current_prio msg_size rx' :: matched s) (set_tx q (set_tx_msg d tx' s)))
  | None =>
      if no_wait then (NoMessage (- ENOMSG), s)
      else (Waits, set_rx (priq_add thread_prio (mk_receiver current current_prio msg_size rx) (rx_msg_queue s)) s)
  end.

(** k_mbox_data_get with a buffer: the new contents of the buffer. *)
Definition k_mbox_data_get (rx : k_mbox_msg) (buffer : list Z) (s : sys) : list Z * sys :=
  let buffer := match tx_data rx with
                | Some p => if 0 <? size rx then take (Z.to_nat (size rx)) (buffer_at p s) ++ drop (Z.to_nat (size rx)) buffer else buffer
                | None => buffer
                end in
  (buffer, mbox_message_dispose rx s).

(** mbox_message_data_check without a buffer. *)
Definition discard_check (rx : k_mbox_msg) (s : sys) : sys := if size rx =? 0 then mbox_message_dispose rx s else s.

(** The element after [d]; an element that was removed has no next one. *)
Fixpoint dlist_next (d : nat) (l : list nat) : option nat :=
  match l with
  | [] => None
  | x :: l' => if Nat.eqb x d then head l' else dlist_next d l'
  end.

Fixpoint clear_loop (fuel : nat) (cur : option nat) (s : sys) : sys :=
  match fuel, cur with
  | S f, Some d =>
      let tx := tx_msg (async_at d s) in
      let rx := mk_msg (size tx) (size tx) None K_ANY 0 None None in
      let tx := mk_msg (size tx) (info tx) (tx_data tx) (rx_source_thread tx) K_ANY (syncing_thread tx) (async_sem tx) in
      let s := match mbox_message_match tx rx with
               | Some (tx', rx') =>
                   let s := set_tx (filter (fun e => e <> d) (tx_msg_queue s)) (set_tx_msg d tx' s) in
                   discard_check (mk_msg 0 (info rx') (tx_data rx') (rx_source_thread rx') (tx_target_thread rx') (syncing_thread rx') (async_sem rx')) s
               | None => set_tx_msg d tx s
               end in
      clear_loop f (dlist_next d (tx_msg_queue s)) s
  | _, _ => s
  end.

Definition k_mbox_clear_msg (s : sys) : sys := clear_loop (S (length (tx_msg_queue s))) (head (tx_msg_queue s)) s.

Definition k_mbox_get_pending_msg_cnt (target : Z) (s : sys) : Z :=
  Z.of_nat (length (filter (fun d => tx_target_thread (tx_msg (async_at d s)) = target) (tx_msg_queue s))).

(** ** Messages of the OS layer *)

(** None if the copy overruns the buffer or the thread waits for a
    descriptor. *)
Definition os_send_async_msg (current current_prio target : Z) (m : list Z) (s : sys) : option (Z * sys) :=
  match msg_pool_get_free_msg_info s with
  | None => Some (- ENOMEM, s)
  | Some (p, s) =>
      if Nat.ltb MSG_MEM_SIZE (length m) then None
      else
        let s := set_pool (alter (fun b => mk_info (msg_sem b) (m ++ drop (length m) (msg b))) p (pool s)) s in
        let n := Z.of_nat (length m) in
        match k_mbox_async_put current current_prio (mk_msg n n (Some p) 0 target None None) p s with
        | Some s => Some (0, s)
        | None => None
        end
  end.

(** os_receive_msg until the thread has a match or waits; None if the buffer is
    too small. *)
Definition os_receive_msg (current current_prio msg_size : Z) (no_wait : bool) (s : sys) : option (found * sys) :=
  if Z.of_nat MSG_MEM_SIZE <? msg_size then None
  else Some (match k_mbox_get current current_prio msg_size no_wait (mk_msg msg_size msg_size None K_ANY 0 None None) s with
             | (NoMessage _, s) => (NoMessage (- ETIMEDOUT), s)
             | r => r
             end).

(** The rest of os_receive_msg of a thread that has a match: the result, and
    the message that is copied to the caller. *)
Definition os_receive_finish (current : Z) (s : sys) : option (Z * option (list Z) * sys) :=
  match list_find (fun r => thread r = current) (matched s) with
  | None => None
  | Some (i, r) =>
      let s := set_matched (delete i (matched s)) s in
      let '(buffer, s) := k_mbox_data_get (rx_msg r) (replicate (Z.to_nat (msg_size r)) 0) s in
      if negb (info (rx_msg r) =? size (rx_msg r)) then Some (- EMSGSIZE, None, s) else Some (0, Some buffer, s)
  end.

(** The time of a waiting thread is over. *)
Definition os_receive_timeout (current : Z) (s : sys) : option (Z * sys) :=
  match list_find (fun r => thread r = current) (rx_msg_queue s) with
  | None => None
  | Some (i, _) => Some (- ETIMEDOUT, set_rx (delete i (rx_msg_queue s)) s)
  end.

Definition os_msg_clean (s : sys) : sys := k_mbox_clear_msg s.
Definition os_get_pending_msg_cnt (current : Z) (s : sys) : Z := k_mbox_get_pending_msg_cnt current s.

(** init_mbox_module, then os_msg_init. *)
Definition msgs_at_boot : sys :=
  os_msg_init (mk_sys (replicate CONFIG_NUM_MBOX_ASYNC_MSGS (mk_info 0 (replicate MSG_MEM_SIZE 0)))
    (replicate CONFIG_NUM_MBOX_ASYNC_MSGS (mk_async 0 no_msg)) (rev (seq 0 CONFIG_NUM_MBOX_ASYNC_MSGS)) [] [] []).

(** ** The message manager *)

(** The calling thread has priority -1 meanwhile. *)
Definition msg_manager_send_async_msg (rs : managers) (current : Z) (receiver : string) (m : list Z) (s : sys) : option (bool * sys) :=
  let send target := match os_send_async_msg current (-1) target m s with Some (r, s) => Some (r =? 0, s) | None => None end in
  if bool_decide (receiver = ALL_RECEIVER_NAME) then send K_ANY
  else
    let t := msg_manager_listener_tid rs receiver in
    if t =? 0 then Some (false, s) else send t.

Definition msg_manager_receive_msg (current current_prio : Z) (no_wait : bool) (s : sys) : option (found * sys) :=
  os_receive_msg current current_prio (Z.of_nat MSG_MEM_SIZE) no_wait s.
Definition msg_manager_get_free_msg_num (s : sys) : Z := msg_pool_get_free_msg_num s.
Definition msg_manager_drop_all_msg (s : sys) : sys := os_msg_clean s.
Definition msg_manager_get_pending_msg_cnt (current : Z) (s : sys) : Z := os_get_pending_msg_cnt current s.

(** ** Waiting for the end of a thread *)

Definition MAX_THREAD_TERMINAL_NUM : nat := 3.

(** The slots hold the thread that is waited for, or 0. *)
Definition os_thread_prepare_terminal (tid : Z) (l : list Z) : Z * list Z :=
  match list_find (fun x => x = 0) l with
  | Some (i, _) => (0, <[i := tid]> l)
  | None => (- EBUSY, l)
  end.

Fixpoint last_slot (i : nat) (tid : Z) (l : list Z) : option nat :=
  match l with
  | [] => None
  | x :: l' => match last_slot (S i) tid l' with Some j => Some j | None => if x =? tid then Some i else None end
  end.

(** [joined] is whether the thread ends in time; None if there is no slot and
    the code goes on with a null pointer. *)
Definition os_thread_wait_terminal (tid : Z) (joined : bool) (l : list Z) : option (Z * list Z) :=
  match last_slot 0 tid l with
  | None => None
  | Some i => Some (if joined then 0 else - EBUSY, <[i := 0]> l)
  end.
