(* ===== verification/MailboxProof.v ===== *)
(** * Theorems of the messages

    The pool, the descriptors and the queues implement a mailbox of forty
    messages, each delivered once, unchanged and in order; a simulation, one
    lemma for each operation. *)

From stdpp Require Import base list numbers option strings.
From S2P Require Import Prelude AppManager Mailbox.
Open Scope Z_scope.

Ltac mcbn := cbn [pool async_msg async_msg_free tx_msg_queue rx_msg_queue matched set_pool set_async set_free set_tx set_rx set_matched
  msg_sem msg size info tx_data rx_source_thread tx_target_thread syncing_thread async_sem prio tx_msg thread thread_prio msg_size rx_msg].

(** ** Specification *)

(** Messages that wait with their target, threads that wait with their
    priority and the size they asked for, and what threads have in hand. *)
Record box : Type := mk_box { pending : list (Z * list Z); waiting : list (Z * Z * Z); inhand : list (Z * Z * list Z) }.

Definition accepts (target t : Z) : bool := (target =? K_ANY) || (target =? t).

Fixpoint take_first {A} (f : A -> bool) (l : list A) : option (A * list A) :=
  match l with
  | [] => None
  | x :: l' => if f x then Some (x, l') else match take_first f l' with Some (y, l1) => Some (y, x :: l1) | None => None end
  end.

Definition box_send (target : Z) (m : list Z) (b : box) : Z * box :=
  if Nat.leb CONFIG_NUM_MBOX_ASYNC_MSGS (length (pending b) + length (inhand b)) then (- ENOMEM, b)
  else match take_first (fun w => accepts target w.1.1) (waiting b) with
       | Some ((t, _, n), w) => (0, mk_box (pending b) w ((t, n, m) :: inhand b))
       | None => (0, mk_box (pending b ++ [(target, m)]) (waiting b) (inhand b))
       end.

Definition box_get (t p n : Z) (no_wait : bool) (b : box) : found * box :=
  match take_first (fun x => accepts x.1 t) (pending b) with
  | Some ((_, m), q) => (Found, mk_box q (waiting b) ((t, n, m) :: inhand b))
  | None =>
      if no_wait then (NoMessage (- ETIMEDOUT), b)
      else (Waits, mk_box (pending b) (priq_add (fun w => w.1.2) (t, p, n) (waiting b)) (inhand b))
  end.

(** What a thread that asked for [n] bytes gets of message [m]. *)
Definition received (n : Z) (m : list Z) : Z * option (list Z) :=
  if n <? Z.of_nat (length m) then (- EMSGSIZE, None) else (0, Some (m ++ replicate (Z.to_nat n - length m) 0)).

Definition box_finish (t : Z) (b : box) : option (Z * option (list Z) * box) :=
  match take_first (fun x => x.1.1 =? t) (inhand b) with
  | Some ((_, n, m), h) => Some (received n m, mk_box (pending b) (waiting b) h)
  | None => None
  end.

Definition box_timeout (t : Z) (b : box) : option (Z * box) :=
  match take_first (fun w => w.1.1 =? t) (waiting b) with
  | Some (_, w) => Some (- ETIMEDOUT, mk_box (pending b) w (inhand b))
  | None => None
  end.

(** ** The pool and the descriptors *)

(** The buffer of descriptor [d]. *)
Definition buf (A : list k_mbox_async) (d : nat) : nat := default 0%nat (A !! d ≫= fun a => async_sem (tx_msg a)).

(** [free] are the free descriptors, [bs] the ones that carry a message. *)
Record core (free bs : list nat) (A : list k_mbox_async) (P : list msg_info) : Prop := mk_core {
  co_pool : length P = CONFIG_NUM_MBOX_ASYNC_MSGS;
  co_async : length A = CONFIG_NUM_MBOX_ASYNC_MSGS;
  co_desc : free ++ bs ≡ₚ seq 0 CONFIG_NUM_MBOX_ASYNC_MSGS;
  co_busy : forall d, d ∈ bs -> exists a p, A !! d = Some a /\ async_sem (tx_msg a) = Some p /\ tx_data (tx_msg a) = Some p /\
              syncing_thread (tx_msg a) = Some d /\ (p < CONFIG_NUM_MBOX_ASYNC_MSGS)%nat;
  co_bufs : NoDup (buf A <$> bs);
  co_sems : forall p b, P !! p = Some b -> length (msg b) = MSG_MEM_SIZE /\ msg_sem b = if decide (p ∈ buf A <$> bs) then 0 else 1
}.

Lemma core_perm free bs bs' A P : bs ≡ₚ bs' -> core free bs A P -> core free bs' A P.
Proof.
  intros Hp []. assert (Hb : buf A <$> bs ≡ₚ buf A <$> bs') by (rewrite Hp; reflexivity).
  split; try assumption.
  - rewrite <- Hp. assumption.
  - intros d Hd. apply co_busy0. rewrite Hp. exact Hd.
  - rewrite <- Hb. assumption.
  - intros p b Hl. destruct (co_sems0 p b Hl) as [H1 ->]. split; [exact H1|].
    destruct (decide (p ∈ buf A <$> bs)) as [E|E], (decide (p ∈ buf A <$> bs')) as [E'|E']; try reflexivity;
      [rewrite Hb in E; contradiction|rewrite <- Hb in E'; contradiction].
Qed.

Lemma core_nodup free bs A P : core free bs A P -> NoDup (free ++ bs).
Proof. intros []. rewrite co_desc0. apply NoDup_seq. Qed.

Lemma core_range free bs A P d : core free bs A P -> d ∈ free ++ bs -> (d < CONFIG_NUM_MBOX_ASYNC_MSGS)%nat.
Proof. intros [] Hd. rewrite co_desc0 in Hd. apply elem_of_seq in Hd. lia. Qed.

Lemma buf_at A d a p : A !! d = Some a -> async_sem (tx_msg a) = Some p -> buf A d = p.
Proof. intros E Hp. unfold buf. rewrite E. cbn. rewrite Hp. reflexivity. Qed.

(** A pool entry by entry. *)
Lemma used_loop_filter (bufs : list nat) l : forall k,
  (forall i b, l !! i = Some b -> msg_sem b = if decide ((k + i)%nat ∈ bufs) then 0 else 1) ->
  used_loop l = Z.of_nat (length (filter (fun p => p ∈ bufs) (seq k (length l)))).
Proof.
  induction l as [|b l IH]; intros k H; [reflexivity|]. cbn [used_loop length seq].
  rewrite (IH (S k)) by (intros i b' Hi; rewrite (H (S i) b' Hi); replace (k + S i)%nat with (S k + i)%nat by lia; reflexivity).
  specialize (H 0%nat b eq_refl). rewrite Nat.add_0_r in H. rewrite filter_cons, H.
  destruct (decide (k ∈ bufs)); cbn [length]; [change (0 =? 0) with true|change (1 =? 0) with false]; cbv iota; lia.
Qed.

(** The semaphores count the messages. *)
Lemma core_used free bs A P : core free bs A P -> used_loop P = Z.of_nat (length bs).
Proof.
  intros []. rewrite (used_loop_filter (buf A <$> bs) P 0) by (intros i b Hi; apply co_sems0; exact Hi).
  rewrite co_pool0. rewrite <- (length_fmap (buf A) bs). f_equal. apply Permutation_length. apply NoDup_Permutation.
  - apply NoDup_filter, NoDup_seq.
  - exact co_bufs0.
  - intros p. rewrite list_elem_of_filter, elem_of_seq. split; [tauto|]. intros Hp. split; [exact Hp|].
    apply list_elem_of_fmap in Hp as (d & -> & Hd). destruct (co_busy0 d Hd) as (a & p & E & Hs & _ & _ & Hlt).
    rewrite (buf_at A d a p E Hs). lia.
Qed.

(** The search finds the first free buffer, and clears it. *)
Lemma get_free_spec l : forall i,
  (get_free_loop i l = None /\ used_loop l = Z.of_nat (length l)) \/
  (exists p b, get_free_loop i l = Some ((i + p)%nat, <[p := mk_info (msg_sem b - 1) (replicate MSG_MEM_SIZE 0)]> l) /\
     l !! p = Some b /\ msg_sem b <> 0).
Proof.
  induction l as [|b l IH]; intros i; [left; split; reflexivity|]. cbn [get_free_loop used_loop length].
  destruct (Z.eqb_spec (msg_sem b) 0) as [E|E]; cbn [negb].
  - destruct (IH (S i)) as [[-> ->]|(p & b' & -> & Hl & Hs)]; [left; split; [reflexivity|lia]|].
    right. exists (S p), b'. split; [|auto]. replace (S i + p)%nat with (i + S p)%nat by lia. reflexivity.
  - right. exists 0%nat, b. rewrite Nat.add_0_r. auto.
Qed.

Lemma used_le l : used_loop l <= Z.of_nat (length l).
Proof. induction l as [|b l IH]; cbn [used_loop length]; [lia|]. destruct (_ =? 0); lia. Qed.

Lemma used_lt p b l : l !! p = Some b -> msg_sem b <> 0 -> used_loop l < Z.of_nat (length l).
Proof.
  revert p. induction l as [|c l IH]; intros p E Hs; [discriminate|]. cbn [used_loop length]. destruct p as [|p]; cbn in E.
  - injection E as ->. destruct (Z.eqb_spec (msg_sem b) 0); [contradiction|]. pose proof (used_le l). lia.
  - specialize (IH p E Hs). destruct (_ =? 0); lia.
Qed.

(** Changes of the pool and the descriptors. *)
Lemma buf_same A A' (bs : list nat) : (forall d, d ∈ bs -> buf A' d = buf A d) -> buf A' <$> bs = buf A <$> bs.
Proof. intros H. apply list_fmap_ext. intros i d Hd. apply H. apply list_elem_of_lookup_2 with i. exact Hd. Qed.

(** A message descriptor changes, but for its buffer and its dummy thread. *)
Lemma core_change free bs A P d a m : core free bs A P -> A !! d = Some a ->
  async_sem m = async_sem (tx_msg a) -> tx_data m = tx_data (tx_msg a) -> syncing_thread m = syncing_thread (tx_msg a) ->
  core free bs (<[d := mk_async (prio a) m]> A) P.
Proof.
  intros H Ha E1 E2 E3. assert (Hlt : (d < length A)%nat) by (eapply lookup_lt_Some; exact Ha).
  assert (Hb : forall e, buf (<[d := mk_async (prio a) m]> A) e = buf A e).
  { intros e. unfold buf. destruct (decide (e = d)) as [->|Hne]; [|rewrite list_lookup_insert_ne by congruence; reflexivity].
    rewrite list_lookup_insert_eq, Ha by exact Hlt. cbn. rewrite E1. reflexivity. }
  assert (Hbs : buf (<[d := mk_async (prio a) m]> A) <$> bs = buf A <$> bs) by (apply buf_same; auto).
  destruct H. split; try assumption; try (rewrite Hbs; assumption).
  - rewrite length_insert. assumption.
  - intros e He. destruct (co_busy0 e He) as (a' & p & Ee & H1 & H2 & H3 & H4).
    destruct (decide (e = d)) as [->|Hne].
    + rewrite list_lookup_insert_eq by exact Hlt. exists (mk_async (prio a) m), p. mcbn. rewrite E1, E2, E3. replace a' with a in * by congruence. auto.
    + rewrite list_lookup_insert_ne by congruence. exists a', p. auto.
Qed.

(** A buffer and a descriptor are taken. *)
Lemma core_alloc d free bs A P p b pr m data : core (d :: free) bs A P -> P !! p = Some b -> msg_sem b <> 0 ->
  async_sem m = Some p -> tx_data m = Some p -> syncing_thread m = Some d -> length data = MSG_MEM_SIZE ->
  core free (d :: bs) (<[d := mk_async pr m]> A) (<[p := mk_info 0 data]> P) /\ p ∉ (buf A <$> bs) /\ d ∉ bs.
Proof.
  intros H Hp Hs E1 E2 E3 Hlen. pose proof (core_nodup _ _ _ _ H) as Hnd. assert (Hd : (d < CONFIG_NUM_MBOX_ASYNC_MSGS)%nat) by (apply (core_range _ _ _ _ d H); left).
  cbn [app] in Hnd. apply NoDup_cons in Hnd as [Hnd _]. assert (Hdb : d ∉ bs) by (intros Hin; apply Hnd, elem_of_app; right; exact Hin). destruct H.
  assert (Hpb : p ∉ (buf A <$> bs)).
  { intros Hin. destruct (co_sems0 p b Hp) as [_ E]. destruct (decide _); [exact (Hs E)|contradiction]. }
  assert (Hbs : buf (<[d := mk_async pr m]> A) <$> bs = buf A <$> bs).
  { apply buf_same. intros e He. unfold buf. rewrite list_lookup_insert_ne by (intros ->; contradiction). reflexivity. }
  assert (Hbd : buf (<[d := mk_async pr m]> A) d = p) by (apply (buf_at _ d (mk_async pr m)); [apply list_lookup_insert_eq; lia|exact E1]).
  split; [|auto]. split; try (rewrite length_insert; assumption).
  - rewrite <- co_desc0. symmetry. apply Permutation_middle.
  - intros e He. apply elem_of_cons in He as [->|He].
    + exists (mk_async pr m), p. split; [apply list_lookup_insert_eq; lia|]. repeat split; try assumption. apply lookup_lt_Some in Hp. lia.
    + destruct (co_busy0 e He) as (a' & p' & H0). exists a', p'. rewrite list_lookup_insert_ne by (intros ->; contradiction). exact H0.
  - rewrite fmap_cons, Hbd, Hbs. apply NoDup_cons. auto.
  - intros q c Hq. rewrite fmap_cons, Hbd, Hbs. destruct (decide (q = p)) as [->|Hne].
    + rewrite list_lookup_insert_eq in Hq by (eapply lookup_lt_Some; exact Hp). injection Hq as <-. split; [exact Hlen|].
      rewrite decide_True by left. reflexivity.
    + rewrite list_lookup_insert_ne in Hq by congruence. destruct (co_sems0 q c Hq) as [H1 ->]. split; [exact H1|].
      destruct (decide (q ∈ buf A <$> bs)) as [Hin|Hin]; [rewrite decide_True by (right; exact Hin); reflexivity|].
      rewrite decide_False by (rewrite elem_of_cons; tauto). reflexivity.
Qed.

Definition give (b : msg_info) : msg_info := mk_info (if msg_sem b =? 1 then 1 else msg_sem b + 1) (msg b).

(** They are given back. *)
Lemma core_release d free bs A P a m : core free (d :: bs) A P -> A !! d = Some a ->
  core (d :: free) bs (<[d := mk_async (prio a) m]> A) (alter give (buf A d) P).
Proof.
  intros H Ha. pose proof (core_nodup _ _ _ _ H) as Hnd. destruct H. cbn [fmap list_fmap] in co_bufs0.
  apply NoDup_app in Hnd as (_ & _ & Hnd). apply NoDup_cons in Hnd as [Hdb _]. apply NoDup_cons in co_bufs0 as [Hpb Hbufs].
  set (A' := <[d := mk_async (prio a) m]> A). change (list_fmap _ _ (buf A) bs) with (buf A <$> bs) in *.
  assert (Hbs : buf A' <$> bs = buf A <$> bs).
  { apply buf_same. intros e He. unfold buf, A'. rewrite list_lookup_insert_ne by (intros ->; contradiction). reflexivity. }
  split.
  - rewrite length_alter. assumption.
  - unfold A'. rewrite length_insert. assumption.
  - rewrite <- co_desc0. apply Permutation_middle.
  - intros e He. destruct (co_busy0 e ltac:(right; exact He)) as (a' & p' & H0). exists a', p'. unfold A'.
    rewrite list_lookup_insert_ne by (intros ->; contradiction). exact H0.
  - rewrite Hbs. exact Hbufs.
  - intros q c Hq. rewrite Hbs. destruct (decide (q = buf A d)) as [->|Hne].
    + rewrite list_lookup_alter_eq in Hq. destruct (P !! buf A d) as [b|] eqn:Hb; [|discriminate]. injection Hq as <-.
      destruct (co_sems0 _ b Hb) as [H1 E]. rewrite decide_True in E by left. split; [exact H1|].
      rewrite decide_False by exact Hpb. unfold give. mcbn. rewrite E. reflexivity.
    + rewrite list_lookup_alter_ne in Hq by congruence. destruct (co_sems0 q c Hq) as [H1 ->]. split; [exact H1|].
      cbn [fmap list_fmap]. change (list_fmap _ _ (buf A) bs) with (buf A <$> bs).
      destruct (decide (q ∈ buf A <$> bs)) as [Hin|Hin]; [rewrite decide_True by (right; exact Hin); reflexivity|].
      rewrite decide_False by (rewrite elem_of_cons; tauto). reflexivity.
Qed.

(** ** Invariant and abstraction *)

Definition desc_of (r : receiver) : nat := default 0%nat (syncing_thread (rx_msg r)).
Definition busy (s : sys) : list nat := tx_msg_queue s ++ (desc_of <$> matched s).

Definition pend_entry (s : sys) (d : nat) : Z * list Z :=
  (tx_target_thread (tx_msg (async_at d s)), take (Z.to_nat (size (tx_msg (async_at d s)))) (buffer_at (buf (async_msg s) d) s)).
Definition wait_entry (r : receiver) : Z * Z * Z := (thread r, thread_prio r, msg_size r).
Definition hand_entry (s : sys) (r : receiver) : Z * Z * list Z :=
  (thread r, msg_size r, take (Z.to_nat (info (rx_msg r))) (buffer_at (buf (async_msg s) (desc_of r)) s)).

Definition abs (s : sys) : box := mk_box (pend_entry s <$> tx_msg_queue s) (wait_entry <$> rx_msg_queue s) (hand_entry s <$> matched s).

Definition fits (n : Z) : Prop := 0 <= n <= Z.of_nat MSG_MEM_SIZE.

Record inv (s : sys) : Prop := mk_inv {
  iv_core : core (async_msg_free s) (busy s) (async_msg s) (pool s);
  iv_tx : forall d, d ∈ tx_msg_queue s -> prio (async_at d s) = -1 /\ info (tx_msg (async_at d s)) = size (tx_msg (async_at d s)) /\
            fits (size (tx_msg (async_at d s)));
  iv_rx : forall r, r ∈ rx_msg_queue s ->
            rx_msg r = mk_msg (msg_size r) (msg_size r) None K_ANY (thread r) None None /\ fits (msg_size r);
  iv_matched : forall r, r ∈ matched s -> syncing_thread (rx_msg r) = Some (desc_of r) /\
            tx_data (rx_msg r) = Some (buf (async_msg s) (desc_of r)) /\ size (rx_msg r) = Z.min (msg_size r) (info (rx_msg r)) /\
            fits (info (rx_msg r)) /\ fits (msg_size r)
}.

Lemma abs_count s : (length (pending (abs s)) + length (inhand (abs s)))%nat = length (busy s).
Proof. unfold abs, busy. cbn [pending inhand]. rewrite !length_fmap, length_app, length_fmap. reflexivity. Qed.

Lemma async_at_lookup d s a : async_msg s !! d = Some a -> async_at d s = a.
Proof. intros E. unfold async_at. rewrite E. reflexivity. Qed.

(** Entries do not change where the descriptor and the buffer do not. *)
Lemma pend_entry_same s s' d : async_msg s' !! d = async_msg s !! d ->
  buffer_at (buf (async_msg s) d) s' = buffer_at (buf (async_msg s) d) s -> pend_entry s' d = pend_entry s d.
Proof.
  intros E1 E2. unfold pend_entry, async_at. assert (buf (async_msg s') d = buf (async_msg s) d) as -> by (unfold buf; rewrite E1; reflexivity).
  rewrite E1, E2. reflexivity.
Qed.

Lemma hand_entry_same s s' r : buf (async_msg s') (desc_of r) = buf (async_msg s) (desc_of r) ->
  buffer_at (buf (async_msg s) (desc_of r)) s' = buffer_at (buf (async_msg s) (desc_of r)) s -> hand_entry s' r = hand_entry s r.
Proof. intros E1 E2. unfold hand_entry. rewrite E1, E2. reflexivity. Qed.

Lemma fmap_same {A B} (f g : A -> B) (l : list A) : (forall x, x ∈ l -> f x = g x) -> f <$> l = g <$> l.
Proof. intros H. apply list_fmap_ext. intros i x Hx. apply H. apply list_elem_of_lookup_2 with i. exact Hx. Qed.

Lemma alter_insert_eq {A} (f : A -> A) (l : list A) : forall i x, alter f i (<[i := x]> l) = <[i := f x]> l.
Proof. induction l as [|y l IH]; intros [|i] x; cbn; try reflexivity. f_equal. apply IH. Qed.

Lemma alter_as_insert {A} (f : A -> A) (l : list A) : forall i x, l !! i = Some x -> alter f i l = <[i := f x]> l.
Proof. induction l as [|y l IH]; intros [|i] x E; cbn in *; try discriminate; [congruence|]. f_equal. apply IH. exact E. Qed.

(** ** Matching *)

Lemma match_wait tx r : rx_msg r = mk_msg (msg_size r) (msg_size r) None K_ANY (thread r) None None ->
  mbox_message_match tx (rx_msg r) =
  if accepts (tx_target_thread tx) (thread r)
  then Some (mk_msg (size tx) (msg_size r) (tx_data tx) (rx_source_thread tx) (thread r) (syncing_thread tx) (async_sem tx),
             mk_msg (if size tx <? msg_size r then size tx else msg_size r) (info tx) (tx_data tx) (rx_source_thread tx) (thread r) (syncing_thread tx) None)
  else None.
Proof. intros ->. unfold mbox_message_match, accepts. mcbn. rewrite andb_true_r. reflexivity. Qed.

Lemma find_receiver_spec tx q : (forall r, r ∈ q -> rx_msg r = mk_msg (msg_size r) (msg_size r) None K_ANY (thread r) None None) ->
  match take_first (fun w => accepts (tx_target_thread tx) w.1.1) (wait_entry <$> q) with
  | Some (w, ws) => exists r q', w = wait_entry r /\ r ∈ q /\ ws = wait_entry <$> q' /\ (forall x, x ∈ q' -> x ∈ q) /\
      find_receiver tx q = Some (mk_msg (size tx) (msg_size r) (tx_data tx) (rx_source_thread tx) (thread r) (syncing_thread tx) (async_sem tx),
        mk_receiver (thread r) (thread_prio r) (msg_size r)
          (mk_msg (if size tx <? msg_size r then size tx else msg_size r) (info tx) (tx_data tx) (rx_source_thread tx) (thread r) (syncing_thread tx) None), q')
  | None => find_receiver tx q = None
  end.
Proof.
  induction q as [|r q IH]; intros H; [reflexivity|]. rewrite fmap_cons. cbn [take_first find_receiver].
  rewrite (match_wait tx r) by (apply H; left). change ((wait_entry r).1.1) with (thread r).
  destruct (accepts (tx_target_thread tx) (thread r)).
  - exists r, q. repeat split; [left|]. intros x Hx. right. exact Hx.
  - specialize (IH (fun x Hx => H x ltac:(right; exact Hx))). destruct (take_first _ (wait_entry <$> q)) as [[w ws]|].
    + destruct IH as (r' & q' & -> & Hr & -> & Hs & ->). exists r', (r :: q'). split; [reflexivity|]. split; [right; exact Hr|].
      split; [reflexivity|]. split; [|reflexivity]. intros x Hx. apply elem_of_cons in Hx as [->|Hx]; [left|right; apply Hs; exact Hx].
    + rewrite IH. reflexivity.
Qed.

Lemma find_sender_spec s t n q :
  match take_first (fun x => accepts x.1 t) (pend_entry s <$> q) with
  | Some (x, xs) => exists d q', x = pend_entry s d /\ q ≡ₚ d :: q' /\ xs = pend_entry s <$> q' /\
      let tx := tx_msg (async_at d s) in
      find_sender s (mk_msg n n None K_ANY t None None) q =
        Some (d, mk_msg (size tx) n (tx_data tx) (rx_source_thread tx) t (syncing_thread tx) (async_sem tx),
              mk_msg (if size tx <? n then size tx else n) (info tx) (tx_data tx) (rx_source_thread tx) t (syncing_thread tx) None, q')
  | None => find_sender s (mk_msg n n None K_ANY t None None) q = None
  end.
Proof.
  induction q as [|d q IH]; [reflexivity|]. rewrite fmap_cons. cbn [take_first find_sender].
  unfold mbox_message_match. mcbn. rewrite andb_true_r. change (_ || _) with (accepts (pend_entry s d).1 t).
  destruct (accepts (pend_entry s d).1 t).
  - exists d, q. repeat split; reflexivity.
  - destruct (take_first _ (pend_entry s <$> q)) as [[x xs]|].
    + destruct IH as (e & q' & -> & Hp & -> & E). cbv zeta in E. exists e, (d :: q'). split; [reflexivity|].
      split; [rewrite Hp; apply Permutation_swap|]. split; [reflexivity|]. rewrite E. reflexivity.
    + rewrite IH. reflexivity.
Qed.

(** ** Freeing a message *)

Lemma dispose_eq rx d a s : syncing_thread rx = Some d -> async_msg s !! d = Some a -> async_sem (tx_msg a) = Some (buf (async_msg s) d) ->
  exists m, mbox_message_dispose rx s = mk_sys (alter give (buf (async_msg s) d) (pool s)) (<[d := mk_async (prio a) m]> (async_msg s))
    (d :: async_msg_free s) (tx_msg_queue s) (rx_msg_queue s) (matched s).
Proof.
  intros E1 E2 E3. unfold mbox_message_dispose. rewrite E1, (async_at_lookup d s a E2). mcbn. rewrite E3.
  eexists. unfold sem_give, set_tx_msg. mcbn. rewrite (alter_as_insert _ _ d a E2). reflexivity.
Qed.

(** Giving a semaphore keeps the buffers. *)
Lemma buffer_at_give p q s l1 l2 l3 l4 l5 : buffer_at q (mk_sys (alter give p (pool s)) l1 l2 l3 l4 l5) = buffer_at q s.
Proof.
  unfold buffer_at. mcbn. destruct (decide (q = p)) as [->|Hne]; [|rewrite list_lookup_alter_ne by congruence; reflexivity].
  rewrite list_lookup_alter_eq. destruct (pool s !! p); reflexivity.
Qed.

(** Once its message is out of the queues, a descriptor is freed and the
    messages of the others stay as they are. *)
Lemma dispose_ok rx d s bs : core (async_msg_free s) (d :: bs) (async_msg s) (pool s) -> busy s ≡ₚ bs -> syncing_thread rx = Some d ->
  (forall e, e ∈ tx_msg_queue s -> prio (async_at e s) = -1 /\ info (tx_msg (async_at e s)) = size (tx_msg (async_at e s)) /\
            fits (size (tx_msg (async_at e s)))) ->
  (forall r, r ∈ rx_msg_queue s -> rx_msg r = mk_msg (msg_size r) (msg_size r) None K_ANY (thread r) None None /\ fits (msg_size r)) ->
  (forall r, r ∈ matched s -> syncing_thread (rx_msg r) = Some (desc_of r) /\
            tx_data (rx_msg r) = Some (buf (async_msg s) (desc_of r)) /\ size (rx_msg r) = Z.min (msg_size r) (info (rx_msg r)) /\
            fits (info (rx_msg r)) /\ fits (msg_size r)) ->
  inv (mbox_message_dispose rx s) /\ abs (mbox_message_dispose rx s) = abs s.
Proof.
  intros Hc Hb Hs Htx Hrx Hm. pose proof (core_nodup _ _ _ _ Hc) as Hnd. apply NoDup_app in Hnd as (_ & _ & Hnd). apply NoDup_cons in Hnd as [Hd _].
  destruct (co_busy _ _ _ _ Hc d ltac:(left)) as (a & p & Ea & Es & _).
  destruct (dispose_eq rx d a s Hs Ea) as [m ->]; [rewrite (buf_at _ d a p Ea Es); exact Es|].
  set (A' := <[d := mk_async (prio a) m]> (async_msg s)).
  assert (Hne : forall e, e ∈ busy s -> e <> d) by (intros e He ->; apply Hd; rewrite <- Hb; exact He).
  assert (HA : forall e, e ∈ busy s -> A' !! e = async_msg s !! e).
  { intros e He. unfold A'. apply list_lookup_insert_ne. intros ->. exact (Hne e He eq_refl). }
  assert (HB : forall e, e ∈ busy s -> buf A' e = buf (async_msg s) e) by (intros e He; unfold buf; rewrite HA by exact He; reflexivity).
  assert (Ht : forall e, e ∈ tx_msg_queue s -> e ∈ busy s) by (intros e He; unfold busy; apply elem_of_app; left; exact He).
  assert (Hh : forall r, r ∈ matched s -> desc_of r ∈ busy s).
  { intros r Hr. unfold busy. apply elem_of_app. right. apply list_elem_of_fmap. eauto. }
  split.
  - split.
    + change (core (d :: async_msg_free s) (busy s) A' (alter give (buf (async_msg s) d) (pool s))).
      apply (core_perm _ bs); [symmetry; exact Hb|]. apply core_release; assumption.
    + mcbn. intros e He. specialize (Htx e He). unfold async_at in *. mcbn. rewrite HA by (apply Ht; exact He). exact Htx.
    + exact Hrx.
    + mcbn. intros r Hr. specialize (Hm r Hr). rewrite HB by (apply Hh; exact Hr). exact Hm.
  - unfold abs. mcbn. f_equal; apply fmap_same.
    + intros e He. apply pend_entry_same; [exact (HA e (Ht e He))|apply buffer_at_give].
    + intros r Hr. apply hand_entry_same; [exact (HB _ (Hh r Hr))|apply buffer_at_give].
Qed.

(** ** Simulation, operation by operation *)

Lemma take_first_fmap {A B} (f : B -> bool) (g : A -> B) (l : list A) :
  take_first f (g <$> l) = match take_first (fun x => f (g x)) l with Some (x, l') => Some (g x, g <$> l') | None => None end.
Proof.
  induction l as [|x l IH]; [reflexivity|]. rewrite fmap_cons. cbn [take_first]. destruct (f (g x)); [reflexivity|].
  rewrite IH. destruct (take_first (fun x => f (g x)) l) as [[y l1]|]; reflexivity.
Qed.

Lemma list_find_take_first {A} (f : A -> bool) (P : A -> Prop) `{!forall x, Decision (P x)} (l : list A) : (forall x, f x = true <-> P x) ->
  match take_first f l with
  | Some (x, l') => exists i, list_find P l = Some (i, x) /\ delete i l = l' /\ l ≡ₚ x :: l' /\ P x
  | None => list_find P l = None
  end.
Proof.
  intros Hf. induction l as [|x l IH]; [reflexivity|]. cbn [take_first list_find]. destruct (f x) eqn:E.
  - rewrite decide_True by (apply Hf; exact E). exists 0%nat. repeat split; [reflexivity|apply Hf; exact E].
  - rewrite decide_False by (rewrite <- Hf; congruence). destruct (take_first f l) as [[y l1]|].
    + destruct IH as (i & -> & <- & Hp & HP). exists (S i). split; [reflexivity|]. split; [reflexivity|].
      split; [rewrite Hp at 1; apply Permutation_swap|exact HP].
    + rewrite IH. reflexivity.
Qed.

Lemma timeout_sim t s : inv s -> match box_timeout t (abs s) with
  | Some (r, b) => exists s', os_receive_timeout t s = Some (r, s') /\ inv s' /\ abs s' = b
  | None => os_receive_timeout t s = None
  end.
Proof.
  intros []. unfold box_timeout, os_receive_timeout, abs. cbn [waiting pending inhand]. rewrite take_first_fmap.
  pose proof (list_find_take_first (fun r => (wait_entry r).1.1 =? t) (fun r => thread r = t) (rx_msg_queue s)
    (fun r => Z.eqb_eq (thread r) t)) as H.
  destruct (take_first _ (rx_msg_queue s)) as [[r l]|].
  - destruct H as (i & -> & <- & Hp & _). eexists. split; [reflexivity|]. split; [|reflexivity].
    split; try assumption. intros r' Hr. apply iv_rx0. rewrite Hp. right. exact Hr.
  - rewrite H. reflexivity.
Qed.

Lemma take_len {A} n (l : list A) : (n <= length l)%nat -> length (take n l) = n.
Proof. intros H. rewrite length_take. lia. Qed.

(** What a receiver copies out of the buffer. *)
Lemma finish_data r s : inv s -> r ∈ matched s ->
  let rx := rx_msg r in
  let m := take (Z.to_nat (info rx)) (buffer_at (buf (async_msg s) (desc_of r)) s) in
  (k_mbox_data_get rx (replicate (Z.to_nat (msg_size r)) 0) s).1 = take (Z.to_nat (msg_size r)) m ++ replicate (Z.to_nat (msg_size r) - length m) 0 /\
  Z.of_nat (length m) = info rx.
Proof.
  intros [] Hr. destruct (iv_matched0 r Hr) as (_ & Hd & Hs & Hi & Hn). cbv zeta. unfold k_mbox_data_get. rewrite Hd. cbn [fst].
  set (p := buf (async_msg s) (desc_of r)).
  assert (Hlen : length (buffer_at p s) = MSG_MEM_SIZE).
  { assert (Hin : desc_of r ∈ busy s) by (unfold busy; apply elem_of_app; right; apply list_elem_of_fmap; eauto).
    destruct (co_busy _ _ _ _ iv_core0 _ Hin) as (a & q & Ea & Es & _ & _ & Hq). unfold p. rewrite (buf_at _ _ a q Ea Es). unfold buffer_at.
    destruct (lookup_lt_is_Some_2 (pool s) q) as [b Eb]; [rewrite (co_pool _ _ _ _ iv_core0); exact Hq|]. rewrite Eb.
    exact (proj1 (co_sems _ _ _ _ iv_core0 q b Eb)). }
  unfold fits in *. rewrite take_len by (rewrite Hlen; lia). split; [|lia]. rewrite take_take, Hs.
  rewrite Nat.min_comm. replace (Z.to_nat (info (rx_msg r)) `min` Z.to_nat (msg_size r))%nat with (Z.to_nat (Z.min (msg_size r) (info (rx_msg r)))) by lia.
  rewrite drop_replicate. destruct (Z.ltb_spec 0 (Z.min (msg_size r) (info (rx_msg r)))).
  - f_equal. f_equal. lia.
  - replace (Z.to_nat (Z.min (msg_size r) (info (rx_msg r)))) with 0%nat by lia. cbn [take app].
    replace (Z.to_nat (msg_size r) - Z.to_nat (info (rx_msg r)))%nat with (Z.to_nat (msg_size r)) by lia. reflexivity.
Qed.

Lemma finish_sim t s : inv s -> match box_finish t (abs s) with
  | Some (r, b) => exists s', os_receive_finish t s = Some (r, s') /\ inv s' /\ abs s' = b
  | None => os_receive_finish t s = None
  end.
Proof.
  intros H. unfold box_finish, os_receive_finish, abs. cbn [waiting pending inhand]. rewrite take_first_fmap.
  pose proof (list_find_take_first (fun r => (hand_entry s r).1.1 =? t) (fun r => thread r = t) (matched s)
    (fun r => Z.eqb_eq (thread r) t)) as Hf.
  destruct (take_first _ (matched s)) as [[r l]|];[|rewrite Hf; reflexivity].
  destruct Hf as (i & -> & Hdel & Hp & _). assert (Hr : r ∈ matched s) by (rewrite Hp; left). rewrite Hdel.
  destruct (finish_data r s H Hr) as [Hdata Hlen]. cbv zeta in Hdata, Hlen.
  set (m := take (Z.to_nat (info (rx_msg r))) (buffer_at (buf (async_msg s) (desc_of r)) s)) in *.
  set (s1 := set_matched l s). unfold k_mbox_data_get in Hdata |- *. cbn [fst] in Hdata.
  change (buffer_at ?p s1) with (buffer_at p s). rewrite Hdata. clear Hdata.
  destruct H. destruct (iv_matched0 r Hr) as (Hsy & _ & Hs & Hi & Hn).
  destruct (dispose_ok (rx_msg r) (desc_of r) s1 (busy s1)) as [Hinv Habs]; try assumption; [|reflexivity| |].
  - apply (core_perm _ (busy s)); [|exact iv_core0]. unfold busy, s1. mcbn. rewrite Hp. rewrite fmap_cons. apply Permutation_sym, Permutation_middle.
  - intros r' Hr'. apply iv_matched0. rewrite Hp. right. exact Hr'.
  - unfold hand_entry at 1. fold m. unfold received. rewrite Hlen.
    unfold fits in *. assert (E : negb (info (rx_msg r) =? size (rx_msg r)) = (msg_size r <? info (rx_msg r))).
    { destruct (Z.eqb_spec (info (rx_msg r)) (size (rx_msg r))), (Z.ltb_spec (msg_size r) (info (rx_msg r))); cbn; lia || reflexivity. }
    rewrite E. destruct (Z.ltb_spec (msg_size r) (info (rx_msg r))); (eexists; split; [|split; [exact Hinv|exact Habs]]);
      [reflexivity|]. rewrite take_ge by lia. reflexivity.
Qed.

Lemma priq_add_fmap {A B} (g : A -> B) (pa : A -> Z) (pb : B -> Z) x l : (forall y, pb (g y) = pa y) ->
  g <$> priq_add pa x l = priq_add pb (g x) (g <$> l).
Proof.
  intros H. induction l as [|y l IH]; [reflexivity|]. rewrite fmap_cons. cbn [priq_add]. rewrite !H.
  destruct (0 <? pa y - pa x); rewrite !fmap_cons; [reflexivity|]. rewrite IH. reflexivity.
Qed.

Lemma priq_add_in {A} (pa : A -> Z) x l y : y ∈ priq_add pa x l -> y = x \/ y ∈ l.
Proof.
  induction l as [|z l IH]; cbn [priq_add]; [intros H; apply list_elem_of_singleton in H; auto|].
  destruct (0 <? pa z - pa x); intros H; apply elem_of_cons in H as [->|H]; auto; [right; left|].
  destruct (IH H) as [->|Hin]; [auto|right; right; exact Hin].
Qed.

(** Threads of the same priority are served in order. *)
Lemma priq_add_append {A} (pa : A -> Z) x l : (forall y, y ∈ l -> pa y = pa x) -> priq_add pa x l = l ++ [x].
Proof.
  induction l as [|y l IH]; intros H; [reflexivity|]. cbn [priq_add app]. rewrite (H y) by left.
  rewrite Z.sub_diag. change (0 <? 0) with false. cbv iota. rewrite IH; [reflexivity|]. intros z Hz. apply H. right. exact Hz.
Qed.

Lemma get_sim t p n no_wait s : inv s -> fits n ->
  exists s', os_receive_msg t p n no_wait s = Some ((box_get t p n no_wait (abs s)).1, s') /\ inv s' /\ abs s' = (box_get t p n no_wait (abs s)).2.
Proof.
  intros H Hn. unfold os_receive_msg. unfold fits in Hn. destruct (Z.ltb_spec (Z.of_nat MSG_MEM_SIZE) n); [lia|].
  unfold k_mbox_get, box_get. mcbn. pose proof (find_sender_spec s t n (tx_msg_queue s)) as Hf. 
  change (pending (abs s)) with (pend_entry s <$> tx_msg_queue s).
  destruct (take_first _ (pend_entry s <$> tx_msg_queue s)) as [[x xs]|].
  - destruct Hf as (d & q & -> & Hp & -> & E). cbv zeta in E. rewrite E. destruct (pend_entry s d) as [tg m] eqn:Epe. cbn [fst snd].
    eexists. split; [reflexivity|]. pose proof H as []. assert (Hd : d ∈ tx_msg_queue s) by (rewrite Hp; left).
    assert (Hdb : d ∈ busy s) by (unfold busy; apply elem_of_app; left; exact Hd).
    destruct (co_busy _ _ _ _ iv_core0 d Hdb) as (a & pb & Ea & Es & Ed & Ey & _). pose proof (buf_at _ d a pb Ea Es) as Hb.
    destruct (iv_tx0 d Hd) as (_ & Hinfo & Hfit). rewrite (async_at_lookup d s a Ea) in *.
    set (tx' := mk_msg (size (tx_msg a)) n _ _ _ _ _). set (A' := <[d := mk_async (prio a) tx']> (async_msg s)).
    assert (Hst : set_tx_msg d tx' s = set_async A' s) by (unfold set_tx_msg, A'; rewrite (alter_as_insert _ _ d a Ea); reflexivity).
    rewrite Hst. set (r := mk_receiver t p n _). assert (Hr : desc_of r = d) by (unfold desc_of, r; mcbn; rewrite Ey; reflexivity).
    assert (HB : forall e, buf A' e = buf (async_msg s) e).
    { intros e. unfold buf, A'. destruct (decide (e = d)) as [->|Hne]; [|rewrite list_lookup_insert_ne by congruence; reflexivity].
      rewrite list_lookup_insert_eq, Ea by (eapply lookup_lt_Some; exact Ea). reflexivity. }
    assert (Hq : forall e, e ∈ q -> e ∈ tx_msg_queue s /\ e <> d).
    { intros e He. split; [rewrite Hp; right; exact He|]. intros ->. pose proof (core_nodup _ _ _ _ iv_core0) as Hnd.
      apply NoDup_app in Hnd as (_ & _ & Hnd). unfold busy in Hnd. apply NoDup_app in Hnd as (Hnd & _). rewrite Hp in Hnd.
      apply NoDup_cons in Hnd as [Hnd _]. contradiction. }
    split; [split|].
    + apply (core_perm _ (busy s)); [|apply core_change; assumption || reflexivity].
      unfold busy. mcbn. rewrite fmap_cons, Hr, Hp. apply Permutation_middle.
    + mcbn. intros e He. destruct (Hq e He) as [He1 He2]. specialize (iv_tx0 e He1). unfold async_at in *. mcbn. unfold A'.
      rewrite list_lookup_insert_ne by congruence. exact iv_tx0.
    + exact iv_rx0.
    + mcbn. intros r' Hr'. rewrite HB. apply elem_of_cons in Hr' as [->|Hr']; [|apply iv_matched0; exact Hr'].
      rewrite Hr, Hb. unfold r. mcbn. rewrite Hinfo. repeat split; try assumption; try apply Hfit; try apply Hn.
      destruct (Z.ltb_spec (size (tx_msg a)) n); lia.
    + unfold abs. mcbn. f_equal.
      * apply fmap_same. intros e He. apply pend_entry_same; [|reflexivity]. mcbn. unfold A'. apply list_lookup_insert_ne.
        intros ->. exact (proj2 (Hq _ He) eq_refl).
      * rewrite fmap_cons. f_equal; [|apply fmap_same; intros r' _; apply hand_entry_same; [apply HB|reflexivity]].
        unfold hand_entry. mcbn. rewrite HB, Hr. unfold r. mcbn. rewrite Hinfo. unfold pend_entry in Epe.
        rewrite (async_at_lookup d s a Ea) in Epe. injection Epe as _ <-. reflexivity.
  - rewrite Hf. destruct no_wait; cbn [fst snd]; eexists; (split; [reflexivity|]); [split; [exact H|reflexivity]|].
    destruct H. split; [split; try assumption|].
    + mcbn. intros r Hr. apply priq_add_in in Hr as [->|Hr]; [split; [reflexivity|exact Hn]|apply iv_rx0; exact Hr].
    + unfold abs. mcbn. f_equal. exact (priq_add_fmap wait_entry thread_prio (fun w => w.1.2) (mk_receiver t p n (mk_msg n n None K_ANY t None None)) (rx_msg_queue s) (fun _ => eq_refl)).
Qed.

Lemma buffer_at_set p q s A F T R M sem data : (p < length (pool s))%nat ->
  buffer_at q (mk_sys (<[p := mk_info sem data]> (pool s)) A F T R M) = if decide (q = p) then data else buffer_at q s.
Proof.
  intros Hp. unfold buffer_at. mcbn. destruct (decide (q = p)) as [->|Hne].
  - rewrite list_lookup_insert_eq by exact Hp. reflexivity.
  - rewrite list_lookup_insert_ne by congruence. reflexivity.
Qed.

(** Either the pool is used up, or a buffer and a descriptor are free. *)
Lemma send_resources s : inv s ->
  (msg_pool_get_free_msg_info s = None /\ (CONFIG_NUM_MBOX_ASYNC_MSGS <= length (busy s))%nat) \/
  (exists p b d free, msg_pool_get_free_msg_info s = Some (p, set_pool (<[p := mk_info 0 (replicate MSG_MEM_SIZE 0)]> (pool s)) s) /\
     pool s !! p = Some b /\ msg_sem b = 1 /\ async_msg_free s = d :: free /\ (length (busy s) < CONFIG_NUM_MBOX_ASYNC_MSGS)%nat).
Proof.
  intros []. pose proof (core_used _ _ _ _ iv_core0) as Hu. pose proof (co_pool _ _ _ _ iv_core0) as Hl. unfold msg_pool_get_free_msg_info.
  destruct (get_free_spec (pool s) 0) as [[-> E]|(p & b & -> & Hp & Hs)]; [left; split; [reflexivity|lia]|right].
  pose proof (used_lt p b _ Hp Hs) as Hlt. pose proof (Permutation_length (co_desc _ _ _ _ iv_core0)) as Hd.
  rewrite length_app, length_seq in Hd. destruct (async_msg_free s) as [|d free]; [cbn in Hd; lia|].
  destruct (co_sems _ _ _ _ iv_core0 p b Hp) as [_ Hsem].
  assert (Hsem1 : msg_sem b = 1) by (destruct (decide _); congruence).
  exists p, b, d, free. rewrite Hsem1. repeat split; try assumption. lia.
Qed.

(** The state after a send: buffer [p] and descriptor [d] carry the message. *)
Definition sent (s : sys) (p d : nat) (free : list nat) (data : list Z) (tx : k_mbox_msg) (T : list nat) (R M : list receiver) : sys :=
  mk_sys (<[p := mk_info 0 data]> (pool s)) (<[d := mk_async (-1) tx]> (async_msg s)) free T R M.

Lemma sent_frame s p d free data tx T R M b : inv s -> pool s !! p = Some b -> msg_sem b = 1 -> async_msg_free s = d :: free ->
  length data = MSG_MEM_SIZE -> async_sem tx = Some p -> tx_data tx = Some p -> syncing_thread tx = Some d ->
  let s' := sent s p d free data tx T R M in
  core free (d :: busy s) (async_msg s') (pool s') /\ buf (async_msg s') d = p /\ buffer_at p s' = data /\ async_at d s' = mk_async (-1) tx /\
  (forall e, e ∈ tx_msg_queue s -> async_at e s' = async_at e s /\ pend_entry s' e = pend_entry s e) /\
  (forall r, r ∈ matched s -> buf (async_msg s') (desc_of r) = buf (async_msg s) (desc_of r) /\ hand_entry s' r = hand_entry s r).
Proof.
  intros [] Hp Hsem Hfree Hlen E1 E2 E3. cbv zeta. rewrite Hfree in iv_core0.
  destruct (core_alloc d free (busy s) _ _ p b (-1) tx data iv_core0 Hp ltac:(lia) E1 E2 E3 Hlen) as (Hc & Hpb & Hdb).
  assert (Hpl : (p < length (pool s))%nat) by (eapply lookup_lt_Some; exact Hp).
  assert (Hdl : (d < length (async_msg s))%nat) by (rewrite (co_async _ _ _ _ iv_core0); apply (core_range _ _ _ _ d iv_core0); left).
  set (s' := sent s p d free data tx T R M).
  assert (HA : forall e, e ∈ busy s -> async_msg s' !! e = async_msg s !! e).
  { intros e He. apply list_lookup_insert_ne. intros ->. contradiction. }
  assert (HB : forall e, e ∈ busy s -> buf (async_msg s') e = buf (async_msg s) e) by (intros e He; unfold buf; rewrite HA by exact He; reflexivity).
  assert (HD : forall e, e ∈ busy s -> buffer_at (buf (async_msg s) e) s' = buffer_at (buf (async_msg s) e) s).
  { intros e He. unfold s', sent. rewrite buffer_at_set by exact Hpl. rewrite decide_False; [reflexivity|]. intros Eb. apply Hpb. rewrite <- Eb.
    apply list_elem_of_fmap. eauto. }
  split; [exact Hc|]. split; [apply (buf_at _ d (mk_async (-1) tx)); [apply list_lookup_insert_eq; exact Hdl|exact E1]|].
  split; [unfold s', sent; rewrite buffer_at_set by exact Hpl; apply decide_True; reflexivity|].
  split; [apply async_at_lookup, list_lookup_insert_eq; exact Hdl|]. split.
  - intros e He. assert (Heb : e ∈ busy s) by (unfold busy; apply elem_of_app; left; exact He).
    split; [unfold async_at; rewrite HA by exact Heb; reflexivity|apply pend_entry_same; [apply HA|apply HD]; exact Heb].
  - intros r Hr. assert (Hrb : desc_of r ∈ busy s) by (unfold busy; apply elem_of_app; right; apply list_elem_of_fmap; eauto).
    split; [apply HB; exact Hrb|apply hand_entry_same; [apply HB|apply HD]; exact Hrb].
Qed.

Lemma send_unfold cur target m s p b d free : (length m <= MSG_MEM_SIZE)%nat -> pool s !! p = Some b -> async_msg_free s = d :: free ->
  (d < length (async_msg s))%nat -> (forall e, e ∈ tx_msg_queue s -> e <> d /\ prio (async_at e s) = -1) ->
  msg_pool_get_free_msg_info s = Some (p, set_pool (<[p := mk_info 0 (replicate MSG_MEM_SIZE 0)]> (pool s)) s) ->
  let n := Z.of_nat (length m) in
  let data := m ++ replicate (MSG_MEM_SIZE - length m) 0 in
  let tx := mk_msg n n (Some p) cur target (Some d) (Some p) in
  os_send_async_msg cur (-1) target m s = Some (0,
    match find_receiver tx (rx_msg_queue s) with
    | Some (tx', r, q) => sent s p d free data tx' (tx_msg_queue s) q (r :: matched s)
    | None => sent s p d free data tx (tx_msg_queue s ++ [d]) (rx_msg_queue s) (matched s)
    end).
Proof.
  intros Hm Hp Hf Hd Hq E. cbv zeta. unfold os_send_async_msg. rewrite E. destruct (Nat.ltb_spec MSG_MEM_SIZE (length m)); [lia|].
  unfold k_mbox_async_put. mcbn. rewrite Hf. unfold mbox_message_put.
  match goal with |- context [async_at d ?s0] => assert (Ha : async_at d s0 = mk_async (-1)
    (mk_msg (Z.of_nat (length m)) (Z.of_nat (length m)) (Some p) 0 target (Some d) (Some p))) by (apply async_at_lookup, list_lookup_insert_eq; exact Hd) end.
  rewrite Ha. mcbn. rewrite alter_insert_eq. mcbn. rewrite drop_replicate.
  destruct (find_receiver _ (rx_msg_queue s)) as [[[tx' r] q]|]; unfold set_tx_msg; mcbn; rewrite alter_insert_eq; mcbn; [reflexivity|].
  f_equal. f_equal. unfold sent, set_tx. mcbn. f_equal. apply priq_add_append. intros e He. destruct (Hq e He) as [Hne Hpr].
  unfold async_at. mcbn. rewrite list_lookup_insert_eq by exact Hd. rewrite list_lookup_insert_ne by congruence. cbn [default]. mcbn. exact Hpr.
Qed.

(** The message is handed to the receiver [r]. *)
Lemma sent_matched s p d free data tx q r b : inv s -> pool s !! p = Some b -> msg_sem b = 1 -> async_msg_free s = d :: free ->
  length data = MSG_MEM_SIZE -> async_sem tx = Some p -> tx_data tx = Some p -> syncing_thread tx = Some d ->
  (forall x, x ∈ q -> x ∈ rx_msg_queue s) -> syncing_thread (rx_msg r) = Some d -> tx_data (rx_msg r) = Some p ->
  size (rx_msg r) = Z.min (msg_size r) (info (rx_msg r)) -> fits (info (rx_msg r)) -> fits (msg_size r) ->
  let s' := sent s p d free data tx (tx_msg_queue s) q (r :: matched s) in
  inv s' /\ abs s' = mk_box (pending (abs s)) (wait_entry <$> q) ((thread r, msg_size r, take (Z.to_nat (info (rx_msg r))) data) :: inhand (abs s)).
Proof.
  intros H Hp Hsem Hf Hlen E1 E2 E3 Hq R1 R2 R3 R4 R5. cbv zeta. pose proof H as [].
  destruct (sent_frame s p d free data tx (tx_msg_queue s) q (r :: matched s) b H Hp Hsem Hf Hlen E1 E2 E3) as (Hc & Hbd & Hbp & Had & Htx & Hmt).
  set (s' := sent s p d free data tx _ _ _) in *. cbv zeta in *. assert (Hd : desc_of r = d) by (unfold desc_of; rewrite R1; reflexivity).
  split; [split|].
  - apply (core_perm _ (d :: busy s)); [|exact Hc]. unfold busy, s', sent. mcbn. rewrite fmap_cons, Hd. apply Permutation_middle.
  - intros e He. rewrite (proj1 (Htx e He)). apply iv_tx0. exact He.
  - intros x Hx. apply iv_rx0, Hq. exact Hx.
  - intros x Hx. apply elem_of_cons in Hx as [->|Hx]; [|rewrite (proj1 (Hmt x Hx)); apply iv_matched0; exact Hx].
    rewrite Hd, Hbd. auto.
  - unfold abs. change (tx_msg_queue s') with (tx_msg_queue s). change (matched s') with (r :: matched s). change (rx_msg_queue s') with q.
    cbn [pending inhand]. f_equal; [apply fmap_same; intros e He; apply Htx; exact He|]. rewrite fmap_cons.
    f_equal; [|apply fmap_same; intros x Hx; apply Hmt; exact Hx]. unfold hand_entry. rewrite Hd, Hbd, Hbp. reflexivity.
Qed.

(** The message waits. *)
Lemma sent_queued s p d free data tx b : inv s -> pool s !! p = Some b -> msg_sem b = 1 -> async_msg_free s = d :: free ->
  length data = MSG_MEM_SIZE -> async_sem tx = Some p -> tx_data tx = Some p -> syncing_thread tx = Some d ->
  info tx = size tx -> fits (size tx) ->
  let s' := sent s p d free data tx (tx_msg_queue s ++ [d]) (rx_msg_queue s) (matched s) in
  inv s' /\ abs s' = mk_box (pending (abs s) ++ [(tx_target_thread tx, take (Z.to_nat (size tx)) data)]) (waiting (abs s)) (inhand (abs s)).
Proof.
  intros H Hp Hsem Hf Hlen E1 E2 E3 Hinfo Hfit. cbv zeta. pose proof H as [].
  destruct (sent_frame s p d free data tx (tx_msg_queue s ++ [d]) (rx_msg_queue s) (matched s) b H Hp Hsem Hf Hlen E1 E2 E3) as (Hc & Hbd & Hbp & Had & Htx & Hmt).
  set (s' := sent s p d free data tx _ _ _) in *. cbv zeta in *. split; [split|].
  - apply (core_perm _ (d :: busy s)); [|exact Hc]. unfold busy, s', sent. mcbn. rewrite <- app_assoc. cbn [app]. apply Permutation_middle.
  - intros e He. apply elem_of_app in He as [He|He]; [rewrite (proj1 (Htx e He)); apply iv_tx0; exact He|].
    apply list_elem_of_singleton in He as ->. rewrite Had. mcbn. auto.
  - exact iv_rx0.
  - intros x Hx. rewrite (proj1 (Hmt x Hx)). apply iv_matched0. exact Hx.
  - unfold abs. change (tx_msg_queue s') with (tx_msg_queue s ++ [d]). change (matched s') with (matched s). change (rx_msg_queue s') with (rx_msg_queue s).
    cbn [pending waiting inhand]. f_equal; [|apply fmap_same; intros x Hx; apply Hmt; exact Hx]. rewrite fmap_app.
    f_equal; [apply fmap_same; intros e He; apply Htx; exact He|]. cbn [fmap list_fmap]. unfold pend_entry. rewrite Hbd, Hbp, Had. reflexivity.
Qed.

Lemma send_sim cur target m s : inv s -> (length m <= MSG_MEM_SIZE)%nat ->
  exists s', os_send_async_msg cur (-1) target m s = Some ((box_send target m (abs s)).1, s') /\ inv s' /\ abs s' = (box_send target m (abs s)).2.
Proof.
  intros H Hm. unfold box_send. rewrite abs_count. destruct (send_resources s H) as [[E Hb]|(p & b & d & free & E & Hp & Hsem & Hf & Hb)].
  - unfold os_send_async_msg. rewrite E. destruct (Nat.leb_spec CONFIG_NUM_MBOX_ASYNC_MSGS (length (busy s))); [|lia]. exists s. auto.
  - destruct (Nat.leb_spec CONFIG_NUM_MBOX_ASYNC_MSGS (length (busy s))); [lia|].
    pose proof H as []. pose proof (core_nodup _ _ _ _ iv_core0) as Hnd. rewrite Hf in Hnd. cbn [app] in Hnd. apply NoDup_cons in Hnd as [Hnd _].
    assert (Hdl : (d < length (async_msg s))%nat) by (rewrite (co_async _ _ _ _ iv_core0); apply (core_range _ _ _ _ d iv_core0); rewrite Hf; left).
    assert (Hq : forall e, e ∈ tx_msg_queue s -> e <> d /\ prio (async_at e s) = -1).
    { intros e He. split; [|exact (proj1 (iv_tx0 e He))]. intros ->. apply Hnd, elem_of_app. right. unfold busy. apply elem_of_app. left. exact He. }
    rewrite (send_unfold cur target m s p b d free Hm Hp Hf Hdl Hq E). clear Hq E Hnd.
    set (n := Z.of_nat (length m)). set (data := m ++ replicate (MSG_MEM_SIZE - length m) 0). set (tx := mk_msg n n (Some p) cur target (Some d) (Some p)).
    assert (Hlen : length data = MSG_MEM_SIZE) by (unfold data; rewrite length_app, length_replicate; lia).
    assert (Hdata : take (Z.to_nat n) data = m) by (unfold n, data; rewrite Nat2Z.id, take_app_length; reflexivity).
    assert (Hfit : fits n) by (unfold fits, n; lia).
    change (waiting (abs s)) with (wait_entry <$> rx_msg_queue s). change target with (tx_target_thread tx) at 2 3.
    pose proof (find_receiver_spec tx (rx_msg_queue s) (fun r Hr => proj1 (iv_rx0 r Hr))) as Hfr.
    destruct (take_first _ (wait_entry <$> rx_msg_queue s)) as [[w ws]|].
    + destruct Hfr as (r & q & -> & Hr & -> & Hqs & ->). unfold wait_entry at 1 3. cbn [fst snd]. destruct (iv_rx0 r Hr) as [_ Hrn].
      eexists. split; [reflexivity|]. set (r' := mk_receiver _ _ _ _). set (tx' := mk_msg _ _ _ _ _ _ _).
      destruct (sent_matched s p d free data tx' q r' b H Hp Hsem Hf Hlen eq_refl eq_refl eq_refl Hqs eq_refl eq_refl) as [Hi' Ha'];
        [unfold r', tx; mcbn; destruct (Z.ltb_spec n (msg_size r)); lia|exact Hfit|exact Hrn|].
      split; [exact Hi'|]. rewrite Ha'. change (info (rx_msg r')) with n. rewrite Hdata. reflexivity.
    + rewrite Hfr. cbn [fst snd]. eexists. split; [reflexivity|].
      destruct (sent_queued s p d free data tx b H Hp Hsem Hf Hlen eq_refl eq_refl eq_refl eq_refl Hfit) as [Hi' Ha'].
      split; [exact Hi'|]. rewrite Ha'. change (size tx) with n. rewrite Hdata. reflexivity.
Qed.

Lemma dlist_next_gone d l : d ∉ l -> dlist_next d l = None.
Proof.
  induction l as [|x l IH]; intros H; [reflexivity|]. cbn [dlist_next]. destruct (Nat.eqb_spec x d) as [->|Hne]; [contradiction H; left|].
  apply IH. intros Hin. apply H. right. exact Hin.
Qed.

Lemma filter_out d (l : list nat) : d ∉ l -> filter (fun e => e <> d) (d :: l) = l.
Proof.
  intros H. rewrite filter_cons_False by tauto. induction l as [|x l IH]; [reflexivity|].
  rewrite filter_cons_True by (intros ->; apply H; left). f_equal. apply IH. intros Hin. apply H. right. exact Hin.
Qed.

(** What the code of cleaning does, which is documented to drop all messages:
    the first one is dropped. *)
Lemma clean_effect s : inv s -> inv (os_msg_clean s) /\
  abs (os_msg_clean s) = mk_box (tail (pending (abs s))) (waiting (abs s)) (inhand (abs s)).
Proof.
  intros H. unfold os_msg_clean, k_mbox_clear_msg, abs at 2 3 4. cbn [pending waiting inhand].
  destruct (tx_msg_queue s) as [|d q] eqn:Eq; [cbn; split; [exact H|unfold abs; rewrite Eq; reflexivity]|]. cbn [head fmap list_fmap tail].
  pose proof H as []. pose proof (core_nodup _ _ _ _ iv_core0) as Hnd. apply NoDup_app in Hnd as (_ & _ & Hnd). unfold busy in Hnd. rewrite Eq in Hnd.
  apply NoDup_app in Hnd as (Hnd & _). apply NoDup_cons in Hnd as [Hdq _].
  assert (Hdb : d ∈ busy s) by (unfold busy; rewrite Eq; left).
  destruct (co_busy _ _ _ _ iv_core0 d Hdb) as (a & p & Ea & Es & Ed & Ey & _).
  cbn [clear_loop length]. unfold mbox_message_match. mcbn. cbv iota. change ((K_ANY =? K_ANY) || _) with true. cbn [andb orb]. cbv iota.
  unfold discard_check. mcbn. change (0 =? 0) with true. cbv iota. rewrite (async_at_lookup d s a Ea), Eq, (filter_out d q Hdq).
  set (tx' := mk_msg (size (tx_msg a)) _ _ _ _ _ _). set (rx := mk_msg 0 _ _ _ _ _ _).
  set (A' := <[d := mk_async (prio a) tx']> (async_msg s)).
  assert (Hst : set_tx q (set_tx_msg d tx' s) = set_tx q (set_async A' s)) by (unfold set_tx_msg, A'; rewrite (alter_as_insert _ _ d a Ea); reflexivity).
  rewrite Hst. clear Hst. set (s1 := set_tx q (set_async A' s)).
  assert (HA : forall e, e ∈ q -> A' !! e = async_msg s !! e) by (intros e He; apply list_lookup_insert_ne; intros ->; contradiction).
  assert (HB : forall e, buf A' e = buf (async_msg s) e).
  { intros e. unfold buf, A'. destruct (decide (e = d)) as [->|Hne]; [|rewrite list_lookup_insert_ne by congruence; reflexivity].
    rewrite list_lookup_insert_eq, Ea by (eapply lookup_lt_Some; exact Ea). reflexivity. }
  destruct (dispose_ok rx d s1 (busy s1)) as [Hinv Habs]; try assumption; try reflexivity.
  - apply (core_change _ _ _ _ d a tx'); try assumption; try reflexivity. apply (core_perm _ (busy s)); [|exact iv_core0].
    unfold busy, s1. mcbn. rewrite Eq. reflexivity.
  - intros e He. assert (Hin : e ∈ tx_msg_queue s) by (rewrite Eq; right; exact He).
    specialize (iv_tx0 e Hin). unfold async_at in *. change (async_msg s1) with A'. rewrite HA by exact He. exact iv_tx0.
  - intros r Hr. change (async_msg s1) with A'. rewrite HB. apply iv_matched0. exact Hr.
  - rewrite dlist_next_gone; [cbn [clear_loop]|].
    + split; [exact Hinv|]. rewrite Habs. unfold abs. f_equal; apply fmap_same; [intros e He; apply pend_entry_same; [apply HA; exact He|reflexivity]|].
      intros r _. apply hand_entry_same; [apply HB|reflexivity].
    + assert (Hq : tx_msg_queue (mbox_message_dispose rx s1) = q); [|rewrite Hq; exact Hdq].
      unfold mbox_message_dispose. cbv zeta. repeat case_match; reflexivity.
Qed.

(** ** Sequences of operations *)

Inductive event : Type :=
| Send (sender target : Z) (m : list Z)
| Get (t p n : Z) (no_wait : bool)
| Finish (t : Z)
| Timeout (t : Z).

Inductive answer : Type := Sent (r : Z) | Got (f : found) | Result (r : Z) (m : option (list Z)) | TimedOut (r : Z).

Definition do_event (e : event) (s : sys) : option (answer * sys) :=
  match e with
  | Send cur target m => match os_send_async_msg cur (-1) target m s with Some (r, s) => Some (Sent r, s) | None => None end
  | Get t p n w => match os_receive_msg t p n w s with Some (f, s) => Some (Got f, s) | None => None end
  | Finish t => match os_receive_finish t s with Some (r, m, s) => Some (Result r m, s) | None => None end
  | Timeout t => match os_receive_timeout t s with Some (r, s) => Some (TimedOut r, s) | None => None end
  end.

Definition box_event (e : event) (b : box) : option (answer * box) :=
  match e with
  | Send _ target m => Some (Sent (box_send target m b).1, (box_send target m b).2)
  | Get t p n w => Some (Got (box_get t p n w b).1, (box_get t p n w b).2)
  | Finish t => match box_finish t b with Some (r, m, b) => Some (Result r m, b) | None => None end
  | Timeout t => match box_timeout t b with Some (r, b) => Some (TimedOut r, b) | None => None end
  end.

Fixpoint run {S} (step : event -> S -> option (answer * S)) (es : list event) (s : S) : option (list answer * S) :=
  match es with
  | [] => Some ([], s)
  | e :: es' =>
      match step e s with
      | Some (a, s1) => match run step es' s1 with Some (l, s2) => Some (a :: l, s2) | None => None end
      | None => None
      end
  end.

(** A message fits, and a thread receives when it is not receiving already. *)
Definition allowed (e : event) (b : box) : Prop :=
  match e with
  | Send _ _ m => (length m <= MSG_MEM_SIZE)%nat
  | Get t _ n _ => fits n /\ t <> K_ANY /\ t ∉ ((fun w => w.1.1) <$> waiting b) /\ t ∉ ((fun x => x.1.1) <$> inhand b)
  | _ => True
  end.

Fixpoint allowed_run (es : list event) (b : box) : Prop :=
  match es with
  | [] => True
  | e :: es' => allowed e b /\ match box_event e b with Some (_, b1) => allowed_run es' b1 | None => False end
  end.

Definition empty_box : box := mk_box [] [] [].

Lemma event_sim e s a b : inv s -> allowed e (abs s) -> box_event e (abs s) = Some (a, b) ->
  exists s', do_event e s = Some (a, s') /\ inv s' /\ abs s' = b.
Proof.
  intros H Ha E. destruct e as [cur target m|t p n w|t|t]; cbn [allowed box_event do_event] in *.
  - destruct (send_sim cur target m s H Ha) as (s' & -> & Hi & Hb). injection E as <- <-. eauto.
  - destruct (get_sim t p n w s H (proj1 Ha)) as (s' & -> & Hi & Hb). injection E as <- <-. eauto.
  - pose proof (finish_sim t s H) as Hf. destruct (box_finish t (abs s)) as [[[r m] b']|]; [|discriminate].
    destruct Hf as (s' & -> & Hi & Hb). injection E as <- <-. eauto.
  - pose proof (timeout_sim t s H) as Hf. destruct (box_timeout t (abs s)) as [[r b']|]; [|discriminate].
    destruct Hf as (s' & -> & Hi & Hb). injection E as <- <-. eauto.
Qed.

Lemma run_sim es : forall s, inv s -> allowed_run es (abs s) ->
  exists l s', run do_event es s = Some (l, s') /\ run box_event es (abs s) = Some (l, abs s') /\ inv s'.
Proof.
  induction es as [|e es IH]; intros s H Ha; [exists [], s; auto|]. cbn [run allowed_run] in *. destruct Ha as [Ha Hr].
  destruct (box_event e (abs s)) as [[a b]|] eqn:E; [|contradiction]. destruct (event_sim e s a b H Ha E) as (s1 & -> & H1 & <-).
  destruct (IH s1 H1 Hr) as (l & s' & -> & -> & Hi). exists (a :: l), s'. auto.
Qed.

Lemma boot_inv : inv msgs_at_boot /\ abs msgs_at_boot = empty_box.
Proof.
  split; [|reflexivity]. split; try (intros x Hx; apply not_elem_of_nil in Hx; contradiction).
  split; try reflexivity.
  - rewrite app_nil_r. symmetry. apply Permutation_rev.
  - intros d Hd. apply not_elem_of_nil in Hd. contradiction.
  - apply NoDup_nil_2.
  - intros p b Hp. change (pool msgs_at_boot) with (replicate CONFIG_NUM_MBOX_ASYNC_MSGS (mk_info 1 (replicate MSG_MEM_SIZE 0))) in Hp.
    apply lookup_replicate in Hp as [-> _]. split; reflexivity.
Qed.

(** C18: the pool of buffers, the descriptors and the two queues of the mailbox
    behave as a mailbox of at most forty messages, whatever threads send,
    receive, wait and time out in whichever order: the same answers, the
    same messages, byte by byte, as the specification; no call waits for a
    descriptor, and the number of free messages is what is not in the
    mailbox.  A message fits into a buffer of the pool, and a thread receives
    when it is not receiving already ([allowed]).  Cleaning the mailbox is not
    among the operations: [clean_drops_one]. *)
Theorem mailbox_refines es : allowed_run es empty_box ->
  exists l s, run do_event es msgs_at_boot = Some (l, s) /\ run box_event es empty_box = Some (l, abs s) /\
    msg_pool_get_free_msg_num s = Z.of_nat CONFIG_NUM_MBOX_ASYNC_MSGS - Z.of_nat (length (pending (abs s)) + length (inhand (abs s))).
Proof.
  intros Ha. destruct boot_inv as [Hi Hb]. rewrite <- Hb in Ha |- *. destruct (run_sim es msgs_at_boot Hi Ha) as (l & s & E1 & E2 & H).
  exists l, s. split; [exact E1|]. split; [exact E2|]. unfold msg_pool_get_free_msg_num.
  rewrite (core_used _ _ _ _ (iv_core s H)), abs_count. reflexivity.
Qed.

Definition some_msg (x : Z) : list Z := x :: replicate 15 0.
Definition sample_events : list event :=
  [Send 7 1 (some_msg 10); Get 2 5 16 false; Send 7 1 (some_msg 11); Send 7 2 (some_msg 12); Get 1 3 16 true; Finish 1; Finish 2;
   Get 1 3 16 true; Finish 1; Get 1 3 16 true; Get 1 3 16 false; Timeout 1].

Ltac allow := repeat match goal with
  | |- _ /\ _ => split
  | |- True => exact I
  | |- fits _ => unfold fits; vm_compute; split; discriminate
  | |- _ <> _ => discriminate
  | |- _ ∉ _ => vm_compute; intros Habs; repeat (apply elem_of_cons in Habs as [Habs|Habs]; [discriminate|]); apply not_elem_of_nil in Habs; exact Habs
  | |- (_ <= _)%nat => vm_compute; repeat constructor
  end.

Ltac allow_run := repeat match goal with
  | |- allowed_run ?es _ => let l := eval hnf in es in change es with l; cbn [allowed_run]
  | |- allowed _ _ /\ _ => split; [cbn [allowed]; allow|]
  | |- match ?x with _ => _ end => let y := eval vm_compute in x in change x with y; cbv iota
  | |- True => exact I
  end.

Lemma sample_events_allowed : allowed_run sample_events empty_box.
Proof. allow_run. Qed.

Lemma mailbox_refines_witness : exists l s, run do_event sample_events msgs_at_boot = Some (l, s) /\
  run box_event sample_events empty_box = Some (l, abs s) /\
  l = [Sent 0; Got Waits; Sent 0; Sent 0; Got Found; Result 0 (Some (some_msg 10)); Result 0 (Some (some_msg 12));
       Got Found; Result 0 (Some (some_msg 11)); Got (NoMessage (-116)); Got Waits; TimedOut (-116)].
Proof.
  destruct (mailbox_refines sample_events sample_events_allowed) as (l & s & E1 & E2 & _). exists l, s.
  split; [exact E1|]. split; [exact E2|].
  assert (E : (run box_event sample_events empty_box) = Some (l, abs s)) by exact E2. vm_compute in E. injection E as <- _. reflexivity.
Defined.

(** ** Order, and threads that wait *)

Lemma take_first_some {A} (f : A -> bool) l x l' : take_first f l = Some (x, l') ->
  exists l1 l2, l = l1 ++ x :: l2 /\ l' = l1 ++ l2 /\ f x = true /\ Forall (fun y => f y = false) l1.
Proof.
  revert l'. induction l as [|y l IH]; intros l' E; [discriminate|]. cbn [take_first] in E. destruct (f y) eqn:Ey.
  - injection E as <- <-. exists [], l. auto.
  - destruct (take_first f l) as [[z l1]|]; [|discriminate]. injection E as <- <-. destruct (IH l1 eq_refl) as (k1 & k2 & -> & -> & Hz & Hk).
    exists (y :: k1), k2. auto.
Qed.

Lemma take_first_none {A} (f : A -> bool) l : take_first f l = None -> forall x, x ∈ l -> f x = false.
Proof.
  induction l as [|y l IH]; intros E x Hx; [apply not_elem_of_nil in Hx; contradiction|]. cbn [take_first] in E.
  destruct (f y) eqn:Ey; [discriminate|]. destruct (take_first f l) as [[z l1]|]; [discriminate|].
  apply elem_of_cons in Hx as [->|Hx]; [exact Ey|exact (IH eq_refl x Hx)].
Qed.

(** Threads that receive do so once; no thread waits for a message that is
    there. *)
Record box_ok (b : box) : Prop := mk_box_ok {
  bo_threads : NoDup (((fun w => w.1.1) <$> waiting b) ++ ((fun x => x.1.1) <$> inhand b));
  bo_awake : forall w x, w ∈ waiting b -> x ∈ pending b -> accepts x.1 w.1.1 = false
}.

Lemma priq_add_perm {A} (pa : A -> Z) x l : priq_add pa x l ≡ₚ x :: l.
Proof.
  induction l as [|y l IH]; [reflexivity|]. cbn [priq_add]. destruct (0 <? pa y - pa x); [reflexivity|]. rewrite IH. apply Permutation_swap.
Qed.

Lemma send_box_ok target m b : box_ok b -> box_ok (box_send target m b).2.
Proof.
  intros H. unfold box_send. destruct (Nat.leb _ _); [exact H|]. destruct H as [Hn Hw].
  destruct (take_first _ (waiting b)) as [[[[t p] n] w]|] eqn:E; cbn [snd].
  - apply take_first_some in E as (w1 & w2 & E1 & -> & _ & _). rewrite E1 in *. split; cbn [waiting inhand pending].
    + revert Hn. rewrite !fmap_app, !fmap_cons. cbn [fst snd]. apply NoDup_Permutation_proper. rewrite <- !app_assoc. cbn [app].
      apply Permutation_app_head. symmetry. apply Permutation_middle.
    + intros y x Hy Hx. apply (Hw y x); [|exact Hx]. apply elem_of_app in Hy as [Hy|Hy]; apply elem_of_app; [left|right; right]; exact Hy.
  - pose proof (take_first_none _ _ E) as Hnone. split; cbn [waiting inhand pending]; [exact Hn|].
    intros y x Hy Hx. apply elem_of_app in Hx as [Hx|Hx]; [exact (Hw y x Hy Hx)|]. apply list_elem_of_singleton in Hx as ->. exact (Hnone y Hy).
Qed.

Lemma get_box_ok t p n no_wait b : box_ok b -> t ∉ ((fun w => w.1.1) <$> waiting b) -> t ∉ ((fun x => x.1.1) <$> inhand b) ->
  box_ok (box_get t p n no_wait b).2.
Proof.
  intros [Hn Hw] Ht1 Ht2. unfold box_get. destruct (take_first _ (pending b)) as [[[tg m] q]|] eqn:E.
  - apply take_first_some in E as (q1 & q2 & E1 & -> & _ & _). cbn [snd]. split; cbn [waiting inhand pending].
    + rewrite fmap_cons. cbn [fst]. rewrite <- Permutation_middle. apply NoDup_cons. split; [|exact Hn]. rewrite elem_of_app. tauto.
    + intros y x Hy Hx. apply (Hw y x Hy). rewrite E1. apply elem_of_app in Hx as [Hx|Hx]; apply elem_of_app; [left|right; right]; exact Hx.
  - destruct no_wait; cbn [snd]; [split; assumption|]. pose proof (take_first_none _ _ E) as Hnone. split; cbn [waiting inhand pending].
    + rewrite (priq_add_perm _ _ (waiting b)), fmap_cons. cbn [fst app]. apply NoDup_cons. split; [|exact Hn]. rewrite elem_of_app. tauto.
    + intros y x Hy Hx. rewrite (priq_add_perm _ _ (waiting b)) in Hy. apply elem_of_cons in Hy as [->|Hy]; [exact (Hnone x Hx)|exact (Hw y x Hy Hx)].
Qed.

Lemma event_box_ok e b a b' : box_ok b -> allowed e b -> box_event e b = Some (a, b') -> box_ok b'.
Proof.
  intros H Ha E. destruct e as [cur target m|t p n w|t|t]; cbn [allowed box_event] in *.
  - injection E as _ <-. apply send_box_ok. exact H.
  - injection E as _ <-. destruct Ha as (_ & _ & H1 & H2). apply get_box_ok; assumption.
  - unfold box_finish in E. destruct (take_first _ (inhand b)) as [[[[u n] m] h]|] eqn:Ef; [|discriminate]. destruct (received n m). injection E as _ <-.
    apply take_first_some in Ef as (h1 & h2 & E1 & -> & _ & _). destruct H as [Hn Hw]. rewrite E1 in Hn. split; cbn [waiting inhand pending]; [|exact Hw].
    revert Hn. rewrite !fmap_app, !fmap_cons, <- !Permutation_middle. intros Hn. apply NoDup_cons in Hn. apply Hn.
  - unfold box_timeout in E. destruct (take_first _ (waiting b)) as [[[[u p] n] w]|] eqn:Ef; [|discriminate]. injection E as _ <-.
    apply take_first_some in Ef as (w1 & w2 & E1 & -> & _ & _). destruct H as [Hn Hw]. rewrite E1 in *. split; cbn [waiting inhand pending].
    + revert Hn. rewrite !fmap_app, !fmap_cons, <- Permutation_middle. intros Hn. apply NoDup_cons in Hn. apply Hn.
    + intros y x Hy Hx. apply (Hw y x); [|exact Hx]. apply elem_of_app in Hy as [Hy|Hy]; apply elem_of_app; [left|right; right]; exact Hy.
Qed.

(** What is on its way to thread [t]. *)
Definition pending_of (t : Z) (b : box) : list (list Z) := snd <$> filter (fun x => x.1 = t) (pending b).
Definition inhand_of (t : Z) (b : box) : list (list Z) := snd <$> filter (fun x => x.1.1 = t) (inhand b).

(** The messages for [t] that were accepted, and the ones it got. *)
Definition sent_to (t : Z) (e : event) (a : answer) : list (list Z) :=
  match e, a with Send _ target m, Sent 0 => if target =? t then [m] else [] | _, _ => [] end.
Definition got_by (t : Z) (e : event) (a : answer) : list (list Z) :=
  match e, a with Finish u, Result 0 (Some m) => if u =? t then [m] else [] | _, _ => [] end.
Definition over (f : event -> answer -> list (list Z)) (es : list event) (l : list answer) : list (list Z) := concat (zip_with f es l).

(** What the message manager does: messages of one size, each for one
    thread. *)
Definition manager_event (e : event) : Prop :=
  match e with
  | Send _ target m => target <> K_ANY /\ length m = MSG_MEM_SIZE
  | Get _ _ n _ => n = Z.of_nat MSG_MEM_SIZE
  | _ => True
  end.

Record box_mm (b : box) : Prop := mk_box_mm {
  bm_ok : box_ok b;
  bm_target : forall x, x ∈ pending b -> x.1 <> K_ANY /\ length x.2 = MSG_MEM_SIZE;
  bm_size : forall w, w ∈ waiting b -> w.2 = Z.of_nat MSG_MEM_SIZE;
  bm_hand : forall x, x ∈ inhand b -> x.1.2 = Z.of_nat MSG_MEM_SIZE /\ length x.2 = MSG_MEM_SIZE
}.

Lemma accepts_named target t : target <> K_ANY -> accepts target t = true -> target = t.
Proof. unfold accepts. intros Hne H. apply orb_true_iff in H as [H|H]; apply Z.eqb_eq in H; congruence. Qed.

Lemma accepts_self t : accepts t t = true.
Proof. unfold accepts. rewrite Z.eqb_refl. apply orb_true_r. Qed.

Lemma filter_none {A} (P : A -> Prop) `{!forall x, Decision (P x)} (l : list A) : (forall x, x ∈ l -> ~ P x) -> filter P l = [].
Proof.
  induction l as [|y l IH]; intros Hl; [reflexivity|]. rewrite filter_cons_False by (apply Hl; left). apply IH. intros x Hx. apply Hl. right. exact Hx.
Qed.

Lemma inhand_of_none t b : t ∉ ((fun x => x.1.1) <$> inhand b) -> inhand_of t b = [].
Proof. intros H. unfold inhand_of. rewrite filter_none; [reflexivity|]. intros x Hx E. apply H. apply list_elem_of_fmap. exists x. auto. Qed.

Lemma waiting_nothing t w b : box_ok b -> w ∈ waiting b -> w.1.1 = t -> inhand_of t b = [] /\ pending_of t b = [].
Proof.
  intros [Hn Hw] Hin E. split.
  - apply inhand_of_none. apply NoDup_app in Hn as (_ & Hn & _). apply Hn. apply list_elem_of_fmap. exists w. auto.
  - unfold pending_of. rewrite filter_none; [reflexivity|]. intros x Hx Ex. specialize (Hw w x Hin Hx). rewrite E, Ex, accepts_self in Hw. discriminate.
Qed.

(** The backlog of a thread is its message in hand, then the ones that wait. *)
Definition backlog (t : Z) (b : box) : list (list Z) := inhand_of t b ++ pending_of t b.

Lemma send_order t cur target m b : box_mm b -> target <> K_ANY -> length m = MSG_MEM_SIZE ->
  box_mm (box_send target m b).2 /\
  backlog t (box_send target m b).2 = backlog t b ++ sent_to t (Send cur target m) (Sent (box_send target m b).1).
Proof.
  intros [Hok Ht Hs Hh] Hne Hm. pose proof (send_box_ok target m b Hok) as Hok'. unfold box_send in *.
  destruct (Nat.leb _ _); [cbn [fst snd sent_to]; rewrite app_nil_r; split; [split; assumption|reflexivity]|].
  destruct (take_first _ (waiting b)) as [[[[u p] n] w]|] eqn:E; cbn [fst snd sent_to] in *.
  - apply take_first_some in E as (w1 & w2 & E1 & -> & Ha & _). cbn [fst] in Ha. apply accepts_named in Ha as ->; [|exact Hne].
    assert (Hu : (u, p, n) ∈ waiting b) by (rewrite E1; apply elem_of_app; right; left). destruct (waiting_nothing u _ b Hok Hu eq_refl) as [H1 H2].
    split; [split; cbn [pending waiting inhand]; try assumption|].
    + intros y Hy. apply Hs. rewrite E1. apply elem_of_app in Hy as [Hy|Hy]; apply elem_of_app; [left|right; right]; exact Hy.
    + intros x Hx. apply elem_of_cons in Hx as [->|Hx]; [split; [exact (Hs _ Hu)|exact Hm]|exact (Hh x Hx)].
    + unfold backlog, inhand_of, pending_of in *. cbn [pending inhand]. rewrite filter_cons. cbn [fst]. destruct (decide (u = t)) as [->|Hut].
      * rewrite fmap_cons, H1, H2, Z.eqb_refl. reflexivity.
      * destruct (Z.eqb_spec u t); [contradiction|]. rewrite app_nil_r. reflexivity.
  - split; [split; cbn [pending waiting inhand]; try assumption|].
    + intros x Hx. apply elem_of_app in Hx as [Hx|Hx]; [exact (Ht x Hx)|]. apply list_elem_of_singleton in Hx as ->. auto.
    + unfold backlog, inhand_of, pending_of. cbn [pending inhand]. rewrite filter_app, fmap_app, app_assoc. f_equal. rewrite filter_cons. cbn [fst].
      destruct (decide (target = t)) as [->|Hut]; [rewrite Z.eqb_refl; reflexivity|]. destruct (Z.eqb_spec target t); [contradiction|reflexivity].
Qed.

Lemma get_order u t p no_wait b : box_mm b -> t ∉ ((fun w => w.1.1) <$> waiting b) -> t ∉ ((fun x => x.1.1) <$> inhand b) ->
  let n := Z.of_nat MSG_MEM_SIZE in
  box_mm (box_get t p n no_wait b).2 /\ backlog u (box_get t p n no_wait b).2 = backlog u b.
Proof.
  intros [Hok Ht Hs Hh] Hw Hi n. pose proof (get_box_ok t p n no_wait b Hok Hw Hi) as Hok'. unfold box_get in *.
  destruct (take_first _ (pending b)) as [[[tg m] q]|] eqn:E; cbn [snd] in *.
  - apply take_first_some in E as (q1 & q2 & E1 & -> & Ha & Hq1). cbn [fst] in Ha.
    destruct (Ht (tg, m)) as [Hne Hm]; [rewrite E1; apply elem_of_app; right; left|]. cbn [fst snd] in *. apply accepts_named in Ha as ->; [|exact Hne].
    split; [split; cbn [pending waiting inhand]; try assumption|].
    + intros x Hx. apply Ht. rewrite E1. apply elem_of_app in Hx as [Hx|Hx]; apply elem_of_app; [left|right; right]; exact Hx.
    + intros x Hx. apply elem_of_cons in Hx as [->|Hx]; [auto|exact (Hh x Hx)].
    + pose proof (inhand_of_none t b Hi) as Hin. unfold backlog, inhand_of, pending_of in *. cbn [pending inhand]. rewrite E1, !filter_app, !filter_cons. cbn [fst].
      destruct (decide (t = u)) as [<-|Hut]; [|reflexivity]. rewrite fmap_cons, Hin. cbn [app].
      rewrite (filter_none _ q1); [reflexivity|]. rewrite Forall_forall in Hq1. intros x Hx Ex. specialize (Hq1 x Hx). rewrite Ex, accepts_self in Hq1. discriminate.
  - destruct no_wait; cbn [snd] in *; [split; [split; assumption|reflexivity]|]. split; [|reflexivity]. split; cbn [pending waiting inhand]; try assumption.
    intros w Hin. rewrite (priq_add_perm _ _ (waiting b)) in Hin. apply elem_of_cons in Hin as [->|Hin]; [reflexivity|exact (Hs w Hin)].
Qed.

Lemma finish_order u t b r m b' : box_mm b -> box_finish t b = Some (r, m, b') ->
  box_mm b' /\ got_by u (Finish t) (Result r m) ++ backlog u b' = backlog u b.
Proof.
  intros [Hok Ht Hs Hh] E. unfold box_finish in E. destruct (take_first _ (inhand b)) as [[[[v n] x] h]|] eqn:Ef; [|discriminate].
  assert (Hok' : box_ok (mk_box (pending b) (waiting b) h)).
  { apply (event_box_ok (Finish t) b (Result (received n x).1 (received n x).2)); [exact Hok|exact I|]. cbn [box_event]. unfold box_finish. rewrite Ef.
    destruct (received n x); reflexivity. }
  apply take_first_some in Ef as (h1 & h2 & E1 & -> & Hv & _). cbn [fst] in Hv. apply Z.eqb_eq in Hv as ->.
  destruct (Hh (t, n, x)) as [Hn Hx]; [rewrite E1; apply elem_of_app; right; left|]. cbn [fst snd] in *. subst n.
  unfold received in E. rewrite Hx, Z.ltb_irrefl, Nat2Z.id, Nat.sub_diag, app_nil_r in E. injection E as <- <- <-. split.
  - split; cbn [pending waiting inhand]; try assumption. intros y Hy. apply Hh. rewrite E1.
    apply elem_of_app in Hy as [Hy|Hy]; apply elem_of_app; [left|right; right]; exact Hy.
  - destruct Hok as [Hnd _]. apply NoDup_app in Hnd as (_ & _ & Hnd). rewrite E1, fmap_app, fmap_cons in Hnd. cbn [fst] in Hnd.
    unfold backlog, inhand_of, pending_of. cbn [pending inhand got_by]. rewrite E1, !filter_app, filter_cons, !fmap_app. cbn [fst].
    destruct (Z.eqb_spec t u) as [->|Hne]; [|rewrite decide_False by congruence; reflexivity].
    rewrite decide_True by reflexivity. apply NoDup_app in Hnd as (_ & Hnd & _). rewrite (filter_none _ h1); [reflexivity|].
    intros y Hy Ey. apply (Hnd u); [apply list_elem_of_fmap; exists y; auto|left].
Qed.

Lemma event_order u e b a b' : box_mm b -> allowed e b -> manager_event e -> box_event e b = Some (a, b') ->
  box_mm b' /\ got_by u e a ++ backlog u b' = backlog u b ++ sent_to u e a.
Proof.
  intros H Ha Hm E. destruct e as [cur target m|t p n w|t|t]; cbn [allowed box_event manager_event] in *.
  - injection E as <- <-. destruct Hm as [H1 H2]. exact (send_order u cur target m b H H1 H2).
  - injection E as <- <-. destruct Ha as (_ & _ & H1 & H2). subst n. cbn [got_by sent_to app]. rewrite app_nil_r. apply get_order; assumption.
  - destruct (box_finish t b) as [[[r m] b1]|] eqn:Ef; [|discriminate]. injection E as <- <-. cbn [sent_to]. rewrite app_nil_r. exact (finish_order u t b r m b1 H Ef).
  - destruct (box_timeout t b) as [[r b1]|] eqn:Et; [|discriminate]. injection E as <- <-. pose proof (event_box_ok (Timeout t) b (TimedOut r) b1 (bm_ok b H) I) as Hok.
    cbn [box_event] in Hok. rewrite Et in Hok. specialize (Hok eq_refl). unfold box_timeout in Et. destruct (take_first _ (waiting b)) as [[[[v p] n] w]|] eqn:Ef; [|discriminate].
    injection Et as <- <-. apply take_first_some in Ef as (w1 & w2 & E1 & -> & _ & _). destruct H. cbn [got_by sent_to app]. rewrite app_nil_r. split; [|reflexivity].
    split; cbn [pending waiting inhand]; try assumption. intros y Hy. apply bm_size0. rewrite E1.
    apply elem_of_app in Hy as [Hy|Hy]; apply elem_of_app; [left|right; right]; exact Hy.
Qed.

Lemma run_order u es : forall b l b', box_mm b -> Forall manager_event es -> allowed_run es b -> run box_event es b = Some (l, b') ->
  box_mm b' /\ over (got_by u) es l ++ backlog u b' = backlog u b ++ over (sent_to u) es l.
Proof.
  induction es as [|e es IH]; intros b l b' H Hm Ha E; cbn [run allowed_run] in *.
  - injection E as <- <-. unfold over. cbn [zip_with concat]. rewrite app_nil_r. auto.
  - apply Forall_cons in Hm as [Hme Hm]. destruct Ha as [Ha Hr]. destruct (box_event e b) as [[a b1]|] eqn:Ee; [|discriminate].
    destruct (run box_event es b1) as [[l1 b2]|] eqn:Er; [|discriminate]. injection E as <- <-.
    destruct (event_order u e b a b1 H Ha Hme Ee) as [H1 O1]. destruct (IH b1 l1 b2 H1 Hm Hr Er) as [H2 O2]. split; [exact H2|].
    unfold over in *. cbn [zip_with concat]. rewrite <- app_assoc, O2, !app_assoc, O1. reflexivity.
Qed.

(** C19: while every message is for one thread, has the size of an app_msg and
    the mailbox is not cleaned (no event cleans it), the messages that were accepted for a thread
    are, in order and unchanged, the ones it received, then the one it has in
    hand, then the ones that wait for it; and no thread waits while there is a
    message for it. *)
Theorem mailbox_fifo es l s t : Forall manager_event es -> allowed_run es empty_box -> run do_event es msgs_at_boot = Some (l, s) ->
  over (sent_to t) es l = over (got_by t) es l ++ inhand_of t (abs s) ++ pending_of t (abs s) /\
  (forall w, w ∈ waiting (abs s) -> w.1.1 = t -> pending_of t (abs s) = []).
Proof.
  intros Hm Ha E. destruct boot_inv as [Hi Hb]. assert (Ha' := Ha). rewrite <- Hb in Ha'. destruct (run_sim es msgs_at_boot Hi Ha') as (l' & s' & E1 & E2 & _).
  rewrite E1 in E. injection E as -> ->. rewrite Hb in E2.
  assert (Hstart : box_mm empty_box) by (split; [split; [apply NoDup_nil_2|]|..]; intros ? *; intros Hx; apply not_elem_of_nil in Hx; contradiction).
  destruct (run_order t es empty_box l (abs s) Hstart Hm Ha E2) as [Hmm Ho]. split; [symmetry; exact Ho|].
  intros w Hw Et. exact (proj2 (waiting_nothing t w (abs s) (bm_ok _ Hmm) Hw Et)).
Qed.

Lemma mailbox_fifo_witness : exists l s, run do_event sample_events msgs_at_boot = Some (l, s) /\
  over (sent_to 1) sample_events l = [some_msg 10; some_msg 11] /\
  over (sent_to 1) sample_events l = over (got_by 1) sample_events l ++ inhand_of 1 (abs s) ++ pending_of 1 (abs s).
Proof.
  destruct (run do_event sample_events msgs_at_boot) as [[l s]|] eqn:E; [|vm_compute in E; discriminate].
  exists l, s. split; [reflexivity|]. split; [|apply (mailbox_fifo sample_events l s 1)].
  - vm_compute in E. injection E as <- _. reflexivity.
  - repeat constructor; discriminate.
  - exact sample_events_allowed.
  - exact E.
Defined.

(** ** With the lists of applications and services *)

Lemma backlog_of_run es l s : Forall manager_event es -> allowed_run es empty_box -> run do_event es msgs_at_boot = Some (l, s) -> inv s /\ box_mm (abs s).
Proof.
  intros Hm Ha E. destruct boot_inv as [Hi Hb]. assert (Ha' := Ha). rewrite <- Hb in Ha'. destruct (run_sim es msgs_at_boot Hi Ha') as (l' & s' & E1 & E2 & H).
  rewrite E1 in E. injection E as -> ->. split; [exact H|]. rewrite Hb in E2.
  assert (Hstart : box_mm empty_box) by (split; [split; [apply NoDup_nil_2|]|..]; intros ? *; intros Hx; apply not_elem_of_nil in Hx; contradiction).
  exact (proj1 (run_order 0 es empty_box l (abs s) Hstart Hm Ha E2)).
Qed.

Lemma send_result target m b : (box_send target m b).1 =
  if Nat.leb CONFIG_NUM_MBOX_ASYNC_MSGS (length (pending b) + length (inhand b)) then - ENOMEM else 0.
Proof. unfold box_send. destruct (Nat.leb _ _); [reflexivity|]. destruct (take_first _ _) as [[[[t p] n] w]|]; reflexivity. Qed.

Lemma length_msgs s : inv s -> (length (pending (abs s)) + length (inhand (abs s)))%nat = length (busy s) /\
  msg_pool_get_free_msg_num s = Z.of_nat CONFIG_NUM_MBOX_ASYNC_MSGS - Z.of_nat (length (busy s)).
Proof. intros H. split; [apply abs_count|]. unfold msg_pool_get_free_msg_num. rewrite (core_used _ _ _ _ (iv_core s H)). reflexivity. Qed.

(** a message sent by name, in any state the managers and the mailbox reach,
    becomes the last one of the thread that runs under that name and no other
    thread's, if there is a free message; it is refused, and nothing changes,
    if there is none or if nothing runs under the name. *)
Theorem send_by_name (apps srvs : list app_entry_t) (create : app_entry_t -> Z) (send : Z -> bool) rs es l s cur receiver m :
  NoDup (name <$> apps ++ srvs) -> mgr_reach apps srvs create send rs ->
  Forall manager_event es -> allowed_run es empty_box -> run do_event es msgs_at_boot = Some (l, s) ->
  receiver <> ALL_RECEIVER_NAME -> length m = MSG_MEM_SIZE ->
  match find_named info_name receiver (global_app_list rs ++ global_srv_list rs) with
  | Some a =>
      exists ok s', msg_manager_send_async_msg rs cur receiver m s = Some (ok, s') /\ (ok = true <-> 0 < msg_pool_get_free_msg_num s) /\
        backlog (tid a) (abs s') = backlog (tid a) (abs s) ++ (if ok then [m] else []) /\
        (forall t, t <> tid a -> backlog t (abs s') = backlog t (abs s))
  | None => msg_manager_send_async_msg rs cur receiver m s = Some (false, s)
  end.
Proof.
  intros Hu Hr Hm Ha E Hne Hlen. destruct (backlog_of_run es l s Hm Ha E) as [Hi Hmm].
  pose proof (mgr_reach_ok apps srvs create send Hu rs Hr) as Hok.
  pose proof (listener_tid_exact apps srvs Hu rs receiver Hok) as Ht.
  unfold Mailbox.msg_manager_send_async_msg. rewrite bool_decide_false by exact Hne. cbv zeta. rewrite Ht.
  destruct (find_named info_name receiver _) as [a|] eqn:Ef; [|reflexivity].
  assert (Htid : tid a <> NULL).
  { apply find_named_in in Ef as [Hin _]. apply elem_of_app in Hin as [Hin|Hin];
      [pose proof (mg_apps _ _ _ Hok) as HF|pose proof (mg_srvs _ _ _ Hok) as HF]; rewrite Forall_forall in HF;
      destruct (HF a Hin) as (_ & _ & _ & _ & H); exact H. }
  destruct (Z.eqb_spec (tid a) 0) as [Hz|_]; [contradiction|].
  destruct (send_sim cur (tid a) m s Hi ltac:(lia)) as (s' & Es & _ & Habs). rewrite Es.
  destruct (length_msgs s Hi) as [HL ->]. rewrite send_result, HL.
  pose proof (fun t => proj2 (send_order t cur (tid a) m (abs s) Hmm Htid Hlen)) as Ho. rewrite <- Habs, send_result, HL in Ho.
  pose proof (Permutation_length (co_desc _ _ _ _ (iv_core s Hi))) as Hd. rewrite length_app, length_seq in Hd.
  destruct (Nat.leb_spec CONFIG_NUM_MBOX_ASYNC_MSGS (length (busy s))).
  - exists false, s'. split; [reflexivity|]. split; [split; [discriminate|lia]|]. split; [rewrite (Ho (tid a)); reflexivity|].
    intros t _. rewrite (Ho t). apply app_nil_r.
  - exists true, s'. split; [reflexivity|]. split; [split; [lia|reflexivity]|]. split.
    + rewrite (Ho (tid a)). cbn [sent_to]. rewrite Z.eqb_refl. reflexivity.
    + intros t Hne'. rewrite (Ho t). cbn [sent_to]. destruct (Z.eqb_spec (tid a) t); [congruence|apply app_nil_r].
Qed.

Lemma send_by_name_witness :
  exists ok s', msg_manager_send_async_msg (active m0 "btmusic") 9 "btmusic" (some_msg 5) msgs_at_boot = Some (ok, s') /\
    (ok = true <-> 0 < msg_pool_get_free_msg_num msgs_at_boot) /\ 0 < msg_pool_get_free_msg_num msgs_at_boot.
Proof.
  pose proof (send_by_name sample_apps sample_services sample_create sample_send (active m0 "btmusic") [] [] msgs_at_boot 9 "btmusic" (some_msg 5)
    sample_names_unique (active_reach m0 "btmusic" m0_reach) (Forall_nil_2 _) I eq_refl ltac:(discriminate) eq_refl) as H.
  set (f := find_named info_name "btmusic" _) in H. destruct f as [a|] eqn:Ef; [|unfold f in Ef; vm_compute in Ef; discriminate].
  destruct H as (ok & s' & H1 & H2 & _). exists ok, s'. split; [exact H1|]. split; [exact H2|]. vm_compute. reflexivity.
Defined.

(** cleaning the mailbox, which is to drop all messages, drops the first one
    only: the loop goes on from an element that it has just taken out of the
    list. *)
Theorem clean_drops_one es l s : allowed_run es empty_box -> run do_event es msgs_at_boot = Some (l, s) ->
  pending (abs (os_msg_clean s)) = tail (pending (abs s)) /\ inhand (abs (os_msg_clean s)) = inhand (abs s) /\
  waiting (abs (os_msg_clean s)) = waiting (abs s).
Proof.
  intros Ha E. destruct boot_inv as [Hi Hb]. rewrite <- Hb in Ha. destruct (run_sim es msgs_at_boot Hi Ha) as (l' & s' & E1 & _ & H).
  rewrite E1 in E. injection E as -> ->. destruct (clean_effect s H) as [_ ->]. repeat split.
Qed.

Definition three_sends : list event := [Send 7 1 (some_msg 1); Send 7 2 (some_msg 2); Send 7 1 (some_msg 3)].

Lemma clean_drops_one_witness : exists l s, run do_event three_sends msgs_at_boot = Some (l, s) /\
  pending (abs (os_msg_clean s)) = [(2, some_msg 2); (1, some_msg 3)].
Proof.
  destruct (run do_event three_sends msgs_at_boot) as [[l s]|] eqn:E; [|vm_compute in E; discriminate]. exists l, s. split; [reflexivity|].
  rewrite (proj1 (clean_drops_one three_sends l s ltac:(allow_run) E)). vm_compute in E. injection E as _ <-. reflexivity.
Defined.

(** ** Ends of threads *)

(** A thread that was prepared for is found, and its slot is free again; a
    fourth is refused. *)
Lemma terminal_roundtrip tid l i x joined : tid <> 0 -> tid ∉ l -> list_find (fun x => x = 0) l = Some (i, x) ->
  exists l1, os_thread_prepare_terminal tid l = (0, l1) /\ os_thread_wait_terminal tid joined l1 = Some (if joined then 0 else - EBUSY, l).
Proof.
  intros Hne Hin Hf. unfold os_thread_prepare_terminal. rewrite Hf. eexists. split; [reflexivity|].
  apply list_find_Some in Hf as (Hl & -> & _). unfold os_thread_wait_terminal.
  assert (Hlast : forall k l i, l !! i = Some 0 -> tid ∉ l -> last_slot k tid (<[i := tid]> l) = Some (k + i)%nat).
  { intros k l'. assert (Hnone : forall k l', tid ∉ l' -> last_slot k tid l' = None).
    { intros k' l2. revert k'. induction l2 as [|y l2 IH]; intros k' H2; [reflexivity|]. cbn [last_slot]. rewrite IH by (intros ?; apply H2; right; assumption).
      destruct (Z.eqb_spec y tid) as [->|]; [contradiction H2; left|reflexivity]. }
    revert k. induction l' as [|y l' IH]; intros k [|j] E Hn; try discriminate.
    - change (<[0%nat := tid]> (y :: l')) with (tid :: l'). cbn [last_slot]. rewrite Hnone by (intros ?; apply Hn; right; assumption). rewrite Z.eqb_refl. f_equal. lia.
    - change (<[S j := tid]> (y :: l')) with (y :: <[j := tid]> l'). cbn [last_slot]. rewrite (IH (S k) j E) by (intros ?; apply Hn; right; assumption). f_equal. lia. }
  rewrite (Hlast 0%nat l i Hl Hin). cbn [Nat.add]. rewrite list_insert_insert_eq, list_insert_id by exact Hl. reflexivity.
Qed.
