(* ===== verification/Aps.v ===== *)
(** * Playback speed (framework/audio/audio_aps.c, audio_tws_aps_snoop.c)

    The earphone plays at the rate of its own clock what a source sends at the
    rate of another.  audio_aps_monitor compares the time that is buffered with
    two water marks every few milliseconds and changes the level of the audio
    PLL, a small change of the rate.  With a second earphone (TWS) the levels
    are agreed on through an observer of the Bluetooth library, and small
    differences of the position are removed by playing one level faster or
    slower for a while.  The configuration is that of the earphone: CONFIG_TWS,
    CONFIG_SNOOP_LINK_TWS, CONFIG_AUDIO_APS_ADJUST_FINE, CONFIG_SOC_SERIES_CUCKOO,
    CONFIG_SYNC_BY_SDM_CNT.

    What the code calls (the HAL, the observer of the library, the track) is the
    [trace], the latest first.  What it reads from elsewhere comes with a call as
    an [env]: the clocks, the role the library reports, the latency mode and its
    thresholds.  An access through a NULL pointer or outside of an array is
    [None].  Signed overflow wraps. *)

From stdpp Require Import base list numbers option.
From S2P Require Import Prelude.
Open Scope Z_scope.

(** ** Constants (audio_hal.h, audio_common.h, audio_system.h, media_type.h) *)

Definition APS_LEVEL_1 : Z := 0.
Definition APS_LEVEL_2 : Z := 1.
Definition APS_LEVEL_3 : Z := 2.
Definition APS_LEVEL_4 : Z := 3.
Definition APS_LEVEL_5 : Z := 4.
Definition APS_LEVEL_6 : Z := 5.
Definition APS_LEVEL_7 : Z := 6.
Definition APS_LEVEL_8 : Z := 7.
Definition APS_LEVEL_0PPM : Z := 8.

Definition APS_LEVEL_AUDIOPLL : Z := 0.
Definition APS_LEVEL_AUDIOPLL_F : Z := 2.

Definition APS_OPR_SET : Z := 1.
Definition APS_OPR_ADJUST : Z := 2.
Definition APS_OPR_FAST_SET : Z := 4.

Inductive aps_status_e : Type := APS_STATUS_DEC | APS_STATUS_INC | APS_STATUS_DEFAULT.

Definition AAC_TYPE : Z := 6.
Definition ACT_TYPE : Z := 8.
Definition SBC_TYPE : Z := 10.
Definition MSBC_TYPE : Z := 11.
Definition CVSD_TYPE : Z := 15.
Definition PCM_TYPE : Z := 17.
Definition NAV_TYPE : Z := 19.
Definition PCM_DSP_TYPE : Z := 22.

Definition BTSRV_TWS_NONE : Z := 0.
Definition BTSRV_TWS_MASTER : Z := 2.
Definition BTSRV_TWS_SLAVE : Z := 3.

Definition AUDIO_STREAM_DEFAULT : Z := 1.
Definition AUDIO_STREAM_TTS : Z := 4.
Definition AUDIO_STREAM_TIP : Z := 24.

Definition AUDIO_APS_ADJUST_INTERVAL : Z := 30.
Definition APS_ADJUST_PKT_INTERVAL : Z := 300.
Definition SDM_CNT_MASK : Z := 0xFFFFFFF.
Definition UINT32_MAX : Z := 2 ^ 32 - 1.

(** ** State *)

(** The fields of struct audio_track_t that are used here. *)
Record track : Type := mk_track {
  audio_handle : Z;  (* the channel of the audio HAL *)
  stream_type : Z;  (* uint8_t *)
  stared : bool;  (* stared:1 *)
  waitto_start : bool;  (* waitto_start:1 *)
  channels : Z;  (* uint8_t *)
  output_sample_rate_hz : Z;  (* uint32_t *)
  samples_filled : Z;  (* uint32_t *)
  sdm_sample_rate : Z;  (* uint32_t *)
  sdm_osr : Z  (* uint16_t *)
}.

Definition set_stared (v : bool) (t : track) : track :=
  mk_track (audio_handle t) (stream_type t) v (waitto_start t) (channels t) (output_sample_rate_hz t) (samples_filled t) (sdm_sample_rate t) (sdm_osr t).
Definition set_waitto_start (v : bool) (t : track) : track :=
  mk_track (audio_handle t) (stream_type t) (stared t) v (channels t) (output_sample_rate_hz t) (samples_filled t) (sdm_sample_rate t) (sdm_osr t).
Definition set_samples_filled v (t : track) : track :=
  mk_track (audio_handle t) (stream_type t) (stared t) (waitto_start t) (channels t) (output_sample_rate_hz t) (u32 v) (sdm_sample_rate t) (sdm_osr t).

(** One running average: the value and what the division by 16 left over
    (average_min_len and average_min_left, .., expect_diff and expect_diff_left). *)
Record average : Type := mk_average { value : Z; left_over : Z }.

(** The part of aps_monitor_info_t of the low latency mode. *)
Record latency_info : Type := mk_latency {
  len : Z;  (* int, and all below *)
  max_len : Z;
  min_len : Z;
  average_min : average;
  average_diff : average;
  average_expect : average;
  last_min_len : Z;
  boundary : average;
  last_expect_len : Z;
  expect : average;
  boundary_count : Z
}.

Definition set_len v (l : latency_info) : latency_info :=
  mk_latency (s32 v) (max_len l) (min_len l) (average_min l) (average_diff l) (average_expect l) (last_min_len l) (boundary l) (last_expect_len l) (expect l) (boundary_count l).
Definition set_max_len v (l : latency_info) : latency_info :=
  mk_latency (len l) (s32 v) (min_len l) (average_min l) (average_diff l) (average_expect l) (last_min_len l) (boundary l) (last_expect_len l) (expect l) (boundary_count l).
Definition set_min_len v (l : latency_info) : latency_info :=
  mk_latency (len l) (max_len l) (s32 v) (average_min l) (average_diff l) (average_expect l) (last_min_len l) (boundary l) (last_expect_len l) (expect l) (boundary_count l).
Definition set_average_min (v : average) (l : latency_info) : latency_info :=
  mk_latency (len l) (max_len l) (min_len l) v (average_diff l) (average_expect l) (last_min_len l) (boundary l) (last_expect_len l) (expect l) (boundary_count l).
Definition set_average_diff (v : average) (l : latency_info) : latency_info :=
  mk_latency (len l) (max_len l) (min_len l) (average_min l) v (average_expect l) (last_min_len l) (boundary l) (last_expect_len l) (expect l) (boundary_count l).
Definition set_average_expect (v : average) (l : latency_info) : latency_info :=
  mk_latency (len l) (max_len l) (min_len l) (average_min l) (average_diff l) v (last_min_len l) (boundary l) (last_expect_len l) (expect l) (boundary_count l).
Definition set_last_min_len v (l : latency_info) : latency_info :=
  mk_latency (len l) (max_len l) (min_len l) (average_min l) (average_diff l) (average_expect l) (s32 v) (boundary l) (last_expect_len l) (expect l) (boundary_count l).
Definition set_boundary (v : average) (l : latency_info) : latency_info :=
  mk_latency (len l) (max_len l) (min_len l) (average_min l) (average_diff l) (average_expect l) (last_min_len l) v (last_expect_len l) (expect l) (boundary_count l).
Definition set_last_expect_len v (l : latency_info) : latency_info :=
  mk_latency (len l) (max_len l) (min_len l) (average_min l) (average_diff l) (average_expect l) (last_min_len l) (boundary l) (s32 v) (expect l) (boundary_count l).
Definition set_expect (v : average) (l : latency_info) : latency_info :=
  mk_latency (len l) (max_len l) (min_len l) (average_min l) (average_diff l) (average_expect l) (last_min_len l) (boundary l) (last_expect_len l) v (boundary_count l).
Definition set_boundary_count v (l : latency_info) : latency_info :=
  mk_latency (len l) (max_len l) (min_len l) (average_min l) (average_diff l) (average_expect l) (last_min_len l) (boundary l) (last_expect_len l) (expect l) (s32 v).

(** aps_monitor_info_t, without the two fields the code does not use. *)
Record aps_monitor_info_t : Type := mk_aps {
  current_level : Z;  (* uint8_t *)
  dest_level : Z;  (* uint8_t *)
  aps_status : aps_status_e;  (* uint8_t *)
  aps_min_level : Z;  (* uint8_t *)
  aps_max_level : Z;  (* uint8_t *)
  aps_default_level : Z;  (* uint8_t *)
  role : Z;  (* uint8_t *)
  duration : Z;  (* uint8_t *)
  last_level : Z;  (* uint8_t *)
  need_aps : bool;  (* need_aps:1 *)
  need_aps_fine : bool;  (* need_aps_fine:1 *)
  aps_fine_flag : bool;  (* aps_fine_flag:1 *)
  audiopll_mode : Z;  (* audiopll_mode:2 *)
  lea_restarting : bool;  (* lea_restarting:1 *)
  aps_count : Z;  (* uint16_t *)
  aps_reduce_water_mark : Z;  (* uint32_t, microseconds *)
  aps_increase_water_mark : Z;  (* uint32_t *)
  aps_water_adjust_thres : Z;  (* uint32_t *)
  lat : latency_info;  (* len .. boundary_count *)
  aps_fine_adjust_time : Z;  (* uint32_t *)
  aps_water_adjust_last : Z;  (* uint32_t *)
  audio_track : option track;  (* NULL or the track *)
  tws_observer : bool  (* NULL or the address of audio_aps_snoop *)
}.

Definition set_current_level v (h : aps_monitor_info_t) : aps_monitor_info_t :=
  mk_aps (u8 v) (dest_level h) (aps_status h) (aps_min_level h) (aps_max_level h) (aps_default_level h) (role h) (duration h) (last_level h) (need_aps h) (need_aps_fine h) (aps_fine_flag h) (audiopll_mode h) (lea_restarting h) (aps_count h) (aps_reduce_water_mark h) (aps_increase_water_mark h) (aps_water_adjust_thres h) (lat h) (aps_fine_adjust_time h) (aps_water_adjust_last h) (audio_track h) (tws_observer h).
Definition set_dest_level v (h : aps_monitor_info_t) : aps_monitor_info_t :=
  mk_aps (current_level h) (u8 v) (aps_status h) (aps_min_level h) (aps_max_level h) (aps_default_level h) (role h) (duration h) (last_level h) (need_aps h) (need_aps_fine h) (aps_fine_flag h) (audiopll_mode h) (lea_restarting h) (aps_count h) (aps_reduce_water_mark h) (aps_increase_water_mark h) (aps_water_adjust_thres h) (lat h) (aps_fine_adjust_time h) (aps_water_adjust_last h) (audio_track h) (tws_observer h).
Definition set_aps_status (v : aps_status_e) (h : aps_monitor_info_t) : aps_monitor_info_t :=
  mk_aps (current_level h) (dest_level h) v (aps_min_level h) (aps_max_level h) (aps_default_level h) (role h) (duration h) (last_level h) (need_aps h) (need_aps_fine h) (aps_fine_flag h) (audiopll_mode h) (lea_restarting h) (aps_count h) (aps_reduce_water_mark h) (aps_increase_water_mark h) (aps_water_adjust_thres h) (lat h) (aps_fine_adjust_time h) (aps_water_adjust_last h) (audio_track h) (tws_observer h).
Definition set_aps_min_level v (h : aps_monitor_info_t) : aps_monitor_info_t :=
  mk_aps (current_level h) (dest_level h) (aps_status h) (u8 v) (aps_max_level h) (aps_default_level h) (role h) (duration h) (last_level h) (need_aps h) (need_aps_fine h) (aps_fine_flag h) (audiopll_mode h) (lea_restarting h) (aps_count h) (aps_reduce_water_mark h) (aps_increase_water_mark h) (aps_water_adjust_thres h) (lat h) (aps_fine_adjust_time h) (aps_water_adjust_last h) (audio_track h) (tws_observer h).
Definition set_aps_max_level v (h : aps_monitor_info_t) : aps_monitor_info_t :=
  mk_aps (current_level h) (dest_level h) (aps_status h) (aps_min_level h) (u8 v) (aps_default_level h) (role h) (duration h) (last_level h) (need_aps h) (need_aps_fine h) (aps_fine_flag h) (audiopll_mode h) (lea_restarting h) (aps_count h) (aps_reduce_water_mark h) (aps_increase_water_mark h) (aps_water_adjust_thres h) (lat h) (aps_fine_adjust_time h) (aps_water_adjust_last h) (audio_track h) (tws_observer h).
Definition set_aps_default_level v (h : aps_monitor_info_t) : aps_monitor_info_t :=
  mk_aps (current_level h) (dest_level h) (aps_status h) (aps_min_level h) (aps_max_level h) (u8 v) (role h) (duration h) (last_level h) (need_aps h) (need_aps_fine h) (aps_fine_flag h) (audiopll_mode h) (lea_restarting h) (aps_count h) (aps_reduce_water_mark h) (aps_increase_water_mark h) (aps_water_adjust_thres h) (lat h) (aps_fine_adjust_time h) (aps_water_adjust_last h) (audio_track h) (tws_observer h).
Definition set_role v (h : aps_monitor_info_t) : aps_monitor_info_t :=
  mk_aps (current_level h) (dest_level h) (aps_status h) (aps_min_level h) (aps_max_level h) (aps_default_level h) (u8 v) (duration h) (last_level h) (need_aps h) (need_aps_fine h) (aps_fine_flag h) (audiopll_mode h) (lea_restarting h) (aps_count h) (aps_reduce_water_mark h) (aps_increase_water_mark h) (aps_water_adjust_thres h) (lat h) (aps_fine_adjust_time h) (aps_water_adjust_last h) (audio_track h) (tws_observer h).
Definition set_duration v (h : aps_monitor_info_t) : aps_monitor_info_t :=
  mk_aps (current_level h) (dest_level h) (aps_status h) (aps_min_level h) (aps_max_level h) (aps_default_level h) (role h) (u8 v) (last_level h) (need_aps h) (need_aps_fine h) (aps_fine_flag h) (audiopll_mode h) (lea_restarting h) (aps_count h) (aps_reduce_water_mark h) (aps_increase_water_mark h) (aps_water_adjust_thres h) (lat h) (aps_fine_adjust_time h) (aps_water_adjust_last h) (audio_track h) (tws_observer h).
Definition set_last_level v (h : aps_monitor_info_t) : aps_monitor_info_t :=
  mk_aps (current_level h) (dest_level h) (aps_status h) (aps_min_level h) (aps_max_level h) (aps_default_level h) (role h) (duration h) (u8 v) (need_aps h) (need_aps_fine h) (aps_fine_flag h) (audiopll_mode h) (lea_restarting h) (aps_count h) (aps_reduce_water_mark h) (aps_increase_water_mark h) (aps_water_adjust_thres h) (lat h) (aps_fine_adjust_time h) (aps_water_adjust_last h) (audio_track h) (tws_observer h).
Definition set_need_aps (v : bool) (h : aps_monitor_info_t) : aps_monitor_info_t :=
  mk_aps (current_level h) (dest_level h) (aps_status h) (aps_min_level h) (aps_max_level h) (aps_default_level h) (role h) (duration h) (last_level h) v (need_aps_fine h) (aps_fine_flag h) (audiopll_mode h) (lea_restarting h) (aps_count h) (aps_reduce_water_mark h) (aps_increase_water_mark h) (aps_water_adjust_thres h) (lat h) (aps_fine_adjust_time h) (aps_water_adjust_last h) (audio_track h) (tws_observer h).
Definition set_need_aps_fine (v : bool) (h : aps_monitor_info_t) : aps_monitor_info_t :=
  mk_aps (current_level h) (dest_level h) (aps_status h) (aps_min_level h) (aps_max_level h) (aps_default_level h) (role h) (duration h) (last_level h) (need_aps h) v (aps_fine_flag h) (audiopll_mode h) (lea_restarting h) (aps_count h) (aps_reduce_water_mark h) (aps_increase_water_mark h) (aps_water_adjust_thres h) (lat h) (aps_fine_adjust_time h) (aps_water_adjust_last h) (audio_track h) (tws_observer h).
Definition set_aps_fine_flag (v : bool) (h : aps_monitor_info_t) : aps_monitor_info_t :=
  mk_aps (current_level h) (dest_level h) (aps_status h) (aps_min_level h) (aps_max_level h) (aps_default_level h) (role h) (duration h) (last_level h) (need_aps h) (need_aps_fine h) v (audiopll_mode h) (lea_restarting h) (aps_count h) (aps_reduce_water_mark h) (aps_increase_water_mark h) (aps_water_adjust_thres h) (lat h) (aps_fine_adjust_time h) (aps_water_adjust_last h) (audio_track h) (tws_observer h).
Definition set_audiopll_mode (v : Z) (h : aps_monitor_info_t) : aps_monitor_info_t :=
  mk_aps (current_level h) (dest_level h) (aps_status h) (aps_min_level h) (aps_max_level h) (aps_default_level h) (role h) (duration h) (last_level h) (need_aps h) (need_aps_fine h) (aps_fine_flag h) v (lea_restarting h) (aps_count h) (aps_reduce_water_mark h) (aps_increase_water_mark h) (aps_water_adjust_thres h) (lat h) (aps_fine_adjust_time h) (aps_water_adjust_last h) (audio_track h) (tws_observer h).
Definition set_lea_restarting (v : bool) (h : aps_monitor_info_t) : aps_monitor_info_t :=
  mk_aps (current_level h) (dest_level h) (aps_status h) (aps_min_level h) (aps_max_level h) (aps_default_level h) (role h) (duration h) (last_level h) (need_aps h) (need_aps_fine h) (aps_fine_flag h) (audiopll_mode h) v (aps_count h) (aps_reduce_water_mark h) (aps_increase_water_mark h) (aps_water_adjust_thres h) (lat h) (aps_fine_adjust_time h) (aps_water_adjust_last h) (audio_track h) (tws_observer h).
Definition set_aps_count v (h : aps_monitor_info_t) : aps_monitor_info_t :=
  mk_aps (current_level h) (dest_level h) (aps_status h) (aps_min_level h) (aps_max_level h) (aps_default_level h) (role h) (duration h) (last_level h) (need_aps h) (need_aps_fine h) (aps_fine_flag h) (audiopll_mode h) (lea_restarting h) (u16 v) (aps_reduce_water_mark h) (aps_increase_water_mark h) (aps_water_adjust_thres h) (lat h) (aps_fine_adjust_time h) (aps_water_adjust_last h) (audio_track h) (tws_observer h).
Definition set_aps_reduce_water_mark v (h : aps_monitor_info_t) : aps_monitor_info_t :=
  mk_aps (current_level h) (dest_level h) (aps_status h) (aps_min_level h) (aps_max_level h) (aps_default_level h) (role h) (duration h) (last_level h) (need_aps h) (need_aps_fine h) (aps_fine_flag h) (audiopll_mode h) (lea_restarting h) (aps_count h) (u32 v) (aps_increase_water_mark h) (aps_water_adjust_thres h) (lat h) (aps_fine_adjust_time h) (aps_water_adjust_last h) (audio_track h) (tws_observer h).
Definition set_aps_increase_water_mark v (h : aps_monitor_info_t) : aps_monitor_info_t :=
  mk_aps (current_level h) (dest_level h) (aps_status h) (aps_min_level h) (aps_max_level h) (aps_default_level h) (role h) (duration h) (last_level h) (need_aps h) (need_aps_fine h) (aps_fine_flag h) (audiopll_mode h) (lea_restarting h) (aps_count h) (aps_reduce_water_mark h) (u32 v) (aps_water_adjust_thres h) (lat h) (aps_fine_adjust_time h) (aps_water_adjust_last h) (audio_track h) (tws_observer h).
Definition set_aps_water_adjust_thres v (h : aps_monitor_info_t) : aps_monitor_info_t :=
  mk_aps (current_level h) (dest_level h) (aps_status h) (aps_min_level h) (aps_max_level h) (aps_default_level h) (role h) (duration h) (last_level h) (need_aps h) (need_aps_fine h) (aps_fine_flag h) (audiopll_mode h) (lea_restarting h) (aps_count h) (aps_reduce_water_mark h) (aps_increase_water_mark h) (u32 v) (lat h) (aps_fine_adjust_time h) (aps_water_adjust_last h) (audio_track h) (tws_observer h).
Definition set_lat (v : latency_info) (h : aps_monitor_info_t) : aps_monitor_info_t :=
  mk_aps (current_level h) (dest_level h) (aps_status h) (aps_min_level h) (aps_max_level h) (aps_default_level h) (role h) (duration h) (last_level h) (need_aps h) (need_aps_fine h) (aps_fine_flag h) (audiopll_mode h) (lea_restarting h) (aps_count h) (aps_reduce_water_mark h) (aps_increase_water_mark h) (aps_water_adjust_thres h) v (aps_fine_adjust_time h) (aps_water_adjust_last h) (audio_track h) (tws_observer h).
Definition set_aps_fine_adjust_time v (h : aps_monitor_info_t) : aps_monitor_info_t :=
  mk_aps (current_level h) (dest_level h) (aps_status h) (aps_min_level h) (aps_max_level h) (aps_default_level h) (role h) (duration h) (last_level h) (need_aps h) (need_aps_fine h) (aps_fine_flag h) (audiopll_mode h) (lea_restarting h) (aps_count h) (aps_reduce_water_mark h) (aps_increase_water_mark h) (aps_water_adjust_thres h) (lat h) (u32 v) (aps_water_adjust_last h) (audio_track h) (tws_observer h).
Definition set_aps_water_adjust_last v (h : aps_monitor_info_t) : aps_monitor_info_t :=
  mk_aps (current_level h) (dest_level h) (aps_status h) (aps_min_level h) (aps_max_level h) (aps_default_level h) (role h) (duration h) (last_level h) (need_aps h) (need_aps_fine h) (aps_fine_flag h) (audiopll_mode h) (lea_restarting h) (aps_count h) (aps_reduce_water_mark h) (aps_increase_water_mark h) (aps_water_adjust_thres h) (lat h) (aps_fine_adjust_time h) (u32 v) (audio_track h) (tws_observer h).
Definition set_audio_track (v : option track) (h : aps_monitor_info_t) : aps_monitor_info_t :=
  mk_aps (current_level h) (dest_level h) (aps_status h) (aps_min_level h) (aps_max_level h) (aps_default_level h) (role h) (duration h) (last_level h) (need_aps h) (need_aps_fine h) (aps_fine_flag h) (audiopll_mode h) (lea_restarting h) (aps_count h) (aps_reduce_water_mark h) (aps_increase_water_mark h) (aps_water_adjust_thres h) (lat h) (aps_fine_adjust_time h) (aps_water_adjust_last h) v (tws_observer h).
Definition set_tws_observer (v : bool) (h : aps_monitor_info_t) : aps_monitor_info_t :=
  mk_aps (current_level h) (dest_level h) (aps_status h) (aps_min_level h) (aps_max_level h) (aps_default_level h) (role h) (duration h) (last_level h) (need_aps h) (need_aps_fine h) (aps_fine_flag h) (audiopll_mode h) (lea_restarting h) (aps_count h) (aps_reduce_water_mark h) (aps_increase_water_mark h) (aps_water_adjust_thres h) (lat h) (aps_fine_adjust_time h) (aps_water_adjust_last h) (audio_track h) v.

(** audio_aps_snoop_t, without the table of functions and the observer of the
    library, which do not change between init and deinit. *)
Record audio_aps_snoop_t : Type := mk_snoop {
  adjust_time : Z;  (* uint32_t: the last change of the level *)
  last_check_time : Z;  (* uint32_t *)
  debug_time : Z;  (* uint32_t *)
  max_latency : Z;  (* int32_t *)
  start_play_cyc : Z;  (* uint32_t *)
  first_pkt_seq : Z;  (* uint16_t *)
  snoop_level : Z;  (* last_level:8 *)
  restarting : bool;
  sample_aligning : bool;
  simple_tws : bool;
  tws_start_decode : bool;
  tws_start_pcm_streaming : bool;
  check_count : Z;  (* int8_t *)
  align_timer : option Z  (* when it is due, or not running *)
}.

Definition set_adjust_time v (p : audio_aps_snoop_t) : audio_aps_snoop_t :=
  mk_snoop (u32 v) (last_check_time p) (debug_time p) (max_latency p) (start_play_cyc p) (first_pkt_seq p) (snoop_level p) (restarting p) (sample_aligning p) (simple_tws p) (tws_start_decode p) (tws_start_pcm_streaming p) (check_count p) (align_timer p).
Definition set_last_check_time v (p : audio_aps_snoop_t) : audio_aps_snoop_t :=
  mk_snoop (adjust_time p) (u32 v) (debug_time p) (max_latency p) (start_play_cyc p) (first_pkt_seq p) (snoop_level p) (restarting p) (sample_aligning p) (simple_tws p) (tws_start_decode p) (tws_start_pcm_streaming p) (check_count p) (align_timer p).
Definition set_debug_time v (p : audio_aps_snoop_t) : audio_aps_snoop_t :=
  mk_snoop (adjust_time p) (last_check_time p) (u32 v) (max_latency p) (start_play_cyc p) (first_pkt_seq p) (snoop_level p) (restarting p) (sample_aligning p) (simple_tws p) (tws_start_decode p) (tws_start_pcm_streaming p) (check_count p) (align_timer p).
Definition set_max_latency v (p : audio_aps_snoop_t) : audio_aps_snoop_t :=
  mk_snoop (adjust_time p) (last_check_time p) (debug_time p) (s32 v) (start_play_cyc p) (first_pkt_seq p) (snoop_level p) (restarting p) (sample_aligning p) (simple_tws p) (tws_start_decode p) (tws_start_pcm_streaming p) (check_count p) (align_timer p).
Definition set_start_play_cyc v (p : audio_aps_snoop_t) : audio_aps_snoop_t :=
  mk_snoop (adjust_time p) (last_check_time p) (debug_time p) (max_latency p) (u32 v) (first_pkt_seq p) (snoop_level p) (restarting p) (sample_aligning p) (simple_tws p) (tws_start_decode p) (tws_start_pcm_streaming p) (check_count p) (align_timer p).
Definition set_first_pkt_seq v (p : audio_aps_snoop_t) : audio_aps_snoop_t :=
  mk_snoop (adjust_time p) (last_check_time p) (debug_time p) (max_latency p) (start_play_cyc p) (u16 v) (snoop_level p) (restarting p) (sample_aligning p) (simple_tws p) (tws_start_decode p) (tws_start_pcm_streaming p) (check_count p) (align_timer p).
Definition set_snoop_level v (p : audio_aps_snoop_t) : audio_aps_snoop_t :=
  mk_snoop (adjust_time p) (last_check_time p) (debug_time p) (max_latency p) (start_play_cyc p) (first_pkt_seq p) (u8 v) (restarting p) (sample_aligning p) (simple_tws p) (tws_start_decode p) (tws_start_pcm_streaming p) (check_count p) (align_timer p).
Definition set_restarting (v : bool) (p : audio_aps_snoop_t) : audio_aps_snoop_t :=
  mk_snoop (adjust_time p) (last_check_time p) (debug_time p) (max_latency p) (start_play_cyc p) (first_pkt_seq p) (snoop_level p) v (sample_aligning p) (simple_tws p) (tws_start_decode p) (tws_start_pcm_streaming p) (check_count p) (align_timer p).
Definition set_sample_aligning (v : bool) (p : audio_aps_snoop_t) : audio_aps_snoop_t :=
  mk_snoop (adjust_time p) (last_check_time p) (debug_time p) (max_latency p) (start_play_cyc p) (first_pkt_seq p) (snoop_level p) (restarting p) v (simple_tws p) (tws_start_decode p) (tws_start_pcm_streaming p) (check_count p) (align_timer p).
Definition set_simple_tws (v : bool) (p : audio_aps_snoop_t) : audio_aps_snoop_t :=
  mk_snoop (adjust_time p) (last_check_time p) (debug_time p) (max_latency p) (start_play_cyc p) (first_pkt_seq p) (snoop_level p) (restarting p) (sample_aligning p) v (tws_start_decode p) (tws_start_pcm_streaming p) (check_count p) (align_timer p).
Definition set_tws_start_decode (v : bool) (p : audio_aps_snoop_t) : audio_aps_snoop_t :=
  mk_snoop (adjust_time p) (last_check_time p) (debug_time p) (max_latency p) (start_play_cyc p) (first_pkt_seq p) (snoop_level p) (restarting p) (sample_aligning p) (simple_tws p) v (tws_start_pcm_streaming p) (check_count p) (align_timer p).
Definition set_tws_start_pcm_streaming (v : bool) (p : audio_aps_snoop_t) : audio_aps_snoop_t :=
  mk_snoop (adjust_time p) (last_check_time p) (debug_time p) (max_latency p) (start_play_cyc p) (first_pkt_seq p) (snoop_level p) (restarting p) (sample_aligning p) (simple_tws p) (tws_start_decode p) v (check_count p) (align_timer p).
Definition set_check_count v (p : audio_aps_snoop_t) : audio_aps_snoop_t :=
  mk_snoop (adjust_time p) (last_check_time p) (debug_time p) (max_latency p) (start_play_cyc p) (first_pkt_seq p) (snoop_level p) (restarting p) (sample_aligning p) (simple_tws p) (tws_start_decode p) (tws_start_pcm_streaming p) (s8 v) (align_timer p).
Definition set_align_timer (v : option Z) (p : audio_aps_snoop_t) : audio_aps_snoop_t :=
  mk_snoop (adjust_time p) (last_check_time p) (debug_time p) (max_latency p) (start_play_cyc p) (first_pkt_seq p) (snoop_level p) (restarting p) (sample_aligning p) (simple_tws p) (tws_start_decode p) (tws_start_pcm_streaming p) (check_count p) v.

(** What leaves the two files. *)
Inductive output : Type :=
| SetAps (channel level mode : Z)          (* hal_aout_channel_set_aps *)
| EnableSampleCnt (channel : Z)            (* hal_aout_channel_enable_sample_cnt, reset_sample_cnt *)
| TrackStart                               (* audio_track_start *)
| ObserverInit (simple : bool)             (* simple_tws_observer_init, bt_tws_observer_init *)
| ObserverDeinit                           (* bt_tws_observer_deinit *)
| BufferChange (pcm_time : Z)              (* bt_tws_on_buffer_change *)
| ChangeRequest (level : Z)                (* bt_tws_aps_change_request *)
| TriggerRestart (reason : Z)              (* bt_tws_trigger_restart *)
| StreamInfo (format channels first_seq rate cache_time pkt_time play_time : Z)  (* bt_tws_set_stream_info *)
| PktInfo (seq len frames samples : Z) (sdm_cnt : option Z)  (* bt_tws_set_pkt_info *)
| LcyPktInfo (seq len frames cyc : Z)      (* audiolcy_cmd_entry(LCYCMD_SET_PKTINFO, ..) *)
| RestartPlay.                             (* bt_manager_event_notify(BT_REQ_RESTART_PLAY, NULL, 0) *)

(** What a call reads from other components. *)
Record env : Type := mk_env {
  now : Z;               (* os_uptime_get_32, k_uptime_get_32 *)
  cyc : Z;               (* k_cycle_get_32 *)
  tws_role : Z;          (* bt_tws_get_role *)
  fill_samples : Z;      (* audio_track_get_fill_samples *)
  a2dp_lantency : Z;     (* audio_policy_get_a2dp_lantency_time *)
  low_latency : bool;    (* audiolcy_is_low_latency_mode *)
  threshold : Z;         (* audiolcy_get_latency_threshold *)
  threshold_min : Z      (* audiolcy_get_latency_threshold_min *)
}.

Record world : Type := mk_world {
  handle : aps_monitor_info_t;    (* aps_monitor *)
  snoop : audio_aps_snoop_t;      (* audio_aps_snoop *)
  s_time : Z;                     (* static in audio_aps_monitor *)
  trace : list output
}.

Definition upd (f : aps_monitor_info_t -> aps_monitor_info_t) (w : world) : world :=
  mk_world (f (handle w)) (snoop w) (s_time w) (trace w).
Definition upd_snoop (f : audio_aps_snoop_t -> audio_aps_snoop_t) (w : world) : world :=
  mk_world (handle w) (f (snoop w)) (s_time w) (trace w).
Definition upd_lat (f : latency_info -> latency_info) (h : aps_monitor_info_t) : aps_monitor_info_t :=
  set_lat (f (lat h)) h.
Definition set_s_time (t : Z) (w : world) : world := mk_world (handle w) (snoop w) (u32 t) (trace w).
Definition emit (o : output) (w : world) : world := mk_world (handle w) (snoop w) (s_time w) (o :: trace w).

(** handle->audio_track->.. *)
Definition the_track (w : world) : option track := audio_track (handle w).
(** aps_snoop->.. with aps_snoop = handle->tws_observer. *)
Definition the_snoop (w : world) : option audio_aps_snoop_t := if tws_observer (handle w) then Some (snoop w) else None.

Definition has (x mask : Z) : bool := negb (Z.land x mask =? 0).

(** ** Setting the level (audio_aps.c) *)

Definition aps_mode (h : aps_monitor_info_t) : Z :=
  if audiopll_mode h =? 2 then APS_LEVEL_AUDIOPLL_F else APS_LEVEL_AUDIOPLL.

Definition audio_aps_monitor_set_aps (channel status level : Z) (w : world) : world :=
  let h := handle w in
  let h := if has status APS_OPR_SET then set_dest_level level h else h in
  let h := if has status APS_OPR_FAST_SET then set_current_level level (set_dest_level level h) else h in
  let set := has status APS_OPR_FAST_SET in
  let '(h, set) := if dest_level h <? current_level h then (set_current_level (current_level h - 1) h, true) else (h, set) in
  let '(h, set) := if current_level h <? dest_level h then (set_current_level (current_level h + 1) h, true) else (h, set) in
  let w := upd (fun _ => h) w in
  if set then emit (SetAps channel (current_level h) (aps_mode h)) w else w.

(** ** Two earphones (audio_tws_aps_snoop.c) *)

(** g_tws_step_44 and g_tws_step_48: (slow_step_time, fast_step_time). *)
Definition g_tws_step_44 : list (Z * Z) :=
  [(841, 841); (841, 1606); (1606, 545); (545, 2156); (2156, 1913); (1913, 2588); (2588, 1134); (1134, 1134)] ++ replicate 8 (0, 0).
Definition g_tws_step_48 : list (Z * Z) :=
  [(819, 819); (819, 2539); (2539, 2448); (2448, 2364); (2364, 2285); (2285, 3310); (3310, 778); (778, 778)] ++ replicate 8 (0, 0).

(** uint16_t sample_rate = output_sample_rate_hz / 1000. *)
Definition rate_khz (t : track) : Z := u16 (output_sample_rate_hz t / 1000).

Definition _tws_start_aligning (e : env) (level adjust_time : Z) (w : world) : option world :=
  let w := upd (set_current_level level) w in
  _ ← the_snoop w;
  let w := upd_snoop (set_sample_aligning true) w in
  t ← the_track w;
  let w := emit (SetAps (audio_handle t) (current_level (handle w)) APS_LEVEL_AUDIOPLL) w in
  Some (upd_snoop (set_align_timer (Some (now e + adjust_time))) w).

Definition _tws_stop_aligning (w : world) : option world :=
  p ← the_snoop w;
  if negb (sample_aligning p) then Some w
  else
    let w := upd (fun h => set_current_level (dest_level h) h) w in
    let w := upd_snoop (set_sample_aligning false) w in
    t ← the_track w;
    let w := emit (SetAps (audio_handle t) (current_level (handle w)) APS_LEVEL_AUDIOPLL) w in
    Some (upd_snoop (set_align_timer None) w).

(** align_timer expires: a timer of one shot. *)
Definition align_timer_expires (w : world) : option world :=
  _tws_stop_aligning (upd_snoop (set_align_timer None) w).

(** The two loops of _get_sdm_cnt_delta_time. *)
Fixpoint sdm_down (fuel : nat) (cnt : Z) : Z :=
  match fuel with
  | O => cnt
  | S n => if SDM_CNT_MASK / 2 <? cnt then sdm_down n (cnt - (SDM_CNT_MASK + 1)) else cnt
  end.
Fixpoint sdm_up (fuel : nat) (cnt : Z) : Z :=
  match fuel with
  | O => cnt
  | S n => if cnt <? - (SDM_CNT_MASK / 2) then sdm_up n (cnt + (SDM_CNT_MASK + 1)) else cnt
  end.

(** A 32-bit count is at most 8 periods of 2^28 away from its place. *)
Definition _get_sdm_cnt_delta_time (sdm_cnt : Z) (w : world) : Z :=
  match the_track w with
  | None => 0
  | Some t => s32 (Z.quot (sdm_up 9 (sdm_down 9 sdm_cnt) * 1000000) (sdm_sample_rate t))
  end.

Definition _set_start_pkt_seq (start_decode first_seq : Z) (w : world) : option world :=
  match the_track w with
  | None => Some w
  | Some _ =>
      _ ← the_snoop w;
      Some (upd_snoop (fun p => set_tws_start_decode (negb (start_decode =? 0)) (set_first_pkt_seq first_seq p)) w)
  end.

(** [cycles] is k_us_to_cyc_floor32(playtime_us). *)
Definition _start_pcm_streaming (e : env) (cycles : Z) (w : world) : option world :=
  match the_track w with
  | None => Some w
  | Some _ =>
      let w := emit TrackStart w in
      _ ← the_snoop w;
      Some (upd_snoop (fun p => set_start_play_cyc (cyc e + cycles) (set_tws_start_pcm_streaming true p)) w)
  end.

Definition _set_base_aps_level (level : Z) (w : world) : option world :=
  match the_track w with
  | None => Some w
  | Some t =>
      if dest_level (handle w) =? level then Some w
      else
        let level := if level =? 0xFF then aps_default_level (handle w) else level in
        let w := upd (fun h => set_dest_level level (set_current_level level h)) w in
        w ← _tws_stop_aligning w;
        Some (emit (SetAps (audio_handle t) (current_level (handle w)) APS_LEVEL_AUDIOPLL) w)
  end.

Definition _notify_time_diff (e : env) (diff_time : Z) (w : world) : option world :=
  match the_track w with
  | None => Some w
  | Some t =>
      if 3000 <? Z.abs diff_time then
        _ ← the_snoop w;
        Some (emit (TriggerRestart 0) (upd_snoop (set_restarting true) w))
      else
        let tws_step := if rate_khz t mod 11 =? 0 then g_tws_step_44 else g_tws_step_48 in
        w ← _tws_stop_aligning w;
        if Z.abs diff_time <? 3 then Some w
        else
          let d := dest_level (handle w) in
          step ← tws_step !! Z.to_nat d;
          if diff_time <? 0 then _tws_start_aligning e (u8 (d + 1)) (snd step * Z.abs diff_time / 1000) w
          else _tws_start_aligning e (u8 (d - 1)) (fst step * Z.abs diff_time / 1000) w
  end.

(** The reason is an uint8_t of the observer's interface. *)
Definition audio_aps_tws_notify_decode_err (err_cnt : Z) (w : world) : world :=
  if negb (tws_observer (handle w)) then w
  else emit (TriggerRestart (u8 err_cnt)) (upd_snoop (set_restarting true) w).

(** One decision of _monitor_aout_rate, inside of its do { .. } while (0). *)
Definition aout_rate_step (interval cc cur min_level max_level pcm_time max_threshold : Z) (trim : bool) : Z :=
  let max_check_count := 2 in
  if interval <? 220 then cur
  else if max_check_count <=? cc then u8 (cur + 1)
  else if cc <=? - max_check_count then (if 0 <? cur then cur - 1 else cur)
  else
    let adj := if max_threshold <? pcm_time then u8 (cur + 1)
               else if pcm_time <? max_threshold then (if 0 <? cur then cur - 1 else cur)
               else cur in
    if interval <? 600 then
      if trim then cur
      else if ((cur =? max_level) && (adj <? max_level)) || ((cur =? min_level) && (min_level <? adj)) then adj
      else cur
    else adj.

(** What follows it: the level clamped, and a return to the default level that
    does not stop half way; 0xFF for no change. *)
Definition aout_rate_clamp (cur dflt min_level max_level adj : Z) : Z :=
  let adj := if max_level <? adj then max_level else adj in
  let adj := if adj <? min_level then min_level else adj in
  if adj =? cur then 0xFF
  else
    let adj := if (cur <? dflt) && (cur <? adj) then dflt else adj in
    if (dflt <? cur) && (adj <? cur) then dflt else adj.

Definition _monitor_aout_rate (e : env) (pcm_time : Z) (is_tws : bool) (w : world) : option (world * Z) :=
  p ← the_snoop w;
  _ ← the_track w;
  let h := handle w in
  let max_threshold := s32 (aps_increase_water_mark h) in
  let dflt := aps_default_level h in
  let cur := current_level h in
  let min_level := if is_tws then APS_LEVEL_1 + 1 else APS_LEVEL_1 in
  let max_level := if is_tws then APS_LEVEL_8 - 1 else APS_LEVEL_8 in
  let trim := (Z.abs (s32 (pcm_time - max_threshold)) <=? 1000) && (dflt - 1 <=? cur) && (cur <=? dflt + 1) in
  let min_level := if trim then u8 (dflt - 1) else min_level in
  let max_level := if trim then u8 (dflt + 1) else max_level in
  let cc := check_count p in
  let cc := if (max_threshold <? pcm_time) && (cc <? 2) then cc + 1
            else if (pcm_time <? max_threshold) && (- (2) <? cc) then cc - 1 else cc in
  let w := upd_snoop (set_check_count cc) w in
  let interval := u32 (now e - adjust_time p) in
  let adj := aout_rate_step interval cc cur min_level max_level pcm_time max_threshold trim in
  let adj := aout_rate_clamp cur dflt min_level max_level adj in
  let w := if (negb (adj =? 0xFF) && negb (adj =? snoop_level p)) || (3000 <=? u32 (now e - debug_time p)) then
             let w := if adj =? 0xFF then w else upd_snoop (set_snoop_level adj) w in
             upd_snoop (set_debug_time (now e)) w
           else w in
  let w := if adj =? 0xFF then w else upd_snoop (fun p => set_check_count 0 (set_adjust_time (now e) p)) w in
  Some (w, adj).

Definition audio_aps_monitor_master (e : env) (pcm_time : Z) (w : world) : option world :=
  if negb (tws_observer (handle w)) then Some w
  else
    let w := emit (BufferChange pcm_time) w in
    t ← the_track w;
    if negb (stared t) then Some w
    else
      let w := if max_latency (snoop w) <? pcm_time then upd_snoop (set_max_latency pcm_time) w else w in
      w ← (if APS_ADJUST_PKT_INTERVAL <=? u32 (now e - last_check_time (snoop w)) then
             '(w, ret) ← (if tws_role e =? BTSRV_TWS_NONE then _monitor_aout_rate e (max_latency (snoop w)) false w
                          else if tws_role e =? BTSRV_TWS_MASTER then _monitor_aout_rate e (max_latency (snoop w)) true w
                          else if 3000 <=? u32 (now e - adjust_time (snoop w)) then Some (upd_snoop (set_adjust_time (now e)) w, 0xFF)
                          else Some (w, 0xFF));
             let w := if ret =? 0xFF then w else emit (ChangeRequest ret) w in
             Some (upd_snoop (fun p => set_max_latency 0 (set_last_check_time (now e) p)) w)
           else Some w);
      if negb (restarting (snoop w)) && negb (simple_tws (snoop w)) && negb (fill_samples e =? 0) then
        Some (emit (TriggerRestart 0) (upd_snoop (set_restarting true) w))
      else Some w.

(** [rate] is get_sample_rate_hz(sample_rate), an uint16_t of the interface. *)
Definition audio_tws_set_stream_info (e : env) (format first_seq rate pkt_time_us play_time : Z) (w : world) : option world :=
  if negb (tws_observer (handle w)) then Some w
  else
    let w := upd_snoop (fun p =>
      set_snoop_level 0xFF (set_check_count 0 (set_debug_time (now e) (set_last_check_time (now e) (set_adjust_time (now e)
        (set_first_pkt_seq first_seq (set_tws_start_decode false p))))))) w in
    t ← the_track w;
    Some (emit (StreamInfo format (channels t) first_seq (u16 rate) (aps_increase_water_mark (handle w)) pkt_time_us play_time) w).

(** The start of decoding and of playing, the first packet, and the time to the
    start; [us] is k_cyc_to_us_floor32.  Without an observer it returns -1. *)
Definition audio_tws_get_playback_first_seq (e : env) (us : Z -> Z) (w : world) : option (bool * bool * Z * Z) :=
  if negb (tws_observer (handle w)) then None
  else
    let p := snoop w in
    let play_time := us (u32 (start_play_cyc p - cyc e)) in
    Some (tws_start_decode p, tws_start_pcm_streaming p, first_pkt_seq p, u16 (if 50000 <? play_time then 0 else play_time)).

Definition audio_tws_set_pkt_info (e : env) (pkt_seq pkt_len frame_cnt pcm_len : Z) (w : world) : option world :=
  if negb (tws_observer (handle w)) then Some w
  else if pcm_len =? 0xFFFF then
    let w := emit (LcyPktInfo pkt_seq pkt_len frame_cnt (cyc e)) w in
    Some (emit (PktInfo pkt_seq (pkt_len mod 2 ^ 12) (frame_cnt mod 2 ^ 4) pcm_len None) w)
  else
    t ← the_track w;
    let sdm_cnt := samples_filled t in
    let w := upd (set_audio_track (Some (set_samples_filled (samples_filled t + pcm_len * sdm_osr t) t))) w in
    Some (emit (PktInfo pkt_seq (pkt_len mod 2 ^ 12) (frame_cnt mod 2 ^ 4) pcm_len (Some sdm_cnt)) w).

Definition zero_snoop : audio_aps_snoop_t :=
  mk_snoop 0 0 0 0 0 0 0 false false false false false 0 None.

(** memset of the structure ends what is known of a timer that is running in it. *)
Definition audio_aps_monitor_tws_init (w : world) : option world :=
  match align_timer (snoop w) with
  | Some _ => None
  | None =>
      let w := upd_snoop (fun _ => zero_snoop) w in
      let type := match the_track w with Some t => stream_type t | None => AUDIO_STREAM_DEFAULT end in
      let simple := (type =? AUDIO_STREAM_TTS) || (type =? AUDIO_STREAM_TIP) in
      let w := emit (ObserverInit simple) w in
      let w := upd_snoop (set_simple_tws simple) w in
      let w := upd (fun h => set_duration 1 (set_role BTSRV_TWS_MASTER (set_tws_observer true h))) w in
      t ← the_track w;
      let w := emit (EnableSampleCnt (audio_handle t)) w in
      Some (audio_aps_monitor_set_aps (audio_handle t) APS_OPR_FAST_SET (aps_default_level (handle w)) w)
  end.

(** audio_aps_monitor_tws_deinit in two parts: the timer is stopped after the
    observer is gone. *)
Definition tws_deinit_observer (w : world) : world :=
  upd (set_tws_observer false) (emit ObserverDeinit w).
Definition tws_deinit_timer (w : world) : world := upd_snoop (set_align_timer None) w.

Definition audio_aps_monitor_tws_deinit (w : world) : world :=
  if tws_observer (handle w) then tws_deinit_timer (tws_deinit_observer w) else w.

(** ** The monitor (audio_aps.c) *)

(** _monitor_aout_rate_fine when it begins: the level is set to the middle. *)
Definition fine_start (t pcm_time : Z) (h : aps_monitor_info_t) : aps_monitor_info_t * Z :=
  let adj := if audiopll_mode h =? 2 then 16 else APS_LEVEL_0PPM in
  (set_aps_water_adjust_last pcm_time (set_aps_fine_adjust_time t (set_last_level adj (set_aps_fine_flag true h))), adj).

(** The level it chooses later. *)
Definition fine_level (t pcm_time max_threshold max_diff zero_ppm : Z) (h : aps_monitor_info_t) : Z :=
  let cur := current_level h in
  let last := last_level h in
  let since := u32 (t - aps_fine_adjust_time h) in
  let high := s32 (max_threshold + max_diff) <? pcm_time in
  let low := pcm_time <? s32 (max_threshold - max_diff) in
  if audiopll_mode h =? 2 then
    if high then
      if last <=? 16 then 18
      else if last <=? 21 then
        if (300 <? since) && (aps_water_adjust_last h <? u32 pcm_time) then u8 (last + 1) else cur
      else cur
    else if low then
      if 16 <=? last then 14
      else if 11 <=? last then
        if (300 <? since) && (u32 pcm_time <? aps_water_adjust_last h) then u8 (last - 1) else cur
      else cur
    else cur
  else if high then APS_LEVEL_5
  else if low then APS_LEVEL_4
  else if Z.abs (s32 (pcm_time - max_threshold)) <=? zero_ppm then APS_LEVEL_0PPM
  else cur.

Definition _monitor_aout_rate_fine (t pcm_time : Z) (h : aps_monitor_info_t) : aps_monitor_info_t * Z :=
  let max_threshold := s32 (aps_increase_water_mark h) in
  let max_diff := s32 (aps_water_adjust_thres h) in
  let zero_ppm := if Z.quot max_diff 3 <? 6 then 6 else Z.quot max_diff 3 in
  let wide := if max_diff <? 18 then 18 else max_diff in
  if negb (aps_fine_flag h) && (Z.abs (s32 (pcm_time - max_threshold)) <=? wide) then fine_start t pcm_time h
  else
    let max_diff := if aps_fine_flag h then max_diff else wide in
    let adj := fine_level t pcm_time max_threshold max_diff zero_ppm h in
    if adj =? last_level h then (h, 0xFF)
    else (set_aps_water_adjust_last pcm_time (set_aps_fine_adjust_time t (set_last_level adj h)), adj).

(** The part of audio_aps_monitor_normal after the fine mode. *)
Definition aps_relay_step (channel stream_length_us aps_max_level aps_min_level aps_level : Z) (w : world) : world :=
  let h := handle w in
  let diff_threshold_us := u32 (aps_increase_water_mark h - aps_reduce_water_mark h) in
  let mid_threshold_us := u32 (aps_increase_water_mark h - diff_threshold_us / 2) in
  let length := u32 stream_length_us in
  let set opr level status w := upd (set_aps_status status) (audio_aps_monitor_set_aps channel opr level w) in
  match aps_status h with
  | APS_STATUS_DEFAULT =>
      if aps_increase_water_mark h <? length then set APS_OPR_FAST_SET aps_max_level APS_STATUS_INC w
      else if length <? aps_reduce_water_mark h then set APS_OPR_FAST_SET aps_min_level APS_STATUS_DEC w
      else audio_aps_monitor_set_aps channel APS_OPR_ADJUST 0 w
  | APS_STATUS_INC =>
      if length <? aps_reduce_water_mark h then set APS_OPR_FAST_SET aps_min_level APS_STATUS_DEC w
      else if length <=? mid_threshold_us then set APS_OPR_SET aps_level APS_STATUS_DEFAULT w
      else audio_aps_monitor_set_aps channel APS_OPR_ADJUST 0 w
  | APS_STATUS_DEC =>
      if aps_increase_water_mark h <? length then set APS_OPR_FAST_SET aps_max_level APS_STATUS_INC w
      else if mid_threshold_us <=? length then set APS_OPR_SET aps_level APS_STATUS_DEFAULT w
      else audio_aps_monitor_set_aps channel APS_OPR_ADJUST 0 w
  end.

Definition audio_aps_monitor_normal (e : env) (stream_length_us aps_max_level aps_min_level aps_level : Z) (w : world) : option world :=
  t ← the_track w;
  if negb (need_aps (handle w)) then Some w
  else if need_aps_fine (handle w) then
    let '(h, ret) := _monitor_aout_rate_fine (now e) stream_length_us (handle w) in
    let w := upd (fun _ => h) w in
    if ret =? 0xFF then Some w
    else
      let w := upd (set_current_level ret) w in
      Some (emit (SetAps (audio_handle t) (current_level (handle w)) (aps_mode (handle w))) w)
  else Some (aps_relay_step (audio_handle t) stream_length_us aps_max_level aps_min_level aps_level w).

Definition audio_aps_get_average (l : Z) (a : average) : average :=
  let sum := s32 (value a * 15 + l + left_over a) in
  mk_average (Z.quot sum 16) (s32 (sum - Z.quot sum 16 * 16)).

(** The macro ABS. *)
Definition ABS (a : Z) : Z := if 0 <? a then a else s32 (- a).

(** The averages of one round of 64 calls; the length that is wanted. *)
Definition low_latency_averages (min_lantency : Z) (l : latency_info) : latency_info * Z :=
  let expect_len := s32 (max_len l - min_len l) in
  let expect_len := if expect_len <? min_lantency then min_lantency else expect_len in
  let l := set_average_expect (audio_aps_get_average expect_len (average_expect l)) l in
  let l := set_average_min (audio_aps_get_average (min_len l) (average_min l)) l in
  let l := set_average_diff (audio_aps_get_average (ABS (s32 (min_len l - value (average_min l)))) (average_diff l)) l in
  let l := set_expect (audio_aps_get_average (ABS (s32 (min_len l - last_expect_len l))) (expect l)) l in
  let l :=
    if last_min_len l =? 0 then l
    else
      let d := ABS (s32 (last_min_len l - min_len l)) in
      if value (average_diff l) <? d then
        set_boundary (audio_aps_get_average d (boundary l)) (set_boundary_count 0 l)
      else
        let l := set_boundary_count (boundary_count l + 1) l in
        if 8 <=? boundary_count l then
          set_boundary (audio_aps_get_average 0 (boundary l)) (set_boundary_count 0 l)
        else l in
  (l, s32 (value (average_expect l) + value (average_diff l) * 2 + value (boundary l) + value (expect l))).

(** .. and the water marks that follow from them. *)
Definition low_latency_marks (min_lantency : Z) (h : aps_monitor_info_t) : aps_monitor_info_t :=
  let '(l, expect_len) := low_latency_averages min_lantency (lat h) in
  let h := set_lat l h in
  let h := set_aps_reduce_water_mark (aps_reduce_water_mark h + s32 (expect_len - min_len l)) h in
  let lowest := u32 (value (average_expect l)) in
  let highest := u32 (value (average_min l) + value (average_expect l)) in
  let h := if aps_reduce_water_mark h <? lowest then set_aps_reduce_water_mark lowest h
           else if highest <? aps_reduce_water_mark h then set_aps_reduce_water_mark highest h
           else h in
  let h := set_aps_increase_water_mark (aps_reduce_water_mark h + 5000) h in
  upd_lat (fun l => set_last_expect_len expect_len (set_last_min_len (min_len l) l)) h.

Definition audio_aps_monitor_normal_low_latency (e : env) (pcm_time : Z) (w : world) : option world :=
  let w := upd (upd_lat (set_len pcm_time)) w in
  let h := handle w in
  w ← audio_aps_monitor_normal e (len (lat h)) (aps_max_level h) (aps_min_level h) (aps_default_level h) w;
  let w := if len (lat (handle w)) <? min_len (lat (handle w)) then upd (upd_lat (fun l => set_min_len (len l) l)) w else w in
  let w := if max_len (lat (handle w)) <? len (lat (handle w)) then upd (upd_lat (fun l => set_max_len (len l) l)) w else w in
  let count := aps_count (handle w) in
  let w := upd (set_aps_count (count + 1)) w in
  if count mod 64 =? 0 then
    let w := if max_len (lat (handle w)) =? 0 then w else upd (low_latency_marks (a2dp_lantency e)) w in
    Some (upd (upd_lat (fun l => set_max_len 0 (set_min_len 20000000 l))) w)
  else Some w.

Definition audio_aps_monitor_slave (w : world) : world := w.

Definition audio_aps_monitor (e : env) (pcm_time : Z) (w : world) : option world :=
  let h := handle w in
  if u32 (now e - s_time w) <? duration h then Some w
  else
    let w := set_s_time (now e) w in
    if negb (a2dp_lantency e =? 0) then audio_aps_monitor_normal_low_latency e pcm_time w
    else if role h =? BTSRV_TWS_NONE then
      audio_aps_monitor_normal e pcm_time (aps_max_level h) (aps_min_level h) (aps_default_level h) w
    else if role h =? BTSRV_TWS_MASTER then audio_aps_monitor_master e pcm_time w
    else if role h =? BTSRV_TWS_SLAVE then Some (audio_aps_monitor_slave w)
    else Some w.

Definition audio_aps_set_latency (latency_us : Z) (w : world) : world := upd (set_aps_increase_water_mark latency_us) w.
Definition audio_aps_get_latency (w : world) : Z := aps_increase_water_mark (handle w).

Definition srhz_table : list Z :=
  [44000; 44024; 44062; 44084; 44095; 44117; 44132; 44196; 47879; 47916; 47965; 47980; 48001; 48023; 48046; 48108].

Definition audio_aps_get_samplerate_hz (is_48khz : bool) (w : world) : Z :=
  let aps_level := if is_48khz then current_level (handle w) + 8 else current_level (handle w) in
  match srhz_table !! Z.to_nat aps_level with
  | Some sr_hz => sr_hz
  | None => if is_48khz then 48000 else 44100
  end.

Definition zero_latency : latency_info :=
  mk_latency 0 0 0 (mk_average 0 0) (mk_average 0 0) (mk_average 0 0) 0 (mk_average 0 0) 0 (mk_average 0 0) 0.
Definition zero_aps : aps_monitor_info_t :=
  mk_aps 0 0 APS_STATUS_DEC 0 0 0 0 0 0 false false false 0 false 0 0 0 0 zero_latency 0 0 None false.

(** if (tws_observer) { audio_aps_monitor_tws_init; audio_track_set_waitto_start } *)
Definition init_tws (observer : bool) (w : world) : option world :=
  if observer then
    w ← audio_aps_monitor_tws_init w;
    t ← the_track w;
    Some (upd (set_audio_track (Some (set_waitto_start true t))) w)
  else Some w.

Definition set_range (lo hi : Z) (h : aps_monitor_info_t) : aps_monitor_info_t := set_aps_max_level hi (set_aps_min_level lo h).

(** The levels of the low latency mode. *)
Definition low_latency_range (h : aps_monitor_info_t) : aps_monitor_info_t :=
  set_duration 6 (set_range APS_LEVEL_3 APS_LEVEL_6 h).

(** audio_aps_monitor_init before its switch. *)
Definition aps_defaults (e : env) (pll_mode : Z) (t : option track) : aps_monitor_info_t :=
  let h := set_audio_track t zero_aps in
  let h := set_aps_status APS_STATUS_DEFAULT h in
  let h := set_aps_default_level APS_LEVEL_5 (set_range APS_LEVEL_1 APS_LEVEL_8 h) in
  let h := set_need_aps true h in
  let h := set_aps_reduce_water_mark (threshold_min e) (set_aps_increase_water_mark (threshold e) h) in
  let h := set_audiopll_mode pll_mode (set_duration AUDIO_APS_ADJUST_INTERVAL h) in
  upd_lat (set_average_expect (mk_average 100000 0)) h.

(** The cases NAV_TYPE and PCM_DSP_TYPE. *)
Definition init_fine (e : env) (thres : Z) (h : aps_monitor_info_t) : aps_monitor_info_t :=
  let h := if audiopll_mode h =? 2 then set_aps_water_adjust_thres thres (set_aps_default_level 16 (set_range 6 26 h))
           else
             let h := set_range APS_LEVEL_2 APS_LEVEL_6 h in
             let h := if low_latency e then set_aps_default_level APS_LEVEL_3 h else h in
             set_aps_water_adjust_thres thres h in
  let h := set_need_aps_fine true (set_duration 6 h) in
  set_aps_water_adjust_last (aps_increase_water_mark h) h.

Definition wait_to_start (w : world) : option world :=
  t ← the_track w;
  Some (upd (set_audio_track (Some (set_waitto_start true t))) w).

Definition init_switch (e : env) (format : Z) (observer : bool) (w : world) : option world :=
  if (format =? SBC_TYPE) || (format =? AAC_TYPE) then
    let w := if negb (a2dp_lantency e =? 0) then upd (fun h => set_aps_reduce_water_mark 0 (set_aps_increase_water_mark UINT32_MAX h)) w
             else if low_latency e then upd low_latency_range w else w in
    init_tws observer w
  else if (format =? MSBC_TYPE) || (format =? CVSD_TYPE) then
    init_tws observer (if low_latency e then upd low_latency_range w else w)
  else if format =? ACT_TYPE then init_tws observer w
  else if format =? PCM_TYPE then
    let w := upd (set_range APS_LEVEL_3 APS_LEVEL_6) w in
    init_tws observer (if low_latency e then upd (set_aps_default_level APS_LEVEL_4) w else w)
  else if format =? NAV_TYPE then
    w ← wait_to_start (upd (init_fine e 18) w);
    Some (upd (set_lea_restarting false) w)
  else if format =? PCM_DSP_TYPE then wait_to_start (upd (init_fine e 200) w)
  else init_tws observer (upd (set_need_aps false) w).

(** [format_and_mode] has the format in bits 0 to 7 and the mode in 16 and 17. *)
Definition audio_aps_monitor_init (e : env) (format_and_mode : Z) (observer : bool) (t : option track) (w : world) : option world :=
  let format := u8 (Z.land format_and_mode 0xff) in
  let pll_mode := u8 (Z.shiftr (Z.land format_and_mode 0x30000) 16) in
  let w := upd (fun _ => aps_defaults e pll_mode t) w in
  w ← init_switch e format observer w;
  Some (upd (fun h =>
    let h := set_current_level (aps_default_level h) h in
    set_dest_level (current_level h) (set_last_level (current_level h) h)) w).

Definition audio_aps_notify_decode_err (err_cnt : Z) (w : world) : world := audio_aps_tws_notify_decode_err err_cnt w.

Definition audio_lea_notify_decode_err (w : world) : world :=
  if lea_restarting (handle w) then w
  else emit RestartPlay (upd (set_lea_restarting true) w).

Definition audio_aps_monitor_deinit (observer : bool) (w : world) : world :=
  if observer then audio_aps_monitor_tws_deinit w else w.
