(* ===== verification/ApsProof.v ===== *)
(** * Theorems of the playback speed

    Without a second earphone the monitor is a relay with hysteresis: full
    speed above the upper mark and least speed below the lower one until the
    middle is reached, and then back to the default level, one level at a time.
    With a second earphone, and as long as the library grants base levels that
    leave a level on each side, the levels stay in range ([event_ok]) and the
    master catches up with a full buffer. *)

From stdpp Require Import base list numbers option relations.
From S2P Require Import Prelude Aps.
Open Scope Z_scope.

(** Evaluation of the fields of a changed state. *)
Ltac acbn := cbn [
  audio_handle stream_type stared waitto_start channels output_sample_rate_hz samples_filled sdm_sample_rate
  sdm_osr value left_over len max_len min_len average_min average_diff average_expect last_min_len boundary
  last_expect_len expect boundary_count current_level dest_level aps_status aps_min_level aps_max_level
  aps_default_level role duration last_level need_aps need_aps_fine aps_fine_flag audiopll_mode lea_restarting
  aps_count aps_reduce_water_mark aps_increase_water_mark aps_water_adjust_thres lat aps_fine_adjust_time
  aps_water_adjust_last audio_track tws_observer adjust_time last_check_time debug_time max_latency
  start_play_cyc first_pkt_seq snoop_level restarting sample_aligning simple_tws tws_start_decode
  tws_start_pcm_streaming check_count align_timer now cyc tws_role fill_samples a2dp_lantency low_latency
  threshold threshold_min handle snoop s_time trace set_stared set_waitto_start set_samples_filled set_len
  set_max_len set_min_len set_average_min set_average_diff set_average_expect set_last_min_len set_boundary
  set_last_expect_len set_expect set_boundary_count set_current_level set_dest_level set_aps_status
  set_aps_min_level set_aps_max_level set_aps_default_level set_role set_duration set_last_level set_need_aps
  set_need_aps_fine set_aps_fine_flag set_audiopll_mode set_lea_restarting set_aps_count
  set_aps_reduce_water_mark set_aps_increase_water_mark set_aps_water_adjust_thres set_lat
  set_aps_fine_adjust_time set_aps_water_adjust_last set_audio_track set_tws_observer set_adjust_time
  set_last_check_time set_debug_time set_max_latency set_start_play_cyc set_first_pkt_seq set_snoop_level
  set_restarting set_sample_aligning set_simple_tws set_tws_start_decode set_tws_start_pcm_streaming
  set_check_count set_align_timer set_s_time upd upd_snoop upd_lat emit the_track the_snoop negb andb orb].
Ltac acbn_in H := cbn [
  audio_handle stream_type stared waitto_start channels output_sample_rate_hz samples_filled sdm_sample_rate
  sdm_osr value left_over len max_len min_len average_min average_diff average_expect last_min_len boundary
  last_expect_len expect boundary_count current_level dest_level aps_status aps_min_level aps_max_level
  aps_default_level role duration last_level need_aps need_aps_fine aps_fine_flag audiopll_mode lea_restarting
  aps_count aps_reduce_water_mark aps_increase_water_mark aps_water_adjust_thres lat aps_fine_adjust_time
  aps_water_adjust_last audio_track tws_observer adjust_time last_check_time debug_time max_latency
  start_play_cyc first_pkt_seq snoop_level restarting sample_aligning simple_tws tws_start_decode
  tws_start_pcm_streaming check_count align_timer now cyc tws_role fill_samples a2dp_lantency low_latency
  threshold threshold_min handle snoop s_time trace set_stared set_waitto_start set_samples_filled set_len
  set_max_len set_min_len set_average_min set_average_diff set_average_expect set_last_min_len set_boundary
  set_last_expect_len set_expect set_boundary_count set_current_level set_dest_level set_aps_status
  set_aps_min_level set_aps_max_level set_aps_default_level set_role set_duration set_last_level set_need_aps
  set_need_aps_fine set_aps_fine_flag set_audiopll_mode set_lea_restarting set_aps_count
  set_aps_reduce_water_mark set_aps_increase_water_mark set_aps_water_adjust_thres set_lat
  set_aps_fine_adjust_time set_aps_water_adjust_last set_audio_track set_tws_observer set_adjust_time
  set_last_check_time set_debug_time set_max_latency set_start_play_cyc set_first_pkt_seq set_snoop_level
  set_restarting set_sample_aligning set_simple_tws set_tws_start_decode set_tws_start_pcm_streaming
  set_check_count set_align_timer set_s_time upd upd_snoop upd_lat emit the_track the_snoop negb andb orb] in H.

(** ** The relay *)

(** What the monitor does, without destination levels and operation codes: the
    level is extreme in the two outer phases, and approaches the default level
    in the middle one. *)
Inductive phase : Type := Low | Mid | High.

Record relay : Type := mk_relay { ph : phase; level : Z; last_tick : Z }.

Definition toward (d l : Z) : Z := if l <? d then l + 1 else if d <? l then l - 1 else l.

Section Relay.
Variables lo mid hi mn df mx period : Z.

Definition relay_step (length : Z) (p : phase) (l : Z) : phase * Z :=
  match p with
  | Mid => if hi <? length then (High, mx) else if length <? lo then (Low, mn) else (Mid, toward df l)
  | High => if length <? lo then (Low, mn) else if length <=? mid then (Mid, toward df l) else (High, l)
  | Low => if hi <? length then (High, mx) else if mid <=? length then (Mid, toward df l) else (Low, l)
  end.

Definition relay_call (t length : Z) (r : relay) : relay :=
  if u32 (t - last_tick r) <? period then r
  else let '(p, l) := relay_step length (ph r) (level r) in mk_relay p l (u32 t).

Definition relay_run (calls : list (Z * Z)) (r : relay) : relay :=
  fold_left (fun r c => relay_call (fst c) (snd c) r) calls r.

Definition phase_level (p : phase) : Z := match p with Low => mn | Mid => df | High => mx end.
Definition relay_ok (r : relay) : Prop :=
  mn <= level r <= mx /\ (ph r = Mid \/ level r = phase_level (ph r)).

Lemma relay_step_ok length p l : mn <= df <= mx -> mn <= l <= mx -> (p = Mid \/ l = phase_level p) ->
  mn <= (relay_step length p l).2 <= mx /\ ((relay_step length p l).1 = Mid \/ (relay_step length p l).2 = phase_level (relay_step length p l).1).
Proof.
  intros Hd Hl Hp. destruct p; unfold relay_step, toward; reflect_bools; cbn [fst snd phase_level];
    (split; [destruct Hp as [[=]|Hp]; cbn [phase_level] in *; lia|]); auto; destruct Hp as [[=]|Hp]; auto.
Qed.

(** In the middle phase, between the marks, the level reaches the default in as
    many ticks as it is away from it. *)
Lemma toward_dist l : Z.abs (toward df l - df) = Z.max 0 (Z.abs (l - df) - 1).
Proof. unfold toward. reflect_bools; lia. Qed.

End Relay.

(** ** The monitor is the relay *)

Definition status_of (p : phase) : aps_status_e :=
  match p with Low => APS_STATUS_DEC | Mid => APS_STATUS_DEFAULT | High => APS_STATUS_INC end.

(** The last level that was written to the PLL, if any was.  The outputs are
    listed from the latest on. *)
Fixpoint last_write (l : list output) : option Z :=
  match l with
  | [] => None
  | SetAps _ lv _ :: _ => Some lv
  | _ :: l => last_write l
  end.

(** The level the PLL has if the driver opened it with level [d]. *)
Definition hal_level (d : Z) (l : list output) : Z := default d (last_write l).

Lemma hal_level_cases d l v : hal_level d l = v -> last_write l = Some v \/ last_write l = None /\ v = d.
Proof. unfold hal_level. destruct (last_write l); cbn [default]; intros <-; auto. Qed.

(** The middle between the marks, as the code computes it. *)
Definition middle (lo hi : Z) : Z := hi - (hi - lo) / 2.

(** The configuration: marks, levels and period, for the whole playback. *)
Record config : Type := mk_config { c_lo : Z; c_hi : Z; c_min : Z; c_default : Z; c_max : Z; c_period : Z }.

Definition config_ok (c : config) : Prop :=
  0 <= c_lo c <= c_hi c /\ c_hi c < 2 ^ 32 /\ 0 <= c_min c <= c_default c /\ c_default c <= c_max c < 2 ^ 8.

Definition configured (c : config) (h : aps_monitor_info_t) : Prop :=
  aps_reduce_water_mark h = c_lo c /\ aps_increase_water_mark h = c_hi c /\ aps_min_level h = c_min c /\
  aps_default_level h = c_default c /\ aps_max_level h = c_max c /\ duration h = c_period c /\
  role h = BTSRV_TWS_NONE /\ need_aps h = true /\ need_aps_fine h = false /\ audio_track h <> None.

Definition c_step (c : config) := relay_step (c_lo c) (middle (c_lo c) (c_hi c)) (c_hi c) (c_min c) (c_default c) (c_max c).
Definition c_level (c : config) := phase_level (c_min c) (c_default c) (c_max c).

(** The state of the monitor that stands for a phase and a level. *)
Definition stands_for (c : config) (p : phase) (l : Z) (w : world) : Prop :=
  aps_status (handle w) = status_of p /\ current_level (handle w) = l /\ dest_level (handle w) = c_level c p /\
  c_min c <= l <= c_max c /\ (p = Mid \/ l = c_level c p).

Section Simulation.
Context (c : config) (Hc : config_ok c).

Lemma middle_eq : u32 (c_hi c - u32 (c_hi c - c_lo c) / 2) = middle (c_lo c) (c_hi c).
Proof using Hc. destruct Hc as (? & ? & _). unfold middle. wrap_lia. Qed.

End Simulation.

(** The three operations: what they make of the levels and of the PLL. *)
Lemma set_aps_adjust ch w : 0 <= current_level (handle w) < 2 ^ 8 -> 0 <= dest_level (handle w) < 2 ^ 8 ->
  let l := toward (dest_level (handle w)) (current_level (handle w)) in
  audio_aps_monitor_set_aps ch APS_OPR_ADJUST 0 w =
    if l =? current_level (handle w) then w
    else emit (SetAps ch l (aps_mode (handle w))) (upd (set_current_level l) w).
Proof.
  intros Hu Hd. unfold audio_aps_monitor_set_aps. change (has APS_OPR_ADJUST _) with false. cbv zeta. cbn match.
  destruct w as [h p t tr]. unfold toward. acbn. acbn_in Hu. acbn_in Hd.
  destruct (Z.ltb_spec (dest_level h) (current_level h)); acbn; rewrite ?(u8_small (current_level h - 1)) by lia.
  - rewrite (proj2 (Z.ltb_ge _ _)) by lia. rewrite (proj2 (Z.ltb_ge (current_level h) _)) by lia.
    rewrite (proj2 (Z.eqb_neq _ _)) by lia. acbn. rewrite ?u8_small by lia. reflexivity.
  - destruct (Z.ltb_spec (current_level h) (dest_level h)); acbn.
    + rewrite (proj2 (Z.eqb_neq _ _)) by lia. rewrite ?u8_small by lia. reflexivity.
    + rewrite Z.eqb_refl. reflexivity.
Qed.

Lemma set_aps_set ch lv w :
  audio_aps_monitor_set_aps ch APS_OPR_SET lv w = audio_aps_monitor_set_aps ch APS_OPR_ADJUST 0 (upd (set_dest_level lv) w).
Proof.
  unfold audio_aps_monitor_set_aps.
  change (has APS_OPR_SET APS_OPR_SET) with true. change (has APS_OPR_SET APS_OPR_FAST_SET) with false.
  change (has APS_OPR_ADJUST _) with false. cbv zeta. cbn match. acbn. reflexivity.
Qed.

Lemma set_aps_fast ch lv w : 0 <= lv < 2 ^ 8 ->
  audio_aps_monitor_set_aps ch APS_OPR_FAST_SET lv w =
    emit (SetAps ch lv (aps_mode (handle w))) (upd (fun h => set_current_level lv (set_dest_level lv h)) w).
Proof.
  intros Hl. unfold audio_aps_monitor_set_aps.
  change (has APS_OPR_FAST_SET APS_OPR_SET) with false. change (has APS_OPR_FAST_SET APS_OPR_FAST_SET) with true.
  cbv zeta. cbn match. acbn. rewrite Z.ltb_irrefl. acbn. rewrite Z.ltb_irrefl. acbn. rewrite u8_small by lia. reflexivity.
Qed.

Section Relay_simulation.
Context (c : config) (Hc : config_ok c).

Lemma stands_levels p l w : stands_for c p l w ->
  0 <= current_level (handle w) < 2 ^ 8 /\ 0 <= dest_level (handle w) < 2 ^ 8.
Proof using Hc.
  destruct Hc as (_ & _ & ? & ?). intros (_ & -> & -> & Hl & _). split; [lia|].
  unfold c_level. destruct p; cbn [phase_level]; lia.
Qed.

(** A step to the middle, or in it: one level towards the default. *)
Lemma adjust_stands ch d p l w : stands_for c p l w -> configured c (handle w) -> hal_level d (trace w) = l ->
  let w' := audio_aps_monitor_set_aps ch APS_OPR_ADJUST 0 w in
  let l' := toward (c_level c p) l in
  stands_for c p l' w' /\ configured c (handle w') /\ hal_level d (trace w') = l' /\ s_time w' = s_time w.
Proof using Hc.
  intros Hs Hf Hh. pose proof (stands_levels p l w Hs) as [Hu Hd]. destruct Hs as (Ht & Hcur & Hdst & Hl & Hp).
  cbv zeta. rewrite (set_aps_adjust ch w Hu Hd), Hcur, Hdst.
  assert (Hl' : c_min c <= toward (c_level c p) l <= c_max c).
  { destruct Hc as (_ & _ & ? & ?). unfold toward, c_level. destruct p; cbn [phase_level]; reflect_bools; lia. }
  assert (Hp' : p = Mid \/ toward (c_level c p) l = c_level c p).
  { destruct Hp as [->| ->]; [auto|]. right. unfold toward. rewrite Z.ltb_irrefl. reflexivity. }
  destruct (Z.eqb_spec (toward (c_level c p) l) l) as [E|E].
  - rewrite E in Hl', Hp' |- *. split; [|auto]. repeat split; auto; lia.
  - assert (0 <= toward (c_level c p) l < 2 ^ 8) by (destruct Hc as (_ & _ & ? & ?); lia).
    split; [|split; [exact Hf|split; reflexivity]].
    split; [exact Ht|split; [apply u8_small; assumption|split; [exact Hdst|split; assumption]]].
Qed.

(** A jump to the level of a phase. *)
Lemma fast_stands ch d p p' l w : stands_for c p l w -> configured c (handle w) ->
  let w' := upd (set_aps_status (status_of p')) (audio_aps_monitor_set_aps ch APS_OPR_FAST_SET (c_level c p') w) in
  stands_for c p' (c_level c p') w' /\ configured c (handle w') /\ hal_level d (trace w') = c_level c p' /\ s_time w' = s_time w.
Proof using Hc.
  intros _ Hf. destruct Hc as (_ & _ & Hm & Hx).
  assert (Hl : c_min c <= c_level c p' <= c_max c) by (unfold c_level; destruct p'; cbn [phase_level]; lia).
  cbv zeta. rewrite set_aps_fast by lia.
  split; [|split; [exact Hf|split; reflexivity]].
  split; [reflexivity|split; [apply u8_small; lia|split; [apply u8_small; lia|split; [exact Hl|right; reflexivity]]]].
Qed.

(** A return to the middle. *)
Lemma return_stands ch d p l w : stands_for c p l w -> configured c (handle w) -> hal_level d (trace w) = l ->
  let w' := upd (set_aps_status APS_STATUS_DEFAULT) (audio_aps_monitor_set_aps ch APS_OPR_SET (c_default c) w) in
  let l' := toward (c_default c) l in
  stands_for c Mid l' w' /\ configured c (handle w') /\ hal_level d (trace w') = l' /\ s_time w' = s_time w.
Proof using Hc.
  intros Hs Hf Hh. cbv zeta. rewrite set_aps_set. destruct Hs as (Ht & Hcur & Hdst & Hl & Hp).
  set (w1 := upd (set_aps_status APS_STATUS_DEFAULT) (upd (set_dest_level (c_default c)) w)).
  assert (Hs1 : stands_for c Mid l w1).
  { assert (Hd : 0 <= c_default c < 2 ^ 8) by (destruct Hc as (_ & _ & ? & ?); lia).
    split; [reflexivity|split; [exact Hcur|split; [exact (u8_small _ Hd)|split; [exact Hl|left; reflexivity]]]]. }
  pose proof (stands_levels Mid l w1 Hs1) as [Hu1 Hd1].
  destruct (adjust_stands ch d Mid l w1 Hs1 Hf Hh) as (H1 & H2 & H3 & H4).
  rewrite (set_aps_adjust ch w1 Hu1 Hd1) in H1, H2, H3, H4.
  rewrite (set_aps_adjust ch (upd (set_dest_level (c_default c)) w) Hu1 Hd1).
  change (current_level (handle w1)) with (current_level (handle (upd (set_dest_level (c_default c)) w))) in H1, H2, H3, H4.
  change (dest_level (handle w1)) with (dest_level (handle (upd (set_dest_level (c_default c)) w))) in H1, H2, H3, H4.
  destruct (_ =? _); (split; [exact H1|split; [exact H2|split; [exact H3|exact H4]]]).
Qed.

(** One round of the monitor. *)
Lemma relay_step_stands ch d len p l w : 0 <= len < 2 ^ 32 ->
  stands_for c p l w -> configured c (handle w) -> hal_level d (trace w) = l ->
  let w' := aps_relay_step ch len (c_max c) (c_min c) (c_default c) w in
  let r := c_step c len p l in
  stands_for c r.1 r.2 w' /\ configured c (handle w') /\ hal_level d (trace w') = r.2 /\ s_time w' = s_time w.
Proof using Hc.
  intros Hlen Hs Hf Hh. cbv zeta. unfold aps_relay_step.
  rewrite (proj1 Hs), (proj1 Hf), (proj1 (proj2 Hf)), (middle_eq c Hc), (u32_small len Hlen). unfold c_step, relay_step.
  destruct p; cbn [status_of].
  - destruct (Z.ltb_spec (c_hi c) len); [exact (fast_stands ch d Low High l w Hs Hf)|].
    destruct (Z.leb_spec (middle (c_lo c) (c_hi c)) len); [exact (return_stands ch d Low l w Hs Hf Hh)|].
    pose proof (adjust_stands ch d Low l w Hs Hf Hh) as Ha. destruct Hs as (_ & _ & _ & _ & [[=]|E]).
    replace (toward (c_level c Low) l) with l in Ha; [exact Ha|]. rewrite <- E. unfold toward. rewrite Z.ltb_irrefl. reflexivity.
  - destruct (Z.ltb_spec (c_hi c) len); [exact (fast_stands ch d Mid High l w Hs Hf)|].
    destruct (Z.ltb_spec len (c_lo c)); [exact (fast_stands ch d Mid Low l w Hs Hf)|].
    exact (adjust_stands ch d Mid l w Hs Hf Hh).
  - destruct (Z.ltb_spec len (c_lo c)); [exact (fast_stands ch d High Low l w Hs Hf)|].
    destruct (Z.leb_spec len (middle (c_lo c) (c_hi c))); [exact (return_stands ch d High l w Hs Hf Hh)|].
    pose proof (adjust_stands ch d High l w Hs Hf Hh) as Ha. destruct Hs as (_ & _ & _ & _ & [[=]|E]).
    replace (toward (c_level c High) l) with l in Ha; [exact Ha|]. rewrite <- E. unfold toward. rewrite Z.ltb_irrefl. reflexivity.
Qed.
End Relay_simulation.

(** ** Runs of the monitor *)

Fixpoint monitor_run (calls : list (env * Z)) (w : world) : option world :=
  match calls with
  | [] => Some w
  | (e, pcm_time) :: calls => w ← audio_aps_monitor e pcm_time w; monitor_run calls w
  end.

Definition c_run (c : config) : list (Z * Z) -> relay -> relay :=
  relay_run (c_lo c) (middle (c_lo c) (c_hi c)) (c_hi c) (c_min c) (c_default c) (c_max c) (c_period c).
Definition times (calls : list (env * Z)) : list (Z * Z) := prod_map now id <$> calls.

(** A call outside of the low latency mode, with a length that is not negative. *)
Definition plain_call (a : env * Z) : Prop := a2dp_lantency a.1 = 0 /\ 0 <= a.2 < 2 ^ 31.

Lemma monitor_run_app c1 c2 w : monitor_run (c1 ++ c2) w = (w' ← monitor_run c1 w; monitor_run c2 w').
Proof.
  revert w. induction c1 as [|[e n] c1 IH]; intros w; [reflexivity|]. cbn [app monitor_run].
  destruct (audio_aps_monitor e n w) as [w'|]; [apply IH|reflexivity].
Qed.

(** The state of the monitor and of the PLL that stands for a relay. *)
Definition follows (c : config) (d : Z) (r : relay) (w : world) : Prop :=
  stands_for c (ph r) (level r) w /\ configured c (handle w) /\ hal_level d (trace w) = level r /\ s_time w = last_tick r.

Lemma monitor_follows c d e n r w : config_ok c -> plain_call (e, n) -> follows c d r w ->
  exists w', audio_aps_monitor e n w = Some w' /\ follows c d (c_run c (times [(e, n)]) r) w'.
Proof.
  intros Hc [Ha Hn] (Hs & Hf & Hh & Ht). unfold c_run, relay_run, times. cbn [fmap list_fmap fold_left prod_map fst snd].
  unfold audio_aps_monitor, relay_call. cbn [fst snd] in Ha, Hn. rewrite Ht.
  pose proof Hf as (Hlo & Hhi & Hmin & Hdf & Hmax & Hper & Hrole & Hneed & Hfine & Htr). rewrite Hper, Hrole, Hmin, Hdf, Hmax.
  destruct (_ <? c_period c); [exists w; repeat split; auto; apply Hs|].
  rewrite Ha. change (negb (0 =? 0)) with false. change (BTSRV_TWS_NONE =? BTSRV_TWS_NONE) with true. cbn match.
  unfold audio_aps_monitor_normal. change (the_track (set_s_time (now e) w)) with (audio_track (handle w)).
  destruct (audio_track (handle w)) as [t|]; [|congruence]. cbn [mbind option_bind].
  change (handle (set_s_time (now e) w)) with (handle w). rewrite Hneed, Hfine. cbn [negb].
  eexists. split; [reflexivity|]. unfold id. cbv beta.
  pose proof (relay_step_stands c Hc (audio_handle t) d n (ph r) (level r) (set_s_time (now e) w) ltac:(lia) Hs Hf Hh) as Hr.
  cbv zeta in Hr. unfold c_step in Hr. destruct (relay_step _ _ _ _ _ _ n (ph r) (level r)) as [p l]. exact Hr.
Qed.

Lemma run_follows c d calls : config_ok c -> Forall plain_call calls -> forall r w, follows c d r w ->
  exists w', monitor_run calls w = Some w' /\ follows c d (c_run c (times calls) r) w'.
Proof.
  intros Hc Hp. induction Hp as [|[e n] calls Ha _ IH]; intros r w Hw; [exists w; auto|].
  destruct (monitor_follows c d e n r w Hc Ha Hw) as (w1 & E1 & H1). destruct (IH _ _ H1) as (w2 & E2 & H2).
  exists w2. split; [cbn [monitor_run]; rewrite E1; exact E2|exact H2].
Qed.

(** Arithmetic with the names of the levels. *)
Ltac level_lia :=
  unfold APS_LEVEL_1, APS_LEVEL_2, APS_LEVEL_3, APS_LEVEL_4, APS_LEVEL_5, APS_LEVEL_6, APS_LEVEL_7, APS_LEVEL_8, APS_LEVEL_0PPM in *; lia.

(** *** What audio_aps_monitor_init sets up *)

Definition relay_formats : list Z := [SBC_TYPE; AAC_TYPE; MSBC_TYPE; CVSD_TYPE; ACT_TYPE; PCM_TYPE].

Definition format_config (e : env) (format : Z) : config :=
  let c := mk_config (threshold_min e) (threshold e) in
  if format =? PCM_TYPE then c APS_LEVEL_3 (if low_latency e then APS_LEVEL_4 else APS_LEVEL_5) APS_LEVEL_6 30
  else if low_latency e && negb (format =? ACT_TYPE) then c APS_LEVEL_3 APS_LEVEL_5 APS_LEVEL_6 6
  else c APS_LEVEL_1 APS_LEVEL_5 APS_LEVEL_8 30.

Definition thresholds_ok (e : env) : Prop := 0 <= threshold_min e <= threshold e /\ threshold e < 2 ^ 32.

Lemma format_config_ok e f : thresholds_ok e -> config_ok (format_config e f).
Proof.
  intros [H1 H2]. unfold format_config. repeat case_match; (split; [exact H1|split; [exact H2|split; cbn [c_min c_default c_max]; level_lia]]).
Qed.

(** The structure after the switch, and after the whole function, for a playback
    without a second earphone. *)
Definition switch_handle (c : config) (t : track) : aps_monitor_info_t :=
  mk_aps 0 0 APS_STATUS_DEFAULT (c_min c) (c_max c) (c_default c) BTSRV_TWS_NONE (c_period c) 0
    true false false 0 false 0 (u32 (c_lo c)) (u32 (c_hi c)) 0
    (set_average_expect (mk_average 100000 0) zero_latency) 0 0 (Some t) false.
Definition init_handle (c : config) (t : track) : aps_monitor_info_t :=
  mk_aps (c_default c) (c_default c) APS_STATUS_DEFAULT (c_min c) (c_max c) (c_default c) BTSRV_TWS_NONE (c_period c) (c_default c)
    true false false 0 false 0 (u32 (c_lo c)) (u32 (c_hi c)) 0
    (set_average_expect (mk_average 100000 0) zero_latency) 0 0 (Some t) false.

Lemma switch_eq e f t w : f ∈ relay_formats -> a2dp_lantency e = 0 ->
  init_switch e f false (upd (fun _ => aps_defaults e 0 (Some t)) w) = Some (upd (fun _ => switch_handle (format_config e f) t) w).
Proof.
  intros Hf Ha. unfold init_switch, switch_handle, format_config. rewrite Ha.
  unfold relay_formats in Hf. repeat (apply elem_of_cons in Hf as [->|Hf]); [..|apply elem_of_nil in Hf as []];
    destruct (low_latency e); cbv -[u32 threshold threshold_min handle snoop s_time trace]; reflexivity.
Qed.

(** The format and the mode in the argument. *)
Lemma format_only f : f ∈ relay_formats -> u8 (Z.land f 0xff) = f /\ u8 (Z.shiftr (Z.land f 0x30000) 16) = 0.
Proof.
  unfold relay_formats. intros Hf. repeat (apply elem_of_cons in Hf as [->|Hf]); [..|apply elem_of_nil in Hf as []]; split; reflexivity.
Qed.

Lemma default_u8 e f : u8 (c_default (format_config e f)) = c_default (format_config e f).
Proof. apply u8_small. unfold format_config. repeat case_match; cbn [c_default]; level_lia. Qed.

Lemma aps_init_eq e f t w : f ∈ relay_formats -> a2dp_lantency e = 0 ->
  audio_aps_monitor_init e f false (Some t) w = Some (upd (fun _ => init_handle (format_config e f) t) w).
Proof.
  intros Hf Ha. unfold audio_aps_monitor_init. destruct (format_only f Hf) as [-> ->]. rewrite (switch_eq e f t w Hf Ha).
  cbn [mbind option_bind]. unfold upd, switch_handle, init_handle, set_dest_level, set_last_level, set_current_level. acbn.
  rewrite !default_u8. reflexivity.
Qed.

Lemma init_follows e f t w : thresholds_ok e ->
  let c := format_config e f in
  hal_level (c_default c) (trace w) = c_default c ->
  follows c (c_default c) (mk_relay Mid (c_default c) (s_time w)) (upd (fun _ => init_handle c t) w).
Proof.
  intros He c Hh. pose proof (format_config_ok e f He) as (Hlo & Hhi & Hmin & Hmax). fold c in Hlo, Hhi, Hmin, Hmax.
  split; [|split; [|split; [exact Hh|reflexivity]]].
  - split; [reflexivity|split; [reflexivity|split; [reflexivity|split; [cbn [level]; lia|left; reflexivity]]]].
  - split; [apply u32_small; lia|split; [apply u32_small; lia|]]. repeat (split; [reflexivity|]). discriminate.
Qed.

(** ** Back to the default level *)

(** Calls that are at least a period apart, with lengths between the marks. *)
Fixpoint steady (c : config) (last : Z) (calls : list (Z * Z)) : Prop :=
  match calls with
  | [] => True
  | (t, n) :: calls => c_period c <= u32 (t - last) /\ c_lo c <= n <= c_hi c /\ steady c (u32 t) calls
  end.

Lemma steady_run c calls : forall r, ph r = Mid -> steady c (last_tick r) calls ->
  ph (c_run c calls r) = Mid /\
  Z.abs (level (c_run c calls r) - c_default c) = Z.max 0 (Z.abs (level r - c_default c) - Z.of_nat (length calls)).
Proof.
  induction calls as [|[t n] calls IH]; intros r Hr Hs; [split; [exact Hr|cbn; lia]|].
  destruct Hs as (Hp & Hn & Hs). unfold c_run, relay_run in *. cbn [fold_left fst snd].
  assert (E : relay_call (c_lo c) (middle (c_lo c) (c_hi c)) (c_hi c) (c_min c) (c_default c) (c_max c) (c_period c) t n r =
              mk_relay Mid (toward (c_default c) (level r)) (u32 t)).
  { unfold relay_call. rewrite (proj2 (Z.ltb_ge _ _)) by lia. rewrite Hr. unfold relay_step.
    rewrite (proj2 (Z.ltb_ge (c_hi c) n)), (proj2 (Z.ltb_ge n (c_lo c))) by lia. reflexivity. }
  rewrite E. destruct (IH (mk_relay Mid (toward (c_default c) (level r)) (u32 t)) eq_refl Hs) as [H1 H2].
  split; [exact H1|]. rewrite H2. cbn [level]. rewrite toward_dist. cbn [length]. lia.
Qed.

Lemma times_app a b : times (a ++ b) = times a ++ times b.
Proof. unfold times. apply fmap_app. Qed.

Lemma c_run_app c a b r : c_run c (a ++ b) r = c_run c b (c_run c a r).
Proof. unfold c_run, relay_run. apply fold_left_app. Qed.


(** The level comes back.  When the relay is in its middle phase and the
    lengths stay between the marks, the level is the default one after as many
    periods as it was levels away, and it was written to the PLL last unless
    nothing was written since init. *)
Theorem aps_returns_to_default e f t w calls rest :
  f ∈ relay_formats -> a2dp_lantency e = 0 -> thresholds_ok e -> trace w = [] -> Forall plain_call (calls ++ rest) ->
  let c := format_config e f in
  let r := c_run c (times calls) (mk_relay Mid (c_default c) (s_time w)) in
  ph r = Mid -> steady c (last_tick r) (times rest) -> Z.abs (level r - c_default c) <= Z.of_nat (length rest) ->
  exists w1 w2, audio_aps_monitor_init e f false (Some t) w = Some w1 /\ monitor_run (calls ++ rest) w1 = Some w2 /\
  current_level (handle w2) = c_default c /\
  (last_write (trace w2) = Some (c_default c) \/ last_write (trace w2) = None).
Proof.
  intros Hf Ha He Hw Hp c r Hm Hs Hn.
  assert (H0 := init_follows e f t w He). fold c in H0. cbv zeta in H0. rewrite Hw in H0. specialize (H0 eq_refl).
  destruct (run_follows c (c_default c) _ (format_config_ok e f He) Hp _ _ H0) as (w2 & E & (_ & Hl & _) & _ & Hh & _).
  rewrite times_app, c_run_app in Hl, Hh. fold r in Hl, Hh.
  destruct (steady_run c (times rest) r Hm Hs) as [_ Hd]. unfold times in Hd at 2. rewrite length_fmap in Hd.
  exists (upd (fun _ => init_handle c t) w), w2. split; [exact (aps_init_eq e f t w Hf Ha)|]. split; [exact E|].
  assert (Hd0 : level (c_run c (times rest) r) = c_default c) by lia. rewrite Hd0 in Hl, Hh.
  split; [exact Hl|]. apply hal_level_cases in Hh. tauto.
Qed.

(** ** Two earphones *)

(** Levels that may be written to the PLL, and levels that leave room for an
    alignment of one level on both sides. *)
Definition pll_level (l : Z) : Prop := APS_LEVEL_1 <= l <= APS_LEVEL_8.
Definition inner_level (l : Z) : Prop := APS_LEVEL_2 <= l <= APS_LEVEL_7.

Definition in_range (o : output) : Prop := match o with SetAps _ l _ | ChangeRequest l => pll_level l | _ => True end.

Definition tws_core (w : world) : Prop :=
  tws_observer (handle w) = true /\ audio_track (handle w) <> None /\ role (handle w) = BTSRV_TWS_MASTER /\
  2 <= aps_default_level (handle w) <= 5 /\ inner_level (dest_level (handle w)) /\
  -2 <= check_count (snoop w) <= 2 /\ Forall in_range (trace w).

(** The level of the PLL is the one the structure has. *)
Definition hal_ok (w : world) : Prop := forall d, hal_level d (trace w) = current_level (handle w).

(** No alignment is under way. *)
Definition settled (w : world) : Prop :=
  sample_aligning (snoop w) = false /\ current_level (handle w) = dest_level (handle w) /\ align_timer (snoop w) = None.

(** An alignment is one level away from the base, and its timer is running. *)
Definition aligning (w : world) : Prop :=
  sample_aligning (snoop w) = true /\ Z.abs (current_level (handle w) - dest_level (handle w)) = 1 /\ align_timer (snoop w) <> None.

Definition tws_inv (w : world) : Prop := tws_core w /\ hal_ok w /\ (settled w \/ aligning w).

Lemma tws_inv_track w : tws_core w -> exists t, the_track w = Some t.
Proof. intros (_ & Ht & _). unfold the_track. destruct (audio_track (handle w)) as [t|]; [eauto|congruence]. Qed.

Lemma tws_inv_snoop w : tws_core w -> the_snoop w = Some (snoop w).
Proof. intros (Ho & _). unfold the_snoop. rewrite Ho. reflexivity. Qed.

(** What no operation below changes. *)
Definition same_play (w w' : world) : Prop :=
  dest_level (handle w') = dest_level (handle w) /\ the_track w' = the_track w /\
  aps_default_level (handle w') = aps_default_level (handle w) /\ aps_increase_water_mark (handle w') = aps_increase_water_mark (handle w) /\
  check_count (snoop w') = check_count (snoop w) /\ adjust_time (snoop w') = adjust_time (snoop w).

Lemma same_play_refl w : same_play w w.
Proof. repeat split. Qed.

Lemma inner_u8 l : inner_level l -> u8 l = l.
Proof. intros H. apply u8_small. unfold inner_level in H. level_lia. Qed.

Lemma core_emit o w : in_range o -> tws_core w -> tws_core (emit o w).
Proof.
  intros Ho (H1 & H2 & H3 & H4 & H5 & H6 & H7). repeat (split; [assumption|]). constructor; assumption.
Qed.

(** Stopping an alignment. *)
Lemma stop_ok w : tws_core w -> (sample_aligning (snoop w) = false -> settled w) ->
  exists w', _tws_stop_aligning w = Some w' /\ tws_core w' /\ settled w' /\ same_play w w' /\
    (sample_aligning (snoop w) = true \/ hal_ok w -> hal_ok w').
Proof.
  intros Hc Hs. unfold _tws_stop_aligning. rewrite (tws_inv_snoop w Hc). cbn [mbind option_bind].
  destruct (sample_aligning (snoop w)) eqn:Ea; cbn [negb].
  - destruct (tws_inv_track w Hc) as [t Ht]. unfold the_track in *. acbn. rewrite Ht. cbn [mbind option_bind].
    destruct Hc as (H1 & H2 & H3 & H4 & H5 & H6 & H7). pose proof (inner_u8 _ H5) as Hu.
    eexists. split; [reflexivity|]. split; [|split; [|split]].
    + repeat (split; [assumption|]). constructor; [|assumption]. unfold in_range. acbn. rewrite Hu. unfold pll_level, inner_level in *. level_lia.
    + split; [reflexivity|split; [exact Hu|reflexivity]].
    + repeat split.
    + intros _ d. reflexivity.
  - exists w. split; [reflexivity|]. split; [exact Hc|split; [exact (Hs eq_refl)|split; [apply same_play_refl|]]].
    intros [[=]|H]. exact H.
Qed.

Lemma inv_stop w : tws_inv w -> sample_aligning (snoop w) = false -> settled w.
Proof. intros (_ & _ & [Hs|(E & _)]) Ea; [exact Hs|congruence]. Qed.

Lemma inv_stop_ok w : tws_inv w ->
  exists w', _tws_stop_aligning w = Some w' /\ tws_inv w' /\ settled w' /\ same_play w w'.
Proof.
  intros Hi. destruct (stop_ok w (proj1 Hi) (inv_stop w Hi)) as (w' & E & Hc & Hs & Hp & Hh).
  exists w'. split; [exact E|]. split; [|auto]. split; [exact Hc|split; [apply Hh; right; apply Hi|left; exact Hs]].
Qed.

(** The base level set by the library: 0xFF for the default. *)
Definition base_level (l : Z) : Prop := l = 0xFF \/ inner_level l.

Lemma set_base_ok l w : base_level l -> tws_inv w ->
  exists w', _set_base_aps_level l w = Some w' /\ tws_inv w' /\
    (dest_level (handle w) <> l -> settled w' /\
      dest_level (handle w') = (if l =? 0xFF then aps_default_level (handle w) else l) /\
      aps_default_level (handle w') = aps_default_level (handle w) /\
      aps_increase_water_mark (handle w') = aps_increase_water_mark (handle w) /\ the_track w' = the_track w /\
      check_count (snoop w') = check_count (snoop w) /\ adjust_time (snoop w') = adjust_time (snoop w)).
Proof.
  intros Hb Hi. unfold _set_base_aps_level. destruct (tws_inv_track w (proj1 Hi)) as [t Ht]. rewrite Ht.
  destruct (Z.eqb_spec (dest_level (handle w)) l) as [E|E]; [exists w; split; [reflexivity|split; [exact Hi|congruence]]|].
  set (l' := if l =? 0xFF then aps_default_level (handle w) else l).
  pose proof Hi as ((H1 & H2 & H3 & H4 & H5 & H6 & H7) & Hh & Hsa).
  assert (Hl : inner_level l').
  { subst l'. destruct (Z.eqb_spec l 0xFF); [unfold inner_level; level_lia|]. destruct Hb; [congruence|assumption]. }
  pose proof (inner_u8 l' Hl) as Hu.
  set (w1 := upd (fun h => set_dest_level l' (set_current_level l' h)) w).
  assert (Hc1 : tws_core w1).
  { repeat (split; [assumption|]). split; [|split; assumption]. subst w1. acbn. rewrite Hu. exact Hl. }
  destruct (stop_ok w1 Hc1) as (w2 & -> & Hc2 & Hs2 & Hp2 & _).
  { intros Ea. destruct (inv_stop w Hi Ea) as (_ & _ & Hn). split; [exact Ea|split; [reflexivity|exact Hn]]. }
  cbn [mbind option_bind]. eexists. split; [reflexivity|]. destruct Hs2 as (Hs2a & Hs2b & Hs2c).
  destruct Hp2 as (Hp1 & Hp2 & Hp3 & Hp4 & Hp5 & Hp6). change (dest_level (handle w1)) with (u8 l') in Hp1. rewrite Hu in Hp1.
  split; [split; [|split; [intros d; reflexivity|left; repeat split; assumption]]|].
  - apply core_emit; [|exact Hc2]. cbn. rewrite Hs2b, Hp1. unfold pll_level, inner_level in *. level_lia.
  - intros _. split; [split; [exact Hs2a|split; [exact Hs2b|exact Hs2c]]|]. split; [exact Hp1|]. split; [exact Hp3|split; [exact Hp4|split; [exact (eq_trans Hp2 Ht)|split; [exact Hp5|exact Hp6]]]].
Qed.

(** Starting an alignment. *)
Lemma start_ok e l adj w : tws_inv w -> Z.abs (l - dest_level (handle w)) = 1 ->
  exists w', _tws_start_aligning e l adj w = Some w' /\ tws_inv w' /\ aligning w' /\
    current_level (handle w') = l /\ align_timer (snoop w') = Some (now e + adj).
Proof.
  intros Hi Hl. unfold _tws_start_aligning. destruct (tws_inv_track w (proj1 Hi)) as [t Ht].
  pose proof Hi as ((H1 & H2 & H3 & H4 & H5 & H6 & H7) & Hh & Hsa). unfold the_snoop, the_track in *. acbn. rewrite H1, Ht.
  cbn [mbind option_bind]. eexists. split; [reflexivity|].
  assert (Hr : pll_level l) by (unfold pll_level, inner_level in *; level_lia).
  assert (Hu : u8 l = l) by (apply u8_small; unfold pll_level in Hr; level_lia).
  assert (Ha : aligning (upd_snoop (set_align_timer (Some (now e + adj)))
     (emit (SetAps (audio_handle t) (u8 l) APS_LEVEL_AUDIOPLL) (upd_snoop (set_sample_aligning true) (upd (set_current_level l) w))))).
  { split; [reflexivity|split; [|discriminate]]. acbn. rewrite Hu. exact Hl. }
  split; [|split; [exact Ha|split; [exact Hu|reflexivity]]].
  split; [|split; [intros d; reflexivity|right; exact Ha]].
  repeat (split; [assumption|]). constructor; [|assumption]. cbn. rewrite Hu. exact Hr.
Qed.

Lemma step_table_ok d khz : 0 <= d < 16 -> exists s, (if khz mod 11 =? 0 then g_tws_step_44 else g_tws_step_48) !! Z.to_nat d = Some s.
Proof. intros Hd. apply lookup_lt_is_Some_2. destruct (_ =? _); cbn [g_tws_step_44 g_tws_step_48 length app replicate]; lia. Qed.

(** A difference of the positions: ignored when small, a restart when large,
    and otherwise an alignment that is one level away from the base. *)
Lemma diff_ok e d w : tws_inv w ->
  exists w', _notify_time_diff e d w = Some w' /\ tws_inv w' /\
    (3 <= Z.abs d <= 3000 -> aligning w' /\ current_level (handle w') = dest_level (handle w) - Z.sgn d).
Proof.
  intros Hi. unfold _notify_time_diff. destruct (tws_inv_track w (proj1 Hi)) as [t Ht]. rewrite Ht.
  destruct (Z.ltb_spec 3000 (Z.abs d)).
  { rewrite (tws_inv_snoop w (proj1 Hi)). cbn [mbind option_bind]. eexists. split; [reflexivity|]. split; [|lia].
    destruct Hi as (Hc & Hh & Hs). split; [|split; [exact Hh|exact Hs]]. apply core_emit; [exact I|exact Hc]. }
  destruct (inv_stop_ok w Hi) as (w1 & -> & Hi1 & Hs1 & Hp & _). cbn [mbind option_bind].
  destruct (Z.ltb_spec (Z.abs d) 3); [exists w1; split; [reflexivity|split; [exact Hi1|lia]]|].
  rewrite Hp. pose proof Hi as ((_ & _ & _ & _ & Hd & _) & _). unfold inner_level in Hd.
  destruct (step_table_ok (dest_level (handle w)) (rate_khz t)) as [s ->]; [level_lia|]. cbn [mbind option_bind].
  destruct (Z.ltb_spec d 0).
  - rewrite (u8_small (dest_level (handle w) + 1)) by level_lia.
    destruct (start_ok e (dest_level (handle w) + 1) (snd s * Z.abs d / 1000) w1 Hi1) as (w2 & E & Hi2 & Ha & Hc & _); [lia|].
    exists w2. split; [exact E|split; [exact Hi2|intros _; split; [exact Ha|lia]]].
  - rewrite (u8_small (dest_level (handle w) - 1)) by level_lia.
    destruct (start_ok e (dest_level (handle w) - 1) (fst s * Z.abs d / 1000) w1 Hi1) as (w2 & E & Hi2 & Ha & Hc & _); [lia|].
    exists w2. split; [exact E|split; [exact Hi2|intros _; split; [exact Ha|lia]]].
Qed.

Lemma timer_ok t w : tws_inv w -> align_timer (snoop w) = Some t ->
  exists w', align_timer_expires w = Some w' /\ tws_inv w' /\ settled w' /\ dest_level (handle w') = dest_level (handle w).
Proof.
  intros (Hc & Hh & [(_ & _ & E)|(Ea & Hl & _)]) Ht; [congruence|]. unfold align_timer_expires.
  destruct (stop_ok (upd_snoop (set_align_timer None) w) Hc) as (w' & E & Hc' & Hs & Hp & Hh').
  { intros E. change (sample_aligning (snoop w) = false) in E. congruence. }
  exists w'. split; [exact E|]. split; [|split; [exact Hs|apply Hp]].
  split; [exact Hc'|split; [apply Hh'; left; exact Ea|left; exact Hs]].
Qed.

(** *** The level that is asked for *)

Lemma aout_step_spec interval cc cur lo hi pcm thr trim : 0 <= cur <= 7 ->
  let adj := aout_rate_step interval cc cur lo hi pcm thr trim in
  adj = cur \/
  (220 <= interval /\ adj = cur + 1 /\ (2 <= cc \/ -2 < cc /\ thr < pcm)) \/
  (220 <= interval /\ adj = cur - 1 /\ cc < 2 /\ (cc <= -2 \/ pcm < thr)).
Proof.
  intros Hc. cbv zeta. unfold aout_rate_step. rewrite (u8_small (cur + 1)) by lia.
  destruct (Z.ltb_spec interval 220); [auto|]. destruct (Z.leb_spec 2 cc); [lia|].
  change (- (2)) with (-2). destruct (Z.leb_spec cc (-2)); [destruct (Z.ltb_spec 0 cur); lia|].
  destruct (_ || _), trim, (interval <? 600), (Z.ltb_spec thr pcm), (Z.ltb_spec pcm thr), (Z.ltb_spec 0 cur); lia.
Qed.

Lemma aout_clamp_spec cur dflt lo hi adj : 0 <= cur <= 7 -> 0 <= lo <= dflt -> dflt <= hi <= 7 -> cur - 1 <= adj <= cur + 1 ->
  let r := aout_rate_clamp cur dflt lo hi adj in
  r = 0xFF \/
  (lo <= r <= hi /\ r <> cur /\ (r = cur + 1 \/ r = cur - 1 \/ r = dflt) /\ (lo <= cur <= hi -> (cur < r <-> cur < adj) /\ (r < cur <-> adj < cur))).
Proof.
  intros Hc Hlo Hhi Ha. cbv zeta. unfold aout_rate_clamp.
  destruct (Z.ltb_spec hi adj), (Z.ltb_spec adj lo), (Z.ltb_spec hi lo); try lia;
    match goal with |- context [?x =? cur] => destruct (Z.eqb_spec x cur); [auto|] end;
    destruct (Z.ltb_spec cur dflt), (Z.ltb_spec dflt cur); try lia; cbn [andb];
    repeat match goal with |- context [?x <? ?y] => destruct (Z.ltb_spec x y); cbn [andb] end;
    right; lia.
Qed.

(** A rise is refused only at the upper end. *)
Lemma aout_clamp_stays cur dflt lo hi adj : 0 <= cur <= 7 -> 0 <= lo <= dflt -> dflt <= hi <= 7 -> adj = cur + 1 ->
  aout_rate_clamp cur dflt lo hi adj = 0xFF -> hi <= cur.
Proof.
  intros Hc Hlo Hhi -> . unfold aout_rate_clamp.
  destruct (Z.ltb_spec hi (cur + 1)); [lia|]. destruct (Z.ltb_spec (cur + 1) lo);
    (match goal with |- context [?x =? cur] => destruct (Z.eqb_spec x cur) end; [lia|]);
    repeat match goal with |- context [?x <? ?y] => destruct (Z.ltb_spec x y); cbn [andb] end; lia.
Qed.

Definition lowest (is_tws : bool) : Z := if is_tws then APS_LEVEL_2 else APS_LEVEL_1.
Definition highest (is_tws : bool) : Z := if is_tws then APS_LEVEL_7 else APS_LEVEL_8.

(** The fields a decision does not change. *)
Definition same_level (w w' : world) : Prop :=
  handle w' = handle w /\ trace w' = trace w /\ s_time w' = s_time w /\ sample_aligning (snoop w') = sample_aligning (snoop w) /\
  align_timer (snoop w') = align_timer (snoop w).

(** The count of lengths above and below the mark. *)
Definition next_count (pcm thr cc : Z) : Z :=
  if (thr <? pcm) && (cc <? 2) then cc + 1 else if (pcm <? thr) && (- (2) <? cc) then cc - 1 else cc.

Lemma next_count_range pcm thr cc : -2 <= cc <= 2 ->
  -2 <= next_count pcm thr cc <= 2 /\ (thr < pcm -> next_count pcm thr cc = Z.min 2 (cc + 1)) /\ (pcm < thr -> next_count pcm thr cc = Z.max (-2) (cc - 1)).
Proof. intros H. unfold next_count. reflect_bools; cbn [andb]; lia. Qed.

Lemma rate_step e pcm is_tws w : tws_core w -> pll_level (current_level (handle w)) ->
  let cur := current_level (handle w) in
  let dflt := aps_default_level (handle w) in
  let thr := s32 (aps_increase_water_mark (handle w)) in
  let cc := next_count pcm thr (check_count (snoop w)) in
  exists w' r, _monitor_aout_rate e pcm is_tws w = Some (w', r) /\ same_level w w' /\
    ((r = 0xFF /\ adjust_time (snoop w') = adjust_time (snoop w) /\ check_count (snoop w') = cc /\
      (1000 < pcm - thr < 2 ^ 31 -> 2 <= cc -> 220 <= u32 (now e - adjust_time (snoop w)) -> highest is_tws <= cur)) \/
     (lowest is_tws <= r <= highest is_tws /\ r <> cur /\ (r = cur + 1 \/ r = cur - 1 \/ r = dflt) /\
      adjust_time (snoop w') = u32 (now e) /\ check_count (snoop w') = 0 /\
      (lowest is_tws <= cur <= highest is_tws ->
       220 <= u32 (now e - adjust_time (snoop w)) /\ (thr < pcm -> cur < r) /\ (pcm < thr -> r < cur)))).
Proof.
  intros Hc Hcur. cbv zeta. unfold _monitor_aout_rate. destruct (tws_inv_track w Hc) as [t Ht].
  rewrite (tws_inv_snoop w Hc), Ht. cbn [mbind option_bind].
  pose proof Hc as (_ & _ & _ & Hd & _ & Hcc & _).
  set (cur := current_level (handle w)) in *. set (dflt := aps_default_level (handle w)) in *.
  set (thr := s32 (aps_increase_water_mark (handle w))) in *. change (if (thr <? pcm) && _ then _ else _) with (next_count pcm thr (check_count (snoop w))).
  pose proof (next_count_range pcm thr _ Hcc) as (Hn & Hup & Hdn). set (cc := next_count pcm thr (check_count (snoop w))) in *.
  set (trim := _ && _ && _). set (lo := if trim then u8 (dflt - 1) else _). set (hi := if trim then u8 (dflt + 1) else _).
  set (interval := u32 (now e - adjust_time (snoop w))).
  assert (Hlh : lowest is_tws <= lo /\ hi <= highest is_tws /\ lo <= dflt <= hi /\ (lowest is_tws <= cur <= highest is_tws -> lo <= cur <= hi)).
  { subst lo hi trim. unfold lowest, highest. rewrite !u8_small by lia.
    destruct is_tws; level_lia || (destruct (_ <=? 1000), (Z.leb_spec (dflt - 1) cur), (Z.leb_spec cur (dflt + 1)); cbn [andb]; level_lia). }
  assert (Hlo : 0 <= lo /\ hi <= 7) by (unfold lowest, highest in Hlh; destruct is_tws; level_lia).
  assert (Hcur' : 0 <= cur <= 7) by (unfold pll_level in Hcur; level_lia).
  pose proof (aout_step_spec interval cc cur lo hi pcm thr trim Hcur') as Hs. cbv zeta in Hs.
  set (adj := aout_rate_step interval cc cur lo hi pcm thr trim) in *.
  pose proof (aout_clamp_spec cur dflt lo hi adj Hcur' ltac:(lia) ltac:(lia) ltac:(lia)) as Hr. cbv zeta in Hr.
  set (r := aout_rate_clamp cur dflt lo hi adj) in *.
  eexists _, r. split; [reflexivity|].
  assert (Hs8 : s8 cc = cc) by (apply s8_small; lia).
  destruct (Z.eqb_spec r 0xFF) as [E|E]; cbn [negb andb orb].
  - split; [unfold same_level; destruct (3000 <=? _); auto 10|]. left. split; [exact E|].
    split; [destruct (3000 <=? _); reflexivity|]. split; [destruct (3000 <=? _); acbn; exact Hs8|].
    intros Hp H2 H220. assert (Hhi : hi = highest is_tws).
    { subst hi trim. replace (s32 (pcm - thr)) with (pcm - thr) by (unfold s32; rewrite Z.mod_small; lia).
      rewrite (proj2 (Z.leb_gt (Z.abs (pcm - thr)) 1000)) by lia. cbn [andb]. unfold highest. destruct is_tws; reflexivity. }
    rewrite <- Hhi. apply (aout_clamp_stays cur dflt lo hi (cur + 1)); try lia.
    replace (cur + 1) with adj; [exact E|]. subst adj. unfold aout_rate_step. fold interval in H220.
      rewrite (proj2 (Z.ltb_ge interval 220)), (proj2 (Z.leb_le 2 cc)) by lia. apply u8_small. lia.
  - split; [unfold same_level; destruct (_ || _); auto 10|]. right. destruct Hr as [Hr|(Hr1 & Hr2 & Hr3 & Hr4)]; [congruence|].
    split; [lia|split; [exact Hr2|split; [exact Hr3|]]].
    split; [destruct (_ || _); reflexivity|]. split; [destruct (_ || _); reflexivity|].
    intros Hin. pose proof (Hr4 ltac:(lia)) as [Hu Hv].
    assert (Hne : adj <> cur) by (assert (cur < r \/ r < cur) as [H|H] by lia; [apply Hu in H|apply Hv in H]; lia).
    split; [lia|]. split; intros Hp; [apply Hu; specialize (Hup Hp)|apply Hv; specialize (Hdn Hp)]; lia.
Qed.

Lemma inv_current w : tws_inv w -> pll_level (current_level (handle w)).
Proof.
  intros ((_ & _ & _ & _ & Hd & _) & _ & H). unfold inner_level, pll_level in *.
  destruct H as [(_ & -> & _)|(_ & H & _)]; level_lia.
Qed.

(** The invariant does not look at the other fields. *)
Lemma inv_same w w' : tws_inv w -> handle w' = handle w -> Forall in_range (trace w') -> (forall d, hal_level d (trace w') = hal_level d (trace w)) ->
  sample_aligning (snoop w') = sample_aligning (snoop w) -> align_timer (snoop w') = align_timer (snoop w) ->
  -2 <= check_count (snoop w') <= 2 -> tws_inv w'.
Proof.
  intros ((H1 & H2 & H3 & H4 & H5 & H6 & H7) & Hh & Hs) Eh Ht El Ea Em Hc.
  split; [|split].
  - unfold tws_core. rewrite Eh. auto 10.
  - intros d. rewrite El, Eh. apply Hh.
  - unfold settled, aligning in *. rewrite Eh, Ea, Em. exact Hs.
Qed.

(** One decision, with the request that follows from it. *)
Definition checked (e : env) (w : world) : option (world * Z) :=
  if tws_role e =? BTSRV_TWS_NONE then _monitor_aout_rate e (max_latency (snoop w)) false w
  else if tws_role e =? BTSRV_TWS_MASTER then _monitor_aout_rate e (max_latency (snoop w)) true w
  else if 3000 <=? u32 (now e - adjust_time (snoop w)) then Some (upd_snoop (set_adjust_time (now e)) w, 0xFF)
  else Some (w, 0xFF).

Lemma checked_ok e w : tws_inv w -> exists w' r, checked e w = Some (w', r) /\ same_level w w' /\
  -2 <= check_count (snoop w') <= 2 /\ (r = 0xFF \/ pll_level r).
Proof.
  intros Hi. pose proof Hi as (Hc & _). pose proof Hc as (_ & _ & _ & _ & _ & Hcc & _). unfold checked.
  assert (Hrate : forall b, exists w' r, _monitor_aout_rate e (max_latency (snoop w)) b w = Some (w', r) /\ same_level w w' /\
    -2 <= check_count (snoop w') <= 2 /\ (r = 0xFF \/ pll_level r)).
  { intros b. destruct (rate_step e (max_latency (snoop w)) b w Hc (inv_current w Hi)) as (w' & r & E & Hs & Hr).
    exists w', r. split; [exact E|split; [exact Hs|]].
    pose proof (next_count_range (max_latency (snoop w)) (s32 (aps_increase_water_mark (handle w))) _ Hcc) as (Hn & _).
    destruct Hr as [(-> & _ & -> & _)|(Hr & _ & _ & _ & -> & _)]; [auto|]. split; [lia|right].
    unfold pll_level, lowest, highest in *. destruct b; level_lia. }
  destruct (_ =? BTSRV_TWS_NONE); [apply Hrate|]. destruct (_ =? BTSRV_TWS_MASTER); [apply Hrate|].
  destruct (3000 <=? _); (eexists _, _; split; [reflexivity|]; split; [unfold same_level; auto 10|auto]).
Qed.

Lemma master_ok e pcm w : tws_inv w -> exists w', audio_aps_monitor_master e pcm w = Some w' /\ tws_inv w' /\ handle w' = handle w.
Proof.
  intros Hi. unfold audio_aps_monitor_master. pose proof Hi as (Hc & Hh & Hs). rewrite (proj1 Hc). cbn [negb].
  destruct (tws_inv_track w Hc) as [t Ht]. change (the_track (emit _ w)) with (the_track w). rewrite Ht. cbn [mbind option_bind].
  assert (H0 : tws_inv (emit (BufferChange pcm) w)) by (split; [apply core_emit; [exact I|exact Hc]|split; [exact Hh|exact Hs]]).
  destruct (negb (stared t)); [exists (emit (BufferChange pcm) w); auto|].
  set (w0 := if max_latency _ <? pcm then _ else _).
  assert (H1 : tws_inv w0 /\ handle w0 = handle w) by (subst w0; destruct (_ <? _); split; exact H0 || reflexivity).
  destruct H1 as [H1 E1].
  assert (H2 : exists w1, (if APS_ADJUST_PKT_INTERVAL <=? u32 (now e - last_check_time (snoop w0)) then
     '(w, ret) ← checked e w0; Some (upd_snoop (fun p => set_max_latency 0 (set_last_check_time (now e) p)) (if ret =? 0xFF then w else emit (ChangeRequest ret) w))
     else Some w0) = Some w1 /\ tws_inv w1 /\ handle w1 = handle w).
  { destruct (_ <=? _); [|exists w0; auto]. destruct (checked_ok e w0 H1) as (w1 & r & -> & (S1 & S2 & S3 & S4 & S5) & Hcc & Hr).
    cbn [mbind option_bind]. eexists. split; [reflexivity|].
    assert (Hf : Forall in_range (trace w1)) by (rewrite S2; apply H1).
    destruct (Z.eqb_spec r 0xFF) as [->|Er].
    - split; [|exact (eq_trans S1 E1)]. apply (inv_same w0); auto. intros d. acbn. rewrite S2. reflexivity.
    - split; [|exact (eq_trans S1 E1)]. apply (inv_same w0); auto; [|intros d; acbn; cbn [last_write]; rewrite S2; reflexivity].
      constructor; [destruct Hr; [congruence|assumption]|exact Hf]. }
  destruct H2 as (w1 & E2 & H2 & E2'). unfold checked in E2. rewrite E2. cbn [mbind option_bind].
  destruct (_ && _ && _); [|exists w1; auto]. eexists. split; [reflexivity|]. split; [|exact E2'].
  destruct H2 as (Hc2 & Hh2 & Hs2). split; [apply core_emit; [exact I|exact Hc2]|split; [exact Hh2|exact Hs2]].
Qed.

Lemma tws_monitor_ok e pcm w : a2dp_lantency e = 0 -> tws_inv w ->
  exists w', audio_aps_monitor e pcm w = Some w' /\ tws_inv w' /\ handle w' = handle w.
Proof.
  intros Ha Hi. unfold audio_aps_monitor. destruct (_ <? _); [exists w; auto|]. rewrite Ha. change (negb (0 =? 0)) with false. cbn match.
  pose proof Hi as ((_ & _ & Hr & _) & _). rewrite Hr. change (BTSRV_TWS_MASTER =? BTSRV_TWS_NONE) with false.
  change (BTSRV_TWS_MASTER =? BTSRV_TWS_MASTER) with true. cbn match.
  apply (master_ok e pcm (set_s_time (now e) w)). exact Hi.
Qed.

(** *** Executions *)

(** What happens during a playback with a second earphone: calls of the monitor
    and of the other functions, the library through its observer, the timer of
    an alignment, and the track that starts and stops. *)
Inductive tws_event : Type :=
| Monitor (e : env) (pcm_time : Z)
| SetBase (l : Z)
| TimeDiff (e : env) (diff : Z)
| AlignTimer
| StartSeq (decode seq : Z)
| StartPcm (e : env) (cycles : Z)
| SetStreamInfo (e : env) (format seq rate pkt_time play_time : Z)
| SetPktInfo (e : env) (seq n frames pcm_len : Z)
| DecodeErr (n : Z)
| SetLatency (us : Z)
| TrackState (b : bool).

Definition track_state (b : bool) (w : world) : world :=
  upd (fun h => set_audio_track (set_stared b <$> audio_track h) h) w.

Definition run_event (v : tws_event) (w : world) : option world :=
  match v with
  | Monitor e n => audio_aps_monitor e n w
  | SetBase l => _set_base_aps_level l w
  | TimeDiff e d => _notify_time_diff e d w
  | AlignTimer => align_timer_expires w
  | StartSeq d s => _set_start_pkt_seq d s w
  | StartPcm e c => _start_pcm_streaming e c w
  | SetStreamInfo e f s r p t => audio_tws_set_stream_info e f s r p t w
  | SetPktInfo e s n f l => audio_tws_set_pkt_info e s n f l w
  | DecodeErr n => Some (audio_aps_notify_decode_err n w)
  | SetLatency us => Some (audio_aps_set_latency us w)
  | TrackState b => Some (track_state b w)
  end.

(** The library sets base levels that leave room, the timer expires only when it
    is running, and the low latency mode of a2dp is off. *)
Definition allowed (v : tws_event) (w : world) : Prop :=
  match v with
  | Monitor e _ => a2dp_lantency e = 0
  | SetBase l => base_level l
  | AlignTimer => align_timer (snoop w) <> None
  | _ => True
  end.

Inductive tws_reach (w0 : world) : world -> Prop :=
| tws_start : tws_reach w0 w0
| tws_next w v w' : tws_reach w0 w -> allowed v w -> run_event v w = Some w' -> tws_reach w0 w'.

Lemma tws_inv_emit o w : in_range o -> (forall d l, hal_level d (o :: l) = hal_level d l) -> tws_inv w -> tws_inv (emit o w).
Proof. intros Ho El (Hc & Hh & Hs). split; [apply core_emit; assumption|split; [intros d; acbn; rewrite El; apply Hh|exact Hs]]. Qed.

(** No event faults or leaves the invariant, if the library grants base levels
    that leave room. *)
Lemma event_ok v w : tws_inv w -> allowed v w -> exists w', run_event v w = Some w' /\ tws_inv w'.
Proof.
  intros Hi Ha. pose proof Hi as (Hc & Hh & Hs). destruct (tws_inv_track w Hc) as [t Ht].
  destruct v; cbn [run_event allowed] in *.
  - destruct (tws_monitor_ok e pcm_time w Ha Hi) as (w' & E & H & _). eauto.
  - destruct (set_base_ok l w Ha Hi) as (w' & E & H & _). eauto.
  - destruct (diff_ok e diff w Hi) as (w' & E & H & _). eauto.
  - destruct (align_timer (snoop w)) as [n|] eqn:En; [|congruence]. destruct (timer_ok n w Hi En) as (w' & E & H & _). eauto.
  - unfold _set_start_pkt_seq. rewrite Ht, (tws_inv_snoop w Hc). cbn [mbind option_bind]. eexists. split; [reflexivity|exact Hi].
  - unfold _start_pcm_streaming. rewrite Ht. change (the_snoop (emit TrackStart w)) with (the_snoop w). rewrite (tws_inv_snoop w Hc).
    cbn [mbind option_bind]. eexists. split; [reflexivity|]. exact (tws_inv_emit TrackStart w I (fun _ _ => eq_refl) Hi).
  - unfold audio_tws_set_stream_info. rewrite (proj1 Hc). cbn [negb]. cbv zeta. change (the_track (upd_snoop _ w)) with (the_track w). rewrite Ht.
    cbn [mbind option_bind]. eexists. split; [reflexivity|]. apply tws_inv_emit; [exact I|reflexivity|].
    apply (inv_same w); auto; [apply Hc|]. acbn. change (s8 0) with 0. lia.
  - unfold audio_tws_set_pkt_info. rewrite (proj1 Hc). cbn [negb]. destruct (pcm_len =? 65535).
    + eexists. split; [reflexivity|]. do 2 (apply tws_inv_emit; [exact I|reflexivity|]). exact Hi.
    + rewrite Ht. cbn [mbind option_bind]. eexists. split; [reflexivity|]. apply tws_inv_emit; [exact I|reflexivity|].
      destruct Hc as (H1 & H2 & H3 & H4 & H5 & H6 & H7).
      split; [|split; [exact Hh|exact Hs]]. split; [exact H1|split; [discriminate|]]. auto 10.
  - eexists. split; [reflexivity|]. unfold audio_aps_notify_decode_err, audio_aps_tws_notify_decode_err. rewrite (proj1 Hc). cbn [negb].
    apply tws_inv_emit; [exact I|reflexivity|exact Hi].
  - eexists. split; [reflexivity|exact Hi].
  - eexists. split; [reflexivity|]. destruct Hc as (H1 & H2 & H3 & H4 & H5 & H6 & H7).
    split; [|split; [exact Hh|exact Hs]]. split; [exact H1|split; [|auto 10]].
    unfold track_state. acbn. unfold the_track in Ht. rewrite Ht. discriminate.
Qed.

Lemma tws_reach_inv w0 w : tws_inv w0 -> tws_reach w0 w -> tws_inv w.
Proof.
  intros H0 Hr. induction Hr as [|w v w' _ IH Ha E]; [exact H0|].
  destruct (event_ok v w IH Ha) as (w2 & E2 & H2). congruence.
Qed.

(** *** The start of a playback with a second earphone *)

Definition is_simple (t : track) : bool := (stream_type t =? AUDIO_STREAM_TTS) || (stream_type t =? AUDIO_STREAM_TIP).

(** The structure after audio_aps_monitor_init with an observer. *)
Definition init_tws_handle (c : config) (t : track) : aps_monitor_info_t :=
  let d := c_default c in
  set_dest_level d (set_last_level d (set_current_level d
    (set_audio_track (Some (set_waitto_start true t)) (set_current_level d (set_dest_level d
      (set_duration 1 (set_role BTSRV_TWS_MASTER (set_tws_observer true (switch_handle c t))))))))).

Lemma switch_tws e f w : f ∈ relay_formats -> init_switch e f true w = (w' ← init_switch e f false w; init_tws true w').
Proof.
  unfold relay_formats. intros Hf. unfold init_switch.
  repeat (apply elem_of_cons in Hf as [->|Hf]); [..|apply elem_of_nil in Hf as []]; reflexivity.
Qed.

Definition init_tws_world (c : config) (t : track) (w : world) : world :=
  mk_world (init_tws_handle c t) (set_simple_tws (is_simple t) zero_snoop) (s_time w)
    (SetAps (audio_handle t) (c_default c) APS_LEVEL_AUDIOPLL :: EnableSampleCnt (audio_handle t) :: ObserverInit (is_simple t) :: trace w).

Lemma init_tws_true t w : audio_track (handle w) = Some t -> align_timer (snoop w) = None -> 0 <= aps_default_level (handle w) < 2 ^ 8 ->
  let d := aps_default_level (handle w) in
  init_tws true w = Some (mk_world
    (set_audio_track (Some (set_waitto_start true t)) (set_current_level d (set_dest_level d (set_duration 1 (set_role BTSRV_TWS_MASTER (set_tws_observer true (handle w)))))))
    (set_simple_tws (is_simple t) zero_snoop) (s_time w)
    (SetAps (audio_handle t) d (aps_mode (handle w)) :: EnableSampleCnt (audio_handle t) :: ObserverInit (is_simple t) :: trace w)).
Proof.
  intros Ht Hn Hd. cbv zeta. unfold init_tws, audio_aps_monitor_tws_init. rewrite Hn. unfold the_track. cbv zeta. acbn. rewrite Ht. acbn.
  cbn [mbind option_bind]. rewrite set_aps_fast by exact Hd. acbn. rewrite Ht. reflexivity.
Qed.

Lemma init_tws_eq e f t w : f ∈ relay_formats -> a2dp_lantency e = 0 -> align_timer (snoop w) = None ->
  audio_aps_monitor_init e f true (Some t) w = Some (init_tws_world (format_config e f) t w).
Proof.
  intros Hf Ha Ht. unfold audio_aps_monitor_init. destruct (format_only f Hf) as [-> ->].
  rewrite switch_tws, (switch_eq e f t w Hf Ha) by exact Hf. pose proof (default_u8 e f) as Hd. set (c := format_config e f) in *.
  assert (0 <= c_default c < 2 ^ 8) by (rewrite <- Hd; apply u8_range).
  cbn [mbind option_bind]. rewrite (init_tws_true t) by (assumption || reflexivity). cbn [mbind option_bind].
  unfold init_tws_world, init_tws_handle, upd. acbn. cbn [switch_handle aps_default_level]. rewrite !Hd. reflexivity.
Qed.

Lemma tws_init_inv e f t w : Forall in_range (trace w) -> tws_inv (init_tws_world (format_config e f) t w).
Proof.
  intros Hr. assert (Hd : 2 <= c_default (format_config e f) <= 5) by (unfold format_config; repeat case_match; cbn [c_default]; level_lia).
  split; [|split; [intros d; symmetry; exact (default_u8 e f)|left; repeat split]].
  split; [reflexivity|split; [discriminate|split; [reflexivity|split; [exact Hd|]]]].
  split; [unfold inner_level, init_tws_world, init_tws_handle; acbn; rewrite default_u8; level_lia|].
  split; [cbn; lia|]. constructor; [unfold in_range, pll_level; level_lia|]. repeat (constructor; [exact I|]). exact Hr.
Qed.

(** ** The loop of requests *)

(** The master of two earphones: one decision, and the library that grants the
    request. *)
Definition check_round (e : env) (pcm_time : Z) (w : world) : option world :=
  '(w, r) ← _monitor_aout_rate e pcm_time true w;
  if r =? 0xFF then Some w else _set_base_aps_level r w.

(** Decisions at times that are not wrapped yet. *)
Definition at_time (t : Z) (e : env) : env :=
  mk_env (u32 t) (cyc e) (tws_role e) (fill_samples e) (a2dp_lantency e) (low_latency e) (threshold e) (threshold_min e).

Fixpoint check_rounds (e : env) (calls : list (Z * Z)) (w : world) : option world :=
  match calls with
  | [] => Some w
  | (t, pcm_time) :: calls => w ← check_round (at_time t e) pcm_time w; check_rounds e calls w
  end.

(** Times from [t] to [limit] that are at least 220 ms apart, and lengths that
    are more than 1 ms above the mark. *)
Fixpoint above (thr t limit : Z) (calls : list (Z * Z)) : Prop :=
  match calls with
  | [] => True
  | (t', n) :: calls => t + 220 <= t' <= limit /\ 1000 < n - thr < 2 ^ 31 /\ above thr t' limit calls
  end.

Definition mark (w : world) : Z := s32 (aps_increase_water_mark (handle w)).

(** Four decisions at most for each level: the count goes from -2 to 2. *)
Definition to_go (w : world) : Z := 4 * (APS_LEVEL_7 - dest_level (handle w)) - check_count (snoop w).

Lemma u32_since t a : a <= t < a + 2 ^ 32 -> u32 (u32 t - u32 a) = t - a.
Proof. intros H. unfold u32. rewrite <- Zminus_mod. apply Z.mod_small. lia. Qed.

Lemma round_progress e a t pcm w : tws_inv w -> settled w -> adjust_time (snoop w) = u32 a -> a + 220 <= t < a + 2 ^ 32 ->
  1000 < pcm - mark w < 2 ^ 31 ->
  exists w' a', check_round (at_time t e) pcm w = Some w' /\ tws_inv w' /\ settled w' /\ mark w' = mark w /\
    adjust_time (snoop w') = u32 a' /\ a <= a' <= t /\
    (dest_level (handle w) < APS_LEVEL_7 -> to_go w' <= to_go w - 1) /\ dest_level (handle w) <= dest_level (handle w').
Proof.
  intros Hi Hs Ha Ht Hp. pose proof Hi as (Hc & Hh & _). pose proof Hc as (_ & _ & _ & Hdf & Hd & Hcc & _).
  unfold check_round. destruct (rate_step (at_time t e) pcm true w Hc (inv_current w Hi)) as (w1 & r & -> & S & Hr).
  cbn [mbind option_bind]. fold (mark w) in Hr. change (now (at_time t e)) with (u32 t) in Hr. rewrite Ha, u32_since in Hr by lia.
  pose proof Hs as (Hsa & Hcur & Hn). rewrite Hcur in Hr. unfold inner_level in Hd.
  pose proof (next_count_range pcm (mark w) _ Hcc) as (Hr1 & Hr2 & _). specialize (Hr2 ltac:(lia)).
  pose proof S as (S1 & S2 & S3 & S4 & S5).
  assert (Hs1 : settled w1) by (unfold settled; rewrite S1, S4, S5; exact Hs).
  assert (Hi1 : -2 <= check_count (snoop w1) <= 2 -> tws_inv w1).
  { intros Hcc1. apply (inv_same w); auto; [rewrite S2; apply Hc|intros d; rewrite S2; reflexivity]. }
  assert (Hm : mark w1 = mark w) by (unfold mark; rewrite S1; reflexivity).
  destruct Hr as [(-> & E1 & E2 & Hmax)|(Hr & Hne & _ & E1 & E2 & Hdir)].
  - change (255 =? 255) with true. cbn match. exists w1, a. split; [reflexivity|]. split; [apply Hi1; lia|].
    split; [exact Hs1|split; [exact Hm|split; [congruence|split; [lia|]]]]. unfold to_go. rewrite S1.
    split; [|lia]. intros Hlt. unfold highest in Hmax. cbn match in Hmax.
    destruct (Z.le_gt_cases 2 (next_count pcm (mark w) (check_count (snoop w)))) as [H2|H2]; [specialize (Hmax ltac:(lia) H2 ltac:(lia)); level_lia|].
    rewrite E2. lia.
  - unfold lowest, highest in Hr, Hdir. cbn match in Hr, Hdir. specialize (Hdir ltac:(level_lia)) as (_ & Hup & _). specialize (Hup ltac:(lia)).
    destruct (Z.eqb_spec r 0xFF); [level_lia|].
    destruct (set_base_ok r w1) as (w2 & -> & Hi2 & Hb); [right; exact Hr|apply Hi1; lia|].
    destruct Hb as (Hs2 & Hd2 & _ & Hm2 & _ & Hc2 & Ha2); [rewrite S1; lia|].
    rewrite (proj2 (Z.eqb_neq r 0xFF)) in Hd2 by assumption.
    exists w2, t. split; [reflexivity|]. split; [exact Hi2|split; [exact Hs2|]]. split; [unfold mark in *; rewrite Hm2; exact Hm|].
    split; [rewrite Ha2, E1; unfold u32; apply Z.mod_mod; lia|]. split; [lia|]. unfold to_go. rewrite Hd2, Hc2, E2. split; [|lia]. intros _. level_lia.
Qed.

Lemma rounds_progress e limit calls : forall a t w, tws_inv w -> settled w -> adjust_time (snoop w) = u32 a -> a <= t -> limit < a + 2 ^ 32 ->
  above (mark w) t limit calls ->
  exists w', check_rounds e calls w = Some w' /\ tws_inv w' /\ settled w' /\
    (dest_level (handle w') = APS_LEVEL_7 \/ to_go w' <= to_go w - Z.of_nat (length calls)) /\ dest_level (handle w) <= dest_level (handle w').
Proof.
  induction calls as [|[t' n] calls IH]; intros a t w Hi Hs Ha Hat Hl Hb; [exists w; cbn [check_rounds length]; split; [reflexivity|split; [exact Hi|split; [exact Hs|split; [right; lia|lia]]]]|].
  destruct Hb as (Ht & Hn & Hb). cbn [check_rounds].
  destruct (round_progress e a t' n w Hi Hs Ha ltac:(lia) Hn) as (w1 & a1 & -> & Hi1 & Hs1 & Hm & Ha1 & Haa & Hgo & Hup).
  cbn [mbind option_bind]. rewrite <- Hm in Hb.
  destruct (IH a1 t' w1 Hi1 Hs1 Ha1 ltac:(lia) ltac:(lia) Hb) as (w2 & E2 & Hi2 & Hs2 & Hd2 & Hup2).
  exists w2. split; [exact E2|split; [exact Hi2|split; [exact Hs2|split; [|lia]]]].
  pose proof Hi as ((_ & _ & _ & _ & Hd & _) & _). pose proof Hi2 as ((_ & _ & _ & _ & Hd' & _) & _). unfold inner_level in *.
  destruct Hd2 as [Hd2|Hd2]; [auto|].
  destruct (Z.eq_dec (dest_level (handle w)) APS_LEVEL_7) as [E|E]; [left; lia|]. right. specialize (Hgo ltac:(lia)). cbn [length]. lia.
Qed.

(** C27: The request loop of the master keeps up with a fast source.  Let the
    base level leave one level on each side, as after init ([tws_inv]), no
    alignment be under way and none come in between, the decisions be at least
    220 ms apart and within one turn of the 32-bit clock, the length stay more than a millisecond above the mark, and the
    library grant what is asked for.  Then the base level rises and is the
    fastest that leaves room for an alignment after at most four decisions per
    level and one more, however the count of earlier lengths stood.  (What an
    alignment in between does is [edge_alignment_resets].) *)
Theorem tws_catches_up e a t limit calls w : tws_inv w -> settled w -> adjust_time (snoop w) = u32 a -> a <= t -> limit < a + 2 ^ 32 ->
  above (mark w) t limit calls -> 4 * (APS_LEVEL_7 - dest_level (handle w)) < Z.of_nat (length calls) ->
  exists w', check_rounds e calls w = Some w' /\ tws_inv w' /\ dest_level (handle w') = APS_LEVEL_7 /\ current_level (handle w') = APS_LEVEL_7.
Proof.
  intros Hi Hs Ha Hat Hl Hb Hn. destruct (rounds_progress e limit calls a t w Hi Hs Ha Hat Hl Hb) as (w' & E & Hi' & Hs' & Hd & _).
  exists w'. split; [exact E|split; [exact Hi'|]]. pose proof Hs' as (_ & -> & _).
  destruct (Z.eq_dec (dest_level (handle w')) APS_LEVEL_7) as [->|Hne]; [auto|]. exfalso. destruct Hd as [Hd|Hg]; [contradiction|].
  pose proof Hi as ((_ & _ & _ & _ & _ & Hc & _) & _). pose proof Hi' as ((_ & _ & _ & _ & Hd' & Hc' & _) & _).
  unfold to_go, inner_level in *. level_lia.
Qed.

Lemma aout_clamp_edge cur dflt adj : cur = 0 \/ cur = 7 -> 2 <= dflt <= 5 -> cur - 1 <= adj <= cur + 1 ->
  aout_rate_clamp cur dflt (APS_LEVEL_1 + 1) (APS_LEVEL_8 - 1) adj = dflt.
Proof.
  intros Hc Hd Ha. unfold aout_rate_clamp, APS_LEVEL_1, APS_LEVEL_8.
  destruct (Z.ltb_spec (7 - 1) adj), (Z.ltb_spec adj (0 + 1)), (Z.ltb_spec (7 - 1) (0 + 1)); try lia;
    (match goal with |- context [?x =? cur] => destruct (Z.eqb_spec x cur) end; [lia|]);
    destruct (Z.ltb_spec cur dflt), (Z.ltb_spec dflt cur); try lia; cbn [andb];
    repeat match goal with |- context [?x <? ?y] => destruct (Z.ltb_spec x y); cbn [andb] end; lia.
Qed.

(** An alignment at the edge undoes the base level.  While the master plays
    the first or the last level to align with the other earphone, every decision
    asks for the default level, whatever the length is and however little time
    has passed since the last change. *)
Theorem edge_alignment_resets e pcm w : tws_inv w -> aligning w ->
  current_level (handle w) = APS_LEVEL_1 \/ current_level (handle w) = APS_LEVEL_8 ->
  exists w', _monitor_aout_rate e pcm true w = Some (w', aps_default_level (handle w)).
Proof.
  intros Hi _ Hcur. pose proof Hi as (Hc & _). pose proof Hc as (_ & _ & _ & Hd & _ & Hcc & _). unfold _monitor_aout_rate.
  destruct (tws_inv_track w Hc) as [t Ht]. rewrite (tws_inv_snoop w Hc), Ht. cbn [mbind option_bind].
  set (thr := s32 (aps_increase_water_mark (handle w))). set (cc := next_count pcm thr (check_count (snoop w))).
  change (if (thr <? pcm) && _ then _ else _) with cc. set (cur := current_level (handle w)) in *.
  set (dflt := aps_default_level (handle w)) in *.
  assert (Htrim : (Z.abs (s32 (pcm - thr)) <=? 1000) && (dflt - 1 <=? cur) && (cur <=? dflt + 1) = false).
  { destruct (_ <=? 1000), (Z.leb_spec (dflt - 1) cur), (Z.leb_spec cur (dflt + 1)); cbn [andb]; (reflexivity || level_lia). }
  rewrite Htrim. eexists. f_equal. f_equal. apply aout_clamp_edge; [level_lia|exact Hd|].
  pose proof (aout_step_spec (u32 (now e - adjust_time (snoop w))) cc cur (APS_LEVEL_1 + 1) (APS_LEVEL_8 - 1) pcm thr false ltac:(level_lia)) as Hs.
  cbv zeta in Hs. lia.
Qed.

(** The timer of an alignment can expire without its observer.  deinit
    clears the pointer first and stops the timer after that: an expiry between
    the two reads through a NULL pointer, in every state with an alignment. *)
Theorem align_timer_after_deinit w : tws_inv w -> aligning w ->
  align_timer (snoop (tws_deinit_observer w)) <> None /\ align_timer_expires (tws_deinit_observer w) = None /\
  audio_aps_monitor_tws_deinit w = tws_deinit_timer (tws_deinit_observer w).
Proof.
  intros ((Ho & _) & _) (_ & _ & Hn). split; [exact Hn|]. split; [reflexivity|].
  unfold audio_aps_monitor_tws_deinit. rewrite Ho. reflexivity.
Qed.

(** ** The fine mode *)

(** The levels it uses: in the fractional mode of the PLL around 16, otherwise
    one level on each side of the exact rate. *)
Definition fine_range (mode dflt l : Z) : Prop :=
  if mode =? 2 then 10 <= l <= 22 else l = dflt \/ l = APS_LEVEL_4 \/ l = APS_LEVEL_5 \/ l = APS_LEVEL_0PPM.

Definition fine_inv (mode dflt : Z) (w : world) : Prop :=
  let h := handle w in
  need_aps h = true /\ need_aps_fine h = true /\ audiopll_mode h = mode /\ role h = BTSRV_TWS_NONE /\ audio_track h <> None /\
  current_level h = last_level h /\ fine_range mode dflt (current_level h) /\ 0 <= dflt <= 16 /\
  Forall (fun o => match o with SetAps _ l m => fine_range mode dflt l /\ m = aps_mode h | _ => True end) (trace w).

Lemma fine_range_u8 mode dflt l : 0 <= dflt <= 16 -> fine_range mode dflt l -> 0 <= l <= 22.
Proof. unfold fine_range. destruct (_ =? _); level_lia. Qed.

Lemma fine_level_ok t pcm thr diff zero h mode dflt : audiopll_mode h = mode -> current_level h = last_level h ->
  fine_range mode dflt (current_level h) -> fine_range mode dflt (fine_level t pcm thr diff zero h).
Proof.
  intros Hm Hc Hr. unfold fine_level, fine_range in *. rewrite Hm, <- Hc. destruct (mode =? 2).
  - rewrite (u8_small (current_level h + 1)), (u8_small (current_level h - 1)) by lia. repeat case_match; reflect_bools; lia.
  - repeat case_match; auto.
Qed.

Lemma fine_step t pcm w mode dflt : fine_inv mode dflt w ->
  let '(h, ret) := _monitor_aout_rate_fine t pcm (handle w) in
  (ret = 0xFF /\ h = handle w \/ fine_range mode dflt ret /\ last_level h = ret) /\
  (need_aps h, need_aps_fine h, audiopll_mode h, role h, audio_track h) =
  (need_aps (handle w), need_aps_fine (handle w), audiopll_mode (handle w), role (handle w), audio_track (handle w)).
Proof.
  intros (_ & _ & Hm & _ & _ & Hc & Hr & Hd & _). unfold _monitor_aout_rate_fine. cbv zeta. destruct (negb _ && _).
  - unfold fine_start. cbv beta zeta iota. split; [right|reflexivity]. unfold fine_range. acbn. rewrite Hm.
    destruct (mode =? 2); split; (reflexivity || lia || auto).
  - set (adj := fine_level _ _ _ _ _ _). assert (Ha : fine_range mode dflt adj) by (apply fine_level_ok; assumption).
    destruct (adj =? last_level (handle w)); [split; [left; auto|reflexivity]|]. split; [right; split; [exact Ha|]|reflexivity].
    acbn. apply u8_small. pose proof (fine_range_u8 mode dflt adj Hd Ha). lia.
Qed.

Lemma fine_monitor e pcm w mode dflt : a2dp_lantency e = 0 -> fine_inv mode dflt w ->
  exists w', audio_aps_monitor e pcm w = Some w' /\ fine_inv mode dflt w'.
Proof.
  intros Ha Hi. unfold audio_aps_monitor. destruct (_ <? _); [exists w; auto|]. rewrite Ha. change (negb (0 =? 0)) with false. cbn match.
  pose proof Hi as (H1 & H2 & H3 & H4 & H5 & H6 & H7 & H8 & H9). rewrite H4. change (BTSRV_TWS_NONE =? BTSRV_TWS_NONE) with true. cbn match.
  unfold audio_aps_monitor_normal. change (the_track (set_s_time (now e) w)) with (audio_track (handle w)).
  destruct (audio_track (handle w)) as [t|] eqn:Ht; [|congruence]. cbn [mbind option_bind]. change (handle (set_s_time (now e) w)) with (handle w).
  rewrite H1, H2. cbn [negb]. pose proof (fine_step (now e) pcm w mode dflt Hi) as Hs.
  destruct (_monitor_aout_rate_fine (now e) pcm (handle w)) as [h ret]. destruct Hs as [Hs E]. injection E as E1 E2 E3 E4 E5. rewrite Ht in E5.
  assert (Hne : audio_track h <> None) by congruence.
  assert (Hmode : forall h', audiopll_mode h' = audiopll_mode (handle w) -> aps_mode h' = aps_mode (handle w)).
  { intros h' Eh. unfold aps_mode. rewrite Eh. reflexivity. }
  destruct Hs as [[-> ->]|[Hf Hl]].
  - change (255 =? 255) with true. cbn match. eexists. split; [reflexivity|exact Hi].
  - pose proof (fine_range_u8 mode dflt ret H8 Hf) as Hu. rewrite (proj2 (Z.eqb_neq ret 0xFF)) by lia.
    assert (Hur : u8 ret = ret) by (apply u8_small; lia).
    eexists. split; [reflexivity|].
    split; [exact (eq_trans E1 H1)|split; [exact (eq_trans E2 H2)|split; [exact (eq_trans E3 H3)|split; [exact (eq_trans E4 H4)|split; [exact Hne|]]]]].
    split; [acbn; congruence|split; [acbn; rewrite Hur; exact Hf|split; [exact H8|]]].
    constructor; [split; [acbn; rewrite Hur; exact Hf|reflexivity]|].
    eapply Forall_impl; [exact H9|]. intros [] Ho; try exact Ho. destruct Ho as [Ho ->]. split; [exact Ho|].
    symmetry. exact (Hmode h E3).
Qed.

Lemma fine_run mode dflt calls : Forall (fun c => a2dp_lantency c.1 = 0) calls -> forall w, fine_inv mode dflt w ->
  exists w', monitor_run calls w = Some w' /\ fine_inv mode dflt w'.
Proof.
  induction 1 as [|[e n] calls Ha _ IH]; intros w Hi; [exists w; auto|].
  destruct (fine_monitor e n w mode dflt Ha Hi) as (w1 & E1 & H1). destruct (IH w1 H1) as (w2 & E2 & H2).
  exists w2. split; [cbn [monitor_run]; rewrite E1; exact E2|exact H2].
Qed.

Definition fine_default (e : env) (mode : Z) : Z := if mode =? 2 then 16 else if low_latency e then APS_LEVEL_3 else APS_LEVEL_5.

Lemma fine_format f m : f ∈ [NAV_TYPE; PCM_DSP_TYPE] -> m ∈ [0; 1; 2] ->
  u8 (Z.land (f + 65536 * m) 0xff) = f /\ u8 (Z.shiftr (Z.land (f + 65536 * m) 0x30000) 16) = m.
Proof.
  intros Hf Hm. repeat (apply elem_of_cons in Hf as [->|Hf]); [..|apply elem_of_nil in Hf as []];
    (repeat (apply elem_of_cons in Hm as [->|Hm]); [..|apply elem_of_nil in Hm as []]); split; reflexivity.
Qed.

(** The fields the fine mode depends on, after the switch. *)
Definition fine_set_up (m dflt : Z) (h : aps_monitor_info_t) : Prop :=
  need_aps h = true /\ need_aps_fine h = true /\ audiopll_mode h = m /\ role h = BTSRV_TWS_NONE /\ audio_track h <> None /\ aps_default_level h = dflt.

Lemma init_fine_ok e thres m t : fine_set_up m (fine_default e m) (init_fine e thres (aps_defaults e m (Some t))).
Proof.
  unfold init_fine, fine_default. change (audiopll_mode (aps_defaults e m (Some t))) with m.
  destruct (m =? 2); [|destruct (low_latency e)]; repeat (split; [reflexivity|]); (split; [discriminate|reflexivity]).
Qed.

Lemma wait_ok m d w : fine_set_up m d (handle w) ->
  exists w1, wait_to_start w = Some w1 /\ fine_set_up m d (handle w1) /\ trace w1 = trace w.
Proof.
  intros (H1 & H2 & H3 & H4 & H5 & H6). unfold wait_to_start, the_track.
  destruct (audio_track (handle w)) as [t|]; [|congruence]. cbn [mbind option_bind].
  eexists. split; [reflexivity|]. split; [|reflexivity]. repeat (split; [assumption|]). split; [discriminate|exact H6].
Qed.

Lemma switch_nav e observer w : init_switch e NAV_TYPE observer w =
  (w ← wait_to_start (upd (init_fine e 18) w); Some (upd (set_lea_restarting false) w)).
Proof. reflexivity. Qed.

Lemma switch_pcm_dsp e observer w : init_switch e PCM_DSP_TYPE observer w = wait_to_start (upd (init_fine e 200) w).
Proof. reflexivity. Qed.

Lemma fine_switch e f m observer t w : f ∈ [NAV_TYPE; PCM_DSP_TYPE] ->
  exists w1, init_switch e f observer (upd (fun _ => aps_defaults e m (Some t)) w) = Some w1 /\
    fine_set_up m (fine_default e m) (handle w1) /\ trace w1 = trace w.
Proof.
  intros Hf.
  assert (Hw : forall thres, exists w1, wait_to_start (upd (init_fine e thres) (upd (fun _ => aps_defaults e m (Some t)) w)) = Some w1 /\
    fine_set_up m (fine_default e m) (handle w1) /\ trace w1 = trace w).
  { intros thres. exact (wait_ok m _ (upd (init_fine e thres) (upd (fun _ => aps_defaults e m (Some t)) w)) (init_fine_ok e thres m t)). }
  repeat (apply elem_of_cons in Hf as [->|Hf]); [..|apply elem_of_nil in Hf as []].
  - destruct (Hw 18) as (w1 & E & (H1 & H2 & H3 & H4 & H5 & H6) & Ht). exists (upd (set_lea_restarting false) w1).
    split; [rewrite switch_nav, E; reflexivity|].
    split; [|exact Ht]. repeat (split; [assumption|]). exact H6.
  - rewrite switch_pcm_dsp. exact (Hw 200).
Qed.

Lemma fine_init e f m observer t w : f ∈ [NAV_TYPE; PCM_DSP_TYPE] -> m ∈ [0; 1; 2] -> trace w = [] ->
  exists w1, audio_aps_monitor_init e (f + 65536 * m) observer (Some t) w = Some w1 /\ fine_inv m (fine_default e m) w1.
Proof.
  intros Hf Hm Hw. unfold audio_aps_monitor_init. destruct (fine_format f m Hf Hm) as [-> ->].
  destruct (fine_switch e f m observer t w Hf) as (w1 & -> & (H1 & H2 & H3 & H4 & H5 & H6) & Ht). cbn [mbind option_bind].
  eexists. split; [reflexivity|].
  assert (Hd : 0 <= fine_default e m <= 16) by (unfold fine_default; repeat case_match; level_lia).
  assert (Hu : u8 (fine_default e m) = fine_default e m) by (apply u8_small; lia).
  unfold fine_inv. acbn. rewrite H6, Ht, Hw, !Hu. repeat (split; [assumption|]). split; [reflexivity|]. split; [|split; [exact Hd|constructor]].
  unfold fine_range, fine_default. destruct (m =? 2); [lia|auto].
Qed.

(** In the fine mode the PLL stays near its middle.  After any sequence of
    calls with any lengths, the level is between 10 and 22 of the 6 to 26 of the
    fractional mode, and otherwise one of four; every level that was written to
    the PLL is one of these and was written in the mode it belongs to. *)
Theorem fine_levels_bounded e f m observer t w calls :
  f ∈ [NAV_TYPE; PCM_DSP_TYPE] -> m ∈ [0; 1; 2] -> trace w = [] -> Forall (fun c => a2dp_lantency c.1 = 0) calls ->
  exists w1 w2, audio_aps_monitor_init e (f + 65536 * m) observer (Some t) w = Some w1 /\ monitor_run calls w1 = Some w2 /\
    fine_range m (fine_default e m) (current_level (handle w2)) /\
    Forall (fun o => match o with SetAps _ l md => fine_range m (fine_default e m) l /\ md = (if m =? 2 then APS_LEVEL_AUDIOPLL_F else APS_LEVEL_AUDIOPLL) | _ => True end)
      (trace w2).
Proof.
  intros Hf Hm Hw Hc. destruct (fine_init e f m observer t w Hf Hm Hw) as (w1 & E1 & H1).
  destruct (fine_run m (fine_default e m) calls Hc w1 H1) as (w2 & E2 & (_ & _ & Hmode & _ & _ & _ & Hr & _ & Ht)).
  exists w1, w2. split; [exact E1|split; [exact E2|split; [exact Hr|]]]. unfold aps_mode in Ht. rewrite Hmode in Ht. exact Ht.
Qed.

(** ** The positions of the two earphones *)

Lemma sdm_down_ok n : forall cnt, cnt <= SDM_CNT_MASK / 2 + Z.of_nat n * (SDM_CNT_MASK + 1) ->
  sdm_down n cnt <= SDM_CNT_MASK / 2 /\ sdm_down n cnt mod 2 ^ 28 = cnt mod 2 ^ 28 /\
  (sdm_down n cnt = cnt \/ - (SDM_CNT_MASK / 2) - 1 <= sdm_down n cnt).
Proof.
  induction n as [|n IH]; intros cnt Hc; cbn [sdm_down]; [split; [lia|auto]|].
  destruct (Z.ltb_spec (SDM_CNT_MASK / 2) cnt); [|split; [lia|auto]].
  destruct (IH (cnt - (SDM_CNT_MASK + 1))) as (H1 & H2 & H3); [lia|].
  split; [exact H1|]. split.
  - rewrite H2. change (SDM_CNT_MASK + 1) with (2 ^ 28). rewrite Zminus_mod, Z_mod_same_full, Z.sub_0_r, Z.mod_mod; [reflexivity|lia].
  - right. destruct H3 as [->|H3]; [|exact H3]. change (SDM_CNT_MASK / 2) with 134217727 in *. change SDM_CNT_MASK with 268435455. lia.
Qed.

Lemma sdm_up_ok n : forall cnt, - (SDM_CNT_MASK / 2) - Z.of_nat n * (SDM_CNT_MASK + 1) <= cnt <= SDM_CNT_MASK / 2 ->
  - (SDM_CNT_MASK / 2) <= sdm_up n cnt <= SDM_CNT_MASK / 2 + 1 /\ sdm_up n cnt mod 2 ^ 28 = cnt mod 2 ^ 28.
Proof.
  change (SDM_CNT_MASK / 2) with 134217727. induction n as [|n IH]; intros cnt Hc; cbn [sdm_up]; [split; [lia|reflexivity]|].
  change (SDM_CNT_MASK / 2) with 134217727. destruct (Z.ltb_spec cnt (- (134217727))); [|split; [lia|reflexivity]].
  change (SDM_CNT_MASK + 1) with (2 ^ 28) in *.
  destruct (Z.eq_dec cnt (-134217728)) as [->|Hne].
  - change (-134217728 + 2 ^ 28) with 134217728. replace (sdm_up n 134217728) with 134217728 by (destruct n; reflexivity). split; [lia|reflexivity].
  - destruct (IH (cnt + 2 ^ 28)) as (H1 & H2); [lia|]. split; [exact H1|].
    rewrite H2. rewrite <- (Z.mul_1_l (2 ^ 28)) at 1. apply Z_mod_plus_full.
Qed.

(** The difference of two sample counters is the shortest one.  The two
    loops of _get_sdm_cnt_delta_time end for every 32-bit count, and what they
    leave is the count modulo 2^28 that is closest to zero; the result is this
    number of samples in microseconds. *)
Theorem sdm_delta_shortest cnt w t : -2 ^ 31 <= cnt < 2 ^ 31 -> the_track w = Some t ->
  exists d, _get_sdm_cnt_delta_time cnt w = s32 (Z.quot (d * 1000000) (sdm_sample_rate t)) /\
    d mod 2 ^ 28 = cnt mod 2 ^ 28 /\ - 2 ^ 27 < d <= 2 ^ 27.
Proof.
  intros Hc Ht. unfold _get_sdm_cnt_delta_time. rewrite Ht. exists (sdm_up 9 (sdm_down 9 cnt)). split; [reflexivity|].
  destruct (sdm_down_ok 9 cnt) as (H1 & H2 & H3); [change (SDM_CNT_MASK / 2) with 134217727; change SDM_CNT_MASK with 268435455; lia|].
  destruct (sdm_up_ok 9 (sdm_down 9 cnt)) as (H4 & H5).
  { change (SDM_CNT_MASK / 2) with 134217727 in *. change SDM_CNT_MASK with 268435455. lia. }
  change (SDM_CNT_MASK / 2) with 134217727 in *. split; [congruence|lia].
Qed.

(** ** The averages of the low latency mode *)

Definition total (a : average) : Z := 16 * value a + left_over a.
Definition average_ok (a : average) : Prop := 0 <= value a < 2 ^ 26 /\ 0 <= left_over a < 16.

(** Nothing is lost in the division: the remainder is carried over. *)
Lemma average_exact l a : 0 <= l < 2 ^ 26 -> average_ok a ->
  average_ok (audio_aps_get_average l a) /\ total (audio_aps_get_average l a) = total a - value a + l.
Proof.
  intros Hl [Hv Hr]. unfold audio_aps_get_average, average_ok, total. cbn [value left_over].
  rewrite (s32_small (value a * 15 + l + left_over a)) by lia. set (s := value a * 15 + l + left_over a).
  rewrite Z.quot_div_nonneg by lia. rewrite s32_small by (pose proof (Z.div_mod s 16 ltac:(lia)); pose proof (Z.mod_pos_bound s 16); lia).
  Z.div_mod_to_equations. subst s. lia.
Qed.

(** How far a total is from the ones whose value is [l]. *)
Definition away (l : Z) (a : average) : Z := Z.max 0 (Z.max (16 * l - total a) (total a - (16 * l + 15))).

Lemma average_closer l a : 0 <= l < 2 ^ 26 -> average_ok a -> away l (audio_aps_get_average l a) <= Z.max 0 (away l a - 1).
Proof. intros Hl Ha. destruct (average_exact l a Hl Ha) as [[? ?] Ht]. destruct Ha. unfold away, total in *. lia. Qed.

Fixpoint average_of (n : nat) (l : Z) (a : average) : average :=
  match n with O => a | S n => average_of n l (audio_aps_get_average l a) end.

(** A running average finds a steady length.  Fed with the same length it
    never moves away from it, and it has exactly this value after at most
    sixteen rounds for each microsecond it was away, and sixteen more. *)
Theorem average_converges n l a : 0 <= l < 2 ^ 26 -> average_ok a ->
  16 * Z.abs (value a - l) + 16 <= Z.of_nat n -> value (average_of n l a) = l.
Proof.
  intros Hl Ha Hn.
  enough (Hgen : forall n a, average_ok a -> away l a <= Z.of_nat n -> value (average_of n l a) = l).
  { apply Hgen; [exact Ha|]. destruct Ha. unfold away, total. lia. }
  clear n a Ha Hn. induction n as [|n IH]; intros a Ha Hn; cbn [average_of].
  - destruct Ha. unfold away, total in Hn. lia.
  - destruct (average_exact l a Hl Ha) as [Ha' _]. apply IH; [exact Ha'|]. pose proof (average_closer l a Hl Ha). lia.
Qed.

(** ** The rate that is reported *)

(** The reported rate belongs to the level.  For the eight levels of the PLL
    it rises with the level, and stays between 44.0 and 44.2 kHz or between 47.8
    and 48.2 kHz. *)
Theorem samplerate_follows_level b w w' : pll_level (current_level (handle w)) -> pll_level (current_level (handle w')) ->
  current_level (handle w) < current_level (handle w') ->
  audio_aps_get_samplerate_hz b w < audio_aps_get_samplerate_hz b w' /\
  (if b then 47800 <= audio_aps_get_samplerate_hz b w <= 48200 else 44000 <= audio_aps_get_samplerate_hz b w <= 44200).
Proof.
  unfold audio_aps_get_samplerate_hz, pll_level. generalize (current_level (handle w)) (current_level (handle w')). clear w w'.
  intros l l' Hl Hl' Hlt. unfold APS_LEVEL_1, APS_LEVEL_8 in *.
  assert (Hc : l = 0 \/ l = 1 \/ l = 2 \/ l = 3 \/ l = 4 \/ l = 5 \/ l = 6 \/ l = 7) by lia.
  assert (Hc' : l' = 0 \/ l' = 1 \/ l' = 2 \/ l' = 3 \/ l' = 4 \/ l' = 5 \/ l' = 6 \/ l' = 7) by lia.
  destruct b, Hc as [->|[->|[->|[->|[->|[->|[->| ->]]]]]]], Hc' as [->|[->|[->|[->|[->|[->|[->| ->]]]]]]]; try lia; vm_compute;
    (split; [reflexivity|split; discriminate]).
Qed.

(** The level of the exact rate, which the fine mode uses, is reported as a rate
    of the other family. *)
Lemma samplerate_0ppm w : current_level (handle w) = APS_LEVEL_0PPM -> audio_aps_get_samplerate_hz false w = 47879.
Proof. intros E. unfold audio_aps_get_samplerate_hz. rewrite E. reflexivity. Qed.

(** ** Concrete playbacks *)

Definition e0 : env := mk_env 100 0 BTSRV_TWS_MASTER 0 0 false 150000 100000.
Definition t0 : track := mk_track 1 2 true false 2 48000 0 3072000 64.
Definition w0 : world := mk_world zero_aps zero_snoop 0 [].
Definition sbc : config := format_config e0 SBC_TYPE.
Definition tws0 : world := init_tws_world sbc t0 w0.

Lemma tws0_inv : tws_inv tws0.
Proof. apply tws_init_inv. constructor. Qed.

(** Full, then down to the middle: the fastest level, then one level down at
    every call that is a period later. *)
Definition filling : list (env * Z) := [(at_time 200 e0, 160000); (at_time 210 e0, 120000); (at_time 300 e0, 120000)].
Definition steady_calls : list (env * Z) := [(at_time 400 e0, 120000); (at_time 500 e0, 120000)].

Lemma sbc_in : SBC_TYPE ∈ relay_formats.
Proof. unfold relay_formats. apply elem_of_cons. left. reflexivity. Qed.

Lemma e0_ok : thresholds_ok e0.
Proof. split; cbn; lia. Qed.

Lemma plain_calls : Forall plain_call (filling ++ steady_calls).
Proof. repeat (constructor; [split; cbn; lia|]). constructor. Qed.


Lemma aps_returns_to_default_witness : exists w1 w2, audio_aps_monitor_init e0 SBC_TYPE false (Some t0) w0 = Some w1 /\
  monitor_run (filling ++ steady_calls) w1 = Some w2 /\
  current_level (handle w2) = c_default sbc /\
  (last_write (trace w2) = Some (c_default sbc) \/ last_write (trace w2) = None).
Proof.
  refine (aps_returns_to_default e0 SBC_TYPE t0 w0 filling steady_calls sbc_in eq_refl e0_ok eq_refl plain_calls _ _ _).
  - vm_compute. reflexivity.
  - vm_compute. intuition discriminate.
  - vm_compute. discriminate.
Defined.

(** An alignment, and the timer that ends it. *)
(** From the default level, nine decisions, 300 ms apart. *)
Definition full_calls : list (Z * Z) := (fun i => (300 * i, 160000)) <$> [1; 2; 3; 4; 5; 6; 7; 8; 9].

Lemma tws_catches_up_witness : exists w', check_rounds e0 full_calls tws0 = Some w' /\ tws_inv w' /\
  dest_level (handle w') = APS_LEVEL_7 /\ current_level (handle w') = APS_LEVEL_7.
Proof.
  refine (tws_catches_up e0 0 0 2700 full_calls tws0 tws0_inv _ eq_refl _ _ _ _).
  - repeat split.
  - lia.
  - lia.
  - change (mark tws0) with 150000. unfold full_calls. cbn [above fmap list_fmap]. repeat (split; [lia|]). exact I.
  - change (4 * (APS_LEVEL_7 - dest_level (handle tws0)) < 9). vm_compute. reflexivity.
Defined.

(** The base level is the sixth, and the other earphone is ahead. *)
Definition tws_edge : world := default tws0 (run_event (SetBase APS_LEVEL_7) tws0 ≫= run_event (TimeDiff e0 (-10))).

Lemma tws_edge_ok : tws_inv tws_edge /\ aligning tws_edge.
Proof.
  destruct (set_base_ok APS_LEVEL_7 tws0 ltac:(right; unfold inner_level; level_lia) tws0_inv) as (w1 & E1 & H1 & _).
  destruct (diff_ok e0 (-10) w1 H1) as (w2 & E2 & H2 & H3). specialize (H3 ltac:(lia)) as [H3 _].
  unfold tws_edge. cbn [run_event]. rewrite E1. cbn [mbind option_bind run_event]. rewrite E2. cbn [default from_option id]. auto.
Qed.

Lemma edge_alignment_resets_witness : exists w', _monitor_aout_rate e0 160000 true tws_edge = Some (w', aps_default_level (handle tws_edge)).
Proof.
  exact (edge_alignment_resets e0 160000 tws_edge (proj1 tws_edge_ok) (proj2 tws_edge_ok) (or_intror eq_refl)).
Defined.

Lemma align_timer_after_deinit_witness :
  align_timer (snoop (tws_deinit_observer tws_edge)) <> None /\ align_timer_expires (tws_deinit_observer tws_edge) = None /\
  audio_aps_monitor_tws_deinit tws_edge = tws_deinit_timer (tws_deinit_observer tws_edge).
Proof. exact (align_timer_after_deinit tws_edge (proj1 tws_edge_ok) (proj2 tws_edge_ok)). Defined.

Lemma fine_levels_bounded_witness : exists w1 w2, audio_aps_monitor_init e0 (NAV_TYPE + 65536 * 2) false (Some t0) w0 = Some w1 /\
  monitor_run (filling ++ steady_calls) w1 = Some w2 /\ fine_range 2 16 (current_level (handle w2)).
Proof.
  destruct (fine_levels_bounded e0 NAV_TYPE 2 false t0 w0 (filling ++ steady_calls)) as (w1 & w2 & E1 & E2 & H & _).
  - apply elem_of_cons. left. reflexivity.
  - apply elem_of_cons. right. apply elem_of_cons. right. apply elem_of_cons. left. reflexivity.
  - reflexivity.
  - repeat (constructor; [reflexivity|]). constructor.
  - exists w1, w2. split; [exact E1|split; [exact E2|exact H]].
Defined.

Lemma sdm_delta_shortest_witness : exists d, _get_sdm_cnt_delta_time 268435400 tws0 = s32 (Z.quot (d * 1000000) 3072000) /\
  d mod 2 ^ 28 = 268435400 mod 2 ^ 28 /\ - 2 ^ 27 < d <= 2 ^ 27.
Proof. exact (sdm_delta_shortest 268435400 tws0 (set_waitto_start true t0) ltac:(lia) eq_refl). Defined.

Lemma average_converges_witness : value (average_of 96 10 (mk_average 5 0)) = 10.
Proof. apply average_converges; [lia|split; cbn; lia|cbn; lia]. Defined.

Lemma samplerate_follows_level_witness : audio_aps_get_samplerate_hz true tws0 < audio_aps_get_samplerate_hz true tws_edge.
Proof. apply samplerate_follows_level; [vm_compute; intuition discriminate|vm_compute; intuition discriminate|reflexivity]. Defined.
