(* ===== verification/Audiolcy.v ===== *)
(** * Latency of music and calls (framework/audio/audiolcy)

    Three latency modes: normal, low and adaptive.  The adaptive mode measures
    the time between packets, recommends a latency from the worst of them, and
    raises the latency at once but lowers it only after a timer.  audiolcy_entry.c
    has the modes and the commands, audiolcy_basic.c the control block of a
    playback and the packets to the second earphone, audiolcy_adaptive.c the
    adaptive mode, audiolcy_interpolation.c the interpolation of lost packets.

    What the code calls is the trace, the latest first; what it reads from other
    components is an [env].  A division by zero and an access through a NULL
    pointer are [None].  ALLM_INSTEAD_OF_LLM is 1. *)

From stdpp Require Import base list numbers option.
From S2P Require Import Prelude.
Open Scope Z_scope.

(** ** Constants *)

Definition LCYAPT_PKTINFO_NUM : Z := 24.
Definition LCYAPT_ADJUST_DIFF_MS : Z := 3.
Definition REGION_NUM : Z := 9.
Definition DOWN_TIMER_NUM : Z := 3.
Definition DOWN_TIMER_SPAN : Z := 5.
Definition DOWN_TIMER_LAST_DIFF : Z := 5.
Definition STACCATO_DIS_FACTOR : Z := 1.

Definition LCYMODE_NORMAL : Z := 0.
Definition LCYMODE_LOW : Z := 1.
Definition LCYMODE_ADAPTIVE : Z := 2.
Definition LCYMODE_END : Z := 3.

Definition LCYSYNC_UPDATE : Z := 1.
Definition LCYSYNC_SAVE : Z := 2.
Definition LCYSYNC_REPEAT : Z := 3.

Definition SBC : Z := 10.
Definition AAC : Z := 6.
Definition STREAM_MUSIC : Z := 2.
Definition STREAM_VOICE : Z := 5.
Definition TWS_NONE : Z := 0.
Definition TWS_MASTER : Z := 2.
Definition TWS_SLAVE : Z := 3.

(** ** State *)

(** audiolcy_cfg_t. *)
Record audiolcy_cfg_t : Type := mk_cfg {
  Default_Low_Latency_Mode : Z;
  Save_Latency_Mode : bool;
  BM_Use_ALLM : bool;
  BM_ALLM_Factor : Z;
  BM_ALLM_Upper : Z;
  BM_PLC_Mode : Z;
  ALLM_recommend_period_s : Z;
  ALLM_scc_ignore_period_ms : Z;
  ALLM_scc_ignore_count : Z;
  ALLM_scc_clear_period_s : Z;
  ALLM_down_timer_period_s : Z
}.

(** audiolcy_global_t. *)
Record audiolcy_global_t : Type := mk_global { cfg : audiolcy_cfg_t; cur_lcy_mode : Z; lcymode_switch_hold : Z }.

(** audiolcyapt_global_t: the last latency, kept between playbacks. *)
Record audiolcyapt_global_t : Type := mk_apt_global { g_format : Z; g_is_valid : bool; g_latency : Z }.

(** lcyapt_source_t, without the field that is not used. *)
Record lcyapt_source_t : Type := mk_source {
  time_span : list Z;  (* u32_t [24], microseconds *)
  frame_cnt : list Z;  (* u8_t [24] *)
  last_pkt_time : Z;
  windex : Z;
  rindex : Z;
  count : Z
}.

Definition set_time_span (v : list Z) (s : lcyapt_source_t) : lcyapt_source_t :=
  mk_source v (frame_cnt s) (last_pkt_time s) (windex s) (rindex s) (count s).
Definition set_frame_cnt (v : list Z) (s : lcyapt_source_t) : lcyapt_source_t :=
  mk_source (time_span s) v (last_pkt_time s) (windex s) (rindex s) (count s).
Definition set_last_pkt_time v (s : lcyapt_source_t) : lcyapt_source_t :=
  mk_source (time_span s) (frame_cnt s) (u32 v) (windex s) (rindex s) (count s).
Definition set_windex v (s : lcyapt_source_t) : lcyapt_source_t :=
  mk_source (time_span s) (frame_cnt s) (last_pkt_time s) (u8 v) (rindex s) (count s).
Definition set_rindex v (s : lcyapt_source_t) : lcyapt_source_t :=
  mk_source (time_span s) (frame_cnt s) (last_pkt_time s) (windex s) (u8 v) (count s).
Definition set_count v (s : lcyapt_source_t) : lcyapt_source_t :=
  mk_source (time_span s) (frame_cnt s) (last_pkt_time s) (windex s) (rindex s) (u8 v).

(** lcyapt_result_t. *)
Record lcyapt_result_t : Type := mk_result {
  pkt_time_ave : Z;
  pkt_time_diff : Z;
  result_factor : Z;
  cbig_thres : Z;
  cbig_count : Z;
  cbig_sum : Z;
  cbig_max : Z;
  ts_region_total : Z;
  ts_region_max : Z;
  ts_region : list Z;  (* u16_t [9] *)
  factor_stat_flag : Z;  (* 0: not init, 1: inited, 2: used *)
  factor_stat_ts : Z;
  factor_last : Z;
  factor_count : Z;
  factor_delta_square_add : Z;
  factor_delta_square_averages : list Z;  (* u16_t [8] *)
  factor_delta_square_weighting : Z
}.

Definition set_pkt_time_ave v (r : lcyapt_result_t) : lcyapt_result_t :=
  mk_result (u32 v) (pkt_time_diff r) (result_factor r) (cbig_thres r) (cbig_count r) (cbig_sum r) (cbig_max r) (ts_region_total r) (ts_region_max r) (ts_region r) (factor_stat_flag r) (factor_stat_ts r) (factor_last r) (factor_count r) (factor_delta_square_add r) (factor_delta_square_averages r) (factor_delta_square_weighting r).
Definition set_pkt_time_diff v (r : lcyapt_result_t) : lcyapt_result_t :=
  mk_result (pkt_time_ave r) (s32 v) (result_factor r) (cbig_thres r) (cbig_count r) (cbig_sum r) (cbig_max r) (ts_region_total r) (ts_region_max r) (ts_region r) (factor_stat_flag r) (factor_stat_ts r) (factor_last r) (factor_count r) (factor_delta_square_add r) (factor_delta_square_averages r) (factor_delta_square_weighting r).
Definition set_result_factor v (r : lcyapt_result_t) : lcyapt_result_t :=
  mk_result (pkt_time_ave r) (pkt_time_diff r) (u16 v) (cbig_thres r) (cbig_count r) (cbig_sum r) (cbig_max r) (ts_region_total r) (ts_region_max r) (ts_region r) (factor_stat_flag r) (factor_stat_ts r) (factor_last r) (factor_count r) (factor_delta_square_add r) (factor_delta_square_averages r) (factor_delta_square_weighting r).
Definition set_cbig_thres v (r : lcyapt_result_t) : lcyapt_result_t :=
  mk_result (pkt_time_ave r) (pkt_time_diff r) (result_factor r) (u8 v) (cbig_count r) (cbig_sum r) (cbig_max r) (ts_region_total r) (ts_region_max r) (ts_region r) (factor_stat_flag r) (factor_stat_ts r) (factor_last r) (factor_count r) (factor_delta_square_add r) (factor_delta_square_averages r) (factor_delta_square_weighting r).
Definition set_cbig_count v (r : lcyapt_result_t) : lcyapt_result_t :=
  mk_result (pkt_time_ave r) (pkt_time_diff r) (result_factor r) (cbig_thres r) (u8 v) (cbig_sum r) (cbig_max r) (ts_region_total r) (ts_region_max r) (ts_region r) (factor_stat_flag r) (factor_stat_ts r) (factor_last r) (factor_count r) (factor_delta_square_add r) (factor_delta_square_averages r) (factor_delta_square_weighting r).
Definition set_cbig_sum v (r : lcyapt_result_t) : lcyapt_result_t :=
  mk_result (pkt_time_ave r) (pkt_time_diff r) (result_factor r) (cbig_thres r) (cbig_count r) (u32 v) (cbig_max r) (ts_region_total r) (ts_region_max r) (ts_region r) (factor_stat_flag r) (factor_stat_ts r) (factor_last r) (factor_count r) (factor_delta_square_add r) (factor_delta_square_averages r) (factor_delta_square_weighting r).
Definition set_cbig_max v (r : lcyapt_result_t) : lcyapt_result_t :=
  mk_result (pkt_time_ave r) (pkt_time_diff r) (result_factor r) (cbig_thres r) (cbig_count r) (cbig_sum r) (u32 v) (ts_region_total r) (ts_region_max r) (ts_region r) (factor_stat_flag r) (factor_stat_ts r) (factor_last r) (factor_count r) (factor_delta_square_add r) (factor_delta_square_averages r) (factor_delta_square_weighting r).
Definition set_ts_region_total v (r : lcyapt_result_t) : lcyapt_result_t :=
  mk_result (pkt_time_ave r) (pkt_time_diff r) (result_factor r) (cbig_thres r) (cbig_count r) (cbig_sum r) (cbig_max r) (u32 v) (ts_region_max r) (ts_region r) (factor_stat_flag r) (factor_stat_ts r) (factor_last r) (factor_count r) (factor_delta_square_add r) (factor_delta_square_averages r) (factor_delta_square_weighting r).
Definition set_ts_region_max v (r : lcyapt_result_t) : lcyapt_result_t :=
  mk_result (pkt_time_ave r) (pkt_time_diff r) (result_factor r) (cbig_thres r) (cbig_count r) (cbig_sum r) (cbig_max r) (ts_region_total r) (u32 v) (ts_region r) (factor_stat_flag r) (factor_stat_ts r) (factor_last r) (factor_count r) (factor_delta_square_add r) (factor_delta_square_averages r) (factor_delta_square_weighting r).
Definition set_ts_region (v : list Z) (r : lcyapt_result_t) : lcyapt_result_t :=
  mk_result (pkt_time_ave r) (pkt_time_diff r) (result_factor r) (cbig_thres r) (cbig_count r) (cbig_sum r) (cbig_max r) (ts_region_total r) (ts_region_max r) v (factor_stat_flag r) (factor_stat_ts r) (factor_last r) (factor_count r) (factor_delta_square_add r) (factor_delta_square_averages r) (factor_delta_square_weighting r).
Definition set_factor_stat_flag v (r : lcyapt_result_t) : lcyapt_result_t :=
  mk_result (pkt_time_ave r) (pkt_time_diff r) (result_factor r) (cbig_thres r) (cbig_count r) (cbig_sum r) (cbig_max r) (ts_region_total r) (ts_region_max r) (ts_region r) (u8 v) (factor_stat_ts r) (factor_last r) (factor_count r) (factor_delta_square_add r) (factor_delta_square_averages r) (factor_delta_square_weighting r).
Definition set_factor_stat_ts v (r : lcyapt_result_t) : lcyapt_result_t :=
  mk_result (pkt_time_ave r) (pkt_time_diff r) (result_factor r) (cbig_thres r) (cbig_count r) (cbig_sum r) (cbig_max r) (ts_region_total r) (ts_region_max r) (ts_region r) (factor_stat_flag r) (u32 v) (factor_last r) (factor_count r) (factor_delta_square_add r) (factor_delta_square_averages r) (factor_delta_square_weighting r).
Definition set_factor_last v (r : lcyapt_result_t) : lcyapt_result_t :=
  mk_result (pkt_time_ave r) (pkt_time_diff r) (result_factor r) (cbig_thres r) (cbig_count r) (cbig_sum r) (cbig_max r) (ts_region_total r) (ts_region_max r) (ts_region r) (factor_stat_flag r) (factor_stat_ts r) (u16 v) (factor_count r) (factor_delta_square_add r) (factor_delta_square_averages r) (factor_delta_square_weighting r).
Definition set_factor_count v (r : lcyapt_result_t) : lcyapt_result_t :=
  mk_result (pkt_time_ave r) (pkt_time_diff r) (result_factor r) (cbig_thres r) (cbig_count r) (cbig_sum r) (cbig_max r) (ts_region_total r) (ts_region_max r) (ts_region r) (factor_stat_flag r) (factor_stat_ts r) (factor_last r) (u16 v) (factor_delta_square_add r) (factor_delta_square_averages r) (factor_delta_square_weighting r).
Definition set_factor_delta_square_add v (r : lcyapt_result_t) : lcyapt_result_t :=
  mk_result (pkt_time_ave r) (pkt_time_diff r) (result_factor r) (cbig_thres r) (cbig_count r) (cbig_sum r) (cbig_max r) (ts_region_total r) (ts_region_max r) (ts_region r) (factor_stat_flag r) (factor_stat_ts r) (factor_last r) (factor_count r) (u32 v) (factor_delta_square_averages r) (factor_delta_square_weighting r).
Definition set_factor_delta_square_averages (v : list Z) (r : lcyapt_result_t) : lcyapt_result_t :=
  mk_result (pkt_time_ave r) (pkt_time_diff r) (result_factor r) (cbig_thres r) (cbig_count r) (cbig_sum r) (cbig_max r) (ts_region_total r) (ts_region_max r) (ts_region r) (factor_stat_flag r) (factor_stat_ts r) (factor_last r) (factor_count r) (factor_delta_square_add r) v (factor_delta_square_weighting r).
Definition set_factor_delta_square_weighting v (r : lcyapt_result_t) : lcyapt_result_t :=
  mk_result (pkt_time_ave r) (pkt_time_diff r) (result_factor r) (cbig_thres r) (cbig_count r) (cbig_sum r) (cbig_max r) (ts_region_total r) (ts_region_max r) (ts_region r) (factor_stat_flag r) (factor_stat_ts r) (factor_last r) (factor_count r) (factor_delta_square_add r) (factor_delta_square_averages r) (u16 v).

Inductive lcyapt_update_status_e : Type := UPDATE_STA_NONE | UPDATE_STA_NEED | UPDATE_STA_PENDING.
Inductive lcyapt_status_e : Type := LCYAPT_STA_NONE | LCYAPT_STA_INIT | LCYAPT_STA_PREPLAY | LCYAPT_STA_LCYSYNC | LCYAPT_STA_PLAYING.

(** audiolcy_adaptive_t; lcycommon points to the start of the control block. *)
Record audiolcy_adaptive_t : Type := mk_adaptive {
  source_info : lcyapt_source_t;
  result_info : lcyapt_result_t;
  cfg_minimum : Z;
  cfg_maximum : Z;
  cfg_factor : Z;
  mtu_check : Z;
  pending_lcy : Z;
  current_lcy : Z;
  need_calc : bool;
  update_status : lcyapt_update_status_e;
  recommend_timer : Z;  (* seconds *)
  quick_calc : Z;  (* 0: normal, 1: quick, 2: the last quick one *)
  quick_max : Z;
  quick_count : Z;
  first_circle : bool;
  status : lcyapt_status_e;
  staccato : bool;
  scc_imcrement : Z;
  scc_count : Z;
  scc_lcy_min : Z;
  scc_timer : Z;  (* milliseconds *)
  down_timer_num : Z;
  down_timer_lcy : list Z;  (* u8_t [3], milliseconds *)
  down_timer : list Z  (* u32_t [3], seconds *)
}.

Definition set_source_info (v : lcyapt_source_t) (a : audiolcy_adaptive_t) : audiolcy_adaptive_t :=
  mk_adaptive v (result_info a) (cfg_minimum a) (cfg_maximum a) (cfg_factor a) (mtu_check a) (pending_lcy a) (current_lcy a) (need_calc a) (update_status a) (recommend_timer a) (quick_calc a) (quick_max a) (quick_count a) (first_circle a) (status a) (staccato a) (scc_imcrement a) (scc_count a) (scc_lcy_min a) (scc_timer a) (down_timer_num a) (down_timer_lcy a) (down_timer a).
Definition set_result_info (v : lcyapt_result_t) (a : audiolcy_adaptive_t) : audiolcy_adaptive_t :=
  mk_adaptive (source_info a) v (cfg_minimum a) (cfg_maximum a) (cfg_factor a) (mtu_check a) (pending_lcy a) (current_lcy a) (need_calc a) (update_status a) (recommend_timer a) (quick_calc a) (quick_max a) (quick_count a) (first_circle a) (status a) (staccato a) (scc_imcrement a) (scc_count a) (scc_lcy_min a) (scc_timer a) (down_timer_num a) (down_timer_lcy a) (down_timer a).
Definition set_cfg_minimum v (a : audiolcy_adaptive_t) : audiolcy_adaptive_t :=
  mk_adaptive (source_info a) (result_info a) (u8 v) (cfg_maximum a) (cfg_factor a) (mtu_check a) (pending_lcy a) (current_lcy a) (need_calc a) (update_status a) (recommend_timer a) (quick_calc a) (quick_max a) (quick_count a) (first_circle a) (status a) (staccato a) (scc_imcrement a) (scc_count a) (scc_lcy_min a) (scc_timer a) (down_timer_num a) (down_timer_lcy a) (down_timer a).
Definition set_cfg_maximum v (a : audiolcy_adaptive_t) : audiolcy_adaptive_t :=
  mk_adaptive (source_info a) (result_info a) (cfg_minimum a) (u8 v) (cfg_factor a) (mtu_check a) (pending_lcy a) (current_lcy a) (need_calc a) (update_status a) (recommend_timer a) (quick_calc a) (quick_max a) (quick_count a) (first_circle a) (status a) (staccato a) (scc_imcrement a) (scc_count a) (scc_lcy_min a) (scc_timer a) (down_timer_num a) (down_timer_lcy a) (down_timer a).
Definition set_cfg_factor v (a : audiolcy_adaptive_t) : audiolcy_adaptive_t :=
  mk_adaptive (source_info a) (result_info a) (cfg_minimum a) (cfg_maximum a) (u8 v) (mtu_check a) (pending_lcy a) (current_lcy a) (need_calc a) (update_status a) (recommend_timer a) (quick_calc a) (quick_max a) (quick_count a) (first_circle a) (status a) (staccato a) (scc_imcrement a) (scc_count a) (scc_lcy_min a) (scc_timer a) (down_timer_num a) (down_timer_lcy a) (down_timer a).
Definition set_mtu_check v (a : audiolcy_adaptive_t) : audiolcy_adaptive_t :=
  mk_adaptive (source_info a) (result_info a) (cfg_minimum a) (cfg_maximum a) (cfg_factor a) (u8 v) (pending_lcy a) (current_lcy a) (need_calc a) (update_status a) (recommend_timer a) (quick_calc a) (quick_max a) (quick_count a) (first_circle a) (status a) (staccato a) (scc_imcrement a) (scc_count a) (scc_lcy_min a) (scc_timer a) (down_timer_num a) (down_timer_lcy a) (down_timer a).
Definition set_pending_lcy v (a : audiolcy_adaptive_t) : audiolcy_adaptive_t :=
  mk_adaptive (source_info a) (result_info a) (cfg_minimum a) (cfg_maximum a) (cfg_factor a) (mtu_check a) (u8 v) (current_lcy a) (need_calc a) (update_status a) (recommend_timer a) (quick_calc a) (quick_max a) (quick_count a) (first_circle a) (status a) (staccato a) (scc_imcrement a) (scc_count a) (scc_lcy_min a) (scc_timer a) (down_timer_num a) (down_timer_lcy a) (down_timer a).
Definition set_current_lcy v (a : audiolcy_adaptive_t) : audiolcy_adaptive_t :=
  mk_adaptive (source_info a) (result_info a) (cfg_minimum a) (cfg_maximum a) (cfg_factor a) (mtu_check a) (pending_lcy a) (u8 v) (need_calc a) (update_status a) (recommend_timer a) (quick_calc a) (quick_max a) (quick_count a) (first_circle a) (status a) (staccato a) (scc_imcrement a) (scc_count a) (scc_lcy_min a) (scc_timer a) (down_timer_num a) (down_timer_lcy a) (down_timer a).
Definition set_need_calc (v : bool) (a : audiolcy_adaptive_t) : audiolcy_adaptive_t :=
  mk_adaptive (source_info a) (result_info a) (cfg_minimum a) (cfg_maximum a) (cfg_factor a) (mtu_check a) (pending_lcy a) (current_lcy a) v (update_status a) (recommend_timer a) (quick_calc a) (quick_max a) (quick_count a) (first_circle a) (status a) (staccato a) (scc_imcrement a) (scc_count a) (scc_lcy_min a) (scc_timer a) (down_timer_num a) (down_timer_lcy a) (down_timer a).
Definition set_update_status (v : lcyapt_update_status_e) (a : audiolcy_adaptive_t) : audiolcy_adaptive_t :=
  mk_adaptive (source_info a) (result_info a) (cfg_minimum a) (cfg_maximum a) (cfg_factor a) (mtu_check a) (pending_lcy a) (current_lcy a) (need_calc a) v (recommend_timer a) (quick_calc a) (quick_max a) (quick_count a) (first_circle a) (status a) (staccato a) (scc_imcrement a) (scc_count a) (scc_lcy_min a) (scc_timer a) (down_timer_num a) (down_timer_lcy a) (down_timer a).
Definition set_recommend_timer v (a : audiolcy_adaptive_t) : audiolcy_adaptive_t :=
  mk_adaptive (source_info a) (result_info a) (cfg_minimum a) (cfg_maximum a) (cfg_factor a) (mtu_check a) (pending_lcy a) (current_lcy a) (need_calc a) (update_status a) (u32 v) (quick_calc a) (quick_max a) (quick_count a) (first_circle a) (status a) (staccato a) (scc_imcrement a) (scc_count a) (scc_lcy_min a) (scc_timer a) (down_timer_num a) (down_timer_lcy a) (down_timer a).
Definition set_quick_calc v (a : audiolcy_adaptive_t) : audiolcy_adaptive_t :=
  mk_adaptive (source_info a) (result_info a) (cfg_minimum a) (cfg_maximum a) (cfg_factor a) (mtu_check a) (pending_lcy a) (current_lcy a) (need_calc a) (update_status a) (recommend_timer a) (u8 v) (quick_max a) (quick_count a) (first_circle a) (status a) (staccato a) (scc_imcrement a) (scc_count a) (scc_lcy_min a) (scc_timer a) (down_timer_num a) (down_timer_lcy a) (down_timer a).
Definition set_quick_max v (a : audiolcy_adaptive_t) : audiolcy_adaptive_t :=
  mk_adaptive (source_info a) (result_info a) (cfg_minimum a) (cfg_maximum a) (cfg_factor a) (mtu_check a) (pending_lcy a) (current_lcy a) (need_calc a) (update_status a) (recommend_timer a) (quick_calc a) (u8 v) (quick_count a) (first_circle a) (status a) (staccato a) (scc_imcrement a) (scc_count a) (scc_lcy_min a) (scc_timer a) (down_timer_num a) (down_timer_lcy a) (down_timer a).
Definition set_quick_count v (a : audiolcy_adaptive_t) : audiolcy_adaptive_t :=
  mk_adaptive (source_info a) (result_info a) (cfg_minimum a) (cfg_maximum a) (cfg_factor a) (mtu_check a) (pending_lcy a) (current_lcy a) (need_calc a) (update_status a) (recommend_timer a) (quick_calc a) (quick_max a) (u8 v) (first_circle a) (status a) (staccato a) (scc_imcrement a) (scc_count a) (scc_lcy_min a) (scc_timer a) (down_timer_num a) (down_timer_lcy a) (down_timer a).
Definition set_first_circle (v : bool) (a : audiolcy_adaptive_t) : audiolcy_adaptive_t :=
  mk_adaptive (source_info a) (result_info a) (cfg_minimum a) (cfg_maximum a) (cfg_factor a) (mtu_check a) (pending_lcy a) (current_lcy a) (need_calc a) (update_status a) (recommend_timer a) (quick_calc a) (quick_max a) (quick_count a) v (status a) (staccato a) (scc_imcrement a) (scc_count a) (scc_lcy_min a) (scc_timer a) (down_timer_num a) (down_timer_lcy a) (down_timer a).
Definition set_status (v : lcyapt_status_e) (a : audiolcy_adaptive_t) : audiolcy_adaptive_t :=
  mk_adaptive (source_info a) (result_info a) (cfg_minimum a) (cfg_maximum a) (cfg_factor a) (mtu_check a) (pending_lcy a) (current_lcy a) (need_calc a) (update_status a) (recommend_timer a) (quick_calc a) (quick_max a) (quick_count a) (first_circle a) v (staccato a) (scc_imcrement a) (scc_count a) (scc_lcy_min a) (scc_timer a) (down_timer_num a) (down_timer_lcy a) (down_timer a).
Definition set_staccato (v : bool) (a : audiolcy_adaptive_t) : audiolcy_adaptive_t :=
  mk_adaptive (source_info a) (result_info a) (cfg_minimum a) (cfg_maximum a) (cfg_factor a) (mtu_check a) (pending_lcy a) (current_lcy a) (need_calc a) (update_status a) (recommend_timer a) (quick_calc a) (quick_max a) (quick_count a) (first_circle a) (status a) v (scc_imcrement a) (scc_count a) (scc_lcy_min a) (scc_timer a) (down_timer_num a) (down_timer_lcy a) (down_timer a).
Definition set_scc_imcrement v (a : audiolcy_adaptive_t) : audiolcy_adaptive_t :=
  mk_adaptive (source_info a) (result_info a) (cfg_minimum a) (cfg_maximum a) (cfg_factor a) (mtu_check a) (pending_lcy a) (current_lcy a) (need_calc a) (update_status a) (recommend_timer a) (quick_calc a) (quick_max a) (quick_count a) (first_circle a) (status a) (staccato a) (u8 v) (scc_count a) (scc_lcy_min a) (scc_timer a) (down_timer_num a) (down_timer_lcy a) (down_timer a).
Definition set_scc_count v (a : audiolcy_adaptive_t) : audiolcy_adaptive_t :=
  mk_adaptive (source_info a) (result_info a) (cfg_minimum a) (cfg_maximum a) (cfg_factor a) (mtu_check a) (pending_lcy a) (current_lcy a) (need_calc a) (update_status a) (recommend_timer a) (quick_calc a) (quick_max a) (quick_count a) (first_circle a) (status a) (staccato a) (scc_imcrement a) (u8 v) (scc_lcy_min a) (scc_timer a) (down_timer_num a) (down_timer_lcy a) (down_timer a).
Definition set_scc_lcy_min v (a : audiolcy_adaptive_t) : audiolcy_adaptive_t :=
  mk_adaptive (source_info a) (result_info a) (cfg_minimum a) (cfg_maximum a) (cfg_factor a) (mtu_check a) (pending_lcy a) (current_lcy a) (need_calc a) (update_status a) (recommend_timer a) (quick_calc a) (quick_max a) (quick_count a) (first_circle a) (status a) (staccato a) (scc_imcrement a) (scc_count a) (u32 v) (scc_timer a) (down_timer_num a) (down_timer_lcy a) (down_timer a).
Definition set_scc_timer v (a : audiolcy_adaptive_t) : audiolcy_adaptive_t :=
  mk_adaptive (source_info a) (result_info a) (cfg_minimum a) (cfg_maximum a) (cfg_factor a) (mtu_check a) (pending_lcy a) (current_lcy a) (need_calc a) (update_status a) (recommend_timer a) (quick_calc a) (quick_max a) (quick_count a) (first_circle a) (status a) (staccato a) (scc_imcrement a) (scc_count a) (scc_lcy_min a) (u32 v) (down_timer_num a) (down_timer_lcy a) (down_timer a).
Definition set_down_timer_num v (a : audiolcy_adaptive_t) : audiolcy_adaptive_t :=
  mk_adaptive (source_info a) (result_info a) (cfg_minimum a) (cfg_maximum a) (cfg_factor a) (mtu_check a) (pending_lcy a) (current_lcy a) (need_calc a) (update_status a) (recommend_timer a) (quick_calc a) (quick_max a) (quick_count a) (first_circle a) (status a) (staccato a) (scc_imcrement a) (scc_count a) (scc_lcy_min a) (scc_timer a) (u8 v) (down_timer_lcy a) (down_timer a).
Definition set_down_timer_lcy (v : list Z) (a : audiolcy_adaptive_t) : audiolcy_adaptive_t :=
  mk_adaptive (source_info a) (result_info a) (cfg_minimum a) (cfg_maximum a) (cfg_factor a) (mtu_check a) (pending_lcy a) (current_lcy a) (need_calc a) (update_status a) (recommend_timer a) (quick_calc a) (quick_max a) (quick_count a) (first_circle a) (status a) (staccato a) (scc_imcrement a) (scc_count a) (scc_lcy_min a) (scc_timer a) (down_timer_num a) v (down_timer a).
Definition set_down_timer (v : list Z) (a : audiolcy_adaptive_t) : audiolcy_adaptive_t :=
  mk_adaptive (source_info a) (result_info a) (cfg_minimum a) (cfg_maximum a) (cfg_factor a) (mtu_check a) (pending_lcy a) (current_lcy a) (need_calc a) (update_status a) (recommend_timer a) (quick_calc a) (quick_max a) (quick_count a) (first_circle a) (status a) (staccato a) (scc_imcrement a) (scc_count a) (scc_lcy_min a) (scc_timer a) (down_timer_num a) (down_timer_lcy a) v.

(** audiolcy_lcysync_t: the fields that are read or written. *)
Record audiolcy_lcysync_t : Type := mk_sync { sync_latency : Z; sync_mode : Z; sync_pkt_num : Z }.

(** struct decoder_dspfunc_mplc_params. *)
Record mplcdsp_param_t : Type := mk_mplc {
  mplc_mode : Z;  (* 2 bits *)
  thres_pause : Z;
  thres_pemframe : Z;
  thres_period : Z;
  thres_resume : Z;
  samples_th1 : Z;
  samples_th2 : Z
}.

(** audiolcy_ctrl_t, with audiolcy_common_t flattened and without lcyapt. *)
Record audiolcy_ctrl_t : Type := mk_ctrl {
  media_format : Z;
  stream_type : Z;
  sample_rate_khz : Z;
  twsrole : Z;  (* 0xFF: unknown yet *)
  media_handle : bool;  (* not NULL *)
  dsp_handle : bool;  (* not NULL *)
  lcymplc : option mplcdsp_param_t;  (* None: NULL *)
  lcy_mode : Z;
  lcymode_switch_forbidden : bool;
  max_pkt_len : Z;
  lcysync_cb_set : bool;
  lcy_send_repeat : Z;
  lcy_recv_repeat : Z;
  lcy_send_pktnum : Z;
  lcysync : audiolcy_lcysync_t
}.

Definition set_media_format v (c : audiolcy_ctrl_t) : audiolcy_ctrl_t :=
  mk_ctrl (u8 v) (stream_type c) (sample_rate_khz c) (twsrole c) (media_handle c) (dsp_handle c) (lcymplc c) (lcy_mode c) (lcymode_switch_forbidden c) (max_pkt_len c) (lcysync_cb_set c) (lcy_send_repeat c) (lcy_recv_repeat c) (lcy_send_pktnum c) (lcysync c).
Definition set_stream_type v (c : audiolcy_ctrl_t) : audiolcy_ctrl_t :=
  mk_ctrl (media_format c) (u8 v) (sample_rate_khz c) (twsrole c) (media_handle c) (dsp_handle c) (lcymplc c) (lcy_mode c) (lcymode_switch_forbidden c) (max_pkt_len c) (lcysync_cb_set c) (lcy_send_repeat c) (lcy_recv_repeat c) (lcy_send_pktnum c) (lcysync c).
Definition set_sample_rate_khz v (c : audiolcy_ctrl_t) : audiolcy_ctrl_t :=
  mk_ctrl (media_format c) (stream_type c) (u8 v) (twsrole c) (media_handle c) (dsp_handle c) (lcymplc c) (lcy_mode c) (lcymode_switch_forbidden c) (max_pkt_len c) (lcysync_cb_set c) (lcy_send_repeat c) (lcy_recv_repeat c) (lcy_send_pktnum c) (lcysync c).
Definition set_twsrole v (c : audiolcy_ctrl_t) : audiolcy_ctrl_t :=
  mk_ctrl (media_format c) (stream_type c) (sample_rate_khz c) (u8 v) (media_handle c) (dsp_handle c) (lcymplc c) (lcy_mode c) (lcymode_switch_forbidden c) (max_pkt_len c) (lcysync_cb_set c) (lcy_send_repeat c) (lcy_recv_repeat c) (lcy_send_pktnum c) (lcysync c).
Definition set_media_handle (v : bool) (c : audiolcy_ctrl_t) : audiolcy_ctrl_t :=
  mk_ctrl (media_format c) (stream_type c) (sample_rate_khz c) (twsrole c) v (dsp_handle c) (lcymplc c) (lcy_mode c) (lcymode_switch_forbidden c) (max_pkt_len c) (lcysync_cb_set c) (lcy_send_repeat c) (lcy_recv_repeat c) (lcy_send_pktnum c) (lcysync c).
Definition set_dsp_handle (v : bool) (c : audiolcy_ctrl_t) : audiolcy_ctrl_t :=
  mk_ctrl (media_format c) (stream_type c) (sample_rate_khz c) (twsrole c) (media_handle c) v (lcymplc c) (lcy_mode c) (lcymode_switch_forbidden c) (max_pkt_len c) (lcysync_cb_set c) (lcy_send_repeat c) (lcy_recv_repeat c) (lcy_send_pktnum c) (lcysync c).
Definition set_lcymplc (v : option mplcdsp_param_t) (c : audiolcy_ctrl_t) : audiolcy_ctrl_t :=
  mk_ctrl (media_format c) (stream_type c) (sample_rate_khz c) (twsrole c) (media_handle c) (dsp_handle c) v (lcy_mode c) (lcymode_switch_forbidden c) (max_pkt_len c) (lcysync_cb_set c) (lcy_send_repeat c) (lcy_recv_repeat c) (lcy_send_pktnum c) (lcysync c).
Definition set_lcy_mode v (c : audiolcy_ctrl_t) : audiolcy_ctrl_t :=
  mk_ctrl (media_format c) (stream_type c) (sample_rate_khz c) (twsrole c) (media_handle c) (dsp_handle c) (lcymplc c) (u8 v) (lcymode_switch_forbidden c) (max_pkt_len c) (lcysync_cb_set c) (lcy_send_repeat c) (lcy_recv_repeat c) (lcy_send_pktnum c) (lcysync c).
Definition set_lcymode_switch_forbidden (v : bool) (c : audiolcy_ctrl_t) : audiolcy_ctrl_t :=
  mk_ctrl (media_format c) (stream_type c) (sample_rate_khz c) (twsrole c) (media_handle c) (dsp_handle c) (lcymplc c) (lcy_mode c) v (max_pkt_len c) (lcysync_cb_set c) (lcy_send_repeat c) (lcy_recv_repeat c) (lcy_send_pktnum c) (lcysync c).
Definition set_max_pkt_len v (c : audiolcy_ctrl_t) : audiolcy_ctrl_t :=
  mk_ctrl (media_format c) (stream_type c) (sample_rate_khz c) (twsrole c) (media_handle c) (dsp_handle c) (lcymplc c) (lcy_mode c) (lcymode_switch_forbidden c) (u16 v) (lcysync_cb_set c) (lcy_send_repeat c) (lcy_recv_repeat c) (lcy_send_pktnum c) (lcysync c).
Definition set_lcysync_cb_set (v : bool) (c : audiolcy_ctrl_t) : audiolcy_ctrl_t :=
  mk_ctrl (media_format c) (stream_type c) (sample_rate_khz c) (twsrole c) (media_handle c) (dsp_handle c) (lcymplc c) (lcy_mode c) (lcymode_switch_forbidden c) (max_pkt_len c) v (lcy_send_repeat c) (lcy_recv_repeat c) (lcy_send_pktnum c) (lcysync c).
Definition set_lcy_send_repeat v (c : audiolcy_ctrl_t) : audiolcy_ctrl_t :=
  mk_ctrl (media_format c) (stream_type c) (sample_rate_khz c) (twsrole c) (media_handle c) (dsp_handle c) (lcymplc c) (lcy_mode c) (lcymode_switch_forbidden c) (max_pkt_len c) (lcysync_cb_set c) (u8 v) (lcy_recv_repeat c) (lcy_send_pktnum c) (lcysync c).
Definition set_lcy_recv_repeat v (c : audiolcy_ctrl_t) : audiolcy_ctrl_t :=
  mk_ctrl (media_format c) (stream_type c) (sample_rate_khz c) (twsrole c) (media_handle c) (dsp_handle c) (lcymplc c) (lcy_mode c) (lcymode_switch_forbidden c) (max_pkt_len c) (lcysync_cb_set c) (lcy_send_repeat c) (u8 v) (lcy_send_pktnum c) (lcysync c).
Definition set_lcy_send_pktnum v (c : audiolcy_ctrl_t) : audiolcy_ctrl_t :=
  mk_ctrl (media_format c) (stream_type c) (sample_rate_khz c) (twsrole c) (media_handle c) (dsp_handle c) (lcymplc c) (lcy_mode c) (lcymode_switch_forbidden c) (max_pkt_len c) (lcysync_cb_set c) (lcy_send_repeat c) (lcy_recv_repeat c) (u16 v) (lcysync c).
Definition set_lcysync (v : audiolcy_lcysync_t) (c : audiolcy_ctrl_t) : audiolcy_ctrl_t :=
  mk_ctrl (media_format c) (stream_type c) (sample_rate_khz c) (twsrole c) (media_handle c) (dsp_handle c) (lcymplc c) (lcy_mode c) (lcymode_switch_forbidden c) (max_pkt_len c) (lcysync_cb_set c) (lcy_send_repeat c) (lcy_recv_repeat c) (lcy_send_pktnum c) v.

Inductive lcy_output : Type :=
| MediaLatency (us : Z)                (* media_player_set_audio_latency *)
| SyncPkt (p : audiolcy_lcysync_t)     (* tws_send_pkt_user_type *)
| SaveMode (m : Z)                     (* property_set(PROPERTY_LATENCY_MODE, ..) *)
| DataAdjust (flag samples : Z)        (* DSP_CONFIG_DATA_ADJUST *)
| MplcConfig (p : mplcdsp_param_t).    (* DSP_CONFIG_DECODER_MPLC *)

Record lcy_env : Type := mk_lcy_env {
  uptime : Z;                    (* os_uptime_get_32 *)
  aps_latency : Z;               (* audio_aps_get_latency, microseconds *)
  aps_hz : Z;                    (* audio_aps_get_samplerate_hz *)
  increase_threshold : Z -> Z -> Z;  (* audio_policy_get_increase_threshold(mode, format) *)
  reduce_threshold : Z -> Z -> Z;    (* audio_policy_get_reduce_threshold *)
  cyc_to_us : Z -> Z;            (* k_cyc_to_us_floor32 *)
  ctrl_mem : bool;               (* mem_malloc of the control block succeeds *)
  mplc_mem : bool;               (* .. of the interpolation *)
  apt_mem : bool;                (* .. of the adaptive mode *)
  cb_set : bool                  (* tws_send_pkt_user_cb_set succeeds *)
}.

(** The state the adaptive mode works on: the configuration, the last latency,
    the control block and the structure of the mode. *)
Record apt_st : Type := mk_st {
  glob : audiolcy_global_t;
  last : audiolcyapt_global_t;
  ctrl : audiolcy_ctrl_t;
  apt : audiolcy_adaptive_t;
  outs : list lcy_output
}.

Definition upd_apt (f : audiolcy_adaptive_t -> audiolcy_adaptive_t) (s : apt_st) : apt_st :=
  mk_st (glob s) (last s) (ctrl s) (f (apt s)) (outs s).
Definition upd_ctrl (f : audiolcy_ctrl_t -> audiolcy_ctrl_t) (s : apt_st) : apt_st :=
  mk_st (glob s) (last s) (f (ctrl s)) (apt s) (outs s).
Definition set_last (g : audiolcyapt_global_t) (s : apt_st) : apt_st := mk_st (glob s) g (ctrl s) (apt s) (outs s).
Definition puts (os : list lcy_output) (s : apt_st) : apt_st := mk_st (glob s) (last s) (ctrl s) (apt s) (os ++ outs s).
Definition upd_source (f : lcyapt_source_t -> lcyapt_source_t) (a : audiolcy_adaptive_t) := set_source_info (f (source_info a)) a.
Definition upd_result (f : lcyapt_result_t -> lcyapt_result_t) (a : audiolcy_adaptive_t) := set_result_info (f (result_info a)) a.
Definition config (s : apt_st) : audiolcy_cfg_t := cfg (glob s).

(** a[i] and a[i] = v of an array; the indices are in range. *)
Definition at_index (l : list Z) (i : Z) : Z := nth (Z.to_nat i) l 0.
Definition store_at (i v : Z) (l : list Z) : list Z := <[Z.to_nat i := v]> l.

(** An unsigned division. *)
Definition udiv (a b : Z) : option Z := if b =? 0 then None else Some (a / b).

(** ** The last latency (audiolcy_adaptive.c) *)

Definition audiolcyapt_global_check_valid (format : Z) (g : audiolcyapt_global_t) : bool :=
  if g_latency g <=? 0 then false else g_is_valid g && (g_format g =? format).

Definition audiolcyapt_global_set_invalid (g : audiolcyapt_global_t) : audiolcyapt_global_t := mk_apt_global (g_format g) false (g_latency g).

Definition audiolcyapt_global_set_latency (format ms : Z) (g : audiolcyapt_global_t) : audiolcyapt_global_t := mk_apt_global format true (u8 ms).

(** ** The time between packets *)

Definition audiolcyapt_region_locate (ave ts : Z) : Z :=
  let Thres10 := ave / 10 in
  let Thres25 := ave / 4 in
  let Thres50 := ave / 2 in
  let delta_ts := s32 (ts - ave) in
  let abs_delta_ts := u32 (Z.abs delta_ts) in
  let region_i :=
    if abs_delta_ts <=? Thres10 then 3
    else if u32 (ave * 2) <? abs_delta_ts then 8
    else if ave <? abs_delta_ts then 7
    else
      let region_i := if Thres50 <? abs_delta_ts then 3 else if Thres25 <? abs_delta_ts then 2 else 1 in
      if 0 <=? delta_ts then region_i + 3 else 3 - region_i in
  if REGION_NUM <=? region_i then REGION_NUM - 1 else region_i.

(** .. with clear: the old result goes. *)
Definition ts_region_clear (r : lcyapt_result_t) : lcyapt_result_t :=
  set_cbig_max 0 (set_ts_region_max 0 (set_ts_region_total 0 (set_ts_region (replicate 9 0) r))).

(** A run of large times: it goes on, ends, or begins. *)
Definition cbig_step (region_i ts thres : Z) (r : lcyapt_result_t) : lcyapt_result_t * bool :=
  let raise r := if cbig_max r <? cbig_sum r then set_cbig_max (cbig_sum r) r else r in
  if 0 <? cbig_count r then
    let r := set_cbig_count (cbig_count r + 1) r in
    let r := set_cbig_sum (cbig_sum r + ts - pkt_time_ave r) r in
    let r := raise r in
    (r, (cbig_sum r <? u32 (thres * 4) / 5) || ((5 <=? cbig_count r) && (ts <=? thres)))
  else if (5 <=? region_i) && (thres <=? ts) then (raise (set_cbig_count 1 (set_cbig_sum ts r)), false)
  else (r, false).

Definition audiolcyapt_region_update (ts : Z) (r : lcyapt_result_t) : lcyapt_result_t :=
  if ts <=? 0 then r
  else
    let region_i := audiolcyapt_region_locate (pkt_time_ave r) ts in
    let n := at_index (ts_region r) region_i in
    let r := if n <? 0xffff then set_ts_region_total (ts_region_total r + 1) (set_ts_region (store_at region_i (n + 1) (ts_region r)) r) else r in
    let r := if ts_region_max r <? ts then set_ts_region_max ts r else r in
    let cbigThres := u32 (cbig_thres r * pkt_time_ave r) / 100 in
    let '(r, cbig_end) := cbig_step region_i ts cbigThres r in
    let r := if cbig_max r <? ts_region_max r then set_cbig_max (ts_region_max r) r else r in
    if cbig_end then set_cbig_sum 0 (set_cbig_count 0 r) else r.

(** The window: the entries up to the first one without frames. *)
Fixpoint pkt_window (frames spans : list Z) : list (Z * Z) :=
  match frames, spans with
  | f :: frames, t :: spans => if f =? 0 then [] else (f, t) :: pkt_window frames spans
  | _, _ => []
  end.

(** The new entries, from the oldest on. *)
Fixpoint update_loop (n : nat) (cur_i : Z) (spans : list Z) (r : lcyapt_result_t) : Z * lcyapt_result_t :=
  match n with
  | O => (cur_i, r)
  | S n =>
      let cur_i := cur_i mod LCYAPT_PKTINFO_NUM in
      update_loop n (u8 (cur_i + 1)) spans (audiolcyapt_region_update (at_index spans cur_i) r)
  end.

(** The number of entries that were analysed, 0 for too few. *)
Definition audiolcyapt_region_info_analyse (khz : Z) (force : bool) (a : audiolcy_adaptive_t) : option (audiolcy_adaptive_t * Z) :=
  let p_in := source_info a in
  if (negb force && (count p_in <? 4)) || (force && (count p_in <=? 0)) then Some (a, 0)
  else
    let end_i := count p_in in
    let cur_i := rindex p_in in
    let cur_i := if LCYAPT_PKTINFO_NUM <? end_i then u8 (cur_i + (end_i - LCYAPT_PKTINFO_NUM) mod LCYAPT_PKTINFO_NUM) else cur_i in
    let end_i := if LCYAPT_PKTINFO_NUM <? end_i then LCYAPT_PKTINFO_NUM else end_i in
    let win := pkt_window (frame_cnt p_in) (time_span p_in) in
    let recv_time_sum := u32 (foldr Z.add 0 (snd <$> win)) in
    pkt_time_sum ← udiv (u32 (foldr Z.add 0 (fst <$> win) * 128 * 1000)) khz;
    ave ← udiv pkt_time_sum (Z.of_nat (length win));
    let r := set_pkt_time_diff (recv_time_sum - pkt_time_sum) (set_pkt_time_ave ave (result_info a)) in
    let '(cur_i, r) := update_loop (Z.to_nat end_i) cur_i (time_span p_in) r in
    Some (upd_source (fun p => set_rindex (cur_i mod LCYAPT_PKTINFO_NUM) (set_count 0 p)) (set_result_info r a), end_i).

(** ts_region_factor_weighting_coeff. *)
Definition weighting_coeff : list Z := [35; 22; 15; 11; 7; 5; 3; 2].

Definition audiolcyapt_factor_statistics (now period_s cur_factor : Z) (r : lcyapt_result_t) : option lcyapt_result_t :=
  let r := if factor_stat_flag r =? 0
           then set_factor_stat_ts now (set_factor_delta_square_add 0 (set_factor_last cur_factor (set_factor_stat_flag 1 r)))
           else r in
  let delta := u16 (Z.abs (s16 (factor_last r) - s16 cur_factor)) in
  let r := set_factor_delta_square_add (factor_delta_square_add r + delta * delta) r in
  let r := set_factor_last cur_factor (set_factor_count (factor_count r + 1) r) in
  if period_s * 1000 <=? u32 (now - factor_stat_ts r) then
    avg ← udiv (factor_delta_square_add r) (factor_count r);
    let avg := u16 avg in
    let r := if factor_stat_flag r =? 1 then set_factor_delta_square_averages (replicate 8 avg) (set_factor_stat_flag 2 r)
             else set_factor_delta_square_averages (avg :: take 7 (factor_delta_square_averages r)) r in
    let total := u32 (foldr Z.add 0 (zip_with Z.mul (factor_delta_square_averages r) weighting_coeff)) in
    let r := set_factor_delta_square_weighting (total / 100) r in
    Some (set_factor_stat_ts now (set_factor_count 0 (set_factor_delta_square_add 0 r)))
  else Some r.

Definition zero_source : lcyapt_source_t := mk_source (replicate 24 0) (replicate 24 0) 0 0 0 0.

Definition audiolcyapt_info_clear (a : audiolcy_adaptive_t) : audiolcy_adaptive_t :=
  upd_result ts_region_clear (set_source_info zero_source a).

(** The period between two recommendations, shorter while they are quick. *)
Definition recommend_period (c : audiolcy_cfg_t) (quick : Z) : Z :=
  let p := ALLM_recommend_period_s c in
  if 0 <? quick then
    let p := p / 10 in
    let p := if p =? 0 then 1 else p in
    if 2 <? p then 2 else p
  else p.

(** The factor of the worst time, of the difference in the window and of the
    configuration. *)
Definition lcyapt_factor (cfg_factor : Z) (r : lcyapt_result_t) : option Z :=
  let worst := if 0 <? cbig_max r then cbig_max r else ts_region_max r in
  factor ← (if 0 <? worst then udiv (u32 (worst * 100)) (pkt_time_ave r) else Some 100);
  factor ← (if (0 <? pkt_time_diff r) && (pkt_time_ave r <? pkt_time_diff r)
            then d ← udiv (u32 (pkt_time_diff r * 100)) (pkt_time_ave r); Some (u32 (factor + d))
            else Some factor);
  Some (u32 (factor + cfg_factor * 100 / 5)).

Definition audiolcyapt_info_analyse (e : lcy_env) (clear force : bool) (s : apt_st) : option apt_st :=
  '(a, n) ← audiolcyapt_region_info_analyse (sample_rate_khz (ctrl s)) force (apt s);
  let s := upd_apt (fun _ => a) s in
  if n =? 0 then Some s
  else
    let cur_time_s := uptime e / 1000 in
    if negb force && (cur_time_s <? u32 (recommend_timer a + recommend_period (config s) (quick_calc a))) then Some s
    else
      factor ← lcyapt_factor (cfg_factor a) (result_info a);
      let a := set_need_calc true (upd_result (set_result_factor factor) a) in
      '(a, clear) ← (if 0 <? quick_calc a then
                       let a := set_quick_count (quick_count a + 1) a in
                       Some (if 10 <=? quick_count a then set_quick_calc 2 a else a, false)
                     else
                       r ← audiolcyapt_factor_statistics (uptime e) (ALLM_down_timer_period_s (config s)) (result_factor (result_info a)) (result_info a);
                       Some (set_result_info r a, clear));
      let a := set_recommend_timer cur_time_s a in
      let clear := clear || (1000 <=? ts_region_total (result_info a)) in
      Some (upd_apt (fun _ => if clear then upd_result ts_region_clear a else a) s).

(** audiolcy_pktinfo_t: (frame_cnt, sysclk_cyc) of it. *)
Definition audiolcyapt_info_collect (e : lcy_env) (frames cyc : Z) (s : apt_st) : apt_st :=
  if twsrole (ctrl s) =? TWS_SLAVE then s
  else
    upd_apt (upd_source (fun p =>
      let p := if 0 <? last_pkt_time p then
                 let p := set_frame_cnt (store_at (windex p) (if media_format (ctrl s) =? SBC then frames else 8) (frame_cnt p)) p in
                 let p := set_time_span (store_at (windex p) (u32 (cyc_to_us e (u32 (cyc - last_pkt_time p)))) (time_span p)) p in
                 set_count (count p + 1) (set_windex ((windex p + 1) mod LCYAPT_PKTINFO_NUM) p)
               else p in
      set_last_pkt_time cyc p)) s.

(** ** The control block (audiolcy_basic.c, audiolcy_entry.c) *)

(** audiolcy_get_latency_mode with a control block. *)
Definition playing_mode (s : apt_st) : Z := lcy_mode (ctrl s).

Definition audiolcyapt_latency_get (format : Z) (a : audiolcy_adaptive_t) (g : audiolcyapt_global_t) : Z :=
  if g_is_valid g && (g_format g =? format) then
    let l := g_latency g in
    if l <? cfg_minimum a + scc_imcrement a then cfg_minimum a + scc_imcrement a
    else if cfg_maximum a <? l then cfg_maximum a
    else l
  else current_lcy a.

(** audiolcy_get_latency_threshold with a control block. *)
Definition ctrl_threshold (e : lcy_env) (format : Z) (c : audiolcy_ctrl_t) (o : option audiolcy_adaptive_t) (g : audiolcyapt_global_t) : Z :=
  let format := if format =? 0 then media_format c else format in
  match o with
  | Some a => if lcy_mode c =? LCYMODE_ADAPTIVE then u32 (audiolcyapt_latency_get (media_format c) a g * 1000)
              else u32 (increase_threshold e (lcy_mode c) format)
  | None => u32 (increase_threshold e (lcy_mode c) format)
  end.

(** audiolcy_ctrl_latency_change with a control block: the latency, and what is
    sent to the media player. *)
Definition ctrl_latency_change (e : lcy_env) (lcy_ms : Z) (c : audiolcy_ctrl_t) (o : option audiolcy_adaptive_t) (g : audiolcyapt_global_t) : Z * list lcy_output :=
  let lcy_ms := if lcy_ms =? 0 then u16 (ctrl_threshold e (media_format c) c o g / 1000) else lcy_ms in
  (lcy_ms, if media_handle c then [MediaLatency (lcy_ms * 1000)] else []).

Definition audiolcy_ctrl_latency_change (e : lcy_env) (lcy_ms : Z) (s : apt_st) : apt_st :=
  puts (snd (ctrl_latency_change e lcy_ms (ctrl s) (Some (apt s)) (last s))) s.

(** audiolcy_ctrl_latency_twssync with a control block. *)
Definition ctrl_twssync (mode lcy_ms : Z) (c : audiolcy_ctrl_t) : audiolcy_ctrl_t * list lcy_output :=
  if mode =? LCYSYNC_REPEAT then
    if lcy_send_repeat c =? 0 then (c, [])
    else
      let pkt := lcysync c in
      let c := set_lcy_recv_repeat 0 (set_lcy_send_pktnum 0 c) in
      if lcy_send_repeat c =? 1 then
        (set_lcysync (mk_sync 0 0 0) (set_lcy_send_repeat 0 c), [SyncPkt (mk_sync (sync_latency pkt) LCYSYNC_REPEAT (sync_pkt_num pkt))])
      else (set_lcy_send_repeat 1 c, [SyncPkt pkt])
  else
    let pkt := mk_sync (u16 lcy_ms) (u8 mode) 0 in
    (set_lcysync pkt (set_lcy_recv_repeat 0 (set_lcy_send_repeat 0 (set_lcy_send_pktnum 0 c))), [SyncPkt pkt]).

Definition audiolcy_ctrl_latency_twssync (mode lcy_ms : Z) (s : apt_st) : apt_st :=
  puts (snd (ctrl_twssync mode lcy_ms (ctrl s))) (upd_ctrl (fun c => fst (ctrl_twssync mode lcy_ms c)) s).

(** audiolcy_ctrl_get_fixedcost, in samples. *)
Definition fixedcost (c : audiolcy_ctrl_t) : Z :=
  let us := if stream_type c =? STREAM_MUSIC then
              if 679 <? max_pkt_len c then 5600 else if 367 <? max_pkt_len c then 3200 else 1800
            else 600 in
  us * sample_rate_khz c / 1000.

(** ** Timers before the latency goes down (audiolcy_adaptive.c) *)

Definition down_timer_store (i lcy t : Z) (a : audiolcy_adaptive_t) : audiolcy_adaptive_t :=
  set_down_timer (store_at i (u32 t) (down_timer a)) (set_down_timer_lcy (store_at i (u8 lcy) (down_timer_lcy a)) a).

(** One round of the loop of audiolcyapt_down_timer_update: [Some] when it breaks. *)
Definition timer_round (i lcy time_s : Z) (a : audiolcy_adaptive_t) : option audiolcy_adaptive_t :=
  let lcy_i := at_index (down_timer_lcy a) i in
  if (i =? down_timer_num a) && (down_timer_num a <? DOWN_TIMER_NUM) then
    Some (set_down_timer_num (down_timer_num a + 1) (down_timer_store i lcy time_s a))
  else if (i =? DOWN_TIMER_NUM - 1) && (lcy <? lcy_i) && (lcy_i <=? lcy + DOWN_TIMER_LAST_DIFF) then
    Some (set_down_timer_lcy (store_at i (u8 lcy) (down_timer_lcy a)) a)
  else if lcy_i <=? lcy then
    let a := if lcy_i + 2 <=? lcy then down_timer_store i lcy time_s a else a in
    Some (set_down_timer_num (i + 1) a)
  else None.

Fixpoint timer_loop (fuel : nat) (i lcy time_s period : Z) (a : audiolcy_adaptive_t) : audiolcy_adaptive_t * Z :=
  match fuel with
  | O => (a, -1)
  | S n =>
      let time_s := if 0 <? i then u32 (at_index (down_timer a) (i - 1) + period) else time_s in
      match timer_round i lcy time_s a with
      | Some a => (a, i)
      | None => timer_loop n (i + 1) lcy time_s period a
      end
  end.

(** The index of the timer that was set or kept, or -1. *)
Definition audiolcyapt_down_timer_update (now period lcy : Z) (a : audiolcy_adaptive_t) : audiolcy_adaptive_t * Z :=
  timer_loop 3 0 lcy (now / 1000) period a.

(** How many timers a decrease is divided into. *)
Definition timer_count (delta num : Z) : Z :=
  if num =? 0 then
    if (20 <=? delta) && (DOWN_TIMER_SPAN * (DOWN_TIMER_NUM + 1) <=? delta) then DOWN_TIMER_NUM
    else if (7 <=? delta) && (DOWN_TIMER_SPAN <=? delta) then
      let n := if DOWN_TIMER_SPAN * 2 <? delta then delta / DOWN_TIMER_SPAN else 2 in
      let n := if (2 <? DOWN_TIMER_NUM) && (DOWN_TIMER_NUM <? n) then DOWN_TIMER_NUM - 1 else n in
      if DOWN_TIMER_NUM <? n then DOWN_TIMER_NUM else n
    else 1
  else 1.

(** for (i = timer_num - 1; i >= 0; i--). *)
Fixpoint check_loop (n : nat) (now period new_lcy delta : Z) (ret : Z) (a : audiolcy_adaptive_t) : audiolcy_adaptive_t * Z :=
  match n with
  | O => (a, ret)
  | S i =>
      let timer_lcy := new_lcy + delta * Z.of_nat i in
      let '(a, r) := audiolcyapt_down_timer_update now period (u16 timer_lcy) a in
      check_loop i now period new_lcy delta (if r =? 0 then timer_lcy else ret) a
  end.

Definition no_timers (a : audiolcy_adaptive_t) : audiolcy_adaptive_t :=
  set_down_timer (replicate 3 0) (set_down_timer_lcy (replicate 3 0) (set_down_timer_num 0 a)).

(** The timers from the number of them on are cleared. *)
Definition clear_rest (a : audiolcy_adaptive_t) : audiolcy_adaptive_t :=
  let n := Z.to_nat (down_timer_num a) in
  set_down_timer (take n (down_timer a) ++ replicate (3 - n) 0) (set_down_timer_lcy (take n (down_timer_lcy a) ++ replicate (3 - n) 0) a).

(** The new latency within the limits; 0 stays. *)
Definition check_limit (new_lcy_ms : Z) (a : audiolcy_adaptive_t) : Z :=
  let lowest := cfg_minimum a + scc_imcrement a in
  if (0 <? new_lcy_ms) && (new_lcy_ms <? lowest) then lowest
  else if cfg_maximum a <? new_lcy_ms then cfg_maximum a else new_lcy_ms.

(** 0: the first timer did not change; otherwise the latency it has, or the new
    latency without timers. *)
Definition audiolcyapt_down_timer_check (now period cur_lcy_ms new_lcy_ms : Z) (a : audiolcy_adaptive_t) : audiolcy_adaptive_t * Z :=
  let new_lcy_ms := check_limit new_lcy_ms a in
  if cur_lcy_ms <=? new_lcy_ms then (no_timers a, new_lcy_ms)
  else
    let delta := cur_lcy_ms - new_lcy_ms in
    let timer_num := timer_count delta (down_timer_num a) in
    let delta := if 3 <=? timer_num then delta / (timer_num + 1) else delta / timer_num in
    let '(a, ret) := check_loop (Z.to_nat timer_num) now period new_lcy_ms delta 0 a in
    (if down_timer_num a <? DOWN_TIMER_NUM then clear_rest a else a, ret).

(** The first timer goes off: the others move up. *)
Definition next_timer (a : audiolcy_adaptive_t) : audiolcy_adaptive_t :=
  let n := Z.to_nat (down_timer_num a - 1) in
  let shift l := take n (drop 1 l) ++ [0] ++ drop (S n) l in
  set_down_timer (shift (down_timer a)) (set_down_timer_lcy (shift (down_timer_lcy a)) (set_down_timer_num (down_timer_num a - 1) a)).

Definition audiolcyapt_down_timer_handle (now period : Z) (a : audiolcy_adaptive_t) : audiolcy_adaptive_t * bool :=
  if down_timer_num a =? 0 then (a, true)
  else if 0 <? quick_calc a then (no_timers a, true)
  else if u32 (at_index (down_timer a) 0 + period) <=? now / 1000 then (next_timer a, true)
  else (a, false).

(** ** The latency *)

(** The part of audiolcyapt_latency_set for a staccato: the increment is kept, or
    the change is refused. *)
Definition staccato_set (e : lcy_env) (ms : Z) (s : apt_st) : apt_st * bool :=
  let c := config s in
  let s := upd_apt (fun a => fst (audiolcyapt_down_timer_check (uptime e) (ALLM_down_timer_period_s c) 0 0 a)) s in
  let a := apt s in
  let a := if (scc_timer a =? 0) || (u32 (scc_timer a + ALLM_scc_ignore_period_ms c) <? uptime e)
           then set_scc_timer (uptime e) (set_scc_count 0 a) else a in
  let a := set_scc_count (scc_count a + 1) a in
  if (cfg_factor a <=? STACCATO_DIS_FACTOR) && (scc_count a <? ALLM_scc_ignore_count c) then (upd_apt (fun _ => a) s, false)
  else
    let a := if (pending_lcy a <? ms) && (5 <=? ms - pending_lcy a)
             then set_scc_lcy_min (-1) (set_scc_imcrement (ms - cfg_minimum a) a) else a in
    (upd_apt (fun _ => a) s, true).

(** audiolcyapt_latency_set before the adjustment that follows a staccato: whether
    the latency was stored. *)
Definition latency_store (e : lcy_env) (ms : Z) (is_staccato : bool) (s : apt_st) : apt_st * bool :=
  let a := apt s in
  match update_status a with
  | UPDATE_STA_PENDING => (s, false)
  | _ =>
      let slave := twsrole (ctrl s) =? TWS_SLAVE in
      let lowest := cfg_minimum a + scc_imcrement a in
      let s1 := if slave then
                  upd_apt (fun a => if ms <? cfg_minimum a then set_cfg_minimum ms a
                                    else if cfg_maximum a <? ms then set_cfg_maximum ms a else a) s
                else s in
      let ms := if slave then ms else if ms <? lowest then lowest else if cfg_maximum a <? ms then cfg_maximum a else ms in
      if negb slave && (pending_lcy a =? ms) then (s1, false)
      else
        let '(s1, go) := if is_staccato && negb slave then staccato_set e ms s1 else (s1, true) in
        if go then (upd_apt (fun a => set_update_status UPDATE_STA_NEED (set_staccato is_staccato (set_pending_lcy ms a))) s1, true)
        else (s1, false)
  end.

(** The end of audiolcyapt_latency_adjust: the next timer, and the packet to the
    second earphone. *)
Definition adjust_end (e : lcy_env) (timer_update : bool) (sync : option Z) (new_ms : Z) (sync_en : bool) (s : apt_st) : apt_st :=
  let s := upd_apt (set_staccato false) s in
  let s := if timer_update && (0 <? down_timer_num (apt s)) then fst (latency_store e (at_index (down_timer_lcy (apt s)) 0) false s) else s in
  match sync with
  | Some mode => if sync_en && (twsrole (ctrl s) =? TWS_MASTER) then audiolcy_ctrl_latency_twssync mode new_ms s else s
  | None => s
  end.

(** Without timers nothing is left to update. *)
Definition adjust_flag (a : audiolcy_adaptive_t) : audiolcy_adaptive_t := if down_timer_num a =? 0 then set_update_status UPDATE_STA_NONE a else a.

(** audiolcyapt_latency_adjust from the comparison with the present latency on. *)
Definition adjust_take (e : lcy_env) (new_ms : Z) (gone sync_en : bool) (s : apt_st) : apt_st :=
  let adaptive := playing_mode s =? LCYMODE_ADAPTIVE in
  let old_ms := if adaptive then u16 (aps_latency e / 1000) else audiolcyapt_latency_get (media_format (ctrl s)) (apt s) (last s) in
  if (Z.abs (new_ms - old_ms) <? LCYAPT_ADJUST_DIFF_MS) && negb (new_ms =? cfg_minimum (apt s)) && negb (old_ms =? cfg_minimum (apt s))
  then adjust_end e gone None new_ms sync_en s
  else
    let s := upd_apt (set_current_lcy new_ms) (set_last (audiolcyapt_global_set_latency (media_format (ctrl s)) new_ms (last s)) s) in
    if negb adaptive then adjust_end e gone (Some LCYSYNC_SAVE) new_ms sync_en s
    else adjust_end e gone (Some LCYSYNC_UPDATE) new_ms sync_en (audiolcy_ctrl_latency_change e new_ms s).

Definition audiolcyapt_latency_adjust (e : lcy_env) (sync_en : bool) (s : apt_st) : apt_st * Z :=
  let new_ms := pending_lcy (apt s) in
  if twsrole (ctrl s) =? TWS_SLAVE then (s, 0)
  else if (0 <? down_timer_num (apt s)) && (quick_calc (apt s) =? 0) then
    let '(a, gone) := audiolcyapt_down_timer_handle (uptime e) (ALLM_down_timer_period_s (config s)) (apt s) in
    if gone then (adjust_take e new_ms true sync_en (upd_apt (fun _ => adjust_flag a) s), 0) else (upd_apt (fun _ => a) s, new_ms)
  else (adjust_take e new_ms false sync_en (upd_apt adjust_flag s), 0).

Definition audiolcyapt_latency_set (e : lcy_env) (ms : Z) (is_staccato : bool) (s : apt_st) : apt_st * Z :=
  let '(s, stored) := latency_store e ms is_staccato s in
  if negb stored then (s, 0)
  else if staccato (apt s) then (fst (audiolcyapt_latency_adjust e true s), 0)
  else (s, pending_lcy (apt s)).

Definition audiolcyapt_latency_adjust_slave (e : lcy_env) (lcy_ms mode : Z) (s : apt_st) : apt_st :=
  let s := fst (audiolcyapt_latency_set e lcy_ms false s) in
  let s := upd_apt (set_update_status UPDATE_STA_NONE) s in
  let s := set_last (audiolcyapt_global_set_latency (media_format (ctrl s)) lcy_ms (last s)) s in
  let s := upd_apt (set_current_lcy lcy_ms) s in
  if mode =? LCYSYNC_SAVE then s else audiolcy_ctrl_latency_change e lcy_ms s.

(** audiolcyapt_thres_change: the limits, at least 23 ms apart and the upper one at
    least 110 ms. *)
Definition thres_limits (min_dlt max_dlt : Z) (a : audiolcy_adaptive_t) : audiolcy_adaptive_t :=
  let a := if (min_dlt <? 0) && (s16 (cfg_minimum a + min_dlt) <? 0) then set_cfg_minimum 0 a else set_cfg_minimum (cfg_minimum a + min_dlt) a in
  let a := if (max_dlt <? 0) && (s16 (cfg_maximum a + max_dlt) <? cfg_minimum a) then set_cfg_maximum (cfg_minimum a) a
           else set_cfg_maximum (cfg_maximum a + max_dlt) a in
  let a := if cfg_maximum a <? 110 then set_cfg_maximum 110 a else a in
  if cfg_maximum a <? cfg_minimum a + 23 then set_cfg_maximum (cfg_minimum a + 23) a else a.

Definition audiolcyapt_thres_change (e : lcy_env) (min_dlt max_dlt : Z) (s : apt_st) : apt_st :=
  let s := upd_apt (thres_limits min_dlt max_dlt) s in
  if (0 <? min_dlt) && (current_lcy (apt s) <? cfg_minimum (apt s)) then fst (audiolcyapt_latency_set e (cfg_minimum (apt s)) false s) else s.

Definition audiolcyapt_staccato_timer_handle (e : lcy_env) (s : apt_st) : apt_st :=
  if scc_imcrement (apt s) <=? 0 then s
  else if u32 (scc_timer (apt s) + ALLM_scc_clear_period_s (config s) * 1000) <? uptime e
  then upd_apt (fun a => set_scc_lcy_min (-1) (set_scc_timer (uptime e) (set_scc_imcrement 0 a))) s
  else s.

(** The latency that is recommended, in milliseconds. *)
Definition recommended (e : lcy_env) (samples : Z) (r : lcyapt_result_t) : option Z :=
  let f := result_factor r in
  let f := if 2025 <=? factor_delta_square_weighting r then u16 (f + 24)
           else if 625 <=? factor_delta_square_weighting r then u16 (f + 12) else f in
  let us := u32 (pkt_time_ave r / 2 + u32 (pkt_time_ave r * f) / 100) in
  hz ← udiv (u32 (samples * 1000)) (aps_hz e);
  Some (u32 (u32 (us + 700) / 1000 + hz)).

(** The end of audiolcyapt_latency_calcation: the latency is set and adjusted. *)
Definition latency_apply (e : lcy_env) (rem : Z) (s : apt_st) : apt_st :=
  let '(s, rem) := if 0 <? rem then audiolcyapt_latency_set e (u16 rem) false s else (s, rem) in
  if 0 <? rem then fst (audiolcyapt_latency_adjust e true s) else s.

(** .. after the timers, or without them while the calculation is quick. *)
Definition calc_end (e : lcy_env) (allm rem : Z) (s : apt_st) : apt_st :=
  let '(s, rem) :=
    if quick_calc (apt s) =? 0 then
      let '(a, r) := audiolcyapt_down_timer_check (uptime e) (ALLM_down_timer_period_s (config s)) allm (u16 rem) (apt s) in
      (upd_apt (fun _ => a) s, r)
    else (if quick_calc (apt s) =? 2 then upd_apt (set_quick_calc 0) s else s, rem) in
  latency_apply e rem s.

Definition audiolcyapt_latency_calcation (e : lcy_env) (force : bool) (s : apt_st) : option apt_st :=
  if negb force && negb (need_calc (apt s)) then Some s
  else
    let s := upd_apt (set_need_calc false) s in
    rem ← recommended e (fixedcost (ctrl s)) (result_info (apt s));
    let first := first_circle (apt s) in
    let s := if first then upd_apt (set_first_circle false) s else s in
    let floor := u32 (u32 (pkt_time_ave (result_info (apt s)) * 80) / 100 + 700) / 1000 + cfg_minimum (apt s) in
    let rem := if first && (rem <? floor) then floor else rem in
    let got := audiolcyapt_latency_get (media_format (ctrl s)) (apt s) (last s) in
    let adaptive := playing_mode s =? LCYMODE_ADAPTIVE in
    let invalid := negb adaptive && (got =? current_lcy (apt s)) in
    let allm := if adaptive then current_lcy (apt s) else if invalid then u16 rem else got in
    if (quick_calc (apt s) =? 1) && (rem <=? quick_max (apt s)) then Some s
    else
      let s := if quick_calc (apt s) =? 1 then upd_apt (set_quick_max rem) s else s in
      if negb invalid && (down_timer_num (apt s) =? 0) && (Z.abs (s32 (rem - allm)) <? LCYAPT_ADJUST_DIFF_MS) then Some s
      else
        Some (calc_end e allm rem s).

Definition audiolcyapt_mtu_check (s : apt_st) : apt_st :=
  if negb (media_format (ctrl s) =? SBC) then upd_apt (set_mtu_check 0) s
  else if (0 <? mtu_check (apt s)) && (0 <? count (source_info (apt s))) then upd_apt (set_mtu_check 0) s
  else s.

(** 1 when the check is done. *)
Definition audiolcyapt_lcy_check (e : lcy_env) (s : apt_st) : option (apt_st * bool) :=
  if (twsrole (ctrl s) =? TWS_SLAVE) || audiolcyapt_global_check_valid (media_format (ctrl s)) (last s) then Some (s, true)
  else
    let s := upd_apt (fun a => set_quick_max 0 (set_quick_count 0 (set_quick_calc 1 a))) s in
    if negb (playing_mode s =? LCYMODE_ADAPTIVE) then Some (s, true)
    else if 0 <? count (source_info (apt s)) then
      let s := upd_apt (set_first_circle true) s in
      s ← audiolcyapt_info_analyse e false true s;
      s ← audiolcyapt_latency_calcation e true s;
      Some (s, true)
    else Some (s, false).

Definition before_sync (x : lcyapt_status_e) : bool :=
  match x with LCYAPT_STA_NONE | LCYAPT_STA_INIT | LCYAPT_STA_PREPLAY => true | _ => false end.

Definition is_playing (x : lcyapt_status_e) : bool := match x with LCYAPT_STA_PLAYING => true | _ => false end.

Definition audiolcy_adaptive_main (e : lcy_env) (s : apt_st) : option apt_st :=
  if twsrole (ctrl s) =? TWS_SLAVE then Some s
  else
    let s := if 0 <? mtu_check (apt s) then audiolcyapt_mtu_check s else s in
    let s := if 0 <? scc_imcrement (apt s) then audiolcyapt_staccato_timer_handle e s else s in
    if negb (is_playing (status (apt s))) then
      if before_sync (status (apt s)) && negb (twsrole (ctrl s) =? 0xFF) then
        r ← audiolcyapt_lcy_check e s;
        let '(s, done) := r in
        if (done : bool) then
          Some (upd_apt (fun a => set_status (match status a with LCYAPT_STA_PREPLAY => LCYAPT_STA_PLAYING | _ => LCYAPT_STA_LCYSYNC end) a) s)
        else Some s
      else Some s
    else
      s ← audiolcyapt_info_analyse e false false s;
      s ← (if need_calc (apt s) then audiolcyapt_latency_calcation e false s else Some s);
      Some (if (0 <? down_timer_num (apt s)) || match update_status (apt s) with UPDATE_STA_NEED => true | _ => false end
            then fst (audiolcyapt_latency_adjust e true s) else s).

Definition audiolcy_adaptive_start_play (s : apt_st) : apt_st :=
  if twsrole (ctrl s) =? TWS_SLAVE then upd_apt (set_status LCYAPT_STA_PLAYING) s
  else
    match status (apt s) with
    | LCYAPT_STA_PLAYING => s
    | LCYAPT_STA_LCYSYNC => upd_apt (set_status LCYAPT_STA_PLAYING) s
    | _ => upd_apt (set_status LCYAPT_STA_PREPLAY) s
    end.

Definition audiolcy_adaptive_twsrole_change (old_role new_role : Z) (a : audiolcy_adaptive_t) : audiolcy_adaptive_t :=
  let a := match status a with
           | LCYAPT_STA_PREPLAY => if old_role =? TWS_SLAVE then set_status LCYAPT_STA_PLAYING a else a
           | _ => a
           end in
  if new_role =? TWS_SLAVE then audiolcyapt_info_clear a else a.

Definition zero_result : lcyapt_result_t := mk_result 0 0 0 0 0 0 0 0 0 (replicate 9 0) 0 0 0 0 0 (replicate 8 0) 0.
Definition zero_adaptive : audiolcy_adaptive_t :=
  mk_adaptive zero_source zero_result 0 0 0 0 0 0 false UPDATE_STA_NONE 0 0 0 0 false LCYAPT_STA_NONE false 0 0 0 0 0 (replicate 3 0) (replicate 3 0).

(** The configured limits, or the default ones. *)
Definition init_limits (e : lcy_env) (g : audiolcy_cfg_t) (format : Z) : audiolcy_adaptive_t :=
  let a := set_cfg_minimum (u32 (increase_threshold e 1 format) / 1000) zero_adaptive in
  let a := set_cfg_factor (BM_ALLM_Factor g) (set_cfg_maximum (BM_ALLM_Upper g) a) in
  let a := if cfg_minimum a =? 0 then set_cfg_minimum 60 a else a in
  if cfg_maximum a <? 110 then set_cfg_maximum 140 a else a.

(** The threshold of a large time, in percent. *)
Definition init_cbig_thres (a : audiolcy_adaptive_t) : audiolcy_adaptive_t :=
  let a := upd_result (set_cbig_thres 150) a in
  let a := upd_result (fun r => set_cbig_thres (cbig_thres r + (5 - cfg_factor a) * 10) r) a in
  upd_result (fun r => if 200 <? cbig_thres r then set_cbig_thres 200 r else r) a.

(** The last latency, or the lower limit. *)
Definition init_latency (format : Z) (l : audiolcyapt_global_t) (a : audiolcy_adaptive_t) : audiolcy_adaptive_t :=
  let a := set_current_lcy (audiolcyapt_latency_get format a l) a in
  if current_lcy a <? cfg_minimum a then set_current_lcy (cfg_minimum a) a else a.

Definition init_flags (format : Z) (a : audiolcy_adaptive_t) : audiolcy_adaptive_t :=
  let a := if format =? SBC then set_mtu_check 1 a else a in
  match status a with LCYAPT_STA_PREPLAY => a | _ => set_status LCYAPT_STA_INIT a end.

Definition audiolcy_adatpive_init (e : lcy_env) (g : audiolcy_global_t) (l : audiolcyapt_global_t) (c : audiolcy_ctrl_t) : option audiolcy_adaptive_t :=
  if negb (BM_Use_ALLM (cfg g)) || negb (stream_type c =? STREAM_MUSIC) || (negb (media_format c =? SBC) && negb (media_format c =? AAC)) || negb (apt_mem e)
  then None
  else
    let s := audiolcyapt_thres_change e 0 0 (mk_st g l c (init_limits e (cfg g) (media_format c)) []) in
    Some (init_flags (media_format c) (init_latency (media_format c) l (init_cbig_thres (apt s)))).

(** ** The component: global variables, the control block, the saved mode *)

Record world : Type := mk_world {
  w_glob : audiolcy_global_t;
  w_last : audiolcyapt_global_t;
  w_ctrl : option audiolcy_ctrl_t;  (* g_audiolcy_ctrl *)
  w_apt : option audiolcy_adaptive_t;  (* its lcyapt *)
  w_saved : option Z;  (* the property LCY_MODE *)
  w_outs : list lcy_output
}.

Definition w_set_glob (g : audiolcy_global_t) (w : world) : world := mk_world g (w_last w) (w_ctrl w) (w_apt w) (w_saved w) (w_outs w).
Definition w_set_last (l : audiolcyapt_global_t) (w : world) : world := mk_world (w_glob w) l (w_ctrl w) (w_apt w) (w_saved w) (w_outs w).
Definition w_set_ctrl (c : option audiolcy_ctrl_t) (w : world) : world := mk_world (w_glob w) (w_last w) c (w_apt w) (w_saved w) (w_outs w).
Definition w_set_apt (a : option audiolcy_adaptive_t) (w : world) : world := mk_world (w_glob w) (w_last w) (w_ctrl w) a (w_saved w) (w_outs w).
Definition w_save (m : Z) (w : world) : world := mk_world (w_glob w) (w_last w) (w_ctrl w) (w_apt w) (Some m) (SaveMode m :: w_outs w).
Definition w_puts (os : list lcy_output) (w : world) : world := mk_world (w_glob w) (w_last w) (w_ctrl w) (w_apt w) (w_saved w) (os ++ w_outs w).

(** A function of the adaptive mode, when there is one. *)
Definition with_apt (f : apt_st -> option apt_st) (w : world) : option world :=
  match w_ctrl w, w_apt w with
  | Some c, Some a =>
      s ← f (mk_st (w_glob w) (w_last w) c a (w_outs w));
      Some (mk_world (glob s) (last s) (Some (ctrl s)) (Some (apt s)) (w_saved w) (outs s))
  | _, _ => Some w
  end.

(** *** Interpolation of lost packets (audiolcy_interpolation.c) *)

Definition audiolcymplc_check_threshold (c : audiolcy_ctrl_t) : Z := if media_format c =? SBC then 6 * sample_rate_khz c else 9 * sample_rate_khz c.

Definition audiolcymplc_dsp_config (c : audiolcy_ctrl_t) (p : mplcdsp_param_t) : list lcy_output := if dsp_handle c then [MplcConfig p] else [].

(** The mode it asks for is the one of the control block, which is set already. *)
Definition audiolcy_musicplc_init (e : lcy_env) (g : audiolcy_global_t) (c : audiolcy_ctrl_t) : option mplcdsp_param_t * list lcy_output :=
  if lcy_mode c =? LCYMODE_NORMAL then (None, [])
  else if (BM_PLC_Mode (cfg g) =? 0) || negb (stream_type c =? STREAM_MUSIC) || (negb (media_format c =? SBC) && negb (media_format c =? AAC)) then (None, [])
  else if negb (mplc_mem e) then (None, [])
  else
    let th1 := u16 (audiolcymplc_check_threshold c) in
    let p := mk_mplc (BM_PLC_Mode (cfg g) mod 4) 16 48 200 300 th1 (u16 (th1 + 24)) in
    (Some p, audiolcymplc_dsp_config c p).

Definition audiolcy_musicplc_deinit (c : audiolcy_ctrl_t) (p : mplcdsp_param_t) : list lcy_output :=
  audiolcymplc_dsp_config c (mk_mplc 0 (thres_pause p) (thres_pemframe p) (thres_period p) (thres_resume p) (samples_th1 p) (samples_th2 p)).

(** *** Modes (audiolcy_entry.c) *)

Definition audiolcy_get_latency_mode (w : world) : Z := match w_ctrl w with Some c => lcy_mode c | None => cur_lcy_mode (w_glob w) end.

Definition audiolcy_is_low_latency_mode (w : world) : bool := negb (audiolcy_get_latency_mode w =? LCYMODE_NORMAL).

Definition switch_forbidden (w : world) : bool := match w_ctrl w with Some c => lcymode_switch_forbidden c | None => false end.

Definition audiolcy_check_latency_mode_switch_next (w : world) : world * Z :=
  let cur := audiolcy_get_latency_mode w in
  let g := w_glob w in
  if switch_forbidden w then (w, cur)
  else if 0 <? lcymode_switch_hold g then (w_set_glob (mk_global (cfg g) (cur_lcy_mode g) 0) w, LCYMODE_NORMAL)
  else
    let next := (cur + 1) mod LCYMODE_END in
    let next := if (next =? LCYMODE_ADAPTIVE) && negb (BM_Use_ALLM (cfg g)) then (next + 1) mod LCYMODE_END else next in
    let next := if (next =? LCYMODE_LOW) && BM_Use_ALLM (cfg g) then LCYMODE_ADAPTIVE else next in
    (w, next).

Definition audiolcy_get_latency_threshold (e : lcy_env) (format : Z) (w : world) : Z :=
  match w_ctrl w with
  | Some c => ctrl_threshold e format c (w_apt w) (w_last w)
  | None => u32 (increase_threshold e (cur_lcy_mode (w_glob w)) format)
  end.

Definition audiolcy_get_latency_threshold_min (e : lcy_env) (format : Z) (w : world) : Z :=
  match w_ctrl w with
  | Some c => u32 (reduce_threshold e (lcy_mode c) (if format =? 0 then media_format c else format))
  | None => u32 (reduce_threshold e (cur_lcy_mode (w_glob w)) format)
  end.

(** audiolcy_ctrl_drop_insert_data: the samples to insert (2) or to drop (1). *)
Definition data_adjust (e : lcy_env) (new_lcy_ms : Z) (c : audiolcy_ctrl_t) : list lcy_output :=
  let cur_lcy_samples := u16 (u16 (aps_latency e / 1000) * sample_rate_khz c) in
  let new_lcy_samples := u16 (new_lcy_ms * sample_rate_khz c) in
  let '(flag, samples) :=
    if cur_lcy_samples <? new_lcy_samples then (2, u16 (new_lcy_samples - cur_lcy_samples))
    else if new_lcy_ms <? cur_lcy_samples then (1, u16 (cur_lcy_samples - new_lcy_samples))
    else (0, 0) in
  if (flag =? 0) || (samples <? 128 * 5) then [] else [DataAdjust flag samples].

Definition audiolcy_ctrl_drop_insert_data (e : lcy_env) (new_lcy_ms : Z) (w : world) : world :=
  match w_ctrl w with
  | Some c =>
      if negb (dsp_handle c) then w
      else
        let new_lcy_ms := if new_lcy_ms =? 0 then audiolcy_get_latency_threshold e (media_format c) w / 1000 else new_lcy_ms in
        w_puts (data_adjust e new_lcy_ms c) w
  | None => w
  end.

(** The playback takes the mode: the latency, the data and the interpolation. *)
Definition playback_mode (e : lcy_env) (mode : Z) (w : world) : world :=
  match w_ctrl w with
  | Some c =>
      let c := set_lcy_mode mode c in
      let '(new_lcy_ms, os) := ctrl_latency_change e 0 c (w_apt w) (w_last w) in
      let w := audiolcy_ctrl_drop_insert_data e (u16 new_lcy_ms) (w_puts os (w_set_ctrl (Some c) w)) in
      match lcymplc c with
      | Some p => if lcy_mode c =? LCYMODE_NORMAL then w_puts (audiolcy_musicplc_deinit c p) (w_set_ctrl (Some (set_lcymplc None c)) w) else w
      | None =>
          if lcy_mode c =? LCYMODE_NORMAL then w
          else let '(p, os) := audiolcy_musicplc_init e (w_glob w) c in w_puts os (w_set_ctrl (Some (set_lcymplc p c)) w)
      end
  | None => w
  end.

Definition audiolcy_set_latency_mode (e : lcy_env) (mode : Z) (checked : bool) (w : world) : world :=
  if switch_forbidden w then w
  else
    let '(w, mode) := if checked then (w, mode) else audiolcy_check_latency_mode_switch_next w in
    let g := w_glob w in
    if mode =? cur_lcy_mode g then w
    else
      let w := w_set_glob (mk_global (cfg g) mode (lcymode_switch_hold g)) w in
      let w := if Save_Latency_Mode (cfg g) && negb (bool_decide (w_saved w = Some mode)) then w_save mode w else w in
      playback_mode e mode w.

(** The mode after a restart: the saved one or the default one. *)
Definition boot_mode (c : audiolcy_cfg_t) (saved : option Z) : Z :=
  let mode := if Save_Latency_Mode c then default (Default_Low_Latency_Mode c) saved else Default_Low_Latency_Mode c in
  if (mode =? LCYMODE_LOW) && BM_Use_ALLM c then LCYMODE_ADAPTIVE else mode.

Definition audiolcy_config_init (e : lcy_env) (c : audiolcy_cfg_t) (w : world) : world * Z :=
  let mode := boot_mode c (w_saved w) in
  let w := audiolcy_set_latency_mode e mode true (w_set_glob (mk_global c mode 0) w) in
  (w, cur_lcy_mode (w_glob w)).

(** system_switch_low_latency_mode (system_tts_policy.c), without the message to
    the other earphone. *)
Definition system_switch_low_latency_mode (e : lcy_env) (w : world) : world :=
  let cur := audiolcy_get_latency_mode w in
  let '(w, next) := audiolcy_check_latency_mode_switch_next w in
  if next =? cur then w else audiolcy_set_latency_mode e next true w.

(** *** The playback (audiolcy_basic.c) *)

Definition audiolcy_ctrl_set_twsrole (new_role : Z) (w : world) : world :=
  match w_ctrl w with
  | Some c =>
      let old_role := twsrole c in
      if old_role =? new_role then w
      else w_set_ctrl (Some (set_twsrole new_role c)) (w_set_apt (audiolcy_adaptive_twsrole_change old_role new_role <$> w_apt w) w)
  | None => w
  end.

(** audiolcy_pktinfo_t: the fields that are used. *)
Definition audiolcy_ctrl_set_pktinfo (e : lcy_env) (pkt_len frames cyc : Z) (w : world) : option world :=
  match w_ctrl w with
  | Some c =>
      let c := if max_pkt_len c <? pkt_len then set_max_pkt_len pkt_len c else c in
      with_apt (fun s => Some (audiolcyapt_info_collect e frames cyc s)) (w_set_ctrl (Some c) w)
  | None => Some w
  end.

Definition audiolcy_ctrl_set_start (w : world) : option world := with_apt (fun s => Some (audiolcy_adaptive_start_play s)) w.

Definition audiolcy_ctrl_get_fixedcost (w : world) : Z := match w_ctrl w with Some c => fixedcost c | None => 0 end.

(** A packet from the first earphone. *)
Definition audiolcy_ctrl_latency_twssync_deal (e : lcy_env) (pkt : audiolcy_lcysync_t) (w : world) : option world :=
  match w_ctrl w with
  | Some c =>
      if negb (twsrole c =? TWS_SLAVE) then Some w
      else
        let c := set_lcy_send_repeat 0 c in
        if (sync_mode pkt =? LCYSYNC_REPEAT) && (0 <? lcy_recv_repeat c) && (sync_pkt_num (lcysync c) =? sync_pkt_num pkt) then
          Some (w_set_ctrl (Some (set_lcysync (mk_sync 0 0 0) (set_lcy_recv_repeat 0 c))) w)
        else
          let repeat := sync_mode pkt =? LCYSYNC_REPEAT in
          let mode := if repeat then if lcy_mode c =? LCYMODE_ADAPTIVE then LCYSYNC_UPDATE else LCYSYNC_SAVE else sync_mode pkt in
          let c := if repeat then set_lcy_recv_repeat 0 c else c in
          with_apt (fun s => Some (audiolcyapt_latency_adjust_slave e (sync_latency pkt) mode s)) (w_set_ctrl (Some c) w)
  | None => Some w
  end.

Definition audiolcy_ctrl_deinit (stream format : Z) (w : world) : world :=
  match w_ctrl w with
  | Some c =>
      if (0 <? stream) && negb (stream =? stream_type c) then w
      else if (stream =? 0) && (0 <? format) && negb (format =? media_format c) then w
      else
        let w := w_puts (match lcymplc c with Some p => audiolcy_musicplc_deinit c p | None => [] end) w in
        w_set_ctrl None (w_set_apt None w)
  | None => w
  end.

(** audiolcy_init_param_t. *)
Record audiolcy_init_param_t : Type := mk_param {
  p_format : Z;
  p_stream : Z;
  p_khz : Z;
  p_media : bool;
  p_dsp : bool
}.

Definition new_ctrl (mode : Z) (p : audiolcy_init_param_t) : audiolcy_ctrl_t :=
  mk_ctrl (p_format p) (p_stream p) (p_khz p) 0xFF (p_media p) (p_dsp p) None mode false 0 false 0 0 0 (mk_sync 0 0 0).

(** A new control block, of music or of a call. *)
Definition ctrl_new (e : lcy_env) (p : audiolcy_init_param_t) (w : world) : world :=
  let c := new_ctrl (cur_lcy_mode (w_glob w)) p in
  if p_stream p =? STREAM_MUSIC then
    let '(m, os) := if negb (lcy_mode c =? LCYMODE_NORMAL) && (0 <? BM_PLC_Mode (cfg (w_glob w))) then audiolcy_musicplc_init e (w_glob w) c else (None, []) in
    let c := set_lcymplc m c in
    let a := if BM_Use_ALLM (cfg (w_glob w)) then audiolcy_adatpive_init e (w_glob w) (w_last w) c else None in
    w_puts os (w_set_apt a (w_set_ctrl (Some c) w))
  else w_set_apt None (w_set_ctrl (Some (set_lcymode_switch_forbidden true (set_lcy_mode LCYMODE_NORMAL c))) w).

Definition audiolcy_ctrl_init (e : lcy_env) (p : audiolcy_init_param_t) (w : world) : world :=
  if negb (p_stream p =? STREAM_MUSIC) && negb (p_stream p =? STREAM_VOICE) then w
  else
    let create w := if ctrl_mem e then ctrl_new e p w else w in
    match w_ctrl w with
    | Some c =>
        if stream_type c =? p_stream p then w_set_ctrl (Some (set_sample_rate_khz (p_khz p) (set_media_format (p_format p) c))) w
        else create (audiolcy_ctrl_deinit (stream_type c) 0 w)
    | None => create w
    end.

Definition audiolcy_ctrl_main (e : lcy_env) (w : world) : option world :=
  match w_ctrl w with
  | Some c =>
      let c := if negb (lcysync_cb_set c) && cb_set e then set_lcysync_cb_set true c else c in
      with_apt (audiolcy_adaptive_main e) (w_set_ctrl (Some c) w)
  | None => Some w
  end.

(** *** Commands (audiolcy_cmd_entry) *)

Inductive lcycmd : Type :=
| LCYCMD_INIT (p : audiolcy_init_param_t)
| LCYCMD_DEINIT (stream format : Z)
| LCYCMD_SET_TWSROLE (role : Z)
| LCYCMD_SET_PKTINFO (pkt_len frames cyc : Z)
| LCYCMD_SET_START
| LCYCMD_GET_FIXED
| LCYCMD_APT_INVALID
| LCYCMD_APT_SYNCLCY
| LCYCMD_MAIN.

Definition audiolcy_ctrl_sync (e : lcy_env) (w : world) : world :=
  if audiolcy_get_latency_mode w =? LCYMODE_ADAPTIVE then
    let aptlcy := u16 (audiolcy_get_latency_threshold e 0 w / 1000) in
    match w_ctrl w with
    | Some c => let '(c, os) := ctrl_twssync LCYSYNC_UPDATE aptlcy c in w_puts os (w_set_ctrl (Some c) w)
    | None => w
    end
  else w.

(** GET_FIXED only writes to the caller's variable. *)
Definition audiolcy_cmd_entry (e : lcy_env) (cmd : lcycmd) (w : world) : option world :=
  match cmd with
  | LCYCMD_INIT p => Some (audiolcy_ctrl_init e p w)
  | LCYCMD_DEINIT stream format => Some (audiolcy_ctrl_deinit stream format w)
  | LCYCMD_SET_TWSROLE role => Some (audiolcy_ctrl_set_twsrole (u8 role) w)
  | LCYCMD_SET_PKTINFO len frames cyc => audiolcy_ctrl_set_pktinfo e len frames cyc w
  | LCYCMD_SET_START => audiolcy_ctrl_set_start w
  | LCYCMD_GET_FIXED => Some w
  | LCYCMD_APT_INVALID => Some (w_set_last (audiolcyapt_global_set_invalid (w_last w)) w)
  | LCYCMD_APT_SYNCLCY => Some (audiolcy_ctrl_sync e w)
  | LCYCMD_MAIN => audiolcy_ctrl_main e w
  end.

Definition audiolcy_cmd_exit (e : lcy_env) (stream format : Z) (w : world) : option world := audiolcy_cmd_entry e (LCYCMD_DEINIT stream format) w.
