(* ===== verification/AudiolcyProof.v ===== *)
(** * Latency of music and calls: what the adaptive mode guarantees

    The latency stays within its limits, falls no faster than one step per period
    of the timers, and is recommended from exactly the packets received since the
    last time; the mode is the one that was chosen before a restart. *)

From stdpp Require Import base list numbers option.
From S2P Require Import Prelude Audiolcy.
Open Scope Z_scope.

(** ** The part of the structure the latency depends on *)

Definition core (a : audiolcy_adaptive_t) :=
  (cfg_minimum a, cfg_maximum a, scc_imcrement a, pending_lcy a, current_lcy a).
Definition timers (a : audiolcy_adaptive_t) := (down_timer_num a, down_timer_lcy a, down_timer a).

(** A structure is taken apart and its setters are computed. *)
Ltac setters :=
  cbv [upd_result upd_source core timers
       set_source_info set_result_info set_cfg_minimum set_cfg_maximum set_cfg_factor set_mtu_check set_pending_lcy set_current_lcy set_need_calc
       set_update_status set_recommend_timer set_quick_calc set_quick_max set_quick_count set_first_circle set_status set_staccato set_scc_imcrement
       set_scc_count set_scc_lcy_min set_scc_timer set_down_timer_num set_down_timer_lcy set_down_timer
       source_info result_info cfg_minimum cfg_maximum cfg_factor mtu_check pending_lcy current_lcy need_calc update_status recommend_timer quick_calc
       quick_max quick_count first_circle status staccato scc_imcrement scc_count scc_lcy_min scc_timer down_timer_num down_timer_lcy down_timer] in *.

(** ** Timers: each is due one period after the one before it *)

Definition chained (lb ub p : Z) (num : Z) (ts : list Z) : Prop :=
  exists t0 t1 t2, ts = [t0; t1; t2] /\ 0 <= num <= 3 /\ (0 < num -> lb <= t0 <= ub) /\ (1 < num -> t1 = t0 + p) /\ (2 < num -> t2 = t0 + 2 * p).

Definition chain (lb ub p : Z) (a : audiolcy_adaptive_t) : Prop :=
  chained lb ub p (down_timer_num a) (down_timer a) /\ length (down_timer_lcy a) = 3%nat.

(** What the functions of the timers leave. *)
Definition rest (a : audiolcy_adaptive_t) :=
  (core a, update_status a, quick_calc a, status a, result_info a, source_info a).

Lemma timer_round_rest i lcy time_s a a' : timer_round i lcy time_s a = Some a' -> rest a' = rest a.
Proof. unfold timer_round. intros E. repeat case_match; try discriminate E; injection E as <-; reflexivity. Qed.

Lemma timer_loop_rest fuel i lcy time_s p a : rest (fst (timer_loop fuel i lcy time_s p a)) = rest a.
Proof.
  revert i time_s. induction fuel as [|fuel IH]; intros i time_s; [reflexivity|]. cbn [timer_loop].
  destruct (timer_round _ _ _ _) eqn:E; [exact (timer_round_rest _ _ _ _ _ E) | apply IH].
Qed.

Lemma check_loop_rest n now p new_lcy delta ret a : rest (fst (check_loop n now p new_lcy delta ret a)) = rest a.
Proof.
  revert ret a. induction n as [|n IH]; intros ret a; [reflexivity|]. cbn [check_loop]. unfold audiolcyapt_down_timer_update.
  pose proof (timer_loop_rest 3 0 (u16 (new_lcy + delta * Z.of_nat n)) (now / 1000) p a) as H. destruct (timer_loop _ _ _ _ _ _). rewrite IH. exact H.
Qed.

Lemma down_timer_check_rest now p cur new a : rest (fst (audiolcyapt_down_timer_check now p cur new a)) = rest a.
Proof.
  unfold audiolcyapt_down_timer_check. set (new' := check_limit new a). destruct (cur <=? new'); [reflexivity|].
  match goal with |- context [check_loop ?n ?x ?y ?l ?d ?r a] => pose proof (check_loop_rest n x y l d r a) as Hr; destruct (check_loop n x y l d r a) as [a1 r1] end.
  cbn [fst] in *. destruct (down_timer_num a1 <? _); exact Hr.
Qed.

Lemma down_timer_handle_rest now p a : rest (fst (audiolcyapt_down_timer_handle now p a)) = rest a.
Proof. unfold audiolcyapt_down_timer_handle. repeat case_match; reflexivity. Qed.

Lemma chain_weaken lb ub ub' p a : ub <= ub' -> chain lb ub p a -> chain lb ub' p a.
Proof. intros ? [(t0 & t1 & t2 & Hc) Hl]. split; [|exact Hl]. exists t0, t1, t2. intuition lia. Qed.

Section timers.
  Context (now p lb : Z) (Hnow : 0 <= now < 2 ^ 32) (Hp : 0 <= p < 2 ^ 16) (Hlb : 0 <= lb <= now / 1000).

Lemma timer_round_chain ub i lcy time_s a a' :
  0 <= i < 3 -> i <= down_timer_num a -> lb <= ub <= now / 1000 -> chain lb ub p a ->
  (i = 0 -> time_s = now / 1000) -> (0 < i -> time_s = u32 (at_index (down_timer a) (i - 1) + p)) ->
  timer_round i lcy time_s a = Some a' -> chain lb (now / 1000) p a' /\ 0 < down_timer_num a'.
Proof.
  intros Hi Hin Hub [(t0 & t1 & t2 & Hts & Hn & H0 & H1 & H2) Hl] E0 Ei. destruct a. unfold timer_round, down_timer_store, chain, chained, DOWN_TIMER_NUM.
  setters. subst down_timer. destruct down_timer_lcy as [|l0 [|l1 [|l2 [|]]]]; try discriminate Hl.
  assert (Hd : now / 1000 < 2 ^ 23) by (apply Z.div_lt_upper_bound; lia).
  assert (Hi' : i = 0 \/ i = 1 \/ i = 2) by lia.
  assert (Hw : forall x, x <= 3 -> 0 <= x -> u8 x = x) by (intros; apply u8_small; lia).
  assert (Hw' : forall x, 0 <= x <= now / 1000 + 3 * p -> u32 x = x) by (intros; apply u32_small; lia).
  intros E. unfold at_index, store_at in *.
  destruct Hi' as [-> | [-> | ->]];
    change (0 =? 3 - 1) with false in E; change (1 =? 3 - 1) with false in E; change (2 =? 3 - 1) with true in E;
    change (Z.to_nat 0) with 0%nat in *; change (Z.to_nat 1) with 1%nat in *; change (Z.to_nat 2) with 2%nat in *;
    change (Z.to_nat (1 - 1)) with 0%nat in *; change (Z.to_nat (2 - 1)) with 1%nat in *;
    change (0 + 1) with 1 in E; change (1 + 1) with 2 in E; change (2 + 1) with 3 in E;
    cbn [insert list_insert andb nth] in *; reflect_bools; cbn [andb] in E; try discriminate E;
    injection E as <-; (split; [split; [do 3 eexists; split; [reflexivity|] | reflexivity] | ]);
    setters; try (rewrite E0 by reflexivity); try (rewrite Ei by lia); rewrite ?Hw by lia;
    rewrite ?(Hw' (now / 1000)) by lia; rewrite ?(Hw' (t0 + p)) by lia; rewrite ?(Hw' (t0 + p)) by lia; rewrite ?(Hw' (t1 + p)) by lia; rewrite ?(Hw' (t1 + p)) by lia; lia.
Qed.


Lemma timer_loop_chain ub fuel i lcy time_s a :
  0 <= i -> i + Z.of_nat fuel <= 3 -> i <= down_timer_num a -> lb <= ub <= now / 1000 -> chain lb ub p a -> (i = 0 -> time_s = now / 1000) ->
  let a' := fst (timer_loop fuel i lcy time_s p a) in
  chain lb (now / 1000) p a' /\ (0 < i \/ 0 < Z.of_nat fuel -> 0 < down_timer_num a').
Proof.
  revert i time_s. induction fuel as [|fuel IH]; intros i time_s H0 Hf Hn Hub Hc Ht; cbn [timer_loop].
  - cbn [fst]. split; [|lia]. destruct Hc as [(t0 & t1 & t2 & Hc) Hl]. split; [|exact Hl]. exists t0, t1, t2. intuition lia.
  - destruct (timer_round _ _ _ _) as [a'|] eqn:E; cbn [fst].
    + eapply (timer_round_chain ub) in E; [| lia | lia | lia | exact Hc | |].
      * intuition.
      * intros ->. cbn. apply Ht. reflexivity.
      * intros. replace (0 <? i) with true by lia. reflexivity.
    + destruct (Z.eq_dec i (down_timer_num a)) as [->|Hi].
      * exfalso. unfold timer_round in E. rewrite Z.eqb_refl in E. replace (down_timer_num a <? DOWN_TIMER_NUM) with true in E by (unfold DOWN_TIMER_NUM; lia). discriminate E.
      * pose proof (IH (i + 1) (if 0 <? i then u32 (at_index (down_timer a) (i - 1) + p) else time_s)) as IH'. cbv zeta in IH' |- *.
        destruct IH' as (? & ?); [lia | lia | lia | exact Hub | exact Hc | lia |]. intuition lia.
Qed.

Lemma check_loop_chain n new_lcy delta ret a :
  chain lb (now / 1000) p a ->
  let a' := fst (check_loop n now p new_lcy delta ret a) in
  chain lb (now / 1000) p a' /\ ((0 < n)%nat -> 0 < down_timer_num a').
Proof.
  revert ret a. induction n as [|n IH]; intros ret a Hc; cbn [check_loop fst].
  - split; [exact Hc | lia].
  - assert (Hn : 0 <= down_timer_num a) by (destruct Hc as [(? & ? & ? & ? & ? & _) _]; lia).
    destruct (timer_loop_chain (now / 1000) 3 0 (u16 (new_lcy + delta * Z.of_nat n)) (now / 1000) a) as (H1 & H3); [lia | lia | lia | lia | exact Hc | reflexivity |].
    unfold audiolcyapt_down_timer_update. destruct (timer_loop _ _ _ _ _ _) as [a1 r]. cbn [fst] in *.
    destruct (IH (if r =? 0 then new_lcy + delta * Z.of_nat n else ret) a1 H1) as (? & Hn').
    split; [assumption|]. intros _. destruct n as [|n]; [apply H3; right; lia | apply Hn'; lia].
Qed.

Lemma no_timers_chain ub a : chain lb ub p (no_timers a) /\ down_timer_num (no_timers a) = 0.
Proof. destruct a. unfold no_timers, chain. setters. split; [|reflexivity]. split; [|reflexivity]. exists 0, 0, 0. change (u8 0) with 0. split; [reflexivity | lia]. Qed.

Lemma clear_rest_chain ub a :
  chain lb ub p a -> chain lb ub p (clear_rest a) /\ down_timer_num (clear_rest a) = down_timer_num a.
Proof.
  intros [(t0 & t1 & t2 & Hts & Hn & Hc) Hl]. destruct a. unfold clear_rest, chain, chained. setters. subst down_timer. split; [|reflexivity].
  destruct down_timer_lcy as [|l0 [|l1 [|l2 [|]]]]; try discriminate Hl.
  assert (Hk : down_timer_num = 0 \/ down_timer_num = 1 \/ down_timer_num = 2 \/ down_timer_num = 3) by lia.
  destruct Hk as [-> | [-> | [-> | ->]]]; (split; [do 3 eexists; split; [reflexivity | lia] | reflexivity]).
Qed.

(** A decrease arms the timers; otherwise they go and the result is the new
    latency, within the limits. *)
Lemma down_timer_check_chain cur new a :
  chain lb (now / 1000) p a ->
  let '(a', ret) := audiolcyapt_down_timer_check now p cur new a in
  chain lb (now / 1000) p a' /\
  (0 < down_timer_num a' \/ down_timer_num a' = 0 /\ cur <= ret /\ ret = check_limit new a).
Proof.
  intros Hc. unfold audiolcyapt_down_timer_check. set (new' := check_limit new a). destruct (Z.leb_spec cur new') as [Hle|Hlt].
  - destruct (no_timers_chain (now / 1000) a). split; [assumption | right; split; [assumption | split; [assumption | reflexivity]]].
  - set (k := Z.to_nat _). set (d := if 3 <=? _ then _ / _ else _).
    assert (Hk : (0 < k)%nat).
    { subst k. unfold timer_count, DOWN_TIMER_SPAN, DOWN_TIMER_NUM.
      assert (10 < cur - new' -> 2 <= (cur - new') / 5) by (intros; apply Z.div_le_lower_bound; lia). reflect_bools; cbn [andb]; lia. }
    destruct (check_loop_chain k new' d 0 a Hc) as (H1 & H3). specialize (H3 Hk).
    destruct (check_loop _ _ _ _ _ _ _) as [a1 r]. cbn [fst] in *.
    destruct (down_timer_num a1 <? DOWN_TIMER_NUM); [|split; [assumption | left; assumption]].
    destruct (clear_rest_chain (now / 1000) a1 H1) as (? & ?). split; [assumption | left; lia].
Qed.

(** The first timer goes off at least one period after it was armed. *)
Lemma down_timer_handle_chain a a' :
  chain lb (now / 1000) p a -> 0 < down_timer_num a -> quick_calc a = 0 ->
  audiolcyapt_down_timer_handle now p a = (a', true) ->
  lb + p <= now / 1000 /\ chain (lb + p) (now / 1000) p a' /\ down_timer_num a' = down_timer_num a - 1.
Proof.
  intros [(t0 & t1 & t2 & Hts & Hn & H0 & H1 & H2) Hl] Hnum Hq. unfold audiolcyapt_down_timer_handle.
  replace (down_timer_num a =? 0) with false by lia. replace (0 <? quick_calc a) with false by lia.
  assert (Hd : now / 1000 < 2 ^ 23) by (apply Z.div_lt_upper_bound; lia).
  rewrite Hts. change (at_index [t0; t1; t2] 0) with t0. rewrite u32_small by lia. destruct (Z.leb_spec (t0 + p) (now / 1000)) as [Hdue|]; intros E; [|discriminate E].
  injection E as <-. destruct a. unfold next_timer, chain, chained. setters. subst down_timer.
  destruct down_timer_lcy as [|l0 [|l1 [|l2 [|]]]]; try discriminate Hl. rewrite u8_small by lia.
  split; [lia|]. split; [|lia].
  assert (Hk : down_timer_num = 1 \/ down_timer_num = 2 \/ down_timer_num = 3) by lia.
  destruct Hk as [-> | [-> | ->]]; (split; [do 3 eexists; split; [reflexivity | lia] | reflexivity]).
Qed.

End timers.

(** ** The limits *)

(** A latency is not known (0) or within the limits. *)
Definition ok_lcy (a : audiolcy_adaptive_t) (v : Z) : Prop := v = 0 \/ cfg_minimum a <= v <= cfg_maximum a.

Definition lim (a : audiolcy_adaptive_t) : Prop :=
  0 <= cfg_minimum a /\ cfg_minimum a + 23 <= cfg_maximum a /\ 110 <= cfg_maximum a <= 255 /\
  scc_imcrement a = 0 /\ ok_lcy a (pending_lcy a) /\ ok_lcy a (current_lcy a) /\ update_status a <> UPDATE_STA_PENDING.

(** What the limits depend on. *)
Definition limits (a : audiolcy_adaptive_t) := (core a, update_status a).

Lemma lim_limits a a' : limits a' = limits a -> lim a -> lim a'.
Proof. unfold limits, core, lim, ok_lcy. intros [= -> -> -> -> -> ->] H. exact H. Qed.

Lemma rest_limits a a' : rest a' = rest a -> limits a' = limits a.
Proof. unfold rest, limits. congruence. Qed.

(** What a playback keeps of its control block. *)
Definition fixed (c : audiolcy_ctrl_t) :=
  (media_format c, stream_type c, sample_rate_khz c, twsrole c, media_handle c, dsp_handle c, lcymplc c, lcy_mode c, lcymode_switch_forbidden c).

(** A latency that is sent to the media player is within the limits. *)
Definition ok_out (a : audiolcy_adaptive_t) (o : lcy_output) : Prop :=
  match o with MediaLatency us => 1000 * cfg_minimum a <= us <= 1000 * cfg_maximum a | _ => True end.

(** A step: the limits hold and are at most widened, and what is sent is within them. *)
Record kept (s s' : apt_st) : Prop := mk_kept {
  kept_glob : glob s' = glob s;
  kept_fixed : fixed (ctrl s') = fixed (ctrl s);
  kept_min : cfg_minimum (apt s') <= cfg_minimum (apt s);
  kept_max : cfg_maximum (apt s) <= cfg_maximum (apt s');
  kept_lim : lim (apt s');
  kept_outs : exists os, outs s' = os ++ outs s /\ Forall (ok_out (apt s')) os
}.

Lemma ok_out_widen a a' o : cfg_minimum a' <= cfg_minimum a -> cfg_maximum a <= cfg_maximum a' -> ok_out a o -> ok_out a' o.
Proof. destruct o; cbn; lia || trivial. Qed.

Lemma kept_trans s1 s2 s3 : kept s1 s2 -> kept s2 s3 -> kept s1 s3.
Proof.
  intros [g1 f1 mi1 ma1 l1 (o1 & E1 & F1)] [g2 f2 mi2 ma2 l2 (o2 & E2 & F2)].
  split; [congruence | congruence | lia | lia | exact l2 |]. exists (o2 ++ o1). split; [rewrite E2, E1, app_assoc; reflexivity|].
  apply Forall_app. split; [exact F2|]. eapply Forall_impl; [|exact F1]. intros o. apply ok_out_widen; lia.
Qed.

Lemma lim_core a a' : core a' = core a -> update_status a' <> UPDATE_STA_PENDING -> lim a -> lim a'.
Proof. unfold core, lim, ok_lcy. intros [= -> -> -> -> ->] H. intuition. Qed.

Lemma kept_core s s' :
  lim (apt s) -> glob s' = glob s -> fixed (ctrl s') = fixed (ctrl s) -> outs s' = outs s -> core (apt s') = core (apt s) -> update_status (apt s') <> UPDATE_STA_PENDING ->
  kept s s'.
Proof.
  intros Hl Hg Hf Ho Hr Hs. pose proof (lim_core _ _ Hr Hs Hl) as Hl'. unfold core in Hr. injection Hr as Hmi Hma _ _ _.
  split; [assumption | assumption | lia | lia | exact Hl' |]. exists []. split; [exact Ho | constructor].
Qed.

Lemma kept_same s s' : lim (apt s) -> glob s' = glob s -> fixed (ctrl s') = fixed (ctrl s) -> outs s' = outs s -> limits (apt s') = limits (apt s) -> kept s s'.
Proof. intros Hl Hg Hf Ho Hr. pose proof (lim_limits _ _ Hr Hl) as Hl'. unfold limits in Hr. apply kept_core; try assumption; [congruence | apply Hl']. Qed.

Lemma kept_refl s : lim (apt s) -> kept s s.
Proof. intros. apply kept_same; reflexivity || assumption. Qed.

Lemma kept_upd s f : lim (apt s) -> limits (f (apt s)) = limits (apt s) -> kept s (upd_apt f s).
Proof. intros. apply kept_same; reflexivity || assumption. Qed.

Lemma analyse_rest khz force a a' n : audiolcyapt_region_info_analyse khz force a = Some (a', n) -> limits a' = limits a /\ timers a' = timers a /\ quick_calc a' = quick_calc a /\ status a' = status a.
Proof.
  unfold audiolcyapt_region_info_analyse. set (win := pkt_window _ _). destruct (_ || _); [intros [= <- _]; repeat split|].
  intros E. apply bind_Some in E as (sum & _ & E). apply bind_Some in E as (ave & _ & E).
  destruct (update_loop _ _ _ _) as [i r]. injection E as <- _. repeat split.
Qed.

Definition keeps_all (s s' : apt_st) : Prop :=
  s' = mk_st (glob s) (last s) (ctrl s) (apt s') (outs s) /\ limits (apt s') = limits (apt s) /\ timers (apt s') = timers (apt s) /\
  status (apt s') = status (apt s).

Lemma info_analyse_kept e clear force s s' :
  audiolcyapt_info_analyse e clear force s = Some s' -> keeps_all s s' /\ (quick_calc (apt s) = 0 -> quick_calc (apt s') = 0).
Proof.
  unfold audiolcyapt_info_analyse. intros E. apply bind_Some in E as ([a n] & Ea & E). apply analyse_rest in Ea as (Hl & Ht & Hq & Hs).
  destruct (n =? 0); [injection E as <-; repeat split; cbn; congruence|]. destruct (_ && _); [injection E as <-; repeat split; cbn; congruence|].
  apply bind_Some in E as (factor & _ & E). apply bind_Some in E as ([a2 cl] & Ea2 & E). injection E as <-.
  assert (H2 : limits a2 = limits a /\ timers a2 = timers a /\ status a2 = status a /\ (quick_calc a = 0 -> quick_calc a2 = 0)).
  { change (quick_calc (set_need_calc true (upd_result (set_result_factor factor) a))) with (quick_calc a) in Ea2.
    destruct (0 <? quick_calc a) eqn:Eq; [injection Ea2 as <- _; destruct (_ <=? _); (split; [reflexivity | split; [reflexivity | split; [reflexivity | intros; lia]]])|].
    apply bind_Some in Ea2 as (r & _ & Ea2). injection Ea2 as <- _. split; [reflexivity | split; [reflexivity | split; [reflexivity | intros H; exact H]]]. }
  destruct H2 as (Hl2 & Ht2 & Hs2 & Hq2).
  match goal with |- context [if ?b then upd_result ts_region_clear ?x else _] => set (a3 := if b then upd_result ts_region_clear x else x) in * end.
  assert (H3 : limits a3 = limits a2 /\ timers a3 = timers a2 /\ status a3 = status a2 /\ quick_calc a3 = quick_calc a2) by (subst a3; destruct (cl || _); repeat split).
  destruct H3 as (Hl3 & Ht3 & Hs3 & Hq3). unfold keeps_all. cbn [apt upd_apt]. split; [split; [reflexivity | split; [congruence | split; congruence]] |]. intros Hz. rewrite Hq3. apply Hq2. congruence.
Qed.

(** ** The latency *)

Definition clamp (a : audiolcy_adaptive_t) (ms : Z) : Z := if ms <? cfg_minimum a then cfg_minimum a else if cfg_maximum a <? ms then cfg_maximum a else ms.

Lemma clamp_ok a ms : cfg_minimum a <= cfg_maximum a -> cfg_minimum a <= clamp a ms <= cfg_maximum a.
Proof. intros. unfold clamp. reflect_bools; lia. Qed.

(** The latency that is stored: pending, and marked for an update. *)
Definition stored (ms : Z) (a : audiolcy_adaptive_t) : audiolcy_adaptive_t := set_update_status UPDATE_STA_NEED (set_staccato false (set_pending_lcy ms a)).

Lemma latency_store_eq e ms s :
  lim (apt s) -> twsrole (ctrl s) <> TWS_SLAVE ->
  latency_store e ms false s = (s, false) /\ pending_lcy (apt s) = clamp (apt s) ms \/
  latency_store e ms false s = (upd_apt (stored (clamp (apt s) ms)) s, true).
Proof.
  intros (Hmi & Hg & Hma & Hscc & Hp & Hc & Hu) Hr. unfold latency_store. rewrite Hscc, Z.add_0_r.
  replace (twsrole (ctrl s) =? TWS_SLAVE) with false by lia. fold (clamp (apt s) ms). cbn [negb andb].
  destruct (Z.eqb_spec (pending_lcy (apt s)) (clamp (apt s) ms)); destruct (update_status (apt s)); try contradiction; auto.
Qed.

Lemma stored_lim a ms : lim a -> cfg_minimum a <= ms <= cfg_maximum a -> lim (stored ms a).
Proof.
  intros (Hmi & Hg & Hma & Hscc & Hp & Hc & Hu) Hms. destruct a. unfold stored, lim, ok_lcy in *. setters. rewrite u8_small by lia.
  intuition discriminate.
Qed.

Lemma store_kept e ms s : lim (apt s) -> twsrole (ctrl s) <> TWS_SLAVE -> kept s (fst (latency_store e ms false s)).
Proof.
  intros Hl Hr. destruct (latency_store_eq e ms s Hl Hr) as [[-> _] | ->]; [apply kept_refl, Hl|]. cbn [fst].
  split; [reflexivity | reflexivity | cbn; lia | cbn; lia | | exists []; split; [reflexivity | constructor]].
  apply stored_lim; [exact Hl | apply clamp_ok; destruct Hl; lia].
Qed.

(** The second earphone takes any latency, and widens its limits. *)
Definition widen (ms : Z) (a : audiolcy_adaptive_t) : audiolcy_adaptive_t :=
  if ms <? cfg_minimum a then set_cfg_minimum ms a else if cfg_maximum a <? ms then set_cfg_maximum ms a else a.

Lemma widen_lim ms a :
  lim a -> 0 <= ms <= 255 ->
  lim (widen ms a) /\ cfg_minimum (widen ms a) <= cfg_minimum a /\ cfg_maximum a <= cfg_maximum (widen ms a) /\ cfg_minimum (widen ms a) <= ms <= cfg_maximum (widen ms a).
Proof.
  intros (Hmi & Hg & Hma & Hscc & Hp & Hc & Hu) Hms. destruct a. unfold widen, lim, ok_lcy in *. setters.
  reflect_bools; rewrite ?u8_small by lia; (split; [|lia]); (repeat split; lia || assumption).
Qed.

Lemma latency_store_slave e ms s :
  lim (apt s) -> twsrole (ctrl s) = TWS_SLAVE -> latency_store e ms false s = (upd_apt (fun a => stored ms (widen ms a)) s, true).
Proof.
  intros (_ & _ & _ & _ & _ & _ & Hu) Hr. unfold latency_store. rewrite Hr, Z.eqb_refl. cbn [negb andb].
  destruct (update_status (apt s)); [reflexivity | reflexivity | contradiction].
Qed.

Lemma latency_get_ok a fmt g : lim a -> g_is_valid g = true -> g_format g = fmt -> cfg_minimum a <= audiolcyapt_latency_get fmt a g <= cfg_maximum a.
Proof. intros (? & ? & ? & Hs & _) Hv Hf. unfold audiolcyapt_latency_get. rewrite Hv, Hf, Z.eqb_refl, Hs. cbn [andb]. reflect_bools; lia. Qed.

Lemma change_kept e ms s :
  lim (apt s) -> ok_lcy (apt s) ms -> (ms = 0 -> playing_mode s = LCYMODE_ADAPTIVE /\ g_is_valid (last s) = true /\ g_format (last s) = media_format (ctrl s)) ->
  kept s (audiolcy_ctrl_latency_change e ms s).
Proof.
  intros Hl Hok Hz. split; [reflexivity | reflexivity | cbn; lia | cbn; lia | exact Hl |].
  eexists. split; [reflexivity|]. change (apt (audiolcy_ctrl_latency_change e ms s)) with (apt s). cbn [snd ctrl_latency_change]. destruct (media_handle _); [|constructor].
  constructor; [|constructor]. cbn [ok_out]. destruct (Z.eqb_spec ms 0) as [->|Hms]; [|destruct Hok; lia].
  destruct (Hz eq_refl) as (Hm & Hv & Hf). unfold ctrl_threshold. unfold playing_mode in Hm. rewrite Hm, Z.eqb_refl.
  pose proof (latency_get_ok (apt s) (media_format (ctrl s)) (last s) Hl Hv Hf) as Hg. destruct Hl as (? & ? & ? & _).
  set (l := audiolcyapt_latency_get _ _ _) in *. rewrite u32_small by lia. rewrite Z.div_mul by lia. rewrite u16_small by lia. lia.
Qed.

Lemma ctrl_twssync_fixed mode ms c : fixed (fst (ctrl_twssync mode ms c)) = fixed c.
Proof. unfold ctrl_twssync. repeat case_match; reflexivity. Qed.

Lemma ctrl_twssync_outs a mode ms c : Forall (ok_out a) (snd (ctrl_twssync mode ms c)).
Proof. unfold ctrl_twssync. repeat case_match; repeat constructor. Qed.

Lemma twssync_kept mode ms s : lim (apt s) -> kept s (audiolcy_ctrl_latency_twssync mode ms s).
Proof.
  intros Hl. split; [reflexivity | apply ctrl_twssync_fixed | cbn; lia | cbn; lia | exact Hl |].
  eexists. split; [reflexivity | apply ctrl_twssync_outs].
Qed.

Lemma adjust_end_kept e tu sync ms sync_en s : lim (apt s) -> twsrole (ctrl s) <> TWS_SLAVE -> kept s (adjust_end e tu sync ms sync_en s).
Proof.
  intros Hl Hr. unfold adjust_end. set (s1 := upd_apt (set_staccato false) s). assert (K1 : kept s s1) by (apply kept_upd; [exact Hl | reflexivity]).
  match goal with |- context [if tu && ?b then ?x else s1] => set (s2 := if tu && b then x else s1) in * end.
  assert (K2 : kept s1 s2).
  { subst s2. destruct (tu && _); [apply store_kept; [apply K1 | exact Hr] | apply kept_refl, K1]. }
  pose proof (kept_trans _ _ _ K1 K2) as K. clearbody s2. destruct sync as [mode|]; [|exact K]. destruct (sync_en && _); [|exact K].
  eapply kept_trans; [exact K | apply twssync_kept, K].
Qed.

Lemma kept_role s s' : kept s s' -> twsrole (ctrl s') = twsrole (ctrl s).
Proof. intros K. pose proof (kept_fixed _ _ K) as H. unfold fixed in H. congruence. Qed.
Lemma kept_mode s s' : kept s s' -> playing_mode s' = playing_mode s.
Proof. intros K. pose proof (kept_fixed _ _ K) as H. unfold fixed, playing_mode in *. congruence. Qed.
Lemma kept_format s s' : kept s s' -> media_format (ctrl s') = media_format (ctrl s).
Proof. intros K. pose proof (kept_fixed _ _ K) as H. unfold fixed in *. congruence. Qed.

(** The pending latency becomes the current one. *)
Lemma set_current_lim a : lim a -> lim (set_current_lcy (pending_lcy a) a).
Proof. intros (Hmi & Hg & Hma & Hscc & Hp & Hc & Hu). destruct a. unfold lim, ok_lcy in *. setters. rewrite u8_small by lia. intuition. Qed.

Lemma adjust_take_kept e gone sync_en s :
  lim (apt s) -> twsrole (ctrl s) <> TWS_SLAVE -> kept s (adjust_take e (pending_lcy (apt s)) gone sync_en s).
Proof.
  intros Hl Hr. unfold adjust_take. destruct (_ && _); [apply adjust_end_kept; assumption|].
  set (s1 := upd_apt _ (set_last _ s)).
  assert (K1 : kept s s1).
  { split; [reflexivity | reflexivity | cbn; lia | cbn; lia | apply set_current_lim, Hl |]. exists []. split; [reflexivity | constructor]. }
  destruct (Z.eqb_spec (playing_mode s) LCYMODE_ADAPTIVE) as [Hm|Hm]; cbn [negb].
  - eapply kept_trans; [exact K1|].
    assert (K2 : kept s1 (audiolcy_ctrl_latency_change e (pending_lcy (apt s)) s1)).
    { apply change_kept; [apply K1 | apply Hl | intros _; split; [exact Hm | split; reflexivity]]. }
    eapply kept_trans; [exact K2|]. apply adjust_end_kept; [apply K2 | exact Hr].
  - eapply kept_trans; [exact K1|]. apply adjust_end_kept; [apply K1 | exact Hr].
Qed.

Lemma adjust_flag_kept s : lim (apt s) -> kept s (upd_apt adjust_flag s).
Proof.
  intros Hl. apply kept_core; try reflexivity; [exact Hl| |]; cbn [upd_apt apt]; unfold adjust_flag; destruct (_ =? _); try reflexivity; [discriminate | apply Hl].
Qed.

Lemma adjust_kept e sync_en s : lim (apt s) -> kept s (fst (audiolcyapt_latency_adjust e sync_en s)).
Proof.
  intros Hl. destruct (Z.eq_dec (twsrole (ctrl s)) TWS_SLAVE) as [Hr|Hr].
  { unfold audiolcyapt_latency_adjust. rewrite Hr. apply kept_refl, Hl. }
  unfold audiolcyapt_latency_adjust. replace (twsrole (ctrl s) =? TWS_SLAVE) with false by lia. destruct (_ && _).
  - pose proof (down_timer_handle_rest (uptime e) (ALLM_down_timer_period_s (config s)) (apt s)) as Hrest.
    destruct (audiolcyapt_down_timer_handle _ _ _) as [a gone]. cbn [fst] in Hrest.
    set (s1 := upd_apt (fun _ => a) s). assert (K1 : kept s s1) by (apply kept_upd; [exact Hl | apply rest_limits, Hrest]).
    destruct gone; [|exact K1]. eapply kept_trans; [exact K1|]. eapply kept_trans; [apply adjust_flag_kept, K1|].
    change (upd_apt (fun _ => adjust_flag a) s) with (upd_apt adjust_flag s1).
    replace (pending_lcy (apt s)) with (pending_lcy (apt (upd_apt adjust_flag s1))).
    + apply adjust_take_kept; [apply (adjust_flag_kept s1), K1 | exact Hr].
    + transitivity (pending_lcy a); [cbn [upd_apt apt s1]; unfold adjust_flag; destruct (_ =? _); reflexivity | unfold rest, core in Hrest; congruence].
  - eapply kept_trans; [apply adjust_flag_kept, Hl|].
    replace (pending_lcy (apt s)) with (pending_lcy (apt (upd_apt adjust_flag s))) by (cbn [upd_apt apt]; unfold adjust_flag; destruct (_ =? _); reflexivity).
    apply adjust_take_kept; [apply (adjust_flag_kept s), Hl | exact Hr].
Qed.

(** ** The recommended latency is applied *)

Lemma latency_set_eq e ms s :
  lim (apt s) -> twsrole (ctrl s) <> TWS_SLAVE ->
  audiolcyapt_latency_set e ms false s = (s, 0) /\ pending_lcy (apt s) = clamp (apt s) ms \/
  audiolcyapt_latency_set e ms false s = (upd_apt (stored (clamp (apt s) ms)) s, u8 (clamp (apt s) ms)).
Proof.
  intros Hl Hr. unfold audiolcyapt_latency_set. destruct (latency_store_eq e ms s Hl Hr) as [[-> Hp] | ->]; [left; split; [reflexivity | exact Hp] | right; reflexivity].
Qed.

Lemma latency_set_kept e ms s : lim (apt s) -> twsrole (ctrl s) <> TWS_SLAVE -> kept s (fst (audiolcyapt_latency_set e ms false s)).
Proof.
  intros Hl Hr. pose proof (store_kept e ms s Hl Hr) as K. unfold audiolcyapt_latency_set.
  destruct (latency_store_eq e ms s Hl Hr) as [[E _] | E]; rewrite E in K |- *; exact K.
Qed.

Lemma latency_apply_kept e rem s : lim (apt s) -> twsrole (ctrl s) <> TWS_SLAVE -> kept s (latency_apply e rem s).
Proof.
  intros Hl Hr. unfold latency_apply. destruct (0 <? rem) eqn:E; [|rewrite E; apply kept_refl, Hl].
  pose proof (latency_set_kept e (u16 rem) s Hl Hr) as K. destruct (audiolcyapt_latency_set _ _ _ _) as [s1 r]. cbn [fst] in K.
  destruct (0 <? r); [|exact K]. eapply kept_trans; [exact K | apply adjust_kept, K].
Qed.

(** The two ways the calculation ends; until then it only changes flags. *)
Lemma calculation_cases e force s s' :
  audiolcyapt_latency_calcation e force s = Some s' ->
  exists s1, keeps_all s s1 /\ quick_calc (apt s1) = quick_calc (apt s) /\
    (s' = s1 \/ exists allm rem, s' = calc_end e allm rem s1 /\ (playing_mode s = LCYMODE_ADAPTIVE -> allm = current_lcy (apt s))).
Proof.
  unfold audiolcyapt_latency_calcation. intros E. destruct (negb force && _); [injection E as <-; exists s; split; [destruct s; repeat split | split; [reflexivity | left; reflexivity]]|]. apply bind_Some in E as (rem & _ & E). revert E. set (s0 := upd_apt (set_need_calc false) s).
  match goal with |- context [if first_circle (apt s0) then ?x else s0] => set (s1 := if first_circle (apt s0) then x else s0) end.
  assert (K1 : keeps_all s s1 /\ quick_calc (apt s1) = quick_calc (apt s) /\ playing_mode s1 = playing_mode s).
  { subst s1 s0. destruct (first_circle _); repeat split. }
  clearbody s1. destruct K1 as (K1 & Hq1 & Hm1). cbv zeta.
  match goal with |- context [if first_circle (apt s0) && ?b then ?x else rem] => set (rem1 := if first_circle (apt s0) && b then x else rem) end. clearbody rem1.
  rewrite Hm1. set (inv := negb (playing_mode s =? LCYMODE_ADAPTIVE) && _).
  match goal with |- context [if playing_mode s =? LCYMODE_ADAPTIVE then ?x else ?y] => set (allm := if playing_mode s =? LCYMODE_ADAPTIVE then x else y) end.
  assert (Ha : playing_mode s = LCYMODE_ADAPTIVE -> allm = current_lcy (apt s)).
  { intros Hm. subst allm. rewrite Hm, Z.eqb_refl. destruct K1 as (_ & Hl & _). unfold limits, core in Hl. congruence. }
  clearbody allm inv. destruct ((_ =? 1) && _); [intros [= <-]; exists s1; split; [exact K1 | split; [exact Hq1 | left; reflexivity]]|].
  match goal with |- context [if quick_calc (apt s1) =? 1 then ?x else s1] => set (s2 := if quick_calc (apt s1) =? 1 then x else s1) end.
  assert (K2 : keeps_all s s2 /\ quick_calc (apt s2) = quick_calc (apt s)).
  { subst s2. destruct (_ =? 1); [|auto]. destruct K1 as (-> & ? & ? & ?). repeat split; assumption. }
  clearbody s2. destruct K2 as [K2 Hq2]. destruct (_ && _ && _); intros [= <-]; exists s2; (split; [exact K2 | split; [exact Hq2 |]]); [left; reflexivity|].
  right. exists allm, rem1. split; [reflexivity | exact Ha].
Qed.

Lemma keeps_all_kept s s' : lim (apt s) -> keeps_all s s' -> kept s s'.
Proof. intros Hl (E & H & _). apply kept_same; [exact Hl | rewrite E; reflexivity | rewrite E; reflexivity | rewrite E; reflexivity | exact H]. Qed.

Lemma calc_end_kept e allm rem s : lim (apt s) -> twsrole (ctrl s) <> TWS_SLAVE -> kept s (calc_end e allm rem s).
Proof.
  intros Hl Hr. unfold calc_end. destruct (quick_calc (apt s) =? 0).
  - pose proof (down_timer_check_rest (uptime e) (ALLM_down_timer_period_s (config s)) allm (u16 rem) (apt s)) as H.
    destruct (audiolcyapt_down_timer_check _ _ _ _ _) as [a r]. cbn [fst] in H.
    assert (K : kept s (upd_apt (fun _ => a) s)) by (apply kept_upd; [exact Hl | apply rest_limits, H]).
    eapply kept_trans; [exact K | apply latency_apply_kept; [apply K | exact Hr]].
  - set (s1 := if _ =? 2 then _ else s). assert (K : kept s s1) by (subst s1; destruct (_ =? 2); [apply kept_upd; [exact Hl | reflexivity] | apply kept_refl, Hl]).
    eapply kept_trans; [exact K | apply latency_apply_kept; [apply K | rewrite (kept_role _ _ K); exact Hr]].
Qed.

Lemma calculation_kept e force s s' : lim (apt s) -> twsrole (ctrl s) <> TWS_SLAVE -> audiolcyapt_latency_calcation e force s = Some s' -> kept s s'.
Proof.
  intros Hl Hr E. apply calculation_cases in E as (s1 & K1 & _ & H). pose proof (keeps_all_kept _ _ Hl K1) as K.
  destruct H as [-> | (allm & rem & -> & _)]; [exact K|]. eapply kept_trans; [exact K | apply calc_end_kept; [apply K | rewrite (kept_role _ _ K); exact Hr]].
Qed.

Lemma info_analyse_lim e clear force s s' : lim (apt s) -> audiolcyapt_info_analyse e clear force s = Some s' -> kept s s'.
Proof. intros Hl E. apply info_analyse_kept in E as [K _]. apply keeps_all_kept; assumption. Qed.

Lemma lcy_check_kept e s s' d : lim (apt s) -> audiolcyapt_lcy_check e s = Some (s', d) -> kept s s'.
Proof.
  intros Hl. unfold audiolcyapt_lcy_check. destruct (Z.eqb_spec (twsrole (ctrl s)) TWS_SLAVE) as [Hr|Hr]; [intros [= <- _]; apply kept_refl, Hl|].
  destruct (audiolcyapt_global_check_valid _ _); [intros [= <- _]; apply kept_refl, Hl|]. cbn [orb].
  set (s1 := upd_apt _ s). assert (K1 : kept s s1) by (apply kept_upd; [exact Hl | reflexivity]).
  destruct (negb _); [intros [= <- _]; exact K1|]. destruct (0 <? _); [|intros [= <- _]; exact K1].
  set (s2 := upd_apt _ s1). assert (K2 : kept s1 s2) by (apply kept_upd; [apply K1 | reflexivity]).
  intros E. apply bind_Some in E as (s3 & E3 & E). apply info_analyse_lim in E3 as K3; [|apply K2].
  apply bind_Some in E as (s4 & E4 & E). injection E as <- _.
  apply calculation_kept in E4; [|apply K3 | rewrite (kept_role _ _ K3); exact Hr].
  eapply kept_trans; [exact K1|]. eapply kept_trans; [exact K2|]. eapply kept_trans; [exact K3 | exact E4].
Qed.

(** What precedes the analysis in audiolcy_adaptive_main only clears flags. *)
Lemma main_start_kept e s :
  lim (apt s) ->
  let s1 := if 0 <? mtu_check (apt s) then audiolcyapt_mtu_check s else s in
  (if 0 <? scc_imcrement (apt s1) then audiolcyapt_staccato_timer_handle e s1 else s1) = s1 /\ keeps_all s s1 /\
  quick_calc (apt s1) = quick_calc (apt s) /\ status (apt s1) = status (apt s).
Proof.
  intros Hl s1. assert (H : keeps_all s s1 /\ quick_calc (apt s1) = quick_calc (apt s) /\ status (apt s1) = status (apt s)).
  { subst s1. unfold audiolcyapt_mtu_check. repeat case_match; (split; [destruct s; repeat split | split; reflexivity]). }
  destruct H as (H & Hq & Hs). split; [|split; [exact H | split; assumption]]. destruct H as (_ & H & _). apply lim_limits in H; [|exact Hl].
  destruct H as (_ & _ & _ & -> & _). reflexivity.
Qed.

Lemma main_kept e s s' : lim (apt s) -> audiolcy_adaptive_main e s = Some s' -> kept s s'.
Proof.
  intros Hl. unfold audiolcy_adaptive_main. destruct (Z.eqb_spec (twsrole (ctrl s)) TWS_SLAVE) as [Hr|Hr]; [intros [= <-]; apply kept_refl, Hl|].
  destruct (main_start_kept e s Hl) as (Es & Ks & _ & _). cbv zeta in Es, Ks |- *. rewrite Es. clear Es.
  set (s1 := if 0 <? mtu_check (apt s) then _ else s) in *. apply keeps_all_kept in Ks; [|exact Hl]. clearbody s1.
  intros E. eapply kept_trans; [exact Ks|]. pose proof (kept_role _ _ Ks) as Hr1.
  destruct (negb _).
  - destruct (_ && _); [|injection E as <-; apply kept_refl, Ks]. apply bind_Some in E as ([s2 d] & E2 & E). apply lcy_check_kept in E2; [|apply Ks].
    destruct d; injection E as <-; [|exact E2]. eapply kept_trans; [exact E2|]. apply kept_upd; [apply E2 | reflexivity].
  - apply bind_Some in E as (s2 & E2 & E). apply info_analyse_lim in E2; [|apply Ks]. pose proof (kept_role _ _ E2) as Hr2.
    apply bind_Some in E as (s3 & E3 & E). eapply kept_trans; [exact E2|].
    assert (K3 : kept s2 s3) by (destruct (need_calc _); [apply (calculation_kept e false); [apply E2 | congruence | exact E3] | injection E3 as <-; apply kept_refl, E2]).
    eapply kept_trans; [exact K3|]. injection E as <-. destruct (_ || _); [apply adjust_kept, K3 | apply kept_refl, K3].
Qed.

(** A packet from the first earphone, with a latency of a byte. *)
Lemma adjust_slave_kept e ms mode s :
  lim (apt s) -> twsrole (ctrl s) = TWS_SLAVE -> 0 < ms <= 255 -> kept s (audiolcyapt_latency_adjust_slave e ms mode s).
Proof.
  intros Hl Hr Hms. unfold audiolcyapt_latency_adjust_slave, audiolcyapt_latency_set. rewrite latency_store_slave by assumption. cbn [fst snd negb].
  change (staccato (apt (upd_apt (fun a => stored ms (widen ms a)) s))) with false. cbn [fst].
  destruct (widen_lim ms (apt s) Hl) as (Hw & H1 & H2 & H3); [lia|].
  set (s1 := upd_apt (set_current_lcy ms) _).
  assert (K1 : kept s s1).
  { split; [reflexivity | reflexivity | exact H1 | exact H2 | | exists []; split; [reflexivity | constructor]].
    apply (lim_core (set_current_lcy (pending_lcy (stored ms (widen ms (apt s)))) (stored ms (widen ms (apt s))))).
    - change (pending_lcy (stored ms ?x)) with (u8 ms). rewrite (u8_small ms) by lia. reflexivity.
    - discriminate.
    - apply set_current_lim, stored_lim; assumption. }
  destruct (_ =? _); [exact K1|]. eapply kept_trans; [exact K1|]. apply change_kept; [apply K1 | right; exact H3 | lia].
Qed.

Lemma collect_kept e frames cyc s : lim (apt s) -> kept s (audiolcyapt_info_collect e frames cyc s).
Proof. intros Hl. unfold audiolcyapt_info_collect. destruct (_ =? _); [apply kept_refl, Hl | apply kept_upd; [exact Hl | reflexivity]]. Qed.

Lemma start_play_kept s : lim (apt s) -> kept s (audiolcy_adaptive_start_play s).
Proof. intros Hl. unfold audiolcy_adaptive_start_play. destruct (_ =? _); [|case_match]; (apply kept_refl, Hl) || (apply kept_upd; [exact Hl | reflexivity]). Qed.

(** ** A new playback *)

Lemma thres_limits_eq a :
  0 < cfg_minimum a <= 232 -> 110 <= cfg_maximum a <= 255 ->
  thres_limits 0 0 a = set_cfg_maximum (Z.max (cfg_maximum a) (cfg_minimum a + 23)) a.
Proof.
  intros Hi Ha. destruct a. unfold thres_limits. cbn [Z.ltb Z.compare andb]. setters. rewrite !Z.add_0_r. rewrite (u8_small cfg_minimum), (u8_small cfg_maximum) by lia.
  reflect_bools; try lia; setters; ((rewrite Z.max_l by lia) || (rewrite Z.max_r by lia)); rewrite ?u8_small by lia; reflexivity.
Qed.

(** The threshold of the low latency mode leaves room for the upper limit. *)
Definition sane_env (e : lcy_env) : Prop := forall f, 0 <= increase_threshold e 1 f <= 232999.

Lemma init_limits_ok e g f :
  sane_env e ->
  let a := init_limits e g f in
  0 < cfg_minimum a <= 232 /\ 110 <= cfg_maximum a <= 255 /\ scc_imcrement a = 0 /\ pending_lcy a = 0 /\ current_lcy a = 0 /\ update_status a = UPDATE_STA_NONE.
Proof.
  intros He. specialize (He f). unfold init_limits. rewrite (u32_small (increase_threshold e 1 f)) by lia.
  set (t := increase_threshold e 1 f / 1000). assert (Ht : 0 <= t <= 232) by (subst t; Z.div_mod_to_equations; lia). clearbody t.
  set (a0 := set_cfg_factor _ _). assert (Hm : cfg_minimum a0 = t) by (apply u8_small; lia). rewrite Hm.
  assert (Hx : 0 <= cfg_maximum a0 < 256) by apply u8_range.
  assert (H0 : scc_imcrement a0 = 0 /\ pending_lcy a0 = 0 /\ current_lcy a0 = 0 /\ update_status a0 = UPDATE_STA_NONE) by (repeat split). clearbody a0.
  destruct a0. setters. reflect_bools; setters; rewrite ?u8_small by lia; intuition lia.
Qed.

Lemma thres_change_lim e s :
  0 < cfg_minimum (apt s) <= 232 -> 110 <= cfg_maximum (apt s) <= 255 -> scc_imcrement (apt s) = 0 -> pending_lcy (apt s) = 0 -> current_lcy (apt s) = 0 ->
  update_status (apt s) = UPDATE_STA_NONE ->
  let a := apt (audiolcyapt_thres_change e 0 0 s) in lim a /\ current_lcy a = 0.
Proof.
  intros Hmi Hma Hs Hp Hc Hu. unfold audiolcyapt_thres_change. cbn [Z.ltb Z.compare andb upd_apt apt]. rewrite thres_limits_eq by lia.
  destruct (apt s). unfold lim, ok_lcy. setters. rewrite u8_small by lia. intuition (lia || congruence).
Qed.

Lemma init_latency_lim f l a : lim a -> current_lcy a = 0 -> lim (init_latency f l a).
Proof.
  intros Hl Hc. unfold init_latency. set (v := audiolcyapt_latency_get f a l).
  assert (Hv : ok_lcy a v).
  { subst v. destruct (g_is_valid l && (g_format l =? f)) eqn:Ev.
    - right. apply andb_prop in Ev as [Ev Ef]. apply latency_get_ok; [exact Hl | exact Ev | lia].
    - left. unfold audiolcyapt_latency_get. rewrite Ev. exact Hc. }
  clearbody v. destruct a. unfold lim, ok_lcy in *. setters. rewrite (u8_small v) by lia.
  reflect_bools; setters; rewrite ?u8_small by lia; intuition lia.
Qed.

Lemma init_flags_limits f a : limits (init_flags f a) = limits a.
Proof. unfold init_flags. destruct (f =? SBC); [destruct (status (set_mtu_check 1 a)) | destruct (status a)]; reflexivity. Qed.

Lemma init_lim e g l c a : sane_env e -> audiolcy_adatpive_init e g l c = Some a -> lim a.
Proof.
  intros He. unfold audiolcy_adatpive_init. destruct (_ || _); [discriminate|]. cbv zeta. intros E. apply (inj Some) in E. rewrite <- E. clear E.
  eapply lim_limits; [apply init_flags_limits|]. destruct (init_limits_ok e (cfg g) (media_format c) He) as (H1 & H2 & H3 & H4 & H5 & H6).
  destruct (thres_change_lim e (mk_st g l c (init_limits e (cfg g) (media_format c)) []) H1 H2 H3 H4 H5 H6) as [L Hc].
  generalize dependent (apt (audiolcyapt_thres_change e 0 0 (mk_st g l c (init_limits e (cfg g) (media_format c)) []))). intros a1 L Hc.
  apply init_latency_lim; [apply (lim_limits a1); [reflexivity | exact L] | exact Hc].
Qed.

(** ** Any sequence of commands, changes of the mode and packets *)

Inductive lcy_event : Type :=
| ECmd (cmd : lcycmd)
| EMode (mode : Z) (checked : bool)
| ESync (pkt : audiolcy_lcysync_t).

Definition lcy_step (e : lcy_env) (ev : lcy_event) (w : world) : option world :=
  match ev with
  | ECmd cmd => audiolcy_cmd_entry e cmd w
  | EMode mode checked => Some (audiolcy_set_latency_mode e mode checked w)
  | ESync pkt => audiolcy_ctrl_latency_twssync_deal e pkt w
  end.

(** A packet carries the latency of the other earphone, which is a byte. *)
Definition sane_event (ev : lcy_event) : Prop := match ev with ESync pkt => 0 < sync_latency pkt <= 255 | _ => True end.

Inductive lcy_reach : world -> Prop :=
| lcy_boot g l saved outs : lcy_reach (mk_world g l None None saved outs)
| lcy_next e ev w w' : lcy_reach w -> sane_env e -> sane_event ev -> lcy_step e ev w = Some w' -> lcy_reach w'.

Definition w_lim (w : world) : Prop := forall a, w_apt w = Some a -> lim a.

(** The new outputs of a step, within the limits of the structure after it. *)
Definition w_outs_ok (w w' : world) : Prop :=
  exists os, w_outs w' = os ++ w_outs w /\ forall a, w_apt w' = Some a -> Forall (ok_out a) os.

Lemma with_apt_ok f w w' :
  w_lim w -> (forall s s', lim (apt s) -> w_ctrl w = Some (ctrl s) -> f s = Some s' -> kept s s') -> with_apt f w = Some w' -> w_lim w' /\ w_outs_ok w w'.
Proof.
  intros Hw Hf. unfold with_apt. destruct (w_ctrl w) as [c|] eqn:Ec; [destruct (w_apt w) as [a|] eqn:Ea|].
  - intros E. apply bind_Some in E as (s & Es & E). injection E as <-. apply Hf in Es as K; [|exact (Hw a Ea) | reflexivity].
    split; [intros a' [= <-]; apply K|]. destruct (kept_outs _ _ K) as (os & Eo & Fo). exists os. split; [exact Eo | intros a' [= <-]; exact Fo].
  - intros [= <-]. split; [exact Hw | exists []; split; [reflexivity | constructor]].
  - intros [= <-]. split; [exact Hw | exists []; split; [reflexivity | constructor]].
Qed.

(** Steps that send no latency. *)
Definition quiet (w w' : world) : Prop := exists os, w_outs w' = os ++ w_outs w /\ forall a, Forall (ok_out a) os.

Lemma quiet_refl w w' : w_outs w' = w_outs w -> quiet w w'.
Proof. intros E. exists []. split; [exact E | constructor]. Qed.

Lemma quiet_trans w1 w2 w3 : quiet w1 w2 -> quiet w2 w3 -> quiet w1 w3.
Proof.
  intros (o1 & E1 & F1) (o2 & E2 & F2). exists (o2 ++ o1). split; [rewrite E2, E1, app_assoc; reflexivity|]. intros a. apply Forall_app. split; [apply F2 | apply F1].
Qed.

Lemma quiet_ok w w' : quiet w w' -> w_outs_ok w w'.
Proof. intros (os & E & F). exists os. split; [exact E | intros a _; apply F]. Qed.

Lemma mplc_outs_ok a c p : Forall (ok_out a) (audiolcymplc_dsp_config c p).
Proof. unfold audiolcymplc_dsp_config. destruct (dsp_handle c); repeat constructor. Qed.

Lemma musicplc_init_ok e g c a : Forall (ok_out a) (snd (audiolcy_musicplc_init e g c)).
Proof. unfold audiolcy_musicplc_init. repeat case_match; try constructor. apply mplc_outs_ok. Qed.

Lemma ctrl_deinit_ok stream format w : w_lim w -> w_lim (audiolcy_ctrl_deinit stream format w) /\ quiet w (audiolcy_ctrl_deinit stream format w).
Proof.
  intros Hw. assert (H0 : w_lim w /\ quiet w w) by (split; [exact Hw | apply quiet_refl; reflexivity]).
  unfold audiolcy_ctrl_deinit. destruct (w_ctrl w) as [c|]; [|exact H0]. destruct (_ && _); [exact H0|]. destruct (_ && _); [exact H0|].
  split; [intros a [=]|]. eexists. split; [reflexivity|]. intros a. destruct (lcymplc c); [apply mplc_outs_ok | constructor].
Qed.

Lemma ctrl_new_ok e p w : sane_env e -> w_lim (ctrl_new e p w) /\ quiet w (ctrl_new e p w).
Proof.
  intros He. unfold ctrl_new. destruct (_ =? STREAM_MUSIC); [|split; [intros a [=] | apply quiet_refl; reflexivity]].
  set (r := if _ && _ then _ else (None, [])). assert (Hr : forall a, Forall (ok_out a) (snd r)) by (intros a; subst r; destruct (_ && _); [apply musicplc_init_ok | constructor]).
  destruct r as [m os]. split; [|exists os; split; [reflexivity | exact Hr]].
  intros a. cbn [w_apt w_puts w_set_apt]. destruct (BM_Use_ALLM _); [apply init_lim, He | discriminate].
Qed.

Lemma ctrl_init_ok e p w : sane_env e -> w_lim w -> w_lim (audiolcy_ctrl_init e p w) /\ quiet w (audiolcy_ctrl_init e p w).
Proof.
  intros He Hw. unfold audiolcy_ctrl_init. destruct (_ && _); [split; [exact Hw | apply quiet_refl; reflexivity]|].
  assert (Hc : forall w, w_lim w -> let w' := if ctrl_mem e then ctrl_new e p w else w in w_lim w' /\ quiet w w').
  { intros w1 H1. cbv zeta. destruct (ctrl_mem e); [apply ctrl_new_ok, He | split; [exact H1 | apply quiet_refl; reflexivity]]. }
  destruct (w_ctrl w) as [c|]; [|apply Hc, Hw]. destruct (_ =? _); [split; [exact Hw | apply quiet_refl; reflexivity]|].
  destruct (ctrl_deinit_ok (stream_type c) 0 w Hw) as [H1 Q1]. destruct (Hc _ H1) as [H2 Q2]. split; [exact H2 | exact (quiet_trans _ _ _ Q1 Q2)].
Qed.

Lemma set_twsrole_ok role w : w_lim w -> w_lim (audiolcy_ctrl_set_twsrole role w) /\ quiet w (audiolcy_ctrl_set_twsrole role w).
Proof.
  intros Hw. unfold audiolcy_ctrl_set_twsrole. destruct (w_ctrl w) as [c|]; [|split; [exact Hw | apply quiet_refl; reflexivity]].
  destruct (_ =? _); [split; [exact Hw | apply quiet_refl; reflexivity]|]. split; [|apply quiet_refl; reflexivity].
  intros a' E. apply fmap_Some in E as (a & Ea & ->). apply (lim_limits a); [|exact (Hw a Ea)].
  unfold audiolcy_adaptive_twsrole_change. repeat case_match; reflexivity.
Qed.

Lemma ctrl_sync_ok e w : w_lim w -> w_lim (audiolcy_ctrl_sync e w) /\ quiet w (audiolcy_ctrl_sync e w).
Proof.
  intros Hw. assert (H0 : w_lim w /\ quiet w w) by (split; [exact Hw | apply quiet_refl; reflexivity]).
  unfold audiolcy_ctrl_sync. destruct (_ =? _); [|exact H0]. destruct (w_ctrl w) as [c|]; [|exact H0].
  match goal with |- context [ctrl_twssync ?m ?l c] => pose proof (fun a => ctrl_twssync_outs a m l c) as H; destruct (ctrl_twssync m l c) as [c' os] end.
  split; [exact Hw | exists os; split; [reflexivity | exact H]].
Qed.

(** A change of the mode leaves the structure of the adaptive mode. *)
Lemma set_latency_mode_apt e mode checked w : w_apt (audiolcy_set_latency_mode e mode checked w) = w_apt w.
Proof.
  assert (Hp : forall m w, w_apt (playback_mode e m w) = w_apt w).
  { intros m w1. unfold playback_mode, audiolcy_ctrl_drop_insert_data. destruct (w_ctrl w1) as [c|]; [|reflexivity]. destruct (ctrl_latency_change _ _ _ _ _) as [ms os].
    set (w2 := match w_ctrl _ with Some _ => _ | None => _ end). assert (H2 : w_apt w2 = w_apt w1) by (subst w2; cbn [w_ctrl w_puts w_set_ctrl]; destruct (negb _); reflexivity).
    clearbody w2. repeat case_match; exact H2. }
  unfold audiolcy_set_latency_mode. destruct (switch_forbidden w); [reflexivity|].
  set (r := if checked then _ else _). assert (Hr : w_apt (fst r) = w_apt w).
  { subst r. destruct checked; [reflexivity|]. unfold audiolcy_check_latency_mode_switch_next. destruct (switch_forbidden w); [reflexivity|]. destruct (0 <? _); reflexivity. }
  destruct r as [w1 m]. cbn [fst] in Hr. destruct (m =? _); [exact Hr|]. rewrite Hp. destruct (_ && _); exact Hr.
Qed.

Lemma cmd_entry_ok e cmd w w' : sane_env e -> w_lim w -> audiolcy_cmd_entry e cmd w = Some w' -> w_lim w' /\ w_outs_ok w w'.
Proof.
  intros He Hw. destruct cmd; cbn [audiolcy_cmd_entry].
  - intros [= <-]. destruct (ctrl_init_ok e p w He Hw). split; [assumption | apply quiet_ok; assumption].
  - intros [= <-]. destruct (ctrl_deinit_ok stream format w Hw). split; [assumption | apply quiet_ok; assumption].
  - intros [= <-]. destruct (set_twsrole_ok (u8 role) w Hw). split; [assumption | apply quiet_ok; assumption].
  - unfold audiolcy_ctrl_set_pktinfo. destruct (w_ctrl w) as [c|]; [|intros [= <-]; split; [exact Hw | apply quiet_ok, quiet_refl; reflexivity]].
    set (w1 := w_set_ctrl _ w). intros E. apply (with_apt_ok _ w1 w') in E; [exact E | exact Hw |]. intros s s' Hl _ [= <-]. apply collect_kept, Hl.
  - intros E. apply with_apt_ok in E; [exact E | exact Hw |]. intros s s' Hl _ [= <-]. apply start_play_kept, Hl.
  - intros [= <-]. split; [exact Hw | apply quiet_ok, quiet_refl; reflexivity].
  - intros [= <-]. split; [exact Hw | apply quiet_ok, quiet_refl; reflexivity].
  - intros [= <-]. destruct (ctrl_sync_ok e w Hw). split; [assumption | apply quiet_ok; assumption].
  - unfold audiolcy_ctrl_main. destruct (w_ctrl w) as [c|]; [|intros [= <-]; split; [exact Hw | apply quiet_ok, quiet_refl; reflexivity]].
    set (w1 := w_set_ctrl _ w). intros E. apply (with_apt_ok _ w1 w') in E; [exact E | exact Hw |]. intros s s' Hl _ Es. exact (main_kept e s s' Hl Es).
Qed.

Lemma twssync_deal_ok e pkt w w' : 0 < sync_latency pkt <= 255 -> w_lim w -> audiolcy_ctrl_latency_twssync_deal e pkt w = Some w' -> w_lim w' /\ w_outs_ok w w'.
Proof.
  intros Hp Hw. unfold audiolcy_ctrl_latency_twssync_deal.
  assert (H0 : w_lim w /\ w_outs_ok w w) by (split; [exact Hw | apply quiet_ok, quiet_refl; reflexivity]).
  destruct (w_ctrl w) as [c|]; [|intros [= <-]; exact H0]. destruct (negb _) eqn:Er; [intros [= <-]; exact H0|].
  destruct (_ && _ && _); [intros [= <-]; exact H0|].
  set (c1 := if _ =? LCYSYNC_REPEAT then _ else set_lcy_send_repeat 0 c). assert (Hr : twsrole c1 = TWS_SLAVE).
  { apply negb_false_iff, Z.eqb_eq in Er. subst c1. destruct (_ =? LCYSYNC_REPEAT); exact Er. }
  clearbody c1. set (w1 := w_set_ctrl _ w). intros E. apply (with_apt_ok _ w1 w') in E; [exact E | exact Hw |].
  intros s s' Hl [= Ec] [= <-]. apply adjust_slave_kept; [exact Hl | congruence | exact Hp].
Qed.

Lemma lcy_step_ok e ev w w' :
  sane_env e -> sane_event ev -> w_lim w -> lcy_step e ev w = Some w' -> w_lim w' /\ (match ev with EMode _ _ => True | _ => w_outs_ok w w' end).
Proof.
  intros He Hev Hw. destruct ev as [cmd|mode checked|pkt]; cbn [lcy_step].
  - apply cmd_entry_ok; assumption.
  - intros [= <-]. split; [|exact I]. intros a. rewrite set_latency_mode_apt. apply Hw.
  - apply twssync_deal_ok; assumption.
Qed.

Lemma lcy_reach_lim w : lcy_reach w -> w_lim w.
Proof. induction 1 as [|e ev w w' _ IH He Hev E]; [intros a [=] | apply (lcy_step_ok e ev w w' He Hev IH E)]. Qed.

(** C24: Let the policy's thresholds of the low latency mode be below 233 ms (with
    233 ms or more the 8-bit sum of audiolcy_adaptive.c:637 wraps around) and the
    latencies received from the other earphone be bytes that are not 0.  Then after any
    commands, changes of the mode and packets, the limits of the adaptive mode are at
    least 23 ms apart and the upper one is 110 ms or more, the pending and the current
    latency are within them or not known, and every latency that a command or a packet
    sends to the media player is within them.  A change of the mode sends the threshold
    of the new mode, which is not limited. *)
Theorem latency_in_limits e ev w w' a us os :
  lcy_reach w -> sane_env e -> sane_event ev -> lcy_step e ev w = Some w' -> w_apt w' = Some a ->
  lim a /\ ((forall m b, ev <> EMode m b) -> w_outs w' = os ++ w_outs w -> In (MediaLatency us) os -> 1000 * cfg_minimum a <= us <= 1000 * cfg_maximum a).
Proof.
  intros Hr He Hev E Ha. destruct (lcy_step_ok e ev w w' He Hev (lcy_reach_lim w Hr) E) as [Hl Ho]. split; [exact (Hl a Ha)|].
  intros Hm Eo Hin. assert (Ho' : w_outs_ok w w') by (destruct ev as [|m b|]; [exact Ho | destruct (Hm m b eq_refl) | exact Ho]).
  destruct Ho' as (os' & Eo' & Fo). rewrite Eo in Eo'. apply app_inv_tail in Eo'. subst os'. specialize (Fo a Ha).
  rewrite List.Forall_forall in Fo. exact (Fo _ Hin).
Qed.

(** ** The latency falls by one timer per period *)

(** What storing a latency leaves. *)
Definition seen (a : audiolcy_adaptive_t) := (timers a, quick_calc a, status a, current_lcy a).

Lemma store_seen e ms s : seen (apt (fst (latency_store e ms false s))) = seen (apt s).
Proof.
  assert (Hw : seen (widen ms (apt s)) = seen (apt s)) by (unfold widen; destruct (_ <? _); [|destruct (_ <? _)]; reflexivity).
  unfold latency_store. cbn [andb]. destruct (twsrole (ctrl s) =? TWS_SLAVE); cbn [negb andb].
  - destruct (update_status (apt s)); [exact Hw | exact Hw | reflexivity].
  - destruct (update_status (apt s)); try reflexivity; destruct (pending_lcy (apt s) =? _); reflexivity.
Qed.

Lemma adjust_end_seen e tu sync ms sync_en s :
  seen (apt (adjust_end e tu sync ms sync_en s)) = seen (apt s) /\
  (tu = false \/ down_timer_num (apt s) = 0 -> update_status (apt (adjust_end e tu sync ms sync_en s)) = update_status (apt s)).
Proof.
  unfold adjust_end. set (s1 := upd_apt (set_staccato false) s). cbv zeta.
  set (s2 := if tu && _ then _ else s1).
  assert (H2 : seen (apt s2) = seen (apt s) /\ (tu = false \/ down_timer_num (apt s) = 0 -> update_status (apt s2) = update_status (apt s))).
  { subst s2. destruct tu; [|split; reflexivity]. cbn [andb]. change (down_timer_num (apt s1)) with (down_timer_num (apt s)). destruct (0 <? down_timer_num (apt s)) eqn:En; [|split; reflexivity].
    split; [rewrite store_seen; reflexivity | intros [H|H]; [discriminate H | lia]]. }
  clearbody s2. destruct sync as [mode|]; [|exact H2]. destruct (sync_en && _); exact H2.
Qed.

Lemma adjust_take_seen e ms gone sync_en s :
  let s' := adjust_take e ms gone sync_en s in
  timers (apt s') = timers (apt s) /\ quick_calc (apt s') = quick_calc (apt s) /\ status (apt s') = status (apt s) /\
  (current_lcy (apt s') = current_lcy (apt s) \/ current_lcy (apt s') = u8 ms) /\
  (gone = false \/ down_timer_num (apt s) = 0 -> update_status (apt s') = update_status (apt s)).
Proof.
  cbv zeta. unfold adjust_take.
  assert (G : forall sync s1, seen (apt s1) = seen (apt s) \/ seen (apt s1) = seen (set_current_lcy ms (apt s)) -> update_status (apt s1) = update_status (apt s) ->
    let s' := adjust_end e gone sync ms sync_en s1 in
    timers (apt s') = timers (apt s) /\ quick_calc (apt s') = quick_calc (apt s) /\ status (apt s') = status (apt s) /\
    (current_lcy (apt s') = current_lcy (apt s) \/ current_lcy (apt s') = u8 ms) /\
    (gone = false \/ down_timer_num (apt s) = 0 -> update_status (apt s') = update_status (apt s))).
  { intros sync s1 H1 Hu. destruct (adjust_end_seen e gone sync ms sync_en s1) as [Hs Hu']. cbv zeta. set (s' := adjust_end _ _ _ _ _ _) in *. clearbody s'.
    assert (Hn : down_timer_num (apt s1) = down_timer_num (apt s)) by (unfold seen, timers in H1; destruct H1 as [H1|H1]; [congruence | injection H1; auto]).
    rewrite Hn in Hu'. rewrite Hu in Hu'. 
    destruct H1 as [H1|H1]; rewrite H1 in Hs; pose proof (f_equal (fun x => x.1.1.1) Hs) as Ht; pose proof (f_equal (fun x => x.1.1.2) Hs) as Hq;
      pose proof (f_equal (fun x => x.1.2) Hs) as Hst; pose proof (f_equal snd Hs) as Hc; cbn [seen fst snd] in Ht, Hq, Hst, Hc;
      (split; [exact Ht | split; [exact Hq | split; [exact Hst | split; [|exact Hu']]]]); [left; exact Hc | right; exact Hc]. }
  destruct (_ && _); [apply G; auto|]. destruct (negb _); (apply G; [right; reflexivity | reflexivity]).
Qed.

Definition rising (a : audiolcy_adaptive_t) : Prop := down_timer_num a = 0 -> update_status a = UPDATE_STA_NEED -> current_lcy a <= pending_lcy a.

(** The condition of the adaptive mode in a playback. *)
Definition playing (s : apt_st) : Prop :=
  twsrole (ctrl s) <> TWS_SLAVE /\ playing_mode s = LCYMODE_ADAPTIVE /\ quick_calc (apt s) = 0 /\ lim (apt s).

Lemma chain_timers lb ub p a a' : timers a' = timers a -> chain lb ub p a -> chain lb ub p a'.
Proof. unfold timers, chain. intros [= -> -> ->] H. exact H. Qed.

Lemma lim_pending a : lim a -> u8 (pending_lcy a) = pending_lcy a /\ 0 <= pending_lcy a.
Proof. intros (? & ? & ? & _ & Hp' & _). unfold ok_lcy in Hp'. split; [apply u8_small; lia | lia]. Qed.

Lemma chain_lower lb lb' ub p a : lb' <= lb -> chain lb ub p a -> chain lb' ub p a.
Proof. intros ? [(t0 & t1 & t2 & Hc) Hl]. split; [|exact Hl]. exists t0, t1, t2. intuition lia. Qed.

Lemma check_limit_le a x : lim a -> 0 <= x -> 0 <= check_limit x a <= cfg_maximum a.
Proof. intros (? & ? & ? & Hs & _) Hx. unfold check_limit. rewrite Hs. reflect_bools; cbn [andb]; lia. Qed.

Lemma clamp_current a x : lim a -> current_lcy a <= x -> current_lcy a <= clamp a x.
Proof. intros (? & ? & ? & _ & _ & Hc & _) Hx. unfold clamp, ok_lcy in *. reflect_bools; lia. Qed.

Section falls.
  Context (e : lcy_env) (p lb : Z) (Hnow : 0 <= uptime e < 2 ^ 32) (Hp : 0 <= p < 2 ^ 16) (Hlb : 0 <= lb <= uptime e / 1000).

(** After a step: the latency did not fall, or one period has passed. *)
Definition slow (s s' : apt_st) : Prop :=
  rising (apt s') /\
  (chain lb (uptime e / 1000) p (apt s') /\ current_lcy (apt s) <= current_lcy (apt s') \/
   lb + p <= uptime e / 1000 /\ chain (lb + p) (uptime e / 1000) p (apt s')).

Lemma adjust_slow s :
  playing s -> ALLM_down_timer_period_s (config s) = p -> chain lb (uptime e / 1000) p (apt s) ->
  0 < down_timer_num (apt s) \/ current_lcy (apt s) <= pending_lcy (apt s) ->
  let s' := fst (audiolcyapt_latency_adjust e true s) in slow s s' /\ quick_calc (apt s') = 0 /\ status (apt s') = status (apt s).
Proof.
  intros (Hr & Hm & Hq & Hl) Ep Hc Hpre. unfold audiolcyapt_latency_adjust. replace (twsrole (ctrl s) =? TWS_SLAVE) with false by lia. rewrite Hq, Z.eqb_refl, andb_true_r, Ep.
  destruct (lim_pending _ Hl) as [Hu8 _]. destruct (Z.ltb_spec 0 (down_timer_num (apt s))) as [Hn|Hn].
  - pose proof (down_timer_handle_rest (uptime e) p (apt s)) as Hrest. destruct (audiolcyapt_down_timer_handle _ _ _) as [a gone] eqn:Eh. cbn [fst] in Hrest.
    destruct gone; cbn [fst].
    + destruct (down_timer_handle_chain (uptime e) p lb Hnow Hp Hlb (apt s) a Hc Hn Hq Eh) as (Hdue & Hc' & Hn').
      destruct (adjust_take_seen e (pending_lcy (apt s)) true true (upd_apt (fun _ => adjust_flag a) s)) as (Ht & Hq' & Hst & _ & Hu). cbn [upd_apt apt] in Ht, Hq', Hst, Hu.
      assert (Hf : timers (adjust_flag a) = timers a /\ quick_calc (adjust_flag a) = quick_calc a /\ status (adjust_flag a) = status a) by (unfold adjust_flag; destruct (_ =? 0); repeat split).
      destruct Hf as (F1 & F2 & F3). unfold rest in Hrest. injection Hrest as _ _ Hqa Hsa _ _.
      split; [|split; congruence]. split; [|right; split; [exact Hdue | apply (chain_timers _ _ _ a); [congruence | exact Hc']]].
      intros Hz Hneed. exfalso. assert (Hza : down_timer_num a = 0) by (rewrite F1 in Ht; unfold timers in Ht; congruence).
      rewrite Hu in Hneed; [|right; unfold adjust_flag; rewrite Hza; exact Hza]. unfold adjust_flag in Hneed. rewrite Hza in Hneed. discriminate Hneed.
    + assert (Ea : a = apt s).
      { unfold audiolcyapt_down_timer_handle in Eh. destruct (_ =? 0); [discriminate|]. destruct (0 <? quick_calc _); [discriminate|]. destruct (_ <=? _); [discriminate|]. injection Eh as <-. reflexivity. }
      subst a. split; [|split; [exact Hq | reflexivity]]. split; [intros Hz; cbn in Hz; lia|]. left. split; [exact Hc | cbn; lia].
  - cbn [andb fst]. destruct (adjust_take_seen e (pending_lcy (apt s)) false true (upd_apt adjust_flag s)) as (Ht & Hq' & Hst & Hcur & Hu). cbn [upd_apt apt] in Ht, Hq', Hst, Hcur, Hu.
    assert (Hz : down_timer_num (apt s) = 0) by (destruct Hc as [(? & ? & ? & ? & ? & _) _]; lia).
    unfold adjust_flag in *. rewrite Hz in *. cbn [Z.eqb] in *. split; [|split; [rewrite Hq'; exact Hq | rewrite Hst; reflexivity]].
    split; [intros _ Hneed; rewrite Hu in Hneed by (left; reflexivity); discriminate Hneed|]. left. split; [apply (chain_timers _ _ _ (apt s)); [rewrite Ht; reflexivity | exact Hc]|].
    destruct Hpre as [Hpre|Hpre]; [lia|]. rewrite Hu8 in Hcur. change (current_lcy (set_update_status UPDATE_STA_NONE (apt s))) with (current_lcy (apt s)) in Hcur. lia.
Qed.

(** The latency is set and adjusted, after the timers were armed or cleared. *)
Lemma latency_apply_slow s ret :
  playing s -> ALLM_down_timer_period_s (config s) = p -> chain lb (uptime e / 1000) p (apt s) ->
  0 < down_timer_num (apt s) \/ current_lcy (apt s) <= ret <= cfg_maximum (apt s) ->
  let s' := latency_apply e ret s in slow s s' /\ quick_calc (apt s') = 0 /\ status (apt s') = status (apt s).
Proof.
  intros (Hr & Hm & Hq & Hl) Ep Hc Hpre. unfold latency_apply. destruct (lim_pending _ Hl) as [Hu8 Hp0].
  assert (Same : (down_timer_num (apt s) = 0 -> current_lcy (apt s) <= pending_lcy (apt s)) -> slow s s /\ quick_calc (apt s) = 0 /\ status (apt s) = status (apt s)).
  { intros H. split; [|split; [exact Hq | reflexivity]]. split; [intros Hz _; exact (H Hz)|]. left. split; [exact Hc | lia]. }
  destruct (Z.ltb_spec 0 ret) as [Hret|Hret]; [|replace (0 <? ret) with false by lia; apply Same; lia].
  assert (Hcl : 0 < down_timer_num (apt s) \/ current_lcy (apt s) <= clamp (apt s) (u16 ret)).
  { destruct Hpre as [Hpre|Hpre]; [left; exact Hpre|]. right. apply clamp_current; [exact Hl|]. rewrite u16_small; [lia|]. destruct Hl as (_ & _ & ? & _). lia. }
  destruct (latency_set_eq e (u16 ret) s Hl Hr) as [[-> Hpe] | ->]; [cbn [Z.ltb Z.compare]; apply Same; lia|].
  set (v := clamp (apt s) (u16 ret)) in *. assert (Hv : cfg_minimum (apt s) <= v <= cfg_maximum (apt s)) by (apply clamp_ok; destruct Hl as (_ & ? & _); lia).
  set (s1 := upd_apt (stored v) s). assert (Hl1 : lim (apt s1)) by (apply stored_lim; assumption).
  assert (Hpv : pending_lcy (apt s1) = v) by (apply u8_small; destruct Hl as (? & _ & ? & _); lia).
  assert (Hpre1 : 0 < down_timer_num (apt s1) \/ current_lcy (apt s1) <= pending_lcy (apt s1)) by (rewrite Hpv; exact Hcl).
  destruct (0 <? u8 v).
  - destruct (adjust_slow s1) as (Hs & Hq' & Hst'); [split; [exact Hr | split; [exact Hm | split; [exact Hq | exact Hl1]]] | exact Ep | exact Hc | exact Hpre1 |].
    split; [exact Hs | split; [exact Hq' | exact Hst']].
  - split; [|split; [exact Hq | reflexivity]]. split; [intros Hz _; destruct Hpre1 as [H|H]; [lia | exact H]|]. left. split; [exact Hc | cbn; lia].
Qed.

Lemma calc_end_slow s allm rem :
  playing s -> ALLM_down_timer_period_s (config s) = p -> chain lb (uptime e / 1000) p (apt s) -> allm = current_lcy (apt s) ->
  let s' := calc_end e allm rem s in slow s s' /\ quick_calc (apt s') = 0 /\ status (apt s') = status (apt s).
Proof.
  intros (Hr & Hm & Hq & Hl) Ep Hc ->. unfold calc_end. rewrite Hq, Z.eqb_refl, Ep.
  pose proof (down_timer_check_chain (uptime e) p lb Hnow Hp Hlb (current_lcy (apt s)) (u16 rem) (apt s) Hc) as H.
  pose proof (down_timer_check_rest (uptime e) p (current_lcy (apt s)) (u16 rem) (apt s)) as Hrest.
  destruct (audiolcyapt_down_timer_check _ _ _ _ _) as [a ret]. cbn [fst] in Hrest. destruct H as [Hc1 Hn].
  assert (Hl1 : lim a) by (apply (lim_limits (apt s)); [apply rest_limits, Hrest | exact Hl]).
  unfold rest, core in Hrest. injection Hrest as _ Hma _ _ Hcur _ Hqa Hsa _ _.
  pose proof (check_limit_le (apt s) (u16 rem) Hl) as Hle. assert (0 <= u16 rem) by (apply Z.mod_pos_bound; lia).
  destruct (latency_apply_slow (upd_apt (fun _ => a) s) ret) as (Hs & Hq' & Hst'); cbn [upd_apt apt ctrl config glob] in *.
  - split; [exact Hr | split; [exact Hm | split; [cbn; congruence | exact Hl1]]].
  - exact Ep.
  - exact Hc1.
  - rewrite Hcur, Hma. destruct Hn as [Hn | (_ & H1 & H2)]; [left; exact Hn | right; lia].
  - split; [|split; [exact Hq' | congruence]]. destruct Hs as [Hs1 Hs2]. split; [exact Hs1|]. cbn [upd_apt apt] in Hs2. rewrite Hcur in Hs2. exact Hs2.
Qed.

End falls.

(** Two steps in a row, the second from where the timers are after the first. *)
Lemma slow_trans e p lb s1 s2 s3 :
  0 <= p -> slow e p lb s1 s2 -> (forall lb', lb <= lb' <= uptime e / 1000 -> chain lb' (uptime e / 1000) p (apt s2) -> slow e p lb' s2 s3) -> lb <= uptime e / 1000 ->
  slow e p lb s1 s3.
Proof.
  intros Hp [_ [[Hc Hle] | [Hdue Hc]]] H Hlb.
  - destruct (H lb ltac:(lia) Hc) as [Hr [[Hc' Hle'] | Hd]]; (split; [exact Hr|]); [left; split; [exact Hc' | lia] | right; exact Hd].
  - destruct (H (lb + p) ltac:(lia) Hc) as [Hr [[Hc' _] | [_ Hc']]]; (split; [exact Hr|]); right; (split; [exact Hdue|]); [exact Hc' | apply (chain_lower (lb + p + p)); [lia | exact Hc']].
Qed.

(** Flags and results of the analysis change nothing of this. *)
Lemma keeps_all_trans s1 s2 s3 : keeps_all s1 s2 -> keeps_all s2 s3 -> keeps_all s1 s3.
Proof.
  intros (E1 & H1 & H2 & H3) (E2 & H4 & H5 & H6). split; [rewrite E2, E1; reflexivity | split; [congruence | split; congruence]].
Qed.

Lemma keeps_all_current s s' : keeps_all s s' -> current_lcy (apt s') = current_lcy (apt s) /\ pending_lcy (apt s') = pending_lcy (apt s) /\ down_timer_num (apt s') = down_timer_num (apt s) /\ update_status (apt s') = update_status (apt s).
Proof. intros (_ & Hl & Ht & _). unfold limits, core, timers in *. injection Hl as _ _ _ ? ? ?. injection Ht as ? _ _. auto. Qed.

Lemma keeps_all_playing s s' : keeps_all s s' -> quick_calc (apt s') = 0 -> playing s -> playing s'.
Proof.
  intros K Hq (Hr & Hm & _ & Hl). destruct K as (E & Hlim & _). unfold playing, playing_mode in *. rewrite E. cbn [ctrl apt].
  split; [exact Hr | split; [exact Hm | split; [exact Hq | exact (lim_limits _ _ Hlim Hl)]]].
Qed.

(** The state between the parts of the main routine. *)
Definition ready (e : lcy_env) (p lb : Z) (s : apt_st) : Prop :=
  playing s /\ status (apt s) = LCYAPT_STA_PLAYING /\ ALLM_down_timer_period_s (config s) = p /\ chain lb (uptime e / 1000) p (apt s) /\ rising (apt s).

Lemma keeps_all_ready e p lb s s' : keeps_all s s' -> quick_calc (apt s') = 0 -> ready e p lb s -> ready e p lb s'.
Proof.
  intros K Hq (Hpl & Hst & Ep & Hc & Hr). split; [exact (keeps_all_playing _ _ K Hq Hpl)|]. destruct (keeps_all_current _ _ K) as (K1 & K2 & K3 & K4). destruct K as (E & _ & Ht & Hs).
  split; [congruence | split; [rewrite E; exact Ep | split; [exact (chain_timers _ _ _ _ _ Ht Hc) | unfold rising; rewrite K1, K2, K3, K4; exact Hr]]].
Qed.

Section main.
  Context (e : lcy_env) (p lb : Z) (Hnow : 0 <= uptime e < 2 ^ 32) (Hp : 0 <= p < 2 ^ 16) (Hlb : 0 <= lb <= uptime e / 1000).

Lemma calculation_slow s s' :
  ready e p lb s -> audiolcyapt_latency_calcation e false s = Some s' ->
  slow e p lb s s' /\ playing s' /\ status (apt s') = LCYAPT_STA_PLAYING /\ ALLM_down_timer_period_s (config s') = p.
Proof.
  intros Rd E. pose proof Rd as ((Hr & Hm & Hq & Hl) & Hst & Ep & Hc & Hris). pose proof (calculation_kept e false s s' Hl Hr E) as K.
  assert (Hend : slow e p lb s s' /\ quick_calc (apt s') = 0 /\ status (apt s') = status (apt s)).
  { apply calculation_cases in E as (s1 & K1 & Hq1 & H). rewrite Hq in Hq1. pose proof (keeps_all_ready e p lb s s1 K1 Hq1 Rd) as (P1 & S1 & Ep1 & C1 & R1).
    destruct (keeps_all_current _ _ K1) as (Hcur & _). destruct H as [-> | (allm & rem & -> & Hallm)].
    - split; [|split; congruence]. split; [exact R1|]. left. split; [exact C1 | lia].
    - destruct (calc_end_slow e p lb Hnow Hp Hlb s1 allm rem P1 Ep1 C1) as ([R2 Hs] & Hq2 & Hs2); [rewrite Hcur; exact (Hallm Hm)|].
      split; [|split; [exact Hq2 | congruence]]. split; [exact R2|]. rewrite Hcur in Hs. exact Hs. }
  destruct Hend as (Hs & Hq' & Hst'). split; [exact Hs|].
  split; [split; [rewrite (kept_role _ _ K); exact Hr | split; [rewrite (kept_mode _ _ K); exact Hm | split; [exact Hq' | apply K]]] |].
  split; [congruence | unfold config; rewrite (kept_glob _ _ K); exact Ep].
Qed.

(** What one round of the main routine does in a playback. *)
Lemma main_slow s s' :
  ready e p lb s -> audiolcy_adaptive_main e s = Some s' ->
  slow e p lb s s' /\ playing s' /\ status (apt s') = LCYAPT_STA_PLAYING /\ ALLM_down_timer_period_s (config s') = p.
Proof.
  intros Rd. pose proof Rd as ((Hr & Hm & Hq & Hl) & Hst & Ep & Hc & Hris).
  unfold audiolcy_adaptive_main. replace (twsrole (ctrl s) =? TWS_SLAVE) with false by lia.
  destruct (main_start_kept e s Hl) as (Es & Ks & Hq1 & Hs1). cbv zeta in Es, Ks, Hq1, Hs1 |- *. rewrite Es. clear Es.
  set (s1 := if 0 <? mtu_check (apt s) then _ else s) in *. clearbody s1. rewrite Hs1, Hst. cbn [is_playing negb].
  intros E. apply bind_Some in E as (s2 & E2 & E). apply info_analyse_kept in E2 as [K2 Hq2]. specialize (Hq2 ltac:(congruence)).
  pose proof (keeps_all_trans _ _ _ Ks K2) as K. pose proof (keeps_all_ready e p lb s s2 K Hq2 Rd) as Rd2. destruct (keeps_all_current _ _ K) as (Hcur & _).
  apply bind_Some in E as (s3 & E3 & E). injection E as <-.
  assert (H3 : slow e p lb s2 s3 /\ playing s3 /\ status (apt s3) = LCYAPT_STA_PLAYING /\ ALLM_down_timer_period_s (config s3) = p).
  { destruct (need_calc (apt s2)); [apply calculation_slow; assumption|]. injection E3 as <-. destruct Rd2 as (P2 & S2 & Ep2 & C2 & R2).
    split; [split; [exact R2 | left; split; [exact C2 | lia]] | split; [exact P2 | split; assumption]]. }
  destruct H3 as (Hs3 & P3 & St3 & Ep3). assert (Hs : slow e p lb s s3) by (destruct Hs3 as [R3 Hs3]; rewrite Hcur in Hs3; exact (conj R3 Hs3)).
  destruct (_ || _) eqn:Ea; [|split; [exact Hs | split; [exact P3 | split; assumption]]].
  pose proof (adjust_kept e true s3 (proj2 (proj2 (proj2 P3)))) as K4.
  assert (Hpre : 0 < down_timer_num (apt s3) \/ current_lcy (apt s3) <= pending_lcy (apt s3)).
  { destruct (Z.ltb_spec 0 (down_timer_num (apt s3))) as [|Hn]; [left; assumption|]. right. destruct Hs as [R3 Hs]. apply R3; [|destruct (update_status (apt s3)); congruence || discriminate Ea].
    destruct Hs as [[[(? & ? & ? & ? & ? & _) _] _] | [_ [(? & ? & ? & ? & ? & _) _]]]; lia. }
  assert (G : forall lb', lb <= lb' <= uptime e / 1000 -> chain lb' (uptime e / 1000) p (apt s3) ->
    let s' := fst (audiolcyapt_latency_adjust e true s3) in slow e p lb' s3 s' /\ quick_calc (apt s') = 0 /\ status (apt s') = status (apt s3)).
  { intros lb' Hlb' Hc'. apply (adjust_slow e p lb' Hnow Hp); [lia | exact P3 | exact Ep3 | exact Hc' | exact Hpre]. }
  assert (Hend : quick_calc (apt (fst (audiolcyapt_latency_adjust e true s3))) = 0 /\ status (apt (fst (audiolcyapt_latency_adjust e true s3))) = status (apt s3)).
  { destruct Hs as [_ [[Hc3 _] | [Hdue Hc3]]]; [apply (G lb); [lia | exact Hc3] | apply (G (lb + p)); [lia | exact Hc3]]. }
  destruct Hend as [Hq4 Hst4]. destruct P3 as (Hr3 & Hm3 & _ & _). split; [|split; [split; [rewrite (kept_role _ _ K4); exact Hr3 | split; [rewrite (kept_mode _ _ K4); exact Hm3 | split; [exact Hq4 | apply K4]]] |]].
  - apply (slow_trans e p lb s s3); [lia | exact Hs | intros lb' H1 H2; apply (G lb' H1 H2) | lia].
  - split; [congruence | unfold config; rewrite (kept_glob _ _ K4); exact Ep3].
Qed.

End main.

(** *** A playback: packets, the main routine, and what does not change the mode *)

Definition play_cmd (cmd : lcycmd) : bool :=
  match cmd with LCYCMD_SET_PKTINFO _ _ _ | LCYCMD_SET_START | LCYCMD_GET_FIXED | LCYCMD_APT_INVALID | LCYCMD_APT_SYNCLCY | LCYCMD_MAIN => true | _ => false end.

Definition w_current (w : world) : Z := match w_apt w with Some a => current_lcy a | None => 0 end.

(** The commands in their order, and how often the current latency fell. *)
Fixpoint play (tr : list (lcy_env * lcycmd)) (w : world) (n : Z) : option (world * Z) :=
  match tr with
  | [] => Some (w, n)
  | (e, cmd) :: tr => w' ← audiolcy_cmd_entry e cmd w; play tr w' (if w_current w' <? w_current w then n + 1 else n)
  end.

(** The time does not go back. *)
Fixpoint times_ok (t : Z) (tr : list (lcy_env * lcycmd)) : Prop :=
  match tr with [] => True | (e, _) :: tr => t <= uptime e < 2 ^ 32 /\ times_ok (uptime e) tr end.

Fixpoint end_time (t : Z) (tr : list (lcy_env * lcycmd)) : Z := match tr with [] => t | (e, _) :: tr => end_time (uptime e) tr end.

(** A playback in the adaptive mode, after the quick phase, at a time [t]. *)
Definition w_playing (p lb t : Z) (w : world) : Prop :=
  exists c a, w_ctrl w = Some c /\ w_apt w = Some a /\ twsrole c <> TWS_SLAVE /\ lcy_mode c = LCYMODE_ADAPTIVE /\ ALLM_down_timer_period_s (cfg (w_glob w)) = p /\
    quick_calc a = 0 /\ status a = LCYAPT_STA_PLAYING /\ lim a /\ chain lb (t / 1000) p a /\ rising a.

(** Commands that only touch the control block or the collected times. *)
Lemma w_playing_keeps p lb t w w' c a c' a' :
  w_ctrl w = Some c -> w_apt w = Some a -> w_ctrl w' = Some c' -> w_apt w' = Some a' ->
  twsrole c' = twsrole c -> lcy_mode c' = lcy_mode c -> w_glob w' = w_glob w ->
  limits a' = limits a -> timers a' = timers a -> status a' = status a -> quick_calc a' = quick_calc a ->
  w_playing p lb t w -> w_playing p lb t w' /\ w_current w' = w_current w.
Proof.
  intros Ec Ea Ec' Ea' Hr Hm Hg Hl Ht Hs Hq (c0 & a0 & Ec0 & Ea0 & P1 & P2 & P3 & P4 & P5 & P6 & P7 & P8).
  rewrite Ec in Ec0. injection Ec0 as <-. rewrite Ea in Ea0. injection Ea0 as <-.
  pose proof Hl as Hl'. unfold limits, core in Hl'. injection Hl' as _ _ _ H4 H5 H6. pose proof Ht as Ht'. unfold timers in Ht'. injection Ht' as H7 _ _.
  split; [|unfold w_current; rewrite Ea, Ea'; exact H5].
  exists c', a'. split; [exact Ec' | split; [exact Ea' | split; [congruence | split; [congruence | split; [congruence | split; [congruence | split; [congruence | split; [exact (lim_limits _ _ Hl P6) |]]]]]]]].
  split; [exact (chain_timers _ _ _ _ _ Ht P7) | unfold rising; rewrite H4, H5, H6, H7; exact P8].
Qed.

Lemma collect_keeps e frames cyc s :
  let s' := audiolcyapt_info_collect e frames cyc s in
  glob s' = glob s /\ ctrl s' = ctrl s /\ limits (apt s') = limits (apt s) /\ timers (apt s') = timers (apt s) /\ status (apt s') = status (apt s) /\ quick_calc (apt s') = quick_calc (apt s).
Proof. cbv zeta. unfold audiolcyapt_info_collect. destruct (_ =? _); repeat split. Qed.

(** One command of a playback: the latency did not fall, or a period has passed. *)
Lemma play_step e cmd p lb t w w' :
  0 <= p < 2 ^ 16 -> 0 <= lb <= t / 1000 -> 0 <= t <= uptime e -> uptime e < 2 ^ 32 -> play_cmd cmd = true -> w_playing p lb t w ->
  audiolcy_cmd_entry e cmd w = Some w' ->
  w_playing p lb (uptime e) w' /\ w_current w <= w_current w' \/ lb + p <= uptime e / 1000 /\ w_playing p (lb + p) (uptime e) w'.
Proof.
  intros Hp Hlb Ht Hu Hcmd W E. assert (Hd : t / 1000 <= uptime e / 1000) by (apply Z.div_le_mono; lia).
  assert (W1 : w_playing p lb (uptime e) w).
  { destruct W as (c & a & P1 & P2 & P3 & P4 & P5 & P6 & P7 & P8 & P9 & P10). exists c, a. repeat (split; [assumption|]). split; [|exact P10]. apply (chain_weaken lb (t / 1000)); [exact Hd | exact P9]. }
  pose proof W1 as (c & a & Ec & Ea & Hr & Hm & Ep & Hq & Hst & Hl & Hc & Hris).
  assert (Same : forall w' c' a', w_ctrl w' = Some c' -> w_apt w' = Some a' -> twsrole c' = twsrole c -> lcy_mode c' = lcy_mode c -> w_glob w' = w_glob w ->
    limits a' = limits a -> timers a' = timers a -> status a' = status a -> quick_calc a' = quick_calc a -> w_playing p lb (uptime e) w' /\ w_current w <= w_current w').
  { intros w1 c' a' E1 E2 H1 H2 H3 H4 H5 H6 H7. destruct (w_playing_keeps p lb (uptime e) w w1 c a c' a' Ec Ea E1 E2 H1 H2 H3 H4 H5 H6 H7 W1) as [? ->]. split; [assumption | lia]. }
  destruct cmd; try discriminate Hcmd; cbn [audiolcy_cmd_entry] in E.
  - left. unfold audiolcy_ctrl_set_pktinfo, with_apt in E. rewrite Ec in E. cbn [w_ctrl w_set_ctrl w_apt] in E. rewrite Ea in E. injection E as <-.
    set (s1 := mk_st _ _ _ _ _). destruct (collect_keeps e frames cyc s1) as (K1 & K2 & K3 & K4 & K5 & K6). eapply Same; [reflexivity | reflexivity |..]; cbn [w_glob]; rewrite ?K1, ?K2; try assumption; subst s1; cbn [ctrl]; try reflexivity; destruct (_ <? _); reflexivity.
  - left. unfold audiolcy_ctrl_set_start, with_apt in E. rewrite Ec, Ea in E. injection E as <-. unfold audiolcy_adaptive_start_play. cbn [ctrl apt].
    replace (twsrole c =? TWS_SLAVE) with false by lia. rewrite Hst. eapply Same; reflexivity.
  - left. injection E as <-. exact (conj W1 (Z.le_refl _)).
  - left. injection E as <-. apply (Same _ c a); first [assumption | reflexivity].
  - left. injection E as <-. unfold audiolcy_ctrl_sync. destruct (_ =? _); [|exact (conj W1 (Z.le_refl _))]. rewrite Ec.
    match goal with |- context [ctrl_twssync ?m ?l c] => pose proof (ctrl_twssync_fixed m l c) as F; destruct (ctrl_twssync m l c) as [c' os] end.
    cbn [fst] in F. unfold fixed in F. injection F as _ _ _ F1 _ _ _ F2 _. apply (Same _ c' a); first [reflexivity | assumption].
  - unfold audiolcy_ctrl_main, with_apt in E. rewrite Ec in E. cbn [w_ctrl w_set_ctrl w_apt] in E. rewrite Ea in E. apply bind_Some in E as (s' & Es & E). injection E as <-.
    set (c1 := if negb (lcysync_cb_set c) && cb_set e then set_lcysync_cb_set true c else c) in *. assert (Hc1 : twsrole c1 = twsrole c /\ lcy_mode c1 = lcy_mode c) by (subst c1; destruct (_ && _); split; reflexivity). clearbody c1.
    destruct Hc1 as [Hc1 Hc2]. assert (Rd : ready e p lb (mk_st (w_glob w) (w_last w) c1 a (w_outs w))).
    { split; [|split; [exact Hst | split; [exact Ep | split; assumption]]].
      split; [change (twsrole c1 <> TWS_SLAVE); congruence | split; [change (lcy_mode c1 = LCYMODE_ADAPTIVE); congruence | split; assumption]]. }
    destruct (main_slow e p lb ltac:(lia) Hp ltac:(lia) _ s' Rd Es)
      as ([Hr' Hs] & (Q1 & Q2 & Q3 & Q4) & Q5 & Q6). cbn [apt] in Hs.
    assert (W' : forall lb', chain lb' (uptime e / 1000) p (apt s') -> w_playing p lb' (uptime e) (mk_world (glob s') (last s') (Some (ctrl s')) (Some (apt s')) (w_saved (w_set_ctrl (Some c1) w)) (outs s'))).
    { intros lb' Hc'. exists (ctrl s'), (apt s'). repeat (split; [first [reflexivity | assumption]|]). assumption. }
    destruct Hs as [[Hc' Hle] | [Hdue Hc']]; [left | right]; (split; [|]); try (apply W', Hc'); [unfold w_current; cbn [w_apt]; rewrite Ea; exact Hle | exact Hdue].
Qed.

Lemma play_bound tr p t w n w' n' t0 :
  0 <= p < 2 ^ 16 -> 0 <= t0 <= t -> 0 <= n -> t0 / 1000 + n * p <= t / 1000 -> forallb (fun x => play_cmd (snd x)) tr = true -> times_ok t tr ->
  w_playing p (t0 / 1000 + n * p) t w -> play tr w n = Some (w', n') -> t0 / 1000 + n' * p <= end_time t tr / 1000.
Proof.
  intros Hp. revert t w n. induction tr as [|[e cmd] tr IH]; intros t w n Ht0 Hn Hb Hf Ht W E; cbn [play end_time times_ok forallb] in *; [injection E as <- <-; exact Hb|].
  apply andb_prop in Hf as [Hcmd Hf]. destruct Ht as [Ht Ht']. apply bind_Some in E as (w1 & E1 & E). assert (Hd : t / 1000 <= uptime e / 1000) by (apply Z.div_le_mono; lia).
  assert (Hz : 0 <= t0 / 1000) by (apply Z.div_pos; lia).
  destruct (play_step e cmd p (t0 / 1000 + n * p) t w w1 Hp ltac:(nia) ltac:(lia) ltac:(lia) Hcmd W E1) as [[W1 Hle] | [Hdue W1]]; cbn [snd] in *.
  - replace (w_current w1 <? w_current w) with false in E by lia. exact (IH (uptime e) w1 n ltac:(lia) Hn ltac:(lia) Hf Ht' W1 E).
  - replace (t0 / 1000 + n * p + p) with (t0 / 1000 + (n + 1) * p) in * by lia. destruct (w_current w1 <? w_current w).
    + exact (IH (uptime e) w1 (n + 1) ltac:(lia) ltac:(lia) ltac:(lia) Hf Ht' W1 E).
    + assert (W2 : w_playing p (t0 / 1000 + n * p) (uptime e) w1).
      { destruct W1 as (c & a & P1 & P2 & P3 & P4 & P5 & P6 & P7 & P8 & P9 & P10). exists c, a. repeat (split; [assumption|]). split; [|exact P10]. apply (chain_lower (t0 / 1000 + (n + 1) * p)); [lia | exact P9]. }
      exact (IH (uptime e) w1 n ltac:(lia) Hn ltac:(lia) Hf Ht' W2 E).
Qed.

(** C23: In the adaptive mode, on an earphone that is not the second one (slave) and
    once the quick phase at the start of a playback is over (quick_calc = 0, in the
    quick phase the latency is set without timers), the latency falls no faster than
    one step per period of the timers: from a playback without timers, after any
    packets and rounds of the main routine before the 32-bit clock wraps around, the
    number of times the current latency fell, times the period, is at most the time
    that has passed. *)
Theorem latency_falls_slowly tr p t0 w w' n :
  0 <= p < 2 ^ 16 -> 0 <= t0 -> times_ok t0 tr -> forallb (fun x => play_cmd (snd x)) tr = true ->
  w_playing p (t0 / 1000) t0 w -> play tr w 0 = Some (w', n) ->
  n * p <= end_time t0 tr / 1000 - t0 / 1000.
Proof.
  intros Hp Ht0 Ht Hf W E. pose proof (play_bound tr p t0 w 0 w' n t0 Hp) as H. rewrite Z.mul_0_l, Z.add_0_r in H.
  specialize (H ltac:(lia) ltac:(lia) ltac:(lia) Hf Ht W E). lia.
Qed.

(** ** The times that are analysed are the ones that were collected *)

(** [q]: the times since the last analysis, of which the ring has the last 24. *)
Definition ring_ok (q : list Z) (p : lcyapt_source_t) : Prop :=
  let n := Z.of_nat (length q) in
  length (time_span p) = 24%nat /\ 0 <= rindex p < 24 /\ windex p = (rindex p + n) mod 24 /\ count p = n /\
  forall j, 0 <= j < n -> n - 24 <= j -> at_index (time_span p) ((rindex p + j) mod 24) = nth (Z.to_nat j) q 0.

Lemma at_store i j v l : 0 <= i < Z.of_nat (length l) -> 0 <= j -> at_index (store_at i v l) j = if i =? j then v else at_index l j.
Proof.
  intros Hi Hj. unfold at_index, store_at. rewrite !nth_lookup. destruct (Z.eqb_spec i j) as [->|Hne].
  - rewrite list_lookup_insert_eq by lia. reflexivity.
  - rewrite list_lookup_insert_ne by lia. reflexivity.
Qed.

(** One more time goes to the ring. *)
Definition ring_push (frames t : Z) (p : lcyapt_source_t) : lcyapt_source_t :=
  let p := set_frame_cnt (store_at (windex p) frames (frame_cnt p)) p in
  let p := set_time_span (store_at (windex p) t (time_span p)) p in
  set_count (count p + 1) (set_windex ((windex p + 1) mod LCYAPT_PKTINFO_NUM) p).

Lemma ring_push_ok q frames t p : ring_ok q p -> (length q < 255)%nat -> ring_ok (q ++ [t]) (ring_push frames t p).
Proof.
  intros (Hl & Hr & Hw & Hc & Hq) Hn. unfold ring_ok, ring_push. rewrite length_app. cbn [length].
  destruct p as [ts fr lt wi ri co]. cbn [time_span rindex windex count frame_cnt] in *.
  change (time_span (set_count ?a (set_windex ?b (set_time_span ?x ?y)))) with x. change (rindex (set_count ?a (set_windex ?b (set_time_span ?x (set_frame_cnt ?y ?z))))) with (rindex z).
  cbn [windex count rindex set_count set_windex set_time_span set_frame_cnt time_span]. change LCYAPT_PKTINFO_NUM with 24.
  set (n := Z.of_nat (length q)) in *. replace (Z.of_nat (length q + 1)) with (n + 1) by lia.
  assert (Hwr : 0 <= wi < 24) by (rewrite Hw; apply Z.mod_pos_bound; lia).
  split; [unfold store_at; rewrite length_insert; exact Hl | split; [exact Hr | split; [|split]]].
  - rewrite u8_small by (pose proof (Z.mod_pos_bound (wi + 1) 24); lia). rewrite Hw, Zplus_mod_idemp_l. f_equal. lia.
  - rewrite u8_small by lia. lia.
  - intros j Hj Hj'. pose proof (Z.mod_pos_bound (ri + j) 24 ltac:(lia)). rewrite at_store by lia.
    destruct (Z.eq_dec j n) as [->|Hne].
    + rewrite Hw, Z.eqb_refl. rewrite app_nth2 by lia. replace (Z.to_nat n - length q)%nat with 0%nat by lia. reflexivity.
    + replace (wi =? (ri + j) mod 24) with false by (rewrite Hw; Z.div_mod_to_equations; lia). rewrite app_nth1 by lia. apply Hq; lia.
Qed.

(** The loop of the analysis is a fold over the entries from an index on. *)
Definition updates (l : list Z) (r : lcyapt_result_t) : lcyapt_result_t := fold_left (fun r ts => audiolcyapt_region_update ts r) l r.

Lemma update_loop_fold n i spans r :
  0 <= i < 255 ->
  let '(i', r') := update_loop n i spans r in
  r' = updates (map (fun j => at_index spans ((i + Z.of_nat j) mod 24)) (seq 0 n)) r /\ 0 <= i' /\ i' mod 24 = (i + Z.of_nat n) mod 24.
Proof.
  revert i r. induction n as [|n IH]; intros i r Hi; cbn [update_loop].
  - split; [reflexivity | split; [lia | f_equal; lia]].
  - change LCYAPT_PKTINFO_NUM with 24. pose proof (Z.mod_pos_bound i 24 ltac:(lia)). rewrite u8_small by lia.
    specialize (IH (i mod 24 + 1) (audiolcyapt_region_update (at_index spans (i mod 24)) r) ltac:(lia)). destruct (update_loop _ _ _ _) as [i' r']. destruct IH as (E & H0 & Hm).
    split; [|split; [exact H0|]].
    + rewrite E. unfold updates. cbn [seq map fold_left]. rewrite Z.add_0_r. f_equal. rewrite <- seq_shift, map_map. apply map_ext. intros j.
      f_equal. rewrite <- Z.add_assoc, Zplus_mod_idemp_l. f_equal. lia.
    + rewrite Hm, <- Z.add_assoc, Zplus_mod_idemp_l. f_equal. lia.
Qed.

(** The last 24 of the times. *)
Definition recent (q : list Z) : list Z := drop (length q - 24) q.

Lemma ring_recent q p :
  ring_ok q p -> (length q <= 255)%nat ->
  let n := Z.of_nat (length q) in let m := Nat.min 24 (length q) in
  map (fun j => at_index (time_span p) ((rindex p + (n - Z.of_nat m) + Z.of_nat j) mod 24)) (seq 0 m) = recent q.
Proof.
  intros (Hl & Hr & Hw & Hc & Hq) Hn. cbv zeta. apply (nth_ext _ _ 0 0).
  - rewrite length_map, length_seq. unfold recent. rewrite length_drop. lia.
  - intros k Hk. rewrite length_map, length_seq in Hk.
    rewrite (nth_indep _ 0 (at_index (time_span p) ((rindex p + (Z.of_nat (length q) - Z.of_nat (Nat.min 24 (length q))) + Z.of_nat 0) mod 24))) by (rewrite length_map, length_seq; exact Hk).
    rewrite (map_nth (fun j => at_index (time_span p) ((rindex p + (Z.of_nat (length q) - Z.of_nat (Nat.min 24 (length q))) + Z.of_nat j) mod 24)) (seq 0 _) 0%nat k).
    rewrite seq_nth by exact Hk. rewrite <- Z.add_assoc. rewrite Hq by lia. unfold recent. rewrite nth_skipn. f_equal. lia.
Qed.

(** The time between packets, in microseconds, from the time of the one before. *)
Fixpoint spans (e : lcy_env) (last : Z) (pkts : list (Z * Z)) : list Z :=
  match pkts with [] => [] | (_, cyc) :: pkts => u32 (cyc_to_us e (u32 (cyc - last))) :: spans e cyc pkts end.

Lemma spans_length e last pkts : length (spans e last pkts) = length pkts.
Proof. revert last. induction pkts as [|[f c] pkts IH]; intros last; cbn; [reflexivity | rewrite IH; reflexivity]. Qed.

Definition collect_all (e : lcy_env) (pkts : list (Z * Z)) (s : apt_st) : apt_st := fold_left (fun s x => audiolcyapt_info_collect e (fst x) (snd x) s) pkts s.

Lemma collect_eq e frames cyc s :
  twsrole (ctrl s) <> TWS_SLAVE -> 0 < last_pkt_time (source_info (apt s)) -> 0 < cyc < 2 ^ 32 ->
  let p := source_info (apt s) in
  source_info (apt (audiolcyapt_info_collect e frames cyc s)) =
  set_last_pkt_time cyc (ring_push (if media_format (ctrl s) =? SBC then frames else 8) (u32 (cyc_to_us e (u32 (cyc - last_pkt_time p)))) p).
Proof.
  intros Hr Hl Hc. unfold audiolcyapt_info_collect. replace (twsrole (ctrl s) =? TWS_SLAVE) with false by lia. cbn [apt upd_apt upd_source source_info set_source_info].
  replace (0 <? last_pkt_time (source_info (apt s))) with true by lia. reflexivity.
Qed.

Lemma collect_all_ring e pkts q s :
  twsrole (ctrl s) <> TWS_SLAVE -> 0 < last_pkt_time (source_info (apt s)) -> Forall (fun x => 0 < snd x < 2 ^ 32) pkts -> (length q + length pkts <= 255)%nat ->
  ring_ok q (source_info (apt s)) ->
  let s' := collect_all e pkts s in
  ring_ok (q ++ spans e (last_pkt_time (source_info (apt s))) pkts) (source_info (apt s')) /\ result_info (apt s') = result_info (apt s) /\ ctrl s' = ctrl s.
Proof.
  revert q s. induction pkts as [|[f c] pkts IH]; intros q s Hr Hl Hf Hn Hq; cbn [collect_all fold_left spans length] in *; [rewrite app_nil_r; auto|].
  pose proof (Forall_inv Hf) as Hc. apply Forall_inv_tail in Hf. cbn [fst snd] in *. destruct (collect_keeps e f c s) as (_ & Kc & _).
  assert (Kr : result_info (apt (audiolcyapt_info_collect e f c s)) = result_info (apt s)) by (unfold audiolcyapt_info_collect; destruct (_ =? _); reflexivity).
  pose proof (collect_eq e f c s Hr Hl Hc) as E. cbv zeta in E. set (s1 := audiolcyapt_info_collect e f c s) in *. clearbody s1.
  set (t := u32 _) in *. assert (Hlast : last_pkt_time (source_info (apt s1)) = c) by (rewrite E; apply u32_small; lia).
  destruct (IH (q ++ [t]) s1) as (R1 & R2 & R3); [congruence | lia | exact Hf | rewrite length_app; cbn [length]; lia | |].
  - rewrite E. pose proof (ring_push_ok q (if media_format (ctrl s) =? SBC then f else 8) t (source_info (apt s)) Hq ltac:(lia)) as H. exact H.
  - rewrite Hlast, <- app_assoc in R1. exact (conj R1 (conj (eq_trans R2 Kr) (eq_trans R3 Kc))).
Qed.

Lemma analyse_in_order khz force a a' n q :
  ring_ok q (source_info a) -> (0 < length q <= 255)%nat -> (force = true \/ 4 <= length q)%nat ->
  audiolcyapt_region_info_analyse khz force a = Some (a', n) ->
  n = Z.of_nat (Nat.min 24 (length q)) /\ ring_ok [] (source_info a') /\
  exists ave diff, result_info a' = updates (recent q) (set_pkt_time_diff diff (set_pkt_time_ave ave (result_info a))).
Proof.
  intros Hq Hn Hf. pose proof Hq as (Hl & Hr & Hw & Hc & _). unfold audiolcyapt_region_info_analyse. rewrite Hc. change LCYAPT_PKTINFO_NUM with 24.
  replace (_ || _) with false by (destruct Hf as [-> | Hf]; cbn [negb andb orb]; lia).
  set (m := Nat.min 24 (length q)). set (k := Z.of_nat (length q)).
  assert (Ei : (if 24 <? k then u8 (rindex (source_info a) + (k - 24) mod 24) else rindex (source_info a)) mod 24 = (rindex (source_info a) + (k - Z.of_nat m)) mod 24).
  { destruct (Z.ltb_spec 24 k).
    - pose proof (Z.mod_pos_bound (k - 24) 24 ltac:(lia)). rewrite u8_small by lia. rewrite Zplus_mod_idemp_r. f_equal. lia.
    - f_equal. lia. }
  set (i := if 24 <? k then u8 _ else _) in *.
  assert (Ej : forall x, (i + x) mod 24 = (rindex (source_info a) + (k - Z.of_nat m) + x) mod 24) by (intros x; rewrite <- Zplus_mod_idemp_l, Ei, Zplus_mod_idemp_l; reflexivity).
  assert (Hi : 0 <= i < 255).
  { subst i. destruct (24 <? k); [|lia]. pose proof (Z.mod_pos_bound (k - 24) 24 ltac:(lia)). rewrite u8_small by lia. lia. }
  replace (if 24 <? k then 24 else k) with (Z.of_nat m) by (destruct (Z.ltb_spec 24 k); lia).
  intros E. apply bind_Some in E as (sum & _ & E). apply bind_Some in E as (ave & _ & E). rewrite Nat2Z.id in E.
  match type of E with context [update_loop m i _ ?r] => pose proof (update_loop_fold m i (time_span (source_info a)) r Hi) as H; destruct (update_loop m i _ r) as [i' r'] end.
  destruct H as (Er & Hi' & Hm). injection E as <- <-. split; [reflexivity|]. split.
  - cbn [source_info upd_source set_source_info set_result_info]. unfold ring_ok. cbn [length Z.of_nat].
    pose proof (Z.mod_pos_bound i' 24 ltac:(lia)) as Hb. cbn [time_span rindex windex count set_rindex set_count]. rewrite u8_small by lia. rewrite (u8_small 0) by lia.
    split; [exact Hl | split; [lia | split; [|split; [reflexivity | lia]]]]. rewrite Hw, Z.add_0_r, Z.mod_mod by lia. fold k. rewrite Hm, (Ej (Z.of_nat m)). f_equal. lia.
  - exists ave. eexists. rewrite <- (ring_recent q (source_info a) Hq ltac:(lia)). cbn [result_info upd_source set_source_info set_result_info]. rewrite Er. unfold updates.
    f_equal. apply map_ext. intros j. f_equal. apply Ej.
Qed.

Lemma analyse_frames khz force a a' n : audiolcyapt_region_info_analyse khz force a = Some (a', n) ->
  frame_cnt (source_info a') = frame_cnt (source_info a).
Proof.
  unfold audiolcyapt_region_info_analyse. cbv zeta. destruct (_ || _); [intros [= <- _]; reflexivity|]. intros E.
  apply bind_Some in E as (sum & _ & E). apply bind_Some in E as (ave & _ & E). destruct (update_loop _ _ _ _). injection E as <- _. reflexivity.
Qed.

(** The first entry of the ring has frames, or is the next one to be written. *)
Definition frames_ok (p : lcyapt_source_t) : Prop :=
  length (frame_cnt p) = 24%nat /\ (windex p = 0 \/ at_index (frame_cnt p) 0 <> 0).

Lemma push_frames frames t p : frames <> 0 -> 0 <= windex p < 24 -> frames_ok p ->
  length (frame_cnt (ring_push frames t p)) = 24%nat /\ at_index (frame_cnt (ring_push frames t p)) 0 <> 0.
Proof.
  intros Hf Hw [Hl H0]. change (frame_cnt (ring_push frames t p)) with (store_at (windex p) frames (frame_cnt p)).
  split; [unfold store_at; rewrite length_insert; exact Hl|]. rewrite at_store by lia.
  destruct (Z.eqb_spec (windex p) 0) as [E|E]; [exact Hf|]. destruct H0 as [H0|H0]; [contradiction|exact H0].
Qed.

Lemma ring_windex q p : ring_ok q p -> 0 <= windex p < 24.
Proof. intros (_ & _ & -> & _). apply Z.mod_pos_bound. lia. Qed.

(** Packets with frames leave a first entry with frames. *)
Lemma collect_all_frames e pkts q s :
  twsrole (ctrl s) <> TWS_SLAVE -> 0 < last_pkt_time (source_info (apt s)) -> Forall (fun x => fst x <> 0 /\ 0 < snd x < 2 ^ 32) pkts ->
  (length q + length pkts <= 255)%nat -> ring_ok q (source_info (apt s)) -> frames_ok (source_info (apt s)) -> pkts <> [] ->
  let p := source_info (apt (collect_all e pkts s)) in length (frame_cnt p) = 24%nat /\ at_index (frame_cnt p) 0 <> 0.
Proof.
  revert q s. induction pkts as [|[f c] pkts IH]; intros q s Hr Hl Hf Hn Hq Hok Hne; [congruence|]. cbn [collect_all fold_left length] in *.
  pose proof (Forall_inv Hf) as [Hf0 Hc]. apply Forall_inv_tail in Hf. cbn [fst snd] in *. destruct (collect_keeps e f c s) as (_ & Kc & _).
  pose proof (collect_eq e f c s Hr Hl Hc) as E. cbv zeta in E. set (s1 := audiolcyapt_info_collect e f c s) in *. clearbody s1.
  set (t := u32 _) in *. set (fr := if media_format (ctrl s) =? SBC then f else 8) in *.
  assert (Hfr : fr <> 0) by (subst fr; destruct (_ =? _); lia).
  pose proof (push_frames fr t _ Hfr (ring_windex _ _ Hq) Hok) as [P1 P2].
  assert (Hlast : last_pkt_time (source_info (apt s1)) = c) by (rewrite E; apply u32_small; lia).
  destruct pkts as [|x pkts]; [cbn [fold_left]; rewrite E; split; [exact P1|exact P2]|].
  apply (IH (q ++ [t]) s1); [congruence | lia | exact Hf | rewrite length_app; cbn [length] in *; lia | | | discriminate].
  - rewrite E. exact (ring_push_ok q fr t (source_info (apt s)) Hq ltac:(lia)).
  - rewrite E. split; [exact P1 | right; exact P2].
Qed.

(** With a sample rate and frames in the first entry nothing divides by zero. *)
Lemma analyse_defined khz force a :
  khz <> 0 -> length (time_span (source_info a)) = 24%nat -> length (frame_cnt (source_info a)) = 24%nat ->
  at_index (frame_cnt (source_info a)) 0 <> 0 -> exists r, audiolcyapt_region_info_analyse khz force a = Some r.
Proof.
  intros Hk Ht Hf H0. unfold audiolcyapt_region_info_analyse. cbv zeta. destruct (_ || _); [eauto|].
  destruct (frame_cnt (source_info a)) as [|f0 fs]; [discriminate Hf|]. destruct (time_span (source_info a)) as [|t0 ts]; [discriminate Ht|].
  change (at_index (f0 :: fs) 0) with f0 in H0. cbn [pkt_window]. unfold udiv. rewrite (proj2 (Z.eqb_neq khz 0) Hk), (proj2 (Z.eqb_neq f0 0) H0).
  cbn [length mbind option_bind]. destruct (Z.eqb_spec (Z.of_nat (S (length (pkt_window fs ts)))) 0); [lia|]. cbn [mbind option_bind].
  destruct (update_loop _ _ _ _). eauto.
Qed.

(** C28: The recommendation is made from the packets received since the last time,
    in their order: when at least 4 (or, if forced, at least 1) and at most 255
    packets came since the last analysis, each with frames, and the sample rate is
    known, on an earphone that had a packet before, the analysis returns, counts the last 24 times between them, from the
    oldest to the newest, and leaves an empty ring in the state the next packets
    need.  (The 256th packet makes the 8-bit count wrap around, and packets without
    frames can make the analysis divide by zero: [analysis_divides_by_zero].)  On
    the second earphone nothing is collected. *)
Theorem packets_in_order e khz force pkts s :
  khz <> 0 -> twsrole (ctrl s) <> TWS_SLAVE -> 0 < last_pkt_time (source_info (apt s)) ->
  ring_ok [] (source_info (apt s)) -> frames_ok (source_info (apt s)) ->
  Forall (fun x => fst x <> 0 /\ 0 < snd x < 2 ^ 32) pkts -> (0 < length pkts <= 255)%nat -> (force = true \/ 4 <= length pkts)%nat ->
  exists a', audiolcyapt_region_info_analyse khz force (apt (collect_all e pkts s)) = Some (a', Z.of_nat (Nat.min 24 (length pkts))) /\
  ring_ok [] (source_info a') /\ frames_ok (source_info a') /\
  exists ave diff, result_info a' = updates (recent (spans e (last_pkt_time (source_info (apt s))) pkts)) (set_pkt_time_diff diff (set_pkt_time_ave ave (result_info (apt s)))).
Proof.
  intros Hk Hr Hl Hq Hok Hf Hn Hforce.
  assert (Hf' : Forall (fun x => 0 < snd x < 2 ^ 32) pkts) by (eapply List.Forall_impl; [|exact Hf]; intros x [_ Hx]; exact Hx).
  destruct (collect_all_ring e pkts [] s Hr Hl Hf' ltac:(cbn; lia) Hq) as (R1 & R2 & _). cbn [app] in R1.
  destruct (collect_all_frames e pkts [] s Hr Hl Hf ltac:(cbn; lia) Hq Hok) as [F1 F2]; [intros ->; cbn in Hn; lia|].
  destruct (analyse_defined khz force (apt (collect_all e pkts s)) Hk (proj1 R1) F1 F2) as [[a' n] E].
  destruct (analyse_in_order khz force _ a' n _ R1) as (-> & Ho & Hres); rewrite ?spans_length; try assumption.
  exists a'. rewrite spans_length in *. split; [exact E|]. split; [exact Ho|]. rewrite <- R2. split; [|exact Hres].
  assert (Hfr : frame_cnt (source_info a') = frame_cnt (source_info (apt (collect_all e pkts s)))) by exact (analyse_frames _ _ _ _ _ E).
  split; [rewrite Hfr; exact F1 | right; rewrite Hfr; exact F2].
Qed.

(** ** The mode over switches, playbacks and restarts *)

Definition low_mode (cf : audiolcy_cfg_t) : Z := if BM_Use_ALLM cf then LCYMODE_ADAPTIVE else LCYMODE_LOW.

(** A saved or a default mode that the configuration knows. *)
Definition valid_mode (cf : audiolcy_cfg_t) (m : Z) : Prop := m = LCYMODE_NORMAL \/ m = LCYMODE_LOW \/ m = LCYMODE_ADAPTIVE /\ BM_Use_ALLM cf = true.

Inductive mode_event : Type := MSwitch | MCmd (cmd : lcycmd) | MSync (pkt : audiolcy_lcysync_t).

Definition mode_step (e : lcy_env) (ev : mode_event) (w : world) : option world :=
  match ev with
  | MSwitch => Some (system_switch_low_latency_mode e w)
  | MCmd cmd => audiolcy_cmd_entry e cmd w
  | MSync pkt => audiolcy_ctrl_latency_twssync_deal e pkt w
  end.

(** From power on: the configuration is read, then switches, commands and packets. *)
Inductive mode_reach (cf : audiolcy_cfg_t) : world -> Prop :=
| mode_boot e g l saved os : (forall m, saved = Some m -> valid_mode cf m) -> mode_reach cf (fst (audiolcy_config_init e cf (mk_world g l None None saved os)))
| mode_next e ev w w' : mode_reach cf w -> sane_env e -> (match ev with MSync pkt => 0 < sync_latency pkt <= 255 | _ => True end) -> mode_step e ev w = Some w' -> mode_reach cf w'.

Definition ctrl_mode (m : Z) (c : audiolcy_ctrl_t) : Prop := lcymode_switch_forbidden c = true \/ lcymode_switch_forbidden c = false /\ lcy_mode c = m.

Record mode_inv (cf : audiolcy_cfg_t) (w : world) : Prop := mk_mode_inv {
  mi_lim : w_lim w;
  mi_cfg : cfg (w_glob w) = cf;
  mi_hold : lcymode_switch_hold (w_glob w) = 0;
  mi_mode : cur_lcy_mode (w_glob w) = LCYMODE_NORMAL \/ cur_lcy_mode (w_glob w) = low_mode cf;
  mi_saved : Save_Latency_Mode cf = true -> boot_mode cf (w_saved w) = cur_lcy_mode (w_glob w);
  mi_ctrl : forall c, w_ctrl w = Some c -> ctrl_mode (cur_lcy_mode (w_glob w)) c
}.

(** Steps that leave the global variables and the saved mode. *)
Lemma mode_inv_keeps cf w w' :
  mode_inv cf w -> w_lim w' -> w_glob w' = w_glob w -> w_saved w' = w_saved w ->
  (forall c', w_ctrl w' = Some c' -> ctrl_mode (cur_lcy_mode (w_glob w)) c') -> mode_inv cf w'.
Proof. intros [? ? ? ? ? ?] Hl Hg Hs Hc. split; rewrite ?Hg, ?Hs; assumption. Qed.

Lemma fixed_ctrl_mode m c c' : fixed c' = fixed c -> ctrl_mode m c -> ctrl_mode m c'.
Proof. unfold fixed, ctrl_mode. intros [= _ _ _ _ _ _ _ -> ->] H. exact H. Qed.

Lemma with_apt_mode cf f w w' :
  mode_inv cf w -> (forall s s', lim (apt s) -> w_ctrl w = Some (ctrl s) -> f s = Some s' -> kept s s') -> with_apt f w = Some w' -> mode_inv cf w'.
Proof.
  intros I Hf E. destruct (with_apt_ok f w w' (mi_lim _ _ I) Hf E) as [Hl _]. unfold with_apt in E.
  destruct (w_ctrl w) as [c|] eqn:Ec; [destruct (w_apt w) as [a|] eqn:Ea|]; [|injection E as <-; exact I..].
  apply bind_Some in E as (s & Es & E). injection E as <-. apply Hf in Es as K; [|exact (mi_lim _ _ I a Ea) | reflexivity].
  apply (mode_inv_keeps cf w); [exact I | exact Hl | exact (kept_glob _ _ K) | reflexivity |].
  intros c' [= <-]. apply (fixed_ctrl_mode _ c); [exact (kept_fixed _ _ K) | apply (mi_ctrl _ _ I), Ec].
Qed.

(** A change of the control block that keeps its mode. *)
Lemma mode_inv_ctrl cf w c c' : mode_inv cf w -> w_ctrl w = Some c -> lcy_mode c' = lcy_mode c -> lcymode_switch_forbidden c' = lcymode_switch_forbidden c -> mode_inv cf (w_set_ctrl (Some c') w).
Proof.
  intros I Ec H1 H2. apply (mode_inv_keeps cf w); [exact I | exact (mi_lim _ _ I) | reflexivity | reflexivity |].
  intros c0 [= <-]. pose proof (mi_ctrl _ _ I c Ec) as H. unfold ctrl_mode in *. rewrite H1, H2. exact H.
Qed.

Lemma ctrl_deinit_mode cf stream format w : mode_inv cf w -> mode_inv cf (audiolcy_ctrl_deinit stream format w).
Proof.
  intros I. destruct (ctrl_deinit_ok stream format w (mi_lim _ _ I)) as [Hl _]. revert Hl. unfold audiolcy_ctrl_deinit. destruct (w_ctrl w) as [c|]; [|intros _; exact I].
  destruct (_ && _); [intros _; exact I|]. destruct (_ && _); [intros _; exact I|]. intros Hl. apply (mode_inv_keeps cf w); [exact I | exact Hl | reflexivity | reflexivity | intros c' [=]].
Qed.

Lemma ctrl_new_mode cf e p w : sane_env e -> mode_inv cf w -> mode_inv cf (ctrl_new e p w).
Proof.
  intros He I. destruct (ctrl_new_ok e p w He) as [Hl _]. revert Hl. unfold ctrl_new. destruct (_ =? STREAM_MUSIC).
  - destruct (if _ && _ then _ else _) as [m os]. intros Hl. apply (mode_inv_keeps cf w); [exact I | exact Hl | reflexivity | reflexivity |]. intros c' [= <-]. right. split; reflexivity.
  - intros Hl. apply (mode_inv_keeps cf w); [exact I | exact Hl | reflexivity | reflexivity |]. intros c' [= <-]. left. reflexivity.
Qed.

Lemma cmd_entry_mode cf e cmd w w' : sane_env e -> mode_inv cf w -> audiolcy_cmd_entry e cmd w = Some w' -> mode_inv cf w'.
Proof.
  intros He I. destruct cmd; cbn [audiolcy_cmd_entry].
  - intros [= <-]. unfold audiolcy_ctrl_init. destruct (_ && _); [exact I|].
    assert (Hc : forall w, mode_inv cf w -> mode_inv cf (if ctrl_mem e then ctrl_new e p w else w)) by (intros w1 I1; destruct (ctrl_mem e); [apply ctrl_new_mode; assumption | exact I1]).
    destruct (w_ctrl w) as [c|] eqn:Ec; [|apply Hc, I]. destruct (_ =? _); [|apply Hc, ctrl_deinit_mode, I]. apply (mode_inv_ctrl cf w c); [exact I | exact Ec | reflexivity | reflexivity].
  - intros [= <-]. apply ctrl_deinit_mode, I.
  - intros [= <-]. destruct (set_twsrole_ok (u8 role) w (mi_lim _ _ I)) as [Hl _]. revert Hl. unfold audiolcy_ctrl_set_twsrole. destruct (w_ctrl w) as [c|] eqn:Ec; [|intros _; exact I].
    destruct (_ =? _); [intros _; exact I|]. intros Hl. apply (mode_inv_keeps cf w); [exact I | exact Hl | reflexivity | reflexivity |]. intros c' [= <-]. exact (mi_ctrl _ _ I c Ec).
  - unfold audiolcy_ctrl_set_pktinfo. destruct (w_ctrl w) as [c|] eqn:Ec; [|intros [= <-]; exact I]. apply with_apt_mode.
    + apply (mode_inv_ctrl cf w c); [exact I | exact Ec | destruct (_ <? _); reflexivity | destruct (_ <? _); reflexivity].
    + intros s s' Hl _ [= <-]. apply collect_kept, Hl.
  - apply with_apt_mode; [exact I|]. intros s s' Hl _ [= <-]. apply start_play_kept, Hl.
  - intros [= <-]. exact I.
  - intros [= <-]. apply (mode_inv_keeps cf w); [exact I | exact (mi_lim _ _ I) | reflexivity | reflexivity | exact (mi_ctrl _ _ I)].
  - intros [= <-]. unfold audiolcy_ctrl_sync. destruct (_ =? _); [|exact I]. destruct (w_ctrl w) as [c|] eqn:Ec; [|exact I].
    match goal with |- context [ctrl_twssync ?m ?l c] => pose proof (ctrl_twssync_fixed m l c) as F; destruct (ctrl_twssync m l c) as [c' os] end. cbn [fst] in F.
    apply (mode_inv_keeps cf w); [exact I | exact (mi_lim _ _ I) | reflexivity | reflexivity |]. intros c0 [= <-]. exact (fixed_ctrl_mode _ _ _ F (mi_ctrl _ _ I c Ec)).
  - unfold audiolcy_ctrl_main. destruct (w_ctrl w) as [c|] eqn:Ec; [|intros [= <-]; exact I]. apply with_apt_mode.
    + apply (mode_inv_ctrl cf w c); [exact I | exact Ec | destruct (_ && _); reflexivity | destruct (_ && _); reflexivity].
    + intros s s' Hl _ Es. exact (main_kept e s s' Hl Es).
Qed.

Lemma twssync_deal_mode cf e pkt w w' : 0 < sync_latency pkt <= 255 -> mode_inv cf w -> audiolcy_ctrl_latency_twssync_deal e pkt w = Some w' -> mode_inv cf w'.
Proof.
  intros Hp I. unfold audiolcy_ctrl_latency_twssync_deal. destruct (w_ctrl w) as [c|] eqn:Ec; [|intros [= <-]; exact I]. destruct (negb _) eqn:Er; [intros [= <-]; exact I|].
  destruct (_ && _ && _); [intros [= <-]; apply (mode_inv_ctrl cf w c); [exact I | exact Ec | reflexivity | reflexivity]|].
  set (c1 := if _ =? LCYSYNC_REPEAT then _ else set_lcy_send_repeat 0 c).
  assert (H1 : twsrole c1 = TWS_SLAVE /\ lcy_mode c1 = lcy_mode c /\ lcymode_switch_forbidden c1 = lcymode_switch_forbidden c).
  { apply negb_false_iff, Z.eqb_eq in Er. subst c1. destruct (_ =? LCYSYNC_REPEAT); (split; [exact Er | split; reflexivity]). }
  clearbody c1. destruct H1 as (Hr & Hm & Hf). apply with_apt_mode; [exact (mode_inv_ctrl cf w c c1 I Ec Hm Hf)|].
  intros s s' Hl [= Es] [= <-]. apply adjust_slave_kept; [exact Hl | congruence | exact Hp].
Qed.

(** The mode of the playback follows. *)
Lemma playback_mode_keeps e m w :
  w_glob (playback_mode e m w) = w_glob w /\ w_saved (playback_mode e m w) = w_saved w /\ w_apt (playback_mode e m w) = w_apt w /\
  (forall c, w_ctrl w = Some c -> exists c', w_ctrl (playback_mode e m w) = Some c' /\ lcy_mode c' = u8 m /\ lcymode_switch_forbidden c' = lcymode_switch_forbidden c) /\
  (w_ctrl w = None -> w_ctrl (playback_mode e m w) = None).
Proof.
  unfold playback_mode. destruct (w_ctrl w) as [c|] eqn:Ec; [|repeat split; try (intros; congruence); exact Ec].
  destruct (ctrl_latency_change _ _ _ _ _) as [ms os]. set (w2 := audiolcy_ctrl_drop_insert_data _ _ _).
  assert (H2 : w_glob w2 = w_glob w /\ w_saved w2 = w_saved w /\ w_apt w2 = w_apt w /\ w_ctrl w2 = Some (set_lcy_mode m c)).
  { subst w2. unfold audiolcy_ctrl_drop_insert_data. cbn [w_ctrl w_puts w_set_ctrl]. destruct (negb _); repeat split. }
  clearbody w2. destruct H2 as (Hg & Hs & Ha & Hc). 
  assert (G : forall w3 c3, w_glob w3 = w_glob w2 -> w_saved w3 = w_saved w2 -> w_apt w3 = w_apt w2 -> w_ctrl w3 = Some c3 -> lcy_mode c3 = u8 m -> lcymode_switch_forbidden c3 = lcymode_switch_forbidden c ->
    w_glob w3 = w_glob w /\ w_saved w3 = w_saved w /\ w_apt w3 = w_apt w /\
    (forall c0, Some c = Some c0 -> exists c', w_ctrl w3 = Some c' /\ lcy_mode c' = u8 m /\ lcymode_switch_forbidden c' = lcymode_switch_forbidden c0) /\ (Some c = None -> w_ctrl w3 = None)).
  { intros w3 c3 E1 E2 E3 E4 E5 E6. split; [congruence | split; [congruence | split; [congruence | split; [|discriminate]]]]. intros c0 [= <-]. exists c3. auto. }
  destruct (lcymplc (set_lcy_mode m c)) as [q|].
  - destruct (_ =? LCYMODE_NORMAL); [apply (G _ (set_lcymplc None (set_lcy_mode m c))); reflexivity | apply (G _ (set_lcy_mode m c)); assumption || reflexivity].
  - destruct (_ =? LCYMODE_NORMAL); [apply (G _ (set_lcy_mode m c)); assumption || reflexivity|].
    destruct (audiolcy_musicplc_init _ _ _) as [q os']. apply (G _ (set_lcymplc q (set_lcy_mode m c))); reflexivity.
Qed.

Lemma set_latency_mode_inv cf e m w :
  mode_inv cf w -> switch_forbidden w = false -> m = LCYMODE_NORMAL \/ m = low_mode cf ->
  let w' := audiolcy_set_latency_mode e m true w in mode_inv cf w' /\ cur_lcy_mode (w_glob w') = m.
Proof.
  intros I Hf Hm. unfold audiolcy_set_latency_mode. rewrite Hf. destruct (Z.eqb_spec m (cur_lcy_mode (w_glob w))) as [->|Hne]; [split; [exact I | reflexivity]|].
  assert (Hu : u8 m = m) by (apply u8_small; unfold low_mode, LCYMODE_NORMAL, LCYMODE_ADAPTIVE, LCYMODE_LOW in Hm; destruct (BM_Use_ALLM cf); lia).
  assert (Hboot : Save_Latency_Mode cf = true -> boot_mode cf (Some m) = m).
  { intros Hs. unfold boot_mode. rewrite Hs. cbn [default]. unfold low_mode in Hm. destruct (BM_Use_ALLM cf); destruct Hm as [-> | ->]; reflexivity. }
  rewrite (mi_cfg _ _ I). set (w1 := w_set_glob _ w). set (w2 := if _ && _ then w_save m w1 else w1).
  assert (H2 : w_glob w2 = mk_global cf m (lcymode_switch_hold (w_glob w)) /\ w_apt w2 = w_apt w /\ w_ctrl w2 = w_ctrl w /\ (Save_Latency_Mode cf = true -> w_saved w2 = Some m)).
  { subst w2. destruct (Save_Latency_Mode cf); cbn [andb]; [|repeat split; discriminate]. destruct (bool_decide_reflect (w_saved w1 = Some m)) as [Hs|Hs]; cbn [negb]; repeat split; intros _; [exact Hs]. }
  clearbody w2. destruct H2 as (Hg & Ha & Hc & Hs). destruct (playback_mode_keeps e m w2) as (Pg & Ps & Pa & Pc & Pn). set (w3 := playback_mode e m w2) in *. clearbody w3.
  assert (Hcur : cur_lcy_mode (w_glob w3) = m) by (rewrite Pg, Hg; reflexivity).
  split; [|exact Hcur]. split.
  - intros a E. rewrite Pa, Ha in E. exact (mi_lim _ _ I a E).
  - rewrite Pg, Hg. reflexivity.
  - rewrite Pg, Hg. exact (mi_hold _ _ I).
  - rewrite Hcur. exact Hm.
  - intros Hsv. rewrite Ps, (Hs Hsv), Hcur. exact (Hboot Hsv).
  - rewrite Hcur, <- Hu. intros c' Ec'. destruct (w_ctrl w2) as [c|] eqn:Ec2; [|rewrite (Pn eq_refl) in Ec'; discriminate].
    destruct (Pc c eq_refl) as (c'' & E'' & Hm'' & Hf''). rewrite Ec' in E''. injection E'' as <-. right. split; [|exact Hm''].
    rewrite Hf''. unfold switch_forbidden in Hf. rewrite <- Hc in Hf. exact Hf.
Qed.

(** The other one of the two modes. *)
Definition other_mode (cf : audiolcy_cfg_t) (m : Z) : Z := if m =? LCYMODE_NORMAL then low_mode cf else LCYMODE_NORMAL.

Lemma switch_inv cf e w :
  mode_inv cf w ->
  let w' := system_switch_low_latency_mode e w in
  mode_inv cf w' /\ cur_lcy_mode (w_glob w') = if switch_forbidden w then cur_lcy_mode (w_glob w) else other_mode cf (cur_lcy_mode (w_glob w)).
Proof.
  intros I. unfold system_switch_low_latency_mode, audiolcy_check_latency_mode_switch_next. destruct (switch_forbidden w) eqn:Ef; [rewrite Z.eqb_refl; split; [exact I | reflexivity]|].
  rewrite (mi_hold _ _ I), (mi_cfg _ _ I). cbn [Z.ltb Z.compare].
  assert (Hcur : audiolcy_get_latency_mode w = cur_lcy_mode (w_glob w)).
  { unfold audiolcy_get_latency_mode, switch_forbidden in *. destruct (w_ctrl w) as [c|] eqn:Ec; [|reflexivity]. destruct (mi_ctrl _ _ I c Ec) as [H|[_ H]]; [congruence | exact H]. }
  rewrite Hcur. set (cur := cur_lcy_mode (w_glob w)) in *. set (next := if _ && BM_Use_ALLM cf then _ else _).
  assert (Hn : next = other_mode cf cur /\ next <> cur).
  { subst next. pose proof (mi_mode _ _ I) as Hm. fold cur in Hm. unfold other_mode, low_mode in *. destruct (BM_Use_ALLM cf); destruct Hm as [-> | ->]; split; (reflexivity || discriminate). }
  clearbody next. destruct Hn as [-> Hne]. replace (other_mode cf cur =? cur) with false by lia.
  apply set_latency_mode_inv; [exact I | exact Ef | unfold other_mode; destruct (_ =? _); auto].
Qed.

Lemma mode_reach_inv cf w : (Default_Low_Latency_Mode cf = 0 \/ Default_Low_Latency_Mode cf = 1) -> mode_reach cf w -> mode_inv cf w.
Proof.
  intros Hd. induction 1 as [e g l saved os Hs | e ev w w' _ IH He Hev E].
  - unfold audiolcy_config_init, audiolcy_set_latency_mode. cbn [fst switch_forbidden w_set_glob w_ctrl w_glob w_saved cur_lcy_mode]. rewrite Z.eqb_refl.
    split; cbn [w_glob w_saved w_ctrl cfg lcymode_switch_hold cur_lcy_mode]; [intros a [=] | reflexivity | reflexivity | | reflexivity | intros c [=]].
    assert (Hv : forall m, valid_mode cf m -> (if (m =? LCYMODE_LOW) && BM_Use_ALLM cf then LCYMODE_ADAPTIVE else m) = LCYMODE_NORMAL \/ (if (m =? LCYMODE_LOW) && BM_Use_ALLM cf then LCYMODE_ADAPTIVE else m) = low_mode cf).
    { intros m Hm. unfold low_mode. destruct Hm as [-> | [-> | [-> Hb]]]; [left; reflexivity | right; destruct (BM_Use_ALLM cf); reflexivity | right; rewrite Hb; reflexivity]. }
    assert (Hvd : valid_mode cf (Default_Low_Latency_Mode cf)) by (destruct Hd as [-> | ->]; [left | right; left]; reflexivity).
    unfold boot_mode. destruct (Save_Latency_Mode cf); [|apply Hv, Hvd]. destruct saved as [m|]; [apply Hv, Hs; reflexivity | apply Hv, Hvd].
  - destruct ev as [|cmd|pkt]; cbn [mode_step] in E.
    + injection E as <-. apply switch_inv, IH.
    + exact (cmd_entry_mode cf e cmd w w' He IH E).
    + exact (twssync_deal_mode cf e pkt w w' Hev IH E).
Qed.

(** Power off: what is kept is the saved mode. *)
Definition power_off (w : world) : world := mk_world (mk_global (cfg (w_glob w)) 0 0) (mk_apt_global 0 false 0) None None (w_saved w) [].

(** C29: A switch toggles between the normal and the (adaptive) low latency mode,
    and is refused during a call; music plays in the mode that was chosen; and when
    the mode is to be saved, it is the same one after a restart, whatever switches,
    commands and packets came before. *)
Theorem mode_switch_restart cf e w :
  (Default_Low_Latency_Mode cf = 0 \/ Default_Low_Latency_Mode cf = 1) -> mode_reach cf w ->
  let cur := cur_lcy_mode (w_glob w) in
  cur_lcy_mode (w_glob (system_switch_low_latency_mode e w)) = (if switch_forbidden w then cur else other_mode cf cur) /\
  (switch_forbidden w = false -> audiolcy_get_latency_mode w = cur) /\
  (Save_Latency_Mode cf = true -> snd (audiolcy_config_init e cf (power_off w)) = cur).
Proof.
  intros Hd Hr. pose proof (mode_reach_inv cf w Hd Hr) as I. split; [apply switch_inv, I|]. split.
  - intros Hf. unfold audiolcy_get_latency_mode, switch_forbidden in *. destruct (w_ctrl w) as [c|] eqn:Ec; [|reflexivity]. destruct (mi_ctrl _ _ I c Ec) as [H|[_ H]]; [congruence | exact H].
  - intros Hs. unfold audiolcy_config_init, audiolcy_set_latency_mode. cbn [snd power_off switch_forbidden w_set_glob w_ctrl w_glob w_saved cur_lcy_mode]. rewrite Z.eqb_refl.
    exact (mi_saved _ _ I Hs).
Qed.

(** ** The analysis *)

(** The regions in percent of the average time, as the comment of ts_region has
    them. *)
Definition region_percent (ave ts : Z) : Z :=
  if 100 * ts <? 50 * ave then 0 else if 100 * ts <? 75 * ave then 1 else if 100 * ts <? 90 * ave then 2
  else if 100 * ts <=? 110 * ave then 3 else if 100 * ts <=? 125 * ave then 4 else if 100 * ts <=? 150 * ave then 5
  else if 100 * ts <=? 200 * ave then 6 else if 100 * ts <=? 300 * ave then 7 else 8.

(** The region of a time between packets is the one of its percentage of the
    average, exactly and without division. *)
Theorem region_locate_percent ave ts : 0 <= ave < 2 ^ 31 -> 0 <= ts < 2 ^ 31 -> audiolcyapt_region_locate ave ts = region_percent ave ts.
Proof.
  intros Ha Ht. unfold audiolcyapt_region_locate, region_percent, REGION_NUM. rewrite s32_small by lia. rewrite !u32_small by lia.
  assert (H10 : 10 * (ave / 10) <= ave < 10 * (ave / 10) + 10) by (Z.div_mod_to_equations; lia).
  assert (H4 : 4 * (ave / 4) <= ave < 4 * (ave / 4) + 4) by (Z.div_mod_to_equations; lia).
  assert (H2 : 2 * (ave / 2) <= ave < 2 * (ave / 2) + 2) by (Z.div_mod_to_equations; lia).
  generalize dependent (ave / 10). generalize dependent (ave / 4). generalize dependent (ave / 2). intros t2 H2 t4 H4 t10 H10.
  destruct (Z.abs_spec (ts - ave)) as [[Hs ->] | [Hs ->]]; reflect_bools; lia.
Qed.

(** The analysis divides by zero exactly when there is something to analyse
    and the sample rate is not known or the first entry of the ring has no frames,
    which the four bits of an SBC packet's frame count allow. *)
Theorem analysis_divides_by_zero khz force a :
  0 <= count (source_info a) -> length (frame_cnt (source_info a)) = 24%nat -> length (time_span (source_info a)) = 24%nat ->
  audiolcyapt_region_info_analyse khz force a = None <->
  (4 <= count (source_info a) \/ force = true /\ 0 < count (source_info a)) /\ (khz = 0 \/ at_index (frame_cnt (source_info a)) 0 = 0).
Proof.
  intros Hc Hf Ht. unfold audiolcyapt_region_info_analyse. cbv zeta.
  destruct (frame_cnt (source_info a)) as [|f0 fs]; [discriminate Hf|]. destruct (time_span (source_info a)) as [|t0 ts]; [discriminate Ht|].
  change (at_index (f0 :: fs) 0) with f0. cbn [pkt_window].
  destruct ((negb force && (count (source_info a) <? 4)) || (force && (count (source_info a) <=? 0))) eqn:E.
  { split; [discriminate|]. intros [H _]. exfalso. destruct force; cbn [negb andb orb] in E; lia. }
  assert (Hd : 4 <= count (source_info a) \/ force = true /\ 0 < count (source_info a)) by (destruct force; cbn [negb andb orb] in E; lia).
  unfold udiv. destruct (Z.eqb_spec khz 0) as [->|Hk].
  { split; [intros _; split; [exact Hd | left; reflexivity] | reflexivity]. }
  destruct (Z.eqb_spec f0 0) as [->|Hf0]; cbn [length].
  - split; [intros _; split; [exact Hd | right; reflexivity] | reflexivity].
  - cbn [mbind option_bind]. assert (Hn : forall n, (Z.of_nat (S n) =? 0) = false) by (intros n; apply Z.eqb_neq; lia). rewrite Hn. cbn [mbind option_bind]. destruct (update_loop _ _ _ _). split; [discriminate|]. intros [_ [H|H]]; lia.
Qed.

(** In the normal mode a recommendation skips the timers: once the last latency is
    the current one, as after every adjustment, the calculation takes it for an
    invalid one and compares the recommendation with itself. *)
Lemma check_with_itself now p x a : lim a -> 0 < x -> cfg_minimum a <= x <= cfg_maximum a -> audiolcyapt_down_timer_check now p x x a = (no_timers a, x).
Proof.
  intros (_ & _ & _ & Hs & _) Hx Hr. unfold audiolcyapt_down_timer_check, check_limit. rewrite Hs. replace (x <? cfg_minimum a + 0) with false by lia. rewrite andb_false_r.
  replace (cfg_maximum a <? x) with false by lia. rewrite Z.leb_refl. reflexivity.
Qed.

(** ** Examples *)

(** A configuration: saved mode, adaptive mode with factor 2 and at most 140 ms,
    recommendations every 10 s and timers of 120 s. *)
Definition cf0 : audiolcy_cfg_t := mk_cfg 1 true true 2 140 1 10 3000 3 120 120.

(** At [t] ms, with 24 cycles per microsecond, 100 ms buffered. *)
Definition env0 (t : Z) : lcy_env :=
  mk_lcy_env t 100000 44100 (fun m _ => if m =? 0 then 200000 else 60000) (fun _ _ => 20000) (fun x => x / 24) true true true true.

Definition boot0 (l : audiolcyapt_global_t) : world := fst (audiolcy_config_init (env0 1000) cf0 (mk_world (mk_global cf0 0 0) l None None None [])).

Fixpoint run0 (l : list (Z * lcycmd)) (w : world) : option world :=
  match l with [] => Some w | (t, c) :: l => w' ← audiolcy_cmd_entry (env0 t) c w; run0 l w' end.

Definition pk (t : Z) : Z * lcycmd := (t, LCYCMD_SET_PKTINFO 600 5 (t * 24000)).

(** Music begins without a last latency, and four packets arrive. *)
Definition w0 : world :=
  default (boot0 (mk_apt_global 0 false 0))
    (run0 [(1000, LCYCMD_INIT (mk_param SBC STREAM_MUSIC 44 true true)); (1001, LCYCMD_SET_TWSROLE 0); pk 1100; pk 1114; pk 1150; pk 1155] (boot0 (mk_apt_global 0 false 0))).

(** Music plays with a last latency of 100 ms. *)
Definition w1 : world :=
  default (boot0 (mk_apt_global SBC true 100))
    (run0 [(1000, LCYCMD_INIT (mk_param SBC STREAM_MUSIC 44 true true)); (1001, LCYCMD_SET_TWSROLE 0); (1002, LCYCMD_MAIN); (1003, LCYCMD_SET_START)] (boot0 (mk_apt_global SBC true 100))).

Lemma env0_sane t : sane_env (env0 t).
Proof. intros f. cbn. lia. Qed.

Lemma run0_reach l w w' : lcy_reach w -> run0 l w = Some w' -> lcy_reach w'.
Proof.
  revert w. induction l as [|[t c] l IH]; intros w H E; cbn [run0] in E; [injection E as <-; exact H|]. apply bind_Some in E as (w2 & E2 & E).
  apply (IH w2); [|exact E]. exact (lcy_next (env0 t) (ECmd c) w w2 H (env0_sane t) I E2).
Qed.

Lemma run0_mode_reach l w w' : mode_reach cf0 w -> run0 l w = Some w' -> mode_reach cf0 w'.
Proof.
  revert w. induction l as [|[t c] l IH]; intros w H E; cbn [run0] in E; [injection E as <-; exact H|]. apply bind_Some in E as (w2 & E2 & E).
  apply (IH w2); [|exact E]. exact (mode_next cf0 (env0 t) (MCmd c) w w2 H (env0_sane t) I E2).
Qed.

Lemma w0_reach : lcy_reach w0.
Proof.
  apply (run0_reach [(1000, LCYCMD_INIT (mk_param SBC STREAM_MUSIC 44 true true)); (1001, LCYCMD_SET_TWSROLE 0); pk 1100; pk 1114; pk 1150; pk 1155] (boot0 (mk_apt_global 0 false 0))).
  - replace (boot0 (mk_apt_global 0 false 0)) with (mk_world (mk_global cf0 2 0) (mk_apt_global 0 false 0) None None None []) by (vm_compute; reflexivity). constructor.
  - vm_compute. reflexivity.
Qed.

Lemma w1_mode_reach : mode_reach cf0 w1.
Proof.
  apply (run0_mode_reach [(1000, LCYCMD_INIT (mk_param SBC STREAM_MUSIC 44 true true)); (1001, LCYCMD_SET_TWSROLE 0); (1002, LCYCMD_MAIN); (1003, LCYCMD_SET_START)] (boot0 (mk_apt_global SBC true 100))).
  - constructor. intros m [=].
  - vm_compute. reflexivity.
Qed.

Definition w0_main : world := default w0 (audiolcy_cmd_entry (env0 1200) LCYCMD_MAIN w0).

(** The first recommendation: 72 ms, between 60 and 140. *)
Lemma latency_in_limits_witness :
  let a := default zero_adaptive (w_apt w0_main) in
  lim a /\ w_outs w0_main = [MediaLatency 72000] ++ w_outs w0 /\ 1000 * cfg_minimum a <= 72000 <= 1000 * cfg_maximum a.
Proof.
  assert (Eo : w_outs w0_main = [MediaLatency 72000] ++ w_outs w0) by (vm_compute; reflexivity).
  destruct (latency_in_limits (env0 1200) (ECmd LCYCMD_MAIN) w0 w0_main (default zero_adaptive (w_apt w0_main)) 72000 [MediaLatency 72000]
    w0_reach (env0_sane 1200) I ltac:(vm_compute; reflexivity) ltac:(vm_compute; reflexivity)) as [H1 H2].
  split; [exact H1 | split; [exact Eo | apply H2; [discriminate | exact Eo | left; reflexivity]]].
Defined.

(** Five packets, and the main routine over four minutes: the latency falls from
    100 ms to 80 ms and to 70 ms. *)
Definition tr0 : list (lcy_env * lcycmd) :=
  map (fun x => (env0 (fst x), snd x))
    [pk 12000; pk 12014; pk 12029; pk 12043; pk 12058; (12060, LCYCMD_MAIN); (100000, LCYCMD_MAIN); (132500, LCYCMD_MAIN); (200000, LCYCMD_MAIN); (252500, LCYCMD_MAIN)].

Lemma w1_playing : w_playing 120 (2000 / 1000) 2000 w1.
Proof.
  exists (default (new_ctrl 0 (mk_param 0 0 0 false false)) (w_ctrl w1)), (default zero_adaptive (w_apt w1)).
  repeat (split; [vm_compute; first [reflexivity | discriminate | intuition discriminate]|]).
  split; [|intros _ H; vm_compute in H; discriminate H]. split; [|vm_compute; reflexivity]. exists 0, 0, 0. split; [vm_compute; reflexivity|].
  replace (down_timer_num (default zero_adaptive (w_apt w1))) with 0 by (vm_compute; reflexivity). lia.
Qed.

Lemma latency_falls_slowly_witness : exists w', play tr0 w1 0 = Some (w', 2) /\ w_current w1 = 100 /\ w_current w' = 70 /\ 2 * 120 <= end_time 2000 tr0 / 1000 - 2000 / 1000.
Proof.
  exists (fst (default (w1, 0) (play tr0 w1 0))). assert (E : play tr0 w1 0 = Some (fst (default (w1, 0) (play tr0 w1 0)), 2)) by (vm_compute; reflexivity).
  split; [exact E | split; [vm_compute; reflexivity | split; [vm_compute; reflexivity|]]].
  apply (latency_falls_slowly tr0 120 2000 w1 (fst (default (w1, 0) (play tr0 w1 0))) 2); [lia | lia | vm_compute; intuition discriminate | vm_compute; reflexivity | exact w1_playing | exact E].
Defined.

(** 26 packets, 14 ms apart but for one: the last 24 are counted. *)
Definition pkts0 : list (Z * Z) := map (fun i => (5, 24000 * (1200 + 14 * Z.of_nat i + if (3 <? i)%nat then 9 else 0))) (seq 0 26).
Definition s0 : apt_st := mk_st (w_glob w0) (w_last w0) (default (new_ctrl 0 (mk_param 0 0 0 false false)) (w_ctrl w0)) (set_source_info (set_last_pkt_time 24000000 zero_source) zero_adaptive) [].

Lemma packets_in_order_witness :
  exists a' ave diff, audiolcyapt_region_info_analyse 44 false (apt (collect_all (env0 0) pkts0 s0)) = Some (a', 24) /\ length pkts0 = 26%nat /\
    ring_ok [] (source_info a') /\
    result_info a' = updates (recent (spans (env0 0) (last_pkt_time (source_info (apt s0))) pkts0)) (set_pkt_time_diff diff (set_pkt_time_ave ave (result_info (apt s0)))).
Proof.
  destruct (packets_in_order (env0 0) 44 false pkts0 s0) as (a' & E & H1 & _ & ave & diff & H2).
  - discriminate.
  - vm_compute. discriminate.
  - vm_compute. reflexivity.
  - split; [vm_compute; reflexivity | split; [vm_compute; intuition discriminate | split; [vm_compute; reflexivity | split; [vm_compute; reflexivity | intros j Hj; cbn in Hj; lia]]]].
  - split; [vm_compute; reflexivity | left; reflexivity].
  - repeat (constructor; [split; [vm_compute; discriminate | vm_compute; split; reflexivity]|]). constructor.
  - cbn. lia.
  - right. cbn. lia.
  - exists a', ave, diff. split; [exact E | split; [reflexivity | split; [exact H1 | exact H2]]].
Defined.

(** Music in the adaptive mode: a switch gives the normal mode, a restart keeps it. *)
Lemma mode_switch_restart_witness :
  cur_lcy_mode (w_glob (system_switch_low_latency_mode (env0 2000) w1)) = LCYMODE_NORMAL /\
  snd (audiolcy_config_init (env0 2000) cf0 (power_off w1)) = LCYMODE_ADAPTIVE.
Proof.
  destruct (mode_switch_restart cf0 (env0 2000) w1 (or_intror eq_refl) w1_mode_reach) as (H1 & _ & H2).
  split; [rewrite H1; vm_compute; reflexivity | rewrite (H2 eq_refl); vm_compute; reflexivity].
Defined.

Lemma region_locate_percent_witness : audiolcyapt_region_locate 14545 36000 = 7 /\ region_percent 14545 36000 = 7.
Proof. split; [rewrite (region_locate_percent 14545 36000) by lia; reflexivity | reflexivity]. Defined.

(** Four packets, the first without frames. *)
Definition no_frames : audiolcy_adaptive_t := set_source_info (mk_source ([14; 14; 14; 14] ++ replicate 20 0) ([0; 5; 5; 5] ++ replicate 20 0) 1 4 0 4) zero_adaptive.

Lemma analysis_divides_by_zero_witness : audiolcyapt_region_info_analyse 44 false no_frames = None.
Proof. apply (analysis_divides_by_zero 44 false no_frames); [vm_compute; discriminate | reflexivity | reflexivity | split; [left; vm_compute; discriminate | right; reflexivity]]. Defined.
