(* ===== verification/Charger.v ===== *)
(** * Battery charger (zephyr/drivers/power_supply/battery_internal/cuckoo)

    Every 50 ms a work samples the battery's voltage and the charging current,
    debounces the plug (DC5V) and runs the state machine of the battery: low,
    precharge, normal, charge, full.  bat_charge_driver.c has the samples, the
    voltage and the percentage, bat_charge_ctrl.c the charger's register,
    bat_charge_status.c the state machine.

    The configuration is the one of the earphone: no charger box, no
    thermistor, no fast charge.  The readings of one call are its [tick_in];
    the clock is read once per call.  The calls of the callback are [events]. *)

From stdpp Require Import base list numbers option strings.
From S2P Require Import Prelude.
Open Scope Z_scope.

(** ** Constants *)

Definition CHG_CTL_SVCC_CV_3V3 : Z := 19.
Definition CHG_CTL_SVCC_CC_OFFSET_SHIFT : Z := 11.
Definition CHG_CTL_SVCC_CC_OFFSET_MASK : Z := Z.shiftl 0x1F 11.
Definition CHG_CTL_SVCC_CHG_EN : Z := 10.
Definition CHG_CTL_SVCC_CV_OFFSET_SHIFT : Z := 5.
Definition CHG_CTL_SVCC_CV_OFFSET_MASK : Z := Z.shiftl 0x1F 5.
Definition CHG_CTL_SVCC_CHG_CV_AD : Z := 4.
Definition CHG_CTL_SVCC_CHG_CURRENT_SHIFT : Z := 0.
Definition CHG_CTL_SVCC_CHG_CURRENT_MASK : Z := Z.shiftl 0xF 0.

Definition BAT_CHARGE_DRIVER_TIMER_MS : Z := 50.
Definition BAT_VOLT_CHECK_SAMPLE_SEC : Z := 3.
Definition BAT_ADC_SAMPLE_INTERVAL_MS : Z := 100.
Definition BAT_ADC_SAMPLE_BUF_SIZE : Z := BAT_VOLT_CHECK_SAMPLE_SEC * 1000 / BAT_ADC_SAMPLE_INTERVAL_MS.
Definition BAT_CHARGEI_SAMPLE_INTERVAL_MS : Z := 1000.
Definition BAT_CHARGEI_SAMPLE_BUF_SIZE : Z := 10 * 1000 / BAT_CHARGEI_SAMPLE_INTERVAL_MS.
Definition DC5V_DEBOUNCE_BUF_MAX : Z := 20.
Definition DC5V_DEBOUNCE_MAX_TIME_MS : Z := DC5V_DEBOUNCE_BUF_MAX * BAT_CHARGE_DRIVER_TIMER_MS.
Definition DC5V_DEBOUNCE_TIME_DEFAULT_MS : Z := 300.
Definition BAT_VOLTAGE_RESERVE : Z := 0x1fff.
Definition BAT_CAP_RESERVE : Z := 101.
Definition BAT_ERR_STOP_RESTART_TIME_MS : Z := 10 * 60 * 1000.
Definition BAT_CHARGER_DEBUG_INFO_OUT_MS : Z := 10 * 1000.
Definition BAT_INIT_CHARGE_INTERVAL_MS : Z := 1000.
Definition BAT_REAL_VOLTAGE_SMOOTH_IN_CHARGE : Z := 2.
Definition BAT_REAL_VOLTAGE_SMOOTH_IN_DISCHARGE : Z := 3.
Definition BAT_INIT_VOLMV_DIFF_MAX : Z := 400.
Definition BAT_VOLTAGE_SAMPLE_VALID_MIN : Z := 2200.
Definition BAT_VOLTAGE_SAMPLE_VALID_MAX : Z := 4800.
Definition BAT_PRECHARGE_CHECK_PERIOD_SEC : Z := 300.
Definition BAT_NOT_EXIST_CHECK_TIME_SEC : Z := 1800.
Definition POWERON_MIN_VOL_WITHOUT_DC5V : Z := 3000.

Definition CFG_MAX_BATTERY_LEVEL : Z := 10.
Definition YES : Z := 1.
Definition NO : Z := 0.
Definition CHARGE_CURRENT_80_MA : Z := 0x05.
Definition CHARGE_VOLTAGE_4_20_V : Z := 0x5.
Definition CHARGE_VOLTAGE_4_35_V : Z := 0x11.
Definition CHARGE_STOP_BY_VOLTAGE : Z := 0.
Definition CHARGE_STOP_BY_CURRENT : Z := 1.
Definition CHARGE_STOP_BY_VOLTAGE_AND_CURRENT : Z := 2.
(** CFG_TYPE_SYS_SUPPORT_FEATURES: the bit of SYS_FORCE_CHARGE_WHEN_DC5V_IN. *)
Definition SYS_FORCE_CHARGE_WHEN_DC5V_IN : Z := Z.shiftl 1 4.

(** ** Data *)

Inductive dc5v_state_t : Type := DC5V_STATE_INVALID | DC5V_STATE_OUT | DC5V_STATE_IN | DC5V_STATE_PENDING | DC5V_STATE_STANDBY.

#[export] Instance dc5v_state_t_eq_dec : EqDecision dc5v_state_t.
Proof. solve_decision. Defined.

(** The numbers of the enumeration. *)
Definition dc5v_state_num (s : dc5v_state_t) : Z :=
  match s with
  | DC5V_STATE_INVALID => 0xff | DC5V_STATE_OUT => 0 | DC5V_STATE_IN => 1 | DC5V_STATE_PENDING => 2 | DC5V_STATE_STANDBY => 3
  end.

Inductive BAT_CHARGE_STATE : Type :=
| BAT_CHG_STATE_INIT
| BAT_CHG_STATE_LOW
| BAT_CHG_STATE_PRECHARGE
| BAT_CHG_STATE_NORMAL
| BAT_CHG_STATE_CHARGE
| BAT_CHG_STATE_FULL.

#[export] Instance BAT_CHARGE_STATE_eq_dec : EqDecision BAT_CHARGE_STATE.
Proof. solve_decision. Defined.

(** bat_charge_event_t with its parameter. *)
Inductive event : Type :=
| BAT_CHG_EVENT_DC5V_IN
| BAT_CHG_EVENT_DC5V_OUT
| BAT_CHG_EVENT_DC5V_STANDBY
| BAT_CHG_EVENT_CHARGE_START
| BAT_CHG_EVENT_CHARGE_STOP
| BAT_CHG_EVENT_CHARGE_FULL
| BAT_CHG_EVENT_VOLTAGE_CHANGE (voltage_val : Z)
| BAT_CHG_EVENT_CAP_CHANGE (cap : Z)
| BAT_CHG_EVENT_BATTERY_NORMAL
| BAT_CHG_EVENT_BATTERY_MEDIUM
| BAT_CHG_EVENT_BATTERY_LOW
| BAT_CHG_EVENT_BATTERY_LOW_EX
| BAT_CHG_EVENT_BATTERY_TOO_LOW
| BAT_CHG_EVENT_BATTERY_FULL.

#[export] Instance event_eq_dec : EqDecision event.
Proof. solve_decision. Defined.

(** CFG_Struct_Battery_Charge, the items of this configuration. *)
Record CFG_Struct_Battery_Charge : Type := mk_cfg_charge {
  Charge_Current : Z;
  Charge_Voltage : Z;
  Charge_Stop_Mode : Z;
  Charge_Stop_Voltage : Z;
  Charge_Stop_Current : Z;
  Init_Charge_Enable : Z;
  Init_Charge_Current_1 : Z;
  Init_Charge_Vol_1 : Z;
  Init_Charge_Current_2 : Z;
  Init_Charge_Vol_2 : Z;
  Init_Charge_Current_3 : Z;
  Init_Charge_Vol_3 : Z;
  Precharge_Enable : Z;
  Precharge_Stop_Voltage : Z;
  Precharge_Current : Z;
  Precharge_Current_Min_Limit : Z;
  Enable_Battery_Recharge : Z;
  Recharge_Threshold_Normal_Temperature : Z;
  Bat_OVP_Enable : Z;
  OVP_Voltage_Normal_Temperature : Z;
  Charge_Total_Time_Limit : Z;
  Battery_Check_Period_Sec : Z;
  Charge_Check_Period_Sec : Z;
  Charge_Full_Continue_Sec : Z;
  DC5V_Detect_Debounce_Time_Ms : Z
}.

Record CFG_Struct_Battery_Low : Type := mk_cfg_low {
  Battery_Too_Low_Voltage : Z;
  Battery_Low_Voltage : Z;
  Battery_Low_Voltage_Ex : Z
}.

Record bat_charge_configs_t : Type := mk_configs {
  cfg_charge : CFG_Struct_Battery_Charge;
  cfg_bat_level : list Z;
  cfg_bat_low : CFG_Struct_Battery_Low;
  cfg_features : Z
}.

Coercion cfg_charge : bat_charge_configs_t >-> CFG_Struct_Battery_Charge.
Coercion cfg_bat_low : bat_charge_configs_t >-> CFG_Struct_Battery_Low.

Definition set_cfg_features (v : Z) (g : bat_charge_configs_t) : bat_charge_configs_t :=
  mk_configs (cfg_charge g) (cfg_bat_level g) (cfg_bat_low g) v.

(** The two items that bat_charge_init corrects. *)
Definition set_stop_voltage_debounce (sv db : Z) (g : bat_charge_configs_t) : bat_charge_configs_t :=
  mk_configs (mk_cfg_charge (Charge_Current g) (Charge_Voltage g) (Charge_Stop_Mode g) sv (Charge_Stop_Current g)
    (Init_Charge_Enable g) (Init_Charge_Current_1 g) (Init_Charge_Vol_1 g) (Init_Charge_Current_2 g) (Init_Charge_Vol_2 g)
    (Init_Charge_Current_3 g) (Init_Charge_Vol_3 g) (Precharge_Enable g) (Precharge_Stop_Voltage g) (Precharge_Current g)
    (Precharge_Current_Min_Limit g) (Enable_Battery_Recharge g) (Recharge_Threshold_Normal_Temperature g) (Bat_OVP_Enable g)
    (OVP_Voltage_Normal_Temperature g) (Charge_Total_Time_Limit g) (Battery_Check_Period_Sec g) (Charge_Check_Period_Sec g)
    (Charge_Full_Continue_Sec g) db) (cfg_bat_level g) (cfg_bat_low g) (cfg_features g).

Record bat_charge_current_percent_buf_t : Type := mk_percent_buf { pb_buf : list Z; pb_count : Z; pb_index : Z; pb_percent : Z }.
Record bat_charge_cv_state_buf_t : Type := mk_cv_buf { cv_buf : list Z; cv_count : Z; cv_index : Z }.
Record bat_charge_adjust_cv_offset_t : Type := mk_adjust_cv { ao_is_valid : bool; cv_offset : Z; adjust_end : bool; last_volt : Z }.
Record bat_charge_adjust_current_t : Type := mk_adjust_current { ac_is_valid : bool; charge_current : Z; stop_current_percent : Z; stop_current_ma : Z }.

(** The samples of the ADCs. *)
Record samples_t : Type := mk_samples {
  adc_dev : bool;
  bat_adc_sample_buf : list Z;
  charge_current_ma_buf : list Z;
  bat_adc_sample_timer_count : Z;
  bat_chargei_sample_timer_count : Z;
  bat_adc_sample_index : Z;
  bat_chargei_sample_index : Z;
  adc_bat_offset : Z
}.

(** The plug: [dc5v_last_state] is dc5v_check_status.last_state and [charger_enable_timer] whether its work is scheduled. *)
Record dc5v_t : Type := mk_dc5v {
  dc5v_debounce_buf : list dc5v_state_t;
  dc5v_debounce_state : dc5v_state_t;
  bat_full_dc5v_last_state : dc5v_state_t;
  dc5v_last_state : dc5v_state_t;
  last_dc5v_mv : Z;
  charger_enable_timer : bool
}.

(** The charger: the register CHG_CTL_SVCC and its copy, and what is to be written to it. *)
Record control_t : Type := mk_control {
  bak_PMU_CHG_CTL : Z;
  CHG_CTL_SVCC : Z;
  charge_ctrl_enabled : bool;
  charge_enable_pending : bool;
  charge_current_sel : Z;
  current_cc_sel : Z;
  precharge_current_sel : Z;
  limit_current_percent : Z;
  limit_cv_level : Z;
  charge_cv_offset : Z
}.

(** The constant voltage stages. *)
Record cv_data_t : Type := mk_cv_data {
  charge_current_percent_buf : bat_charge_current_percent_buf_t;
  charge_cv_state_buf : bat_charge_cv_state_buf_t;
  adjust_cv_offset : bat_charge_adjust_cv_offset_t;
  adjust_current : bat_charge_adjust_current_t;
  cv_stage_1_begin_time : Z;
  cv_stage_2_begin_time : Z
}.

(** The voltage of the battery and what was reported of it. *)
Record voltage_t : Type := mk_voltage {
  bat_real_volt : Z;
  bat_real_charge_current : Z;
  last_saved_bat_volt : Z;
  last_time_check_bat_volt : Z;
  bat_volt_low : bool;
  bat_volt_low_ex : bool;
  bat_volt_too_low : bool;
  last_cap_report : Z;
  last_cap_detect : Z;
  last_voltage_report : Z
}.

(** The state machine and its timers. *)
Record status_t : Type := mk_status {
  bat_charge_state : BAT_CHARGE_STATE;
  charge_state_started : bool;
  need_check_bat_real_volt : bool;
  charge_near_full : bool;
  bat_exist_state : bool;
  bat_error_state : bool;
  state_timer_count : Z;
  precharge_time_sec : Z;
  bat_volt_check_wait_count : Z;
  charge_begin_time : Z;
  err_stop_begin_time : Z;
  err_to_stop_charge : bool;
  err_status_dc5v_change_flag : bool;
  restart_from_err_flag : bool
}.

(** The driver: [timer] is whether the work of bat_charge_timer_handler is scheduled. *)
Record driver_t : Type := mk_driver {
  inited : bool;
  enabled : bool;
  callback : bool;
  timer : bool;
  init_charge_stage_last : Z;
  init_charge_stage : Z;
  init_charge_current_ma_1 : Z;
  init_charge_current_ma_2 : Z
}.

(** The context: the fields of bat_charge_context_t by their use, the configuration, and the calls of the callback, the latest first. *)
Record bat_charge_context_t : Type := mk_context {
  smp : samples_t;
  dcv : dc5v_t;
  ctl : control_t;
  cvd : cv_data_t;
  vol : voltage_t;
  sta : status_t;
  drv : driver_t;
  configs : bat_charge_configs_t;
  events : list event
}.

Coercion smp : bat_charge_context_t >-> samples_t.
Coercion dcv : bat_charge_context_t >-> dc5v_t.
Coercion ctl : bat_charge_context_t >-> control_t.
Coercion cvd : bat_charge_context_t >-> cv_data_t.
Coercion vol : bat_charge_context_t >-> voltage_t.
Coercion sta : bat_charge_context_t >-> status_t.
Coercion drv : bat_charge_context_t >-> driver_t.

Definition set_smp (v : samples_t) (c : bat_charge_context_t) : bat_charge_context_t :=
  mk_context v (dcv c) (ctl c) (cvd c) (vol c) (sta c) (drv c) (configs c) (events c).
Definition set_dcv (v : dc5v_t) (c : bat_charge_context_t) : bat_charge_context_t :=
  mk_context (smp c) v (ctl c) (cvd c) (vol c) (sta c) (drv c) (configs c) (events c).
Definition set_ctl (v : control_t) (c : bat_charge_context_t) : bat_charge_context_t :=
  mk_context (smp c) (dcv c) v (cvd c) (vol c) (sta c) (drv c) (configs c) (events c).
Definition set_cvd (v : cv_data_t) (c : bat_charge_context_t) : bat_charge_context_t :=
  mk_context (smp c) (dcv c) (ctl c) v (vol c) (sta c) (drv c) (configs c) (events c).
Definition set_vol (v : voltage_t) (c : bat_charge_context_t) : bat_charge_context_t :=
  mk_context (smp c) (dcv c) (ctl c) (cvd c) v (sta c) (drv c) (configs c) (events c).
Definition set_sta (v : status_t) (c : bat_charge_context_t) : bat_charge_context_t :=
  mk_context (smp c) (dcv c) (ctl c) (cvd c) (vol c) v (drv c) (configs c) (events c).
Definition set_drv (v : driver_t) (c : bat_charge_context_t) : bat_charge_context_t :=
  mk_context (smp c) (dcv c) (ctl c) (cvd c) (vol c) (sta c) v (configs c) (events c).
Definition set_configs (v : bat_charge_configs_t) (c : bat_charge_context_t) : bat_charge_context_t :=
  mk_context (smp c) (dcv c) (ctl c) (cvd c) (vol c) (sta c) (drv c) v (events c).
Definition set_events (v : list event) (c : bat_charge_context_t) : bat_charge_context_t :=
  mk_context (smp c) (dcv c) (ctl c) (cvd c) (vol c) (sta c) (drv c) (configs c) v.

Definition set_adc_dev (v : bool) (c : bat_charge_context_t) : bat_charge_context_t :=
  set_smp (mk_samples v (bat_adc_sample_buf c) (charge_current_ma_buf c) (bat_adc_sample_timer_count c) (bat_chargei_sample_timer_count c)
    (bat_adc_sample_index c) (bat_chargei_sample_index c) (adc_bat_offset c)) c.
Definition set_bat_adc_sample_buf (v : list Z) (c : bat_charge_context_t) : bat_charge_context_t :=
  set_smp (mk_samples (adc_dev c) v (charge_current_ma_buf c) (bat_adc_sample_timer_count c) (bat_chargei_sample_timer_count c) (bat_adc_sample_index
    c) (bat_chargei_sample_index c) (adc_bat_offset c)) c.
Definition set_charge_current_ma_buf (v : list Z) (c : bat_charge_context_t) : bat_charge_context_t :=
  set_smp (mk_samples (adc_dev c) (bat_adc_sample_buf c) v (bat_adc_sample_timer_count c) (bat_chargei_sample_timer_count c) (bat_adc_sample_index c)
    (bat_chargei_sample_index c) (adc_bat_offset c)) c.
Definition set_bat_adc_sample_timer_count (v : Z) (c : bat_charge_context_t) : bat_charge_context_t :=
  set_smp (mk_samples (adc_dev c) (bat_adc_sample_buf c) (charge_current_ma_buf c) v (bat_chargei_sample_timer_count c) (bat_adc_sample_index c)
    (bat_chargei_sample_index c) (adc_bat_offset c)) c.
Definition set_bat_chargei_sample_timer_count (v : Z) (c : bat_charge_context_t) : bat_charge_context_t :=
  set_smp (mk_samples (adc_dev c) (bat_adc_sample_buf c) (charge_current_ma_buf c) (bat_adc_sample_timer_count c) v (bat_adc_sample_index c)
    (bat_chargei_sample_index c) (adc_bat_offset c)) c.
Definition set_bat_adc_sample_index (v : Z) (c : bat_charge_context_t) : bat_charge_context_t :=
  set_smp (mk_samples (adc_dev c) (bat_adc_sample_buf c) (charge_current_ma_buf c) (bat_adc_sample_timer_count c) (bat_chargei_sample_timer_count c) v
    (bat_chargei_sample_index c) (adc_bat_offset c)) c.
Definition set_bat_chargei_sample_index (v : Z) (c : bat_charge_context_t) : bat_charge_context_t :=
  set_smp (mk_samples (adc_dev c) (bat_adc_sample_buf c) (charge_current_ma_buf c) (bat_adc_sample_timer_count c) (bat_chargei_sample_timer_count c)
    (bat_adc_sample_index c) v (adc_bat_offset c)) c.
Definition set_adc_bat_offset (v : Z) (c : bat_charge_context_t) : bat_charge_context_t :=
  set_smp (mk_samples (adc_dev c) (bat_adc_sample_buf c) (charge_current_ma_buf c) (bat_adc_sample_timer_count c) (bat_chargei_sample_timer_count c)
    (bat_adc_sample_index c) (bat_chargei_sample_index c) v) c.

Definition set_dc5v_debounce_buf (v : list dc5v_state_t) (c : bat_charge_context_t) : bat_charge_context_t :=
  set_dcv (mk_dc5v v (dc5v_debounce_state c) (bat_full_dc5v_last_state c) (dc5v_last_state c) (last_dc5v_mv c) (charger_enable_timer c)) c.
Definition set_dc5v_debounce_state (v : dc5v_state_t) (c : bat_charge_context_t) : bat_charge_context_t :=
  set_dcv (mk_dc5v (dc5v_debounce_buf c) v (bat_full_dc5v_last_state c) (dc5v_last_state c) (last_dc5v_mv c) (charger_enable_timer c)) c.
Definition set_bat_full_dc5v_last_state (v : dc5v_state_t) (c : bat_charge_context_t) : bat_charge_context_t :=
  set_dcv (mk_dc5v (dc5v_debounce_buf c) (dc5v_debounce_state c) v (dc5v_last_state c) (last_dc5v_mv c) (charger_enable_timer c)) c.
Definition set_dc5v_last_state (v : dc5v_state_t) (c : bat_charge_context_t) : bat_charge_context_t :=
  set_dcv (mk_dc5v (dc5v_debounce_buf c) (dc5v_debounce_state c) (bat_full_dc5v_last_state c) v (last_dc5v_mv c) (charger_enable_timer c)) c.
Definition set_last_dc5v_mv (v : Z) (c : bat_charge_context_t) : bat_charge_context_t :=
  set_dcv (mk_dc5v (dc5v_debounce_buf c) (dc5v_debounce_state c) (bat_full_dc5v_last_state c) (dc5v_last_state c) v (charger_enable_timer c)) c.
Definition set_charger_enable_timer (v : bool) (c : bat_charge_context_t) : bat_charge_context_t :=
  set_dcv (mk_dc5v (dc5v_debounce_buf c) (dc5v_debounce_state c) (bat_full_dc5v_last_state c) (dc5v_last_state c) (last_dc5v_mv c) v) c.

Definition set_bak_PMU_CHG_CTL (v : Z) (c : bat_charge_context_t) : bat_charge_context_t :=
  set_ctl (mk_control v (CHG_CTL_SVCC c) (charge_ctrl_enabled c) (charge_enable_pending c) (charge_current_sel c) (current_cc_sel c)
    (precharge_current_sel c) (limit_current_percent c) (limit_cv_level c) (charge_cv_offset c)) c.
Definition set_CHG_CTL_SVCC (v : Z) (c : bat_charge_context_t) : bat_charge_context_t :=
  set_ctl (mk_control (bak_PMU_CHG_CTL c) v (charge_ctrl_enabled c) (charge_enable_pending c) (charge_current_sel c) (current_cc_sel c)
    (precharge_current_sel c) (limit_current_percent c) (limit_cv_level c) (charge_cv_offset c)) c.
Definition set_charge_ctrl_enabled (v : bool) (c : bat_charge_context_t) : bat_charge_context_t :=
  set_ctl (mk_control (bak_PMU_CHG_CTL c) (CHG_CTL_SVCC c) v (charge_enable_pending c) (charge_current_sel c) (current_cc_sel c)
    (precharge_current_sel c) (limit_current_percent c) (limit_cv_level c) (charge_cv_offset c)) c.
Definition set_charge_enable_pending (v : bool) (c : bat_charge_context_t) : bat_charge_context_t :=
  set_ctl (mk_control (bak_PMU_CHG_CTL c) (CHG_CTL_SVCC c) (charge_ctrl_enabled c) v (charge_current_sel c) (current_cc_sel c) (precharge_current_sel
    c) (limit_current_percent c) (limit_cv_level c) (charge_cv_offset c)) c.
Definition set_charge_current_sel (v : Z) (c : bat_charge_context_t) : bat_charge_context_t :=
  set_ctl (mk_control (bak_PMU_CHG_CTL c) (CHG_CTL_SVCC c) (charge_ctrl_enabled c) (charge_enable_pending c) v (current_cc_sel c)
    (precharge_current_sel c) (limit_current_percent c) (limit_cv_level c) (charge_cv_offset c)) c.
Definition set_current_cc_sel (v : Z) (c : bat_charge_context_t) : bat_charge_context_t :=
  set_ctl (mk_control (bak_PMU_CHG_CTL c) (CHG_CTL_SVCC c) (charge_ctrl_enabled c) (charge_enable_pending c) (charge_current_sel c) v
    (precharge_current_sel c) (limit_current_percent c) (limit_cv_level c) (charge_cv_offset c)) c.
Definition set_precharge_current_sel (v : Z) (c : bat_charge_context_t) : bat_charge_context_t :=
  set_ctl (mk_control (bak_PMU_CHG_CTL c) (CHG_CTL_SVCC c) (charge_ctrl_enabled c) (charge_enable_pending c) (charge_current_sel c) (current_cc_sel c)
    v (limit_current_percent c) (limit_cv_level c) (charge_cv_offset c)) c.
Definition set_limit_current_percent (v : Z) (c : bat_charge_context_t) : bat_charge_context_t :=
  set_ctl (mk_control (bak_PMU_CHG_CTL c) (CHG_CTL_SVCC c) (charge_ctrl_enabled c) (charge_enable_pending c) (charge_current_sel c) (current_cc_sel c)
    (precharge_current_sel c) v (limit_cv_level c) (charge_cv_offset c)) c.
Definition set_limit_cv_level (v : Z) (c : bat_charge_context_t) : bat_charge_context_t :=
  set_ctl (mk_control (bak_PMU_CHG_CTL c) (CHG_CTL_SVCC c) (charge_ctrl_enabled c) (charge_enable_pending c) (charge_current_sel c) (current_cc_sel c)
    (precharge_current_sel c) (limit_current_percent c) v (charge_cv_offset c)) c.
Definition set_charge_cv_offset (v : Z) (c : bat_charge_context_t) : bat_charge_context_t :=
  set_ctl (mk_control (bak_PMU_CHG_CTL c) (CHG_CTL_SVCC c) (charge_ctrl_enabled c) (charge_enable_pending c) (charge_current_sel c) (current_cc_sel c)
    (precharge_current_sel c) (limit_current_percent c) (limit_cv_level c) v) c.

Definition set_charge_current_percent_buf (v : bat_charge_current_percent_buf_t) (c : bat_charge_context_t) : bat_charge_context_t :=
  set_cvd (mk_cv_data v (charge_cv_state_buf c) (adjust_cv_offset c) (adjust_current c) (cv_stage_1_begin_time c) (cv_stage_2_begin_time c)) c.
Definition set_charge_cv_state_buf (v : bat_charge_cv_state_buf_t) (c : bat_charge_context_t) : bat_charge_context_t :=
  set_cvd (mk_cv_data (charge_current_percent_buf c) v (adjust_cv_offset c) (adjust_current c) (cv_stage_1_begin_time c) (cv_stage_2_begin_time c)) c.
Definition set_adjust_cv_offset (v : bat_charge_adjust_cv_offset_t) (c : bat_charge_context_t) : bat_charge_context_t :=
  set_cvd (mk_cv_data (charge_current_percent_buf c) (charge_cv_state_buf c) v (adjust_current c) (cv_stage_1_begin_time c) (cv_stage_2_begin_time c))
    c.
Definition set_adjust_current (v : bat_charge_adjust_current_t) (c : bat_charge_context_t) : bat_charge_context_t :=
  set_cvd (mk_cv_data (charge_current_percent_buf c) (charge_cv_state_buf c) (adjust_cv_offset c) v (cv_stage_1_begin_time c) (cv_stage_2_begin_time
    c)) c.
Definition set_cv_stage_1_begin_time (v : Z) (c : bat_charge_context_t) : bat_charge_context_t :=
  set_cvd (mk_cv_data (charge_current_percent_buf c) (charge_cv_state_buf c) (adjust_cv_offset c) (adjust_current c) v (cv_stage_2_begin_time c)) c.
Definition set_cv_stage_2_begin_time (v : Z) (c : bat_charge_context_t) : bat_charge_context_t :=
  set_cvd (mk_cv_data (charge_current_percent_buf c) (charge_cv_state_buf c) (adjust_cv_offset c) (adjust_current c) (cv_stage_1_begin_time c) v) c.

Definition set_bat_real_volt (v : Z) (c : bat_charge_context_t) : bat_charge_context_t :=
  set_vol (mk_voltage v (bat_real_charge_current c) (last_saved_bat_volt c) (last_time_check_bat_volt c) (bat_volt_low c) (bat_volt_low_ex c)
    (bat_volt_too_low c) (last_cap_report c) (last_cap_detect c) (last_voltage_report c)) c.
Definition set_bat_real_charge_current (v : Z) (c : bat_charge_context_t) : bat_charge_context_t :=
  set_vol (mk_voltage (bat_real_volt c) v (last_saved_bat_volt c) (last_time_check_bat_volt c) (bat_volt_low c) (bat_volt_low_ex c) (bat_volt_too_low
    c) (last_cap_report c) (last_cap_detect c) (last_voltage_report c)) c.
Definition set_last_saved_bat_volt (v : Z) (c : bat_charge_context_t) : bat_charge_context_t :=
  set_vol (mk_voltage (bat_real_volt c) (bat_real_charge_current c) v (last_time_check_bat_volt c) (bat_volt_low c) (bat_volt_low_ex c)
    (bat_volt_too_low c) (last_cap_report c) (last_cap_detect c) (last_voltage_report c)) c.
Definition set_last_time_check_bat_volt (v : Z) (c : bat_charge_context_t) : bat_charge_context_t :=
  set_vol (mk_voltage (bat_real_volt c) (bat_real_charge_current c) (last_saved_bat_volt c) v (bat_volt_low c) (bat_volt_low_ex c) (bat_volt_too_low
    c) (last_cap_report c) (last_cap_detect c) (last_voltage_report c)) c.
Definition set_bat_volt_low (v : bool) (c : bat_charge_context_t) : bat_charge_context_t :=
  set_vol (mk_voltage (bat_real_volt c) (bat_real_charge_current c) (last_saved_bat_volt c) (last_time_check_bat_volt c) v (bat_volt_low_ex c)
    (bat_volt_too_low c) (last_cap_report c) (last_cap_detect c) (last_voltage_report c)) c.
Definition set_bat_volt_low_ex (v : bool) (c : bat_charge_context_t) : bat_charge_context_t :=
  set_vol (mk_voltage (bat_real_volt c) (bat_real_charge_current c) (last_saved_bat_volt c) (last_time_check_bat_volt c) (bat_volt_low c) v
    (bat_volt_too_low c) (last_cap_report c) (last_cap_detect c) (last_voltage_report c)) c.
Definition set_bat_volt_too_low (v : bool) (c : bat_charge_context_t) : bat_charge_context_t :=
  set_vol (mk_voltage (bat_real_volt c) (bat_real_charge_current c) (last_saved_bat_volt c) (last_time_check_bat_volt c) (bat_volt_low c)
    (bat_volt_low_ex c) v (last_cap_report c) (last_cap_detect c) (last_voltage_report c)) c.
Definition set_last_cap_report (v : Z) (c : bat_charge_context_t) : bat_charge_context_t :=
  set_vol (mk_voltage (bat_real_volt c) (bat_real_charge_current c) (last_saved_bat_volt c) (last_time_check_bat_volt c) (bat_volt_low c)
    (bat_volt_low_ex c) (bat_volt_too_low c) v (last_cap_detect c) (last_voltage_report c)) c.
Definition set_last_cap_detect (v : Z) (c : bat_charge_context_t) : bat_charge_context_t :=
  set_vol (mk_voltage (bat_real_volt c) (bat_real_charge_current c) (last_saved_bat_volt c) (last_time_check_bat_volt c) (bat_volt_low c)
    (bat_volt_low_ex c) (bat_volt_too_low c) (last_cap_report c) v (last_voltage_report c)) c.
Definition set_last_voltage_report (v : Z) (c : bat_charge_context_t) : bat_charge_context_t :=
  set_vol (mk_voltage (bat_real_volt c) (bat_real_charge_current c) (last_saved_bat_volt c) (last_time_check_bat_volt c) (bat_volt_low c)
    (bat_volt_low_ex c) (bat_volt_too_low c) (last_cap_report c) (last_cap_detect c) v) c.

Definition set_bat_charge_state (v : BAT_CHARGE_STATE) (c : bat_charge_context_t) : bat_charge_context_t :=
  set_sta (mk_status v (charge_state_started c) (need_check_bat_real_volt c) (charge_near_full c) (bat_exist_state c) (bat_error_state c)
    (state_timer_count c) (precharge_time_sec c) (bat_volt_check_wait_count c) (charge_begin_time c) (err_stop_begin_time c) (err_to_stop_charge c)
    (err_status_dc5v_change_flag c) (restart_from_err_flag c)) c.
Definition set_charge_state_started (v : bool) (c : bat_charge_context_t) : bat_charge_context_t :=
  set_sta (mk_status (bat_charge_state c) v (need_check_bat_real_volt c) (charge_near_full c) (bat_exist_state c) (bat_error_state c)
    (state_timer_count c) (precharge_time_sec c) (bat_volt_check_wait_count c) (charge_begin_time c) (err_stop_begin_time c) (err_to_stop_charge c)
    (err_status_dc5v_change_flag c) (restart_from_err_flag c)) c.
Definition set_need_check_bat_real_volt (v : bool) (c : bat_charge_context_t) : bat_charge_context_t :=
  set_sta (mk_status (bat_charge_state c) (charge_state_started c) v (charge_near_full c) (bat_exist_state c) (bat_error_state c) (state_timer_count
    c) (precharge_time_sec c) (bat_volt_check_wait_count c) (charge_begin_time c) (err_stop_begin_time c) (err_to_stop_charge c)
    (err_status_dc5v_change_flag c) (restart_from_err_flag c)) c.
Definition set_charge_near_full (v : bool) (c : bat_charge_context_t) : bat_charge_context_t :=
  set_sta (mk_status (bat_charge_state c) (charge_state_started c) (need_check_bat_real_volt c) v (bat_exist_state c) (bat_error_state c)
    (state_timer_count c) (precharge_time_sec c) (bat_volt_check_wait_count c) (charge_begin_time c) (err_stop_begin_time c) (err_to_stop_charge c)
    (err_status_dc5v_change_flag c) (restart_from_err_flag c)) c.
Definition set_bat_exist_state (v : bool) (c : bat_charge_context_t) : bat_charge_context_t :=
  set_sta (mk_status (bat_charge_state c) (charge_state_started c) (need_check_bat_real_volt c) (charge_near_full c) v (bat_error_state c)
    (state_timer_count c) (precharge_time_sec c) (bat_volt_check_wait_count c) (charge_begin_time c) (err_stop_begin_time c) (err_to_stop_charge c)
    (err_status_dc5v_change_flag c) (restart_from_err_flag c)) c.
Definition set_bat_error_state (v : bool) (c : bat_charge_context_t) : bat_charge_context_t :=
  set_sta (mk_status (bat_charge_state c) (charge_state_started c) (need_check_bat_real_volt c) (charge_near_full c) (bat_exist_state c) v
    (state_timer_count c) (precharge_time_sec c) (bat_volt_check_wait_count c) (charge_begin_time c) (err_stop_begin_time c) (err_to_stop_charge c)
    (err_status_dc5v_change_flag c) (restart_from_err_flag c)) c.
Definition set_state_timer_count (v : Z) (c : bat_charge_context_t) : bat_charge_context_t :=
  set_sta (mk_status (bat_charge_state c) (charge_state_started c) (need_check_bat_real_volt c) (charge_near_full c) (bat_exist_state c)
    (bat_error_state c) v (precharge_time_sec c) (bat_volt_check_wait_count c) (charge_begin_time c) (err_stop_begin_time c) (err_to_stop_charge c)
    (err_status_dc5v_change_flag c) (restart_from_err_flag c)) c.
Definition set_precharge_time_sec (v : Z) (c : bat_charge_context_t) : bat_charge_context_t :=
  set_sta (mk_status (bat_charge_state c) (charge_state_started c) (need_check_bat_real_volt c) (charge_near_full c) (bat_exist_state c)
    (bat_error_state c) (state_timer_count c) v (bat_volt_check_wait_count c) (charge_begin_time c) (err_stop_begin_time c) (err_to_stop_charge c)
    (err_status_dc5v_change_flag c) (restart_from_err_flag c)) c.
Definition set_bat_volt_check_wait_count (v : Z) (c : bat_charge_context_t) : bat_charge_context_t :=
  set_sta (mk_status (bat_charge_state c) (charge_state_started c) (need_check_bat_real_volt c) (charge_near_full c) (bat_exist_state c)
    (bat_error_state c) (state_timer_count c) (precharge_time_sec c) v (charge_begin_time c) (err_stop_begin_time c) (err_to_stop_charge c)
    (err_status_dc5v_change_flag c) (restart_from_err_flag c)) c.
Definition set_charge_begin_time (v : Z) (c : bat_charge_context_t) : bat_charge_context_t :=
  set_sta (mk_status (bat_charge_state c) (charge_state_started c) (need_check_bat_real_volt c) (charge_near_full c) (bat_exist_state c)
    (bat_error_state c) (state_timer_count c) (precharge_time_sec c) (bat_volt_check_wait_count c) v (err_stop_begin_time c) (err_to_stop_charge c)
    (err_status_dc5v_change_flag c) (restart_from_err_flag c)) c.
Definition set_err_stop_begin_time (v : Z) (c : bat_charge_context_t) : bat_charge_context_t :=
  set_sta (mk_status (bat_charge_state c) (charge_state_started c) (need_check_bat_real_volt c) (charge_near_full c) (bat_exist_state c)
    (bat_error_state c) (state_timer_count c) (precharge_time_sec c) (bat_volt_check_wait_count c) (charge_begin_time c) v (err_to_stop_charge c)
    (err_status_dc5v_change_flag c) (restart_from_err_flag c)) c.
Definition set_err_to_stop_charge (v : bool) (c : bat_charge_context_t) : bat_charge_context_t :=
  set_sta (mk_status (bat_charge_state c) (charge_state_started c) (need_check_bat_real_volt c) (charge_near_full c) (bat_exist_state c)
    (bat_error_state c) (state_timer_count c) (precharge_time_sec c) (bat_volt_check_wait_count c) (charge_begin_time c) (err_stop_begin_time c) v
    (err_status_dc5v_change_flag c) (restart_from_err_flag c)) c.
Definition set_err_status_dc5v_change_flag (v : bool) (c : bat_charge_context_t) : bat_charge_context_t :=
  set_sta (mk_status (bat_charge_state c) (charge_state_started c) (need_check_bat_real_volt c) (charge_near_full c) (bat_exist_state c)
    (bat_error_state c) (state_timer_count c) (precharge_time_sec c) (bat_volt_check_wait_count c) (charge_begin_time c) (err_stop_begin_time c)
    (err_to_stop_charge c) v (restart_from_err_flag c)) c.
Definition set_restart_from_err_flag (v : bool) (c : bat_charge_context_t) : bat_charge_context_t :=
  set_sta (mk_status (bat_charge_state c) (charge_state_started c) (need_check_bat_real_volt c) (charge_near_full c) (bat_exist_state c)
    (bat_error_state c) (state_timer_count c) (precharge_time_sec c) (bat_volt_check_wait_count c) (charge_begin_time c) (err_stop_begin_time c)
    (err_to_stop_charge c) (err_status_dc5v_change_flag c) v) c.

Definition set_inited (v : bool) (c : bat_charge_context_t) : bat_charge_context_t :=
  set_drv (mk_driver v (enabled c) (callback c) (timer c) (init_charge_stage_last c) (init_charge_stage c) (init_charge_current_ma_1 c)
    (init_charge_current_ma_2 c)) c.
Definition set_enabled (v : bool) (c : bat_charge_context_t) : bat_charge_context_t :=
  set_drv (mk_driver (inited c) v (callback c) (timer c) (init_charge_stage_last c) (init_charge_stage c) (init_charge_current_ma_1 c)
    (init_charge_current_ma_2 c)) c.
Definition set_callback (v : bool) (c : bat_charge_context_t) : bat_charge_context_t :=
  set_drv (mk_driver (inited c) (enabled c) v (timer c) (init_charge_stage_last c) (init_charge_stage c) (init_charge_current_ma_1 c)
    (init_charge_current_ma_2 c)) c.
Definition set_timer (v : bool) (c : bat_charge_context_t) : bat_charge_context_t :=
  set_drv (mk_driver (inited c) (enabled c) (callback c) v (init_charge_stage_last c) (init_charge_stage c) (init_charge_current_ma_1 c)
    (init_charge_current_ma_2 c)) c.
Definition set_init_charge_stage_last (v : Z) (c : bat_charge_context_t) : bat_charge_context_t :=
  set_drv (mk_driver (inited c) (enabled c) (callback c) (timer c) v (init_charge_stage c) (init_charge_current_ma_1 c) (init_charge_current_ma_2 c))
    c.
Definition set_init_charge_stage (v : Z) (c : bat_charge_context_t) : bat_charge_context_t :=
  set_drv (mk_driver (inited c) (enabled c) (callback c) (timer c) (init_charge_stage_last c) v (init_charge_current_ma_1 c) (init_charge_current_ma_2
    c)) c.
Definition set_init_charge_current_ma_1 (v : Z) (c : bat_charge_context_t) : bat_charge_context_t :=
  set_drv (mk_driver (inited c) (enabled c) (callback c) (timer c) (init_charge_stage_last c) (init_charge_stage c) v (init_charge_current_ma_2 c)) c.
Definition set_init_charge_current_ma_2 (v : Z) (c : bat_charge_context_t) : bat_charge_context_t :=
  set_drv (mk_driver (inited c) (enabled c) (callback c) (timer c) (init_charge_stage_last c) (init_charge_stage c) (init_charge_current_ma_1 c) v) c.

(** ** Readings *)

(** What one call of get_dc5v_current_state reads: the two ADCs ([None] when
    adc_read fails) and soc_pmu_get_dc5v_status. *)
Record pmu_in : Type := mk_pmu { rd_dc5v : option Z; rd_bat : option Z; rd_plug : bool }.

(** What one call of bat_charge_timer_handler reads: the clock, the samples of
    the battery and of the charging current, the plug for the debouncing and
    for the constant voltage check, and the battery for the overvoltage check. *)
Record tick_in : Type := mk_tick {
  now : Z;
  rd_sample : option Z;
  rd_chargei : option Z;
  rd_pmu : pmu_in;
  rd_cv_pmu : pmu_in;
  rd_ovp : option Z
}.

(** dc5v_adc_get_sample, bat_adc_get_sample and chargei_adc_get_sample. *)
Definition adc_get_sample (c : bat_charge_context_t) (r : option Z) : Z :=
  if negb (adc_dev c) then - ENXIO else match r with None => - EIO | Some v => v end.

Definition notify (e : event) (c : bat_charge_context_t) : bat_charge_context_t :=
  if callback c then set_events (e :: events c) c else c.

(** get interval time from begin time to end time *)
Definition bat_get_diff_time (end_time begin_time : Z) : Z :=
  if begin_time <=? end_time then end_time - begin_time else u32 (u32 (- 1) - begin_time + end_time + 1).

(** ** bat_charge_ctrl.c *)

Definition pmu_chg_ctl_reg_write (mask value : Z) (c : bat_charge_context_t) : bat_charge_context_t :=
  let v := Z.lor (Z.land (bak_PMU_CHG_CTL c) (Z.lnot mask)) (Z.land value mask) in
  set_CHG_CTL_SVCC v (set_bak_PMU_CHG_CTL v c).

Definition bat_boot_open_charger (c : bat_charge_context_t) : bat_charge_context_t :=
  pmu_chg_ctl_reg_write (Z.shiftl 1 CHG_CTL_SVCC_CHG_EN) (Z.shiftl 1 CHG_CTL_SVCC_CHG_EN) c.

(** The level is shifted by CHG_CTL_SVCC_CHG_CURRENT_SHIFT, 0. *)
Definition bat_init_charge_set (c : bat_charge_context_t) : bat_charge_context_t :=
  let g := configs c in
  let '(level, c) :=
    if init_charge_stage c =? 1 then (Init_Charge_Current_1 g, c)
    else if init_charge_stage c =? 2 then (Init_Charge_Current_2 g, c)
    else if init_charge_stage c =? 3 then (Init_Charge_Current_3 g, c)
    else (Init_Charge_Current_1 g, set_init_charge_stage 1 c) in
  pmu_chg_ctl_reg_write
    (Z.lor (Z.lor (Z.lor CHG_CTL_SVCC_CHG_CURRENT_MASK CHG_CTL_SVCC_CV_OFFSET_MASK) (Z.shiftl 1 CHG_CTL_SVCC_CV_3V3)) (Z.shiftl 1 CHG_CTL_SVCC_CHG_EN))
    (Z.lor (Z.lor (Z.lor (Z.shiftl level CHG_CTL_SVCC_CHG_CURRENT_SHIFT) (Z.shiftl (Charge_Voltage g) CHG_CTL_SVCC_CV_OFFSET_SHIFT))
       (Z.shiftl 0 CHG_CTL_SVCC_CV_3V3)) (Z.shiftl 1 CHG_CTL_SVCC_CHG_EN)) c.

Definition dc5v_check_status_init (c : bat_charge_context_t) : bat_charge_context_t := set_dc5v_last_state DC5V_STATE_INVALID c.

Definition charger_enable_timer_delete (c : bat_charge_context_t) : bat_charge_context_t := set_charger_enable_timer false c.

Definition charger_enable_timer_handler (now : Z) (c : bat_charge_context_t) : bat_charge_context_t :=
  let c := charger_enable_timer_delete c in
  let c := pmu_chg_ctl_reg_write
    (Z.lor (Z.shiftl 1 CHG_CTL_SVCC_CV_3V3) (Z.shiftl 1 CHG_CTL_SVCC_CHG_EN))
    (Z.lor (Z.shiftl 0 CHG_CTL_SVCC_CV_3V3) (Z.shiftl 1 CHG_CTL_SVCC_CHG_EN)) c in
  let c := set_charge_begin_time now c in
  set_current_cc_sel (Charge_Current (configs c)) c.

Definition dc5v_adc_get_voltage_mv (adc_val : Z) : Z :=
  let adc_val := u32 adc_val in
  if adc_val =? 0 then 0 else u32 (u32 (adc_val + 1) * 6000) / 1024.

Definition bat_adc_get_voltage_mv (adc_val : Z) : Z :=
  let adc_val := u32 adc_val in
  if adc_val =? 0 then 0 else u32 (adc_val * 4800) / 1024.

Definition chargei_adc_get_current_ma (adc_val : Z) : Z :=
  if adc_val <=? 0 then 0 else (adc_val + 1) * 320 / 1024.

Definition get_dc5v_current_state (r : pmu_in) (c : bat_charge_context_t) : dc5v_state_t * bat_charge_context_t :=
  let ret := adc_get_sample c (rd_dc5v r) in
  if ret <? 0 then (DC5V_STATE_INVALID, c)
  else
    let dc5v_mv := dc5v_adc_get_voltage_mv ret in
    if adc_get_sample c (rd_bat r) <? 0 then (DC5V_STATE_INVALID, c)
    else
      let state := if rd_plug r then DC5V_STATE_IN else DC5V_STATE_OUT in
      (state, set_dc5v_last_state state (set_last_dc5v_mv (u16 dc5v_mv) c)).

Definition bat_charge_current_percent_buf_init (c : bat_charge_context_t) : bat_charge_context_t :=
  set_charge_current_percent_buf (mk_percent_buf (replicate 5 0) 0 0 (- 1)) c.

Definition bat_charge_cv_state_buf_init (c : bat_charge_context_t) : bat_charge_context_t :=
  set_charge_cv_state_buf (mk_cv_buf (replicate 10 0) 0 0) c.

(** The voltage for the register and whether 200 mV are added to it. *)
Definition adjust_voltage (voltage_sel : Z) (c : bat_charge_context_t) : Z * Z :=
  if ao_is_valid (adjust_cv_offset c) then (cv_offset (adjust_cv_offset c), 0)
  else if charge_cv_offset c <? 0x80 then
    let v := voltage_sel + charge_cv_offset c in
    if 0x1f <? v then (v - 16, 1) else (v, 0)
  else
    let off := Z.land (charge_cv_offset c) 0x7f in
    (if off <? voltage_sel then voltage_sel - off else 0, 0).

Definition bat_charge_ctrl_enable (current_sel voltage_sel : Z) (c : bat_charge_context_t) : bat_charge_context_t :=
  let c := set_charge_ctrl_enabled true c in
  let c := bat_charge_current_percent_buf_init c in
  let c := bat_charge_cv_state_buf_init c in
  let '(adjust_volt, cv_need_add_200mv) := adjust_voltage voltage_sel c in
  let cv_3v3 := if limit_current_percent c =? 0 then 1 else 0 in
  pmu_chg_ctl_reg_write
    (Z.lor (Z.lor (Z.lor CHG_CTL_SVCC_CHG_CURRENT_MASK CHG_CTL_SVCC_CV_OFFSET_MASK) (Z.shiftl 1 CHG_CTL_SVCC_CHG_CV_AD)) (Z.shiftl 1 CHG_CTL_SVCC_CV_3V3))
    (Z.lor (Z.lor (Z.lor (Z.shiftl current_sel CHG_CTL_SVCC_CHG_CURRENT_SHIFT) (Z.shiftl adjust_volt CHG_CTL_SVCC_CV_OFFSET_SHIFT))
       (Z.shiftl cv_need_add_200mv CHG_CTL_SVCC_CHG_CV_AD)) (Z.shiftl cv_3v3 CHG_CTL_SVCC_CV_3V3)) c.

(** bat_charge_current_table: the milliamperes of the levels, whose numbers are their places. *)
Definition bat_charge_current_table : list Z := [10; 20; 30; 40; 60; 80; 100; 120; 140; 150; 160; 180; 200; 220; 250; 300].

(** The loops "for (i = n; i > 0; i--) if (x >= table[i]) break;". *)
Fixpoint last_not_above (x : Z) (f : nat -> Z) (i : nat) : nat :=
  match i with
  | O => O
  | S j => if f i <=? x then i else last_not_above x f j
  end.

Definition current_ma (i : nat) : Z := nth i bat_charge_current_table 0.

Definition bat_charge_get_current_ma (level : Z) : Z := current_ma (last_not_above level Z.of_nat 15).

Definition bat_charge_get_current_level (ma : Z) : Z :=
  let i := last_not_above ma current_ma 15 in
  let i := if (i <? 15)%nat then
      if Z.abs (ma - current_ma (i + 1)) <? Z.abs (ma - current_ma i) then (i + 1)%nat else i
    else i in
  Z.of_nat i.

(** bat_charge_ctl_enabled: the charger is enabled. *)
Definition chg_en (c : bat_charge_context_t) : bool := Z.testbit (bak_PMU_CHG_CTL c) CHG_CTL_SVCC_CHG_EN.
(** The charger's voltage is 3.3 V: it does not charge. *)
Definition cv_3v3 (c : bat_charge_context_t) : bool := Z.testbit (bak_PMU_CHG_CTL c) CHG_CTL_SVCC_CV_3V3.

Definition bat_charge_check_enable (c : bat_charge_context_t) : bat_charge_context_t :=
  let cfg := configs c in
  if charge_enable_pending c then
    if negb (chg_en c) then c
    else
      let current_sel := charge_current_sel c in
      let voltage_sel := Charge_Voltage cfg in
      let '(current_sel, voltage_sel) :=
        if limit_current_percent c <? 100 then
          let ma := bat_charge_get_current_ma (Charge_Current cfg) * limit_current_percent c / 100 in
          let level := bat_charge_get_current_level ma in
          (if (level <? Charge_Current cfg) && ((cv_stage_2_begin_time c =? 0) || (limit_current_percent c =? 0)) then level else current_sel,
           if limit_cv_level c <=? 0x1f then limit_cv_level c else voltage_sel)
        else (current_sel, voltage_sel) in
      set_charge_enable_pending false (bat_charge_ctrl_enable current_sel voltage_sel c)
  else c.

Definition bat_charge_ctrl_disable (c : bat_charge_context_t) : bat_charge_context_t :=
  let c := set_charge_enable_pending false c in
  let c := set_charge_ctrl_enabled false c in
  pmu_chg_ctl_reg_write (Z.shiftl 1 CHG_CTL_SVCC_CV_3V3) (Z.shiftl 1 CHG_CTL_SVCC_CV_3V3) c.

Definition bat_charge_set_current (current_sel : Z) (c : bat_charge_context_t) : bat_charge_context_t :=
  pmu_chg_ctl_reg_write CHG_CTL_SVCC_CHG_CURRENT_MASK (Z.shiftl current_sel CHG_CTL_SVCC_CHG_CURRENT_SHIFT) c.

Definition bat_charge_get_cv_state (c : bat_charge_context_t) : Z :=
  if cv_3v3 c || negb (chg_en c) then 0
  else
    let normal_cc_ma := bat_charge_get_current_ma (Charge_Current (configs c)) in
    if bat_real_charge_current c <? normal_cc_ma * 20 / 100 then 2
    else if bat_real_charge_current c <? normal_cc_ma * 50 / 100 then 1
    else 0.

Definition bat_charge_get_charge_stop_current (c : bat_charge_context_t) : Z :=
  let ma := bat_charge_get_current_ma (Charge_Current (configs c)) in
  match Charge_Stop_Current (configs c) with
  | 0 => ma * 20 / 100
  | 1 => ma * 5 / 100
  | 2 => 30 | 3 => 20 | 4 => 16 | 5 => 12 | 6 => 8 | 7 => 7 | 8 => 5
  | _ => ma * 10 / 100
  end.

Definition bat_charge_adjust_cv_offset (c : bat_charge_context_t) : bat_charge_context_t :=
  let off := Z.shiftr (Z.land (bak_PMU_CHG_CTL c) CHG_CTL_SVCC_CV_OFFSET_MASK) CHG_CTL_SVCC_CV_OFFSET_SHIFT in
  set_adjust_cv_offset (mk_adjust_cv false off true (last_volt (adjust_cv_offset c))) c.

Definition bat_charge_adjust_current (c : bat_charge_context_t) : bat_charge_context_t :=
  let chg_current := Z.shiftr (Z.land (bak_PMU_CHG_CTL c) CHG_CTL_SVCC_CHG_CURRENT_MASK) CHG_CTL_SVCC_CHG_CURRENT_SHIFT in
  if cv_stage_2_begin_time c =? 0 then c
  else
    let cc := Charge_Current (configs c) in
    let c := set_adjust_current (mk_adjust_current false cc (stop_current_percent (adjust_current c)) (bat_charge_get_charge_stop_current c)) c in
    if negb (chg_current =? cc) then
      pmu_chg_ctl_reg_write CHG_CTL_SVCC_CHG_CURRENT_MASK (Z.shiftl cc CHG_CTL_SVCC_CHG_CURRENT_SHIFT)
        (bat_charge_current_percent_buf_init c)
    else c.

Definition bat_charge_limit_current (now percent : Z) (c : bat_charge_context_t) : bat_charge_context_t :=
  let percent := if 100 <? percent then 100 else percent in
  if negb (limit_current_percent c =? percent) then
    let c := if limit_current_percent c =? 0 then
        let c := if negb (cv_stage_1_begin_time c =? 0) then set_cv_stage_1_begin_time now c else c in
        if negb (cv_stage_2_begin_time c =? 0) then set_cv_stage_2_begin_time now c else c
      else c in
    let c := set_limit_current_percent percent c in
    if charge_ctrl_enabled c then set_charge_enable_pending true c else c
  else c.

(** bat_charge_ctrl_init: the calibrations of soc_atp_get_pmu_calib, [None] when it fails. *)
Definition bat_charge_ctrl_init (cc_calib cv_calib : option Z) (c : bat_charge_context_t) : bat_charge_context_t :=
  let c := match cc_calib with
    | Some v => pmu_chg_ctl_reg_write CHG_CTL_SVCC_CC_OFFSET_MASK (Z.shiftl (u8 v) CHG_CTL_SVCC_CC_OFFSET_SHIFT) c
    | None => c
    end in
  let '(val, c) := match cv_calib with
    | Some v => (u8 v, pmu_chg_ctl_reg_write CHG_CTL_SVCC_CV_OFFSET_MASK (Z.shiftl (u8 v) CHG_CTL_SVCC_CV_OFFSET_SHIFT) c)
    | None => (Z.shiftr (Z.land (bak_PMU_CHG_CTL c) CHG_CTL_SVCC_CV_OFFSET_MASK) CHG_CTL_SVCC_CV_OFFSET_SHIFT, c)
    end in
  let c := set_charge_cv_offset (u8 (if CHARGE_VOLTAGE_4_20_V <=? val then val - CHARGE_VOLTAGE_4_20_V else 0x80 + CHARGE_VOLTAGE_4_20_V - val)) c in
  let c := set_current_cc_sel (Charge_Current (configs c)) c in
  let c := bat_charge_set_current (current_cc_sel c) c in
  set_charger_enable_timer false (dc5v_check_status_init c).

(** ** bat_charge_driver.c: the samples *)

Definition nth_Z (l : list Z) (i : Z) : Z := nth (Z.to_nat i) l 0.

Definition bat_adc_sample_buf_put (bat_adc : Z) (c : bat_charge_context_t) : bat_charge_context_t :=
  let c := set_bat_adc_sample_buf (<[Z.to_nat (bat_adc_sample_index c) := u16 bat_adc]> (bat_adc_sample_buf c)) c in
  let c := set_bat_adc_sample_index (u8 (bat_adc_sample_index c + 1)) c in
  if BAT_ADC_SAMPLE_BUF_SIZE <=? bat_adc_sample_index c then set_bat_adc_sample_index 0 c else c.

(** The loop of bat_adc_sample_buf_init over the readings, from the place [i]. *)
Fixpoint sample_buf_fill (i : nat) (rs : list (option Z)) (c : bat_charge_context_t) : bat_charge_context_t :=
  match rs with
  | [] => c
  | r :: rs =>
      let v := adc_get_sample c r in
      sample_buf_fill (S i) rs (if 0 <? v then set_bat_adc_sample_buf (<[i := u16 v]> (bat_adc_sample_buf c)) c else c)
  end.

Definition bat_adc_sample_buf_init (pmu : pmu_in) (rs : list (option Z)) (c : bat_charge_context_t) : bat_charge_context_t :=
  let '(_, c) := get_dc5v_current_state pmu c in
  let c := sample_buf_fill 0 (take (Z.to_nat BAT_ADC_SAMPLE_BUF_SIZE) rs) c in
  set_bat_adc_sample_index 0 (set_bat_adc_sample_timer_count 0 c).

Definition bat_chargei_sample_buf_init (c : bat_charge_context_t) : bat_charge_context_t :=
  let c := set_charge_current_ma_buf (replicate (Z.to_nat BAT_CHARGEI_SAMPLE_BUF_SIZE) 0) c in
  set_bat_chargei_sample_index 0 (set_bat_chargei_sample_timer_count 0 c).

Definition bat_chargei_sample_buf_put (chargei_ma : Z) (c : bat_charge_context_t) : bat_charge_context_t :=
  let c := set_charge_current_ma_buf (<[Z.to_nat (bat_chargei_sample_index c) := u16 chargei_ma]> (charge_current_ma_buf c)) c in
  let c := set_bat_chargei_sample_index (u8 (bat_chargei_sample_index c + 1)) c in
  if BAT_CHARGEI_SAMPLE_BUF_SIZE <=? bat_chargei_sample_index c then set_bat_chargei_sample_index 0 c else c.

(** The loop of get_chargei_avg_value: the number and the 16-bit sum of the values that are not zero. *)
Fixpoint chargei_sum (l : list Z) (cnt avg_val : Z) : Z * Z :=
  match l with
  | [] => (cnt, avg_val)
  | x :: l => if negb (x =? 0) then chargei_sum l (u8 (cnt + 1)) (u16 (avg_val + x)) else chargei_sum l cnt avg_val
  end.

Definition get_chargei_avg_value (c : bat_charge_context_t) : Z :=
  let '(cnt, avg_val) := chargei_sum (charge_current_ma_buf c) 0 0 in
  if negb (cnt =? 0) then avg_val / cnt else 0.

(** The inner loop of bat_volt_selectsort: [n] rounds from [j]. *)
Fixpoint select_min (arr : list Z) (n j min : nat) : nat :=
  match n with
  | O => min
  | S n => select_min arr n (S j) (if nth j arr 0 <? nth min arr 0 then j else min)
  end.

(** The three exclusive ors of arr[min] and arr[i]. *)
Definition xor_swap (arr : list Z) (min i : nat) : list Z :=
  let arr := <[min := Z.lxor (nth min arr 0) (nth i arr 0)]> arr in
  let arr := <[i := Z.lxor (nth i arr 0) (nth min arr 0)]> arr in
  <[min := Z.lxor (nth min arr 0) (nth i arr 0)]> arr.

(** The outer loop: [n] rounds from [i]. *)
Fixpoint selectsort (len n i : nat) (arr : list Z) : list Z :=
  match n with
  | O => arr
  | S n =>
      let min := select_min arr (len - S i) (S i) i in
      selectsort len n (S i) (if Nat.eqb min i then arr else xor_swap arr min i)
  end.

Definition bat_volt_selectsort (arr : list Z) (len : nat) : list Z := selectsort len (len - 1) 0 arr.

(** The loop of get_battery_voltage_by_time that copies the latest [n] samples, from the place [i]. *)
Fixpoint recent_samples (buf : list Z) (n : nat) (index : Z) (i : nat) (tmp_buf : list Z) : list Z :=
  match n with
  | O => tmp_buf
  | S n =>
      let index := if 0 <? index then index - 1 else BAT_ADC_SAMPLE_BUF_SIZE - 1 in
      recent_samples buf n index (S i) (<[i := nth_Z buf index]> tmp_buf)
  end.

Definition get_battery_voltage_by_time (sec : Z) (c : bat_charge_context_t) : Z :=
  let adc_count := sec * 1000 / BAT_ADC_SAMPLE_INTERVAL_MS in
  let tmp_buf := recent_samples (bat_adc_sample_buf c) (Z.to_nat adc_count) (bat_adc_sample_index c) 0
                   (replicate (Z.to_nat BAT_ADC_SAMPLE_BUF_SIZE) 0) in
  let tmp_buf := bat_volt_selectsort tmp_buf (Z.to_nat adc_count) in
  bat_adc_get_voltage_mv (nth_Z tmp_buf (adc_count * 4 / 5 - 1)).

(** ** bat_charge_driver.c: the percentage *)

Definition get_battery_voltage_mv (c : bat_charge_context_t) : Z := bat_real_volt c.

Definition level_mv (c : bat_charge_context_t) (i : nat) : Z := nth i (cfg_bat_level (configs c)) 0.

(** The place of a voltage in the table of levels, and where its level ends. *)
Definition level_of (c : bat_charge_context_t) (mv : Z) : nat := last_not_above mv (level_mv c) 9.
Definition level_end (c : bat_charge_context_t) (i : nat) : Z :=
  if (i <? 9)%nat then level_mv c (i + 1) else Charge_Stop_Voltage (configs c).

Definition get_battery_percent (c : bat_charge_context_t) : Z * bat_charge_context_t :=
  let bat_volt := get_battery_voltage_mv c in
  if Charge_Stop_Voltage (configs c) <=? bat_volt then (100, c)
  else
    let i := level_of c bat_volt in
    let lb := level_mv c i in
    let le := level_end c i in
    let bat_volt := if le <? bat_volt then le else bat_volt in
    let percent := 100 * Z.of_nat i / CFG_MAX_BATTERY_LEVEL in
    let percent := if (lb <? bat_volt) && (bat_volt <=? le)
      then percent + 100 * (bat_volt - lb) / ((le - lb) * CFG_MAX_BATTERY_LEVEL) else percent in
    (percent, set_last_cap_detect (u8 percent) c).

(** The voltage of the charger in millivolts. *)
Definition charge_voltage_mv (c : bat_charge_context_t) : Z :=
  (4200 * 10 + (Charge_Voltage (configs c) - CHARGE_VOLTAGE_4_20_V) * 125) / 10.

Definition get_battery_permillage (c : bat_charge_context_t) (mv : Z) : Z :=
  let '(lb, le, i) :=
    if Charge_Stop_Voltage (configs c) <=? mv then (Charge_Stop_Voltage (configs c), charge_voltage_mv c, 10%nat)
    else let i := level_of c mv in (level_mv c i, level_end c i, i) in
  let mv := if le <? mv then le else mv in
  let permillage := 1000 * Z.of_nat i / CFG_MAX_BATTERY_LEVEL in
  if (lb <? mv) && (mv <=? le) then permillage + 100 * (mv - lb) / (le - lb) else permillage.

Definition bat_permillage_to_mv (c : bat_charge_context_t) (permillage : Z) : Z :=
  let permillage := if permillage <? 0 then 0 else permillage in
  let i := permillage / 100 in
  if 11 <=? i then charge_voltage_mv c
  else
    let '(lb, le) :=
      if i =? 10 then (Charge_Stop_Voltage (configs c), charge_voltage_mv c)
      else (level_mv c (Z.to_nat i), level_end c (Z.to_nat i)) in
    if lb <? le then lb + (le - lb) * (permillage mod 100) / 100 else lb.

Definition bat_check_voltage_low (bat_volt : Z) (c : bat_charge_context_t) : bat_charge_context_t :=
  let g := configs c in
  let c := if bat_volt <=? Battery_Too_Low_Voltage g then
      if negb (bat_volt_too_low c) then
        notify BAT_CHG_EVENT_BATTERY_TOO_LOW (set_bat_volt_too_low true (set_bat_volt_low_ex true (set_bat_volt_low true c)))
      else c
    else set_bat_volt_too_low false c in
  let c := if bat_volt <=? Battery_Low_Voltage_Ex g then
      if negb (bat_volt_low_ex c) then notify BAT_CHG_EVENT_BATTERY_LOW_EX (set_bat_volt_low_ex true (set_bat_volt_low true c)) else c
    else set_bat_volt_low_ex false c in
  if bat_volt <=? Battery_Low_Voltage g then
    if negb (bat_volt_low c) then notify BAT_CHG_EVENT_BATTERY_LOW (set_bat_volt_low true c) else c
  else set_bat_volt_too_low false (set_bat_volt_low_ex false (set_bat_volt_low false c)).

Definition is_charging (s : BAT_CHARGE_STATE) : bool :=
  match s with BAT_CHG_STATE_PRECHARGE | BAT_CHG_STATE_CHARGE => true | _ => false end.

(** The limited voltage of bat_check_voltage_change while charging, and otherwise. *)
Definition smooth_charge (elapsed_sec bat_volt : Z) (c : bat_charge_context_t) : Z :=
  let permillage := get_battery_permillage c (bat_real_volt c) in
  let bat_volt := if (0 <? elapsed_sec) && (elapsed_sec <? 3600) then
      let limit_mv := bat_permillage_to_mv c (permillage + elapsed_sec * (BAT_REAL_VOLTAGE_SMOOTH_IN_CHARGE * 10) / 60) in
      if limit_mv <? bat_volt then limit_mv else bat_volt
    else bat_volt in
  if bat_volt <? bat_real_volt c then bat_real_volt c else bat_volt.

Definition smooth_discharge (elapsed_sec bat_volt : Z) (c : bat_charge_context_t) : Z :=
  let permillage := get_battery_permillage c (bat_real_volt c) in
  let fall := elapsed_sec * (BAT_REAL_VOLTAGE_SMOOTH_IN_DISCHARGE * 10) / 60 in
  let bat_volt := if (0 <? elapsed_sec) && (elapsed_sec <? 3600) && (fall <=? permillage) then
      let limit_mv := bat_permillage_to_mv c (permillage - fall) in
      if bat_volt <? limit_mv then limit_mv else bat_volt
    else bat_volt in
  if bat_real_volt c <? bat_volt then bat_real_volt c else bat_volt.

Definition bat_check_voltage_change (now bat_volt : Z) (c : bat_charge_context_t) : Z * bat_charge_context_t :=
  let elapsed_sec := if negb (last_time_check_bat_volt c =? 0) then bat_get_diff_time now (last_time_check_bat_volt c) / 1000 else 0 in
  let '(bat_volt, c) :=
    if bool_decide (bat_charge_state c = BAT_CHG_STATE_INIT) && negb (last_saved_bat_volt c =? 0)
    then (last_saved_bat_volt c, set_last_saved_bat_volt 0 c) else (bat_volt, c) in
  let bat_volt := if is_charging (bat_charge_state c) then smooth_charge elapsed_sec bat_volt c else smooth_discharge elapsed_sec bat_volt c in
  let c := set_last_time_check_bat_volt now c in
  let c := set_bat_real_volt (u16 bat_volt) c in
  let c := if bool_decide (dc5v_debounce_state c = DC5V_STATE_IN) then c else bat_check_voltage_low bat_volt c in
  (bat_volt, c).

(** ** bat_charge_driver.c: the plug *)

(** The strings of the log; the tables have four and six entries. *)
Definition get_dc5v_state_str (state : dc5v_state_t) : option string :=
  ["OUT"; "IN"; "PENDING"; "STANDBY"]%string !! Z.to_nat (dc5v_state_num state).

(** bat_charge_debounce: [n] rounds from [i]. *)
Fixpoint debounce_loop (buf_size : nat) (value : dc5v_state_t) (n i : nat) (buf : list dc5v_state_t) (result : bool) : bool * list dc5v_state_t :=
  match n with
  | O => (result, buf)
  | S n =>
      let result := if bool_decide (nth i buf DC5V_STATE_INVALID = value) then result else false in
      let buf := if (i <? buf_size - 1)%nat then <[i := nth (i + 1) buf DC5V_STATE_INVALID]> buf else <[i := value]> buf in
      debounce_loop buf_size value n (S i) buf result
  end.

Definition bat_charge_debounce (buf : list dc5v_state_t) (buf_size : nat) (value : dc5v_state_t) : bool * list dc5v_state_t :=
  debounce_loop buf_size value buf_size 0 buf true.

(** The part of bat_charge_dc5v_detect after a change. *)
Definition dc5v_changed (last_state curr_state : dc5v_state_t) (c : bat_charge_context_t) : bat_charge_context_t :=
  let c := if err_to_stop_charge c then set_err_status_dc5v_change_flag true c else c in
  let c := match curr_state with
    | DC5V_STATE_IN => if bool_decide (last_state = DC5V_STATE_IN) then c else set_charger_enable_timer true c
    | DC5V_STATE_OUT =>
        if bool_decide (last_state = DC5V_STATE_IN \/ last_state = DC5V_STATE_INVALID)
        then bat_charge_set_current (precharge_current_sel c) (charger_enable_timer_delete c) else c
    | _ => c
    end in
  match curr_state with
  | DC5V_STATE_IN => set_bat_volt_too_low false (set_bat_volt_low_ex false (set_bat_volt_low false (notify BAT_CHG_EVENT_DC5V_IN c)))
  | DC5V_STATE_STANDBY => notify BAT_CHG_EVENT_DC5V_STANDBY c
  | DC5V_STATE_OUT => if bool_decide (last_state = DC5V_STATE_INVALID) then c else notify BAT_CHG_EVENT_DC5V_OUT c
  | _ => c
  end.

Definition debounce_size (c : bat_charge_context_t) : nat :=
  Z.to_nat (DC5V_Detect_Debounce_Time_Ms (configs c) / BAT_CHARGE_DRIVER_TIMER_MS).

Definition bat_charge_dc5v_detect (r : pmu_in) (c : bat_charge_context_t) : bat_charge_context_t :=
  let '(curr_state, c) := get_dc5v_current_state r c in
  let '(stable, c) :=
    if bool_decide (dc5v_debounce_state c = DC5V_STATE_PENDING) then (true, c)
    else let '(stable, buf) := bat_charge_debounce (dc5v_debounce_buf c) (debounce_size c) curr_state in
         (stable, set_dc5v_debounce_buf buf c) in
  if negb stable then c
  else if bool_decide (dc5v_debounce_state c = curr_state) then c
  else dc5v_changed (dc5v_debounce_state c) curr_state (set_dc5v_debounce_state curr_state c).

Definition bat_get_initcharge_current (c : bat_charge_context_t) : bat_charge_context_t :=
  let g := configs c in
  set_init_charge_current_ma_2 (bat_charge_get_current_ma (Init_Charge_Current_2 g))
    (set_init_charge_current_ma_1 (bat_charge_get_current_ma (Init_Charge_Current_1 g)) c).

Definition bat_get_precharge_current (c : bat_charge_context_t) : bat_charge_context_t :=
  let g := configs c in
  let cc_ma := bat_charge_get_current_ma (Charge_Current g) in
  let precharge_ma := cc_ma * (Precharge_Current g + 1) * 5 / 100 in
  let level := bat_charge_get_current_level precharge_ma in
  set_precharge_current_sel (if level <? Precharge_Current_Min_Limit g then Precharge_Current_Min_Limit g else level) c.

(** ** bat_charge_status.c *)

(** Both branches of bat_check_real_voltage disable the charger. *)
Definition bat_check_real_voltage (sample_sec : Z) (c : bat_charge_context_t) : bat_charge_context_t :=
  let c := bat_charge_ctrl_disable c in
  let c := set_bat_volt_check_wait_count (u16 (sample_sec * 1000 / BAT_CHARGE_DRIVER_TIMER_MS)) c in
  set_need_check_bat_real_volt true c.

Definition bat_charge_reset_adjust_cv_offset (c : bat_charge_context_t) : bat_charge_context_t :=
  set_adjust_cv_offset (mk_adjust_cv false 0 false 0) c.

Definition bat_charge_state_start (current_sel : Z) (c : bat_charge_context_t) : bat_charge_context_t :=
  let c := if charge_state_started c then c else bat_charge_reset_adjust_cv_offset c in
  let c := set_charge_current_sel (u8 current_sel) c in
  let c := set_charge_enable_pending true c in
  let c := set_need_check_bat_real_volt false c in
  if charge_state_started c then c else notify BAT_CHG_EVENT_CHARGE_START (set_charge_state_started true c).

Definition bat_charge_state_stop (c : bat_charge_context_t) : bat_charge_context_t :=
  let c := bat_charge_ctrl_disable c in
  if charge_state_started c then notify BAT_CHG_EVENT_CHARGE_STOP (set_charge_state_started false c) else c.

(** A number of seconds in rounds of the timer. *)
Definition rounds (sec : Z) : Z := sec * 1000 / BAT_CHARGE_DRIVER_TIMER_MS.

(** The voltage under which a full battery is charged again. *)
Definition recharge_threhold (c : bat_charge_context_t) : Z :=
  let g := configs c in
  if Enable_Battery_Recharge g =? NO then Charge_Stop_Voltage g else Recharge_Threshold_Normal_Temperature g.

Definition bat_charge_state_check_volt (bat_volt : Z) (c : bat_charge_context_t) : bat_charge_context_t :=
  let g := configs c in
  if bool_decide (dc5v_debounce_state c = DC5V_STATE_IN) && negb (bool_decide (bat_charge_state c = BAT_CHG_STATE_FULL)) then c
  else
    let period := rounds (Battery_Check_Period_Sec g) in
    if state_timer_count c <? period then
      let c := set_state_timer_count (u16 (state_timer_count c + 1)) c in
      if state_timer_count c =? period then bat_check_real_voltage BAT_VOLT_CHECK_SAMPLE_SEC c else c
    else if bat_volt <? 0 then c
    else
      let c := set_state_timer_count 0 c in
      if bool_decide (bat_charge_state c = BAT_CHG_STATE_FULL) then
        if bat_volt <=? Precharge_Stop_Voltage g then set_bat_charge_state BAT_CHG_STATE_LOW (set_bat_error_state true c)
        else if bat_volt <? recharge_threhold c then set_bat_charge_state BAT_CHG_STATE_NORMAL c
        else c
      else c.

(** The end of bat_charge_state_init: the first state of a measured battery. *)
Definition first_state (bat_volt : Z) (c : bat_charge_context_t) : bat_charge_context_t :=
  let g := configs c in
  if bat_volt <? 0 then c
  else if (Precharge_Enable g =? YES) && (bat_volt <=? Precharge_Stop_Voltage g) then set_bat_charge_state BAT_CHG_STATE_LOW c
  else if Charge_Stop_Voltage g <=? bat_volt then
    if negb (Z.land (cfg_features g) SYS_FORCE_CHARGE_WHEN_DC5V_IN =? 0) then set_bat_charge_state BAT_CHG_STATE_NORMAL c
    else set_bat_charge_state BAT_CHG_STATE_FULL c
  else set_bat_charge_state BAT_CHG_STATE_NORMAL c.

Definition bat_charge_state_init (now bat_volt : Z) (c : bat_charge_context_t) : bat_charge_context_t :=
  if err_to_stop_charge c then
    if negb (err_status_dc5v_change_flag c) && (bat_get_diff_time now (err_stop_begin_time c) <? BAT_ERR_STOP_RESTART_TIME_MS) then
      if bool_decide (dc5v_debounce_state c = DC5V_STATE_IN) then c else bat_charge_state_check_volt bat_volt c
    else
      let c := set_err_status_dc5v_change_flag false (set_err_to_stop_charge false c) in
      let c := set_restart_from_err_flag true (bat_check_real_voltage 1 c) in
      first_state bat_volt c
  else first_state bat_volt c.

Definition bat_charge_state_low (bat_volt : Z) (c : bat_charge_context_t) : bat_charge_context_t :=
  if bool_decide (dc5v_debounce_state c = DC5V_STATE_IN) then
    if Precharge_Enable (configs c) =? YES then
      set_bat_charge_state BAT_CHG_STATE_PRECHARGE (bat_charge_state_start (precharge_current_sel c) c)
    else set_bat_charge_state BAT_CHG_STATE_NORMAL c
  else bat_charge_state_check_volt bat_volt c.

(** The charging time starts again after a restart from an error. *)
Definition restart_from_err (now : Z) (c : bat_charge_context_t) : bat_charge_context_t :=
  if restart_from_err_flag c then set_charge_begin_time now (set_restart_from_err_flag false c) else c.

Definition bat_charge_state_precharge (now bat_volt : Z) (c : bat_charge_context_t) : bat_charge_context_t :=
  if negb (bool_decide (dc5v_debounce_state c = DC5V_STATE_IN)) then
    let c := bat_charge_state_stop c in
    let c := set_bat_exist_state true (set_precharge_time_sec 0 c) in
    bat_check_real_voltage BAT_VOLT_CHECK_SAMPLE_SEC (set_bat_charge_state BAT_CHG_STATE_LOW c)
  else
    let c := restart_from_err now c in
    let period := rounds BAT_PRECHARGE_CHECK_PERIOD_SEC in
    if state_timer_count c <? period then
      let c := set_state_timer_count (u16 (state_timer_count c + 1)) c in
      if state_timer_count c =? period then
        bat_check_real_voltage BAT_VOLT_CHECK_SAMPLE_SEC (set_precharge_time_sec (u16 (precharge_time_sec c + BAT_PRECHARGE_CHECK_PERIOD_SEC)) c)
      else c
    else if bat_volt <? 0 then c
    else if bat_volt <=? Precharge_Stop_Voltage (configs c) then
      let c := if bat_exist_state c && (BAT_NOT_EXIST_CHECK_TIME_SEC <=? precharge_time_sec c)
        then set_bat_error_state true (set_precharge_time_sec 0 c) else c in
      set_bat_charge_state BAT_CHG_STATE_LOW c
    else
      let c := set_bat_error_state false (set_bat_exist_state true (set_precharge_time_sec 0 c)) in
      set_bat_charge_state BAT_CHG_STATE_NORMAL c.

Definition bat_charge_state_normal (bat_volt : Z) (c : bat_charge_context_t) : bat_charge_context_t :=
  if bool_decide (dc5v_debounce_state c = DC5V_STATE_IN) then
    let c := bat_charge_state_start (Charge_Current (configs c)) c in
    set_charge_near_full false (set_bat_charge_state BAT_CHG_STATE_CHARGE c)
  else bat_charge_state_check_volt bat_volt c.

Definition bat_charge_check_stop_current (c : bat_charge_context_t) : bool :=
  negb (bat_real_charge_current c =? 0) && (bat_real_charge_current c <? stop_current_ma (adjust_current c)).

Definition bat_charge_cv_state_buf_get (c : bat_charge_context_t) : Z :=
  let p := charge_cv_state_buf c in
  if cv_count p <? 10 then - 1
  else if existsb (Z.eqb 0) (cv_buf p) then 0
  else if foldr Z.add 0 (cv_buf p) =? 2 * 10 then 2
  else 1.

Definition bat_charge_cv_state_buf_put (c : bat_charge_context_t) : bat_charge_context_t :=
  let p := charge_cv_state_buf c in
  if negb (charge_ctrl_enabled c) then c
  else
    let buf := <[Z.to_nat (cv_index p) := u8 (bat_charge_get_cv_state c)]> (cv_buf p) in
    let index := u8 (cv_index p + 1) in
    let index := if 10 <=? index then 0 else index in
    let count := if cv_count p <? 10 then u8 (cv_count p + 1) else cv_count p in
    set_charge_cv_state_buf (mk_cv_buf buf count index) c.

(** The first stage of bat_charge_check_cv_state: the stage that holds after it. *)
Definition cv_stage_1 (now cv_stage : Z) (c : bat_charge_context_t) : Z * bat_charge_context_t :=
  if (cv_stage =? 1) && negb (ac_is_valid (adjust_current c)) then
    let c := bat_charge_cv_state_buf_init c in
    if cv_stage_1_begin_time c =? 0 then (cv_stage, set_cv_stage_1_begin_time now c)
    else if (Charge_Current (configs c) <=? CHARGE_CURRENT_80_MA) && (60 * 60 * 1000 <? bat_get_diff_time now (cv_stage_1_begin_time c)) then (2, c)
    else (cv_stage, c)
  else (cv_stage, c).

Definition bat_charge_check_cv_state (now : Z) (c : bat_charge_context_t) : bat_charge_context_t :=
  if charge_near_full c then c
  else
    let c := bat_charge_cv_state_buf_put c in
    let '(cv_stage, c) := cv_stage_1 now (bat_charge_cv_state_buf_get c) c in
    if cv_stage =? 2 then
      let c := bat_charge_cv_state_buf_init c in
      if negb (adjust_end (adjust_cv_offset c)) then bat_charge_adjust_cv_offset (bat_charge_current_percent_buf_init c)
      else
        let c := if cv_stage_2_begin_time c =? 0 then set_cv_stage_2_begin_time now c else c in
        bat_charge_adjust_current c
    else c.

(** The label charge_err_out of bat_charge_state_charge. *)
Definition charge_err_out (now : Z) (c : bat_charge_context_t) : bat_charge_context_t :=
  let c := bat_charge_ctrl_disable c in
  let c := set_err_to_stop_charge true (set_err_stop_begin_time now c) in
  set_bat_charge_state BAT_CHG_STATE_INIT c.

Definition adjust_current_invalid (c : bat_charge_context_t) : bat_charge_context_t :=
  let a := adjust_current c in
  set_adjust_current (mk_adjust_current false (charge_current a) (stop_current_percent a) (stop_current_ma a)) c.

Definition no_cv_stages (c : bat_charge_context_t) : bat_charge_context_t := set_cv_stage_2_begin_time 0 (set_cv_stage_1_begin_time 0 c).

(** The plug when the battery became full, or since. *)
Definition keep_full_plug (c : bat_charge_context_t) : bat_charge_context_t := set_bat_full_dc5v_last_state (dc5v_debounce_state c) c.

(** The label charge_full. *)
Definition charge_full (c : bat_charge_context_t) : bat_charge_context_t :=
  let c := notify BAT_CHG_EVENT_CHARGE_FULL (bat_charge_ctrl_disable (set_last_cap_detect 100 c)) in
  adjust_current_invalid (no_cv_stages (set_bat_charge_state BAT_CHG_STATE_FULL (keep_full_plug c))).

(** Whether the battery counts as full. *)
Definition stop_charge (now bat_volt : Z) (c : bat_charge_context_t) : bool :=
  let g := configs c in
  if limit_current_percent c =? 0 then false
  else if negb (adjust_end (adjust_cv_offset c)) then false
  else if cv_stage_2_begin_time c =? 0 then false
  else if 60 * 60 * 1000 <? bat_get_diff_time now (cv_stage_2_begin_time c) then true
  else if Charge_Stop_Mode g =? CHARGE_STOP_BY_VOLTAGE then Charge_Stop_Voltage g <=? bat_volt
  else if Charge_Stop_Mode g =? CHARGE_STOP_BY_CURRENT then bat_charge_check_stop_current c
  else if Charge_Stop_Mode g =? CHARGE_STOP_BY_VOLTAGE_AND_CURRENT then (Charge_Stop_Voltage g <=? bat_volt) && bat_charge_check_stop_current c
  else false.

(** The overvoltage check, and the limit of the charging time in minutes. *)
Definition over_voltage (r : option Z) (c : bat_charge_context_t) : bool :=
  (Bat_OVP_Enable (configs c) =? YES) &&
  (let v := adc_get_sample c r in (0 <? v) && (OVP_Voltage_Normal_Temperature (configs c) <=? bat_adc_get_voltage_mv v)).

Definition time_over (now : Z) (c : bat_charge_context_t) : bool :=
  let l := Charge_Total_Time_Limit (configs c) in
  negb (l =? 0) && (u32 (l * 60 * 1000) <? bat_get_diff_time now (charge_begin_time c)).

(** A round of bat_charge_state_charge before the next measurement. *)
Definition charge_round (i : tick_in) (period : Z) (c : bat_charge_context_t) : bat_charge_context_t :=
  let c := set_state_timer_count (u16 (state_timer_count c + 1)) c in
  let c := if state_timer_count c mod (1000 / BAT_CHARGE_DRIVER_TIMER_MS) =? 0 then
      let '(state, c) := get_dc5v_current_state (rd_cv_pmu i) c in
      if bool_decide (state = DC5V_STATE_PENDING) then c else bat_charge_check_cv_state (now i) c
    else c in
  if (state_timer_count c mod (10000 / BAT_CHARGE_DRIVER_TIMER_MS) =? 0) && over_voltage (rd_ovp i) c then charge_err_out (now i) c
  else if state_timer_count c =? period then bat_check_real_voltage BAT_VOLT_CHECK_SAMPLE_SEC c
  else c.

(** What bat_charge_state_charge does with a measured voltage. *)
Definition charge_measured (now bat_volt : Z) (c : bat_charge_context_t) : bat_charge_context_t :=
  if charge_near_full c then charge_full c
  else if negb (stop_charge now bat_volt c) then
    if time_over now c then charge_err_out now c
    else set_charge_near_full false (set_state_timer_count 0 (bat_charge_state_start (Charge_Current (configs c)) c))
  else set_charge_near_full true (set_state_timer_count 0 (bat_charge_state_start (Charge_Current (configs c)) c)).

Definition bat_charge_state_charge (i : tick_in) (bat_volt : Z) (c : bat_charge_context_t) : bat_charge_context_t :=
  if negb (bool_decide (dc5v_debounce_state c = DC5V_STATE_IN)) then
    let c := set_bat_charge_state BAT_CHG_STATE_NORMAL (bat_charge_state_stop c) in
    bat_check_real_voltage BAT_VOLT_CHECK_SAMPLE_SEC (adjust_current_invalid (no_cv_stages c))
  else
    let c := restart_from_err (now i) c in
    let period := rounds (if charge_near_full c then Charge_Full_Continue_Sec (configs c) else Charge_Check_Period_Sec (configs c)) in
    if charge_near_full c && (period =? 0) then charge_full c
    else if state_timer_count c <? period then charge_round i period c
    else if bat_volt <? 0 then c
    else charge_measured (now i) bat_volt c.

Definition bat_charge_state_full (bat_volt : Z) (c : bat_charge_context_t) : bat_charge_context_t :=
  if negb (bool_decide (bat_full_dc5v_last_state c = dc5v_debounce_state c)) then
    let c :=
      if bool_decide (dc5v_debounce_state c = DC5V_STATE_IN) then notify BAT_CHG_EVENT_BATTERY_FULL c
      else if bool_decide (bat_full_dc5v_last_state c = DC5V_STATE_IN) then
        let c := notify BAT_CHG_EVENT_CHARGE_STOP c in
        if negb (Z.land (cfg_features (configs c)) SYS_FORCE_CHARGE_WHEN_DC5V_IN =? 0) then set_bat_charge_state BAT_CHG_STATE_NORMAL c else c
      else c in
    set_state_timer_count 0 (keep_full_plug c)
  else bat_charge_state_check_volt bat_volt c.

Definition bat_charge_report (cur_voltage cur_cap : Z) (c : bat_charge_context_t) : bat_charge_context_t :=
  let cur_cap := u8 cur_cap in
  let c := if negb (last_cap_report c =? cur_cap)
    then notify (BAT_CHG_EVENT_CAP_CHANGE cur_cap) (notify (BAT_CHG_EVENT_VOLTAGE_CHANGE (u32 (cur_voltage * 1000))) c) else c in
  set_last_cap_report cur_cap (set_last_voltage_report (u16 cur_voltage) c).

(** The measurement of bat_charge_status_proc: the voltage, or -1. *)
Definition measure (now : Z) (c : bat_charge_context_t) : Z * bat_charge_context_t :=
  if need_check_bat_real_volt c then
    let c := if 0 <? bat_volt_check_wait_count c then set_bat_volt_check_wait_count (bat_volt_check_wait_count c - 1) c else c in
    if bat_volt_check_wait_count c =? 0 then
      let bat_volt := get_battery_voltage_by_time 1 c in
      let c := set_need_check_bat_real_volt false c in
      let '(bat_volt, c) := bat_check_voltage_change now bat_volt c in
      let '(percent, c) := get_battery_percent c in
      let c := bat_charge_report bat_volt percent c in
      let c := if bool_decide (dc5v_debounce_state c = DC5V_STATE_IN) then set_current_cc_sel (Charge_Current (configs c)) c else c in
      (bat_volt, c)
    else (- 1, c)
  else (- 1, c).

(** The switch over the states. *)
Definition state_proc (i : tick_in) (bat_volt : Z) (c : bat_charge_context_t) : bat_charge_context_t :=
  match bat_charge_state c with
  | BAT_CHG_STATE_INIT => bat_charge_state_init (now i) bat_volt c
  | BAT_CHG_STATE_LOW => bat_charge_state_low bat_volt c
  | BAT_CHG_STATE_PRECHARGE => bat_charge_state_precharge (now i) bat_volt c
  | BAT_CHG_STATE_NORMAL => bat_charge_state_normal bat_volt c
  | BAT_CHG_STATE_CHARGE => bat_charge_state_charge i bat_volt c
  | BAT_CHG_STATE_FULL => bat_charge_state_full bat_volt c
  end.

Definition bat_charge_status_proc (i : tick_in) (c : bat_charge_context_t) : bat_charge_context_t :=
  let last_state := bat_charge_state c in
  let '(bat_volt, c) := measure (now i) c in
  let c := state_proc i bat_volt c in
  let c := if bool_decide (bat_charge_state c = last_state) then c
    else
      let c := set_state_timer_count 0 c in
      if bool_decide (bat_charge_state c = BAT_CHG_STATE_CHARGE) then set_charge_begin_time (now i) c else c in
  bat_charge_check_enable c.

(** ** bat_charge_driver.c: the timer, the start and the interface *)

(** The sample of the battery every 100 ms. *)
Definition sample_battery (r : option Z) (c : bat_charge_context_t) : bat_charge_context_t :=
  if bat_adc_sample_timer_count c mod (BAT_ADC_SAMPLE_INTERVAL_MS / BAT_CHARGE_DRIVER_TIMER_MS) =? 0 then
    let v := adc_get_sample c r in
    if 0 <? v then
      let mv := bat_adc_get_voltage_mv v in
      let c := if (BAT_VOLTAGE_SAMPLE_VALID_MIN <? mv) && (mv <? BAT_VOLTAGE_SAMPLE_VALID_MAX) then bat_adc_sample_buf_put v c else c in
      if BAT_CHARGER_DEBUG_INFO_OUT_MS / BAT_CHARGE_DRIVER_TIMER_MS <=? bat_adc_sample_timer_count c
      then snd (get_battery_percent (set_bat_adc_sample_timer_count 0 c)) else c
    else c
  else c.

(** The sample of the charging current every second. *)
Definition sample_current (r : option Z) (c : bat_charge_context_t) : bat_charge_context_t :=
  if bat_chargei_sample_timer_count c mod (BAT_CHARGEI_SAMPLE_INTERVAL_MS / BAT_CHARGE_DRIVER_TIMER_MS) =? 0 then
    let c := bat_chargei_sample_buf_put (chargei_adc_get_current_ma (adc_get_sample c r)) c in
    let c := if is_charging (bat_charge_state c) then set_bat_real_charge_current (get_chargei_avg_value c) c else c in
    set_bat_chargei_sample_timer_count 0 c
  else c.

Definition bat_charge_timer_handler (i : tick_in) (c : bat_charge_context_t) : bat_charge_context_t :=
  let c := set_bat_adc_sample_timer_count (u16 (bat_adc_sample_timer_count c + 1)) c in
  let c := set_bat_chargei_sample_timer_count (u16 (bat_chargei_sample_timer_count c + 1)) c in
  let c := sample_battery (rd_sample i) c in
  let c := sample_current (rd_chargei i) c in
  let c := bat_charge_dc5v_detect (rd_pmu i) c in
  let c := bat_charge_status_proc i c in
  set_timer true c.

(** What bat_charge_init and bat_charge_resume read: the clock, whether
    bat_channel_setup finds the ADC and sets its channels up, the calibrations, the plug before and after, and the 30
    samples of the battery. *)
Record start_in : Type := mk_start {
  st_now : Z;
  st_dev : bool;
  st_setup : bool;
  st_cc_calib : option Z;
  st_cv_calib : option Z;
  st_pmu : pmu_in;
  st_samples : list (option Z);
  st_pmu_2 : pmu_in
}.

(** The first real voltage: the saved one when it is near the measured one. *)
Definition init_real_volt (c : bat_charge_context_t) : Z :=
  let bat_mv_temp := u16 (get_battery_voltage_by_time BAT_VOLT_CHECK_SAMPLE_SEC c) in
  if negb (last_saved_bat_volt c =? 0) && (Z.abs (last_saved_bat_volt c - bat_mv_temp) <? BAT_INIT_VOLMV_DIFF_MAX)
  then last_saved_bat_volt c else bat_mv_temp.

(** The part of bat_charge_init before bat_charge_ctrl_init. *)
Definition init_settings (c : bat_charge_context_t) : bat_charge_context_t :=
  let c := set_last_cap_detect BAT_CAP_RESERVE (set_last_cap_report BAT_CAP_RESERVE (set_last_voltage_report BAT_VOLTAGE_RESERVE c)) in
  let g := configs c in
  let mv := charge_voltage_mv c in
  let sv := if mv - 20 <? Charge_Stop_Voltage g then u16 (mv - 20) else Charge_Stop_Voltage g in
  let db := if DC5V_DEBOUNCE_MAX_TIME_MS <? DC5V_Detect_Debounce_Time_Ms g then DC5V_DEBOUNCE_TIME_DEFAULT_MS else DC5V_Detect_Debounce_Time_Ms g in
  let c := set_configs (set_stop_voltage_debounce sv db g) c in
  let c := bat_get_precharge_current c in
  let c := set_limit_cv_level (Charge_Voltage g) (set_limit_current_percent 100 c) in
  let c := set_dc5v_debounce_buf (replicate (Z.to_nat DC5V_DEBOUNCE_BUF_MAX) DC5V_STATE_INVALID) c in
  let c := set_bat_adc_sample_buf (replicate (Z.to_nat BAT_ADC_SAMPLE_BUF_SIZE) 0) c in
  let c := bat_chargei_sample_buf_init c in
  set_bat_error_state false (set_bat_exist_state true c).

(** The part after it. *)
Definition init_volt (s : start_in) (c : bat_charge_context_t) : bat_charge_context_t :=
  let c := bat_check_real_voltage 1 c in
  let c := bat_adc_sample_buf_init (st_pmu s) (st_samples s) c in
  let c := set_bat_real_volt (init_real_volt c) c in
  let c := set_last_time_check_bat_volt (st_now s) c in
  let '(state, c) := get_dc5v_current_state (st_pmu_2 s) c in
  let c := if bool_decide (state = DC5V_STATE_IN) then set_charge_begin_time (st_now s) c else bat_check_voltage_low (bat_real_volt c) c in
  set_enabled true (set_inited true (set_timer true c)).

Definition bat_charge_init (s : start_in) (c : bat_charge_context_t) : Z * bat_charge_context_t :=
  if inited c then (0, c)
  else if negb (st_dev s) then (- 1, set_adc_dev false c)
  else if negb (st_setup s) then (- 1, set_adc_dev true c)
  else (0, init_volt s (bat_charge_ctrl_init (st_cc_calib s) (st_cv_calib s) (init_settings (set_adc_dev true c)))).

Definition bat_charge_suspend (c : bat_charge_context_t) : bat_charge_context_t :=
  if negb (inited c) || negb (enabled c) then c else set_enabled false (set_timer false c).

Definition bat_charge_resume (s : start_in) (c : bat_charge_context_t) : bat_charge_context_t :=
  if negb (inited c) then snd (bat_charge_init s c)
  else if enabled c then c
  else
    let c := set_bat_charge_state BAT_CHG_STATE_INIT (set_dc5v_debounce_state DC5V_STATE_INVALID c) in
    let c := set_last_time_check_bat_volt 0 (set_last_saved_bat_volt 0 c) in
    let c := set_dc5v_debounce_buf (replicate (Z.to_nat DC5V_DEBOUNCE_BUF_MAX) DC5V_STATE_INVALID) c in
    let c := set_bak_PMU_CHG_CTL (CHG_CTL_SVCC c) c in
    let c := bat_check_real_voltage 1 c in
    let c := bat_adc_sample_buf_init (st_pmu s) (st_samples s) c in
    let c := bat_chargei_sample_buf_init c in
    set_timer true (set_enabled true (set_state_timer_count 0 c)).

Definition battery_is_exist (c : bat_charge_context_t) : bool := bat_exist_state c.
Definition battery_is_full (c : bat_charge_context_t) : bool := bool_decide (bat_charge_state c = BAT_CHG_STATE_FULL).

(** power_supply_status *)
Definition POWER_SUPPLY_STATUS_UNKNOWN : Z := 0.
Definition POWER_SUPPLY_STATUS_BAT_NOTEXIST : Z := 1.
Definition POWER_SUPPLY_STATUS_DISCHARGE : Z := 2.
Definition POWER_SUPPLY_STATUS_CHARGING : Z := 3.
Definition POWER_SUPPLY_STATUS_FULL : Z := 4.
Definition POWER_SUPPLY_STATUS_BAT_ERROR : Z := 9.

Inductive power_supply_property : Type :=
| POWER_SUPPLY_PROP_STATUS
| POWER_SUPPLY_PROP_ONLINE
| POWER_SUPPLY_PROP_VOLTAGE_NOW
| POWER_SUPPLY_PROP_CAPACITY
| POWER_SUPPLY_PROP_DC5V
| POWER_SUPPLY_PROP_DC5V_STATUS
| POWER_SUPPLY_PROP_DC5V_VOLTAGE
| POWER_SUPPLY_SET_PROP_FEATURE
| POWER_SUPPLY_SET_DC5V_PULLDOWM
| POWER_SUPPLY_WAKE_CHARGER_BOX
| POWER_SUPPLY_SET_INIT_VOL.

(** battery_acts_get_property: the result, the value and the context; [r] is what it reads. *)
Definition battery_acts_get_property (psp : power_supply_property) (r : pmu_in) (c : bat_charge_context_t) : Z * Z * bat_charge_context_t :=
  match psp with
  | POWER_SUPPLY_PROP_STATUS =>
      (0, (if negb (bat_exist_state c) then POWER_SUPPLY_STATUS_BAT_NOTEXIST
           else if bat_error_state c then POWER_SUPPLY_STATUS_BAT_ERROR
           else if is_charging (bat_charge_state c) then POWER_SUPPLY_STATUS_CHARGING
           else if bool_decide (bat_charge_state c = BAT_CHG_STATE_FULL) then POWER_SUPPLY_STATUS_FULL
           else if negb (rd_plug r) then POWER_SUPPLY_STATUS_DISCHARGE
           else POWER_SUPPLY_STATUS_UNKNOWN), c)
  | POWER_SUPPLY_PROP_ONLINE => (0, 1, c)
  | POWER_SUPPLY_PROP_VOLTAGE_NOW => (0, get_battery_voltage_mv c * 1000, c)
  | POWER_SUPPLY_PROP_CAPACITY => let '(percent, c) := get_battery_percent c in (0, percent, c)
  | POWER_SUPPLY_PROP_DC5V =>
      (0, if bool_decide (dc5v_debounce_state c = DC5V_STATE_OUT) && negb (rd_plug r) then 0 else 1, c)
  | POWER_SUPPLY_PROP_DC5V_STATUS | POWER_SUPPLY_PROP_DC5V_VOLTAGE =>
      (0, dc5v_adc_get_voltage_mv (adc_get_sample c (rd_dc5v r)), c)
  | _ => (- EINVAL, 0, c)
  end.

Definition battery_acts_set_property (psp : power_supply_property) (intval : Z) (c : bat_charge_context_t) : bat_charge_context_t :=
  match psp with
  | POWER_SUPPLY_SET_PROP_FEATURE => set_configs (set_cfg_features (u16 intval) (configs c)) c
  | POWER_SUPPLY_SET_INIT_VOL => set_last_saved_bat_volt (u16 intval) c
  | _ => c
  end.

(** battery_acts_register_notify with a callback that is not NULL. *)
Definition battery_acts_register_notify (c : bat_charge_context_t) : bat_charge_context_t :=
  if callback c then c else set_callback true c.

(** ** The start of the driver *)

(** pmu_adc_cal and bat_adc_get_sample_direct of the register's ten bits. *)
Definition pmu_adc_cal (adcval offset : Z) : Z := u16 (adcval + offset).
Definition bat_adc_get_sample_direct (c : bat_charge_context_t) (reg : Z) : Z := pmu_adc_cal (Z.land reg 0x3FF) (adc_bat_offset c).

Definition adc_cal_init (calib : option Z) (c : bat_charge_context_t) : bat_charge_context_t :=
  set_adc_bat_offset
    match calib with
    | Some offset => if negb (Z.land offset 0x10 =? 0) then Z.land offset 0x0f * 2 else - (Z.land offset 0x0f * 2)
    | None => 0
    end c.

(** The readings of one round of the init charge: the battery three times, once
    more with the charger off, and the plug. *)
Record init_in : Type := mk_init { in_bat : list Z; in_ocv : Z; in_plug : bool }.

(** The wait of bat_boot_stage_check_voltage before it measures the battery with
    the charger off, and the one of pmuadc_reset_and_config, in milliseconds. *)
Definition OCV_WAIT_MS : Z := 200.
Definition PMUADC_RESET_WAIT_MS : Z := 1.

(** The loop of bat_boot_stage_check_voltage over its readings, with the time it
    waits. *)
Fixpoint boot_stage_loop (rs : list Z) (ocv : Z) (c : bat_charge_context_t) : bool * Z * bat_charge_context_t :=
  match rs with
  | [] => (true, 0, c)
  | r :: rs =>
      let g := configs c in
      let ret := bat_adc_get_sample_direct c r in
      if ret <? 0 then (false, 0, c)
      else
        let bat_mv := bat_adc_get_voltage_mv ret in
        if bat_mv <? Init_Charge_Vol_1 g then (false, 0, set_init_charge_stage 1 c)
        else if bat_mv <? Init_Charge_Vol_2 g then (false, 0, set_init_charge_stage 2 c)
        else if bat_mv <? Init_Charge_Vol_3 g then
          if 3500 <=? bat_mv then
            let c := pmu_chg_ctl_reg_write (Z.shiftl 1 CHG_CTL_SVCC_CV_3V3) (Z.shiftl 1 CHG_CTL_SVCC_CV_3V3) c in
            let c := set_init_charge_stage (if bat_adc_get_voltage_mv (bat_adc_get_sample_direct c ocv) <? 3400 then 2 else 3) c in
            (false, OCV_WAIT_MS, pmu_chg_ctl_reg_write (Z.shiftl 1 CHG_CTL_SVCC_CV_3V3) (Z.shiftl 0 CHG_CTL_SVCC_CV_3V3) c)
          else (false, 0, set_init_charge_stage 2 c)
        else boot_stage_loop rs ocv c
  end.

Definition bat_boot_stage_check_voltage (i : init_in) (c : bat_charge_context_t) : bool * Z * bat_charge_context_t :=
  boot_stage_loop (take 3 (in_bat i)) (in_ocv i) c.

(** How battery_acts_init ends: with a result, a restart or the power off. *)
Inductive boot_end : Type := Booted (ret : Z) (c : bat_charge_context_t) | Reboot | Power_off.

(** What the loop of the init charge does in a round before it waits. *)
Definition init_stage_set (c : bat_charge_context_t) : bat_charge_context_t :=
  if negb (init_charge_stage c =? init_charge_stage_last c) && (init_charge_stage_last c <? init_charge_stage c) then
    let c := bat_init_charge_set c in set_init_charge_stage_last (init_charge_stage c) c
  else c.

(** The "while(1)" of the init charge: [f] gives the readings of the rounds,
    [waited] are the milliseconds spent in wait_special_ms so far, of which
    total_ms counts only the ones of the loop itself; out of fuel is [None]. *)
Fixpoint init_charge_loop (fuel : nat) (f : nat -> init_in) (k : nat) (waited total_ms dc5v_out_cnt : Z) (c : bat_charge_context_t)
    : option (boot_end * Z) :=
  match fuel with
  | O => None
  | S fuel =>
      let i := f k in
      let '(ready, ms, c) := bat_boot_stage_check_voltage i c in
      if ready then Some (Booted 0 (set_dc5v_debounce_state DC5V_STATE_IN c), waited + ms)
      else
        let c := init_stage_set c in
        let waited := waited + ms + BAT_INIT_CHARGE_INTERVAL_MS in
        let total_ms := u32 (total_ms + BAT_INIT_CHARGE_INTERVAL_MS) in
        if 3600000 <? total_ms then Some (Reboot, waited)
        else if negb (in_plug i) then
          let dc5v_out_cnt := dc5v_out_cnt + 1 in
          if 2 <=? dc5v_out_cnt then Some (Power_off, waited) else init_charge_loop fuel f (S k) waited total_ms dc5v_out_cnt c
        else init_charge_loop fuel f (S k) waited total_ms 0 c
  end.

(** The branch of battery_acts_init without the plug: three readings, any of them too low powers off. *)
Definition boot_without_dc5v (rs : list Z) (c : bat_charge_context_t) : boot_end :=
  if existsb (fun r => bat_adc_get_voltage_mv (bat_adc_get_sample_direct c r) <? POWERON_MIN_VOL_WITHOUT_DC5V) (take 3 rs) then Power_off
  else Booted 0 (set_dc5v_debounce_state DC5V_STATE_OUT c).

(** The context that memset leaves, but the register CHG_CTL_SVCC. *)
Definition cleared_configs : bat_charge_configs_t :=
  mk_configs (mk_cfg_charge 0 0 0 0 0 0 0 0 0 0 0 0 0 0 0 0 0 0 0 0 0 0 0 0 0) (replicate 10 0) (mk_cfg_low 0 0 0) 0.

Definition cleared (reg : Z) : bat_charge_context_t :=
  mk_context
    (mk_samples false (replicate 30 0) (replicate 10 0) 0 0 0 0 0)
    (mk_dc5v (replicate 20 DC5V_STATE_OUT) DC5V_STATE_OUT DC5V_STATE_OUT DC5V_STATE_OUT 0 false)
    (mk_control 0 reg false false 0 0 0 0 0 0)
    (mk_cv_data (mk_percent_buf (replicate 5 0) 0 0 0) (mk_cv_buf (replicate 10 0) 0 0) (mk_adjust_cv false 0 false 0) (mk_adjust_current false 0 0 0) 0 0)
    (mk_voltage 0 0 0 0 false false false 0 0 0)
    (mk_status BAT_CHG_STATE_INIT false false false false false 0 0 0 0 0 false false false)
    (mk_driver false false false false 0 0 0 0)
    cleared_configs [].

(** battery_acts_init: [config] is what bat_charge_config_init reads, [reg] the
    register, [calib] the ADC's calibration, [plug] the plug at the start, [rs]
    the battery and [f] the readings of the init charge, which lasts at most
    3601 rounds.  The result comes with the milliseconds spent in
    wait_special_ms: one in adc_config, and those of the init charge.
    bat_wait_batadc_ok reads the ADC at most 100000 times and changes nothing. *)
Definition battery_acts_init (config : option bat_charge_configs_t) (reg : Z) (calib : option Z) (plug : bool) (rs : list Z) (f : nat -> init_in)
    : option (boot_end * Z) :=
  let c := bat_boot_open_charger (set_bak_PMU_CHG_CTL reg (cleared reg)) in
  match config with
  | None => Some (Booted (- ENOENT) c, 0)
  | Some g =>
      let c := adc_cal_init calib (set_configs g c) in
      if negb plug then Some (boot_without_dc5v rs c, PMUADC_RESET_WAIT_MS)
      else if Init_Charge_Enable g =? YES then
        let c := set_init_charge_stage 0 (set_init_charge_stage_last 0 (bat_get_initcharge_current c)) in
        init_charge_loop 3601 f 0 PMUADC_RESET_WAIT_MS 0 0 c
      else Some (Booted 0 (set_dc5v_debounce_state DC5V_STATE_IN c), PMUADC_RESET_WAIT_MS)
  end.
