(* ===== verification/ChargerProof.v ===== *)
(** * Battery charger: what holds of it

    The charger's register and the state machine over runs of the driver's
    work: the charger is off when it is not charging, the stop on overvoltage
    and the end of charging at the time limit. *)

From stdpp Require Import base list numbers option strings sorting.
From S2P Require Import Prelude Charger.
Open Scope Z_scope.

Implicit Types c d : bat_charge_context_t.

Ltac chg := cbn [
  smp dcv ctl cvd vol sta drv configs events adc_dev bat_adc_sample_buf charge_current_ma_buf bat_adc_sample_timer_count
    bat_chargei_sample_timer_count bat_adc_sample_index bat_chargei_sample_index adc_bat_offset dc5v_debounce_buf dc5v_debounce_state
    bat_full_dc5v_last_state dc5v_last_state last_dc5v_mv charger_enable_timer bak_PMU_CHG_CTL CHG_CTL_SVCC charge_ctrl_enabled charge_enable_pending
    charge_current_sel current_cc_sel precharge_current_sel limit_current_percent limit_cv_level charge_cv_offset charge_current_percent_buf
    charge_cv_state_buf adjust_cv_offset adjust_current cv_stage_1_begin_time cv_stage_2_begin_time bat_real_volt bat_real_charge_current
    last_saved_bat_volt last_time_check_bat_volt bat_volt_low bat_volt_low_ex bat_volt_too_low last_cap_report last_cap_detect last_voltage_report
    bat_charge_state charge_state_started need_check_bat_real_volt charge_near_full bat_exist_state bat_error_state state_timer_count
    precharge_time_sec bat_volt_check_wait_count charge_begin_time err_stop_begin_time err_to_stop_charge err_status_dc5v_change_flag
    restart_from_err_flag inited enabled callback timer init_charge_stage_last init_charge_stage init_charge_current_ma_1 init_charge_current_ma_2
  set_smp set_dcv set_ctl set_cvd set_vol set_sta set_drv set_configs set_events set_adc_dev set_bat_adc_sample_buf set_charge_current_ma_buf
    set_bat_adc_sample_timer_count set_bat_chargei_sample_timer_count set_bat_adc_sample_index set_bat_chargei_sample_index set_adc_bat_offset
    set_dc5v_debounce_buf set_dc5v_debounce_state set_bat_full_dc5v_last_state set_dc5v_last_state set_last_dc5v_mv set_charger_enable_timer
    set_bak_PMU_CHG_CTL set_CHG_CTL_SVCC set_charge_ctrl_enabled set_charge_enable_pending set_charge_current_sel set_current_cc_sel
    set_precharge_current_sel set_limit_current_percent set_limit_cv_level set_charge_cv_offset set_charge_current_percent_buf set_charge_cv_state_buf
    set_adjust_cv_offset set_adjust_current set_cv_stage_1_begin_time set_cv_stage_2_begin_time set_bat_real_volt set_bat_real_charge_current
    set_last_saved_bat_volt set_last_time_check_bat_volt set_bat_volt_low set_bat_volt_low_ex set_bat_volt_too_low set_last_cap_report
    set_last_cap_detect set_last_voltage_report set_bat_charge_state set_charge_state_started set_need_check_bat_real_volt set_charge_near_full
    set_bat_exist_state set_bat_error_state set_state_timer_count set_precharge_time_sec set_bat_volt_check_wait_count set_charge_begin_time
    set_err_stop_begin_time set_err_to_stop_charge set_err_status_dc5v_change_flag set_restart_from_err_flag set_inited set_enabled set_callback
    set_timer set_init_charge_stage_last set_init_charge_stage set_init_charge_current_ma_1 set_init_charge_current_ma_2].
Ltac chg_in H := cbn [
  smp dcv ctl cvd vol sta drv configs events adc_dev bat_adc_sample_buf charge_current_ma_buf bat_adc_sample_timer_count
    bat_chargei_sample_timer_count bat_adc_sample_index bat_chargei_sample_index adc_bat_offset dc5v_debounce_buf dc5v_debounce_state
    bat_full_dc5v_last_state dc5v_last_state last_dc5v_mv charger_enable_timer bak_PMU_CHG_CTL CHG_CTL_SVCC charge_ctrl_enabled charge_enable_pending
    charge_current_sel current_cc_sel precharge_current_sel limit_current_percent limit_cv_level charge_cv_offset charge_current_percent_buf
    charge_cv_state_buf adjust_cv_offset adjust_current cv_stage_1_begin_time cv_stage_2_begin_time bat_real_volt bat_real_charge_current
    last_saved_bat_volt last_time_check_bat_volt bat_volt_low bat_volt_low_ex bat_volt_too_low last_cap_report last_cap_detect last_voltage_report
    bat_charge_state charge_state_started need_check_bat_real_volt charge_near_full bat_exist_state bat_error_state state_timer_count
    precharge_time_sec bat_volt_check_wait_count charge_begin_time err_stop_begin_time err_to_stop_charge err_status_dc5v_change_flag
    restart_from_err_flag inited enabled callback timer init_charge_stage_last init_charge_stage init_charge_current_ma_1 init_charge_current_ma_2
  set_smp set_dcv set_ctl set_cvd set_vol set_sta set_drv set_configs set_events set_adc_dev set_bat_adc_sample_buf set_charge_current_ma_buf
    set_bat_adc_sample_timer_count set_bat_chargei_sample_timer_count set_bat_adc_sample_index set_bat_chargei_sample_index set_adc_bat_offset
    set_dc5v_debounce_buf set_dc5v_debounce_state set_bat_full_dc5v_last_state set_dc5v_last_state set_last_dc5v_mv set_charger_enable_timer
    set_bak_PMU_CHG_CTL set_CHG_CTL_SVCC set_charge_ctrl_enabled set_charge_enable_pending set_charge_current_sel set_current_cc_sel
    set_precharge_current_sel set_limit_current_percent set_limit_cv_level set_charge_cv_offset set_charge_current_percent_buf set_charge_cv_state_buf
    set_adjust_cv_offset set_adjust_current set_cv_stage_1_begin_time set_cv_stage_2_begin_time set_bat_real_volt set_bat_real_charge_current
    set_last_saved_bat_volt set_last_time_check_bat_volt set_bat_volt_low set_bat_volt_low_ex set_bat_volt_too_low set_last_cap_report
    set_last_cap_detect set_last_voltage_report set_bat_charge_state set_charge_state_started set_need_check_bat_real_volt set_charge_near_full
    set_bat_exist_state set_bat_error_state set_state_timer_count set_precharge_time_sec set_bat_volt_check_wait_count set_charge_begin_time
    set_err_stop_begin_time set_err_to_stop_charge set_err_status_dc5v_change_flag set_restart_from_err_flag set_inited set_enabled set_callback
    set_timer set_init_charge_stage_last set_init_charge_stage set_init_charge_current_ma_1 set_init_charge_current_ma_2] in H.

(** ** What each operation leaves alone *)

Create Rewrite HintDb chg.

Ltac split_ifs := repeat match goal with |- context [if ?b then _ else _] => destruct b eqn:? end.
Ltac frame := intros; repeat split; split_ifs; chg; reflexivity.

Lemma notify_smp e (c : bat_charge_context_t) : smp (notify e c) = smp c.
Proof. unfold notify. frame. Qed.
Lemma notify_dcv e (c : bat_charge_context_t) : dcv (notify e c) = dcv c.
Proof. unfold notify. frame. Qed.
Lemma notify_ctl e (c : bat_charge_context_t) : ctl (notify e c) = ctl c.
Proof. unfold notify. frame. Qed.
Lemma notify_cvd e (c : bat_charge_context_t) : cvd (notify e c) = cvd c.
Proof. unfold notify. frame. Qed.
Lemma notify_vol e (c : bat_charge_context_t) : vol (notify e c) = vol c.
Proof. unfold notify. frame. Qed.
Lemma notify_sta e (c : bat_charge_context_t) : sta (notify e c) = sta c.
Proof. unfold notify. frame. Qed.
Lemma notify_drv e (c : bat_charge_context_t) : drv (notify e c) = drv c.
Proof. unfold notify. frame. Qed.
Lemma notify_configs e (c : bat_charge_context_t) : configs (notify e c) = configs c.
Proof. unfold notify. frame. Qed.

#[export] Hint Rewrite notify_smp notify_dcv notify_ctl notify_cvd notify_vol notify_sta notify_drv notify_configs : chg.

Ltac fr := repeat first [progress chg | progress autorewrite with chg].

(** What bat_check_voltage_low does not change. *)
Definition not_low (c : bat_charge_context_t) := (smp c, dcv c, ctl c, cvd c, sta c, drv c, configs c, bat_real_volt c).

Lemma not_low_notify e (c : bat_charge_context_t) : not_low (notify e c) = not_low c.
Proof. unfold not_low. fr. reflexivity. Qed.
Lemma not_low_set b c : not_low (set_bat_volt_low b c) = not_low c.
Proof. reflexivity. Qed.
Lemma not_low_set_ex b c : not_low (set_bat_volt_low_ex b c) = not_low c.
Proof. reflexivity. Qed.
Lemma not_low_set_too b c : not_low (set_bat_volt_too_low b c) = not_low c.
Proof. reflexivity. Qed.

Lemma voltage_low_frame v (c : bat_charge_context_t) : not_low (bat_check_voltage_low v c) = not_low c.
Proof.
  unfold bat_check_voltage_low. cbv zeta.
  repeat match goal with
  | |- context [if ?b then _ else _] => lazymatch b with context [if _ then _ else _] => fail | _ => destruct b end
  | _ => rewrite ?not_low_notify, ?not_low_set_too, ?not_low_set_ex, ?not_low_set
  end; reflexivity.
Qed.

Lemma voltage_low_same v (c : bat_charge_context_t) :
  let c' := bat_check_voltage_low v c in
  smp c' = smp c /\ dcv c' = dcv c /\ ctl c' = ctl c /\ cvd c' = cvd c /\ sta c' = sta c /\ drv c' = drv c /\ configs c' = configs c
  /\ bat_real_volt c' = bat_real_volt c.
Proof. pose proof (voltage_low_frame v c) as F. unfold not_low in F. cbv zeta. repeat split; congruence. Qed.

Lemma percent_frame (c : bat_charge_context_t) :
  let c' := snd (get_battery_percent c) in
  smp c' = smp c /\ dcv c' = dcv c /\ ctl c' = ctl c /\ cvd c' = cvd c /\ sta c' = sta c /\ drv c' = drv c /\ configs c' = configs c
  /\ events c' = events c /\ bat_real_volt c' = bat_real_volt c.
Proof. unfold get_battery_percent. cbv zeta. split_ifs; repeat split; reflexivity. Qed.

Lemma dc5v_state_frame r (c : bat_charge_context_t) :
  let c' := snd (get_dc5v_current_state r c) in
  smp c' = smp c /\ ctl c' = ctl c /\ cvd c' = cvd c /\ vol c' = vol c /\ sta c' = sta c /\ drv c' = drv c /\ configs c' = configs c
  /\ events c' = events c /\ dc5v_debounce_state c' = dc5v_debounce_state c /\ dc5v_debounce_buf c' = dc5v_debounce_buf c
  /\ bat_full_dc5v_last_state c' = bat_full_dc5v_last_state c /\ charger_enable_timer c' = charger_enable_timer c.
Proof. unfold get_dc5v_current_state. cbv zeta. split_ifs; repeat split; reflexivity. Qed.

(** The state and control of a context with what does not matter to them taken out. *)
Lemma voltage_change_frame n v (c : bat_charge_context_t) :
  let c' := snd (bat_check_voltage_change n v c) in
  smp c' = smp c /\ dcv c' = dcv c /\ ctl c' = ctl c /\ cvd c' = cvd c /\ sta c' = sta c /\ drv c' = drv c /\ configs c' = configs c.
Proof.
  unfold bat_check_voltage_change. cbv zeta.
  destruct (bool_decide _ && _); [set (c1 := set_last_saved_bat_volt 0 c)|];
    (destruct (bool_decide _); [repeat split|]; cbn [snd];
     match goal with |- context [bat_check_voltage_low ?v ?d] => destruct (voltage_low_same v d) as (-> & -> & -> & -> & -> & -> & -> & _) end;
     repeat split).
Qed.

Lemma report_frame v p (c : bat_charge_context_t) :
  let c' := bat_charge_report v p c in
  smp c' = smp c /\ dcv c' = dcv c /\ ctl c' = ctl c /\ cvd c' = cvd c /\ sta c' = sta c /\ drv c' = drv c /\ configs c' = configs c
  /\ bat_real_volt c' = bat_real_volt c.
Proof. unfold bat_charge_report. cbv zeta. split_ifs; repeat split; fr; reflexivity. Qed.

Lemma sample_battery_frame r (c : bat_charge_context_t) :
  let c' := sample_battery r c in
  dcv c' = dcv c /\ ctl c' = ctl c /\ cvd c' = cvd c /\ sta c' = sta c /\ drv c' = drv c /\ configs c' = configs c
  /\ events c' = events c /\ bat_real_volt c' = bat_real_volt c.
Proof.
  unfold sample_battery, bat_adc_sample_buf_put. cbv zeta.
  split_ifs; repeat split; try reflexivity;
    match goal with |- context [get_battery_percent ?d] => destruct (percent_frame d) as (H1 & H2 & H3 & H4 & H5 & H6 & H7 & H8 & H9) end;
    first [rewrite H2|rewrite H3|rewrite H4|rewrite H5|rewrite H6|rewrite H7|rewrite H8|rewrite H9]; reflexivity.
Qed.

Lemma sample_current_frame r (c : bat_charge_context_t) :
  let c' := sample_current r c in
  dcv c' = dcv c /\ ctl c' = ctl c /\ cvd c' = cvd c /\ sta c' = sta c /\ drv c' = drv c /\ configs c' = configs c
  /\ events c' = events c /\ bat_real_volt c' = bat_real_volt c.
Proof. unfold sample_current, bat_chargei_sample_buf_put. cbv zeta. split_ifs; repeat split; reflexivity. Qed.

(** The measurement. *)
Lemma measure_frame n (c : bat_charge_context_t) :
  let c' := snd (measure n c) in
  smp c' = smp c /\ dcv c' = dcv c /\ cvd c' = cvd c /\ drv c' = drv c /\ configs c' = configs c /\
  ctl c' = ctl (set_current_cc_sel (current_cc_sel c') c) /\
  sta c' = sta (set_need_check_bat_real_volt (need_check_bat_real_volt c') (set_bat_volt_check_wait_count (bat_volt_check_wait_count c') c)).
Proof.
  unfold measure. destruct (need_check_bat_real_volt c) eqn:Hn; cbv zeta; [|cbn [snd]; destruct c as [? ? [] ? ? [] ? ? ?]; repeat split; reflexivity].
  match goal with |- context [if ?b then _ else _] => match b with 0 <? _ => set (c1 := if b then _ else _) end end.
  assert (c1 = set_bat_volt_check_wait_count (bat_volt_check_wait_count c1) c) as E.
  { subst c1. destruct (0 <? _); [reflexivity|]. destruct c as [? ? ? ? ? []]; reflexivity. }
  clearbody c1.
  destruct (bat_volt_check_wait_count c1 =? 0).
  - pose proof (voltage_change_frame n (get_battery_voltage_by_time 1 c1) (set_need_check_bat_real_volt false c1)) as F.
    destruct (bat_check_voltage_change _ _ _) as [v c2]. cbn [snd] in F. destruct F as (F1 & F2 & F3 & F4 & F5 & F6 & F7).
    pose proof (percent_frame c2) as G. destruct (get_battery_percent c2) as [p c3]. cbn [snd] in G. destruct G as (G1 & G2 & G3 & G4 & G5 & G6 & G7 & _).
    destruct (report_frame v p c3) as (K1 & K2 & K3 & K4 & K5 & K6 & K7 & _).
    destruct (bool_decide _); cbn [snd]; chg; rewrite ?K1, ?K2, ?K3, ?K4, ?K5, ?K6, ?K7, ?G1, ?G2, ?G3, ?G4, ?G5, ?G6, ?G7, ?F1, ?F2, ?F3, ?F4, ?F5, ?F6, ?F7, E; chg; repeat split.
    destruct c as [? ? []]; reflexivity.
  - cbn [snd]. rewrite E. destruct c as [? ? [] ? ? [] ? ? ?]. chg. repeat split.
Qed.

Lemma measure_idle n (c : bat_charge_context_t) : need_check_bat_real_volt c = false -> measure n c = (- 1, c).
Proof. unfold measure. intros ->. reflexivity. Qed.

Lemma measure_wait n (c : bat_charge_context_t) : need_check_bat_real_volt c = true -> 1 < bat_volt_check_wait_count c ->
  measure n c = (- 1, set_bat_volt_check_wait_count (bat_volt_check_wait_count c - 1) c).
Proof. unfold measure. intros -> H. cbv zeta. rewrite (proj2 (Z.ltb_lt 0 _)) by lia. chg. rewrite (proj2 (Z.eqb_neq _ 0)) by lia. reflexivity. Qed.

(** ** The register *)

Lemma reg_write_bit m v c k : 0 <= k ->
  Z.testbit (bak_PMU_CHG_CTL (pmu_chg_ctl_reg_write m v c)) k = if Z.testbit m k then Z.testbit v k else Z.testbit (bak_PMU_CHG_CTL c) k.
Proof.
  intros Hk. unfold pmu_chg_ctl_reg_write. chg.
  rewrite Z.lor_spec, !Z.land_spec, Z.lnot_spec by done.
  destruct (Z.testbit m k), (Z.testbit v k), (Z.testbit _ k); reflexivity.
Qed.

Lemma reg_write_frame m v c :
  let c' := pmu_chg_ctl_reg_write m v c in
  smp c' = smp c /\ dcv c' = dcv c /\ cvd c' = cvd c /\ vol c' = vol c /\ sta c' = sta c /\ drv c' = drv c /\ configs c' = configs c
  /\ events c' = events c /\ CHG_CTL_SVCC c' = bak_PMU_CHG_CTL c' /\ charge_ctrl_enabled c' = charge_ctrl_enabled c
  /\ charge_enable_pending c' = charge_enable_pending c /\ limit_current_percent c' = limit_current_percent c.
Proof. repeat split. Qed.

Lemma set_current_bits v c :
  let c' := bat_charge_set_current v c in cv_3v3 c' = cv_3v3 c /\ chg_en c' = chg_en c.
Proof. split; unfold cv_3v3, chg_en, bat_charge_set_current; rewrite reg_write_bit by done; reflexivity. Qed.

Lemma ctrl_disable_spec c :
  let c' := bat_charge_ctrl_disable c in
  smp c' = smp c /\ dcv c' = dcv c /\ cvd c' = cvd c /\ vol c' = vol c /\ sta c' = sta c /\ drv c' = drv c /\ configs c' = configs c
  /\ events c' = events c /\ CHG_CTL_SVCC c' = bak_PMU_CHG_CTL c' /\ charge_ctrl_enabled c' = false /\ charge_enable_pending c' = false
  /\ cv_3v3 c' = true.
Proof. repeat split. unfold cv_3v3, bat_charge_ctrl_disable. cbv zeta. rewrite reg_write_bit by done. reflexivity. Qed.

(** ** The invariant *)

(** The register and its copy agree; the charger is enabled, or is to be, only
    while the battery is charged or precharged and not measured. *)
Definition reg_ok (c : bat_charge_context_t) : Prop := CHG_CTL_SVCC c = bak_PMU_CHG_CTL c.

Definition on_ok (c : bat_charge_context_t) : Prop :=
  charge_ctrl_enabled c = true \/ charge_enable_pending c = true ->
  is_charging (bat_charge_state c) = true /\ charge_state_started c = true /\ need_check_bat_real_volt c = false.

(** The battery is charged only while the plug is in. *)
Definition plug_ok (c : bat_charge_context_t) : Prop :=
  is_charging (bat_charge_state c) = true -> dc5v_debounce_state c = DC5V_STATE_IN.

(** A charger that is not enabled is at 3.3 V. *)
Definition off_ok (c : bat_charge_context_t) : Prop := charge_ctrl_enabled c = false -> cv_3v3 c = true.

Record charger_inv (c : bat_charge_context_t) : Prop := { ci_reg : reg_ok c; ci_on : on_ok c; ci_plug : plug_ok c }.

(** What the invariant reads. *)
Definition seen (c : bat_charge_context_t) :=
  (CHG_CTL_SVCC c, bak_PMU_CHG_CTL c, charge_ctrl_enabled c, charge_enable_pending c, bat_charge_state c, charge_state_started c,
   need_check_bat_real_volt c, dc5v_debounce_state c).

Lemma seen_same (c c' : bat_charge_context_t) : seen c' = seen c -> (charger_inv c -> charger_inv c') /\ (off_ok c -> off_ok c').
Proof.
  unfold seen. intros [= E1 E2 E3 E4 E5 E6 E7 E8].
  split; [intros [R O P]; split|]; unfold reg_ok, on_ok, plug_ok, off_ok, cv_3v3 in *; rewrite ?E1, ?E2, ?E3, ?E4, ?E5, ?E6, ?E7, ?E8; auto.
Qed.

(** A charger that is off, whatever the state. *)
Definition stopped (c : bat_charge_context_t) : Prop :=
  reg_ok c /\ charge_ctrl_enabled c = false /\ charge_enable_pending c = false.

Lemma disabled_stopped c : stopped (bat_charge_ctrl_disable c) /\ cv_3v3 (bat_charge_ctrl_disable c) = true.
Proof. destruct (ctrl_disable_spec c) as (_ & _ & _ & _ & _ & _ & _ & _ & H1 & H2 & H3 & H4). repeat split; assumption. Qed.

Lemma stopped_on c : stopped c -> on_ok c.
Proof. intros (_ & E1 & E2) [H|H]; congruence. Qed.

(** ** The states keep the invariant *)

Definition quiet (c : bat_charge_context_t) : Prop := stopped c /\ is_charging (bat_charge_state c) = false.

Lemma quiet_inv c : quiet c -> charger_inv c.
Proof. intros [S N]. split; [apply S|apply stopped_on, S|]. intros H. congruence. Qed.

Lemma on_quiet c : reg_ok c -> on_ok c -> is_charging (bat_charge_state c) = false -> quiet c.
Proof.
  intros R O N. split; [split; [exact R|]|exact N].
  split; [destruct (charge_ctrl_enabled c) eqn:E|destruct (charge_enable_pending c) eqn:E]; try reflexivity;
    destruct O as [? _]; auto; congruence.
Qed.

(** What a call does to the invariant. *)
Definition keeps (c c' : bat_charge_context_t) : Prop := charger_inv c' /\ (off_ok c -> off_ok c').

Lemma disable_off c : off_ok (bat_charge_ctrl_disable c).
Proof. intros _. apply disabled_stopped. Qed.

(** A context whose charger was disabled and then only the state machine's data, or the events, changed. *)
Lemma keeps_disabled_in c d c' : ctl c' = ctl (bat_charge_ctrl_disable d) -> plug_ok c' -> keeps c c'.
Proof.
  intros E P. destruct (disabled_stopped d) as [(S1 & S2 & S3) S4]. split; [split; [|apply stopped_on|exact P]|].
  - unfold reg_ok. rewrite E. exact S1.
  - unfold stopped, reg_ok. rewrite E. repeat split; assumption.
  - intros _ _. unfold cv_3v3. rewrite E. exact S4.
Qed.

Lemma keeps_disabled c d c' :
  ctl c' = ctl (bat_charge_ctrl_disable d) -> is_charging (bat_charge_state c') = false -> keeps c c'.
Proof. intros E N. apply (keeps_disabled_in _ d); [exact E|]. intros H. congruence. Qed.

Lemma keeps_stopped c c' : stopped c -> ctl c' = ctl c -> plug_ok c' -> keeps c c'.
Proof.
  intros (S1 & S2 & S3) E P. split; [split; [|apply stopped_on|exact P]|].
  - unfold reg_ok. rewrite E. exact S1.
  - unfold stopped, reg_ok. rewrite E. repeat split; assumption.
  - unfold off_ok, cv_3v3. rewrite E. auto.
Qed.

Lemma keeps_quiet c c' : quiet c -> ctl c' = ctl c -> is_charging (bat_charge_state c') = false -> keeps c c'.
Proof. intros [S _] E N. apply keeps_stopped; [exact S|exact E|]. intros H. congruence. Qed.

Lemma check_real_voltage_ctl s c : ctl (bat_check_real_voltage s c) = ctl (bat_charge_ctrl_disable c).
Proof. reflexivity. Qed.

Lemma state_start_spec s c :
  let c' := bat_charge_state_start s c in
  smp c' = smp c /\ dcv c' = dcv c /\ vol c' = vol c /\ drv c' = drv c /\ configs c' = configs c
  /\ CHG_CTL_SVCC c' = CHG_CTL_SVCC c /\ bak_PMU_CHG_CTL c' = bak_PMU_CHG_CTL c /\ charge_ctrl_enabled c' = charge_ctrl_enabled c
  /\ limit_current_percent c' = limit_current_percent c
  /\ bat_charge_state c' = bat_charge_state c /\ charge_state_started c' = true /\ need_check_bat_real_volt c' = false
  /\ charge_near_full c' = charge_near_full c /\ state_timer_count c' = state_timer_count c /\ charge_begin_time c' = charge_begin_time c
  /\ err_to_stop_charge c' = err_to_stop_charge c /\ restart_from_err_flag c' = restart_from_err_flag c
  /\ err_status_dc5v_change_flag c' = err_status_dc5v_change_flag c.
Proof. unfold bat_charge_state_start, bat_charge_reset_adjust_cv_offset. cbv zeta. chg. destruct (charge_state_started c) eqn:E; chg; rewrite ?E; chg; repeat split; fr; rewrite ?E; auto. Qed.

(** A start with the state set to one of charging, while the plug is in. *)
Lemma keeps_start s c c' :
  reg_ok c -> dc5v_debounce_state c = DC5V_STATE_IN -> ctl c' = ctl (bat_charge_state_start s c) -> dcv c' = dcv c ->
  is_charging (bat_charge_state c') = true -> charge_state_started c' = true -> need_check_bat_real_volt c' = false -> keeps c c'.
Proof.
  intros R D E D' N S Q. destruct (state_start_spec s c) as (_ & _ & _ & _ & _ & E1 & E2 & E3 & _).
  split; [split|].
  - unfold reg_ok. rewrite E, E1, E2. exact R.
  - intros _. auto.
  - intros _. rewrite D'. exact D.
  - unfold off_ok, cv_3v3. rewrite E, E2, E3. auto.
Qed.

Lemma check_volt_keeps v c : quiet c -> keeps c (bat_charge_state_check_volt v c).
Proof.
  intros Q. pose proof (proj2 Q) as N. unfold bat_charge_state_check_volt. cbv zeta.
  destruct (bool_decide _ && _); [apply keeps_quiet; auto|].
  destruct (_ <? _); [|destruct (v <? 0); [apply keeps_quiet; auto|]].
  - chg. destruct (_ =? _); [|apply keeps_quiet; auto].
    eapply keeps_disabled; [apply check_real_voltage_ctl|exact N].
  - destruct (bool_decide _); [|apply keeps_quiet; auto].
    destruct (_ <=? _); [|destruct (_ <? _)]; apply keeps_quiet; auto.
Qed.

Lemma first_state_spec v c : ctl (first_state v c) = ctl c /\ dcv (first_state v c) = dcv c /\
  (is_charging (bat_charge_state c) = false -> is_charging (bat_charge_state (first_state v c)) = false).
Proof. unfold first_state. cbv zeta. split_ifs; repeat split; auto. Qed.

Lemma init_keeps n v c : quiet c -> keeps c (bat_charge_state_init n v c).
Proof.
  intros Q. pose proof (proj2 Q) as N. unfold bat_charge_state_init. cbv zeta.
  destruct (err_to_stop_charge c).
  - destruct (_ && _); [destruct (bool_decide _); [apply keeps_quiet; auto|apply check_volt_keeps, Q]|].
    match goal with |- keeps _ (first_state v ?d) => destruct (first_state_spec v d) as (E & _ & K) end.
    eapply keeps_disabled; [rewrite E; apply check_real_voltage_ctl|apply K; exact N].
  - destruct (first_state_spec v c) as (E & _ & K). apply keeps_quiet; auto.
Qed.

Lemma low_keeps v c : quiet c -> keeps c (bat_charge_state_low v c).
Proof.
  intros Q. unfold bat_charge_state_low. destruct (bool_decide _) eqn:D; [|apply check_volt_keeps, Q].
  apply bool_decide_eq_true in D. destruct (_ =? _); [|apply keeps_quiet; auto].
  destruct (state_start_spec (precharge_current_sel c) c) as (_ & E2 & _ & _ & _ & _ & _ & _ & _ & _ & E3 & E4 & _).
  eapply keeps_start; [apply Q|exact D|reflexivity|exact E2|reflexivity|exact E3|exact E4].
Qed.

Lemma normal_keeps v c : quiet c -> keeps c (bat_charge_state_normal v c).
Proof.
  intros Q. unfold bat_charge_state_normal. destruct (bool_decide _) eqn:D; [|apply check_volt_keeps, Q].
  apply bool_decide_eq_true in D.
  destruct (state_start_spec (Charge_Current (configs c)) c) as (_ & E2 & _ & _ & _ & _ & _ & _ & _ & _ & E3 & E4 & _).
  eapply keeps_start; [apply Q|exact D|reflexivity|exact E2|reflexivity|exact E3|exact E4].
Qed.

Lemma full_keeps v c : bat_charge_state c = BAT_CHG_STATE_FULL -> quiet c -> keeps c (bat_charge_state_full v c).
Proof.
  intros F Q. unfold bat_charge_state_full, keep_full_plug. cbv zeta. destruct (negb (bool_decide _)); [|apply check_volt_keeps, Q].
  apply keeps_quiet; [exact Q| |]; split_ifs; fr; rewrite ?F; reflexivity.
Qed.

Lemma restart_frame n c :
  let c' := restart_from_err n c in
  smp c' = smp c /\ dcv c' = dcv c /\ ctl c' = ctl c /\ cvd c' = cvd c /\ vol c' = vol c /\ drv c' = drv c /\ configs c' = configs c
  /\ bat_charge_state c' = bat_charge_state c /\ charge_state_started c' = charge_state_started c
  /\ need_check_bat_real_volt c' = need_check_bat_real_volt c /\ charge_near_full c' = charge_near_full c
  /\ state_timer_count c' = state_timer_count c /\ bat_volt_check_wait_count c' = bat_volt_check_wait_count c.
Proof. unfold restart_from_err. split_ifs; repeat split. Qed.

Lemma restart_seen n c : seen (restart_from_err n c) = seen c.
Proof. unfold seen, restart_from_err. split_ifs; reflexivity. Qed.

(** A charged or precharged context that keeps what the invariant reads. *)
Lemma keeps_seen c c' : charger_inv c -> seen c' = seen c -> keeps c c'.
Proof. intros I E. destruct (seen_same c c' E). split; auto. Qed.

(** The premise of the states of charging: the voltage is known only with the charger off. *)
Definition ready (v : Z) (c : bat_charge_context_t) : Prop := reg_ok c /\ on_ok c /\ (0 <= v -> stopped c).

Lemma keeps_trans c d c' : (off_ok c -> off_ok d) -> keeps d c' -> keeps c c'.
Proof. intros H [I O]. split; auto. Qed.

(** The rounds of the states of charging start with the check for a restart. *)
Lemma restart_ready n v c : ready v c -> ready v (restart_from_err n c).
Proof.
  destruct (restart_frame n c) as (_ & _ & E & _ & _ & _ & _ & E1 & E2 & E3 & _).
  unfold ready, reg_ok, on_ok, stopped, reg_ok. rewrite E, E1, E2, E3. auto.
Qed.

Lemma restart_off n c : off_ok c -> off_ok (restart_from_err n c).
Proof. destruct (restart_frame n c) as (_ & _ & E & _). unfold off_ok, cv_3v3. rewrite E. auto. Qed.

Lemma precharge_round_keeps v c : dc5v_debounce_state c = DC5V_STATE_IN -> ready v c ->
  keeps c (if state_timer_count c <? rounds BAT_PRECHARGE_CHECK_PERIOD_SEC then
    let c := set_state_timer_count (u16 (state_timer_count c + 1)) c in
    if state_timer_count c =? rounds BAT_PRECHARGE_CHECK_PERIOD_SEC then
      bat_check_real_voltage BAT_VOLT_CHECK_SAMPLE_SEC (set_precharge_time_sec (u16 (precharge_time_sec c + BAT_PRECHARGE_CHECK_PERIOD_SEC)) c)
    else c
  else if v <? 0 then c
  else if v <=? Precharge_Stop_Voltage (configs c) then
    let c := if bat_exist_state c && (BAT_NOT_EXIST_CHECK_TIME_SEC <=? precharge_time_sec c)
      then set_bat_error_state true (set_precharge_time_sec 0 c) else c in
    set_bat_charge_state BAT_CHG_STATE_LOW c
  else
    let c := set_bat_error_state false (set_bat_exist_state true (set_precharge_time_sec 0 c)) in
    set_bat_charge_state BAT_CHG_STATE_NORMAL c).
Proof.
  intros D (R & O & S). cbv zeta.
  assert (forall c', seen c' = seen c -> keeps c c') as K by (intros c'; apply keeps_seen; split; [exact R|exact O|intros _; exact D]).
  destruct (_ <? _).
  - destruct (_ =? _); [|apply K; reflexivity].
    eapply keeps_disabled_in; [apply check_real_voltage_ctl|intros _; exact D].
  - destruct (v <? 0) eqn:V; [apply K; reflexivity|].
    assert (stopped c) as S' by (apply S; lia).
    destruct (_ <=? _); apply keeps_stopped; try exact S'; try (intros H; discriminate H); split_ifs; reflexivity.
Qed.

Lemma precharge_keeps n v c : ready v c -> keeps c (bat_charge_state_precharge n v c).
Proof.
  intros Y. unfold bat_charge_state_precharge. cbv zeta.
  destruct (bool_decide _) eqn:D; cbn [negb];
    [|eapply keeps_disabled; [apply check_real_voltage_ctl|reflexivity]].
  apply bool_decide_eq_true in D.
  apply (keeps_trans _ (restart_from_err n c)); [apply restart_off|].
  apply precharge_round_keeps; [|apply restart_ready, Y].
  destruct (restart_frame n c) as (_ & E & _). rewrite E. exact D.
Qed.

(** The check of the constant voltage stages: only the current bits of the register change. *)
Lemma adjust_current_seen c : reg_ok c ->
  let c' := bat_charge_adjust_current c in
  smp c' = smp c /\ dcv c' = dcv c /\ vol c' = vol c /\ sta c' = sta c /\ drv c' = drv c /\ configs c' = configs c /\ events c' = events c
  /\ reg_ok c' /\ cv_3v3 c' = cv_3v3 c /\ chg_en c' = chg_en c /\ charge_ctrl_enabled c' = charge_ctrl_enabled c
  /\ charge_enable_pending c' = charge_enable_pending c /\ limit_current_percent c' = limit_current_percent c.
Proof.
  intros R. unfold bat_charge_adjust_current. cbv zeta. split_ifs; repeat split; try exact R;
    unfold cv_3v3, chg_en; rewrite reg_write_bit by done; reflexivity.
Qed.

Lemma cv_state_spec n c : reg_ok c ->
  let c' := bat_charge_check_cv_state n c in
  smp c' = smp c /\ dcv c' = dcv c /\ vol c' = vol c /\ sta c' = sta c /\ drv c' = drv c /\ configs c' = configs c /\ events c' = events c
  /\ reg_ok c' /\ cv_3v3 c' = cv_3v3 c /\ chg_en c' = chg_en c /\ charge_ctrl_enabled c' = charge_ctrl_enabled c
  /\ charge_enable_pending c' = charge_enable_pending c /\ limit_current_percent c' = limit_current_percent c.
Proof.
  intros R. unfold bat_charge_check_cv_state. destruct (charge_near_full c); [cbv zeta; repeat split; exact R|].
  set (c1 := bat_charge_cv_state_buf_put c).
  assert (exists q, c1 = set_cvd q c) as [q ->].
  { subst c1. unfold bat_charge_cv_state_buf_put. cbv zeta. destruct (negb _); [exists (cvd c); destruct c; reflexivity|eexists; reflexivity]. }
  cbv zeta.
  assert (exists s q', cv_stage_1 n (bat_charge_cv_state_buf_get (set_cvd q c)) (set_cvd q c) = (s, set_cvd q' c)) as (s & q' & ->).
  { unfold cv_stage_1. cbv zeta. split_ifs; do 2 eexists; reflexivity. }
  destruct (s =? 2); [|repeat split; exact R]. chg.
  destruct (negb _); [repeat split; exact R|].
  destruct (_ =? 0);
    match goal with |- context [bat_charge_adjust_current ?d] =>
      destruct (adjust_current_seen d R) as (-> & -> & -> & -> & -> & -> & -> & H & -> & -> & -> & -> & ->) end; repeat split; exact H.
Qed.

Lemma err_out_ctl n c : ctl (charge_err_out n c) = ctl (bat_charge_ctrl_disable c).
Proof. reflexivity. Qed.

Lemma charge_full_spec c : ctl (charge_full c) = ctl (bat_charge_ctrl_disable (set_last_cap_detect 100 c)) /\
  bat_charge_state (charge_full c) = BAT_CHG_STATE_FULL.
Proof.
  assert (forall d, let d' := adjust_current_invalid (no_cv_stages (set_bat_charge_state BAT_CHG_STATE_FULL (keep_full_plug d))) in
    ctl d' = ctl d /\ bat_charge_state d' = BAT_CHG_STATE_FULL) as H by (split; reflexivity).
  unfold charge_full. destruct (H (notify BAT_CHG_EVENT_CHARGE_FULL (bat_charge_ctrl_disable (set_last_cap_detect 100 c)))) as [-> ->].
  rewrite notify_ctl. auto.
Qed.

(** The part of a round of charging before its checks. *)
Definition round_cv (i : tick_in) (c : bat_charge_context_t) : bat_charge_context_t :=
  if state_timer_count c mod (1000 / BAT_CHARGE_DRIVER_TIMER_MS) =? 0 then
    let '(state, c) := get_dc5v_current_state (rd_cv_pmu i) c in
    if bool_decide (state = DC5V_STATE_PENDING) then c else bat_charge_check_cv_state (now i) c
  else c.

Lemma round_cv_spec i c : reg_ok c ->
  let c' := round_cv i c in
  smp c' = smp c /\ vol c' = vol c /\ sta c' = sta c /\ drv c' = drv c /\ configs c' = configs c /\ events c' = events c
  /\ reg_ok c' /\ cv_3v3 c' = cv_3v3 c /\ chg_en c' = chg_en c /\ charge_ctrl_enabled c' = charge_ctrl_enabled c
  /\ charge_enable_pending c' = charge_enable_pending c /\ dc5v_debounce_state c' = dc5v_debounce_state c
  /\ charger_enable_timer c' = charger_enable_timer c.
Proof.
  intros R. unfold round_cv. destruct (_ =? 0); [|repeat split; exact R].
  pose proof (dc5v_state_frame (rd_cv_pmu i) c) as F. destruct (get_dc5v_current_state _ c) as [s d]. cbn [snd] in F.
  destruct F as (F1 & F2 & F3 & F4 & F5 & F6 & F7 & F8 & F9 & F10 & F11 & F12).
  assert (reg_ok d) as Rd by (unfold reg_ok; rewrite F2; exact R).
  destruct (bool_decide _); cbv zeta.
  - rewrite F1, F4, F5, F6, F7, F8, F9, F12. unfold cv_3v3, chg_en. rewrite F2. repeat split; exact Rd.
  - destruct (cv_state_spec (now i) d Rd) as (-> & K2 & -> & -> & -> & -> & -> & H & -> & -> & -> & -> & _).
    rewrite K2, F1, F4, F5, F6, F7, F8, F9, F12. unfold cv_3v3, chg_en. rewrite F2. repeat split; exact H.
Qed.

Lemma charge_round_eq i period c :
  charge_round i period c =
  let c := round_cv i (set_state_timer_count (u16 (state_timer_count c + 1)) c) in
  if (state_timer_count c mod (10000 / BAT_CHARGE_DRIVER_TIMER_MS) =? 0) && over_voltage (rd_ovp i) c then charge_err_out (now i) c
  else if state_timer_count c =? period then bat_check_real_voltage BAT_VOLT_CHECK_SAMPLE_SEC c
  else c.
Proof. reflexivity. Qed.

Lemma charge_round_keeps i period v c : dc5v_debounce_state c = DC5V_STATE_IN -> ready v c -> keeps c (charge_round i period c).
Proof.
  intros D (R & O & S). rewrite charge_round_eq. set (c1 := set_state_timer_count _ c).
  destruct (round_cv_spec i c1 R) as (E1 & E2 & E3 & E4 & E5 & E6 & R' & E7 & E8 & E9 & E10 & E11 & _).
  set (c2 := round_cv i c1) in *. clearbody c2.
  assert (dc5v_debounce_state c2 = DC5V_STATE_IN) as D2 by (rewrite E11; exact D).
  cbv zeta. destruct (_ && _); [eapply keeps_disabled; [apply err_out_ctl|reflexivity]|].
  destruct (_ =? period); [eapply keeps_disabled_in; [apply check_real_voltage_ctl|intros _; exact D2]|].
  split; [split; [exact R'| |intros _; exact D2]|].
  - unfold on_ok. rewrite E9, E10, E3. exact O.
  - unfold off_ok. rewrite E9, E7. auto.
Qed.

Lemma charge_restart_keeps b s c : dc5v_debounce_state c = DC5V_STATE_IN -> bat_charge_state c = BAT_CHG_STATE_CHARGE -> reg_ok c ->
  keeps c (set_charge_near_full b (set_state_timer_count 0 (bat_charge_state_start s c))).
Proof.
  intros D N R. destruct (state_start_spec s c) as (_ & E2 & _ & _ & _ & _ & _ & _ & _ & E5 & E3 & E4 & _).
  eapply keeps_start; [exact R|exact D|reflexivity|exact E2| |exact E3|exact E4].
  chg. rewrite E5, N. reflexivity.
Qed.

Lemma charge_full_keeps c : keeps c (charge_full c).
Proof. destruct (charge_full_spec c) as [E N]. eapply keeps_disabled; [exact E|rewrite N; reflexivity]. Qed.

Lemma charge_measured_keeps n v c : dc5v_debounce_state c = DC5V_STATE_IN -> bat_charge_state c = BAT_CHG_STATE_CHARGE -> reg_ok c ->
  keeps c (charge_measured n v c).
Proof.
  intros D N R. unfold charge_measured. destruct (charge_near_full c); [apply charge_full_keeps|].
  destruct (negb _); [destruct (time_over _ _)|]; [eapply keeps_disabled; [apply err_out_ctl|reflexivity]| |];
    apply charge_restart_keeps; assumption.
Qed.

Lemma charge_keeps i v c : bat_charge_state c = BAT_CHG_STATE_CHARGE -> ready v c -> keeps c (bat_charge_state_charge i v c).
Proof.
  intros N Y. unfold bat_charge_state_charge. cbv zeta.
  destruct (bool_decide _) eqn:D; cbn [negb];
    [|eapply keeps_disabled; [apply check_real_voltage_ctl|reflexivity]].
  apply bool_decide_eq_true in D.
  apply (keeps_trans _ (restart_from_err (now i) c)); [apply restart_off|].
  destruct (restart_frame (now i) c) as (_ & E & _ & _ & _ & _ & _ & E' & _).
  pose proof (restart_ready (now i) v c Y) as Y'. set (c1 := restart_from_err (now i) c) in *. clearbody c1.
  rewrite <- E in D. rewrite <- E' in N. pose proof Y' as (R & O & _).
  destruct (_ && _); [apply charge_full_keeps|].
  destruct (_ <? _); [exact (charge_round_keeps i _ v c1 D Y')|].
  destruct (v <? 0); [apply keeps_seen; [split; [exact R|exact O|intros _; exact D]|reflexivity]|].
  apply charge_measured_keeps; [exact D|exact N|exact R].
Qed.

Lemma state_proc_keeps i v c : ready v c -> keeps c (state_proc i v c).
Proof.
  intros Y. pose proof Y as (R & O & _). unfold state_proc.
  assert (is_charging (bat_charge_state c) = false -> quiet c) as Q by (apply on_quiet; assumption).
  destruct (bat_charge_state c) eqn:S.
  - apply init_keeps, Q. reflexivity.
  - apply low_keeps, Q. reflexivity.
  - apply precharge_keeps, Y.
  - apply normal_keeps, Q. reflexivity.
  - apply charge_keeps; assumption.
  - apply full_keeps, Q; [exact S|reflexivity].
Qed.

(** ** The work of the timer *)

Lemma measure_ready n c : charger_inv c \/ (reg_ok c /\ on_ok c) ->
  let '(v, c') := measure n c in ready v c' /\ (off_ok c -> off_ok c') /\ dc5v_debounce_state c' = dc5v_debounce_state c.
Proof.
  intros H. assert (reg_ok c /\ on_ok c) as [R O] by (destruct H as [[]|]; auto). clear H.
  pose proof (measure_frame n c) as F.
  assert (0 <= fst (measure n c) -> need_check_bat_real_volt c = true) as V.
  { unfold measure. destruct (need_check_bat_real_volt c); [auto|]. cbn [fst]. lia. }
  destruct (measure n c) as [v c'] eqn:M. cbn [fst snd] in *. destruct F as (_ & F2 & _ & _ & _ & F6 & F7).
  assert (need_check_bat_real_volt c' = true -> need_check_bat_real_volt c = true) as W.
  { destruct (need_check_bat_real_volt c) eqn:E; [auto|]. rewrite (measure_idle n c E) in M. injection M as <- <-. congruence. }
  split; [split; [|split]|split].
  - unfold reg_ok. rewrite F6. exact R.
  - unfold on_ok. rewrite F6, F7. chg. intros G. destruct (O G) as (O1 & O2 & O3). repeat split; try assumption.
    destruct (need_check_bat_real_volt c'); [rewrite W in O3 by reflexivity; discriminate|reflexivity].
  - intros G. specialize (V G). unfold stopped, reg_ok. rewrite F6. chg. split; [exact R|].
    split; [destruct (charge_ctrl_enabled c) eqn:E|destruct (charge_enable_pending c) eqn:E]; try reflexivity;
      destruct O as (_ & _ & O3); auto; congruence.
  - unfold off_ok, cv_3v3. rewrite F6. chg. auto.
  - rewrite F2. reflexivity.
Qed.

Lemma ctrl_enable_spec s v c :
  let c' := bat_charge_ctrl_enable s v c in
  smp c' = smp c /\ dcv c' = dcv c /\ vol c' = vol c /\ sta c' = sta c /\ drv c' = drv c /\ configs c' = configs c /\ events c' = events c
  /\ reg_ok c' /\ charge_ctrl_enabled c' = true /\ charge_enable_pending c' = charge_enable_pending c.
Proof. unfold bat_charge_ctrl_enable. cbv zeta. destruct (adjust_voltage _ _) as [a b]. repeat split. Qed.

Lemma check_enable_spec c :
  bat_charge_check_enable c = c \/
  let c' := bat_charge_check_enable c in
  charge_enable_pending c = true /\ smp c' = smp c /\ dcv c' = dcv c /\ vol c' = vol c /\ sta c' = sta c /\ drv c' = drv c
  /\ configs c' = configs c /\ events c' = events c
  /\ reg_ok c' /\ charge_ctrl_enabled c' = true /\ charge_enable_pending c' = false.
Proof.
  unfold bat_charge_check_enable. cbv zeta. destruct (charge_enable_pending c) eqn:E; [|left; reflexivity].
  destruct (negb (chg_en c)); [left; reflexivity|right].
  match goal with |- context [let '(_, _) := ?p in _] => destruct p as [a b] end.
  destruct (ctrl_enable_spec a b c) as (H1 & H2 & H3 & H4 & H5 & H6 & H7 & H8 & H9 & _).
  repeat split; assumption.
Qed.

Lemma check_enable_keeps c : charger_inv c -> keeps c (bat_charge_check_enable c).
Proof.
  intros I. destruct (check_enable_spec c) as [->|(P & _ & D & _ & S & _ & _ & _ & R & E & Q)]; [apply keeps_seen; auto|].
  destruct I as [R0 O0 P0]. destruct O0 as (O1 & O2 & O3); [auto|]. split; [split|].
  - exact R.
  - intros _. rewrite S. auto.
  - unfold plug_ok. rewrite S, D. exact P0.
  - intros _ H. congruence.
Qed.

Lemma status_proc_keeps i c : reg_ok c -> on_ok c -> keeps c (bat_charge_status_proc i c).
Proof.
  intros R O. unfold bat_charge_status_proc. cbv zeta.
  pose proof (measure_ready (now i) c (or_intror (conj R O))) as M. destruct (measure (now i) c) as [v c1]. destruct M as (Y & M2 & _).
  apply (keeps_trans _ c1 _ M2). destruct (state_proc_keeps i v c1 Y) as [I2 O2].
  apply (keeps_trans _ (state_proc i v c1) _ O2). set (c2 := state_proc i v c1) in *. clearbody c2.
  destruct (bool_decide (_ = bat_charge_state c)); [apply check_enable_keeps, I2|].
  set (c3 := if bool_decide _ then _ else _).
  assert (keeps c2 c3) as [I3 O3] by (subst c3; destruct (bool_decide _); apply keeps_seen; auto).
  apply (keeps_trans _ c3 _ O3), check_enable_keeps, I3.
Qed.

(** The debouncing: the register's current bits, the plug, the flags of a low battery and of a stop by an error. *)
Definition dc5v_parts (c : bat_charge_context_t) :=
  (bat_charge_state c, charge_state_started c, need_check_bat_real_volt c, charge_ctrl_enabled c, charge_enable_pending c, cv_3v3 c, chg_en c,
   limit_current_percent c).

Lemma changed_spec l s c : reg_ok c ->
  let c' := dc5v_changed l s c in
  reg_ok c' /\ dc5v_parts c' = dc5v_parts c /\ configs c' = configs c /\ cvd c' = cvd c /\ drv c' = drv c /\ smp c' = smp c
  /\ bat_real_volt c' = bat_real_volt c
  /\ sta c' = (if err_to_stop_charge c then sta (set_err_status_dc5v_change_flag true c) else sta c)
  /\ dc5v_debounce_state c' = dc5v_debounce_state c /\ dc5v_debounce_buf c' = dc5v_debounce_buf c
  /\ bat_full_dc5v_last_state c' = bat_full_dc5v_last_state c.
Proof.
  intros R. unfold dc5v_changed. cbv zeta.
  set (c1 := if err_to_stop_charge c then _ else _).
  assert (sta c1 = (if err_to_stop_charge c then sta (set_err_status_dc5v_change_flag true c) else sta c)
    /\ dcv c1 = dcv c /\ ctl c1 = ctl c /\ configs c1 = configs c /\ cvd c1 = cvd c /\ drv c1 = drv c /\ smp c1 = smp c /\ vol c1 = vol c) as F
    by (subst c1; destruct (err_to_stop_charge c); repeat split).
  destruct F as (F1 & F2 & F3 & F4 & F5 & F6 & F7 & F8). rewrite <- F1.
  assert (forall v d, reg_ok (bat_charge_set_current v d)) as RS by (intros; reflexivity).
  assert (dc5v_parts c1 = dc5v_parts c) as PQ.
  { unfold dc5v_parts, cv_3v3, chg_en. rewrite F3, F1. destruct (err_to_stop_charge c); reflexivity. }
  assert (reg_ok c1) as R1 by (unfold reg_ok; rewrite F3; exact R).
  rewrite <- F2, <- F4, <- F5, <- F6, <- F7, <- F8, <- PQ. clear PQ F1 F2 F3 F4 F5 F6 F7 F8 R. clearbody c1. clear c. rename c1 into c.
  assert (forall v d, dc5v_parts (bat_charge_set_current v d) = dc5v_parts d) as PS.
  { intros v d. unfold dc5v_parts. destruct (set_current_bits v d) as [-> ->]. reflexivity. }
  destruct s; try destruct (bool_decide (l = DC5V_STATE_IN)); try destruct (bool_decide (_ \/ _)); try destruct (bool_decide (l = DC5V_STATE_INVALID));
    unfold reg_ok, dc5v_parts, cv_3v3, chg_en; repeat split; fr; try reflexivity; try exact R1;
    exact (PS _ (charger_enable_timer_delete c)).
Qed.

(** What bat_charge_dc5v_detect does not change, or only with the state of the plug. *)
Lemma detect_spec r c : reg_ok c ->
  let c' := bat_charge_dc5v_detect r c in
  reg_ok c' /\ dc5v_parts c' = dc5v_parts c /\ configs c' = configs c /\ cvd c' = cvd c /\ drv c' = drv c /\ smp c' = smp c
  /\ bat_real_volt c' = bat_real_volt c /\ bat_full_dc5v_last_state c' = bat_full_dc5v_last_state c
  /\ (dc5v_debounce_state c' = dc5v_debounce_state c /\ sta c' = sta c /\ ctl c' = ctl c /\ vol c' = vol c /\ events c' = events c
         /\ charger_enable_timer c' = charger_enable_timer c
      \/ dc5v_debounce_state c' <> dc5v_debounce_state c
         /\ sta c' = if err_to_stop_charge c then sta (set_err_status_dc5v_change_flag true c) else sta c).
Proof.
  intros R. unfold bat_charge_dc5v_detect.
  pose proof (dc5v_state_frame r c) as F. destruct (get_dc5v_current_state r c) as [s d]. cbn [snd] in F.
  destruct F as (F1 & F2 & F3 & F4 & F5 & F6 & F7 & F8 & F9 & F10 & F11 & F12). cbv zeta.
  set (p := if bool_decide (_ = DC5V_STATE_PENDING) then _ else _).
  assert (exists st b, p = (st, set_dc5v_debounce_buf b d)) as (st & b & ->).
  { subst p. destruct (bool_decide _); [exists true, (dc5v_debounce_buf d); destruct d as [? []]; reflexivity|].
    destruct (bat_charge_debounce _ _ _) as [st b]. eauto. }
  assert (dc5v_parts d = dc5v_parts c) as PQ by (unfold dc5v_parts, cv_3v3, chg_en; rewrite F2, F5; reflexivity).
  assert (reg_ok d) as Rd by (unfold reg_ok; rewrite F2; exact R).
  set (d1 := set_dc5v_debounce_buf b d).
  assert (reg_ok d1 /\ dc5v_parts d1 = dc5v_parts c /\ configs d1 = configs c /\ cvd d1 = cvd c /\ drv d1 = drv c /\ smp d1 = smp c
    /\ bat_real_volt d1 = bat_real_volt c /\ bat_full_dc5v_last_state d1 = bat_full_dc5v_last_state c
    /\ (dc5v_debounce_state d1 = dc5v_debounce_state c /\ sta d1 = sta c /\ ctl d1 = ctl c /\ vol d1 = vol c /\ events d1 = events c
         /\ charger_enable_timer d1 = charger_enable_timer c
      \/ dc5v_debounce_state d1 <> dc5v_debounce_state c
         /\ sta d1 = if err_to_stop_charge c then sta (set_err_status_dc5v_change_flag true c) else sta c)) as Same.
  { subst d1. split; [exact Rd|]. split; [exact PQ|]. chg. rewrite F4. repeat split; try assumption; try congruence. left. repeat split; assumption. }
  destruct (negb st); [exact Same|]. destruct (bool_decide _) eqn:B; [exact Same|]. apply bool_decide_eq_false in B.
  destruct (changed_spec (dc5v_debounce_state d1) s (set_dc5v_debounce_state s d1) Rd) as (K1 & K2 & K3 & K4 & K5 & K6 & K7 & K8 & K9 & _ & K11).
  destruct Same as (_ & S2 & S3 & S4 & S5 & S6 & S7 & S8 & _).
  split; [exact K1|]. rewrite K2, K3, K4, K5, K6, K7, K8, K9, K11. chg. unfold dc5v_parts at 1. chg.
  change (dc5v_parts d1 = dc5v_parts c) in S2. split; [exact S2|]. repeat split; try assumption.
  right. split; [rewrite <- F9; intros ->; apply B; reflexivity|]. subst d1. chg. rewrite F5. reflexivity.
Qed.

(** A work of the timer keeps the invariant, and a charger that is not enabled at 3.3 V. *)
Lemma timer_handler_keeps i c : reg_ok c -> on_ok c -> keeps c (bat_charge_timer_handler i c).
Proof.
  intros R O. unfold bat_charge_timer_handler. cbv zeta.
  set (c0 := set_bat_chargei_sample_timer_count _ _).
  destruct (sample_battery_frame (rd_sample i) c0) as (A1 & A2 & _ & A3 & _).
  set (c1 := sample_battery (rd_sample i) c0) in *. clearbody c1.
  destruct (sample_current_frame (rd_chargei i) c1) as (B1 & B2 & _ & B3 & _).
  set (c2 := sample_current (rd_chargei i) c1) in *. clearbody c2.
  assert (seen c2 = seen c) as E by (unfold seen; rewrite B1, B2, B3, A1, A2, A3; reflexivity).
  assert (reg_ok c2 /\ on_ok c2 /\ (off_ok c -> off_ok c2)) as (R2 & O2 & K2).
  { unfold seen in E. injection E as E1 E2 E3 E4 E5 E6 E7 E8. unfold reg_ok, on_ok, off_ok, cv_3v3. rewrite E1, E2, E3, E4, E5, E6, E7. auto. }
  destruct (detect_spec (rd_pmu i) c2 R2) as (R3 & E3 & _). set (c3 := bat_charge_dc5v_detect _ c2) in *. clearbody c3.
  unfold dc5v_parts in E3. injection E3 as F1 F2 F3 F4 F5 F6 F7 F8.
  assert (on_ok c3 /\ (off_ok c2 -> off_ok c3)) as [O3 K3] by (unfold on_ok, off_ok; rewrite F1, F2, F3, F4, F5, F6; auto).
  destruct (status_proc_keeps i c3 R3 O3) as [I K4].
  apply (keeps_trans _ (bat_charge_status_proc i c3)); [auto|]. apply keeps_seen; [exact I|reflexivity].
Qed.

(** ** Runs *)

(** The works of the two timers, which run only when they are scheduled, and the calls of the interface. *)
Inductive op : Type :=
| Op_timer (i : tick_in)
| Op_enable_timer (n : Z)
| Op_limit (n percent : Z)
| Op_suspend
| Op_resume (s : start_in)
| Op_set (psp : power_supply_property) (intval : Z)
| Op_notify.

Definition step (o : op) (c : bat_charge_context_t) : bat_charge_context_t :=
  match o with
  | Op_timer i => if timer c then bat_charge_timer_handler i (set_timer false c) else c
  | Op_enable_timer n => if charger_enable_timer c then charger_enable_timer_handler n c else c
  | Op_limit n percent => bat_charge_limit_current n percent c
  | Op_suspend => bat_charge_suspend c
  | Op_resume s => bat_charge_resume s c
  | Op_set psp v => battery_acts_set_property psp v c
  | Op_notify => battery_acts_register_notify c
  end.

Definition run (ops : list op) (c : bat_charge_context_t) : bat_charge_context_t := foldl (fun c o => step o c) c ops.

Lemma run_app o1 o2 c : run (o1 ++ o2) c = run o2 (run o1 c).
Proof. apply foldl_app. Qed.

Definition is_enable_timer (o : op) : bool := match o with Op_enable_timer _ => true | _ => false end.

Lemma limit_keeps n p c : charger_inv c -> keeps c (bat_charge_limit_current n p c).
Proof.
  intros I. unfold bat_charge_limit_current. cbv zeta. destruct (negb _); [|apply keeps_seen; auto].
  set (c1 := if limit_current_percent c =? 0 then _ else c).
  assert (exists q, c1 = set_cvd q c) as [q ->].
  { subst c1. split_ifs; first [eexists; reflexivity|exists (cvd c); destruct c; reflexivity]. }
  chg. destruct (charge_ctrl_enabled c) eqn:E; [|apply keeps_seen; auto].
  destruct I as [R O P]. split; [split; [exact R| |exact P]|]; [intros _; apply O; auto|]. intros _ H. chg_in H. congruence.
Qed.

(** What bat_adc_sample_buf_init leaves alone. *)
Lemma sample_fill_frame rs : forall i c,
  let c' := sample_buf_fill i rs c in
  dcv c' = dcv c /\ ctl c' = ctl c /\ sta c' = sta c /\ drv c' = drv c /\ configs c' = configs c.
Proof.
  induction rs as [|r rs IH]; intros i c; cbn [sample_buf_fill]; cbv zeta; [auto|].
  destruct (0 <? _); [destruct (IH (S i) (set_bat_adc_sample_buf (<[i:=u16 (adc_get_sample c r)]> (bat_adc_sample_buf c)) c)) as (-> & -> & -> & -> & ->)|
    destruct (IH (S i) c) as (-> & -> & -> & -> & ->)]; auto.
Qed.

Lemma init_buf_frame p rs c :
  let c' := bat_adc_sample_buf_init p rs c in
  ctl c' = ctl c /\ sta c' = sta c /\ drv c' = drv c /\ configs c' = configs c /\ dc5v_debounce_state c' = dc5v_debounce_state c.
Proof.
  unfold bat_adc_sample_buf_init. pose proof (dc5v_state_frame p c) as F. destruct (get_dc5v_current_state p c) as [s d]. cbn [snd] in F.
  destruct F as (_ & F2 & _ & _ & F5 & F6 & F7 & _ & F9 & _). rewrite <- F2, <- F5, <- F6, <- F7, <- F9. chg.
  destruct (sample_fill_frame (take (Z.to_nat BAT_ADC_SAMPLE_BUF_SIZE) rs) 0 d) as (-> & -> & -> & -> & ->). auto.
Qed.

Lemma init_volt_spec s c :
  let c' := init_volt s c in
  ctl c' = ctl (bat_charge_ctrl_disable c) /\ bat_charge_state c' = bat_charge_state c /\ dc5v_debounce_state c' = dc5v_debounce_state c.
Proof.
  unfold init_volt. destruct (init_buf_frame (st_pmu s) (st_samples s) (bat_check_real_voltage 1 c)) as (G1 & G2 & _ & _ & G5).
  set (c2 := bat_adc_sample_buf_init _ _ _) in *. clearbody c2. cbv zeta.
  set (c3 := set_last_time_check_bat_volt _ _).
  assert (ctl c3 = ctl c2 /\ sta c3 = sta c2 /\ dcv c3 = dcv c2) as (K1 & K2 & K3) by (repeat split). clearbody c3.
  pose proof (dc5v_state_frame (st_pmu_2 s) c3) as F. destruct (get_dc5v_current_state _ c3) as [st d]. cbn [snd] in F.
  destruct F as (_ & F2 & _ & _ & F5 & _ & _ & _ & F9 & _). chg.
  rewrite K1, G1 in F2. rewrite K2, G2 in F5. rewrite K3, G5 in F9.
  destruct (bool_decide _); chg; [|destruct (voltage_low_same (bat_real_volt d) d) as (_ & -> & -> & _ & -> & _)]; rewrite F2, F5, F9; repeat split.
Qed.

Lemma ctrl_init_frame a b c :
  let c' := bat_charge_ctrl_init a b c in sta c' = sta c /\ dc5v_debounce_state c' = dc5v_debounce_state c.
Proof. unfold bat_charge_ctrl_init. cbv zeta. destruct a, b; split; reflexivity. Qed.

(** bat_charge_init leaves the charger off, and the state and the plug alone. *)
Lemma init_stops s c : inited c = false -> st_dev s = true -> st_setup s = true ->
  exists d, ctl (snd (bat_charge_init s c)) = ctl (bat_charge_ctrl_disable d) /\
    bat_charge_state (snd (bat_charge_init s c)) = bat_charge_state c /\
    dc5v_debounce_state (snd (bat_charge_init s c)) = dc5v_debounce_state c.
Proof.
  intros E D S. unfold bat_charge_init. rewrite E, D, S. cbn [negb snd].
  set (c1 := init_settings (set_adc_dev true c)).
  assert (bat_charge_state c1 = bat_charge_state c /\ dc5v_debounce_state c1 = dc5v_debounce_state c) as [K1 K2] by (split; reflexivity).
  clearbody c1. destruct (ctrl_init_frame (st_cc_calib s) (st_cv_calib s) c1) as [F1 F2].
  set (c2 := bat_charge_ctrl_init _ _ c1) in *. clearbody c2. exists c2.
  destruct (init_volt_spec s c2) as (-> & -> & ->). rewrite F1, F2, K1, K2. auto.
Qed.

Lemma reinit_end c :
  let c' := set_timer true (set_enabled true (set_state_timer_count 0 (bat_chargei_sample_buf_init c))) in
  ctl c' = ctl c /\ bat_charge_state c' = bat_charge_state c.
Proof. unfold bat_chargei_sample_buf_init. cbv zeta. split; reflexivity. Qed.

Lemma check_real_voltage_state n c : bat_charge_state (bat_check_real_voltage n c) = bat_charge_state c.
Proof. reflexivity. Qed.

Lemma reinit_keeps p rs c d : is_charging (bat_charge_state d) = false ->
  keeps c (set_timer true (set_enabled true (set_state_timer_count 0 (bat_chargei_sample_buf_init
    (bat_adc_sample_buf_init p rs (bat_check_real_voltage 1 d)))))).
Proof.
  intros N. destruct (init_buf_frame p rs (bat_check_real_voltage 1 d)) as (G1 & G2 & _).
  rewrite check_real_voltage_ctl in G1. rewrite <- (check_real_voltage_state 1) in N. revert G1 G2 N.
  generalize (bat_adc_sample_buf_init p rs (bat_check_real_voltage 1 d)) as e. generalize (bat_check_real_voltage 1 d) as d1. intros d1 e G1 G2 N.
  destruct (reinit_end e) as [E1 E2]. apply (keeps_disabled _ d); [rewrite E1; exact G1|]. rewrite E2, G2. exact N.
Qed.

Lemma init_fails s c : inited c = false -> st_dev s && st_setup s = false -> seen (snd (bat_charge_init s c)) = seen c.
Proof. unfold bat_charge_init. intros ->. destruct (st_dev s), (st_setup s); intros [=]; reflexivity. Qed.

Lemma resume_keeps s c : charger_inv c -> keeps c (bat_charge_resume s c).
Proof.
  intros I. unfold bat_charge_resume. destruct (inited c) eqn:E; cbn [negb].
  - destruct (enabled c); [apply keeps_seen; auto|]. cbv zeta. apply reinit_keeps. reflexivity.
  - destruct (st_dev s && st_setup s) eqn:D; [|apply keeps_seen; [exact I|apply init_fails; assumption]].
    apply andb_prop in D as [D S]. destruct (init_stops s c E D S) as (d & K1 & K2 & K3).
    apply (keeps_disabled_in _ d _ K1). unfold plug_ok. rewrite K2, K3. apply I.
Qed.

Lemma charger_step_inv o c : charger_inv c -> charger_inv (step o c) /\ (is_enable_timer o = false -> off_ok c -> off_ok (step o c)).
Proof.
  intros I. assert (forall c', keeps c c' -> charger_inv c' /\ (is_enable_timer o = false -> off_ok c -> off_ok c')) as K
    by (intros c' [K1 K2]; auto).
  destruct o as [i|n|n p| |s|psp v|]; cbn [step].
  - destruct (timer c); [|apply K, keeps_seen; auto].
    apply K, (keeps_trans _ (set_timer false c)); [auto|]. apply timer_handler_keeps; apply I.
  - split; [|intros [=]]. destruct (charger_enable_timer c); [|exact I]. destruct I as [R O P]. split; [reflexivity|exact O|exact P].
  - apply K, limit_keeps, I.
  - apply K, keeps_seen; [exact I|]. unfold bat_charge_suspend. split_ifs; reflexivity.
  - apply K, resume_keeps, I.
  - apply K, keeps_seen; [exact I|]. destruct psp; reflexivity.
  - apply K, keeps_seen; [exact I|]. unfold battery_acts_register_notify. split_ifs; reflexivity.
Qed.

Lemma run_inv ops : forall c, charger_inv c -> charger_inv (run ops c) /\ (forallb (fun o => negb (is_enable_timer o)) ops = true -> off_ok c -> off_ok (run ops c)).
Proof.
  induction ops as [|o ops IH]; intros c I; [split; auto|]. cbn [run foldl forallb].
  destruct (charger_step_inv o c I) as [I1 K1]. destruct (IH _ I1) as [I2 K2]. split; [exact I2|].
  intros H O. apply andb_prop in H as [H1 H2]. apply K2; [exact H2|]. apply K1; [|exact O]. destruct (is_enable_timer o); [discriminate H1|reflexivity].
Qed.

(** ** The start *)

(** The driver before bat_charge_init. *)
Definition at_boot (c : bat_charge_context_t) : Prop :=
  reg_ok c /\ charge_ctrl_enabled c = false /\ charge_enable_pending c = false /\ bat_charge_state c = BAT_CHG_STATE_INIT /\ inited c = false.

Lemma at_boot_write m v c : at_boot c -> at_boot (pmu_chg_ctl_reg_write m v c).
Proof. intros (_ & B). split; [reflexivity|exact B]. Qed.

Lemma at_boot_stage s c : at_boot c -> at_boot (set_init_charge_stage s c).
Proof. intros B. exact B. Qed.

Lemma boot_stage_at_boot rs ocv : forall c, at_boot c -> at_boot (snd (boot_stage_loop rs ocv c)).
Proof.
  induction rs as [|r rs IH]; intros c B; cbn [boot_stage_loop]; [exact B|]. cbv zeta.
  destruct (_ <? 0); [exact B|]. destruct (_ <? _); [exact B|]. destruct (_ <? _); [exact B|].
  destruct (_ <? _); [|apply IH, B]. destruct (_ <=? _); [|exact B].
  apply at_boot_write, at_boot_stage, at_boot_write, B.
Qed.

Lemma init_stage_at_boot c : at_boot c -> at_boot (init_stage_set c).
Proof.
  intros B. unfold init_stage_set. destruct (_ && _); [|exact B]. cbv zeta.
  assert (at_boot (bat_init_charge_set c)) as H; [|exact H].
  unfold bat_init_charge_set. cbv zeta. destruct (_ =? 1); [apply at_boot_write, B|]. destruct (_ =? 2); [apply at_boot_write, B|].
  destruct (_ =? 3); apply at_boot_write, B.
Qed.

Lemma init_loop_at_boot fuel f : forall k w t o c r d ms, at_boot c -> init_charge_loop fuel f k w t o c = Some (Booted r d, ms) -> at_boot d.
Proof.
  induction fuel as [|fuel IH]; intros k w t o c r d ms B; cbn [init_charge_loop]; [discriminate|]. cbv zeta.
  pose proof (boot_stage_at_boot (take 3 (in_bat (f k))) (in_ocv (f k)) c B) as B1. unfold bat_boot_stage_check_voltage.
  destruct (boot_stage_loop _ _ c) as [[ready w1] c1]. cbn [snd] in B1.
  destruct ready; [intros [= <- <- _]; exact B1|]. apply init_stage_at_boot in B1. destruct (_ <? _); [discriminate|].
  destruct (negb _); [destruct (2 <=? _); [discriminate|]|]; apply IH, B1.
Qed.

Lemma boot_at_boot config reg calib plug rs f r c ms : battery_acts_init config reg calib plug rs f = Some (Booted r c, ms) -> at_boot c.
Proof.
  unfold battery_acts_init. cbv zeta. destruct config as [g|]; [|intros [= <- <- _]; repeat split].
  assert (at_boot (adc_cal_init calib (set_configs g (bat_boot_open_charger (set_bak_PMU_CHG_CTL reg (cleared reg)))))) as B by (repeat split).
  revert B. generalize (adc_cal_init calib (set_configs g (bat_boot_open_charger (set_bak_PMU_CHG_CTL reg (cleared reg))))). intros d B.
  destruct (negb plug).
  - unfold boot_without_dc5v. destruct (existsb _ _); intros [= <- <- _]. exact B.
  - destruct (_ =? _); [apply init_loop_at_boot, B|]. intros [= <- <- _]. exact B.
Qed.

Lemma at_boot_inv c : at_boot c -> charger_inv c.
Proof. intros (R & E & P & S & _). apply quiet_inv. split; [repeat split; assumption|]. rewrite S. reflexivity. Qed.

(** C10: From the start of the driver, over any works of its timers and calls of
    its interface: the register and its copy agree; the charger is enabled only
    in the states precharge and charge, with the plug debounced as in; and
    after the initialization, as long as the work of charger_enable_timer does
    not run, a charger that is not enabled stays at 3.3 V, where it does not
    charge. *)
Theorem charger_off_when_not_charging config reg calib plug rs f c0 ms ops :
  battery_acts_init config reg calib plug rs f = Some (Booted 0 c0, ms) ->
  (let c := run ops c0 in
   CHG_CTL_SVCC c = bak_PMU_CHG_CTL c /\
   (charge_ctrl_enabled c = true ->
    (bat_charge_state c = BAT_CHG_STATE_PRECHARGE \/ bat_charge_state c = BAT_CHG_STATE_CHARGE) /\ dc5v_debounce_state c = DC5V_STATE_IN)) /\
  (forall s ops', inited (run ops c0) = false -> st_dev s = true -> st_setup s = true ->
   forallb (fun o => negb (is_enable_timer o)) ops' = true ->
   let c := run (ops ++ Op_resume s :: ops') c0 in
   charge_ctrl_enabled c = false -> Z.testbit (CHG_CTL_SVCC c) CHG_CTL_SVCC_CV_3V3 = true).
Proof.
  intros B. apply boot_at_boot, at_boot_inv in B. destruct (run_inv ops c0 B) as [I _]. cbv zeta. split; [split; [apply I|]|].
  - intros E. destruct I as [_ O P]. destruct O as (N & _ & _); [auto|]. split; [|apply P, N].
    destruct (bat_charge_state _); first [discriminate N|auto].
  - intros s ops' U D S T. rewrite run_app. set (c1 := run ops c0) in *. clearbody c1. cbn [run foldl step].
    destruct (run_inv ops' (bat_charge_resume s c1)) as [I2 K]; [apply resume_keeps, I|]. intros E. fold (run ops' (bat_charge_resume s c1)) in *.
    rewrite (ci_reg _ I2). apply K; [exact T| |exact E].
    unfold bat_charge_resume. rewrite U. cbn [negb]. destruct (init_stops s c1 U D S) as (d & E1 & _).
    unfold off_ok, cv_3v3. rewrite E1. apply (disable_off d).
Qed.

(** ** The state machine leaves the plug and the configuration alone *)

(** What only bat_charge_dc5v_detect and the interface change. *)
Definition given (c : bat_charge_context_t) := (dc5v_debounce_state c, charger_enable_timer c, configs c, adc_dev c, inited c, enabled c).

Ltac given_tac := unfold given; fr; reflexivity.

Lemma given_check_real s c : given (bat_check_real_voltage s c) = given c.
Proof. reflexivity. Qed.

Lemma given_start s c : given (bat_charge_state_start s c) = given c.
Proof. destruct (state_start_spec s c) as (H1 & H2 & _ & H4 & H5 & _). unfold given. rewrite H1, H2, H4, H5. reflexivity. Qed.

Lemma given_check_volt v c : given (bat_charge_state_check_volt v c) = given c.
Proof. unfold bat_charge_state_check_volt. cbv zeta. split_ifs; reflexivity. Qed.

Lemma given_first v c : given (first_state v c) = given c.
Proof. unfold first_state. cbv zeta. split_ifs; reflexivity. Qed.

Lemma given_stop c : given (bat_charge_state_stop c) = given c.
Proof. unfold bat_charge_state_stop. cbv zeta. destruct (charge_state_started _); given_tac. Qed.

Lemma given_restart n c : given (restart_from_err n c) = given c.
Proof. unfold restart_from_err. split_ifs; reflexivity. Qed.

Lemma given_notify e c : given (notify e c) = given c.
Proof. given_tac. Qed.

Lemma given_full c : given (charge_full c) = given c.
Proof.
  assert (forall d, given (adjust_current_invalid (no_cv_stages (set_bat_charge_state BAT_CHG_STATE_FULL (keep_full_plug d)))) = given d) as H by reflexivity.
  unfold charge_full. rewrite H, given_notify. reflexivity.
Qed.

Lemma given_round i period c : reg_ok c -> given (charge_round i period c) = given c.
Proof.
  intros R. rewrite charge_round_eq. set (c1 := set_state_timer_count _ c).
  destruct (round_cv_spec i c1 R) as (E1 & _ & _ & E4 & E5 & _ & _ & _ & _ & _ & _ & E11 & E12).
  assert (given (round_cv i c1) = given c) as G by (unfold given; rewrite E1, E4, E5, E11, E12; reflexivity).
  cbv zeta. rewrite <- G. split_ifs; reflexivity.
Qed.

Lemma given_measured n v c : given (charge_measured n v c) = given c.
Proof.
  unfold charge_measured. destruct (charge_near_full c); [apply given_full|].
  destruct (negb _); [destruct (time_over _ _); [reflexivity|]|]; exact (given_start _ c).
Qed.

Lemma given_charge i v c : reg_ok c -> given (bat_charge_state_charge i v c) = given c.
Proof.
  intros R. unfold bat_charge_state_charge. destruct (negb _); cbv zeta.
  - rewrite given_check_real. exact (given_stop c).
  - rewrite <- (given_restart (now i) c). assert (reg_ok (restart_from_err (now i) c)) as R1.
    { destruct (restart_frame (now i) c) as (_ & _ & E & _). unfold reg_ok. rewrite E. exact R. }
    revert R1. generalize (restart_from_err (now i) c). clear. intros c R.
    destruct (_ && _); [apply given_full|]. destruct (_ <? _); [apply given_round, R|]. destruct (_ <? _); [reflexivity|apply given_measured].
Qed.

Lemma given_precharge n v c : given (bat_charge_state_precharge n v c) = given c.
Proof.
  unfold bat_charge_state_precharge. destruct (negb _); cbv zeta.
  - rewrite given_check_real. exact (given_stop c).
  - rewrite <- (given_restart n c). generalize (restart_from_err n c). clear. intros c. split_ifs; reflexivity.
Qed.

Lemma given_state_proc i v c : reg_ok c -> given (state_proc i v c) = given c.
Proof.
  intros R. unfold state_proc. destruct (bat_charge_state c).
  - unfold bat_charge_state_init. destruct (err_to_stop_charge c); [|apply given_first].
    destruct (_ && _); [destruct (bool_decide _); [reflexivity|apply given_check_volt]|]. cbv zeta. rewrite given_first. reflexivity.
  - unfold bat_charge_state_low. destruct (bool_decide _); [|apply given_check_volt]. destruct (_ =? _); [|reflexivity].
    exact (given_start (precharge_current_sel c) c).
  - apply given_precharge.
  - unfold bat_charge_state_normal. destruct (bool_decide _); [|apply given_check_volt]. exact (given_start (Charge_Current (configs c)) c).
  - apply given_charge, R.
  - unfold bat_charge_state_full, keep_full_plug. destruct (negb _); [|apply given_check_volt]. cbv zeta. split_ifs; given_tac.
Qed.

Lemma given_check_enable c : given (bat_charge_check_enable c) = given c.
Proof.
  destruct (check_enable_spec c) as [->|(_ & H1 & H2 & _ & _ & H5 & H6 & _)]; [reflexivity|]. unfold given. rewrite H1, H2, H5, H6. reflexivity.
Qed.

Lemma given_measure n c : given (snd (measure n c)) = given c.
Proof. destruct (measure_frame n c) as (H1 & H2 & _ & H4 & H5 & _). unfold given. rewrite H1, H2, H4, H5. reflexivity. Qed.

(** The change of the state in bat_charge_status_proc. *)
Definition enter_state (last_state : BAT_CHARGE_STATE) (n : Z) (c : bat_charge_context_t) : bat_charge_context_t :=
  if bool_decide (bat_charge_state c = last_state) then c
  else
    let c := set_state_timer_count 0 c in
    if bool_decide (bat_charge_state c = BAT_CHG_STATE_CHARGE) then set_charge_begin_time n c else c.

Lemma status_proc_eq i c :
  bat_charge_status_proc i c =
  bat_charge_check_enable (enter_state (bat_charge_state c) (now i) (state_proc i (fst (measure (now i) c)) (snd (measure (now i) c)))).
Proof. unfold bat_charge_status_proc, enter_state. destruct (measure (now i) c). reflexivity. Qed.

Lemma given_status_proc i c : reg_ok c -> given (bat_charge_status_proc i c) = given c.
Proof.
  intros R. rewrite status_proc_eq, given_check_enable. rewrite <- (given_measure (now i) c).
  assert (reg_ok (snd (measure (now i) c))) as R1.
  { destruct (measure_frame (now i) c) as (_ & _ & _ & _ & _ & E & _). unfold reg_ok. rewrite E. exact R. }
  rewrite <- (given_state_proc i (fst (measure (now i) c)) _ R1). unfold enter_state. split_ifs; reflexivity.
Qed.

(** The samples before the debouncing. *)
Definition sampled (i : tick_in) (c : bat_charge_context_t) : bat_charge_context_t :=
  sample_current (rd_chargei i) (sample_battery (rd_sample i)
    (set_bat_chargei_sample_timer_count (u16 (bat_chargei_sample_timer_count c + 1))
       (set_bat_adc_sample_timer_count (u16 (bat_adc_sample_timer_count c + 1)) c))).

Lemma timer_handler_eq i c :
  bat_charge_timer_handler i c = set_timer true (bat_charge_status_proc i (bat_charge_dc5v_detect (rd_pmu i) (sampled i c))).
Proof. reflexivity. Qed.

Lemma sampled_frame i c :
  let c' := sampled i c in
  dcv c' = dcv c /\ ctl c' = ctl c /\ cvd c' = cvd c /\ sta c' = sta c /\ drv c' = drv c /\ configs c' = configs c
  /\ events c' = events c /\ bat_real_volt c' = bat_real_volt c.
Proof.
  unfold sampled. set (c0 := set_bat_chargei_sample_timer_count _ _).
  destruct (sample_battery_frame (rd_sample i) c0) as (A1 & A2 & A3 & A4 & A5 & A6 & A7 & A8).
  destruct (sample_current_frame (rd_chargei i) (sample_battery (rd_sample i) c0)) as (B1 & B2 & B3 & B4 & B5 & B6 & B7 & B8).
  cbv zeta. rewrite B1, B2, B3, B4, B5, B6, B7, B8, A1, A2, A3, A4, A5, A6, A7, A8. repeat split.
Qed.

(** ** The stop by an error *)

Lemma sample_battery_dev r c : adc_dev (sample_battery r c) = adc_dev c.
Proof.
  unfold sample_battery, bat_adc_sample_buf_put. cbv zeta.
  split_ifs; chg; try reflexivity; match goal with |- context [get_battery_percent ?d] => destruct (percent_frame d) as (-> & _) end; reflexivity.
Qed.

Lemma sample_current_dev r c : adc_dev (sample_current r c) = adc_dev c.
Proof. unfold sample_current, bat_chargei_sample_buf_put. cbv zeta. split_ifs; reflexivity. Qed.

Lemma sampled_dev i c : adc_dev (sampled i c) = adc_dev c.
Proof. unfold sampled. rewrite sample_current_dev, sample_battery_dev. reflexivity. Qed.

Lemma set_timer_given b c : dc5v_debounce_state (set_timer b c) = dc5v_debounce_state c.
Proof. reflexivity. Qed.

(** A work of the timer with the plug in before and after it. *)
Lemma plugged_handler i c : reg_ok c -> dc5v_debounce_state c = DC5V_STATE_IN -> dc5v_debounce_state (bat_charge_timer_handler i c) = DC5V_STATE_IN ->
  exists d, bat_charge_timer_handler i c = set_timer true (bat_charge_status_proc i d) /\
    reg_ok d /\ dc5v_debounce_state d = DC5V_STATE_IN /\ sta d = sta c /\ ctl d = ctl c /\ cvd d = cvd c /\ configs d = configs c
    /\ charger_enable_timer d = charger_enable_timer c /\ adc_dev d = adc_dev c /\ bat_real_volt d = bat_real_volt c.
Proof.
  intros R D D'. rewrite timer_handler_eq in *. rewrite set_timer_given in D'.
  destruct (sampled_frame i c) as (A1 & A2 & A3 & A4 & A5 & A6 & _ & A7). pose proof (sampled_dev i c) as A8.
  set (c1 := sampled i c) in *. clearbody c1. assert (reg_ok c1) as R1 by (unfold reg_ok; rewrite A2; exact R).
  destruct (detect_spec (rd_pmu i) c1 R1) as (R2 & _ & E1 & E2 & _ & E3 & E4 & _ & H).
  set (d := bat_charge_dc5v_detect (rd_pmu i) c1) in *. clearbody d.
  assert (dc5v_debounce_state d = DC5V_STATE_IN) as Dd.
  { pose proof (given_status_proc i d R2) as G. unfold given in G. injection G as G1 _. rewrite <- G1. exact D'. }
  exists d. destruct H as [(H1 & H2 & H3 & H4 & H5 & H6)|[H1 _]]; [|rewrite Dd, A1, D in H1; congruence].
  rewrite H2, H3, H6, E1, E2, E3, E4. rewrite A1, A2, A3, A4, A6, A7, A8. repeat split; assumption.
Qed.

(** Stopped by an error at a time, with the plug in. *)
Definition err_stopped (t : Z) (c : bat_charge_context_t) : Prop :=
  bat_charge_state c = BAT_CHG_STATE_INIT /\ err_to_stop_charge c = true /\ err_status_dc5v_change_flag c = false /\
  err_stop_begin_time c = t /\ stopped c /\ cv_3v3 c = true /\ charger_enable_timer c = false.

Lemma err_stopped_proc i t d : err_stopped t d -> dc5v_debounce_state d = DC5V_STATE_IN ->
  bat_get_diff_time (now i) t < BAT_ERR_STOP_RESTART_TIME_MS -> err_stopped t (bat_charge_status_proc i d).
Proof.
  intros (S & E & F & T & (R & G1 & G2) & V & A) D L. rewrite status_proc_eq.
  destruct (measure_frame (now i) d) as (M1 & M2 & M3 & M4 & M5 & M6 & M7). destruct (measure (now i) d) as [v c]. cbn [fst snd] in *.
  assert (err_stopped t c) as (S' & E' & F' & T' & (R' & G1' & G2') & V' & A').
  { unfold err_stopped, stopped, reg_ok, cv_3v3. rewrite M2, M6, M7. repeat split; assumption. }
  unfold state_proc. rewrite S'. unfold bat_charge_state_init. rewrite E', F', T'. rewrite (proj2 (Z.ltb_lt _ _) L). cbn [negb andb].
  rewrite M2, D. rewrite (bool_decide_eq_true_2 (DC5V_STATE_IN = DC5V_STATE_IN)) by reflexivity.
  unfold enter_state. rewrite S', S, (bool_decide_eq_true_2 (BAT_CHG_STATE_INIT = _)) by reflexivity.
  unfold bat_charge_check_enable. cbv zeta. rewrite G2'. repeat split; assumption.
Qed.

Definition is_resume (o : op) : bool := match o with Op_resume _ => true | _ => false end.

(** The works of the timer of a run that are due before the end of the stop. *)
Definition within (t : Z) (o : op) : Prop :=
  is_resume o = false /\ match o with Op_timer i => bat_get_diff_time (now i) t < BAT_ERR_STOP_RESTART_TIME_MS | _ => True end.

Lemma err_stopped_step o t c : err_stopped t c -> dc5v_debounce_state c = DC5V_STATE_IN -> dc5v_debounce_state (step o c) = DC5V_STATE_IN ->
  within t o -> err_stopped t (step o c).
Proof.
  intros P D D' [W1 W2]. pose proof P as (S & E & F & T & (R & G1 & G2) & V & A). destruct o as [i|n|n p| |s|psp v|]; cbn [step] in *.
  - destruct (timer c); [|exact P].
    destruct (plugged_handler i (set_timer false c) R D D') as (d & -> & Rd & Dd & H1 & H2 & _ & _ & H3 & _).
    apply (err_stopped_proc i t d); [|exact Dd|exact W2].
    unfold err_stopped, stopped, reg_ok, cv_3v3. rewrite H1, H2, H3. repeat split; assumption.
  - rewrite A. exact P.
  - unfold bat_charge_limit_current. cbv zeta. destruct (negb _); [|exact P].
    set (c1 := if limit_current_percent c =? 0 then _ else c).
    assert (exists q, c1 = set_cvd q c) as [q ->].
    { subst c1. split_ifs; first [eexists; reflexivity|exists (cvd c); destruct c; reflexivity]. }
    chg. rewrite G1. exact P.
  - unfold bat_charge_suspend. destruct (_ || _); exact P.
  - discriminate W1.
  - destruct psp; exact P.
  - unfold battery_acts_register_notify. destruct (callback c); exact P.
Qed.

Lemma err_stopped_run t ops : forall c, err_stopped t c ->
  (forall k, dc5v_debounce_state (run (take k ops) c) = DC5V_STATE_IN) -> Forall (within t) ops -> err_stopped t (run ops c).
Proof.
  induction ops as [|o ops IH]; intros c P D W; [exact P|]. apply Forall_cons in W as [W1 W2].
  apply (IH (step o c)); [|intros k; exact (D (S k))|exact W2].
  apply err_stopped_step; [exact P|exact (D 0%nat)|exact (D 1%nat)|exact W1].
Qed.

(** The rounds of charging until the next measurement. *)
Definition charge_period (c : bat_charge_context_t) : Z :=
  rounds (if charge_near_full c then Charge_Full_Continue_Sec (configs c) else Charge_Check_Period_Sec (configs c)).

(** The state charge with the plug in. *)
Lemma state_charge_eq i v c : dc5v_debounce_state c = DC5V_STATE_IN ->
  bat_charge_state_charge i v c =
  let c := restart_from_err (now i) c in
  if charge_near_full c && (charge_period c =? 0) then charge_full c
  else if state_timer_count c <? charge_period c then charge_round i (charge_period c) c
  else if v <? 0 then c
  else charge_measured (now i) v c.
Proof. intros D. unfold bat_charge_state_charge. rewrite D. reflexivity. Qed.

Lemma err_out_stopped n c : err_status_dc5v_change_flag c = false -> charger_enable_timer c = false -> err_stopped n (charge_err_out n c).
Proof.
  intros F A. unfold err_stopped. destruct (disabled_stopped c) as [S V].
  repeat split; try assumption; try apply S; unfold cv_3v3; rewrite err_out_ctl; exact V.
Qed.

Lemma check_enable_idle c : charge_enable_pending c = false -> bat_charge_check_enable c = c.
Proof. intros H. unfold bat_charge_check_enable. rewrite H. reflexivity. Qed.

Lemma err_stopped_enter n s t c : err_stopped t c -> err_stopped t (enter_state s n c).
Proof.
  intros P. pose proof P as (S & _). unfold enter_state. destruct (bool_decide _); [exact P|]. cbv zeta. chg. rewrite S.
  rewrite bool_decide_eq_false_2 by discriminate. exact P.
Qed.

(** The overvoltage check of a work of the timer is due and finds one. *)
Definition over_voltage_due (i : tick_in) (c : bat_charge_context_t) : Prop :=
  0 <= state_timer_count c < 2 ^ 16 - 1 /\ state_timer_count c < charge_period c /\
  (state_timer_count c + 1) mod 200 = 0 /\ over_voltage (rd_ovp i) c = true.

Lemma over_voltage_proc i c : reg_ok c -> bat_charge_state c = BAT_CHG_STATE_CHARGE -> dc5v_debounce_state c = DC5V_STATE_IN ->
  charger_enable_timer c = false -> err_status_dc5v_change_flag c = false -> over_voltage_due i c ->
  err_stopped (now i) (bat_charge_status_proc i c).
Proof.
  intros R S D A F (U & L & M & V). rewrite status_proc_eq.
  destruct (measure_frame (now i) c) as (M1 & M2 & M3 & M4 & M5 & M6 & M7). destruct (measure (now i) c) as [v c1]. cbn [fst snd] in *.
  assert (reg_ok c1) as R1 by (unfold reg_ok; rewrite M6; exact R).
  unfold state_proc. rewrite M7. cbn [bat_charge_state]. chg. rewrite S.
  rewrite state_charge_eq by (rewrite M2; exact D). cbv zeta.
  destruct (restart_frame (now i) c1) as (N1 & N2 & N3 & _ & _ & _ & N4 & _ & _ & _ & N5 & N6 & _).
  assert (err_status_dc5v_change_flag (restart_from_err (now i) c1) = false) as F2.
  { unfold restart_from_err. destruct (restart_from_err_flag c1); chg; rewrite M7; exact F. }
  set (c2 := restart_from_err (now i) c1) in *. clearbody c2.
  assert (charge_period c2 = charge_period c /\ state_timer_count c2 = state_timer_count c) as [P2 T2].
  { unfold charge_period. rewrite N4, N5, N6, M5, M7. auto. }
  rewrite P2, T2. rewrite (proj2 (Z.ltb_lt _ _) L). replace (charge_period c =? 0) with false by lia. rewrite andb_false_r.
  rewrite charge_round_eq. set (c3 := set_state_timer_count _ c2).
  assert (reg_ok c3) as R3 by (unfold reg_ok, c3; chg; rewrite N3; exact R1).
  destruct (round_cv_spec i c3 R3) as (K1 & _ & K3 & _ & K5 & _ & _ & _ & _ & _ & _ & _ & K12).
  set (c4 := round_cv i c3) in *. clearbody c4. cbv zeta. rewrite K3. unfold c3 at 1. chg. rewrite T2, u16_small by lia.
  change (10000 / BAT_CHARGE_DRIVER_TIMER_MS) with 200. rewrite M. cbn [Z.eqb andb].
  assert (over_voltage (rd_ovp i) c4 = true) as V4.
  { unfold over_voltage, adc_get_sample in *. rewrite K1, K5. unfold c3. chg. rewrite N1, N4, M1, M5. exact V. }
  rewrite V4. rewrite check_enable_idle; [apply err_stopped_enter, err_out_stopped|].
  - rewrite K3. exact F2.
  - rewrite K12. unfold c3. chg. rewrite N2, M2. exact A.
  - unfold enter_state. split_ifs; reflexivity.
Qed.

(** C11: When the overvoltage check of a work of the timer finds the battery's
    voltage at or over the limit, the charger is off from then on, over any
    works of the timers and calls but bat_charge_resume, as long as the
    debounced plug stays in and ten minutes have not passed: the state is
    init, the charger is not enabled and its voltage is 3.3 V. *)
Theorem overvoltage_stops_charging i c ops :
  charger_inv c -> timer c = true -> bat_charge_state c = BAT_CHG_STATE_CHARGE ->
  charger_enable_timer c = false -> err_status_dc5v_change_flag c = false -> over_voltage_due i c ->
  (forall k, dc5v_debounce_state (run (take k ops) (step (Op_timer i) c)) = DC5V_STATE_IN) -> Forall (within (now i)) ops ->
  let c' := run ops (step (Op_timer i) c) in
  bat_charge_state c' = BAT_CHG_STATE_INIT /\ charge_ctrl_enabled c' = false /\ Z.testbit (CHG_CTL_SVCC c') CHG_CTL_SVCC_CV_3V3 = true.
Proof.
  intros [R O P] T S A F V D W. cbn zeta.
  assert (dc5v_debounce_state c = DC5V_STATE_IN) as D0 by (apply P; rewrite S; reflexivity).
  assert (err_stopped (now i) (step (Op_timer i) c)) as E.
  { specialize (D 0%nat). cbn [take run foldl step] in *. rewrite T in *.
    destruct (plugged_handler i (set_timer false c) R D0 D) as (d & -> & Rd & Dd & H1 & H2 & _ & H3 & H4 & H5 & _).
    enough (err_stopped (now i) (bat_charge_status_proc i d)) as E by exact E.
    apply over_voltage_proc; rewrite ?H1, ?H4; try assumption.
    destruct V as (V1 & V2 & V3 & V4). unfold over_voltage_due, charge_period, over_voltage, adc_get_sample in *. rewrite H1, H3, H5. auto. }
  destruct (err_stopped_run (now i) ops _ E D W) as (H1 & _ & _ & _ & (H2 & H3 & _) & H4 & _).
  rewrite H2. auto.
Qed.

(** ** Charging ends *)

Lemma volt_u16_range x : 0 <= u16 x < 2 ^ 16.
Proof. unfold u16. apply Z.mod_pos_bound. lia. Qed.

Lemma voltage_change_real n v c : 0 <= bat_real_volt (snd (bat_check_voltage_change n v c)).
Proof.
  unfold bat_check_voltage_change. cbv zeta. destruct (bool_decide _ && _); [set (c1 := set_last_saved_bat_volt 0 c)|set (c1 := c)];
    match goal with |- context [set_bat_real_volt (u16 ?w) _] => generalize w end; intros w; (destruct (bool_decide _); cbn [snd]; [chg; apply volt_u16_range|]);
    match goal with |- context [bat_check_voltage_low w ?d] => destruct (voltage_low_same w d) as (_ & _ & _ & _ & _ & _ & _ & ->) end; chg; apply volt_u16_range.
Qed.

Lemma voltage_change_charging n v c : is_charging (bat_charge_state c) = true -> bat_real_volt c <= fst (bat_check_voltage_change n v c).
Proof.
  intros H. unfold bat_check_voltage_change. cbv zeta.
  replace (bool_decide (bat_charge_state c = BAT_CHG_STATE_INIT)) with false by (destruct (bat_charge_state c); try discriminate H; reflexivity).
  cbn [andb fst]. rewrite H. unfold smooth_charge. cbv zeta.
  match goal with |- _ <= (if ?x <? _ then _ else _) => generalize x end. intros x. destruct (x <? _) eqn:X; lia.
Qed.

(** The measurement that is due gives a voltage. *)
Lemma measure_due n c : need_check_bat_real_volt c = true -> bat_volt_check_wait_count c = 1 -> is_charging (bat_charge_state c) = true ->
  bat_real_volt c <= fst (measure n c).
Proof.
  intros N W H. unfold measure. rewrite N, W. change (0 <? 1) with true. cbv iota zeta.
  change (bat_volt_check_wait_count (set_bat_volt_check_wait_count (1 - 1) c) =? 0) with true. cbv iota.
  set (c1 := set_need_check_bat_real_volt false _). set (w := get_battery_voltage_by_time 1 _).
  assert (is_charging (bat_charge_state c1) = true /\ bat_real_volt c1 = bat_real_volt c) as (H1 & E1) by (split; [exact H|reflexivity]).
  clearbody c1 w. pose proof (voltage_change_charging n w c1 H1) as G.
  destruct (bat_check_voltage_change n w c1) as [v c2]. destruct (get_battery_percent c2) as [p c3]. cbn [fst] in *. lia.
Qed.

Lemma measure_real_volt n c : 0 <= bat_real_volt c -> 0 <= bat_real_volt (snd (measure n c)).
Proof.
  intros V. unfold measure. destruct (need_check_bat_real_volt c); [|exact V]. cbv zeta.
  set (c1 := if 0 <? bat_volt_check_wait_count c then _ else _).
  assert (bat_real_volt c1 = bat_real_volt c) as E by (subst c1; destruct (0 <? _); reflexivity). clearbody c1.
  destruct (_ =? 0); [|cbn [snd]; lia].
  pose proof (voltage_change_real n (get_battery_voltage_by_time 1 c1) (set_need_check_bat_real_volt false c1)) as G.
  destruct (bat_check_voltage_change _ _ _) as [v c2]. cbn [snd] in G.
  pose proof (percent_frame c2) as K. destruct (get_battery_percent c2) as [p c3]. cbn [snd] in K. destruct K as (_ & _ & _ & _ & _ & _ & _ & _ & K9).
  destruct (report_frame v p c3) as (_ & _ & _ & _ & _ & _ & _ & L8).
  destruct (bool_decide _); cbn [snd]; chg; rewrite L8, K9; exact G.
Qed.

(** The rounds of the state charge: it counts to the next measurement, or waits for it. *)
Definition charge_phase (c : bat_charge_context_t) : Prop :=
  if need_check_bat_real_volt c then state_timer_count c = charge_period c /\ 1 <= bat_volt_check_wait_count c <= 60
  else 0 <= state_timer_count c /\ (state_timer_count c < charge_period c \/ charge_near_full c = true /\ charge_period c = 0 /\ state_timer_count c = 0).

(** The most works of the timer that charging can last once the time is over. *)
Definition charge_left (c : bat_charge_context_t) : Z :=
  (if need_check_bat_real_volt c then bat_volt_check_wait_count c else charge_period c - state_timer_count c + 60) +
  (if charge_near_full c then 0 else rounds (Charge_Full_Continue_Sec (configs c)) + 61).

(** The configured periods fit their 16-bit counter. *)
Definition periods_ok (g : bat_charge_configs_t) : Prop :=
  0 < rounds (Charge_Check_Period_Sec g) < 2 ^ 16 /\ 0 <= rounds (Charge_Full_Continue_Sec g) < 2 ^ 16.

Lemma charge_left_pos c : periods_ok (configs c) -> charge_phase c -> 1 <= charge_left c.
Proof.
  unfold periods_ok, charge_phase, charge_left. intros P Q. destruct (need_check_bat_real_volt c); [destruct (charge_near_full c); lia|].
  destruct (charge_near_full c); lia.
Qed.

(** What a round of charging leaves when it does not leave the state. *)
Definition charge_next (n : Z) (c c' : bat_charge_context_t) : Prop :=
  bat_charge_state c' <> BAT_CHG_STATE_CHARGE \/
  (charge_phase c' /\ charge_begin_time c' = charge_begin_time c /\ restart_from_err_flag c' = false /\
   configs c' = configs c /\ (time_over n c = true -> charge_left c' < charge_left c)).

Lemma charge_round_next i c : reg_ok c -> periods_ok (configs c) -> restart_from_err_flag c = false ->
  need_check_bat_real_volt c = false -> 0 <= state_timer_count c < charge_period c ->
  charge_next (now i) c (charge_round i (charge_period c) c).
Proof.
  intros R P F N L. rewrite charge_round_eq. set (c1 := set_state_timer_count _ c).
  destruct (round_cv_spec i c1 R) as (_ & _ & E3 & _ & E5 & _). set (c2 := round_cv i c1) in *. clearbody c2. cbv zeta.
  assert (charge_period c < 2 ^ 16) as B by (unfold charge_period; destruct (charge_near_full c); apply P).
  assert (state_timer_count c2 = state_timer_count c + 1) as T by (rewrite E3; unfold c1; chg; apply u16_small; lia).
  assert (charge_period c2 = charge_period c) as Q by (unfold charge_period; rewrite E3, E5; reflexivity).
  destruct (_ && _); [left; discriminate|]. right. unfold charge_phase, charge_left.
  destruct (state_timer_count c2 =? charge_period c) eqn:X.
  - set (c3 := bat_check_real_voltage BAT_VOLT_CHECK_SAMPLE_SEC c2).
    assert (need_check_bat_real_volt c3 = true /\ bat_volt_check_wait_count c3 = 60 /\ state_timer_count c3 = state_timer_count c2
      /\ charge_period c3 = charge_period c2 /\ charge_near_full c3 = charge_near_full c2 /\ charge_begin_time c3 = charge_begin_time c2
      /\ restart_from_err_flag c3 = restart_from_err_flag c2 /\ configs c3 = configs c2) as (-> & -> & -> & -> & -> & -> & -> & ->) by (repeat split).
    rewrite N, Q, T, E3, E5. unfold c1. chg. repeat split; try assumption; lia.
  - rewrite Q, T. rewrite E3, E5. unfold c1. chg. rewrite N. repeat split; try assumption; lia.
Qed.

Lemma charge_measured_next n v c : periods_ok (configs c) -> restart_from_err_flag c = false ->
  let c' := charge_measured n v c in
  bat_charge_state c' <> BAT_CHG_STATE_CHARGE \/
  (charge_phase c' /\ charge_begin_time c' = charge_begin_time c /\ restart_from_err_flag c' = false /\ configs c' = configs c /\
   (time_over n c = false \/ charge_near_full c = false /\ charge_left c' = rounds (Charge_Full_Continue_Sec (configs c)) + 60)).
Proof.
  intros P F. unfold charge_measured. cbv zeta. destruct (charge_near_full c) eqn:N; [left; destruct (charge_full_spec c) as [_ ->]; discriminate|].
  destruct (state_start_spec (Charge_Current (configs c)) c) as (_ & _ & _ & _ & E1 & _ & _ & _ & _ & _ & _ & E2 & _ & _ & E3 & _ & E4 & _).
  set (d := bat_charge_state_start _ c) in *. clearbody d. unfold periods_ok in P.
  destruct (stop_charge n v c); cbn [negb]; [right|destruct (time_over n c) eqn:T; [left; discriminate|right]];
    unfold charge_phase, charge_left, charge_period; chg; rewrite E1, E2, E3, E4; repeat split; try assumption; auto; lia.
Qed.

(** A round of the state charge after the measurement. *)
Lemma charge_proc_next i v c : reg_ok c -> periods_ok (configs c) -> dc5v_debounce_state c = DC5V_STATE_IN -> restart_from_err_flag c = false ->
  need_check_bat_real_volt c = false -> 0 <= state_timer_count c ->
  state_timer_count c < charge_period c \/ charge_near_full c = true /\ charge_period c = 0 /\ state_timer_count c = 0 ->
  charge_next (now i) c (bat_charge_state_charge i v c).
Proof.
  intros R P D F N T L. rewrite state_charge_eq by exact D. unfold restart_from_err. rewrite F. cbv zeta.
  destruct (charge_near_full c && (charge_period c =? 0)) eqn:X; [left; destruct (charge_full_spec c) as [_ ->]; discriminate|].
  destruct L as [L|(L1 & L2 & _)]; [|rewrite L1, L2 in X; discriminate X].
  rewrite (proj2 (Z.ltb_lt _ _) L). apply charge_round_next; auto.
Qed.

(** The rest of bat_charge_status_proc does not change the phase. *)
Lemma charge_next_end n c c' : charge_next n c c' -> charge_next n c (bat_charge_check_enable (enter_state BAT_CHG_STATE_CHARGE n c')).
Proof.
  intros H. unfold enter_state. destruct (decide (bat_charge_state c' = BAT_CHG_STATE_CHARGE)) as [S|S].
  - rewrite (bool_decide_eq_true_2 _ S).
    destruct (check_enable_spec c') as [->|(_ & _ & _ & _ & E1 & _ & E2 & _)]; [exact H|].
    unfold charge_next, charge_phase, charge_left, charge_period in *. rewrite E1, E2. exact H.
  - rewrite (bool_decide_eq_false_2 _ S). cbv zeta. chg. rewrite (bool_decide_eq_false_2 _ S). left.
    destruct (check_enable_spec (set_state_timer_count 0 c')) as [->|(_ & _ & _ & _ & E1 & _)]; [exact S|]. rewrite E1. exact S.
Qed.

Lemma charge_full_period i v c : dc5v_debounce_state c = DC5V_STATE_IN -> restart_from_err_flag c = false -> charge_near_full c = true -> charge_period c = 0 ->
  bat_charge_state (bat_charge_state_charge i v c) = BAT_CHG_STATE_FULL.
Proof.
  intros D F N P. rewrite state_charge_eq by exact D. unfold restart_from_err. rewrite F. cbv zeta. rewrite N, P. apply charge_full_spec.
Qed.

(** A round of waiting, and the measured one. *)
Lemma charge_wait_next i c : periods_ok (configs c) -> dc5v_debounce_state c = DC5V_STATE_IN -> restart_from_err_flag c = false ->
  need_check_bat_real_volt c = true -> state_timer_count c = charge_period c -> 1 < bat_volt_check_wait_count c <= 60 ->
  charge_next (now i) c (bat_charge_state_charge i (- 1) (set_bat_volt_check_wait_count (bat_volt_check_wait_count c - 1) c)).
Proof.
  intros P D F N T W. set (c1 := set_bat_volt_check_wait_count _ c).
  destruct (charge_near_full c && (charge_period c =? 0)) eqn:X.
  - apply andb_prop in X as [X1 X2]. left. rewrite (charge_full_period i (- 1) c1 D F X1) by (apply Z.eqb_eq; exact X2). discriminate.
  - rewrite state_charge_eq by exact D. unfold restart_from_err. change (restart_from_err_flag c1) with (restart_from_err_flag c). rewrite F. cbv zeta.
    change (charge_near_full c1) with (charge_near_full c). change (charge_period c1) with (charge_period c). rewrite X.
    change (state_timer_count c1) with (state_timer_count c). rewrite T, Z.ltb_irrefl. change (-1 <? 0) with true. cbv iota.
    right. unfold charge_phase, charge_left. change (charge_period c1) with (charge_period c). unfold c1. chg. rewrite N. repeat split; try assumption; lia.
Qed.

Lemma charge_due_next i v c c1 : periods_ok (configs c) -> dc5v_debounce_state c = DC5V_STATE_IN -> restart_from_err_flag c = false ->
  need_check_bat_real_volt c = true -> state_timer_count c = charge_period c -> bat_volt_check_wait_count c = 1 -> 0 <= v ->
  dc5v_debounce_state c1 = dc5v_debounce_state c -> configs c1 = configs c -> charge_near_full c1 = charge_near_full c ->
  state_timer_count c1 = state_timer_count c -> charge_begin_time c1 = charge_begin_time c -> restart_from_err_flag c1 = restart_from_err_flag c ->
  charge_next (now i) c (bat_charge_state_charge i v c1).
Proof.
  intros P D F N T W V E1 E2 E3 E4 E5 E6. rewrite <- E1 in D. rewrite <- E6 in F.
  assert (charge_period c1 = charge_period c) as E7 by (unfold charge_period; rewrite E2, E3; reflexivity).
  destruct (charge_near_full c1 && (charge_period c1 =? 0)) eqn:X.
  - apply andb_prop in X as [X1 X2]. left. rewrite (charge_full_period i v c1 D F X1) by (apply Z.eqb_eq; exact X2). discriminate.
  - rewrite state_charge_eq by exact D. unfold restart_from_err. rewrite F. cbv zeta. rewrite X, E4, T, E7, Z.ltb_irrefl.
    rewrite (proj2 (Z.ltb_ge _ _) V). rewrite <- E2 in P.
    destruct (charge_measured_next (now i) v c1 P F) as [H|(H1 & H2 & H3 & H4 & H5)]; [left; exact H|right].
    rewrite E5 in H2. rewrite E2 in H4. repeat split; try assumption. intros O. destruct H5 as [H5|[H5 ->]].
    + unfold time_over in *. rewrite E2, E5, O in H5. discriminate.
    + unfold charge_left. rewrite N, W, E2, <- E3, H5. lia.
Qed.

Lemma full_real_volt c : bat_real_volt (charge_full c) = bat_real_volt c.
Proof.
  assert (forall d, bat_real_volt (adjust_current_invalid (no_cv_stages (set_bat_charge_state BAT_CHG_STATE_FULL (keep_full_plug d)))) = bat_real_volt d) as H
    by reflexivity.
  unfold charge_full. rewrite H, notify_vol. reflexivity.
Qed.

Lemma charge_real_volt i v c : reg_ok c -> dc5v_debounce_state c = DC5V_STATE_IN -> bat_real_volt (bat_charge_state_charge i v c) = bat_real_volt c.
Proof.
  intros R D. rewrite state_charge_eq by exact D. destruct (restart_frame (now i) c) as (_ & _ & E3 & _ & E5 & _). cbv zeta. rewrite <- E5.
  assert (reg_ok (restart_from_err (now i) c)) as R1 by (unfold reg_ok; rewrite E3; exact R).
  revert R1. generalize (restart_from_err (now i) c) as d. intros d Rd.
  destruct (_ && _); [apply full_real_volt|]. destruct (_ <? _).
  - rewrite charge_round_eq. set (d1 := set_state_timer_count _ d). destruct (round_cv_spec i d1 Rd) as (_ & E2 & _).
    set (d2 := round_cv i d1) in *. clearbody d2. cbv zeta. change (vol d) with (vol d1). rewrite <- E2. split_ifs; reflexivity.
  - destruct (v <? 0); [reflexivity|]. unfold charge_measured. destruct (charge_near_full d); [apply full_real_volt|].
    destruct (state_start_spec (Charge_Current (configs d)) d) as (_ & _ & E6 & _). rewrite <- E6. split_ifs; [rewrite E6|..]; reflexivity.
Qed.

(** A work of the timer in the state charge with the plug in: it leaves the state, or keeps the phase. *)
Lemma charge_status_next i c : reg_ok c -> periods_ok (configs c) -> bat_charge_state c = BAT_CHG_STATE_CHARGE ->
  dc5v_debounce_state c = DC5V_STATE_IN -> restart_from_err_flag c = false -> 0 <= bat_real_volt c -> charge_phase c ->
  let c' := bat_charge_status_proc i c in charge_next (now i) c c' /\ 0 <= bat_real_volt c'.
Proof.
  intros R P S D F V Q. rewrite status_proc_eq, S. cbv zeta.
  assert (is_charging (bat_charge_state c) = true) as C by (rewrite S; reflexivity).
  destruct (measure_frame (now i) c) as (_ & M2 & _ & _ & M5 & M6 & M7).
  pose proof (measure_real_volt (now i) c V) as W.
  assert (charge_next (now i) c (bat_charge_state_charge i (fst (measure (now i) c)) (snd (measure (now i) c)))) as H.
  { unfold charge_phase in Q. destruct (need_check_bat_real_volt c) eqn:N.
    - destruct Q as [Q1 Q2]. destruct (decide (bat_volt_check_wait_count c = 1)) as [B|B].
      + pose proof (measure_due (now i) c N B C) as L.
        revert L M2 M5 M7. generalize (fst (measure (now i) c)) as v, (snd (measure (now i) c)) as c1. intros v c1 L M2 M5 M7.
        apply charge_due_next; try assumption; [lia|rewrite M2; reflexivity|..]; rewrite M7; reflexivity.
      + rewrite measure_wait by (auto; lia). cbn [fst snd]. apply charge_wait_next; try assumption. lia.
    - rewrite measure_idle by exact N. cbn [fst snd]. destruct Q as [Q1 Q2]. apply charge_proc_next; assumption. }
  unfold state_proc. set (c1 := snd (measure (now i) c)) in *.
  assert (bat_charge_state c1 = BAT_CHG_STATE_CHARGE) as -> by (rewrite M7; exact S).
  split; [apply charge_next_end, H|].
  assert (0 <= bat_real_volt (bat_charge_state_charge i (fst (measure (now i) c)) c1)) as G.
  { rewrite charge_real_volt; [exact W|unfold reg_ok; rewrite M6; exact R|rewrite M2; exact D]. }
  revert G. generalize (bat_charge_state_charge i (fst (measure (now i) c)) c1) as d. clear. intros d G.
  assert (0 <= bat_real_volt (enter_state BAT_CHG_STATE_CHARGE (now i) d)) as K by (unfold enter_state; split_ifs; exact G).
  destruct (check_enable_spec (enter_state BAT_CHG_STATE_CHARGE (now i) d)) as [->|(_ & _ & _ & -> & _)]; exact K.
Qed.

(** A context in the state charge between two works of the timer. *)
Definition in_charge (t : Z) (g : bat_charge_configs_t) (c : bat_charge_context_t) : Prop :=
  charger_inv c /\ timer c = true /\ bat_charge_state c = BAT_CHG_STATE_CHARGE /\ restart_from_err_flag c = false /\ 0 <= bat_real_volt c /\
  charge_phase c /\ charge_begin_time c = t /\ configs c = g.

Lemma timer_step_timer i c : timer c = true -> timer (step (Op_timer i) c) = true.
Proof. intros T. cbn [step]. rewrite T. reflexivity. Qed.

(** A work of the timer in the state charge. *)
Lemma charge_step t g i c : periods_ok g -> in_charge t g c -> dc5v_debounce_state (step (Op_timer i) c) = DC5V_STATE_IN ->
  bat_charge_state (step (Op_timer i) c) <> BAT_CHG_STATE_CHARGE \/
  in_charge t g (step (Op_timer i) c) /\ (time_over (now i) c = true -> charge_left (step (Op_timer i) c) < charge_left c).
Proof.
  intros P (I & T & S & F & V & Q & B & G) D. destruct (charger_step_inv (Op_timer i) c I) as [I' _]. pose proof (timer_step_timer i c T) as T'.
  assert (dc5v_debounce_state c = DC5V_STATE_IN) as D0 by (apply I; rewrite S; reflexivity).
  cbn [step] in *. rewrite T in *.
  destruct (plugged_handler i (set_timer false c) (ci_reg _ I) D0 D) as (d & E & Rd & Dd & H1 & _ & _ & H2 & _ & _ & H3).
  assert (charge_next (now i) d (bat_charge_status_proc i d) /\ 0 <= bat_real_volt (bat_charge_status_proc i d)) as [N W].
  { apply charge_status_next; unfold charge_phase, charge_period in *; rewrite ?H1, ?H2, ?H3; try assumption. subst g. exact P. }
  rewrite E in *. destruct N as [N|(N1 & N2 & N3 & N4 & N5)]; [left; exact N|].
  destruct (decide (bat_charge_state (bat_charge_status_proc i d) = BAT_CHG_STATE_CHARGE)) as [X|X]; [right|left; exact X].
  split; [refine (conj I' (conj T' (conj X (conj N3 (conj W (conj N1 (conj _ _)))))))|].
  - rewrite <- B. transitivity (charge_begin_time d); [exact N2|]. rewrite H1. reflexivity.
  - rewrite <- G. transitivity (configs d); [exact N4|exact H2].
  - unfold time_over, charge_left, charge_period in *. rewrite H1, H2 in N5. exact N5.
Qed.

Lemma charge_left_max c : periods_ok (configs c) -> charge_phase c ->
  charge_left c <= rounds (Charge_Check_Period_Sec (configs c)) + rounds (Charge_Full_Continue_Sec (configs c)) + 121.
Proof.
  unfold periods_ok, charge_phase, charge_left, charge_period. intros P Q.
  destruct (need_check_bat_real_volt c), (charge_near_full c); lia.
Qed.

Definition works (ts : list tick_in) : list op := Op_timer <$> ts.

(** Once the time is over charging ends. *)
Lemma charge_over_ends t g ts : forall c, periods_ok g -> in_charge t g c -> Charge_Total_Time_Limit g <> 0 ->
  (forall k, dc5v_debounce_state (run (take k (works ts)) c) = DC5V_STATE_IN) ->
  Forall (fun i => u32 (Charge_Total_Time_Limit g * 60 * 1000) < bat_get_diff_time (now i) t) ts ->
  charge_left c <= Z.of_nat (length ts) -> exists k, (k <= length ts)%nat /\ bat_charge_state (run (take k (works ts)) c) <> BAT_CHG_STATE_CHARGE.
Proof.
  induction ts as [|i ts IH]; intros c P C L D W N.
  - pose proof C as (_ & _ & _ & _ & _ & Q & _ & G). subst g. pose proof (charge_left_pos c P Q). cbn [length] in N. lia.
  - apply Forall_cons in W as [W1 W2]. destruct (charge_step t g i c P C (D 1%nat)) as [X|[C' X]].
    + exists 1%nat. split; [cbn [length]; lia|]. exact X.
    + destruct (IH (step (Op_timer i) c) P C' L) as (k & K1 & K2); [intros k; exact (D (S k))|exact W2| |].
      * pose proof C as (_ & _ & _ & _ & _ & _ & B & G). enough (time_over (now i) c = true) as O by (specialize (X O); cbn [length] in N; lia).
        unfold time_over. rewrite G, B. apply andb_true_intro. split; [|apply Z.ltb_lt; exact W1]. apply Z.eqb_neq in L. rewrite L. reflexivity.
      * exists (S k). split; [cbn [length]; lia|exact K2].
Qed.

(** Works of the timer in the state charge: one leaves it, or it is still the same charging. *)
Lemma charge_goes_on t g ts : forall c, periods_ok g -> in_charge t g c ->
  (forall k, dc5v_debounce_state (run (take k (works ts)) c) = DC5V_STATE_IN) ->
  (exists k, (k <= length ts)%nat /\ bat_charge_state (run (take k (works ts)) c) <> BAT_CHG_STATE_CHARGE) \/ in_charge t g (run (works ts) c).
Proof.
  induction ts as [|i ts IH]; intros c P C D; [right; exact C|].
  destruct (charge_step t g i c P C (D 1%nat)) as [X|[C' _]]; [left; exists 1%nat; split; [cbn [length]; lia|exact X]|].
  destruct (IH (step (Op_timer i) c) P C') as [(k & K1 & K2)|H]; [intros k; exact (D (S k))| |right; exact H].
  left. exists (S k). split; [cbn [length]; lia|exact K2].
Qed.

Lemma enter_charge n c :
  enter_state BAT_CHG_STATE_NORMAL n (set_charge_near_full false (set_bat_charge_state BAT_CHG_STATE_CHARGE c)) =
  set_charge_begin_time n (set_state_timer_count 0 (set_charge_near_full false (set_bat_charge_state BAT_CHG_STATE_CHARGE c))).
Proof. reflexivity. Qed.

(** The first work of the timer in the state normal with the plug in. *)
Lemma normal_step i c : charger_inv c -> timer c = true -> bat_charge_state c = BAT_CHG_STATE_NORMAL -> dc5v_debounce_state c = DC5V_STATE_IN ->
  restart_from_err_flag c = false -> 0 <= bat_real_volt c -> periods_ok (configs c) ->
  dc5v_debounce_state (step (Op_timer i) c) = DC5V_STATE_IN -> in_charge (now i) (configs c) (step (Op_timer i) c).
Proof.
  intros I T S D0 F V P D. destruct (charger_step_inv (Op_timer i) c I) as [I' _]. pose proof (timer_step_timer i c T) as T'. cbn [step] in *. rewrite T in *.
  destruct (plugged_handler i (set_timer false c) (ci_reg _ I) D0 D) as (d & E & Rd & Dd & H1 & _ & _ & H2 & _ & _ & H3).
  rewrite E in *. clear E D.
  assert (bat_charge_state d = BAT_CHG_STATE_NORMAL /\ restart_from_err_flag d = false /\ 0 <= bat_real_volt d /\ configs d = configs c) as (Sd & Fd & Vd & Gd)
    by (rewrite H1, H2, H3; repeat split; assumption).
  clear H1 H2 H3.
  set (c1 := snd (measure (now i) d)). destruct (measure_frame (now i) d) as (_ & M2 & _ & _ & M5 & _ & M7). fold c1 in M2, M5, M7.
  pose proof (measure_real_volt (now i) d Vd) as V1. fold c1 in V1.
  assert (state_proc i (fst (measure (now i) d)) c1 = set_charge_near_full false (set_bat_charge_state BAT_CHG_STATE_CHARGE (bat_charge_state_start (Charge_Current (configs c1)) c1))) as E.
  { unfold state_proc, bat_charge_state_normal. rewrite M7, M2. chg. rewrite Sd, Dd. reflexivity. }
  destruct (state_start_spec (Charge_Current (configs c1)) c1) as (_ & _ & K1 & _ & K2 & _ & _ & _ & _ & _ & K3 & K4 & _ & _ & _ & _ & K5 & _).
  set (e := set_charge_begin_time (now i) (set_state_timer_count 0 (set_charge_near_full false (set_bat_charge_state BAT_CHG_STATE_CHARGE (bat_charge_state_start (Charge_Current (configs c1)) c1))))).
  assert (bat_charge_status_proc i d = bat_charge_check_enable e) as Z.
  { rewrite status_proc_eq. fold c1. rewrite E, Sd, enter_charge. reflexivity. }
  rewrite Z in *. clear Z E.
  assert (sta (bat_charge_check_enable e) = sta e /\ vol (bat_charge_check_enable e) = vol e /\ configs (bat_charge_check_enable e) = configs e) as (X1 & X2 & X3)
    by (destruct (check_enable_spec e) as [->|(_ & _ & _ & Y2 & Y1 & _ & Y3 & _)]; auto).
  assert (configs e = configs c) as X4 by (unfold e; chg; rewrite K2, M5; exact Gd).
  refine (conj I' (conj T' _)). clearbody c1. revert X1 X2 X3. generalize (bat_charge_check_enable e) as h. intros h X1 X2 X3. chg. rewrite X1, X2, X3. unfold charge_phase, charge_period. chg. rewrite X1, X3, X4. unfold e. chg.
  rewrite K1, K4, K5, M7. chg. repeat split; try assumption; [lia|]. left. apply P.
Qed.

(** C12: From the state normal with the plug in, charging starts with the first
    work of the timer; and when the plug stays in, it ends at the latest as
    many works of the timer after the configured total time as the two periods
    and their measurements take, whatever the battery and the current do. *)
Theorem charging_ends i ts ts' c :
  charger_inv c -> timer c = true -> bat_charge_state c = BAT_CHG_STATE_NORMAL -> dc5v_debounce_state c = DC5V_STATE_IN ->
  restart_from_err_flag c = false -> 0 <= bat_real_volt c -> periods_ok (configs c) -> Charge_Total_Time_Limit (configs c) <> 0 ->
  (forall k, dc5v_debounce_state (run (take k (works (i :: ts ++ ts'))) c) = DC5V_STATE_IN) ->
  Forall (fun j => u32 (Charge_Total_Time_Limit (configs c) * 60 * 1000) < bat_get_diff_time (now j) (now i)) ts' ->
  rounds (Charge_Check_Period_Sec (configs c)) + rounds (Charge_Full_Continue_Sec (configs c)) + 121 <= Z.of_nat (length ts') ->
  bat_charge_state (step (Op_timer i) c) = BAT_CHG_STATE_CHARGE /\
  exists k, (k <= length (ts ++ ts'))%nat /\ bat_charge_state (run (take k (works (ts ++ ts'))) (step (Op_timer i) c)) <> BAT_CHG_STATE_CHARGE.
Proof.
  intros I T St D0 F V P L D W N. pose proof (normal_step i c I T St D0 F V P (D 1%nat)) as C. split; [apply C|].
  assert (forall k, dc5v_debounce_state (run (take k (works (ts ++ ts'))) (step (Op_timer i) c)) = DC5V_STATE_IN) as D' by (intros k; exact (D (S k))).
  unfold works in *. rewrite fmap_app in *. fold (works ts) (works ts') in *. set (g := configs c) in *. clearbody g. revert C D'. generalize (step (Op_timer i) c) as d. intros d C D'.
  destruct (charge_goes_on (now i) g ts d P C) as [(k & K1 & K2)|C2].
  - intros k. destruct (decide (k <= length (works ts))%nat) as [H|H].
    + rewrite <- (take_app_le (works ts) (works ts')) by exact H. apply D'.
    + rewrite take_ge by lia. rewrite <- (take_app_length (works ts) (works ts')). apply D'.
  - exists k. split; [rewrite length_app; lia|]. rewrite take_app_le by (unfold works; rewrite length_fmap; lia). exact K2.
  - pose proof C2 as (_ & _ & _ & _ & _ & Q & _ & G). subst g. pose proof (charge_left_max _ P Q) as M.
    destruct (charge_over_ends (now i) (configs (run (works ts) d)) ts' (run (works ts) d) P C2 L) as (k & K1 & K2).
    + intros k. rewrite <- run_app. rewrite <- (take_app_add (works ts)). apply D'.
    + exact W.
    + lia.
    + exists (length (works ts) + k)%nat. split; [rewrite length_app; unfold works; rewrite length_fmap; lia|].
      rewrite take_app_add, run_app. exact K2.
Qed.

(** ** A run of the driver *)

(** BAT_CHARGE_CFG_DEFAULT but the charging current of 80 mA, no init charge
    and shorter periods: 1 s for the battery, 12 s for charging and 1 s when it
    is full. *)
Definition demo_configs : bat_charge_configs_t :=
  mk_configs (mk_cfg_charge 5 CHARGE_VOLTAGE_4_20_V CHARGE_STOP_BY_VOLTAGE 4160 3 NO 2 3000 4 3200 6 3400 YES 3300 1 6 YES 4110 YES 4260 240 1 12 1 300)
    [3100; 3400; 3600; 3650; 3700; 3750; 3800; 3900; 3980; 4050] (mk_cfg_low 3100 3400 3300) 0.

Definition demo_pmu (plug : bool) (v : Z) : pmu_in := mk_pmu (Some (if plug then 850 else 0)) (Some v) plug.

Definition demo_init (plug : bool) : option (boot_end * Z) := battery_acts_init (Some demo_configs) 0 None plug [800; 800; 800] (fun _ => mk_init [800; 800; 800] 800 true).

Definition demo_boot : bat_charge_context_t := match demo_init false with Some (Booted _ c, _) => c | _ => cleared 0 end.

(** The initialization, and works of the timer every 50 ms from [t] with the ADC at [v]. *)
Definition demo_start (v : Z) : op := Op_resume (mk_start 1000 true true None None (demo_pmu false v) (replicate 30 (Some v)) (demo_pmu false v)).
Definition demo_tick (plug : bool) (v t : Z) : tick_in := mk_tick t (Some v) (Some 30) (demo_pmu plug v) (demo_pmu plug v) (Some v).
Definition demo_ticks (plug : bool) (v t : Z) (n : nat) : list tick_in := (fun k => demo_tick plug v (t + 50 * Z.of_nat k)) <$> seq 0 n.

(** A context that does [P] after every prefix. *)
Fixpoint always (P : bat_charge_context_t -> bool) (ops : list op) (c : bat_charge_context_t) : bool :=
  P c && match ops with [] => true | o :: ops => always P ops (step o c) end.

Lemma always_take P ops : forall c k, always P ops c = true -> P (run (take k ops) c) = true.
Proof.
  induction ops as [|o ops IH]; intros c k; cbn [always]; intros [H1 H2]%andb_prop; destruct k; try exact H1. exact (IH _ k H2).
Qed.

(** The plug stays in. *)
Definition plugged (c : bat_charge_context_t) : bool := bool_decide (dc5v_debounce_state c = DC5V_STATE_IN).

Lemma plugged_always ops c : always plugged ops c = true -> forall k, dc5v_debounce_state (run (take k ops) c) = DC5V_STATE_IN.
Proof. intros H k. apply (always_take _ _ _ k) in H. unfold plugged in H. apply bool_decide_eq_true in H. exact H. Qed.

Lemma demo_inv ops : charger_inv (run ops demo_boot).
Proof.
  apply run_inv, at_boot_inv, (boot_at_boot (Some demo_configs) 0 None false [800; 800; 800] (fun _ => mk_init [800; 800; 800] 800 true) 0 _ 1). vm_compute. reflexivity.
Qed.

Definition demo_plugged (n : nat) : bat_charge_context_t :=
  run (Op_notify :: demo_start 800 :: works (demo_ticks true 800 2000 n) ++ [Op_enable_timer 3000]) demo_boot.

Lemma charger_off_when_not_charging_witness :
  let ops := works (demo_ticks true 800 2000 100 ++ demo_ticks false 800 7000 20) in
  let c := run (Op_notify :: demo_start 800 :: ops) demo_boot in
  charge_ctrl_enabled (demo_plugged 100) = true /\ bat_charge_state (demo_plugged 100) = BAT_CHG_STATE_CHARGE /\
  charge_ctrl_enabled c = false /\ Z.testbit (CHG_CTL_SVCC c) CHG_CTL_SVCC_CV_3V3 = true.
Proof.
  cbv zeta. assert (demo_init false = Some (Booted 0 demo_boot, 1)) as B by (vm_compute; reflexivity).
  set (s := mk_start 1000 true true None None (demo_pmu false 800) (replicate 30 (Some 800)) (demo_pmu false 800)).
  assert (charge_ctrl_enabled (run (Op_notify :: demo_start 800 :: works (demo_ticks true 800 2000 100 ++ demo_ticks false 800 7000 20)) demo_boot) = false) as E
    by (vm_compute; reflexivity).
  split; [vm_compute; reflexivity|]. split; [vm_compute; reflexivity|]. split; [exact E|].
  apply (proj2 (charger_off_when_not_charging (Some demo_configs) 0 None false [800; 800; 800] (fun _ => mk_init [800; 800; 800] 800 true) demo_boot 1 [Op_notify] B) s
    (works (demo_ticks true 800 2000 100 ++ demo_ticks false 800 7000 20))); [vm_compute; reflexivity|reflexivity|reflexivity|vm_compute; reflexivity|exact E].
Defined.

Lemma demo_plugged_inv n : charger_inv (demo_plugged n).
Proof. unfold demo_plugged. apply demo_inv. Qed.

Lemma overvoltage_stops_charging_witness :
  let c := run (works (demo_ticks true 800 20050 100)) (step (Op_timer (demo_tick true 920 20000)) (demo_plugged 220)) in
  bat_charge_state (demo_plugged 220) = BAT_CHG_STATE_CHARGE /\ charge_ctrl_enabled (demo_plugged 220) = true /\
  bat_charge_state c = BAT_CHG_STATE_INIT /\ charge_ctrl_enabled c = false /\ Z.testbit (CHG_CTL_SVCC c) CHG_CTL_SVCC_CV_3V3 = true.
Proof.
  cbv zeta. split; [vm_compute; reflexivity|]. split; [vm_compute; reflexivity|].
  refine (overvoltage_stops_charging (demo_tick true 920 20000) (demo_plugged 220) (works (demo_ticks true 800 20050 100)) (demo_plugged_inv 220) _ _ _ _ _ _ _).
  - vm_compute. reflexivity.
  - vm_compute. reflexivity.
  - vm_compute. reflexivity.
  - vm_compute. reflexivity.
  - unfold over_voltage_due. refine (bool_decide_unpack _ _). vm_compute. exact I.
  - apply plugged_always. vm_compute. reflexivity.
  - apply Forall_forall. intros o H. unfold works in H. apply list_elem_of_fmap in H as (j & -> & H). split; [reflexivity|].
    apply list_elem_of_fmap in H as (k & -> & H%elem_of_seq). cbn [demo_tick now]. unfold bat_get_diff_time. rewrite (proj2 (Z.leb_le _ _)) by lia.
    unfold BAT_ERR_STOP_RESTART_TIME_MS. lia.
Defined.

Lemma charging_ends_witness :
  let ts := demo_ticks true 800 3050 200 in
  let ts' := demo_ticks true 800 14500000 381 in
  bat_charge_state (step (Op_timer (demo_tick true 800 3000)) (demo_plugged 20)) = BAT_CHG_STATE_CHARGE /\
  exists k, (k <= length (ts ++ ts'))%nat /\
    bat_charge_state (run (take k (works (ts ++ ts'))) (step (Op_timer (demo_tick true 800 3000)) (demo_plugged 20))) <> BAT_CHG_STATE_CHARGE.
Proof.
  cbv zeta.
  refine (charging_ends (demo_tick true 800 3000) (demo_ticks true 800 3050 200) (demo_ticks true 800 14500000 381) (demo_plugged 20) (demo_plugged_inv 20)
    _ _ _ _ _ _ _ _ _ _).
  - vm_compute. reflexivity.
  - vm_compute. reflexivity.
  - vm_compute. reflexivity.
  - vm_compute. reflexivity.
  - vm_compute. discriminate.
  - unfold periods_ok. refine (bool_decide_unpack _ _). vm_compute. exact I.
  - vm_compute. discriminate.
  - apply plugged_always. vm_compute. reflexivity.
  - refine (bool_decide_unpack _ _). vm_compute. exact I.
  - vm_compute. discriminate.
Defined.
