(* ===== verification/ChargerVolt.v ===== *)
(** * Battery charger: the voltage, the plug and the start

    The voltage of the latest samples, the smoothing of the reported voltage,
    the debouncing of the plug and the end of the init charge. *)

From stdpp Require Import base list numbers option strings sorting.
From S2P Require Import Prelude Charger ChargerProof.
Open Scope Z_scope.

Implicit Types c d : bat_charge_context_t.

(** ** The voltage of the battery *)

Lemma lxor_back a b : Z.lxor b (Z.lxor a b) = a.
Proof. rewrite (Z.lxor_comm a b), <- Z.lxor_assoc, Z.lxor_nilpotent. reflexivity. Qed.

Lemma nth_insert_eq (l : list Z) k x : (k < length l)%nat -> nth k (<[k:=x]> l) 0 = x.
Proof. intros. rewrite nth_lookup, list_lookup_insert_eq by assumption. reflexivity. Qed.

Lemma nth_insert_ne (l : list Z) k j x : k <> j -> nth k (<[j:=x]> l) 0 = nth k l 0.
Proof. intros. rewrite !nth_lookup, list_lookup_insert_ne by congruence. reflexivity. Qed.

Lemma lookup_nth (l : list Z) k : (k < length l)%nat -> l !! k = Some (nth k l 0).
Proof. intros H. destruct (lookup_lt_is_Some_2 l k H) as [x E]. rewrite nth_lookup, E. reflexivity. Qed.

(** The three exclusive ors swap. *)
Lemma xor_swap_spec l m i : (m < length l)%nat -> (i < length l)%nat -> m <> i -> xor_swap l m i = <[m := nth i l 0]> (<[i := nth m l 0]> l).
Proof.
  intros Hm Hi N. unfold xor_swap. cbv zeta.
  rewrite (nth_insert_ne l i m) by congruence. rewrite (nth_insert_eq l m) by exact Hm.
  rewrite (nth_insert_ne _ m i) by congruence. rewrite (nth_insert_eq l m) by exact Hm.
  rewrite nth_insert_eq by (rewrite length_insert; exact Hi). rewrite !lxor_back.
  rewrite (list_insert_insert_ne _ i m) by congruence. rewrite list_insert_insert_eq. reflexivity.
Qed.

Lemma select_min_spec l n : forall j m, (m < j)%nat ->
  let r := select_min l n j m in
  (r = m \/ (j <= r < j + n)%nat) /\ nth r l 0 <= nth m l 0 /\ (forall q, (j <= q < j + n)%nat -> nth r l 0 <= nth q l 0).
Proof.
  induction n as [|n IH]; intros j m H; cbn [select_min]; cbv zeta; [split; [auto|split; [lia|intros; lia]]|].
  destruct (nth j l 0 <? nth m l 0) eqn:X; [destruct (IH (S j) j ltac:(lia)) as (A & B & D)|destruct (IH (S j) m ltac:(lia)) as (A & B & D)];
    (split; [lia|split; [lia|]]); intros q Q; (destruct (decide (q = j)) as [->|]; [lia|apply D; lia]).
Qed.

(** The part before [i] is sorted and not above the rest. *)
Definition sorted_to (len i : nat) (l : list Z) : Prop := forall p q, (p < i)%nat -> (p < q < len)%nat -> nth p l 0 <= nth q l 0.

Lemma swap_sorted len i m l : (i < len <= length l)%nat -> (i < m < len)%nat -> sorted_to len i l ->
  (forall q, (i <= q < len)%nat -> nth m l 0 <= nth q l 0) -> sorted_to len (S i) (<[m := nth i l 0]> (<[i := nth m l 0]> l)).
Proof.
  intros L M So H p q P Q.
  assert (forall k, nth k (<[m := nth i l 0]> (<[i := nth m l 0]> l)) 0 =
    if decide (k = m) then nth i l 0 else if decide (k = i) then nth m l 0 else nth k l 0) as E.
  { intros k. destruct (decide (k = m)) as [->|]; [apply nth_insert_eq; rewrite length_insert; lia|]. rewrite nth_insert_ne by assumption.
    destruct (decide (k = i)) as [->|]; [apply nth_insert_eq; lia|apply nth_insert_ne; assumption]. }
  rewrite !E. destruct (decide (p = i)) as [->|P'].
  - destruct (decide (i = m)) as [|_]; [lia|]. destruct (decide (q = m)); [apply H; lia|]. destruct (decide (q = i)); [lia|]. apply H. lia.
  - destruct (decide (p = m)); [lia|]. destruct (decide (q = m)); [apply So; lia|]. destruct (decide (q = i)); [apply So; lia|]. apply So; lia.
Qed.

(** The sort permutes the part before [len], and leaves the rest. *)
Lemma selectsort_spec len n : forall i l, (i + n < len)%nat -> (len <= length l)%nat -> sorted_to len i l ->
  let l' := selectsort len n i l in
  sorted_to len (i + n) l' /\ length l' = length l /\ take len l' ≡ₚ take len l /\ drop len l' = drop len l.
Proof.
  induction n as [|n IH]; intros i l I L So; cbn [selectsort]; cbv zeta; [rewrite Nat.add_0_r; auto|].
  destruct (select_min_spec l (len - S i) (S i) i ltac:(lia)) as (A & B & D). set (m := select_min _ _ _ _) in *. clearbody m.
  destruct (Nat.eqb m i) eqn:E; [apply Nat.eqb_eq in E; subst m|apply Nat.eqb_neq in E].
  - destruct (IH (S i) l) as (H1 & H2); [lia|exact L| |rewrite <- Nat.add_succ_comm; auto].
    intros p q P Q. destruct (decide (p = i)) as [->|]; [apply D; lia|apply So; lia].
  - rewrite xor_swap_spec by lia. set (l1 := <[m:=_]> _).
    assert (length l1 = length l) as L1 by (unfold l1; rewrite !length_insert; reflexivity).
    assert (sorted_to len (S i) l1) as S1.
    { apply swap_sorted; [lia|lia|exact So|]. intros q Q. destruct (decide (q = i)) as [->|]; [exact B|apply D; lia]. }
    destruct (IH (S i) l1) as (H1 & H2 & H3 & H4); [lia|lia|exact S1|]. rewrite <- Nat.add_succ_comm, H2, H3, H4, L1.
    split; [exact H1|]. split; [reflexivity|]. unfold l1. rewrite !take_insert_lt, !drop_insert_lt by lia. split; [|reflexivity].
    apply Permutation_insert_swap; rewrite lookup_take_lt by lia; apply lookup_nth; lia.
Qed.

Lemma sort_strongly l : (forall p q, (p < q < length l)%nat -> nth p l 0 <= nth q l 0) -> StronglySorted Z.le l.
Proof.
  induction l as [|x l IH]; intros H; constructor.
  - apply IH. intros p q Q. exact (H (S p) (S q) ltac:(cbn [length]; lia)).
  - apply Forall_lookup. intros k y E. pose proof (lookup_lt_Some _ _ _ E). specialize (H 0%nat (S k) ltac:(cbn [length]; lia)). cbn [nth] in H.
    rewrite nth_lookup, E in H. exact H.
Qed.

Lemma bat_volt_selectsort_spec l len : (0 < len <= length l)%nat ->
  StronglySorted Z.le (take len (bat_volt_selectsort l len)) /\ take len (bat_volt_selectsort l len) ≡ₚ take len l /\
  length (bat_volt_selectsort l len) = length l.
Proof.
  intros L. unfold bat_volt_selectsort. destruct (selectsort_spec len (len - 1) 0 l) as (H1 & H2 & H3 & _); [lia|lia|intros p q P; lia|].
  split; [|auto]. apply sort_strongly. intros p q Q. rewrite length_take in Q. rewrite !nth_lookup, !lookup_take_lt, <- !nth_lookup by lia. apply H1; lia.
Qed.

(** The latest [n] samples, the latest first. *)
Fixpoint newest (buf : list Z) (n : nat) (index : Z) : list Z :=
  match n with
  | O => []
  | S n => let index := if 0 <? index then index - 1 else BAT_ADC_SAMPLE_BUF_SIZE - 1 in nth_Z buf index :: newest buf n index
  end.

Lemma newest_length buf n : forall j, length (newest buf n j) = n.
Proof. induction n as [|n IH]; intros j; cbn [newest length]; cbv zeta; [reflexivity|]. rewrite IH. reflexivity. Qed.

Lemma recent_samples_spec buf n : forall j i tmp, (i + n <= length tmp)%nat ->
  recent_samples buf n j i tmp = take i tmp ++ newest buf n j ++ drop (i + n) tmp.
Proof.
  induction n as [|n IH]; intros j i tmp H; cbn [recent_samples newest]; cbv zeta; [rewrite Nat.add_0_r, app_nil_l, take_drop; reflexivity|].
  rewrite IH by (rewrite length_insert; lia). rewrite drop_insert_lt by lia. rewrite <- Nat.add_succ_comm.
  rewrite (take_S_r _ i (nth_Z buf (if 0 <? j then j - 1 else BAT_ADC_SAMPLE_BUF_SIZE - 1))) by (apply list_lookup_insert_eq; lia).
  rewrite take_insert_ge by lia. rewrite <- app_assoc. reflexivity.
Qed.

(** The samples are in a ring. *)
Definition ring_ok (c : bat_charge_context_t) : Prop := length (bat_adc_sample_buf c) = 30%nat /\ 0 <= bat_adc_sample_index c < 30.

Lemma newest_insert n : forall buf j k v, 0 <= j < 30 -> 0 <= k < 30 -> Z.of_nat n <= (j - 1 - k) mod 30 ->
  newest (<[Z.to_nat k := v]> buf) n j = newest buf n j.
Proof.
  induction n as [|n IH]; intros buf j k v J K N; cbn [newest]; cbv zeta; [reflexivity|].
  set (j' := if 0 <? j then j - 1 else BAT_ADC_SAMPLE_BUF_SIZE - 1).
  assert (0 <= j' < 30 /\ j' = (j - 1) mod 30) as [J' E].
  { subst j'. destruct (0 <? j) eqn:X; [rewrite Z.mod_small by lia; lia|]. replace j with 0 by lia. change (BAT_ADC_SAMPLE_BUF_SIZE - 1) with 29. split; [lia|reflexivity]. }
  assert ((j - 1 - k) mod 30 = (j' - k) mod 30) as F by (rewrite E, Zminus_mod_idemp_l; reflexivity).
  assert (j' <> k) as NE by (intros X; rewrite F, X, Z.sub_diag in N; change (0 mod 30) with 0 in N; lia).
  f_equal.
  - unfold nth_Z. apply nth_insert_ne. lia.
  - apply IH; [exact J'|exact K|]. rewrite F in N. Z.div_mod_to_equations. lia.
Qed.

Lemma put_newest n x c : ring_ok c -> (n <= 29)%nat -> 0 <= x < 2 ^ 16 ->
  let c' := bat_adc_sample_buf_put x c in
  ring_ok c' /\ newest (bat_adc_sample_buf c') (S n) (bat_adc_sample_index c') = x :: newest (bat_adc_sample_buf c) n (bat_adc_sample_index c).
Proof.
  intros [L J] N X. unfold bat_adc_sample_buf_put. cbv zeta. chg. set (j := bat_adc_sample_index c) in *. rewrite (u8_small (j + 1)) by lia. rewrite (u16_small x) by exact X.
  set (b := <[Z.to_nat j := x]> (bat_adc_sample_buf c)).
  assert (length b = 30%nat /\ nth_Z b j = x /\ newest b n j = newest (bat_adc_sample_buf c) n j) as (B1 & B2 & B3).
  { subst b. split; [rewrite length_insert; exact L|]. split; [apply nth_insert_eq; lia|]. apply newest_insert; [lia|lia|].
    replace ((j - 1 - j) mod 30) with 29 by (replace (j - 1 - j) with (- 1) by lia; reflexivity). lia. }
  change BAT_ADC_SAMPLE_BUF_SIZE with 30. destruct (30 <=? j + 1) eqn:E; unfold ring_ok; chg; cbn [newest]; change (BAT_ADC_SAMPLE_BUF_SIZE - 1) with 29.
  - assert (j = 29) as Ej by lia. change (0 <? 0) with false. cbv iota zeta. rewrite <- B3. rewrite Ej in B2 |- *. rewrite B2. split; [lia|reflexivity].
  - rewrite (proj2 (Z.ltb_lt 0 (j + 1))) by lia. cbv zeta. rewrite Z.add_simpl_r, B2, B3. split; [lia|reflexivity].
Qed.

Definition put_samples (xs : list Z) (c : bat_charge_context_t) : bat_charge_context_t := foldl (fun c x => bat_adc_sample_buf_put x c) c xs.

Lemma put_samples_newest c : forall xs n, ring_ok c -> Forall (fun x => 0 <= x < 2 ^ 16) xs -> (n <= 30)%nat -> (n <= length xs)%nat ->
  ring_ok (put_samples xs c) /\ newest (bat_adc_sample_buf (put_samples xs c)) n (bat_adc_sample_index (put_samples xs c)) = take n (reverse xs).
Proof.
  induction xs as [|x xs IH] using rev_ind; intros n R F N L.
  - cbn [length] in L. assert (n = 0%nat) as -> by lia. auto.
  - apply Forall_app in F as [F1 F2]. apply Forall_cons in F2 as [F2 _]. unfold put_samples. rewrite foldl_app. cbn [foldl].
    fold (put_samples xs c). rewrite length_app in L. cbn [length] in L. rewrite reverse_app. cbn [reverse rev_append app].
    destruct n as [|n].
    + destruct (IH 0%nat R F1 ltac:(lia) ltac:(lia)) as [R1 _]. split; [apply (put_newest 0 x _ R1); [lia|exact F2]|reflexivity].
    + destruct (IH n R F1 ltac:(lia) ltac:(lia)) as [R1 E1]. destruct (put_newest n x _ R1 ltac:(lia) F2) as [R2 E2].
      split; [exact R2|]. rewrite E2, E1. reflexivity.
Qed.

(** C39: get_battery_voltage_by_time gives the voltage of the sample at four
    fifths of the latest ones in ascending order: of the latest 10 samples for
    one second the eighth, of the latest 20 and 30 the 16th and the 24th; the
    selection sort with its exclusive ors sorts them. *)
Theorem voltage_of_latest_samples sec xs c :
  1 <= sec <= 3 -> ring_ok c -> Forall (fun x => 0 <= x < 2 ^ 16) xs -> 10 * sec <= Z.of_nat (length xs) ->
  exists s, StronglySorted Z.le s /\ s ≡ₚ take (Z.to_nat (10 * sec)) (reverse xs) /\
    get_battery_voltage_by_time sec (put_samples xs c) = bat_adc_get_voltage_mv (nth (Z.to_nat (8 * sec - 1)) s 0).
Proof.
  intros Hs R F L. destruct (put_samples_newest c xs (Z.to_nat (10 * sec)) R F) as [_ E]; [lia|lia|].
  set (c' := put_samples xs c) in *. clearbody c'. unfold get_battery_voltage_by_time. cbv zeta.
  replace (sec * 1000 / BAT_ADC_SAMPLE_INTERVAL_MS) with (10 * sec) by (unfold BAT_ADC_SAMPLE_INTERVAL_MS; Z.div_mod_to_equations; lia).
  rewrite recent_samples_spec by (rewrite length_replicate; change (Z.to_nat BAT_ADC_SAMPLE_BUF_SIZE) with 30%nat; lia).
  rewrite E. cbn [take app]. set (r := drop _ _). set (l := take (Z.to_nat (10 * sec)) (reverse xs) ++ r).
  assert (length (take (Z.to_nat (10 * sec)) (reverse xs)) = Z.to_nat (10 * sec)) as Ll by (rewrite length_take, length_reverse; lia).
  destruct (bat_volt_selectsort_spec l (Z.to_nat (10 * sec))) as (H1 & H2 & H3); [unfold l; rewrite length_app, Ll; lia|].
  exists (take (Z.to_nat (10 * sec)) (bat_volt_selectsort l (Z.to_nat (10 * sec)))). split; [exact H1|]. split.
  - rewrite H2. unfold l. rewrite take_app_le by lia. rewrite take_ge by lia. reflexivity.
  - f_equal. unfold nth_Z. replace (10 * sec * 4 / 5 - 1) with (8 * sec - 1) by (Z.div_mod_to_equations; lia).
    rewrite !nth_lookup, lookup_take_lt by lia. reflexivity.
Qed.

(** ** The smoothing of the voltage *)

(** The twelve voltages of the permillages 0, 100, ..., 1100. *)
Definition mark (c : bat_charge_context_t) (i : nat) : Z :=
  if (i <? 10)%nat then level_mv c i else if (i =? 10)%nat then Charge_Stop_Voltage (configs c) else charge_voltage_mv c.

Definition marks_ok (c : bat_charge_context_t) : Prop := forall i, (i <= 10)%nat -> mark c i < mark c (S i).

Lemma last_not_above_spec x f n :
  let r := last_not_above x f n in (r <= n)%nat /\ (f r <= x \/ r = 0%nat) /\ (forall k, (r < k <= n)%nat -> x < f k).
Proof.
  induction n as [|n IH]; cbn [last_not_above]; cbv zeta; [split; [lia|split; [auto|intros; lia]]|].
  destruct (f (S n) <=? x) eqn:E; [split; [lia|split; [lia|intros; lia]]|]. destruct IH as (H1 & H2 & H3). split; [lia|split; [exact H2|]].
  intros k K. destruct (decide (k = S n)) as [->|]; [lia|apply H3; lia].
Qed.

Lemma level_end_mark c i : (i <= 9)%nat -> level_end c i = mark c (S i).
Proof.
  intros H. unfold level_end, mark. destruct (decide (i = 9%nat)) as [->|]; [reflexivity|].
  rewrite (proj2 (Nat.ltb_lt i 9)) by lia. rewrite (proj2 (Nat.ltb_lt (S i) 10)) by lia. rewrite Nat.add_1_r. reflexivity.
Qed.

Lemma level_mark c i : (i <= 9)%nat -> level_mv c i = mark c i.
Proof. intros H. unfold mark. rewrite (proj2 (Nat.ltb_lt i 10)) by lia. reflexivity. Qed.

Lemma mark_lt c a b : marks_ok c -> (a < b <= 11)%nat -> mark c a < mark c b.
Proof.
  intros M. induction b as [|b IH]; intros H; [lia|]. pose proof (M b ltac:(lia)). destruct (decide (a = b)) as [->|]; [lia|]. specialize (IH ltac:(lia)). lia.
Qed.

Lemma level_of_between c mv i : marks_ok c -> (i <= 9)%nat -> mark c i <= mv < mark c (S i) -> level_of c mv = i.
Proof.
  intros M I [L U]. unfold level_of. destruct (last_not_above_spec mv (level_mv c) 9) as (R1 & R2 & R3). set (r := last_not_above _ _ _) in *. clearbody r.
  destruct (Nat.lt_trichotomy r i) as [Y|[Y|Y]]; [|exact Y|].
  - specialize (R3 i ltac:(lia)). rewrite level_mark in R3 by lia. lia.
  - destruct R2 as [R2|R2]; [|lia]. rewrite level_mark in R2 by lia. destruct (decide (r = S i)) as [->|]; [lia|].
    pose proof (mark_lt c (S i) r M ltac:(lia)). lia.
Qed.

(** The level of get_battery_permillage: its ends and its number. *)
Definition level_at (c : bat_charge_context_t) (mv : Z) : Z * Z * nat :=
  if Charge_Stop_Voltage (configs c) <=? mv then (Charge_Stop_Voltage (configs c), charge_voltage_mv c, 10%nat)
  else let i := level_of c mv in (level_mv c i, level_end c i, i).

Lemma level_at_between c mv i : marks_ok c -> (i <= 10)%nat -> mark c i <= mv < mark c (S i) -> level_at c mv = (mark c i, mark c (S i), i).
Proof.
  intros M I B. unfold level_at. change (Charge_Stop_Voltage (configs c)) with (mark c 10). destruct (mark c 10 <=? mv) eqn:X.
  - assert (i = 10%nat) as ->; [|reflexivity]. destruct (decide (i = 10%nat)) as [|N]; [assumption|].
    destruct (decide (S i = 10%nat)) as [Y|]; [rewrite Y in B; lia|]. pose proof (mark_lt c (S i) 10%nat M ltac:(lia)). lia.
  - assert (i <> 10%nat) as NE by (intros ->; lia). cbv zeta. rewrite (level_of_between c mv i) by (auto; lia).
    rewrite level_end_mark, level_mark by lia. reflexivity.
Qed.

(** The permillage between two marks, under the first and from the last on. *)
Lemma permillage_between c mv i : marks_ok c -> (i <= 10)%nat -> mark c i <= mv < mark c (S i) ->
  get_battery_permillage c mv = 100 * Z.of_nat i + 100 * (mv - mark c i) / (mark c (S i) - mark c i).
Proof.
  intros M I B. unfold get_battery_permillage. fold (level_at c mv). rewrite (level_at_between c mv i) by assumption.
  replace (mark c (S i) <? mv) with false by lia.
  replace (1000 * Z.of_nat i / CFG_MAX_BATTERY_LEVEL) with (100 * Z.of_nat i) by (unfold CFG_MAX_BATTERY_LEVEL; Z.div_mod_to_equations; lia).
  destruct (mark c i <? mv) eqn:Y; [replace (mv <=? mark c (S i)) with true by lia; reflexivity|].
  replace (mv - mark c i) with 0 by lia. cbn [andb]. rewrite Z.mul_0_r, Z.div_0_l by lia. lia.
Qed.

Lemma permillage_below c mv : marks_ok c -> mv < mark c 0 -> get_battery_permillage c mv = 0.
Proof.
  intros M B. unfold get_battery_permillage. change (Charge_Stop_Voltage (configs c)) with (mark c 10).
  pose proof (mark_lt c 0 10 M ltac:(lia)). replace (mark c 10 <=? mv) with false by lia. cbv zeta.
  assert (level_of c mv = 0%nat) as ->.
  { unfold level_of. destruct (last_not_above_spec mv (level_mv c) 9) as (R1 & R2 & _). set (r := last_not_above _ _ _) in *. clearbody r.
    destruct R2 as [R2|R2]; [|exact R2]. rewrite level_mark in R2 by lia. destruct (decide (r = 0%nat)) as [|N]; [assumption|]. pose proof (mark_lt c 0 r M ltac:(lia)). lia. }
  rewrite level_end_mark, level_mark by lia. pose proof (mark_lt c 0 1 M ltac:(lia)).
  replace (mark c 1 <? mv) with false by lia. replace (mark c 0 <? mv) with false by lia. reflexivity.
Qed.

Lemma permillage_above c mv : marks_ok c -> mark c 11 <= mv -> get_battery_permillage c mv = 1100.
Proof.
  intros M B. unfold get_battery_permillage. change (Charge_Stop_Voltage (configs c)) with (mark c 10). change (charge_voltage_mv c) with (mark c 11).
  pose proof (mark_lt c 10 11 M ltac:(lia)). replace (mark c 10 <=? mv) with true by lia.
  assert ((if mark c 11 <? mv then mark c 11 else mv) = mark c 11) as ->.
  { destruct (mark c 11 <? mv) eqn:X; [reflexivity|]. apply Z.ltb_ge in X. clear - X B. lia. }
  replace (mark c 10 <? mark c 11) with true by lia. rewrite Z.leb_refl. cbn [andb]. rewrite (Z.div_mul 100) by lia. reflexivity.
Qed.

Lemma place_of c mv : marks_ok c -> mv < mark c 0 \/ mark c 11 <= mv \/ exists i, (i <= 10)%nat /\ mark c i <= mv < mark c (S i).
Proof.
  intros M. destruct (last_not_above_spec mv (mark c) 11) as (R1 & R2 & R3). set (r := last_not_above _ _ _) in *. clearbody r.
  destruct (decide (mark c r <= mv)) as [L|L]; [|destruct R2 as [R2|R2]; [lia|subst r; left; lia]].
  destruct (decide (r = 11%nat)) as [->|]; [auto|]. right. right. exists r. split; [lia|]. split; [exact L|apply R3; lia].
Qed.

Lemma permillage_range c mv i : marks_ok c -> (i <= 10)%nat -> mark c i <= mv < mark c (S i) ->
  100 * Z.of_nat i <= get_battery_permillage c mv < 100 * Z.of_nat i + 100.
Proof.
  intros M I B. rewrite (permillage_between c mv i) by assumption. pose proof (mark_lt c i (S i) M ltac:(lia)).
  assert (0 <= 100 * (mv - mark c i) / (mark c (S i) - mark c i) < 100); [|lia].
  split; [apply Z.div_pos; lia|apply Z.div_lt_upper_bound; nia].
Qed.

Lemma permillage_mono c x y : marks_ok c -> x <= y -> get_battery_permillage c x <= get_battery_permillage c y.
Proof.
  intros M L.
  destruct (place_of c x M) as [X|[X|(i & I & X)]], (place_of c y M) as [Y|[Y|(j & J & Y)]]; try lia;
    try (pose proof (mark_lt c 0 11 M ltac:(lia)));
    rewrite ?(permillage_below c x), ?(permillage_above c x), ?(permillage_below c y), ?(permillage_above c y) by assumption; try lia;
    try (pose proof (permillage_range c x i M I X)); try (pose proof (permillage_range c y j M J Y)); try lia.
  - destruct (decide (S j = 11%nat)) as [E|]; [rewrite E in Y; lia|]. pose proof (mark_lt c (S j) 11 M ltac:(lia)). lia.
  - destruct (decide (i = 0%nat)) as [->|]; [lia|]. pose proof (mark_lt c 0 i M ltac:(lia)). lia.
  - destruct (Nat.lt_trichotomy i j) as [E|[E|E]]; [lia| |].
    + subst j. rewrite (permillage_between c x i), (permillage_between c y i) by assumption. pose proof (mark_lt c i (S i) M ltac:(lia)).
      apply Z.add_le_mono_l, Z.div_le_mono; lia.
    + destruct (decide (S j = i)) as [<-|]; [lia|]. pose proof (mark_lt c (S j) i M ltac:(lia)). lia.
Qed.

Lemma permillage_nonneg c x : marks_ok c -> 0 <= get_battery_permillage c x.
Proof.
  intros M. destruct (place_of c x M) as [X|[X|(i & I & X)]]; [rewrite permillage_below by assumption; lia|rewrite permillage_above by assumption; lia|].
  pose proof (permillage_range c x i M I X). lia.
Qed.

(** The voltage of a permillage: between two marks, and from the last on. *)
Lemma to_mv_between c q : marks_ok c -> 0 <= q < 1100 -> let i := Z.to_nat (q / 100) in
  (i <= 10)%nat /\ bat_permillage_to_mv c q = mark c i + (mark c (S i) - mark c i) * (q mod 100) / 100.
Proof.
  intros M Q i. assert (0 <= q / 100 <= 10) as B by (Z.div_mod_to_equations; lia). split; [lia|]. unfold bat_permillage_to_mv.
  replace (q <? 0) with false by lia. replace (11 <=? q / 100) with false by lia. cbv zeta.
  pose proof (mark_lt c i (S i) M ltac:(lia)).
  destruct (q / 100 =? 10) eqn:X; [|fold i; rewrite level_mark, level_end_mark by lia; replace (mark c i <? mark c (S i)) with true by lia; reflexivity].
  assert (i = 10%nat) as E by lia. rewrite E in *. change (Charge_Stop_Voltage (configs c)) with (mark c 10). change (charge_voltage_mv c) with (mark c 11).
  replace (mark c 10 <? mark c 11) with true by lia. reflexivity.
Qed.

Lemma to_mv_last c q : 1100 <= q -> bat_permillage_to_mv c q = mark c 11.
Proof.
  intros Q. unfold bat_permillage_to_mv. replace (q <? 0) with false by lia. replace (11 <=? q / 100) with true by (Z.div_mod_to_equations; lia). reflexivity.
Qed.

(** How much a permillage loses on the way to a voltage and back: at most
    [res] where one millivolt is at most [res] of it. *)
Definition resolution (c : bat_charge_context_t) (res : Z) : Prop := 0 <= res /\ forall i, (i <= 10)%nat -> 100 <= res * (mark c (S i) - mark c i).

Lemma permillage_to_mv c res q : marks_ok c -> resolution c res -> 0 <= q <= 1100 ->
  q - res <= get_battery_permillage c (bat_permillage_to_mv c q) <= q.
Proof.
  intros M [R0 R] Q. destruct (decide (q = 1100)) as [->|N].
  - rewrite to_mv_last by lia. rewrite permillage_above by (exact M || lia). lia.
  - destruct (to_mv_between c q M ltac:(lia)) as [I ->]. set (i := Z.to_nat (q / 100)) in *.
    pose proof (mark_lt c i (S i) M ltac:(lia)) as D. specialize (R i I). set (d := mark c (S i) - mark c i) in *.
    assert (0 <= q mod 100 < 100) as B by (apply Z.mod_pos_bound; lia).
    assert (0 <= d * (q mod 100) / 100 < d) as F by (split; [apply Z.div_pos; nia|apply Z.div_lt_upper_bound; nia]).
    rewrite (permillage_between c _ i) by (auto; lia). fold d. rewrite Z.add_simpl_l.
    assert (q = 100 * Z.of_nat i + q mod 100) as E by (unfold i; rewrite Z2Nat.id by (apply Z.div_pos; lia); Z.div_mod_to_equations; lia).
    set (r := q mod 100) in *. set (x := d * r / 100) in *.
    assert (100 * x <= d * r < 100 * x + 100) as [U L] by (unfold x; Z.div_mod_to_equations; lia).
    clearbody x r. assert (r - res <= 100 * x / d <= r); [|lia].
    split; [apply Z.div_le_lower_bound; nia|apply Z.div_le_upper_bound; nia].
Qed.

Lemma permillage_to_mv_le c q : marks_ok c -> 0 <= q -> get_battery_permillage c (bat_permillage_to_mv c q) <= q.
Proof.
  intros M Q. destruct (decide (q <= 1100)).
  - apply (permillage_to_mv c 100); [exact M| |lia]. split; [lia|]. intros i I. specialize (M i I). lia.
  - rewrite to_mv_last by lia. rewrite permillage_above by (exact M || lia). lia.
Qed.

Lemma smooth_charge_spec e v c : marks_ok c ->
  let r := smooth_charge e v c in
  bat_real_volt c <= r <= Z.max (bat_real_volt c) v /\
  (0 < e < 3600 -> get_battery_permillage c r <= get_battery_permillage c (bat_real_volt c) + e * 20 / 60).
Proof.
  intros M. unfold smooth_charge. cbv zeta. change (BAT_REAL_VOLTAGE_SMOOTH_IN_CHARGE * 10) with 20.
  set (p := get_battery_permillage c (bat_real_volt c)). pose proof (permillage_nonneg c (bat_real_volt c) M) as P. fold p in P.
  set (lim := bat_permillage_to_mv c (p + e * 20 / 60)).
  split; [repeat case_match; lia|]. intros E. assert (0 <= e * 20 / 60) by (apply Z.div_pos; lia).
  assert (get_battery_permillage c lim <= p + e * 20 / 60) as L by (apply permillage_to_mv_le; [exact M|lia]).
  replace ((0 <? e) && (e <? 3600)) with true by lia.
  destruct (_ <? bat_real_volt c); [fold p; lia|]. etransitivity; [|exact L]. apply permillage_mono; [exact M|]. destruct (lim <? v) eqn:X; lia.
Qed.

Lemma smooth_discharge_range e v c : let r := smooth_discharge e v c in Z.min (bat_real_volt c) v <= r <= bat_real_volt c.
Proof. unfold smooth_discharge. cbv zeta. repeat case_match; lia. Qed.

Lemma smooth_discharge_spec e v c res : marks_ok c -> resolution c res ->
  let r := smooth_discharge e v c in
  Z.min (bat_real_volt c) v <= r <= bat_real_volt c /\
  (0 < e < 3600 -> get_battery_permillage c (bat_real_volt c) - e * 30 / 60 - res <= get_battery_permillage c r).
Proof.
  intros M R. unfold smooth_discharge. cbv zeta. change (BAT_REAL_VOLTAGE_SMOOTH_IN_DISCHARGE * 10) with 30.
  set (p := get_battery_permillage c (bat_real_volt c)). pose proof (permillage_nonneg c (bat_real_volt c) M) as P. fold p in P.
  assert (p <= 1100) as P2.
  { unfold p. destruct (place_of c (bat_real_volt c) M) as [X|[X|(i & I & X)]]; [rewrite permillage_below by assumption; lia|rewrite permillage_above by assumption; lia|].
    pose proof (permillage_range c _ i M I X). lia. }
  set (lim := bat_permillage_to_mv c (p - e * 30 / 60)).
  split; [repeat case_match; lia|]. intros E. assert (0 <= e * 30 / 60) by (apply Z.div_pos; lia). destruct R as [R0 R].
  replace ((0 <? e) && (e <? 3600)) with true by lia. cbn [andb].
  destruct (bat_real_volt c <? _); [fold p; lia|]. destruct (e * 30 / 60 <=? p) eqn:Y.
  - etransitivity; [|apply (permillage_mono c lim); [exact M|destruct (v <? lim) eqn:X; lia]].
    apply (permillage_to_mv c res); [exact M|split; assumption|lia].
  - pose proof (permillage_nonneg c v M). lia.
Qed.

Lemma check_voltage_low_real v c : bat_real_volt (bat_check_voltage_low v c) = bat_real_volt c.
Proof. unfold bat_check_voltage_low, notify. cbv zeta. repeat case_match; chg; reflexivity. Qed.

(** The outcome of bat_check_voltage_change outside of the state init. *)
Lemma check_change_eq now v c : bat_charge_state c <> BAT_CHG_STATE_INIT ->
  let e := if negb (last_time_check_bat_volt c =? 0) then bat_get_diff_time now (last_time_check_bat_volt c) / 1000 else 0 in
  let r := if is_charging (bat_charge_state c) then smooth_charge e v c else smooth_discharge e v c in
  (bat_check_voltage_change now v c).1 = r /\ bat_real_volt (bat_check_voltage_change now v c).2 = u16 r.
Proof.
  intros NI. unfold bat_check_voltage_change. rewrite bool_decide_eq_false_2 by exact NI. cbn [andb]. cbv zeta.
  set (r := if is_charging _ then _ else _). cbn [fst snd]. split; [reflexivity|].
  case_bool_decide; rewrite ?check_voltage_low_real; chg; reflexivity.
Qed.

(** C25: bat_check_voltage_change keeps the reported voltage from jumping,
    outside of the state init, when the voltages of the levels, the stop voltage
    and the charge voltage are in ascending order.  While charging it never falls and rises at most to
    the measured one, and when less than an hour has passed since the last check
    the permillage rises by at most two per cent a minute; otherwise it never
    rises and never falls below the measured one.  (How fast it falls then is in
    [discharge_rate].) *)
Theorem voltage_smoothed now v c :
  marks_ok c -> bat_charge_state c <> BAT_CHG_STATE_INIT -> 0 <= bat_real_volt c < 2 ^ 16 -> 0 <= v < 2 ^ 16 ->
  let e := if negb (last_time_check_bat_volt c =? 0) then bat_get_diff_time now (last_time_check_bat_volt c) / 1000 else 0 in
  let p := get_battery_permillage c (bat_real_volt c) in
  let r := (bat_check_voltage_change now v c).1 in
  bat_real_volt (bat_check_voltage_change now v c).2 = r /\
  if is_charging (bat_charge_state c)
  then bat_real_volt c <= r <= Z.max (bat_real_volt c) v /\ (0 < e < 3600 -> get_battery_permillage c r <= p + e * 20 / 60)
  else Z.min (bat_real_volt c) v <= r <= bat_real_volt c.
Proof.
  intros M NI B V e p. destruct (check_change_eq now v c NI) as [E1 E2]. fold e in E1, E2. cbv zeta in *. rewrite E1, E2. clear E1 E2.
  pose proof (smooth_charge_spec e v c M) as S1. pose proof (smooth_discharge_range e v c) as S2. cbv zeta in S1, S2. fold p in S1.
  destruct (is_charging _); (split; [apply u16_small; lia|assumption]).
Qed.

(** The rate at which the reported permillage falls: three per cent a minute
    (and the rounding to a millivolt), where the comment of the code says one. *)
Lemma discharge_rate now v c res :
  marks_ok c -> resolution c res -> bat_charge_state c <> BAT_CHG_STATE_INIT -> is_charging (bat_charge_state c) = false ->
  let e := if negb (last_time_check_bat_volt c =? 0) then bat_get_diff_time now (last_time_check_bat_volt c) / 1000 else 0 in
  0 < e < 3600 -> get_battery_permillage c (bat_real_volt c) - e * 30 / 60 - res <= get_battery_permillage c (bat_check_voltage_change now v c).1.
Proof.
  intros M R NI C e He. destruct (check_change_eq now v c NI) as [E1 _]. fold e in E1. cbv zeta in E1. rewrite E1, C.
  apply (proj2 (smooth_discharge_spec e v c res M R)), He.
Qed.

(** ** The plug *)

Lemma debounce_loop_spec n v : forall i buf r, (i + n <= length buf)%nat ->
  debounce_loop (i + n) v n i buf r =
    (r && forallb (fun x => bool_decide (x = v)) (take n (drop i buf)),
     take i buf ++ (match n with O => [] | S m => take m (drop (S i) buf) ++ [v] end) ++ drop (i + n) buf).
Proof.
  induction n as [|n IH]; intros i buf r L; cbn [debounce_loop].
  - rewrite Nat.add_0_r, andb_true_r, app_nil_l, take_drop. reflexivity.
  - cbv zeta. set (x := nth i buf DC5V_STATE_INVALID). assert (buf !! i = Some x) as X.
    { destruct (lookup_lt_is_Some_2 buf i ltac:(lia)) as [y E]. unfold x. rewrite nth_lookup, E. reflexivity. }
    rewrite <- Nat.add_succ_comm. set (b := if (i <? _)%nat then _ else _).
    set (w := if (i <? S i + n - 1)%nat then nth (i + 1) buf DC5V_STATE_INVALID else v).
    assert (b = <[i := w]> buf) as -> by (unfold b, w; destruct (i <? _)%nat; reflexivity).
    rewrite IH by (rewrite length_insert; lia). rewrite !drop_insert_lt, (drop_S buf x i X) by lia. cbn [take forallb]. f_equal.
    + case_bool_decide; [rewrite andb_true_l; reflexivity|rewrite !andb_false_l, ?andb_false_r; reflexivity].
    + rewrite (take_S_r _ i w) by (apply list_lookup_insert_eq; lia). rewrite take_insert_ge by lia. rewrite <- !app_assoc. f_equal.
      destruct n as [|n]; unfold w.
      * replace (i <? S i + 0 - 1)%nat with false by (symmetry; apply Nat.ltb_ge; lia). reflexivity.
      * replace (i <? S i + S n - 1)%nat with true by (symmetry; apply Nat.ltb_lt; lia).
        destruct (lookup_lt_is_Some_2 buf (S i) ltac:(lia)) as [y Y]. rewrite (drop_S buf y (S i) Y), Nat.add_1_r, nth_lookup, Y. cbn [take app from_option default]. rewrite <- app_assoc. reflexivity.
Qed.

(** bat_charge_debounce compares the value with the [n] before and keeps the
    last [n]. *)
Lemma debounce_spec n v buf : (n <= length buf)%nat ->
  bat_charge_debounce buf n v =
    (forallb (fun x => bool_decide (x = v)) (take n buf), match n with O => [] | S m => take m (drop 1 buf) ++ [v] end ++ drop n buf).
Proof. intros L. unfold bat_charge_debounce. exact (debounce_loop_spec n v 0 buf true L). Qed.

(** What get_dc5v_current_state makes of a reading. *)
Definition plug_of (r : pmu_in) (c : bat_charge_context_t) : dc5v_state_t := fst (get_dc5v_current_state r c).

Definition detect_all (rs : list pmu_in) (c : bat_charge_context_t) : bat_charge_context_t := foldl (fun c r => bat_charge_dc5v_detect r c) c rs.

(** The buffer is that of bat_charge_init and the debouncing time fits it. *)
Definition debounce_ok (c : bat_charge_context_t) : Prop :=
  (debounce_size c <= length (dc5v_debounce_buf c))%nat /\ dc5v_debounce_state c <> DC5V_STATE_PENDING.

Lemma plug_of_dev r c c' : adc_dev c' = adc_dev c -> plug_of r c' = plug_of r c.
Proof. intros H. unfold plug_of, get_dc5v_current_state, adc_get_sample. rewrite H. cbv zeta. repeat case_match; reflexivity. Qed.

Lemma plug_not_pending r c : plug_of r c <> DC5V_STATE_PENDING.
Proof. unfold plug_of, get_dc5v_current_state. cbv zeta. repeat case_match; discriminate. Qed.

(** One reading: the buffer, and the state when the buffer is of the same value. *)
Lemma detect_debounce r c : reg_ok c -> debounce_ok c ->
  let c' := bat_charge_dc5v_detect r c in
  let s := plug_of r c in
  reg_ok c' /\ debounce_ok c' /\ adc_dev c' = adc_dev c /\ debounce_size c' = debounce_size c /\
  dc5v_debounce_buf c' = (match debounce_size c with O => [] | S m => take m (drop 1 (dc5v_debounce_buf c)) ++ [s] end) ++ drop (debounce_size c) (dc5v_debounce_buf c) /\
  dc5v_debounce_state c' = if forallb (fun x => bool_decide (x = s)) (take (debounce_size c) (dc5v_debounce_buf c)) then s else dc5v_debounce_state c.
Proof.
  intros R [L N]. destruct (detect_spec r c R) as (R' & _ & G & _ & _ & S & _). cbv zeta. split; [exact R'|]. unfold debounce_ok, debounce_size. rewrite G.
  fold (debounce_size c). cut (adc_dev (bat_charge_dc5v_detect r c) = adc_dev c /\
    dc5v_debounce_buf (bat_charge_dc5v_detect r c) = (match debounce_size c with O => [] | S m => take m (drop 1 (dc5v_debounce_buf c)) ++ [plug_of r c] end) ++ drop (debounce_size c) (dc5v_debounce_buf c) /\
    dc5v_debounce_state (bat_charge_dc5v_detect r c) = if forallb (fun x => bool_decide (x = plug_of r c)) (take (debounce_size c) (dc5v_debounce_buf c)) then plug_of r c else dc5v_debounce_state c).
  { intros (A & -> & ->). split; [|auto]. split; [|destruct (forallb _ _); [apply plug_not_pending|exact N]].
    rewrite length_app, length_drop. destruct (debounce_size c); [lia|]. rewrite length_app, length_take, length_drop. cbn [length]. lia. }
  split; [chg; rewrite S; reflexivity|]. clear R' G S. unfold bat_charge_dc5v_detect.
  pose proof (dc5v_state_frame r c) as F. unfold plug_of in *. destruct (get_dc5v_current_state r c) as [s d]. cbn [fst snd] in *.
  destruct F as (F1 & F2 & F3 & F4 & F5 & F6 & F7 & F8 & F9 & F10 & F11 & F12). cbv zeta.
  assert (dc5v_debounce_buf d = dc5v_debounce_buf c /\ debounce_size d = debounce_size c) as [-> ->] by (unfold debounce_size; split; congruence).
  rewrite (bool_decide_eq_false_2 (dc5v_debounce_state d = DC5V_STATE_PENDING)) by (rewrite F9; exact N). rewrite debounce_spec by exact L.
  set (b := match debounce_size c with O => _ | S _ => _ end ++ _). destruct (forallb _ _); cbn [negb]; [|split; [reflexivity|exact F9]].
  chg. rewrite F9. case_bool_decide as B; [split; [reflexivity|rewrite <- B; exact F9]|].
  destruct (changed_spec (dc5v_debounce_state c) s (set_dc5v_debounce_state s (set_dc5v_debounce_buf b d))) as (_ & _ & _ & _ & _ & _ & _ & _ & K9 & K10 & _);
    [unfold reg_ok; chg; rewrite F2; exact R|]. rewrite K9, K10. split; reflexivity.
Qed.

Lemma detect_take r c : reg_ok c -> debounce_ok c ->
  take (debounce_size c) (dc5v_debounce_buf (bat_charge_dc5v_detect r c)) = drop 1 (take (debounce_size c) (dc5v_debounce_buf c) ++ [plug_of r c]).
Proof.
  intros R N. destruct (detect_debounce r c R N) as (_ & _ & _ & _ & B & _). cbv zeta in B. rewrite B. destruct N as [L _]. revert L.
  generalize (debounce_size c) (dc5v_debounce_buf c). intros [|m] [|x buf] L; cbn [length] in L; [reflexivity|reflexivity|lia|].
  cbn [skipn firstn app]. change (drop 0 buf) with buf.
  assert (length (take m buf ++ [plug_of r c]) = S m) as E by (rewrite length_app, length_take; cbn [length]; lia).
  rewrite take_app_le by lia. rewrite take_ge by lia. reflexivity.
Qed.

Lemma detect_all_buf rs c : reg_ok c -> debounce_ok c ->
  let c' := detect_all rs c in
  reg_ok c' /\ debounce_ok c' /\ adc_dev c' = adc_dev c /\ debounce_size c' = debounce_size c /\
  take (debounce_size c) (dc5v_debounce_buf c') = drop (length rs) (take (debounce_size c) (dc5v_debounce_buf c) ++ ((fun r => plug_of r c) <$> rs)).
Proof.
  intros R N. induction rs as [|r rs IH] using rev_ind; cbv zeta in *.
  - rewrite app_nil_r. cbn [length drop detect_all foldl]. auto.
  - unfold detect_all. rewrite foldl_app. cbn [foldl]. fold (detect_all rs c). destruct IH as (R1 & N1 & D1 & S1 & B1). set (d := detect_all rs c) in *. clearbody d.
    destruct (detect_debounce r d R1 N1) as (R2 & N2 & D2 & S2 & _). rewrite D2, S2, D1, S1. split; [exact R2|]. split; [exact N2|]. split; [reflexivity|]. split; [reflexivity|].
    rewrite <- S1 at 1. rewrite detect_take by assumption. rewrite S1, B1, (plug_of_dev r c d D1). rewrite fmap_app, (app_assoc (take _ _)), length_app. cbn [length].
    rewrite <- drop_drop. f_equal. symmetry. apply drop_app_le. rewrite length_app, length_fmap. lia.
Qed.

(** C26: bat_charge_dc5v_detect debounces the plug: over any readings, of which
    there are at least as many as the debouncing time has works of the timer,
    the state of the plug becomes what the next reading says exactly when that
    many readings before it say the same, and is else the one before. *)
Theorem dc5v_debounced rs r c :
  reg_ok c -> debounce_ok c -> (debounce_size c <= length rs)%nat ->
  dc5v_debounce_state (bat_charge_dc5v_detect r (detect_all rs c)) =
    if forallb (fun q => bool_decide (plug_of q c = plug_of r c)) (drop (length rs - debounce_size c) rs)
    then plug_of r c else dc5v_debounce_state (detect_all rs c).
Proof.
  intros R N L. destruct (detect_all_buf rs c R N) as (R1 & N1 & D1 & S1 & B1). cbv zeta in *. set (d := detect_all rs c) in *. clearbody d.
  destruct (detect_debounce r d R1 N1) as (_ & _ & _ & _ & _ & E). cbv zeta in E. rewrite E, S1, B1, (plug_of_dev r c d D1).
  rewrite drop_app_ge by (rewrite length_take; lia). rewrite length_take, Nat.min_l by apply N. rewrite <- fmap_drop.
  assert (forall l, forallb (fun x => bool_decide (x = plug_of r c)) ((fun q => plug_of q c) <$> l) = forallb (fun q => bool_decide (plug_of q c = plug_of r c)) l) as ->; [|reflexivity].
  induction l as [|x l IH]; [reflexivity|]. cbn [fmap list_fmap forallb]. rewrite <- IH. reflexivity.
Qed.

(** ** The init charge *)

(** The millivolts of a reading at the start. *)
Definition direct_mv (c : bat_charge_context_t) (r : Z) : Z := bat_adc_get_voltage_mv (bat_adc_get_sample_direct c r).

Lemma direct_mv_offset c c' r : adc_bat_offset c' = adc_bat_offset c -> direct_mv c' r = direct_mv c r.
Proof. intros E. unfold direct_mv, bat_adc_get_sample_direct. rewrite E. reflexivity. Qed.

Lemma boot_stage_spec rs ocv : forall c,
  let p := boot_stage_loop rs ocv c in
  configs p.2 = configs c /\ smp p.2 = smp c /\ 0 <= p.1.2 <= OCV_WAIT_MS /\ (p.1.1 = true -> p.2 = c /\ Forall (fun r => Init_Charge_Vol_3 (configs c) <= direct_mv c r) rs).
Proof.
  induction rs as [|r rs IH]; intros c; cbn [boot_stage_loop]; cbv zeta; [repeat split; (constructor || discriminate)|].
  destruct (_ <? 0); [repeat split; discriminate|]. destruct (_ <? _); [repeat split; discriminate|]. destruct (_ <? _); [repeat split; discriminate|].
  destruct (_ <? Init_Charge_Vol_3 (configs c)) eqn:E; [destruct (_ <=? _); repeat split; discriminate|]. destruct (IH c) as (H1 & H2 & H2' & H3).
  split; [exact H1|]. split; [exact H2|]. split; [exact H2'|]. intros T. destruct (H3 T) as [H4 H5]. split; [exact H4|]. constructor; [unfold direct_mv; lia|exact H5].
Qed.

Lemma init_stage_frame c : configs (init_stage_set c) = configs c /\ smp (init_stage_set c) = smp c.
Proof.
  unfold init_stage_set, bat_init_charge_set. cbv zeta. destruct (_ && _); [|auto].
  destruct (_ =? 1); [split; reflexivity|]. destruct (_ =? 2); [split; reflexivity|]. destruct (_ =? 3); split; reflexivity.
Qed.

Lemma init_charge_loop_ends f g fuel : forall k w t o c,
  configs c = g -> 0 <= t <= 3600000 -> 3600000 < t + 1000 * Z.of_nat fuel ->
  exists e ms, init_charge_loop fuel f k w t o c = Some (e, ms) /\ w <= ms <= w + 1200 * Z.of_nat fuel /\
    forall d, e = Booted 0 d -> dc5v_debounce_state d = DC5V_STATE_IN /\
      exists j, (k <= j < k + fuel)%nat /\ Forall (fun r => Init_Charge_Vol_3 g <= direct_mv d r) (take 3 (in_bat (f j))).
Proof.
  induction fuel as [|fuel IH]; intros k w t o c G T F; [lia|]. cbn [init_charge_loop]. unfold bat_boot_stage_check_voltage. cbv zeta.
  destruct (boot_stage_spec (take 3 (in_bat (f k))) (in_ocv (f k)) c) as (H1 & H2 & HW & H3). destruct (boot_stage_loop _ _ c) as [[ready m] c1]. cbn [fst snd] in *.
  change OCV_WAIT_MS with 200 in HW. destruct ready.
  - eexists _, _. split; [reflexivity|]. split; [lia|]. intros d [= <-]. split; [reflexivity|]. destruct (H3 eq_refl) as [-> Q]. exists k. split; [lia|]. subst g. exact Q.
  - clear H3. destruct (init_stage_frame c1) as [H3 _]. set (c2 := init_stage_set c1) in *. clearbody c2.
    change BAT_INIT_CHARGE_INTERVAL_MS with 1000. rewrite (u32_small (t + 1000)) by lia.
    destruct (3600000 <? t + 1000) eqn:X; [eexists _, _; split; [reflexivity|split; [lia|discriminate]]|].
    assert (forall o', exists e ms, init_charge_loop fuel f (S k) (w + m + 1000) (t + 1000) o' c2 = Some (e, ms) /\ w <= ms <= w + 1200 * Z.of_nat (S fuel) /\
      forall d, e = Booted 0 d -> dc5v_debounce_state d = DC5V_STATE_IN /\
        exists j, (k <= j < k + S fuel)%nat /\ Forall (fun r => Init_Charge_Vol_3 g <= direct_mv d r) (take 3 (in_bat (f j)))) as N.
    { intros o'. destruct (IH (S k) (w + m + 1000) (t + 1000) o' c2) as (e & ms & E & B & Q); [congruence|lia|lia|]. exists e, ms. split; [exact E|].
      split; [lia|]. intros d D. destruct (Q d D) as (D1 & j & J & D2). split; [exact D1|]. exists j. split; [lia|exact D2]. }
    destruct (negb _); [destruct (2 <=? _); [eexists _, _; split; [reflexivity|split; [lia|discriminate]]|]|]; apply N.
Qed.

(** C40: battery_acts_init ends, whatever the ADC and the plug give: the init
    charge has at most 3601 rounds, each of which waits one second and, when it
    measures the battery with the charger off, 200 ms more, so all waits of the
    function together take at most 4321201 ms.  When it comes up with a result of
    0, the state of the plug is the one at the start, and the voltage computed
    from the calibrated readings is enough for it: without the plug three readings
    of at least POWERON_MIN_VOL_WITHOUT_DC5V, after an init charge three of at
    least Init_Charge_Vol_3 in one round.  (The calibration of a reading below its
    negative offset wraps around to 16 bits, which this voltage includes.) *)
Theorem init_charge_ends config reg calib plug rs f :
  exists e ms, battery_acts_init config reg calib plug rs f = Some (e, ms) /\ 0 <= ms <= PMUADC_RESET_WAIT_MS + 3601 * (BAT_INIT_CHARGE_INTERVAL_MS + OCV_WAIT_MS) /\
    forall d, e = Booted 0 d -> exists g, config = Some g /\ dc5v_debounce_state d = (if plug then DC5V_STATE_IN else DC5V_STATE_OUT) /\
      if plug then Init_Charge_Enable g = YES -> exists k, (k <= 3600)%nat /\ Forall (fun r => Init_Charge_Vol_3 g <= direct_mv d r) (take 3 (in_bat (f k)))
      else Forall (fun r => POWERON_MIN_VOL_WITHOUT_DC5V <= direct_mv d r) (take 3 rs).
Proof.
  unfold battery_acts_init. cbv zeta. change (PMUADC_RESET_WAIT_MS + 3601 * (BAT_INIT_CHARGE_INTERVAL_MS + OCV_WAIT_MS)) with 4321201. change PMUADC_RESET_WAIT_MS with 1.
  destruct config as [g|]; [|eexists _, _; split; [reflexivity|split; [lia|discriminate]]].
  set (c := adc_cal_init _ _). assert (configs c = g) as G by reflexivity. clearbody c. destruct plug; cbn [negb].
  - destruct (Init_Charge_Enable g =? YES) eqn:E.
    + destruct (init_charge_loop_ends f g 3601 0 1 0 0 (set_init_charge_stage 0 (set_init_charge_stage_last 0 (bat_get_initcharge_current c)))) as (e & ms & E1 & B & E2); [exact G|lia|lia|].
      exists e, ms. split; [exact E1|]. split; [lia|]. intros d D. destruct (E2 d D) as (H1 & k & K & H2). exists g. split; [reflexivity|]. split; [exact H1|].
      intros _. exists k. split; [lia|exact H2].
    + eexists _, _. split; [reflexivity|]. split; [lia|]. intros d [= <-]. exists g. split; [reflexivity|]. split; [reflexivity|]. intros Y. lia.
  - unfold boot_without_dc5v. eexists _, _. split; [reflexivity|]. split; [lia|]. intros d.
    destruct (existsb _ _) eqn:X; [discriminate|]. intros [= <-]. exists g. split; [reflexivity|]. split; [reflexivity|].
    apply Forall_forall. intros r I. apply list_elem_of_In in I. change (POWERON_MIN_VOL_WITHOUT_DC5V <= direct_mv c r).
    destruct (POWERON_MIN_VOL_WITHOUT_DC5V <=? direct_mv c r) eqn:Y; [lia|]. exfalso. apply not_true_iff_false in X. apply X. apply existsb_exists.
    exists r. split; [exact I|]. unfold direct_mv in Y. lia.
Qed.

(** ** What a full battery leaves *)

Definition demo_full : bat_charge_context_t :=
  run (Op_notify :: demo_start 886 :: works (demo_ticks true 890 2000 30) ++ Op_enable_timer 3600 :: works (demo_ticks true 890 3600 1400)) demo_boot.

(** Unplugged, until the driver has measured the battery at 4050 mV, and plugged in again. *)
Definition demo_replugged : bat_charge_context_t := run (works (demo_ticks false 864 80000 2800 ++ demo_ticks true 864 220000 100)) demo_full.

(** A battery that was full and has fallen under the threshold since is
    charged again when the plug comes back, and no CHARGE_START follows: the flag
    charge_state_started is still that of the charging before. *)
Lemma replug_after_full_silent :
  bat_charge_state demo_full = BAT_CHG_STATE_FULL /\
  bat_charge_state demo_replugged = BAT_CHG_STATE_CHARGE /\ charge_ctrl_enabled demo_replugged = true /\
  head (events demo_replugged) = Some BAT_CHG_EVENT_DC5V_IN /\
  filter (fun e => e = BAT_CHG_EVENT_CHARGE_START \/ e = BAT_CHG_EVENT_CHARGE_STOP) (events demo_replugged) =
    [BAT_CHG_EVENT_CHARGE_STOP; BAT_CHG_EVENT_CHARGE_START].
Proof. vm_compute. repeat split. Qed.

(** ** Concrete inputs *)

Lemma voltage_of_latest_samples_witness :
  let xs := [805; 801; 807; 803; 809; 802; 806; 800; 804; 808] in
  get_battery_voltage_by_time 1 (put_samples xs (cleared 0)) = bat_adc_get_voltage_mv 807 /\
  exists s, StronglySorted Z.le s /\ s ≡ₚ take (Z.to_nat (10 * 1)) (reverse xs) /\
    get_battery_voltage_by_time 1 (put_samples xs (cleared 0)) = bat_adc_get_voltage_mv (nth (Z.to_nat (8 * 1 - 1)) s 0).
Proof.
  cbv zeta. split; [vm_compute; reflexivity|].
  refine (voltage_of_latest_samples 1 [805; 801; 807; 803; 809; 802; 806; 800; 804; 808] (cleared 0) _ _ _ _).
  - lia.
  - split; [reflexivity|]. change (0 <= 0 < 30). lia.
  - refine (bool_decide_unpack _ _). vm_compute. exact I.
  - vm_compute. discriminate.
Defined.

Lemma voltage_smoothed_witness :
  let c := demo_plugged 100 in
  is_charging (bat_charge_state c) = true /\ bat_real_volt c = 3750 /\ get_battery_permillage c 3750 = 500 /\
  let r := fst (bat_check_voltage_change (last_time_check_bat_volt c + 60000) 4000 c) in
  r = 3760 /\ bat_real_volt (snd (bat_check_voltage_change (last_time_check_bat_volt c + 60000) 4000 c)) = r.
Proof.
  cbv zeta. split; [vm_compute; reflexivity|]. split; [vm_compute; reflexivity|]. split; [vm_compute; reflexivity|]. split; [vm_compute; reflexivity|].
  assert (marks_ok (demo_plugged 100)) as M by (intros i L; do 11 (destruct i as [|i]; [vm_compute; reflexivity|]); lia).
  assert (bat_charge_state (demo_plugged 100) <> BAT_CHG_STATE_INIT) as S by (vm_compute; discriminate).
  assert (0 <= bat_real_volt (demo_plugged 100) < 2 ^ 16) as V by (refine (bool_decide_unpack _ _); vm_compute; exact I).
  pose proof (voltage_smoothed (last_time_check_bat_volt (demo_plugged 100) + 60000) 4000 (demo_plugged 100) M S V ltac:(lia)) as H.
  cbv zeta in H. destruct H as [H _]. exact H.
Defined.

Lemma dc5v_debounced_witness :
  let c := demo_plugged 100 in
  debounce_size c = 6%nat /\
  dc5v_debounce_state (bat_charge_dc5v_detect (demo_pmu false 800) (detect_all (replicate 5 (demo_pmu false 800)) c)) = DC5V_STATE_IN /\
  dc5v_debounce_state (bat_charge_dc5v_detect (demo_pmu false 800) (detect_all (replicate 6 (demo_pmu false 800)) c)) = DC5V_STATE_OUT.
Proof.
  cbv zeta. assert (reg_ok (demo_plugged 100)) as R by apply (ci_reg _ (demo_plugged_inv 100)).
  assert (debounce_ok (demo_plugged 100)) as O by (split; [refine (bool_decide_unpack _ _); vm_compute; exact I|vm_compute; discriminate]).
  split; [vm_compute; reflexivity|]. split; [vm_compute; reflexivity|].
  rewrite (dc5v_debounced (replicate 6 (demo_pmu false 800)) (demo_pmu false 800) (demo_plugged 100) R O); [vm_compute; reflexivity|].
  refine (bool_decide_unpack _ _). vm_compute. exact I.
Defined.
